(* ===== verification/_CoqProject ===== *)
-Q . S2P
Prelude.v
GoStrings.v
GoNum.v
GoNet.v
GoBase64.v
GoUtf8.v
GoJson.v
JsonBind.v
GoXml.v
GoTime.v
GoTimeJson.v
GoDuration.v
GoCrypto.v
Ui.v
Logging.v
StatePaths.v
Bech32.v
Keys.v
Directory.v
DnsName.v
IpAlloc.v
Validate.v
Wire.v
Toy.v
Nostr.v
NostrWire.v
Codec.v
Diff.v
Schema.v
Config.v
Relay.v
Peers.v
Manager.v
Observe.v
Discovery.v
StateJson.v
LanDiscovery.v
Hosts.v
DnsServe.v
DnsZone.v
DnsListener.v
DnsManager.v
Cache.v
Bootstrap.v
Drop.v
DropDns.v
DropDnsPut.v
ProviderJson.v
ProviderXml.v
Http.v
TxtRrset.v
SigV4.v
ZoneApi.v
TxtRecords.v
Providers.v
ProviderHttp.v
DropNostr.v
NostrRelays.v
Drops.v
Prog.v
Admin.v
Enroll.v
Join.v
Qr.v
Summaries.v
Daemon.v
DaemonLaws.v
Status.v
StatusReport.v
Wait.v
NetworkWatch.v
PidFile.v
UpDown.v
Root.v
Commands.v
