(* ===== verification/Prelude.v ===== *)
(** * Tincan: a verification library

    Tincan keeps a WireGuard overlay in agreement with a directory of nodes that an
    admin edits, seals and leaves on a dead drop, and that every node fetches,
    checks and applies.  This library models the Go packages under src/internal as
    executable functions and step relations, and proves what the parts promise.  Go
    strings are byte strings, machine integers are [Z] with their range and
    wrap-around written out, [(T, error)] is [result], a loop that is not structural
    runs on fuel with a theorem that the fuel is enough.

    ** The parts and their files

    - Go itself: GoStrings.v, GoNum.v (integers, strconv, time), GoNet.v (net/netip and
      net), GoBase64.v, GoUtf8.v (runes, quoted strings), GoTime.v (the calendar and the
      stamps of [Time.Format]), GoDuration.v ([ParseDuration] and its float64 rounding),
      GoCrypto.v (SHA-256, SHA-1, HMAC, hex), GoJson.v and JsonBind.v (encoding/json: the
      text of a value and its reading, then how a struct or a map is filled from one),
      GoTimeJson.v (a time in JSON, RFC 3339), GoXml.v (encoding/xml).  Case folding and space outside ASCII are the class
      [UnicodeTables].
    - Output: Ui.v (the printer and the tables of internal/cli), Logging.v (the logfmt
      handler of internal/logging), Qr.v (a QR matrix as half blocks) and Summaries.v
      (what the commands report, and the warning about a readable configuration).
    - The directory (internal/directory): Directory.v (the nodes, the rollback test, the
      relay target), DnsName.v, IpAlloc.v, Validate.v (the invariant of a directory),
      Wire.v and Codec.v (the sealed form), Diff.v.  Toy.v instantiates the external
      libraries the sealed form needs, so that the theorems apply to concrete data.
    - Keys: Keys.v (internal/keys), Bech32.v and Nostr.v (internal/nostr).
    - Configuration (internal/config): Schema.v, Config.v; Bootstrap.v is the file handed
      to a new node (internal/bootstrap).
    - State on disk: StatePaths.v (where the files of a state directory are), StateJson.v
      and Cache.v (internal/cache: its JSON files, then the operations), PidFile.v (internal/daemon), Hosts.v (internal/hosts).
    - Dead drops (internal/drop): Drop.v (file, HTTP and S3 objects), DropDns.v and
      DropDnsPut.v (TXT records), NostrWire.v (the frames of a relay), DropNostr.v and
      NostrRelays.v (nostr relays).  DropDnsPut.v states what
      it needs of a DNS provider as the class [TxtApi] with [TxtApiLaws]; the clients of
      internal/dnsprovider discharge it: Http.v, TxtRrset.v (deSEC, Route 53), ZoneApi.v
      and TxtRecords.v (Cloudflare, Hetzner, Linode, DigitalOcean, OVH) over the structs
      of ProviderJson.v and ProviderXml.v, Providers.v (the
      choice of one), ProviderHttp.v (their requests and what an answer means) and
      SigV4.v (the signature of a Route 53 request).  Drops.v opens the drop a
      configuration names.
    - The data plane: Relay.v (internal/relay, direct path or relay), Peers.v and
      Manager.v (internal/wg, the peers and the interface), Observe.v (internal/admin),
      Discovery.v and LanDiscovery.v (internal/discovery: the store and the beacons, then
      the goroutines that send and hear them).
    - Names: DnsServe.v, DnsZone.v, DnsListener.v (internal/dnsserve: an answer, the zone, the
      goroutines) and DnsManager.v.
    - The commands (internal/cli): Prog.v is the tree of effects a command is, read over
      a shared world; Admin.v, Enroll.v and Join.v are the commands and Commands.v what
      holds however they interleave.  Daemon.v, DaemonLaws.v, Wait.v and
      NetworkWatch.v are the daemon: a pass, what passes add up to, the loop with its
      wake source, and what makes a network change wake it.  UpDown.v is how it starts
      in a child and how [down] takes it and the interface away.  Root.v is [main].  Status.v and
      StatusReport.v are what [status] and [list] make of the cache and the kernel.

    A command reads the configuration, fetches and opens the directory through a drop
    (Codec), guards it with the cache's serial marks, edits it and publishes it.  The
    daemon syncs the same way, hands the directory to the relay controller, whose
    decision shapes the peers (Peers, Manager), lets an admin publish the endpoints it
    observes (Observe), and converges the DNS listener and the hosts block (DnsManager).

    ** What is shown

    - Trust: an accepted blob was signed by the publisher and is well formed
      ([Open_authentic]), what is sealed opens ([Open_Seal]); [Validate] decides the
      declarative invariant; no sequence of operations, crashes included, moves the
      serial marks back or lets the cache exceed them ([cache_rollback_guard]); a sync
      returns only what was opened or cached ([runSyncOnce_safe]).
    - Publishing: no two uploads carry one serial, whatever runs at the same time
      ([published_serials_unique]); the membership commands are instances of one edit
      transaction; an enrolled node can join.
    - Drops: chunks reassemble in any order, a publish through the DNS keeps what is not
      the program's and reads back, also through the clients of the providers; a nostr
      read returns the newest genuine event, and what one honest relay accepted, whatever
      the others do ([nostr_publish_read]); the drop a
      configuration names opens ([configured_drops_open]); the signature of a Route 53
      request covers what is sent ([request_signature]).
    - The data plane: the peers route every tunnel address to exactly one peer, a pass
      converges the kernel to the relay decision, the controller's invariant, and an
      endpoint the daemon itself wrote is never published as observed.
    - Names: the answers of the listener are those of the zone the directory describes,
      every query read has one place and after the close every goroutine ends
      ([dns_listener_accounts]); the hosts block is the only thing
      rewritten.
    - Processes: the pid file excludes a second daemon but for the overlap with a
      removal, its loops end; the daemon's waits are paced and end; the life of a daemon
      from start to stop ([daemon_lifecycle]), and [down] never takes the interface from
      a live one ([down_orderly]).
    - Output: [status] shows the routing the daemon decided ([status_shows_routing]); a
      log line reads back as what was logged ([log_line_read]); tables stay aligned; no
      summary prints a secret ([summaries_keep_secrets]); a printed QR code is the matrix
      it was made of ([qr_scannable]); the exit code is that of the error
      ([exit_codes]).
    - The LAN: peers that hear one exchange of beacons look each other up
      ([beacon_exchange]).
    - Files and frames: the bootstrap file reads back as it was written
      ([bootstrap_reads_back]), and so do the state a sync leaves and the LAN state of the
      daemon ([state_files_read], [discovery_file_read]), with their times
      ([parse_format_rfc3339]); a frame written to a relay is read as what was sent
      ([sent_event_EVENT], [readFrame_message]); a change request to Route 53 reads as
      the change it was made of ([r53_changes_read]); a configuration with unknown
      fields is refused with an error that names each one ([load_names_unknown]).
    - Codecs and allocation: bech32 round trip and error detection, the least free
      tunnel address, serials within uint64; a duration written by the program reads
      back ([ParseDuration_String], [OptionalDuration_reads_back]).

    ** Bounds and fuel

    [free_loop] (IpAlloc) runs on one step more than there are taken addresses: every
    step but the last meets a taken one.  [regroup_fuel] (Bech32) exceeds the bits an
    accumulator holds.  [digits_fuel] (GoNum) is the 20 digits of a uint64.  The loops
    of PidFile.v end by their deadline: [pid_loops_end] gives the number of polls.
    [list_pages] (ZoneApi) needs one step per page ([list_pages_all]).  The reader of
    JSON takes a byte of its text with every step ([read_fuel_enough]), and so does that
    of XML: what is written is read back with the fuel it gives itself
    ([read_written]).  The other recursions are structural.

    ** Parameters

    Cryptography (age, ed25519, curve25519, schnorr), the msgpack and TOML codecs, the
    DNS message codec, [url.Parse], the local time zone, the resolver, HTTP and S3
    clients, websockets, netlink and wgctrl are fields of classes, or arguments, with
    laws that state their documented behaviour; so are the tables of runes and names
    beyond ASCII ([UnicodeTables], [PrintTable], [XmlNames]) and the services of the DNS
    providers and the relays.  The theorems that use laws are applied to instances that
    satisfy them.

    ** Not modelled

    Flag parsing (kong), the QR library's encoding of a text, the netlink subscription,
    the text a printing verb puts into an error, and the test server of src/test: they
    have no state of their own or are calls of other packages.  What a
    socket, a terminal or a fork answers is an argument of the operation that asks. *)
From stdpp Require Import base tactics option list strings gmap.
From Stdlib Require Import ZArith Lia.

(** ** Go errors

    An [error] keeps what the program can observe of it: its identity when it
    is one of the package-level sentinels tested with [errors.Is], or the
    format string of the [errors.New]/[fmt.Errorf] call that built it with the
    errors its [%w] verbs wrap.  The text the other verbs interpolate is only
    ever printed and is not kept. *)
Inductive error : Type :=
  | Sentinel (name : string)
  | Errorf (format : string) (wrapped : list error).

(** [errors.New]: an error that wraps nothing. *)
Definition errors_New (msg : string) : error := Errorf msg [].

(** [errors.Is err target] for a sentinel [target]: walks the wrap tree. *)
Fixpoint errors_Is (e : error) (target : string) : bool :=
  match e with
  | Sentinel s => String.eqb s target
  | Errorf _ ws => existsb (fun w => errors_Is w target) ws
  end.

(** ** Results: Go's [(T, error)] returns *)
Inductive result (A : Type) : Type :=
  | Ok (a : A)
  | Err (e : error).
Arguments Ok {A} a.
Arguments Err {A} e.

#[export] Instance result_ret : MRet result := fun A a => Ok a.
#[export] Instance result_bind : MBind result := fun A B f m =>
  match m with Ok a => f a | Err e => Err e end.
#[export] Instance result_fmap : FMap result := fun A B f m =>
  match m with Ok a => Ok (f a) | Err e => Err e end.

(** [if err != nil { return wrap(err) }] *)
Definition wrap_err {A} (f : error -> error) (m : result A) : result A :=
  match m with Ok a => Ok a | Err e => Err (f e) end.

(** [if cond { return err }] followed by the rest of the function. *)
Definition guard_err {A} (bad : bool) (e : error) (k : result A) : result A :=
  if bad then Err e else k.

Definition is_ok {A} (m : result A) : bool :=
  match m with Ok _ => true | Err _ => false end.

Definition of_option {A} (e : error) (o : option A) : result A :=
  match o with Some a => Ok a | None => Err e end.

Lemma bind_Ok {A B} (m : result A) (f : A -> result B) b :
  mbind f m = Ok b <-> exists a, m = Ok a /\ f a = Ok b.
Proof. destruct m; unfold mbind; simpl; naive_solver. Qed.

Lemma wrap_err_Ok {A} f (m : result A) a : wrap_err f m = Ok a <-> m = Ok a.
Proof. destruct m; simpl; naive_solver. Qed.

Lemma guard_err_Ok {A} bad e (k : result A) a :
  guard_err bad e k = Ok a <-> bad = false /\ k = Ok a.
Proof. destruct bad; simpl; naive_solver. Qed.

Lemma of_option_Ok {A} e (o : option A) a : of_option e o = Ok a <-> o = Some a.
Proof. destruct o; simpl; naive_solver. Qed.

Lemma is_ok_Ok {A} (m : result A) : is_ok m = true <-> exists a, m = Ok a.
Proof. destruct m; simpl; naive_solver. Qed.

(** ** Automation *)

Create HintDb tincan discriminated.
#[export] Hint Constants Opaque : tincan.
#[export] Hint Variables Opaque : tincan.

(** Inverts every [_ = Ok _] hypothesis built from binds, guards and wraps. *)
Ltac inv_ok :=
  repeat match goal with
  | H : mbind _ _ = Ok _ |- _ => apply bind_Ok in H; destruct H as (? & ? & ?)
  | H : wrap_err _ _ = Ok _ |- _ => apply wrap_err_Ok in H
  | H : guard_err _ _ _ = Ok _ |- _ => apply guard_err_Ok in H; destruct H as [? ?]
  | H : of_option _ _ = Ok _ |- _ => apply of_option_Ok in H
  | H : Ok _ = Ok _ |- _ => injection H as H; subst
  | H : Err _ = Ok _ |- _ => discriminate H
  | H : mret _ = Ok _ |- _ => injection H as H; subst
  end.

(** Turns boolean (in)equalities in hypotheses and goal into propositions. *)
Ltac bool_solve :=
  repeat match goal with
  | H : andb _ _ = true |- _ => apply andb_true_iff in H; destruct H
  | H : orb _ _ = false |- _ => apply orb_false_iff in H; destruct H
  | H : negb _ = true |- _ => apply negb_true_iff in H
  | H : negb _ = false |- _ => apply negb_false_iff in H
  | H : bool_decide _ = true |- _ => apply bool_decide_eq_true in H
  | H : bool_decide _ = false |- _ => apply bool_decide_eq_false in H
  | H : String.eqb _ _ = true |- _ => apply String.eqb_eq in H
  | H : String.eqb _ _ = false |- _ => apply String.eqb_neq in H
  | H : Z.eqb _ _ = true |- _ => apply Z.eqb_eq in H
  | H : Z.eqb _ _ = false |- _ => apply Z.eqb_neq in H
  | H : Z.ltb _ _ = true |- _ => apply Z.ltb_lt in H
  | H : Z.ltb _ _ = false |- _ => apply Z.ltb_ge in H
  | H : Z.leb _ _ = true |- _ => apply Z.leb_le in H
  | H : Z.leb _ _ = false |- _ => apply Z.leb_gt in H
  end.

(** Case analysis on the first boolean test of the goal, keeping the equation. *)
Ltac case_if :=
  match goal with
  | |- context [if ?b then _ else _] => destruct b eqn:?
  | H : context [if ?b then _ else _] |- _ => destruct b eqn:?
  end.

(** ** Generic list lemmas *)

Lemma existsb_In_eqb (s : string) (l : list string) :
  existsb (String.eqb s) l = true <-> s ∈ l.
Proof.
  rewrite existsb_exists. setoid_rewrite String.eqb_eq.
  rewrite list_elem_of_In. naive_solver.
Qed.

Lemma NoDup_fmap_snoc {A B} (f : A -> B) (l : list A) x :
  NoDup (f <$> (l ++ [x])) <-> NoDup (f <$> l) /\ f x ∉ f <$> l.
Proof.
  rewrite fmap_app, NoDup_app. simpl.
  split.
  - intros (? & Hd & _). split; [done|]. intros Hin. apply (Hd _ Hin). set_solver.
  - intros [? ?]. split; [done|]. split; [set_solver|]. apply NoDup_singleton.
Qed.

(** With distinct images, an element is determined by its image. *)
Lemma NoDup_fmap_inj {A B} (f : A -> B) (l : list A) x y :
  NoDup (f <$> l) -> x ∈ l -> y ∈ l -> f x = f y -> x = y.
Proof.
  intros Hd [i Hi]%list_elem_of_lookup [j Hj]%list_elem_of_lookup E.
  assert (i = j) as ->; [|congruence].
  apply (NoDup_lookup _ i j (f x) Hd); rewrite list_lookup_fmap.
  - by rewrite Hi.
  - by rewrite Hj, E.
Qed.

(** stdpp keeps [String.append] from reducing; these are its equations. *)
Lemma string_app_nil (s : string) : "" +:+ s = s.
Proof. reflexivity. Qed.

Lemma string_app_cons c (s t : string) : String c s +:+ t = String c (s +:+ t).
Proof. reflexivity. Qed.

Lemma string_app_nil_r (s : string) : s +:+ "" = s.
Proof. induction s as [|c s IH]; [done|]. by rewrite string_app_cons, IH. Qed.

Lemma string_app_assoc (s t u : string) : s +:+ (t +:+ u) = (s +:+ t) +:+ u.
Proof. induction s as [|c s IH]; [done|]. by rewrite !string_app_cons, IH. Qed.

Lemma string_length_app (s t : string) :
  String.length (s +:+ t) = String.length s + String.length t.
Proof. induction s as [|c s IH]; [done|]. rewrite string_app_cons. simpl. by rewrite IH. Qed.

Create HintDb strs.
#[export] Hint Rewrite string_app_nil string_app_cons string_app_nil_r string_app_assoc
  string_length_app : strs.
