(* ===== verification/GoStrings.v ===== *)
(** * GoStrings: the part of Go's package strings (and bytes) the program uses

    A Go string is a sequence of bytes; it is modelled by [string], one [ascii]
    per byte.  Functions with an ASCII fast path are defined on that path as
    the library defines them; where the library falls back to the Unicode
    tables (a byte >= 0x80 is met) the result is a field of [UnicodeTables], so
    every theorem holds for whatever those tables say. *)
From stdpp Require Import base tactics option list strings gmap sorting.
From Stdlib Require Import Ascii ZArith Lia.
From S2P Require Import Prelude.
Open Scope Z_scope.

Class UnicodeTables := {
  uc_to_lower : string -> string;      (* strings.Map(unicode.ToLower, s) *)
  uc_to_upper : string -> string;      (* strings.Map(unicode.ToUpper, s) *)
  uc_equal_fold : string -> string -> bool;
  uc_trim_space : string -> string;    (* TrimFunc(s, unicode.IsSpace) *)
  uc_trim_right_space : string -> string;
  uc_fields : string -> list string }.   (* FieldsFunc(s, unicode.IsSpace) *)

(** The instance that treats every byte >= 0x80 as a letter without case. *)
Definition ascii_tables : UnicodeTables := {|
  uc_to_lower := fun s => s; uc_to_upper := fun s => s;
  uc_equal_fold := String.eqb;
  uc_trim_space := fun s => s; uc_trim_right_space := fun s => s;
  uc_fields := fun s => [s] |}.

(** ** Bytes *)

Definition code (c : ascii) : Z := Z.of_N (N_of_ascii c).
Definition chr (z : Z) : ascii := ascii_of_N (Z.to_N z).

Definition is_ascii (c : ascii) : bool := code c <? 128.
Definition is_upper (c : ascii) : bool := (65 <=? code c) && (code c <=? 90).
Definition is_lower (c : ascii) : bool := (97 <=? code c) && (code c <=? 122).
Definition is_digit (c : ascii) : bool := (48 <=? code c) && (code c <=? 57).
Definition to_lower_byte (c : ascii) : ascii := if is_upper c then chr (code c + 32) else c.
Definition to_upper_byte (c : ascii) : ascii := if is_lower c then chr (code c - 32) else c.

(** [asciiSpace]: tab, newline, vertical tab, form feed, return, space. *)
Definition is_space (c : ascii) : bool :=
  ((9 <=? code c) && (code c <=? 13)) || (code c =? 32).

Fixpoint string_forallb (p : ascii -> bool) (s : string) : bool :=
  match s with
  | EmptyString => true
  | String c s => p c && string_forallb p s
  end.

Fixpoint string_map (f : ascii -> ascii) (s : string) : string :=
  match s with
  | EmptyString => EmptyString
  | String c s => String (f c) (string_map f s)
  end.

Definition len (s : string) : Z := Z.of_nat (String.length s).

Fixpoint string_take (n : nat) (s : string) : string :=
  match n, s with
  | S n, String c s => String c (string_take n s)
  | _, _ => EmptyString
  end.

Fixpoint string_drop (n : nat) (s : string) : string :=
  match n, s with
  | S n, String _ s => string_drop n s
  | _, _ => s
  end.

Fixpoint string_rev_app (s acc : string) : string :=
  match s with
  | EmptyString => acc
  | String c s => string_rev_app s (String c acc)
  end.
Definition string_rev (s : string) : string := string_rev_app s EmptyString.

(** [s[0]] and [s[len(s)-1]]; [None] is the out-of-range panic. *)
Definition first_byte (s : string) : option ascii :=
  match s with EmptyString => None | String c _ => Some c end.
Fixpoint last_byte (s : string) : option ascii :=
  match s with
  | EmptyString => None
  | String c EmptyString => Some c
  | String _ s => last_byte s
  end.

(** ** Case and space *)

Section unicode.
Context `{UnicodeTables}.

Definition strings_ToLower (s : string) : string :=
  if string_forallb is_ascii s then string_map to_lower_byte s else uc_to_lower s.

Definition strings_ToUpper (s : string) : string :=
  if string_forallb is_ascii s then string_map to_upper_byte s else uc_to_upper s.

Fixpoint strings_EqualFold (s t : string) : bool :=
  match s, t with
  | EmptyString, EmptyString => true
  | String a s', String b t' =>
      if is_ascii a && is_ascii b
      then Ascii.eqb (to_lower_byte a) (to_lower_byte b) && strings_EqualFold s' t'
      else uc_equal_fold s t
  | _, _ => false
  end.

(** Trailing spaces, scanned on the reversed string from its first byte. *)
Fixpoint trim_right_rev (r : string) : string :=
  match r with
  | EmptyString => EmptyString
  | String c r' =>
      if is_ascii c then (if is_space c then trim_right_rev r' else string_rev r)
      else uc_trim_right_space (string_rev r)
  end.

Fixpoint strings_TrimSpace (s : string) : string :=
  match s with
  | EmptyString => EmptyString
  | String c s' =>
      if is_ascii c then
        (if is_space c then strings_TrimSpace s' else trim_right_rev (string_rev s))
      else uc_trim_space s
  end.

(** [strings.Fields]: [word] is the field being read, reversed. *)
Definition close_field (word : string) (fields : list string) : list string :=
  match word with EmptyString => fields | _ => string_rev word :: fields end.

Fixpoint fields_scan (s word : string) : list string :=
  match s with
  | EmptyString => close_field word []
  | String c s => if is_space c then close_field word (fields_scan s EmptyString) else fields_scan s (String c word)
  end.

Definition strings_Fields (s : string) : list string :=
  if string_forallb is_ascii s then fields_scan s EmptyString else uc_fields s.
End unicode.

(** ** Prefixes, suffixes and searching *)

(** [strings.CutPrefix]: the rest after [p], [None] when [p] is no prefix. *)
Fixpoint strings_CutPrefix (p s : string) : option string :=
  match p, s with
  | EmptyString, _ => Some s
  | String a p, String b s => if Ascii.eqb a b then strings_CutPrefix p s else None
  | String _ _, EmptyString => None
  end.
Definition strings_HasPrefix (s p : string) : bool :=
  match strings_CutPrefix p s with Some _ => true | None => false end.

(** [strings.CutSuffix s suf]: the part before [suf]. *)
Definition strings_CutSuffix (suf s : string) : option string :=
  if (String.length suf <=? String.length s)%nat
     && String.eqb (string_drop (String.length s - String.length suf) s) suf
  then Some (string_take (String.length s - String.length suf) s) else None.
Definition strings_HasSuffix (s suf : string) : bool :=
  match strings_CutSuffix suf s with Some _ => true | None => false end.
Definition strings_TrimSuffix (s suf : string) : string :=
  match strings_CutSuffix suf s with Some r => r | None => s end.

(** [strings.IndexByte]: the first position of [c]. *)
Fixpoint strings_IndexByte (c : ascii) (s : string) : option nat :=
  match s with
  | EmptyString => None
  | String d s => if Ascii.eqb d c then Some 0%nat else S <$> strings_IndexByte c s
  end.
Fixpoint strings_LastIndexByte (c : ascii) (s : string) : option nat :=
  match s with
  | EmptyString => None
  | String d s =>
      match strings_LastIndexByte c s with
      | Some i => Some (S i)
      | None => if Ascii.eqb d c then Some 0%nat else None
      end
  end.
Definition contains_byte (c : ascii) (s : string) : bool :=
  match strings_IndexByte c s with Some _ => true | None => false end.

(** [strings.ContainsAny] for a set of single bytes. *)
Definition strings_ContainsAny (s chars : string) : bool :=
  negb (string_forallb (fun c => negb (contains_byte c chars)) s).

(** [strings.Split s sep] for a one-byte separator: never an empty list. *)
Fixpoint strings_Split (sep : ascii) (s : string) : list string :=
  match s with
  | EmptyString => [EmptyString]
  | String c s =>
      if Ascii.eqb c sep then EmptyString :: strings_Split sep s
      else match strings_Split sep s with
           | w :: ws => String c w :: ws
           | [] => [String c EmptyString]
           end
  end.

(** [strings.SplitN s sep n] for a one-byte separator and [n >= 1]: the last
    of at most [n] pieces keeps the remaining separators. *)
Fixpoint strings_SplitN (sep : ascii) (n : nat) (s : string) : list string :=
  match n with
  | O => []
  | S O => [s]
  | S n' =>
      match strings_IndexByte sep s with
      | Some i => string_take i s :: strings_SplitN sep n' (string_drop (S i) s)
      | None => [s]
      end
  end.

Fixpoint strings_Join (ws : list string) (sep : string) : string :=
  match ws with
  | [] => EmptyString
  | [w] => w
  | w :: ws => w +:+ sep +:+ strings_Join ws sep
  end.

Definition concat_words (ws : list string) : string := strings_Join ws "".

(** [strings.Count s c] for a one-byte pattern. *)
Fixpoint strings_Count (c : ascii) (s : string) : nat :=
  match s with
  | EmptyString => 0
  | String d s => (if Ascii.eqb d c then S else id) (strings_Count c s)
  end.

(** [s <= t] in Go's byte-wise order on strings. *)
Fixpoint string_leb (s t : string) : bool :=
  match s, t with
  | EmptyString, _ => true
  | String _ _, EmptyString => false
  | String a s, String b t =>
      if code a <? code b then true
      else if code b <? code a then false else string_leb s t
  end.
Definition string_ltb (s t : string) : bool := negb (string_leb t s).

(** ** Lemmas *)

Lemma string_take_drop n s : string_take n s +:+ string_drop n s = s.
Proof.
  revert n. induction s as [|c s IH]; intros [|n]; try done. simpl.
  by rewrite string_app_cons, IH.
Qed.

Lemma string_take_ge n s : (String.length s <= n)%nat -> string_take n s = s.
Proof. revert n. induction s as [|c s IH]; intros [|n] Hn; try done; [cbn in Hn; lia|]. cbn [string_take]. rewrite IH; [done|cbn in Hn; lia]. Qed.

Lemma string_take_app s t : string_take (String.length s) (s +:+ t) = s.
Proof. induction s as [|c s IH]; [by destruct t|]. rewrite ?string_app_cons; simpl. by rewrite IH. Qed.

Lemma string_drop_app s t : string_drop (String.length s) (s +:+ t) = t.
Proof. induction s as [|c s IH]; [by destruct t|]. rewrite ?string_app_cons; simpl. done. Qed.

Lemma string_app_inj_l s x y : s +:+ x = s +:+ y -> x = y.
Proof. intros E%(f_equal (string_drop (String.length s))). by rewrite !string_drop_app in E. Qed.

Lemma string_app_inj_r s x y : x +:+ s = y +:+ s -> x = y.
Proof.
  intros E. assert (Hl : String.length x = String.length y).
  { apply (f_equal String.length) in E. rewrite !string_length_app in E. lia. }
  apply (f_equal (string_take (String.length x))) in E. rewrite string_take_app in E.
  by rewrite Hl, string_take_app in E.
Qed.

Lemma string_length_take n s :
  (n <= String.length s)%nat -> String.length (string_take n s) = n.
Proof.
  revert n. induction s as [|c s IH]; intros [|n]; simpl; try done; try lia.
  intros. rewrite IH; lia.
Qed.

Lemma string_length_drop n s : String.length (string_drop n s) = (String.length s - n)%nat.
Proof. revert n. induction s as [|c s IH]; intros [|n]; simpl; try done. Qed.

Lemma CutPrefix_Some p s r : strings_CutPrefix p s = Some r <-> s = p +:+ r.
Proof.
  revert s. induction p as [|a p IH]; intros s; simpl.
  - rewrite ?string_app_nil. naive_solver.
  - rewrite ?string_app_cons. destruct s as [|b s]; [done|].
    destruct (Ascii.eqb_spec a b) as [->|]; [rewrite IH; naive_solver|naive_solver].
Qed.

Lemma HasPrefix_app p r : strings_HasPrefix (p +:+ r) p = true.
Proof. unfold strings_HasPrefix. by rewrite (proj2 (CutPrefix_Some p _ r)). Qed.

Lemma CutSuffix_Some suf s r : strings_CutSuffix suf s = Some r <-> s = r +:+ suf.
Proof.
  unfold strings_CutSuffix. split.
  - destruct (Nat.leb_spec (String.length suf) (String.length s)); simpl; [|done].
    destruct (String.eqb_spec (string_drop (String.length s - String.length suf) s) suf)
      as [E|]; [|done].
    intros [= <-]. rewrite <- E at 2. by rewrite string_take_drop.
  - intros ->. rewrite string_length_app.
    replace (String.length r + String.length suf - String.length suf)%nat
      with (String.length r) by lia.
    rewrite string_drop_app, string_take_app, String.eqb_refl.
    destruct (Nat.leb_spec (String.length suf) (String.length r + String.length suf));
      [done|lia].
Qed.

Lemma HasSuffix_app r suf : strings_HasSuffix (r +:+ suf) suf = true.
Proof. unfold strings_HasSuffix. by rewrite (proj2 (CutSuffix_Some suf _ r)). Qed.

Lemma TrimSuffix_app r suf : strings_TrimSuffix (r +:+ suf) suf = r.
Proof. unfold strings_TrimSuffix. by rewrite (proj2 (CutSuffix_Some suf _ r)). Qed.

Lemma forallb_app p s t :
  string_forallb p (s +:+ t) = string_forallb p s && string_forallb p t.
Proof.
  induction s as [|c s IH]; [done|]. rewrite ?string_app_cons; simpl.
  by rewrite IH, andb_assoc.
Qed.

Lemma string_forallb_mono (p q : ascii -> bool) s :
  (forall c, p c = true -> q c = true) -> string_forallb p s = true -> string_forallb q s = true.
Proof.
  intros Hpq. induction s as [|c s IH]; [done|]. simpl. intros H. bool_solve.
  by rewrite Hpq, IH.
Qed.

(** [s] holds no byte [c]. *)
Definition lacks (c : ascii) (s : string) : bool := string_forallb (fun d => negb (Ascii.eqb d c)) s.

Lemma IndexByte_None c s : strings_IndexByte c s = None <-> lacks c s = true.
Proof.
  unfold lacks. induction s as [|d s IH]; simpl; [done|].
  destruct (Ascii.eqb d c); simpl; [done|].
  destruct (strings_IndexByte c s); simpl; naive_solver.
Qed.

Lemma IndexByte_Some c s i :
  strings_IndexByte c s = Some i ->
  lacks c (string_take i s) = true /\ s = string_take i s +:+ String c (string_drop (S i) s).
Proof.
  revert i. induction s as [|d s IH]; simpl; [done|]. intros i.
  destruct (Ascii.eqb_spec d c) as [->|Hd]; [by intros [= <-]|].
  destruct (strings_IndexByte c s) as [j|]; [|done]. intros [= <-].
  destruct (IH j eq_refl) as [Hl Hs]. simpl. unfold lacks in *. simpl.
  apply Ascii.eqb_neq in Hd as ->. rewrite Hl. split; [done|].
  rewrite ?string_app_cons. f_equal. exact Hs.
Qed.

Lemma IndexByte_get c s : forall i,
  strings_IndexByte c s = Some i -> String.get i s = Some c /\ (i < String.length s)%nat.
Proof.
  induction s as [|d s IH]; simpl; intros i; [done|].
  destruct (Ascii.eqb d c) eqn:E; [apply Ascii.eqb_eq in E as ->; intros [= <-]; split; [done|lia]|].
  destruct (strings_IndexByte c s) as [j|]; [|done]. intros [= <-].
  destruct (IH j eq_refl) as [Hg Hl]. split; [done|lia].
Qed.

Lemma IndexByte_app c s t :
  lacks c s = true -> strings_IndexByte c (s +:+ String c t) = Some (String.length s).
Proof.
  unfold lacks. induction s as [|d s IH]; simpl; intros H.
  - rewrite ?string_app_nil; simpl. by rewrite Ascii.eqb_refl.
  - bool_solve. rewrite ?string_app_cons; simpl. rewrite H, IH; done.
Qed.

Lemma LastIndexByte_None c s : strings_LastIndexByte c s = None <-> lacks c s = true.
Proof.
  unfold lacks. induction s as [|d s IH]; simpl; [done|].
  destruct (strings_LastIndexByte c s); simpl.
  - split; [done|]. intros H. bool_solve. naive_solver.
  - rewrite (proj1 IH eq_refl). destruct (Ascii.eqb d c); done.
Qed.

Lemma LastIndexByte_app c s t :
  lacks c t = true -> strings_LastIndexByte c (s +:+ String c t) = Some (String.length s).
Proof.
  intros Ht. induction s as [|d s IH].
  - rewrite ?string_app_nil; simpl. rewrite (proj2 (LastIndexByte_None c t) Ht).
    by rewrite Ascii.eqb_refl.
  - rewrite ?string_app_cons; simpl. by rewrite IH.
Qed.

Lemma Split_lacks sep s : lacks sep s = true -> strings_Split sep s = [s].
Proof.
  unfold lacks. induction s as [|c s IH]; simpl; [done|]. intros H. bool_solve.
  by rewrite H, IH.
Qed.

Lemma Split_app sep s t :
  lacks sep s = true -> strings_Split sep (s +:+ String sep t) = s :: strings_Split sep t.
Proof.
  unfold lacks. induction s as [|c s IH]; simpl; intros H.
  - rewrite ?string_app_nil; simpl. by rewrite Ascii.eqb_refl.
  - bool_solve. rewrite ?string_app_cons; simpl. by rewrite H, IH.
Qed.

Lemma Split_not_nil sep s : strings_Split sep s <> [].
Proof. destruct s as [|c s]; simpl; [done|]. destruct (Ascii.eqb c sep); [done|]. by case_match. Qed.

Lemma Split_snoc sep s : strings_Split sep (s +:+ String sep "") = strings_Split sep s ++ [""].
Proof.
  induction s as [|c s IH].
  - rewrite ?string_app_nil; simpl. by rewrite Ascii.eqb_refl.
  - rewrite ?string_app_cons; simpl. rewrite IH.
    destruct (Ascii.eqb c sep); [done|].
    destruct (strings_Split sep s) eqn:E; [by apply Split_not_nil in E|done].
Qed.

Lemma Split_forallb (p : ascii -> bool) sep s :
  p sep = true -> Forall (fun w => string_forallb p w = true) (strings_Split sep s) ->
  string_forallb p s = true.
Proof.
  intros Hp. induction s as [|c s IH]; [done|]. simpl.
  destruct (Ascii.eqb_spec c sep) as [->|].
  - rewrite Forall_cons. intros [_ H]. by rewrite Hp, IH.
  - destruct (strings_Split sep s) as [|w ws] eqn:E; [by apply Split_not_nil in E|].
    rewrite Forall_cons. simpl. intros [Hw Hws]. bool_solve. rewrite H.
    simpl. apply IH. by constructor.
Qed.

Lemma string_rev_app_app s t acc : string_rev_app (s +:+ t) acc = string_rev_app t (string_rev_app s acc).
Proof.
  revert acc. induction s as [|c s IH]; intros acc; [done|]. rewrite ?string_app_cons. apply IH.
Qed.

Lemma string_rev_app_acc s acc : string_rev_app s acc = string_rev s +:+ acc.
Proof.
  unfold string_rev. revert acc. induction s as [|c s IH]; intros acc; [done|]. simpl.
  rewrite IH, (IH (String c "")), <- string_app_assoc. done.
Qed.

Lemma string_rev_cons c s : string_rev (String c s) = string_rev s +:+ String c "".
Proof. unfold string_rev at 1. simpl. apply string_rev_app_acc. Qed.

Lemma string_rev_app_distr s t : string_rev (s +:+ t) = string_rev t +:+ string_rev s.
Proof.
  unfold string_rev at 1. by rewrite string_rev_app_app, string_rev_app_acc.
Qed.

Lemma string_rev_involutive s : string_rev (string_rev s) = s.
Proof.
  induction s as [|c s IH]; [done|]. by rewrite string_rev_cons, string_rev_app_distr, IH.
Qed.

(** Trimming leaves a string with no space at either end alone. *)
Lemma trim_right_rev_id `{UnicodeTables} r :
  string_forallb is_ascii r = true -> (forall c, first_byte r = Some c -> is_space c = false) ->
  trim_right_rev r = string_rev r.
Proof.
  destruct r as [|c r]; [done|]. simpl. intros Ha Hs. bool_solve. rewrite H0.
  by rewrite (Hs c).
Qed.

Lemma first_byte_app s t c : first_byte s = Some c -> first_byte (s +:+ t) = Some c.
Proof. by destruct s. Qed.

Lemma last_byte_snoc s c : last_byte (s +:+ String c "") = Some c.
Proof.
  induction s as [|d s IH]; [done|]. rewrite ?string_app_cons; simpl. rewrite IH.
  by destruct (s +:+ String c "") eqn:E; [destruct s|].
Qed.

Lemma string_rev_last s c : last_byte s = Some c -> exists r, string_rev s = String c r.
Proof.
  induction s as [|d s IH]; [done|]. simpl. unfold string_rev. simpl.
  rewrite string_rev_app_acc. destruct s as [|d' s].
  - intros [= ->]. by exists "".
  - intros Hl. destruct (IH Hl) as (r & ->). by eexists.
Qed.

Lemma last_byte_forallb p s l : string_forallb p s = true -> last_byte s = Some l -> p l = true.
Proof.
  induction s as [|d t IH]; [done|]. simpl. intros Hp Hl.
  apply andb_true_iff in Hp as [Hd Ht]. destruct t; [naive_solver|]. by apply IH.
Qed.

Lemma last_byte_None s : last_byte s = None -> s = "".
Proof. induction s as [|d s IH]; [done|]. simpl. destruct s; [done|]. intros H. by apply IH in H. Qed.

Lemma TrimSpace_id `{UnicodeTables} s :
  string_forallb is_ascii s = true ->
  (forall c, first_byte s = Some c -> is_space c = false) ->
  (forall c, last_byte s = Some c -> is_space c = false) ->
  strings_TrimSpace s = s.
Proof.
  intros Ha Hf Hl. destruct (last_byte s) as [l|] eqn:El; [|by apply last_byte_None in El as ->].
  pose proof (last_byte_forallb _ _ _ Ha El) as Hla.
  destruct (string_rev_last _ _ El) as (r & Hr).
  destruct s as [|c s]; [done|]. simpl. simpl in Ha. apply andb_true_iff in Ha as [Hc Ha].
  rewrite Hc, (Hf c) by done. rewrite Hr. simpl. rewrite Hla, Hl by done.
  rewrite <- Hr. apply string_rev_involutive.
Qed.

(** The first separator splits a string in one way. *)
Lemma cut_unique c s t x y :
  lacks c s = true -> lacks c t = true -> s +:+ String c x = t +:+ String c y -> s = t /\ x = y.
Proof.
  intros Hs Ht E.
  assert (El : String.length s = String.length t).
  { assert (Hi : strings_IndexByte c (s +:+ String c x) = strings_IndexByte c (t +:+ String c y)) by by rewrite E.
    rewrite !IndexByte_app in Hi by done. congruence. }
  assert (Est : s = t).
  { rewrite <- (string_take_app s (String c x)), <- (string_take_app t (String c y)). by rewrite El, E. }
  subst t. split; [done|].
  apply (f_equal (string_drop (String.length s))) in E. rewrite !string_drop_app in E. congruence.
Qed.

(** ** Splitting and joining *)

Lemma Split_cons sep c s : Ascii.eqb c sep = false ->
  exists w ws, strings_Split sep s = w :: ws /\ strings_Split sep (String c s) = String c w :: ws.
Proof.
  intros Hc. cbn [strings_Split]. rewrite Hc. destruct (strings_Split sep s) as [|w ws] eqn:E; [by apply Split_not_nil in E|].
  by exists w, ws.
Qed.

Lemma Split_each sep s : Forall (fun w => lacks sep w = true) (strings_Split sep s).
Proof.
  induction s as [|c s IH]; [by repeat constructor|]. destruct (Ascii.eqb c sep) eqn:Ec.
  - cbn [strings_Split]. rewrite Ec. by constructor.
  - destruct (Split_cons sep c s Ec) as (w & ws & E & ->). rewrite E in IH. apply Forall_cons in IH as [Hw Hws].
    constructor; [|done]. unfold lacks in *. cbn [string_forallb]. by rewrite Ec, Hw.
Qed.

Lemma Join_Split sep s : strings_Join (strings_Split sep s) (String sep "") = s.
Proof.
  induction s as [|c s IH]; [done|]. destruct (Ascii.eqb c sep) eqn:Ec.
  - cbn [strings_Split]. rewrite Ec. apply Ascii.eqb_eq in Ec as ->.
    destruct (strings_Split sep s) as [|w ws] eqn:E; [by apply Split_not_nil in E|]. cbn [strings_Join] in *.
    rewrite string_app_nil, string_app_cons, string_app_nil. by rewrite IH.
  - destruct (Split_cons sep c s Ec) as (w & ws & E & ->). rewrite E in IH. cbn [strings_Join] in *.
    destruct ws; [by rewrite IH|]. by rewrite string_app_cons, IH.
Qed.

Lemma lacks_app c s t : lacks c (s +:+ t) = lacks c s && lacks c t.
Proof. apply forallb_app. Qed.

Lemma lacks_contains c s : contains_byte c s = negb (lacks c s).
Proof.
  unfold contains_byte. destruct (strings_IndexByte c s) as [i|] eqn:E.
  - destruct (lacks c s) eqn:El; [|done]. apply IndexByte_None in El. congruence.
  - apply IndexByte_None in E. by rewrite E.
Qed.

(** Of two suffixes of one string one is a suffix of the other. *)
Lemma suffix_of_one a s b t : a +:+ s = b +:+ t -> strings_HasSuffix s t = true \/ strings_HasSuffix t s = true.
Proof.
  revert b. induction a as [|c a IH]; intros b E.
  - left. rewrite string_app_nil in E. rewrite E. apply HasSuffix_app.
  - destruct b as [|d b].
    + right. rewrite string_app_nil in E. rewrite <- E. exact (HasSuffix_app (String c a) s).
    + rewrite !string_app_cons in E. injection E as _ E. by eapply IH.
Qed.

Lemma HasSuffix_inv s t : strings_HasSuffix s t = true -> exists r, s = r +:+ t.
Proof.
  unfold strings_HasSuffix. destruct (strings_CutSuffix t s) as [r|] eqn:E; [|done].
  intros _. exists r. by apply CutSuffix_Some.
Qed.

Lemma app_inj_r a b s : a +:+ s = b +:+ s -> a = b.
Proof. intros E. rewrite <- (TrimSuffix_app a s), <- (TrimSuffix_app b s). by rewrite E. Qed.

(** ** Case folding of ASCII text *)

Lemma to_lower_idem c : to_lower_byte (to_lower_byte c) = to_lower_byte c.
Proof. by destruct c as [[] [] [] [] [] [] [] []]. Qed.

Lemma to_lower_ascii c : is_ascii (to_lower_byte c) = is_ascii c.
Proof. by destruct c as [[] [] [] [] [] [] [] []]. Qed.

Section folding.
Context `{UnicodeTables}.

Lemma ToLower_ascii s : string_forallb is_ascii s = true -> strings_ToLower s = string_map to_lower_byte s.
Proof. intros Hs. unfold strings_ToLower. by rewrite Hs. Qed.

Lemma string_map_ascii s : string_forallb is_ascii (string_map to_lower_byte s) = string_forallb is_ascii s.
Proof. induction s as [|c s IH]; [done|]. cbn. by rewrite to_lower_ascii, IH. Qed.

Lemma string_map_idem s : string_map to_lower_byte (string_map to_lower_byte s) = string_map to_lower_byte s.
Proof. induction s as [|c s IH]; [done|]. cbn. by rewrite to_lower_idem, IH. Qed.

Lemma string_map_app f s t : string_map f (s +:+ t) = string_map f s +:+ string_map f t.
Proof. induction s as [|c s IH]; [done|]. rewrite string_app_cons. cbn. by rewrite IH. Qed.

Lemma string_map_length f s : String.length (string_map f s) = String.length s.
Proof. induction s as [|c s IH]; [done|]. cbn. by rewrite IH. Qed.

(** On ASCII text, folding compares the lower-cased forms. *)
Lemma EqualFold_ascii s : forall t, string_forallb is_ascii s = true -> string_forallb is_ascii t = true ->
  strings_EqualFold s t = String.eqb (strings_ToLower s) (strings_ToLower t).
Proof.
  induction s as [|c s IH]; intros [|d t] Hs Ht; rewrite !ToLower_ascii by done; try done.
  cbn [string_forallb] in Hs, Ht. apply andb_true_iff in Hs as [Hc Hs], Ht as [Hd Ht].
  cbn [strings_EqualFold string_map String.eqb]. rewrite Hc, Hd. cbn [andb]. rewrite IH by done.
  rewrite !ToLower_ascii by done. by destruct (Ascii.eqb _ _).
Qed.
End folding.

Lemma chr_code c : chr (code c) = c.
Proof. unfold code, chr. rewrite N2Z.id. apply ascii_N_embedding. Qed.

Lemma code_inj c d : code c = code d -> c = d.
Proof. intros E. by rewrite <- (chr_code c), <- (chr_code d), E. Qed.

(** ** [sort.Strings] *)

Definition str_leb_le (a b : string) : Prop := string_leb a b = true.
#[export] Instance str_leb_le_dec : RelDecision str_leb_le.
Proof. intros a b. unfold str_leb_le. apply _. Defined.
Definition sort_strings (l : list string) : list string := merge_sort str_leb_le l.

(** The order is total, so a sorted list is as it was sorted. *)
#[export] Instance str_leb_le_total : Total str_leb_le.
Proof.
  unfold str_leb_le. intros s. induction s as [|c s IH]; intros [|d t]; cbn; [by left|by left|by right|].
  destruct (Z.ltb_spec (code c) (code d)); [by left|]. destruct (Z.ltb_spec (code d) (code c)); [by right|]. apply IH.
Qed.
#[export] Instance str_leb_le_trans : Transitive str_leb_le.
Proof.
  unfold str_leb_le. intros s. induction s as [|c s IH]; intros [|d t] [|e u]; cbn; try done.
  destruct (Z.ltb_spec (code c) (code d)), (Z.ltb_spec (code d) (code e)), (Z.ltb_spec (code c) (code e)); try done; try lia;
    destruct (Z.ltb_spec (code d) (code c)), (Z.ltb_spec (code e) (code d)), (Z.ltb_spec (code e) (code c)); try done; try lia.
  apply IH.
Qed.
#[export] Instance str_leb_le_antisymm : AntiSymm eq str_leb_le.
Proof.
  unfold str_leb_le. intros s. induction s as [|c s IH]; intros [|d t]; cbn; try done.
  destruct (Z.ltb_spec (code c) (code d)), (Z.ltb_spec (code d) (code c)); try done; try lia.
  intros H1 H2. f_equal; [apply code_inj; lia|by apply IH].
Qed.

Lemma sort_strings_sorted l : StronglySorted str_leb_le (sort_strings l).
Proof. apply (StronglySorted_merge_sort str_leb_le). Qed.
Lemma sort_sorted l : StronglySorted str_leb_le l -> sort_strings l = l.
Proof.
  intros Hs. apply (StronglySorted_unique str_leb_le); [apply sort_strings_sorted|done|]. unfold sort_strings. apply merge_sort_Permutation.
Qed.
