(* ===== verification/GoNum.v ===== *)
(** * GoNum: machine integers, strconv and time

    Fixed-width integers are [Z] with their range written out; package
    strconv's decimal functions are executable and come with their round trip. *)
From stdpp Require Import base tactics option list strings gmap.
From Stdlib Require Import Ascii ZArith Lia.
From S2P Require Import Prelude GoStrings.
Open Scope Z_scope.

(** ** Widths *)

Definition u8 (z : Z) : Z := Z.land z 255.
Definition u16 (z : Z) : Z := Z.land z 65535.
Definition u32 (z : Z) : Z := Z.land z 4294967295.
Definition max_uint64 : Z := 18446744073709551615.
Definition max_int64 : Z := 9223372036854775807.
Definition min_int64 : Z := -9223372036854775808.

Definition int64 (z : Z) : Prop := min_int64 <= z <= max_int64.

(** Two's complement: what an int64 operation leaves of its exact value. *)
Definition i64 (z : Z) : Z := (z + 9223372036854775808) mod 18446744073709551616 - 9223372036854775808.

Lemma i64_small z : min_int64 <= z <= max_int64 -> i64 z = z.
Proof. unfold i64, min_int64, max_int64. intros. rewrite Z.mod_small; lia. Qed.

Lemma u32_mod z : u32 z = z mod 2 ^ 32.
Proof. unfold u32. change 4294967295 with (Z.ones 32). by rewrite Z.land_ones. Qed.
Lemma u8_mod z : u8 z = z mod 2 ^ 8.
Proof. unfold u8. change 255 with (Z.ones 8). by rewrite Z.land_ones. Qed.
Lemma u8_range z : 0 <= u8 z < 256.
Proof. rewrite u8_mod. apply Z.mod_pos_bound. lia. Qed.
Lemma u32_small z : 0 <= z < 2 ^ 32 -> u32 z = z.
Proof. intros. rewrite u32_mod. by apply Z.mod_small. Qed.
Lemma u8_small z : 0 <= z < 256 -> u8 z = z.
Proof. intros. rewrite u8_mod. by apply Z.mod_small. Qed.

(** Appending [k] bits. *)
Lemma lor_shiftl a b k : 0 <= k -> 0 <= a -> 0 <= b < 2 ^ k ->
  Z.lor (Z.shiftl a k) b = a * 2 ^ k + b.
Proof.
  intros Hk Ha Hb. rewrite Z.shiftl_mul_pow2 by lia.
  assert (Z.land (a * 2 ^ k) b = 0) as Hl.
  { destruct (decide (b = 0)) as [->|Hb0]; [apply Z.land_0_r|].
    apply Z.bits_inj'. intros i Hi. rewrite Z.land_spec, Z.bits_0.
    destruct (Z.lt_ge_cases i k).
    - by rewrite Z.mul_pow2_bits_low.
    - rewrite (Z.bits_above_log2 b i), andb_false_r; [done|lia|].
      apply Z.log2_lt_pow2; [lia|]. eapply Z.lt_le_trans; [apply Hb|].
      apply Z.pow_le_mono_r; lia. }
  by rewrite <- Z.lxor_lor, <- Z.add_nocarry_lxor by done.
Qed.

(** ** strconv *)

Definition digit_char (d : Z) : ascii := chr (48 + d).

(** The decimal digits of [n], most significant first, in front of [acc]. *)
Fixpoint digits (fuel : nat) (n : Z) (acc : string) : string :=
  match fuel with
  | O => acc
  | S fuel =>
      let acc := String (digit_char (n mod 10)) acc in
      if n <? 10 then acc else digits fuel (n / 10) acc
  end.

(** [strconv.FormatUint(n, 10)]: 20 digits hold any uint64. *)
Definition digits_fuel : nat := 20.
Definition strconv_FormatUint (n : Z) : string := digits digits_fuel n "".

(** [strconv.Itoa] on a 64-bit int. *)
Definition strconv_Itoa (n : Z) : string :=
  if n <? 0 then String "-"%char (strconv_FormatUint (- n)) else strconv_FormatUint n.

Fixpoint parse_digits (acc : Z) (s : string) : option Z :=
  match s with
  | EmptyString => Some acc
  | String c s =>
      if is_digit c then parse_digits (acc * 10 + (code c - 48)) s else None
  end.

(** [strconv.ParseUint(s, 10, 64)]. *)
Definition strconv_ParseUint (s : string) : option Z :=
  match s with
  | EmptyString => None
  | _ => n ← parse_digits 0 s; if n <=? max_uint64 then Some n else None
  end.

(** [strconv.Atoi]: an optional sign, then at least one digit, in int range. *)
Definition strconv_Atoi (s : string) : option Z :=
  match s with
  | EmptyString => None
  | String c s' =>
      let neg := Ascii.eqb c "-"%char in
      let body := if neg || Ascii.eqb c "+"%char then s' else s in
      match body with
      | EmptyString => None
      | _ =>
          n ← parse_digits 0 body;
          let n := if neg then - n else n in
          if (min_int64 <=? n) && (n <=? max_int64) then Some n else None
      end
  end.

#[global] Arguments strconv_FormatUint : simpl never.
#[global] Arguments strconv_Itoa : simpl never.
#[global] Arguments max_uint64 : simpl never.

Lemma code_chr z : 0 <= z < 256 -> code (chr z) = z.
Proof.
  intros. unfold code, chr. rewrite N_ascii_embedding by lia. lia.
Qed.

Lemma code_range c : 0 <= code c < 256.
Proof. unfold code. pose proof (N_ascii_bounded c). lia. Qed.

Lemma digit_char_code d : 0 <= d < 10 -> code (digit_char d) = 48 + d.
Proof. intros. unfold digit_char. rewrite code_chr; lia. Qed.

Lemma digit_char_digit d : 0 <= d < 10 -> is_digit (digit_char d) = true.
Proof. intros. unfold is_digit. rewrite digit_char_code by lia. lia. Qed.

Lemma parse_digits_digits fuel n acc :
  0 <= n < 10 ^ Z.of_nat fuel ->
  parse_digits 0 (digits fuel n acc) = parse_digits n acc.
Proof.
  revert n acc. induction fuel as [|fuel IH]; intros n acc Hn.
  { assert (n = 0) as -> by (simpl in Hn; lia). done. }
  simpl. destruct (n <? 10) eqn:E.
  - simpl. rewrite digit_char_digit by (apply Z.mod_pos_bound; lia).
    rewrite digit_char_code by (apply Z.mod_pos_bound; lia).
    bool_solve. rewrite Z.mod_small by lia. f_equal. lia.
  - bool_solve. rewrite IH.
    + simpl. rewrite digit_char_digit by (apply Z.mod_pos_bound; lia).
      rewrite digit_char_code by (apply Z.mod_pos_bound; lia).
      f_equal. pose proof (Z.div_mod n 10). lia.
    + rewrite Nat2Z.inj_succ, Z.pow_succ_r in Hn by lia. split.
      * apply Z.div_pos; lia.
      * apply Z.div_lt_upper_bound; lia.
Qed.

Lemma digits_head fuel n acc :
  0 <= n -> exists c s, digits (S fuel) n acc = String c s /\ is_digit c = true.
Proof.
  revert n acc. induction fuel as [|fuel IH]; intros n acc Hn.
  - simpl. assert (is_digit (digit_char (n mod 10)) = true)
      by (apply digit_char_digit, Z.mod_pos_bound; lia).
    destruct (n <? 10); eauto.
  - change (digits (S (S fuel)) n acc) with
      (let acc := String (digit_char (n mod 10)) acc in
       if n <? 10 then acc else digits (S fuel) (n / 10) acc). cbv zeta.
    destruct (n <? 10).
    + eexists _, _. split; [done|]. apply digit_char_digit, Z.mod_pos_bound; lia.
    + apply IH. apply Z.div_pos; lia.
Qed.

Lemma FormatUint_head n :
  0 <= n -> exists c s, strconv_FormatUint n = String c s /\ is_digit c = true.
Proof. apply digits_head. Qed.

Lemma parse_FormatUint n :
  0 <= n <= max_uint64 -> parse_digits 0 (strconv_FormatUint n) = Some n.
Proof.
  intros Hn. unfold strconv_FormatUint. rewrite parse_digits_digits; [done|].
  unfold max_uint64 in Hn. change (Z.of_nat digits_fuel) with 20. lia.
Qed.

Lemma ParseUint_FormatUint n :
  0 <= n <= max_uint64 -> strconv_ParseUint (strconv_FormatUint n) = Some n.
Proof.
  intros Hn. destruct (FormatUint_head n) as (c & s & E & _); [lia|].
  unfold strconv_ParseUint. rewrite E, <- E, parse_FormatUint by done.
  simpl. destruct (Z.leb_spec n max_uint64); [done|lia].
Qed.

Lemma is_digit_value c : is_digit c = true -> 0 <= code c - 48.
Proof. by destruct c as [[] [] [] [] [] [] [] []]. Qed.

Lemma parse_digits_nonneg s : forall acc n, 0 <= acc -> parse_digits acc s = Some n -> 0 <= n.
Proof.
  induction s as [|c s IH]; simpl; intros acc n Ha Hp; [congruence|].
  destruct (is_digit c) eqn:Ed; [|done]. apply is_digit_value in Ed.
  eapply IH; [|exact Hp]. lia.
Qed.

Lemma ParseUint_range s n : strconv_ParseUint s = Some n -> 0 <= n < 2 ^ 64.
Proof.
  unfold strconv_ParseUint. destruct s as [|c s]; [done|].
  destruct (parse_digits 0 (String c s)) as [m|] eqn:E; [|done]. cbn [mbind option_bind].
  destruct (Z.leb_spec m max_uint64) as [Hl|]; [|done]. intros [= <-].
  pose proof (parse_digits_nonneg _ _ _ (Z.le_refl 0) E). unfold max_uint64 in Hl.
  change (2 ^ 64) with 18446744073709551616. lia.
Qed.

Lemma digit_not_sign c : is_digit c = true -> Ascii.eqb c "-" || Ascii.eqb c "+" = false.
Proof.
  intros Hd. apply orb_false_iff. split; apply Ascii.eqb_neq; intros ->; discriminate.
Qed.

Lemma Atoi_Itoa_nonneg n : 0 <= n <= max_int64 -> strconv_Atoi (strconv_Itoa n) = Some n.
Proof.
  intros Hn. unfold strconv_Itoa. destruct (Z.ltb_spec n 0); [lia|].
  destruct (FormatUint_head n) as (c & s & E & Hc); [lia|].
  unfold strconv_Atoi. rewrite E.
  pose proof (digit_not_sign c Hc) as Hs. rewrite Hs.
  apply orb_false_iff in Hs as [-> _]. rewrite <- E, parse_FormatUint
    by (unfold max_int64, max_uint64 in *; lia).
  simpl. unfold min_int64, max_int64 in *.
  replace ((-9223372036854775808 <=? n) && (n <=? 9223372036854775807)) with true; [done|].
  symmetry. apply andb_true_iff. split; apply Z.leb_le; lia.
Qed.

Lemma FormatUint_digit d : 0 <= d < 10 -> strconv_FormatUint d = String (digit_char d) "".
Proof.
  intros. unfold strconv_FormatUint, digits_fuel.
  change (digits 20 d "") with
    (let acc := String (digit_char (d mod 10)) "" in
     if d <? 10 then acc else digits 19 (d / 10) acc). cbv zeta.
  destruct (Z.ltb_spec d 10); [|lia]. by rewrite Z.mod_small.
Qed.

(** Every character of a formatted number is a digit. *)
Lemma digits_all_digits fuel n acc :
  0 <= n -> string_forallb is_digit acc = true ->
  string_forallb is_digit (digits fuel n acc) = true.
Proof.
  revert n acc. induction fuel as [|fuel IH]; intros n acc Hn Ha; [done|].
  simpl. assert (is_digit (digit_char (n mod 10)) = true)
    by (apply digit_char_digit, Z.mod_pos_bound; lia).
  destruct (n <? 10); simpl; [by rewrite Ha, H|].
  apply IH; [apply Z.div_pos; lia|]. simpl. by rewrite Ha, H.
Qed.

Lemma FormatUint_digits n : 0 <= n -> string_forallb is_digit (strconv_FormatUint n) = true.
Proof. intros. by apply digits_all_digits. Qed.

(** ** time

    A [time.Time] is the number of nanoseconds since January 1, year 1 UTC,
    the instant of Go's zero [Time]; a [time.Duration] is an int64 count of
    nanoseconds. *)
Notation Time := Z (only parsing).
Notation Duration := Z (only parsing).

Definition Second : Duration := 1000000000.
Definition Minute : Duration := 60 * Second.
Definition zero_time : Time := 0.

Definition time_IsZero (t : Time) : bool := t =? 0.
(** [t.Sub(u)] saturates at the ends of the Duration range. *)
Definition time_Sub (t u : Time) : Duration := Z.max min_int64 (Z.min max_int64 (t - u)).
Definition time_Add (t : Time) (d : Duration) : Time := t + d.
Definition time_After (t u : Time) : bool := u <? t.
Definition time_Before (t u : Time) : bool := t <? u.
(** [t.Truncate(d)] rounds down to a multiple of [d] since the zero time. *)
Definition time_Truncate (t : Time) (d : Duration) : Time :=
  if d <=? 0 then t else t - t mod d.

Lemma time_Sub_exact t u : min_int64 <= t - u <= max_int64 -> time_Sub t u = t - u.
Proof. unfold time_Sub. lia. Qed.

Lemma time_Sub_mono t t' u : t <= t' -> time_Sub t u <= time_Sub t' u.
Proof. unfold time_Sub. lia. Qed.

Lemma time_Sub_diag t : time_Sub t t = 0.
Proof. unfold time_Sub, min_int64, max_int64. lia. Qed.

(** [Duration.Round] to a positive unit: half away from zero, with the overflow
    cases of the implementation, and [-d] at 64 bits. *)
Definition duration_Neg (d : Duration) : Duration := if d =? min_int64 then d else - d.

(** [d.Truncate(m)]: towards zero. *)
Definition duration_Truncate (d m : Duration) : Duration := if m <=? 0 then d else d - Z.rem d m.

Definition duration_Round (d m : Duration) : Duration :=
  if m <=? 0 then d else
  let r := Z.rem d m in
  if d <? 0 then
    let r := - r in
    if r + r <? m then d + r
    else if min_int64 <=? d - m + r then d - m + r else min_int64
  else
    if r + r <? m then d - r
    else if d + m - r <=? max_int64 then d + m - r else max_int64.

(** [fmtFrac]: the [prec] last decimals of [v] without trailing zeros, and the rest. *)
Fixpoint fmtFrac (prec : nat) (v : Z) (print : bool) (acc : string) : string * Z :=
  match prec with
  | O => ((if print then String "." acc else acc), v)
  | S p =>
      let digit := v mod 10 in
      let print := print || negb (digit =? 0) in
      fmtFrac p (v / 10) print (if print then String (digit_char digit) acc else acc)
  end.

(** [Duration.String]. *)
Definition duration_String (d : Duration) : string :=
  let u := Z.abs d in
  let sign := if d <? 0 then "-" else "" in
  if u =? 0 then "0s" else
  let unit prec name :=
    let '(frac, v) := fmtFrac prec u false "" in
    sign +:+ strconv_FormatUint v +:+ frac +:+ name in
  if u <? 1000 then unit 0%nat "ns"
  else if u <? 1000000 then unit 3%nat (String (chr 194) (String (chr 181) "s"))
  else if u <? Second then unit 6%nat "ms"
  else
    let '(frac, s) := fmtFrac 9 u false "" in
    let secs := strconv_FormatUint (s mod 60) +:+ frac +:+ "s" in
    let m := s / 60 in
    if m =? 0 then sign +:+ secs else
    let mins := strconv_FormatUint (m mod 60) +:+ "m" +:+ secs in
    let h := m / 60 in
    if h =? 0 then sign +:+ mins else sign +:+ strconv_FormatUint h +:+ "h" +:+ mins.

Example duration_String_1 : duration_String (15 * Minute) = "15m0s".
Proof. vm_compute. reflexivity. Qed.
Example duration_String_2 : duration_String (3661 * Second + 50000000) = "1h1m1.05s".
Proof. vm_compute. reflexivity. Qed.
Example duration_Round_1 : duration_Round (1500000000) Second = 2 * Second.
Proof. vm_compute. reflexivity. Qed.

(** [strconv.Itoa] on the 64-bit range writes different numbers differently. *)
Lemma Itoa_inj n m : min_int64 <= n <= max_int64 -> min_int64 <= m <= max_int64 ->
  strconv_Itoa n = strconv_Itoa m -> n = m.
Proof.
  assert (Hu : forall a b, 0 <= a <= max_uint64 -> 0 <= b <= max_uint64 ->
    strconv_FormatUint a = strconv_FormatUint b -> a = b).
  { intros a b Ha Hb E. apply (f_equal (parse_digits 0)) in E. rewrite !parse_FormatUint in E by done. congruence. }
  assert (Hd : forall a s, 0 <= a -> strconv_FormatUint a <> String "-" s).
  { intros a s Ha E. destruct (FormatUint_head a Ha) as (c & r & E' & Hc). rewrite E in E'.
    injection E' as <- _. discriminate. }
  unfold strconv_Itoa, min_int64, max_int64, max_uint64 in *. intros Hn Hm.
  destruct (Z.ltb_spec n 0), (Z.ltb_spec m 0); intros E.
  - injection E as E. apply Hu in E; lia.
  - symmetry in E. apply Hd in E; [done|lia].
  - apply Hd in E; [done|lia].
  - apply Hu; lia || done.
Qed.

Lemma Itoa_lacks c n : is_digit c = false -> c <> "-"%char -> lacks c (strconv_Itoa n) = true.
Proof.
  intros Hc Hm. assert (Hd : forall a, 0 <= a -> lacks c (strconv_FormatUint a) = true).
  { intros a Ha. unfold lacks. eapply string_forallb_mono; [|by apply FormatUint_digits].
    intros d Hd. apply negb_true_iff, Ascii.eqb_neq. intros ->. congruence. }
  unfold strconv_Itoa. destruct (Z.ltb_spec n 0); [|apply Hd; lia].
  unfold lacks. cbn [string_forallb]. fold (lacks c (strconv_FormatUint (- n))).
  rewrite Hd by lia. apply andb_true_iff. split; [|done]. apply negb_true_iff, Ascii.eqb_neq. congruence.
Qed.
