(* ===== verification/GoNet.v ===== *)
(** * GoNet: addresses, prefixes and host:port strings

    The parsers of net/netip and net the program calls, as executable
    functions: [ParseAddr] (both families), [ParsePrefix], [ParseCIDR],
    [SplitHostPort], [JoinHostPort], and the IPv4 renderer with its round
    trip. *)
From stdpp Require Import base tactics option list strings gmap.
From Stdlib Require Import Ascii ZArith Lia.
From S2P Require Import Prelude GoStrings GoNum.
Open Scope Z_scope.

(** [netip.Addr]: an IPv4 address is its 32-bit value, an IPv6 address its
    128-bit value with a zone (empty for none). *)
Inductive Addr : Type :=
  | Addr4 (ip : Z)
  | Addr6 (ip : Z) (zone : string).

#[export] Instance Addr_eq_dec : EqDecision Addr.
Proof. solve_decision. Defined.

Definition addr_Is4 (a : Addr) : bool := match a with Addr4 _ => true | Addr6 _ _ => false end.
Definition addr_BitLen (a : Addr) : Z := match a with Addr4 _ => 32 | Addr6 _ _ => 128 end.
Definition addr_Zone (a : Addr) : string :=
  match a with Addr4 _ => EmptyString | Addr6 _ z => z end.

(** ** IPv4 dotted decimal *)

(** [parseIPv4Fields]: [val] and [dig] are the current octet and its digit
    count, [acc] the fields already read, [pos] of them. *)
Fixpoint parse_ipv4_fields (s : string) (val : Z) (dig : nat) (pos : nat) (acc : Z)
    : option Z :=
  match s with
  | EmptyString => if (pos <? 3)%nat then None else Some (acc * 256 + val)
  | String c rest =>
      if is_digit c then
        if (dig =? 1)%nat && (val =? 0) then None
        else let val := val * 10 + (code c - 48) in
             if 255 <? val then None else parse_ipv4_fields rest val (S dig) pos acc
      else if Ascii.eqb c "."%char then
        if (dig =? 0)%nat || String.eqb rest EmptyString then None
        else if (pos =? 3)%nat then None
        else parse_ipv4_fields rest 0 0 (S pos) (acc * 256 + val)
      else None
  end.

Definition parse_ipv4 (s : string) : option Z := parse_ipv4_fields s 0 0 0 0.

Definition octet (n : Z) (i : Z) : Z := u8 (Z.shiftr n i).

(** [Addr.String] of an IPv4 address. *)
Definition ipv4_String (n : Z) : string :=
  strconv_FormatUint (octet n 24) +:+ "." +:+ strconv_FormatUint (octet n 16) +:+ "." +:+
  strconv_FormatUint (octet n 8) +:+ "." +:+ strconv_FormatUint (octet n 0).

(** ** IPv6 *)

Definition hex_val (c : ascii) : option Z :=
  if is_digit c then Some (code c - 48)
  else if (97 <=? code c) && (code c <=? 102) then Some (code c - 87)
  else if (65 <=? code c) && (code c <=? 70) then Some (code c - 55)
  else None.

(** The hex digits at the head of [s]: their value, how many, and what
    follows; [None] when a fifth digit makes the group too long. *)
Fixpoint hex_group (s : string) (acc : Z) (off : nat) : option (Z * nat * string) :=
  match s with
  | EmptyString => Some (acc, off, s)
  | String c rest =>
      match hex_val c with
      | None => Some (acc, off, s)
      | Some d => if (3 <? off)%nat then None else hex_group rest (acc * 16 + d) (S off)
      end
  end.

(** The loop of [parseIPv6]: [groups] holds the 16-bit groups read so far
    (latest first), [ell] where the ellipsis was met.  Each round reads a group,
    so eight rounds fill the address. *)
Fixpoint parse_ipv6_loop (fuel : nat) (s : string) (groups : list Z) (ell : option nat)
    : option (list Z * option nat * string) :=
  match fuel with
  | O => Some (groups, ell, s)
  | S fuel =>
      '(acc, off, rest) ← hex_group s 0 0;
      if (off =? 0)%nat then None else
      match rest with
      | String "."%char _ =>
          if bool_decide (ell = None) && negb (length groups =? 6)%nat then None
          else if (6 <? length groups)%nat then None
          else v4 ← parse_ipv4 s;
               Some (v4 mod 65536 :: v4 / 65536 :: groups, ell, EmptyString)
      | EmptyString => Some (acc :: groups, ell, EmptyString)
      | String c rest' =>
          if negb (Ascii.eqb c ":"%char) then None else
          match rest' with
          | EmptyString => None
          | String ":"%char rest'' =>
              match ell with
              | Some _ => None
              | None =>
                  let ell := Some (S (length groups)) in
                  match rest'' with
                  | EmptyString => Some (acc :: groups, ell, EmptyString)
                  | _ => parse_ipv6_loop fuel rest'' (acc :: groups) ell
                  end
              end
          | _ => parse_ipv6_loop fuel rest' (acc :: groups) ell
          end
      end
  end.

Definition groups_value (gs : list Z) : Z := fold_left (fun a g => a * 65536 + g) gs 0.

Definition parse_ipv6 (input : string) : option Addr :=
  match (match strings_IndexByte "%"%char input with
         | None => Some (input, EmptyString)
         | Some i =>
             let zone := string_drop (S i) input in
             if String.eqb zone EmptyString then None else Some (string_take i input, zone)
         end) with
  | None => None
  | Some (s, zone) =>
      let '(s, ell, only) :=
        match strings_CutPrefix "::" s with
        | Some EmptyString => (EmptyString, Some 0%nat, true)
        | Some s' => (s', Some 0%nat, false)
        | None => (s, None, false)
        end in
      if only : bool then Some (Addr6 0 zone) else
      '(groups, ell, rest) ← parse_ipv6_loop 8 s [] ell;
      if negb (String.eqb rest EmptyString) then None else
      let gs := rev groups in
      if (length gs <? 8)%nat then
        match ell with
        | None => None
        | Some e =>
            Some (Addr6 (groups_value
                    (take e gs ++ replicate (8 - length gs) 0 ++ drop e gs)) zone)
        end
      else match ell with
           | Some _ => None
           | None => Some (Addr6 (groups_value gs) zone)
           end
  end.

(** [netip.ParseAddr]: the first of [.], [:] and [%] decides the family. *)
Fixpoint parse_addr_scan (whole s : string) : option Addr :=
  match s with
  | EmptyString => None
  | String c s =>
      if Ascii.eqb c "."%char then Addr4 <$> parse_ipv4 whole
      else if Ascii.eqb c ":"%char then parse_ipv6 whole
      else if Ascii.eqb c "%"%char then None
      else parse_addr_scan whole s
  end.
Definition netip_ParseAddr (s : string) : option Addr := parse_addr_scan s s.

(** ** Prefixes *)

Record Prefix := { pfx_Addr : Addr; pfx_Bits : Z }.

Definition netip_ParsePrefix (s : string) : option Prefix :=
  i ← strings_LastIndexByte "/"%char s;
  ip ← netip_ParseAddr (string_take i s);
  if negb (String.eqb (addr_Zone ip) EmptyString) then None else
  let bitsStr := string_drop (S i) s in
  let bad := match bitsStr with
             | String c (String _ _) => (code c <? 49) || (57 <? code c)
             | _ => false
             end in
  if bad : bool then None else
  bits ← strconv_Atoi bitsStr;
  if (bits <? 0) || (addr_BitLen ip <? bits) then None
  else Some {| pfx_Addr := ip; pfx_Bits := bits |}.

(** [n] with its low [k] bits cleared. *)
Definition clear_low (n k : Z) : Z := Z.shiftl (Z.shiftr n k) k.

Definition prefix_Masked (p : Prefix) : Prefix :=
  {| pfx_Addr := match pfx_Addr p with
                 | Addr4 n => Addr4 (clear_low n (32 - pfx_Bits p))
                 | Addr6 n z => Addr6 (clear_low n (128 - pfx_Bits p)) EmptyString
                 end;
     pfx_Bits := pfx_Bits p |}.

Definition prefix_Contains (p : Prefix) (a : Addr) : bool :=
  if negb (String.eqb (addr_Zone a) EmptyString) then false else
  match pfx_Addr p, a with
  | Addr4 n, Addr4 m => Z.shiftr (Z.lxor m n) (32 - pfx_Bits p) =? 0
  | Addr6 n _, Addr6 m _ => Z.shiftr (Z.lxor m n) (128 - pfx_Bits p) =? 0
  | _, _ => false
  end.

(** ** net.IP: both families in one 128-bit space *)

(** [As16]: an IPv4 address is its IPv4-mapped IPv6 address. *)
Definition addr_As16 (a : Addr) : Z :=
  match a with Addr4 n => Z.lor (Z.shiftl 65535 32) n | Addr6 n _ => n end.

(** [net.ParseIP]: the 16-byte form, zones refused. *)
Definition net_ParseIP (s : string) : option Z :=
  a ← netip_ParseAddr s;
  if String.eqb (addr_Zone a) EmptyString then Some (addr_As16 a) else None.

(** [dtoi]: the decimal prefix of [s], with what follows it. *)
Fixpoint dtoi (s : string) (n : Z) (i : nat) : option (Z * nat * string) :=
  match s with
  | String c rest =>
      if is_digit c then
        let n := n * 10 + (code c - 48) in
        if 16777215 <=? n then None else dtoi rest n (S i)
      else if (i =? 0)%nat then None else Some (n, i, s)
  | EmptyString => if (i =? 0)%nat then None else Some (n, i, s)
  end.

(** [net.IPNet]: the masked address, its mask length and the family's width. *)
Record IPNet := { ipnet_IP : Z; ipnet_Ones : Z; ipnet_Bits : Z }.

#[export] Instance IPNet_eq_dec : EqDecision IPNet.
Proof. solve_decision. Defined.

(** [net.ParseCIDR]'s second result; [ipnet_IP] is the family's own value (32
    or 128 bits), as [IP.Mask] keeps IPv4 results in 4-byte form. *)
Definition net_ParseCIDR (s : string) : option IPNet :=
  i ← strings_IndexByte "/"%char s;
  a ← netip_ParseAddr (string_take i s);
  if negb (String.eqb (addr_Zone a) EmptyString) then None else
  '(n, _, rest) ← dtoi (string_drop (S i) s) 0 0;
  if negb (String.eqb rest EmptyString) || (addr_BitLen a <? n) then None else
  Some {| ipnet_IP := clear_low (match a with Addr4 v => v | Addr6 v _ => v end)
                        (addr_BitLen a - n);
          ipnet_Ones := n; ipnet_Bits := addr_BitLen a |}.

(** [IP.To4] on the 16-byte form: IPv4-mapped addresses have a 4-byte form. *)
Definition ip_To4 (ip : Z) : option Z :=
  if Z.shiftr ip 32 =? 65535 then Some (Z.land ip 4294967295) else None.

(** [IPNet.Contains]: the address is compared in the family it reduces to. *)
Definition ipnet_Contains (n : IPNet) (ip : Z) : bool :=
  (* networkNumberAndMask: an IPv4-mapped IPv6 network counts as IPv4 *)
  let '(nn, ones, bits) :=
    if ipnet_Bits n =? 128 then
      match ip_To4 (ipnet_IP n) with
      | Some v4 => (v4, ipnet_Ones n - 96, 32)
      | None => (ipnet_IP n, ipnet_Ones n, 128)
      end
    else (ipnet_IP n, ipnet_Ones n, 32) in
  match ip_To4 ip with
  | Some v4 => (bits =? 32) && (clear_low v4 (32 - ones) =? clear_low nn (32 - ones))
  | None => (bits =? 128) && (clear_low ip (128 - ones) =? clear_low nn (128 - ones))
  end.

(** ** host:port *)

Definition net_SplitHostPort (hp : string) : option (string * string) :=
  i ← strings_LastIndexByte ":"%char hp;
  '(host, j, k) ←
    (if bool_decide (first_byte hp = Some "["%char) then
       e ← strings_IndexByte "]"%char hp;
       if (S e =? i)%nat then Some (string_drop 1 (string_take e hp), 1%nat, S e) else None
     else
       let host := string_take i hp in
       if contains_byte ":"%char host then None else Some (host, 0%nat, 0%nat));
  if contains_byte "["%char (string_drop j hp) then None
  else if contains_byte "]"%char (string_drop k hp) then None
  else Some (host, string_drop (S i) hp).

Definition net_JoinHostPort (host port : string) : string :=
  if contains_byte ":"%char host then "[" +:+ host +:+ "]:" +:+ port
  else host +:+ ":" +:+ port.

Example parse_v4 : netip_ParseAddr "10.42.0.7" = Some (Addr4 170524679).
Proof. reflexivity. Qed.
Example parse_v4_zero : netip_ParseAddr "10.042.0.7" = None.
Proof. reflexivity. Qed.
Example parse_v6 : netip_ParseAddr "fe80::1:2%eth0" = Some (Addr6 338288524927261089654018896841347760130 "eth0").
Proof. reflexivity. Qed.
Example split_v6 : net_SplitHostPort "[::1]:53" = Some ("::1", "53").
Proof. reflexivity. Qed.

(** ** IPv4 text: parsing and printing are inverse *)

Lemma octet_div n i : 0 <= i -> octet n i = n / 2 ^ i mod 256.
Proof. intros. unfold octet. by rewrite u8_mod, Z.shiftr_div_pow2. Qed.

Lemma octet_range n i : 0 <= octet n i < 256.
Proof. apply u8_range. Qed.

(** The four octets put back together. *)
Lemma octets_value n :
  0 <= n < 2 ^ 32 ->
  ((octet n 24 * 256 + octet n 16) * 256 + octet n 8) * 256 + octet n 0 = n.
Proof.
  intros. rewrite !octet_div by lia.
  change (2 ^ 24) with 16777216; change (2 ^ 16) with 65536;
  change (2 ^ 8) with 256; change (2 ^ 0) with 1 in *.
  change (2 ^ 32) with 4294967296 in *.
  Z.to_euclidean_division_equations. lia.
Qed.

Lemma octets_of a b c d :
  0 <= a < 256 -> 0 <= b < 256 -> 0 <= c < 256 -> 0 <= d < 256 ->
  let n := ((a * 256 + b) * 256 + c) * 256 + d in
  octet n 24 = a /\ octet n 16 = b /\ octet n 8 = c /\ octet n 0 = d.
Proof.
  intros ???? n. subst n. rewrite !octet_div by lia.
  change (2 ^ 24) with 16777216; change (2 ^ 16) with 65536;
  change (2 ^ 8) with 256; change (2 ^ 0) with 1.
  Z.to_euclidean_division_equations. lia.
Qed.

(** How the field scanner reads the digits of one octet. *)
Definition octet_text (val : Z) (dig : nat) : string :=
  if (dig =? 0)%nat then EmptyString else strconv_FormatUint val.

Definition octet_steps_ok : bool :=
  forallb (fun v => forallb (fun d =>
    let v := Z.of_nat v in let d := Z.of_nat d in
    ((v =? 0) && true || (255 <? v * 10 + d) ||
     String.eqb (strconv_FormatUint (v * 10 + d))
       (strconv_FormatUint v +:+ String (digit_char d) "")))
    (seq 0 10)) (seq 0 256).

Lemma octet_steps_ok_true : octet_steps_ok = true.
Proof. vm_compute. reflexivity. Qed.

Lemma octet_step v d :
  0 < v <= 255 -> 0 <= d < 10 -> v * 10 + d <= 255 ->
  strconv_FormatUint (v * 10 + d) = strconv_FormatUint v +:+ String (digit_char d) "".
Proof.
  intros Hv Hd Hvd. pose proof octet_steps_ok_true as H. unfold octet_steps_ok in H.
  rewrite forallb_forall in H. specialize (H (Z.to_nat v)).
  rewrite in_seq in H. specialize (H ltac:(lia)).
  rewrite forallb_forall in H. specialize (H (Z.to_nat d)).
  rewrite in_seq in H. specialize (H ltac:(lia)). cbv zeta in H.
  rewrite !Z2Nat.id in H by lia.
  apply orb_true_iff in H as [H|H]; [|by apply String.eqb_eq].
  apply orb_true_iff in H as [H|H]; bool_solve; lia.
Qed.

Lemma is_digit_code c : is_digit c = true -> 0 <= code c - 48 < 10.
Proof. unfold is_digit. intros. bool_solve. lia. Qed.

Lemma digit_char_of c : is_digit c = true -> digit_char (code c - 48) = c.
Proof.
  intros. unfold digit_char. replace (48 + (code c - 48)) with (code c) by lia.
  apply chr_code.
Qed.

Definition dotted (os : list Z) : string := strings_Join (strconv_FormatUint <$> os) ".".

Lemma scan_digit v d dig rest pos acc :
  0 <= v -> 0 <= d < 10 -> v * 10 + d < 256 -> (dig = 1%nat -> v <> 0) ->
  parse_ipv4_fields (String (digit_char d) rest) v dig pos acc
  = parse_ipv4_fields rest (v * 10 + d) (S dig) pos acc.
Proof.
  intros Hv Hd Hvd Hz. simpl. rewrite digit_char_digit, digit_char_code by lia.
  replace (v * 10 + (48 + d - 48)) with (v * 10 + d) by lia.
  destruct (Nat.eqb_spec dig 1), (Z.eqb_spec v 0); simpl; try (naive_solver lia);
    (destruct (Z.ltb_spec 255 (v * 10 + d)); [lia|done]).
Qed.

Lemma scan_octet o rest pos acc :
  0 <= o < 256 ->
  exists dig, dig <> 0%nat /\
    parse_ipv4_fields (strconv_FormatUint o +:+ rest) 0 0 pos acc
    = parse_ipv4_fields rest o dig pos acc.
Proof.
  intros Ho. set (q := o / 10). set (r := o mod 10). set (h := q / 10). set (t := q mod 10).
  assert (o = q * 10 + r /\ q = h * 10 + t /\ 0 <= r < 10 /\ 0 <= t < 10 /\ 0 <= h < 3)
    as (Eo & Eq & Hr & Ht & Hh).
  { subst h t q r. Z.to_euclidean_division_equations. lia. }
  destruct (decide (q = 0)) as [Hq|Hq].
  { exists 1%nat. split; [done|]. rewrite FormatUint_digit by lia.
    rewrite string_app_cons, string_app_nil, scan_digit by lia. f_equal. }
  rewrite Eo, octet_step, <- string_app_assoc, string_app_cons, string_app_nil by lia.
  destruct (decide (h = 0)) as [Hh0|Hh0].
  { exists 2%nat. split; [done|]. rewrite FormatUint_digit by lia.
    rewrite string_app_cons, string_app_nil, scan_digit by lia.
    rewrite (scan_digit (0 * 10 + q)) by lia. f_equal. }
  exists 3%nat. split; [done|].
  rewrite Eq, octet_step, <- string_app_assoc, string_app_cons, string_app_nil by lia.
  rewrite FormatUint_digit, string_app_cons, string_app_nil, scan_digit by lia.
  rewrite (scan_digit (0 * 10 + h)) by lia. rewrite scan_digit by lia. f_equal.
Qed.

Lemma parse_dotted_dot o rest pos acc dig :
  dig <> 0%nat -> rest <> EmptyString -> (pos < 3)%nat ->
  parse_ipv4_fields ("." +:+ rest) o dig pos acc
  = parse_ipv4_fields rest 0 0 (S pos) (acc * 256 + o).
Proof.
  intros Hd Hr Hp. change ("." +:+ rest) with (String "."%char rest). simpl.
  destruct dig; [done|]. simpl. destruct rest; [done|]. simpl.
  destruct pos as [|[|[|]]]; simpl; (done || lia).
Qed.

(** [ParseAddr] reads back what [String] prints. *)
Lemma parse_ipv4_String n : 0 <= n < 2 ^ 32 -> parse_ipv4 (ipv4_String n) = Some n.
Proof.
  intros Hn. unfold parse_ipv4, ipv4_String.
  assert (Hne : forall o r, 0 <= o -> strconv_FormatUint o +:+ r <> EmptyString).
  { intros o r Ho. destruct (FormatUint_head o Ho) as (c & s & -> & _). done. }
  destruct (scan_octet (octet n 24)
    ("." +:+ strconv_FormatUint (octet n 16) +:+ "." +:+ strconv_FormatUint (octet n 8) +:+ "." +:+
       strconv_FormatUint (octet n 0)) 0 0 (octet_range _ _)) as (d & Hd & ->).
  rewrite parse_dotted_dot by (try done; try lia; apply Hne, octet_range).
  destruct (scan_octet (octet n 16)
    ("." +:+ strconv_FormatUint (octet n 8) +:+ "." +:+ strconv_FormatUint (octet n 0))
    1 (0 * 256 + octet n 24) (octet_range _ _)) as (d2 & Hd2 & ->).
  rewrite parse_dotted_dot by (try done; try lia; apply Hne, octet_range).
  destruct (scan_octet (octet n 8) ("." +:+ strconv_FormatUint (octet n 0))
    2 ((0 * 256 + octet n 24) * 256 + octet n 16) (octet_range _ _)) as (d3 & Hd3 & ->).
  rewrite parse_dotted_dot; [|done| |lia].
  2:{ rewrite <- (string_app_nil_r (strconv_FormatUint _)). apply Hne, octet_range. }
  rewrite <- (string_app_nil_r (strconv_FormatUint (octet n 0))).
  destruct (scan_octet (octet n 0) EmptyString 3
    (((0 * 256 + octet n 24) * 256 + octet n 16) * 256 + octet n 8) (octet_range _ _))
    as (d4 & Hd4 & ->).
  simpl. f_equal. rewrite <- (octets_value n) at 5 by done. lia.
Qed.

Lemma parse_fields_dotted s val dig pos acc n :
  parse_ipv4_fields s val dig pos acc = Some n ->
  0 <= val <= 255 -> (pos <= 3)%nat ->
  (dig = 0%nat -> val = 0) -> (val = 0 -> (dig <= 1)%nat) ->
  (dig = 0%nat -> s <> EmptyString \/ (pos < 3)%nat) ->
  exists os, octet_text val dig +:+ s = dotted os /\ length os = (4 - pos)%nat /\
    Forall (fun o => 0 <= o < 256) os /\ n = fold_left (fun a o => a * 256 + o) os acc.
Proof.
  revert val dig pos acc. induction s as [|c s IH]; intros val dig pos acc; simpl.
  - intros H Hv Hp Hd Hz Hs. destruct (Nat.ltb_spec pos 3) as [|Hpos]; [done|].
    injection H as <-. assert (pos = 3%nat) as -> by lia.
    destruct dig; [naive_solver lia|]. exists [val]. simpl.
    rewrite string_app_nil_r. split_and!; [done|done| |done]. constructor; [lia|constructor].
  - destruct (is_digit c) eqn:Hc.
    + destruct ((dig =? 1)%nat && (val =? 0)) eqn:Hz1; [done|].
      destruct (Z.ltb_spec 255 (val * 10 + (code c - 48))) as [|Hv']; [done|].
      pose proof (is_digit_code c Hc) as Hd10.
      intros H Hv Hp Hd Hz _. apply IH in H; [|lia|lia|done| |done].
      2:{ intros E. assert (val = 0) as -> by lia.
          destruct dig as [|[|]]; [lia|done|specialize (Hz eq_refl); lia]. }
      destruct H as (os & E & Hrest). exists os. split; [|done]. rewrite <- E.
      destruct dig as [|dig]; simpl.
      * rewrite (Hd eq_refl). replace (0 * 10 + (code c - 48)) with (code c - 48) by lia.
        unfold octet_text. simpl. rewrite FormatUint_digit, digit_char_of by (done || lia). done.
      * assert (val <> 0).
        { intros ->. specialize (Hz eq_refl). assert (dig = 0%nat) as -> by lia. done. }
        unfold octet_text. simpl. rewrite octet_step, digit_char_of by (done || lia).
        by rewrite <- string_app_assoc.
    + destruct (Ascii.eqb c ".") eqn:Hdot; [|done]. apply Ascii.eqb_eq in Hdot as ->.
      destruct (Nat.eqb_spec dig 0) as [|Hdig]; [done|]. simpl.
      destruct (String.eqb_spec s EmptyString) as [|Hs]; [done|].
      destruct (Nat.eqb_spec pos 3); [done|].
      intros H Hv Hp Hd Hz _. apply IH in H; [|lia|lia|done|lia|by left].
      destruct H as (os & E & Hl & Hf & ->). exists (val :: os).
      assert (os <> []) by (intros ->; simpl in Hl; lia).
      split; [|split; [simpl; lia|split; [constructor; [lia|done]|done]]].
      unfold dotted in *. rewrite fmap_cons. destruct os as [|o os]; [done|].
      simpl. simpl in E. unfold octet_text in *. simpl in E. rewrite string_app_nil in E.
      destruct dig; [done|]. rewrite E. done.
Qed.

(** An IPv4 string [ParseAddr] accepts is the canonical text of its value. *)
Lemma parse_ipv4_canonical s n :
  parse_ipv4 s = Some n -> 0 <= n < 2 ^ 32 /\ s = ipv4_String n.
Proof.
  intros H. apply parse_fields_dotted in H; [|lia|lia|done|lia|intros _; right; lia].
  destruct H as (os & E & Hl & Hf & ->). change (octet_text 0 0 +:+ s) with s in E. subst s.
  destruct os as [|a [|b [|c [|d [|]]]]]; try (simpl in Hl; lia).
  rewrite !Forall_cons in Hf. destruct Hf as (Ha & Hb & Hc & Hd & _).
  replace (fold_left (fun a o => a * 256 + o) [a; b; c; d] 0)
    with (((a * 256 + b) * 256 + c) * 256 + d) by (cbn -[Z.mul]; lia).
  destruct (octets_of a b c d Ha Hb Hc Hd) as (E1 & E2 & E3 & E4).
  split; [lia|]. unfold ipv4_String. by rewrite E1, E2, E3, E4.
Qed.

Lemma scan_digits_dot whole s rest :
  string_forallb is_digit s = true ->
  parse_addr_scan whole (s +:+ String "."%char rest) = Addr4 <$> parse_ipv4 whole.
Proof.
  induction s as [|d s IH]; [done|]. simpl. intros H. bool_solve.
  rewrite ?string_app_cons. simpl.
  destruct (Ascii.eqb_spec d "."); [by subst|].
  destruct (Ascii.eqb_spec d ":"); [by subst|].
  destruct (Ascii.eqb_spec d "%"); [by subst|]. by apply IH.
Qed.

Lemma parse_ipv6_Addr6 s a : parse_ipv6 s = Some a -> exists ip z, a = Addr6 ip z.
Proof.
  unfold parse_ipv6.
  destruct (match strings_IndexByte _ _ with Some _ => _ | None => _ end)
    as [[r zone]|]; [|done].
  destruct (match strings_CutPrefix _ _ with Some _ => _ | None => _ end)
    as [[t ell] [|]]; [naive_solver|].
  destruct (parse_ipv6_loop 8 t [] ell) as [[[gs e] rest]|]; [|done]. simpl.
  destruct (negb _); [done|]. destruct (length (rev gs) <? 8)%nat, e; naive_solver.
Qed.

Lemma ParseAddr_Addr4 s n :
  netip_ParseAddr s = Some (Addr4 n) <-> parse_ipv4 s = Some n.
Proof.
  split.
  - unfold netip_ParseAddr. generalize s at 2 as r. induction r as [|c r IH]; [done|].
    simpl. repeat case_match; try done.
    + destruct (parse_ipv4 s); naive_solver.
    + intros H'. apply parse_ipv6_Addr6 in H'. naive_solver.
  - intros H. pose proof (parse_ipv4_canonical _ _ H) as [Hn E].
    unfold netip_ParseAddr. rewrite E at 2. unfold ipv4_String.
    change ("." +:+ ?x) with (String "."%char x).
    rewrite scan_digits_dot; [by rewrite H|]. apply FormatUint_digits, octet_range.
Qed.

(** The IPv4 value of a string, when [ParseAddr] accepts it as IPv4: the test
    [err != nil || !ip.Is4()] of the callers. *)
Definition parse_is4 (s : string) : option Z :=
  match netip_ParseAddr s with Some (Addr4 n) => Some n | _ => None end.

Lemma parse_is4_Some s n : parse_is4 s = Some n <-> parse_ipv4 s = Some n.
Proof.
  rewrite <- ParseAddr_Addr4. unfold parse_is4.
  destruct (netip_ParseAddr s) as [[]|]; naive_solver.
Qed.

Lemma parse_is4_String n : 0 <= n < 2 ^ 32 -> parse_is4 (ipv4_String n) = Some n.
Proof. intros. by apply parse_is4_Some, parse_ipv4_String. Qed.

Lemma parse_is4_canonical s n :
  parse_is4 s = Some n -> 0 <= n < 2 ^ 32 /\ s = ipv4_String n.
Proof. intros H%parse_is4_Some. by apply parse_ipv4_canonical. Qed.

Lemma parse_is4_inj s t n : parse_is4 s = Some n -> parse_is4 t = Some n -> s = t.
Proof.
  intros [_ ->]%parse_is4_canonical [_ ->]%parse_is4_canonical. done.
Qed.

(** Membership in an IPv4 prefix: the addresses agree above the host bits. *)
Lemma prefix_Contains_4 net bits m :
  0 <= bits <= 32 ->
  prefix_Contains {| pfx_Addr := Addr4 net; pfx_Bits := bits |} (Addr4 m) = true
  <-> m / 2 ^ (32 - bits) = net / 2 ^ (32 - bits).
Proof.
  intros Hb. unfold prefix_Contains. cbn [addr_Zone pfx_Addr pfx_Bits].
  rewrite String.eqb_refl. cbn [negb]. rewrite Z.eqb_eq, Z.shiftr_lxor, Z.lxor_eq_0_iff.
  by rewrite !Z.shiftr_div_pow2 by lia.
Qed.

Lemma ParsePrefix_bits4 s ip bits :
  netip_ParsePrefix s = Some {| pfx_Addr := Addr4 ip; pfx_Bits := bits |} -> 0 <= bits <= 32.
Proof.
  unfold netip_ParsePrefix. intros H.
  destruct (strings_LastIndexByte _ _) as [i|]; [|done]. simpl in H.
  destruct (netip_ParseAddr _) as [a|]; [|done]. simpl in H.
  destruct (negb _); [done|].
  destruct (match string_drop (S i) s with String c (String _ _) => _ | _ => _ end); [done|].
  destruct (strconv_Atoi _) as [b|]; [|done]. simpl in H.
  destruct (_ || _) eqn:Eb; [done|]. injection H as -> ->.
  apply orb_false_iff in Eb as [? Hm]. simpl in Hm. lia.
Qed.

Lemma ParsePrefix_addr4 s ip bits :
  netip_ParsePrefix s = Some {| pfx_Addr := Addr4 ip; pfx_Bits := bits |} -> 0 <= ip < 2 ^ 32.
Proof.
  unfold netip_ParsePrefix. intros H.
  destruct (strings_LastIndexByte _ _) as [i|]; [|done]. simpl in H.
  destruct (netip_ParseAddr _) as [a|] eqn:Ea; [|done]. simpl in H.
  destruct (negb _); [done|].
  destruct (match string_drop (S i) s with String c (String _ _) => _ | _ => _ end); [done|].
  destruct (strconv_Atoi _) as [b|]; [|done]. simpl in H.
  destruct (_ || _) eqn:Eb; [done|]. injection H as -> ->.
  apply ParseAddr_Addr4, parse_ipv4_canonical in Ea. apply Ea.
Qed.

Lemma clear_low_div n k : 0 <= k -> clear_low n k = n / 2 ^ k * 2 ^ k.
Proof. intros. unfold clear_low. by rewrite Z.shiftl_mul_pow2, Z.shiftr_div_pow2. Qed.

(** The characters of a printed IPv4 address. *)
Definition dotted_char (c : ascii) : bool := is_digit c || Ascii.eqb c ".".

Lemma ipv4_String_chars n : string_forallb dotted_char (ipv4_String n) = true.
Proof.
  assert (Hf : forall i, string_forallb dotted_char (strconv_FormatUint (octet n i)) = true).
  { intros i. eapply string_forallb_mono; [|apply FormatUint_digits, octet_range].
    intros c Hc. unfold dotted_char. by rewrite Hc. }
  unfold ipv4_String. rewrite !forallb_app, !Hf. done.
Qed.

Lemma ipv4_String_lacks c n : dotted_char c = false -> lacks c (ipv4_String n) = true.
Proof.
  intros Hc. unfold lacks. eapply string_forallb_mono; [|apply ipv4_String_chars].
  intros d Hd. destruct (Ascii.eqb d c) eqn:E; [|done]. apply Ascii.eqb_eq in E as ->. congruence.
Qed.

Definition host_net (n : Z) : IPNet := {| ipnet_IP := n; ipnet_Ones := 32; ipnet_Bits := 32 |}.

Lemma clear_low_0 n : clear_low n 0 = n.
Proof. unfold clear_low. by rewrite Z.shiftr_0_r, Z.shiftl_0_r. Qed.

(** The network of a single host, as [/32] of its address. *)
Lemma ParseCIDR_host s n : parse_is4 s = Some n -> net_ParseCIDR (s +:+ "/32") = Some (host_net n).
Proof.
  intros Hs. pose proof (parse_is4_canonical _ _ Hs) as [_ E].
  assert (Hd : string_drop (S (String.length s)) (s +:+ "/32") = "32").
  { clear. induction s as [|c s IH]; [done|]. rewrite string_app_cons. exact IH. }
  apply parse_is4_Some, ParseAddr_Addr4 in Hs.
  unfold net_ParseCIDR. rewrite (IndexByte_app "/" s "32") by (rewrite E; by apply ipv4_String_lacks).
  cbn [mbind option_bind]. rewrite string_take_app, Hs, Hd.
  change (dtoi "32" 0 0) with (Some (32, 2%nat, "")). cbn -[clear_low].
  change (32 - 32) with 0. by rewrite clear_low_0.
Qed.

(** ** Classification and printing of [net.IP] values (16-byte form) *)

Definition ip_Unspecified4 : Z := Z.shiftl 65535 32.
Definition ip_byte (ip : Z) (i : Z) : Z := u8 (Z.shiftr ip (120 - 8 * i)).

Definition ip_IsUnspecified (ip : Z) : bool := (ip =? ip_Unspecified4) || (ip =? 0).
Definition ip_IsLoopback (ip : Z) : bool :=
  match ip_To4 ip with Some v => octet v 24 =? 127 | None => ip =? 1 end.
Definition ip_IsMulticast (ip : Z) : bool :=
  match ip_To4 ip with
  | Some v => Z.land (octet v 24) 240 =? 224
  | None => ip_byte ip 0 =? 255
  end.
Definition ip_IsLinkLocalMulticast (ip : Z) : bool :=
  match ip_To4 ip with
  | Some v => (octet v 24 =? 224) && (octet v 16 =? 0) && (octet v 8 =? 0)
  | None => (ip_byte ip 0 =? 255) && (Z.land (ip_byte ip 1) 15 =? 2)
  end.
Definition ip_IsLinkLocalUnicast (ip : Z) : bool :=
  match ip_To4 ip with
  | Some v => (octet v 24 =? 169) && (octet v 16 =? 254)
  | None => (ip_byte ip 0 =? 254) && (Z.land (ip_byte ip 1) 192 =? 128)
  end.

(** The eight 16-bit groups, and the leftmost longest run of at least two zeros. *)
Definition ip_groups (ip : Z) : list Z :=
  (fun i => u16 (Z.shiftr ip (112 - 16 * Z.of_nat i))) <$> seq 0 8.
Fixpoint zero_run (gs : list Z) : nat :=
  match gs with 0 :: r => S (zero_run r) | _ => O end.
Definition best_run (gs : list Z) : nat * nat :=
  fold_left (fun '(s, l) i => let n := zero_run (drop i gs) in
               if (l <? n)%nat && (2 <=? n)%nat then (i, n) else (s, l)) (seq 0 8) (0%nat, 0%nat).

Fixpoint hex_digits (fuel : nat) (n : Z) (acc : string) : string :=
  match fuel with
  | O => acc
  | S f =>
      let d := n mod 16 in
      let acc := String (chr (if d <? 10 then 48 + d else 87 + d)) acc in
      if n / 16 =? 0 then acc else hex_digits f (n / 16) acc
  end.

Definition ipv6_String (ip : Z) : string :=
  let gs := ip_groups ip in
  let '(s, l) := best_run gs in
  let hex gs := strings_Join ((fun g => hex_digits 4 g "") <$> gs) ":" in
  if (l =? 0)%nat then hex gs else hex (take s gs) +:+ "::" +:+ hex (drop (s + l) gs).

(** [IP.String]. *)
Definition ip_String (ip : Z) : string :=
  match ip_To4 ip with Some v => ipv4_String v | None => ipv6_String ip end.

Example ip_String_v6 : ip_String <$> net_ParseIP "FE80:0:0:1::2" = Some "fe80:0:0:1::2".
Proof. vm_compute. reflexivity. Qed.
Example ip_String_v6b : ip_String <$> net_ParseIP "2001:db8:0:1:1:1:1:0" = Some "2001:db8:0:1:1:1:1:0".
Proof. vm_compute. reflexivity. Qed.
Example ip_String_v4 : ip_String <$> net_ParseIP "10.1.2.3" = Some "10.1.2.3".
Proof. vm_compute. reflexivity. Qed.
