(* ===== verification/GoBase64.v ===== *)
(** * GoBase64: encoding/base64 and encoding/hex as the program uses them

    [StdEncoding] (padded) and [RawURLEncoding] (unpadded), with the decoder's
    tolerance for line breaks and for non-zero trailing bits, and lower-case
    hex. *)
From stdpp Require Import base tactics option list strings gmap.
From Stdlib Require Import Ascii ZArith Lia.
From S2P Require Import Prelude GoStrings GoNum.
Open Scope Z_scope.

Inductive Encoding := StdEncoding | RawURLEncoding.

Definition b64_char (e : Encoding) (v : Z) : ascii :=
  if v <? 26 then chr (65 + v)
  else if v <? 52 then chr (97 + (v - 26))
  else if v <? 62 then chr (48 + (v - 52))
  else match e with
       | StdEncoding => if v =? 62 then "+"%char else "/"%char
       | RawURLEncoding => if v =? 62 then "-"%char else "_"%char
       end.

Definition b64_val (e : Encoding) (c : ascii) : option Z :=
  if is_upper c then Some (code c - 65)
  else if is_lower c then Some (code c - 97 + 26)
  else if is_digit c then Some (code c - 48 + 52)
  else match e with
       | StdEncoding => if Ascii.eqb c "+" then Some 62 else if Ascii.eqb c "/" then Some 63 else None
       | RawURLEncoding => if Ascii.eqb c "-" then Some 62 else if Ascii.eqb c "_" then Some 63 else None
       end.

Definition b64_pad (e : Encoding) (n : nat) : string :=
  match e, n with
  | StdEncoding, 1%nat => "="
  | StdEncoding, 2%nat => "=="
  | _, _ => ""
  end.

Fixpoint base64_Encode (e : Encoding) (s : string) : string :=
  match s with
  | EmptyString => EmptyString
  | String a EmptyString =>
      String (b64_char e (code a / 4)) (String (b64_char e (code a mod 4 * 16)) (b64_pad e 2))
  | String a (String b EmptyString) =>
      String (b64_char e (code a / 4))
        (String (b64_char e (code a mod 4 * 16 + code b / 16))
          (String (b64_char e (code b mod 16 * 4)) (b64_pad e 1)))
  | String a (String b (String c r)) =>
      String (b64_char e (code a / 4))
        (String (b64_char e (code a mod 4 * 16 + code b / 16))
          (String (b64_char e (code b mod 16 * 4 + code c / 64))
            (String (b64_char e (code c mod 64)) (base64_Encode e r))))
  end.

(** The decoder skips carriage returns and newlines wherever they stand. *)
Fixpoint b64_strip (s : string) : string :=
  match s with
  | EmptyString => EmptyString
  | String c s =>
      if (code c =? 10) || (code c =? 13) then b64_strip s else String c (b64_strip s)
  end.

Definition b64_1 (x y : Z) : ascii := chr (x * 4 + y / 16).
Definition b64_2 (y z : Z) : ascii := chr (y mod 16 * 16 + z / 4).
Definition b64_3 (z w : Z) : ascii := chr (z mod 4 * 64 + w).

Definition is_pad (e : Encoding) (c : ascii) : bool :=
  match e with StdEncoding => Ascii.eqb c "=" | RawURLEncoding => false end.

Fixpoint b64_decode (e : Encoding) (s : string) : option string :=
  match s with
  | EmptyString => Some EmptyString
  | String a (String b (String c (String d r))) =>
      x ← b64_val e a; y ← b64_val e b;
      if is_pad e c && is_pad e d && String.eqb r EmptyString
      then Some (String (b64_1 x y) "")
      else
        z ← b64_val e c;
        if is_pad e d && String.eqb r EmptyString
        then Some (String (b64_1 x y) (String (b64_2 y z) ""))
        else
          w ← b64_val e d; t ← b64_decode e r;
          Some (String (b64_1 x y) (String (b64_2 y z) (String (b64_3 z w) t)))
  | String a (String b (String c EmptyString)) =>
      match e with
      | StdEncoding => None
      | RawURLEncoding =>
          x ← b64_val e a; y ← b64_val e b; z ← b64_val e c;
          Some (String (b64_1 x y) (String (b64_2 y z) ""))
      end
  | String a (String b EmptyString) =>
      match e with
      | StdEncoding => None
      | RawURLEncoding =>
          x ← b64_val e a; y ← b64_val e b; Some (String (b64_1 x y) "")
      end
  | String _ EmptyString => None
  end.

Definition base64_Decode (e : Encoding) (s : string) : option string :=
  b64_decode e (b64_strip s).

(** [hex.EncodeToString] and [hex.DecodeString]. *)
Definition hex_digit (v : Z) : ascii := if v <? 10 then chr (48 + v) else chr (87 + v).
Fixpoint hex_Encode (s : string) : string :=
  match s with
  | EmptyString => EmptyString
  | String c s => String (hex_digit (code c / 16)) (String (hex_digit (code c mod 16)) (hex_Encode s))
  end.
Definition hex_nibble (c : ascii) : option Z :=
  if is_digit c then Some (code c - 48)
  else if (97 <=? code c) && (code c <=? 102) then Some (code c - 87)
  else if (65 <=? code c) && (code c <=? 70) then Some (code c - 55)
  else None.
Fixpoint hex_Decode (s : string) : option string :=
  match s with
  | EmptyString => Some EmptyString
  | String a (String b s) =>
      x ← hex_nibble a; y ← hex_nibble b; t ← hex_Decode s;
      Some (String (chr (x * 16 + y)) t)
  | String _ EmptyString => None
  end.

(** ** Round trips *)

Lemma all_below (n : nat) (p : Z -> bool) :
  forallb (fun i => p (Z.of_nat i)) (seq 0 n) = true ->
  forall v, 0 <= v < Z.of_nat n -> p v = true.
Proof.
  intros H v Hv. rewrite forallb_forall in H. specialize (H (Z.to_nat v)).
  rewrite in_seq in H. rewrite Z2Nat.id in H by lia. apply H. lia.
Qed.

Lemma b64_val_char e v : 0 <= v < 64 -> b64_val e (b64_char e v) = Some v.
Proof.
  intros Hv.
  assert (match b64_val e (b64_char e v) with Some w => w =? v | None => false end = true) as H.
  { apply (all_below 64 (fun v =>
      match b64_val e (b64_char e v) with Some w => w =? v | None => false end)); [|done].
    by destruct e; vm_compute. }
  destruct (b64_val e (b64_char e v)); [|done]. bool_solve. by subst.
Qed.

(** Alphabet characters are neither line breaks, padding, nor separators. *)
Definition b64_plain (c : ascii) : bool :=
  negb (is_space c) && negb (Ascii.eqb c "=") && negb (Ascii.eqb c ";") && is_ascii c.

Lemma b64_char_plain e v : 0 <= v < 64 -> b64_plain (b64_char e v) = true.
Proof.
  intros Hv. apply (all_below 64 (fun v => b64_plain (b64_char e v))); [|done].
  by destruct e; vm_compute.
Qed.

Lemma b64_strip_char e v s :
  0 <= v < 64 -> b64_strip (String (b64_char e v) s) = String (b64_char e v) (b64_strip s).
Proof.
  intros Hv%(b64_char_plain e). unfold b64_plain in Hv. bool_solve.
  unfold is_space in *. simpl.
  destruct (Z.eqb_spec (code (b64_char e v)) 10) as [E|]; [rewrite E in *; done|].
  destruct (Z.eqb_spec (code (b64_char e v)) 13) as [E|]; [rewrite E in *; done|]. done.
Qed.

Lemma b64_strip_pad e n : b64_strip (b64_pad e n) = b64_pad e n.
Proof. by destruct e, n as [|[|[|]]]. Qed.

Ltac code_lia :=
  repeat match goal with
  | |- context [code ?c] =>
      lazymatch goal with
      | H : 0 <= code c < 256 |- _ => fail
      | _ => pose proof (code_range c)
      end
  end; Z.to_euclidean_division_equations; lia.

Lemma b64_r1 a : 0 <= code a / 4 < 64. Proof. code_lia. Qed.
Lemma b64_r2 a b : 0 <= code a mod 4 * 16 + code b / 16 < 64. Proof. code_lia. Qed.
Lemma b64_r2' a : 0 <= code a mod 4 * 16 < 64. Proof. code_lia. Qed.
Lemma b64_r3 b c : 0 <= code b mod 16 * 4 + code c / 64 < 64. Proof. code_lia. Qed.
Lemma b64_r3' b : 0 <= code b mod 16 * 4 < 64. Proof. code_lia. Qed.
Lemma b64_r4 c : 0 <= code c mod 64 < 64. Proof. code_lia. Qed.
Lemma b64_1_eq a k : 0 <= k < 16 -> b64_1 (code a / 4) (code a mod 4 * 16 + k) = a.
Proof.
  intros. unfold b64_1. rewrite <- (chr_code a) at 3. f_equal. code_lia.
Qed.
Lemma b64_2_eq b k m :
  0 <= k < 4 -> b64_2 (m * 16 + code b / 16) (code b mod 16 * 4 + k) = b.
Proof.
  intros. unfold b64_2. rewrite <- (chr_code b) at 3. f_equal.
  pose proof (code_range b).
  replace ((m * 16 + code b / 16) mod 16) with (code b / 16).
  - Z.to_euclidean_division_equations; lia.
  - rewrite Z.add_comm, Z_mod_plus_full. symmetry. apply Z.mod_small.
    Z.to_euclidean_division_equations; lia.
Qed.
Lemma b64_3_eq c m : b64_3 (m * 4 + code c / 64) (code c mod 64) = c.
Proof.
  unfold b64_3. rewrite <- (chr_code c) at 3. f_equal. pose proof (code_range c).
  replace ((m * 4 + code c / 64) mod 4) with (code c / 64).
  - Z.to_euclidean_division_equations; lia.
  - rewrite Z.add_comm, Z_mod_plus_full. symmetry. apply Z.mod_small.
    Z.to_euclidean_division_equations; lia.
Qed.

Lemma b64_val_not_pad e c v : b64_val e c = Some v -> is_pad e c = false.
Proof. destruct e; [|done]. intros H. apply Ascii.eqb_neq. by intros ->. Qed.

Lemma b64_decode_4 e a b c d r x y z w :
  b64_val e a = Some x -> b64_val e b = Some y -> b64_val e c = Some z ->
  b64_val e d = Some w ->
  b64_decode e (String a (String b (String c (String d r))))
  = t ← b64_decode e r;
    Some (String (b64_1 x y) (String (b64_2 y z) (String (b64_3 z w) t))).
Proof.
  intros Ha Hb Hc Hd. cbn [b64_decode]. rewrite Ha, Hb. cbn [mbind option_bind].
  rewrite (b64_val_not_pad _ _ _ Hc), (b64_val_not_pad _ _ _ Hd). cbn [andb].
  by rewrite Hc, Hd.
Qed.

(** Strings are encoded three bytes at a time. *)
Lemma string_ind3 (P : string -> Prop) :
  P EmptyString -> (forall a, P (String a "")) -> (forall a b, P (String a (String b ""))) ->
  (forall a b c r, P r -> P (String a (String b (String c r)))) -> forall s, P s.
Proof.
  intros H0 H1 H2 H3. fix IH 1. intros [|a [|b [|c r]]]; [exact H0|apply H1|apply H2|apply H3, IH].
Qed.

Lemma b64_strip_encode e s : b64_strip (base64_Encode e s) = base64_Encode e s.
Proof.
  induction s as [|a|a b|a b c r IH] using string_ind3; cbn [base64_Encode]; [done|..];
    rewrite !b64_strip_char by auto using b64_r1, b64_r2, b64_r2', b64_r3, b64_r3', b64_r4;
    rewrite ?b64_strip_pad, ?IH; done.
Qed.

(** Decoding an encoded byte string gives it back, in both encodings. *)
Lemma base64_Decode_Encode e s : base64_Decode e (base64_Encode e s) = Some s.
Proof.
  unfold base64_Decode. rewrite b64_strip_encode.
  induction s as [|a|a b|a b c r IH] using string_ind3; cbn [base64_Encode]; [done|..].
  - pose proof (b64_1_eq a 0 ltac:(lia)) as E. rewrite Z.add_0_r in E.
    destruct e; simpl; rewrite !b64_val_char by auto using b64_r1, b64_r2'; simpl;
      by rewrite E.
  - pose proof (b64_1_eq a (code b / 16)) as E1.
    pose proof (b64_2_eq b 0 (code a mod 4) ltac:(lia)) as E2. rewrite Z.add_0_r in E2.
    assert (0 <= code b / 16 < 16) as Hb
      by (pose proof (code_range b); Z.to_euclidean_division_equations; lia).
    pose proof (b64_val_not_pad e _ _ (b64_val_char e _ (b64_r3' b))) as Hne.
    destruct e; cbn [b64_pad b64_decode]; rewrite ?Hne;
      rewrite !b64_val_char by auto using b64_r1, b64_r2, b64_r3'; simpl; by rewrite E1, E2.
  - rewrite (b64_decode_4 e _ _ _ _ _ (code a / 4) (code a mod 4 * 16 + code b / 16)
      (code b mod 16 * 4 + code c / 64) (code c mod 64))
      by (apply b64_val_char; auto using b64_r1, b64_r2, b64_r3, b64_r4).
    rewrite IH. simpl. rewrite b64_1_eq, b64_2_eq, b64_3_eq; [done|..];
      pose proof (code_range b); pose proof (code_range c);
      Z.to_euclidean_division_equations; lia.
Qed.

Lemma base64_Encode_plain e s :
  string_forallb (fun c => b64_plain c || Ascii.eqb c "=") (base64_Encode e s) = true.
Proof.
  assert (Hp : forall n, string_forallb (fun c => b64_plain c || Ascii.eqb c "=") (b64_pad e n) = true).
  { intros n. by destruct e, n as [|[|[|]]]. }
  induction s as [|a|a b|a b c r IH] using string_ind3; cbn [base64_Encode string_forallb];
    [done|..];
    rewrite !b64_char_plain by auto using b64_r1, b64_r2, b64_r2', b64_r3, b64_r3', b64_r4;
    rewrite ?Hp, ?IH; done.
Qed.

Lemma hex_byte c : hex_nibble (hex_digit (code c / 16)) = Some (code c / 16) /\
  hex_nibble (hex_digit (code c mod 16)) = Some (code c mod 16) /\
  chr (code c / 16 * 16 + code c mod 16) = c.
Proof. destruct c as [[] [] [] [] [] [] [] []]; repeat split; reflexivity. Qed.

Lemma hex_Decode_Encode s : hex_Decode (hex_Encode s) = Some s.
Proof.
  induction s as [|c s IH]; [done|]. cbn [hex_Encode hex_Decode].
  destruct (hex_byte c) as (-> & -> & Hc). rewrite IH. simpl. by rewrite Hc.
Qed.

Lemma hex_nibble_lacks (d c : ascii) v : hex_nibble d = None -> hex_nibble c = Some v -> Ascii.eqb c d = false.
Proof. intros Hd Hc. apply Ascii.eqb_neq. intros ->. congruence. Qed.

Lemma hex_Decode_lacks d s b : hex_nibble d = None -> hex_Decode s = Some b -> lacks d s = true.
Proof.
  intros Hd. revert b. apply (well_founded_induction_type (Wf_nat.well_founded_ltof _ String.length) (fun s => forall b, hex_Decode s = Some b -> lacks d s = true)).
  clear s. intros [|x [|y s]] IH b; [done|done|]. cbn [hex_Decode].
  destruct (hex_nibble x) eqn:Ex; [|done]. destruct (hex_nibble y) eqn:Ey; [|done].
  destruct (hex_Decode s) as [t|] eqn:Es; [|done]. intros _. unfold lacks. cbn [string_forallb].
  rewrite (hex_nibble_lacks d x z), (hex_nibble_lacks d y z0) by done. simpl.
  apply (IH s) with t; [|done]. unfold Wf_nat.ltof. simpl. lia.
Qed.
