(* ===== verification/GoUtf8.v ===== *)
(** * GoUtf8: Go's packages unicode/utf8 and strconv on runes

    Decoding and counting runes, and the quoting of the [%q] verb, on arbitrary
    bytes.  Which runes beyond ASCII are printable is a table of the library, a
    field of [PrintTable]. *)
From stdpp Require Import base tactics option list strings gmap.
From Stdlib Require Import Ascii ZArith Lia.
From S2P Require Import Prelude GoStrings GoNum.
Open Scope Z_scope.

Class PrintTable := { uc_IsPrint : Z -> bool }.

(** ** Runes *)

Definition RuneError : Z := 65533.

(** The leading bytes: the length of the sequence they start, and the range of the
    byte that follows. *)
Definition lead (x : Z) : option (nat * Z * Z) :=
  if (194 <=? x) && (x <=? 223) then Some (2%nat, 128, 191)
  else if x =? 224 then Some (3%nat, 160, 191)
  else if x =? 237 then Some (3%nat, 128, 159)
  else if (225 <=? x) && (x <=? 239) then Some (3%nat, 128, 191)
  else if x =? 240 then Some (4%nat, 144, 191)
  else if x =? 244 then Some (4%nat, 128, 143)
  else if (241 <=? x) && (x <=? 243) then Some (4%nat, 128, 191)
  else None.

Definition between (lo hi : Z) (c : ascii) : bool := (lo <=? code c) && (code c <=? hi).

(** [DecodeRuneInString]: the first rune and its width. *)
Definition utf8_DecodeRune (s : string) : Z * nat :=
  let bad := (RuneError, 1%nat) in
  match s with
  | EmptyString => (RuneError, 0%nat)
  | String c0 t0 =>
      if code c0 <? 128 then (code c0, 1%nat) else
      match lead (code c0), t0 with
      | Some (n, lo, hi), String c1 t1 =>
          if between lo hi c1 then
            if Nat.eqb n 2 then (code c0 mod 32 * 64 + code c1 mod 64, 2%nat) else
            match t1 with
            | String c2 t2 =>
                if between 128 191 c2 then
                  if Nat.eqb n 3 then ((code c0 mod 16 * 64 + code c1 mod 64) * 64 + code c2 mod 64, 3%nat) else
                  match t2 with
                  | String c3 _ =>
                      if between 128 191 c3
                      then (((code c0 mod 8 * 64 + code c1 mod 64) * 64 + code c2 mod 64) * 64 + code c3 mod 64, 4%nat)
                      else bad
                  | EmptyString => bad
                  end
                else bad
            | EmptyString => bad
            end
          else bad
      | _, _ => bad
      end
  end.

(** [AppendRune]. *)
Definition utf8_AppendRune (r : Z) : string :=
  let three r := String (chr (224 + r / 4096)) (String (chr (128 + r / 64 mod 64)) (String (chr (128 + r mod 64)) "")) in
  if r <? 128 then String (chr r) ""
  else if r <? 2048 then String (chr (192 + r / 64)) (String (chr (128 + r mod 64)) "")
  else if (1114111 <? r) || ((55296 <=? r) && (r <=? 57343)) then three RuneError
  else if r <? 65536 then three r
  else String (chr (240 + r / 262144)) (String (chr (128 + r / 4096 mod 64)) (String (chr (128 + r / 64 mod 64)) (String (chr (128 + r mod 64)) ""))).

(** [RuneCountInString]; [skip] bytes belong to the rune before. *)
Fixpoint rune_count (skip : nat) (s : string) : nat :=
  match s with
  | EmptyString => 0
  | String _ t =>
      match skip with
      | S k => rune_count k t
      | O => S (rune_count (pred (utf8_DecodeRune s).2) t)
      end
  end.
Definition utf8_RuneCount (s : string) : Z := Z.of_nat (rune_count 0 s).

Example rune_count_ex : utf8_RuneCount (String (chr 226) (String (chr 128) (String (chr 166) "ab"))) = 3.
Proof. reflexivity. Qed.
Example rune_count_bad : utf8_RuneCount (String (chr 226) (String (chr 128) "ab")) = 4.
Proof. reflexivity. Qed.

Ltac rune_cases :=
  repeat match goal with
  | |- context [match ?s with EmptyString => _ | String _ _ => _ end] => destruct s
  | |- context [if ?b then _ else _] => destruct b eqn:?
  end; cbn [fst snd].

Lemma decode_width_le s : ((utf8_DecodeRune s).2 <= String.length s)%nat.
Proof. unfold utf8_DecodeRune. destruct s as [|c0 t0]; [done|]. destruct (lead (code c0)) as [[[n lo] hi]|]; rune_cases; cbn; lia. Qed.

(** What follows the first rune's bytes does not matter, when it starts with a byte
    that continues nothing. *)
Lemma decode_app d a c b : code c < 128 -> utf8_DecodeRune (String d a +:+ String c b) = utf8_DecodeRune (String d a).
Proof.
  intros Hc. assert (Hn : forall lo hi, 128 <= lo -> between lo hi c = false).
  { intros lo hi Hlo. unfold between. apply andb_false_iff. left. lia. }
  rewrite string_app_cons. unfold utf8_DecodeRune. destruct (code d <? 128); [done|].
  destruct (lead (code d)) as [[[n lo] hi]|] eqn:El; [|done].
  assert (Hlo : 128 <= lo).
  { revert El. unfold lead. repeat case_if; intros [= <- <- <-]; lia. }
  destruct a as [|c1 a]; [rewrite string_app_nil, Hn by done; done|]. rewrite string_app_cons.
  destruct (between lo hi c1), (Nat.eqb n 2); try done.
  destruct a as [|c2 a]; [rewrite string_app_nil, Hn by done; done|]. rewrite string_app_cons.
  destruct (between 128 191 c2), (Nat.eqb n 3); try done.
  destruct a as [|c3 a]; [rewrite string_app_nil, Hn by done; done|]. by rewrite string_app_cons.
Qed.

Lemma rune_count_app skip a c b : code c < 128 -> (skip <= String.length a)%nat ->
  rune_count skip (a +:+ String c b) = (rune_count skip a + rune_count 0 (String c b))%nat.
Proof.
  intros Hc. revert skip. induction a as [|d a IH]; intros skip Hs; [cbn in Hs; assert (skip = 0%nat) as -> by lia; done|].
  rewrite string_app_cons. cbn [rune_count]. destruct skip as [|k].
  - rewrite <- string_app_cons, decode_app by done. rewrite IH; [done|].
    pose proof (decode_width_le (String d a)) as Hw. cbn [String.length] in Hw. lia.
  - rewrite IH; [done|]. cbn in Hs. lia.
Qed.

Lemma utf8_RuneCount_app a c b : code c < 128 -> utf8_RuneCount (a +:+ String c b) = utf8_RuneCount a + utf8_RuneCount (String c b).
Proof. intros Hc. unfold utf8_RuneCount. rewrite rune_count_app; [lia|done|lia]. Qed.

(** What was decoded encodes back to the bytes it came from. *)
Ltac Zdm := Z.div_mod_to_equations; lia.

Lemma lead_size x n lo hi : lead x = Some (n, lo, hi) ->
  128 <= lo /\ hi <= 191 /\
  ((n = 2%nat /\ 194 <= x <= 223) \/
   (n = 3%nat /\ 224 <= x <= 239 /\ (x = 224 -> 160 <= lo) /\ (x = 237 -> hi <= 159)) \/
   (n = 4%nat /\ 240 <= x <= 244 /\ (x = 240 -> 144 <= lo) /\ (x = 244 -> hi <= 143))).
Proof. unfold lead. repeat case_if; bool_solve; intros [= <- <- <-]; lia. Qed.

Lemma chr_eq z c : z = code c -> chr z = c.
Proof. intros ->. apply chr_code. Qed.

Lemma append_decode s r w : utf8_DecodeRune s = (r, w) -> (2 <= w)%nat \/ r < 128 ->
  s <> "" -> 0 <= r < 2097152 /\ utf8_AppendRune r = string_take w s.
Proof.
  intros Hd Hw Hne. destruct s as [|c0 t0]; [done|]. unfold utf8_DecodeRune in Hd. pose proof (code_range c0).
  destruct (code c0 <? 128) eqn:E0.
  { injection Hd as <- <-. split; [lia|]. unfold utf8_AppendRune. rewrite E0, chr_code. by destruct t0. }
  assert (Hbad : forall x, (RuneError, 1%nat) = (r, w) -> x) by (intros x [= <- <-]; unfold RuneError in Hw; lia).
  destruct (lead (code c0)) as [[[n lo] hi]|] eqn:El; [|by apply Hbad]. apply lead_size in El.
  destruct t0 as [|c1 t1]; [by apply Hbad|]. unfold between in Hd.
  destruct ((lo <=? code c1) && (code c1 <=? hi)) eqn:E1; [|by apply Hbad]. bool_solve.
  destruct (Nat.eqb_spec n 2) as [->|N2].
  { injection Hd as <- <-. split; [Zdm|]. unfold utf8_AppendRune.
    rewrite (proj2 (Z.ltb_ge _ _)), (proj2 (Z.ltb_lt _ _)) by Zdm. cbn [string_take].
    rewrite (chr_eq _ c0), (chr_eq _ c1) by Zdm. by destruct t1. }
  destruct t1 as [|c2 t2]; [by apply Hbad|].
  destruct ((128 <=? code c2) && (code c2 <=? 191)) eqn:E2; [|by apply Hbad]. bool_solve.
  destruct (Nat.eqb_spec n 3) as [->|N3].
  { injection Hd as <- <-. split; [Zdm|]. unfold utf8_AppendRune.
    rewrite (proj2 (Z.ltb_ge _ 128)), (proj2 (Z.ltb_ge _ 2048)), (proj2 (Z.ltb_lt _ 65536)) by Zdm.
    rewrite (proj2 (orb_false_iff _ _)); [|split; [apply Z.ltb_ge|apply andb_false_iff; rewrite !Z.leb_gt]; Zdm]. cbn [string_take].
    rewrite (chr_eq _ c0), (chr_eq _ c1), (chr_eq _ c2) by Zdm. by destruct t2. }
  destruct t2 as [|c3 t3]; [by apply Hbad|].
  destruct ((128 <=? code c3) && (code c3 <=? 191)) eqn:E3; [|by apply Hbad]. bool_solve.
  injection Hd as <- <-. split; [Zdm|]. unfold utf8_AppendRune.
  rewrite (proj2 (Z.ltb_ge _ 128)), (proj2 (Z.ltb_ge _ 2048)), (proj2 (Z.ltb_ge _ 65536)) by Zdm.
  rewrite (proj2 (orb_false_iff _ _)); [|split; [apply Z.ltb_ge|apply andb_false_iff; rewrite !Z.leb_gt]; Zdm]. cbn [string_take].
  rewrite (chr_eq _ c0), (chr_eq _ c1), (chr_eq _ c2), (chr_eq _ c3) by Zdm. by destruct t3.
Qed.

Lemma decode_range s r w : utf8_DecodeRune s = (r, w) -> 0 <= r < 2097152.
Proof.
  intros E. destruct s as [|c t]; [injection E as <- _; unfold RuneError; lia|].
  assert (Hcase : (2 <= w)%nat \/ r < 128 \/ (r, w) = (RuneError, 1%nat)).
  { revert E. unfold utf8_DecodeRune. destruct (Z.ltb_spec (code c) 128); [intros [= <- <-]; lia|].
    repeat match goal with
    | |- (RuneError, 1%nat) = _ -> _ => intros <-; by right; right
    | |- (_, S (S _)) = _ -> _ => intros [= <- <-]; lia
    | |- context [match ?x with _ => _ end] => destruct x
    end. }
  destruct Hcase as [Hw|[Hr|[= -> _]]]; [by apply (append_decode _ _ _ E); [left|]|by apply (append_decode _ _ _ E); [right|]|unfold RuneError; lia].
Qed.

(** ** Quoting *)

Definition hex_lower (n : Z) : ascii := if n <? 10 then chr (48 + n) else chr (87 + n).
Definition byte_hex (b : Z) : string := String (hex_lower (b / 16)) (String (hex_lower (b mod 16)) "").
Definition word_hex (w : Z) : string := byte_hex (w / 256 mod 256) +:+ byte_hex (w mod 256).
Definition escaped (c : ascii) (s : string) : string := String (chr 92) (String c s).

(** [IsPrint]: in ASCII, everything but the control characters. *)
Definition strconv_IsPrint `{PrintTable} (r : Z) : bool :=
  if r <? 128 then (32 <=? r) && (r <? 127) else uc_IsPrint r.

Definition utf8_ValidRune (r : Z) : bool := ((0 <=? r) && (r <? 55296)) || ((57343 <? r) && (r <=? 1114111)).

(** [appendEscapedRune], for a double quote. *)
Definition quote_rune `{PrintTable} (r : Z) : string :=
  if (r =? 34) || (r =? 92) then escaped (chr r) ""
  else if strconv_IsPrint r then utf8_AppendRune r
  else if r =? 7 then escaped "a" "" else if r =? 8 then escaped "b" "" else if r =? 12 then escaped "f" ""
  else if r =? 10 then escaped "n" "" else if r =? 13 then escaped "r" "" else if r =? 9 then escaped "t" ""
  else if r =? 11 then escaped "v" ""
  else if (r <? 32) || (r =? 127) then escaped "x" (byte_hex r)
  else let r := if utf8_ValidRune r then r else RuneError in
       if r <? 65536 then escaped "u" (word_hex r) else escaped "U" (word_hex (r / 65536) +:+ word_hex (r mod 65536)).

Fixpoint quote_from `{PrintTable} (skip : nat) (s : string) : string :=
  match s with
  | EmptyString => ""
  | String c t =>
      match skip with
      | S k => quote_from k t
      | O => let '(r, w) := utf8_DecodeRune s in
             if Nat.eqb w 1 && (r =? RuneError) then escaped "x" (byte_hex (code c)) +:+ quote_from 0 t
             else quote_rune r +:+ quote_from (pred w) t
      end
  end.

(** [strconv.Quote]. *)
Definition quoted `{PrintTable} (s : string) : string := String (chr 34) (quote_from 0 s +:+ String (chr 34) "").

(** What a quoted text stands for, read after its opening quote: the text and what
    follows the closing one. *)
Definition hex_val (c : ascii) : Z := if code c <? 58 then code c - 48 else code c - 87.
Definition hex_vals (l : list ascii) : Z := fold_left (fun v c => v * 16 + hex_val c) l 0.

Definition pushed (a : string) (o : option (string * string)) : option (string * string) :=
  match o with Some (s, rest) => Some (a +:+ s, rest) | None => None end.

Definition control_escape (c : ascii) : ascii :=
  if Ascii.eqb c "a" then chr 7 else if Ascii.eqb c "b" then chr 8 else if Ascii.eqb c "f" then chr 12
  else if Ascii.eqb c "n" then chr 10 else if Ascii.eqb c "r" then chr 13 else if Ascii.eqb c "t" then chr 9
  else if Ascii.eqb c "v" then chr 11 else c.

Fixpoint unquoted (s : string) : option (string * string) :=
  match s with
  | EmptyString => None
  | String c t =>
      if Ascii.eqb c (chr 34) then Some ("", t)
      else if Ascii.eqb c (chr 92) then
        match t with
        | String e t =>
            if Ascii.eqb e "x" then
              match t with String a (String b t) => pushed (String (chr (hex_vals [a; b])) "") (unquoted t) | _ => None end
            else if Ascii.eqb e "u" then
              match t with
              | String a (String b (String c (String d t))) => pushed (utf8_AppendRune (hex_vals [a; b; c; d])) (unquoted t)
              | _ => None
              end
            else if Ascii.eqb e "U" then
              match t with
              | String a (String b (String c (String d (String a' (String b' (String c' (String d' t))))))) =>
                  pushed (utf8_AppendRune (hex_vals [a; b; c; d; a'; b'; c'; d'])) (unquoted t)
              | _ => None
              end
            else pushed (String (control_escape e) "") (unquoted t)
        | EmptyString => None
        end
      else pushed (String c "") (unquoted t)
  end.

Lemma hex_val_lower n : 0 <= n < 16 -> hex_val (hex_lower n) = n.
Proof. intros Hn. unfold hex_val, hex_lower. destruct (Z.ltb_spec n 10); rewrite code_chr by lia; case_if; bool_solve; lia. Qed.

Lemma byte_hex_val b v : 0 <= b < 256 -> fold_left (fun v c => v * 16 + hex_val c) [hex_lower (b / 16); hex_lower (b mod 16)] v = v * 256 + b.
Proof. intros Hb. cbn. rewrite !hex_val_lower by Zdm. Zdm. Qed.

Lemma unquoted_byte b t : 0 <= b < 256 -> unquoted (escaped "x" (byte_hex b) +:+ t) = pushed (String (chr b) "") (unquoted t).
Proof. intros Hb. unfold escaped, byte_hex. autorewrite with strs. cbn [unquoted]. unfold hex_vals. by rewrite byte_hex_val. Qed.

Lemma word_hex_val w v : 0 <= w < 65536 ->
  fold_left (fun v c => v * 16 + hex_val c)
    [hex_lower (w / 256 mod 256 / 16); hex_lower ((w / 256 mod 256) mod 16); hex_lower (w mod 256 / 16); hex_lower ((w mod 256) mod 16)] v = v * 65536 + w.
Proof.
  intros Hw. pose proof (byte_hex_val (w / 256 mod 256) v) as H1.
  pose proof (byte_hex_val (w mod 256) (v * 256 + w / 256 mod 256)) as H2. cbn in H1, H2 |- *. rewrite H1, H2 by Zdm. Zdm.
Qed.

Lemma long_hex_val w x : 0 <= w < 65536 -> 0 <= x < 65536 ->
  fold_left (fun v c => v * 16 + hex_val c)
    ([hex_lower (w / 256 mod 256 / 16); hex_lower ((w / 256 mod 256) mod 16); hex_lower (w mod 256 / 16); hex_lower ((w mod 256) mod 16)] ++
     [hex_lower (x / 256 mod 256 / 16); hex_lower ((x / 256 mod 256) mod 16); hex_lower (x mod 256 / 16); hex_lower ((x mod 256) mod 16)]) 0 =
  w * 65536 + x.
Proof. intros Hw Hx. rewrite fold_left_app, !word_hex_val by done. lia. Qed.

Lemma unquoted_plain a t : string_forallb (fun c => negb (Ascii.eqb c (chr 34)) && negb (Ascii.eqb c (chr 92))) a = true ->
  unquoted (a +:+ t) = pushed a (unquoted t).
Proof.
  induction a as [|c a IH]; [intros _; rewrite string_app_nil; by destruct (unquoted t) as [[]|]|]. cbn [string_forallb].
  intros Hf. bool_solve.
  rewrite string_app_cons. cbn [unquoted].
  case_if; [congruence|]. case_if; [congruence|]. rewrite IH by done. by destruct (unquoted t) as [[]|].
Qed.

Lemma chr_neq z c : 0 <= z < 256 -> z <> code c -> Ascii.eqb (chr z) c = false.
Proof. intros Hz Hn. apply Ascii.eqb_neq. intros <-. by rewrite code_chr in Hn. Qed.

Lemma append_plain r : 0 <= r < 2097152 -> r <> 34 -> r <> 92 ->
  string_forallb (fun c => negb (Ascii.eqb c (chr 34)) && negb (Ascii.eqb c (chr 92))) (utf8_AppendRune r) = true.
Proof.
  intros Hr Hq Hb. unfold utf8_AppendRune.
  assert (Hc : forall z, 0 <= z < 256 -> z <> 34 -> z <> 92 -> negb (Ascii.eqb (chr z) (chr 34)) && negb (Ascii.eqb (chr z) (chr 92)) = true)
    by (intros z Hz H1 H2; rewrite !chr_neq by done; done).
  repeat match goal with |- context [if ?b then _ else _] => destruct b eqn:? end; bool_solve; cbn [string_forallb];
    rewrite ?Hc by Zdm; done.
Qed.

Section quoting.
Context `{PrintTable}.

Lemma unquoted_rune r t : 0 <= r < 2097152 -> unquoted (quote_rune r +:+ t) = pushed (utf8_AppendRune r) (unquoted t).
Proof.
  intros Hr. unfold quote_rune.
  destruct ((r =? 34) || (r =? 92)) eqn:Eq.
  { apply orb_true_iff in Eq as [->%Z.eqb_eq| ->%Z.eqb_eq]; reflexivity. }
  bool_solve. destruct (strconv_IsPrint r); [apply unquoted_plain, append_plain; lia|].
  repeat match goal with |- context [if r =? ?k then _ else _] => destruct (Z.eqb_spec r k) as [->|]; [reflexivity|] end.
  destruct ((r <? 32) || (r =? 127)) eqn:Ec.
  { apply orb_true_iff in Ec. rewrite Z.ltb_lt, Z.eqb_eq in Ec. rewrite unquoted_byte by lia. unfold utf8_AppendRune.
    by rewrite (proj2 (Z.ltb_lt r 128)) by lia. }
  bool_solve. cbv zeta.
  assert (Hv : utf8_AppendRune r = utf8_AppendRune (if utf8_ValidRune r then r else RuneError)).
  { unfold utf8_ValidRune. case_if; [done|]. apply orb_false_iff in Heqb as [Hl Hh]. apply andb_false_iff in Hl, Hh. rewrite Z.leb_gt, Z.ltb_ge in Hl.
    rewrite Z.ltb_ge, Z.leb_gt in Hh. unfold utf8_AppendRune.
    rewrite (proj2 (Z.ltb_ge r 128)), (proj2 (Z.ltb_ge r 2048)) by lia.
    by rewrite (proj2 (orb_true_iff _ _)) by (rewrite andb_true_iff, Z.ltb_lt, !Z.leb_le; lia). }
  rewrite Hv. assert (Hr' : 0 <= (if utf8_ValidRune r then r else RuneError) < 2097152) by (unfold RuneError; case_if; lia).
  generalize dependent (if utf8_ValidRune r then r else RuneError). intros v _ Hv. destruct (Z.ltb_spec v 65536).
  - unfold escaped, word_hex, byte_hex. autorewrite with strs. cbn [unquoted]. unfold hex_vals. by rewrite word_hex_val by lia.
  - unfold escaped, word_hex, byte_hex. autorewrite with strs. cbn [unquoted]. unfold hex_vals.
    f_equal. f_equal. etransitivity; [exact (long_hex_val (v / 65536) (v mod 65536) ltac:(Zdm) ltac:(Zdm))|Zdm].
Qed.

Lemma unquoted_from skip s rest : (skip <= String.length s)%nat ->
  unquoted (quote_from skip s +:+ String (chr 34) rest) = Some (string_drop skip s, rest).
Proof.
  revert skip. induction s as [|c t IH]; intros skip Hs; [cbn in Hs; assert (skip = 0%nat) as -> by lia; reflexivity|].
  destruct skip as [|k]; [|cbn in Hs; cbn [quote_from string_drop]; apply IH; lia].
  cbn [quote_from]. pose proof (decode_width_le (String c t)) as Hw. destruct (utf8_DecodeRune (String c t)) as [r w] eqn:E. cbn [snd] in Hw.
  destruct (Nat.eqb w 1 && (r =? RuneError)) eqn:Ebad.
  - rewrite <- string_app_assoc, unquoted_byte, IH, chr_code by (lia || apply code_range). by destruct t.
  - cbn [String.length] in Hw. rewrite <- string_app_assoc.
    assert (Hwide : (2 <= w)%nat \/ r < 128 /\ w = 1%nat).
    { revert E Ebad. unfold utf8_DecodeRune. destruct (Z.ltb_spec (code c) 128); [intros [= <- <-]; lia|].
      repeat match goal with
      | |- (RuneError, 1%nat) = _ -> _ => intros [= <- <-]; done
      | |- (_, S (S _)) = _ -> _ => intros [= <- <-]; lia
      | |- context [match ?x with _ => _ end] => destruct x
      end. }
    destruct (append_decode (String c t) r w) as [Hr Ha]; [done|lia|done|].
    rewrite unquoted_rune, IH by lia. rewrite Ha. cbn [pushed].
    assert (Hp : string_drop w (String c t) = string_drop (pred w) t) by (destruct w; [lia|done]).
    by rewrite <- Hp, string_take_drop.
Qed.

(** Nothing is lost in a quoted text, and nothing inside it ends it. *)
Lemma unquoted_quoted s rest : exists body, quoted s +:+ rest = String (chr 34) body /\ unquoted body = Some (s, rest).
Proof.
  exists (quote_from 0 s +:+ String (chr 34) rest). split; [|by rewrite unquoted_from by lia; destruct s].
  unfold quoted. by rewrite string_app_cons, <- string_app_assoc.
Qed.
End quoting.

(** A table that prints no rune beyond ASCII. *)
Definition ascii_prints : PrintTable := {| uc_IsPrint r := (32 <=? r) && (r <? 127) |}.
