(* ===== verification/GoJson.v ===== *)
(** * GoJson: Go's package encoding/json

    Values, the text [Marshal] and [MarshalIndent] make of them, and the reading of
    a text: its syntax as the scanner of the package accepts it and the values its
    decoder sees.  Binding values to structs is JsonBind.v. *)
From stdpp Require Import base tactics option list strings gmap.
From Stdlib Require Import Ascii ZArith Lia.
From S2P Require Import Prelude GoStrings GoNum GoBase64 GoUtf8.
Open Scope Z_scope.

(** A number keeps its literal; an object its members in order, as the decoder
    meets them. *)
Inductive json : Type :=
  | JNull
  | JBool (b : bool)
  | JNum (literal : string)
  | JStr (s : string)
  | JArr (l : list json)
  | JObj (members : list (string * json)).

(** ** Strings *)

Definition dq : ascii := chr 34.

(** [appendString] with HTML escapes, for one byte of ASCII. *)
Definition json_ascii (c : ascii) : string :=
  if (code c =? 34) || (code c =? 92) then escaped c ""
  else if code c =? 8 then escaped "b" "" else if code c =? 12 then escaped "f" ""
  else if code c =? 10 then escaped "n" "" else if code c =? 13 then escaped "r" "" else if code c =? 9 then escaped "t" ""
  else if (code c <? 32) || (code c =? 60) || (code c =? 62) || (code c =? 38) then escaped "u" (word_hex (code c))
  else String c "".

Fixpoint json_from (skip : nat) (s : string) : string :=
  match s with
  | EmptyString => ""
  | String c t =>
      match skip with
      | S k => json_from k t
      | O =>
          if code c <? 128 then json_ascii c +:+ json_from 0 t else
          let '(r, w) := utf8_DecodeRune s in
          if Nat.eqb w 1 then escaped "u" (word_hex RuneError) +:+ json_from 0 t
          else (if (r =? 8232) || (r =? 8233) then escaped "u" (word_hex r) else string_take w s) +:+ json_from (pred w) t
      end
  end.
Definition json_quote (s : string) : string := String dq (json_from 0 s +:+ String dq "").

(** The four digits of [\u]. *)
Definition hex4 (a b c d : ascii) : option Z :=
  a ← hex_nibble a; b ← hex_nibble b; c ← hex_nibble c; d ← hex_nibble d;
  Some (((a * 16 + b) * 16 + c) * 16 + d).

Definition is_surrogate (r : Z) : bool := (55296 <=? r) && (r <? 57344).
(** [utf16.DecodeRune]. *)
Definition surrogates (hi lo : Z) : option Z :=
  if (55296 <=? hi) && (hi <? 56320) && (56320 <=? lo) && (lo <? 57344)
  then Some ((hi - 55296) * 1024 + (lo - 56320) + 65536) else None.

Definition json_escape_char (e : ascii) : option ascii :=
  if (code e =? 34) || (code e =? 92) || (code e =? 47) then Some e
  else if Ascii.eqb e "b" then Some (chr 8) else if Ascii.eqb e "f" then Some (chr 12)
  else if Ascii.eqb e "n" then Some (chr 10) else if Ascii.eqb e "r" then Some (chr 13)
  else if Ascii.eqb e "t" then Some (chr 9) else None.

(** A string read after its opening quote, with what follows the closing one: bytes
    that are no UTF-8 and surrogates without a partner become U+FFFD. *)
Fixpoint json_unquote (skip : nat) (s : string) : option (string * string) :=
  match s with
  | EmptyString => None
  | String c t =>
      match skip with
      | S k => json_unquote k t
      | O =>
          if Ascii.eqb c dq then Some ("", t)
          else if code c =? 92 then
            match t with
            | String e t =>
                if Ascii.eqb e "u" then
                  match t with
                  | String h1 (String h2 (String h3 (String h4 t))) =>
                      match hex4 h1 h2 h3 h4 with
                      | None => None
                      | Some r =>
                          if negb (is_surrogate r) then pushed (utf8_AppendRune r) (json_unquote 0 t) else
                          let alone := pushed (utf8_AppendRune RuneError) (json_unquote 0 t) in
                          match t with
                          | String b (String u (String l1 (String l2 (String l3 (String l4 t'))))) =>
                              if (code b =? 92) && Ascii.eqb u "u" then
                                match hex4 l1 l2 l3 l4 ≫= surrogates r with
                                | Some r' => pushed (utf8_AppendRune r') (json_unquote 0 t')
                                | None => alone
                                end
                              else alone
                          | _ => alone
                          end
                      end
                  | _ => None
                  end
                else match json_escape_char e with
                     | Some x => pushed (String x "") (json_unquote 0 t)
                     | None => None
                     end
            | EmptyString => None
            end
          else if code c <? 32 then None
          else if code c <? 128 then pushed (String c "") (json_unquote 0 t)
          else let '(r, w) := utf8_DecodeRune s in pushed (utf8_AppendRune r) (json_unquote (pred w) t)
      end
  end.

(** What a string is after a writing and a reading: its text, where each byte that
    is no UTF-8 is U+FFFD. *)
Fixpoint to_valid (skip : nat) (s : string) : string :=
  match s with
  | EmptyString => ""
  | String c t =>
      match skip with
      | S k => to_valid k t
      | O => let '(r, w) := utf8_DecodeRune s in utf8_AppendRune r +:+ to_valid (pred w) t
      end
  end.
Definition clean (s : string) : string := to_valid 0 s.

Fixpoint valid_from (skip : nat) (s : string) : bool :=
  match s with
  | EmptyString => true
  | String c t =>
      match skip with
      | S k => valid_from k t
      | O => let w := (utf8_DecodeRune s).2 in ((code c <? 128) || negb (Nat.eqb w 1)) && valid_from (pred w) t
      end
  end.
(** [utf8.ValidString]. *)
Definition utf8_Valid (s : string) : bool := valid_from 0 s.

(** *** What is written is read *)

Lemma hex_nibble_lower n : 0 <= n < 16 -> hex_nibble (hex_lower n) = Some n.
Proof.
  intros Hn. assert (Hc : forallb (fun i => bool_decide (hex_nibble (hex_lower (Z.of_nat i)) = Some (Z.of_nat i))) (seq 0 16) = true)
    by (vm_compute; reflexivity).
  rewrite forallb_forall in Hc. specialize (Hc (Z.to_nat n)). rewrite Z2Nat.id in Hc by lia.
  apply bool_decide_eq_true in Hc; [done|]. apply in_seq. lia.
Qed.

Lemma hex4_word w : 0 <= w < 65536 ->
  hex4 (hex_lower (w / 256 mod 256 / 16)) (hex_lower ((w / 256 mod 256) mod 16)) (hex_lower (w mod 256 / 16)) (hex_lower ((w mod 256) mod 16)) = Some w.
Proof. intros Hw. unfold hex4. rewrite !hex_nibble_lower by Zdm. cbn. f_equal. Zdm. Qed.

Lemma unquote_u w y : 0 <= w < 65536 -> is_surrogate w = false ->
  json_unquote 0 (escaped "u" (word_hex w) +:+ y) = pushed (utf8_AppendRune w) (json_unquote 0 y).
Proof.
  intros Hw Hs. unfold escaped, word_hex, byte_hex. autorewrite with strs. cbn [json_unquote]. rewrite hex4_word by done.
  change (Ascii.eqb (chr 92) dq) with false. change (code (chr 92) =? 92) with true. cbn match. by rewrite Hs.
Qed.

Lemma unquote_ascii c y : code c < 128 -> json_unquote 0 (json_ascii c +:+ y) = pushed (String c "") (json_unquote 0 y).
Proof.
  intros Hc. unfold json_ascii.
  destruct ((code c =? 34) || (code c =? 92)) eqn:E1.
  { apply orb_true_iff in E1 as [E|E]; apply Z.eqb_eq in E; rewrite <- (chr_code c), E; reflexivity. }
  repeat match goal with |- context [if code c =? ?k then _ else _] =>
    destruct (Z.eqb_spec (code c) k) as [E|]; [rewrite <- (chr_code c), E; reflexivity|] end.
  pose proof (code_range c). destruct (_ || (code c =? 38)) eqn:E2.
  - rewrite unquote_u; [|lia|unfold is_surrogate; lia]. f_equal. unfold utf8_AppendRune. rewrite (proj2 (Z.ltb_lt _ _)) by lia. by rewrite chr_code.
  - rewrite string_app_cons, string_app_nil. cbn [json_unquote]. bool_solve.
    rewrite (proj2 (Ascii.eqb_neq c dq)) by (intros ->; done). rewrite (proj2 (Z.eqb_neq _ 92)) by done.
    rewrite (proj2 (Z.ltb_ge _ 32)), (proj2 (Z.ltb_lt _ 128)) by lia. done.
Qed.

(** The bytes of one rune beyond ASCII. *)
Lemma decode_wide s r w y : utf8_DecodeRune s = (r, w) -> (2 <= w)%nat -> utf8_DecodeRune (string_take w s +:+ y) = (r, w).
Proof.
  intros E Hw. destruct s as [|c0 t0]; [injection E; lia|]. unfold utf8_DecodeRune in E.
  assert (Hbad : forall x, (RuneError, 1%nat) = (r, w) -> x) by (intros x [= <- <-]; lia).
  destruct (code c0 <? 128) eqn:E0; [injection E; lia|].
  destruct (lead (code c0)) as [[[n lo] hi]|] eqn:El; [|by apply Hbad].
  destruct t0 as [|c1 t1]; [by apply Hbad|]. destruct (between lo hi c1) eqn:E1; [|by apply Hbad].
  destruct (Nat.eqb n 2) eqn:N2.
  { injection E as <- <-. cbn [string_take]. autorewrite with strs. unfold utf8_DecodeRune. by rewrite E0, El, E1, N2. }
  destruct t1 as [|c2 t2]; [by apply Hbad|]. destruct (between 128 191 c2) eqn:E2; [|by apply Hbad].
  destruct (Nat.eqb n 3) eqn:N3.
  { injection E as <- <-. cbn [string_take]. autorewrite with strs. unfold utf8_DecodeRune. by rewrite E0, El, E1, N2, E2, N3. }
  destruct t2 as [|c3 t3]; [by apply Hbad|]. destruct (between 128 191 c3) eqn:E3; [|by apply Hbad].
  injection E as <- <-. cbn [string_take]. autorewrite with strs. unfold utf8_DecodeRune. by rewrite E0, El, E1, N2, E2, N3, E3.
Qed.

Lemma unquote_skip a y : json_unquote (String.length a) (a +:+ y) = json_unquote 0 y.
Proof. induction a as [|c a IH]; [done|]. by rewrite string_app_cons. Qed.

Lemma unquote_wide s r w y : utf8_DecodeRune s = (r, w) -> (2 <= w)%nat ->
  json_unquote 0 (string_take w s +:+ y) = pushed (utf8_AppendRune r) (json_unquote 0 y).
Proof.
  intros E Hw. pose proof (decode_wide s r w y E Hw) as Ed. pose proof (decode_width_le s) as Hl. rewrite E in Hl. cbn [snd] in Hl.
  destruct s as [|c t]; [cbn in Hl; lia|]. destruct w as [|w]; [lia|]. cbn [string_take String.length] in *. rewrite string_app_cons in *.
  assert (Hc : 128 <= code c).
  { unfold utf8_DecodeRune in E. destruct (Z.ltb_spec (code c) 128); [injection E; lia|done]. }
  cbn [json_unquote]. rewrite Ed. rewrite (proj2 (Ascii.eqb_neq c dq)) by (intros ->; done).
  rewrite (proj2 (Z.eqb_neq _ 92)), (proj2 (Z.ltb_ge _ 32)), (proj2 (Z.ltb_ge _ 128)) by lia. cbn [pred]. f_equal.
  rewrite <- (unquote_skip (string_take w t) y). by rewrite string_length_take by lia.
Qed.

Lemma unquote_from skip s rest : (skip <= String.length s)%nat ->
  json_unquote 0 (json_from skip s +:+ String dq rest) = Some (to_valid skip s, rest).
Proof.
  revert skip. induction s as [|c t IH]; intros skip Hs; [cbn in Hs; assert (skip = 0%nat) as -> by lia; reflexivity|].
  destruct skip as [|k]; [|cbn in Hs; cbn [json_from to_valid]; apply IH; lia].
  cbn [json_from to_valid]. pose proof (decode_width_le (String c t)) as Hw. destruct (utf8_DecodeRune (String c t)) as [r w] eqn:E.
  cbn [snd String.length] in Hw. destruct (Z.ltb_spec (code c) 128) as [Hc|Hc].
  - unfold utf8_DecodeRune in E. rewrite (proj2 (Z.ltb_lt _ _)) in E by done. injection E as <- <-.
    rewrite <- string_app_assoc, unquote_ascii, IH by lia. unfold utf8_AppendRune. rewrite (proj2 (Z.ltb_lt _ _)) by done. by rewrite chr_code.
  - destruct (Nat.eqb_spec w 1) as [->|Hw1].
    + assert (r = RuneError) as ->.
      { revert E. unfold utf8_DecodeRune. rewrite (proj2 (Z.ltb_ge _ _)) by done.
        repeat match goal with
        | |- (RuneError, 1%nat) = _ -> _ => by intros [= <-]
        | |- (_, S (S _)) = _ -> _ => intros [=]
        | |- context [match ?x with _ => _ end] => destruct x
        end. }
      rewrite <- string_app_assoc, unquote_u, IH by (done || lia). done.
    + assert (Hw2 : (2 <= w)%nat).
      { destruct w as [|[|w]]; [|done|lia]. exfalso. revert E. unfold utf8_DecodeRune. rewrite (proj2 (Z.ltb_ge _ _)) by done.
        repeat match goal with
        | |- (RuneError, 1%nat) = _ -> _ => intros [=]
        | |- (_, S (S _)) = _ -> _ => intros [=]
        | |- context [match ?x with _ => _ end] => destruct x
        end. }
      rewrite <- string_app_assoc. destruct ((r =? 8232) || (r =? 8233)) eqn:Eu.
      * apply orb_true_iff in Eu. rewrite !Z.eqb_eq in Eu. rewrite unquote_u, IH by (lia || unfold is_surrogate; lia). done.
      * rewrite (unquote_wide _ r), IH by (done || lia). done.
Qed.

(** A string written is read as its clean text, and nothing inside it ends it. *)
Lemma json_unquote_quote s rest : json_unquote 0 (json_from 0 s +:+ String dq rest) = Some (clean s, rest).
Proof. apply unquote_from. lia. Qed.

Lemma to_valid_id skip s : (skip <= String.length s)%nat -> valid_from skip s = true -> to_valid skip s = string_drop skip s.
Proof.
  revert skip. induction s as [|c t IH]; intros skip Hs Hv; [cbn in Hs; assert (skip = 0%nat) as -> by lia; reflexivity|].
  destruct skip as [|k]; [|cbn in Hs, Hv; cbn [to_valid string_drop]; apply IH; [lia|done]].
  cbn [to_valid valid_from string_drop] in *. pose proof (decode_width_le (String c t)) as Hw. destruct (utf8_DecodeRune (String c t)) as [r w] eqn:E.
  cbn [snd String.length] in *. apply andb_true_iff in Hv as [Hc Hv]. rewrite IH by (done || lia).
  assert (Hwide : (2 <= w)%nat \/ r < 128 /\ w = 1%nat).
  { revert E Hc. unfold utf8_DecodeRune. destruct (Z.ltb_spec (code c) 128); [intros [= <- <-]; lia|].
    repeat match goal with
    | |- (RuneError, 1%nat) = _ -> _ => intros [= <- <-]; done
    | |- (_, S (S _)) = _ -> _ => intros [= <- <-]; lia
    | |- context [match ?x with _ => _ end] => destruct x
    end. }
  destruct (append_decode (String c t) r w E) as [_ ->]; [tauto|done|].
  assert (Hp : string_drop (pred w) t = string_drop w (String c t)) by (destruct w; [lia|done]).
  by rewrite Hp, string_take_drop.
Qed.

Lemma clean_valid s : utf8_Valid s = true -> clean s = s.
Proof. intros Hv. unfold clean. rewrite to_valid_id by (done || lia). by destruct s. Qed.

Lemma ascii_valid s : string_forallb is_ascii s = true -> utf8_Valid s = true.
Proof.
  unfold utf8_Valid. induction s as [|c s IH]; [done|]. cbn [string_forallb valid_from]. intros [Hc Hs]%andb_true_iff.
  unfold is_ascii in Hc. unfold utf8_DecodeRune. rewrite Hc. cbn. by apply IH.
Qed.

(** ** Values *)

(** What [Marshal] and [MarshalIndent] put before the elements at a depth, and after
    the name of a member. *)
Record json_style := { st_line : nat -> string; st_colon : string }.

Fixpoint spaces (n : nat) : string := match n with O => "" | S n => String " " (spaces n) end.
Definition compact : json_style := {| st_line _ := ""; st_colon := ":" |}.
(** [MarshalIndent(v, "", "  ")]. *)
Definition indented : json_style := {| st_line d := String (chr 10) (spaces (2 * d)); st_colon := ": " |}.

Section text.
Variable st : json_style.

Definition sep_text {A} (write : A -> string) (line : string) (l : list A) : string :=
  strings_Join (map (fun x => line +:+ write x) l) ",".

Fixpoint json_text (d : nat) (v : json) : string :=
  match v with
  | JNull => "null"
  | JBool b => if b then "true" else "false"
  | JNum lit => lit
  | JStr s => json_quote s
  | JArr [] => "[]"
  | JArr l => "[" +:+ sep_text (json_text (S d)) (st_line st (S d)) l +:+ st_line st d +:+ "]"
  | JObj [] => "{}"
  | JObj l => "{" +:+ sep_text (fun m => json_quote (fst m) +:+ st_colon st +:+ json_text (S d) (snd m)) (st_line st (S d)) l +:+ st_line st d +:+ "}"
  end.
End text.

Definition json_Marshal (v : json) : string := json_text compact 0 v.
Definition json_MarshalIndent (v : json) : string := json_text indented 0 v.

(** *** Reading *)

Definition json_space (c : ascii) : bool := (code c =? 32) || (code c =? 9) || (code c =? 10) || (code c =? 13).
Fixpoint skip_space (s : string) : string :=
  match s with String c t => if json_space c then skip_space t else s | EmptyString => "" end.

(** The characters of numbers, and which literals are numbers. *)
Definition number_char (c : ascii) : bool :=
  is_digit c || Ascii.eqb c "-" || Ascii.eqb c "+" || Ascii.eqb c "." || Ascii.eqb c "e" || Ascii.eqb c "E".
Fixpoint span (p : ascii -> bool) (s : string) : string * string :=
  match s with
  | String c t => if p c then let '(a, r) := span p t in (String c a, r) else ("", s)
  | EmptyString => ("", "")
  end.

Definition exponent_ok (s : string) : bool :=
  match s with
  | EmptyString => true
  | String c t =>
      (Ascii.eqb c "e" || Ascii.eqb c "E") &&
      let t := match t with String g u => if Ascii.eqb g "+" || Ascii.eqb g "-" then u else t | EmptyString => t end in
      negb (String.eqb t "") && string_forallb is_digit t
  end.
Definition fraction_ok (s : string) : bool :=
  match s with
  | String c t =>
      if Ascii.eqb c "." then let '(ds, r) := span is_digit t in negb (String.eqb ds "") && exponent_ok r else exponent_ok s
  | EmptyString => true
  end.
Definition number_ok (lit : string) : bool :=
  let body := match lit with String c t => if Ascii.eqb c "-" then t else lit | EmptyString => lit end in
  match body with
  | String c t => if Ascii.eqb c "0" then fraction_ok t else is_digit c && fraction_ok (snd (span is_digit t))
  | EmptyString => false
  end.

Definition maxNestingDepth : Z := 10000.

Definition literal (s : string) : option (json * string) :=
  match strings_CutPrefix "null" s, strings_CutPrefix "true" s, strings_CutPrefix "false" s with
  | Some r, _, _ => Some (JNull, r)
  | _, Some r, _ => Some (JBool true, r)
  | _, _, Some r => Some (JBool false, r)
  | _, _, _ => let '(lit, r) := span number_char s in if number_ok lit then Some (JNum lit, r) else None
  end.

(** A value at the start of a text, with what follows it; [d] arrays and objects are
    open. *)
Fixpoint read_value (n : nat) (d : Z) (s : string) {struct n} : option (json * string) :=
  match n with
  | O => None
  | S n =>
      match skip_space s with
      | String c t =>
          if Ascii.eqb c dq then '(x, r) ← json_unquote 0 t; Some (JStr x, r)
          else if Ascii.eqb c "{" then
            if maxNestingDepth <=? d then None else
            match skip_space t with
            | String c' r => if Ascii.eqb c' "}" then Some (JObj [], r) else '(ms, r) ← read_members n (d + 1) t; Some (JObj ms, r)
            | EmptyString => None
            end
          else if Ascii.eqb c "[" then
            if maxNestingDepth <=? d then None else
            match skip_space t with
            | String c' r => if Ascii.eqb c' "]" then Some (JArr [], r) else '(vs, r) ← read_elements n (d + 1) t; Some (JArr vs, r)
            | EmptyString => None
            end
          else literal (String c t)
      | EmptyString => None
      end
  end
with read_elements (n : nat) (d : Z) (s : string) {struct n} : option (list json * string) :=
  match n with
  | O => None
  | S n =>
      '(v, r) ← read_value n d s;
      match skip_space r with
      | String c r =>
          if Ascii.eqb c "," then '(vs, r) ← read_elements n d r; Some (v :: vs, r)
          else if Ascii.eqb c "]" then Some ([v], r) else None
      | EmptyString => None
      end
  end
with read_members (n : nat) (d : Z) (s : string) {struct n} : option (list (string * json) * string) :=
  match n with
  | O => None
  | S n =>
      match skip_space s with
      | String c t =>
          if negb (Ascii.eqb c dq) then None else
          '(k, r) ← json_unquote 0 t;
          match skip_space r with
          | String c r =>
              if negb (Ascii.eqb c ":") then None else
              '(v, r) ← read_value n d r;
              match skip_space r with
              | String c r =>
                  if Ascii.eqb c "," then '(ms, r) ← read_members n d r; Some ((k, v) :: ms, r)
                  else if Ascii.eqb c "}" then Some ([(k, v)], r) else None
              | EmptyString => None
              end
          | EmptyString => None
          end
      | EmptyString => None
      end
  end.

(** Two turns at most for a byte. *)
Definition read_fuel (s : string) : nat := S (2 * String.length s).

(** The one value of a text. *)
Definition json_Parse (s : string) : option json :=
  '(v, r) ← read_value (read_fuel s) 0 s;
  if String.eqb (skip_space r) "" then Some v else None.

Example parse_ex : json_Parse " [1, true ,-0.5e+3, {} ] " = Some (JArr [JNum "1"; JBool true; JNum "-0.5e+3"; JObj []]).
Proof. reflexivity. Qed.
Example parse_bad : json_Parse "[01]" = None /\ json_Parse "[1,]" = None /\ json_Parse "nul" = None /\ json_Parse "1 2" = None.
Proof. repeat split. Qed.

(** *** The fuel is enough *)

Lemma skip_space_le s : (String.length (skip_space s) <= String.length s)%nat.
Proof. induction s as [|c t IH]; [done|]. cbn [skip_space]. destruct (json_space c); cbn; lia. Qed.

Lemma pushed_Some a o x r : pushed a o = Some (x, r) -> exists y, o = Some (y, r).
Proof. destruct o as [[y r']|]; [|done]. intros [= _ ->]. by exists y. Qed.

Lemma unquote_shorter n : forall k s x r, (String.length s <= n)%nat -> json_unquote k s = Some (x, r) -> (String.length r < String.length s)%nat.
Proof.
  induction n as [|n IH]; intros k s x r Hn E; (destruct s as [|c t]; [done|]); cbn [String.length] in Hn; [lia|].
  assert (Hp : forall a k t', (String.length t' <= String.length t)%nat -> pushed a (json_unquote k t') = Some (x, r) ->
    (String.length r < String.length (String c t))%nat).
  { intros a k' t' Ht (y & Hy)%pushed_Some. apply IH in Hy; cbn; lia. }
  cbn [json_unquote] in E. destruct k as [|k]; [|apply IH in E; cbn; lia].
  destruct (Ascii.eqb c dq); [injection E as <- <-; cbn; lia|].
  destruct (code c =? 92).
  - destruct t as [|e t]; [done|]. destruct (Ascii.eqb e "u").
    + destruct t as [|h1 [|h2 [|h3 [|h4 t]]]]; try done. destruct (hex4 h1 h2 h3 h4) as [w|]; [|done].
      destruct (negb (is_surrogate w)); [eapply Hp; [|exact E]; cbn; lia|]. cbv zeta in E.
      assert (Ha : pushed (utf8_AppendRune RuneError) (json_unquote 0 t) = Some (x, r) ->
        (String.length r < String.length (String c (String e (String h1 (String h2 (String h3 (String h4 t)))))))%nat)
        by (intros Ha; eapply Hp; [|exact Ha]; cbn; lia).
      destruct t as [|b [|u [|l1 [|l2 [|l3 [|l4 t']]]]]]; try (by apply Ha).
      destruct ((code b =? 92) && Ascii.eqb u "u"); [|by apply Ha]. destruct (hex4 l1 l2 l3 l4 ≫= surrogates w); [|by apply Ha].
      eapply Hp; [|exact E]. cbn. lia.
    + destruct (json_escape_char e); [|done]. eapply Hp; [|exact E]. cbn. lia.
  - destruct (code c <? 32); [done|]. destruct (code c <? 128); [by eapply Hp|].
    destruct (utf8_DecodeRune (String c t)) as [w' k]. by eapply Hp.
Qed.

Lemma span_app p s : fst (span p s) +:+ snd (span p s) = s.
Proof. induction s as [|c t IH]; [done|]. cbn [span]. destruct (p c); [|done]. destruct (span p t) as [a r]. cbn in *. by rewrite string_app_cons, IH. Qed.

Lemma literal_shorter s v r : literal s = Some (v, r) -> (String.length r < String.length s)%nat.
Proof.
  unfold literal. destruct (strings_CutPrefix "null" s) as [r1|] eqn:E1; [|destruct (strings_CutPrefix "true" s) as [r2|] eqn:E2;
    [|destruct (strings_CutPrefix "false" s) as [r3|] eqn:E3]].
  - intros [= _ <-]. apply CutPrefix_Some in E1 as ->. rewrite string_length_app. cbn. lia.
  - intros [= _ <-]. apply CutPrefix_Some in E2 as ->. rewrite string_length_app. cbn. lia.
  - intros [= _ <-]. apply CutPrefix_Some in E3 as ->. rewrite string_length_app. cbn. lia.
  - pose proof (span_app number_char s) as Hs. destruct (span number_char s) as [lit r']. cbn [fst snd] in Hs. subst s.
    destruct (number_ok lit) eqn:En; [|done]. intros [= _ <-]. rewrite string_length_app. destruct lit; [done|]. cbn. lia.
Qed.

(** What a reading leaves is shorter. *)
Lemma read_shorter n :
  (forall d s v r, read_value n d s = Some (v, r) -> (String.length r < String.length s)%nat) /\
  (forall d s v r, read_elements n d s = Some (v, r) -> (String.length r < String.length s)%nat) /\
  (forall d s v r, read_members n d s = Some (v, r) -> (String.length r < String.length s)%nat).
Proof.
  induction n as [|n (IHv & IHe & IHm)]; [by split_and!|]. split_and!; intros d s v r E.
  - cbn [read_value] in E. pose proof (skip_space_le s) as Hs. destruct (skip_space s) as [|c t]; [done|]. cbn [String.length] in Hs.
    destruct (Ascii.eqb c dq).
    { destruct (json_unquote 0 t) as [[x r']|] eqn:Eu; [|done]. injection E as _ <-. apply (unquote_shorter (String.length t)) in Eu; lia. }
    pose proof (skip_space_le t) as Ht.
    destruct (Ascii.eqb c "{"); [|destruct (Ascii.eqb c "[")].
    + destruct (maxNestingDepth <=? d); [done|]. destruct (skip_space t) as [|c' r']; [done|]. cbn [String.length] in Ht.
      destruct (Ascii.eqb c' "}"); [injection E as _ <-; lia|].
      destruct (read_members n (d + 1) t) as [[ms r'']|] eqn:Em; [|done]. injection E as _ <-. apply IHm in Em. lia.
    + destruct (maxNestingDepth <=? d); [done|]. destruct (skip_space t) as [|c' r']; [done|]. cbn [String.length] in Ht.
      destruct (Ascii.eqb c' "]"); [injection E as _ <-; lia|].
      destruct (read_elements n (d + 1) t) as [[vs r'']|] eqn:Em; [|done]. injection E as _ <-. apply IHe in Em. lia.
    + apply literal_shorter in E. cbn in E. lia.
  - cbn [read_elements] in E. destruct (read_value n d s) as [[v' r1]|] eqn:Ev; [|done]. cbn in E. apply IHv in Ev.
    pose proof (skip_space_le r1) as Hs. destruct (skip_space r1) as [|c r2]; [done|]. cbn [String.length] in Hs.
    destruct (Ascii.eqb c ","); [|destruct (Ascii.eqb c "]"); [injection E as _ <-; lia|done]].
    destruct (read_elements n d r2) as [[vs r3]|] eqn:Ee; [|done]. injection E as _ <-. apply IHe in Ee. lia.
  - cbn [read_members] in E. pose proof (skip_space_le s) as Hs0. destruct (skip_space s) as [|c t]; [done|]. cbn [String.length] in Hs0.
    destruct (negb (Ascii.eqb c dq)); [done|]. destruct (json_unquote 0 t) as [[k r0]|] eqn:Eu; [|done]. cbn in E.
    apply (unquote_shorter (String.length t)) in Eu; [|lia].
    pose proof (skip_space_le r0) as Hs1. destruct (skip_space r0) as [|c1 r1]; [done|]. cbn [String.length] in Hs1.
    destruct (negb (Ascii.eqb c1 ":")); [done|]. destruct (read_value n d r1) as [[v' r2]|] eqn:Ev; [|done]. cbn in E. apply IHv in Ev.
    pose proof (skip_space_le r2) as Hs2. destruct (skip_space r2) as [|c2 r3]; [done|]. cbn [String.length] in Hs2.
    destruct (Ascii.eqb c2 ","); [|destruct (Ascii.eqb c2 "}"); [injection E as _ <-; lia|done]].
    destruct (read_members n d r3) as [[ms r4]|] eqn:Ee; [|done]. injection E as _ <-. apply IHm in Ee. lia.
Qed.

(** More fuel changes nothing. *)
Lemma read_fuel_enough n :
  (forall d s m, (S (2 * String.length s) <= n <= m)%nat -> read_value m d s = read_value n d s) /\
  (forall d s m, (S (S (2 * String.length s)) <= n <= m)%nat -> read_elements m d s = read_elements n d s) /\
  (forall d s m, (S (S (2 * String.length s)) <= n <= m)%nat -> read_members m d s = read_members n d s).
Proof.
  induction n as [|n (IHv & IHe & IHm)]; [split_and!; intros; lia|]. split_and!; intros d s m Hm; (destruct m as [|m]; [lia|]).
  - cbn [read_value]. pose proof (skip_space_le s) as Hs. destruct (skip_space s) as [|c t]; [done|]. cbn [String.length] in Hs.
    rewrite (IHm (d + 1) t m), (IHe (d + 1) t m) by lia. done.
  - cbn [read_elements]. rewrite (IHv d s m) by lia. destruct (read_value n d s) as [[v r1]|] eqn:Ev; [|done]. cbn.
    apply read_shorter in Ev. pose proof (skip_space_le r1) as Hs. destruct (skip_space r1) as [|c r2]; [done|]. cbn [String.length] in Hs.
    by rewrite (IHe d r2 m) by lia.
  - cbn [read_members]. pose proof (skip_space_le s) as Hs0. destruct (skip_space s) as [|c t]; [done|]. cbn [String.length] in Hs0.
    destruct (negb (Ascii.eqb c dq)); [done|]. destruct (json_unquote 0 t) as [[k r0]|] eqn:Eu; [|done]. cbn.
    apply (unquote_shorter (String.length t)) in Eu; [|lia].
    pose proof (skip_space_le r0) as Hs1. destruct (skip_space r0) as [|c1 r1]; [done|]. cbn [String.length] in Hs1.
    destruct (negb (Ascii.eqb c1 ":")); [done|]. rewrite (IHv d r1 m) by lia. destruct (read_value n d r1) as [[v r2]|] eqn:Ev; [|done]. cbn.
    apply read_shorter in Ev. pose proof (skip_space_le r2) as Hs2. destruct (skip_space r2) as [|c2 r3]; [done|]. cbn [String.length] in Hs2.
    by rewrite (IHm d r3 m) by lia.
Qed.

(** *** What is written is read *)

Section json_ind.
Variable P : json -> Prop.
Hypotheses (Hnull : P JNull) (Hbool : forall b, P (JBool b)) (Hnum : forall lit, P (JNum lit)) (Hstr : forall s, P (JStr s))
  (Harr : forall l, Forall P l -> P (JArr l)) (Hobj : forall ms, Forall (fun m => P (snd m)) ms -> P (JObj ms)).

Fixpoint json_nested_ind (v : json) : P v :=
  match v with
  | JNull => Hnull
  | JBool b => Hbool b
  | JNum lit => Hnum lit
  | JStr s => Hstr s
  | JArr l => Harr l ((fix go l : Forall P l := match l with [] => Forall_nil_2 _ | v :: l => Forall_cons_2 _ _ _ (json_nested_ind v) (go l) end) l)
  | JObj ms => Hobj ms ((fix go ms : Forall (fun m => P (snd m)) ms := match ms with [] => Forall_nil_2 _ | m :: ms => Forall_cons_2 _ _ _ (json_nested_ind (snd m)) (go ms) end) ms)
  end.
End json_ind.

(** Values with proper literals, and how deep they go. *)
Fixpoint json_ok (v : json) : bool :=
  match v with
  | JNum lit => number_ok lit && string_forallb number_char lit
  | JArr l => forallb json_ok l
  | JObj ms => forallb (fun m => json_ok (snd m)) ms
  | _ => true
  end.

Fixpoint json_depth (v : json) : Z :=
  match v with
  | JArr l => 1 + fold_right Z.max 0 (map json_depth l)
  | JObj ms => 1 + fold_right Z.max 0 (map (fun m => json_depth (snd m)) ms)
  | _ => 0
  end.

(** A value after a writing and a reading. *)
Fixpoint json_clean (v : json) : json :=
  match v with
  | JStr s => JStr (clean s)
  | JArr l => JArr (map json_clean l)
  | JObj ms => JObj (map (fun m => (clean (fst m), json_clean (snd m))) ms)
  | _ => v
  end.

(** Styles that only add space. *)
Definition all_space (s : string) : Prop := string_forallb json_space s = true.
Definition style_ok (st : json_style) : Prop :=
  (forall d, all_space (st_line st d)) /\ exists a, st_colon st = String ":" a /\ all_space a.

Lemma compact_ok : style_ok compact.
Proof. split; [done|by exists ""]. Qed.
Lemma indented_ok : style_ok indented.
Proof.
  split; [|by exists " "]. intros d. unfold all_space. cbn. generalize (d + (d + 0))%nat. intros n. by induction n.
Qed.

Lemma skip_spaces a s : all_space a -> skip_space (a +:+ s) = skip_space s.
Proof.
  unfold all_space. induction a as [|c a IH]; [done|]. cbn [string_forallb]. intros [Hc Ha]%andb_true_iff.
  rewrite string_app_cons. cbn [skip_space]. rewrite Hc. by apply IH.
Qed.

Lemma read_value_spaces n d a s : all_space a -> read_value n d (a +:+ s) = read_value n d s.
Proof. intros Ha. destruct n; [done|]. cbn [read_value]. by rewrite skip_spaces. Qed.

Lemma read_members_spaces n d a s : all_space a -> read_members n d (a +:+ s) = read_members n d s.
Proof. intros Ha. destruct n; [done|]. cbn [read_members]. by rewrite skip_spaces. Qed.

Lemma read_elements_spaces n d a s : all_space a -> read_elements n d (a +:+ s) = read_elements n d s.
Proof. intros Ha. destruct n; [done|]. cbn [read_elements]. by rewrite read_value_spaces. Qed.

(** What may follow a number. *)
Definition ends (s : string) : Prop := match s with String c _ => number_char c = false | EmptyString => True end.

Lemma span_all p a s : string_forallb p a = true -> match s with String c _ => p c = false | EmptyString => True end ->
  span p (a +:+ s) = (a, s).
Proof.
  induction a as [|c a IH]; cbn [string_forallb]; intros Ha Hs.
  - rewrite string_app_nil. destruct s as [|c s]; [done|]. cbn [span]. by rewrite Hs.
  - apply andb_true_iff in Ha as [Hc Ha]. rewrite string_app_cons. cbn [span]. by rewrite Hc, IH.
Qed.

Lemma literal_number lit rest : number_ok lit = true -> string_forallb number_char lit = true -> ends rest ->
  literal (lit +:+ rest) = Some (JNum lit, rest).
Proof.
  intros Hn Hc He. unfold literal. rewrite span_all by done.
  destruct lit as [|c t]; [done|]. cbn [string_forallb] in Hc. apply andb_true_iff in Hc as [Hc _]. rewrite string_app_cons.
  assert (Hp : forall c' p, number_char c' = false -> strings_CutPrefix (String c' p) (String c (t +:+ rest)) = None).
  { intros c' p Hc'. cbn. destruct (Ascii.eqb_spec c' c) as [->|]; [congruence|done]. }
  by rewrite !Hp, Hn.
Qed.

(** The first character of a value. *)
Lemma skip_value s c t : s = String c t -> json_space c = false -> skip_space s = String c t.
Proof. intros -> Hc. cbn. by rewrite Hc. Qed.

Lemma number_start lit : number_ok lit = true -> string_forallb number_char lit = true ->
  exists c t, lit = String c t /\ json_space c = false /\ Ascii.eqb c dq = false /\ Ascii.eqb c "{" = false /\ Ascii.eqb c "[" = false.
Proof.
  destruct lit as [|c t]; [done|]. cbn [string_forallb]. intros _ [Hc _]%andb_true_iff. exists c, t. split; [done|].
  destruct c as [[] [] [] [] [] [] [] []]; by vm_compute in Hc.
Qed.

Lemma sep_text_cons {A} (w : A -> string) line x l tail :
  sep_text w line (x :: l) +:+ tail =
  line +:+ (w x +:+ match l with [] => tail | _ :: _ => String "," (sep_text w line l +:+ tail) end).
Proof.
  unfold sep_text. destruct l as [|y l]; cbn [map strings_Join]; rewrite <- !string_app_assoc; [done|]. by rewrite string_app_cons, string_app_nil.
Qed.

Lemma ends_spaces a s : all_space a -> ends s -> ends (a +:+ s).
Proof.
  unfold all_space. destruct a as [|c a]; [done|]. cbn [string_forallb]. intros [Hc _]%andb_true_iff _. rewrite string_app_cons. cbn.
  destruct c as [[] [] [] [] [] [] [] []]; by vm_compute in Hc |- *.
Qed.

(** Appended texts, to the right. *)
Ltac flatten := repeat first [rewrite <- string_app_assoc | rewrite string_app_cons | rewrite string_app_nil].
Ltac lengths := repeat progress (cbn [String.length] in *; rewrite ?string_length_app in * ).
Ltac flatten_in H := repeat first [rewrite <- string_app_assoc in H | rewrite string_app_cons in H | rewrite string_app_nil in H].

Section reading.
Variable st : json_style.
Hypothesis Hst : style_ok st.

(** A value is read back at any place of a text. *)
Definition reads_back (v : json) : Prop := forall d dz n rest,
  json_ok v = true -> dz + json_depth v <= maxNestingDepth -> ends rest ->
  (S (2 * String.length (json_text st d v +:+ rest)) <= n)%nat ->
  read_value n dz (json_text st d v +:+ rest) = Some (json_clean v, rest).

Lemma read_list_text d dz n l rest tail : Forall reads_back l -> l <> [] -> forallb json_ok l = true ->
  dz + fold_right Z.max 0 (map json_depth l) <= maxNestingDepth -> all_space tail ->
  (S (S (2 * String.length (sep_text (json_text st d) (st_line st d) l +:+ (tail +:+ String "]" rest)))) <= n)%nat ->
  read_elements n dz (sep_text (json_text st d) (st_line st d) l +:+ (tail +:+ String "]" rest)) = Some (map json_clean l, rest).
Proof.
  intros Hl. revert n. induction Hl as [|v l Hv Hl IH]; intros n Hne Hok Hd Ht Hn; [done|].
  cbn [forallb map fold_right] in *. apply andb_true_iff in Hok as [Hok Hokl]. destruct Hst as [Hline _]. specialize (Hline d).
  rewrite sep_text_cons, string_length_app in Hn. rewrite sep_text_cons, read_elements_spaces by done.
  destruct n as [|n]; [lia|]. cbn [read_elements].
  destruct l as [|v' l].
  - rewrite (Hv d dz n) by (done || lia || (apply ends_spaces; done)). cbn. by rewrite skip_spaces.
  - assert (Hlen : (String.length (String "," (sep_text (json_text st d) (st_line st d) (v' :: l) +:+ (tail +:+ String "]" rest))) <=
      String.length (json_text st d v +:+ String "," (sep_text (json_text st d) (st_line st d) (v' :: l) +:+ (tail +:+ String "]" rest))))%nat)
      by (rewrite string_length_app; lia). cbn [String.length] in Hlen.
    rewrite (Hv d dz n) by (done || lia). cbn [mbind option_bind].
    change (skip_space (String "," ?x)) with (String "," x). cbn match. rewrite IH by (done || lia). done.
Qed.

Definition member_text (d : nat) (m : string * json) : string := json_quote (fst m) +:+ st_colon st +:+ json_text st d (snd m).

Lemma read_member_text d dz n ms rest tail : Forall (fun m => reads_back (snd m)) ms -> ms <> [] -> forallb (fun m => json_ok (snd m)) ms = true ->
  dz + fold_right Z.max 0 (map (fun m => json_depth (snd m)) ms) <= maxNestingDepth -> all_space tail ->
  (S (S (2 * String.length (sep_text (member_text d) (st_line st d) ms +:+ (tail +:+ String "}" rest)))) <= n)%nat ->
  read_members n dz (sep_text (member_text d) (st_line st d) ms +:+ (tail +:+ String "}" rest)) =
    Some (map (fun m => (clean (fst m), json_clean (snd m))) ms, rest).
Proof.
  intros Hl. revert n. induction Hl as [|[k v] ms Hv Hl IH]; intros n Hne Hok Hd Ht Hn; [done|].
  cbn [forallb map fold_right snd fst] in *. apply andb_true_iff in Hok as [Hok Hokl]. destruct Hst as [Hline (a & Ha & Hsp)]. specialize (Hline d).
  rewrite sep_text_cons, string_length_app in Hn. rewrite sep_text_cons, read_members_spaces by done.
  destruct n as [|n]; [lia|]. unfold member_text at 1. unfold member_text at 1 in Hn. cbn [fst snd] in *.
  unfold json_quote. unfold json_quote in Hn. rewrite Ha. rewrite Ha in Hn. flatten. flatten_in Hn.
  cbn [read_members]. change (skip_space (String dq ?x)) with (String dq x). cbn match. change (Ascii.eqb dq dq) with true. cbn [negb].
  rewrite json_unquote_quote. cbn [mbind option_bind]. change (skip_space (String ":" ?x)) with (String ":" x). cbn match.
  change (Ascii.eqb ":" ":") with true. cbn [negb]. rewrite read_value_spaces by done.
  destruct ms as [|m ms].
  - rewrite (Hv d dz n) by (done || (lengths; lia) || (apply ends_spaces; done)). cbn. by rewrite skip_spaces.
  - rewrite (Hv d dz n) by (done || (lengths; lia)). cbn [mbind option_bind].
    change (skip_space (String "," ?x)) with (String "," x). cbn match. rewrite IH by (done || (lengths; lia)). done.
Qed.

(** The first character of a value. *)
Lemma text_start d v : json_ok v = true -> exists c t, json_text st d v = String c t /\ json_space c = false /\ Ascii.eqb c "]" = false.
Proof.
  destruct v as [|[]|lit|s|[|v l]|[|m ms]]; cbn [json_ok json_text]; intros Hok; try (flatten; by eexists _, _).
  apply andb_true_iff in Hok as [Hn Hc]. destruct (number_start lit Hn Hc) as (c & t & -> & Hs & _). exists c, t. split_and!; try done.
  cbn [string_forallb] in Hc. apply andb_true_iff in Hc as [Hc _]. by destruct c as [[] [] [] [] [] [] [] []]; vm_compute in Hc.
Qed.

Lemma depth_pos {A} (f : A -> json) l : 0 <= fold_right Z.max 0 (map (fun x => json_depth (f x)) l).
Proof. induction l as [|x l IH]; [done|]. cbn [map fold_right]. etrans; [exact IH|apply Z.le_max_r]. Qed.

Lemma json_reads_back v : reads_back v.
Proof.
  induction v as [|b|lit|s|l IH|ms IH] using json_nested_ind; intros d dz n rest Hok Hd He Hn; (destruct n as [|n]; [lia|]).
  - reflexivity.
  - by destruct b.
  - cbn [json_ok json_text json_clean] in *. apply andb_true_iff in Hok as [Hnum Hc].
    destruct (number_start lit Hnum Hc) as (c & t & -> & Hs & Hq & Hb & Hk). cbn [read_value]. rewrite string_app_cons.
    cbn [skip_space]. rewrite Hs, Hq, Hb, Hk. rewrite <- string_app_cons. by apply literal_number.
  - cbn [json_text json_clean]. unfold json_quote. flatten. cbn [read_value].
    change (skip_space (String dq ?x)) with (String dq x). cbn match. change (Ascii.eqb dq dq) with true. cbn match. by rewrite json_unquote_quote.
  - cbn [json_ok json_depth json_clean] in *. pose proof (depth_pos id l : 0 <= fold_right Z.max 0 (map json_depth l)) as Hpos. destruct Hst as [Hline _].
    destruct l as [|v l].
    { cbn in Hd. cbn [json_text]. flatten. cbn -[maxNestingDepth]. by rewrite (proj2 (Z.leb_gt _ _)) by lia. }
    cbn [json_text] in *. flatten. flatten_in Hn. cbn [read_value]. change (skip_space (String "[" ?x)) with (String "[" x). cbn match.
    change (Ascii.eqb "[" dq) with false. change (Ascii.eqb "[" "{") with false. change (Ascii.eqb "[" "[") with true. cbn match.
    rewrite (proj2 (Z.leb_gt _ _)) by lia. pose proof Hok as Hok1. cbn [forallb] in Hok1. apply andb_true_iff in Hok1 as [Hok1 _].
    destruct (text_start (S d) v Hok1) as (c & t & Et & Hsp & Hc). rewrite sep_text_cons, skip_spaces by done.
    rewrite Et at 1. rewrite string_app_cons. cbn [skip_space]. rewrite Hsp, Hc. rewrite <- sep_text_cons.
    by rewrite (read_list_text (S d) (dz + 1) n (v :: l)) by (done || (lengths; lia)).
  - cbn [json_ok json_depth json_clean] in *. pose proof (depth_pos (@snd string json) ms) as Hpos. destruct Hst as [Hline _].
    destruct ms as [|m ms].
    { cbn in Hd. cbn [json_text]. flatten. cbn -[maxNestingDepth]. by rewrite (proj2 (Z.leb_gt _ _)) by lia. }
    cbn [json_text] in *. change (fun m => json_quote (fst m) +:+ st_colon st +:+ json_text st (S d) (snd m)) with (member_text (S d)) in *.
    flatten. flatten_in Hn. cbn [read_value]. change (skip_space (String "{" ?x)) with (String "{" x). cbn match.
    change (Ascii.eqb "{" dq) with false. change (Ascii.eqb "{" "{") with true. cbn match.
    rewrite (proj2 (Z.leb_gt _ _)) by lia. rewrite sep_text_cons, skip_spaces by done.
    unfold member_text at 1, json_quote at 1. flatten. change (skip_space (String dq ?x)) with (String dq x). cbn match.
    change (Ascii.eqb dq "}") with false. cbn match. rewrite <- sep_text_cons.
    by rewrite (read_member_text (S d) (dz + 1) n (m :: ms)) by (done || (lengths; lia)).
Qed.

(** The one value of its text. *)
Lemma json_Parse_spaces d v tail : json_ok v = true -> json_depth v <= maxNestingDepth -> all_space tail ->
  json_Parse (json_text st d v +:+ tail) = Some (json_clean v).
Proof.
  intros Hok Hd Ht. assert (He : ends tail) by (rewrite <- (string_app_nil_r tail); by apply ends_spaces).
  unfold json_Parse. rewrite (json_reads_back v d 0) by (done || (unfold read_fuel; lia)). cbn [mbind option_bind].
  rewrite <- (string_app_nil_r tail), skip_spaces by done. done.
Qed.

Lemma json_Parse_text d v : json_ok v = true -> json_depth v <= maxNestingDepth -> json_Parse (json_text st d v) = Some (json_clean v).
Proof. intros Hok Hd. rewrite <- (string_app_nil_r (json_text st d v)). by apply json_Parse_spaces. Qed.
End reading.

(** What is written is read back, whatever is written, but for bytes that are no
    text; space around it changes nothing. *)
Theorem json_Parse_Marshal v : json_ok v = true -> json_depth v <= maxNestingDepth ->
  json_Parse (json_Marshal v) = Some (json_clean v) /\ json_Parse (json_MarshalIndent v) = Some (json_clean v).
Proof. intros Hok Hd. split; apply json_Parse_text; try done; [apply compact_ok|apply indented_ok]. Qed.
