(* ===== verification/JsonBind.v ===== *)
(** * JsonBind: how encoding/json fills structs

    A struct is the list of its fields, each with the name of its tag and what a
    value does to it: an object sets the fields it names, in order, a field named
    exactly or else in another case; what is not named stays as it was, and so does
    what is null.  A value of the wrong kind is an error. *)
From stdpp Require Import base tactics option list strings gmap sorting.
From Stdlib Require Import Ascii ZArith Lia.
From S2P Require Import Prelude GoStrings GoNum GoUtf8 GoJson.
Open Scope Z_scope.

(** ** Reading *)

(** What a value makes of the place it is read into. *)
Definition decoder (A : Type) : Type := json -> A -> option A.
Definition field (A : Type) : Type := string * decoder A.

Definition into_string {A} (set : string -> A -> A) : decoder A := fun v a =>
  match v with JStr s => Some (set s a) | JNull => Some a | _ => None end.
Definition into_bool {A} (set : bool -> A -> A) : decoder A := fun v a =>
  match v with JBool b => Some (set b a) | JNull => Some a | _ => None end.
(** An [int] or [int64]: literals with a fraction or an exponent are refused. *)
Definition into_int {A} (set : Z -> A -> A) : decoder A := fun v a =>
  match v with JNum lit => z ← strconv_Atoi lit; Some (set z a) | JNull => Some a | _ => None end.
Definition into_uint64 {A} (set : Z -> A -> A) : decoder A := fun v a =>
  match v with JNum lit => z ← strconv_ParseUint lit; Some (set z a) | JNull => Some a | _ => None end.

(** A pointer: null unsets it, a value is read into what it points to or into a new
    zero. *)
Definition into_pointer {A B} (get : A -> option B) (set : option B -> A -> A) (zero : B) (dec : decoder B) : decoder A := fun v a =>
  match v with
  | JNull => Some (set None a)
  | _ => b ← dec v (default zero (get a)); Some (set (Some b) a)
  end.

(** The elements of an array, each read into the one that was there. *)
Fixpoint into_elements {B} (zero : B) (dec : decoder B) (vs : list json) (old : list B) : option (list B) :=
  match vs with
  | [] => Some []
  | v :: vs => b ← dec v (hd zero old); bs ← into_elements zero dec vs (tl old); Some (b :: bs)
  end.
Definition into_slice {A B} (get : A -> list B) (set : list B -> A -> A) (zero : B) (dec : decoder B) : decoder A := fun v a =>
  match v with
  | JNull => Some (set [] a)
  | JArr vs => bs ← into_elements zero dec vs (get a); Some (set bs a)
  | _ => None
  end.

(** The entries of a map, each read into a new zero; a key met again is read again. *)
Fixpoint into_entries {B} (zero : B) (dec : decoder B) (ms : list (string * json)) (m : gmap string B) : option (gmap string B) :=
  match ms with
  | [] => Some m
  | (k, v) :: ms => b ← dec v zero; into_entries zero dec ms (<[k := b]> m)
  end.
Definition into_map {A B} (get : A -> gmap string B) (set : gmap string B -> A -> A) (zero : B) (dec : decoder B) : decoder A := fun v a =>
  match v with
  | JNull => Some (set ∅ a)
  | JObj ms => m ← into_entries zero dec ms (get a); Some (set m a)
  | _ => None
  end.

(** A place inside another. *)
Definition into_part {A B} (get : A -> B) (set : B -> A -> A) (dec : decoder B) : decoder A := fun v a =>
  b ← dec v (get a); Some (set b a).

(** The string, bool or list itself. *)
Definition the_string : decoder string := into_string (fun s _ => s).
Definition the_bool : decoder bool := into_bool (fun b _ => b).
Definition the_strings : decoder (list string) := into_slice id (fun l _ => l) "" the_string.

Section structs.
Context `{UnicodeTables}.

Definition find_field {A} (fields : list (field A)) (k : string) : option (field A) :=
  match List.find (fun f => String.eqb (fst f) k) fields with
  | Some f => Some f
  | None => List.find (fun f => strings_EqualFold (fst f) k) fields
  end.

Definition into_member {A} (fields : list (field A)) (m : string * json) (a : A) : option A :=
  match find_field fields (fst m) with Some f => snd f (snd m) a | None => Some a end.

Fixpoint into_members {A} (fields : list (field A)) (ms : list (string * json)) (a : A) : option A :=
  match ms with
  | [] => Some a
  | m :: ms => a ← into_member fields m a; into_members fields ms a
  end.

Definition into_struct {A} (fields : list (field A)) : decoder A := fun v a =>
  match v with JObj ms => into_members fields ms a | JNull => Some a | _ => None end.

(** [json.Unmarshal(data, &a)]. *)
Definition json_Unmarshal {A} (dec : decoder A) (data : string) (a : A) : option A :=
  v ← json_Parse data; dec v a.
End structs.

(** ** Writing *)

Definition json_int (z : Z) : json := JNum (strconv_Itoa z).
Definition json_uint (z : Z) : json := JNum (strconv_FormatUint z).
(** A nil slice is null; the model does not tell it from an empty one. *)
Definition json_list {B} (write : B -> json) (l : list B) : json := match l with [] => JNull | _ => JArr (map write l) end.

(** A member that [omitempty] may leave out. *)
Definition member (k : string) (v : json) : list (string * json) := [(k, v)].
Definition omit (empty : bool) (k : string) (v : json) : list (string * json) := if empty then [] else [(k, v)].
Definition omit_string (k s : string) : list (string * json) := omit (String.eqb s "") k (JStr s).
Definition omit_int (k : string) (z : Z) : list (string * json) := omit (z =? 0) k (json_int z).
Definition omit_list {B} (k : string) (write : B -> json) (l : list B) : list (string * json) :=
  omit (match l with [] => true | _ => false end) k (JArr (map write l)).

(** The entries of a map, by key; one that cannot be written is an error. *)
Definition sorted_entries {B} (m : gmap string B) : list (string * B) :=
  omap (fun k => pair k <$> m !! k) (sort_strings (map fst (map_to_list m))).
Definition json_map {B} (write : B -> option json) (m : gmap string B) : option json :=
  JObj <$> mapM (fun kb => pair (fst kb) <$> write (snd kb)) (sorted_entries m).

Definition omit_bool (k : string) (o : option bool) : list (string * json) := match o with Some b => [(k, JBool b)] | None => [] end.

(** ** Numbers read back *)

Lemma digits_lead fuel n acc : 0 < n < 10 ^ Z.of_nat fuel -> exists c t, digits fuel n acc = String c t /\ Ascii.eqb c "0" = false.
Proof.
  revert n acc. induction fuel as [|fuel IH]; intros n acc Hn; [cbn in Hn; lia|]. cbn [digits].
  destruct (Z.ltb_spec n 10).
  - eexists _, _. split; [done|]. rewrite Z.mod_small by lia. apply Ascii.eqb_neq. intros E.
    apply (f_equal code) in E. rewrite digit_char_code in E by lia. change (code "0") with 48 in E. lia.
  - apply IH. rewrite Nat2Z.inj_succ, Z.pow_succ_r in Hn by lia. split; [apply Z.div_str_pos; lia|apply Z.div_lt_upper_bound; lia].
Qed.

Lemma FormatUint_number n : 0 <= n <= max_uint64 ->
  number_ok (strconv_FormatUint n) = true /\ string_forallb number_char (strconv_FormatUint n) = true.
Proof.
  intros Hn. pose proof (FormatUint_digits n ltac:(lia)) as Hd. split.
  - destruct (Z.eq_dec n 0) as [->|Hz]; [reflexivity|].
    destruct (digits_lead digits_fuel n "") as (c & t & E & Hc); [unfold max_uint64, digits_fuel in *; cbn; lia|].
    unfold strconv_FormatUint in *. rewrite E in *. cbn [string_forallb] in Hd. apply andb_true_iff in Hd as [Hd1 Hd2].
    unfold number_ok. pose proof (digit_not_sign c Hd1) as Hs. apply orb_false_iff in Hs as [-> _]. rewrite Hc, Hd1. cbn [andb].
    rewrite <- (string_app_nil_r t). by rewrite span_all.
  - eapply string_forallb_mono; [|exact Hd]. intros c Hc. unfold number_char. by rewrite Hc.
Qed.

Lemma json_uint_ok n : 0 <= n <= max_uint64 -> json_ok (json_uint n) = true.
Proof. intros Hn. cbn [json_ok json_uint]. destruct (FormatUint_number n Hn) as [-> ->]. done. Qed.

Lemma json_int_ok z : min_int64 <= z <= max_int64 -> json_ok (json_int z) = true.
Proof.
  intros Hz. unfold json_int, strconv_Itoa. destruct (Z.ltb_spec z 0).
  - destruct (FormatUint_number (- z)) as [Hn Hc]; [unfold min_int64, max_uint64 in *; lia|]. cbn [json_ok].
    destruct (digits_lead digits_fuel (- z) "") as (c & t & E & _); [unfold min_int64, digits_fuel in *; cbn; lia|].
    pose proof (FormatUint_digits (- z) ltac:(lia)) as Hd.
    unfold strconv_FormatUint in *. rewrite E in *. cbn [string_forallb] in Hd. apply andb_true_iff in Hd as [Hd1 _].
    unfold number_ok in Hn |- *. pose proof (digit_not_sign c Hd1) as Hs. apply orb_false_iff in Hs as [Hs _]. rewrite Hs in Hn.
    change (Ascii.eqb "-" "-") with true. cbn match. rewrite Hn. cbn [andb]. cbn [string_forallb] in Hc |- *. by rewrite Hc.
  - apply json_uint_ok. unfold max_int64, max_uint64 in *. lia.
Qed.

Lemma Atoi_Itoa z : min_int64 <= z <= max_int64 -> strconv_Atoi (strconv_Itoa z) = Some z.
Proof.
  intros Hz. destruct (Z.le_gt_cases 0 z); [apply Atoi_Itoa_nonneg; lia|]. unfold strconv_Itoa. rewrite (proj2 (Z.ltb_lt z 0)) by done.
  destruct (FormatUint_head (- z)) as (c & s & E & _); [lia|]. unfold strconv_Atoi. change (Ascii.eqb "-" "-") with true. cbn [orb]. rewrite E, <- E.
  rewrite parse_FormatUint by (unfold min_int64, max_uint64 in *; lia). cbn [mbind option_bind]. rewrite Z.opp_involutive.
  by rewrite (proj2 (Z.leb_le _ _)), (proj2 (Z.leb_le _ _)) by lia.
Qed.

(** ** Setting one field of a record

    [setter eta p] is the function that sets the field [p] of a record whose
    fields [eta] lists. *)
Ltac setter eta p :=
  let v := fresh "v" in let r := fresh "r" in
  intros v r;
  let t := eval unfold eta in (eta r) in
  let t := eval pattern (p r) in t in
  lazymatch t with ?g _ => let u := eval cbv beta in (g v) in exact u end.

(** ** Structs read back

    Members as they are after a writing and a reading, met one by one. *)
Definition clean_members (ms : list (string * json)) : list (string * json) := map (fun m => (clean (fst m), json_clean (snd m))) ms.

Lemma int_read {A} (set : Z -> A -> A) z a : int64 z -> into_int set (json_clean (json_int z)) a = Some (set z a).
Proof. intros Hz. cbn. by rewrite Atoi_Itoa. Qed.

Lemma into_strings_clean l : forall old, into_elements "" the_string (map json_clean (map JStr l)) old = Some (map clean l).
Proof. induction l as [|s l IH]; intros old; [done|]. cbn. by rewrite IH. Qed.

Section laws.
Context `{UnicodeTables} {A : Type} (fields : list (field A)).

Lemma read_member k f v ms a : clean k = k -> find_field fields k = Some f ->
  into_members fields (clean_members (member k v ++ ms)) a = a ← snd f (json_clean v) a; into_members fields (clean_members ms) a.
Proof.
  intros Hk Hf. unfold clean_members, member. cbn [app map fst snd into_members]. unfold into_member. cbn [fst snd]. by rewrite Hk, Hf.
Qed.

Lemma read_omit (empty : bool) k f v ms a a' : clean k = k -> find_field fields k = Some f ->
  snd f (json_clean v) a = Some a' -> (empty = true -> a' = a) ->
  into_members fields (clean_members (omit empty k v ++ ms)) a = into_members fields (clean_members ms) a'.
Proof.
  intros Hk Hf Hv He. destruct empty; [cbn [omit app]; by rewrite He|]. change (omit false k v) with (member k v). rewrite (read_member k f) by done.
  by rewrite Hv.
Qed.

Lemma read_omit_string k set s ms a a' : clean k = k -> find_field fields k = Some (k, into_string set) -> set "" a = a -> set (clean s) a = a' ->
  into_members fields (clean_members (omit_string k s ++ ms)) a = into_members fields (clean_members ms) a'.
Proof. intros Hk Hf Hs <-. eapply read_omit; [done|exact Hf|done|]. by intros ->%String.eqb_eq. Qed.

Lemma read_omit_int k set z ms a a' : min_int64 <= z <= max_int64 ->
  clean k = k -> find_field fields k = Some (k, into_int set) -> set 0 a = a -> set z a = a' ->
  into_members fields (clean_members (omit_int k z ++ ms)) a = into_members fields (clean_members ms) a'.
Proof. intros Hz Hk Hf Hs <-. eapply read_omit; [done|exact Hf| |by intros ->%Z.eqb_eq]. cbn. by rewrite Atoi_Itoa. Qed.

Lemma read_string k set s ms a a' : clean k = k -> find_field fields k = Some (k, into_string set) -> set (clean s) a = a' ->
  into_members fields (clean_members (member k (JStr s) ++ ms)) a = into_members fields (clean_members ms) a'.
Proof. intros Hk Hf <-. by rewrite (read_member k _ _ _ _ Hk Hf). Qed.

Lemma read_int k set z ms a a' : min_int64 <= z <= max_int64 -> clean k = k -> find_field fields k = Some (k, into_int set) -> set z a = a' ->
  into_members fields (clean_members (member k (json_int z) ++ ms)) a = into_members fields (clean_members ms) a'.
Proof. intros Hz Hk Hf <-. rewrite (read_member k _ _ _ _ Hk Hf). cbn. by rewrite Atoi_Itoa. Qed.

Lemma read_omit_bool k get set zero o ms a a' : clean k = k -> find_field fields k = Some (k, into_pointer get set zero the_bool) ->
  set None a = a -> set o a = a' ->
  into_members fields (clean_members (omit_bool k o ++ ms)) a = into_members fields (clean_members ms) a'.
Proof.
  intros Hk Hf Hs <-. destruct o as [b|]; [|by rewrite Hs]. change (omit_bool k (Some b)) with (member k (JBool b)). by rewrite (read_member k _ _ _ _ Hk Hf).
Qed.

Lemma read_omit_strings k get set l ms a a' : clean k = k -> find_field fields k = Some (k, into_slice get set "" the_string) ->
  set [] a = a -> set (map clean l) a = a' ->
  into_members fields (clean_members (omit_list k JStr l ++ ms)) a = into_members fields (clean_members ms) a'.
Proof.
  intros Hk Hf Hs <-. eapply read_omit; [done|exact Hf| |by destruct l].
  cbn [snd json_clean into_slice]. by rewrite into_strings_clean.
Qed.
End laws.

#[global] Arguments clean : simpl never.

(** The members of a struct met one after the other. *)
Ltac record_step := cbn; reflexivity.
Ltac read_struct :=
  repeat lazymatch goal with
  | |- into_members _ (clean_members (omit_string _ _ ++ _)) _ = _ =>
      etransitivity; [eapply read_omit_string; [reflexivity|reflexivity|reflexivity|record_step]|]
  | |- into_members _ (clean_members (member _ (JStr _) ++ _)) _ = _ =>
      etransitivity; [eapply read_string; [reflexivity|reflexivity|record_step]|]
  | |- into_members _ (clean_members (omit_int _ _ ++ _)) _ = _ =>
      etransitivity; [eapply read_omit_int; [eassumption|reflexivity|reflexivity|reflexivity|record_step]|]
  | |- into_members _ (clean_members (omit_bool _ _ ++ _)) _ = _ =>
      etransitivity; [eapply read_omit_bool; [reflexivity|reflexivity|reflexivity|record_step]|]
  | |- into_members _ (clean_members (omit_list _ JStr _ ++ _)) _ = _ =>
      etransitivity; [eapply read_omit_strings; [reflexivity|reflexivity|reflexivity|record_step]|]
  | |- into_members _ (clean_members (member _ (json_int _) ++ _)) _ = _ =>
      etransitivity; [eapply read_int; [eassumption|reflexivity|reflexivity|record_step]|]
  end.

(** *** Maps *)

Lemma sorted_entries_perm {B} (m : gmap string B) : sorted_entries m ≡ₚ map_to_list m.
Proof.
  unfold sorted_entries, sort_strings. rewrite merge_sort_Permutation.
  assert (Hm : forall l, (forall k b, (k, b) ∈ l -> m !! k = Some b) -> omap (fun k => pair k <$> m !! k) (map fst l) = l).
  { induction l as [|[k b] l IH]; intros Hl; [done|]. cbn [map fst omap list_omap]. rewrite (Hl k b) by left. cbn [fmap option_fmap option_map].
    f_equal. apply IH. intros k' b' Hin. apply Hl. by right. }
  rewrite Hm; [done|]. intros k b. apply elem_of_map_to_list.
Qed.

Lemma inserts_list_to_map {B} (l : list (string * B)) : foldl (fun m kb => <[fst kb := snd kb]> m) ∅ l = list_to_map (reverse l) :> gmap string B.
Proof.
  induction l as [|kb l IH] using rev_ind; [done|]. rewrite foldl_app, reverse_app. cbn [foldl]. rewrite IH. by destruct kb.
Qed.

(** A map of values that read back does. *)
Lemma map_reads_back {B} (write : B -> option json) (zero : B) (dec : decoder B) (back : B -> B) (m : gmap string B) ms :
  mapM (fun kb => pair (fst kb) <$> write (snd kb)) (sorted_entries m) = Some ms ->
  map_Forall (fun k b => clean k = k /\ forall v, write b = Some v -> dec (json_clean v) zero = Some (back b)) m ->
  into_entries zero dec (clean_members ms) ∅ = Some (back <$> m).
Proof.
  intros Hms Hm.
  assert (He : forall (l : list (string * B)) ms (m0 : gmap string B), Forall (fun kb => m !! fst kb = Some (snd kb)) l ->
    mapM (fun kb => pair (fst kb) <$> write (snd kb)) l = Some ms ->
    into_entries zero dec (clean_members ms) m0 = Some (foldl (fun m kb => <[fst kb := snd kb]> m) m0 (map (fun kb => (fst kb, back (snd kb))) l))).
  { clear ms Hms. induction l as [|[k b] l IH]; intros ms m0 Hl E; [by injection E as <-|].
    apply Forall_cons in Hl as [Hk Hl]. cbn [fst snd] in *. cbn [mapM fst snd] in E. destruct (Hm k b Hk) as [Hc Hr].
    destruct (write b) as [v|] eqn:Ew; [|done]. cbn [fmap option_fmap option_map mbind option_bind] in E.
    destruct (mapM _ l) as [ms'|] eqn:Em; [|done]. injection E as <-.
    cbn [clean_members map fst snd into_entries]. rewrite (Hr v eq_refl). cbn [mbind option_bind]. rewrite Hc. by apply IH. }
  pose proof (sorted_entries_perm m) as Hp.
  rewrite (He (sorted_entries m) ms ∅); [|apply Forall_forall; intros [k b] Hin; rewrite Hp in Hin; by apply elem_of_map_to_list|done].
  f_equal. rewrite inserts_list_to_map. apply map_eq. intros k.
  assert (Hnd : NoDup (map fst (map (fun kb => (fst kb, back (snd kb))) (sorted_entries m)))).
  { rewrite map_map. cbn. change (NoDup (fst <$> sorted_entries m)). rewrite Hp. apply NoDup_fst_map_to_list. }
  rewrite (list_to_map_proper _ (map (fun kb => (fst kb, back (snd kb))) (sorted_entries m))) by
    (rewrite ?reverse_Permutation; done).
  rewrite lookup_fmap. destruct (m !! k) as [b|] eqn:Ek.
  - apply elem_of_list_to_map; [done|]. apply list_elem_of_fmap. exists (k, b). split; [done|]. rewrite Hp. by apply elem_of_map_to_list.
  - apply not_elem_of_list_to_map. intros Hin. rewrite list_elem_of_In, in_map_iff in Hin. destruct Hin as ([k1 b1] & E1 & Hin).
    apply in_map_iff in Hin as ([k2 b2] & [= <- <-] & Hin%list_elem_of_In). cbn in E1. subst k2.
    rewrite Hp in Hin. apply elem_of_map_to_list in Hin. congruence.
Qed.

Lemma clean_empty s : clean s = "" -> s = "".
Proof.
  unfold clean. destruct s as [|c t]; [done|]. cbn [to_valid]. destruct (utf8_DecodeRune (String c t)) as [r w]. unfold utf8_AppendRune.
  repeat case_if; autorewrite with strs; done.
Qed.

Lemma clean_all l : Forall (fun s => utf8_Valid s = true) l -> map clean l = l.
Proof. induction 1 as [|s l Hs _ IH]; [done|]. cbn. by rewrite clean_valid, IH. Qed.

(** ** Values within the limits *)

(** Numbers are numbers, and [k] more arrays and objects at most are inside. *)
Definition good (k : Z) (v : json) : Prop := json_ok v = true /\ json_depth v <= k.
Definition goods (k : Z) (ms : list (string * json)) : Prop := Forall (fun m => good k (snd m)) ms.

Lemma depth_below {A} (f : A -> json) k l : 0 <= k -> Forall (fun x => json_depth (f x) <= k) l ->
  fold_right Z.max 0 (map (fun x => json_depth (f x)) l) <= k.
Proof. intros Hk. induction 1 as [|x l Hx _ IH]; [done|]. cbn [map fold_right]. lia. Qed.

Lemma good_object k ms : 0 <= k -> goods k ms -> good (1 + k) (JObj ms).
Proof.
  intros Hk Hm. split; cbn [json_ok json_depth].
  - apply forallb_forall. intros m Hin%list_elem_of_In. unfold goods in Hm. rewrite Forall_forall in Hm. by apply Hm.
  - apply Zplus_le_compat_l, (depth_below (@snd string json)); [done|]. eapply Forall_impl; [exact Hm|]. by intros m [_ ?].
Qed.

Lemma good_array k vs : 0 <= k -> Forall (good k) vs -> good (1 + k) (JArr vs).
Proof.
  intros Hk Hv. split; cbn [json_ok json_depth].
  - apply forallb_forall. intros v Hin%list_elem_of_In. rewrite Forall_forall in Hv. by apply Hv.
  - apply Zplus_le_compat_l. eapply (depth_below id); [done|]. eapply Forall_impl; [exact Hv|]. by intros v [_ ?].
Qed.

Lemma good_string k s : 0 <= k -> good k (JStr s).
Proof. by split. Qed.
Lemma good_strings l : good 1 (JArr (map JStr l)).
Proof. apply (good_array 0); [done|]. induction l; constructor; [by apply good_string|done]. Qed.
Lemma good_int k z : 0 <= k -> min_int64 <= z <= max_int64 -> good k (json_int z).
Proof. intros Hk Hz. split; [by apply json_int_ok|done]. Qed.
Lemma good_uint k z : 0 <= k -> 0 <= z <= max_uint64 -> good k (json_uint z).
Proof. intros Hk Hz. split; [by apply json_uint_ok|done]. Qed.
Lemma good_null k : 0 <= k -> good k JNull.
Proof. by split. Qed.
Lemma good_bool k b : 0 <= k -> good k (JBool b).
Proof. by split. Qed.
Lemma good_weaken k k' v : k <= k' -> good k v -> good k' v.
Proof. intros Hk [Ho Hd]. split; [done|lia]. Qed.

Lemma goods_app k ms ms' : goods k ms -> goods k ms' -> goods k (ms ++ ms').
Proof. intros H1 H2. by apply Forall_app. Qed.
Lemma goods_nil k : goods k [].
Proof. apply Forall_nil_2. Qed.
Lemma goods_member k key v : good k v -> goods k (member key v).
Proof. intros Hv. by constructor. Qed.
Lemma goods_omit k b key v : good k v -> goods k (omit b key v).
Proof. intros Hv. destruct b; [apply goods_nil|by apply goods_member]. Qed.

Lemma goods_omit_bool k key o : 0 <= k -> goods k (omit_bool key o).
Proof. intros Hk. destruct o; [by apply goods_member, good_bool|apply goods_nil]. Qed.

Create HintDb good discriminated.
#[export] Hint Resolve goods_app goods_nil goods_member goods_omit goods_omit_bool good_string good_int good_uint good_null good_bool : good.
#[export] Hint Extern 1 (0 <= _) => lia : good.
#[export] Hint Extern 2 (goods _ (omit_string _ _)) => apply goods_omit : good.
#[export] Hint Extern 2 (goods _ (omit_int _ _)) => apply goods_omit : good.
#[export] Hint Extern 2 (goods _ (omit_list _ _ _)) => apply goods_omit : good.

(** The text of an object within the limits, in either style. *)
Lemma Unmarshal_text `{UnicodeTables} {A} (dec : decoder A) k v a tail : good k v -> k <= maxNestingDepth -> all_space tail ->
  json_Unmarshal dec (json_Marshal v) a = dec (json_clean v) a /\ json_Unmarshal dec (json_MarshalIndent v +:+ tail) a = dec (json_clean v) a.
Proof.
  intros [Ho Hd] Hk Ht. unfold json_Unmarshal. split.
  - by rewrite (proj1 (json_Parse_Marshal v Ho ltac:(lia))).
  - unfold json_MarshalIndent. rewrite (json_Parse_spaces indented indented_ok) by (done || lia). done.
Qed.
