(* ===== verification/GoXml.v ===== *)
(** * GoXml: Go's package encoding/xml

    The text of elements as [xml.Marshal] writes it, and a document as the decoder of
    [xml.Unmarshal] reads it, in its strict mode and up to the end of the root
    element: names, attributes, the text with its entities, CDATA sections, and
    what is skipped.  Which names with bytes beyond ASCII are names is a table of
    the library, [XmlNames].  What is written is read back ([read_written]). *)
From stdpp Require Import base tactics option list strings gmap.
From Stdlib Require Import Ascii ZArith Lia.
From S2P Require Import Prelude GoStrings GoNum GoBase64 GoUtf8 GoJson.
Open Scope Z_scope.

Class XmlNames := uc_XmlName : string -> bool.

(** ** Characters *)

(** [isInCharacterRange]. *)
Definition xml_char (r : Z) : bool :=
  (r =? 9) || (r =? 10) || (r =? 13) || ((32 <=? r) && (r <=? 55295)) || ((57344 <=? r) && (r <=? 65533)) ||
  ((65536 <=? r) && (r <=? 1114111)).

(** A rune that is written and read as it is: [w] bytes were decoded to [r]. *)
Definition xml_rune (r : Z) (w : nat) : bool := xml_char r && negb ((r =? RuneError) && Nat.eqb w 1).

(** Every rune of a text is a character. *)
Fixpoint xml_chars (skip : nat) (s : string) : bool :=
  match s with
  | EmptyString => true
  | String _ t =>
      match skip with
      | S k => xml_chars k t
      | O => let '(r, w) := utf8_DecodeRune s in xml_rune r w && xml_chars (pred w) t
      end
  end.

(** ** Writing *)

Definition xml_ref (text : string) : string := "&" +:+ text +:+ ";".

(** [EscapeText]; [skip] bytes belong to the rune before. *)
Fixpoint xml_escape (skip : nat) (s : string) : string :=
  match s with
  | EmptyString => ""
  | String c t =>
      match skip with
      | S k => xml_escape k t
      | O =>
          let '(r, w) := utf8_DecodeRune s in
          (if r =? 34 then xml_ref "#34" else if r =? 39 then xml_ref "#39" else if r =? 38 then xml_ref "amp"
           else if r =? 60 then xml_ref "lt" else if r =? 62 then xml_ref "gt" else if r =? 9 then xml_ref "#x9"
           else if r =? 10 then xml_ref "#xA" else if r =? 13 then xml_ref "#xD"
           else if xml_rune r w then string_take w s else utf8_AppendRune RuneError) +:+ xml_escape (pred w) t
      end
  end.
Definition xml_EscapeText (s : string) : string := xml_escape 0 s.

(** What a text is after a writing and a reading: what is no character is U+FFFD. *)
Fixpoint xml_clean_from (skip : nat) (s : string) : string :=
  match s with
  | EmptyString => ""
  | String c t =>
      match skip with
      | S k => xml_clean_from k t
      | O =>
          let '(r, w) := utf8_DecodeRune s in
          (if xml_rune r w then string_take w s else utf8_AppendRune RuneError) +:+ xml_clean_from (pred w) t
      end
  end.
Definition xml_clean (s : string) : string := xml_clean_from 0 s.

(** What the fields of a struct make: an element with a text, or one with elements
    and, at the root, attributes. *)
Inductive doc : Type :=
  | Leaf (name text : string)
  | Branch (name : string) (attrs : list (string * string)) (kids : list doc).

Definition xml_attr (a : string * string) : string :=
  " " +:+ fst a +:+ "=" +:+ String dq (xml_EscapeText (snd a) +:+ String dq "").
Definition concat_texts (l : list string) : string := fold_right String.append "" l.
Definition tagged (name attrs inside : string) : string :=
  "<" +:+ name +:+ attrs +:+ ">" +:+ inside +:+ "</" +:+ name +:+ ">".

Fixpoint xml_Marshal (d : doc) : string :=
  match d with
  | Leaf name text => tagged name "" (xml_EscapeText text)
  | Branch name attrs kids => tagged name (concat_texts (map xml_attr attrs)) (concat_texts (map xml_Marshal kids))
  end.

(** ** Reading *)

Inductive xml : Type :=
  | XText (s : string)
  | XElem (name : string) (attrs : list (string * string)) (children : list xml).

(** *** Names *)

Definition ascii_letter (c : ascii) : bool :=
  let n := code c in ((65 <=? n) && (n <=? 90)) || ((97 <=? n) && (n <=? 122)).
Definition name_char (c : ascii) : bool :=
  (128 <=? code c) || ascii_letter c || is_digit c || Ascii.eqb c "_" || Ascii.eqb c ":" || Ascii.eqb c "." || Ascii.eqb c "-".

Section reading.
Context `{XmlNames}.

(** [isName] of characters of names. *)
Definition is_xml_name (s : string) : bool :=
  match s with
  | EmptyString => false
  | String c _ => if string_forallb is_ascii s then ascii_letter c || Ascii.eqb c "_" || Ascii.eqb c ":" else uc_XmlName s
  end.

Definition read_name (s : string) : option (string * string) :=
  let '(n, t) := span name_char s in if is_xml_name n then Some (n, t) else None.

(** A name of an element or an attribute has one colon at most. *)
Definition read_nsname (s : string) : option (string * string) :=
  '(n, t) ← read_name s; if (2 <=? strings_Count ":" n)%nat then None else Some (n, t).

(** The name without its prefix. *)
Definition local_name (n : string) : string :=
  match strings_IndexByte ":" n with
  | Some i => let rest := string_drop (S i) n in if Nat.eqb i 0 || String.eqb rest "" then n else rest
  | None => n
  end.

(** *** Text *)

(** The number of a character reference. *)
Definition reference_value (base : Z) (ds : string) : Z :=
  fold_left (fun v c => v * base + default 0 (hex_nibble c)) (String.list_ascii_of_string ds) 0.
Definition is_hex_digit (c : ascii) : bool :=
  is_digit c || ((97 <=? code c) && (code c <=? 102)) || ((65 <=? code c) && (code c <=? 70)).

(** After the ampersand: the text referred to and the rest. *)
Definition read_entity (s : string) : option (string * string) :=
  match strings_CutPrefix "#" s with
  | Some t =>
      let '(base, digit, t) :=
        match strings_CutPrefix "x" t with Some u => (16, is_hex_digit, u) | None => (10, is_digit, t) end in
      let '(ds, t) := span digit t in
      rest ← strings_CutPrefix ";" t;
      if String.eqb ds "" || (1114111 <? reference_value base ds) then None
      else Some (utf8_AppendRune (reference_value base ds), rest)
  | None =>
      let '(n, t) := span name_char s in
      rest ← strings_CutPrefix ";" t;
      text ← snd <$> List.find (fun e => String.eqb (fst e) n)
        [("lt", "<"); ("gt", ">"); ("amp", "&"); ("apos", "'"); ("quot", String dq "")];
      Some (text, rest)
  end.

(** The text up to a markup or, in an attribute, the closing quote; [b0] and [b1] are
    the two bytes before. *)
Fixpoint text_run (fuel : nat) (quote : option ascii) (b0 b1 : ascii) (s : string) : option (string * string) :=
  match fuel, s with
  | O, _ => None
  | _, EmptyString => Some ("", "")
  | S fuel, String c t =>
      if negb (bool_decide (is_Some quote)) && Ascii.eqb b0 "]" && Ascii.eqb b1 "]" && Ascii.eqb c ">" then None
      else if Ascii.eqb c "<" then match quote with Some _ => None | None => Some ("", s) end
      else if bool_decide (quote = Some c) then Some ("", t)
      else if Ascii.eqb c "&" then
        '(e, u) ← read_entity t; '(d, rest) ← text_run fuel quote (chr 0) (chr 0) u; Some (e +:+ d, rest)
      else
        '(d, rest) ← text_run fuel quote b1 c t;
        Some ((if Ascii.eqb c (chr 13) then String (chr 10) ""
               else if Ascii.eqb b1 (chr 13) && Ascii.eqb c (chr 10) then "" else String c "") +:+ d, rest)
  end.
Definition read_text (quote : option ascii) (s : string) : option (string * string) :=
  '(d, rest) ← text_run (S (String.length s)) quote (chr 0) (chr 0) s; if xml_chars 0 d then Some (d, rest) else None.

(** A CDATA section up to its end, the last two brackets included in the text. *)
Fixpoint cdata_run (b0 b1 : ascii) (s : string) : option (string * string) :=
  match s with
  | EmptyString => None
  | String c t =>
      if Ascii.eqb b0 "]" && Ascii.eqb b1 "]" && Ascii.eqb c ">" then Some ("", t)
      else
        '(d, rest) ← cdata_run b1 c t;
        Some ((if Ascii.eqb c (chr 13) then String (chr 10) ""
               else if Ascii.eqb b1 (chr 13) && Ascii.eqb c (chr 10) then "" else String c "") +:+ d, rest)
  end.
Definition read_cdata (s : string) : option (string * string) :=
  '(d, rest) ← cdata_run (chr 0) (chr 0) s;
  let d := string_take (String.length d - 2) d in if xml_chars 0 d then Some (d, rest) else None.

(** *** Markup *)

Definition xml_space (c : ascii) : bool := json_space c.

(** The attributes of a start tag, whether it ends the element, and what follows. *)
Fixpoint read_attrs (fuel : nat) (s : string) : option (list (string * string) * bool * string) :=
  match fuel with
  | O => None
  | S fuel =>
      let s := skip_space s in
      match strings_CutPrefix "/>" s, strings_CutPrefix ">" s with
      | Some t, _ => Some ([], true, t)
      | None, Some t => Some ([], false, t)
      | None, None =>
          '(n, t) ← read_nsname s;
          t ← strings_CutPrefix "=" (skip_space t);
          match skip_space t with
          | String q u =>
              if Ascii.eqb q dq || Ascii.eqb q "'" then
                '(v, u) ← read_text (Some q) u; '(l, empty, rest) ← read_attrs fuel u; Some ((n, v) :: l, empty, rest)
              else None
          | EmptyString => None
          end
      end
  end.

(** The first place of a text, with what is before it and after it. *)
Fixpoint cut_at (sub s : string) : option (string * string) :=
  match strings_CutPrefix sub s with
  | Some rest => Some ("", rest)
  | None => match s with String c t => '(a, b) ← cut_at sub t; Some (String c a, b) | EmptyString => None end
  end.

(** [procInst]: the value of a parameter of [<?xml ?>], empty when there is none. *)
Fixpoint procInst (fuel : nat) (param s : string) : string :=
  match fuel, cut_at (param +:+ "=") s with
  | S fuel, Some (_, String c t) =>
      if Ascii.eqb c dq || Ascii.eqb c "'" then from_option fst "" (cut_at (String c "") t) else procInst fuel param t
  | _, _ => ""
  end.

(** Only documents of version 1.0 and in UTF-8. *)
Definition instruction_ok `{UnicodeTables} (target data : string) : bool :=
  let ver := procInst (S (String.length data)) "version" data in
  let enc := procInst (S (String.length data)) "encoding" data in
  negb (String.eqb target "xml") ||
  ((String.eqb ver "" || String.eqb ver "1.0") && (String.eqb enc "" || strings_EqualFold enc "utf-8")).

(** A directive up to its closing bracket: quotes and nested brackets are passed
    over, comments in it too. *)
Fixpoint read_directive (fuel : nat) (inquote : option ascii) (depth : nat) (s : string) : option string :=
  match fuel, s with
  | S fuel, String c t =>
      match inquote with
      | Some q => read_directive fuel (if Ascii.eqb c q then None else Some q) depth t
      | None =>
          if Ascii.eqb c ">" then match depth with O => Some t | S depth => read_directive fuel None depth t end
          else if Ascii.eqb c dq || Ascii.eqb c "'" then read_directive fuel (Some c) depth t
          else if Ascii.eqb c "<" then
            match strings_CutPrefix "!--" t with
            | Some u => '(_, rest) ← cut_at "-->" u; read_directive fuel None depth rest
            | None => read_directive fuel None (S depth) t
            end
          else read_directive fuel None depth t
      end
  | _, _ => None
  end.

Inductive token := TStart (name : string) (attrs : list (string * string)) (empty : bool) | TEnd (name : string) | TText (s : string) | TSkip.

(** The next token of a text that is not at its end. *)
Definition read_token `{UnicodeTables} (s : string) : option (token * string) :=
  match strings_CutPrefix "<" s with
  | None => '(d, rest) ← read_text None s; Some (TText d, rest)
  | Some t =>
      match strings_CutPrefix "/" t, strings_CutPrefix "?" t, strings_CutPrefix "!--" t, strings_CutPrefix "![CDATA[" t, strings_CutPrefix "!" t with
      | Some u, _, _, _, _ => '(n, u) ← read_nsname u; rest ← strings_CutPrefix ">" (skip_space u); Some (TEnd n, rest)
      | _, Some u, _, _, _ =>
          '(target, u) ← read_name u; '(data, rest) ← cut_at "?>" (skip_space u);
          if instruction_ok target data then Some (TSkip, rest) else None
      | _, _, Some u, _, _ => '(_, u) ← cut_at "--" u; rest ← strings_CutPrefix ">" u; Some (TSkip, rest)
      | _, _, _, Some u, _ => '(d, rest) ← read_cdata u; Some (TText d, rest)
      | _, _, _, _, Some u =>
          match u with
          | String c v =>
              if Ascii.eqb c "-" || Ascii.eqb c "[" then None
              else rest ← read_directive (S (String.length v)) None 0 v; Some (TSkip, rest)
          | EmptyString => None
          end
      | _, _, _, _, _ =>
          '(n, u) ← read_nsname t; '(attrs, empty, rest) ← read_attrs (S (String.length u)) u; Some (TStart n attrs empty, rest)
      end
  end.

(** The children up to the end tag of the element [n], and what follows. *)
Fixpoint read_children `{UnicodeTables} (fuel : nat) (n : string) (s : string) : option (list xml * string) :=
  match fuel with
  | O => None
  | S fuel =>
      '(tok, t) ← read_token s;
      match tok with
      | TEnd m => if String.eqb m n then Some ([], t) else None
      | TSkip => read_children fuel n t
      | TText d => '(l, rest) ← read_children fuel n t; Some (XText d :: l, rest)
      | TStart m attrs true => '(l, rest) ← read_children fuel n t; Some (XElem m attrs [] :: l, rest)
      | TStart m attrs false =>
          '(kids, t) ← read_children fuel m t; '(l, rest) ← read_children fuel n t; Some (XElem m attrs kids :: l, rest)
      end
  end.

(** The root element, after what comes before it. *)
Fixpoint read_root `{UnicodeTables} (fuel : nat) (s : string) : option xml :=
  match fuel with
  | O => None
  | S fuel =>
      '(tok, t) ← read_token s;
      match tok with
      | TEnd _ => None
      | TStart m attrs true => Some (XElem m attrs [])
      | TStart m attrs false => '(kids, _) ← read_children fuel m t; Some (XElem m attrs kids)
      | _ => read_root fuel t
      end
  end.

(** Every token takes a byte at least. *)
Definition xml_Parse `{UnicodeTables} (s : string) : option xml := read_root (S (String.length s)) s.
End reading.

(** ** What is written is read *)

(** *** Texts *)

Definition text_byte (c : ascii) : bool :=
  negb (Ascii.eqb c "<" || Ascii.eqb c ">" || Ascii.eqb c "&" || Ascii.eqb c dq || Ascii.eqb c (chr 10) || Ascii.eqb c (chr 13)).

(** How a text ends: at a markup, or at the quote. *)
Definition ends_run (quote : option ascii) (tail rest : string) : Prop :=
  (quote = None /\ exists y, tail = String "<" y /\ rest = tail) \/ (quote = Some dq /\ tail = String dq rest).

Lemma run_end quote tail rest fuel b0 b1 : ends_run quote tail rest -> text_run (S fuel) quote b0 b1 tail = Some ("", rest).
Proof.
  intros [[-> (y & -> & ->)]|[-> ->]]; cbn [text_run].
  - change (Ascii.eqb "<" ">") with false. rewrite andb_false_r. by change (Ascii.eqb "<" "<") with true.
  - by rewrite bool_decide_eq_true_2.
Qed.

Lemma run_bytes quote a : quote = None \/ quote = Some dq -> string_forallb text_byte a = true -> forall fuel X d rest,
  (forall b0 b1, text_run fuel quote b0 b1 X = Some (d, rest)) ->
  forall b0 b1, text_run (String.length a + fuel) quote b0 b1 (a +:+ X) = Some (a +:+ d, rest).
Proof.
  intros Hq. induction a as [|c a IH]; intros Ha fuel X d rest HX b0 b1; [apply HX|]. cbn [string_forallb] in Ha.
  apply andb_true_iff in Ha as [Hc Ha]. unfold text_byte in Hc. apply negb_true_iff in Hc. rewrite !orb_false_iff in Hc.
  destruct Hc as [[[[[H1 H2] H3] H4] H5] H6]. rewrite string_app_cons. cbn [String.length Nat.add text_run].
  rewrite H1, H2, H3, H5, H6, !andb_false_r. rewrite bool_decide_eq_false_2.
  2:{ destruct Hq as [-> | ->]; [done|]. intros [= <-]. by rewrite Ascii.eqb_refl in H4. }
  by rewrite (IH Ha fuel X d rest HX).
Qed.

Lemma run_ref quote name text : quote = None \/ quote = Some dq ->
  (forall X, read_entity (name +:+ String ";" X) = Some (text, X)) -> forall fuel X d rest,
  (forall b0 b1, text_run fuel quote b0 b1 X = Some (d, rest)) ->
  forall b0 b1, text_run (S fuel) quote b0 b1 (xml_ref name +:+ X) = Some (text +:+ d, rest).
Proof.
  intros Hq He fuel X d rest HX b0 b1. unfold xml_ref. autorewrite with strs. cbn [text_run].
  change (Ascii.eqb "&" ">") with false. change (Ascii.eqb "&" "<") with false. rewrite andb_false_r.
  rewrite bool_decide_eq_false_2 by (destruct Hq as [-> | ->]; [done|]; intros E; inversion E).
  change (Ascii.eqb "&" "&") with true. cbn match. rewrite <- string_app_assoc. change (";" +:+ X) with (String ";" X). rewrite He. cbn [mbind option_bind]. by rewrite HX.
Qed.

(** The first rune of a text: its bytes. *)
Lemma rune_bytes s r w : s <> "" -> utf8_DecodeRune s = (r, w) ->
  (exists c t, s = String c t /\ code c < 128 /\ r = code c /\ w = 1%nat) \/
  (128 <= r /\ string_forallb (fun c => 128 <=? code c) (string_take w s) = true).
Proof.
  intros Hs E. destruct s as [|c0 t0]; [done|]. pose proof (code_range c0). unfold utf8_DecodeRune in E.
  destruct (Z.ltb_spec (code c0) 128) as [H0|H0]; [injection E as <- <-; left; by exists c0, t0|right].
  assert (Hh : (128 <=? code c0) = true) by lia.
  assert (Hbad : (RuneError, 1%nat) = (r, w) -> 128 <= r /\ string_forallb (fun c => 128 <=? code c) (string_take w (String c0 t0)) = true).
  { intros [= <- <-]. cbn. rewrite Hh. by destruct t0. }
  destruct (lead (code c0)) as [[[n lo] hi]|] eqn:El; [|by apply Hbad]. apply lead_size in El. destruct t0 as [|c1 t1]; [by apply Hbad|].
  unfold between in E. destruct ((lo <=? code c1) && (code c1 <=? hi)) eqn:E1; [|by apply Hbad]. bool_solve.
  destruct (Nat.eqb_spec n 2) as [->|N2].
  { injection E as <- <-. split; [Zdm|]. assert (H0' : (128 <=? code c0) = true) by lia. assert (H1' : (128 <=? code c1) = true) by lia. cbn. rewrite H0', H1'. by destruct t1. }
  destruct t1 as [|c2 t2]; [by apply Hbad|]. destruct ((128 <=? code c2) && (code c2 <=? 191)) eqn:E2; [|by apply Hbad]. bool_solve.
  destruct (Nat.eqb_spec n 3) as [->|N3].
  { injection E as <- <-. split; [Zdm|]. assert (H0' : (128 <=? code c0) = true) by lia. assert (H1' : (128 <=? code c1) = true) by lia. assert (H2' : (128 <=? code c2) = true) by lia.
    cbn. rewrite H0', H1', H2'. by destruct t2. }
  destruct t2 as [|c3 t3]; [by apply Hbad|]. destruct ((128 <=? code c3) && (code c3 <=? 191)) eqn:E3; [|by apply Hbad]. bool_solve.
  injection E as <- <-. split; [Zdm|]. assert (H0' : (128 <=? code c0) = true) by lia. assert (H1' : (128 <=? code c1) = true) by lia. assert (H2' : (128 <=? code c2) = true) by lia.
  assert (H3' : (128 <=? code c3) = true) by lia. cbn. rewrite H0', H1', H2', H3'. by destruct t3.
Qed.

Lemma high_text_byte a : string_forallb (fun c => 128 <=? code c) a = true -> string_forallb text_byte a = true.
Proof. apply string_forallb_mono. intros c Hc. by destruct c as [[] [] [] [] [] [] [] []]. Qed.

(** The run from anywhere, with enough fuel. *)
Definition runs (quote : option ascii) (fuel : nat) (X d rest : string) : Prop :=
  forall f b0 b1, (fuel <= f)%nat -> text_run f quote b0 b1 X = Some (d, rest).

Definition escaped_rune (r : Z) (w : nat) (s : string) : string :=
  if r =? 34 then xml_ref "#34" else if r =? 39 then xml_ref "#39" else if r =? 38 then xml_ref "amp"
  else if r =? 60 then xml_ref "lt" else if r =? 62 then xml_ref "gt" else if r =? 9 then xml_ref "#x9"
  else if r =? 10 then xml_ref "#xA" else if r =? 13 then xml_ref "#xD"
  else if xml_rune r w then string_take w s else utf8_AppendRune RuneError.
Definition clean_rune (r : Z) (w : nat) (s : string) : string :=
  if xml_rune r w then string_take w s else utf8_AppendRune RuneError.

Lemma runs_bytes quote a fuel X d rest : quote = None \/ quote = Some dq -> string_forallb text_byte a = true ->
  runs quote fuel X d rest -> runs quote (String.length a + fuel) (a +:+ X) (a +:+ d) rest.
Proof.
  intros Hq Ha HX f b0 b1 Hf. replace f with (String.length a + (f - String.length a))%nat by lia.
  apply run_bytes; [done|done|]. intros c0 c1. apply HX. lia.
Qed.

Lemma runs_ref quote name text fuel X d rest : quote = None \/ quote = Some dq ->
  (forall X, read_entity (name +:+ String ";" X) = Some (text, X)) ->
  runs quote fuel X d rest -> runs quote (String.length (xml_ref name) + fuel) (xml_ref name +:+ X) (text +:+ d) rest.
Proof.
  intros Hq He HX f b0 b1 Hf. unfold xml_ref in Hf. rewrite string_length_app in Hf. cbn [String.length] in Hf.
  destruct f as [|f]; [lia|].
  apply run_ref; [done|done|]. intros c0 c1. apply HX. lia.
Qed.

Lemma runs_rune quote s r w fuel X d rest : quote = None \/ quote = Some dq -> s <> "" -> utf8_DecodeRune s = (r, w) ->
  runs quote fuel X d rest ->
  runs quote (String.length (escaped_rune r w s) + fuel) (escaped_rune r w s +:+ X) (clean_rune r w s +:+ d) rest.
Proof.
  intros Hq Hs E HX. destruct (rune_bytes s r w Hs E) as [(c & t & -> & Hc & -> & ->)|[Hr Hb]].
  - unfold escaped_rune, clean_rune. assert (Ht : string_take 1 (String c t) = String c "") by (by destruct t). rewrite Ht. clear Hs E Ht.
    repeat match goal with |- context [if code c =? ?k then xml_ref ?n else _] =>
      destruct (Z.eqb_spec (code c) k) as [Ec|];
        [rewrite Ec; apply runs_ref; [done|intros Y; rewrite <- (chr_code c), Ec; reflexivity|done]|] end.
    destruct (xml_rune (code c) 1); apply runs_bytes; try done. unfold text_byte. cbn [string_forallb].
    rewrite andb_true_r. apply negb_true_iff. rewrite !orb_false_iff. repeat split; apply Ascii.eqb_neq; intros ->; done.
  - unfold escaped_rune, clean_rune.
    repeat match goal with |- context [if r =? ?k then _ else _] => rewrite (proj2 (Z.eqb_neq r k)) by lia end.
    destruct (xml_rune r w); apply runs_bytes; try done. by apply high_text_byte.
Qed.

Lemma runs_escape quote tail rest : ends_run quote tail rest -> forall s skip, (skip <= String.length s)%nat ->
  runs quote (S (String.length (xml_escape skip s))) (xml_escape skip s +:+ tail) (xml_clean_from skip s) rest.
Proof.
  intros He. assert (Hq : quote = None \/ quote = Some dq) by (destruct He as [[-> _]|[-> _]]; auto).
  induction s as [|c t IH]; intros skip Hs.
  - intros f b0 b1 Hf. cbn in Hf. destruct f as [|f]; [lia|]. destruct skip; by apply run_end.
  - destruct skip as [|k]; [|cbn in Hs; cbn [xml_escape xml_clean_from]; apply IH; lia]. cbn [xml_escape xml_clean_from].
    pose proof (decode_width_le (String c t)) as Hw. destruct (utf8_DecodeRune (String c t)) as [r w] eqn:E. cbn [snd String.length] in Hw.
    fold (escaped_rune r w (String c t)). fold (clean_rune r w (String c t)). rewrite <- string_app_assoc, string_length_app.
    intros f b0 b1 Hf. assert (Hr := runs_rune quote (String c t) r w _ _ _ _ Hq ltac:(done) E (IH (pred w) ltac:(lia))).
    apply Hr. lia.
Qed.

(** Cleaned texts are characters. *)
Lemma chars_skip a y : xml_chars (String.length a) (a +:+ y) = xml_chars 0 y.
Proof. induction a as [|c a IH]; [done|]. by rewrite string_app_cons. Qed.

Lemma chars_rune s r w y : s <> "" -> utf8_DecodeRune s = (r, w) -> xml_chars 0 y = true -> xml_chars 0 (clean_rune r w s +:+ y) = true.
Proof.
  intros Hs E Hy. pose proof (decode_width_le s) as Hl. rewrite E in Hl. cbn [snd] in Hl. unfold clean_rune. destruct (xml_rune r w) eqn:Er.
  2:{ change (utf8_AppendRune RuneError) with (String (chr 239) (String (chr 191) (String (chr 189) ""))).
      rewrite !string_app_cons, string_app_nil. cbn [xml_chars].
      change (utf8_DecodeRune (String (chr 239) (String (chr 191) (String (chr 189) y)))) with (RuneError, 3%nat). exact Hy. }
  destruct s as [|c t]; [done|].
  assert (Hd : utf8_DecodeRune (string_take w (String c t) +:+ y) = (r, w) /\ (1 <= w)%nat).
  { destruct (Nat.le_gt_cases 2 w) as [H2|H2]; [split; [by apply decode_wide|lia]|].
    destruct (rune_bytes (String c t) r w Hs E) as [(c' & t' & [= <- <-] & Hc & -> & ->)|[Hr _]].
    - split; [|done]. assert (Ht : string_take 1 (String c t) = String c "") by (by destruct t). rewrite Ht, string_app_cons, string_app_nil.
      unfold utf8_DecodeRune. by rewrite (proj2 (Z.ltb_lt _ _)).
    - exfalso. revert E Er. unfold utf8_DecodeRune.
      repeat match goal with
      | |- (RuneError, 1%nat) = _ -> _ => by intros [= <- <-]
      | |- (code c, 1%nat) = _ -> _ => let E0 := fresh in intros [= <- <-]; lia
      | |- (_, S (S _)) = _ -> _ => intros [= <- <-]; lia
      | |- context [if ?b then _ else _] => destruct b eqn:?
      | |- context [match ?x with _ => _ end] => destruct x
      end. }
  destruct Hd as [Hd Hw1]. destruct w as [|w]; [lia|]. cbn [string_take] in *. rewrite string_app_cons in *. cbn [xml_chars].
  rewrite Hd, Er. cbn [andb pred]. cbn [String.length] in Hl. rewrite <- (string_length_take w t) at 1 by lia. by rewrite chars_skip.
Qed.

Lemma clean_chars s : forall skip, (skip <= String.length s)%nat -> xml_chars 0 (xml_clean_from skip s) = true.
Proof.
  induction s as [|c t IH]; intros skip Hs; [by destruct skip|]. destruct skip as [|k]; [|cbn in Hs; apply IH; lia].
  cbn [xml_clean_from]. pose proof (decode_width_le (String c t)) as Hw. destruct (utf8_DecodeRune (String c t)) as [r w] eqn:E.
  cbn [snd String.length] in Hw. apply chars_rune; [done|done|]. apply IH. lia.
Qed.

Lemma read_text_written quote s tail rest : ends_run quote tail rest -> read_text quote (xml_EscapeText s +:+ tail) = Some (xml_clean s, rest).
Proof.
  intros He. unfold read_text, xml_EscapeText, xml_clean.
  rewrite (runs_escape quote tail rest He s 0 ltac:(lia)) by (rewrite string_length_app; lia). cbn [mbind option_bind].
  by rewrite clean_chars by lia.
Qed.

(** *** Elements *)

Definition plain_name (n : string) : bool := negb (String.eqb n "") && string_forallb ascii_letter n.

Lemma letter_name c : ascii_letter c = true ->
  name_char c = true /\ is_ascii c = true /\ Ascii.eqb c ":" = false /\ Ascii.eqb c "/" = false /\ Ascii.eqb c "?" = false /\
  Ascii.eqb c "!" = false /\ Ascii.eqb c ">" = false /\ json_space c = false.
Proof. by destruct c as [[] [] [] [] [] [] [] []]. Qed.

Lemma xml_span_stop p a c t : string_forallb p a = true -> p c = false -> span p (a +:+ String c t) = (a, String c t).
Proof.
  intros Ha Hc. induction a as [|d a IH]; [rewrite string_app_nil; cbn [span]; by rewrite Hc|]. cbn [string_forallb] in Ha. apply andb_true_iff in Ha as [Hd Ha].
  rewrite string_app_cons. cbn [span]. by rewrite Hd, IH.
Qed.

Section documents.
Context `{XmlNames} `{UnicodeTables}.

Lemma read_plain_name n c t : plain_name n = true -> name_char c = false -> read_nsname (n +:+ String c t) = Some (n, String c t).
Proof.
  intros [Hn Hl]%andb_true_iff Hc. unfold read_nsname, read_name.
  assert (Hm : string_forallb name_char n = true) by (eapply string_forallb_mono; [|exact Hl]; by intros d [? _]%letter_name).
  rewrite xml_span_stop by done. assert (Hi : is_xml_name n = true).
  { destruct n as [|d n]; [done|]. unfold is_xml_name. assert (string_forallb is_ascii (String d n) = true) as ->.
    - eapply string_forallb_mono; [|exact Hl]. by intros e (_ & ? & _)%letter_name.
    - cbn [string_forallb] in Hl. apply andb_true_iff in Hl as [-> _]. done. }
  rewrite Hi. cbn [mbind option_bind]. assert (Hz : strings_Count ":" n = 0%nat); [|by rewrite Hz].
  clear Hn Hm Hi. induction n as [|d n IH]; [done|]. cbn [string_forallb strings_Count] in *. apply andb_true_iff in Hl as [Hd Hl].
  apply letter_name in Hd as (_ & _ & -> & _). by apply IH.
Qed.

Definition attr_ok (a : string * string) : bool := plain_name (fst a).
Definition clean_attr (a : string * string) : string * string := (fst a, xml_clean (snd a)).

(** A name starts with a letter. *)
Lemma plain_head n Z : plain_name n = true ->
  skip_space (n +:+ Z) = n +:+ Z /\ forall c p, ascii_letter c = false -> strings_CutPrefix (String c p) (n +:+ Z) = None.
Proof.
  destruct n as [|d n]; [done|]. unfold plain_name. cbn [string_forallb]. intros [_ [Hd _]%andb_true_iff]%andb_true_iff.
  rewrite string_app_cons. split; [cbn [skip_space]; by apply letter_name in Hd as (_ & _ & _ & _ & _ & _ & _ & ->)|].
  intros c p Hc. cbn [strings_CutPrefix]. rewrite (proj2 (Ascii.eqb_neq c d)); [done|]. intros ->. by rewrite Hd in Hc.
Qed.

Lemma read_attrs_written attrs : forall fuel X, forallb attr_ok attrs = true -> (length attrs < fuel)%nat ->
  read_attrs fuel (concat_texts (map xml_attr attrs) +:+ String ">" X) = Some (map clean_attr attrs, false, X).
Proof.
  induction attrs as [|[n v] attrs IH]; intros [|fuel] X Ha Hf; cbn [length] in Hf; try lia; [reflexivity|].
  cbn [forallb] in Ha. apply andb_true_iff in Ha as [Hn Ha]. unfold attr_ok in Hn. cbn [fst] in Hn.
  cbn [map concat_texts fold_right]. unfold xml_attr at 1. cbn [fst snd]. rewrite <- !string_app_assoc.
  change (" " +:+ ?s) with (String " " s). cbn [read_attrs]. cbn [skip_space]. change (json_space " ") with true. cbn match.
  match goal with |- context [skip_space (n +:+ ?Z)] => destruct (plain_head n Z Hn) as [Hsp Hcut] end. rewrite Hsp, !Hcut by done.
  change ("=" +:+ ?s) with (String "=" s). rewrite read_plain_name by done. cbn [mbind option_bind].
  change (skip_space (String "=" ?s)) with (String "=" s). change (strings_CutPrefix "=" (String "=" ?s)) with (Some s). cbn [mbind option_bind].
  rewrite string_app_cons. change (skip_space (String dq ?s)) with (String dq s). cbn match. rewrite Ascii.eqb_refl. cbn [orb].
  rewrite <- string_app_assoc, string_app_cons, string_app_nil.
  rewrite (read_text_written (Some dq) v _ (concat_texts (map xml_attr attrs) +:+ String ">" X)) by (right; by split).
  cbn [mbind option_bind]. by rewrite IH by (done || lia).
Qed.

Lemma start_token n attrs X : plain_name n = true -> forallb attr_ok attrs = true ->
  read_token ("<" +:+ n +:+ concat_texts (map xml_attr attrs) +:+ ">" +:+ X) = Some (TStart n (map clean_attr attrs) false, X).
Proof.
  intros Hn Ha. unfold read_token. change (strings_CutPrefix "<" ("<" +:+ ?s)) with (Some s). cbn match.
  set (Y := concat_texts (map xml_attr attrs) +:+ ">" +:+ X). destruct (plain_head n Y Hn) as [_ Hcut]. rewrite !Hcut by done.
  assert (Hy : exists d y, Y = String d y /\ name_char d = false).
  { unfold Y. destruct attrs as [|a attrs]; [by exists ">"%char, X|]. cbn [map concat_texts fold_right]. unfold xml_attr at 1.
    rewrite <- string_app_assoc. by eexists " "%char, _. }
  destruct Hy as (d & y & Ey & Hd). rewrite Ey, read_plain_name, <- Ey by done. cbn [mbind option_bind]. unfold Y.
  change (">" +:+ X) with (String ">" X). rewrite read_attrs_written; [done|done|].
  assert (Hl : (length attrs <= String.length (concat_texts (map xml_attr attrs)))%nat).
  { clear. induction attrs as [|a attrs IH]; [done|]. cbn [map concat_texts fold_right length]. rewrite string_length_app. unfold xml_attr at 1.
    change (" " +:+ ?s) with (String " " s). cbn [String.length]. unfold concat_texts in IH. lia. }
  rewrite string_length_app. lia.
Qed.

Lemma end_token n X : plain_name n = true -> read_token ("</" +:+ n +:+ ">" +:+ X) = Some (TEnd n, X).
Proof.
  intros Hn. unfold read_token. change (strings_CutPrefix "<" ("</" +:+ ?s)) with (Some ("/" +:+ s)). cbn match.
  change (strings_CutPrefix "/" ("/" +:+ ?s)) with (Some s). cbn match. change (">" +:+ X) with (String ">" X).
  rewrite read_plain_name by done. reflexivity.
Qed.

(** What is read of an element. *)
Fixpoint as_xml (d : doc) : xml :=
  match d with
  | Leaf n t => XElem n [] (if String.eqb t "" then [] else [XText (xml_clean t)])
  | Branch n attrs kids => XElem n (map clean_attr attrs) (map as_xml kids)
  end.
Fixpoint doc_ok (d : doc) : bool :=
  match d with
  | Leaf n _ => plain_name n
  | Branch n attrs kids => plain_name n && forallb attr_ok attrs && forallb doc_ok kids
  end.
(** The number of tokens, at most. *)
Fixpoint tokens (d : doc) : nat :=
  match d with Leaf _ _ => 3 | Branch _ _ kids => 2 + list_sum (map tokens kids) end.

Lemma doc_ind' (P : doc -> Prop) : (forall n t, P (Leaf n t)) -> (forall n attrs kids, Forall P kids -> P (Branch n attrs kids)) -> forall d, P d.
Proof.
  intros Hl Hb. fix IH 1. intros [n t|n attrs kids]; [apply Hl|]. apply Hb. induction kids; constructor; [apply IH|done].
Qed.

Lemma text_token s X : s <> "" -> read_token (xml_EscapeText s +:+ String "<" X) = Some (TText (xml_clean s), String "<" X).
Proof.
  intros Hs. unfold read_token. assert (Hh : strings_CutPrefix "<" (xml_EscapeText s +:+ String "<" X) = None).
  { destruct s as [|c t]; [done|]. unfold xml_EscapeText. cbn [xml_escape]. destruct (utf8_DecodeRune (String c t)) as [r w] eqn:E.
    fold (escaped_rune r w (String c t)). destruct (rune_bytes (String c t) r w Hs E) as [(c' & t' & [= <- <-] & Hc & -> & ->)|[Hr Hb]].
    - unfold escaped_rune. assert (Ht : string_take 1 (String c t) = String c "") by (by destruct t). rewrite Ht.
      repeat match goal with |- context [if code c =? ?k then xml_ref _ else _] => destruct (Z.eqb_spec (code c) k); [reflexivity|] end.
      destruct (xml_rune _ _); [|reflexivity]. rewrite !string_app_cons. cbn [strings_CutPrefix].
      rewrite (proj2 (Ascii.eqb_neq "<" c)); [done|]. by intros <-.
    - unfold escaped_rune. repeat match goal with |- context [if r =? ?k then _ else _] => rewrite (proj2 (Z.eqb_neq r k)) by lia end.
      destruct (xml_rune r w) eqn:Er; [|reflexivity]. destruct w as [|w]; [unfold utf8_DecodeRune in E; exfalso|].
      + revert E. repeat match goal with |- context [if ?b then _ else _] => destruct b | |- context [match ?x with _ => _ end] => destruct x end; intros [=].
      + cbn [string_take string_forallb] in *. apply andb_true_iff in Hb as [Hb _]. rewrite !string_app_cons. cbn [strings_CutPrefix].
        rewrite (proj2 (Ascii.eqb_neq "<" c)); [done|]. by intros <-. }
  rewrite Hh. rewrite (read_text_written None s (String "<" X) (String "<" X)); [done|]. left. split; [done|]. by exists X.
Qed.

(** The children of an element from here, with enough fuel. *)
Definition reads (n : string) (fuel : nat) (s : string) (l : list xml) (rest : string) : Prop :=
  forall f, (fuel <= f)%nat -> read_children f n s = Some (l, rest).

Lemma reads_end n X : plain_name n = true -> reads n 1 ("</" +:+ n +:+ ">" +:+ X) [] X.
Proof. intros Hn [|f] Hf; [lia|]. cbn [read_children]. rewrite end_token by done. cbn [mbind option_bind]. by rewrite String.eqb_refl. Qed.

Lemma reads_elem n m attrs fuel1 fuel2 X Y l rest kids : plain_name m = true -> forallb attr_ok attrs = true ->
  reads m fuel1 Y kids X -> reads n fuel2 X l rest ->
  reads n (S (Nat.max fuel1 fuel2)) ("<" +:+ m +:+ concat_texts (map xml_attr attrs) +:+ ">" +:+ Y) (XElem m (map clean_attr attrs) kids :: l) rest.
Proof.
  intros Hm Ha Hk Hl [|f] Hf; [lia|]. cbn [read_children]. rewrite start_token by done. cbn [mbind option_bind].
  rewrite (Hk f) by lia. cbn [mbind option_bind]. by rewrite (Hl f) by lia.
Qed.

Lemma reads_weaken n f1 f2 s l rest : (f1 <= f2)%nat -> reads n f1 s l rest -> reads n f2 s l rest.
Proof. intros Hf Hr f Hf2. apply Hr. lia. Qed.

Lemma tagged_app m attrs inside X :
  tagged m attrs inside +:+ X = "<" +:+ m +:+ attrs +:+ ">" +:+ (inside +:+ "</" +:+ m +:+ ">" +:+ X).
Proof. unfold tagged. by rewrite <- !string_app_assoc. Qed.

Lemma reads_text n t X : plain_name n = true ->
  reads n 2 (xml_EscapeText t +:+ "</" +:+ n +:+ ">" +:+ X) (if String.eqb t "" then [] else [XText (xml_clean t)]) X.
Proof.
  intros Hn. destruct (String.eqb_spec t "") as [->|Ht].
  - unfold xml_EscapeText. cbn [xml_escape]. rewrite string_app_nil. apply (reads_weaken _ 1); [lia|by apply reads_end].
  - intros [|f] Hf; [lia|]. cbn [read_children]. change ("</" +:+ ?s) with (String "<" (String "/" s)). rewrite text_token by done.
    cbn [mbind option_bind]. by rewrite (reads_end n X Hn) by lia.
Qed.

Definition doc_reads (d : doc) : Prop := forall n fuel X l rest, doc_ok d = true -> reads n fuel X l rest ->
  reads n (tokens d + fuel) (xml_Marshal d +:+ X) (as_xml d :: l) rest.

Lemma reads_docs ds : Forall doc_reads ds -> forall n fuel X l rest, forallb doc_ok ds = true -> reads n fuel X l rest ->
  reads n (list_sum (map tokens ds) + fuel) (concat_texts (map xml_Marshal ds) +:+ X) (map as_xml ds ++ l) rest.
Proof.
  induction 1 as [|d ds Hd _ IH]; intros n fuel X l rest Ho Hr; [exact Hr|].
  cbn [forallb] in Ho. apply andb_true_iff in Ho as [Ho Hos]. cbn [map concat_texts fold_right list_sum app].
  rewrite <- string_app_assoc. eapply reads_weaken; [|apply Hd; [exact Ho|]; apply IH; [exact Hos|exact Hr]]. cbn. unfold list_sum. lia.
Qed.

Lemma doc_read d : doc_reads d.
Proof.
  induction d as [m t|m attrs kids IH] using doc_ind'; intros n fuel X l rest Ho Hr; cbn [doc_ok xml_Marshal as_xml tokens] in *; rewrite tagged_app.
  - eapply reads_weaken; [|eapply (reads_elem n m [] 2 fuel); [exact Ho|done|by apply reads_text|exact Hr]]. lia.
  - apply andb_true_iff in Ho as [[Hm Ha]%andb_true_iff Hk].
    eapply reads_weaken; [|eapply (reads_elem n m attrs (list_sum (map tokens kids) + 1) fuel); [exact Hm|exact Ha| |exact Hr]]; [lia|].
    rewrite <- (app_nil_r (map as_xml kids)). apply reads_docs; [exact IH|exact Hk|by apply reads_end].
Qed.

Lemma tokens_length d : (tokens d <= String.length (xml_Marshal d))%nat.
Proof.
  induction d as [m t|m attrs kids IH] using doc_ind'; cbn [xml_Marshal tokens]; unfold tagged; rewrite !string_length_app; cbn [String.length]; [lia|].
  assert (Hs : (list_sum (map tokens kids) <= String.length (concat_texts (map xml_Marshal kids)))%nat); [|lia].
  induction IH as [|d kids Hd _ IHk]; [done|]. cbn [map list_sum fold_right concat_texts]. rewrite string_length_app.
  unfold list_sum, concat_texts in IHk. lia.
Qed.

(** A document that [Marshal] wrote is read back, its texts cleaned. *)
Theorem read_written d : doc_ok d = true -> xml_Parse (xml_Marshal d) = Some (as_xml d).
Proof.
  intros Ho. pose proof (tokens_length d) as Hl. unfold xml_Parse. revert Hl. generalize (String.length (xml_Marshal d)). intros fl Hl.
  cbn [read_root]. destruct d as [m t|m attrs kids]; cbn [doc_ok as_xml xml_Marshal tokens] in *; rewrite <- (string_app_nil_r (tagged _ _ _)), tagged_app.
  - change ("<" +:+ m +:+ "" +:+ ?y) with ("<" +:+ m +:+ concat_texts (map xml_attr []) +:+ y). rewrite start_token by done. cbn [mbind option_bind].
    rewrite (reads_text m t "" Ho) by lia. done.
  - apply andb_true_iff in Ho as [[Hm Ha]%andb_true_iff Hk]. rewrite start_token by done. cbn [mbind option_bind].
    pose proof (reads_docs kids ltac:(apply Forall_forall; intros; apply doc_read) m 1 _ [] "" Hk (reads_end m "" Hm)) as Hr.
    rewrite (Hr _) by lia. cbn [mbind option_bind]. by rewrite app_nil_r.
Qed.
End documents.

(** A text of characters is not changed. *)
Lemma xml_clean_chars s : forall skip, (skip <= String.length s)%nat -> xml_chars skip s = true -> xml_clean_from skip s = string_drop skip s.
Proof.
  induction s as [|c t IH]; intros skip Hs Hc; [cbn in Hs; assert (skip = 0%nat) as -> by lia; reflexivity|].
  destruct skip as [|k]; [|cbn in Hs, Hc; cbn [xml_clean_from string_drop]; apply IH; [lia|done]].
  cbn [xml_clean_from xml_chars string_drop] in *. pose proof (decode_width_le (String c t)) as Hw.
  assert (Hw1 : (1 <= (utf8_DecodeRune (String c t)).2)%nat).
  { unfold utf8_DecodeRune. repeat match goal with |- context [if ?b then _ else _] => destruct b | |- context [match ?x with _ => _ end] => destruct x end; cbn; lia. }
  destruct (utf8_DecodeRune (String c t)) as [r w]. cbn [snd String.length] in *. apply andb_true_iff in Hc as [Hr Hc]. rewrite Hr, IH by (done || lia).
  assert (Hp : string_drop (pred w) t = string_drop w (String c t)) by (destruct w; [lia|done]). by rewrite Hp, string_take_drop.
Qed.

Lemma xml_clean_id s : xml_chars 0 s = true -> xml_clean s = s.
Proof. intros Hc. unfold xml_clean. rewrite xml_clean_chars by (done || lia). by destruct s. Qed.

#[global] Arguments xml_clean : simpl never.

(** No name has a byte beyond ASCII, for the samples. *)
Definition ascii_names : XmlNames := fun _ => false.
