(* ===== verification/GoTime.v ===== *)
(** * GoTime: the calendar of package time

    A [Time] counts nanoseconds since the zero time, January 1 of year 1, in UTC.
    [absDate] is the division of its days into years, and [format_basic] the layouts
    20060102T150405Z and 20060102 of [Time.Format]; both have an inverse. *)
From stdpp Require Import base tactics option list strings.
From Stdlib Require Import Ascii ZArith Lia.
From S2P Require Import Prelude GoStrings GoNum.
Open Scope Z_scope.

Definition isLeap (year : Z) : bool := (year mod 4 =? 0) && (negb (year mod 100 =? 0) || (year mod 400 =? 0)).

(** Days before the month, in a year that is not a leap year. *)
Definition daysBefore : list Z := [0; 31; 59; 90; 120; 151; 181; 212; 243; 273; 304; 334; 365].

(** The month and the day of the [yday]th day of a year. *)
Definition month_day (leap : bool) (yday : Z) : Z * Z :=
  if leap && (yday =? 59) then (2, 29)
  else
    let day := if leap && (59 <? yday) then yday - 1 else yday in
    let month := day / 31 in
    let end_ := nth (Z.to_nat (month + 1)) daysBefore 0 in
    if end_ <=? day then (month + 2, day - end_ + 1)
    else (month + 1, day - nth (Z.to_nat month) daysBefore 0 + 1).

(** The year of a day, and the day in the year: 400 years, then at most three
    centuries of 36524 days, then 4 years, then at most three years of 365 days. *)
Definition year_yday (d : Z) : Z * Z :=
  let n400 := d / 146097 in
  let d := d - n400 * 146097 in
  let n100 := Z.min 3 (d / 36524) in
  let d := d - n100 * 36524 in
  let n4 := d / 1461 in
  let d := d - n4 * 1461 in
  let n1 := Z.min 3 (d / 365) in
  (1 + 400 * n400 + 100 * n100 + 4 * n4 + n1, d - n1 * 365).

Definition absDate (d : Z) : Z * Z * Z :=
  let '(year, yday) := year_yday d in
  let '(month, day) := month_day (isLeap year) yday in
  (year, month, day).

Example leap_day : absDate 738944 = (2024, 2, 29).
Proof. vm_compute. reflexivity. Qed.

(** ** The way back *)

Definition yday_of (leap : bool) (month day : Z) : Z :=
  nth (Z.to_nat (month - 1)) daysBefore 0 + (if leap && (2 <? month) then 1 else 0) + day - 1.
Definition days_before_year (year : Z) : Z :=
  let y := year - 1 in 365 * y + y / 4 - y / 100 + y / 400.
Definition days_of (date : Z * Z * Z) : Z :=
  let '(year, month, day) := date in days_before_year year + yday_of (isLeap year) month day.

Definition month_day_good (leap : bool) (yday : Z) : bool :=
  let '(month, day) := month_day leap yday in
  (yday_of leap month day =? yday) && (1 <=? month) && (month <=? 12) && (1 <=? day) && (day <=? 31).

(** Every day of a common and of a leap year. *)
Lemma month_day_sweep :
  forallb (fun n => month_day_good true (Z.of_nat n)) (seq 0 366) &&
  forallb (fun n => month_day_good false (Z.of_nat n)) (seq 0 365) = true.
Proof. vm_compute. reflexivity. Qed.

Lemma month_day_spec (leap : bool) yday : 0 <= yday < (if leap then 366 else 365) -> month_day_good leap yday = true.
Proof.
  intros Hy. pose proof month_day_sweep as [Ht Hf]%andb_true_iff. rewrite !forallb_forall in *.
  rewrite <- (Z2Nat.id yday) by lia. destruct leap; [apply Ht|apply Hf]; apply in_seq; lia.
Qed.

Lemma isLeap_parts a b c e : 0 <= b <= 3 -> 0 <= c <= 24 -> 0 <= e <= 3 ->
  isLeap (1 + 400 * a + 100 * b + 4 * c + e) = (e =? 3) && (negb (c =? 24) || (b =? 3)).
Proof.
  intros Hb Hc He. unfold isLeap. set (y := 1 + 400 * a + 100 * b + 4 * c + e).
  assert (y mod 4 = 0 <-> e = 3) by (unfold y; Z.to_euclidean_division_equations; lia).
  assert (y mod 100 = 0 <-> c = 24 /\ e = 3) by (unfold y; Z.to_euclidean_division_equations; lia).
  assert (y mod 400 = 0 <-> b = 3 /\ c = 24 /\ e = 3) by (unfold y; Z.to_euclidean_division_equations; lia).
  apply Bool.eq_iff_eq_true. rewrite !andb_true_iff, !orb_true_iff, !negb_true_iff, !Z.eqb_eq, !Z.eqb_neq. lia.
Qed.

Lemma days_before_parts a b c e : 0 <= b <= 3 -> 0 <= c <= 24 -> 0 <= e <= 3 ->
  days_before_year (1 + 400 * a + 100 * b + 4 * c + e) = 146097 * a + 36524 * b + 1461 * c + 365 * e.
Proof. intros Hb Hc He. unfold days_before_year. cbv zeta. Z.to_euclidean_division_equations. lia. Qed.

(** Cutting off periods of [k] days, [m] of them at most. *)
Lemma cut_part d k : 0 <= d -> 0 < k -> 0 <= d / k /\ 0 <= d - d / k * k < k.
Proof. intros. Z.to_euclidean_division_equations. nia. Qed.
Lemma cut_min d k m : 0 <= m -> 0 < k -> 0 <= d <= (m + 1) * k ->
  0 <= Z.min m (d / k) <= m /\ 0 <= d - Z.min m (d / k) * k <= k /\
  (Z.min m (d / k) < m -> d - Z.min m (d / k) * k < k) /\ (d < (m + 1) * k -> d - Z.min m (d / k) * k < k).
Proof.
  intros Hm Hk Hd. destruct (cut_part d k) as [H1 H2]; [lia|done|].
  destruct (Z.le_gt_cases m (d / k)) as [Hle|Hgt]; [rewrite Z.min_l by done|rewrite Z.min_r by lia]; nia.
Qed.

(** What the year and the day in it add up to. *)
Lemma year_yday_spec d year yday : 0 <= d -> year_yday d = (year, yday) ->
  1 <= year /\ days_before_year year + yday = d /\ 0 <= yday < (if isLeap year then 366 else 365).
Proof.
  intros Hd. unfold year_yday.
  set (a := d / 146097). set (d1 := d - a * 146097). set (b := Z.min 3 (d1 / 36524)). set (d2 := d1 - b * 36524).
  set (c := d2 / 1461). set (d3 := d2 - c * 1461). set (e := Z.min 3 (d3 / 365)).
  destruct (cut_part d 146097) as [Ha Hd1]; [lia|lia|]. fold a in Ha, Hd1. fold d1 in Hd1.
  destruct (cut_min d1 36524 3) as (Hb & Hd2 & Hb3 & _); [lia|lia|lia|]. fold b in Hb, Hd2, Hb3. fold d2 in Hd2, Hb3.
  destruct (cut_part d2 1461) as [Hc Hd3]; [lia|lia|]. fold c in Hc, Hd3. fold d3 in Hd3.
  destruct (cut_min d3 365 3) as (He & Hyd & He3 & _); [lia|lia|lia|]. fold e in He, Hyd, He3.
  assert (Hc24 : c <= 24) by lia.
  unfold d3, d2, d1 in *. clearbody a b c e. clear d1 d2 d3. intros [= <- <-]. rewrite days_before_parts, isLeap_parts by lia. split; [lia|]. split; [lia|].
  destruct (Z.eqb_spec e 3), (Z.eqb_spec c 24), (Z.eqb_spec b 3); cbn [negb andb orb]; lia.
Qed.

(** A date names its day, and its parts are in range. *)
Lemma absDate_spec d year month day : 0 <= d -> absDate d = (year, month, day) ->
  days_of (year, month, day) = d /\ 1 <= year /\ 1 <= month <= 12 /\ 1 <= day <= 31.
Proof.
  intros Hd. unfold absDate. destruct (year_yday d) as [y yd] eqn:E. apply year_yday_spec in E as (Hy & E & Hr); [|done].
  pose proof (month_day_spec _ _ Hr) as Hg. unfold month_day_good in Hg.
  destruct (month_day _ _) as [m dd]. rewrite !andb_true_iff, !Z.leb_le, Z.eqb_eq in Hg. intros [= <- <- <-].
  unfold days_of. lia.
Qed.

(** The days before 10000 years are of years of four digits. *)
Lemma absDate_year d year month day : 0 <= d < 3652059 -> absDate d = (year, month, day) -> year <= 9999.
Proof.
  intros Hd. unfold absDate. destruct (year_yday d) as [y yd] eqn:E. apply year_yday_spec in E as (Hy & E & Hr); [|lia].
  destruct (month_day _ _) as [m dd]. intros [= <- <- <-].
  assert (9999 < y -> 3652059 <= days_before_year y); [|lia]. intros Hgt. unfold days_before_year. cbv zeta.
  destruct (Z.eq_dec y 10000) as [->|]; [done|]. Z.to_euclidean_division_equations. lia.
Qed.

(** ** Time.Format *)

(** [appendInt]: at least [width] digits. *)
Fixpoint zeros (n : nat) : string := match n with O => "" | S n => String "0" (zeros n) end.
Definition pad_int (width : nat) (n : Z) : string :=
  let s := strconv_FormatUint n in zeros (width - String.length s) +:+ s.

Definition day_number (t : Time) : Z := t / 86400000000000.
Definition day_second (t : Time) : Z := t / 1000000000 mod 86400.

(** The layout 20060102. *)
Definition format_date (t : Time) : string :=
  let '(year, month, day) := absDate (day_number t) in pad_int 4 year +:+ pad_int 2 month +:+ pad_int 2 day.
(** The layout 150405. *)
Definition format_clock (t : Time) : string :=
  let s := day_second t in
  pad_int 2 (s / 3600) +:+ pad_int 2 (s / 60 mod 60) +:+ pad_int 2 (s mod 60).
(** The layout 20060102T150405Z. *)
Definition format_basic (t : Time) : string := format_date t +:+ "T" +:+ format_clock t +:+ "Z".

(** What such a stamp says, as seconds since the zero time. *)
Definition read_basic (s : string) : option Z :=
  let field i n := parse_digits 0 (string_take n (string_drop i s)) in
  match field 0%nat 4%nat, field 4%nat 2%nat, field 6%nat 2%nat, field 9%nat 2%nat, field 11%nat 2%nat, field 13%nat 2%nat with
  | Some year, Some month, Some day, Some h, Some m, Some sec =>
      Some (days_of (year, month, day) * 86400 + h * 3600 + m * 60 + sec)
  | _, _, _, _, _, _ => None
  end.

(** 2015-08-30 12:36:00 *)
Example format_known : format_basic (735839 * 86400000000000 + 45360000000000) = "20150830T123600Z".
Proof. vm_compute. reflexivity. Qed.

(** ** Stamps read back *)

Lemma digits_short k : forall fuel n acc, 0 <= n < 10 ^ Z.of_nat (S k) ->
  (String.length (digits fuel n acc) <= S k + String.length acc)%nat.
Proof.
  induction k as [|k IH]; intros [|fuel] n acc Hn; cbn [digits]; try lia; destruct (Z.ltb_spec n 10); try (cbn; lia).
  rewrite Nat2Z.inj_succ, Z.pow_succ_r in Hn by lia. pose proof (IH fuel (n / 10) (String (digit_char (n mod 10)) acc)) as Hl.
  cbn [String.length] in Hl. enough (0 <= n / 10 < 10 ^ Z.of_nat (S k)) by (apply Hl in H0; lia).
  split; [apply Z.div_pos|apply Z.div_lt_upper_bound]; lia.
Qed.

Lemma zeros_spec m s : String.length (zeros m +:+ s) = (m + String.length s)%nat /\
  parse_digits 0 (zeros m +:+ s) = parse_digits 0 s /\ string_forallb is_digit (zeros m +:+ s) = string_forallb is_digit s.
Proof. induction m as [|m (L & P & D)]; [done|]. cbn [zeros]. rewrite string_app_cons. cbn. by rewrite L, D. Qed.

Lemma pad_digits k n : (k < 10)%nat -> 0 <= n < 10 ^ Z.of_nat (S k) ->
  String.length (pad_int (S k) n) = S k /\ parse_digits 0 (pad_int (S k) n) = Some n /\
  string_forallb is_digit (pad_int (S k) n) = true.
Proof.
  intros Hk Hn. assert (Hl : (String.length (strconv_FormatUint n) <= S k)%nat).
  { pose proof (digits_short k digits_fuel n "" Hn) as Hs. cbn [String.length] in Hs. unfold strconv_FormatUint. lia. }
  assert (Hmax : n <= max_uint64).
  { assert (10 ^ Z.of_nat (S k) <= 10 ^ 10) by (apply Z.pow_le_mono_r; lia). unfold max_uint64. lia. }
  unfold pad_int. cbv zeta. destruct (zeros_spec (S k - String.length (strconv_FormatUint n)) (strconv_FormatUint n)) as (L & P & D).
  rewrite L, P, D. split; [lia|]. split; [apply parse_FormatUint; lia|apply FormatUint_digits; lia].
Qed.

Lemma pad_spec width n : (width = 2%nat /\ 0 <= n < 100 \/ width = 4%nat /\ 0 <= n < 10000) ->
  String.length (pad_int width n) = width /\ parse_digits 0 (pad_int width n) = Some n /\
  string_forallb is_digit (pad_int width n) = true.
Proof. intros [[-> Hn]|[-> Hn]]; [apply (pad_digits 1)|apply (pad_digits 3)]; (lia || exact Hn). Qed.

(** A text of a known length, byte by byte. *)
Ltac bytes_of s := repeat (destruct s as [|? s]; try discriminate).

Lemma read_fields a1 a2 a3 a4 a5 a6 year month day h m s :
  String.length a1 = 4%nat -> String.length a2 = 2%nat -> String.length a3 = 2%nat ->
  String.length a4 = 2%nat -> String.length a5 = 2%nat -> String.length a6 = 2%nat ->
  parse_digits 0 a1 = Some year -> parse_digits 0 a2 = Some month -> parse_digits 0 a3 = Some day ->
  parse_digits 0 a4 = Some h -> parse_digits 0 a5 = Some m -> parse_digits 0 a6 = Some s ->
  read_basic ((a1 +:+ a2 +:+ a3) +:+ "T" +:+ (a4 +:+ a5 +:+ a6) +:+ "Z") =
    Some (days_of (year, month, day) * 86400 + h * 3600 + m * 60 + s).
Proof.
  intros L1 L2 L3 L4 L5 L6 P1 P2 P3 P4 P5 P6.
  bytes_of a1. bytes_of a2. bytes_of a3. bytes_of a4. bytes_of a5. bytes_of a6.
  cbv -[parse_digits days_of Z.mul Z.add]. by rewrite P1, P2, P3, P4, P5, P6.
Qed.

(** The instants whose year has four digits. *)
Definition four_digit_year (t : Time) : Prop := 0 <= t < 3652059 * 86400000000000.

Lemma date_parts t : four_digit_year t -> exists year month day,
  absDate (day_number t) = (year, month, day) /\ days_of (year, month, day) = day_number t /\
  0 <= year < 10000 /\ 0 <= month < 100 /\ 0 <= day < 100.
Proof.
  unfold four_digit_year. intros Ht. destruct (absDate (day_number t)) as [[year month] day] eqn:E.
  assert (Hd : 0 <= day_number t < 3652059) by (split; [apply Z.div_pos|apply Z.div_lt_upper_bound]; lia).
  pose proof (absDate_year _ _ _ _ Hd E) as Hy. apply absDate_spec in E as (Hs & H1 & H2 & H3); [|lia].
  exists year, month, day. repeat split; (done || lia).
Qed.

Lemma format_date_shape t : four_digit_year t ->
  String.length (format_date t) = 8%nat /\ string_forallb is_digit (format_date t) = true.
Proof.
  intros (year & month & day & E & _ & Hy & Hm & Hd)%date_parts. unfold format_date. rewrite E.
  destruct (pad_spec 4 year) as (L1 & _ & D1); [lia|]. destruct (pad_spec 2 month) as (L2 & _ & D2); [lia|].
  destruct (pad_spec 2 day) as (L3 & _ & D3); [lia|]. by rewrite !string_length_app, L1, L2, L3, !forallb_app, D1, D2, D3.
Qed.

Lemma clock_parts t : 0 <= day_second t / 3600 < 100 /\ 0 <= day_second t / 60 mod 60 < 100 /\ 0 <= day_second t mod 60 < 100 /\
  day_second t / 3600 * 3600 + day_second t / 60 mod 60 * 60 + day_second t mod 60 = day_second t.
Proof.
  assert (0 <= day_second t < 86400) by (apply Z.mod_pos_bound; lia). generalize dependent (day_second t). intros s Hs.
  Z.to_euclidean_division_equations. lia.
Qed.

(** A stamp names its second. *)
Lemma read_format_basic t : four_digit_year t -> read_basic (format_basic t) = Some (t / 1000000000).
Proof.
  intros (year & month & day & E & Hday & Hy & Hm & Hd)%date_parts.
  destruct (clock_parts t) as (Hh & Hmin & Hsec & Hclock). unfold format_basic, format_date, format_clock. rewrite E. cbv zeta.
  generalize dependent (day_second t / 3600). intros h Hh. generalize dependent (day_second t / 60 mod 60). intros m Hmin.
  generalize dependent (day_second t mod 60). intros s Hsec Hs. fold (day_second t) in *.
  destruct (pad_spec 4 year) as (L1 & P1 & _); [lia|]. destruct (pad_spec 2 month) as (L2 & P2 & _); [lia|].
  destruct (pad_spec 2 day) as (L3 & P3 & _); [lia|]. destruct (pad_spec 2 h) as (L4 & P4 & _); [lia|].
  destruct (pad_spec 2 m) as (L5 & P5 & _); [lia|]. destruct (pad_spec 2 s) as (L6 & P6 & _); [lia|].
  rewrite (read_fields _ _ _ _ _ _ year month day h m s) by done. f_equal. rewrite Hday.
  unfold day_number, day_second in *. pose proof (Z.div_mod (t / 1000000000) 86400) as Hdm. rewrite Z.div_div in Hdm by done.
  change (1000000000 * 86400) with 86400000000000 in Hdm. lia.
Qed.
