(* ===== verification/GoTimeJson.v ===== *)
(** * GoTimeJson: a [time.Time] in JSON

    The stamps of RFC 3339 with nanoseconds that [Time.MarshalJSON] writes, for times
    in UTC, and the reading of [Time.UnmarshalJSON]: [Time.Parse] of that layout, which
    also takes an hour of one digit, a comma before the fraction and offsets up to 24
    hours and 60 minutes.  The stamp of a time reads back as the time. *)
From stdpp Require Import base tactics option list strings.
From Stdlib Require Import Ascii ZArith Lia.
From S2P Require Import Prelude GoStrings GoNum GoTime GoUtf8 GoJson JsonBind.
Open Scope Z_scope.

(** ** Writing *)

(** What is left of a fraction: its last zeros go. *)
Fixpoint trim_zeros (s : string) : string :=
  match s with
  | "" => ""
  | String c t =>
      let t' := trim_zeros t in
      if String.eqb t' "" && Ascii.eqb c "0" then "" else String c t'
  end.

Definition nanoseconds (t : Time) : Z := t mod 1000000000.
Definition fraction (t : Time) : string :=
  let digits := trim_zeros (pad_int 9 (nanoseconds t)) in
  if String.eqb digits "" then "" else String "." digits.

(** The layout 2006-01-02T15:04:05.999999999Z07:00 of a time in UTC. *)
Definition format_rfc3339nano (t : Time) : string :=
  let '(year, month, day) := absDate (day_number t) in
  let s := day_second t in
  pad_int 4 year +:+ "-" +:+ pad_int 2 month +:+ "-" +:+ pad_int 2 day +:+ "T" +:+
  pad_int 2 (s / 3600) +:+ ":" +:+ pad_int 2 (s / 60 mod 60) +:+ ":" +:+ pad_int 2 (s mod 60) +:+
  fraction t +:+ "Z".

(** [Time.MarshalJSON]: [None] is the error about the year. *)
Definition json_time (t : Time) : option json :=
  let '(year, _, _) := absDate (day_number t) in
  if (year <? 0) || (9999 <? year) then None else Some (JStr (format_rfc3339nano t)).

Example stamp_known : format_rfc3339nano (738944 * 86400000000000 + 45360120000000) = "2024-02-29T12:36:00.12Z".
Proof. vm_compute. reflexivity. Qed.

(** ** Reading *)

(** [n] digits, and the rest. *)
Definition read_fixed (n : nat) (s : string) : option (Z * string) :=
  if (String.length (string_take n s) =? n)%nat then
    v ← parse_digits 0 (string_take n s); Some (v, string_drop n s)
  else None.
Definition read_byte (c : ascii) (s : string) : option string :=
  match s with String d t => if Ascii.eqb d c then Some t else None | "" => None end.
(** One or two digits. *)
Definition read_short (s : string) : option (Z * string) :=
  match read_fixed 2 s with Some r => Some r | None => read_fixed 1 s end.
Definition read_in (lo hi : Z) (r : option (Z * string)) : option (Z * string) :=
  '(v, t) ← r; if (lo <=? v) && (v <=? hi) then Some (v, t) else None.

Fixpoint span_digits (s : string) : string * string :=
  match s with
  | "" => ("", "")
  | String c t => if is_digit c then let '(d, r) := span_digits t in (String c d, r) else ("", s)
  end.

(** A fraction, when there is one: nine digits of it count. *)
Definition read_fraction (s : string) : Z * string :=
  match s with
  | String c t =>
      let '(d, r) := span_digits t in
      if (Ascii.eqb c "." || Ascii.eqb c ",") && negb (String.eqb d "")
      then (default 0 (parse_digits 0 (string_take 9 (d +:+ zeros 9))), r) else (0, s)
  | "" => (0, "")
  end.

(** The offset from UTC in seconds, up to the end of the text. *)
Definition read_offset (s : string) : option Z :=
  match s with
  | String "Z" "" => Some 0
  | String c t =>
      if Ascii.eqb c "+" || Ascii.eqb c "-" then
        '(h, t) ← read_in 0 24 (read_fixed 2 t);
        t ← read_byte ":" t;
        '(m, t) ← read_in 0 60 (read_fixed 2 t);
        if String.eqb t "" then Some ((if Ascii.eqb c "-" then -1 else 1) * (h * 3600 + m * 60)) else None
      else None
  | "" => None
  end.

Definition month_days (leap : bool) (month : Z) : Z :=
  if (month =? 2) && leap then 29
  else nth (Z.to_nat month) daysBefore 0 - nth (Z.to_nat (month - 1)) daysBefore 0.

Definition daysIn (month year : Z) : Z := month_days (isLeap year) month.

Definition parse_rfc3339 (s : string) : option Time :=
  '(year, s) ← read_fixed 4 s;
  s ← read_byte "-" s;
  '(month, s) ← read_in 1 12 (read_fixed 2 s);
  s ← read_byte "-" s;
  '(day, s) ← read_fixed 2 s;
  s ← read_byte "T" s;
  '(h, s) ← read_in 0 23 (read_short s);
  s ← read_byte ":" s;
  '(m, s) ← read_in 0 59 (read_fixed 2 s);
  s ← read_byte ":" s;
  '(sec, s) ← read_in 0 59 (read_fixed 2 s);
  let '(ns, s) := read_fraction s in
  offset ← read_offset s;
  if (day <? 1) || (daysIn month year <? day) then None else
  Some ((days_of (year, month, day) * 86400 + h * 3600 + m * 60 + sec - offset) * 1000000000 + ns).

Example parse_offset : parse_rfc3339 "2024-02-29T14:36:00.12+02:00" = Some (738944 * 86400000000000 + 45360120000000).
Proof. vm_compute. reflexivity. Qed.
Example parse_lax : parse_rfc3339 "2024-02-29T4:36:00,5Z" = Some (738944 * 86400000000000 + 16560500000000).
Proof. vm_compute. reflexivity. Qed.
Example parse_no_day : parse_rfc3339 "2023-02-29T04:36:00Z" = None.
Proof. vm_compute. reflexivity. Qed.

(** A field that is a [time.Time].  The bytes between the quotes are read as they are:
    a stamp with an escape, which is refused, is not told apart. *)
Definition into_time {A} (set : Time -> A -> A) : decoder A := fun v a =>
  match v with JStr s => t ← parse_rfc3339 s; Some (set t a) | JNull => Some a | _ => None end.

(** ** A stamp reads back *)

Lemma read_fixed_app n a v rest : String.length a = n -> parse_digits 0 a = Some v -> read_fixed n (a +:+ rest) = Some (v, rest).
Proof. intros <- Hp. unfold read_fixed. by rewrite string_take_app, string_drop_app, Nat.eqb_refl, Hp. Qed.

Lemma trim_zeros_spec s : exists k, s = trim_zeros s +:+ zeros k.
Proof.
  induction s as [|c t [k E]]; [by exists 0%nat|]. cbn [trim_zeros]. destruct (String.eqb_spec (trim_zeros t) "") as [E0|_]; cbn [andb].
  - destruct (Ascii.eqb_spec c "0") as [->|_]; [exists (S k)|exists k]; [|rewrite string_app_cons]; rewrite E0 in *;
      rewrite string_app_nil in *; cbn [zeros]; by rewrite <- E.
  - exists k. by rewrite string_app_cons, <- E.
Qed.

Lemma zeros_length k : String.length (zeros k) = k.
Proof. induction k as [|k IH]; [done|]. cbn. by rewrite IH. Qed.
Lemma zeros_add j k : zeros (j + k) = zeros j +:+ zeros k.
Proof. induction j as [|j IH]; [by rewrite string_app_nil|]. cbn [zeros Nat.add]. by rewrite string_app_cons, IH. Qed.

(** The digits a fraction keeps stand for the whole of it. *)
Lemma padded_back s : (String.length s <= 9)%nat -> string_take (String.length s) (trim_zeros s +:+ zeros 9) = s.
Proof.
  intros Hs. destruct (trim_zeros_spec s) as [k E]. assert (Hl : (k <= 9)%nat).
  { apply (f_equal String.length) in E. rewrite string_length_app, zeros_length in E. lia. }
  replace 9%nat with (k + (9 - k))%nat by lia. rewrite zeros_add, string_app_assoc, <- E. apply string_take_app.
Qed.

Lemma span_digits_app a rest : string_forallb is_digit a = true -> match rest with String c _ => is_digit c = false | "" => True end ->
  span_digits (a +:+ rest) = (a, rest).
Proof.
  intros Ha Hr. induction a as [|c a IH].
  - rewrite string_app_nil. destruct rest as [|c r]; [done|]. cbn [span_digits]. by rewrite Hr.
  - cbn in Ha. apply andb_true_iff in Ha as [Hc Ha]. rewrite string_app_cons. cbn [span_digits]. by rewrite Hc, IH.
Qed.

Lemma trim_zeros_digits s : string_forallb is_digit s = true -> string_forallb is_digit (trim_zeros s) = true.
Proof. destruct (trim_zeros_spec s) as [k E]. rewrite E at 1. rewrite forallb_app. by intros [? _]%andb_true_iff. Qed.

Lemma read_fraction_back t : read_fraction (fraction t +:+ "Z") = (nanoseconds t, "Z").
Proof.
  assert (Hn : 0 <= nanoseconds t < 10 ^ Z.of_nat 9) by (apply Z.mod_pos_bound; lia).
  destruct (pad_digits 8 _ ltac:(lia) Hn) as (L & P & D). unfold fraction. cbv zeta.
  pose proof (padded_back (pad_int 9 (nanoseconds t)) ltac:(lia)) as Hb. rewrite L in Hb.
  destruct (String.eqb_spec (trim_zeros (pad_int 9 (nanoseconds t))) "") as [E|E].
  - rewrite E in Hb. change (string_take 9 ("" +:+ zeros 9)) with "000000000" in Hb. rewrite <- Hb in P.
    change (parse_digits 0 "000000000") with (Some 0) in P. injection P as <-. reflexivity.
  - rewrite string_app_cons. cbn [read_fraction]. rewrite span_digits_app by (done || by apply trim_zeros_digits).
    rewrite (proj2 (String.eqb_neq _ _) E). cbn [negb andb orb Ascii.eqb]. rewrite Hb, P. reflexivity.
Qed.

Lemma month_days_sweep :
  forallb (fun n => let '(m, d) := month_day true (Z.of_nat n) in d <=? month_days true m) (seq 0 366) &&
  forallb (fun n => let '(m, d) := month_day false (Z.of_nat n) in d <=? month_days false m) (seq 0 365) = true.
Proof. vm_compute. reflexivity. Qed.

Lemma absDate_daysIn d year month day : 0 <= d -> absDate d = (year, month, day) -> day <= daysIn month year.
Proof.
  intros Hd. unfold absDate, daysIn. destruct (year_yday d) as [y yd] eqn:E. apply year_yday_spec in E as (_ & _ & Hr); [|done].
  pose proof month_days_sweep as [Ht Hf]%andb_true_iff. rewrite forallb_forall in Ht, Hf.
  destruct (month_day (isLeap y) yd) as [m dd] eqn:Em. intros [= -> -> ->].
  destruct (isLeap year); [specialize (Ht (Z.to_nat yd))|specialize (Hf (Z.to_nat yd))]; rewrite Z2Nat.id, Em in * by lia; apply Z.leb_le;
    [apply Ht|apply Hf]; apply in_seq; lia.
Qed.

Lemma read_byte_app c rest : read_byte c (String c "" +:+ rest) = Some rest.
Proof. rewrite string_app_cons, string_app_nil. cbn. by rewrite Ascii.eqb_refl. Qed.
Lemma read_in_Some lo hi v rest : lo <= v <= hi -> read_in lo hi (Some (v, rest)) = Some (v, rest).
Proof. intros H. unfold read_in. cbn [mbind option_bind]. by rewrite (proj2 (Z.leb_le lo v)), (proj2 (Z.leb_le v hi)) by lia. Qed.
Lemma read_in_app lo hi n a v rest : String.length a = n -> parse_digits 0 a = Some v -> lo <= v <= hi ->
  read_in lo hi (read_fixed n (a +:+ rest)) = Some (v, rest).
Proof. intros L P H. rewrite (read_fixed_app n a v) by done. by apply read_in_Some. Qed.

(** What is written of a time is the time. *)
Theorem parse_format_rfc3339 t : four_digit_year t -> parse_rfc3339 (format_rfc3339nano t) = Some t.
Proof.
  intros Ht. pose proof (date_parts t Ht) as (year & month & day & E & Hday & Hy & _). unfold four_digit_year in Ht.
  assert (H0 : 0 <= day_number t) by (apply Z.div_pos; lia).
  pose proof (absDate_daysIn _ _ _ _ H0 E) as Hin. pose proof (absDate_spec _ _ _ _ H0 E) as (_ & _ & Hm & Hd).
  destruct (clock_parts t) as (_ & Hmin & Hsec & Hclock).
  assert (Hh : 0 <= day_second t / 3600 <= 23).
  { assert (0 <= day_second t < 86400) by (apply Z.mod_pos_bound; lia). split; [apply Z.div_pos|apply Zlt_succ_le, Z.div_lt_upper_bound]; lia. }
  assert (Hmin' : 0 <= day_second t / 60 mod 60 <= 59) by (pose proof (Z.mod_pos_bound (day_second t / 60) 60); lia).
  assert (Hsec' : 0 <= day_second t mod 60 <= 59) by (pose proof (Z.mod_pos_bound (day_second t) 60); lia).
  unfold format_rfc3339nano. rewrite E. cbv zeta. unfold parse_rfc3339.
  destruct (pad_spec 4 year) as (L1 & P1 & _); [lia|]. destruct (pad_spec 2 month) as (L2 & P2 & _); [lia|].
  destruct (pad_spec 2 day) as (L3 & P3 & _); [lia|]. destruct (pad_spec 2 (day_second t / 3600)) as (L4 & P4 & _); [lia|].
  destruct (pad_spec 2 (day_second t / 60 mod 60)) as (L5 & P5 & _); [lia|]. destruct (pad_spec 2 (day_second t mod 60)) as (L6 & P6 & _); [lia|].
  rewrite (read_fixed_app 4 _ _ _ L1 P1). cbn [mbind option_bind]. rewrite read_byte_app. cbn [mbind option_bind].
  rewrite (read_in_app 1 12 2 _ _ _ L2 P2) by lia. cbn [mbind option_bind]. rewrite read_byte_app. cbn [mbind option_bind].
  rewrite (read_fixed_app 2 _ _ _ L3 P3). cbn [mbind option_bind]. rewrite read_byte_app. cbn [mbind option_bind].
  unfold read_short. rewrite (read_fixed_app 2 _ _ _ L4 P4), read_in_Some by lia. cbn [mbind option_bind]. rewrite read_byte_app. cbn [mbind option_bind].
  rewrite (read_in_app 0 59 2 _ _ _ L5 P5) by lia. cbn [mbind option_bind]. rewrite read_byte_app. cbn [mbind option_bind].
  rewrite (read_in_app 0 59 2 _ _ _ L6 P6) by lia. cbn [mbind option_bind]. rewrite read_fraction_back.
  change (read_offset "Z") with (Some 0). cbn [mbind option_bind].
  rewrite (proj2 (Z.ltb_ge day 1)), (proj2 (Z.ltb_ge (daysIn month year) day)) by lia. cbn [orb]. f_equal. rewrite Hday.
  unfold day_number, day_second, nanoseconds in *. Z.to_euclidean_division_equations. lia.
Qed.

(** Such a time can be written. *)
Lemma json_time_Some t : four_digit_year t -> json_time t = Some (JStr (format_rfc3339nano t)).
Proof.
  intros (year & month & day & E & _ & Hy & _)%date_parts. unfold json_time. rewrite E.
  by rewrite (proj2 (Z.ltb_ge year 0)), (proj2 (Z.ltb_ge 9999 year)) by lia.
Qed.

Lemma digits_ascii s : string_forallb is_digit s = true -> string_forallb is_ascii s = true.
Proof. apply string_forallb_mono. intros c. by destruct c as [[] [] [] [] [] [] [] []]. Qed.

Lemma pad_ascii width n : (width = 2%nat /\ 0 <= n < 100 \/ width = 4%nat /\ 0 <= n < 10000) ->
  string_forallb is_ascii (pad_int width n) = true.
Proof. intros Hw. by apply digits_ascii, pad_spec. Qed.

(** A stamp is ASCII text, so it is written as it is. *)
Lemma stamp_clean t : four_digit_year t -> clean (format_rfc3339nano t) = format_rfc3339nano t.
Proof.
  intros (year & month & day & E & _ & Hy & Hm & Hd)%date_parts. destruct (clock_parts t) as (Hh & Hmin & Hsec & _).
  assert (Hn : 0 <= nanoseconds t < 10 ^ Z.of_nat 9) by (apply Z.mod_pos_bound; lia).
  destruct (pad_digits 8 _ ltac:(lia) Hn) as (_ & _ & D%trim_zeros_digits%digits_ascii).
  apply clean_valid, ascii_valid. unfold format_rfc3339nano, fraction. rewrite E. cbv zeta. rewrite !forallb_app.
  rewrite !pad_ascii by lia. cbn [andb].
  destruct (String.eqb (trim_zeros (pad_int 9 (nanoseconds t))) ""); [done|]. cbn [string_forallb]. by rewrite D.
Qed.

(** A field that holds a time reads it back. *)
Lemma time_read {A} (set : Time -> A -> A) t a v : four_digit_year t -> json_time t = Some v ->
  into_time set (json_clean v) a = Some (set t a) /\ good 0 v.
Proof.
  intros Ht. rewrite json_time_Some by done. intros [= <-]. split; [|by apply good_string].
  cbn [json_clean into_time]. by rewrite stamp_clean, parse_format_rfc3339.
Qed.
