(* ===== verification/GoDuration.v ===== *)
(** * GoDuration: time.ParseDuration

    The reader of durations, and that it reads what [Duration.String] writes.  The
    fraction of a unit is computed in float64: [fl_round] is the rounding of IEEE 754
    to 53 bits, nearest and ties to even, of a quotient of integers in the range where
    no exponent overflows. *)
From stdpp Require Import base tactics option list strings.
From Stdlib Require Import Ascii ZArith Lia.
From S2P Require Import Prelude GoStrings GoNum.
Open Scope Z_scope.

(** ** float64 *)

(** A positive float64 as a fraction. *)
Notation float := (Z * Z)%type.

(** The integer nearest to [a / b], the even one of two. *)
Definition round_half_even (a b : Z) : Z :=
  let q := a / b in
  let r := a mod b in
  if 2 * r <? b then q else if b <? 2 * r then q + 1 else if Z.even q then q else q + 1.

Definition fl_round (num den : Z) : float :=
  let e := Z.log2 num - Z.log2 den in
  (* 2 ^ e <= num / den, or half of that *)
  let e := if den * 2 ^ Z.max 0 e <=? num * 2 ^ Z.max 0 (- e) then e else e - 1 in
  let ulp := e - 52 in
  let m := round_half_even (num * 2 ^ Z.max 0 (- ulp)) (den * 2 ^ Z.max 0 ulp) in
  (m * 2 ^ Z.max 0 ulp, 2 ^ Z.max 0 (- ulp)).

Definition fl_of (n : Z) : float := fl_round n 1.
Definition fl_div (x y : float) : float := fl_round (fst x * snd y) (snd x * fst y).
Definition fl_mul (x y : float) : float := fl_round (fst x * fst y) (snd x * snd y).
(** [uint64(x)]: towards zero. *)
Definition fl_trunc (x : float) : Z := fst x / snd x.

(** A third is not exact, and its product with three rounds to one. *)
Example third : fl_trunc (fl_mul (fl_of 3) (fl_div (fl_of 1) (fl_of 3))) = 1 /\ fl_div (fl_of 1) (fl_of 3) <> (1, 3).
Proof. vm_compute. split; [reflexivity|discriminate]. Qed.

Definition is_float (x : float) (n : Z) : Prop := 0 < snd x /\ fst x = n * snd x.

Lemma round_exact a b : 0 < b -> round_half_even (a * b) b = a.
Proof.
  intros Hb. unfold round_half_even. rewrite Z.div_mul, Z.mod_mul by lia. cbv zeta. destruct (Z.ltb_spec (2 * 0) b); [done|lia].
Qed.

(** Integers below 2^53 are exact. *)
Lemma fl_round_exact num den n : 0 < den -> num = n * den -> 0 < n < 2 ^ 53 -> is_float (fl_round num den) n.
Proof.
  intros Hd -> Hn. pose proof (Z.log2_spec n ltac:(lia)) as Hl. pose proof (Z.log2_nonneg n) as H0. rewrite Z.pow_succ_r in Hl by done.
  assert (Hl52 : Z.log2 n < 53) by (apply Z.log2_lt_pow2; lia).
  pose proof (Z.log2_mul_below n den ltac:(lia) ltac:(lia)). pose proof (Z.log2_mul_above n den ltac:(lia) ltac:(lia)).
  unfold fl_round. set (e0 := Z.log2 (n * den) - Z.log2 den).
  assert (He0 : e0 = Z.log2 n \/ e0 = Z.log2 n + 1) by lia.
  assert (He : (if den * 2 ^ Z.max 0 e0 <=? n * den * 2 ^ Z.max 0 (- e0) then e0 else e0 - 1) = Z.log2 n).
  { rewrite (Z.max_r 0 e0), (Z.max_l 0 (- e0)) by lia. rewrite Z.pow_0_r, Z.mul_1_r, (Z.mul_comm n den). destruct He0 as [->| ->].
    - rewrite (proj2 (Z.leb_le _ _)); [done|]. nia.
    - rewrite Z.pow_add_r, Z.pow_1_r by lia. rewrite (proj2 (Z.leb_gt _ _)); [lia|nia]. }
  cbv zeta. rewrite He. rewrite (Z.max_r 0 (- _)), (Z.max_l 0 (_ - 52)) by lia. rewrite Z.pow_0_r, !Z.mul_1_r.
  assert (0 < 2 ^ (- (Z.log2 n - 52))) by (apply Z.pow_pos_nonneg; lia).
  replace (n * den * 2 ^ (- (Z.log2 n - 52))) with (n * 2 ^ (- (Z.log2 n - 52)) * den) by ring. rewrite round_exact by done. by split.
Qed.

Lemma fl_mul_exact x y a b : is_float x a -> is_float y b -> 0 < a * b < 2 ^ 53 -> is_float (fl_mul x y) (a * b).
Proof. intros [Hx Ex] [Hy Ey] H. unfold fl_mul. apply fl_round_exact; [nia| |done]. rewrite Ex, Ey. ring. Qed.

Lemma fl_div_exact x y a b n : is_float x a -> is_float y b -> 0 < b -> a = n * b -> 0 < n < 2 ^ 53 -> is_float (fl_div x y) n.
Proof. intros [Hx Ex] [Hy Ey] Hb -> Hn. unfold fl_div. apply fl_round_exact; [nia| |done]. rewrite Ex, Ey. ring. Qed.

Lemma fl_trunc_exact x n : is_float x n -> fl_trunc x = n.
Proof. intros [Hx Ex]. unfold fl_trunc. rewrite Ex. apply Z.div_mul. lia. Qed.

Lemma fl_of_exact n : 0 < n < 2 ^ 53 -> is_float (fl_of n) n.
Proof. intros Hn. apply fl_round_exact; lia. Qed.

(** The fraction of a unit that is a whole number of nanoseconds. *)
Lemma fraction_exact f unit k n : 0 < f -> 0 <= k -> unit = n * 10 ^ k -> 0 < n -> 0 < unit < 2 ^ 53 -> f < 10 ^ k ->
  fl_trunc (fl_mul (fl_of f) (fl_div (fl_of unit) (fl_of (10 ^ k)))) = f * n.
Proof.
  intros Hf Hk Hu Hn Hub Hfk. assert (0 < 10 ^ k) by (apply Z.pow_pos_nonneg; lia).
  apply fl_trunc_exact, fl_mul_exact; [apply fl_of_exact; nia| |nia].
  apply (fl_div_exact _ _ unit (10 ^ k)); [apply fl_of_exact; lia|apply fl_of_exact; nia|lia|done|nia].
Qed.

(** ** ParseDuration *)

Fixpoint leadingInt (x : Z) (s : string) : option (Z * string) :=
  match s with
  | String c s' =>
      if is_digit c then
        if 2 ^ 63 / 10 <? x then None
        else let x := x * 10 + (code c - 48) in if 2 ^ 63 <? x then None else leadingInt x s'
      else Some (x, s)
  | EmptyString => Some (x, "")
  end.

(** The digits of a fraction, as far as they fit, and how many. *)
Fixpoint leadingFraction (x k : Z) (overflow : bool) (s : string) : Z * Z * string :=
  match s with
  | String c s' =>
      if is_digit c then
        if overflow || (max_int64 / 10 <? x) then leadingFraction x k true s'
        else let y := x * 10 + (code c - 48) in
             if 2 ^ 63 <? y then leadingFraction x k true s' else leadingFraction y (k + 1) false s'
      else (x, k, s)
  | EmptyString => (x, k, "")
  end.

Fixpoint leading_unit (s : string) : string * string :=
  match s with
  | String c s' =>
      if Ascii.eqb c "." || is_digit c then ("", s)
      else let '(u, r) := leading_unit s' in (String c u, r)
  | EmptyString => ("", "")
  end.

Definition micro : string := String (chr 194) (String (chr 181) "s").
Definition unitMap (u : string) : option Z :=
  snd <$> List.find (fun kv => String.eqb (fst kv) u)
    [("ns", 1); ("us", 1000); (micro, 1000); (String (chr 206) (String (chr 188) "s"), 1000); ("ms", 1000000);
     ("s", Second); ("m", 60 * Second); ("h", 3600 * Second)].

(** One number with its unit, added to [d]; and what is left. *)
Definition duration_piece (s : string) (d : Z) : option (Z * string) :=
  match first_byte s with
  | None => None
  | Some c =>
      if negb (Ascii.eqb c "." || is_digit c) then None else
      '(v, s1) ← leadingInt 0 s;
      let pre := negb (Nat.eqb (String.length s1) (String.length s)) in
      let '(f, k, s2, post) :=
        match s1 with
        | String p s1' =>
            if Ascii.eqb p "." then
              let '(f, k, s2) := leadingFraction 0 0 false s1' in (f, k, s2, negb (Nat.eqb (String.length s2) (String.length s1')))
            else (0, 0, s1, false)
        | EmptyString => (0, 0, s1, false)
        end in
      if negb pre && negb post then None else
      let '(u, rest) := leading_unit s2 in
      if String.eqb u "" then None else
      unit ← unitMap u;
      if 2 ^ 63 / unit <? v then None else
      let v := v * unit in
      let v := if 0 <? f then v + fl_trunc (fl_mul (fl_of f) (fl_div (fl_of unit) (fl_of (10 ^ k)))) else v in
      if (0 <? f) && (2 ^ 63 <? v) then None else
      let d := (d + v) mod 2 ^ 64 in
      if 2 ^ 63 <? d then None else Some (d, rest)
  end.

(** Each piece takes a byte at least. *)
Fixpoint duration_loop (fuel : nat) (s : string) (d : Z) : option Z :=
  match fuel, s with
  | S fuel, String _ _ => '(d, s) ← duration_piece s d; duration_loop fuel s d
  | _, EmptyString => Some d
  | O, _ => None
  end.

Definition time_ParseDuration (s : string) : option Duration :=
  let '(neg, s) := match s with
                   | String c s' => if Ascii.eqb c "-" || Ascii.eqb c "+" then (Ascii.eqb c "-", s') else (false, s)
                   | EmptyString => (false, s)
                   end in
  if String.eqb s "0" then Some 0 else
  if String.eqb s "" then None else
  d ← duration_loop (String.length s) s 0;
  if neg then Some (if d =? 2 ^ 63 then min_int64 else - d)
  else if max_int64 <? d then None else Some d.

Example parse_some : (time_ParseDuration "1h30m", time_ParseDuration "-1.5h", time_ParseDuration "1.000000001s", time_ParseDuration ".5ms")
  = (Some (90 * Minute), Some (-90 * Minute), Some (Second + 1), Some 500000).
Proof. vm_compute. reflexivity. Qed.
Example parse_bounds : (time_ParseDuration "9223372036854775807ns", time_ParseDuration "9223372036854775808ns",
    time_ParseDuration "-9223372036854775808ns", time_ParseDuration "1", time_ParseDuration "1d", time_ParseDuration ".s")
  = (Some max_int64, None, Some min_int64, None, None, None).
Proof. vm_compute. reflexivity. Qed.

(** ** Digits read back *)

Lemma parse_digits_None s : forall a b, parse_digits a s = None -> parse_digits b s = None.
Proof. induction s as [|c s IH]; intros a b; cbn; [done|]. destruct (is_digit c); [apply IH|done]. Qed.

Lemma parse_digits_from s : forall a n, parse_digits 0 s = Some n ->
  parse_digits a s = Some (a * 10 ^ Z.of_nat (String.length s) + n) /\ 0 <= n < 10 ^ Z.of_nat (String.length s).
Proof.
  induction s as [|c s IH]; intros a n; cbn [parse_digits String.length].
  { intros [= <-]. change (10 ^ Z.of_nat 0) with 1. split; [f_equal; lia|lia]. }
  destruct (is_digit c) eqn:Ec; [|done]. intros Hn.
  assert (Hs : exists m, parse_digits 0 s = Some m).
  { destruct (parse_digits 0 s) as [m|] eqn:Em; [by eexists|]. exfalso. revert Hn.
    by rewrite (parse_digits_None _ _ _ Em). }
  destruct Hs as [m Hm]. destruct (IH (0 * 10 + (code c - 48)) m Hm) as [E1 Hb]. destruct (IH (a * 10 + (code c - 48)) m Hm) as [E2 _].
  rewrite E1 in Hn. injection Hn as <-. rewrite E2. rewrite Nat2Z.inj_succ, Z.pow_succ_r by lia.
  pose proof (is_digit_value c Ec). assert (code c - 48 < 10) by (unfold is_digit in Ec; lia). split; [f_equal; ring|nia].
Qed.

Definition not_digit_first (s : string) : Prop := match s with String c _ => is_digit c = false | EmptyString => True end.

Lemma leadingInt_digits s rest : not_digit_first rest -> forall x n, 0 <= x -> parse_digits x s = Some n -> n <= 2 ^ 63 ->
  leadingInt x (s +:+ rest) = Some (n, rest).
Proof.
  intros Hr. induction s as [|c s IH]; intros x n Hx Hp Hn.
  - rewrite string_app_nil. injection Hp as <-. destruct rest as [|c rest]; [done|]. cbn in *. by rewrite Hr.
  - rewrite string_app_cons. cbn [parse_digits leadingInt] in *. destruct (is_digit c) eqn:Ec; [|done].
    pose proof (is_digit_value c Ec). assert (Hle : x * 10 + (code c - 48) <= n).
    { destruct (parse_digits 0 s) as [m|] eqn:Em.
      - destruct (parse_digits_from s (x * 10 + (code c - 48)) m Em) as [E Hb]. rewrite E in Hp. injection Hp as <-.
        assert (1 <= 10 ^ Z.of_nat (String.length s)) by (apply Z.lt_pred_le; apply Z.pow_pos_nonneg; lia). nia.
      - by rewrite (parse_digits_None _ _ _ Em) in Hp. }
    destruct (Z.ltb_spec (2 ^ 63 / 10) x); [change (2 ^ 63 / 10) with 922337203685477580 in *; lia|].
    cbv zeta. destruct (Z.ltb_spec (2 ^ 63) (x * 10 + (code c - 48))); [lia|]. apply IH; [lia|done|done].
Qed.

Lemma leadingFraction_digits s rest : not_digit_first rest -> forall x k n, 0 <= x -> parse_digits x s = Some n -> n < 10 ^ 18 ->
  leadingFraction x k false (s +:+ rest) = (n, k + Z.of_nat (String.length s), rest).
Proof.
  intros Hr. induction s as [|c s IH]; intros x k n Hx Hp Hn.
  - rewrite string_app_nil. injection Hp as <-. cbn [String.length]. rewrite Z.add_0_r. destruct rest as [|c rest]; [done|].
    cbn in *. by rewrite Hr.
  - rewrite string_app_cons. cbn [parse_digits leadingFraction] in *. destruct (is_digit c) eqn:Ec; [|done].
    pose proof (is_digit_value c Ec). assert (Hle : x * 10 + (code c - 48) <= n).
    { destruct (parse_digits 0 s) as [m|] eqn:Em.
      - destruct (parse_digits_from s (x * 10 + (code c - 48)) m Em) as [E Hb]. rewrite E in Hp. injection Hp as <-.
        assert (1 <= 10 ^ Z.of_nat (String.length s)) by (apply Z.lt_pred_le; apply Z.pow_pos_nonneg; lia). nia.
      - by rewrite (parse_digits_None _ _ _ Em) in Hp. }
    cbn [orb]. destruct (Z.ltb_spec (max_int64 / 10) x); [change (max_int64 / 10) with 922337203685477580 in *; lia|].
    cbv zeta. destruct (Z.ltb_spec (2 ^ 63) (x * 10 + (code c - 48))); [lia|]. rewrite (IH _ _ n) by (done || lia).
    cbn [String.length]. do 2 f_equal. lia.
Qed.

(** A written fraction, from the digits written so far: [m] digits of the number have
    been looked at, the last of them [acc] without trailing zeros. *)
Definition dotted (ds : string) : string := if String.eqb ds "" then "" else String "." ds.

Lemma fmtFrac_spec p : forall v acc a m, 0 <= v -> parse_digits 0 acc = Some a -> (String.length acc <= m)%nat ->
  exists ds f, fmtFrac p v (negb (String.eqb acc "")) acc = (dotted ds, v / 10 ^ Z.of_nat p) /\
    parse_digits 0 ds = Some f /\ (String.length ds <= p + m)%nat /\
    f * 10 ^ Z.of_nat (p + m - String.length ds) = v mod 10 ^ Z.of_nat p * 10 ^ Z.of_nat m + a * 10 ^ Z.of_nat (m - String.length acc).
Proof.
  induction p as [|p IH]; intros v acc a m Hv Ha Hm.
  - exists acc, a. cbn [fmtFrac]. change (10 ^ Z.of_nat 0) with 1. rewrite Z.div_1_r, Z.mod_1_r. split_and!; [|done|done|].
    + unfold dotted. by destruct (String.eqb_spec acc "") as [->|].
    + cbn [Nat.add]. lia.
  - cbn [fmtFrac]. cbv zeta. set (digit := v mod 10). assert (Hdig : 0 <= digit < 10) by (apply Z.mod_pos_bound; lia).
    set (acc' := if negb (String.eqb acc "") || negb (digit =? 0) then String (digit_char digit) acc else acc).
    assert (Hp : negb (String.eqb acc "") || negb (digit =? 0) = negb (String.eqb acc' "")).
    { unfold acc'. destruct (String.eqb_spec acc "") as [->|]; cbn [negb orb]; [by destruct (digit =? 0)|]. done. }
    assert (Hacc : exists a', parse_digits 0 acc' = Some a' /\ (String.length acc' <= S m)%nat /\
      a' * 10 ^ Z.of_nat (S m - String.length acc') = digit * 10 ^ Z.of_nat m + a * 10 ^ Z.of_nat (m - String.length acc)).
    { unfold acc'. destruct (negb (String.eqb acc "") || negb (digit =? 0)) eqn:Ep.
      - destruct (parse_digits_from acc digit a Ha) as [E _]. exists (digit * 10 ^ Z.of_nat (String.length acc) + a). split_and!.
        + cbn [parse_digits]. rewrite digit_char_digit, digit_char_code by lia. replace (0 * 10 + (48 + digit - 48)) with digit by lia. done.
        + cbn. lia.
        + cbn [String.length Nat.sub]. rewrite Z.mul_add_distr_r, <- Z.mul_assoc, <- Z.pow_add_r by lia. do 3 f_equal. lia.
      - apply orb_false_iff in Ep as [E1 E2]. apply negb_false_iff in E1, E2. apply String.eqb_eq in E1. apply Z.eqb_eq in E2. subst acc.
        injection Ha as <-. exists 0. split_and!; [done|cbn; lia|]. rewrite E2. lia. }
    destruct Hacc as (a' & Ha' & Hl' & Ea'). destruct (IH (v / 10) acc' a' (S m)) as (ds & f & E & Hf & Hl & Ef); [apply Z.div_pos; lia|done|done|].
    exists ds, f. rewrite Nat2Z.inj_succ, Z.pow_succ_r by lia. split_and!.
    + rewrite Hp, E. f_equal. rewrite Z.div_div by lia. done.
    + done.
    + lia.
    + replace (S p + m - String.length ds)%nat with (p + S m - String.length ds)%nat by lia. rewrite Ef, Ea'.
      rewrite Z.rem_mul_r by (try lia; apply Z.pow_pos_nonneg; lia). fold digit. rewrite Nat2Z.inj_succ, Z.pow_succ_r by lia. ring.
Qed.

(** ** Pieces *)

(** What follows a number: nothing, or another number. *)
Definition next_piece (s : string) : Prop := match s with String c _ => is_digit c = true | EmptyString => True end.
(** A unit: no digit nor point in it. *)
Definition unit_text (u : string) : Prop := u <> "" /\ string_forallb (fun c => negb (Ascii.eqb c "." || is_digit c)) u = true.

Lemma leading_unit_app u rest : unit_text u -> next_piece rest -> leading_unit (u +:+ rest) = (u, rest).
Proof.
  intros [_ Hu] Hr. induction u as [|c u IH].
  - rewrite string_app_nil. destruct rest as [|c rest]; [done|]. cbn in *. by rewrite Hr, orb_true_r.
  - cbn [string_forallb] in Hu. apply andb_true_iff in Hu as [Hc Hu]. apply negb_true_iff in Hc.
    rewrite string_app_cons. cbn [leading_unit]. by rewrite Hc, IH.
Qed.

Lemma unit_not_digit u rest : unit_text u -> not_digit_first (u +:+ rest) /\ forall s, u +:+ rest <> String "." s.
Proof.
  intros [Hne Hu]. destruct u as [|c u]; [done|]. cbn [string_forallb] in Hu. apply andb_true_iff in Hu as [Hc _].
  apply negb_true_iff, orb_false_iff in Hc as [Hp Hd]. rewrite string_app_cons. split; [done|]. intros s [= -> _]. done.
Qed.

Lemma dotted_digits ds u rest : unit_text u -> not_digit_first (dotted ds +:+ u +:+ rest).
Proof. intros Hu. unfold dotted. destruct (String.eqb ds ""); [rewrite string_app_nil; by apply unit_not_digit|done]. Qed.

(** A number with a fraction of [k] digits, of a unit they are a whole number of
    nanoseconds of. *)
Lemma piece_read v ds f u unit n rest d :
  0 <= v <= max_int64 -> parse_digits 0 ds = Some f -> (String.length ds <= 17)%nat -> unit_text u -> next_piece rest ->
  unitMap u = Some unit -> unit = n * 10 ^ Z.of_nat (String.length ds) -> 0 < n -> 0 < unit < 2 ^ 53 ->
  0 <= d -> d + v * unit + f * n <= 2 ^ 63 ->
  duration_piece (strconv_FormatUint v +:+ dotted ds +:+ u +:+ rest) d = Some (d + v * unit + f * n, rest).
Proof.
  intros Hv Hf Hk Hu Hr Hunit En Hn Hub Hd Hsum. destruct (parse_digits_from ds 0 f Hf) as [_ Hfb].
  destruct (FormatUint_head v) as (c & w & Ev & Hc); [lia|].
  assert (Hlead : leadingInt 0 (strconv_FormatUint v +:+ dotted ds +:+ u +:+ rest) = Some (v, dotted ds +:+ u +:+ rest)).
  { apply leadingInt_digits; [by apply dotted_digits|lia|apply parse_FormatUint; unfold max_int64, max_uint64 in *; lia|unfold max_int64 in Hv; lia]. }
  assert (Hlen : String.length (dotted ds +:+ u +:+ rest) <> String.length (strconv_FormatUint v +:+ dotted ds +:+ u +:+ rest)).
  { rewrite (string_length_app (strconv_FormatUint v)), Ev. cbn. lia. }
  unfold duration_piece. replace (first_byte _) with (Some c) by by rewrite Ev. rewrite Hlead, Hc, orb_true_r. cbn [negb mbind option_bind].
  rewrite (proj2 (Nat.eqb_neq _ _) Hlen). cbn [negb andb].
  assert (Hfrac : exists k post, match dotted ds +:+ u +:+ rest with
        | String p s1' => if Ascii.eqb p "." then
              let '(f, k, s2) := leadingFraction 0 0 false s1' in (f, k, s2, negb (Nat.eqb (String.length s2) (String.length s1')))
            else (0, 0, dotted ds +:+ u +:+ rest, false)
        | EmptyString => (0, 0, dotted ds +:+ u +:+ rest, false)
        end = (f, k, u +:+ rest, post) /\ (0 < f -> k = Z.of_nat (String.length ds))).
  { unfold dotted. destruct (String.eqb_spec ds "") as [->|Hds].
    - injection Hf as <-. rewrite string_app_nil. exists 0, false. split; [|done]. destruct (unit_not_digit u rest Hu) as [_ Hno].
      destruct (u +:+ rest) as [|p s]; [done|]. destruct (Ascii.eqb_spec p ".") as [->|]; [by destruct (Hno s)|done].
    - rewrite string_app_cons. cbv iota. rewrite Ascii.eqb_refl.
      rewrite (leadingFraction_digits ds (u +:+ rest)) with (n := f); [|by apply unit_not_digit|lia|done|].
      + eexists _, _. split; [reflexivity|]. intros _. lia.
      + eapply Z.lt_le_trans; [apply Hfb|]. apply Z.pow_le_mono_r; lia. }
  destruct Hfrac as (k & post & -> & Hkf). rewrite (leading_unit_app u rest Hu Hr). destruct Hu as [Hune _].
  rewrite (proj2 (String.eqb_neq _ _) Hune), Hunit. cbn [mbind option_bind].
  rewrite (proj2 (Z.ltb_ge _ _)) by (apply Z.div_le_lower_bound; nia). cbv zeta.
  assert (Hval : (if 0 <? f then v * unit + fl_trunc (fl_mul (fl_of f) (fl_div (fl_of unit) (fl_of (10 ^ k)))) else v * unit) = v * unit + f * n).
  { destruct (Z.ltb_spec 0 f) as [Hpos|]; [|nia]. rewrite (fraction_exact f unit k n); rewrite ?Hkf by done; try lia. }
  rewrite Hval. rewrite (proj2 (Z.ltb_ge (2 ^ 63) (v * unit + f * n))) by nia. rewrite andb_false_r.
  rewrite Z.mod_small by nia. rewrite (proj2 (Z.ltb_ge _ _)) by lia. do 2 f_equal. lia.
Qed.

(** ** What String writes is read back *)

Lemma loop_piece fuel s d d' rest : duration_piece s d = Some (d', rest) -> duration_loop (S fuel) s d = duration_loop fuel rest d'.
Proof. intros Hp. destruct s as [|c s]; [done|]. cbn [duration_loop]. by rewrite Hp. Qed.

Lemma loop_done fuel d : duration_loop fuel "" d = Some d.
Proof. by destruct fuel. Qed.

(** A magnitude that is read, with its sign. *)
Lemma ParseDuration_signed (neg : bool) body u c : first_byte body = Some c -> is_digit c = true -> (2 <= String.length body)%nat ->
  duration_loop (String.length body) body 0 = Some u -> 0 <= u -> (if neg then u <= 2 ^ 63 else u <= max_int64) ->
  time_ParseDuration ((if neg then "-" else "") +:+ body) = Some (if neg then - u else u).
Proof.
  intros Hf Hc Hl Hloop Hu Hb. pose proof (digit_not_sign c Hc) as Hs. apply orb_false_iff in Hs as [Hs1 Hs2].
  assert (H0 : String.eqb body "0" = false) by (apply String.eqb_neq; intros ->; cbn in Hl; lia).
  assert (H1 : String.eqb body "" = false) by (apply String.eqb_neq; by intros ->).
  unfold time_ParseDuration. destruct neg.
  - change ("-" +:+ body) with (String "-" body). cbn [Ascii.eqb Bool.eqb orb]. rewrite H0, H1, Hloop. cbn [mbind option_bind].
    destruct (Z.eqb_spec u (2 ^ 63)) as [->|]; [done|done].
  - rewrite string_app_nil. destruct body as [|c' body']; [done|]. injection Hf as ->. rewrite Hs1, Hs2. cbn [orb].
    rewrite H0, H1, Hloop. cbn [mbind option_bind]. by rewrite (proj2 (Z.ltb_ge _ _)).
Qed.

Lemma digits_first v s : 0 <= v -> exists c, first_byte (strconv_FormatUint v +:+ s) = Some c /\ is_digit c = true.
Proof. intros Hv. destruct (FormatUint_head v Hv) as (c & w & -> & Hc). by exists c. Qed.

Lemma digits_length v : 0 <= v -> (1 <= String.length (strconv_FormatUint v))%nat.
Proof. intros Hv. destruct (FormatUint_head v Hv) as (c & w & -> & _). cbn. lia. Qed.

Definition read_back (body : string) (u : Z) : Prop :=
  (exists c, first_byte body = Some c /\ is_digit c = true) /\ (2 <= String.length body)%nat /\
  duration_loop (String.length body) body 0 = Some u.

(** A duration of one unit, with the fraction [String] writes. *)
Lemma one_unit p name unit u : (p <= 9)%nat -> unit = 10 ^ Z.of_nat p -> unit_text name -> unitMap name = Some unit ->
  0 <= u <= 2 ^ 63 -> u / unit <= max_int64 ->
  exists ds, fmtFrac p u false "" = (dotted ds, u / unit) /\ read_back (strconv_FormatUint (u / unit) +:+ dotted ds +:+ name) u.
Proof.
  intros Hp Eu Hname Hunit Hu Hv. assert (Hup : 0 < unit) by (rewrite Eu; apply Z.pow_pos_nonneg; lia).
  destruct (fmtFrac_spec p u "" 0 0) as (ds & f & E & Hf & Hl & Ef); [lia|done|done|]. cbn [String.eqb negb] in E. exists ds.
  rewrite <- Eu in E, Ef. split; [done|]. assert (Hq : 0 <= u / unit) by (apply Z.div_pos; lia).
  rewrite Nat.add_0_r in *. change (10 ^ Z.of_nat 0) with 1 in Ef. rewrite Z.mul_1_r, Z.mul_0_l, Z.add_0_r in Ef.
  split; [by apply digits_first|]. pose proof (digits_length _ Hq).
  assert (Hlen : (2 <= String.length (strconv_FormatUint (u / unit) +:+ dotted ds +:+ name))%nat).
  { rewrite !string_length_app. destruct Hname as [Hne _]. destruct name; [done|]. cbn [String.length]. lia. }
  split; [done|]. destruct (String.length (strconv_FormatUint (u / unit) +:+ dotted ds +:+ name)) as [|fuel]; [lia|].
  rewrite (loop_piece fuel _ 0 u "").
  - apply loop_done.
  - rewrite <- (string_app_nil_r name) at 1.
    rewrite (piece_read (u / unit) ds f name unit (10 ^ Z.of_nat (p - String.length ds)) "" 0); try done; try lia.
    + do 2 f_equal. rewrite Ef. pose proof (Z.div_mod u unit). lia.
    + rewrite Eu, <- Z.pow_add_r by lia. f_equal. lia.
    + split; [done|]. rewrite Eu. eapply Z.le_lt_trans; [apply (Z.pow_le_mono_r 10 (Z.of_nat p) 9); lia|reflexivity].
    + rewrite Ef. pose proof (Z.div_mod u unit). lia.
Qed.

(** A whole number of a unit, before the rest. *)
Lemma whole_piece v name unit rest d : 0 <= v <= max_int64 -> unit_text name -> unitMap name = Some unit -> 0 < unit < 2 ^ 53 ->
  next_piece rest -> 0 <= d -> d + v * unit <= 2 ^ 63 -> duration_piece (strconv_FormatUint v +:+ name +:+ rest) d = Some (d + v * unit, rest).
Proof.
  intros Hv Hname Hunit Hu Hr Hd Hs. pose proof (piece_read v "" 0 name unit unit rest d) as Hp. cbn [dotted String.eqb] in Hp.
  rewrite string_app_nil in Hp. rewrite Hp; try done; try lia; [do 2 f_equal; lia|cbn; lia|cbn; lia].
Qed.

Lemma unit_names : unit_text "ns" /\ unit_text micro /\ unit_text "ms" /\ unit_text "s" /\ unit_text "m" /\ unit_text "h".
Proof. repeat split; discriminate. Qed.

(** The minutes and the hours of whole seconds [s]; what is written of the seconds
    below the minute is the body [secs], read as [low]. *)
Lemma minutes_body secs low s : 0 <= s -> (exists c, first_byte secs = Some c /\ is_digit c = true) -> (2 <= String.length secs)%nat ->
  (forall d, 0 <= d -> d + low <= 2 ^ 63 -> duration_piece secs d = Some (d + low, "")) -> 0 <= low ->
  s / 60 * (60 * Second) + low <= 2 ^ 63 ->
  let mins := strconv_FormatUint (s / 60 mod 60) +:+ "m" +:+ secs in
  read_back (if s / 60 =? 0 then secs else if s / 60 / 60 =? 0 then mins else strconv_FormatUint (s / 60 / 60) +:+ "h" +:+ mins)
    (s / 60 * (60 * Second) + low).
Proof.
  intros Hs Hfirst Hlen Hsecs Hlow Hsum mins. destruct unit_names as (_ & _ & _ & _ & Hm & Hh). unfold Second in *.
  assert (Hm0 : 0 <= s / 60) by (apply Z.div_pos; lia). assert (Hmm : 0 <= s / 60 mod 60 < 60) by (apply Z.mod_pos_bound; lia).
  assert (Hh0 : 0 <= s / 60 / 60) by (apply Z.div_pos; lia). pose proof (Z.div_mod (s / 60) 60 ltac:(done)) as Hdm.
  assert (Hnext : next_piece secs) by (destruct Hfirst as (c & Hf & Hc); destruct secs as [|c' w]; [done|]; injection Hf as ->; done).
  assert (Hmins : forall d, 0 <= d -> d + s / 60 mod 60 * (60 * 1000000000) + low <= 2 ^ 63 ->
    duration_piece mins d = Some (d + s / 60 mod 60 * (60 * 1000000000), secs)).
  { intros d Hd Hsum'. apply whole_piece; try done; unfold max_int64; lia. }
  destruct (Z.eqb_spec (s / 60) 0) as [E0|E0].
  { rewrite E0. split; [done|]. split; [done|]. destruct (String.length secs) as [|fuel]; [lia|].
    rewrite (loop_piece fuel secs 0 low ""); [apply loop_done|]. rewrite Hsecs by lia. do 2 f_equal. }
  destruct (Z.eqb_spec (s / 60 / 60) 0) as [E1|E1].
  - rewrite E1 in Hdm. split; [apply digits_first; lia|]. assert (Hl : (3 <= String.length mins)%nat).
    { unfold mins. rewrite !string_length_app. cbn [String.length]. lia. }
    split; [lia|]. destruct (String.length mins) as [|[|fuel]]; [lia|lia|].
    rewrite (loop_piece _ mins 0 _ secs) by (apply Hmins; lia). rewrite (loop_piece fuel secs _ (s / 60 * (60 * 1000000000) + low) "").
    + apply loop_done.
    + rewrite Hsecs by lia. do 2 f_equal. lia.
  - split; [apply digits_first; lia|]. set (hours := strconv_FormatUint (s / 60 / 60) +:+ "h" +:+ mins).
    assert (Hl : (4 <= String.length hours)%nat).
    { unfold hours, mins. rewrite !string_length_app. pose proof (digits_length _ Hh0). pose proof (digits_length (s / 60 mod 60) ltac:(lia)).
      cbn [String.length]. lia. }
    split; [lia|]. destruct (String.length hours) as [|[|[|fuel]]]; [lia|lia|lia|].
    rewrite (loop_piece _ hours 0 (0 + s / 60 / 60 * (3600 * 1000000000)) mins).
    2: { apply whole_piece; try done; try (unfold max_int64; lia). destruct (digits_first (s / 60 mod 60) ("m" +:+ secs)) as (c & Hf & Hc); [lia|].
         fold mins in Hf. destruct mins as [|c' w]; [done|]. by injection Hf as ->. }
    rewrite (loop_piece _ mins _ _ secs) by (apply Hmins; lia). rewrite (loop_piece fuel secs _ (s / 60 * (60 * 1000000000) + low) "").
    + apply loop_done.
    + rewrite Hsecs by lia. do 2 f_equal. lia.
Qed.

(** The text of a magnitude reads as it. *)
Lemma seconds_body u : Second <= u <= 2 ^ 63 -> exists ds,
  fmtFrac 9 u false "" = (dotted ds, u / Second) /\
  let s := u / Second in
  let secs := strconv_FormatUint (s mod 60) +:+ dotted ds +:+ "s" in
  let mins := strconv_FormatUint (s / 60 mod 60) +:+ "m" +:+ secs in
  read_back (if s / 60 =? 0 then secs else if s / 60 / 60 =? 0 then mins else strconv_FormatUint (s / 60 / 60) +:+ "h" +:+ mins) u.
Proof.
  intros Hu. destruct unit_names as (_ & _ & _ & Hsec & _). destruct (fmtFrac_spec 9 u "" 0 0) as (ds & f & E & Hf & Hl & Ef); [unfold Second in Hu; lia|done|done|].
  cbn [String.eqb negb] in E. change (10 ^ Z.of_nat 9) with Second in E, Ef. exists ds. split; [done|]. cbv zeta.
  rewrite Nat.add_0_r in *. change (10 ^ Z.of_nat 0) with 1 in Ef. rewrite Z.mul_1_r, Z.mul_0_l, Z.add_0_r in Ef.
  assert (Hs : 0 <= u / Second) by (apply Z.div_pos; unfold Second in *; lia). pose proof (Z.mod_pos_bound (u / Second) 60 ltac:(done)) as Hmod.
  pose proof (Z.div_mod (u / Second) 60 ltac:(done)) as Hdm. pose proof (Z.div_mod u Second ltac:(done)) as Hdu.
  pose proof (Z.mod_pos_bound u Second ltac:(done)) as Hmu.
  assert (Elow : u = u / Second / 60 * (60 * Second) + (u / Second mod 60 * Second + f * 10 ^ Z.of_nat (9 - String.length ds))) by (rewrite Ef; lia).
  pose proof (minutes_body (strconv_FormatUint (u / Second mod 60) +:+ dotted ds +:+ "s")
    (u / Second mod 60 * Second + f * 10 ^ Z.of_nat (9 - String.length ds)) (u / Second) Hs) as Hb.
  rewrite <- Elow in Hb. apply Hb; [apply digits_first; lia| | |rewrite Ef; unfold Second in *; lia|lia].
  - rewrite !string_length_app. pose proof (digits_length (u / Second mod 60) ltac:(lia)). cbn [String.length]. lia.
  - intros d Hd Hsum. rewrite <- (string_app_nil_r "s"). rewrite (piece_read _ ds f "s" Second (10 ^ Z.of_nat (9 - String.length ds)) "" d); try done; try lia.
    + do 2 f_equal. lia.
    + unfold max_int64. lia.
    + change Second with (10 ^ Z.of_nat 9). rewrite <- Z.pow_add_r by lia. f_equal. lia.
Qed.

(** [Duration.String] is read back by [ParseDuration], for every int64. *)
Lemma ParseDuration_String d : min_int64 <= d <= max_int64 -> time_ParseDuration (duration_String d) = Some d.
Proof.
  intros Hd. destruct (Z.eqb_spec d 0) as [->|Hne]; [vm_compute; done|].
  assert (Hu : 0 < Z.abs d <= 2 ^ 63) by (unfold min_int64, max_int64 in Hd; lia).
  enough (exists body, duration_String d = (if d <? 0 then "-" else "") +:+ body /\ read_back body (Z.abs d)) as (body & -> & (c & Hf & Hc) & Hl & Hr).
  { rewrite (ParseDuration_signed (d <? 0) body (Z.abs d) c Hf Hc Hl Hr) by (try (destruct (Z.ltb_spec d 0)); unfold min_int64, max_int64 in *; lia).
    f_equal. destruct (Z.ltb_spec d 0); lia. }
  destruct unit_names as (Hns & Hus & Hms & _). unfold duration_String. cbv zeta. rewrite (proj2 (Z.eqb_neq _ _)) by lia.
  destruct (Z.ltb_spec (Z.abs d) 1000) as [H1|H1].
  { destruct (one_unit 0 "ns" 1 (Z.abs d)) as (ds & E & Hr); try done; try lia; [rewrite Z.div_1_r; unfold max_int64; lia|].
    rewrite E. by eexists. }
  destruct (Z.ltb_spec (Z.abs d) 1000000) as [H2|H2].
  { destruct (one_unit 3 micro 1000 (Z.abs d)) as (ds & E & Hr); try done; try lia; [apply Z.div_le_upper_bound; unfold max_int64; lia|].
    rewrite E. by eexists. }
  destruct (Z.ltb_spec (Z.abs d) Second) as [H3|H3].
  { destruct (one_unit 6 "ms" 1000000 (Z.abs d)) as (ds & E & Hr); try done; try lia; [apply Z.div_le_upper_bound; unfold max_int64; lia|].
    rewrite E. by eexists. }
  destruct (seconds_body (Z.abs d)) as (ds & E & Hr); [lia|]. cbv zeta in Hr. rewrite E.
  destruct (Z.abs d / Second / 60 =? 0); [by eexists|]. destruct (Z.abs d / Second / 60 / 60 =? 0); by eexists.
Qed.
