(* ===== verification/GoCrypto.v ===== *)
(** * GoCrypto: crypto/sha256, crypto/sha1, crypto/hmac and encoding/hex

    The parts of Go's library that the signing of requests uses, executable and
    pinned to published test vectors.  A byte slice is a byte string. *)
From stdpp Require Import base tactics option list strings.
From Stdlib Require Import Ascii ZArith Lia.
From S2P Require Import Prelude GoStrings GoNum.
Open Scope Z_scope.

(** ** SHA-256 *)

(** The constants are the first 32 bits of the fractional parts of the square roots
    of the first 8 primes, and of the cube roots of the first 64. *)
Definition is_prime (n : Z) : bool :=
  forallb (fun d => negb (n mod d =? 0)) (map Z.of_nat (seq 2 (Z.to_nat n - 2))).
Definition primes : list Z := List.filter is_prime (map Z.of_nat (seq 2 310)).

(** The greatest [r] below [2 ^ bits + base] with [r ^ 3 <= n], bit by bit. *)
Fixpoint cube_root (bits : nat) (n base : Z) : Z :=
  match bits with
  | O => base
  | S b => let r := base + 2 ^ Z.of_nat b in cube_root b n (if r ^ 3 <=? n then r else base)
  end.

Definition sha256_K : list Z := Eval vm_compute in
  map (fun p => u32 (cube_root 40 (p * 2 ^ 96) 0)) primes.
Definition sha256_init : list Z := Eval vm_compute in
  map (fun p => u32 (Z.sqrt (p * 2 ^ 64))) (take 8 primes).

Definition rotr (n x : Z) : Z := u32 (Z.lor (Z.shiftr x n) (Z.shiftl x (32 - n))).
Definition xor3 (a b c : Z) : Z := Z.lxor a (Z.lxor b c).

(** The message schedule, newest word first. *)
Fixpoint schedule (n : nat) (ws : list Z) : list Z :=
  match n with
  | O => ws
  | S n =>
      let at_ i := nth i ws 0 in
      let mix1 := xor3 (rotr 17 (at_ 1%nat)) (rotr 19 (at_ 1%nat)) (Z.shiftr (at_ 1%nat) 10) in
      let mix0 := xor3 (rotr 7 (at_ 14%nat)) (rotr 18 (at_ 14%nat)) (Z.shiftr (at_ 14%nat) 3) in
      schedule n (u32 (mix1 + at_ 6%nat + mix0 + at_ 15%nat) :: ws)
  end.

(** One round; any list but the eight working words is left alone. *)
Definition sha_round (st : list Z) (kw : Z * Z) : list Z :=
  match st with
  | [a; b; c; d; e; f; g; h] =>
      let choose := Z.lxor (Z.land e f) (Z.land (Z.lxor e 4294967295) g) in
      let majority := xor3 (Z.land a b) (Z.land a c) (Z.land b c) in
      let t1 := h + xor3 (rotr 6 e) (rotr 11 e) (rotr 25 e) + choose + fst kw + snd kw in
      let t2 := xor3 (rotr 2 a) (rotr 13 a) (rotr 22 a) + majority in
      [u32 (t1 + t2); a; b; c; u32 (d + t1); e; f; g]
  | _ => st
  end.

Definition compress (st block : list Z) : list Z :=
  let ws := List.rev (schedule 48 (List.rev block)) in
  map (fun ab => u32 (fst ab + snd ab)) (combine st (fold_left sha_round (combine sha256_K ws) st)).

Definition be_word (w : Z) : string :=
  String (chr (u8 (Z.shiftr w 24))) (String (chr (u8 (Z.shiftr w 16)))
    (String (chr (u8 (Z.shiftr w 8))) (String (chr (u8 w)) ""))).
Fixpoint words_of (s : string) : list Z :=
  match s with
  | String a (String b (String c (String d s))) =>
      (code a * 16777216 + code b * 65536 + code c * 256 + code d) :: words_of s
  | _ => []
  end.
Fixpoint zero_bytes (n : nat) : string :=
  match n with O => "" | S n => String (chr 0) (zero_bytes n) end.

Definition sha_pad (s : string) : string :=
  s +:+ String (chr 128) (zero_bytes (Z.to_nat ((55 - len s) mod 64)) +:+
    be_word (Z.shiftr (8 * len s) 32) +:+ be_word (u32 (8 * len s))).

(** [fuel] blocks of 16 words at most. *)
Fixpoint sha_blocks (fuel : nat) (st ws : list Z) : list Z :=
  match fuel, ws with
  | S fuel, _ :: _ => sha_blocks fuel (compress st (take 16 ws)) (drop 16 ws)
  | _, _ => st
  end.

(** Every step takes a word at least, so one step per word is enough. *)
Definition sha256_Sum256 (s : string) : string :=
  let ws := words_of (sha_pad s) in
  strings_Join (map be_word (sha_blocks (length ws) sha256_init ws)) "".

(** ** encoding/hex *)

Definition hex_lower (n : Z) : ascii := if n <? 10 then chr (48 + n) else chr (87 + n).
Fixpoint hex_EncodeToString (s : string) : string :=
  match s with
  | EmptyString => ""
  | String c s => String (hex_lower (code c / 16)) (String (hex_lower (code c mod 16)) (hex_EncodeToString s))
  end.

(** FIPS 180-4: the digests of the empty message, of [abc], and of a message of two
    blocks. *)
Example sha256_empty : hex_EncodeToString (sha256_Sum256 "") =
  "e3b0c44298fc1c149afbf4c8996fb92427ae41e4649b934ca495991b7852b855".
Proof. vm_compute. reflexivity. Qed.
Example sha256_abc : hex_EncodeToString (sha256_Sum256 "abc") =
  "ba7816bf8f01cfea414140de5dae2223b00361a396177a9cb410ff61f20015ad".
Proof. vm_compute. reflexivity. Qed.
Example sha256_two_blocks :
  hex_EncodeToString (sha256_Sum256 "abcdbcdecdefdefgefghfghighijhijkijkljklmklmnlmnomnopnopq") =
  "248d6a61d20638b8e5c026930c3e6039a33ce45964ff2167f6ecedd419db06c1".
Proof. vm_compute. reflexivity. Qed.

(** ** SHA-1 *)

Definition rotl (n x : Z) : Z := u32 (Z.lor (Z.shiftl x n) (Z.shiftr x (32 - n))).

(** The message schedule, newest word first. *)
Fixpoint sha1_schedule (n : nat) (ws : list Z) : list Z :=
  match n with
  | O => ws
  | S n =>
      let at_ i := nth i ws 0 in
      sha1_schedule n (rotl 1 (Z.lxor (at_ 2%nat) (xor3 (at_ 7%nat) (at_ 13%nat) (at_ 15%nat))) :: ws)
  end.

(** The function and the constant of a round. *)
Definition sha1_mix (t : nat) (b c d : Z) : Z :=
  if (t <? 20)%nat then Z.lxor (Z.land b c) (Z.land (Z.lxor b 4294967295) d) + 1518500249
  else if (t <? 40)%nat then xor3 b c d + 1859775393
  else if (t <? 60)%nat then xor3 (Z.land b c) (Z.land b d) (Z.land c d) + 2400959708
  else xor3 b c d + 3395469782.

Definition sha1_round (st : list Z) (tw : nat * Z) : list Z :=
  match st with
  | [a; b; c; d; e] => [u32 (rotl 5 a + sha1_mix (fst tw) b c d + e + snd tw); a; rotl 30 b; c; d]
  | _ => st
  end.

Definition sha1_compress (st block : list Z) : list Z :=
  let ws := List.rev (sha1_schedule 64 (List.rev block)) in
  map (fun ab => u32 (fst ab + snd ab)) (combine st (fold_left sha1_round (combine (seq 0 80) ws) st)).

Fixpoint sha1_blocks (fuel : nat) (st ws : list Z) : list Z :=
  match fuel, ws with
  | S fuel, _ :: _ => sha1_blocks fuel (sha1_compress st (take 16 ws)) (drop 16 ws)
  | _, _ => st
  end.

Definition sha1_init : list Z := [1732584193; 4023233417; 2562383102; 271733878; 3285377520].
(** One step per word is enough, as above. *)
Definition sha1_Sum (s : string) : string :=
  let ws := words_of (sha_pad s) in
  strings_Join (map be_word (sha1_blocks (length ws) sha1_init ws)) "".

Example sha1_abc : hex_EncodeToString (sha1_Sum "abc") = "a9993e364706816aba3e25717850c26c9cd0d89d".
Proof. vm_compute. reflexivity. Qed.
Example sha1_two_blocks :
  hex_EncodeToString (sha1_Sum "abcdbcdecdefdefgefghfghighijhijkijkljklmklmnlmnomnopnopq") = "84983e441c3bd26ebaae4aa1f95129e5e54670f1".
Proof. vm_compute. reflexivity. Qed.

(** ** crypto/hmac with SHA-256 *)

Definition xor_byte (k : Z) (c : ascii) : ascii := chr (Z.lxor k (code c)).

(** A key longer than a block is hashed; the rest of the block is zero. *)
Definition hmac_key (key : string) : string :=
  let k := if 64 <? len key then sha256_Sum256 key else key in
  k +:+ zero_bytes (64 - String.length k).
Definition hmac_sha256 (key data : string) : string :=
  sha256_Sum256 (string_map (xor_byte 92) (hmac_key key) +:+
    sha256_Sum256 (string_map (xor_byte 54) (hmac_key key) +:+ data)).

(** RFC 4231, test case 2; and a key of more than a block (test case 6). *)
Example hmac_short : hex_EncodeToString (hmac_sha256 "Jefe" "what do ya want for nothing?") =
  "5bdcc146bf60754e6a042426089575c75a003f089d2739839dec58b964ec3843".
Proof. vm_compute. reflexivity. Qed.
Example hmac_long : hex_EncodeToString (hmac_sha256 (string_map (fun _ => chr 170) (zero_bytes 131))
    "Test Using Larger Than Block-Size Key - Hash Key First") =
  "60e431591ee0b67f0d8a26aacbf5b77f8e0bc6213728c5140546040f0ee37f54".
Proof. vm_compute. reflexivity. Qed.

(** ** Shape of digests *)

Lemma schedule_length n : forall ws, length (schedule n ws) = (n + length ws)%nat.
Proof. induction n as [|n IH]; intros ws; [done|]. cbn [schedule]. rewrite IH. cbn. lia. Qed.

Lemma sha_round_length st kw : length (sha_round st kw) = length st.
Proof. unfold sha_round. repeat (destruct st as [|? st]; try done). Qed.

Lemma compress_length st block : length (compress st block) = length st.
Proof.
  unfold compress. rewrite length_map, length_combine.
  replace (length (fold_left sha_round _ st)) with (length st); [lia|].
  generalize (combine sha256_K (List.rev (schedule 48 (List.rev block)))). intros l. revert st.
  induction l as [|kw l IH]; intros st; [done|]. cbn [fold_left]. by rewrite <- IH, sha_round_length.
Qed.

Lemma sha_blocks_length fuel : forall st ws, length (sha_blocks fuel st ws) = length st.
Proof.
  induction fuel as [|fuel IH]; intros st ws; [done|]. destruct ws; [done|]. cbn [sha_blocks].
  by rewrite IH, compress_length.
Qed.

(** A digest has 32 bytes. *)
Lemma sha256_length s : String.length (sha256_Sum256 s) = 32%nat.
Proof.
  unfold sha256_Sum256. cbv zeta. generalize (words_of (sha_pad s)). intros ws.
  pose proof (sha_blocks_length (length ws) sha256_init ws) as Hl.
  generalize dependent (sha_blocks (length ws) sha256_init ws). intros l Hl.
  change (length sha256_init) with 8%nat in Hl. do 8 (destruct l as [|? l]; [done|]). by destruct l.
Qed.

Definition is_lower_hex (c : ascii) : bool := is_digit c || (97 <=? code c) && (code c <=? 102).

Lemma hex_lower_ok n : 0 <= n < 16 -> is_lower_hex (hex_lower n) = true.
Proof.
  intros Hn. unfold hex_lower, is_lower_hex, is_digit. destruct (Z.ltb_spec n 10); rewrite code_chr by lia.
  - apply orb_true_iff. left. lia.
  - apply orb_true_iff. right. lia.
Qed.

Lemma byte_halves c : 0 <= code c / 16 < 16 /\ 0 <= code c mod 16 < 16.
Proof. pose proof (code_range c). split; [split; [apply Z.div_pos|apply Z.div_lt_upper_bound]; lia|apply Z.mod_pos_bound; lia]. Qed.

Lemma hex_all s : string_forallb is_lower_hex (hex_EncodeToString s) = true.
Proof. induction s as [|c s IH]; [done|]. cbn. destruct (byte_halves c). by rewrite !hex_lower_ok, IH. Qed.

Lemma hex_length s : String.length (hex_EncodeToString s) = (2 * String.length s)%nat.
Proof. induction s as [|c s IH]; [done|]. cbn [hex_EncodeToString String.length]. rewrite IH. lia. Qed.

Lemma hex_lower_inj n m : 0 <= n < 16 -> 0 <= m < 16 -> hex_lower n = hex_lower m -> n = m.
Proof.
  intros Hn Hm E%(f_equal code). revert E. unfold hex_lower.
  destruct (Z.ltb_spec n 10), (Z.ltb_spec m 10); rewrite !code_chr by lia; lia.
Qed.

Lemma hex_inj s : forall t, hex_EncodeToString s = hex_EncodeToString t -> s = t.
Proof.
  induction s as [|c s IH]; intros [|d t]; cbn; try done. intros [= E1 E2 E3].
  destruct (byte_halves c), (byte_halves d). apply hex_lower_inj in E1; [|done|done]. apply hex_lower_inj in E2; [|done|done].
  f_equal; [|by apply IH]. apply code_inj. rewrite (Z.div_mod (code c) 16), (Z.div_mod (code d) 16) by lia. lia.
Qed.

#[global] Opaque sha256_Sum256 hmac_sha256 sha1_Sum.
