(* ===== verification/Ui.v ===== *)
(** * Ui: the text the commands print (internal/cli/ui.go)

    Sections, aligned pairs and tables.  What goes to the writer is the string a
    function returns; whether it is a terminal that takes colours is the printer's
    [color].  A table's columns are shown to line up, whatever bytes its cells hold. *)
From stdpp Require Import base tactics option list strings gmap.
From Stdlib Require Import Ascii ZArith Lia.
From S2P Require Import Prelude GoStrings GoNum GoUtf8.
Open Scope Z_scope.

Definition newline : string := String (chr 10) "".
Definition ansi (code : string) : string := String (chr 27) ("[" +:+ code +:+ "m").

Definition ansiReset : string := ansi "0".
Definition ansiBold : string := ansi "1".
Definition ansiDim : string := ansi "2".
Definition ansiRed : string := ansi "31".
Definition ansiGreen : string := ansi "32".
Definition ansiYellow : string := ansi "33".
Definition ansiCyan : string := ansi "36".

Record printer := { p_color : bool }.

(** What the process can tell about its terminal. *)
Record Terminal := { tm_NO_COLOR : string; tm_TERM : string; tm_charDevice : result bool }.

Definition useColor (tm : Terminal) : bool :=
  if negb (String.eqb (tm_NO_COLOR tm) "") then false
  else if String.eqb (tm_TERM tm) "dumb" then false
  else match tm_charDevice tm with Ok b => b | Err _ => false end.

Definition newPrinter (tm : Terminal) : printer := {| p_color := useColor tm |}.

Definition style (p : printer) (code s : string) : string := if p_color p then code +:+ s +:+ ansiReset else s.

(** [strings.Repeat] of a space. *)
Fixpoint spaces (n : nat) : string := match n with O => "" | S n => String " " (spaces n) end.

Record tableCell := { tc_display : string; tc_width : Z }.
Definition plainCell (s : string) : tableCell := {| tc_display := s; tc_width := utf8_RuneCount s |}.
Definition styledCell (p : printer) (code s : string) : tableCell := {| tc_display := style p code s; tc_width := utf8_RuneCount s |}.

(** The widths are widened by the cells of one row, those past the columns ignored. *)
Fixpoint widen (widths : list Z) (row : list tableCell) : list Z :=
  match widths, row with
  | w :: ws, c :: cs => (if w <? tc_width c then tc_width c else w) :: widen ws cs
  | ws, _ => ws
  end.

(** The cells of a row, padded but for the last column and those past it. *)
Fixpoint row_text (gap : string) (widths : list Z) (row : list tableCell) : string :=
  match row with
  | [] => ""
  | c :: cs =>
      tc_display c +:+
      match widths with
      | w :: (_ :: _) as ws => spaces (Z.to_nat (w - tc_width c)) +:+ gap +:+ row_text gap (tail widths) cs
      | _ => row_text gap (tail widths) cs
      end
  end.

Definition table_widths (rows : list (list tableCell)) : list Z :=
  match rows with
  | [] => []
  | first :: _ => fold_left widen rows (replicate (length first) 0)
  end.

Definition table (indent gap : string) (rows : list (list tableCell)) : string :=
  strings_Join ((fun row => indent +:+ row_text gap (table_widths rows) row +:+ newline) <$> rows) "".

Definition blank : string := newline.
Definition headline (p : printer) (msg : string) : string :=
  style p (ansiGreen +:+ ansiBold) (String (chr 226) (String (chr 156) (String (chr 147) ""))) +:+ " " +:+ style p ansiBold msg +:+ newline.
Definition section (p : printer) (title : string) : string := style p (ansiBold +:+ ansiCyan) title +:+ newline.
Definition hint (p : printer) (msg : string) : string := style p ansiDim msg +:+ newline.
Definition warn (p : printer) (msg : string) : string := style p (ansiYellow +:+ ansiBold) "!" +:+ " " +:+ style p ansiYellow msg +:+ newline.
Definition fail (p : printer) (msg : string) : string :=
  style p (ansiRed +:+ ansiBold) (String (chr 226) (String (chr 156) (String (chr 151) ""))) +:+ " " +:+ style p ansiRed msg +:+ newline.

Record pair := { pr_label : string; pr_value : string; pr_secret : bool; pr_valueColor : string }.
Definition kv (label value : string) : pair := {| pr_label := label; pr_value := value; pr_secret := false; pr_valueColor := "" |}.
Definition secret (label value : string) : pair := {| pr_label := label; pr_value := value; pr_secret := true; pr_valueColor := "" |}.
Definition kvColor (label value color : string) : pair :=
  {| pr_label := label; pr_value := value; pr_secret := false; pr_valueColor := color |}.

Definition max_label (items : list pair) : Z :=
  fold_left (fun m it => if m <? len (pr_label it) then len (pr_label it) else m) items 0.

Definition pair_text (p : printer) (maxLabel : Z) (it : pair) : string :=
  let label := pr_label it +:+ ":" +:+ spaces (Z.to_nat (maxLabel - len (pr_label it))) in
  let value := if pr_secret it then style p ansiYellow (pr_value it) +:+ " " +:+ style p ansiDim "[secret]"
               else if negb (String.eqb (pr_valueColor it) "") then style p (pr_valueColor it) (pr_value it)
               else pr_value it in
  "  " +:+ style p ansiDim label +:+ " " +:+ value +:+ newline.

Definition pairs (p : printer) (items : list pair) : string := strings_Join (pair_text p (max_label items) <$> items) "".

(** ** Columns line up *)

Lemma spaces_add a b : spaces a +:+ spaces b = spaces (a + b).
Proof. induction a as [|a IH]; [done|]. cbn [spaces Nat.add]. by rewrite string_app_cons, IH. Qed.

Lemma RuneCount_ascii c s : code c < 128 -> utf8_RuneCount (String c s) = 1 + utf8_RuneCount s.
Proof. intros Hc. unfold utf8_RuneCount. cbn [rune_count utf8_DecodeRune]. rewrite (proj2 (Z.ltb_lt _ _)) by done. cbn. lia. Qed.

Lemma RuneCount_spaces m s : utf8_RuneCount (spaces m +:+ s) = Z.of_nat m + utf8_RuneCount s.
Proof.
  induction m as [|m IH]; [rewrite string_app_nil; lia|]. cbn [spaces]. rewrite string_app_cons, RuneCount_ascii by reflexivity. lia.
Qed.

Lemma RuneCount_padded a m s : utf8_RuneCount (a +:+ spaces (S m) +:+ s) = utf8_RuneCount a + Z.of_nat (S m) + utf8_RuneCount s.
Proof.
  cbn [spaces]. rewrite string_app_cons, utf8_RuneCount_app by reflexivity.
  rewrite <- string_app_cons. change (String " " (spaces m)) with (spaces (S m)). rewrite RuneCount_spaces. lia.
Qed.

(** Where column [i] starts, after an indent of [k] and with gaps of [g]. *)
Definition column (k g : Z) (widths : list Z) (i : nat) : Z := k + foldr Z.add 0 (take i widths) + Z.of_nat i * g.

Definition fits (widths : list Z) (row : list tableCell) : Prop :=
  Forall2 (fun w c => tc_width c <= w /\ tc_width c = utf8_RuneCount (tc_display c)) widths row.

Lemma row_text_column g widths row i c : fits widths row -> row !! i = Some c ->
  exists before after, row_text (spaces (S g)) widths row = before +:+ tc_display c +:+ after /\
    utf8_RuneCount before = column 0 (Z.of_nat (S g)) widths i.
Proof.
  intros Hf. revert i. induction Hf as [|w c0 ws cs [Hw Hc] Hf IH]; intros i Hi; [done|].
  destruct i as [|i].
  - injection Hi as ->. cbn [row_text]. eexists "", _. split; [by rewrite string_app_nil|]. reflexivity.
  - cbn in Hi. destruct (IH i Hi) as (before & after & E & Hb). cbn [row_text tail].
    destruct Hf as [|w' c' ws cs Hw' Hf]; [done|]. rewrite E.
    exists (tc_display c0 +:+ spaces (S (Z.to_nat (w - tc_width c0) + g)) +:+ before), after. split.
    + rewrite (string_app_assoc (spaces _)), spaces_add, Nat.add_succ_r. by rewrite !string_app_assoc.
    + rewrite RuneCount_padded, Hb. unfold column. cbn [take foldr]. lia.
Qed.

Lemma widen_length ws row : length (widen ws row) = length ws.
Proof. revert row. induction ws as [|w ws IH]; intros [|c cs]; try done. cbn. by rewrite IH. Qed.

Lemma widen_grows ws row : Forall2 Z.le ws (widen ws row).
Proof.
  revert row. induction ws as [|w ws IH]; intros [|c cs]; cbn; [constructor..|by apply Forall2_same_length_lookup_2; [|intros ? x y; naive_solver lia]|].
  constructor; [case_if; bool_solve; lia|apply IH].
Qed.

Lemma widen_holds ws row : (length row <= length ws)%nat -> Forall2 (fun w c => tc_width c <= w) (take (length row) (widen ws row)) row.
Proof.
  revert row. induction ws as [|w ws IH]; intros [|c cs] Hl; cbn in *; [constructor|lia|constructor|].
  constructor; [case_if; bool_solve; lia|apply IH; lia].
Qed.

Lemma fold_widen_grows rows ws : Forall2 Z.le ws (fold_left widen rows ws).
Proof.
  revert ws. induction rows as [|row rows IH]; intros ws; cbn [fold_left]; [apply Forall2_same_length_lookup_2; [done|]; intros ? x y Hx Hy; rewrite Hx in Hy; injection Hy; lia|].
  eapply Forall2_trans; [|apply widen_grows|apply IH]. intros x y z ? ?. lia.
Qed.

Lemma fold_widen_holds rows ws row : row ∈ rows -> length row = length ws ->
  Forall2 (fun w c => tc_width c <= w) (fold_left widen rows ws) row.
Proof.
  revert ws. induction rows as [|r rows IH]; intros ws Hin Hl; [by apply not_elem_of_nil in Hin|]. cbn [fold_left].
  apply elem_of_cons in Hin as [->|Hin]; [|by apply IH; rewrite ?widen_length].
  pose proof (widen_holds ws r) as Hh. rewrite take_ge in Hh by (rewrite widen_length; lia).
  eapply Forall2_trans; [|apply Forall2_flip, fold_widen_grows|apply Hh; lia]. cbn. intros x y z ? ?. lia.
Qed.

Lemma table_fits rows n row : Forall (fun row => length row = n) rows -> row ∈ rows ->
  Forall (fun c => tc_width c = utf8_RuneCount (tc_display c)) row -> fits (table_widths rows) row.
Proof.
  intros Hlen Hin Hc. rewrite Forall_forall in Hlen. destruct rows as [|first rows]; [by apply not_elem_of_nil in Hin|].
  unfold table_widths. pose proof (Hlen first ltac:(by left)) as Hn.
  pose proof (fold_widen_holds (first :: rows) (replicate (length first) 0) row Hin) as Hf.
  rewrite length_replicate, Hn, (Hlen row Hin) in Hf. rewrite Hn. specialize (Hf eq_refl). unfold fits.
  apply Forall2_same_length_lookup. split; [by eapply Forall2_length|]. intros i w c Hw Hi. split.
  - by eapply (Forall2_lookup_lr _ _ _ _ _ _ Hf).
  - by eapply (Forall_lookup_1 _ _ _ _ Hc).
Qed.

(** The columns of a table line up.  In a table whose rows have the same number
    of cells, printed without colours, every row is printed on a line of its own
    where the cells of one column all start after the same number of characters, and
    each leaves room for the next, whatever bytes the cells hold. *)
Theorem table_aligned rows n k g :
  Forall (fun row => length row = n) rows ->
  Forall (Forall (fun c => tc_width c = utf8_RuneCount (tc_display c))) rows ->
  exists (lines : list string) (offset : nat -> Z),
    table (spaces k) (spaces (S g)) rows = strings_Join ((fun line => line +:+ newline) <$> lines) "" /\
    Forall2 (fun row line => forall i c, row !! i = Some c ->
      (exists before after, line = before +:+ tc_display c +:+ after /\ utf8_RuneCount before = offset i) /\
      offset i + utf8_RuneCount (tc_display c) < offset (S i)) rows lines.
Proof.
  intros Hlen Hcells. exists ((fun row => spaces k +:+ row_text (spaces (S g)) (table_widths rows) row) <$> rows).
  exists (column (Z.of_nat k) (Z.of_nat (S g)) (table_widths rows)). split.
  { unfold table. rewrite <- list_fmap_compose. f_equal. apply list_fmap_ext. intros ? row _. cbn. by rewrite string_app_assoc. }
  apply Forall2_fmap_r, Forall_Forall2_diag, Forall_forall. intros row Hrow i c Hi.
  rewrite Forall_forall in Hcells. pose proof (table_fits _ _ _ Hlen Hrow (Hcells _ Hrow)) as Hf.
  destruct (row_text_column g _ _ _ _ Hf Hi) as (before & after & E & Hb). split.
  - exists (spaces k +:+ before), after. split; [rewrite E; by rewrite !string_app_assoc|].
    rewrite RuneCount_spaces, Hb. unfold column. lia.
  - destruct (Forall2_lookup_r _ _ _ _ _ Hf Hi) as (w & Hw & Hle & <-). unfold column.
    rewrite (take_S_r _ _ _ Hw), foldr_app. cbn [foldr].
    assert (Hsum : forall l z, foldr Z.add z l = foldr Z.add 0 l + z) by (intros l z; induction l as [|x l IH]; cbn; lia).
    rewrite (Hsum _ (w + 0)). lia.
Qed.

Definition sample_rows : list (list tableCell) :=
  [[plainCell "NODE"; plainCell "HANDSHAKE"; plainCell "RX"];
   [plainCell (String (chr 195) (String (chr 169) "t")); plainCell (String (chr 226) (String (chr 128) (String (chr 148) ""))); plainCell "0"]].

Lemma table_aligned_witness :
  exists lines offset, table (spaces 2) (spaces 2) sample_rows = strings_Join ((fun line => line +:+ newline) <$> lines) "" /\
    length lines = 2%nat /\ offset 0%nat + 4 < offset 1%nat.
Proof.
  destruct (table_aligned sample_rows 3 2 1) as (lines & offset & Ht & Hf).
  - repeat constructor.
  - repeat constructor.
  - exists lines, offset. split; [exact Ht|]. split; [by rewrite <- (Forall2_length _ _ _ Hf)|].
    destruct (Forall2_lookup_l _ _ _ 0%nat (hd [] sample_rows) Hf eq_refl) as (line & _ & Hcol).
    exact (proj2 (Hcol 0%nat (plainCell "NODE") eq_refl)).
Defined.
