(* ===== verification/Logging.v ===== *)
(** * Logging: the log lines (internal/logging/logging.go)

    A record becomes one logfmt line.  Kinds of values other than strings and groups
    are their text, after [Resolve].  A reader of such lines gets back exactly the
    fields that were logged, whatever bytes the message and the values hold. *)
From stdpp Require Import base tactics option list strings gmap.
From Stdlib Require Import Ascii ZArith Lia.
From S2P Require Import Prelude GoStrings GoNum GoUtf8.
Open Scope Z_scope.

(** [slog.Level] *)
Definition LevelDebug : Z := -4.
Definition LevelInfo : Z := 0.
Definition LevelWarn : Z := 4.
Definition LevelError : Z := 8.

Inductive SlogValue :=
  | SlogString (s : string)
  | SlogGroup (attrs : list (string * SlogValue))
  | SlogOther (text : string).

Record syslogHandler := { h_level : Z; h_attrs : list (string * SlogValue); h_group : string }.
Record LogRecord := { r_Level : Z; r_Message : string; r_Attrs : list (string * SlogValue) }.

(** The severity a line is sent with. *)
Inductive Severity := SevErr | SevWarning | SevInfo | SevDebug.

(** Where [Init] sends the log: syslog, or a text handler on stderr. *)
Inductive Logger := ToSyslog (h : syslogHandler) | ToStderr (level : Z).

Section logging.
Context `{UnicodeTables} `{PrintTable}.

Definition ParseLevel (s : string) : Z :=
  let s := strings_ToLower (strings_TrimSpace s) in
  if String.eqb s "debug" then LevelDebug
  else if String.eqb s "warn" || String.eqb s "warning" then LevelWarn
  else if String.eqb s "error" || String.eqb s "err" then LevelError
  else LevelInfo.

Definition logging_Init (env : string) (syslog : result unit) : Logger :=
  let level := ParseLevel env in
  match syslog with
  | Ok _ => ToSyslog {| h_level := level; h_attrs := []; h_group := "" |}
  | Err _ => ToStderr level
  end.

Definition levelString (l : Z) : string :=
  if LevelError <=? l then "ERROR" else if LevelWarn <=? l then "WARN" else if LevelInfo <=? l then "INFO" else "DEBUG".

Definition special : string := String " " (String "=" (String (chr 34) (String (chr 9) (String (chr 10) (String (chr 13) ""))))).
Definition needsQuoting (s : string) : bool := String.eqb s "" || strings_ContainsAny s special.
Definition quote (s : string) : string := if negb (needsQuoting s) then s else quoted s.

Definition joined (group key : string) : string := if negb (String.eqb group "") then group +:+ "." +:+ key else key.

Fixpoint append_attr (v : SlogValue) (b group akey : string) : string :=
  let key := joined group akey in
  let b := b +:+ key +:+ "=" in
  match v with
  | SlogString s => b +:+ quote s
  | SlogGroup attrs =>
      let nested := if String.eqb group "" then akey else group +:+ "." +:+ akey in
      let s := string_take (String.length b - String.length key - 1) b in
      (fix each (first : bool) (b : string) (l : list (string * SlogValue)) : string :=
         match l with
         | [] => b
         | (k, v) :: l => each false (append_attr v (if first then b else b +:+ " ") nested k) l
         end) true s attrs
  | SlogOther s => b +:+ (if needsQuoting s then quote s else s)
  end.
Definition appendAttr (b group : string) (a : string * SlogValue) : string := append_attr a.2 b group a.1.

Definition handler_Enabled (h : syslogHandler) (l : Z) : bool := h_level h <=? l.

Definition handler_line (h : syslogHandler) (r : LogRecord) : string :=
  fold_left (fun b a => appendAttr (b +:+ " ") (h_group h) a) (h_attrs h ++ r_Attrs r)
    ("level=" +:+ levelString (r_Level r) +:+ " msg=" +:+ quote (r_Message r)).

Definition handler_Handle (h : syslogHandler) (r : LogRecord) : Severity * string :=
  let msg := handler_line h r in
  if LevelError <=? r_Level r then (SevErr, msg)
  else if LevelWarn <=? r_Level r then (SevWarning, msg)
  else if LevelInfo <=? r_Level r then (SevInfo, msg)
  else (SevDebug, msg).

Definition WithAttrs (h : syslogHandler) (attrs : list (string * SlogValue)) : syslogHandler :=
  {| h_level := h_level h; h_attrs := h_attrs h ++ attrs; h_group := h_group h |}.
Definition WithGroup (h : syslogHandler) (name : string) : syslogHandler :=
  {| h_level := h_level h; h_attrs := h_attrs h; h_group := if String.eqb (h_group h) "" then name else h_group h +:+ "." +:+ name |}.

(** ** What was logged *)

Definition value_text (v : SlogValue) : string := match v with SlogString s | SlogOther s => s | SlogGroup _ => "" end.

(** The fields of an attribute, groups flattened. *)
Fixpoint attr_fields (v : SlogValue) (group akey : string) : list (string * string) :=
  match v with
  | SlogGroup attrs =>
      (fix each (l : list (string * SlogValue)) : list (string * string) :=
         match l with [] => [] | (k, v) :: l => attr_fields v (joined group akey) k ++ each l end) attrs
  | _ => [(joined group akey, value_text v)]
  end.

Definition record_fields (h : syslogHandler) (r : LogRecord) : list (string * string) :=
  ("level", levelString (r_Level r)) :: ("msg", r_Message r) ::
  concat ((fun a => attr_fields a.2 (h_group h) a.1) <$> h_attrs h ++ r_Attrs r).

(** *** Reading a line *)

Fixpoint span (stop : ascii) (s : string) : string * string :=
  match s with
  | EmptyString => ("", "")
  | String c t => if Ascii.eqb c stop then ("", s) else let '(a, b) := span stop t in (String c a, b)
  end.

Definition read_value (s : string) : option (string * string) :=
  match s with
  | String c t => if Ascii.eqb c (chr 34) then unquoted t else Some (span " " s)
  | EmptyString => Some ("", "")
  end.

Definition read_field (s : string) : option ((string * string) * string) :=
  match span "=" s with
  | (key, String _ t) => match read_value t with Some (v, rest) => Some ((key, v), rest) | None => None end
  | _ => None
  end.

Fixpoint read_fields (fuel : nat) (s : string) : option (list (string * string)) :=
  match fuel with
  | O => None
  | S n =>
      match read_field s with
      | Some (f, EmptyString) => Some [f]
      | Some (f, String c t) => if Ascii.eqb c " " then cons f <$> read_fields n t else None
      | None => None
      end
  end.
Definition read_line (s : string) : option (list (string * string)) := read_fields (String.length s) s.
End logging.

Example quote_ex : let _ := ascii_tables in let _ := {| uc_IsPrint := fun _ => true |} in
  quote ("with" +:+ String (chr 34) "quote") = String (chr 34) ("with" +:+ String (chr 92) (String (chr 34) ("quote" +:+ String (chr 34) ""))).
Proof. reflexivity. Qed.

(** ** A line is read back *)

Section induction.
Variable P : SlogValue -> Prop.
Hypothesis P_string : forall s, P (SlogString s).
Hypothesis P_other : forall s, P (SlogOther s).
Hypothesis P_group : forall attrs, Forall (fun a => P a.2) attrs -> P (SlogGroup attrs).
Fixpoint SlogValue_nested_ind (v : SlogValue) : P v :=
  match v with
  | SlogString s => P_string s
  | SlogOther s => P_other s
  | SlogGroup attrs => P_group attrs
      ((fix each l : Forall (fun a => P a.2) l :=
          match l with [] => Forall_nil_2 _ | a :: l => Forall_cons_2 _ _ _ (SlogValue_nested_ind a.2) (each l) end) attrs)
  end.
End induction.

(** Keys are words, groups hold something. *)
Definition word (s : string) : bool := negb (needsQuoting s).
Fixpoint well_named (v : SlogValue) : bool :=
  match v with
  | SlogGroup attrs => negb (Nat.eqb (length attrs) 0) && forallb (fun a => word a.1 && well_named a.2) attrs
  | _ => true
  end.
Definition well_named_attr (a : string * SlogValue) : bool := word a.1 && well_named a.2.

Lemma word_lacks s : word s = true -> s <> "" /\ lacks " " s = true /\ lacks "=" s = true /\ lacks (chr 34) s = true /\ lacks (chr 10) s = true.
Proof.
  unfold word, needsQuoting. rewrite negb_true_iff, orb_false_iff, String.eqb_neq. intros [Hne Hc]. split; [done|].
  assert (Hs : string_forallb (fun c => negb (contains_byte c special)) s = true)
    by (by apply negb_false_iff in Hc).
  split_and!; (eapply string_forallb_mono; [|exact Hs]); intros c Hn; apply negb_true_iff, Ascii.eqb_neq; intros ->; discriminate Hn.
Qed.

Lemma word_joined group key : group = "" \/ word group = true -> word key = true -> word (joined group key) = true.
Proof.
  unfold joined. intros [->|Hg] Hk; [done|]. destruct (String.eqb group "") eqn:E; [done|]. cbn [negb].
  unfold word, needsQuoting, strings_ContainsAny in *. rewrite negb_true_iff, orb_false_iff, negb_false_iff in *.
  destruct Hg as [_ Hg], Hk as [_ Hk]. split; [by destruct group|]. by rewrite !forallb_app, Hg, Hk.
Qed.

Section reading.
Context `{PrintTable}.

Definition field_text (f : string * string) : string := f.1 +:+ "=" +:+ quote f.2.
Definition tail_text (fs : list (string * string)) : string := foldr (fun f t => " " +:+ field_text f +:+ t) "" fs.

Lemma tail_text_app fs gs : tail_text (fs ++ gs) = tail_text fs +:+ tail_text gs.
Proof. induction fs as [|f fs IH]; [by rewrite string_app_nil|]. cbn [app tail_text foldr] in *. fold (tail_text (fs ++ gs)). rewrite IH. by rewrite !string_app_assoc. Qed.

Lemma joined_nested group key : (if String.eqb group "" then key else group +:+ "." +:+ key) = joined group key.
Proof. unfold joined. by destruct (String.eqb group ""). Qed.

Definition each_attr (nested : string) := fix each (first : bool) (b : string) (l : list (string * SlogValue)) : string :=
  match l with
  | [] => b
  | (k, v) :: l => each false (append_attr v (if first then b else b +:+ " ") nested k) l
  end.
Definition each_fields (nested : string) := fix each (l : list (string * SlogValue)) : list (string * string) :=
  match l with [] => [] | (k, v) :: l => attr_fields v nested k ++ each l end.

Lemma append_attr_text v : well_named v = true -> forall b group key,
  append_attr v (b +:+ " ") group key = b +:+ tail_text (attr_fields v group key).
Proof.
  induction v as [s|s|attrs IH] using SlogValue_nested_ind; intros Hw b group key.
  - cbn. unfold field_text. cbn. by rewrite string_app_nil_r, <- !string_app_assoc.
  - cbn. unfold field_text. cbn. rewrite string_app_nil_r, <- !string_app_assoc. unfold quote. by destruct (needsQuoting s).
  - cbn [append_attr attr_fields]. rewrite joined_nested. fold (each_attr (joined group key)). fold (each_fields (joined group key)).
    cbn [well_named] in Hw. apply andb_true_iff in Hw as [Hne Hw].
    assert (Hcut : string_take (String.length ((b +:+ " ") +:+ joined group key +:+ "=") - String.length (joined group key) - 1)
      ((b +:+ " ") +:+ joined group key +:+ "=") = b +:+ " ").
    { rewrite !string_length_app. cbn [String.length].
      replace (_ - _ - _)%nat with (String.length (b +:+ " ")) by (rewrite string_length_app; cbn [String.length]; lia). apply string_take_app. }
    rewrite Hcut. clear Hcut. set (nested := joined group key) in *.
    assert (Hrest : forall l b, Forall (fun a => well_named a.2 = true -> forall b group key,
        append_attr a.2 (b +:+ " ") group key = b +:+ tail_text (attr_fields a.2 group key)) l ->
      forallb (fun a => word a.1 && well_named a.2) l = true -> each_attr nested false b l = b +:+ tail_text (each_fields nested l)).
    { intros l. induction l as [|[k v] l IHl]; intros b' Hl Hf; [by rewrite string_app_nil_r|].
      apply Forall_cons in Hl as [Hv Hl]. cbn [forallb] in Hf. apply andb_true_iff in Hf as [[_ Hwv]%andb_true_iff Hf].
      cbn [each_attr each_fields]. cbn in Hv. rewrite Hv, IHl by done. by rewrite tail_text_app, string_app_assoc. }
    destruct attrs as [|[k v] attrs]; [done|]. apply Forall_cons in IH as [Hv IH]. cbn [forallb] in Hw.
    apply andb_true_iff in Hw as [[_ Hwv]%andb_true_iff Hw]. cbn [each_attr each_fields]. cbn in Hv.
    rewrite Hv, Hrest by done. by rewrite tail_text_app, string_app_assoc.
Qed.

Lemma attrs_text group attrs b : Forall (fun a => well_named a.2 = true) attrs ->
  fold_left (fun b a => appendAttr (b +:+ " ") group a) attrs b = b +:+ tail_text (concat ((fun a => attr_fields a.2 group a.1) <$> attrs)).
Proof.
  intros Hf. revert b. induction Hf as [|a attrs Ha _ IH]; intros b; cbn [fold_left]; [by rewrite string_app_nil_r|].
  rewrite IH. unfold appendAttr. rewrite append_attr_text by done. rewrite fmap_cons. cbn [concat].
  by rewrite tail_text_app, string_app_assoc.
Qed.

Definition keyed (fs : list (string * string)) : Prop := Forall (fun f => word f.1 = true) fs.

Lemma attr_keys v : well_named v = true -> forall group key, group = "" \/ word group = true -> word key = true -> keyed (attr_fields v group key).
Proof.
  induction v as [s|s|attrs IH] using SlogValue_nested_ind; intros Hw group key Hg Hk;
    [apply Forall_singleton; by apply word_joined..|].
  cbn [attr_fields]. fold (each_fields (joined group key)). cbn [well_named] in Hw. apply andb_true_iff in Hw as [_ Hw].
  pose proof (word_joined _ _ Hg Hk) as Hn. generalize dependent (joined group key). intros nested Hn.
  induction IH as [|[k v] l Hv _ IHl]; [constructor|]. cbn [forallb each_fields] in *.
  apply andb_true_iff in Hw as [[Hk' Hv']%andb_true_iff Hw]. apply Forall_app. split; [|by apply IHl]. apply Hv; [done|by right|done].
Qed.

Lemma span_stop stop a t : lacks stop a = true -> span stop (a +:+ String stop t) = (a, String stop t).
Proof.
  induction a as [|c a IH]; intros Hl; [rewrite string_app_nil; cbn [span]; by rewrite Ascii.eqb_refl|]. rewrite string_app_cons. cbn [span].
  unfold lacks in Hl. cbn in Hl. apply andb_true_iff in Hl as [Hc Hl]. apply negb_true_iff in Hc. by rewrite Hc, IH.
Qed.
Lemma span_end stop a : lacks stop a = true -> span stop a = (a, "").
Proof.
  induction a as [|c a IH]; intros Hl; [done|]. cbn [span]. unfold lacks in Hl. cbn in Hl. apply andb_true_iff in Hl as [Hc Hl].
  apply negb_true_iff in Hc. by rewrite Hc, IH.
Qed.

(** What may follow a field. *)
Definition field_end (t : string) : Prop := t = "" \/ exists u, t = String " " u.

Lemma read_value_quote s t : field_end t -> read_value (quote s +:+ t) = Some (s, t).
Proof.
  intros Ht. unfold quote. destruct (negb (needsQuoting s)) eqn:E.
  - destruct (word_lacks s E) as (Hne & Hsp & _ & Hq & _). destruct s as [|c s]; [done|]. rewrite string_app_cons. cbn [read_value].
    assert (Hc : Ascii.eqb c (chr 34) = false) by (unfold lacks in Hq; cbn in Hq; apply andb_true_iff in Hq as [Hq _]; by apply negb_true_iff).
    rewrite Hc, <- string_app_cons. destruct Ht as [->|[u ->]]; [rewrite string_app_nil_r; by rewrite span_end|by rewrite span_stop].
  - destruct (unquoted_quoted s t) as (body & -> & Hb). cbn [read_value]. exact Hb.
Qed.

Lemma read_field_text f t : word f.1 = true -> field_end t -> read_field (field_text f +:+ t) = Some (f, t).
Proof.
  intros Hk Ht. destruct f as [k v]. unfold read_field, field_text. cbn [fst snd] in *. rewrite <- !string_app_assoc.
  change ("=" +:+ quote v +:+ t) with (String "=" (quote v +:+ t)). rewrite span_stop by by apply word_lacks. by rewrite read_value_quote.
Qed.

Lemma tail_text_end fs : field_end (tail_text fs).
Proof. destruct fs as [|f fs]; [by left|]. right. by eexists. Qed.

Lemma read_fields_text n f fs : (length fs < n)%nat -> keyed (f :: fs) -> read_fields n (field_text f +:+ tail_text fs) = Some (f :: fs).
Proof.
  revert n f. induction fs as [|g fs IH]; intros n f Hn Hk; (destruct n as [|n]; [cbn in Hn; lia|]); apply Forall_cons in Hk as [Hf Hk]; cbn [read_fields].
  - by rewrite read_field_text by (done || by left).
  - rewrite read_field_text by (done || apply tail_text_end). change (tail_text (g :: fs)) with (String " " (field_text g +:+ tail_text fs)).
    cbv iota. cbn [Ascii.eqb Bool.eqb]. rewrite IH by (done || (cbn in Hn; lia)). done.
Qed.

Lemma tail_text_length fs : (length fs <= String.length (tail_text fs))%nat.
Proof. induction fs as [|f fs IH]; [done|]. cbn [tail_text foldr length]. fold (tail_text fs). rewrite !string_length_app. cbn [String.length]. lia. Qed.

Lemma read_line_text f fs : keyed (f :: fs) -> read_line (field_text f +:+ tail_text fs) = Some (f :: fs).
Proof.
  intros Hk. apply read_fields_text; [|done]. rewrite string_length_app. pose proof (tail_text_length fs).
  unfold field_text. rewrite !string_length_app. cbn [String.length]. lia.
Qed.

(** *** A record is one line *)

Lemma hex_lower_line n : 0 <= n < 16 -> Ascii.eqb (hex_lower n) (chr 10) = false.
Proof. intros Hn. unfold hex_lower. case_if; bool_solve; apply chr_neq; try lia; change (code (chr 10)) with 10; lia. Qed.

Lemma byte_hex_line b : 0 <= b < 256 -> lacks (chr 10) (byte_hex b) = true.
Proof. intros Hb. unfold lacks, byte_hex. cbn [string_forallb]. by rewrite !hex_lower_line by Zdm. Qed.

Lemma word_hex_line w : 0 <= w < 65536 -> lacks (chr 10) (word_hex w) = true.
Proof. intros Hw. unfold word_hex. by rewrite lacks_app, !byte_hex_line by Zdm. Qed.

Lemma escaped_line c s : Ascii.eqb c (chr 10) = false -> lacks (chr 10) s = true -> lacks (chr 10) (escaped c s) = true.
Proof. intros Hc Hs. unfold lacks, escaped in *. cbn [string_forallb]. by rewrite Hc, Hs. Qed.

Lemma append_line r : 0 <= r < 2097152 -> r <> 10 -> lacks (chr 10) (utf8_AppendRune r) = true.
Proof.
  intros Hr Hn. unfold utf8_AppendRune, lacks, RuneError.
  repeat match goal with |- context [if ?b then _ else _] => destruct b eqn:? end; bool_solve; cbn [string_forallb];
    rewrite ?chr_neq by (change (code (chr 10)) with 10; Zdm); done.
Qed.

Lemma quote_rune_line r : 0 <= r < 2097152 -> lacks (chr 10) (quote_rune r) = true.
Proof.
  intros Hr. unfold quote_rune.
  destruct ((r =? 34) || (r =? 92)) eqn:Eq; [by apply orb_true_iff in Eq as [->%Z.eqb_eq| ->%Z.eqb_eq]|].
  destruct (strconv_IsPrint r) eqn:Ep.
  { apply append_line; [done|]. intros ->. discriminate Ep. }
  repeat match goal with |- context [if r =? ?k then escaped _ "" else _] => destruct (r =? k); [reflexivity|] end.
  destruct ((r <? 32) || (r =? 127)) eqn:Ec.
  { apply escaped_line; [done|]. apply byte_hex_line. apply orb_true_iff in Ec. rewrite Z.ltb_lt, Z.eqb_eq in Ec. lia. }
  cbv zeta. assert (Hv : 0 <= (if utf8_ValidRune r then r else RuneError) < 2097152) by (unfold RuneError; case_if; lia).
  generalize dependent (if utf8_ValidRune r then r else RuneError). intros v Hv.
  destruct (Z.ltb_spec v 65536); (apply escaped_line; [done|]); rewrite ?lacks_app, ?word_hex_line by Zdm; done.
Qed.

Lemma quoted_line s : lacks (chr 10) (quoted s) = true.
Proof.
  unfold quoted. change (lacks (chr 10) (quote_from 0 s +:+ String (chr 34) "") = true). rewrite lacks_app. apply andb_true_iff. split; [|done].
  generalize 0%nat. induction s as [|c s IH]; intros skip; [done|]. cbn [quote_from]. destruct skip as [|k]; [|apply IH].
  destruct (utf8_DecodeRune (String c s)) as [r w] eqn:E. destruct (_ && _) eqn:Ebad.
  - rewrite lacks_app, IH, escaped_line by (done || apply byte_hex_line, code_range). done.
  - rewrite lacks_app, IH, quote_rune_line; [done|]. by eapply decode_range.
Qed.

Lemma quote_line s : lacks (chr 10) (quote s) = true.
Proof. unfold quote. destruct (negb (needsQuoting s)) eqn:E; [by apply word_lacks|apply quoted_line]. Qed.

Lemma fields_line fs : keyed fs -> lacks (chr 10) (tail_text fs) = true.
Proof.
  induction 1 as [|f fs Hf _ IH]; [done|]. cbn [tail_text foldr]. fold (tail_text fs). unfold field_text.
  rewrite !lacks_app, quote_line, IH. destruct (word_lacks _ Hf) as (_ & _ & _ & _ & ->). done.
Qed.
End reading.

(** C32: a log line says what was logged and nothing else.  When the keys of the
    handler's and the record's attributes and the group are words and their groups
    hold something, the line the handler writes holds no newline and is read back as
    the level, the message and the attributes with groups flattened: no message or
    value, whatever its bytes, can start a line, hide a field or forge one. *)
Theorem log_line_read `{PrintTable} h r :
  Forall (fun a => well_named_attr a = true) (h_attrs h ++ r_Attrs r) -> h_group h = "" \/ word (h_group h) = true ->
  let line := (handler_Handle h r).2 in
  read_line line = Some (record_fields h r) /\ lacks (chr 10) line = true.
Proof.
  intros Ha Hg line.
  assert (Hline : line = handler_line h r) by (unfold line, handler_Handle; by repeat case_if). rewrite Hline. clear Hline line.
  set (level := levelString (r_Level r)). set (fs := concat ((fun a => attr_fields a.2 (h_group h) a.1) <$> h_attrs h ++ r_Attrs r)).
  assert (Hlevel : quote level = level /\ lacks (chr 10) level = true)
    by (unfold level, levelString; destruct (LevelError <=? r_Level r), (LevelWarn <=? r_Level r), (LevelInfo <=? r_Level r); by split).
  assert (Htext : handler_line h r = field_text ("level", level) +:+ tail_text (("msg", r_Message r) :: fs)).
  { unfold handler_line. rewrite attrs_text.
    - fold fs level. unfold field_text at 1. cbn [fst snd tail_text foldr]. fold (tail_text fs). rewrite (proj1 Hlevel).
      unfold field_text. cbn [fst snd]. rewrite <- !string_app_assoc. reflexivity.
    - eapply Forall_impl; [exact Ha|]. intros a Hw. by apply andb_true_iff in Hw as [_ ?]. }
  assert (Hk : keyed (("msg", r_Message r) :: fs)).
  { constructor; [done|]. unfold fs. clear -Ha Hg. induction Ha as [|a l Hw _ IH]; [constructor|]. rewrite fmap_cons. cbn [concat].
    apply andb_true_iff in Hw as [Hk Hw]. apply Forall_app. split; [by apply attr_keys|exact IH]. }
  rewrite Htext. split.
  - unfold record_fields. fold level fs. apply read_line_text. by constructor.
  - rewrite lacks_app, fields_line by done. unfold field_text. cbn [fst snd]. by rewrite !lacks_app, (proj1 Hlevel), (proj2 Hlevel).
Qed.

Section samples.
#[local] Existing Instance ascii_tables.
Definition all_printable : PrintTable := {| uc_IsPrint := fun _ => true |}.
#[local] Existing Instance all_printable.

(** A node name that would forge a line and a field. *)
Definition forged : string := "x" +:+ String (chr 10) ("level=ERROR msg=" +:+ String (chr 34) "down").
Definition sample_record : LogRecord := {|
  r_Level := LevelWarn; r_Message := "peer lost";
  r_Attrs := [("node", SlogString forged); ("peer", SlogGroup [("age", SlogOther "42s"); ("name", SlogString "")])] |}.
Definition sample_handler : syslogHandler := {| h_level := LevelInfo; h_attrs := [("pid", SlogOther "7")]; h_group := "" |}.

Lemma log_line_read_witness :
  read_line (handler_Handle sample_handler sample_record).2 =
    Some [("level", "WARN"); ("msg", "peer lost"); ("pid", "7"); ("node", forged); ("peer.age", "42s"); ("peer.name", "")].
Proof.
  destruct (log_line_read sample_handler sample_record) as [Hr _]; [|left; reflexivity|exact Hr].
  repeat constructor.
Defined.
End samples.
