(* ===== verification/StatePaths.v ===== *)
(** * StatePaths: the files of a state directory (internal/config/schema.go, cache.go, bootstrap.go)

    Their paths, the locks taken in the directory, and that no two of the files share a
    path, which is what lets [StateDir] keep them as separate fields. *)
From stdpp Require Import base tactics option list strings gmap.
From Stdlib Require Import Ascii ZArith Lia.
From S2P Require Import Prelude GoStrings GoNum.
Open Scope Z_scope.

(** ** path/filepath *)

(** One component after those kept, the last one first. *)
Definition clean_comp (rooted : bool) (kept : list string) (c : string) : list string :=
  if String.eqb c "" || String.eqb c "." then kept
  else if String.eqb c ".." then
    match kept with
    | k :: kept' => if String.eqb k ".." then c :: kept else kept'
    | [] => if rooted then [] else [c]
    end
  else c :: kept.

Definition clean_comps (rooted : bool) (cs : list string) : list string := fold_left (clean_comp rooted) cs [].

Definition filepath_Clean (path : string) : string :=
  if String.eqb path "" then "." else
  let rooted := strings_HasPrefix path "/" in
  let out := strings_Join (rev (clean_comps rooted (strings_Split "/" path))) "/" in
  if rooted then "/" +:+ out else if String.eqb out "" then "." else out.

(** [Join] of two elements, the second not empty. *)
Definition filepath_Join (dir name : string) : string :=
  filepath_Clean (if String.eqb dir "" then name else dir +:+ "/" +:+ name).

Example join_ex : filepath_Join "/var/lib/../lib/tincan//" "cache.bin" = "/var/lib/tincan/cache.bin".
Proof. reflexivity. Qed.
Example join_ex2 : (filepath_Join "" "a", filepath_Join "../x/./y/.." "a", filepath_Join "/.." "a") = ("a", "../x/a", "/a").
Proof. reflexivity. Qed.

(** ** The files *)

Definition CachePath (stateDir : string) : string := filepath_Join stateDir "cache.bin".
Definition SourcePath (stateDir : string) : string := filepath_Join stateDir "directory-source.bin".
Definition StatePath (stateDir : string) : string := filepath_Join stateDir "state.json".
Definition SerialPath (stateDir : string) : string := filepath_Join stateDir "cache.serial".
Definition PublishSerialPath (stateDir : string) : string := filepath_Join stateDir "publish.serial".
Definition DiscoveryStatePath (stateDir : string) : string := filepath_Join stateDir "discovery.json".
Definition bootstrap_DefaultPath (stateDir : string) : string := filepath_Join stateDir "netboot.json".
Definition adminLockPath (stateDir : string) : string := filepath_Join stateDir ".admin.lock".
Definition stateLockPath (stateDir : string) : string := filepath_Join stateDir ".lock".

(** ** The locks *)

(** What the calls on a path answer. *)
Record LockIo := { li_mkdir : string -> result unit; li_open : string -> result unit; li_flock : string -> result unit }.

Definition ensureDir (io : LockIo) (stateDir : string) : result unit :=
  wrap_err (fun e => Errorf "create state directory: %w" [e]) (li_mkdir io stateDir).

(** The path whose lock is held. *)
Definition LockAdmin (io : LockIo) (stateDir : string) : result string :=
  _ ← ensureDir io stateDir;
  _ ← wrap_err (fun e => Errorf "open admin lock: %w" [e]) (li_open io (adminLockPath stateDir));
  _ ← wrap_err (fun e => Errorf "lock admin directory: %w" [e]) (li_flock io (adminLockPath stateDir));
  Ok (adminLockPath stateDir).

(** [fn] runs with the lock held. *)
Definition withStateLock {A} (io : LockIo) (stateDir : string) (fn : result A) : result A :=
  _ ← ensureDir io stateDir;
  _ ← wrap_err (fun e => Errorf "open state lock: %w" [e]) (li_open io (stateLockPath stateDir));
  _ ← wrap_err (fun e => Errorf "lock state directory: %w" [e]) (li_flock io (stateLockPath stateDir));
  fn.

(** ** No two files share a path *)

Definition file_name (name : string) : Prop :=
  lacks "/" name = true /\ name <> "" /\ name <> "." /\ name <> "..".

Lemma Split_app_lacks sep s t : lacks sep t = true -> strings_Split sep (s +:+ String sep t) = strings_Split sep s ++ [t].
Proof.
  intros Ht. induction s as [|c s IH].
  - rewrite string_app_nil. cbn [strings_Split]. by rewrite Ascii.eqb_refl, (Split_lacks _ _ Ht).
  - rewrite string_app_cons. cbn [strings_Split]. rewrite IH. destruct (Ascii.eqb c sep); [done|].
    destruct (strings_Split sep s) eqn:E; [by apply Split_not_nil in E|done].
Qed.

Lemma clean_comps_name rooted cs name : file_name name -> clean_comps rooted (cs ++ [name]) = name :: clean_comps rooted cs.
Proof.
  intros (_ & He & Hd & Hdd). unfold clean_comps. rewrite fold_left_app. cbn [fold_left]. unfold clean_comp at 1.
  by rewrite !(proj2 (String.eqb_neq _ _)) by done.
Qed.

Lemma Join_snoc ws name sep : strings_Join (ws ++ [name]) sep = (if bool_decide (ws = []) then "" else strings_Join ws sep +:+ sep) +:+ name.
Proof.
  induction ws as [|w ws IH]; [done|]. rewrite <- app_comm_cons. destruct ws as [|w' ws]; [by rewrite bool_decide_false by done; rewrite <- string_app_assoc|].
  rewrite !bool_decide_false in * by done.
  change (strings_Join (w :: (w' :: ws) ++ [name]) sep) with (w +:+ sep +:+ strings_Join ((w' :: ws) ++ [name]) sep). rewrite IH.
  change (strings_Join (w :: w' :: ws) sep) with (w +:+ sep +:+ strings_Join (w' :: ws) sep). by rewrite <- !string_app_assoc.
Qed.

(** The path of a name ends in it, after nothing or a separator; what comes before
    depends on the directory alone. *)
Lemma Join_name dir name : file_name name ->
  exists before : string, filepath_Join dir name = before +:+ name /\ (before = "" \/ exists b, before = b +:+ "/").
Proof.
  intros Hn. pose proof Hn as (Hl & He & _).
  assert (Hcore : forall (rooted : bool) cs, exists before : string,
    ((if rooted then "/" +:+ strings_Join (rev (clean_comps rooted (cs ++ [name]))) "/"
     else if String.eqb (strings_Join (rev (clean_comps rooted (cs ++ [name]))) "/") "" then "."
     else strings_Join (rev (clean_comps rooted (cs ++ [name]))) "/") : string) = before +:+ name /\ (before = "" \/ exists b, before = b +:+ "/")).
  { intros rooted cs. rewrite clean_comps_name by done. cbn [rev]. rewrite Join_snoc.
    assert (Hpre : exists pre : string, (if bool_decide (rev (clean_comps rooted cs) = []) then "" else strings_Join (rev (clean_comps rooted cs)) "/" +:+ "/") = pre /\
      (pre = "" \/ exists b, pre = b +:+ "/")) by (eexists; split; [reflexivity|]; case_bool_decide; [by left|right; by eexists]).
    destruct Hpre as (pre & -> & Hpre).
    destruct rooted.
    - exists ("/" +:+ pre). split; [by rewrite string_app_assoc|]. right. destruct Hpre as [-> |[b ->]]; [by exists ""|exists ("/" +:+ b); by rewrite string_app_assoc].
    - exists pre. split; [|done]. rewrite (proj2 (String.eqb_neq _ _)); [done|]. intros E.
      apply He. destruct name; [done|]. apply (f_equal String.length) in E. rewrite string_length_app in E. cbn in E. lia. }
  unfold filepath_Join, filepath_Clean. destruct (String.eqb_spec dir "") as [->|Hd].
  - rewrite (proj2 (String.eqb_neq _ _)) by done. rewrite (Split_lacks _ _ Hl). exact (Hcore _ []).
  - rewrite (proj2 (String.eqb_neq _ _)) by (by destruct dir). change ("/" +:+ name) with (String "/" name).
    rewrite Split_app_lacks by done. exact (Hcore _ _).
Qed.

Lemma name_after_separator b b' (n n' : string) : lacks "/" n = true -> lacks "/" n' = true ->
  (b = "" \/ exists c, b = c +:+ "/") -> (b' = "" \/ exists c, b' = c +:+ "/") -> b +:+ n = b' +:+ n' -> n = n'.
Proof.
  intros Hn Hn' Hb Hb' E.
  assert (Hlast : forall b n, lacks "/" n = true -> (b = "" \/ exists c, b = c +:+ "/") -> last (strings_Split "/" (b +:+ n)) = Some n).
  { intros x y Hy [-> |[c ->]]; [by rewrite string_app_nil, (Split_lacks _ _ Hy)|].
    rewrite <- string_app_assoc. change ("/" +:+ y) with (String "/" y). by rewrite Split_app_lacks, last_snoc. }
  pose proof (Hlast b n Hn Hb) as H1. rewrite E, (Hlast b' n' Hn' Hb') in H1. by injection H1.
Qed.

Lemma Join_inj dir n n' : file_name n -> file_name n' -> filepath_Join dir n = filepath_Join dir n' -> n = n'.
Proof.
  intros Hn Hn' E. destruct (Join_name dir n Hn) as (b & Eb & Hb), (Join_name dir n' Hn') as (b' & Eb' & Hb'). rewrite Eb, Eb' in E.
  eapply name_after_separator; [apply Hn|apply Hn'|exact Hb|exact Hb'|exact E].
Qed.

(** The files a state directory holds. *)
Definition state_files (stateDir : string) : list string :=
  [CachePath stateDir; SourcePath stateDir; StatePath stateDir; SerialPath stateDir; PublishSerialPath stateDir;
   DiscoveryStatePath stateDir; bootstrap_DefaultPath stateDir; adminLockPath stateDir; stateLockPath stateDir].

(** Whatever the configured directory, no two of its files share a path. *)
Theorem state_files_distinct stateDir : NoDup (state_files stateDir).
Proof.
  change (NoDup (filepath_Join stateDir <$>
    ["cache.bin"; "directory-source.bin"; "state.json"; "cache.serial"; "publish.serial"; "discovery.json"; "netboot.json"; ".admin.lock"; ".lock"])).
  apply NoDup_fmap_2_strong; [|apply (bool_decide_eq_true _); reflexivity].
  assert (Hall : Forall file_name
    ["cache.bin"; "directory-source.bin"; "state.json"; "cache.serial"; "publish.serial"; "discovery.json"; "netboot.json"; ".admin.lock"; ".lock"])
    by (repeat constructor; discriminate).
  rewrite Forall_forall in Hall. intros x y Hx Hy. by apply Join_inj; apply Hall.
Qed.
