(* ===== verification/Bech32.v ===== *)
(** * Bech32: internal/nostr/bech32.go

    The BIP-173 codec of nostr keys: the checksum, the regrouping of bits and
    the two directions of the codec.  A [[]byte] is the list of its values; the
    32-bit accumulators are wrapped where Go wraps them.  [regroup_fuel] bounds
    the inner loop of [convertBits]: every round takes [toBits] >= 1 bits out of
    the [bits] that are there, so [bits] rounds are enough. *)
From stdpp Require Import base tactics option list strings gmap.
From Stdlib Require Import Ascii ZArith Lia.
From S2P Require Import Prelude GoStrings GoNum GoBase64.
Open Scope Z_scope.

Definition bech32Charset : string := "qpzry9x8gf2tvdw0s3jn54khce6mua7l".

(** [bech32Charset[b]]: every value is below 32. *)
Definition charset_char (v : Z) : ascii := default zero (String.get (Z.to_nat v) bech32Charset).

Definition bech32Reverse (c : ascii) : Z :=
  match strings_IndexByte c bech32Charset with Some i => Z.of_nat i | None => -1 end.

Definition bech32_gen : list (Z * Z) :=
  [(0, 0x3b6a57b2); (1, 0x26508e6d); (2, 0x1ea119fa); (3, 0x3d4233dd); (4, 0x2a1462b3)].

Definition polymod_gen (top chk : Z) (g : Z * Z) : Z :=
  if Z.land (Z.shiftr top (fst g)) 1 =? 1 then Z.lxor chk (snd g) else chk.

Definition polymod_step (chk v : Z) : Z :=
  let top := Z.shiftr chk 25 in
  fold_left (polymod_gen top) bech32_gen (Z.lxor (u32 (Z.shiftl (Z.land chk 0x1ffffff) 5)) v).

Definition bech32Polymod (values : list Z) : Z := fold_left polymod_step values 1.

Definition bytes (s : string) : list Z := code <$> String.list_ascii_of_string s.
Definition of_bytes (l : list Z) : string := String.string_of_list_ascii (chr <$> l).

Definition bech32HRPExpand (hrp : string) : list Z :=
  ((fun c => Z.shiftr c 5) <$> bytes hrp) ++ [0] ++ ((fun c => Z.land c 31) <$> bytes hrp).

Definition bech32Checksum (hrp : string) (data : list Z) : list Z :=
  let values := bech32HRPExpand hrp ++ data ++ [0; 0; 0; 0; 0; 0] in
  let mod_ := Z.lxor (bech32Polymod values) 1 in
  (fun i => u8 (Z.land (Z.shiftr mod_ (5 * (5 - i))) 31)) <$> [0; 1; 2; 3; 4; 5].

(** [for bits >= toBits { ... }] *)
Fixpoint regroup (fuel : nat) (toBits maxv acc bits : Z) (out : list Z) : Z * list Z :=
  match fuel with
  | O => (bits, out)
  | S fuel =>
      if toBits <=? bits then
        let bits := bits - toBits in
        regroup fuel toBits maxv acc bits (out ++ [u8 (Z.land (Z.shiftr acc bits) maxv)])
      else (bits, out)
  end.

Definition regroup_fuel (bits : Z) : nat := Z.to_nat bits.

Fixpoint convert_loop (fromBits toBits maxv : Z) (data : list Z) (acc bits : Z) (out : list Z)
  : Z * Z * list Z :=
  match data with
  | [] => (acc, bits, out)
  | b :: data =>
      let acc := Z.lor (u32 (Z.shiftl acc fromBits)) b in
      let '(bits, out) := regroup (regroup_fuel (bits + fromBits)) toBits maxv acc (bits + fromBits) out in
      convert_loop fromBits toBits maxv data acc bits out
  end.

Definition convertBits (data : list Z) (fromBits toBits : Z) (pad : bool) : result (list Z) :=
  let maxv := u32 (Z.shiftl 1 toBits) - 1 in
  let '(acc, bits, out) := convert_loop fromBits toBits maxv data 0 0 [] in
  let last := Z.land (u32 (Z.shiftl acc (toBits - bits))) maxv in
  if pad then Ok (if 0 <? bits then out ++ [u8 last] else out)
  else if (fromBits <=? bits) || negb (last =? 0) then Err (errors_New "invalid padding bits")
  else Ok out.

Definition encodeBech32 (hrp : string) (data8 : string) : result string :=
  data5 ← convertBits (bytes data8) 8 5 true;
  Ok (hrp +:+ String "1" (String.string_of_list_ascii (charset_char <$> data5 ++ bech32Checksum hrp data5))).

Fixpoint reverse_all (s : string) : result (list Z) :=
  match s with
  | EmptyString => Ok []
  | String c s =>
      let v := bech32Reverse c in
      guard_err (v <? 0) (errors_New "invalid bech32 character %q")
      (r ← reverse_all s; Ok (v :: r))
  end.

Section bech32.
Context `{UnicodeTables}.

Definition decodeBech32 (s : string) : result (string * string) :=
  guard_err ((len s <? 8) || (2048 <? len s)) (errors_New "bech32 string has invalid length %d")
  (let low := strings_ToLower s in
   let up := strings_ToUpper s in
   guard_err (negb (String.eqb s low) && negb (String.eqb s up))
     (errors_New "bech32 string has mixed case")
   (match strings_LastIndexByte "1" low with
    | None => Err (errors_New "bech32 separator misplaced")
    | Some sep =>
        guard_err ((Z.of_nat sep <? 1) || (len low <? Z.of_nat sep + 7))
          (errors_New "bech32 separator misplaced")
        (let hrp := string_take sep low in
         data5 ← reverse_all (string_drop (S sep) low);
         guard_err (negb (bech32Polymod (bech32HRPExpand hrp ++ data5) =? 1))
           (errors_New "bad bech32 checksum")
         (data8 ← convertBits (take (length data5 - 6) data5) 5 8 false;
          Ok (hrp, of_bytes data8)))
    end)).
End bech32.

Example encode_npub :
  encodeBech32 "a" "" = Ok "a12uel5l".
Proof. reflexivity. Qed.

Example decode_npub :
  @decodeBech32 ascii_tables "A12UEL5L" = Ok ("a", "").
Proof. vm_compute. reflexivity. Qed.

(** ** The checksum is linear *)

Definition shift_in (chk : Z) : Z := polymod_step chk 0.
Definition gen_sum (top : Z) : Z := fold_left (polymod_gen top) bech32_gen 0.

Lemma polymod_gens top : forall gs chk,
  fold_left (polymod_gen top) gs chk = Z.lxor chk (fold_left (polymod_gen top) gs 0).
Proof.
  induction gs as [|g gs IH]; intros chk; simpl; [by rewrite Z.lxor_0_r|].
  rewrite IH, (IH (polymod_gen top 0 g)). unfold polymod_gen at 1 3.
  case_if; rewrite ?Z.lxor_0_l; [by rewrite Z.lxor_assoc|done].
Qed.

Lemma step_shift_in chk v : polymod_step chk v = Z.lxor (shift_in chk) v.
Proof.
  unfold shift_in, polymod_step. rewrite polymod_gens, (polymod_gens _ _ (Z.lxor _ 0)), Z.lxor_0_r.
  rewrite !Z.lxor_assoc. f_equal. apply Z.lxor_comm.
Qed.

Lemma land_1_bit x : (Z.land x 1 =? 1) = Z.testbit x 0.
Proof.
  rewrite Z.bit0_odd. change 1 with (Z.ones 1). rewrite Z.land_ones by lia.
  change (2 ^ 1) with 2. rewrite Zmod_odd. by destruct (Z.odd x).
Qed.

Lemma gen_sum_lxor a b : gen_sum (Z.lxor a b) = Z.lxor (gen_sum a) (gen_sum b).
Proof.
  unfold gen_sum. generalize bech32_gen. induction l as [|g gs IH]; simpl; [done|].
  rewrite (polymod_gens _ gs (polymod_gen (Z.lxor a b) 0 g)), (polymod_gens _ gs (polymod_gen a 0 g)),
    (polymod_gens _ gs (polymod_gen b 0 g)), IH.
  assert (E : polymod_gen (Z.lxor a b) 0 g = Z.lxor (polymod_gen a 0 g) (polymod_gen b 0 g)).
  { unfold polymod_gen. rewrite !land_1_bit, Z.shiftr_lxor, Z.lxor_spec.
    destruct (Z.testbit (Z.shiftr a (fst g)) 0), (Z.testbit (Z.shiftr b (fst g)) 0); simpl;
      by rewrite ?Z.lxor_0_l, ?Z.lxor_nilpotent, ?Z.lxor_0_r. }
  rewrite E, !Z.lxor_assoc. f_equal. rewrite <- !Z.lxor_assoc. f_equal. apply Z.lxor_comm.
Qed.

Lemma land_lxor_distr a b m : Z.land (Z.lxor a b) m = Z.lxor (Z.land a m) (Z.land b m).
Proof.
  apply Z.bits_inj'. intros n _. rewrite Z.land_spec, !Z.lxor_spec, !Z.land_spec.
  by destruct (Z.testbit a n), (Z.testbit b n), (Z.testbit m n).
Qed.

Lemma shift_in_eq chk :
  shift_in chk = Z.lxor (Z.shiftl (Z.land chk 0x1ffffff) 5) (gen_sum (Z.shiftr chk 25)).
Proof.
  unfold shift_in, polymod_step. rewrite polymod_gens, Z.lxor_0_r. f_equal. apply u32_small.
  change 0x1ffffff with (Z.ones 25). rewrite Z.land_ones, Z.shiftl_mul_pow2 by lia.
  pose proof (Z.mod_pos_bound chk (2 ^ 25) ltac:(lia)). lia.
Qed.

Lemma shift_in_lxor a b : shift_in (Z.lxor a b) = Z.lxor (shift_in a) (shift_in b).
Proof.
  rewrite !shift_in_eq, land_lxor_distr, Z.shiftl_lxor, Z.shiftr_lxor, gen_sum_lxor.
  rewrite !Z.lxor_assoc. f_equal. rewrite <- !Z.lxor_assoc. f_equal. apply Z.lxor_comm.
Qed.

Definition feed (chk : Z) (values : list Z) : Z := fold_left polymod_step values chk.

Lemma feed_lxor vs : forall a b,
  feed (Z.lxor a b) vs = Z.lxor (Nat.iter (length vs) shift_in a) (feed b vs).
Proof.
  unfold feed. induction vs as [|v vs IH]; intros a b; [done|].
  cbn [fold_left length]. rewrite step_shift_in, shift_in_lxor, Z.lxor_assoc, IH, <- step_shift_in.
  f_equal. rewrite Nat.iter_succ_r. done.
Qed.

Lemma shift_in_0 : shift_in 0 = 0.
Proof. reflexivity. Qed.

Lemma feed_split a vs : feed a vs = Z.lxor (Nat.iter (length vs) shift_in a) (feed 0 vs).
Proof. rewrite <- feed_lxor. by rewrite Z.lxor_0_r. Qed.

(** Below 2^25 nothing overflows: a step appends five bits. *)
Lemma step_small x v : 0 <= x < 2 ^ 25 -> 0 <= v < 32 -> polymod_step x v = x * 32 + v.
Proof.
  intros Hx Hv. rewrite step_shift_in, shift_in_eq, Z.shiftr_div_pow2, Z.div_small by lia.
  change (gen_sum 0) with 0. rewrite Z.lxor_0_r.
  change 0x1ffffff with (Z.ones 25). rewrite Z.land_ones, Z.mod_small by lia.
  rewrite Z.shiftl_mul_pow2 by lia. change (2 ^ 5) with 32. symmetry. apply Z.add_nocarry_lxor.
  apply Z.bits_inj'. intros n Hn. rewrite Z.land_spec, Z.bits_0.
  destruct (Z.lt_ge_cases n 5) as [Hl|Hl].
  - change 32 with (2 ^ 5). by rewrite Z.mul_pow2_bits_low.
  - replace (Z.testbit v n) with false; [apply andb_false_r|]. symmetry.
    destruct (Z.eq_dec v 0) as [->|]; [apply Z.bits_0|]. apply Z.bits_above_log2; [lia|].
    apply Z.log2_lt_pow2; [lia|]. apply Z.lt_le_trans with (2 ^ 5); [lia|]. by apply Z.pow_le_mono_r.
Qed.

Lemma lxor_bound n a b : 0 <= n -> 0 <= a < 2 ^ n -> 0 <= b < 2 ^ n -> 0 <= Z.lxor a b < 2 ^ n.
Proof.
  intros Hn Ha Hb. split; [apply Z.lxor_nonneg; split; intros; lia|].
  destruct (Z.eq_dec (Z.lxor a b) 0) as [->|Hx]; [apply Z.pow_pos_nonneg; lia|].
  apply Z.log2_lt_pow2; [assert (0 <= Z.lxor a b) by (apply Z.lxor_nonneg; split; intros; lia); lia|].
  eapply Z.le_lt_trans; [apply Z.log2_lxor; lia|].
  assert (Hlog : forall x, 0 <= x < 2 ^ n -> 0 < n -> Z.log2 x < n).
  { intros x Hx' Hn'. destruct (Z.eq_dec x 0) as [->|]; [by rewrite Z.log2_nonpos|].
    apply Z.log2_lt_pow2; lia. }
  destruct (Z.eq_dec n 0) as [->|]; [|apply Z.max_lub_lt; apply Hlog; lia].
  change (2 ^ 0) with 1 in *. replace a with 0 in * by lia. by replace b with 0 in * by lia.
Qed.

Lemma gen_sum_bound top : 0 <= gen_sum top < 2 ^ 30.
Proof.
  unfold gen_sum, bech32_gen. cbn [fold_left].
  assert (Hg : forall g chk, 0 <= snd g < 2 ^ 30 -> 0 <= chk < 2 ^ 30 ->
    0 <= polymod_gen top chk g < 2 ^ 30).
  { intros g chk Hg Hc. unfold polymod_gen. case_if; [|done]. apply lxor_bound; done || lia. }
  do 5 (apply Hg; [simpl; lia|]). lia.
Qed.

Lemma polymod_step_bound chk v : 0 <= v < 32 -> 0 <= polymod_step chk v < 2 ^ 30.
Proof.
  intros Hv. rewrite step_shift_in, shift_in_eq. apply lxor_bound; [lia| |lia].
  apply lxor_bound; [lia| |apply gen_sum_bound].
  change 0x1ffffff with (Z.ones 25). rewrite Z.land_ones, Z.shiftl_mul_pow2 by lia.
  pose proof (Z.mod_pos_bound chk (2 ^ 25) ltac:(lia)). lia.
Qed.

Definition five_bit (v : Z) : Prop := 0 <= v < 32.

Lemma feed_bound vs : forall chk,
  0 <= chk < 2 ^ 30 -> Forall five_bit vs -> 0 <= feed chk vs < 2 ^ 30.
Proof.
  induction vs as [|v vs IH]; intros chk Hc Hv; [done|]. apply Forall_cons in Hv as [Hv Hvs].
  apply (IH (polymod_step chk v)); [by apply polymod_step_bound|done].
Qed.

(** Six values in a row are the digits of the state they leave. *)
Definition checksum_digits (m : Z) : list Z :=
  (fun i => u8 (Z.land (Z.shiftr m (5 * (5 - i))) 31)) <$> [0; 1; 2; 3; 4; 5].

Lemma checksum_digit m k : 0 <= k -> u8 (Z.land (Z.shiftr m k) 31) = m / 2 ^ k mod 32.
Proof.
  intros Hk. change 31 with (Z.ones 5). rewrite Z.land_ones, Z.shiftr_div_pow2 by lia.
  change (2 ^ 5) with 32. apply u8_small. pose proof (Z.mod_pos_bound (m / 2 ^ k) 32). lia.
Qed.

Lemma feed_six a b c d e f :
  five_bit a -> five_bit b -> five_bit c -> five_bit d -> five_bit e -> five_bit f ->
  feed 0 [a; b; c; d; e; f] = ((((a * 32 + b) * 32 + c) * 32 + d) * 32 + e) * 32 + f.
Proof.
  unfold five_bit, feed. intros. cbn [fold_left]. change (2 ^ 25) with 33554432 in *.
  rewrite (step_small 0 a), Z.add_0_l by (change (2 ^ 25) with 33554432; lia).
  rewrite (step_small a b) by (change (2 ^ 25) with 33554432; lia).
  rewrite (step_small _ c) by (change (2 ^ 25) with 33554432; lia).
  rewrite (step_small _ d) by (change (2 ^ 25) with 33554432; lia).
  rewrite (step_small _ e) by (change (2 ^ 25) with 33554432; lia).
  rewrite (step_small _ f) by (change (2 ^ 25) with 33554432; lia). done.
Qed.

Lemma feed_digits m : 0 <= m < 2 ^ 30 -> feed 0 (checksum_digits m) = m.
Proof.
  intros Hm. unfold checksum_digits. cbn [fmap list_fmap].
  rewrite !checksum_digit by lia.
  rewrite feed_six by (apply Z.mod_pos_bound; lia).
  change (2 ^ (5 * (5 - 0))) with 33554432. change (2 ^ (5 * (5 - 1))) with 1048576.
  change (2 ^ (5 * (5 - 2))) with 32768. change (2 ^ (5 * (5 - 3))) with 1024.
  change (2 ^ (5 * (5 - 4))) with 32. change (2 ^ (5 * (5 - 5))) with 1.
  change (2 ^ 30) with 1073741824 in Hm. rewrite Z.div_1_r.
  clear -Hm. Z.to_euclidean_division_equations. lia.
Qed.

Lemma checksum_eq hrp data :
  bech32Checksum hrp data
  = checksum_digits (Z.lxor (feed (feed 1 (bech32HRPExpand hrp ++ data)) [0; 0; 0; 0; 0; 0]) 1).
Proof.
  unfold bech32Checksum, bech32Polymod, feed. cbv zeta. by rewrite app_assoc, !fold_left_app.
Qed.

Lemma bytes_code_range hrp : Forall (fun c => 0 <= c < 256) (bytes hrp).
Proof.
  apply Forall_fmap, Forall_true. intros c. apply code_range.
Qed.

Lemma HRPExpand_five_bit hrp : Forall five_bit (bech32HRPExpand hrp).
Proof.
  pose proof (bytes_code_range hrp) as Hb. unfold bech32HRPExpand, five_bit.
  apply Forall_app; split; [|apply Forall_cons; split; [lia|]]; apply Forall_fmap;
    eapply Forall_impl; try exact Hb; intros c Hc; simpl in *.
  - rewrite Z.shiftr_div_pow2 by lia. change (2 ^ 5) with 32. Z.to_euclidean_division_equations; lia.
  - change 31 with (Z.ones 5). rewrite Z.land_ones by lia. apply Z.mod_pos_bound. lia.
Qed.

Lemma Polymod_app vs ws : bech32Polymod (vs ++ ws) = feed (feed 1 vs) ws.
Proof. apply fold_left_app. Qed.

(** The checksum makes the whole sequence feed to 1. *)
Lemma checksum_valid hrp data :
  Forall five_bit data ->
  bech32Polymod (bech32HRPExpand hrp ++ data ++ bech32Checksum hrp data) = 1.
Proof.
  intros Hd. rewrite checksum_eq, app_assoc, Polymod_app.
  assert (Hs : 0 <= feed 1 (bech32HRPExpand hrp ++ data) < 2 ^ 30).
  { apply feed_bound; [lia|]. apply Forall_app. split; [apply HRPExpand_five_bit|done]. }
  revert Hs. generalize (feed 1 (bech32HRPExpand hrp ++ data)). intros s Hs.
  assert (H0 : feed 0 [0; 0; 0; 0; 0; 0] = 0) by (vm_compute; reflexivity).
  rewrite (feed_split s (checksum_digits _)), feed_digits.
  - rewrite (feed_split s [_; _; _; _; _; _]), H0, Z.lxor_0_r. cbn [length checksum_digits fmap list_fmap].
    by rewrite <- Z.lxor_assoc, Z.lxor_nilpotent, Z.lxor_0_l.
  - apply lxor_bound; [lia| |lia]. apply feed_bound; [done|]. repeat constructor; unfold five_bit; lia.
Qed.

(** ** Regrouping keeps the number *)

Definition val_from (w acc : Z) (l : list Z) : Z := fold_left (fun a x => a * 2 ^ w + x) l acc.
Definition val (w : Z) (l : list Z) : Z := val_from w 0 l.
Definition digits_below (w : Z) (l : list Z) : Prop := Forall (fun x => 0 <= x < 2 ^ w) l.
Definition zlen {A} (l : list A) : Z := Z.of_nat (length l).

Lemma val_snoc w l x : val w (l ++ [x]) = val w l * 2 ^ w + x.
Proof. unfold val, val_from. by rewrite fold_left_app. Qed.

Lemma zlen_snoc {A} (l : list A) x : zlen (l ++ [x]) = zlen l + 1.
Proof. unfold zlen. rewrite length_app. simpl. lia. Qed.

Lemma maxv_ones w : 1 <= w <= 8 -> u32 (Z.shiftl 1 w) - 1 = Z.ones w.
Proof.
  intros Hw. rewrite Z.shiftl_1_l, u32_small, Z.ones_equiv; [lia|].
  split; [lia|]. apply Z.pow_lt_mono_r; lia.
Qed.

Lemma digit_out w acc bits :
  1 <= w <= 8 -> 0 <= bits ->
  u8 (Z.land (Z.shiftr acc bits) (Z.ones w)) = acc / 2 ^ bits mod 2 ^ w.
Proof.
  intros Hw Hb. rewrite Z.land_ones, Z.shiftr_div_pow2 by lia. apply u8_small.
  pose proof (Z.mod_pos_bound (acc / 2 ^ bits) (2 ^ w) ltac:(apply Z.pow_pos_nonneg; lia)).
  pose proof (Z.pow_le_mono_r 2 w 8). change (2 ^ 8) with 256 in *. lia.
Qed.

Lemma regroup_spec w : 1 <= w <= 8 -> forall fuel acc bits out bits' out',
  0 <= bits <= Z.of_nat fuel -> digits_below w out ->
  regroup fuel w (Z.ones w) acc bits out = (bits', out') ->
  0 <= bits' < w /\ digits_below w out' /\ w * zlen out' + bits' = w * zlen out + bits /\
  val w out' * 2 ^ bits' + acc mod 2 ^ bits' = val w out * 2 ^ bits + acc mod 2 ^ bits.
Proof.
  intros Hw. induction fuel as [|fuel IH]; intros acc bits out bits' out' Hb Hd; simpl.
  - intros [= <- <-]. split_and!; try done; lia.
  - destruct (Z.leb_spec w bits) as [Hl|Hl].
    2:{ intros [= <- <-]. split_and!; try done; lia. }
    rewrite digit_out by lia. set (d := acc / 2 ^ (bits - w) mod 2 ^ w).
    assert (Hdr : 0 <= d < 2 ^ w) by (apply Z.mod_pos_bound, Z.pow_pos_nonneg; lia).
    intros (H1 & H2 & H3 & H4)%IH; [|lia|apply Forall_app; split; [done|by constructor]].
    split; [done|]. split; [done|]. rewrite zlen_snoc in H3. split; [lia|]. rewrite H4, val_snoc.
    assert (E : 2 ^ bits = 2 ^ (bits - w) * 2 ^ w) by (rewrite <- Z.pow_add_r by lia; f_equal; lia).
    rewrite E, (Z.rem_mul_r acc) by (try apply Z.pow_nonzero; try apply Z.pow_pos_nonneg; lia). fold d. lia.
Qed.

Lemma acc_step acc b w bits :
  0 <= w <= 8 -> 0 <= bits < 8 -> 0 <= acc -> 0 <= b < 2 ^ w ->
  0 <= Z.lor (u32 (Z.shiftl acc w)) b /\
  Z.lor (u32 (Z.shiftl acc w)) b mod 2 ^ (bits + w) = acc mod 2 ^ bits * 2 ^ w + b.
Proof.
  intros Hw Hbits Ha Hb.
  assert (E : Z.lor (u32 (Z.shiftl acc w)) b = acc mod 2 ^ (32 - w) * 2 ^ w + b).
  { rewrite u32_mod, Z.shiftl_mul_pow2 by lia.
    replace (2 ^ 32) with (2 ^ (32 - w) * 2 ^ w) by (rewrite <- Z.pow_add_r by lia; f_equal; lia).
    rewrite Zmult_mod_distr_r, <- Z.shiftl_mul_pow2, lor_shiftl, Z.shiftl_mul_pow2; try lia.
    apply Z.mod_pos_bound, Z.pow_pos_nonneg; lia. }
  pose proof (Z.mod_pos_bound acc (2 ^ (32 - w)) ltac:(apply Z.pow_pos_nonneg; lia)).
  rewrite E. split; [nia|].
  rewrite Z.pow_add_r, Z.add_mul_mod_distr_r by (try apply Z.pow_pos_nonneg; lia).
  rewrite Z.mod_mod_divide; [done|]. exists (2 ^ (32 - w - bits)). rewrite <- Z.pow_add_r by lia. f_equal. lia.
Qed.

Lemma convert_loop_spec wi wo : 0 <= wi <= 8 -> 1 <= wo <= 8 -> forall data acc bits out acc' bits' out',
  0 <= acc -> 0 <= bits < wo -> digits_below wi data -> digits_below wo out ->
  convert_loop wi wo (Z.ones wo) data acc bits out = (acc', bits', out') ->
  0 <= acc' /\ 0 <= bits' < wo /\ digits_below wo out' /\
  wo * zlen out' + bits' = wo * zlen out + bits + wi * zlen data /\
  val wo out' * 2 ^ bits' + acc' mod 2 ^ bits' = val_from wi (val wo out * 2 ^ bits + acc mod 2 ^ bits) data.
Proof.
  intros Hwi Hwo. induction data as [|b data IH]; intros acc bits out acc' bits' out' Ha Hb Hd Ho; simpl.
  - intros [= <- <- <-]. unfold zlen. simpl. split_and!; try done; lia.
  - apply Forall_cons in Hd as [Hbr Hd].
    destruct (acc_step acc b wi bits) as [Ha' Hm]; [lia..|done|].
    destruct (regroup _ _ _ _ _ _) as [bits1 out1] eqn:Er.
    apply regroup_spec in Er as (H1 & H2 & H3 & H4); [|lia|unfold regroup_fuel; lia|done].
    intros (G0 & G1 & G2 & G3 & G4)%IH; [|done|done|done|done].
    split_and!; try done; try lia; [unfold zlen in *; simpl; lia|].
    rewrite G4, H4, Hm, Z.pow_add_r by lia. unfold val_from. cbn [fold_left]. f_equal. lia.
Qed.

Lemma digit_unique a b x y m : 0 <= x < m -> 0 <= y < m -> a * m + x = b * m + y -> a = b /\ x = y.
Proof. intros. assert (a = b) as -> by (destruct (Z.lt_trichotomy a b) as [?|[?|?]]; [nia|done|nia]). lia. Qed.

Lemma val_inj w : 0 <= w -> forall l k,
  length l = length k -> digits_below w l -> digits_below w k -> val w l = val w k -> l = k.
Proof.
  intros Hw l. induction l as [|x l IH] using rev_ind; intros k Hlen Hl Hk He.
  - by destruct k.
  - destruct k as [|y k _] using rev_ind; [rewrite length_app in Hlen; simpl in Hlen; lia|].
    rewrite !length_app in Hlen. simpl in Hlen. rewrite !val_snoc in He.
    apply Forall_app in Hl as [Hl [Hx _]%Forall_cons], Hk as [Hk [Hy _]%Forall_cons].
    apply digit_unique in He as [Hv ->]; [|done|done].
    f_equal. apply IH; try done. lia.
Qed.

(** What padding to [wo]-bit units makes of [data]: [p] zero bits follow it. *)
Definition padded (wi wo p : Z) (data out : list Z) : Prop :=
  digits_below wo out /\ 0 <= p < wo /\ wo * zlen out = wi * zlen data + p /\
  val wo out = val wi data * 2 ^ p.

Lemma convertBits_pad data :
  digits_below 8 data -> exists p out, convertBits data 8 5 true = Ok out /\ padded 8 5 p data out.
Proof.
  intros Hd. unfold convertBits. rewrite maxv_ones by lia.
  destruct (convert_loop _ _ _ _ _ _ _) as [[acc bits] out] eqn:E.
  apply (convert_loop_spec 8 5) in E as (Ha & Hb & Ho & Hl & Hv); try done; try lia; [|constructor].
  change (val 5 [] * 2 ^ 0 + 0 mod 2 ^ 0) with 0 in Hv. change (zlen (@nil Z)) with 0 in Hl.
  destruct (Z.ltb_spec 0 bits) as [Hp|Hp].
  - set (x := u8 _). exists (5 - bits), (out ++ [x]). split; [done|].
    assert (Hx : x = acc mod 2 ^ bits * 2 ^ (5 - bits)).
    { unfold x. rewrite Z.land_ones by lia. rewrite u32_mod, Z.shiftl_mul_pow2 by lia.
      rewrite Z.mod_mod_divide by (exists (2 ^ 27); reflexivity).
      replace (2 ^ 5) with (2 ^ bits * 2 ^ (5 - bits)) by (rewrite <- Z.pow_add_r by lia; f_equal; lia).
      rewrite Zmult_mod_distr_r. apply u8_small.
      pose proof (Z.mod_pos_bound acc (2 ^ bits) ltac:(apply Z.pow_pos_nonneg; lia)).
      assert (2 ^ bits * 2 ^ (5 - bits) = 32) by (rewrite <- Z.pow_add_r by lia; by replace (bits + (5 - bits)) with 5 by lia).
      assert (0 < 2 ^ (5 - bits)) by (apply Z.pow_pos_nonneg; lia). nia. }
    assert (E32 : 2 ^ bits * 2 ^ (5 - bits) = 2 ^ 5) by (rewrite <- Z.pow_add_r by lia; f_equal; lia).
    assert (0 < 2 ^ (5 - bits)) by (apply Z.pow_pos_nonneg; lia).
    pose proof (Z.mod_pos_bound acc (2 ^ bits) ltac:(apply Z.pow_pos_nonneg; lia)).
    split; [apply Forall_app; split; [done|]; constructor; [|done]; rewrite Hx, <- E32; nia|].
    split; [lia|]. rewrite zlen_snoc, val_snoc. split; [lia|].
    change (val 8 data) with (val_from 8 0 data). rewrite <- Hv, Hx, <- E32. ring.
  - assert (bits = 0) as -> by lia. exists 0, out. split; [done|]. split; [done|]. split; [lia|].
    split; [lia|]. change (val 8 data) with (val_from 8 0 data). rewrite <- Hv.
    change (2 ^ 0) with 1. rewrite Z.mod_1_r. ring.
Qed.

Lemma convertBits_unpad p data data5 :
  digits_below 8 data -> padded 8 5 p data data5 -> convertBits data5 5 8 false = Ok data.
Proof.
  intros Hd (H5 & Hp & Hlen & Hval). unfold convertBits. rewrite maxv_ones by lia.
  destruct (convert_loop _ _ _ _ _ _ _) as [[acc bits] out] eqn:E.
  apply (convert_loop_spec 5 8) in E as (Ha & Hb & Ho & Hl & Hv); try done; try lia; [|constructor].
  change (val 8 [] * 2 ^ 0 + 0 mod 2 ^ 0) with 0 in Hv. change (zlen (@nil Z)) with 0 in Hl.
  change (val_from 5 0 data5) with (val 5 data5) in Hv. rewrite Hval in Hv.
  assert (zlen out = zlen data /\ bits = p) as [Hlen' ->] by lia.
  pose proof (Z.mod_pos_bound acc (2 ^ p) ltac:(apply Z.pow_pos_nonneg; lia)) as Hr.
  assert (val 8 out = val 8 data /\ acc mod 2 ^ p = 0) as [Hvv H0]
    by (apply (digit_unique _ _ _ _ (2 ^ p)); lia).
  assert (out = data) as -> by (apply (val_inj 8); try done; unfold zlen in Hlen'; lia).
  destruct (Z.leb_spec 5 p); [lia|]. rewrite Z.land_ones by lia.
  rewrite u32_mod, Z.shiftl_mul_pow2 by lia. rewrite Z.mod_mod_divide by (exists (2 ^ 24); reflexivity).
  replace (2 ^ 8) with (2 ^ p * 2 ^ (8 - p)) by (rewrite <- Z.pow_add_r by lia; f_equal; lia).
  by rewrite Zmult_mod_distr_r, H0.
Qed.

(** ** The characters *)

Lemma charset_reverse v : 0 <= v < 32 -> bech32Reverse (charset_char v) = v.
Proof.
  intros Hv. apply Z.eqb_eq. revert v Hv. apply (all_below 32 (fun v => bech32Reverse (charset_char v) =? v)).
  reflexivity.
Qed.

Definition plain_lower (c : ascii) : bool := is_ascii c && negb (is_upper c).

Lemma charset_plain v : 0 <= v < 32 -> plain_lower (charset_char v) && negb (Ascii.eqb (charset_char v) "1") = true.
Proof.
  revert v. apply (all_below 32 (fun v => plain_lower (charset_char v) && negb (Ascii.eqb (charset_char v) "1"))).
  reflexivity.
Qed.

Definition chars (l : list Z) : string := String.string_of_list_ascii (charset_char <$> l).

Lemma chars_cons v l : chars (v :: l) = String (charset_char v) (chars l).
Proof. done. Qed.

Lemma chars_plain l : Forall five_bit l -> string_forallb plain_lower (chars l) = true /\ lacks "1" (chars l) = true.
Proof.
  unfold lacks. induction 1 as [|v l Hv _ [IH1 IH2]]; [done|]. rewrite chars_cons. simpl.
  apply charset_plain, andb_true_iff in Hv as [-> ->]. by rewrite IH1, IH2.
Qed.

Lemma reverse_chars l : Forall five_bit l -> reverse_all (chars l) = Ok l.
Proof.
  induction 1 as [|v l Hv _ IH]; [done|]. rewrite chars_cons. cbn [reverse_all].
  rewrite charset_reverse, IH by done. unfold five_bit in Hv. cbv zeta. destruct (Z.ltb_spec v 0); [lia|]. done.
Qed.

Lemma chars_length l : String.length (chars l) = length l.
Proof. induction l as [|v l IH]; [done|]. rewrite chars_cons. simpl. by rewrite IH. Qed.

Lemma of_bytes_bytes s : of_bytes (bytes s) = s.
Proof.
  unfold of_bytes, bytes. induction s as [|c s IH]; [done|]. cbn. rewrite chr_code. f_equal. exact IH.
Qed.

Lemma bytes_below s : digits_below 8 (bytes s).
Proof. exact (bytes_code_range s). Qed.

Lemma bytes_length s : zlen (bytes s) = len s.
Proof. unfold zlen, len, bytes. rewrite length_fmap. induction s as [|c s IH]; [done|]. simpl in *. lia. Qed.

Section codec.
Context `{UnicodeTables}.

Lemma ToLower_plain s : string_forallb plain_lower s = true -> strings_ToLower s = s.
Proof.
  intros Hs. unfold strings_ToLower.
  rewrite (string_forallb_mono plain_lower is_ascii) by (try exact Hs; intros c [? _]%andb_true_iff; done).
  induction s as [|c s IH]; [done|]. simpl in *. apply andb_true_iff in Hs as [[_ Hc]%andb_true_iff Hs].
  rewrite IH by done. unfold to_lower_byte. by destruct (is_upper c).
Qed.

Lemma checksum_five_bit hrp data : Forall five_bit (bech32Checksum hrp data).
Proof.
  unfold bech32Checksum. repeat (apply Forall_cons; split); try apply Forall_nil; try done;
    unfold five_bit; rewrite checksum_digit by lia; apply Z.mod_pos_bound; lia.
Qed.

(** What [encodeBech32] writes. *)
Lemma encodeBech32_shape hrp data8 :
  exists p data5, padded 8 5 p (bytes data8) data5 /\
    encodeBech32 hrp data8 = Ok (hrp +:+ String "1" (chars (data5 ++ bech32Checksum hrp data5))).
Proof.
  destruct (convertBits_pad (bytes data8) (bytes_below _)) as (p & data5 & Hc & Hp).
  exists p, data5. split; [done|]. unfold encodeBech32. by rewrite Hc.
Qed.

Lemma encoded_length hrp data8 s :
  encodeBech32 hrp data8 = Ok s -> len s = len hrp + 7 + (8 * len data8 + 4) / 5.
Proof.
  destruct (encodeBech32_shape hrp data8) as (p & data5 & (_ & Hp & Hl & _) & ->). intros [= <-].
  rewrite bytes_length in Hl. unfold len in *. rewrite string_length_app. cbn [String.length].
  rewrite chars_length, length_app. change (length (bech32Checksum hrp data5)) with 6%nat.
  unfold zlen in Hl. rewrite Nat2Z.inj_add, Nat2Z.inj_succ, Nat2Z.inj_add.
  Z.to_euclidean_division_equations. lia.
Qed.

Lemma decode_encode hrp data8 s :
  hrp <> "" -> string_forallb plain_lower hrp = true -> len s <= 2048 ->
  encodeBech32 hrp data8 = Ok s -> decodeBech32 s = Ok (hrp, data8).
Proof.
  intros Hne Hlow Hmax Henc. pose proof (encoded_length _ _ _ Henc) as Hlen. revert Henc.
  destruct (encodeBech32_shape hrp data8) as (p & data5 & Hp & ->). intros [= Es].
  assert (H5 : Forall five_bit (data5 ++ bech32Checksum hrp data5))
    by (apply Forall_app; split; [apply Hp|apply checksum_five_bit]).
  assert (Hh : 1 <= len hrp) by (destruct hrp; [done|]; unfold len; simpl; lia).
  assert (Hd : 0 <= (8 * len data8 + 4) / 5) by (apply Z.div_pos; unfold len; lia).
  destruct (chars_plain _ H5) as [Hc1 Hc2].
  assert (Hs : strings_ToLower s = s).
  { apply ToLower_plain. rewrite <- Es, forallb_app, Hlow. simpl. exact Hc1. }
  unfold decodeBech32. rewrite Hs. cbv zeta.
  replace (len s <? 8) with false by (symmetry; apply Z.ltb_ge; lia).
  replace (2048 <? len s) with false by (symmetry; apply Z.ltb_ge; lia).
  rewrite (proj2 (String.eqb_eq s s) eq_refl). cbn [orb negb andb guard_err].
  assert (Hsep : strings_LastIndexByte "1" s = Some (String.length hrp))
    by (rewrite <- Es; by apply LastIndexByte_app).
  rewrite Hsep. fold (len hrp).
  replace (len hrp <? 1) with false by (symmetry; apply Z.ltb_ge; lia).
  replace (len s <? len hrp + 7) with false by (symmetry; apply Z.ltb_ge; lia).
  cbn [orb guard_err].
  assert (E1 : string_take (String.length hrp) s = hrp) by (rewrite <- Es; apply string_take_app).
  assert (E2 : string_drop (S (String.length hrp)) s = chars (data5 ++ bech32Checksum hrp data5)).
  { rewrite <- Es. clear. generalize (chars (data5 ++ bech32Checksum hrp data5)). intros t. induction hrp as [|c h IH]; [done|]. exact IH. }
  rewrite E1, E2, reverse_chars by done. cbn [mbind result_bind].
  rewrite checksum_valid by apply Hp. cbn [Z.eqb Pos.eqb negb guard_err].
  rewrite length_app. change (length (bech32Checksum hrp data5)) with 6%nat.
  rewrite Nat.add_sub, take_app_length.
  rewrite (convertBits_unpad p (bytes data8)) by (try done; apply bytes_below).
  cbn [mbind result_bind]. by rewrite of_bytes_bytes.
Qed.
(** *** One wrong character is noticed *)

Lemma shift_in_kernel x : 0 <= x < 2 ^ 30 -> shift_in x = 0 -> x = 0.
Proof.
  intros Hx. rewrite shift_in_eq. intros E%Z.lxor_eq.
  change 0x1ffffff with (Z.ones 25) in E. rewrite Z.land_ones, Z.shiftl_mul_pow2, Z.shiftr_div_pow2 in E by lia.
  assert (Ht : 0 <= x / 2 ^ 25 < 32) by (Z.to_euclidean_division_equations; lia).
  assert (Hg : forall t, 0 <= t < 32 -> negb (gen_sum t mod 32 =? 0) || (t =? 0) = true)
    by (apply (all_below 32 (fun t => negb (gen_sum t mod 32 =? 0) || (t =? 0))); vm_compute; reflexivity).
  assert (H0 : x / 2 ^ 25 = 0).
  { specialize (Hg _ Ht). rewrite <- E in Hg. change (2 ^ 5) with 32 in Hg.
    rewrite Z.mod_mul in Hg by lia. by apply Z.eqb_eq. }
  rewrite H0 in E. change (gen_sum 0) with 0 in E.
  pose proof (Z.div_mod x (2 ^ 25) ltac:(lia)). lia.
Qed.

Lemma shift_in_bound x : 0 <= shift_in x < 2 ^ 30.
Proof. unfold shift_in. pose proof (polymod_step_bound x 0 ltac:(lia)). lia. Qed.

Lemma iter_kernel n : forall x, 0 <= x < 2 ^ 30 -> Nat.iter n shift_in x = 0 -> x = 0.
Proof.
  induction n as [|n IH]; intros x Hx; [done|]. rewrite Nat.iter_succ_r. intros E.
  apply IH in E; [|apply shift_in_bound]. by apply shift_in_kernel.
Qed.

Lemma feed_inj vs a b :
  0 <= a < 2 ^ 30 -> 0 <= b < 2 ^ 30 -> feed a vs = feed b vs -> a = b.
Proof.
  intros Ha Hb. rewrite (feed_split a), (feed_split b). intros E.
  apply Z.lxor_eq. apply (iter_kernel (length vs)); [apply lxor_bound; lia|].
  assert (E' : feed (Z.lxor a b) vs = feed 0 vs).
  { by rewrite feed_lxor, (feed_split b), <- E, <- Z.lxor_assoc, Z.lxor_nilpotent, Z.lxor_0_l. }
  rewrite feed_split in E'. apply (f_equal (fun z => Z.lxor z (feed 0 vs))) in E'.
  by rewrite Z.lxor_assoc, Z.lxor_nilpotent, Z.lxor_0_r in E'.
Qed.

Lemma reverse_all_Ok s : forall l, reverse_all s = Ok l -> Forall five_bit l.
Proof.
  induction s as [|c s IH]; simpl; intros l; [intros [= <-]; constructor|].
  intros [Hv (r & Hr & [= <-])%bind_Ok]%guard_err_Ok. constructor; [|by apply IH].
  bool_solve. split; [done|]. unfold bech32Reverse in *.
  destruct (strings_IndexByte c bech32Charset) as [i|] eqn:E; [|lia].
  apply IndexByte_get in E as [_ Hi]. change (String.length bech32Charset) with 32%nat in Hi. lia.
Qed.

Lemma reverse_all_app s t : forall l, reverse_all (s +:+ t) = Ok l ->
  exists a b, reverse_all s = Ok a /\ reverse_all t = Ok b /\ l = a ++ b.
Proof.
  induction s as [|c s IH]; intros l; [intros Hl; by exists [], l|].
  rewrite string_app_cons. cbn [reverse_all]. intros [Hv (r & Hr & [= <-])%bind_Ok]%guard_err_Ok.
  apply IH in Hr as (a & b & -> & Hb & ->). exists (bech32Reverse c :: a), b. by rewrite Hv.
Qed.

Lemma bech32Reverse_inj c d : bech32Reverse c = bech32Reverse d -> 0 <= bech32Reverse c -> c = d.
Proof.
  unfold bech32Reverse.
  destruct (strings_IndexByte c bech32Charset) as [i|] eqn:Ei; [|lia].
  destruct (strings_IndexByte d bech32Charset) as [j|] eqn:Ej; [|lia].
  intros E%Nat2Z.inj _. subst j.
  apply IndexByte_get in Ei as [Ei _], Ej as [Ej _]. congruence.
Qed.

(** The checks of [decodeBech32], once. *)
Lemma decodeBech32_inv hrp t r :
  string_forallb plain_lower (hrp +:+ String "1" t) = true -> lacks "1" t = true ->
  decodeBech32 (hrp +:+ String "1" t) = Ok r ->
  exists data5, reverse_all t = Ok data5 /\ feed (feed 1 (bech32HRPExpand hrp)) data5 = 1.
Proof.
  intros Hlow Ht. unfold decodeBech32. rewrite (ToLower_plain _ Hlow). cbv zeta.
  intros [_ [_ Hd]%guard_err_Ok]%guard_err_Ok. rewrite LastIndexByte_app in Hd by done.
  apply guard_err_Ok in Hd as [_ (data5 & Hr & Hd)%bind_Ok]. apply guard_err_Ok in Hd as [Hd _].
  assert (E2 : string_drop (S (String.length hrp)) (hrp +:+ String "1" t) = t)
    by (clear; induction hrp as [|c h IH]; [done|exact IH]).
  rewrite E2 in Hr. rewrite string_take_app, Polymod_app in Hd. exists data5. split; [done|]. by bool_solve.
Qed.

Lemma decode_single_error hrp u v c d r :
  let s := hrp +:+ String "1" (u +:+ String c v) in
  let s' := hrp +:+ String "1" (u +:+ String d v) in
  string_forallb plain_lower s = true -> string_forallb plain_lower s' = true ->
  lacks "1" (u +:+ String c v) = true -> lacks "1" (u +:+ String d v) = true ->
  c <> d -> decodeBech32 s = Ok r -> is_ok (decodeBech32 s') = false.
Proof.
  intros s s' Hs Hs' H1 H1' Hne Hd. destruct (decodeBech32 s') as [r'|e] eqn:Hd'; [|done]. exfalso. apply Hne.
  apply decodeBech32_inv in Hd as (l & Hl & Hf); [|done|done].
  apply decodeBech32_inv in Hd' as (l' & Hl' & Hf'); [|done|done].
  apply reverse_all_app in Hl as (a & b & Ha & Hb & ->), Hl' as (a' & b' & Ha' & Hb' & ->).
  rewrite Ha in Ha'. injection Ha' as <-. cbn [reverse_all] in Hb, Hb'.
  apply guard_err_Ok in Hb as [Hc (x & Hx & [= <-])%bind_Ok], Hb' as [Hc' (y & Hy & [= <-])%bind_Ok].
  rewrite Hx in Hy. injection Hy as <-. bool_solve.
  apply reverse_all_Ok in Ha as Ha5.
  assert (Hr5 : forall e, bech32Reverse e < 32).
  { intros e. destruct (Z.lt_ge_cases (bech32Reverse e) 0); [lia|].
    assert (Hr : reverse_all (String e "") = Ok [bech32Reverse e])
      by (cbn [reverse_all]; cbv zeta; by rewrite (proj2 (Z.ltb_ge _ _))).
    apply reverse_all_Ok in Hr. apply Forall_cons in Hr as [[_ ?] _]. done. }
  unfold feed in Hf, Hf'. rewrite !fold_left_app in Hf, Hf'. cbn [fold_left] in Hf, Hf'.
  assert (E : polymod_step (feed (feed 1 (bech32HRPExpand hrp)) a) (bech32Reverse c)
            = polymod_step (feed (feed 1 (bech32HRPExpand hrp)) a) (bech32Reverse d)).
  { apply (feed_inj x); [apply polymod_step_bound; auto| apply polymod_step_bound; auto|].
    unfold feed. by rewrite Hf, Hf'. }
  rewrite !step_shift_in in E. apply (f_equal (Z.lxor (shift_in (feed (feed 1 (bech32HRPExpand hrp)) a)))) in E.
  rewrite <- !Z.lxor_assoc, Z.lxor_nilpotent, !Z.lxor_0_l in E. by apply bech32Reverse_inj.
Qed.
(** The codec is a round trip for every byte string under a lower-case
    prefix that stays within the length limit, and encoding never fails. *)
Theorem decodeBech32_encodeBech32 hrp data8 :
  hrp <> "" -> string_forallb plain_lower hrp = true -> len hrp + 7 + (8 * len data8 + 4) / 5 <= 2048 ->
  exists s, encodeBech32 hrp data8 = Ok s /\ decodeBech32 s = Ok (hrp, data8).
Proof.
  intros Hne Hlow Hmax. destruct (encodeBech32_shape hrp data8) as (p & d & _ & He).
  eexists. split; [exact He|]. apply decode_encode; try done. by rewrite (encoded_length _ _ _ He).
Qed.

(** C40: the checksum notices any one wrong character: of two strings that differ
    in a single character after the separator at most one is accepted. *)
Theorem decodeBech32_single_error hrp u v c d r :
  string_forallb plain_lower (hrp +:+ String "1" (u +:+ String c v)) = true ->
  string_forallb plain_lower (hrp +:+ String "1" (u +:+ String d v)) = true ->
  lacks "1" (u +:+ String c v) = true -> lacks "1" (u +:+ String d v) = true -> c <> d ->
  decodeBech32 (hrp +:+ String "1" (u +:+ String c v)) = Ok r ->
  is_ok (decodeBech32 (hrp +:+ String "1" (u +:+ String d v))) = false.
Proof. apply decode_single_error. Qed.
End codec.

Lemma decodeBech32_encodeBech32_witness :
  exists s, encodeBech32 "npub" "tincan" = Ok s /\ @decodeBech32 ascii_tables s = Ok ("npub", "tincan").
Proof. apply decodeBech32_encodeBech32; [discriminate|reflexivity|apply Z.leb_le; reflexivity]. Defined.

Lemma decodeBech32_single_error_witness : is_ok (@decodeBech32 ascii_tables "a12ue95l") = false.
Proof.
  apply (@decodeBech32_single_error ascii_tables "a" "2ue" "5l" "l" "9" ("a", "")) ; try reflexivity; discriminate.
Defined.
