(* ===== verification/Keys.v ===== *)
(** * Keys: internal/keys/keys.go

    Parsing, printing and pairing of the three kinds of keys.  The key formats
    and the cryptography belong to other packages (wgtypes, age,
    crypto/ed25519): they are the fields of [CryptoLib], and what the program
    relies on of their documentation is the class [CryptoLaws]. *)
From stdpp Require Import base tactics option list strings gmap.
From Stdlib Require Import Ascii ZArith Lia.
From S2P Require Import Prelude GoStrings GoNum GoBase64.
Open Scope Z_scope.

(** A key value is its raw bytes; [age_Encrypt] takes the randomness it draws. *)
Class CryptoLib := {
  wgtypes_ParseKey : string -> option string;
  wgtypes_NewKey : string -> option string;
  wgtypes_Key_String : string -> string;
  wgtypes_Key_PublicKey : string -> string;
  age_ParseX25519Identity : string -> option string;
  age_ParseX25519Recipient : string -> option string;
  age_Identity_Recipient : string -> string;
  age_Identity_String : string -> string;
  age_Recipient_String : string -> string;
  age_Encrypt : Z -> list string -> string -> option string;
  age_Decrypt : string -> string -> option string;
  ed25519_Public : string -> string;
  ed25519_Sign : string -> string -> string;
  ed25519_Verify : string -> string -> string -> bool }.

Class CryptoLaws `{CryptoLib} `{UnicodeTables} : Prop := {
  (* wgtypes: keys are 32 bytes, String prints what ParseKey reads, no spaces *)
  ParseKey_length s k : wgtypes_ParseKey s = Some k -> len k = 32;
  ParseKey_empty : wgtypes_ParseKey EmptyString = None;
  NewKey_32 b : wgtypes_NewKey b = if len b =? 32 then Some b else None;
  ParseKey_String k : len k = 32 -> wgtypes_ParseKey (wgtypes_Key_String k) = Some k;
  Key_String_trim k : strings_TrimSpace (wgtypes_Key_String k) = wgtypes_Key_String k;
  Key_PublicKey_32 k : len k = 32 -> len (wgtypes_Key_PublicKey k) = 32;
  (* age: what String prints of an identity and its recipient parses, no spaces *)
  age_String_parses s id : age_ParseX25519Identity s = Some id ->
    age_ParseX25519Identity (strings_TrimSpace (age_Identity_String id)) = Some id /\
    age_ParseX25519Recipient (strings_TrimSpace (age_Recipient_String (age_Identity_Recipient id))) =
      Some (age_Identity_Recipient id) /\
    age_Recipient_String (age_Identity_Recipient id) <> EmptyString;
  (* age: a ciphertext opens with the identity of each of its recipients *)
  age_Decrypt_Encrypt seed rs pt ct id :
    age_Encrypt seed rs pt = Some ct -> age_Identity_Recipient id ∈ rs ->
    age_Decrypt id ct = Some pt;
  age_Encrypt_length seed rs pt ct : age_Encrypt seed rs pt = Some ct -> len pt <= len ct;
  (* ed25519: a signature verifies under the signer's public key *)
  ed25519_Verify_Sign priv msg :
    ed25519_Verify (ed25519_Public priv) msg (ed25519_Sign priv msg) = true;
  ed25519_Sign_nonempty priv msg : ed25519_Sign priv msg <> EmptyString }.

Section keys.
Context `{CryptoLib} `{UnicodeTables}.

(** The generators, from the key the package draws: (private, public),
    (identity, recipient) and (public, private). *)
Definition GenerateWGKeypair (priv : result string) : result (string * string) :=
  priv ← priv;
  Ok (wgtypes_Key_String priv, wgtypes_Key_String (wgtypes_Key_PublicKey priv)).

Definition GenerateAgeIdentity (id : result string) : result (string * string) :=
  id ← id;
  Ok (age_Identity_String id, age_Recipient_String (age_Identity_Recipient id)).

Definition GenerateEd25519Keypair (pair : result (string * string)) : result (string * string) :=
  '(pub, priv) ← pair;
  Ok (base64_Encode StdEncoding pub, base64_Encode StdEncoding priv).

Definition PublicKeyFromWGPrivate (privateKey : string) : result string :=
  priv ← of_option (errors_New "parse WireGuard private key: %w")
           (wgtypes_ParseKey (strings_TrimSpace privateKey));
  Ok (wgtypes_Key_String (wgtypes_Key_PublicKey priv)).

Definition ParseWGPublic (key : string) : result string :=
  of_option (errors_New "parse WireGuard public key: %w")
    (wgtypes_ParseKey (strings_TrimSpace key)).

Definition ParseWGPrivate (key : string) : result string :=
  of_option (errors_New "parse WireGuard private key: %w")
    (wgtypes_ParseKey (strings_TrimSpace key)).

Definition WGKeyToBytes (key : string) : result string :=
  of_option (errors_New "decode WireGuard key: %w")
    (wgtypes_ParseKey (strings_TrimSpace key)).

Definition WGKeyFromBytes (raw : string) : result string :=
  key ← of_option (errors_New "encode WireGuard key: %w") (wgtypes_NewKey raw);
  Ok (wgtypes_Key_String key).

Definition ParseAgeIdentity (identity : string) : result string :=
  of_option (errors_New "parse age identity: %w")
    (age_ParseX25519Identity (strings_TrimSpace identity)).

Definition ParseAgeRecipient (recipient : string) : result string :=
  of_option (errors_New "parse age recipient: %w")
    (age_ParseX25519Recipient (strings_TrimSpace recipient)).

Definition AgeRecipientFromIdentity (identity : string) : result string :=
  id ← ParseAgeIdentity identity;
  Ok (age_Recipient_String (age_Identity_Recipient id)).

Definition ed25519_PublicKeySize : Z := 32.
Definition ed25519_PrivateKeySize : Z := 64.

Definition DecodeEd25519Public (key : string) : result string :=
  decoded ← of_option (errors_New "decode ed25519 public key: %w")
              (base64_Decode StdEncoding (strings_TrimSpace key));
  guard_err (negb (len decoded =? ed25519_PublicKeySize))
    (errors_New "ed25519 public key has %d bytes, want %d")
  (Ok decoded).

Definition DecodeEd25519Private (key : string) : result string :=
  decoded ← of_option (errors_New "decode ed25519 private key: %w")
              (base64_Decode StdEncoding (strings_TrimSpace key));
  guard_err (negb (len decoded =? ed25519_PrivateKeySize))
    (errors_New "ed25519 private key has %d bytes, want %d")
  (Ok decoded).

Definition ValidateEd25519Pair (publicKey privateKey : string) : result unit :=
  pub ← DecodeEd25519Public publicKey;
  priv ← DecodeEd25519Private privateKey;
  guard_err (negb (String.eqb (ed25519_Public priv) pub))
    (errors_New "ed25519 publisher private key does not match public key")
  (Ok tt).

(** A key string in the form [WGKeyFromBytes] prints. *)
Definition wg_canonical (s : string) : Prop :=
  exists k, len k = 32 /\ s = wgtypes_Key_String k.

Context `{!CryptoLaws}.

Lemma WGKey_roundtrip k :
  len k = 32 -> WGKeyToBytes (wgtypes_Key_String k) = Ok k.
Proof. intros. unfold WGKeyToBytes. by rewrite Key_String_trim, ParseKey_String. Qed.

Lemma WGKeyToBytes_from s k :
  WGKeyToBytes s = Ok k -> len k = 32 /\ WGKeyFromBytes k = Ok (wgtypes_Key_String k).
Proof.
  unfold WGKeyToBytes. intros Hk. inv_ok. apply ParseKey_length in Hk.
  split; [done|]. unfold WGKeyFromBytes. by rewrite NewKey_32, Hk.
Qed.

Lemma WGKey_canonical_roundtrip s k :
  wg_canonical s -> WGKeyToBytes s = Ok k -> WGKeyFromBytes k = Ok s.
Proof.
  intros (k' & Hk' & ->) Hk. rewrite WGKey_roundtrip in Hk by done. injection Hk as <-.
  unfold WGKeyFromBytes. by rewrite NewKey_32, Hk'.
Qed.

Lemma ParseWGPublic_bytes s : is_ok (ParseWGPublic s) = is_ok (WGKeyToBytes s).
Proof. unfold ParseWGPublic, WGKeyToBytes. by destruct (wgtypes_ParseKey _). Qed.

Lemma wg_canonical_parses s : wg_canonical s -> is_ok (ParseWGPublic s) = true.
Proof.
  intros (k & Hk & ->). rewrite ParseWGPublic_bytes, WGKey_roundtrip by done. done.
Qed.

Lemma Key_String_inj k k' :
  len k = 32 -> len k' = 32 -> wgtypes_Key_String k = wgtypes_Key_String k' -> k = k'.
Proof.
  intros Hk Hk' E. apply WGKey_roundtrip in Hk, Hk'. rewrite E, Hk' in Hk. congruence.
Qed.
End keys.
