(* ===== verification/Directory.v ===== *)
(** * Directory: internal/directory/directory.go and serial.go

    The directory and its nodes, the rollback test, and the choice of the relay
    target, which the relay controller, the WireGuard layer and enrollment all
    share. *)
From stdpp Require Import base tactics option list strings gmap.
From Stdlib Require Import Ascii ZArith Lia.
From S2P Require Import Prelude GoStrings GoNum.
Open Scope Z_scope.

Definition SchemaVersion : Z := 2.

Record Node := {
  node_Name : string;
  node_PublicKey : string;
  node_TunnelIP : string;
  node_AgeRecipient : string;
  node_Endpoint : string;
  node_Relay : bool;
  node_ObservedEndpoint : string;
  node_ObservedAt : Time;
  node_PSK : string }.

Record Directory := {
  dir_SchemaVersion : Z;     (* uint32 *)
  dir_Serial : Z;            (* uint64 *)
  dir_CreatedAt : Time;
  dir_NetworkCIDR : string;
  dir_Domain : string;
  dir_Nodes : list Node }.

Record Envelope := { env_Payload : string; env_Signature : string }.

#[export] Instance Node_eq_dec : EqDecision Node.
Proof. solve_decision. Defined.
#[export] Instance Directory_eq_dec : EqDecision Directory.
Proof. solve_decision. Defined.

Definition zero_node : Node :=
  {| node_Name := ""; node_PublicKey := ""; node_TunnelIP := ""; node_AgeRecipient := "";
     node_Endpoint := ""; node_Relay := false; node_ObservedEndpoint := "";
     node_ObservedAt := zero_time; node_PSK := "" |}.

Definition zero_directory : Directory :=
  {| dir_SchemaVersion := 0; dir_Serial := 0; dir_CreatedAt := zero_time;
     dir_NetworkCIDR := ""; dir_Domain := ""; dir_Nodes := [] |}.

(** Field assignments. *)
Definition set_dir_Nodes (ns : list Node) (d : Directory) : Directory :=
  {| dir_SchemaVersion := dir_SchemaVersion d; dir_Serial := dir_Serial d;
     dir_CreatedAt := dir_CreatedAt d; dir_NetworkCIDR := dir_NetworkCIDR d;
     dir_Domain := dir_Domain d; dir_Nodes := ns |}.
Definition set_dir_Serial (s : Z) (d : Directory) : Directory :=
  {| dir_SchemaVersion := dir_SchemaVersion d; dir_Serial := s;
     dir_CreatedAt := dir_CreatedAt d; dir_NetworkCIDR := dir_NetworkCIDR d;
     dir_Domain := dir_Domain d; dir_Nodes := dir_Nodes d |}.
Definition set_dir_CreatedAt (t : Time) (d : Directory) : Directory :=
  {| dir_SchemaVersion := dir_SchemaVersion d; dir_Serial := dir_Serial d;
     dir_CreatedAt := t; dir_NetworkCIDR := dir_NetworkCIDR d;
     dir_Domain := dir_Domain d; dir_Nodes := dir_Nodes d |}.
Definition set_dir_Domain (s : string) (d : Directory) : Directory :=
  {| dir_SchemaVersion := dir_SchemaVersion d; dir_Serial := dir_Serial d;
     dir_CreatedAt := dir_CreatedAt d; dir_NetworkCIDR := dir_NetworkCIDR d;
     dir_Domain := s; dir_Nodes := dir_Nodes d |}.
Definition set_node_Observed (ep : string) (at_ : Time) (n : Node) : Node :=
  {| node_Name := node_Name n; node_PublicKey := node_PublicKey n;
     node_TunnelIP := node_TunnelIP n; node_AgeRecipient := node_AgeRecipient n;
     node_Endpoint := node_Endpoint n; node_Relay := node_Relay n;
     node_ObservedEndpoint := ep; node_ObservedAt := at_; node_PSK := node_PSK n |}.

(** A node that runs no Tincan daemon. *)
Definition IsPlainWireGuard (n : Node) : bool := String.eqb (node_AgeRecipient n) "".

Definition IsRollback (newSerial cachedSerial : Z) : bool := newSerial <? cachedSerial.

(** ** RelayTarget *)

(** The scan: [fallback] is the first reachable node met so far. *)
Fixpoint relay_target_loop (selfPubKey : string) (nodes : list Node) (fallback : option Node)
    : option Node :=
  match nodes with
  | [] => fallback
  | n :: rest =>
      if String.eqb (node_PublicKey n) selfPubKey || String.eqb (node_Endpoint n) ""
      then relay_target_loop selfPubKey rest fallback
      else if node_Relay n then Some n
      else relay_target_loop selfPubKey rest
             (match fallback with None => Some n | Some _ => fallback end)
  end.

Definition RelayTarget (dir : Directory) (selfPubKey : string) : option Node :=
  relay_target_loop selfPubKey (dir_Nodes dir) None.

(** What it means: among the reachable nodes other than self, the first one
    marked as a relay, else the first one. *)
Definition reachable_from (selfPubKey : string) (n : Node) : bool :=
  negb (String.eqb (node_PublicKey n) selfPubKey) && negb (String.eqb (node_Endpoint n) "").

Definition first_such (p : Node -> bool) (nodes : list Node) : option Node := List.find p nodes.

Definition relay_target_spec (nodes : list Node) (selfPubKey : string) : option Node :=
  match first_such (fun n => reachable_from selfPubKey n && node_Relay n) nodes with
  | Some n => Some n
  | None => first_such (reachable_from selfPubKey) nodes
  end.

Lemma relay_target_loop_spec self nodes fb :
  relay_target_loop self nodes fb =
  match first_such (fun n => reachable_from self n && node_Relay n) nodes with
  | Some n => Some n
  | None => match fb with Some _ => fb | None => first_such (reachable_from self) nodes end
  end.
Proof.
  revert fb. induction nodes as [|n ns IH]; intros fb; simpl; [by destruct fb|].
  unfold reachable_from at 1 3.
  destruct (String.eqb (node_PublicKey n) self), (String.eqb (node_Endpoint n) ""),
    (node_Relay n); simpl; rewrite ?IH; try done;
    destruct fb, (first_such _ ns); done.
Qed.

Lemma first_such_Some p nodes n : first_such p nodes = Some n -> n ∈ nodes /\ p n = true.
Proof.
  intros H%find_some. by rewrite list_elem_of_In.
Qed.

Lemma first_such_None p nodes : first_such p nodes = None <-> forall n, n ∈ nodes -> p n = false.
Proof.
  split.
  - intros H n Hn%list_elem_of_In. by apply (find_none _ _ H).
  - intros H. induction nodes as [|n ns IH]; [done|]. simpl.
    rewrite H by set_solver. apply IH. set_solver.
Qed.

Lemma first_such_split p nodes n :
  first_such p nodes = Some n ->
  exists before after, nodes = before ++ n :: after /\ p n = true /\
    forall m, m ∈ before -> p m = false.
Proof.
  induction nodes as [|m ns IH]; [done|]. simpl. destruct (p m) eqn:Em.
  - intros [= ->]. exists [], ns. split_and!; [done|done|set_solver].
  - intros (b & a & -> & Hn & Hb)%IH. exists (m :: b), a.
    split_and!; [done|done|]. intros m'. rewrite elem_of_cons. naive_solver.
Qed.

(** The first element satisfying [p] is also the first satisfying any narrower
    test it passes. *)
Lemma first_such_narrow (p q : Node -> bool) nodes n :
  (forall m, m ∈ nodes -> q m = true -> p m = true) ->
  first_such p nodes = Some n -> q n = true -> first_such q nodes = Some n.
Proof.
  induction nodes as [|m ns IH]; [done|]. simpl. intros Hqp Hp Hq.
  destruct (p m) eqn:Em.
  - injection Hp as ->. by rewrite Hq.
  - destruct (q m) eqn:Eq.
    + rewrite Hqp in Em by set_solver. done.
    + apply IH; try done. intros m' Hm'. apply Hqp. set_solver.
Qed.

Lemma RelayTarget_spec dir self :
  RelayTarget dir self = relay_target_spec (dir_Nodes dir) self.
Proof. apply relay_target_loop_spec. Qed.

Lemma RelayTarget_reachable dir self n :
  RelayTarget dir self = Some n ->
  n ∈ dir_Nodes dir /\ node_PublicKey n <> self /\ node_Endpoint n <> "".
Proof.
  rewrite RelayTarget_spec. unfold relay_target_spec.
  assert (Hr : forall m, reachable_from self m = true ->
    node_PublicKey m <> self /\ node_Endpoint m <> "").
  { unfold reachable_from. intros m Hm. by bool_solve. }
  destruct (first_such _ _) as [m|] eqn:E; intros Hn.
  - injection Hn as <-. apply first_such_Some in E as [? Hp]. bool_solve. auto.
  - apply first_such_Some in Hn as [? Hp]. auto.
Qed.

(** Narrowing the set of candidates keeps a target that is still one. *)
Lemma relay_target_spec_narrow nodes self self' n :
  (forall m, m ∈ nodes -> reachable_from self' m = true -> reachable_from self m = true) ->
  relay_target_spec nodes self = Some n -> reachable_from self' n = true ->
  relay_target_spec nodes self' = Some n.
Proof.
  intros Hsub Ht Hn. unfold relay_target_spec in *.
  destruct (first_such (fun n => reachable_from self n && node_Relay n) nodes) as [m|] eqn:E.
  - injection Ht as ->. apply first_such_Some in E as Hm. destruct Hm as [_ Hm]. bool_solve.
    erewrite (first_such_narrow (fun n => reachable_from self n && node_Relay n)
      (fun n => reachable_from self' n && node_Relay n)); [done| |exact E|].
    + intros m' Hm' ?. bool_solve. by rewrite Hsub.
    + by apply andb_true_iff.
  - rewrite (proj2 (first_such_None _ _)).
    + by eapply first_such_narrow.
    + intros m Hm. rewrite first_such_None in E. specialize (E m Hm).
      destruct (reachable_from self' m) eqn:E1; [|done]. by rewrite Hsub in E.
Qed.

(** [RelayTarget] picks, among the nodes other than self that publish an
    endpoint, the first one marked as a relay, and the first one of all when
    none is marked; with no such node there is no target. *)
Theorem RelayTarget_correct dir self :
  match RelayTarget dir self with
  | Some n =>
      n ∈ dir_Nodes dir /\ node_PublicKey n <> self /\ node_Endpoint n <> "" /\
      (exists before after, dir_Nodes dir = before ++ n :: after /\
        forall m, m ∈ before -> reachable_from self m = true ->
          node_Relay m = false /\ node_Relay n = true) /\
      (node_Relay n = false -> forall m, m ∈ dir_Nodes dir ->
        reachable_from self m = true -> node_Relay m = false)
  | None => forall m, m ∈ dir_Nodes dir -> reachable_from self m = false
  end.
Proof.
  destruct (RelayTarget dir self) as [n|] eqn:E.
  - pose proof (RelayTarget_reachable _ _ _ E) as (? & ? & ?).
    split_and!; try done; rewrite RelayTarget_spec in E; unfold relay_target_spec in E;
      destruct (first_such (fun n => reachable_from self n && node_Relay n) _) as [r|] eqn:Er.
    + injection E as ->. by apply first_such_split in Er as (b & a & -> & Hr & Hb);
        bool_solve; exists b, a; split; [done|]; intros m Hm Hm'; specialize (Hb m Hm);
        rewrite Hm' in Hb.
    + apply first_such_split in E as (b & a & Eq & Hr & Hb). exists b, a.
      split; [done|]. intros m Hm Hm'. by rewrite Hb in Hm'.
    + injection E as ->. apply first_such_Some in Er as [_ Hr]. bool_solve. congruence.
    + intros _ m Hm Hm'. rewrite first_such_None in Er. specialize (Er m Hm).
      by rewrite Hm' in Er.
  - rewrite RelayTarget_spec in E. unfold relay_target_spec in E.
    destruct (first_such (fun n => _ && _) _); [done|]. by apply first_such_None.
Qed.
