(* ===== verification/DnsName.v ===== *)
(** * DnsName: internal/directory/dnsname.go

    The DNS label and domain rules names must satisfy while a VPN domain is
    set. *)
From stdpp Require Import base tactics option list strings gmap.
From Stdlib Require Import Ascii ZArith Lia.
From S2P Require Import Prelude GoStrings GoNum GoNet.
Open Scope Z_scope.

Definition label_char (c : ascii) : bool :=
  is_lower c || is_upper c || is_digit c || Ascii.eqb c "-".

Definition ValidateLabel (name : string) : result unit :=
  if String.eqb name "" then Err (errors_New "empty") else
  if 63 <? len name then Err (errors_New "%d characters long (DNS labels max out at 63)") else
  if bool_decide (first_byte name = Some "-"%char) || bool_decide (last_byte name = Some "-"%char)
  then Err (errors_New "must not start or end with a hyphen") else
  if negb (string_forallb label_char name)
  then Err (errors_New "contains %q (only letters, digits, and hyphens are allowed)") else
  Ok tt.

Fixpoint validate_labels (labels : list string) : result unit :=
  match labels with
  | [] => Ok tt
  | label :: rest =>
      match ValidateLabel label with
      | Err _ => Err (errors_New "label %q: %v")
      | Ok _ => validate_labels rest
      end
  end.

Section domain.
Context `{UnicodeTables}.

Definition NormalizeDomain (domain : string) : string :=
  strings_ToLower (strings_TrimSuffix domain ".").

Definition ValidateDomain (domain : string) : result unit :=
  if String.eqb domain "" then Err (errors_New "empty domain") else
  if 253 <? len domain then Err (errors_New "%d characters long (DNS names max out at 253)") else
  if negb (String.eqb domain (NormalizeDomain domain))
  then Err (errors_New "must be lowercase with no trailing dot") else
  if bool_decide (is_Some (netip_ParseAddr domain))
  then Err (errors_New "is an IP address, not a domain") else
  validate_labels (strings_Split "." domain).
End domain.

(** ** What a valid label and domain are *)

Definition valid_label (s : string) : Prop :=
  1 <= len s <= 63 /\ string_forallb label_char s = true /\
  first_byte s <> Some "-"%char /\ last_byte s <> Some "-"%char.

Lemma len_nonneg s : 0 <= len s.
Proof. unfold len. lia. Qed.

Lemma len_zero s : len s = 0 <-> s = EmptyString.
Proof. unfold len. destruct s; simpl; split; intros; (done || lia). Qed.

Lemma ValidateLabel_ok s : ValidateLabel s = Ok tt <-> valid_label s.
Proof.
  unfold ValidateLabel, valid_label. pose proof (len_nonneg s).
  destruct (String.eqb_spec s "") as [->|Hs]; [split; [done|]; intros [? _]; unfold len in *; simpl in *; lia|].
  assert (len s <> 0) by (by rewrite len_zero).
  destruct (Z.ltb_spec 63 (len s)); [split; [done|]; lia|].
  destruct (bool_decide (first_byte s = _)) eqn:E1; bool_solve; simpl; [naive_solver|].
  destruct (bool_decide (last_byte s = _)) eqn:E2; bool_solve; simpl; [naive_solver|].
  destruct (string_forallb label_char s); simpl; [|naive_solver].
  split; [|done]. intros _. split_and!; (done || lia).
Qed.

Lemma validate_labels_ok ls : validate_labels ls = Ok tt <-> Forall valid_label ls.
Proof.
  induction ls as [|l ls IH]; simpl; [by split|]. rewrite Forall_cons.
  destruct (ValidateLabel l) as [[]|] eqn:E.
  - apply ValidateLabel_ok in E. naive_solver.
  - split; [done|]. intros [Hl%ValidateLabel_ok _]. congruence.
Qed.

Lemma label_char_ascii c : label_char c = true -> is_ascii c = true.
Proof.
  unfold label_char, is_ascii, is_lower, is_upper, is_digit. intros Hc.
  destruct (Ascii.eqb c "-") eqn:E; [by apply Ascii.eqb_eq in E as ->|].
  rewrite orb_false_r in Hc. lia.
Qed.

Section theorems.
Context `{UnicodeTables}.

Lemma valid_label_ascii s : valid_label s -> string_forallb is_ascii s = true.
Proof.
  intros (_ & Hc & _). eapply string_forallb_mono; [|done]. apply label_char_ascii.
Qed.

(** On dot-separated valid labels, normalizing only lowers the case. *)
Lemma NormalizeDomain_labels d :
  Forall valid_label (strings_Split "." d) -> NormalizeDomain d = string_map to_lower_byte d.
Proof.
  intros Hf. unfold NormalizeDomain, strings_TrimSuffix.
  destruct (strings_CutSuffix "." d) as [r|] eqn:E.
  - apply CutSuffix_Some in E as ->. rewrite Split_snoc, Forall_app in Hf.
    destruct Hf as [_ Hf]. apply Forall_cons in Hf as [[? _] _]. unfold len in *; simpl in *; lia.
  - unfold strings_ToLower. rewrite (Split_forallb is_ascii "."); [done|done|].
    eapply Forall_impl; [done|]. apply valid_label_ascii.
Qed.

Lemma ValidateDomain_spec d :
  ValidateDomain d = Ok tt <->
  len d <= 253 /\ Forall valid_label (strings_Split "." d) /\
  string_map to_lower_byte d = d /\ netip_ParseAddr d = None.
Proof.
  unfold ValidateDomain.
  destruct (String.eqb_spec d "") as [->|Hd].
  { split; [done|]. intros (_ & Hf & _). simpl in Hf. apply Forall_cons in Hf as [[? _] _].
    unfold len in *; simpl in *; lia. }
  destruct (Z.ltb_spec 253 (len d)); [split; [done|]; lia|].
  rewrite <- validate_labels_ok.
  destruct (validate_labels (strings_Split "." d)) as [[]|e] eqn:El.
  - rewrite NormalizeDomain_labels by by apply validate_labels_ok.
    destruct (String.eqb_spec d (string_map to_lower_byte d)); simpl; [|naive_solver].
    case_bool_decide as Hip; [split; [done|]; destruct Hip; naive_solver|].
    rewrite <- eq_None_not_Some in Hip. naive_solver.
  - split; [|naive_solver]. repeat case_match; done.
Qed.
(** A domain is accepted exactly when it is at most 253 bytes of
    dot-separated labels of 1 to 63 letters, digits and inner hyphens, lower
    case, with no trailing dot, and does not read as an IP address. *)
Theorem ValidateDomain_correct d :
  ValidateDomain d = Ok tt <->
  len d <= 253 /\ Forall valid_label (strings_Split "." d) /\
  string_map to_lower_byte d = d /\ netip_ParseAddr d = None.
Proof. apply ValidateDomain_spec. Qed.

(** ** The characters of accepted names *)

Definition domain_char (c : ascii) : bool := label_char c || Ascii.eqb c ".".

Lemma ValidateDomain_chars d : ValidateDomain d = Ok tt -> string_forallb domain_char d = true.
Proof.
  intros (_ & Hl & _)%ValidateDomain_spec. apply (Split_forallb domain_char "."); [done|].
  eapply Forall_impl; [exact Hl|]. intros w (_ & Hw & _).
  eapply string_forallb_mono; [|exact Hw]. intros c Hc. unfold domain_char. by rewrite Hc.
Qed.

Lemma to_lower_label c : label_char c = true -> label_char (to_lower_byte c) = true.
Proof. by destruct c as [[] [] [] [] [] [] [] []]. Qed.

Lemma ToLower_label s : valid_label s -> string_forallb label_char (strings_ToLower s) = true.
Proof.
  intros Hs. unfold strings_ToLower. rewrite valid_label_ascii by done.
  destruct Hs as (_ & Hs & _). induction s as [|c s IH]; [done|]. simpl in *.
  apply andb_true_iff in Hs as [Hc Hs]. by rewrite to_lower_label, IH.
Qed.
End theorems.
