(* ===== verification/IpAlloc.v ===== *)
(** * IpAlloc: internal/directory/ipalloc.go

    The allocator of tunnel addresses.  Its search loop may visit 2^32
    addresses; it is run here with fuel one more than the number of taken
    addresses, which is proved to be enough. *)
From stdpp Require Import base tactics option list strings gmap.
From Stdlib Require Import Ascii ZArith Lia.
From S2P Require Import Prelude GoStrings GoNum GoNet.
Open Scope Z_scope.

(** The shifts and ors of the byte-wise conversions; an address is its value. *)
Definition addrToUint32 (n : Z) : Z :=
  Z.lor (Z.lor (Z.lor (Z.shiftl (octet n 24) 24) (Z.shiftl (octet n 16) 16))
    (Z.shiftl (octet n 8) 8)) (octet n 0).

Definition uint32ToAddr (n : Z) : Z :=
  Z.lor (Z.lor (Z.lor (Z.shiftl (u8 (Z.shiftr n 24)) 24) (Z.shiftl (u8 (Z.shiftr n 16)) 16))
    (Z.shiftl (u8 (Z.shiftr n 8)) 8)) (u8 n).

(** [used[addrToUint32(addr)] = struct{}{}] over the taken addresses. *)
Fixpoint used_addrs (taken : list string) (used : gset Z) : result (gset Z) :=
  match taken with
  | [] => Ok used
  | raw :: rest =>
      match parse_is4 raw with
      | None => Err (errors_New "invalid taken IPv4 address %q")
      | Some addr => used_addrs rest ({[addrToUint32 addr]} ∪ used)
      end
  end.

Inductive search := Found (n : Z) | Exhausted | OutOfFuel.

Fixpoint free_loop (fuel : nat) (n last : Z) (used : gset Z) : search :=
  match fuel with
  | O => OutOfFuel
  | S fuel =>
      if last <? n then Exhausted
      else if bool_decide (u32 n ∈ used) then free_loop fuel (n + 1) last used
      else Found n
  end.

(** The first and last candidate: in networks larger than a /31 the network
    and broadcast addresses are not assigned. *)
Definition first_candidate (network bits : Z) : Z := if bits <=? 30 then network + 1 else network.
Definition last_candidate (network bits : Z) : Z :=
  let last := network + Z.shiftl 1 (32 - bits) - 1 in
  if bits <=? 30 then last - 1 else last.

Definition NextFreeIP (cidr : string) (taken : list string) : result string :=
  prefix ← of_option (errors_New "parse CIDR: %w") (netip_ParsePrefix cidr);
  guard_err (negb (addr_Is4 (pfx_Addr prefix)))
    (errors_New "only IPv4 tunnel CIDRs are supported")
  (let prefix := prefix_Masked prefix in
   let bits := pfx_Bits prefix in
   guard_err ((bits <? 0) || (32 <? bits)) (errors_New "invalid IPv4 prefix length %d")
   (used ← used_addrs taken ∅;
    let network := match pfx_Addr prefix with Addr4 n => addrToUint32 n | Addr6 _ _ => 0 end in
    match free_loop (S (length taken)) (first_candidate network bits)
            (last_candidate network bits) used with
    | Found n => Ok (ipv4_String (uint32ToAddr (u32 n)))
    | Exhausted => Err (errors_New "no free IPs in %s")
    | OutOfFuel => Err (errors_New "unreachable")
    end)).

(** ** Conversions are the identity on 32-bit values *)

Lemma addrToUint32_id n : 0 <= n < 2 ^ 32 -> addrToUint32 n = n.
Proof.
  intros Hn. unfold addrToUint32.
  pose proof (octet_range n 24); pose proof (octet_range n 16);
  pose proof (octet_range n 8); pose proof (octet_range n 0).
  replace (Z.shiftl (octet n 24) 24) with (Z.shiftl (Z.shiftl (octet n 24) 8) 16)
    by (by rewrite Z.shiftl_shiftl).
  rewrite <- Z.shiftl_lor, (lor_shiftl (octet n 24) (octet n 16) 8) by lia.
  replace (Z.shiftl (octet n 24 * 2 ^ 8 + octet n 16) 16)
    with (Z.shiftl (Z.shiftl (octet n 24 * 2 ^ 8 + octet n 16) 8) 8)
    by (by rewrite Z.shiftl_shiftl).
  rewrite <- Z.shiftl_lor, (lor_shiftl _ (octet n 8) 8), (lor_shiftl _ (octet n 0) 8) by lia.
  rewrite <- (octets_value n Hn) at 5. lia.
Qed.

Lemma uint32ToAddr_id n : 0 <= n < 2 ^ 32 -> uint32ToAddr n = n.
Proof.
  intros Hn. rewrite <- (addrToUint32_id n Hn) at 2. unfold uint32ToAddr, addrToUint32, octet.
  by rewrite Z.shiftr_0_r.
Qed.

(** ** The loop *)

Definition taken_values (taken : list string) : option (list Z) := mapM parse_is4 taken.
#[global] Arguments taken_values : simpl never.

Lemma used_addrs_spec taken used0 used :
  used_addrs taken used0 = Ok used ->
  exists us, taken_values taken = Some us /\ used = list_to_set us ∪ used0 /\
    length us = length taken.
Proof.
  revert used0. induction taken as [|raw rest IH]; intros used0; simpl.
  - intros [= <-]. exists []. split_and!; [done|set_solver|done].
  - destruct (parse_is4 raw) as [a|] eqn:E; [|done].
    intros (us & Hus & -> & Hl)%IH. exists (a :: us).
    pose proof (parse_is4_canonical _ _ E) as [Ha _]. rewrite addrToUint32_id by done.
    split_and!; [|set_solver|simpl; lia].
    unfold taken_values in *. rewrite mapM_Some in Hus. apply mapM_Some. by constructor.
Qed.

Lemma used_addrs_total taken used0 us :
  taken_values taken = Some us -> exists used, used_addrs taken used0 = Ok used.
Proof.
  unfold taken_values. rewrite mapM_Some. intros HF. revert used0.
  induction HF as [|raw a rest us E HF IH]; intros used0; simpl; [by eauto|].
  rewrite E. apply IH.
Qed.

(** The visited addresses are distinct, so at most [size used] are taken. *)
Lemma free_loop_spec fuel n last used :
  (forall m, n <= m <= last -> u32 m = m) ->
  match free_loop fuel n last used with
  | Found m => n <= m <= last /\ m ∉ used /\ forall k, n <= k < m -> k ∈ used
  | Exhausted => forall k, n <= k <= last -> k ∈ used
  | OutOfFuel => forall k, n <= k < n + Z.of_nat fuel -> k <= last /\ k ∈ used
  end.
Proof.
  revert n. induction fuel as [|fuel IH]; intros n Hu; [simpl; lia|].
  cbn [free_loop]. destruct (Z.ltb_spec last n); [intros; lia|].
  destruct (bool_decide (u32 n ∈ used)) eqn:E; bool_solve; rewrite Hu in E by lia.
  - specialize (IH (n + 1) ltac:(intros; apply Hu; lia)).
    destruct (free_loop fuel (n + 1) last used).
    + destruct IH as (? & ? & Hk). split_and!; [lia|lia|done|]. intros k Hk'.
      destruct (decide (k = n)) as [->|]; [done|]. apply Hk. lia.
    + intros k Hk. destruct (decide (k = n)) as [->|]; [done|]. apply IH. lia.
    + intros k Hk. destruct (decide (k = n)) as [->|]; [split; [lia|done]|]. apply IH. lia.
  - split_and!; [lia|lia|done|]. intros; lia.
Qed.

Lemma interval_size (fuel : nat) n (used : gset Z) :
  (forall k, n <= k < n + Z.of_nat fuel -> k ∈ used) -> (fuel <= size used)%nat.
Proof.
  intros Hk. set (l := (fun i => n + Z.of_nat i) <$> seq 0 fuel).
  assert (NoDup l) as Hnd by (apply NoDup_fmap_2; [intros ??; lia|apply NoDup_seq]).
  assert (length l = fuel) as Hl by (subst l; by rewrite length_fmap, length_seq).
  rewrite <- Hl, <- (size_list_to_set (C:=gset Z) l) by done.
  apply subseteq_size. intros k [i [-> Hi%elem_of_seq]]%elem_of_list_to_set%list_elem_of_fmap.
  apply Hk. lia.
Qed.

Lemma free_loop_enough fuel n last used :
  (size used < fuel)%nat -> (forall m, n <= m <= last -> u32 m = m) ->
  free_loop fuel n last used <> OutOfFuel.
Proof.
  intros Hf Hu E. pose proof (free_loop_spec fuel n last used Hu) as H. rewrite E in H.
  assert (fuel <= size used)%nat; [|lia].
  apply (interval_size fuel n). intros. by apply H.
Qed.

Lemma size_list_to_set_le (us : list Z) : (size (list_to_set us : gset Z) <= length us)%nat.
Proof.
  induction us as [|u us IH]; [by rewrite list_to_set_nil, size_empty|].
  rewrite list_to_set_cons, (size_union_alt (C:=gset Z) {[u]} (list_to_set us)), size_singleton.
  pose proof (subseteq_size (C:=gset Z) (list_to_set us ∖ {[u]}) (list_to_set us) ltac:(set_solver)).
  simpl. lia.
Qed.

(** ** What is returned *)

(** The addresses a network of [bits] bits at [ip] hands out. *)
Definition assignable (ip bits n : Z) : Prop :=
  let network := clear_low ip (32 - bits) in
  first_candidate network bits <= n <= last_candidate network bits.

Lemma pow2_le_32 bits : 0 <= bits <= 32 -> 1 <= 2 ^ (32 - bits) <= 2 ^ 32.
Proof.
  intros. split; [|apply Z.pow_le_mono_r; lia].
  change 1 with (2 ^ 0). apply Z.pow_le_mono_r; lia.
Qed.

Lemma network_bounds ip bits :
  0 <= ip < 2 ^ 32 -> 0 <= bits <= 32 ->
  let k := 2 ^ (32 - bits) in
  0 <= clear_low ip (32 - bits) /\ clear_low ip (32 - bits) + k <= 2 ^ 32 /\
  clear_low ip (32 - bits) = ip / k * k.
Proof.
  intros Hip Hb k. rewrite clear_low_div by lia. fold k.
  assert (0 < k) by (pose proof (pow2_le_32 bits Hb); lia).
  assert (2 ^ 32 = 2 ^ bits * k) as E by (subst k; rewrite <- Z.pow_add_r by lia; f_equal; lia).
  assert (0 <= ip / k < 2 ^ bits).
  { split; [apply Z.div_pos; lia|]. apply Z.div_lt_upper_bound; lia. }
  nia.
Qed.

Lemma assignable_range ip bits n :
  0 <= ip < 2 ^ 32 -> 0 <= bits <= 32 -> assignable ip bits n ->
  0 <= n < 2 ^ 32 /\ n / 2 ^ (32 - bits) = ip / 2 ^ (32 - bits).
Proof.
  intros Hip Hb Hn. pose proof (network_bounds ip bits Hip Hb) as (H1 & H2 & H3).
  unfold assignable, first_candidate, last_candidate in Hn.
  rewrite Z.shiftl_1_l in Hn. pose proof (pow2_le_32 bits Hb).
  assert (clear_low ip (32 - bits) <= n < clear_low ip (32 - bits) + 2 ^ (32 - bits))
    by (destruct (bits <=? 30); lia).
  split; [lia|]. rewrite H3 in *. symmetry.
  apply (Z.div_unique_pos n _ _ (n - ip / 2 ^ (32 - bits) * 2 ^ (32 - bits))); lia.
Qed.

Lemma clear_low_idem ip k : 0 <= k -> clear_low (clear_low ip k) k = clear_low ip k.
Proof.
  intros. rewrite !clear_low_div by lia. by rewrite Z.div_mul by (apply Z.pow_nonzero; lia).
Qed.

(** C15: On an IPv4 network and well-formed taken addresses [NextFreeIP] always
    terminates with the least assignable address that is not taken, in its
    canonical text, and fails only when every assignable address is taken. *)
Theorem NextFreeIP_least cidr ip bits taken us :
  netip_ParsePrefix cidr = Some {| pfx_Addr := Addr4 ip; pfx_Bits := bits |} ->
  taken_values taken = Some us ->
  match NextFreeIP cidr taken with
  | Ok s => exists n, s = ipv4_String n /\ parse_is4 s = Some n /\ assignable ip bits n /\
              n ∉ us /\ forall m, assignable ip bits m -> m < n -> m ∈ us
  | Err _ => forall m, assignable ip bits m -> m ∈ us
  end.
Proof.
  intros Hp Hus. pose proof (ParsePrefix_addr4 _ _ _ Hp) as Hip.
  assert (0 <= bits <= 32) as Hb by exact (ParsePrefix_bits4 _ _ _ Hp).
  unfold NextFreeIP. rewrite Hp. cbn [of_option mbind result_bind pfx_Addr addr_Is4 negb guard_err].
  unfold prefix_Masked. cbn [pfx_Addr pfx_Bits].
  replace ((bits <? 0) || (32 <? bits)) with false by lia. cbn [guard_err].
  destruct (used_addrs_total taken ∅ us Hus) as (used & Hused). rewrite Hused.
  cbn [mbind result_bind].
  apply used_addrs_spec in Hused as (us' & Hus' & -> & Hl).
  assert (us' = us) as -> by congruence.
  pose proof (network_bounds ip bits Hip Hb) as (N1 & N2 & N3). cbv zeta in N2.
  pose proof (pow2_le_32 bits Hb). rewrite addrToUint32_id by lia.
  assert (Hu : forall m, assignable ip bits m -> u32 m = m).
  { intros m Hm. apply u32_small. by apply (assignable_range ip bits). }
  unfold assignable in Hu. cbv zeta in Hu.
  pose proof (free_loop_spec (S (length taken)) _ _ (list_to_set us ∪ ∅) Hu) as Hspec.
  pose proof (free_loop_enough (S (length taken)) _ _ (list_to_set us ∪ ∅) (ltac:(
    rewrite union_empty_r_L; pose proof (size_list_to_set_le us); lia)) Hu) as Hfuel.
  destruct (free_loop _ _ _ _) as [n| |]; [| |done].
  - destruct Hspec as (Hn & Hfree & Hleast).
    destruct (assignable_range ip bits n Hip Hb Hn) as [Hn32 _].
    rewrite Hu, uint32ToAddr_id by done.
    exists n. split_and!; [done|by apply parse_is4_String|exact Hn|set_solver|].
    intros m Hm Hlt. assert (m ∈ (list_to_set us ∪ ∅ : gset Z)); [|set_solver].
    apply Hleast. unfold assignable in Hm. lia.
  - intros m Hm. assert (m ∈ (list_to_set us ∪ ∅ : gset Z)); [|set_solver].
    by apply Hspec.
Qed.

Lemma NextFreeIP_least_witness :
  NextFreeIP "10.42.0.0/29" ["10.42.0.1"; "10.42.0.3"] = Ok "10.42.0.2" /\
  match NextFreeIP "10.42.0.0/29" ["10.42.0.1"; "10.42.0.3"] with
  | Ok s => exists n, s = ipv4_String n /\ parse_is4 s = Some n /\
              assignable 170524672 29 n /\ n ∉ [170524673; 170524675] /\
              forall m, assignable 170524672 29 m -> m < n -> m ∈ [170524673; 170524675]
  | Err _ => forall m, assignable 170524672 29 m -> m ∈ [170524673; 170524675]
  end.
Proof.
  split; [vm_compute; reflexivity|].
  apply NextFreeIP_least; vm_compute; reflexivity.
Defined.
