(* ===== verification/Validate.v ===== *)
(** * Validate: the directory invariant of internal/directory/codec.go

    [Validate] runs on both ends of the wire ([Seal] and [Open]).  It is shown
    to decide [ValidDirectory], the declarative well-formedness every other
    component may rely on. *)
From stdpp Require Import base tactics option list strings gmap.
From Stdlib Require Import Ascii ZArith Lia.
From S2P Require Import Prelude GoStrings GoNum GoNet GoBase64 Keys Directory DnsName.
Open Scope Z_scope.

(** The bytes NUL, LF, CR and TAB. *)
Definition endpoint_control : string :=
  String (chr 0) (String (chr 10) (String (chr 13) (String (chr 9) ""))).

Definition validateEndpoint (endpoint : string) : result unit :=
  if String.eqb endpoint "" then Ok tt else
  guard_err (strings_ContainsAny endpoint endpoint_control)
    (errors_New "%q contains control characters")
  ('(host, port) ← of_option (errors_New "%q must be host:port: %w") (net_SplitHostPort endpoint);
   guard_err (String.eqb host "") (errors_New "%q has empty host")
   (match strconv_Atoi port with
    | Some p => guard_err ((p <? 1) || (65535 <? p)) (errors_New "%q has invalid port") (Ok tt)
    | None => Err (errors_New "%q has invalid port")
    end)).

(** The sets [Validate] fills while it walks the nodes. *)
Record Seen := {
  seen_Names : gset string;
  seen_IPs : gset string;
  seen_Keys : gset string;
  seen_Lower : gmap string string }.

Definition nothing_seen : Seen :=
  {| seen_Names := ∅; seen_IPs := ∅; seen_Keys := ∅; seen_Lower := ∅ |}.

Section validate.
Context `{CryptoLib} `{UnicodeTables}.

(** The DNS part of one round: only while a domain is set. *)
Definition check_label (domain : string) (node : Node) (lowers : gmap string string)
    : result (gmap string string) :=
  if String.eqb domain "" then Ok lowers else
  match ValidateLabel (node_Name node) with
  | Err _ => Err (errors_New "node name %q is not a valid DNS label (required while domain %q is set): %v")
  | Ok _ =>
      let lower := strings_ToLower (node_Name node) in
      match lowers !! lower with
      | Some _ => Err (errors_New "node names %q and %q both resolve as %q")
      | None => Ok (<[lower := node_Name node]> lowers)
      end
  end.

(** One round of the loop over [dir.Nodes]. *)
Definition check_node (dir : Directory) (prefix : Prefix) (seen : Seen) (node : Node)
    : result Seen :=
  guard_err (String.eqb (node_Name node) "") (errors_New "directory contains node with empty name")
  (guard_err (bool_decide (node_Name node ∈ seen_Names seen)) (errors_New "duplicate node name %q")
  (lowers ← check_label (dir_Domain dir) node (seen_Lower seen);
   _ ← wrap_err (fun e => Errorf "node %q has invalid WireGuard public key: %w" [e])
         (ParseWGPublic (node_PublicKey node));
   guard_err (bool_decide (node_PublicKey node ∈ seen_Keys seen))
     (errors_New "duplicate node public key for %q")
   (ip ← of_option (errors_New "node %q has invalid IPv4 tunnel IP") (parse_is4 (node_TunnelIP node));
    guard_err (negb (prefix_Contains prefix (Addr4 ip)))
      (errors_New "node %q tunnel IP %s is outside %s")
    (guard_err (bool_decide (node_TunnelIP node ∈ seen_IPs seen)) (errors_New "duplicate tunnel IP %q")
     (_ ← wrap_err (fun e => Errorf "node %q endpoint: %w" [e]) (validateEndpoint (node_Endpoint node));
      _ ← wrap_err (fun e => Errorf "node %q observed endpoint: %w" [e])
            (validateEndpoint (node_ObservedEndpoint node));
      _ ← (if String.eqb (node_AgeRecipient node) "" then Ok ""
           else wrap_err (fun e => Errorf "node %q: %w" [e])
                  (ParseAgeRecipient (node_AgeRecipient node)));
      Ok {| seen_Names := {[node_Name node]} ∪ seen_Names seen;
            seen_IPs := {[node_TunnelIP node]} ∪ seen_IPs seen;
            seen_Keys := {[node_PublicKey node]} ∪ seen_Keys seen;
            seen_Lower := lowers |}))))).

Fixpoint check_nodes (dir : Directory) (prefix : Prefix) (seen : Seen) (nodes : list Node)
    : result unit :=
  match nodes with
  | [] => Ok tt
  | node :: rest => seen ← check_node dir prefix seen node; check_nodes dir prefix seen rest
  end.

Definition Validate (dir : Directory) : result unit :=
  guard_err (negb (dir_SchemaVersion dir =? SchemaVersion))
    (errors_New "unsupported directory schema version %d")
  (prefix ← of_option (errors_New "invalid network CIDR: %w") (netip_ParsePrefix (dir_NetworkCIDR dir));
   _ ← (if String.eqb (dir_Domain dir) "" then Ok tt
        else match ValidateDomain (dir_Domain dir) with
             | Err _ => Err (errors_New "invalid VPN domain %q: %v")
             | Ok _ => Ok tt
             end);
   check_nodes dir (prefix_Masked prefix) nothing_seen (dir_Nodes dir)).

(** ** The invariant *)

Definition valid_endpoint (e : string) : Prop :=
  e = "" \/
  (strings_ContainsAny e endpoint_control = false /\
   exists host port p, net_SplitHostPort e = Some (host, port) /\ host <> "" /\
     strconv_Atoi port = Some p /\ 1 <= p <= 65535).

(** What one node must satisfy on its own. *)
Record valid_node (prefix : Prefix) (n : Node) : Prop := {
  vn_name : node_Name n <> "";
  vn_key : is_ok (ParseWGPublic (node_PublicKey n)) = true;
  vn_ip : exists ip, parse_is4 (node_TunnelIP n) = Some ip /\
            prefix_Contains prefix (Addr4 ip) = true;
  vn_endpoint : valid_endpoint (node_Endpoint n);
  vn_observed : valid_endpoint (node_ObservedEndpoint n);
  vn_age : node_AgeRecipient n <> "" -> is_ok (ParseAgeRecipient (node_AgeRecipient n)) = true }.

(** Nodes valid together with those already [seen]. *)
Record valid_nodes (domain : string) (prefix : Prefix) (nodes : list Node) : Prop := {
  vd_each : Forall (valid_node prefix) nodes;
  vd_names : NoDup (node_Name <$> nodes);
  vd_keys : NoDup (node_PublicKey <$> nodes);
  vd_ips : NoDup (node_TunnelIP <$> nodes);
  vd_labels : domain <> "" ->
    Forall (fun n => valid_label (node_Name n)) nodes /\
    NoDup ((fun n => strings_ToLower (node_Name n)) <$> nodes) }.

Definition ValidDirectory (dir : Directory) : Prop :=
  dir_SchemaVersion dir = SchemaVersion /\
  exists prefix, netip_ParsePrefix (dir_NetworkCIDR dir) = Some prefix /\
    (dir_Domain dir <> "" -> ValidateDomain (dir_Domain dir) = Ok tt) /\
    valid_nodes (dir_Domain dir) (prefix_Masked prefix) (dir_Nodes dir).

Lemma validateEndpoint_ok e : validateEndpoint e = Ok tt <-> valid_endpoint e.
Proof.
  unfold validateEndpoint, valid_endpoint.
  destruct (String.eqb_spec e "") as [->|He]; [split; [by left|done]|].
  rewrite guard_err_Ok, bind_Ok. split.
  - intros (Hc & [host port] & Hs%of_option_Ok & Hg). apply guard_err_Ok in Hg as [Hh Hp].
    right. split; [done|]. exists host, port.
    destruct (strconv_Atoi port) as [p|]; [|done]. apply guard_err_Ok in Hp as [Hp _].
    exists p. bool_solve. split_and!; (done || lia).
  - intros [->|(Hc & host & port & p & Hs & Hh & Hp & Hr)]; [done|]. split; [done|].
    exists (host, port). rewrite of_option_Ok, guard_err_Ok, Hp, guard_err_Ok.
    split_and!; try done; [by apply String.eqb_neq|apply orb_false_iff; split; apply Z.ltb_ge; lia].
Qed.

Definition not_seen (domain : string) (seen : Seen) (n : Node) : Prop :=
  node_Name n ∉ seen_Names seen /\ node_PublicKey n ∉ seen_Keys seen /\
  node_TunnelIP n ∉ seen_IPs seen /\
  (domain <> "" -> valid_label (node_Name n) /\
     seen_Lower seen !! strings_ToLower (node_Name n) = None).

Definition see (domain : string) (n : Node) (seen : Seen) : Seen :=
  {| seen_Names := {[node_Name n]} ∪ seen_Names seen;
     seen_IPs := {[node_TunnelIP n]} ∪ seen_IPs seen;
     seen_Keys := {[node_PublicKey n]} ∪ seen_Keys seen;
     seen_Lower := if String.eqb domain "" then seen_Lower seen
                   else <[strings_ToLower (node_Name n) := node_Name n]> (seen_Lower seen) |}.

Lemma check_label_ok domain n lowers r :
  check_label domain n lowers = Ok r <->
  (domain <> "" -> valid_label (node_Name n) /\ lowers !! strings_ToLower (node_Name n) = None) /\
  r = if String.eqb domain "" then lowers
      else <[strings_ToLower (node_Name n) := node_Name n]> lowers.
Proof.
  unfold check_label. destruct (String.eqb_spec domain "") as [->|]; [naive_solver|].
  destruct (ValidateLabel (node_Name n)) as [[]|] eqn:E.
  - apply ValidateLabel_ok in E. destruct (lowers !! _) eqn:El; naive_solver.
  - split; [done|]. intros [Hl _]. destruct (Hl n0) as [Hv%ValidateLabel_ok _]. congruence.
Qed.

Lemma check_node_ok dir prefix seen n s' :
  check_node dir prefix seen n = Ok s' <->
  valid_node prefix n /\ not_seen (dir_Domain dir) seen n /\ s' = see (dir_Domain dir) n seen.
Proof.
  unfold check_node, not_seen, see. split.
  - intros Hk. inv_ok. bool_solve. destruct x2 as [], x3 as [].
    rewrite check_label_ok in *. rewrite validateEndpoint_ok in *. destruct_and!. subst.
    split_and!; try done. constructor; try done.
    + apply is_ok_Ok. eauto.
    + exists x1. by bool_solve.
    + intros Ha. destruct (String.eqb_spec (node_AgeRecipient n) ""); [done|].
      inv_ok. apply is_ok_Ok. eauto.
  - intros ([Hn Hk (ip & Hip & Hc) He Ho Ha] & (Hs1 & Hs2 & Hs3 & Hs4) & ->).
    apply String.eqb_neq in Hn. rewrite Hn. cbn [guard_err].
    rewrite bool_decide_eq_false_2 by done. cbn [guard_err].
    rewrite (proj2 (check_label_ok _ _ _ _) (conj Hs4 eq_refl)). cbn [mbind result_bind].
    apply is_ok_Ok in Hk as (k & ->). cbn [wrap_err mbind result_bind].
    rewrite bool_decide_eq_false_2 by done. cbn [guard_err].
    rewrite Hip. cbn [of_option mbind result_bind]. rewrite Hc. cbn [negb guard_err].
    rewrite bool_decide_eq_false_2 by done. cbn [guard_err].
    rewrite (proj2 (validateEndpoint_ok _) He), (proj2 (validateEndpoint_ok _) Ho).
    cbn [wrap_err mbind result_bind].
    destruct (String.eqb_spec (node_AgeRecipient n) ""); [done|].
    apply is_ok_Ok in Ha as (a & ->); done.
Qed.

(** Two nodes one directory can hold together. *)
Definition distinct_nodes (domain : string) (n m : Node) : Prop :=
  node_Name m <> node_Name n /\ node_PublicKey m <> node_PublicKey n /\
  node_TunnelIP m <> node_TunnelIP n /\
  (domain <> "" -> strings_ToLower (node_Name m) <> strings_ToLower (node_Name n)).

Lemma NoDup_fmap_cons {B} (f : Node -> B) n ns :
  NoDup (f <$> n :: ns) <-> Forall (fun m => f m <> f n) ns /\ NoDup (f <$> ns).
Proof.
  change (f <$> n :: ns) with (f n :: (f <$> ns)). rewrite NoDup_cons, Forall_forall.
  apply and_iff_compat_r. rewrite list_elem_of_fmap. naive_solver.
Qed.

Lemma valid_nodes_cons domain prefix n ns :
  valid_nodes domain prefix (n :: ns) <->
  valid_node prefix n /\ (domain <> "" -> valid_label (node_Name n)) /\
  valid_nodes domain prefix ns /\ Forall (distinct_nodes domain n) ns.
Proof.
  unfold distinct_nodes. rewrite !Forall_and. split.
  - intros [He Hn Hk Hi Hl]. rewrite NoDup_fmap_cons in Hn, Hk, Hi. rewrite Forall_cons in He.
    destruct He, Hn, Hk, Hi. split_and!; try done.
    + intros Hd. destruct (Hl Hd) as [Hf _]. by apply Forall_cons in Hf as [? _].
    + constructor; try done. intros Hd. destruct (Hl Hd) as [Hf Hu].
      rewrite Forall_cons in Hf. rewrite NoDup_fmap_cons in Hu. tauto.
    + apply Forall_forall. intros m Hm Hd. destruct (Hl Hd) as [_ Hu].
      rewrite NoDup_fmap_cons, Forall_forall in Hu. by apply Hu.
  - intros (Hv & Hlab & [He Hn Hk Hi Hl] & Fn & Fk & Fi & Fl).
    constructor; [by constructor|by apply NoDup_fmap_cons..|].
    intros Hd. destruct (Hl Hd). split; [constructor; auto|]. apply NoDup_fmap_cons.
    split; [|done]. rewrite Forall_forall in Fl |- *. auto.
Qed.

Lemma not_seen_see domain n seen m :
  not_seen domain (see domain n seen) m /\ (domain <> "" -> valid_label (node_Name m)) <->
  not_seen domain seen m /\ distinct_nodes domain n m.
Proof.
  unfold not_seen, distinct_nodes, see. cbn [seen_Names seen_IPs seen_Keys seen_Lower].
  rewrite !not_elem_of_union, !not_elem_of_singleton.
  destruct (String.eqb_spec domain "") as [E|E]; [naive_solver|].
  rewrite lookup_insert_None. naive_solver.
Qed.

Lemma check_nodes_ok dir prefix seen nodes :
  check_nodes dir prefix seen nodes = Ok tt <->
  valid_nodes (dir_Domain dir) prefix nodes /\ Forall (not_seen (dir_Domain dir) seen) nodes.
Proof.
  revert seen. induction nodes as [|n ns IH]; intros seen; cbn [check_nodes].
  { split; [|done]. intros _. split; [|done]. split; try constructor; constructor. }
  rewrite bind_Ok, valid_nodes_cons, Forall_cons. setoid_rewrite check_node_ok.
  assert (Hs : Forall (not_seen (dir_Domain dir) (see (dir_Domain dir) n seen)) ns <->
    Forall (not_seen (dir_Domain dir) seen) ns /\ Forall (distinct_nodes (dir_Domain dir) n) ns).
  { rewrite <- Forall_and. apply Forall_iff. intros m. rewrite <- not_seen_see.
    unfold not_seen. tauto. }
  split.
  - intros (s & (Hv & Hn & ->) & Hr). apply IH in Hr as [Hr Hf]. apply Hs in Hf as [??].
    split_and!; try done. intros Hd. by apply Hn.
  - intros ((Hv & Hl & Hr & Hd) & Hn & Hf). eexists. split; [done|]. apply IH. tauto.
Qed.

Lemma check_nodes_ok_empty dir prefix :
  check_nodes dir prefix nothing_seen (dir_Nodes dir) = Ok tt <->
  valid_nodes (dir_Domain dir) prefix (dir_Nodes dir).
Proof.
  rewrite check_nodes_ok. split; [naive_solver|]. intros Hv. split; [done|].
  apply Forall_forall. intros n Hn. destruct Hv as [_ _ _ _ Hl].
  unfold not_seen, nothing_seen. simpl. split_and!; [set_solver..|]. intros Hd.
  destruct (Hl Hd) as [Hl1 _]. rewrite Forall_forall in Hl1. split; [by apply Hl1|done].
Qed.

Lemma Validate_spec dir : Validate dir = Ok tt <-> ValidDirectory dir.
Proof.
  unfold Validate, ValidDirectory. rewrite guard_err_Ok, negb_false_iff, Z.eqb_eq.
  apply and_iff_compat_l. rewrite bind_Ok. setoid_rewrite of_option_Ok.
  apply exist_proper. intros prefix. apply and_iff_compat_l.
  rewrite bind_Ok, <- (check_nodes_ok_empty dir).
  destruct (String.eqb_spec (dir_Domain dir) "") as [E|E]; [naive_solver|].
  destruct (ValidateDomain (dir_Domain dir)) as [[]|]; naive_solver.
Qed.

(** C14: [Validate] accepts a directory exactly when it has the supported schema
    version, a parsable network, a valid domain if any, and nodes with
    pairwise distinct non-empty names, parsable distinct keys, distinct IPv4
    tunnel addresses inside the network, well-formed endpoints and age
    recipients, and, while a domain is set, names that are DNS labels distinct
    up to case. *)
Theorem Validate_correct dir : Validate dir = Ok tt <-> ValidDirectory dir.
Proof. apply Validate_spec. Qed.
End validate.
