(* ===== verification/Wire.v ===== *)
(** * Wire: what internal/directory/codec.go hands to msgpack

    The wire records, the interface of the msgpack package as the class
    [Msgpack], and what is relied on of it as [MsgpackLaws]: what is encoded
    decodes to itself. *)
From stdpp Require Import base tactics option list strings gmap.
From Stdlib Require Import Ascii ZArith Lia.
From S2P Require Import Prelude GoStrings GoNum Directory.
Open Scope Z_scope.

Record wireNode := {
  wire_Name : string;
  wire_PublicKey : string;
  wire_TunnelIP : string;
  wire_AgeRecipient : string;
  wire_Endpoint : string;
  wire_Relay : bool;
  wire_ObservedEndpoint : string;
  wire_ObservedAt : Time;
  wire_PSK : string }.

(** A [Directory] as msgpack sees it: every node through its hooks. *)
Record WireDirectory := {
  wd_SchemaVersion : Z;
  wd_Serial : Z;
  wd_CreatedAt : Time;
  wd_NetworkCIDR : string;
  wd_Domain : string;
  wd_Nodes : list wireNode }.

Class Msgpack := {
  msgpack_MarshalDirectory : WireDirectory -> option string;
  msgpack_UnmarshalDirectory : string -> option WireDirectory;
  msgpack_MarshalEnvelope : Envelope -> option string;
  (* one value, DisallowUnknownFields set *)
  msgpack_DecodeEnvelope : string -> option Envelope }.

Class MsgpackLaws `{Msgpack} : Prop := {
  Unmarshal_Marshal wd s :
    0 <= wd_SchemaVersion wd < 2 ^ 32 -> 0 <= wd_Serial wd < 2 ^ 64 ->
    msgpack_MarshalDirectory wd = Some s -> msgpack_UnmarshalDirectory s = Some wd;
  (* Serial is decoded into a uint64 *)
  Unmarshal_Serial s wd : msgpack_UnmarshalDirectory s = Some wd -> 0 <= wd_Serial wd < 2 ^ 64;
  DecodeEnvelope_Marshal e s :
    msgpack_MarshalEnvelope e = Some s -> msgpack_DecodeEnvelope s = Some e;
  Marshal_nonempty wd s : msgpack_MarshalDirectory wd = Some s -> s <> "" }.
