(* ===== verification/Toy.v ===== *)
(** * Toy: instances that satisfy the laws of the external libraries

    The theorems about sealed directories hold for every [CryptoLib] and
    [Msgpack] with their laws.  This file gives one of each, small and
    executable, so that the theorems can be applied to concrete directories:
    WireGuard keys in base64 as wgtypes prints them, a cipher that lists its
    recipients in front of the plaintext, a signature that repeats the message,
    and a codec through stdpp's [Countable] encodings. *)
From stdpp Require Import base tactics option list strings gmap countable.
From Stdlib Require Import Ascii ZArith Lia.
From S2P Require Import Prelude GoStrings GoNum GoBase64 Keys Directory Wire.
Open Scope Z_scope.

(** A positive written in binary, least significant digit first. *)
Fixpoint bits_of (p : positive) : string :=
  match p with
  | xH => ""
  | xO p => String "0" (bits_of p)
  | xI p => String "1" (bits_of p)
  end.

Fixpoint of_bits (s : string) : positive :=
  match s with
  | EmptyString => xH
  | String c r => if Ascii.eqb c "1" then xI (of_bits r) else xO (of_bits r)
  end.

Lemma of_bits_bits p : of_bits (bits_of p) = p.
Proof. induction p; simpl; by rewrite ?IHp. Qed.

Lemma bits_lacks p : lacks ":" (bits_of p) = true.
Proof. induction p; simpl; unfold lacks in *; by rewrite ?IHp. Qed.

Definition put `{Countable A} (a : A) : string := bits_of (encode a).
Definition get `{Countable A} (s : string) : option A := decode (of_bits s).

Arguments put : simpl never.
Arguments get : simpl never.

Lemma get_put `{Countable A} (a : A) : get (put a) = Some a.
Proof. unfold get, put. by rewrite of_bits_bits, decode_encode. Qed.

#[export] Instance wireNode_eq_dec : EqDecision wireNode.
Proof. solve_decision. Defined.
#[export] Instance wireNode_countable : Countable wireNode.
Proof.
  refine (inj_countable'
    (fun w => ((wire_Name w, wire_PublicKey w, wire_TunnelIP w, wire_AgeRecipient w),
               (wire_Endpoint w, wire_Relay w, wire_ObservedEndpoint w, wire_ObservedAt w, wire_PSK w)))
    (fun '((a, b, c, d), (e, f, g, h, i)) => Build_wireNode a b c d e f g h i) _).
  by intros [].
Defined.
#[export] Instance WireDirectory_eq_dec : EqDecision WireDirectory.
Proof. solve_decision. Defined.
#[export] Instance WireDirectory_countable : Countable WireDirectory.
Proof.
  refine (inj_countable'
    (fun w => (wd_SchemaVersion w, wd_Serial w, wd_CreatedAt w, wd_NetworkCIDR w, wd_Domain w, wd_Nodes w))
    (fun '(a, b, c, d, e, f) => Build_WireDirectory a b c d e f) _).
  by intros [].
Defined.

(** What precedes and follows the first colon. *)
Definition toy_cut (s : string) : option (string * string) :=
  i ← strings_IndexByte ":" s; Some (string_take i s, string_drop (S i) s).

Lemma toy_cut_put `{Countable A} (a : A) r : toy_cut (put a +:+ String ":" r) = Some (put a, r).
Proof.
  unfold toy_cut. rewrite IndexByte_app by apply bits_lacks. simpl. rewrite string_take_app.
  do 2 f_equal. induction (put a) as [|c s IH]; [done|]. rewrite string_app_cons. exact IH.
Qed.

Definition toy_msgpack : Msgpack := {|
  msgpack_MarshalDirectory wd := Some (String ":" (put wd));
  msgpack_UnmarshalDirectory s :=
    match s with
    | String ":" r =>
        wd ← get (A := WireDirectory) r;
        if (0 <=? wd_Serial wd) && (wd_Serial wd <? 18446744073709551616) then Some wd else None
    | _ => None
    end;
  msgpack_MarshalEnvelope e :=
    Some (put (String.length (env_Payload e)) +:+ String ":" (env_Payload e +:+ env_Signature e));
  msgpack_DecodeEnvelope s :=
    '(h, r) ← toy_cut s;
    n ← get (A := nat) h;
    Some {| env_Payload := string_take n r; env_Signature := string_drop n r |} |}.

Definition toy_key_parse (s : string) : option string :=
  match base64_Decode StdEncoding s with
  | Some k => if len k =? 32 then Some k else None
  | None => None
  end.

(** Printable characters only. *)
Definition toy_plain (s : string) : bool := string_forallb (fun c => is_ascii c && negb (is_space c)) s.

Lemma toy_plain_trim `{UnicodeTables} s : toy_plain s = true -> strings_TrimSpace s = s.
Proof.
  intros Hp. assert (Hc : forall c, is_ascii c && negb (is_space c) = true -> is_ascii c = true /\ is_space c = false).
  { intros c [? ?%negb_true_iff]%andb_true_iff. done. }
  apply TrimSpace_id.
  - eapply string_forallb_mono; [|exact Hp]. intros c Hx. by apply Hc.
  - intros c Hx. destruct s as [|d r]; [done|]. injection Hx as ->. unfold toy_plain in Hp. simpl in Hp.
    apply andb_true_iff in Hp as [Hp _]. by apply Hc.
  - intros c Hx. eapply last_byte_forallb in Hx; [|exact Hp]. by apply Hc.
Qed.

Definition toy_crypto : CryptoLib := {|
  wgtypes_ParseKey := toy_key_parse;
  wgtypes_NewKey b := if len b =? 32 then Some b else None;
  wgtypes_Key_String k := base64_Encode StdEncoding k;
  wgtypes_Key_PublicKey k := k;
  age_ParseX25519Identity s :=
    match strings_CutPrefix "AGE-SECRET-KEY-" s with
    | Some id => if toy_plain id then Some id else None
    | None => None
    end;
  age_ParseX25519Recipient s := strings_CutPrefix "age" s;
  age_Identity_Recipient id := id;
  age_Identity_String id := "AGE-SECRET-KEY-" +:+ id;
  age_Recipient_String r := "age" +:+ r;
  age_Encrypt seed rs pt := Some (put (A := Z * list string) (seed, rs) +:+ String ":" pt);
  age_Decrypt id ct :=
    '(h, pt) ← toy_cut ct;
    '(_, rs) ← get (A := Z * list string) h;
    if existsb (String.eqb id) rs then Some pt else None;
  ed25519_Public priv := string_drop 32 priv;
  ed25519_Sign priv msg := String "s" (string_drop 32 priv +:+ msg);
  ed25519_Verify pub msg sig := String.eqb sig (String "s" (pub +:+ msg)) |}.

Lemma toy_msgpack_laws : @MsgpackLaws toy_msgpack.
Proof.
  split; simpl.
  - intros wd s _ Hs [= <-]. rewrite get_put. simpl.
    replace ((0 <=? wd_Serial wd) && (wd_Serial wd <? 18446744073709551616)) with true; [done|].
    symmetry. apply andb_true_iff. split; [apply Z.leb_le|apply Z.ltb_lt]; lia.
  - intros s wd. destruct s as [|[[] [] [] [] [] [] [] []] r]; try done.
    destruct (get r) as [w|]; [|done]. simpl.
    destruct ((0 <=? wd_Serial w) && (wd_Serial w <? 18446744073709551616)) eqn:E; [|done].
    intros [= <-]. bool_solve. change (2 ^ 64) with 18446744073709551616. lia.
  - intros [p g] s [= <-]. simpl. rewrite toy_cut_put. simpl. rewrite get_put. simpl.
    by rewrite string_take_app, string_drop_app.
  - by intros wd s [= <-].
Qed.

Lemma b64_plain_char c :
  b64_plain c || Ascii.eqb c "=" = true -> is_space c = false /\ is_ascii c = true.
Proof. by destruct c as [[] [] [] [] [] [] [] []]. Qed.

Lemma base64_trim `{UnicodeTables} e s :
  strings_TrimSpace (base64_Encode e s) = base64_Encode e s.
Proof.
  pose proof (base64_Encode_plain e s) as Hp. apply TrimSpace_id.
  - eapply string_forallb_mono; [|exact Hp]. intros c Hc. by apply b64_plain_char.
  - intros c Hc. destruct (base64_Encode e s) as [|d r]; [done|]. injection Hc as ->.
    simpl in Hp. apply andb_true_iff in Hp as [Hp _]. by apply b64_plain_char.
  - intros c Hc. eapply last_byte_forallb in Hc; [|exact Hp]. by apply b64_plain_char.
Qed.

Lemma toy_age_parses s id : @age_ParseX25519Identity toy_crypto s = Some id ->
  let str := "AGE-SECRET-KEY-" +:+ id in let rcpt := "age" +:+ id in
  @age_ParseX25519Identity toy_crypto (@strings_TrimSpace ascii_tables str) = Some id /\
  strings_CutPrefix "age" (@strings_TrimSpace ascii_tables rcpt) = Some id /\ rcpt <> "".
Proof.
  unfold age_ParseX25519Identity, toy_crypto. intros Hs. cbv zeta.
  destruct (strings_CutPrefix "AGE-SECRET-KEY-" s) as [id'|]; [|done].
  destruct (toy_plain id') eqn:Hp; [|done]. injection Hs as ->.
  rewrite !(@toy_plain_trim ascii_tables) by exact Hp.
  rewrite (proj2 (CutPrefix_Some "AGE-SECRET-KEY-" _ id) eq_refl), (proj2 (CutPrefix_Some "age" _ id) eq_refl), Hp.
  done.
Qed.

Lemma toy_crypto_laws : @CryptoLaws toy_crypto ascii_tables.
Proof.
  split; simpl.
  - unfold toy_key_parse. intros s k. destruct (base64_Decode _ _); [|done].
    destruct (len s0 =? 32) eqn:E; [|done]. intros [= <-]. by bool_solve.
  - done.
  - done.
  - intros k Hk. unfold toy_key_parse. by rewrite base64_Decode_Encode, Hk.
  - intros k. apply base64_trim.
  - done.
  - exact toy_age_parses.
  - intros seed rs pt ct id [= <-] Hin.
    rewrite toy_cut_put. simpl. rewrite get_put. simpl.
    apply existsb_In_eqb in Hin. by rewrite Hin.
  - intros seed rs pt ct [= <-]. unfold len. rewrite string_length_app. simpl. lia.
  - intros. apply String.eqb_refl.
  - done.
Qed.

(** ** A sample network *)

Fixpoint fill (c : ascii) (n : nat) : string :=
  match n with O => "" | S n => String c (fill c n) end.

Definition toy_key (c : ascii) : string :=
  base64_Encode StdEncoding (fill c 32).
Definition toy_priv : string :=
  base64_Encode StdEncoding (fill "p" 64).
Definition toy_pub : string :=
  base64_Encode StdEncoding (fill "p" 32).

Definition sample_node (name : string) (key : ascii) (ip age ep : string) (relay : bool) : Node :=
  {| node_Name := name; node_PublicKey := toy_key key; node_TunnelIP := ip;
     node_AgeRecipient := age; node_Endpoint := ep; node_Relay := relay;
     node_ObservedEndpoint := ""; node_ObservedAt := zero_time; node_PSK := "" |}.

Definition alpha : Node := sample_node "alpha" "a" "10.7.0.1" "age1alpha" "203.0.113.1:51820" true.
Definition beta : Node := sample_node "beta" "b" "10.7.0.2" "age1beta" "" false.
Definition phone : Node := sample_node "phone" "c" "10.7.0.3" "" "" false.

Definition sample_dir : Directory :=
  {| dir_SchemaVersion := SchemaVersion; dir_Serial := 7; dir_CreatedAt := 1000 * Second;
     dir_NetworkCIDR := "10.7.0.0/24"; dir_Domain := "vpn"; dir_Nodes := [alpha; beta; phone] |}.

(** The value of a result that succeeds. *)
Definition value {A} (d : A) (r : result A) : A := match r with Ok a => a | Err _ => d end.

Lemma value_Ok {A} (d : A) (r : result A) : is_ok r = true -> r = Ok (value d r).
Proof. by destruct r. Qed.

Lemma sample_keys_nodup : NoDup (node_PublicKey <$> dir_Nodes sample_dir).
Proof. apply (bool_decide_eq_true _). vm_compute. reflexivity. Qed.
