(* ===== verification/Nostr.v ===== *)
(** * Nostr: internal/nostr/key.go and event.go

    Key material in its two spellings (bech32 and hex), the canonical
    serialization of an event and its identifier, signing and checking.  The
    curve belongs to another package: it is the fields of [Secp], and what is
    relied on of it is [SecpLaws]; the hash is that of GoCrypto.v. *)
From stdpp Require Import base tactics option list strings gmap.
From Stdlib Require Import Ascii ZArith Lia.
From S2P Require Import Prelude GoStrings GoNum GoBase64 GoCrypto Bech32 Keys Directory Wire Toy.
Open Scope Z_scope.

(** A secret key is what btcec makes of its bytes; the x-only public key is the
    compressed encoding without its first byte. *)
Class Secp := {
  SecretKey : Type;
  PublicKey : Type;
  Signature : Type;
  btcec_PrivKeyFromBytes : string -> SecretKey;
  sk_Serialize : SecretKey -> string;
  sk_XOnly : SecretKey -> string;
  schnorr_ParsePubKey : string -> option PublicKey;
  schnorr_Sign : SecretKey -> string -> option Signature;
  sig_Serialize : Signature -> string;
  schnorr_ParseSignature : string -> option Signature;
  sig_Verify : Signature -> string -> PublicKey -> bool }.

Class SecpLaws `{Secp} : Prop := {
  sk_Serialize_32 sk : len (sk_Serialize sk) = 32;
  sk_XOnly_32 sk : len (sk_XOnly sk) = 32;
  PrivKeyFromBytes_Serialize sk : btcec_PrivKeyFromBytes (sk_Serialize sk) = sk;
  (* the x coordinate of a public key is a point, and a signature made with the
     secret key is parsed and verified under it *)
  ParsePubKey_XOnly sk : exists pk, schnorr_ParsePubKey (sk_XOnly sk) = Some pk;
  Sign_Verify sk msg sig pk :
    schnorr_Sign sk msg = Some sig -> schnorr_ParsePubKey (sk_XOnly sk) = Some pk ->
    len (sig_Serialize sig) = 64 /\
    exists sig', schnorr_ParseSignature (sig_Serialize sig) = Some sig' /\ sig_Verify sig' msg pk = true }.

Record Event := {
  ev_ID : string;
  ev_PubKey : string;
  ev_CreatedAt : Z;
  ev_Kind : Z;
  ev_Tags : list (list string);
  ev_Content : string;
  ev_Sig : string }.

(** [encoding/hex] with its error. *)
Definition hex_DecodeString (s : string) : result string :=
  of_option (errors_New "encoding/hex: invalid") (hex_Decode s).

Definition dquote : ascii := chr 34.
Definition backslash : ascii := chr 92.

(** What [writeJSONString] writes for one byte. *)
Definition json_escape (c : ascii) : string :=
  if code c =? 34 then String backslash (String dquote "")
  else if code c =? 92 then String backslash (String backslash "")
  else if code c =? 8 then String backslash "b"
  else if code c =? 9 then String backslash "t"
  else if code c =? 10 then String backslash "n"
  else if code c =? 12 then String backslash "f"
  else if code c =? 13 then String backslash "r"
  else if code c <? 32 then
    String backslash (String "u" (String "0" (String "0"
      (String (hex_digit (code c / 16)) (String (hex_digit (code c mod 16)) "")))))
  else String c "".

Fixpoint json_bytes (s : string) : string :=
  match s with
  | EmptyString => ""
  | String c s => json_escape c +:+ json_bytes s
  end.

Definition writeJSONString (s : string) : string :=
  String dquote (json_bytes s +:+ String dquote "").

(** [for i, v := range l { if i > 0 { ',' }; write(v) }] *)
Fixpoint comma_list {A} (write : A -> string) (l : list A) : string :=
  match l with
  | [] => ""
  | [v] => write v
  | v :: l => write v +:+ String "," (comma_list write l)
  end.

Definition write_tag (tag : list string) : string :=
  String "[" (comma_list writeJSONString tag +:+ String "]" "").

Definition Serialize (e : Event) : string :=
  "[0," +:+ String dquote (ev_PubKey e +:+ String dquote (String ","
    (strconv_Itoa (ev_CreatedAt e) +:+ String "," (strconv_Itoa (ev_Kind e) +:+ String ","
      (String "[" (comma_list write_tag (ev_Tags e) +:+ String "]" (String ","
        (writeJSONString (ev_Content e) +:+ String "]" "")))))))).

Fixpoint d_tag (tags : list (list string)) : string :=
  match tags with
  | [] => ""
  | (k :: v :: _) :: tags => if String.eqb k "d" then v else d_tag tags
  | _ :: tags => d_tag tags
  end.
Definition DTag (e : Event) : string := d_tag (ev_Tags e).

(** [net/url]: what is read and changed of a parsed URL. *)
Record URL := {
  url_Scheme : string;
  url_User : option string;
  url_Host : string;
  url_Path : string;
  url_RawQuery : string }.

Class UrlLib := {
  url_Parse : string -> option URL;
  url_Hostname : URL -> string;
  url_String : URL -> string }.

Definition NormalizeRelayURL `{UrlLib} `{UnicodeTables} (raw : string) : result string :=
  u ← of_option (errors_New "invalid relay url %q: %w") (url_Parse (strings_TrimSpace raw));
  guard_err (negb (String.eqb (url_Scheme u) "ws") && negb (String.eqb (url_Scheme u) "wss"))
    (errors_New "relay url %q must be ws:// or wss://")
  (guard_err (String.eqb (url_Host u) "") (errors_New "relay url %q has no host")
   (Ok (url_String
      {| url_Scheme := strings_ToLower (url_Scheme u); url_User := url_User u;
         url_Host := strings_ToLower (url_Host u); url_Path := strings_TrimSuffix (url_Path u) "/";
         url_RawQuery := url_RawQuery u |}))).

Section nostr.
Context `{Secp} `{UnicodeTables}.

Definition PublicKeyHex (sk : SecretKey) : string := hex_Encode (sk_XOnly sk).

Definition decodeKeyMaterial (s wantHRP : string) : result string :=
  raw ← (if strings_HasPrefix s (wantHRP +:+ "1") then
           '(hrp, data) ← wrap_err (fun e => Errorf "invalid %s: %w" [e]) (decodeBech32 s);
           guard_err (negb (String.eqb hrp wantHRP)) (errors_New "expected %s, got bech32 prefix %q")
           (Ok data)
         else wrap_err (fun e => Errorf "key is neither %s nor hex: %w" [e]) (hex_DecodeString s));
  guard_err (negb (len raw =? 32)) (errors_New "key must be 32 bytes, got %d")
  (Ok raw).

Definition ParseSecretKey (s : string) : result SecretKey :=
  raw ← decodeKeyMaterial (strings_TrimSpace s) "nsec";
  Ok (btcec_PrivKeyFromBytes raw).

Definition ParsePublicKey (s : string) : result string :=
  raw ← decodeKeyMaterial (strings_TrimSpace s) "npub";
  _ ← of_option (errors_New "invalid public key: %w") (schnorr_ParsePubKey raw);
  Ok (hex_Encode raw).

(** [sk] is the key btcec.NewPrivateKey draws. *)
Definition GenerateKey (sk : result SecretKey) : result (string * string) :=
  sk ← wrap_err (fun e => Errorf "generate key: %w" [e]) sk;
  nsec ← encodeBech32 "nsec" (sk_Serialize sk);
  npub ← encodeBech32 "npub" (sk_XOnly sk);
  Ok (nsec, npub).

Definition idBytes (e : Event) : string := sha256_Sum256 (Serialize e).
Definition ComputeID (e : Event) : string := hex_Encode (idBytes e).

Definition SignEvent (e : Event) (sk : SecretKey) : result Event :=
  let e := {| ev_ID := ev_ID e; ev_PubKey := PublicKeyHex sk; ev_CreatedAt := ev_CreatedAt e;
              ev_Kind := ev_Kind e; ev_Tags := ev_Tags e; ev_Content := ev_Content e; ev_Sig := ev_Sig e |} in
  let sum := idBytes e in
  sig ← of_option (errors_New "schnorr sign: %w") (schnorr_Sign sk sum);
  Ok {| ev_ID := hex_Encode sum; ev_PubKey := ev_PubKey e; ev_CreatedAt := ev_CreatedAt e;
        ev_Kind := ev_Kind e; ev_Tags := ev_Tags e; ev_Content := ev_Content e;
        ev_Sig := hex_Encode (sig_Serialize sig) |}.

(** Hex of a fixed size. *)
Definition sized_hex (n : Z) (s : string) (e : error) : result string :=
  match hex_DecodeString s with
  | Ok b => if negb (len b =? n) then Err e else Ok b
  | Err _ => Err e
  end.

Definition Verify (e : Event) : result unit :=
  id ← sized_hex 32 (ev_ID e) (errors_New "event id is not 32-byte hex");
  let sum := idBytes e in
  guard_err (negb (String.eqb id sum)) (errors_New "event id does not match its contents")
  (pkBytes ← sized_hex 32 (ev_PubKey e) (errors_New "event pubkey is not 32-byte hex");
   pk ← of_option (errors_New "parse event pubkey: %w") (schnorr_ParsePubKey pkBytes);
   sigBytes ← sized_hex 64 (ev_Sig e) (errors_New "event sig is not 64-byte hex");
   sig ← of_option (errors_New "parse event sig: %w") (schnorr_ParseSignature sigBytes);
   guard_err (negb (sig_Verify sig sum pk)) (errors_New "event signature verification failed")
   (Ok tt)).
End nostr.

(** ** The serialization is injective *)

(** Reads one escaped byte back. *)
Definition json_unescape (s : string) : option (ascii * string) :=
  match s with
  | String c r =>
      if Ascii.eqb c backslash then
        match r with
        | String k r =>
            if Ascii.eqb k "b" then Some (chr 8, r) else if Ascii.eqb k "t" then Some (chr 9, r)
            else if Ascii.eqb k "n" then Some (chr 10, r) else if Ascii.eqb k "f" then Some (chr 12, r)
            else if Ascii.eqb k "r" then Some (chr 13, r)
            else if Ascii.eqb k "u" then
              match r with
              | String _ (String _ (String a (String b r))) =>
                  x ← hex_nibble a; y ← hex_nibble b; Some (chr (x * 16 + y), r)
              | _ => None
              end
            else Some (k, r)
        | EmptyString => None
        end
      else Some (c, r)
  | EmptyString => None
  end.

Lemma json_unescape_escape c x : json_unescape (json_escape c +:+ x) = Some (c, x).
Proof. by destruct c as [[] [] [] [] [] [] [] []]. Qed.

Lemma json_escape_head c x y : json_escape c +:+ x <> String dquote y.
Proof. by destruct c as [[] [] [] [] [] [] [] []]. Qed.

Lemma json_bytes_inj s : forall t x y,
  json_bytes s +:+ String dquote x = json_bytes t +:+ String dquote y -> s = t /\ x = y.
Proof.
  induction s as [|c s IH]; intros [|d t] x y E; cbn [json_bytes] in E.
  - rewrite !string_app_nil in E. by injection E as ->.
  - rewrite <- string_app_assoc in E. symmetry in E. by apply json_escape_head in E.
  - rewrite <- string_app_assoc in E. by apply json_escape_head in E.
  - rewrite <- !string_app_assoc in E. apply (f_equal json_unescape) in E.
    rewrite !json_unescape_escape in E. injection E as -> E. by apply IH in E as [-> ->].
Qed.

Definition writes_uniquely {A} (write : A -> string) : Prop :=
  forall a b x y, write a +:+ x = write b +:+ y -> a = b /\ x = y.

Definition starts_with {A} (c : ascii) (write : A -> string) : Prop :=
  forall a, exists r, write a = String c r.

Lemma writeJSONString_unique : writes_uniquely writeJSONString.
Proof.
  intros s t x y E. unfold writeJSONString in E. rewrite !string_app_cons, <- !string_app_assoc in E.
  injection E as E. rewrite !string_app_cons, !string_app_nil in E. by apply json_bytes_inj in E.
Qed.

Lemma String_tail c d s t : String c s = String d t -> s = t.
Proof. congruence. Qed.

Lemma comma_list_cons {A} (write : A -> string) v l :
  comma_list write (v :: l) = write v +:+ match l with [] => "" | _ => String "," (comma_list write l) end.
Proof. destruct l; [|done]. simpl. by rewrite string_app_nil_r. Qed.

Lemma comma_list_unique {A} (write : A -> string) c :
  writes_uniquely write -> starts_with c write -> c <> "]"%char ->
  forall l k x y, comma_list write l +:+ String "]" x = comma_list write k +:+ String "]" y -> l = k /\ x = y.
Proof.
  intros Hw Hs Hc. assert (Hne : forall v l z y, comma_list write (v :: l) +:+ z <> String "]" y).
  { intros v l z y. rewrite comma_list_cons. destruct (Hs v) as (r & ->). rewrite !string_app_cons. congruence. }
  induction l as [|v l IH]; intros [|w k] x y E.
  - rewrite !string_app_nil in E. by injection E as ->.
  - symmetry in E. by apply Hne in E.
  - by apply Hne in E.
  - rewrite !comma_list_cons, <- !string_app_assoc in E. apply Hw in E as [-> E].
    destruct l as [|v' l], k as [|w' k]; rewrite ?string_app_nil, ?string_app_cons in E.
    + by injection E as ->.
    + discriminate E.
    + discriminate E.
    + apply String_tail in E. by apply IH in E as [-> ->].
Qed.

Lemma write_tag_unique : writes_uniquely write_tag.
Proof.
  intros a b x y E. unfold write_tag in E. rewrite !string_app_cons, <- !string_app_assoc in E.
  injection E as E. rewrite !string_app_cons, !string_app_nil in E.
  eapply (comma_list_unique _ dquote) in E; [done|exact writeJSONString_unique| |discriminate].
  intros s. by eexists.
Qed.

(** What the identifier commits to. *)
Definition same_event (e f : Event) : Prop :=
  ev_PubKey e = ev_PubKey f /\ ev_CreatedAt e = ev_CreatedAt f /\ ev_Kind e = ev_Kind f /\
  ev_Tags e = ev_Tags f /\ ev_Content e = ev_Content f.

Lemma Itoa_comma n m x y : int64 n -> int64 m ->
  strconv_Itoa n +:+ String "," x = strconv_Itoa m +:+ String "," y -> n = m /\ x = y.
Proof.
  intros Hn Hm E. apply cut_unique in E as [E ->]; [|by apply Itoa_lacks..].
  by apply Itoa_inj in E.
Qed.

Lemma Serialize_inj e f :
  int64 (ev_CreatedAt e) -> int64 (ev_CreatedAt f) -> int64 (ev_Kind e) -> int64 (ev_Kind f) ->
  lacks dquote (ev_PubKey e) = true -> lacks dquote (ev_PubKey f) = true ->
  Serialize e = Serialize f -> same_event e f.
Proof.
  intros Hce Hcf Hke Hkf Hpe Hpf E. unfold Serialize in E.
  rewrite !string_app_cons, !string_app_nil in E. injection E as E.
  apply cut_unique in E as [Ep E]; [|done|done]. injection E as E.
  apply Itoa_comma in E as [Ec E]; [|done|done]. apply Itoa_comma in E as [Ek E]; [|done|done].
  injection E as E. eapply (comma_list_unique _ "[") in E as [Et E];
    [|exact write_tag_unique|by eexists|discriminate].
  apply String_tail in E. apply writeJSONString_unique in E as [Ect _]. by split_and!.
Qed.

Lemma sized_hex_Ok n s e b : sized_hex n s e = Ok b <-> hex_Decode s = Some b /\ len b = n.
Proof.
  unfold sized_hex, hex_DecodeString. destruct (hex_Decode s) as [b'|]; simpl; [|naive_solver].
  destruct (len b' =? n) eqn:E; simpl; bool_solve; naive_solver.
Qed.

Lemma sized_hex_Encode n b e : len b = n -> sized_hex n (hex_Encode b) e = Ok b.
Proof. intros Hb. apply sized_hex_Ok. by rewrite hex_Decode_Encode. Qed.

Lemma hex_plain b : string_forallb plain_lower (hex_Encode b) = true /\
  string_forallb (fun c => negb (is_space c)) (hex_Encode b) = true.
Proof.
  assert (Hc : forall c, let ok d := plain_lower d && negb (is_space d) in
    ok (hex_digit (code c / 16)) && ok (hex_digit (code c mod 16)) = true)
    by (intros c; by destruct c as [[] [] [] [] [] [] [] []]).
  induction b as [|c b [IH1 IH2]]; [done|]. cbn [hex_Encode string_forallb].
  specialize (Hc c). cbv zeta in Hc. apply andb_true_iff in Hc as [[-> ->]%andb_true_iff [-> ->]%andb_true_iff].
  by rewrite IH1, IH2.
Qed.

Section nostr_laws.
Context `{SecpLaws} `{UnicodeTables}.

Lemma Verify_Ok e :
  Verify e = Ok tt <->
  exists pkb pk sgb sg, hex_Decode (ev_ID e) = Some (idBytes e) /\
    hex_Decode (ev_PubKey e) = Some pkb /\ len pkb = 32 /\ schnorr_ParsePubKey pkb = Some pk /\
    hex_Decode (ev_Sig e) = Some sgb /\ len sgb = 64 /\ schnorr_ParseSignature sgb = Some sg /\
    sig_Verify sg (idBytes e) pk = true.
Proof.
  unfold Verify. split.
  - intros (id & [Hid Hl]%sized_hex_Ok & Hv)%bind_Ok. cbv zeta in Hv.
    apply guard_err_Ok in Hv as [Heq Hv]. bool_solve. subst id.
    apply bind_Ok in Hv as (pkb & [Hpk Hpl]%sized_hex_Ok & Hv).
    apply bind_Ok in Hv as (pk & Hp%of_option_Ok & Hv).
    apply bind_Ok in Hv as (sgb & [Hsg Hsl]%sized_hex_Ok & Hv).
    apply bind_Ok in Hv as (sg & Hs%of_option_Ok & Hv). apply guard_err_Ok in Hv as [Hv _].
    apply negb_false_iff in Hv. by exists pkb, pk, sgb, sg.
  - intros (pkb & pk & sgb & sg & Hid & Hpk & Hpl & Hp & Hsg & Hsl & Hs & Hv).
    rewrite (proj2 (sized_hex_Ok 32 (ev_ID e) _ (idBytes e))) by (split; [done|unfold len, idBytes; by rewrite sha256_length]).
    cbn [mbind result_bind]. rewrite String.eqb_refl. cbn [negb guard_err].
    rewrite (proj2 (sized_hex_Ok 32 (ev_PubKey e) _ pkb)) by done. cbn [mbind result_bind]. rewrite Hp.
    cbn [mbind result_bind of_option]. rewrite (proj2 (sized_hex_Ok 64 (ev_Sig e) _ sgb)) by done.
    cbn [mbind result_bind]. rewrite Hs. cbn [mbind result_bind of_option]. by rewrite Hv.
Qed.

Lemma SignEvent_verifies e sk e' :
  SignEvent e sk = Ok e' -> Verify e' = Ok tt /\ ev_PubKey e' = PublicKeyHex sk /\
    ev_CreatedAt e' = ev_CreatedAt e /\ ev_Kind e' = ev_Kind e /\ ev_Tags e' = ev_Tags e /\
    ev_Content e' = ev_Content e /\ ev_ID e' = ComputeID e'.
Proof.
  unfold SignEvent. cbv zeta. intros (sg & Hs%of_option_Ok & [= <-])%bind_Ok.
  split; [|by split_and!]. destruct (ParsePubKey_XOnly sk) as (pk & Hpk).
  destruct (Sign_Verify _ _ _ _ Hs Hpk) as (Hl & sg' & Hp & Hv). apply Verify_Ok.
  exists (sk_XOnly sk), pk, (sig_Serialize sg), sg'. unfold idBytes, Serialize in *.
  cbn [ev_ID ev_PubKey ev_CreatedAt ev_Kind ev_Tags ev_Content ev_Sig] in *. unfold PublicKeyHex in *.
  rewrite !hex_Decode_Encode. split_and!; try done. apply sk_XOnly_32.
Qed.

(** Two serializations that collide under the hash are the same. *)
Definition no_collision (e f : Event) : Prop :=
  idBytes e = idBytes f -> Serialize e = Serialize f.

Definition typed_event (e : Event) : Prop := int64 (ev_CreatedAt e) /\ int64 (ev_Kind e).

Lemma Verify_binds e f :
  typed_event e -> typed_event f -> no_collision e f ->
  Verify e = Ok tt -> Verify f = Ok tt -> ev_ID e = ev_ID f -> same_event e f.
Proof.
  intros [Hce Hke] [Hcf Hkf] Hn (pk1 & _ & _ & _ & Hid & Hp1 & _)%Verify_Ok
    (pk2 & _ & _ & _ & Hid' & Hp2 & _)%Verify_Ok E.
  apply Serialize_inj; try done; try (eapply hex_Decode_lacks; [reflexivity|eassumption]).
  apply Hn. congruence.
Qed.

(** *** Keys *)

Lemma TrimSpace_plain s :
  string_forallb plain_lower s = true -> string_forallb (fun c => negb (is_space c)) s = true ->
  strings_TrimSpace s = s.
Proof.
  intros Hp Hs. apply TrimSpace_id.
  - eapply string_forallb_mono; [|exact Hp]. by intros c [? _]%andb_true_iff.
  - intros c Hc. destruct s as [|d s]; [done|]. injection Hc as ->. simpl in Hs.
    apply andb_true_iff in Hs as [Hs _]. by apply negb_true_iff.
  - intros c Hc. apply negb_true_iff. by apply (last_byte_forallb _ _ _ Hs) in Hc.
Qed.

Lemma decodeKeyMaterial_hex raw hrp :
  len raw = 32 -> strings_HasPrefix (hex_Encode raw) (hrp +:+ "1") = false ->
  decodeKeyMaterial (hex_Encode raw) hrp = Ok raw.
Proof.
  intros Hl Hp. unfold decodeKeyMaterial. rewrite Hp. unfold hex_DecodeString.
  rewrite hex_Decode_Encode. cbn. by rewrite Hl.
Qed.

Lemma decodeKeyMaterial_bech32 raw hrp s :
  hrp <> "" -> string_forallb plain_lower hrp = true -> len hrp <= 64 ->
  len raw = 32 -> encodeBech32 hrp raw = Ok s -> decodeKeyMaterial s hrp = Ok raw.
Proof.
  intros Hne Hlow Hh Hl He. unfold decodeKeyMaterial.
  destruct (encodeBech32_shape hrp raw) as (p & d & Hp & Hs). rewrite He in Hs. injection Hs as Hs.
  assert (Hpre : strings_HasPrefix s (hrp +:+ "1") = true).
  { rewrite Hs. match goal with |- context [String "1" ?t] => replace (hrp +:+ String "1" t)
      with ((hrp +:+ "1") +:+ t) by (by rewrite <- string_app_assoc) end. apply HasPrefix_app. }
  rewrite Hpre, (decode_encode hrp raw s); try done.
  - cbn. rewrite String.eqb_refl. cbn. by rewrite Hl.
  - rewrite (encoded_length _ _ _ He), Hl. change ((8 * 32 + 4) / 5) with 52. lia.
Qed.

Lemma encoded_trim raw hrp s :
  string_forallb plain_lower hrp = true -> string_forallb (fun c => negb (is_space c)) hrp = true ->
  encodeBech32 hrp raw = Ok s -> strings_TrimSpace s = s.
Proof.
  intros Hlow Hsp He. destruct (encodeBech32_shape hrp raw) as (p & d & Hp & Hs). rewrite He in Hs.
  injection Hs as ->. assert (Hd : Forall five_bit (d ++ bech32Checksum hrp d))
    by (apply Forall_app; split; [apply Hp|apply checksum_five_bit]).
  apply TrimSpace_plain; rewrite forallb_app; cbn [string_forallb].
  - rewrite Hlow. simpl. by apply chars_plain.
  - rewrite Hsp. simpl. clear -Hd. induction Hd as [|v l Hv _ IH]; [done|]. rewrite chars_cons. cbn [string_forallb].
    rewrite IH, andb_true_r. revert v Hv. apply (all_below 32 (fun v => negb (is_space (charset_char v)))). reflexivity.
Qed.
End nostr_laws.

(** ** Properties *)

Section properties.
Context `{SecpLaws} `{UnicodeTables}.

(** The keys [GenerateKey] hands out are read back: the nsec parses to the
    secret key that was drawn and the npub, like the hex form, to its public
    key. *)
Theorem GenerateKey_parses sk nsec npub :
  GenerateKey (Ok sk) = Ok (nsec, npub) ->
  ParseSecretKey nsec = Ok sk /\ ParsePublicKey npub = Ok (PublicKeyHex sk).
Proof.
  intros (sk' & [= <-]%wrap_err_Ok & (ns & Hs & (np & Hp & [= <- <-])%bind_Ok)%bind_Ok)%bind_Ok. split.
  - unfold ParseSecretKey. rewrite (encoded_trim _ "nsec") by done.
    rewrite (decodeKeyMaterial_bech32 (sk_Serialize sk)) by (try done; apply sk_Serialize_32).
    cbn. by rewrite PrivKeyFromBytes_Serialize.
  - unfold ParsePublicKey. rewrite (encoded_trim _ "npub") by done.
    rewrite (decodeKeyMaterial_bech32 (sk_XOnly sk)) by (try done; apply sk_XOnly_32).
    destruct (ParsePubKey_XOnly sk) as (pk & Hpk). cbn. by rewrite Hpk.
Qed.

(** The identifier binds the contents: two events that both verify and
    carry the same identifier agree on author, time, kind, tags and content
    (unless their serializations collide under SHA-256); the hand-written
    serialization loses nothing. *)
Theorem Verify_binds_contents e f :
  typed_event e -> typed_event f -> no_collision e f ->
  Verify e = Ok tt -> Verify f = Ok tt -> ev_ID e = ev_ID f -> same_event e f.
Proof. apply Verify_binds. Qed.

(** What [SignEvent] signs verifies, under the signer's public key, with
    nothing but identity and signature changed. *)
Theorem SignEvent_Verify e sk e' :
  SignEvent e sk = Ok e' -> Verify e' = Ok tt /\ ev_PubKey e' = PublicKeyHex sk /\
    ev_ID e' = ComputeID e' /\ ev_CreatedAt e' = ev_CreatedAt e /\ ev_Kind e' = ev_Kind e /\
    ev_Tags e' = ev_Tags e /\ ev_Content e' = ev_Content e.
Proof. intros Hs. apply SignEvent_verifies in Hs. naive_solver. Qed.
End properties.

(** ** Samples *)

(** A curve of 256 keys, and a digest that keeps the last 32 bytes. *)
Definition toy_sig (sk : ascii) (msg : string) : string := string_take 64 (String sk msg +:+ fill "0" 64).

Definition toy_secp : Secp := {|
  SecretKey := ascii; PublicKey := ascii; Signature := string;
  btcec_PrivKeyFromBytes s := default zero (first_byte s);
  sk_Serialize c := fill c 32;
  sk_XOnly c := fill c 32;
  schnorr_ParsePubKey s := first_byte s;
  schnorr_Sign sk msg := Some (toy_sig sk msg);
  sig_Serialize s := s;
  schnorr_ParseSignature s := Some s;
  sig_Verify s msg pk := String.eqb s (toy_sig pk msg) |}.

Lemma len_take_fill n s : len (string_take n (s +:+ fill "0" n)) = Z.of_nat n.
Proof.
  assert (Hf : forall c m, String.length (fill c m) = m) by (induction m; simpl; congruence).
  unfold len. rewrite string_length_take; [done|]. rewrite string_length_app, Hf. lia.
Qed.

Lemma toy_secp_laws : @SecpLaws toy_secp.
Proof.
  split; simpl.
  - reflexivity.
  - reflexivity.
  - reflexivity.
  - eauto.
  - intros sk msg sg pk [= <-] [= <-]. split; [apply (len_take_fill 64)|].
    eexists. split; [done|]. apply String.eqb_refl.
Qed.

Section samples.
#[local] Existing Instances toy_secp toy_secp_laws ascii_tables.

Definition toy_sk : @SecretKey toy_secp := "k"%char.

Definition draft (at_ : Z) (content : string) : Event :=
  {| ev_ID := ""; ev_PubKey := ""; ev_CreatedAt := at_; ev_Kind := 30078;
     ev_Tags := [["d"; "_tincan"]]; ev_Content := content; ev_Sig := "" |}.

Definition signed (at_ : Z) (content : string) : Event :=
  value (draft at_ content) (SignEvent (draft at_ content) toy_sk).

Lemma GenerateKey_parses_witness : let ks := value ("", "") (GenerateKey (Ok toy_sk)) in
  ParseSecretKey (fst ks) = Ok toy_sk.
Proof.
  intros ks. apply (GenerateKey_parses toy_sk (fst ks) (snd ks)).
  vm_compute. reflexivity.
Defined.

Lemma SignEvent_Verify_witness : Verify (signed 5 "hello") = Ok tt.
Proof. apply (SignEvent_Verify (draft 5 "hello") toy_sk). apply value_Ok. vm_compute. reflexivity. Defined.

(** The same event with its signature respelled. *)
Definition respelled (e : Event) : Event :=
  {| ev_ID := ev_ID e; ev_PubKey := ev_PubKey e; ev_CreatedAt := ev_CreatedAt e; ev_Kind := ev_Kind e;
     ev_Tags := ev_Tags e; ev_Content := ev_Content e; ev_Sig := strings_ToUpper (ev_Sig e) |}.

Lemma Verify_binds_contents_witness :
  let e := signed 5 "hello" in ev_Sig e <> ev_Sig (respelled e) /\ same_event e (respelled e).
Proof.
  intros e. split; [vm_compute; discriminate|].
  apply Verify_binds_contents; try (split; vm_compute; split; discriminate); try (vm_compute; reflexivity).
Defined.
End samples.
