(* ===== verification/NostrWire.v ===== *)
(** * NostrWire: what a relay is sent and what it sends, as JSON

    The struct tags of internal/nostr/event.go and relay.go: an event and a filter as
    objects, a message as an array that starts with its type.  Every message the
    package writes is read back, by readMessage or by a relay that reads as it
    does. *)
From stdpp Require Import base tactics option list strings gmap.
From Stdlib Require Import Ascii ZArith Lia.
From S2P Require Import Prelude GoStrings GoNum GoBase64 GoUtf8 GoJson JsonBind Nostr.
Open Scope Z_scope.

Record Filter := { f_Authors : list string; f_Kinds : list Z; f_DTags : list string; f_Limit : Z }.

(** ** Events *)

Definition eta_Event (e : Event) : Event := {|
  ev_ID := ev_ID e; ev_PubKey := ev_PubKey e; ev_CreatedAt := ev_CreatedAt e; ev_Kind := ev_Kind e; ev_Tags := ev_Tags e;
  ev_Content := ev_Content e; ev_Sig := ev_Sig e |}.
Definition zero_event : Event :=
  {| ev_ID := ""; ev_PubKey := ""; ev_CreatedAt := 0; ev_Kind := 0; ev_Tags := []; ev_Content := ""; ev_Sig := "" |}.

Definition event_fields : list (field Event) := [
  ("id", into_string ltac:(setter eta_Event ev_ID)); ("pubkey", into_string ltac:(setter eta_Event ev_PubKey));
  ("created_at", into_int ltac:(setter eta_Event ev_CreatedAt)); ("kind", into_int ltac:(setter eta_Event ev_Kind));
  ("tags", into_slice ev_Tags ltac:(setter eta_Event ev_Tags) [] the_strings);
  ("content", into_string ltac:(setter eta_Event ev_Content)); ("sig", into_string ltac:(setter eta_Event ev_Sig))].

Definition event_members (e : Event) : list (string * json) :=
  member "id" (JStr (ev_ID e)) ++ member "pubkey" (JStr (ev_PubKey e)) ++ member "created_at" (json_int (ev_CreatedAt e)) ++
  member "kind" (json_int (ev_Kind e)) ++ member "tags" (json_list (json_list JStr) (ev_Tags e)) ++
  member "content" (JStr (ev_Content e)) ++ member "sig" (JStr (ev_Sig e)) ++ [].

Definition filter_members (f : Filter) : list (string * json) :=
  omit_list "authors" JStr (f_Authors f) ++ omit_list "kinds" json_int (f_Kinds f) ++ omit_list "#d" JStr (f_DTags f) ++
  omit_int "limit" (f_Limit f).

(** ** Messages *)

(** An element of a message, parsed: what decoding it is asked of. *)
Definition RawMessage : Type := json.

Section wire.
Context `{UnicodeTables}.

Definition json_Array (data : string) : option (list RawMessage) :=
  json_Unmarshal (into_slice id (fun l _ => l) JNull (fun v _ => Some v)) data [].
Definition json_String (raw : RawMessage) : option string := the_string raw "".
Definition json_Bool (raw : RawMessage) : option bool := the_bool raw false.
Definition json_Event (raw : RawMessage) : option Event := into_struct event_fields raw zero_event.

Definition event_message (e : Event) : json := JArr [JStr "EVENT"; JObj (event_members e)].
Definition json_EVENT (e : Event) : result string := Ok (json_Marshal (event_message e)).
Definition json_REQ (subID : string) (f : Filter) : result string :=
  Ok (json_Marshal (JArr [JStr "REQ"; JStr subID; JObj (filter_members f)])).

(** What [readMessage] makes of one message: [None] when it skips it. *)
Definition readFrame (data : string) : option (string * list RawMessage) :=
  raw ← json_Array data;
  match raw with
  | [] => None
  | r0 :: _ => typ ← json_String r0; Some (typ, raw)
  end.

(** The event a message carries, as a relay reads it. *)
Definition sent_event (msg : string) : option Event :=
  '(typ, raw) ← readFrame msg;
  if String.eqb typ "EVENT" then raw !! 1%nat ≫= json_Event else None.

(** ** What is written is read *)

Definition clean_event (e : Event) : Event := {|
  ev_ID := clean (ev_ID e); ev_PubKey := clean (ev_PubKey e); ev_CreatedAt := ev_CreatedAt e; ev_Kind := ev_Kind e;
  ev_Tags := map (map clean) (ev_Tags e); ev_Content := clean (ev_Content e); ev_Sig := clean (ev_Sig e) |}.
Definition event_ranges (e : Event) : Prop := int64 (ev_CreatedAt e) /\ int64 (ev_Kind e).

Lemma json_strings_read l old : the_strings (json_clean (json_list JStr l)) old = Some (map clean l).
Proof. destruct l as [|s l]; [done|]. cbn. by rewrite into_strings_clean. Qed.

Lemma tags_read l : forall old, into_elements [] the_strings (map json_clean (map (json_list JStr) l)) old = Some (map (map clean) l).
Proof. induction l as [|t l IH]; intros old; [done|]. cbn [map into_elements]. rewrite json_strings_read. cbn. by rewrite IH. Qed.

Lemma json_tags_good l : good 2 (json_list (json_list JStr) l).
Proof.
  destruct l as [|t l]; [by apply good_null|]. apply (good_array 1); [done|].
  assert (Ht : forall t, good 1 (json_list JStr t)) by (intros [|? ?]; [by apply good_null|apply good_strings]).
  cbn [map]. constructor; [apply Ht|]. induction l; constructor; [apply Ht|done].
Qed.

Lemma event_good e : event_ranges e -> good 3 (JObj (event_members e)).
Proof.
  intros [Hc Hk]. apply (good_object 2); [done|]. unfold event_members, int64 in *. repeat apply goods_app; auto with good.
  apply goods_member, json_tags_good.
Qed.

Lemma json_Event_read e : event_ranges e -> json_Event (json_clean (JObj (event_members e))) = Some (clean_event e).
Proof.
  intros [Hc Hk]. unfold int64 in *. change (into_members event_fields (clean_members (event_members e)) zero_event = Some (clean_event e)).
  unfold event_members. read_struct.
  erewrite read_member by reflexivity. cbn [snd].
  etransitivity; [|unfold clean_event; reflexivity].
  destruct (ev_Tags e) as [|t l] eqn:Et.
  - cbn [json_list json_clean into_slice mbind option_bind]. read_struct. reflexivity.
  - cbn [json_list json_clean into_slice]. rewrite tags_read. cbn [mbind option_bind]. read_struct. reflexivity.
Qed.

(** A message whose parts are within the limits. *)
Lemma readFrame_message typ vs : Forall (good 3) vs ->
  readFrame (json_Marshal (JArr (JStr typ :: vs))) = Some (clean typ, map json_clean (JStr typ :: vs)).
Proof.
  intros Hv. assert (Hg : good (1 + 3) (JArr (JStr typ :: vs))) by (apply good_array; [done|]; constructor; [by apply good_string|done]).
  unfold readFrame, json_Array. rewrite (proj1 (Unmarshal_text _ (1 + 3) _ _ "" Hg ltac:(done) ltac:(done))). cbn [json_clean into_slice].
  assert (He : forall ws old, into_elements JNull (fun v _ => Some v) ws old = Some ws).
  { induction ws as [|w ws IH]; intros old; [done|]. cbn. by rewrite IH. }
  rewrite He. cbn [mbind option_bind map]. done.
Qed.

Lemma sent_event_EVENT e msg : event_ranges e -> json_EVENT e = Ok msg -> sent_event msg = Some (clean_event e).
Proof.
  intros He [= <-]. unfold sent_event. change (event_message e) with (JArr (JStr "EVENT" :: [JObj (event_members e)])).
  rewrite readFrame_message by (constructor; [by apply event_good|constructor]). cbn [mbind option_bind map lookup list_lookup].
  change (clean "EVENT") with "EVENT". apply json_Event_read, He.
Qed.

(** ** Events whose texts are UTF-8 *)

Definition event_utf8 (e : Event) : Prop :=
  Forall (fun s => utf8_Valid s = true) ([ev_ID e; ev_PubKey e; ev_Content e; ev_Sig e] ++ concat (ev_Tags e)).

Lemma clean_tags l : Forall (fun s => utf8_Valid s = true) (concat l) -> map (map clean) l = l.
Proof. induction l as [|t l IH]; [done|]. cbn [concat]. intros [Ht Hl]%Forall_app. cbn [map]. by rewrite clean_all, IH. Qed.

Lemma clean_event_id e : event_utf8 e -> clean_event e = e.
Proof.
  intros [Hs Ht]%Forall_app. repeat (apply Forall_cons in Hs as [? Hs]). unfold clean_event. rewrite !clean_valid, clean_tags by done.
  by destruct e.
Qed.

Lemma sent_event_id e msg : event_ranges e -> event_utf8 e -> json_EVENT e = Ok msg -> sent_event msg = Some e.
Proof. intros Hr Hu Hm. rewrite (sent_event_EVENT e msg Hr Hm). by rewrite clean_event_id. Qed.

Lemma hex_utf8 b : utf8_Valid (hex_Encode b) = true.
Proof.
  apply ascii_valid. eapply string_forallb_mono; [|apply (proj1 (hex_plain b))]. intros c. by destruct c as [[] [] [] [] [] [] [] []].
Qed.

(** ** Filters *)

(** A filter that reads as it was written. *)
Definition wire_filter (f : Filter) : Prop :=
  Forall (fun s => utf8_Valid s = true) (f_Authors f ++ f_DTags f) /\ Forall int64 (f_Kinds f) /\ int64 (f_Limit f).

Lemma filter_good f : wire_filter f -> good 3 (JObj (filter_members f)).
Proof.
  intros (_ & Hk & Hl). apply (good_object 2); [done|]. unfold filter_members, int64 in *. repeat apply goods_app; auto with good.
  - apply goods_omit, (good_weaken 1); [lia|]. apply good_strings.
  - apply goods_omit, (good_weaken 1); [lia|]. apply (good_array 0); [done|]. induction Hk; constructor; auto with good.
  - apply goods_omit, (good_weaken 1); [lia|]. apply good_strings.
Qed.

Lemma REQ_no_event sub f msg : wire_filter f -> json_REQ sub f = Ok msg -> sent_event msg = None.
Proof.
  intros Hf [= <-]. unfold sent_event. rewrite readFrame_message; [reflexivity|].
  constructor; [by apply good_string|]. constructor; [by apply filter_good|constructor].
Qed.
End wire.

#[global] Opaque json_Array json_String json_Bool json_Event json_EVENT json_REQ.
