(* ===== verification/Codec.v ===== *)
(** * Codec: internal/directory/codec.go, the sealed directory

    The compact wire form of a node, marshalling, and the [Seal]/[Open] pair
    every blob on a drop goes through.  The msgpack encoding is another
    package: the class [Msgpack] of Wire.v.  The clock and the
    randomness of age are arguments.  [age.Decrypt] and the read of its stream
    fail with different messages; here both are the failure of [age_Decrypt]. *)
From stdpp Require Import base tactics option list strings gmap.
From Stdlib Require Import Ascii ZArith Lia.
From S2P Require Import Prelude GoStrings GoNum GoNet GoBase64 Keys Directory DnsName Validate Wire Toy.
Open Scope Z_scope.

Definition Stamp (now : Time) : Time := time_Truncate now Second.

(** The four bytes of an address, and back. *)
Definition addr_As4 (ip : Z) : string :=
  String (chr (octet ip 24)) (String (chr (octet ip 16))
    (String (chr (octet ip 8)) (String (chr (octet ip 0)) ""))).

Definition netip_AddrFrom4 (a b c d : ascii) : Z :=
  ((code a * 256 + code b) * 256 + code c) * 256 + code d.

Definition signingDomain : string := "tincan directory v2 signature" +:+ String (chr 0) "".

Definition signingBytes (payload : string) : string := signingDomain +:+ payload.

Definition MaxBlobSize : Z := Z.shiftl 4 20.

Section codec.
Context `{CryptoLib} `{UnicodeTables} `{Msgpack}.

Definition toWire (n : Node) : result wireNode :=
  pk ← wrap_err (fun e => Errorf "encode node %q: %w" [e]) (WGKeyToBytes (node_PublicKey n));
  ip ← of_option (errors_New "encode node %q: tunnel IP %q is not IPv4")
         (parse_is4 (node_TunnelIP n));
  psk ← (if String.eqb (node_PSK n) "" then Ok ""
         else wrap_err (fun e => Errorf "encode node %q PSK: %w" [e]) (WGKeyToBytes (node_PSK n)));
  Ok {| wire_Name := node_Name n; wire_PublicKey := pk; wire_TunnelIP := addr_As4 ip;
        wire_AgeRecipient := node_AgeRecipient n; wire_Endpoint := node_Endpoint n;
        wire_Relay := node_Relay n; wire_ObservedEndpoint := node_ObservedEndpoint n;
        wire_ObservedAt := node_ObservedAt n; wire_PSK := psk |}.

Definition fromWire (w : wireNode) : result Node :=
  pk ← wrap_err (fun e => Errorf "decode node %q: %w" [e]) (WGKeyFromBytes (wire_PublicKey w));
  match wire_TunnelIP w with
  | String a (String b (String c (String d EmptyString))) =>
      psk ← (if 0 <? len (wire_PSK w)
             then wrap_err (fun e => Errorf "decode node %q PSK: %w" [e])
                    (WGKeyFromBytes (wire_PSK w))
             else Ok "");
      Ok {| node_Name := wire_Name w; node_PublicKey := pk;
            node_TunnelIP := ipv4_String (netip_AddrFrom4 a b c d);
            node_AgeRecipient := wire_AgeRecipient w; node_Endpoint := wire_Endpoint w;
            node_Relay := wire_Relay w; node_ObservedEndpoint := wire_ObservedEndpoint w;
            node_ObservedAt := wire_ObservedAt w; node_PSK := psk |}
  | _ => Err (errors_New "decode node %q: tunnel IP is %d bytes, want 4")
  end.

(** The nodes are converted one after the other, the first error ending it. *)
Fixpoint mapR {A B} (f : A -> result B) (l : list A) : result (list B) :=
  match l with
  | [] => Ok []
  | x :: r => y ← f x; ys ← mapR f r; Ok (y :: ys)
  end.

Definition msgpack_Marshal (dir : Directory) : result string :=
  ns ← mapR toWire (dir_Nodes dir);
  of_option (errors_New "msgpack: marshal")
    (msgpack_MarshalDirectory
       {| wd_SchemaVersion := dir_SchemaVersion dir; wd_Serial := dir_Serial dir;
          wd_CreatedAt := dir_CreatedAt dir; wd_NetworkCIDR := dir_NetworkCIDR dir;
          wd_Domain := dir_Domain dir; wd_Nodes := ns |}).

Definition msgpack_Unmarshal (data : string) : result Directory :=
  wd ← of_option (errors_New "msgpack: unmarshal") (msgpack_UnmarshalDirectory data);
  ns ← mapR fromWire (wd_Nodes wd);
  Ok {| dir_SchemaVersion := wd_SchemaVersion wd; dir_Serial := wd_Serial wd;
        dir_CreatedAt := wd_CreatedAt wd; dir_NetworkCIDR := wd_NetworkCIDR wd;
        dir_Domain := wd_Domain wd; dir_Nodes := ns |}.

(** What [MarshalPlain] does to its copy of the directory before marshalling. *)
Definition marshal_header (now : Time) (dir : Directory) : Directory :=
  {| dir_SchemaVersion := SchemaVersion; dir_Serial := dir_Serial dir;
     dir_CreatedAt := if time_IsZero (dir_CreatedAt dir) then Stamp now else dir_CreatedAt dir;
     dir_NetworkCIDR := dir_NetworkCIDR dir; dir_Domain := dir_Domain dir;
     dir_Nodes := dir_Nodes dir |}.

Definition MarshalPlain (now : Time) (dir : Directory) : result string :=
  let dir := marshal_header now dir in
  _ ← Validate dir;
  msgpack_Marshal dir.

Definition UnmarshalPlain (data : string) : result Directory :=
  dir ← wrap_err (fun e => Errorf "decode directory: %w" [e]) (msgpack_Unmarshal data);
  _ ← Validate dir;
  Ok dir.

Fixpoint recipients_loop (nodes : list Node) (recipients : list string) : result (list string) :=
  match nodes with
  | [] => Ok recipients
  | n :: rest =>
      if String.eqb (node_AgeRecipient n) "" then recipients_loop rest recipients
      else r ← wrap_err (fun e => Errorf "node %q: %w" [e]) (ParseAgeRecipient (node_AgeRecipient n));
           recipients_loop rest (recipients ++ [r])
  end.

Definition recipientsOf (dir : Directory) : result (list string) :=
  recipients_loop (dir_Nodes dir) [].

Definition Seal (now seed : Z) (dir : Directory) (publisherPrivateKey : string) : result string :=
  payload ← MarshalPlain now dir;
  recipients ← recipientsOf dir;
  guard_err (Nat.eqb (length recipients) 0) (errors_New "directory has no age recipients to seal to")
  (publisherKey ← DecodeEd25519Private publisherPrivateKey;
   envelopeBytes ← of_option (errors_New "encode directory envelope: %w")
     (msgpack_MarshalEnvelope
        {| env_Payload := payload;
           env_Signature := ed25519_Sign publisherKey (signingBytes payload) |});
   of_option (errors_New "start age encryption: %w") (age_Encrypt seed recipients envelopeBytes)).

Definition Open (blob networkIdentity publisherPublicKey : string) : result (Directory * string) :=
  guard_err (MaxBlobSize <? len blob) (errors_New "directory blob is %d bytes (max %d)")
  (identity ← ParseAgeIdentity networkIdentity;
   publisherKey ← DecodeEd25519Public publisherPublicKey;
   plaintext ← of_option (errors_New "decrypt directory: %w") (age_Decrypt identity blob);
   guard_err (MaxBlobSize <? len plaintext) (errors_New "decrypted directory exceeds %d bytes")
   (envelope ← of_option (errors_New "decode directory envelope: %w")
      (msgpack_DecodeEnvelope plaintext);
    guard_err ((len (env_Payload envelope) =? 0) || (len (env_Signature envelope) =? 0))
      (errors_New "directory envelope missing payload or signature")
    (guard_err (negb (ed25519_Verify publisherKey (signingBytes (env_Payload envelope))
                        (env_Signature envelope)))
       (errors_New "directory signature verification failed")
     (dir ← UnmarshalPlain (env_Payload envelope);
      Ok (dir, env_Payload envelope))))).

(** ** The canonical form of a directory *)

(** What a key string becomes after a trip over the wire. *)
Definition canon_key (s : string) : string :=
  match WGKeyToBytes s with Ok k => wgtypes_Key_String k | Err _ => s end.

Definition canon_node (n : Node) : Node :=
  {| node_Name := node_Name n; node_PublicKey := canon_key (node_PublicKey n);
     node_TunnelIP := node_TunnelIP n; node_AgeRecipient := node_AgeRecipient n;
     node_Endpoint := node_Endpoint n; node_Relay := node_Relay n;
     node_ObservedEndpoint := node_ObservedEndpoint n; node_ObservedAt := node_ObservedAt n;
     node_PSK := if String.eqb (node_PSK n) "" then "" else canon_key (node_PSK n) |}.

Definition canon_dir (dir : Directory) : Directory :=
  set_dir_Nodes (canon_node <$> dir_Nodes dir) dir.

(** Every key is written the way [WGKeyFromBytes] writes it. *)
Definition canonical_node (n : Node) : Prop :=
  wg_canonical (node_PublicKey n) /\ (node_PSK n = "" \/ wg_canonical (node_PSK n)).

Lemma addr_from_As4 ip : 0 <= ip < 2 ^ 32 ->
  netip_AddrFrom4 (chr (octet ip 24)) (chr (octet ip 16)) (chr (octet ip 8)) (chr (octet ip 0)) = ip.
Proof.
  intros Hip. unfold netip_AddrFrom4. rewrite !code_chr by apply octet_range.
  by apply octets_value.
Qed.

Lemma mapR_Ok {A B} (f : A -> result B) l ys :
  mapR f l = Ok ys <-> Forall2 (fun x y => f x = Ok y) l ys.
Proof.
  revert ys. induction l as [|x l IH]; intros ys; simpl.
  - split; [intros [= <-]; constructor|]. by inversion 1.
  - rewrite bind_Ok. setoid_rewrite bind_Ok. setoid_rewrite IH. split.
    + intros (y & Hy & ys' & Hys & [= <-]). by constructor.
    + inversion 1; subst. eauto.
Qed.

Context `{!CryptoLaws} `{!MsgpackLaws}.

Lemma toWire_fromWire n w : toWire n = Ok w -> fromWire w = Ok (canon_node n).
Proof.
  unfold toWire. intros (pk & Hpk%wrap_err_Ok & Hw)%bind_Ok.
  apply bind_Ok in Hw as (ip & Hip%of_option_Ok & Hw).
  apply bind_Ok in Hw as (psk & Hpsk & [= <-]).
  unfold fromWire. cbn [wire_PublicKey wire_TunnelIP wire_PSK].
  pose proof (WGKeyToBytes_from _ _ Hpk) as [_ Hfrom]. rewrite Hfrom. cbn.
  apply parse_is4_canonical in Hip as [Hip Hs]. rewrite addr_from_As4, <- Hs by done.
  unfold canon_node, canon_key. rewrite Hpk.
  destruct (String.eqb_spec (node_PSK n) "") as [E|E].
  - injection Hpsk as <-. done.
  - apply wrap_err_Ok in Hpsk. apply WGKeyToBytes_from in Hpsk as Hp. destruct Hp as [Hl Hf].
    rewrite Hl, Hf, Hpsk. done.
Qed.

Lemma canon_key_canonical s k : WGKeyToBytes s = Ok k -> wg_canonical (canon_key s).
Proof.
  intros Hk. unfold canon_key. rewrite Hk. exists k. split; [|done].
  by apply WGKeyToBytes_from in Hk as [? _].
Qed.

Lemma canon_key_id s : wg_canonical s -> canon_key s = s.
Proof. intros (k & Hk & ->). unfold canon_key. by rewrite WGKey_roundtrip. Qed.

Lemma canon_node_id n : canonical_node n -> canon_node n = n.
Proof.
  intros [Hk Hp]. unfold canon_node. rewrite canon_key_id by done.
  assert ((if String.eqb (node_PSK n) "" then "" else canon_key (node_PSK n)) = node_PSK n) as ->.
  { destruct (String.eqb_spec (node_PSK n) "") as [->|E]; [done|].
    destruct Hp; [done|]. by apply canon_key_id. }
  by destruct n.
Qed.

Lemma canon_dir_id dir : Forall canonical_node (dir_Nodes dir) -> canon_dir dir = dir.
Proof.
  intros Hc. unfold canon_dir.
  assert (canon_node <$> dir_Nodes dir = dir_Nodes dir) as ->; [|by destruct dir].
  induction Hc as [|n ns Hn _ IH]; [done|]. rewrite fmap_cons, IH, canon_node_id; done.
Qed.

Lemma msgpack_roundtrip dir s :
  0 <= dir_SchemaVersion dir < 2 ^ 32 -> 0 <= dir_Serial dir < 2 ^ 64 ->
  msgpack_Marshal dir = Ok s -> msgpack_Unmarshal s = Ok (canon_dir dir).
Proof.
  unfold msgpack_Marshal, msgpack_Unmarshal. intros Hv Hs (ws & Hws & Hm%of_option_Ok)%bind_Ok.
  apply Unmarshal_Marshal in Hm; [|done..]. rewrite Hm. cbn [of_option mbind result_bind wd_Nodes].
  apply mapR_Ok in Hws.
  rewrite (proj2 (mapR_Ok fromWire ws (canon_node <$> dir_Nodes dir))); [done|].
  apply Forall2_fmap_r, Forall2_flip. eapply Forall2_impl; [exact Hws|].
  intros n w. apply toWire_fromWire.
Qed.

Lemma canon_node_valid prefix n : valid_node prefix n -> valid_node prefix (canon_node n).
Proof.
  intros [Hn Hk Hi He Ho Ha]. constructor; try done. simpl.
  rewrite ParseWGPublic_bytes in Hk. apply is_ok_Ok in Hk as [k Hk].
  eapply wg_canonical_parses, canon_key_canonical, Hk.
Qed.

Lemma canon_dir_valid dir :
  ValidDirectory dir ->
  ValidDirectory (canon_dir dir) <-> NoDup (canon_key <$> (node_PublicKey <$> dir_Nodes dir)).
Proof.
  intros (Hv & prefix & Hp & Hd & [He Hn Hk Hi Hl]).
  assert (Hproj : forall {B} (f : Node -> B), (forall n, f (canon_node n) = f n) ->
    f <$> (canon_node <$> dir_Nodes dir) = f <$> dir_Nodes dir).
  { intros B f Hf. rewrite <- list_fmap_compose. apply list_fmap_ext. intros; apply Hf. }
  assert (Hkey : node_PublicKey <$> (canon_node <$> dir_Nodes dir) =
                 canon_key <$> (node_PublicKey <$> dir_Nodes dir)).
  { by rewrite <- !list_fmap_compose. }
  split.
  - intros (_ & ? & _ & _ & [_ _ Hk' _ _]). simpl in Hk'. by rewrite Hkey in Hk'.
  - intros Hk'. split; [done|]. exists prefix. split_and!; [done..|].
    constructor; simpl; rewrite ?Hkey, ?Hproj; try done.
    + apply Forall_fmap. eapply Forall_impl; [exact He|]. intros n. apply canon_node_valid.
    + intros Hd'. destruct (Hl Hd') as [Hl1 Hl2]. split; [|done].
      apply Forall_fmap. exact Hl1.
Qed.

Lemma MarshalPlain_Unmarshal now dir p :
  0 <= dir_Serial dir < 2 ^ 64 -> MarshalPlain now dir = Ok p ->
  ValidDirectory (marshal_header now dir) /\
  UnmarshalPlain p =
    (_ ← Validate (canon_dir (marshal_header now dir));
     Ok (canon_dir (marshal_header now dir))).
Proof.
  unfold MarshalPlain. intros Hs ([] & Hv & Hm)%bind_Ok. split; [by apply Validate_spec|].
  unfold UnmarshalPlain. rewrite (msgpack_roundtrip (marshal_header now dir)); try done.
Qed.

(** ** Sealing and opening *)

Lemma recipients_loop_Ok nodes acc rs :
  recipients_loop nodes acc = Ok rs <->
  exists rs', rs = acc ++ rs' /\
    Forall2 (fun n r => ParseAgeRecipient (node_AgeRecipient n) = Ok r)
      (filter (fun n => node_AgeRecipient n <> "") nodes) rs'.
Proof.
  revert acc. induction nodes as [|n ns IH]; intros acc; cbn [recipients_loop].
  - rewrite filter_nil. split; [intros [= <-]; exists []; by rewrite app_nil_r|].
    intros (rs' & -> & Hf). inversion Hf. by rewrite app_nil_r.
  - destruct (String.eqb_spec (node_AgeRecipient n) "") as [E|E].
    + rewrite IH, filter_cons_False by (intros Hn; by apply Hn). done.
    + rewrite filter_cons_True, bind_Ok by done. setoid_rewrite wrap_err_Ok. setoid_rewrite IH.
      split.
      * intros (r & Hr & rs' & -> & Hf). exists (r :: rs'). rewrite <- app_assoc. by repeat constructor.
      * intros (rs' & -> & Hf). inversion Hf; subst. eexists. split; [done|].
        eexists. rewrite <- app_assoc. done.
Qed.

(** The recipients of a sealed blob are those of the Tincan members. *)
Lemma recipientsOf_elem dir rs n :
  recipientsOf dir = Ok rs -> n ∈ dir_Nodes dir -> node_AgeRecipient n <> "" ->
  exists r, ParseAgeRecipient (node_AgeRecipient n) = Ok r /\ r ∈ rs.
Proof.
  unfold recipientsOf. rewrite recipients_loop_Ok. intros (rs' & -> & Hf) Hn Ha.
  assert (Hin : n ∈ filter (fun n => node_AgeRecipient n <> "") (dir_Nodes dir))
    by (by apply list_elem_of_filter).
  apply list_elem_of_lookup in Hin as [i Hi].
  destruct (Forall2_lookup_l _ _ _ _ _ Hf Hi) as (r & Hr & Hp).
  exists r. split; [done|]. rewrite app_nil_l. by eapply list_elem_of_lookup_2.
Qed.

Lemma Seal_inv now seed dir priv blob :
  Seal now seed dir priv = Ok blob ->
  exists payload rs sk e,
    MarshalPlain now dir = Ok payload /\ recipientsOf dir = Ok rs /\ rs <> [] /\
    DecodeEd25519Private priv = Ok sk /\
    msgpack_MarshalEnvelope {| env_Payload := payload;
      env_Signature := ed25519_Sign sk (signingBytes payload) |} = Some e /\
    age_Encrypt seed rs e = Some blob.
Proof.
  unfold Seal. intros (payload & Hp & (rs & Hr & [Hn Hk]%guard_err_Ok)%bind_Ok)%bind_Ok.
  apply bind_Ok in Hk as (sk & Hsk & (e & He%of_option_Ok & Hc%of_option_Ok)%bind_Ok).
  exists payload, rs, sk, e. split_and!; try done. by destruct rs.
Qed.

Lemma Open_inv blob identity pub dir payload :
  Open blob identity pub = Ok (dir, payload) ->
  exists id pk pt env, len blob <= MaxBlobSize /\
    ParseAgeIdentity identity = Ok id /\ DecodeEd25519Public pub = Ok pk /\
    age_Decrypt id blob = Some pt /\ len pt <= MaxBlobSize /\
    msgpack_DecodeEnvelope pt = Some env /\ payload = env_Payload env /\ payload <> "" /\
    ed25519_Verify pk (signingBytes payload) (env_Signature env) = true /\
    UnmarshalPlain payload = Ok dir.
Proof.
  unfold Open. intros [Hl (id & Hid & (pk & Hpk & Hk)%bind_Ok)%bind_Ok]%guard_err_Ok.
  apply bind_Ok in Hk as (pt & Hpt%of_option_Ok & [Hl' Hk]%guard_err_Ok).
  apply bind_Ok in Hk as (env & Henv%of_option_Ok & [Hz [Hv Hk]%guard_err_Ok]%guard_err_Ok).
  apply bind_Ok in Hk as (d & Hd & [= -> <-]).
  exists id, pk, pt, env. bool_solve. split_and!; try done.
  intros E. by rewrite E in *.
Qed.

Definition serial_ok (dir : Directory) : Prop := 0 <= dir_Serial dir < 2 ^ 64.

Lemma UnmarshalPlain_serial payload dir : UnmarshalPlain payload = Ok dir -> serial_ok dir.
Proof.
  unfold UnmarshalPlain. intros (d & Hd%wrap_err_Ok & (u & _ & [= ->])%bind_Ok)%bind_Ok.
  apply bind_Ok in Hd as (wd & Hw%of_option_Ok & (ns & _ & [= <-])%bind_Ok). by apply Unmarshal_Serial in Hw.
Qed.

(** The wire form of a directory with pairwise distinct keys is canonical. *)
Lemma UnmarshalPlain_inv payload dir :
  UnmarshalPlain payload = Ok dir ->
  Validate dir = Ok tt /\ Forall canonical_node (dir_Nodes dir).
Proof.
  unfold UnmarshalPlain. intros (d & Hd%wrap_err_Ok & ([] & Hv & [= ->])%bind_Ok)%bind_Ok.
  split; [done|]. unfold msgpack_Unmarshal in Hd.
  apply bind_Ok in Hd as (wd & _ & (ns & Hns%mapR_Ok & [= <-])%bind_Ok). simpl.
  apply Forall_forall. intros n [i Hi]%list_elem_of_lookup.
  destruct (Forall2_lookup_r _ _ _ _ _ Hns Hi) as (w & _ & Hw). clear -Hw H2.
  assert (Hfrom : forall raw s, WGKeyFromBytes raw = Ok s -> wg_canonical s).
  { unfold WGKeyFromBytes. intros raw s (k & Hk%of_option_Ok & [= <-])%bind_Ok.
    rewrite NewKey_32 in Hk. destruct (len raw =? 32) eqn:E; [|done].
    injection Hk as <-. exists raw. by bool_solve. }
  unfold fromWire in Hw. apply bind_Ok in Hw as (pk & Hpk%wrap_err_Ok & Hw).
  destruct (wire_TunnelIP w) as [|a [|b [|c [|d [|]]]]]; try done.
  apply bind_Ok in Hw as (psk & Hpsk & [= <-]). split; simpl; [by eapply Hfrom|].
  destruct (0 <? len (wire_PSK w)); [|injection Hpsk; auto].
  apply wrap_err_Ok in Hpsk. right. by eapply Hfrom.
Qed.

Lemma Open_sealed now seed dir priv pub blob identity id n :
  0 <= dir_Serial dir < 2 ^ 64 ->
  Forall canonical_node (dir_Nodes dir) ->
  Seal now seed dir priv = Ok blob -> len blob <= MaxBlobSize ->
  ValidateEd25519Pair pub priv = Ok tt ->
  ParseAgeIdentity identity = Ok id -> n ∈ dir_Nodes dir -> node_AgeRecipient n <> "" ->
  ParseAgeRecipient (node_AgeRecipient n) = Ok (age_Identity_Recipient id) ->
  exists payload, Open blob identity pub = Ok (marshal_header now dir, payload).
Proof.
  intros Hser Hcan HS Hl Hpair Hid Hn Ha Hr.
  apply Seal_inv in HS as (payload & rs & sk & e & Hm & Hrs & _ & Hsk & He & Hc).
  unfold ValidateEd25519Pair in Hpair.
  apply bind_Ok in Hpair as (pk & Hpk & (sk' & Hsk' & [Hpair _]%guard_err_Ok)%bind_Ok).
  rewrite Hsk in Hsk'. injection Hsk' as <-. bool_solve.
  destruct (recipientsOf_elem _ _ _ Hrs Hn Ha) as (r & Hr' & Hin).
  rewrite Hr in Hr'. injection Hr' as <-.
  exists payload. unfold Open. rewrite (proj2 (Z.ltb_ge _ _)) by done. cbn [guard_err].
  rewrite Hid, Hpk. cbn [mbind result_bind].
  rewrite (age_Decrypt_Encrypt _ _ _ _ _ Hc Hin). cbn [of_option mbind result_bind].
  pose proof (age_Encrypt_length _ _ _ _ Hc). rewrite (proj2 (Z.ltb_ge _ _)) by lia.
  cbn [guard_err]. rewrite (DecodeEnvelope_Marshal _ _ He).
  cbn [of_option mbind result_bind env_Payload env_Signature].
  assert (Hne : forall s : string, s <> "" -> len s =? 0 = false) by (by intros []).
  rewrite !Hne; [|apply ed25519_Sign_nonempty|].
  2:{ unfold MarshalPlain, msgpack_Marshal in Hm.
      apply bind_Ok in Hm as (? & _ & (? & _ & Hm%of_option_Ok)%bind_Ok).
      by apply Marshal_nonempty in Hm. }
  rewrite <- Hpair, ed25519_Verify_Sign. cbn [orb negb guard_err].
  destruct (MarshalPlain_Unmarshal _ _ _ Hser Hm) as [Hv ->].
  rewrite canon_dir_id by done. by apply Validate_spec in Hv as ->.
Qed.


(** C1: nothing gets past [Open] that the publisher did not sign: an accepted
    blob is within the size bound, was encrypted to this identity, carries a
    payload signed under the publisher's key with the directory's signing
    domain, and the directory it yields is valid with canonical keys. *)
Theorem Open_authentic blob identity pub dir payload :
  Open blob identity pub = Ok (dir, payload) ->
  len blob <= MaxBlobSize /\ Validate dir = Ok tt /\ Forall canonical_node (dir_Nodes dir) /\
  UnmarshalPlain payload = Ok dir /\
  exists id pk sig pt, ParseAgeIdentity identity = Ok id /\ age_Decrypt id blob = Some pt /\
    DecodeEd25519Public pub = Ok pk /\
    msgpack_DecodeEnvelope pt = Some {| env_Payload := payload; env_Signature := sig |} /\
    ed25519_Verify pk (signingDomain +:+ payload) sig = true.
Proof.
  intros (id & pk & pt & [p sig] & Hl & Hid & Hpk & Hpt & Hl' & Henv & -> & Hne & Hver & Hu)%Open_inv.
  destruct (UnmarshalPlain_inv _ _ Hu) as [Hv Hc]. split_and!; try done.
  by exists id, pk, sig, pt.
Qed.

(** C36: what [MarshalPlain] accepts comes back in canonical form exactly when
    its keys are distinct as keys.  [Validate] compares the key strings, so a
    directory holding one key written in two ways is accepted, sealed and
    published, and then rejected by every node that opens it. *)
Theorem MarshalPlain_UnmarshalPlain now dir p :
  0 <= dir_Serial dir < 2 ^ 64 -> MarshalPlain now dir = Ok p ->
  if decide (NoDup (canon_key <$> (node_PublicKey <$> dir_Nodes dir)))
  then UnmarshalPlain p = Ok (canon_dir (marshal_header now dir))
  else is_ok (UnmarshalPlain p) = false.
Proof.
  intros Hs [Hv ->]%MarshalPlain_Unmarshal; [|done].
  pose proof (canon_dir_valid _ Hv) as Hc. cbn [marshal_header dir_Nodes] in Hc.
  rewrite <- Validate_spec in Hc. case_decide as Hd.
  - by rewrite (proj2 Hc Hd).
  - destruct (Validate (canon_dir (marshal_header now dir))) as [[]|e]; [|done]. tauto.
Qed.
End codec.

(** ** The sample network, sealed and opened *)
Section samples.
#[local] Existing Instances toy_crypto ascii_tables toy_msgpack toy_crypto_laws toy_msgpack_laws.

Definition sample_blob : string := value "" (Seal 0 0 sample_dir toy_priv).
Definition sample_payload : string := value "" (MarshalPlain 0 sample_dir).

(** Two members with one key, the second written with a trailing space. *)
Definition twin_dir : Directory :=
  set_dir_Nodes
    [alpha;
     {| node_Name := "beta"; node_PublicKey := toy_key "a" +:+ " "; node_TunnelIP := "10.7.0.2";
        node_AgeRecipient := "age1beta"; node_Endpoint := ""; node_Relay := false;
        node_ObservedEndpoint := ""; node_ObservedAt := zero_time; node_PSK := "" |}] sample_dir.
Definition twin_payload : string := value "" (MarshalPlain 0 twin_dir).

Lemma sample_canonical : Forall canonical_node (dir_Nodes sample_dir).
Proof.
  repeat constructor; eexists; (split; [|reflexivity]); vm_compute; reflexivity.
Qed.


Definition opened : Directory * string :=
  value (zero_directory, "") (Open sample_blob "AGE-SECRET-KEY-1beta" toy_pub).

Lemma Open_authentic_witness :
  dir_Nodes opened.1 = dir_Nodes sample_dir /\ Validate opened.1 = Ok tt.
Proof.
  assert (Ho : Open sample_blob "AGE-SECRET-KEY-1beta" toy_pub = Ok (opened.1, opened.2)).
  { rewrite <- surjective_pairing. apply value_Ok. vm_compute. reflexivity. }
  destruct (Open_authentic _ _ _ _ _ Ho) as (_ & Hv & _). split; [vm_compute; reflexivity|exact Hv].
Defined.

Lemma twin_accepted : MarshalPlain 0 twin_dir = Ok twin_payload.
Proof. apply value_Ok. vm_compute. reflexivity. Defined.

Lemma twin_keys : ~ NoDup (canon_key <$> (node_PublicKey <$> dir_Nodes twin_dir)).
Proof. apply (bool_decide_eq_false _). vm_compute. reflexivity. Defined.

Lemma MarshalPlain_UnmarshalPlain_witness : is_ok (UnmarshalPlain twin_payload) = false.
Proof.
  assert (Hs : 0 <= dir_Serial twin_dir < 2 ^ 64) by (simpl; lia).
  pose proof (MarshalPlain_UnmarshalPlain 0 twin_dir twin_payload Hs twin_accepted) as Ht.
  rewrite decide_False in Ht; [exact Ht|]. apply twin_keys.
Defined.
End samples.
