(* ===== verification/Diff.v ===== *)
(** * Diff: internal/directory/diff.go

    The comparison of two directory revisions logged on every publish and sync.
    [Compare] is shown to report nothing exactly when the fields it tracks
    agree. *)
From stdpp Require Import base tactics option list strings gmap.
From Stdlib Require Import Ascii ZArith Lia.
From S2P Require Import Prelude GoStrings GoNum Directory Keys Wire Toy.
Open Scope Z_scope.

Record FieldChange := { fc_Field : string; fc_Detail : string }.
Record NodeDiff := { nd_Name : string; nd_Fields : list FieldChange }.
Record Diff := {
  diff_OldSerial : Z;
  diff_NewSerial : Z;
  diff_CIDR : option FieldChange;
  diff_Added : list string;
  diff_Removed : list string;
  diff_Changed : list NodeDiff }.

Definition orNone (s : string) : string := if String.eqb s "" then "(none)" else s.

Definition transition (oldVal newVal : string) : string :=
  orNone oldVal +:+ " -> " +:+ orNone newVal.

Definition secretTransition (oldVal newVal : string) : string :=
  if String.eqb oldVal "" && negb (String.eqb newVal "") then "set"
  else if negb (String.eqb oldVal "") && String.eqb newVal "" then "cleared"
  else "changed".

Definition displayName (n : Node) : string :=
  if negb (String.eqb (node_Name n) "") then node_Name n
  else if 8 <? len (node_PublicKey n) then string_take 8 (node_PublicKey n) +:+ "..."
  else if negb (String.eqb (node_PublicKey n) "") then node_PublicKey n
  else "(unknown)".

Definition observedAtRefresh (oldAt newAt : Time) : FieldChange :=
  if time_IsZero oldAt then {| fc_Field := "observed_at"; fc_Detail := "recorded" |} else
  let delta := time_Sub newAt oldAt in
  let delta := if delta <? 0 then duration_Neg delta else delta in
  {| fc_Field := "observed_at";
     fc_Detail := "refreshed (+" +:+ duration_String (duration_Round delta Second) +:+ ")" |}.

(** [if old != new { fields = append(fields, ...) }] *)
Definition field_change (field old new : string) : list FieldChange :=
  if String.eqb old new then [] else [{| fc_Field := field; fc_Detail := transition old new |}].

Definition nodeFieldChanges (oldN newN : Node) : list FieldChange :=
  field_change "name" (node_Name oldN) (node_Name newN) ++
  field_change "tunnel_ip" (node_TunnelIP oldN) (node_TunnelIP newN) ++
  field_change "endpoint" (node_Endpoint oldN) (node_Endpoint newN) ++
  (if negb (String.eqb (node_ObservedEndpoint oldN) (node_ObservedEndpoint newN)) then
     [{| fc_Field := "observed_endpoint";
         fc_Detail := transition (node_ObservedEndpoint oldN) (node_ObservedEndpoint newN) |}]
   else if negb (node_ObservedAt oldN =? node_ObservedAt newN) then
     [observedAtRefresh (node_ObservedAt oldN) (node_ObservedAt newN)]
   else []) ++
  (if negb (String.eqb (node_PSK oldN) (node_PSK newN)) then
     [{| fc_Field := "psk"; fc_Detail := secretTransition (node_PSK oldN) (node_PSK newN) |}]
   else []).

(** The maps by public key: a later node replaces an earlier one. *)
Definition nodes_by_key (nodes : list Node) : gmap string Node :=
  fold_left (fun m n => <[node_PublicKey n := n]> m) nodes ∅.

Fixpoint compare_added (oldByKey : gmap string Node) (nodes : list Node)
    : list string * list NodeDiff :=
  match nodes with
  | [] => ([], [])
  | n :: rest =>
      let '(added, changed) := compare_added oldByKey rest in
      match oldByKey !! node_PublicKey n with
      | None => (displayName n :: added, changed)
      | Some prev =>
          match nodeFieldChanges prev n with
          | [] => (added, changed)
          | fields => (added, {| nd_Name := displayName n; nd_Fields := fields |} :: changed)
          end
      end
  end.

Fixpoint compare_removed (newByKey : gmap string Node) (nodes : list Node) : list string :=
  match nodes with
  | [] => []
  | n :: rest =>
      match newByKey !! node_PublicKey n with
      | None => displayName n :: compare_removed newByKey rest
      | Some _ => compare_removed newByKey rest
      end
  end.

Definition Compare (oldDir newDir : Directory) : Diff :=
  let '(added, changed) := compare_added (nodes_by_key (dir_Nodes oldDir)) (dir_Nodes newDir) in
  {| diff_OldSerial := dir_Serial oldDir;
     diff_NewSerial := dir_Serial newDir;
     diff_CIDR := if String.eqb (dir_NetworkCIDR oldDir) (dir_NetworkCIDR newDir) then None
       else Some {| fc_Field := "network_cidr";
              fc_Detail := transition (dir_NetworkCIDR oldDir) (dir_NetworkCIDR newDir) |};
     diff_Added := added;
     diff_Removed := compare_removed (nodes_by_key (dir_Nodes newDir)) (dir_Nodes oldDir);
     diff_Changed := changed |}.

Definition Empty (d : Diff) : bool :=
  bool_decide (diff_CIDR d = None) && Nat.eqb (length (diff_Added d)) 0 &&
  Nat.eqb (length (diff_Removed d)) 0 && Nat.eqb (length (diff_Changed d)) 0.

Definition summary_field (f : FieldChange) : string := fc_Field f +:+ " " +:+ fc_Detail f.

Definition Summary (d : Diff) : string :=
  if Empty d then "metadata only (serial/timestamp)" else
  strings_Join
    ((match diff_CIDR d with Some f => [summary_field f] | None => [] end) ++
     (if Nat.ltb 0 (length (diff_Added d)) then ["added " +:+ strings_Join (diff_Added d) ", "] else []) ++
     (if Nat.ltb 0 (length (diff_Removed d)) then ["removed " +:+ strings_Join (diff_Removed d) ", "] else []) ++
     ((fun nd => nd_Name nd +:+ ": " +:+ strings_Join (summary_field <$> nd_Fields nd) ", ")
        <$> diff_Changed d)) "; ".

(** ** What the comparison tracks *)

(** Two revisions of one node that route and authenticate the same way. *)
Definition same_tracked (a b : Node) : Prop :=
  node_Name a = node_Name b /\ node_TunnelIP a = node_TunnelIP b /\
  node_Endpoint a = node_Endpoint b /\ node_ObservedEndpoint a = node_ObservedEndpoint b /\
  node_ObservedAt a = node_ObservedAt b /\ node_PSK a = node_PSK b.

#[export] Instance FieldChange_eq_dec : EqDecision FieldChange.
Proof. solve_decision. Defined.

Lemma nodeFieldChanges_nil a b : nodeFieldChanges a b = [] <-> same_tracked a b.
Proof.
  unfold nodeFieldChanges, field_change, same_tracked.
  destruct (String.eqb_spec (node_Name a) (node_Name b)); [|naive_solver].
  destruct (String.eqb_spec (node_TunnelIP a) (node_TunnelIP b)); [|naive_solver].
  destruct (String.eqb_spec (node_Endpoint a) (node_Endpoint b)); [|naive_solver].
  destruct (String.eqb_spec (node_ObservedEndpoint a) (node_ObservedEndpoint b)); [|naive_solver].
  destruct (Z.eqb_spec (node_ObservedAt a) (node_ObservedAt b)); [|naive_solver].
  destruct (String.eqb_spec (node_PSK a) (node_PSK b)); naive_solver.
Qed.

Lemma nodes_by_key_lookup nodes k n :
  nodes_by_key nodes !! k = Some n <->
  exists before after, nodes = before ++ n :: after /\ node_PublicKey n = k /\
    k ∉ node_PublicKey <$> after.
Proof.
  unfold nodes_by_key. induction nodes as [|m nodes IH] using rev_ind.
  { simpl. split; [done|]. intros ([] & ? & ? & _); done. }
  rewrite fold_left_app. simpl. rewrite lookup_insert_Some, IH. split.
  - intros [[<- ->]|[Hk (b & a & -> & Hn & Ha)]].
    + exists nodes, []. split_and!; [done|done|set_solver].
    + exists b, (a ++ [m]). rewrite <- app_assoc. split_and!; [done|done|].
      rewrite fmap_app. set_solver.
  - intros (b & a & E & Hn & Ha). destruct a as [|m' a _] using rev_ind.
    + apply app_inj_tail in E as [-> ->]. by left.
    + rewrite app_comm_cons, app_assoc in E. apply app_inj_tail in E as [-> ->].
      rewrite fmap_app in Ha. right. split; [set_solver|]. exists b, a. set_solver.
Qed.

Lemma nodes_by_key_unique nodes k n :
  NoDup (node_PublicKey <$> nodes) ->
  nodes_by_key nodes !! k = Some n <-> n ∈ nodes /\ node_PublicKey n = k.
Proof.
  intros Hd. rewrite nodes_by_key_lookup. split.
  - intros (b & a & -> & Hn & _). set_solver.
  - intros [Hn Hk]. apply list_elem_of_split in Hn as (b & a & ->). exists b, a.
    split_and!; try done. rewrite fmap_app, fmap_cons in Hd.
    apply NoDup_app in Hd as (_ & _ & Hd). apply NoDup_cons in Hd as [Hd _]. by subst k.
Qed.

Lemma compare_added_nil m nodes :
  compare_added m nodes = ([], []) <->
  forall n, n ∈ nodes -> exists prev, m !! node_PublicKey n = Some prev /\ same_tracked prev n.
Proof.
  induction nodes as [|n ns IH]; simpl; [split; [set_solver|done]|].
  destruct (compare_added m ns) as [added changed].
  setoid_rewrite elem_of_cons.
  destruct (m !! node_PublicKey n) as [prev|] eqn:E.
  - pose proof (nodeFieldChanges_nil prev n) as Hc.
    destruct (nodeFieldChanges prev n) as [|f fs] eqn:Ef.
    + rewrite IH. naive_solver.
    + split; [intros; congruence|]. intros Hn.
      destruct (Hn n) as (p & ? & Hs); [by left|]. replace p with prev in Hs by congruence.
      by apply Hc in Hs.
  - split; [intros; congruence|]. intros Hn. destruct (Hn n) as (p & ? & _); [by left|]. congruence.
Qed.

Lemma compare_removed_nil m nodes :
  compare_removed m nodes = [] <-> forall n, n ∈ nodes -> is_Some (m !! node_PublicKey n).
Proof.
  induction nodes as [|n ns IH]; simpl; [split; [set_solver|done]|].
  setoid_rewrite elem_of_cons.
  destruct (m !! node_PublicKey n) as [prev|] eqn:E.
  - rewrite IH. split; [|naive_solver]. intros Hn k [->|Hk]; eauto.
  - split; [done|]. intros Hn. destruct (Hn n) as [? ?]; [by left|]. congruence.
Qed.

Lemma Empty_spec old new :
  Empty (Compare old new) = true <->
  dir_NetworkCIDR old = dir_NetworkCIDR new /\
  compare_added (nodes_by_key (dir_Nodes old)) (dir_Nodes new) = ([], []) /\
  compare_removed (nodes_by_key (dir_Nodes new)) (dir_Nodes old) = [].
Proof.
  unfold Empty, Compare. destruct (compare_added _ _) as [added changed]. cbn.
  rewrite !andb_true_iff, !Nat.eqb_eq, !length_zero_iff_nil, bool_decide_eq_true.
  destruct (String.eqb_spec (dir_NetworkCIDR old) (dir_NetworkCIDR new)); naive_solver.
Qed.

(** The comparison reports nothing exactly when the network is the same and
    every node of either revision is in the other, under the same key, with the
    same name, tunnel IP, endpoints, observation time and PSK.  The domain, the
    relay marks and the age recipients do not take part. *)
Theorem Compare_Empty old new :
  NoDup (node_PublicKey <$> dir_Nodes old) -> NoDup (node_PublicKey <$> dir_Nodes new) ->
  Empty (Compare old new) = true <->
  dir_NetworkCIDR old = dir_NetworkCIDR new /\
  (forall n, n ∈ dir_Nodes new -> exists m, m ∈ dir_Nodes old /\
     node_PublicKey m = node_PublicKey n /\ same_tracked m n) /\
  (forall m, m ∈ dir_Nodes old -> exists n, n ∈ dir_Nodes new /\
     node_PublicKey m = node_PublicKey n /\ same_tracked m n).
Proof.
  intros Ho Hn. rewrite Empty_spec, compare_added_nil, compare_removed_nil. unfold is_Some.
  setoid_rewrite (nodes_by_key_unique _ _ _ Ho). setoid_rewrite (nodes_by_key_unique _ _ _ Hn).
  apply and_iff_compat_l. split.
  - intros [Ha Hr]. split; [naive_solver|]. intros m Hm.
    destruct (Hr m Hm) as (n & Hin & Hk). exists n. split_and!; try done.
    destruct (Ha n Hin) as (m' & [Hm' Hk'] & Hs).
    replace m with m'; [done|]. apply (NoDup_fmap_inj _ _ _ _ Ho); congruence.
  - intros [Ha Hr]. split; [naive_solver|]. intros m Hm.
    destruct (Hr m Hm) as (n & ? & ? & ?). eauto.
Qed.

(** A new domain is published as a change of metadata only. *)
Lemma Compare_Empty_witness :
  Empty (Compare sample_dir (set_dir_Domain "other" (set_dir_Serial 8 sample_dir))) = true.
Proof.
  apply Compare_Empty; [by apply sample_keys_nodup..|].
  split; [done|]. unfold same_tracked. split; intros n Hn; exists n; by split_and!.
Defined.
