(* ===== verification/Schema.v ===== *)
(** * Schema: internal/config/schema.go

    The configuration records with their small accessors.  Optional booleans
    ([*bool]) are options; [filepath.Join] of the state directory with a file
    name is a parameter of the path helpers' users, so the helpers give the
    name inside the directory. *)
From stdpp Require Import base tactics option list strings gmap.
From Stdlib Require Import Ascii ZArith Lia.
From S2P Require Import Prelude GoStrings GoNum GoDuration.
Open Scope Z_scope.

Record OptionalDuration := { od_Duration : Duration; od_Set : bool }.

Definition NewDuration (d : Duration) : OptionalDuration := {| od_Duration := d; od_Set := true |}.
Definition unset_duration : OptionalDuration := {| od_Duration := 0; od_Set := false |}.
Definition od_IsZero (d : OptionalDuration) : bool := negb (od_Set d).
Definition od_Or (d : OptionalDuration) (defaultValue : Duration) : Duration :=
  if negb (od_Set d) then defaultValue else od_Duration d.
Definition od_UnmarshalText (text : string) : result OptionalDuration :=
  NewDuration <$> of_option (errors_New "parse duration %q: %w") (time_ParseDuration text).
Definition od_MarshalText (d : OptionalDuration) : string :=
  if negb (od_Set d) then "0s" else duration_String (od_Duration d).

(** A duration written to a configuration is read back as it was, whatever its
    64 bits: from nanoseconds to the 292 years of an int64, negative ones and the
    least of them included.  An unset one is written as zero, and would be read as
    set: the writers leave it out. *)
Theorem OptionalDuration_reads_back d : min_int64 <= od_Duration d <= max_int64 ->
  od_UnmarshalText (od_MarshalText d) = Ok (if od_Set d then d else NewDuration 0).
Proof.
  intros Hd. unfold od_UnmarshalText, od_MarshalText. destruct d as [v set]. cbn in *. destruct set; cbn [negb].
  - by rewrite ParseDuration_String.
  - vm_compute. reflexivity.
Qed.

Lemma OptionalDuration_reads_back_witness :
  od_UnmarshalText (od_MarshalText (NewDuration min_int64)) = Ok (NewDuration min_int64).
Proof. apply (OptionalDuration_reads_back (NewDuration min_int64)). unfold NewDuration, min_int64, max_int64. cbn. lia. Defined.

Record WireguardConfig := {
  wg_Name : string;
  wg_PublicKey : string;
  wg_PrivateKey : string;
  wg_Interface : string;
  wg_ListenPort : Z;
  wg_MTU : Z;
  wg_Keepalive : OptionalDuration }.

Record DirectoryConfig := {
  dc_NetworkIdentity : string;
  dc_PublisherPubKey : string;
  dc_PublisherKey : string }.

Record DropBackend := {
  b_Type : string;
  b_Endpoint : string;
  b_Region : string;
  b_Bucket : string;
  b_ObjectKey : string;
  b_AccessKey : string;
  b_SecretKey : string;
  b_TLS : option bool;
  b_URL : string;
  b_Username : string;
  b_Password : string;
  b_Path : string;
  b_Provider : string;
  b_Zone : string;
  b_RecordName : string;
  b_APIToken : string;
  b_AppKey : string;
  b_AppSecret : string;
  b_ConsumerKey : string;
  b_TTL : Z;
  b_Resolver : string;
  b_Relays : list string;
  b_Author : string;
  b_Nsec : string;
  b_Identifier : string }.

Record DropConfig := { drop_Admin : DropBackend; drop_Client : DropBackend }.

Record SyncConfig := {
  sync_Interval : OptionalDuration;
  sync_StateDir : string;
  sync_PIDFile : string;
  sync_MaxDirectoryAge : OptionalDuration }.

Record ObserveConfig := {
  obs_Enabled : option bool;
  obs_HandshakeFresh : OptionalDuration;
  obs_RefreshInterval : OptionalDuration }.

Record DiscoveryConfig := {
  disc_Enabled : option bool;
  disc_MulticastIPv4 : string;
  disc_MulticastIPv6 : string;
  disc_BeaconInterval : OptionalDuration;
  disc_BeaconTTL : OptionalDuration }.

Record DNSConfig := {
  dns_ManageHosts : option bool;
  dns_Serve : option bool;
  dns_Upstream : string;
  dns_HostsPath : string }.

Record Config := {
  c_Wireguard : WireguardConfig;
  c_Directory : DirectoryConfig;
  c_Drop : DropConfig;
  c_Sync : SyncConfig;
  c_Observe : ObserveConfig;
  c_Discovery : DiscoveryConfig;
  c_DNS : DNSConfig }.

Definition ReadDrop (c : Config) : DropBackend :=
  if negb (String.eqb (b_Type (drop_Admin (c_Drop c))) "") then drop_Admin (c_Drop c)
  else drop_Client (c_Drop c).

Definition observe_IsEnabled (o : ObserveConfig) : bool := default true (obs_Enabled o).
Definition discovery_IsEnabled (d : DiscoveryConfig) : bool := default true (disc_Enabled d).
Definition ManageHostsEnabled (d : DNSConfig) : bool := default true (dns_ManageHosts d).
Definition S3UseTLS (b : DropBackend) : bool := default true (b_TLS b).

Definition DefaultInterface : string := "tincan0".
Definition DefaultMTU : Z := 1420.
Definition DefaultInterval : Duration := 5 * Minute.
Definition DefaultStateDir : string := "/var/lib/tincan".
Definition DefaultPIDFile : string := "/run/tincan.pid".
Definition DefaultNetwork : string := "10.42.0.0/24".
Definition DefaultDiscoveryMulticastIPv4 : string := "239.255.84.67:51821".
Definition DefaultDiscoveryMulticastIPv6 : string := "[ff02::1:8443]:51821".
Definition DefaultDiscoveryBeaconInterval : Duration := 30 * Second.
Definition DefaultDiscoveryBeaconTTL : Duration := 90 * Second.
