(* ===== verification/Config.v ===== *)
(** * Config: internal/config/config.go

    Defaults, validation and saving of the configuration.  Decoding and
    encoding TOML belongs to go-toml and parsing URLs to net/url: they are
    arguments; what the program makes of a decoder's refusal is modelled.  The provider names are those of internal/dnsprovider. *)
From stdpp Require Import base tactics option list strings gmap.
From Stdlib Require Import Ascii ZArith Lia.
From S2P Require Import Prelude GoStrings GoNum GoUtf8 GoNet GoBase64 Keys Schema Bech32 Directory Wire Toy Nostr.
Open Scope Z_scope.

Definition empty_backend (ty : string) : DropBackend :=
  {| b_Type := ty; b_Endpoint := ""; b_Region := ""; b_Bucket := ""; b_ObjectKey := ""; b_AccessKey := "";
     b_SecretKey := ""; b_TLS := None; b_URL := ""; b_Username := ""; b_Password := ""; b_Path := "";
     b_Provider := ""; b_Zone := ""; b_RecordName := ""; b_APIToken := ""; b_AppKey := ""; b_AppSecret := "";
     b_ConsumerKey := ""; b_TTL := 0; b_Resolver := ""; b_Relays := []; b_Author := ""; b_Nsec := "";
     b_Identifier := "" |}.

Definition Default : Config := {|
  c_Wireguard := {| wg_Name := ""; wg_PublicKey := ""; wg_PrivateKey := ""; wg_Interface := DefaultInterface;
    wg_ListenPort := 0; wg_MTU := DefaultMTU; wg_Keepalive := unset_duration |};
  c_Directory := {| dc_NetworkIdentity := ""; dc_PublisherPubKey := ""; dc_PublisherKey := "" |};
  c_Drop := {| drop_Admin := empty_backend ""; drop_Client := empty_backend "" |};
  c_Sync := {| sync_Interval := NewDuration DefaultInterval; sync_StateDir := DefaultStateDir;
    sync_PIDFile := DefaultPIDFile; sync_MaxDirectoryAge := unset_duration |};
  c_Observe := {| obs_Enabled := None; obs_HandshakeFresh := unset_duration;
    obs_RefreshInterval := unset_duration |};
  c_Discovery := {| disc_Enabled := None; disc_MulticastIPv4 := DefaultDiscoveryMulticastIPv4;
    disc_MulticastIPv6 := DefaultDiscoveryMulticastIPv6;
    disc_BeaconInterval := NewDuration DefaultDiscoveryBeaconInterval;
    disc_BeaconTTL := NewDuration DefaultDiscoveryBeaconTTL |};
  c_DNS := {| dns_ManageHosts := None; dns_Serve := None; dns_Upstream := ""; dns_HostsPath := "" |} |}.

(** [if field == "" { field = def }] *)
Definition or_default (s def : string) : string := if String.eqb s "" then def else s.
Definition or_duration (d : OptionalDuration) (def : Duration) : OptionalDuration :=
  if negb (od_Set d) then NewDuration def else d.

Definition applyBackendDefaults (b : DropBackend) : DropBackend :=
  let ty := b_Type b in
  let dns_ttl :=
    if negb (String.eqb (b_Provider b) "") && (b_TTL b =? 0)
    then (if String.eqb (b_Provider b) "desec" then 3600 else 300) else b_TTL b in
  {| b_Type := ty; b_Endpoint := b_Endpoint b; b_Region := b_Region b; b_Bucket := b_Bucket b;
     b_ObjectKey := if String.eqb ty "s3" then or_default (b_ObjectKey b) "directory.bin" else b_ObjectKey b;
     b_AccessKey := b_AccessKey b; b_SecretKey := b_SecretKey b; b_TLS := b_TLS b; b_URL := b_URL b;
     b_Username := b_Username b; b_Password := b_Password b; b_Path := b_Path b; b_Provider := b_Provider b;
     b_Zone := b_Zone b;
     b_RecordName := if String.eqb ty "dns" then or_default (b_RecordName b) "_tincan" else b_RecordName b;
     b_APIToken := b_APIToken b; b_AppKey := b_AppKey b; b_AppSecret := b_AppSecret b;
     b_ConsumerKey := b_ConsumerKey b;
     b_TTL := if String.eqb ty "dns" then dns_ttl else b_TTL b;
     b_Resolver := b_Resolver b; b_Relays := b_Relays b; b_Author := b_Author b; b_Nsec := b_Nsec b;
     b_Identifier := if String.eqb ty "nostr" then or_default (b_Identifier b) "_tincan" else b_Identifier b |}.

Definition ApplyDefaults (c : Config) : Config :=
  let w := c_Wireguard c in let s := c_Sync c in let d := c_Discovery c in
  {| c_Wireguard := {| wg_Name := wg_Name w; wg_PublicKey := wg_PublicKey w; wg_PrivateKey := wg_PrivateKey w;
       wg_Interface := or_default (wg_Interface w) DefaultInterface; wg_ListenPort := wg_ListenPort w;
       wg_MTU := if wg_MTU w =? 0 then DefaultMTU else wg_MTU w; wg_Keepalive := wg_Keepalive w |};
     c_Directory := c_Directory c;
     c_Drop := {| drop_Admin := applyBackendDefaults (drop_Admin (c_Drop c));
                  drop_Client := applyBackendDefaults (drop_Client (c_Drop c)) |};
     c_Sync := {| sync_Interval := or_duration (sync_Interval s) DefaultInterval;
       sync_StateDir := or_default (sync_StateDir s) DefaultStateDir;
       sync_PIDFile := or_default (sync_PIDFile s) DefaultPIDFile;
       sync_MaxDirectoryAge := sync_MaxDirectoryAge s |};
     c_Observe := c_Observe c;
     c_Discovery := {| disc_Enabled := disc_Enabled d;
       disc_MulticastIPv4 := or_default (disc_MulticastIPv4 d) DefaultDiscoveryMulticastIPv4;
       disc_MulticastIPv6 := or_default (disc_MulticastIPv6 d) DefaultDiscoveryMulticastIPv6;
       disc_BeaconInterval := or_duration (disc_BeaconInterval d) DefaultDiscoveryBeaconInterval;
       disc_BeaconTTL := or_duration (disc_BeaconTTL d) DefaultDiscoveryBeaconTTL |};
     c_DNS := c_DNS c |}.

(** [dnsprovider.Supported] *)
Definition Supported (name : string) : bool :=
  existsb (String.eqb name)
    ["linode"; "digitalocean"; "cloudflare"; "desec"; "hetzner"; "route53"; "ovh"].

Definition filepath_IsAbs (path : string) : bool := strings_HasPrefix path "/".

Definition isLoopbackHost (host : string) : bool :=
  String.eqb host "localhost" ||
  match net_ParseIP host with Some ip => ip_IsLoopback ip | None => false end.

Definition nonempty (s : string) : bool := negb (String.eqb s "").

Fixpoint rejectBackendFields (values : list string) : result unit :=
  match values with
  | [] => Ok tt
  | v :: values =>
      guard_err (nonempty v)
        (errors_New "contains fields not valid for this type; allowed fields: %s")
      (rejectBackendFields values)
  end.

(** What a decoder refuses a text with: an error, and the key and the line of each
    field it did not know when the error is, or wraps, a [StrictMissingError]. *)
Record StrictField := { sf_Key : list string; sf_Line : Z }.
Record decode_error := { de_error : error; de_strict : option (list StrictField) }.

Definition strict_item `{PrintTable} (f : StrictField) : string :=
  quoted (strings_Join (sf_Key f) ".") +:+ " at line " +:+ strconv_Itoa (sf_Line f).

(** The text of these errors is what the function is for: it is kept. *)
Definition explainDecodeError `{PrintTable} (e : decode_error) : error :=
  match de_strict e with
  | None | Some [] => de_error e
  | Some [f] => Errorf ("unknown field " +:+ strict_item f) []
  | Some fs => Errorf ("unknown fields: " +:+ strings_Join (map strict_item fs) "; ") []
  end.

(** The fields an error names, read from its text: up to the line of one, what is
    after the separator, and the keys with their lines. *)
Fixpoint before_semicolon (s : string) : string * string :=
  match s with
  | "" => ("", "")
  | String c t =>
      if Ascii.eqb c ";" then ("", string_drop 1 t)
      else let '(l, r) := before_semicolon t in (String c l, r)
  end.
Fixpoint named_fields (n : nat) (text : string) : option (list (string * string)) :=
  match n, text with
  | O, _ => Some []
  | S n, "" => None
  | S n, String _ body =>
      match unquoted body with
      | Some (key, rest) => cons (key, fst (before_semicolon rest)) <$> named_fields n (snd (before_semicolon rest))
      | None => None
      end
  end.

Section config.
Context `{CryptoLib} `{Secp} `{UnicodeTables} `{UrlLib}.

Fixpoint check_relays (relays : list string) : result unit :=
  match relays with
  | [] => Ok tt
  | r :: relays => _ ← NormalizeRelayURL r; check_relays relays
  end.

(** The provider's credentials, before the fields no dns drop uses. *)
Definition validate_dns_provider (b : DropBackend) (k : result unit) : result unit :=
  let p := b_Provider b in
  let app_fields := nonempty (b_AppKey b) || nonempty (b_AppSecret b) || nonempty (b_ConsumerKey b) in
  let aws_fields := nonempty (b_AccessKey b) || nonempty (b_SecretKey b) in
  if String.eqb p "" then
    guard_err (nonempty (b_APIToken b) || app_fields || aws_fields)
      (errors_New "dns write credentials are set but no provider is configured")
    (guard_err (nonempty (b_Endpoint b)) (errors_New "endpoint is only used by the ovh dns provider") k)
  else if String.eqb p "ovh" then
    guard_err (negb (nonempty (b_AppKey b)) || negb (nonempty (b_AppSecret b)) || negb (nonempty (b_ConsumerKey b)))
      (errors_New "ovh dns provider requires app_key, app_secret, and consumer_key")
    (guard_err (nonempty (b_APIToken b))
       (errors_New "api_token is not used by the ovh dns provider; use app_key/app_secret/consumer_key")
     (guard_err aws_fields
        (errors_New "access_key/secret_key are not used by the ovh dns provider; use app_key/app_secret/consumer_key")
        k))
  else if String.eqb p "route53" then
    guard_err (negb (nonempty (b_AccessKey b)) || negb (nonempty (b_SecretKey b)))
      (errors_New "route53 dns provider requires access_key and secret_key")
    (guard_err (nonempty (b_APIToken b))
       (errors_New "api_token is not used by the route53 dns provider; use access_key/secret_key")
     (guard_err app_fields
        (errors_New "app_key/app_secret/consumer_key are only used by the ovh dns provider, not route53")
      (guard_err (nonempty (b_Endpoint b))
         (errors_New "endpoint is only used by the ovh dns provider, not route53") k)))
  else
    guard_err (negb (Supported p)) (errors_New "unsupported dns provider %q")
    (guard_err (negb (nonempty (b_APIToken b))) (errors_New "api_token is required for dns provider %q")
     (guard_err app_fields
        (errors_New "app_key/app_secret/consumer_key are only used by the ovh dns provider, not %q")
      (guard_err aws_fields
         (errors_New "access_key/secret_key are only used by the route53 dns provider, not %q")
       (guard_err (nonempty (b_Endpoint b))
          (errors_New "endpoint is only used by the ovh dns provider, not %q") k)))).

Definition validate_file (b : DropBackend) : result unit :=
  guard_err (negb (nonempty (b_Path b))) (errors_New "path is required for file drops")
  (rejectBackendFields [b_Endpoint b; b_Region b; b_Bucket b; b_ObjectKey b; b_AccessKey b; b_SecretKey b;
     b_URL b; b_Username b; b_Password b; b_Provider b; b_Zone b; b_RecordName b; b_APIToken b; b_AppKey b;
     b_AppSecret b; b_ConsumerKey b; b_Resolver b]).

Definition validate_http (b : DropBackend) : result unit :=
  guard_err (negb (nonempty (b_URL b))) (errors_New "url is required for http drops")
  (u ← of_option (errors_New "invalid http drop url: %w") (url_Parse (b_URL b));
   guard_err (negb (String.eqb (url_Scheme u) "http") && negb (String.eqb (url_Scheme u) "https"))
     (errors_New "http drop url must be http or https, got %q")
   (let hasCreds := nonempty (b_Username b) || nonempty (b_Password b) ||
                    match url_User u with Some _ => true | None => false end in
    guard_err (hasCreds && String.eqb (url_Scheme u) "http" && negb (isLoopbackHost (url_Hostname u)))
      (errors_New "http drop sends credentials in cleartext; use https (or omit credentials)")
    (rejectBackendFields [b_Endpoint b; b_Region b; b_Bucket b; b_ObjectKey b; b_AccessKey b; b_SecretKey b;
       b_Path b; b_Provider b; b_Zone b; b_RecordName b; b_APIToken b; b_AppKey b; b_AppSecret b;
       b_ConsumerKey b; b_Resolver b]))).

Definition validate_s3 (b : DropBackend) : result unit :=
  guard_err (negb (nonempty (b_Endpoint b))) (errors_New "endpoint is required for s3 drops")
  (guard_err (negb (nonempty (b_Bucket b))) (errors_New "bucket is required for s3 drops")
   (guard_err (xorb (nonempty (b_AccessKey b)) (nonempty (b_SecretKey b)))
      (errors_New "access_key and secret_key must be provided together")
    (rejectBackendFields [b_URL b; b_Username b; b_Password b; b_Path b; b_Provider b; b_Zone b;
       b_RecordName b; b_APIToken b; b_AppKey b; b_AppSecret b; b_ConsumerKey b; b_Resolver b]))).

Definition validate_dns (b : DropBackend) : result unit :=
  guard_err (negb (nonempty (b_Zone b))) (errors_New "zone is required for dns drops")
  (validate_dns_provider b
     (rejectBackendFields [b_Region b; b_Bucket b; b_ObjectKey b; b_URL b; b_Username b; b_Password b; b_Path b])).

Definition validate_nostr (b : DropBackend) : result unit :=
  guard_err (Nat.eqb (length (b_Relays b)) 0) (errors_New "relays is required for nostr drops")
  (_ ← check_relays (b_Relays b);
   guard_err (negb (nonempty (b_Author b))) (errors_New "author is required for nostr drops")
   (authorHex ← wrap_err (fun e => Errorf "invalid nostr author: %w" [e]) (ParsePublicKey (b_Author b));
    _ ← (if nonempty (b_Nsec b) then
           sk ← wrap_err (fun e => Errorf "invalid nostr nsec: %w" [e]) (ParseSecretKey (b_Nsec b));
           guard_err (negb (String.eqb (PublicKeyHex sk) authorHex))
             (errors_New "nostr nsec does not match author public key") (Ok tt)
         else Ok tt);
    rejectBackendFields [b_Endpoint b; b_Region b; b_Bucket b; b_ObjectKey b; b_AccessKey b; b_SecretKey b;
      b_URL b; b_Username b; b_Password b; b_Path b; b_Provider b; b_Zone b; b_RecordName b; b_APIToken b;
      b_AppKey b; b_AppSecret b; b_ConsumerKey b; b_Resolver b])).

Definition validateDropBackend (b : DropBackend) : result unit :=
  let ty := b_Type b in
  guard_err (negb (String.eqb ty "nostr") &&
             (negb (Nat.eqb (length (b_Relays b)) 0) || nonempty (b_Author b) || nonempty (b_Nsec b) ||
              nonempty (b_Identifier b)))
    (errors_New "relays/author/nsec/identifier are only valid for nostr drops, not %q")
  (if String.eqb ty "file" then validate_file b
   else if String.eqb ty "http" then validate_http b
   else if String.eqb ty "s3" then validate_s3 b
   else if String.eqb ty "dns" then validate_dns b
   else if String.eqb ty "nostr" then validate_nostr b
   else Err (errors_New "unsupported type %q")).

(** A port in [lo, 65535], as [strconv.Atoi] reads it. *)
Definition valid_port (s : string) : bool :=
  match strconv_Atoi s with Some p => (0 <? p) && (p <=? 65535) | None => false end.

Definition validateHostPort (addr : string) : result unit :=
  let '(host, portStr) := default (addr, "") (net_SplitHostPort addr) in
  guard_err (String.eqb host "") (errors_New "%q has empty host")
  (guard_err (strings_ContainsAny host (String " " (String (chr 9) (String (chr 10) ""))))
     (errors_New "invalid host in %q")
   (guard_err (nonempty portStr && negb (valid_port portStr)) (errors_New "invalid port in %q")
    (Ok tt))).

Definition validateDNS (d : DNSConfig) : result unit :=
  _ ← (if nonempty (dns_Upstream d)
       then wrap_err (fun e => Errorf "upstream: %w" [e]) (validateHostPort (dns_Upstream d)) else Ok tt);
  guard_err (nonempty (dns_HostsPath d) && negb (filepath_IsAbs (dns_HostsPath d)))
    (errors_New "hosts_path %q must be absolute") (Ok tt).

Definition validateMulticastAddr (addr : string) (wantV6 : bool) : result unit :=
  '(host, portStr) ← of_option (errors_New "parse %q: %w") (net_SplitHostPort addr);
  guard_err (negb (valid_port portStr)) (errors_New "invalid port in %q")
  (ip ← of_option (errors_New "invalid IP in %q") (net_ParseIP host);
   guard_err (negb (ip_IsMulticast ip)) (errors_New "%s is not a multicast address")
   (let is4 := match ip_To4 ip with Some _ => true | None => false end in
    guard_err (wantV6 && is4) (errors_New "%s is not an IPv6 address")
    (guard_err (negb wantV6 && negb is4) (errors_New "%s is not an IPv4 address") (Ok tt)))).

Definition validateDiscovery (d : DiscoveryConfig) : result unit :=
  _ ← wrap_err (fun e => Errorf "multicast_ipv4: %w" [e]) (validateMulticastAddr (disc_MulticastIPv4 d) false);
  _ ← wrap_err (fun e => Errorf "multicast_ipv6: %w" [e]) (validateMulticastAddr (disc_MulticastIPv6 d) true);
  let interval := od_Or (disc_BeaconInterval d) DefaultDiscoveryBeaconInterval in
  let ttl := od_Or (disc_BeaconTTL d) DefaultDiscoveryBeaconTTL in
  guard_err (interval <=? 0) (errors_New "beacon_interval must be positive")
  (guard_err (ttl <? i64 (2 * interval))
     (errors_New "beacon_ttl (%s) must be at least 2x beacon_interval (%s)") (Ok tt)).

Definition Validate (c : Config) (allowIncomplete : bool) : result unit :=
  let w := c_Wireguard c in let d := c_Directory c in
  let blank s := String.eqb (strings_TrimSpace s) "" in
  guard_err (blank (wg_Name w)) (errors_New "[wireguard].name is required")
  (guard_err (blank (wg_PrivateKey w)) (errors_New "[wireguard].private_key is required")
  (guard_err (blank (wg_PublicKey w)) (errors_New "[wireguard].public_key is required")
  (_ ← ParseWGPrivate (wg_PrivateKey w);
   _ ← ParseWGPublic (wg_PublicKey w);
   derived ← PublicKeyFromWGPrivate (wg_PrivateKey w);
   guard_err (negb (String.eqb derived (wg_PublicKey w)))
     (errors_New "[wireguard].public_key does not match private_key")
   (guard_err ((wg_ListenPort w <? 0) || (65535 <? wg_ListenPort w))
      (errors_New "[wireguard].listen_port must be between 0 and 65535")
    (guard_err (wg_MTU w <=? 0) (errors_New "[wireguard].mtu must be positive")
     (if allowIncomplete then Ok tt else
      guard_err (blank (dc_NetworkIdentity d)) (errors_New "[directory].network_identity is required")
      (_ ← ParseAgeIdentity (dc_NetworkIdentity d);
       guard_err (blank (dc_PublisherPubKey d)) (errors_New "[directory].publisher_pubkey is required")
       (_ ← DecodeEd25519Public (dc_PublisherPubKey d);
        _ ← (if nonempty (dc_PublisherKey d)
             then ValidateEd25519Pair (dc_PublisherPubKey d) (dc_PublisherKey d) else Ok tt);
        _ ← (if nonempty (b_Type (drop_Admin (c_Drop c)))
             then wrap_err (fun e => Errorf "[drop.admin]: %w" [e]) (validateDropBackend (drop_Admin (c_Drop c)))
             else Ok tt);
        _ ← wrap_err (fun e => Errorf "[drop.client]: %w" [e]) (validateDropBackend (drop_Client (c_Drop c)));
        _ ← wrap_err (fun e => Errorf "[discovery]: %w" [e]) (validateDiscovery (c_Discovery c));
        wrap_err (fun e => Errorf "[dns]: %w" [e]) (validateDNS (c_DNS c)))))))))).

Definition RequireAdmin (c : Config) : result unit :=
  guard_err (String.eqb (strings_TrimSpace (dc_PublisherKey (c_Directory c))) "")
    (errors_New "admin publisher key is required for this command")
  (guard_err (String.eqb (b_Type (drop_Admin (c_Drop c))) "")
     (errors_New "[drop.admin] is required for this command")
   (ValidateEd25519Pair (dc_PublisherPubKey (c_Directory c)) (dc_PublisherKey (c_Directory c)))).

(** [load] on a file's contents; [toml_Decode] decodes over a configuration,
    refusing unknown fields. *)
Definition load `{PrintTable} (toml_Decode : Config -> string -> decode_error + Config) (file : result string)
    (allowIncomplete : bool) : result Config :=
  data ← wrap_err (fun e => Errorf "open config: %w" [e]) file;
  cfg ← (match toml_Decode Default data with
         | inl e => Err (Errorf "decode config: %w" [explainDecodeError e])
         | inr cfg => Ok cfg
         end);
  let cfg := ApplyDefaults cfg in
  _ ← Validate cfg allowIncomplete;
  Ok cfg.
End config.

Definition skeleton_s3 (access secret : string) : DropBackend :=
  {| b_Type := "s3"; b_Endpoint := "s3.amazonaws.com"; b_Region := "us-east-1"; b_Bucket := "my-tincan-net";
     b_ObjectKey := "directory.bin"; b_AccessKey := access; b_SecretKey := secret; b_TLS := Some true;
     b_URL := ""; b_Username := ""; b_Password := ""; b_Path := ""; b_Provider := ""; b_Zone := "";
     b_RecordName := ""; b_APIToken := ""; b_AppKey := ""; b_AppSecret := ""; b_ConsumerKey := "";
     b_TTL := 0; b_Resolver := ""; b_Relays := []; b_Author := ""; b_Nsec := ""; b_Identifier := "" |}.

Definition skeleton_path (ty url path : string) : DropBackend :=
  {| b_Type := ty; b_Endpoint := ""; b_Region := ""; b_Bucket := ""; b_ObjectKey := ""; b_AccessKey := "";
     b_SecretKey := ""; b_TLS := None; b_URL := url; b_Username := ""; b_Password := ""; b_Path := path;
     b_Provider := ""; b_Zone := ""; b_RecordName := ""; b_APIToken := ""; b_AppKey := ""; b_AppSecret := "";
     b_ConsumerKey := ""; b_TTL := 0; b_Resolver := ""; b_Relays := []; b_Author := ""; b_Nsec := "";
     b_Identifier := "" |}.

Definition skeleton_dns (provider token : string) (ttl : Z) : DropBackend :=
  {| b_Type := "dns"; b_Endpoint := ""; b_Region := ""; b_Bucket := ""; b_ObjectKey := ""; b_AccessKey := "";
     b_SecretKey := ""; b_TLS := None; b_URL := ""; b_Username := ""; b_Password := ""; b_Path := "";
     b_Provider := provider; b_Zone := "example.com"; b_RecordName := "_tincan"; b_APIToken := token;
     b_AppKey := ""; b_AppSecret := ""; b_ConsumerKey := ""; b_TTL := ttl; b_Resolver := ""; b_Relays := [];
     b_Author := ""; b_Nsec := ""; b_Identifier := "" |}.

Definition skeleton_npub : string := "npub10elfcs4fr0l0r8af98jlmgdh9c8tcxjvz9qkw038js35mp4dma8qzvjptg".
Definition skeleton_nsec : string := "nsec1vl029mgpspedva04g90vltkh6fvh240zqtv9k0t9af8935ke9laqsnlfe5".

Definition skeleton_nostr (nsec : string) : DropBackend :=
  {| b_Type := "nostr"; b_Endpoint := ""; b_Region := ""; b_Bucket := ""; b_ObjectKey := ""; b_AccessKey := "";
     b_SecretKey := ""; b_TLS := None; b_URL := ""; b_Username := ""; b_Password := ""; b_Path := "";
     b_Provider := ""; b_Zone := ""; b_RecordName := ""; b_APIToken := ""; b_AppKey := ""; b_AppSecret := "";
     b_ConsumerKey := ""; b_TTL := 0; b_Resolver := "";
     b_Relays := ["wss://relay.damus.io"; "wss://nos.lol"]; b_Author := skeleton_npub; b_Nsec := nsec;
     b_Identifier := "_tincan" |}.

Definition SkeletonDrop (dropType : string) : DropConfig :=
  if String.eqb dropType "s3" then
    {| drop_Admin := skeleton_s3 "admin-access-key" "admin-secret-key"; drop_Client := skeleton_s3 "" "" |}
  else if String.eqb dropType "http" then
    {| drop_Admin := skeleton_path "file" "" (DefaultStateDir +:+ "/publish/directory.bin");
       drop_Client := skeleton_path "http" "https://example.com/_vpn/directory" "" |}
  else if String.eqb dropType "file" then
    let b := skeleton_path "file" "" "/mnt/shared/tincan/directory.bin" in
    {| drop_Admin := b; drop_Client := b |}
  else if String.eqb dropType "dns" then
    {| drop_Admin := skeleton_dns "linode" "YOUR-LINODE-API-TOKEN" 300; drop_Client := skeleton_dns "" "" 0 |}
  else if String.eqb dropType "nostr" then
    {| drop_Admin := skeleton_nostr skeleton_nsec; drop_Client := skeleton_nostr "" |}
  else {| drop_Admin := empty_backend dropType; drop_Client := empty_backend dropType |}.

Definition SkeletonClientDrop (dropType : string) : DropConfig :=
  {| drop_Admin := empty_backend ""; drop_Client := drop_Client (SkeletonDrop dropType) |}.

(** ** Saving *)

Section save.
Context `{UnicodeTables}.

(** [isRedundantParentHeader] on a line and the lines after it. *)
Definition isRedundantParentHeader (line : string) (rest : list string) : bool :=
  let line := strings_TrimSpace line in
  if (len line <? 3) || negb (strings_HasPrefix line "[") || negb (strings_HasSuffix line "]") then false else
  let inner := string_take (String.length line - 2) (string_drop 1 line) in
  if contains_byte "." inner then false else
  let prefix := String "[" (inner +:+ ".") in
  let fix next (rest : list string) : bool :=
    match rest with
    | [] => false
    | l :: rest =>
        let l := strings_TrimSpace l in
        if String.eqb l "" then next rest else strings_HasPrefix l prefix
    end in
  next rest.

Fixpoint strip_lines (lines : list string) : list string :=
  match lines with
  | [] => []
  | l :: rest => if isRedundantParentHeader l rest then strip_lines rest else l :: strip_lines rest
  end.

Definition stripRedundantParentHeaders (data : string) : string :=
  strings_Join (strip_lines (strings_Split (chr 10) data)) (String (chr 10) "").

(** The bytes [writeConfig] writes. *)
Definition writeConfig (toml_Encode : Config -> result string) (cfg : Config) : result string :=
  data ← wrap_err (fun e => Errorf "encode config: %w" [e]) (toml_Encode cfg);
  Ok (stripRedundantParentHeaders data).

Definition Save (toml_Encode : Config -> result string) (cfg : Config) : result string :=
  let cfg := ApplyDefaults cfg in
  let d := c_DNS cfg in
  writeConfig toml_Encode
    {| c_Wireguard := c_Wireguard cfg; c_Directory := c_Directory cfg; c_Drop := c_Drop cfg;
       c_Sync := c_Sync cfg; c_Observe := c_Observe cfg; c_Discovery := c_Discovery cfg;
       c_DNS := {| dns_ManageHosts := Some (default true (dns_ManageHosts d)); dns_Serve := dns_Serve d;
                   dns_Upstream := dns_Upstream d; dns_HostsPath := or_default (dns_HostsPath d) "/etc/hosts" |} |}.

Definition SaveMinimal (toml_Encode : Config -> result string) (cfg : Config) : result string :=
  writeConfig toml_Encode cfg.
End save.

(** ** What validation promises *)

Lemma nonempty_false s : nonempty s = false <-> s = "".
Proof. unfold nonempty. destruct (String.eqb_spec s ""); simpl; naive_solver. Qed.

Lemma rejectBackendFields_Ok vs : rejectBackendFields vs = Ok tt <-> Forall (fun v => v = "") vs.
Proof.
  induction vs as [|v vs IH]; simpl; [split; [constructor|done]|].
  rewrite guard_err_Ok, nonempty_false, Forall_cons, IH. done.
Qed.

Lemma or_default_idem s d : or_default (or_default s d) d = or_default s d.
Proof. unfold or_default. destruct (String.eqb s "") eqn:E; [by destruct (String.eqb d "")|by rewrite E]. Qed.

Lemma or_duration_idem d x : or_duration (or_duration d x) x = or_duration d x.
Proof. unfold or_duration. destruct (od_Set d) eqn:E; simpl; [by rewrite E|done]. Qed.

Lemma applyBackendDefaults_idem b : applyBackendDefaults (applyBackendDefaults b) = applyBackendDefaults b.
Proof.
  destruct b as [ty ep re bu ok ak sk tl ur us pw pa pr zo rn ap aa ab ac ttl rs rl au ns id].
  unfold applyBackendDefaults. simpl. f_equal.
  - destruct (String.eqb ty "s3"); [apply or_default_idem|done].
  - destruct (String.eqb ty "dns"); [apply or_default_idem|done].
  - destruct (String.eqb ty "dns"); [|done].
    destruct (negb (String.eqb pr "") && (ttl =? 0)) eqn:E; [|by rewrite E].
    destruct (String.eqb pr "desec"); by rewrite andb_false_r.
  - destruct (String.eqb ty "nostr"); [apply or_default_idem|done].
Qed.

Lemma ApplyDefaults_fixed c : ApplyDefaults (ApplyDefaults c) = ApplyDefaults c.
Proof.
  unfold ApplyDefaults. cbn.
  rewrite !or_default_idem, !or_duration_idem, !applyBackendDefaults_idem.
  destruct (wg_MTU (c_Wireguard c) =? 0) eqn:E; cbn; by rewrite ?E.
Qed.

(** Which fields an accepted backend may carry, by type. *)
Record isolated (b : DropBackend) : Prop := {
  iso_type : b_Type b ∈ ["file"; "http"; "s3"; "dns"; "nostr"];
  iso_nostr : b_Type b <> "nostr" -> b_Relays b = [] /\ b_Author b = "" /\ b_Nsec b = "" /\ b_Identifier b = "";
  iso_dns : b_Type b <> "dns" -> b_Provider b = "" /\ b_Zone b = "" /\ b_RecordName b = "" /\
    b_APIToken b = "" /\ b_AppKey b = "" /\ b_AppSecret b = "" /\ b_ConsumerKey b = "" /\ b_Resolver b = "";
  iso_http : b_Type b <> "http" -> b_URL b = "" /\ b_Username b = "" /\ b_Password b = "";
  iso_file : b_Type b <> "file" -> b_Path b = "";
  iso_s3 : b_Type b <> "s3" -> b_Region b = "" /\ b_Bucket b = "" /\ b_ObjectKey b = "";
  iso_keys : b_Type b <> "s3" -> b_Type b <> "dns" ->
    b_Endpoint b = "" /\ b_AccessKey b = "" /\ b_SecretKey b = "" }.

Ltac split_fields :=
  repeat match goal with
  | H : Forall _ (_ :: _) |- _ => apply Forall_cons in H as [? H]
  | H : Forall _ [] |- _ => clear H
  end.

Section promises.
Context `{CryptoLib} `{Secp} `{UnicodeTables} `{UrlLib}.

(** A read-only dns drop holds no secret; each provider holds only its own. *)
Definition dns_credentials (b : DropBackend) : Prop :=
  (b_Provider b = "" -> b_APIToken b = "" /\ b_AppKey b = "" /\ b_AppSecret b = "" /\ b_ConsumerKey b = "" /\
     b_AccessKey b = "" /\ b_SecretKey b = "") /\
  (b_Provider b <> "" -> Supported (b_Provider b) = true) /\
  (b_Provider b <> "ovh" -> b_Endpoint b = "" /\ b_AppKey b = "" /\ b_AppSecret b = "" /\ b_ConsumerKey b = "") /\
  (b_Provider b <> "route53" -> b_AccessKey b = "" /\ b_SecretKey b = "") /\
  (b_Provider b = "ovh" \/ b_Provider b = "route53" -> b_APIToken b = "").

Lemma validate_dns_provider_Ok b k :
  validate_dns_provider b k = Ok tt -> k = Ok tt /\ dns_credentials b.
Proof.
  unfold validate_dns_provider, dns_credentials. cbv zeta.
  destruct (String.eqb_spec (b_Provider b) "") as [E|E].
  { rewrite E. rewrite !guard_err_Ok, !orb_false_iff, !nonempty_false. intros. naive_solver. }
  destruct (String.eqb_spec (b_Provider b) "ovh") as [E1|E1].
  { rewrite E1. rewrite !guard_err_Ok, !orb_false_iff, !nonempty_false. intros. naive_solver. }
  destruct (String.eqb_spec (b_Provider b) "route53") as [E2|E2].
  { rewrite E2. rewrite !guard_err_Ok, !orb_false_iff, !nonempty_false. intros. naive_solver. }
  rewrite !guard_err_Ok, !orb_false_iff, !nonempty_false, negb_false_iff. intros. naive_solver.
Qed.

(** What the accepted fields amount to. *)
Definition coherent (b : DropBackend) : Prop :=
  (b_Type b = "http" -> exists u, url_Parse (b_URL b) = Some u /\
     (url_Scheme u = "https" \/ url_Scheme u = "http") /\
     (b_Username b <> "" \/ b_Password b <> "" \/ url_User u <> None ->
      url_Scheme u = "https" \/ isLoopbackHost (url_Hostname u) = true)) /\
  (b_Type b = "s3" -> b_Bucket b <> "" /\ (b_AccessKey b = "" <-> b_SecretKey b = "")) /\
  (b_Type b = "dns" -> b_Zone b <> "" /\ dns_credentials b) /\
  (b_Type b = "nostr" -> b_Relays b <> [] /\ exists author, ParsePublicKey (b_Author b) = Ok author /\
     (b_Nsec b <> "" -> exists sk, ParseSecretKey (b_Nsec b) = Ok sk /\ PublicKeyHex sk = author)).

Lemma validate_http_Ok b : validate_http b = Ok tt ->
  (exists u, url_Parse (b_URL b) = Some u /\ (url_Scheme u = "https" \/ url_Scheme u = "http") /\
     (b_Username b <> "" \/ b_Password b <> "" \/ url_User u <> None ->
      url_Scheme u = "https" \/ isLoopbackHost (url_Hostname u) = true)) /\
  Forall (fun v => v = "") [b_Endpoint b; b_Region b; b_Bucket b; b_ObjectKey b; b_AccessKey b; b_SecretKey b;
       b_Path b; b_Provider b; b_Zone b; b_RecordName b; b_APIToken b; b_AppKey b; b_AppSecret b;
       b_ConsumerKey b; b_Resolver b].
Proof.
  unfold validate_http. intros [_ (u & Hu%of_option_Ok & Hv)%bind_Ok]%guard_err_Ok.
  apply guard_err_Ok in Hv as [Hs Hv]. cbv zeta in Hv. apply guard_err_Ok in Hv as [Hc Hv%rejectBackendFields_Ok].
  split; [|done]. exists u. split; [done|].
  assert (Hsch : url_Scheme u = "https" \/ url_Scheme u = "http").
  { destruct (String.eqb_spec (url_Scheme u) "http"); [by right|].
    destruct (String.eqb_spec (url_Scheme u) "https"); [by left|done]. }
  split; [done|]. intros Hcred. destruct Hsch as [->|Hh]; [by left|]. right.
  rewrite Hh in Hc. change (String.eqb "http" "http") with true in Hc. rewrite andb_true_r in Hc.
  destruct (isLoopbackHost (url_Hostname u)); [done|]. simpl in Hc. rewrite andb_true_r in Hc. exfalso.
  rewrite !orb_false_iff, !nonempty_false in Hc. destruct Hc as [[? ?] Hu'].
  destruct (url_User u); naive_solver.
Qed.

Lemma validateDropBackend_isolated b : validateDropBackend b = Ok tt -> isolated b /\ coherent b.
Proof.
  unfold validateDropBackend, coherent. cbv zeta. intros [Hn Hv]%guard_err_Ok.
  assert (Hnostr : b_Type b <> "nostr" -> b_Relays b = [] /\ b_Author b = "" /\ b_Nsec b = "" /\ b_Identifier b = "").
  { intros Hne. apply String.eqb_neq in Hne. rewrite Hne in Hn. cbn [negb andb] in Hn.
    rewrite !orb_false_iff, !nonempty_false, negb_false_iff in Hn. destruct Hn as [[[Hl ?] ?] ?].
    split_and!; try done. destruct (b_Relays b); done. }
  destruct (String.eqb_spec (b_Type b) "file") as [E|_].
  { unfold validate_file in Hv. apply guard_err_Ok in Hv as [_ Hv%rejectBackendFields_Ok]. split_fields.
    split; [|by rewrite E]. split; rewrite ?E; try done; [apply list_elem_of_In; simpl; tauto|intros _; apply Hnostr; by rewrite E|tauto..]. }
  destruct (String.eqb_spec (b_Type b) "http") as [E|_].
  { apply validate_http_Ok in Hv as [Hu Hv]. split_fields.
    split; [|rewrite E; split_and!; done]. split; rewrite ?E; try done; [apply list_elem_of_In; simpl; tauto|intros _; apply Hnostr; by rewrite E|tauto..]. }
  destruct (String.eqb_spec (b_Type b) "s3") as [E|_].
  { unfold validate_s3 in Hv. rewrite !guard_err_Ok, rejectBackendFields_Ok in Hv.
    destruct Hv as (_ & Hb & Hx & Hv). split_fields.
    split; [|rewrite E; split_and!; try done; intros _; split].
    - split; rewrite ?E; try done; [apply list_elem_of_In; simpl; tauto|intros _; apply Hnostr; by rewrite E|tauto..].
    - apply negb_false_iff in Hb. intros Hbe. by rewrite Hbe in Hb.
    - unfold nonempty in Hx. destruct (String.eqb_spec (b_AccessKey b) ""), (String.eqb_spec (b_SecretKey b) ""); naive_solver. }
  destruct (String.eqb_spec (b_Type b) "dns") as [E|_].
  { unfold validate_dns in Hv. apply guard_err_Ok in Hv as [Hz [Hv Hd]%validate_dns_provider_Ok].
    apply rejectBackendFields_Ok in Hv. split_fields.
    split; [|rewrite E; split_and!; try done; intros _; split; [|done]].
    - split; rewrite ?E; try done; [apply list_elem_of_In; simpl; tauto|intros _; apply Hnostr; by rewrite E|tauto..].
    - apply negb_false_iff in Hz. intros Hbe. by rewrite Hbe in Hz. }
  destruct (String.eqb_spec (b_Type b) "nostr") as [E|_]; [|done].
  unfold validate_nostr in Hv. apply guard_err_Ok in Hv as [Hr (_ & _ & Hv)%bind_Ok].
  apply guard_err_Ok in Hv as [_ (author & Ha%wrap_err_Ok & Hv)%bind_Ok].
  apply bind_Ok in Hv as ([] & Hk & Hv%rejectBackendFields_Ok). split_fields.
  split; [|rewrite E; split_and!; try done; intros _; split].
  - split; rewrite ?E; try done; [apply list_elem_of_In; simpl; tauto|tauto..].
  - intros Hbe. by rewrite Hbe in Hr.
  - exists author. split; [done|]. intros Hns. apply String.eqb_neq in Hns. unfold nonempty in Hk. rewrite Hns in Hk.
    apply bind_Ok in Hk as (sk & Hsk%wrap_err_Ok & Hk). apply guard_err_Ok in Hk as [Hk _]. exists sk. split; [done|].
    by bool_solve.
Qed.
End promises.

(** ** Properties *)

(** Filling in defaults twice is filling them in once, and the built-in
    configuration needs none. *)
Theorem ApplyDefaults_idempotent c :
  ApplyDefaults (ApplyDefaults c) = ApplyDefaults c /\ ApplyDefaults Default = Default.
Proof.
  split; [apply ApplyDefaults_fixed|reflexivity].
Qed.

Section config_properties.
Context `{CryptoLib} `{Secp} `{UnicodeTables} `{UrlLib}.

(** An accepted backend carries only the fields of its type (so a credential
    in the wrong section is an error, never ignored), a read-only dns drop holds
    no secret, http credentials go over https or loopback only, and a nostr
    secret key belongs to the pinned author. *)
Theorem validateDropBackend_sound b : validateDropBackend b = Ok tt -> isolated b /\ coherent b.
Proof. apply validateDropBackend_isolated. Qed.

(** The drops of the generated skeletons that need no key pass validation on
    both sides, and defaults leave them as they are. *)
Theorem SkeletonDrop_valid ty :
  ty ∈ ["s3"; "file"; "dns"] ->
  let d := SkeletonDrop ty in
  validateDropBackend (drop_Admin d) = Ok tt /\ validateDropBackend (drop_Client d) = Ok tt /\
  applyBackendDefaults (drop_Admin d) = drop_Admin d /\ applyBackendDefaults (drop_Client d) = drop_Client d /\
  drop_Client (SkeletonClientDrop ty) = drop_Client d.
Proof.
  intros Hty. rewrite list_elem_of_In in Hty. simpl in Hty.
  destruct Hty as [<-|[<-|[<-|[]]]]; cbv zeta; split_and!; reflexivity.
Qed.

Lemma valid_port_Ok s : valid_port s = true -> exists p, strconv_Atoi s = Some p /\ 1 <= p <= 65535.
Proof.
  unfold valid_port. destruct (strconv_Atoi s) as [p|]; [|done]. intros. bool_solve. exists p. split; [done|lia].
Qed.

(** An address discovery can listen on: a multicast address of the family, with a port. *)
Definition multicast_addr (v6 : bool) (addr : string) : Prop :=
  exists host port p ip, net_SplitHostPort addr = Some (host, port) /\ strconv_Atoi port = Some p /\
    1 <= p <= 65535 /\ net_ParseIP host = Some ip /\ ip_IsMulticast ip = true /\
    (v6 = true <-> ip_To4 ip = None).

Lemma validateMulticastAddr_Ok addr v6 : validateMulticastAddr addr v6 = Ok tt -> multicast_addr v6 addr.
Proof.
  unfold validateMulticastAddr. intros ([host port] & Hs%of_option_Ok & Hv)%bind_Ok.
  apply guard_err_Ok in Hv as [Hp%negb_false_iff (ip & Hip%of_option_Ok & Hv)%bind_Ok].
  apply guard_err_Ok in Hv as [Hm%negb_false_iff Hv]. cbv zeta in Hv.
  apply guard_err_Ok in Hv as [H6 [H4 _]%guard_err_Ok].
  apply valid_port_Ok in Hp as (p & Hp & Hr). exists host, port, p, ip. split_and!; try done; try lia.
  destruct v6, (ip_To4 ip); simpl in *; done.
Qed.

Lemma validateDiscovery_Ok d : validateDiscovery d = Ok tt ->
  multicast_addr false (disc_MulticastIPv4 d) /\ multicast_addr true (disc_MulticastIPv6 d) /\
  let interval := od_Or (disc_BeaconInterval d) DefaultDiscoveryBeaconInterval in
  0 < interval /\
  i64 (2 * interval) <= od_Or (disc_BeaconTTL d) DefaultDiscoveryBeaconTTL.
Proof.
  unfold validateDiscovery. intros ([] & H4%wrap_err_Ok & ([] & H6%wrap_err_Ok & Hv)%bind_Ok)%bind_Ok.
  cbv zeta in Hv. apply guard_err_Ok in Hv as [Hi [Ht _]%guard_err_Ok].
  apply validateMulticastAddr_Ok in H4, H6. split_and!; try done; bool_solve; lia.
Qed.

(** What a running node takes for granted of its configuration. *)
Record sound_config (c : Config) : Prop := {
  sc_keypair : PublicKeyFromWGPrivate (wg_PrivateKey (c_Wireguard c)) = Ok (wg_PublicKey (c_Wireguard c));
  sc_public : exists k, ParseWGPublic (wg_PublicKey (c_Wireguard c)) = Ok k;
  sc_port : 0 <= wg_ListenPort (c_Wireguard c) <= 65535;
  sc_mtu : 0 < wg_MTU (c_Wireguard c);
  sc_identity : exists id, ParseAgeIdentity (dc_NetworkIdentity (c_Directory c)) = Ok id;
  sc_publisher : exists pub, DecodeEd25519Public (dc_PublisherPubKey (c_Directory c)) = Ok pub;
  sc_admin : RequireAdmin c = Ok tt ->
    ValidateEd25519Pair (dc_PublisherPubKey (c_Directory c)) (dc_PublisherKey (c_Directory c)) = Ok tt /\
    isolated (drop_Admin (c_Drop c)) /\ coherent (drop_Admin (c_Drop c));
  sc_drop : isolated (ReadDrop c) /\ coherent (ReadDrop c);
  sc_multicast : multicast_addr false (disc_MulticastIPv4 (c_Discovery c)) /\
    multicast_addr true (disc_MulticastIPv6 (c_Discovery c));
  sc_interval : 0 < od_Or (disc_BeaconInterval (c_Discovery c)) DefaultDiscoveryBeaconInterval;
  sc_hosts : dns_HostsPath (c_DNS c) = "" \/ filepath_IsAbs (dns_HostsPath (c_DNS c)) = true }.

Context `{PrintTable}.

Lemma before_semicolon_lacks a : lacks ";" a = true ->
  before_semicolon a = (a, "") /\ forall r, before_semicolon (a +:+ "; " +:+ r) = (a, r).
Proof.
  induction a as [|c a IH]; intros Hl; [done|]. change (negb (Ascii.eqb c ";") && lacks ";" a = true) in Hl.
  apply andb_true_iff in Hl as [Ec%negb_true_iff Hl]. destruct (IH Hl) as [E1 E2].
  split; [cbn [before_semicolon]; by rewrite Ec, E1|].
  intros r. rewrite string_app_cons. cbn [before_semicolon]. by rewrite Ec, E2.
Qed.

Lemma named_fields_Join fs : Forall (fun f => 0 <= sf_Line f) fs ->
  named_fields (length fs) (strings_Join (map strict_item fs) "; ") =
    Some (map (fun f => (strings_Join (sf_Key f) ".", " at line " +:+ strconv_Itoa (sf_Line f))) fs).
Proof.
  induction fs as [|f fs IH]; [done|]. intros [Hf Hfs]%Forall_cons.
  assert (Hl : lacks ";" (" at line " +:+ strconv_Itoa (sf_Line f)) = true).
  { rewrite lacks_app. rewrite Itoa_lacks by done. done. }
  destruct (before_semicolon_lacks _ Hl) as [E1 E2].
  destruct fs as [|g fs].
  - cbn [length map strings_Join named_fields]. unfold strict_item.
    destruct (unquoted_quoted (strings_Join (sf_Key f) ".") (" at line " +:+ strconv_Itoa (sf_Line f))) as (body & -> & ->).
    cbn [fst snd]. by rewrite E1.
  - set (more := strings_Join (map strict_item (g :: fs)) "; ") in *.
    assert (E : strings_Join (map strict_item (f :: g :: fs)) "; " =
      quoted (strings_Join (sf_Key f) ".") +:+ (" at line " +:+ strconv_Itoa (sf_Line f)) +:+ "; " +:+ more).
    { change (strings_Join (map strict_item (f :: g :: fs)) "; ") with (strict_item f +:+ "; " +:+ more).
      unfold strict_item. by rewrite <- string_app_assoc. }
    rewrite E.
    destruct (unquoted_quoted (strings_Join (sf_Key f) ".") ((" at line " +:+ strconv_Itoa (sf_Line f)) +:+ "; " +:+ more))
      as (body & -> & Eu).
    change (length (f :: g :: fs)) with (S (length (g :: fs))). cbn [named_fields]. rewrite Eu, E2. cbn [fst snd].
    by rewrite IH.
Qed.

(** A file with unknown fields is refused with an error that names each of them, by
    its key and the line it is on, whatever bytes the keys are made of. *)
Theorem load_names_unknown toml_Decode data e fs allow :
  toml_Decode Default data = inl {| de_error := e; de_strict := Some fs |} ->
  fs <> [] -> Forall (fun f => 0 <= sf_Line f) fs ->
  exists prefix text, load toml_Decode (Ok data) allow = Err (Errorf "decode config: %w" [Errorf (prefix +:+ text) []]) /\
    prefix = (if (length fs =? 1)%nat then "unknown field " else "unknown fields: ") /\
    named_fields (length fs) text =
      Some (map (fun f => (strings_Join (sf_Key f) ".", " at line " +:+ strconv_Itoa (sf_Line f))) fs).
Proof.
  intros Ed Hn Hf. exists (if (length fs =? 1)%nat then "unknown field " else "unknown fields: "),
    (strings_Join (map strict_item fs) "; "). split; [|split; [done|by apply named_fields_Join]].
  unfold load. cbn [wrap_err mbind result_bind]. rewrite Ed. unfold explainDecodeError. cbn [de_strict].
  by destruct fs as [|f [|g fs]].
Qed.

Lemma load_Ok toml_Decode file c :
  load toml_Decode file false = Ok c -> sound_config c /\ ApplyDefaults c = c.
Proof.
  unfold load. intros (data & _ & (c0 & _ & (u & Hv & [= <-])%bind_Ok)%bind_Ok)%bind_Ok.
  split; [|apply ApplyDefaults_fixed]. set (c := ApplyDefaults c0) in *. clearbody c. clear c0 data.
  destruct u. revert Hv. unfold Validate. cbv zeta.
  intros [_ [_ [_ (u1 & _ & (pub & Hpub & (der & Hder & Hv)%bind_Ok)%bind_Ok)%bind_Ok]%guard_err_Ok]%guard_err_Ok]%guard_err_Ok.
  apply guard_err_Ok in Hv as [Hd Hv]. apply guard_err_Ok in Hv as [Hp Hv]. apply guard_err_Ok in Hv as [Hm Hv].
  apply guard_err_Ok in Hv as [_ (id & Hid & [_ (pk & Hpk & Hv)%bind_Ok]%guard_err_Ok)%bind_Ok].
  apply bind_Ok in Hv as ([] & Hpair & ([] & Hadm & ([] & Hcl%wrap_err_Ok & ([] & Hdi%wrap_err_Ok & Hdns%wrap_err_Ok)%bind_Ok)%bind_Ok)%bind_Ok).
  apply validateDiscovery_Ok in Hdi as (H4 & H6 & Hi & _).
  apply validateDropBackend_isolated in Hcl. unfold validateDNS in Hdns.
  apply bind_Ok in Hdns as (_u & _ & [Hh _]%guard_err_Ok). bool_solve. subst der.
  assert (Hadm' : b_Type (drop_Admin (c_Drop c)) <> "" ->
    isolated (drop_Admin (c_Drop c)) /\ coherent (drop_Admin (c_Drop c))).
  { intros Ht%String.eqb_neq. unfold nonempty in Hadm. rewrite Ht in Hadm. cbn [negb] in Hadm.
    apply wrap_err_Ok in Hadm. by apply validateDropBackend_isolated. }
  split; try done; try lia; try by eexists.
  - unfold RequireAdmin. intros [_ [Ht Hr]%guard_err_Ok]%guard_err_Ok. bool_solve. split; [done|]. by apply Hadm'.
  - unfold ReadDrop. destruct (String.eqb_spec (b_Type (drop_Admin (c_Drop c))) ""); simpl; [done|by apply Hadm'].
  - destruct (nonempty (dns_HostsPath (c_DNS c))) eqn:E; [right|left; by apply nonempty_false].
    simpl in Hh. by apply negb_false_iff in Hh.
Qed.


(** The comparison of the beacon TTL with twice the interval is made in 64-bit
    durations: an interval of 200 years is accepted with a TTL of one second. *)
Theorem validateDiscovery_wraps :
  exists d, validateDiscovery d = Ok tt /\
    od_Or (disc_BeaconInterval d) 0 = 6307200000 * Second /\ od_Or (disc_BeaconTTL d) 0 = Second.
Proof.
  exists {| disc_Enabled := None; disc_MulticastIPv4 := DefaultDiscoveryMulticastIPv4;
            disc_MulticastIPv6 := DefaultDiscoveryMulticastIPv6;
            disc_BeaconInterval := NewDuration (6307200000 * Second); disc_BeaconTTL := NewDuration Second |}.
  split; [vm_compute; reflexivity|]. split; reflexivity.
Qed.
End config_properties.

(** ** Samples *)

Definition no_urls : UrlLib := {| url_Parse _ := None; url_Hostname := url_Host; url_String := url_Path |}.

Section samples.
#[local] Existing Instances toy_crypto ascii_tables toy_secp no_urls ascii_prints.

Definition sample_config : Config := {|
  c_Wireguard := {| wg_Name := "alpha"; wg_PublicKey := toy_key "a"; wg_PrivateKey := toy_key "a";
    wg_Interface := ""; wg_ListenPort := 51820; wg_MTU := 0; wg_Keepalive := unset_duration |};
  c_Directory := {| dc_NetworkIdentity := "AGE-SECRET-KEY-1alpha"; dc_PublisherPubKey := toy_pub;
    dc_PublisherKey := toy_priv |};
  c_Drop := SkeletonDrop "file";
  c_Sync := c_Sync Default; c_Observe := c_Observe Default; c_Discovery := c_Discovery Default;
  c_DNS := c_DNS Default |}.

Lemma validateDropBackend_sound_witness :
  let b := skeleton_dns "linode" "token" 300 in isolated b /\ coherent b.
Proof. apply (validateDropBackend_sound (skeleton_dns "linode" "token" 300)). reflexivity. Defined.

Lemma SkeletonDrop_valid_witness : validateDropBackend (drop_Client (SkeletonDrop "dns")) = Ok tt.
Proof. apply (SkeletonDrop_valid "dns"). apply list_elem_of_In. simpl. tauto. Defined.

Lemma sample_sound : sound_config (ApplyDefaults sample_config).
Proof. apply (load_Ok (fun _ _ => inr sample_config) (Ok "")). vm_compute. reflexivity. Qed.

Example unknown_fields_text :
  explainDecodeError {| de_error := errors_New "strict mode"; de_strict := Some [
    {| sf_Key := ["wireguard"; "nme"]; sf_Line := 3 |}; {| sf_Key := ["dns"; "serv"]; sf_Line := 12 |}] |} =
  Errorf ("unknown fields: " +:+ String (chr 34) "wireguard.nme" +:+ String (chr 34) " at line 3; " +:+
    String (chr 34) "dns.serv" +:+ String (chr 34) " at line 12") [].
Proof. reflexivity. Qed.

End samples.
