(* ===== verification/Relay.v ===== *)
(** * Relay: internal/relay/relay.go and controller.go

    The per-peer state machine that decides between the direct path and the
    relay, and the controller that runs it over the directory.  A kernel peer
    is the [wgtypes.Peer] the interface reports: the fields the program reads.
    A [*net.UDPAddr] is kept as the text its [String] prints, [None] for nil. *)
From stdpp Require Import base tactics option list strings gmap.
From Stdlib Require Import Ascii ZArith Lia.
From S2P Require Import Prelude GoStrings GoNum GoNet GoBase64 Keys Directory DnsName Validate Wire Toy.
Open Scope Z_scope.

Notation UDPAddr := string (only parsing).

Record Peer := {
  peer_PublicKey : string;
  peer_Endpoint : option UDPAddr;
  peer_LastHandshakeTime : Time }.

(** The zero [wgtypes.Peer], which a map lookup gives for an absent key. *)
Definition zero_peer (key : string) : Peer :=
  {| peer_PublicKey := key; peer_Endpoint := None; peer_LastHandshakeTime := zero_time |}.

Inductive Mode := ModeDirect | ModeRelayed.

#[export] Instance Mode_eq_dec : EqDecision Mode.
Proof. solve_decision. Defined.

Definition mode_String (m : Mode) : string :=
  match m with ModeDirect => "direct" | ModeRelayed => "relayed" end.

Definition DefaultDirectFailedAfter : Duration := 180 * Second.
Definition DefaultDirectGracePeriod : Duration := 30 * Second.

Record Config := { cfg_DirectFailedAfter : Duration; cfg_DirectGracePeriod : Duration }.

Definition withDefaults (c : Config) : Config :=
  {| cfg_DirectFailedAfter := if cfg_DirectFailedAfter c <=? 0 then DefaultDirectFailedAfter
                              else cfg_DirectFailedAfter c;
     cfg_DirectGracePeriod := if cfg_DirectGracePeriod c <=? 0 then DefaultDirectGracePeriod
                              else cfg_DirectGracePeriod c |}.

Record PeerState := { ps_Mode : Mode; ps_EnteredAt : Time }.

Record Inputs := { in_Now : Time; in_Previous : PeerState; in_Peer : Peer }.

Definition handshakeFresh (i : Inputs) (cfg : Config) : bool :=
  negb (time_IsZero (peer_LastHandshakeTime (in_Peer i))) &&
  (time_Sub (in_Now i) (peer_LastHandshakeTime (in_Peer i)) <? cfg_DirectFailedAfter cfg).

Definition Decide (i : Inputs) (cfg : Config) : PeerState :=
  let cfg := withDefaults cfg in
  let prev := in_Previous i in
  match ps_Mode prev with
  | ModeDirect =>
      if time_Sub (in_Now i) (ps_EnteredAt prev) <? cfg_DirectGracePeriod cfg then prev else
      let stale :=
        if time_IsZero (peer_LastHandshakeTime (in_Peer i))
        then cfg_DirectFailedAfter cfg <? time_Sub (in_Now i) (ps_EnteredAt prev)
        else cfg_DirectFailedAfter cfg <?
               time_Sub (in_Now i) (peer_LastHandshakeTime (in_Peer i)) in
      if stale then {| ps_Mode := ModeRelayed; ps_EnteredAt := in_Now i |} else prev
  | ModeRelayed =>
      if handshakeFresh i cfg then {| ps_Mode := ModeDirect; ps_EnteredAt := in_Now i |} else prev
  end.

(** ** The controller *)

Record Controller := { ctl_cfg : Config; ctl_states : gmap string PeerState }.

Definition NewController (cfg : Config) : Controller :=
  {| ctl_cfg := withDefaults cfg; ctl_states := ∅ |}.

Record Decision := {
  dec_Relayed : gset string;
  dec_PeerStates : gmap string PeerState;
  dec_RelayTarget : option Node }.

Definition pickRelayTarget (dir : Directory) (selfPub : string) : option Node :=
  RelayTarget dir selfPub.

Definition indexPeers (peers : list Peer) : gmap string Peer :=
  fold_left (fun m p => <[peer_PublicKey p := p]> m) peers ∅.

Section controller.
Context `{CryptoLib} `{UnicodeTables}.

(** The body of the loop: the state given to one node other than self. *)
Definition update_node (c : Controller) (self : Node) (dir : Directory) (target : option Node)
    (peerByKey : gmap string Peer) (now : Time) (node : Node) : PeerState :=
  let direct := {| ps_Mode := ModeDirect; ps_EnteredAt := now |} in
  if IsPlainWireGuard node then
    match RelayTarget dir (node_PublicKey node) with
    | Some hub =>
        if negb (String.eqb (node_PublicKey hub) (node_PublicKey self))
        then {| ps_Mode := ModeRelayed; ps_EnteredAt := now |}
        else direct
    | None => direct
    end
  else if negb (String.eqb (node_Endpoint node) "") then direct
  else if negb (String.eqb (node_Endpoint self) "") then direct
  else match target with
  | None => direct
  | Some t =>
      if String.eqb (node_PublicKey node) (node_PublicKey t) then direct else
      let prev := default direct (ctl_states c !! node_PublicKey node) in
      match ParseWGPublic (node_PublicKey node) with
      | Err _ => direct
      | Ok pub =>
          Decide {| in_Now := now; in_Previous := prev;
                    in_Peer := default (zero_peer pub) (peerByKey !! pub) |} (ctl_cfg c)
      end
  end.

Fixpoint update_nodes (c : Controller) (self : Node) (dir : Directory) (target : option Node)
    (peerByKey : gmap string Peer) (now : Time) (nodes : list Node)
    (newStates : gmap string PeerState) (relayed : gset string)
    : gmap string PeerState * gset string :=
  match nodes with
  | [] => (newStates, relayed)
  | node :: rest =>
      if String.eqb (node_PublicKey node) (node_PublicKey self)
      then update_nodes c self dir target peerByKey now rest newStates relayed
      else
        let next := update_node c self dir target peerByKey now node in
        update_nodes c self dir target peerByKey now rest
          (<[node_PublicKey node := next]> newStates)
          (if decide (ps_Mode next = ModeRelayed) then {[node_PublicKey node]} ∪ relayed else relayed)
  end.

Definition Update (c : Controller) (self : Node) (dir : Directory) (peers : list Peer) (now : Time)
    : Controller * Decision :=
  let target := pickRelayTarget dir (node_PublicKey self) in
  let '(newStates, relayed) :=
    update_nodes c self dir target (indexPeers peers) now (dir_Nodes dir) ∅ ∅ in
  ({| ctl_cfg := ctl_cfg c; ctl_states := newStates |},
   {| dec_Relayed := relayed; dec_PeerStates := newStates; dec_RelayTarget := target |}).
End controller.

(** ** The state machine *)

Lemma withDefaults_pos c :
  0 < cfg_DirectFailedAfter (withDefaults c) /\ 0 < cfg_DirectGracePeriod (withDefaults c).
Proof.
  unfold withDefaults; cbn [cfg_DirectFailedAfter cfg_DirectGracePeriod].
  split; case_if; bool_solve; (done || lia).
Qed.

Lemma withDefaults_idemp c : withDefaults (withDefaults c) = withDefaults c.
Proof.
  destruct (withDefaults_pos c) as [H1 H2].
  unfold withDefaults at 1. rewrite !(proj2 (Z.leb_gt _ _)) by done. by destruct (withDefaults c).
Qed.

(** The reference time staleness is measured from. *)
Definition last_sign (i : Inputs) : Time :=
  if time_IsZero (peer_LastHandshakeTime (in_Peer i)) then ps_EnteredAt (in_Previous i)
  else peer_LastHandshakeTime (in_Peer i).

(** One decision: a direct peer is relayed exactly when the grace period
    since it became direct is over and its last handshake (or, without one, its
    entry) is more than the failure delay ago; a relayed peer becomes direct
    exactly when it has a handshake within the delay; the entry time moves
    exactly when the mode does. *)
Theorem Decide_correct i cfg :
  let c := withDefaults cfg in
  let out := Decide i cfg in
  (ps_Mode (in_Previous i) = ModeDirect ->
     ps_Mode out = ModeRelayed <->
       cfg_DirectGracePeriod c <= time_Sub (in_Now i) (ps_EnteredAt (in_Previous i)) /\
       cfg_DirectFailedAfter c < time_Sub (in_Now i) (last_sign i)) /\
  (ps_Mode (in_Previous i) = ModeRelayed ->
     ps_Mode out = ModeDirect <->
       peer_LastHandshakeTime (in_Peer i) <> zero_time /\
       time_Sub (in_Now i) (peer_LastHandshakeTime (in_Peer i)) < cfg_DirectFailedAfter c) /\
  (ps_Mode out = ps_Mode (in_Previous i) -> out = in_Previous i) /\
  (ps_Mode out <> ps_Mode (in_Previous i) -> ps_EnteredAt out = in_Now i).
Proof.
  intros c out. subst c out. unfold Decide, handshakeFresh, last_sign, time_IsZero, zero_time.
  destruct i as [now [mode e] p]. cbn [in_Now in_Previous in_Peer ps_Mode ps_EnteredAt].
  destruct (withDefaults cfg) as [f g]. cbn [cfg_DirectFailedAfter cfg_DirectGracePeriod].
  destruct mode.
  - destruct (time_Sub now e <? g) eqn:Eg; bool_solve.
    { simpl. repeat split; (done || lia). }
    destruct (peer_LastHandshakeTime p =? 0); case_if; bool_solve; simpl; repeat split; (done || lia).
  - destruct (Z.eqb_spec (peer_LastHandshakeTime p) 0) as [E|E]; simpl; [naive_solver|].
    destruct (Z.ltb_spec (time_Sub now (peer_LastHandshakeTime p)) f); simpl;
      repeat split; (done || lia).
Qed.

(** No flapping: with nothing new observed, a second decision at the same
    instant keeps the first one. *)
Theorem Decide_stable i cfg :
  Decide {| in_Now := in_Now i; in_Previous := Decide i cfg; in_Peer := in_Peer i |} cfg =
  Decide i cfg.
Proof.
  pose proof (withDefaults_pos cfg) as [Hf Hg].
  destruct i as [now [mode e] p]. unfold Decide, handshakeFresh.
  cbn [in_Now in_Previous in_Peer ps_Mode ps_EnteredAt].
  destruct (withDefaults cfg) as [f g]. cbn [cfg_DirectFailedAfter cfg_DirectGracePeriod] in *.
  destruct mode.
  - destruct (time_Sub now e <? g) eqn:E1; [cbn; by rewrite E1|].
    destruct (time_IsZero (peer_LastHandshakeTime p)) eqn:E2; destruct (f <? _) eqn:E3;
      cbn [ps_Mode ps_EnteredAt negb andb]; rewrite ?E1, ?E3; try done; bool_solve.
    rewrite (proj2 (Z.ltb_ge _ _)) by lia. done.
  - destruct (negb _ && _) eqn:E; cbn [ps_Mode ps_EnteredAt]; [|done].
    rewrite time_Sub_diag, (proj2 (Z.ltb_lt _ _)) by lia. done.
Qed.

(** ** The controller *)
Section controller_laws.
Context `{CryptoLib} `{UnicodeTables}.

Lemma update_nodes_spec c self dir target idx now nodes :
  forall states relayed states' relayed',
  NoDup (node_PublicKey <$> nodes) ->
  update_nodes c self dir target idx now nodes states relayed = (states', relayed') ->
  (forall n, n ∈ nodes -> node_PublicKey n <> node_PublicKey self ->
     states' !! node_PublicKey n = Some (update_node c self dir target idx now n) /\
     (node_PublicKey n ∈ relayed' <->
        ps_Mode (update_node c self dir target idx now n) = ModeRelayed \/
        node_PublicKey n ∈ relayed)) /\
  (forall k, (forall n, n ∈ nodes -> node_PublicKey n <> node_PublicKey self -> node_PublicKey n <> k) ->
     states' !! k = states !! k /\ (k ∈ relayed' <-> k ∈ relayed)).
Proof.
  induction nodes as [|n ns IH]; intros states relayed states' relayed' Hd.
  { intros [= <- <-]. split; [set_solver|done]. }
  rewrite fmap_cons, NoDup_cons in Hd. destruct Hd as [Hn Hd]. cbn [update_nodes].
  destruct (String.eqb_spec (node_PublicKey n) (node_PublicKey self)) as [E|E]; intros Hu.
  - destruct (IH _ _ _ _ Hd Hu) as [H1 H2]. split.
    + intros m [->|Hm]%elem_of_cons Hs; [done|]. by apply H1.
    + intros k Hk. apply H2. intros m Hm. apply Hk. by right.
  - destruct (IH _ _ _ _ Hd Hu) as [H1 H2]. clear IH Hu.
    assert (Hother : forall m, m ∈ ns -> node_PublicKey m <> node_PublicKey n).
    { intros m Hm Ek. apply Hn. rewrite <- Ek. by apply list_elem_of_fmap_2. }
    split.
    + intros m [->|Hm]%elem_of_cons Hs.
      * destruct (H2 (node_PublicKey n)) as [-> ->]; [auto|]. rewrite lookup_insert_eq.
        split; [done|]. case_decide; set_solver.
      * destruct (H1 m Hm Hs) as [-> ->]. split; [done|]. specialize (Hother m Hm).
        case_decide; set_solver.
    + intros k Hk. destruct (H2 k) as [-> ->]; [intros m Hm; apply Hk; by right|].
      assert (node_PublicKey n <> k) by (apply Hk; [by left|done]).
      rewrite lookup_insert_ne by done. split; [done|]. case_decide; set_solver.
Qed.

Lemma Update_nodes c self dir peers now :
  NoDup (node_PublicKey <$> dir_Nodes dir) ->
  let '(c', dec) := Update c self dir peers now in
  ctl_states c' = dec_PeerStates dec /\ ctl_cfg c' = ctl_cfg c /\
  dec_RelayTarget dec = RelayTarget dir (node_PublicKey self) /\
  (forall n, n ∈ dir_Nodes dir -> node_PublicKey n <> node_PublicKey self ->
     ctl_states c' !! node_PublicKey n =
       Some (update_node c self dir (dec_RelayTarget dec) (indexPeers peers) now n)) /\
  (forall k, k ∈ dec_Relayed dec <->
     exists st, dec_PeerStates dec !! k = Some st /\ ps_Mode st = ModeRelayed) /\
  (forall k st, dec_PeerStates dec !! k = Some st -> k <> node_PublicKey self /\
     exists n, n ∈ dir_Nodes dir /\ node_PublicKey n = k).
Proof.
  intros Hd. unfold Update, pickRelayTarget.
  destruct (update_nodes _ _ _ _ _ _ _ _ _) as [states relayed] eqn:Eu.
  destruct (update_nodes_spec _ _ _ _ _ _ _ _ _ _ _ Hd Eu) as [H1 H2].
  cbn [ctl_states ctl_cfg dec_PeerStates dec_RelayTarget dec_Relayed].
  assert (Hdom : forall k, (exists n, n ∈ dir_Nodes dir /\
      node_PublicKey n <> node_PublicKey self /\ node_PublicKey n = k) \/
      (states !! k = None /\ k ∉ relayed)).
  { intros k. destruct (first_such (fun n => bool_decide (node_PublicKey n <> node_PublicKey self /\
      node_PublicKey n = k)) (dir_Nodes dir)) as [n|] eqn:E.
    - apply first_such_Some in E as [Hn Hp]. apply bool_decide_eq_true in Hp as [??]. left. eauto.
    - right. destruct (H2 k) as [-> ->]; [|split; [done|set_solver]].
      intros n Hn Hs Hk. rewrite first_such_None in E. specialize (E n Hn).
      rewrite bool_decide_eq_false in E. naive_solver. }
  split_and!; try done.
  - intros n Hn Hs. by apply H1.
  - intros k. destruct (Hdom k) as [(n & Hn & Hs & <-)|[Hk Hr]].
    + destruct (H1 n Hn Hs) as [-> ->]. split; [|naive_solver].
      intros [?|Hf]; [by eexists|]. by apply not_elem_of_empty in Hf.
    + rewrite Hk. split; [done|]. naive_solver.
  - intros k st Hk. destruct (Hdom k) as [(n & Hn & Hs & <-)|[Hk' _]]; [|congruence].
    split; [done|]. eauto.
Qed.

(** A spoke has no address of its own to be dialled at. *)
Definition spokes_bare (dir : Directory) : Prop :=
  forall n, n ∈ dir_Nodes dir -> IsPlainWireGuard n = true -> node_Endpoint n = "".

(** The hub of a bare spoke, when it is not self, is also the relay target of self. *)
Lemma hub_is_target dir self n hub :
  NoDup (node_PublicKey <$> dir_Nodes dir) -> n ∈ dir_Nodes dir -> node_Endpoint n = "" ->
  RelayTarget dir (node_PublicKey n) = Some hub -> node_PublicKey hub <> self ->
  RelayTarget dir self = Some hub.
Proof.
  intros Hd Hn He Hh Hs. pose proof (RelayTarget_reachable _ _ _ Hh) as (_ & _ & Hep).
  rewrite RelayTarget_spec in *. eapply relay_target_spec_narrow; [|exact Hh|].
  - unfold reachable_from. intros m Hm Hr. bool_solve. apply andb_true_iff.
    rewrite !negb_true_iff, !String.eqb_neq. split; [|done]. intros E.
    assert (m = n) as -> by (by eapply NoDup_fmap_inj). done.
  - unfold reachable_from. apply andb_true_iff. by rewrite !negb_true_iff, !String.eqb_neq.
Qed.

Lemma update_node_relayed c self dir idx now n :
  NoDup (node_PublicKey <$> dir_Nodes dir) -> spokes_bare dir -> n ∈ dir_Nodes dir ->
  ps_Mode (update_node c self dir (RelayTarget dir (node_PublicKey self)) idx now n) = ModeRelayed ->
  node_Endpoint n = "" /\
  exists t, RelayTarget dir (node_PublicKey self) = Some t /\ node_PublicKey t <> node_PublicKey n.
Proof.
  intros Hd Hb Hn. unfold update_node. destruct (IsPlainWireGuard n) eqn:Ep.
  - destruct (RelayTarget dir (node_PublicKey n)) as [hub|] eqn:Eh; [|done].
    destruct (String.eqb_spec (node_PublicKey hub) (node_PublicKey self)); [done|]. intros _.
    split; [by apply Hb|]. exists hub. pose proof (RelayTarget_reachable _ _ _ Eh) as (_ & ? & _).
    split; [|done]. eapply hub_is_target; eauto.
  - destruct (String.eqb_spec (node_Endpoint n) ""); [|done].
    destruct (negb (String.eqb (node_Endpoint self) "")); [done|].
    destruct (RelayTarget dir (node_PublicKey self)) as [t|]; [|done].
    destruct (String.eqb_spec (node_PublicKey n) (node_PublicKey t)); [done|]. intros _.
    split; [done|]. exists t. auto.
Qed.

End controller_laws.

Section samples.
#[local] Existing Instances toy_crypto ascii_tables.

Definition sample_controller : Controller :=
  {| ctl_cfg := {| cfg_DirectFailedAfter := 0; cfg_DirectGracePeriod := 0 |};
     ctl_states := {[ node_PublicKey beta := {| ps_Mode := ModeDirect; ps_EnteredAt := 5 |} ]} |}.

Definition gamma : Node := sample_node "gamma" "d" "10.7.0.4" "age1gamma" "" false.
Definition relay_dir : Directory := set_dir_Nodes [alpha; beta; phone; gamma] sample_dir.


(** A spoke that publishes an endpoint, listed before the other candidates. *)
Definition loud_spoke : Node := sample_node "spoke" "e" "10.7.0.5" "" "198.51.100.9:51820" false.
Definition plain_hub : Node := sample_node "hub" "f" "10.7.0.6" "age1hub" "203.0.113.6:51820" false.
Definition loud_dir : Directory := set_dir_Nodes [loud_spoke; plain_hub; gamma] sample_dir.

(** With a spoke that publishes an endpoint the hub and the target part:
    the spoke, relayed because its hub is another node, is itself the relay
    target, so the traffic of every relayed peer is sent to it. *)
Theorem loud_spoke_is_target :
  let dec := (Update (NewController {| cfg_DirectFailedAfter := 0; cfg_DirectGracePeriod := 0 |})
                gamma loud_dir [] 0).2 in
  RelayTarget loud_dir (node_PublicKey loud_spoke) = Some plain_hub /\
  dec_RelayTarget dec = Some loud_spoke /\ node_PublicKey loud_spoke ∈ dec_Relayed dec /\
  is_ok (Validate loud_dir) = true.
Proof.
  cbv zeta. split_and!; [..|apply (bool_decide_eq_true _)|]; vm_compute; reflexivity.
Qed.
End samples.
