(* ===== verification/Peers.v ===== *)
(** * Peers: internal/wg/peers.go and the pure part of internal/wg/manager.go

    The translation of the directory into WireGuard peer configurations, and
    its merge against what the kernel already has.  [net.ResolveUDPAddr] is a
    parameter (it asks the resolver), as is the LAN endpoint lookup, which the
    discovery store implements. *)
From stdpp Require Import base tactics option list strings gmap.
From Stdlib Require Import Ascii ZArith Lia Permutation.
From S2P Require Import Prelude GoStrings GoNum GoNet GoBase64 Keys Directory DnsName Validate Wire Toy Schema Relay.
Open Scope Z_scope.

(** [wgtypes.PeerConfig]. *)
Record PeerConfig := {
  pc_PublicKey : string;
  pc_Remove : bool;
  pc_Endpoint : option UDPAddr;
  pc_PersistentKeepaliveInterval : option Duration;
  pc_ReplaceAllowedIPs : bool;
  pc_AllowedIPs : list IPNet }.

Definition set_pc_Endpoint (e : option UDPAddr) (p : PeerConfig) : PeerConfig :=
  {| pc_PublicKey := pc_PublicKey p; pc_Remove := pc_Remove p; pc_Endpoint := e;
     pc_PersistentKeepaliveInterval := pc_PersistentKeepaliveInterval p;
     pc_ReplaceAllowedIPs := pc_ReplaceAllowedIPs p; pc_AllowedIPs := pc_AllowedIPs p |}.
Definition set_pc_Keepalive (k : option Duration) (p : PeerConfig) : PeerConfig :=
  {| pc_PublicKey := pc_PublicKey p; pc_Remove := pc_Remove p; pc_Endpoint := pc_Endpoint p;
     pc_PersistentKeepaliveInterval := k;
     pc_ReplaceAllowedIPs := pc_ReplaceAllowedIPs p; pc_AllowedIPs := pc_AllowedIPs p |}.
Definition add_pc_AllowedIPs (ips : list IPNet) (p : PeerConfig) : PeerConfig :=
  {| pc_PublicKey := pc_PublicKey p; pc_Remove := pc_Remove p; pc_Endpoint := pc_Endpoint p;
     pc_PersistentKeepaliveInterval := pc_PersistentKeepaliveInterval p;
     pc_ReplaceAllowedIPs := pc_ReplaceAllowedIPs p; pc_AllowedIPs := pc_AllowedIPs p ++ ips |}.

(** [nil] disables the LAN preference. *)
Notation LANEndpointLookup := (option (string -> bool -> string)) (only parsing).

Definition observedIP (n : Node) : option Z :=
  '(host, _) ← net_SplitHostPort (node_ObservedEndpoint n);
  net_ParseIP host.

Definition behindSameNAT (self node : Node) : bool :=
  match observedIP self with
  | None => false
  | Some ip => bool_decide (observedIP node = Some ip)
  end.

Definition chooseEndpoint (self node : Node) (lanLookup : LANEndpointLookup) : string :=
  if negb (String.eqb (node_Endpoint node) "") then node_Endpoint node else
  let lan := match lanLookup with
             | Some f => f (node_PublicKey node) (behindSameNAT self node)
             | None => ""
             end in
  if negb (String.eqb lan "") then lan else node_ObservedEndpoint node.

Definition keepalive_for (cfg : WireguardConfig) (self : Node) : Duration :=
  if od_Set (wg_Keepalive cfg) then od_Duration (wg_Keepalive cfg)
  else if String.eqb (node_Endpoint self) "" then 25 * Second
  else 0.

Definition relay_target_key (self : Node) (dir : Directory) (relayed : gset string) : string :=
  if decide (relayed = ∅) then "" else
  match RelayTarget dir (node_PublicKey self) with
  | Some target => node_PublicKey target
  | None => ""
  end.

Definition is_shadow (relayed : gset string) (relayTargetKey : string) (node : Node) : bool :=
  bool_decide (node_PublicKey node ∈ relayed) && negb (String.eqb relayTargetKey "") &&
  negb (String.eqb (node_PublicKey node) relayTargetKey).

Section peers.
Context `{CryptoLib} `{UnicodeTables}.
Variable net_ResolveUDPAddr : string -> option UDPAddr.

(** One round of the loop for a node other than self: its peer entry, and the
    tunnel address to fold into the relay target's when it is a shadow. *)
Definition build_peer (cfg : WireguardConfig) (self : Node) (relayed : gset string)
    (relayTargetKey : string) (lanLookup : LANEndpointLookup) (node : Node)
    : result (PeerConfig * list IPNet) :=
  pub ← wrap_err (fun e => Errorf "peer %q: %w" [e]) (ParseWGPublic (node_PublicKey node));
  tunnel ← of_option (errors_New "peer %q tunnel IP: %w")
             (net_ParseCIDR (node_TunnelIP node +:+ "/32"));
  let shadow := is_shadow relayed relayTargetKey node in
  let bareShadow := shadow && IsPlainWireGuard node in
  let keepalive := keepalive_for cfg self in
  let endpointStr := chooseEndpoint self node lanLookup in
  Ok ({| pc_PublicKey := pub;
         pc_Remove := false;
         pc_Endpoint := if bareShadow || String.eqb endpointStr "" then None
                        else net_ResolveUDPAddr endpointStr;
         pc_PersistentKeepaliveInterval :=
           if negb bareShadow && (0 <? keepalive) then Some keepalive else None;
         pc_ReplaceAllowedIPs := true;
         pc_AllowedIPs := if shadow then [] else [tunnel] |},
      if shadow then [tunnel] else []).

Fixpoint build_peers (cfg : WireguardConfig) (self : Node) (relayed : gset string)
    (relayTargetKey : string) (lanLookup : LANEndpointLookup) (nodes : list Node)
    (peers : list PeerConfig) (extra : list IPNet) (idx : option nat)
    : result (list PeerConfig * list IPNet * option nat) :=
  match nodes with
  | [] => Ok (peers, extra, idx)
  | node :: rest =>
      if String.eqb (node_PublicKey node) (node_PublicKey self)
      then build_peers cfg self relayed relayTargetKey lanLookup rest peers extra idx
      else
        '(peer, fold) ← build_peer cfg self relayed relayTargetKey lanLookup node;
        build_peers cfg self relayed relayTargetKey lanLookup rest (peers ++ [peer]) (extra ++ fold)
          (if String.eqb (node_PublicKey node) relayTargetKey then Some (length peers) else idx)
  end.

(** [make([]wgtypes.PeerConfig, 0, len(dir.Nodes)-1)] panics without nodes. *)
Definition makeslice_panic : error := Sentinel "panic: runtime error: makeslice: cap out of range".

Definition BuildPeerConfigs (cfg : WireguardConfig) (self : Node) (dir : Directory)
    (relayed : gset string) (lanLookup : LANEndpointLookup) : result (list PeerConfig) :=
  let relayTargetKey := relay_target_key self dir relayed in
  guard_err (Nat.eqb (length (dir_Nodes dir)) 0) makeslice_panic
  ('(peers, extra, idx) ←
     build_peers cfg self relayed relayTargetKey lanLookup (dir_Nodes dir) [] [] None;
   Ok (match idx with
       | Some i => if Nat.ltb 0 (length extra) then alter (add_pc_AllowedIPs extra) i peers else peers
       | None => peers
       end)).
End peers.

(** ** manager.go: what is pushed to the kernel *)

Definition handshakeFreshWindow : Duration := DefaultDirectFailedAfter.

Definition preserve_endpoint (byKey : gmap string Peer) (now : Time) (p : PeerConfig) : PeerConfig :=
  match pc_Endpoint p with
  | None => p
  | Some _ =>
      match byKey !! pc_PublicKey p with
      | None => p
      | Some kp =>
          if time_IsZero (peer_LastHandshakeTime kp) then p
          else if time_Sub now (peer_LastHandshakeTime kp) <? handshakeFreshWindow
          then set_pc_Endpoint None p else p
      end
  end.

Definition preserveLiveEndpoints (peers : list PeerConfig) (kernel : list Peer) (now : Time)
    : list PeerConfig := preserve_endpoint (indexPeers kernel) now <$> peers.

Definition removal (key : string) : PeerConfig :=
  {| pc_PublicKey := key; pc_Remove := true; pc_Endpoint := None;
     pc_PersistentKeepaliveInterval := None; pc_ReplaceAllowedIPs := false; pc_AllowedIPs := [] |}.

Definition appendDeletions (target : list PeerConfig) (existing : list Peer) : list PeerConfig :=
  let keep : gset string := list_to_set (pc_PublicKey <$> target) in
  target ++ (removal ∘ peer_PublicKey <$> filter (fun p => peer_PublicKey p ∉ keep) existing).

(** [dev]: the peers the kernel reports, [None] when the device cannot be read. *)
Definition mergeAgainstKernel (dev : option (list Peer)) (now : Time) (peers : list PeerConfig)
    : list PeerConfig :=
  let peers := (fun p => match pc_PersistentKeepaliveInterval p with
                         | None => set_pc_Keepalive (Some 0) p
                         | Some _ => p
                         end) <$> peers in
  match dev with
  | None => peers
  | Some kernel => appendDeletions (preserveLiveEndpoints peers kernel now) kernel
  end.

Definition pushedEndpointKeys `{CryptoLib} (peers : list PeerConfig) : list string :=
  (fun p => wgtypes_Key_String (pc_PublicKey p)) <$>
    filter (fun p => pc_Remove p = false /\ pc_Endpoint p <> None) peers.

(** ** addr.go *)

(** What [ensureAddress] sees of an interface address: its network as text and
    its mask size, or none when [IPNet] is nil. *)
Record LinkAddr := { la_String : string; la_Ones : Z; la_Bits : Z }.

Definition ipnet_String4 (n : IPNet) : string :=
  ipv4_String (ipnet_IP n) +:+ "/" +:+ strconv_FormatUint (ipnet_Ones n).

(** The addresses deleted before [AddrReplace want]. *)
Definition stale_addresses (want : IPNet) (addrs : list (option LinkAddr)) : list LinkAddr :=
  filter (fun a => la_String a <> ipnet_String4 want /\ la_Bits a = 32 /\ la_Ones a = 32)
    (omap id addrs).

Definition ensureAddress_plan (tunnelIP : string) (addrs : list (option LinkAddr))
    : result (list LinkAddr * IPNet) :=
  want ← of_option (errors_New "parse tunnel address: %w") (net_ParseCIDR (tunnelIP +:+ "/32"));
  Ok (stale_addresses want addrs, want).

(** ** Cryptokey routing *)
Section routes.
Context `{CryptoLib} `{UnicodeTables}.
Variable net_ResolveUDPAddr : string -> option UDPAddr.

(** The nodes the loop visits. *)
Definition others (self : Node) (nodes : list Node) : list Node :=
  filter (fun n => node_PublicKey n <> node_PublicKey self) nodes.

Lemma build_peers_spec cfg self relayed tk lan nodes : forall peers extra idx peers' extra' idx',
  build_peers net_ResolveUDPAddr cfg self relayed tk lan nodes peers extra idx
    = Ok (peers', extra', idx') ->
  exists r,
    Forall2 (fun n pf => build_peer net_ResolveUDPAddr cfg self relayed tk lan n = Ok pf)
      (others self nodes) r /\
    peers' = peers ++ r.*1 /\ extra' = extra ++ concat r.*2 /\
    (idx' = idx /\ Forall (fun n => node_PublicKey n <> tk) (others self nodes) \/
     exists i n, idx' = Some (length peers + i)%nat /\ others self nodes !! i = Some n /\
       node_PublicKey n = tk).
Proof.
  induction nodes as [|n ns IH]; intros peers extra idx peers' extra' idx'.
  { intros [= <- <- <-]. exists []. simpl. rewrite !app_nil_r. repeat split; [constructor|].
    left. split; [done|constructor]. }
  cbn [build_peers]. unfold others.
  destruct (String.eqb_spec (node_PublicKey n) (node_PublicKey self)) as [E|E].
  { rewrite filter_cons_False by (intros Hn; by apply Hn). apply IH. }
  rewrite filter_cons_True by done. intros ([p f] & Hp & Hb)%bind_Ok.
  destruct (IH _ _ _ _ _ _ Hb) as (r & Hf & -> & -> & Hi). exists ((p, f) :: r).
  rewrite <- !app_assoc. split_and!; [by constructor|done|done|].
  destruct Hi as [[-> Hall]|(i & m & -> & Hm & Hk)].
  - destruct (String.eqb_spec (node_PublicKey n) tk) as [Ek|Ek].
    + right. exists 0%nat, n. by rewrite Nat.add_0_r.
    + left. by repeat constructor.
  - right. exists (S i), m. rewrite length_app. simpl. split_and!; [f_equal; lia|done|done].
Qed.

Lemma build_peer_routes cfg self relayed tk lan n p f :
  build_peer net_ResolveUDPAddr cfg self relayed tk lan n = Ok (p, f) ->
  exists t, net_ParseCIDR (node_TunnelIP n +:+ "/32") = Some t /\
    ParseWGPublic (node_PublicKey n) = Ok (pc_PublicKey p) /\
    pc_Remove p = false /\ pc_ReplaceAllowedIPs p = true /\
    if is_shadow relayed tk n then pc_AllowedIPs p = [] /\ f = [t] else pc_AllowedIPs p = [t] /\ f = [].
Proof.
  unfold build_peer. intros (pub & Hp%wrap_err_Ok & (t & Ht%of_option_Ok & [= <- <-])%bind_Ok)%bind_Ok.
  exists t. cbn. by destruct (is_shadow relayed tk n).
Qed.

Lemma routes_split cfg self relayed tk lan ns r :
  Forall2 (fun n pf => build_peer net_ResolveUDPAddr cfg self relayed tk lan n = Ok pf) ns r ->
  exists ts, Forall2 (fun n t => net_ParseCIDR (node_TunnelIP n +:+ "/32") = Some t) ns ts /\
    concat (pc_AllowedIPs <$> r.*1) ++ concat r.*2 ≡ₚ ts.
Proof.
  induction 1 as [|n [p f] ns r Hb _ (ts & Hts & Hperm)]; [exists []; by split|].
  destruct (build_peer_routes _ _ _ _ _ _ _ _ Hb) as (t & Ht & _ & _ & _ & Hs).
  exists (t :: ts). split; [by constructor|].
  rewrite !fmap_cons. cbn [concat fst snd]. destruct (is_shadow relayed tk n); destruct Hs as [-> ->]; simpl.
  - rewrite <- Permutation_middle. by constructor.
  - by constructor.
Qed.

Lemma concat_alter_routes extra i peers :
  (i < length peers)%nat ->
  concat (pc_AllowedIPs <$> alter (add_pc_AllowedIPs extra) i peers) ≡ₚ
  concat (pc_AllowedIPs <$> peers) ++ extra.
Proof.
  revert i. induction peers as [|p ps IH]; intros [|i] Hi; cbn [length] in Hi; try lia.
  - change (alter (add_pc_AllowedIPs extra) 0%nat (p :: ps)) with (add_pc_AllowedIPs extra p :: ps).
    rewrite !fmap_cons. cbn [concat add_pc_AllowedIPs pc_AllowedIPs].
    rewrite <- !app_assoc. apply Permutation_app_head, Permutation_app_comm.
  - change (alter (add_pc_AllowedIPs extra) (S i) (p :: ps))
      with (p :: alter (add_pc_AllowedIPs extra) i ps).
    rewrite !fmap_cons. cbn [concat]. rewrite <- app_assoc. apply Permutation_app_head, IH. lia.
Qed.

(** Without a target no node is a shadow. *)
Lemma no_target_no_extra cfg self relayed lan ns r :
  Forall2 (fun n pf => build_peer net_ResolveUDPAddr cfg self relayed "" lan n = Ok pf) ns r ->
  concat r.*2 = [].
Proof.
  induction 1 as [|n [p f] ns r Hb _ IH]; [done|].
  destruct (build_peer_routes _ _ _ _ _ _ _ _ Hb) as (t & _ & _ & _ & _ & Hs).
  unfold is_shadow in Hs. rewrite andb_false_r in Hs. destruct Hs as [_ ->]. simpl. done.
Qed.

Lemma target_among_others self dir relayed :
  relay_target_key self dir relayed = "" \/
  ~ Forall (fun n => node_PublicKey n <> relay_target_key self dir relayed)
      (others self (dir_Nodes dir)).
Proof.
  unfold relay_target_key. case_decide; [by left|].
  destruct (RelayTarget dir (node_PublicKey self)) as [t|] eqn:Et; [|by left]. right.
  apply RelayTarget_reachable in Et as (Hin & Hs & _). rewrite Forall_forall. intros Hf.
  apply (Hf t); [|done]. by apply list_elem_of_filter.
Qed.

(** The entry of node [n]: a shadow has no route, the target its own and those
    folded into it, any other peer its own. *)
Definition peer_entry (relayed : gset string) (tk : string) (n : Node) (p : PeerConfig) : Prop :=
  ParseWGPublic (node_PublicKey n) = Ok (pc_PublicKey p) /\
  pc_Remove p = false /\ pc_ReplaceAllowedIPs p = true /\
  exists t, net_ParseCIDR (node_TunnelIP n +:+ "/32") = Some t /\
    if is_shadow relayed tk n then pc_AllowedIPs p = []
    else exists folded, pc_AllowedIPs p = t :: folded /\ (node_PublicKey n <> tk -> folded = []).

Lemma build_peer_entry cfg self relayed tk lan n p f :
  build_peer net_ResolveUDPAddr cfg self relayed tk lan n = Ok (p, f) -> peer_entry relayed tk n p.
Proof.
  intros Hb. apply build_peer_routes in Hb as (t & Ht & ? & ? & ? & Hs).
  split_and!; try done. exists t. split; [done|].
  destruct (is_shadow relayed tk n); destruct Hs as [Hs _]; [done|]. by exists [].
Qed.

Lemma peer_entry_fold relayed tk n p extra :
  node_PublicKey n = tk -> peer_entry relayed tk n p ->
  peer_entry relayed tk n (add_pc_AllowedIPs extra p).
Proof.
  intros Hk (? & ? & ? & t & Ht & Hs). split_and!; try done. exists t. split; [done|].
  unfold is_shadow in *. rewrite Hk, String.eqb_refl, andb_false_r in *.
  destruct Hs as (f & Hf & _). exists (f ++ extra). simpl. by rewrite Hf.
Qed.

Lemma BuildPeerConfigs_spec cfg self dir relayed lan peers :
  BuildPeerConfigs net_ResolveUDPAddr cfg self dir relayed lan = Ok peers ->
  exists ts,
    Forall2 (fun n t => net_ParseCIDR (node_TunnelIP n +:+ "/32") = Some t)
      (others self (dir_Nodes dir)) ts /\
    concat (pc_AllowedIPs <$> peers) ≡ₚ ts /\
    Forall2 (peer_entry relayed (relay_target_key self dir relayed)) (others self (dir_Nodes dir)) peers.
Proof.
  unfold BuildPeerConfigs. intros [_ Hb]%guard_err_Ok.
  apply bind_Ok in Hb as ([[ps extra] idx] & Hb & [= <-]).
  apply build_peers_spec in Hb as (r & Hr & -> & -> & Hi). cbn [app] in *.
  destruct (routes_split _ _ _ _ _ _ _ Hr) as (ts & Hts & Hperm). exists ts.
  assert (Hsh : Forall2 (peer_entry relayed (relay_target_key self dir relayed))
                  (others self (dir_Nodes dir)) r.*1).
  { apply Forall2_fmap_r. eapply Forall2_impl; [exact Hr|]. intros n [p f]. apply build_peer_entry. }
  split; [done|].
  destruct Hi as [[-> Hall]|(i & n & -> & Hn & Hk)].
  - destruct (target_among_others self dir relayed) as [Et|Ht]; [|done].
    rewrite Et in Hr. rewrite (no_target_no_extra _ _ _ _ _ _ Hr), app_nil_r in Hperm. done.
  - simpl. pose proof (lookup_lt_Some _ _ _ Hn) as Hlt. rewrite (Forall2_length _ _ _ Hr) in Hlt.
    destruct (Nat.ltb_spec 0 (length (concat r.*2))) as [Hl|Hl].
    + rewrite concat_alter_routes by (rewrite length_fmap; lia). split; [done|].
      apply Forall2_lookup. intros j. rewrite Forall2_lookup in Hsh. specialize (Hsh j).
      destruct (decide (i = j)) as [->|Hne].
      * rewrite list_lookup_alter_eq. rewrite Hn in *.
        inversion Hsh as [? p Hp Heq|]; subst. constructor. by apply peer_entry_fold.
      * by rewrite list_lookup_alter_ne.
    + destruct (concat r.*2); [|simpl in Hl; lia]. by rewrite app_nil_r in Hperm.
Qed.

Lemma build_peers_total cfg self relayed tk lan nodes : forall peers extra idx,
  Forall (fun n => is_ok (build_peer net_ResolveUDPAddr cfg self relayed tk lan n) = true) nodes ->
  is_ok (build_peers net_ResolveUDPAddr cfg self relayed tk lan nodes peers extra idx) = true.
Proof.
  induction nodes as [|n ns IH]; intros peers extra idx Hf; [done|].
  apply Forall_cons in Hf as [Hn Hf]. cbn [build_peers].
  destruct (String.eqb _ _); [by apply IH|].
  apply is_ok_Ok in Hn as ([p f] & ->). by apply IH.
Qed.

Lemma valid_node_tunnel prefix n :
  valid_node prefix n ->
  exists ip, parse_is4 (node_TunnelIP n) = Some ip /\
    net_ParseCIDR (node_TunnelIP n +:+ "/32") = Some (host_net ip).
Proof.
  intros [_ _ (ip & Hip & _) _ _ _]. exists ip. split; [done|]. by apply ParseCIDR_host.
Qed.

Lemma BuildPeerConfigs_total cfg self dir relayed lan prefix :
  Forall (valid_node prefix) (dir_Nodes dir) -> dir_Nodes dir <> [] ->
  exists peers, BuildPeerConfigs net_ResolveUDPAddr cfg self dir relayed lan = Ok peers.
Proof.
  intros He Hne. unfold BuildPeerConfigs. rewrite (proj2 (Nat.eqb_neq _ _)) by (by destruct (dir_Nodes dir)).
  cbn [guard_err].
  pose proof (build_peers_total cfg self relayed (relay_target_key self dir relayed) lan
    (dir_Nodes dir) [] [] None) as Ht.
  rewrite is_ok_Ok in Ht. destruct Ht as [[[ps extra] idx] ->]; [|by eexists].
  eapply Forall_impl; [exact He|]. intros n Hv.
  destruct (valid_node_tunnel _ _ Hv) as (ip & _ & Hc). destruct Hv as [_ Hk _ _ _ _].
  apply is_ok_Ok in Hk as [k Hk]. unfold build_peer. by rewrite Hk, Hc.
Qed.

(** The tunnel network of a node. *)
Definition tunnel_of (n : Node) : IPNet := host_net (default 0 (parse_is4 (node_TunnelIP n))).

Lemma BuildPeerConfigs_covers cfg self dir relayed lan :
  ValidDirectory dir -> dir_Nodes dir <> [] ->
  exists peers, BuildPeerConfigs net_ResolveUDPAddr cfg self dir relayed lan = Ok peers /\
    Forall2 (peer_entry relayed (relay_target_key self dir relayed)) (others self (dir_Nodes dir)) peers /\
    NoDup (concat (pc_AllowedIPs <$> peers)) /\
    (forall net, net ∈ concat (pc_AllowedIPs <$> peers) <->
       exists n ip, n ∈ dir_Nodes dir /\ node_PublicKey n <> node_PublicKey self /\
         parse_is4 (node_TunnelIP n) = Some ip /\ net = host_net ip).
Proof.
  intros (_ & prefix & _ & _ & [He _ _ Hips _]) Hne. rewrite Forall_forall in He.
  destruct (BuildPeerConfigs_total cfg self dir relayed lan _ (proj2 (Forall_forall _ _) He) Hne)
    as [peers Hp].
  exists peers. split; [done|].
  apply BuildPeerConfigs_spec in Hp as (ts & Hts & Hperm & Hent). split; [done|].
  assert (Hn : forall n, n ∈ others self (dir_Nodes dir) ->
    n ∈ dir_Nodes dir /\ node_PublicKey n <> node_PublicKey self /\
    exists ip, parse_is4 (node_TunnelIP n) = Some ip /\
      net_ParseCIDR (node_TunnelIP n +:+ "/32") = Some (host_net ip)).
  { intros n [Hs Hn]%list_elem_of_filter. split_and!; try done. eapply valid_node_tunnel; eauto. }
  assert (ts = tunnel_of <$> others self (dir_Nodes dir)) as ->.
  { clear -Hts Hn. induction Hts as [|n t ns ts Ht _ IH]; [done|].
    rewrite fmap_cons, <- IH by (intros m Hm; apply Hn; by right).
    destruct (Hn n) as (_ & _ & ip & Hip & Hc); [by left|]. unfold tunnel_of. rewrite Hip.
    simpl. congruence. }
  setoid_rewrite Hperm. split.
  - apply NoDup_fmap_2_strong; [|by eapply NoDup_filter, NoDup_fmap_1].
    intros m n Hm Hn' E. destruct (Hn m Hm) as (Hm1 & _ & ip & Hip & _).
    destruct (Hn n Hn') as (Hn1 & _ & ip' & Hip' & _).
    unfold tunnel_of in E. rewrite Hip, Hip' in E. injection E as ->.
    apply (NoDup_fmap_inj _ _ _ _ Hips); try done. by eapply parse_is4_inj.
  - intros net. rewrite list_elem_of_fmap. split.
    + intros (n & -> & (Hin & Hs & ip & Hip & _)%Hn). exists n, ip. unfold tunnel_of. by rewrite Hip.
    + intros (n & ip & Hin & Hs & Hip & ->). exists n. unfold tunnel_of. rewrite Hip.
      split; [done|]. by apply list_elem_of_filter.
Qed.

(** C5: for a valid directory the peer list always exists, has one entry per
    other member in directory order, and its AllowedIPs cover the other members'
    tunnel addresses, each exactly once: a relayed peer's address is with the
    relay target, and every other one with its own peer. *)
Theorem BuildPeerConfigs_routes cfg self dir relayed lan :
  ValidDirectory dir -> dir_Nodes dir <> [] ->
  exists peers, BuildPeerConfigs net_ResolveUDPAddr cfg self dir relayed lan = Ok peers /\
    Forall2 (peer_entry relayed (relay_target_key self dir relayed)) (others self (dir_Nodes dir)) peers /\
    NoDup (concat (pc_AllowedIPs <$> peers)) /\
    (forall net, net ∈ concat (pc_AllowedIPs <$> peers) <->
       exists n ip, n ∈ dir_Nodes dir /\ node_PublicKey n <> node_PublicKey self /\
         parse_is4 (node_TunnelIP n) = Some ip /\ net = host_net ip).
Proof. apply BuildPeerConfigs_covers. Qed.

Context `{!CryptoLaws}.

Lemma ParseWGPublic_empty : is_ok (ParseWGPublic "") = false.
Proof. unfold ParseWGPublic. simpl. by rewrite ParseKey_empty. Qed.

Lemma shadow_relayed c self dir peers now n :
  ValidDirectory dir -> spokes_bare dir -> n ∈ others self (dir_Nodes dir) ->
  let relayed := dec_Relayed (Update c self dir peers now).2 in
  is_shadow relayed (relay_target_key self dir relayed) n = true <->
  node_PublicKey n ∈ relayed.
Proof.
  intros (_ & prefix & _ & _ & [He _ Hd _ _]) Hb [Hs Hn]%list_elem_of_filter relayed.
  unfold is_shadow. rewrite !andb_true_iff, bool_decide_eq_true. split; [tauto|]. intros Hr.
  pose proof (Update_nodes c self dir peers now Hd) as Hu. subst relayed.
  destruct (Update c self dir peers now) as [c' dec]. cbn [snd] in *.
  destruct Hu as (Est & _ & Et & Hnode & Hrel & _).
  apply Hrel in Hr as Hst. destruct Hst as (st & Hst & Hm).
  rewrite <- Est, Hnode in Hst by done. injection Hst as <-. rewrite Et in Hm.
  destruct (update_node_relayed _ _ _ _ _ _ Hd Hb Hn Hm) as (_ & t & Ht & Hne).
  unfold relay_target_key. rewrite decide_False by set_solver. rewrite Ht.
  rewrite !negb_true_iff, !String.eqb_neq. split_and!; [done| |congruence].
  apply RelayTarget_reachable in Ht as (Hin & _). rewrite Forall_forall in He.
  destruct (He t Hin) as [_ Hk _ _ _ _]. intros E. rewrite E, ParseWGPublic_empty in Hk. done.
Qed.

(** Routing and reporting agree: in a valid directory whose spokes publish
    no endpoint, the peers the controller reports as relayed are exactly those
    [BuildPeerConfigs] configures as shadows behind the relay target. *)
Theorem relayed_are_shadows c self dir peers now n :
  ValidDirectory dir -> spokes_bare dir -> n ∈ others self (dir_Nodes dir) ->
  let relayed := dec_Relayed (Update c self dir peers now).2 in
  is_shadow relayed (relay_target_key self dir relayed) n = true <->
  node_PublicKey n ∈ relayed.
Proof. apply shadow_relayed. Qed.
End routes.

(** ** The merge against the kernel *)
Section merge.
Context `{CryptoLib}.

(** The kernel's path to a peer is proven: a handshake within the window. *)
Definition live (kernel : list Peer) (now : Time) (key : string) : bool :=
  existsb (fun kp => String.eqb (peer_PublicKey kp) key &&
             negb (time_IsZero (peer_LastHandshakeTime kp)) &&
             (time_Sub now (peer_LastHandshakeTime kp) <? handshakeFreshWindow)) kernel.

Lemma indexPeers_lookup peers k p :
  NoDup (peer_PublicKey <$> peers) ->
  indexPeers peers !! k = Some p <-> p ∈ peers /\ peer_PublicKey p = k.
Proof.
  unfold indexPeers. induction peers as [|q qs IH] using rev_ind; intros Hd; [simpl; set_solver|].
  apply NoDup_fmap_snoc in Hd as [Hd Hq]. rewrite fold_left_app. simpl.
  rewrite lookup_insert_Some, IH, elem_of_app, list_elem_of_singleton by done.
  rewrite list_elem_of_fmap in Hq. naive_solver.
Qed.

Lemma preserve_endpoint_spec kernel now p :
  NoDup (peer_PublicKey <$> kernel) ->
  preserve_endpoint (indexPeers kernel) now p =
  set_pc_Endpoint (if live kernel now (pc_PublicKey p) then None else pc_Endpoint p) p.
Proof.
  intros Hd. unfold preserve_endpoint.
  assert (Hid : set_pc_Endpoint (pc_Endpoint p) p = p) by (by destruct p).
  destruct (pc_Endpoint p) as [e|] eqn:Ee; [|by destruct (live _ _ _); rewrite <- Ee in *].
  destruct (live kernel now (pc_PublicKey p)) eqn:El.
  - unfold live in El. apply existsb_exists in El as (kp & Hin%list_elem_of_In & Hk).
    apply andb_true_iff in Hk as [[Hk%String.eqb_eq Hz%negb_true_iff]%andb_true_iff Hw].
    destruct (indexPeers kernel !! pc_PublicKey p) as [kp'|] eqn:Ei.
    + apply indexPeers_lookup in Ei as [Hin' Hk']; [|done].
      assert (kp' = kp) as -> by (by apply (NoDup_fmap_inj _ _ _ _ Hd); congruence).
      by rewrite Hz, Hw.
    + assert (indexPeers kernel !! pc_PublicKey p = Some kp) by (by apply indexPeers_lookup). congruence.
  - rewrite Hid. destruct (indexPeers kernel !! pc_PublicKey p) as [kp|] eqn:Ei; [|done].
    apply indexPeers_lookup in Ei as [Hin Hk]; [|done].
    destruct (time_IsZero _) eqn:Ez; [done|]. destruct (_ <? _) eqn:Ew; [|done].
    apply not_true_iff_false in El. destruct El. unfold live. apply existsb_exists.
    exists kp. rewrite <- list_elem_of_In, Ez, Ew, Hk, String.eqb_refl. done.
Qed.

Lemma mergeAgainstKernel_spec kernel now peers :
  NoDup (peer_PublicKey <$> kernel) -> Forall (fun p => pc_Remove p = false) peers ->
  let merged := mergeAgainstKernel (Some kernel) now peers in
  Forall2 (fun p q => q = {| pc_PublicKey := pc_PublicKey p; pc_Remove := false;
      pc_Endpoint := if live kernel now (pc_PublicKey p) then None else pc_Endpoint p;
      pc_PersistentKeepaliveInterval := Some (default 0 (pc_PersistentKeepaliveInterval p));
      pc_ReplaceAllowedIPs := pc_ReplaceAllowedIPs p; pc_AllowedIPs := pc_AllowedIPs p |})
    peers (take (length peers) merged) /\
  (forall q, q ∈ drop (length peers) merged <->
     exists kp, kp ∈ kernel /\ peer_PublicKey kp ∉ pc_PublicKey <$> peers /\
       q = removal (peer_PublicKey kp)) /\
  (forall k, k ∈ pushedEndpointKeys merged <->
     exists p, p ∈ peers /\ pc_Endpoint p <> None /\ live kernel now (pc_PublicKey p) = false /\
       wgtypes_Key_String (pc_PublicKey p) = k).
Proof.
  intros Hd Hr merged. subst merged. unfold mergeAgainstKernel, appendDeletions, preserveLiveEndpoints.
  rewrite <- list_fmap_compose. set (f := preserve_endpoint _ _ ∘ _).
  assert (Hf : forall p, p ∈ peers -> f p = {| pc_PublicKey := pc_PublicKey p; pc_Remove := false;
      pc_Endpoint := if live kernel now (pc_PublicKey p) then None else pc_Endpoint p;
      pc_PersistentKeepaliveInterval := Some (default 0 (pc_PersistentKeepaliveInterval p));
      pc_ReplaceAllowedIPs := pc_ReplaceAllowedIPs p; pc_AllowedIPs := pc_AllowedIPs p |}).
  { intros p Hp. rewrite Forall_forall in Hr. specialize (Hr p Hp). unfold f. simpl.
    rewrite preserve_endpoint_spec by done.
    destruct (pc_PersistentKeepaliveInterval p) eqn:Ek; unfold set_pc_Endpoint; simpl; by rewrite ?Ek, Hr. }
  assert (Hkeys : pc_PublicKey <$> (f <$> peers) = pc_PublicKey <$> peers).
  { rewrite <- list_fmap_compose. apply list_fmap_ext. intros i p Hp%list_elem_of_lookup_2.
    simpl. by rewrite Hf. }
  rewrite Hkeys, take_app_length', drop_app_length' by (by rewrite length_fmap).
  split_and!.
  - apply Forall2_fmap_r, Forall_Forall2_diag, Forall_forall. done.
  - intros q. rewrite list_elem_of_fmap. setoid_rewrite list_elem_of_filter.
    setoid_rewrite elem_of_list_to_set. naive_solver.
  - intros k. unfold pushedEndpointKeys. rewrite list_elem_of_fmap.
    setoid_rewrite list_elem_of_filter. setoid_rewrite elem_of_app. split.
    + intros (q & -> & [Hrm He] & [(p & -> & Hp)%list_elem_of_fmap|(kp & -> & _)%list_elem_of_fmap]); [|done].
      rewrite Hf in * by done. exists p. simpl in *. by destruct (live _ _ _).
    + intros (p & Hp & He & Hl & <-). exists (f p). rewrite Hf by done. simpl. rewrite Hl.
      split_and!; try done. left. apply list_elem_of_fmap. exists p. by rewrite Hf, Hl.
Qed.

(** The update sent to the kernel keeps every configured peer, in order,
    with its routes and an explicit keepalive; it carries no endpoint for a peer
    whose path is live, and the computed one otherwise; and it removes exactly
    the kernel's peers that are not configured. *)
Theorem mergeAgainstKernel_correct kernel now peers :
  NoDup (peer_PublicKey <$> kernel) -> Forall (fun p => pc_Remove p = false) peers ->
  let merged := mergeAgainstKernel (Some kernel) now peers in
  Forall2 (fun p q => q = {| pc_PublicKey := pc_PublicKey p; pc_Remove := false;
      pc_Endpoint := if live kernel now (pc_PublicKey p) then None else pc_Endpoint p;
      pc_PersistentKeepaliveInterval := Some (default 0 (pc_PersistentKeepaliveInterval p));
      pc_ReplaceAllowedIPs := pc_ReplaceAllowedIPs p; pc_AllowedIPs := pc_AllowedIPs p |})
    peers (take (length peers) merged) /\
  (forall q, q ∈ drop (length peers) merged <->
     exists kp, kp ∈ kernel /\ peer_PublicKey kp ∉ pc_PublicKey <$> peers /\
       q = removal (peer_PublicKey kp)) /\
  (forall k, k ∈ pushedEndpointKeys merged <->
     exists p, p ∈ peers /\ pc_Endpoint p <> None /\ live kernel now (pc_PublicKey p) = false /\
       wgtypes_Key_String (pc_PublicKey p) = k).
Proof. apply mergeAgainstKernel_spec. Qed.
End merge.

Section samples.
#[local] Existing Instances toy_crypto ascii_tables toy_crypto_laws.

Definition no_config : WireguardConfig :=
  {| wg_Name := "gamma"; wg_PublicKey := ""; wg_PrivateKey := ""; wg_Interface := "";
     wg_ListenPort := 0; wg_MTU := 0; wg_Keepalive := unset_duration |}.

Lemma relay_dir_valid : ValidDirectory relay_dir.
Proof. apply Validate_spec. vm_compute. reflexivity. Defined.

(** From gamma, with beta relayed: alpha carries beta's address. *)
Lemma BuildPeerConfigs_routes_witness :
  exists peers, BuildPeerConfigs Some no_config gamma relay_dir {[node_PublicKey beta]} None = Ok peers /\
    pc_AllowedIPs <$> peers =
      [[host_net 168230913; host_net 168230914]; []; [host_net 168230915]] /\
    NoDup (concat (pc_AllowedIPs <$> peers)).
Proof.
  destruct (BuildPeerConfigs_routes Some no_config gamma relay_dir {[node_PublicKey beta]} None
    relay_dir_valid ltac:(discriminate)) as (peers & Hp & _ & Hd & _).
  exists peers. split_and!; [exact Hp| |exact Hd].
  assert (Hv : BuildPeerConfigs Some no_config gamma relay_dir {[node_PublicKey beta]} None =
    Ok (value [] (BuildPeerConfigs Some no_config gamma relay_dir {[node_PublicKey beta]} None)))
    by (apply value_Ok; vm_compute; reflexivity).
  assert (peers = value [] (BuildPeerConfigs Some no_config gamma relay_dir {[node_PublicKey beta]} None))
    as -> by congruence.
  vm_compute. reflexivity.
Defined.

Lemma relayed_are_shadows_witness :
  let relayed := dec_Relayed (Update sample_controller gamma relay_dir [] (300 * Second)).2 in
  is_shadow relayed (relay_target_key gamma relay_dir relayed) beta = true.
Proof.
  apply (relayed_are_shadows sample_controller gamma relay_dir [] (300 * Second) beta).
  - apply relay_dir_valid.
  - intros n Hn Hp. repeat (apply elem_of_cons in Hn as [->|Hn]; [discriminate Hp || reflexivity|]).
    destruct (not_elem_of_nil _ Hn).
  - apply list_elem_of_filter. split; [discriminate|]. right. left.
  - apply (bool_decide_eq_true _). vm_compute. reflexivity.
Defined.

(** A kernel with a live peer "a" and a stranger "z". *)
Definition sample_kernel : list Peer :=
  [{| peer_PublicKey := "a"; peer_Endpoint := Some "192.0.2.1:1"; peer_LastHandshakeTime := 100 * Second |};
   {| peer_PublicKey := "z"; peer_Endpoint := None; peer_LastHandshakeTime := 0 |}].
Definition sample_peers : list PeerConfig :=
  (fun k => {| pc_PublicKey := k; pc_Remove := false; pc_Endpoint := Some "198.51.100.1:1";
     pc_PersistentKeepaliveInterval := None; pc_ReplaceAllowedIPs := true; pc_AllowedIPs := [] |})
  <$> ["a"; "b"].

Lemma mergeAgainstKernel_correct_witness :
  let merged := mergeAgainstKernel (Some sample_kernel) (200 * Second) sample_peers in
  (forall q, q ∈ drop 2 merged <-> exists kp, kp ∈ sample_kernel /\
     peer_PublicKey kp ∉ pc_PublicKey <$> sample_peers /\ q = removal (peer_PublicKey kp)) /\
  length (pushedEndpointKeys merged) = 1%nat.
Proof.
  destruct (mergeAgainstKernel_correct sample_kernel (200 * Second) sample_peers) as (_ & Hrem & _).
  - apply (bool_decide_eq_true _). vm_compute. reflexivity.
  - repeat constructor.
  - split; [exact Hrem|vm_compute; reflexivity].
Defined.
End samples.
