(* ===== verification/Manager.v ===== *)
(** * Manager: internal/wg/manager.go and link.go

    Bringing the interface up and applying the peer plan.  What the kernel answers
    (netlink and wgctrl) is the record [Kernel]; what is modelled is which calls
    are made, in which order, what is handed to them and what the caller learns. *)
From stdpp Require Import base tactics option list strings gmap.
From Stdlib Require Import Ascii ZArith Lia.
From S2P Require Import Prelude GoStrings GoNum GoNet GoBase64 Keys Directory DnsName Validate Wire Toy Relay Schema Peers.
Open Scope Z_scope.

Record Manager := {
  mg_iface : string;
  mg_privateKey : string;
  mg_listenPort : option Z;
  mg_mtu : Z;
  mg_wg : WireguardConfig }.

Definition set_wg_iface (iface : string) (mtu : Z) (c : WireguardConfig) : WireguardConfig :=
  {| wg_Name := wg_Name c; wg_PublicKey := wg_PublicKey c; wg_PrivateKey := wg_PrivateKey c;
     wg_Interface := iface; wg_ListenPort := wg_ListenPort c; wg_MTU := mtu; wg_Keepalive := wg_Keepalive c |}.

(** What the kernel answers during one pass. *)
Record Kernel := {
  k_mtu : option Z;                             (* of the link, when it exists *)
  k_setMTU : result unit;
  k_addLink : result unit;
  k_findLink : result unit;                     (* looking it up again *)
  k_setUp : result unit;
  k_open : result unit;                         (* wgctrl.New *)
  k_peers : result (list Peer);                 (* the device, for the caller *)
  k_device : option (list Peer);                (* the device, for the merge *)
  k_configure : list PeerConfig -> result unit;
  k_addrs : result (list (option LinkAddr));
  k_assign : result unit;
  k_route : result unit;
  k_port : result Z }.

Section manager.
Context `{CryptoLib} `{UnicodeTables}.
Variable net_ResolveUDPAddr : string -> option UDPAddr.

Definition NewManager (cfg : WireguardConfig) : result Manager :=
  priv ← ParseWGPrivate (wg_PrivateKey cfg);
  let iface := if String.eqb (wg_Interface cfg) "" then DefaultInterface else wg_Interface cfg in
  let mtu := if wg_MTU cfg =? 0 then DefaultMTU else wg_MTU cfg in
  Ok {| mg_iface := iface; mg_privateKey := priv;
        mg_listenPort := if 0 <? wg_ListenPort cfg then Some (wg_ListenPort cfg) else None;
        mg_mtu := mtu; mg_wg := set_wg_iface iface mtu cfg |}.

(** The calls that change the link. *)
Inductive LinkCall := SetMTU (mtu : Z) | AddLink (mtu : Z) | SetUp.

Definition ensureLink (m : Manager) (k : Kernel) : list LinkCall * result unit :=
  match k_mtu k with
  | Some mtu =>
      if (0 <? mg_mtu m) && negb (mtu =? mg_mtu m)
      then ([SetMTU (mg_mtu m)], wrap_err (fun e => Errorf "set MTU on %q: %w" [e]) (k_setMTU k))
      else ([], Ok tt)
  | None =>
      ([AddLink (mg_mtu m)],
       _ ← wrap_err (fun e => Errorf "create WireGuard link %q: %w" [e]) (k_addLink k);
       wrap_err (fun e => Errorf "find created WireGuard link %q: %w" [e]) (k_findLink k))
  end.

Definition manager_Up (m : Manager) (k : Kernel) : list LinkCall * result unit :=
  let '(calls, r) := ensureLink m k in
  match r with
  | Err e => (calls, Err e)
  | Ok _ => (calls ++ [SetUp], wrap_err (fun e => Errorf "set link up: %w" [e]) (k_setUp k))
  end.

Definition manager_Peers (k : Kernel) : result (list Peer) :=
  _ ← wrap_err (fun e => Errorf "open wgctrl: %w" [e]) (k_open k);
  wrap_err (fun e => Errorf "read wireguard device: %w" [e]) (k_peers k).

Definition manager_ListenPort (k : Kernel) : result Z :=
  _ ← wrap_err (fun e => Errorf "open wgctrl: %w" [e]) (k_open k);
  port ← wrap_err (fun e => Errorf "read wireguard device: %w" [e]) (k_port k);
  guard_err ((port <? 0) || (65535 <? port)) (errors_New "listen port %d out of range")
  (Ok port).

Definition ensureAddress (tunnelIP : string) (k : Kernel) : list LinkAddr * result unit :=
  match net_ParseCIDR (tunnelIP +:+ "/32") with
  | None => ([], Err (errors_New "parse tunnel address: %w"))
  | Some want =>
      match k_addrs k with
      | Err e => ([], Err (Errorf "list link addresses: %w" [e]))
      | Ok addrs =>
          (stale_addresses want addrs, wrap_err (fun e => Errorf "assign tunnel address: %w" [e]) (k_assign k))
      end
  end.

Definition ensureRoute (cidr : string) (k : Kernel) : result unit :=
  _ ← of_option (errors_New "parse route CIDR: %w") (net_ParseCIDR cidr);
  wrap_err (fun e => Errorf "ensure route: %w" [e]) (k_route k).

(** The outcome of [Apply]: the peers handed to ConfigureDevice, when it was
    reached; the keys reported as pushed; and the error. *)
Record Applied := {
  ap_configured : option (list PeerConfig);
  ap_pushed : list string;
  ap_err : result unit }.

Definition not_applied (e : error) : Applied := {| ap_configured := None; ap_pushed := []; ap_err := Err e |}.

Definition manager_Apply (m : Manager) (self : Node) (dir : Directory) (relayed : gset string)
    (lanLookup : LANEndpointLookup) (k : Kernel) (now : Time) : Applied :=
  match k_findLink k with
  | Err e => not_applied (Errorf "find link %q: %w" [e])
  | Ok _ =>
  match BuildPeerConfigs net_ResolveUDPAddr (mg_wg m) self dir relayed lanLookup with
  | Err e => not_applied e
  | Ok peers =>
  match k_open k with
  | Err e => not_applied (Errorf "open wgctrl: %w" [e])
  | Ok _ =>
  let peers := mergeAgainstKernel (k_device k) now peers in
  match k_configure k peers with
  | Err e => {| ap_configured := Some peers; ap_pushed := []; ap_err := Err (Errorf "configure WireGuard device: %w" [e]) |}
  | Ok _ =>
      {| ap_configured := Some peers; ap_pushed := pushedEndpointKeys peers;
         ap_err := _ ← snd (ensureAddress (node_TunnelIP self) k); ensureRoute (dir_NetworkCIDR dir) k |}
  end end end end.
End manager.
