(* ===== verification/Observe.v ===== *)
(** * Observe: internal/admin/observe.go

    How an admin turns what its interface sees of the peers into the observed
    endpoints it publishes. *)
From stdpp Require Import base tactics option list strings gmap.
From Stdlib Require Import Ascii ZArith Lia.
From S2P Require Import Prelude GoStrings GoNum GoNet GoBase64 Keys Directory Wire Toy Schema Relay Peers.
Open Scope Z_scope.

Definition DefaultHandshakeFresh : Duration := 3 * Minute.

Section observe.
Context `{CryptoLib} `{UnicodeTables}.

(** One round of the loop: the node afterwards and whether it set [changed]. *)
Definition observe_node (byKey : gmap string Peer) (now : Time) (fresh : Duration)
    (pushedAt : gmap string Time) (n : Node) : Node * bool :=
  if negb (String.eqb (node_Endpoint n) "") then (n, false) else
  match ParseWGPublic (node_PublicKey n) with
  | Err _ => (n, false)
  | Ok pub =>
      let seen := peer ← byKey !! pub; ep ← peer_Endpoint peer;
        if negb (time_IsZero (peer_LastHandshakeTime peer)) &&
           (time_Sub now (peer_LastHandshakeTime peer) <=? fresh)
        then Some (peer, ep) else None in
      match seen with
      | Some (peer, observed) =>
          if negb (time_After (peer_LastHandshakeTime peer)
                     (default zero_time (pushedAt !! node_PublicKey n)))
          then (n, false)
          else if negb (String.eqb (node_ObservedEndpoint n) observed)
          then (set_node_Observed observed (time_Truncate now Second) n, true)
          else (n, false)
      | None =>
          if negb (String.eqb (node_ObservedEndpoint n) "") || negb (time_IsZero (node_ObservedAt n))
          then (set_node_Observed "" zero_time n, true)
          else (n, false)
      end
  end.

Fixpoint observe_nodes (byKey : gmap string Peer) (now : Time) (fresh : Duration)
    (pushedAt : gmap string Time) (nodes : list Node) (changed : bool) : list Node * bool :=
  match nodes with
  | [] => ([], changed)
  | n :: rest =>
      let '(n', c) := observe_node byKey now fresh pushedAt n in
      let '(rest', changed) := observe_nodes byKey now fresh pushedAt rest (changed || c) in
      (n' :: rest', changed)
  end.

Definition MergeObservations (dir : Directory) (peers : list Peer) (now : Time)
    (handshakeFresh : Duration) (pushedAt : gmap string Time) : Directory * bool :=
  let handshakeFresh := if handshakeFresh <=? 0 then DefaultHandshakeFresh else handshakeFresh in
  let '(nodes, changed) :=
    observe_nodes (indexPeers peers) now handshakeFresh pushedAt (dir_Nodes dir) false in
  (set_dir_Nodes nodes dir, changed).

(** ** Per node *)

Lemma set_node_Observed_id n : set_node_Observed (node_ObservedEndpoint n) (node_ObservedAt n) n = n.
Proof. by destruct n. Qed.

Lemma observe_node_changed byKey now fresh pushedAt n :
  let '(n', c) := observe_node byKey now fresh pushedAt n in c = false <-> n' = n.
Proof.
  unfold observe_node. destruct (negb _); [done|].
  destruct (ParseWGPublic _) as [pub|]; [|done].
  destruct (_ ≫= _) as [[peer ep]|].
  - destruct (negb (time_After _ _)); [done|].
    destruct (String.eqb_spec (node_ObservedEndpoint n) ep); simpl; [done|].
    split; [done|]. intros E. apply (f_equal node_ObservedEndpoint) in E. simpl in E. congruence.
  - destruct (String.eqb_spec (node_ObservedEndpoint n) ""); simpl.
    + destruct (time_IsZero (node_ObservedAt n)) eqn:Ez; simpl; [done|].
      split; [done|]. intros E. apply (f_equal node_ObservedAt) in E. simpl in E.
      unfold time_IsZero in Ez. by rewrite <- E in Ez.
    + split; [done|]. intros E. apply (f_equal node_ObservedEndpoint) in E. simpl in E. congruence.
Qed.

Lemma observe_node_idem byKey now fresh pushedAt n :
  let '(n', _) := observe_node byKey now fresh pushedAt n in
  observe_node byKey now fresh pushedAt n' = (n', false).
Proof.
  unfold observe_node. destruct (negb (String.eqb (node_Endpoint n) "")) eqn:Ee; [by rewrite Ee|].
  destruct (ParseWGPublic (node_PublicKey n)) as [pub|] eqn:Ep; [|by rewrite Ee, Ep].
  destruct (byKey !! pub ≫= _) as [[peer ep]|] eqn:Es.
  - destruct (negb (time_After _ _)) eqn:Ea; [by rewrite Ee, Ep, Es, Ea|].
    destruct (String.eqb_spec (node_ObservedEndpoint n) ep) as [E|E]; cbn [negb].
    + by rewrite Ee, Ep, Es, Ea, E, String.eqb_refl.
    + cbn [set_node_Observed node_Endpoint node_PublicKey node_ObservedEndpoint].
      by rewrite Ee, Ep, Es, Ea, String.eqb_refl.
  - destruct (negb _ || negb _) eqn:Ec.
    + cbn [set_node_Observed node_Endpoint node_PublicKey node_ObservedEndpoint node_ObservedAt].
      by rewrite Ee, Ep, Es.
    + by rewrite Ee, Ep, Es, Ec.
Qed.

Lemma observe_nodes_spec byKey now fresh pushedAt nodes : forall changed,
  let '(out, c) := observe_nodes byKey now fresh pushedAt nodes changed in
  out = (fun n => (observe_node byKey now fresh pushedAt n).1) <$> nodes /\
  (c = false <-> changed = false /\ out = nodes).
Proof.
  induction nodes as [|n ns IH]; intros changed; cbn [observe_nodes];
    [split; [done|]; split; [by intros ->|by intros [-> _]]|].
  pose proof (observe_node_changed byKey now fresh pushedAt n) as Hc.
  rewrite fmap_cons. destruct (observe_node _ _ _ _ n) as [n' c] eqn:En. specialize (IH (changed || c)).
  destruct (observe_nodes _ _ _ _ ns _) as [out c'] eqn:Eo. destruct IH as [-> Hc'].
  split; [done|]. rewrite Hc', orb_false_iff, Hc. cbn [fst]. split.
  - intros [[-> ->] ->]. done.
  - by intros [-> [= -> ->]].
Qed.

Lemma MergeObservations_nodes dir peers now fresh pushedAt :
  let f := if fresh <=? 0 then DefaultHandshakeFresh else fresh in
  let '(out, changed) := MergeObservations dir peers now fresh pushedAt in
  out = set_dir_Nodes ((fun n => (observe_node (indexPeers peers) now f pushedAt n).1) <$> dir_Nodes dir) dir /\
  (changed = false <-> out = dir).
Proof.
  intros f. subst f. unfold MergeObservations.
  pose proof (observe_nodes_spec (indexPeers peers) now
    (if fresh <=? 0 then DefaultHandshakeFresh else fresh) pushedAt (dir_Nodes dir) false) as Ho.
  destruct (observe_nodes _ _ _ _ _ _) as [nodes c]. destruct Ho as [-> Hc]. split; [done|].
  rewrite Hc. split.
  - intros [_ ->]. by destruct dir.
  - intros E. split; [done|]. by apply (f_equal dir_Nodes) in E.
Qed.

(** What an observation may rest on: a handshake within the window, completed
    after the last endpoint the daemon itself pushed for the peer. *)
Definition vouched (peers : list Peer) (now : Time) (fresh : Duration)
    (pushedAt : gmap string Time) (n : Node) (ep : string) : Prop :=
  exists p pub, ParseWGPublic (node_PublicKey n) = Ok pub /\ p ∈ peers /\ peer_PublicKey p = pub /\
    peer_Endpoint p = Some ep /\ peer_LastHandshakeTime p <> zero_time /\
    time_Sub now (peer_LastHandshakeTime p) <= fresh /\
    default zero_time (pushedAt !! node_PublicKey n) < peer_LastHandshakeTime p.

Lemma MergeObservations_spec dir peers now fresh pushedAt :
  NoDup (peer_PublicKey <$> peers) ->
  let window := if fresh <=? 0 then DefaultHandshakeFresh else fresh in
  let '(out, changed) := MergeObservations dir peers now fresh pushedAt in
  (changed = false <-> out = dir) /\
  exists nodes, out = set_dir_Nodes nodes dir /\
    Forall2 (fun n n' => n' = set_node_Observed (node_ObservedEndpoint n') (node_ObservedAt n') n /\
      (n' <> n -> node_Endpoint n = "" /\
         (node_ObservedEndpoint n' <> "" -> vouched peers now window pushedAt n (node_ObservedEndpoint n') /\
            node_ObservedAt n' = time_Truncate now Second) /\
         (node_ObservedEndpoint n' = "" ->
            node_ObservedAt n' = zero_time \/
            vouched peers now window pushedAt n (node_ObservedEndpoint n'))))
      (dir_Nodes dir) nodes.
Proof.
  intros Hd window. pose proof (MergeObservations_nodes dir peers now fresh pushedAt) as Hm.
  cbv zeta in Hm. fold window in Hm.
  destruct (MergeObservations dir peers now fresh pushedAt) as [out changed]. destruct Hm as [-> Hc].
  split; [done|]. eexists. split; [done|]. apply Forall2_fmap_r, Forall_Forall2_diag, Forall_forall.
  intros n _. unfold compose, observe_node.
  destruct (String.eqb_spec (node_Endpoint n) "") as [Ee|]; cbn [negb fst];
    [|split; [by destruct n|done]].
  destruct (ParseWGPublic (node_PublicKey n)) as [pub|] eqn:Ep; cbn [fst];
    [|split; [by destruct n|done]].
  destruct (indexPeers peers !! pub ≫= _) as [[p ep]|] eqn:Es.
  - destruct (time_After _ _) eqn:Ea; cbn [negb fst]; [|split; [by destruct n|done]].
    destruct (String.eqb_spec (node_ObservedEndpoint n) ep); cbn [negb fst];
      [split; [by destruct n|done]|].
    split; [done|]. intros _. split; [done|]. cbn [set_node_Observed node_ObservedEndpoint node_ObservedAt].
    assert (Hv : vouched peers now window pushedAt n ep); [|by split; [|right]].
    apply bind_Some in Es as (q & Hq & (e & He & Hk)%bind_Some).
    destruct (negb _ && _) eqn:Ew; [|done]. injection Hk as -> ->.
    apply indexPeers_lookup in Hq as [Hin Hpub]; [|done].
    unfold time_After in Ea. bool_solve. exists p, pub. unfold time_IsZero, zero_time in *. bool_solve.
    by split_and!.
  - destruct (negb _ || negb _); cbn [fst]; [|split; [by destruct n|done]].
    split; [done|]. intros _. split; [done|]. cbn. split; [done|by left].
Qed.

(** Merging observations changes nothing but observed endpoints; operator
    endpoints stay as they are; an endpoint newly published was vouched for by a
    fresh handshake later than any endpoint the daemon pushed, and is stamped
    with the merge's second; any other change clears the observation; and the
    flag tells exactly whether the directory changed. *)
Theorem MergeObservations_safe dir peers now fresh pushedAt :
  NoDup (peer_PublicKey <$> peers) ->
  let window := if fresh <=? 0 then DefaultHandshakeFresh else fresh in
  let '(out, changed) := MergeObservations dir peers now fresh pushedAt in
  (changed = false <-> out = dir) /\
  exists nodes, out = set_dir_Nodes nodes dir /\
    Forall2 (fun n n' => n' = set_node_Observed (node_ObservedEndpoint n') (node_ObservedAt n') n /\
      (n' <> n -> node_Endpoint n = "" /\
         (node_ObservedEndpoint n' <> "" -> vouched peers now window pushedAt n (node_ObservedEndpoint n') /\
            node_ObservedAt n' = time_Truncate now Second) /\
         (node_ObservedEndpoint n' = "" ->
            node_ObservedAt n' = zero_time \/
            vouched peers now window pushedAt n (node_ObservedEndpoint n'))))
      (dir_Nodes dir) nodes.
Proof. apply MergeObservations_spec. Qed.

(** Merging the same observations again changes nothing. *)
Theorem MergeObservations_idempotent dir peers now fresh pushedAt :
  let out := (MergeObservations dir peers now fresh pushedAt).1 in
  MergeObservations out peers now fresh pushedAt = (out, false).
Proof.
  pose proof (MergeObservations_nodes dir peers now fresh pushedAt) as Hm. cbv zeta in *.
  destruct (MergeObservations dir peers now fresh pushedAt) as [out c]. destruct Hm as [-> _].
  cbn [fst]. set (out := set_dir_Nodes _ dir).
  pose proof (MergeObservations_nodes out peers now fresh pushedAt) as Hm. cbv zeta in Hm.
  destruct (MergeObservations out peers now fresh pushedAt) as [out' c']. destruct Hm as [E Hc].
  assert (out' = out) as ->; [|by rewrite (proj2 Hc eq_refl)].
  rewrite E. unfold out at 2. unfold out. cbn [set_dir_Nodes dir_Nodes].
  rewrite <- list_fmap_compose. unfold set_dir_Nodes. f_equal. apply list_fmap_ext. intros i n _. simpl.
  set (f := if fresh <=? 0 then _ else _).
  pose proof (observe_node_idem (indexPeers peers) now f pushedAt n) as Hi.
  destruct (observe_node (indexPeers peers) now f pushedAt n) as [n' cn]. simpl. by rewrite Hi.
Qed.
End observe.

Section samples.
#[local] Existing Instances toy_crypto ascii_tables.

Definition beta_seen : Peer :=
  {| peer_PublicKey := value "" (ParseWGPublic (node_PublicKey beta));
     peer_Endpoint := Some "198.51.100.7:4242"; peer_LastHandshakeTime := 90 * Second |}.

(** A handshake of second 90, seen at second 100: recorded when the last push
    was at second 80, left alone when it was at second 95. *)
Example observed_beta pushed :
  pushed = 80 \/ pushed = 95 ->
  (MergeObservations sample_dir [beta_seen] (100 * Second) 0
     {[ node_PublicKey beta := pushed * Second ]}).2 = (pushed <? 90).
Proof. intros [-> | ->]; vm_compute; reflexivity. Qed.

Lemma MergeObservations_safe_witness :
  exists n', (MergeObservations sample_dir [beta_seen] (100 * Second) 0 ∅).1
    = set_dir_Nodes [alpha; n'; phone] sample_dir /\ node_ObservedEndpoint n' = "198.51.100.7:4242" /\
    vouched [beta_seen] (100 * Second) DefaultHandshakeFresh ∅ beta (node_ObservedEndpoint n').
Proof.
  assert (Hd : NoDup (peer_PublicKey <$> [beta_seen]))
    by (apply (bool_decide_eq_true _); vm_compute; reflexivity).
  pose proof (MergeObservations_safe sample_dir [beta_seen] (100 * Second) 0 ∅ Hd) as Hm.
  assert (E : (MergeObservations sample_dir [beta_seen] (100 * Second) 0 ∅).1
    = set_dir_Nodes [alpha; set_node_Observed "198.51.100.7:4242" (100 * Second) beta; phone] sample_dir)
    by (vm_compute; reflexivity).
  rewrite (surjective_pairing (MergeObservations _ _ _ _ _)) in Hm.
  destruct Hm as (_ & nodes & Ho & Hf). rewrite E in Ho.
  exists (set_node_Observed "198.51.100.7:4242" (100 * Second) beta).
  split; [exact E|]. split; [reflexivity|].
  apply (f_equal dir_Nodes) in Ho. cbn [dir_Nodes set_dir_Nodes] in Ho. subst nodes.
  pose proof (Forall2_lookup_lr _ _ _ 1 _ _ Hf eq_refl eq_refl) as [_ Hb].
  destruct Hb as (_ & Hv & _); [discriminate|]. apply Hv. discriminate.
Defined.
End samples.
