(* ===== verification/Discovery.v ===== *)
(** * Discovery: internal/discovery (store.go, beacon.go, listener.go, iface.go, sender.go)

    The LAN endpoint store as a state machine, the beacon codec and the filter
    every received packet goes through, the choice of interfaces, and the pacing
    of the sender.  Sockets are outside: a received packet is the arguments of
    [processBeacon], the local addresses and the interface table are
    parameters, and the msgpack form of a beacon is the class [BeaconPack]. *)
From stdpp Require Import base tactics option list strings gmap.
From Stdlib Require Import Ascii ZArith Lia.
From S2P Require Import Prelude GoStrings GoNum GoNet Directory.
Open Scope Z_scope.

(** ** store.go *)

Record LANState := {
  lan_Endpoint : string;
  lan_LearnedAt : Time;
  lan_FailedAt : Time;
  lan_FailedEndpoint : string }.

Definition Blacklisted (s : LANState) : bool :=
  negb (String.eqb (lan_Endpoint s) "") && String.eqb (lan_FailedEndpoint s) (lan_Endpoint s).

Definition Usable (s : LANState) (now : Time) (ttl : Duration) : bool :=
  if String.eqb (lan_Endpoint s) "" || time_IsZero (lan_LearnedAt s) then false
  else if ttl <? time_Sub now (lan_LearnedAt s) then false
  else if Blacklisted s then false
  else true.

Record Store := {
  st_ttl : Duration;
  st_entries : gmap string LANState;
  st_selfPub : string;
  st_selfPort : Z }.

Definition set_entries (m : gmap string LANState) (s : Store) : Store :=
  {| st_ttl := st_ttl s; st_entries := m; st_selfPub := st_selfPub s; st_selfPort := st_selfPort s |}.

Definition NewStore (ttl : Duration) : Store :=
  {| st_ttl := ttl; st_entries := ∅; st_selfPub := ""; st_selfPort := 0 |}.

Definition store_SetSelf (s : Store) (pubkey : string) (port : Z) : Store :=
  {| st_ttl := st_ttl s; st_entries := st_entries s; st_selfPub := pubkey; st_selfPort := port |}.

Definition store_Self (s : Store) : string * Z * bool :=
  (st_selfPub s, st_selfPort s,
   negb (st_selfPort s =? 0) && negb (String.eqb (st_selfPub s) "")).

Definition store_Lookup (s : Store) (pubkey : string) (now : Time) : string :=
  match st_entries s !! pubkey with
  | None => ""
  | Some entry => if negb (Usable entry now (st_ttl s)) then "" else lan_Endpoint entry
  end.

Definition store_LookupLastKnown (s : Store) (pubkey : string) : string :=
  match st_entries s !! pubkey with Some entry => lan_Endpoint entry | None => "" end.

Record UpdateResult := { ur_Changed : bool; ur_FirstSeen : bool }.

Definition learned (endpoint : string) (now : Time) : LANState :=
  {| lan_Endpoint := endpoint; lan_LearnedAt := now; lan_FailedAt := zero_time;
     lan_FailedEndpoint := "" |}.

Definition store_Update (s : Store) (pubkey endpoint : string) (now : Time) : Store * UpdateResult :=
  match st_entries s !! pubkey with
  | None =>
      (set_entries (<[pubkey := learned endpoint now]> (st_entries s)) s,
       {| ur_Changed := true; ur_FirstSeen := true |})
  | Some prev =>
      if String.eqb endpoint (lan_Endpoint prev) then
        (set_entries (<[pubkey := {| lan_Endpoint := lan_Endpoint prev; lan_LearnedAt := now;
                                     lan_FailedAt := lan_FailedAt prev;
                                     lan_FailedEndpoint := lan_FailedEndpoint prev |}]>
                        (st_entries s)) s,
         {| ur_Changed := false; ur_FirstSeen := false |})
      else if Usable prev now (st_ttl s) then
        (s, {| ur_Changed := false; ur_FirstSeen := false |})
      else
        (set_entries (<[pubkey := learned endpoint now]> (st_entries s)) s,
         {| ur_Changed := true; ur_FirstSeen := false |})
  end.

Definition store_MarkFailed (s : Store) (pubkey : string) (now : Time) : Store :=
  match st_entries s !! pubkey with
  | None => s
  | Some entry =>
      set_entries (<[pubkey := {| lan_Endpoint := lan_Endpoint entry;
                                  lan_LearnedAt := lan_LearnedAt entry; lan_FailedAt := now;
                                  lan_FailedEndpoint := lan_Endpoint entry |}]> (st_entries s)) s
  end.

(** [members] is [None] for a nil map. *)
Definition gc_drops (now : Time) (maxAge : Duration) (members : option (gset string))
    (pubkey : string) (entry : LANState) : bool :=
  (negb (time_IsZero (lan_LearnedAt entry)) && (maxAge <? time_Sub now (lan_LearnedAt entry))) ||
  match members with Some ms => negb (bool_decide (pubkey ∈ ms)) | None => false end.

Definition store_GC (s : Store) (now : Time) (maxAge : Duration) (members : option (gset string))
    : Store * nat :=
  let kept := filter (fun '(k, e) => gc_drops now maxAge members k e = false) (st_entries s) in
  (set_entries kept s, (size (st_entries s) - size kept)%nat).

(** ** beacon.go *)

Definition BeaconSchemaVersion : Z := 1.

Record Beacon := { bc_V : Z; bc_PublicKey : string; bc_Port : Z; bc_Nonce : Z }.

Class BeaconPack := {
  msgpack_MarshalBeacon : Beacon -> option string;
  msgpack_UnmarshalBeacon : string -> option Beacon }.

Section beacon.
Context `{BeaconPack}.

Definition beacon_Encode (b : Beacon) : result string :=
  of_option (errors_New "msgpack: marshal")
    (msgpack_MarshalBeacon
       (if bc_V b =? 0
        then {| bc_V := BeaconSchemaVersion; bc_PublicKey := bc_PublicKey b;
                bc_Port := bc_Port b; bc_Nonce := bc_Nonce b |}
        else b)).

Definition beacon_Decode (data : string) : result Beacon :=
  b ← of_option (errors_New "decode beacon: %w") (msgpack_UnmarshalBeacon data);
  guard_err (bc_V b =? 0) (errors_New "decode beacon: missing schema version")
  (guard_err (String.eqb (bc_PublicKey b) "") (errors_New "decode beacon: missing public_key")
  (guard_err (bc_Port b =? 0) (errors_New "decode beacon: missing port") (Ok b))).
End beacon.

(** ** iface.go *)

Definition hasGlobalScope (ip : Z) : bool :=
  negb (ip_IsUnspecified ip || ip_IsLoopback ip || ip_IsLinkLocalUnicast ip ||
        ip_IsLinkLocalMulticast ip).

(** An interface: the flags tested, and its addresses, [None] for an error. *)
Record Iface := { if_Name : string; if_Loopback : bool; if_Up : bool; if_Addrs : option (list Z) }.

Definition shouldUseInterface (iface : Iface) (skip : string) : bool :=
  if if_Loopback iface then false
  else if negb (if_Up iface) then false
  else if String.eqb (if_Name iface) skip then false
  else match if_Addrs iface with
  | None => false
  | Some addrs => existsb hasGlobalScope addrs
  end.

Definition liveLANInterfaces (all : list Iface) (skip : string) : list Iface :=
  List.filter (fun i => shouldUseInterface i skip) all.

(** [local]: the addresses of the interfaces, [None] when they cannot be listed. *)
Definition isLocalIP (local : option (list Z)) (ip : Z) : bool :=
  match local with Some addrs => existsb (Z.eqb ip) addrs | None => false end.

(** ** listener.go *)

Record beaconFilter := {
  bf_group : Z;
  bf_skipIface : string;
  bf_ifaceName : Z -> option string }.

Definition beaconFilter_drop (f : beaconFilter) (dst : option Z) (ifIndex : Z) : bool * string :=
  match dst with
  | None => (true, "not addressed to the multicast group")
  | Some d =>
      if negb (d =? bf_group f) then (true, "not addressed to the multicast group")
      else if String.eqb (bf_skipIface f) "" then (false, "")
      else if ifIndex <=? 0 then (true, "ingress interface unknown")
      else match bf_ifaceName f ifIndex with
      | None => (true, "ingress interface unresolvable")
      | Some name =>
          if String.eqb name (bf_skipIface f) then (true, "received on the tunnel interface")
          else (false, "")
      end
  end.

(** [rejoinGroups]: the calls made on the connection and the joins that succeed. *)
Inductive GroupCall := LeaveGroup (i : Iface) | JoinGroup (i : Iface).

Fixpoint rejoinGroups (join_ok : Iface -> bool) (ifaces : list Iface) : list GroupCall * nat :=
  match ifaces with
  | [] => ([], O)
  | i :: rest =>
      let '(calls, joined) := rejoinGroups join_ok rest in
      (LeaveGroup i :: JoinGroup i :: calls, if join_ok i then S joined else joined)
  end.

Definition isKnownPubkey (dir : Directory) (pubkey : string) : bool :=
  existsb (fun n => String.eqb (node_PublicKey n) pubkey) (dir_Nodes dir).

Definition insideNetworkCIDR (cidr : string) (ip : Z) : bool :=
  if String.eqb cidr "" then false else
  match net_ParseCIDR cidr with
  | None => false
  | Some ipnet => ipnet_Contains ipnet ip
  end.

(** What a packet did: the store, and whether the daemon and the sender are
    signalled. *)
Record Processed := { pr_Store : Store; pr_Wake : bool; pr_React : bool }.

Definition dropped_packet (s : Store) : Processed :=
  {| pr_Store := s; pr_Wake := false; pr_React := false |}.

Section process.
Context `{BeaconPack}.

(** [srcIP] is [None] when the source is not a UDP address or has no IP. *)
Definition processBeacon (data : string) (srcIP dst : option Z) (ingressIfIndex : Z)
    (filt : beaconFilter) (local : option (list Z)) (s : Store) (dir : Directory) (now : Time)
    : Processed :=
  match srcIP with
  | None => dropped_packet s
  | Some srcIP =>
      if (beaconFilter_drop filt dst ingressIfIndex).1 then dropped_packet s
      else if isLocalIP local srcIP then dropped_packet s
      else if bool_decide (ip_To4 srcIP = None) && ip_IsLinkLocalUnicast srcIP then dropped_packet s
      else match beacon_Decode data with
      | Err _ => dropped_packet s
      | Ok beacon =>
          if insideNetworkCIDR (dir_NetworkCIDR dir) srcIP then dropped_packet s
          else if negb (isKnownPubkey dir (bc_PublicKey beacon)) then dropped_packet s
          else if String.eqb (bc_PublicKey beacon) (st_selfPub s) then dropped_packet s
          else
            let endpoint := net_JoinHostPort (ip_String srcIP) (strconv_Itoa (bc_Port beacon)) in
            let '(s', r) := store_Update s (bc_PublicKey beacon) endpoint now in
            {| pr_Store := s'; pr_Wake := ur_Changed r; pr_React := ur_FirstSeen r |}
      end
  end.
End process.

(** ** sender.go *)

Definition reactiveCooldown : Duration := 5 * Second.
Definition reactiveMaxJitter : Duration := 200 * 1000000.
Definition burstSchedule : list Duration := [0; 2 * Second; 3 * Second].

(** The loop after the burst: a tick emits, a react emits after its jitter
    unless a reactive beacon went out within the cooldown.  [done] is the time
    the emission ends. *)
Inductive SenderEvent := Tick (now : Time) | React (now : Time) (done : Time).

Definition sender_step (lastReactive : Time) (ev : SenderEvent) : Time * bool :=
  match ev with
  | Tick _ => (lastReactive, true)
  | React now done =>
      if time_Sub now lastReactive <? reactiveCooldown then (lastReactive, false)
      else (done, true)
  end.

(** ** The store over time *)

Inductive StoreEvent :=
  | EvUpdate (pubkey endpoint : string) (now : Time)
  | EvFailed (pubkey : string) (now : Time)
  | EvGC (now : Time) (maxAge : Duration) (members : option (gset string))
  | EvSelf (pubkey : string) (port : Z).

Definition store_step (s : Store) (ev : StoreEvent) : Store :=
  match ev with
  | EvUpdate k ep now => (store_Update s k ep now).1
  | EvFailed k now => store_MarkFailed s k now
  | EvGC now maxAge members => (store_GC s now maxAge members).1
  | EvSelf k port => store_SetSelf s k port
  end.

Definition store_run (s : Store) (evs : list StoreEvent) : Store := fold_left store_step evs s.

Lemma store_step_ttl s ev : st_ttl (store_step s ev) = st_ttl s.
Proof.
  destruct ev as [k ep now|k now|now age ms|k port]; simpl; [..|done|done].
  - unfold store_Update. destruct (st_entries s !! k); [|done].
    destruct (String.eqb _ _); [done|]. by destruct (Usable _ _ _).
  - unfold store_MarkFailed. by destruct (st_entries s !! k).
Qed.

(** What a step does to the entry of [k]. *)
Lemma store_step_entry s ev k :
  st_entries (store_step s ev) !! k =
  match ev with
  | EvUpdate k' ep now =>
      if String.eqb k' k then
        match st_entries s !! k with
        | None => Some (learned ep now)
        | Some prev =>
            if String.eqb ep (lan_Endpoint prev)
            then Some {| lan_Endpoint := lan_Endpoint prev; lan_LearnedAt := now;
                         lan_FailedAt := lan_FailedAt prev;
                         lan_FailedEndpoint := lan_FailedEndpoint prev |}
            else if Usable prev now (st_ttl s) then Some prev else Some (learned ep now)
        end
      else st_entries s !! k
  | EvFailed k' now =>
      if String.eqb k' k then
        (fun e => {| lan_Endpoint := lan_Endpoint e; lan_LearnedAt := lan_LearnedAt e;
                     lan_FailedAt := now; lan_FailedEndpoint := lan_Endpoint e |}) <$> st_entries s !! k
      else st_entries s !! k
  | EvGC now age ms =>
      e ← st_entries s !! k; if gc_drops now age ms k e then None else Some e
  | EvSelf _ _ => st_entries s !! k
  end.
Proof.
  destruct ev as [k' ep now|k' now|now age ms|k' port]; simpl; [..|done].
  - unfold store_Update. destruct (String.eqb_spec k' k) as [->|Hk].
    + destruct (st_entries s !! k) as [prev|] eqn:E; [|by simpl; rewrite lookup_insert_eq].
      destruct (String.eqb _ _); [by simpl; rewrite lookup_insert_eq|].
      destruct (Usable _ _ _); simpl; [done|by rewrite lookup_insert_eq].
    + destruct (st_entries s !! k') as [prev|]; [|by simpl; rewrite lookup_insert_ne].
      destruct (String.eqb _ _); [by simpl; rewrite lookup_insert_ne|].
      destruct (Usable _ _ _); simpl; [done|by rewrite lookup_insert_ne].
  - unfold store_MarkFailed. destruct (String.eqb_spec k' k) as [->|Hk].
    + destruct (st_entries s !! k) as [e|] eqn:E; [by simpl; rewrite lookup_insert_eq|by rewrite E].
    + destruct (st_entries s !! k'); [by simpl; rewrite lookup_insert_ne|done].
  - rewrite map_lookup_filter. destruct (st_entries s !! k) as [e|]; [|done]. simpl.
    destruct (gc_drops now age ms k e) eqn:E; [by rewrite option_guard_False|by rewrite option_guard_True].
Qed.

Lemma time_Sub_anti t u u' : u <= u' -> time_Sub t u' <= time_Sub t u.
Proof. unfold time_Sub. lia. Qed.

(** The entry of [k] holds endpoint [ep], refreshed at [t0] or later, not failed. *)
Definition holds (k ep : string) (t0 : Time) (s : Store) : Prop :=
  exists e, st_entries s !! k = Some e /\ lan_Endpoint e = ep /\ t0 <= lan_LearnedAt e /\
    lan_FailedEndpoint e <> ep.

(** The events that leave it: anything within [ttl] of [t0], except a failure of
    [k] itself or a collection that drops it. *)
Definition undisturbing (k : string) (t0 ttl : Z) (ev : StoreEvent) : Prop :=
  match ev with
  | EvUpdate k' _ now => k' = k -> t0 <= now /\ time_Sub now t0 <= ttl
  | EvFailed k' _ => k' <> k
  | EvGC now age ms => time_Sub now t0 <= age /\
      match ms with Some m => k ∈ m | None => True end
  | EvSelf _ _ => True
  end.

Lemma holds_usable ep t0 ttl e now :
  0 < t0 -> ep <> "" -> lan_Endpoint e = ep -> t0 <= lan_LearnedAt e ->
  lan_FailedEndpoint e <> ep -> time_Sub now t0 <= ttl -> Usable e now ttl = true.
Proof.
  intros Ht Hep He Hl Hf Hn. unfold Usable, Blacklisted, time_IsZero. rewrite He.
  apply String.eqb_neq in Hep as ->. rewrite (proj2 (Z.eqb_neq _ _)) by lia. simpl.
  pose proof (time_Sub_anti now _ _ Hl). rewrite (proj2 (Z.ltb_ge _ _)) by lia.
  by apply String.eqb_neq in Hf as ->.
Qed.

Lemma holds_step k ep t0 s ev :
  0 < t0 -> ep <> "" -> holds k ep t0 s -> undisturbing k t0 (st_ttl s) ev ->
  holds k ep t0 (store_step s ev).
Proof.
  intros Ht Hep (e & Hs & He & Hl & Hf) Hev. unfold holds. rewrite store_step_entry.
  destruct ev as [k' ep' now|k' now|now age ms|k' port]; cbn in Hev.
  - destruct (String.eqb_spec k' k) as [->|]; [|by exists e]. destruct (Hev eq_refl) as [Hn Ha].
    rewrite Hs. destruct (String.eqb_spec ep' (lan_Endpoint e)).
    + eexists. split; [done|]. by simpl.
    + rewrite (holds_usable ep t0) by done. by exists e.
  - destruct (String.eqb_spec k' k); [done|]. by exists e.
  - rewrite Hs. simpl. destruct Hev as [Hage Hms]. unfold gc_drops.
    pose proof (time_Sub_anti now _ _ Hl). rewrite (proj2 (Z.ltb_ge _ _)) by lia.
    rewrite andb_false_r. simpl. destruct ms as [ms|]; [|by exists e].
    rewrite bool_decide_eq_true_2 by done. simpl. by exists e.
  - by exists e.
Qed.

(** C29: pinning: no sequence of beacons, from whoever sends them, moves a peer
    off an endpoint that was usable, before that endpoint is marked failed, the
    peer leaves the directory, or the TTL runs out since it was last learned. *)
Theorem store_pinned s k ep t0 evs now :
  0 < t0 -> ep <> "" -> holds k ep t0 s ->
  Forall (undisturbing k t0 (st_ttl s)) evs -> time_Sub now t0 <= st_ttl s ->
  store_Lookup (store_run s evs) k now = ep.
Proof.
  intros Ht Hep Hh Hevs Hn. unfold store_run.
  assert (Hr : holds k ep t0 (fold_left store_step evs s) /\
               st_ttl (fold_left store_step evs s) = st_ttl s).
  { clear Hn now. revert s Hh Hevs. induction evs as [|ev evs IH]; intros s Hh Hevs; [done|].
    apply Forall_cons in Hevs as [Hev Hevs]. simpl. rewrite <- (store_step_ttl s ev) in Hevs |- *.
    apply IH; [|done]. by apply holds_step. }
  destruct Hr as [(e & Hs & He & Hl & Hf) Et]. unfold store_Lookup. rewrite Hs, Et.
  rewrite (holds_usable ep t0) by done. done.
Qed.

(** A failed entry: blacklisted, or gone. *)
Definition failed_entry (k ep : string) (s : Store) : Prop :=
  match st_entries s !! k with
  | None => False
  | Some e => lan_Endpoint e = ep /\ lan_FailedEndpoint e = ep
  end.

(** Only repeats of the failed endpoint arrive for [k], and no collection drops it. *)
Fixpoint only_repeats (k ep : string) (s : Store) (evs : list StoreEvent) : Prop :=
  match evs with
  | [] => True
  | ev :: rest =>
      match ev with
      | EvUpdate k' ep' _ => k' = k -> ep' = ep
      | EvGC now age ms => forall e, st_entries s !! k = Some e -> gc_drops now age ms k e = false
      | _ => True
      end /\ only_repeats k ep (store_step s ev) rest
  end.

(** A failed endpoint is not resurrected: after [MarkFailed], however often
    the same address is announced, the lookup yields nothing until a different
    address is announced for the peer. *)
Theorem store_blacklist s k e t evs now :
  st_entries s !! k = Some e -> lan_Endpoint e <> "" ->
  only_repeats k (lan_Endpoint e) (store_MarkFailed s k t) evs ->
  store_Lookup (store_run (store_MarkFailed s k t) evs) k now = "".
Proof.
  intros Hs Hep Hr. set (ep := lan_Endpoint e) in *.
  assert (H0 : failed_entry k ep (store_MarkFailed s k t)).
  { unfold failed_entry, store_MarkFailed. rewrite Hs. simpl. by rewrite lookup_insert_eq. }
  revert Hr H0. unfold store_run. generalize (store_MarkFailed s k t) as s'. clear Hs s.
  induction evs as [|ev evs IH]; intros s Hr Hf; simpl.
  - unfold failed_entry in Hf. unfold store_Lookup.
    destruct (st_entries s !! k) as [e'|]; [|done]. destruct Hf as [E1 E2].
    unfold Usable, Blacklisted. rewrite E1, E2, String.eqb_refl.
    destruct (String.eqb_spec ep ""); [done|]. simpl.
    destruct (time_IsZero _); [done|]. by destruct (_ <? _).
  - destruct Hr as [Hev Hr]. apply IH; [done|]. unfold failed_entry in *.
    rewrite store_step_entry. destruct (st_entries s !! k) as [e'|]; [|done]. destruct Hf as [E1 E2].
    destruct ev as [k' ep' n|k' n|n age ms|k' port]; simpl.
    + destruct (String.eqb_spec k' k) as [->|]; [|done]. rewrite (Hev eq_refl), E1, String.eqb_refl.
      by simpl.
    + destruct (String.eqb_spec k' k); by simpl.
    + by rewrite Hev.
    + done.
Qed.

Section listener.
Context `{BeaconPack}.

(** A packet whose delivery and content the listener trusts to be a LAN beacon. *)
Record acceptable (data : string) (src : Z) (dst : option Z) (ifIndex : Z) (filt : beaconFilter)
    (local : option (list Z)) (s : Store) (dir : Directory) (b : Beacon) : Prop := {
  ac_group : dst = Some (bf_group filt);
  ac_iface : bf_skipIface filt <> "" ->
    0 < ifIndex /\ exists name, bf_ifaceName filt ifIndex = Some name /\ name <> bf_skipIface filt;
  ac_remote : isLocalIP local src = false;
  ac_scope : ip_To4 src = None -> ip_IsLinkLocalUnicast src = false;
  ac_decode : beacon_Decode data = Ok b;
  ac_tunnel : insideNetworkCIDR (dir_NetworkCIDR dir) src = false;
  ac_member : exists n, n ∈ dir_Nodes dir /\ node_PublicKey n = bc_PublicKey b;
  ac_self : bc_PublicKey b <> st_selfPub s }.

Lemma beaconFilter_drop_false f dst i :
  (beaconFilter_drop f dst i).1 = false <->
  dst = Some (bf_group f) /\
  (bf_skipIface f <> "" -> 0 < i /\ exists name, bf_ifaceName f i = Some name /\ name <> bf_skipIface f).
Proof.
  unfold beaconFilter_drop. destruct dst as [d|]; [|split; [done|by intros [? _]]].
  destruct (Z.eqb_spec d (bf_group f)) as [->|Hd]; simpl.
  - destruct (String.eqb_spec (bf_skipIface f) "") as [E|E]; simpl; [split; [done|done]|].
    destruct (Z.leb_spec i 0); simpl; [split; [done|]; intros [_ Hk]; destruct (Hk E); lia|].
    destruct (bf_ifaceName f i) as [name|] eqn:En; simpl.
    + destruct (String.eqb_spec name (bf_skipIface f)); simpl; split; try done.
      * intros [_ Hk]. destruct (Hk E) as (_ & ? & ? & ?). congruence.
      * intros _. split; [done|]. intros _. split; [done|]. eauto.
    + split; [done|]. intros [_ Hk]. destruct (Hk E) as (_ & ? & ? & ?). congruence.
  - split; [done|]. intros [[= ->] _]. done.
Qed.

Lemma isKnownPubkey_spec dir k :
  isKnownPubkey dir k = true <-> exists n, n ∈ dir_Nodes dir /\ node_PublicKey n = k.
Proof.
  unfold isKnownPubkey. rewrite existsb_exists. setoid_rewrite String.eqb_eq.
  by setoid_rewrite list_elem_of_In.
Qed.

(** A packet has an effect exactly when it is acceptable: addressed to the
    group, arrived on a known interface that is not the tunnel, from a remote
    source that is neither link-local IPv6 nor inside the tunnel network, with a
    beacon of another member.  Its effect is then one store update with the
    packet's own source address, and nothing else happens otherwise. *)
Theorem processBeacon_correct data srcIP dst ifIndex filt local s dir now :
  let r := processBeacon data srcIP dst ifIndex filt local s dir now in
  (forall src b, srcIP = Some src -> acceptable data src dst ifIndex filt local s dir b ->
     let '(s', u) := store_Update s (bc_PublicKey b)
       (net_JoinHostPort (ip_String src) (strconv_Itoa (bc_Port b))) now in
     r = {| pr_Store := s'; pr_Wake := ur_Changed u; pr_React := ur_FirstSeen u |}) /\
  (~ (exists src b, srcIP = Some src /\ acceptable data src dst ifIndex filt local s dir b) ->
   r = dropped_packet s).
Proof.
  intros r. subst r. split.
  - intros src b -> [Hg Hi Hl Hsc Hd Ht Hm Hs]. unfold processBeacon.
    rewrite (proj2 (beaconFilter_drop_false _ _ _)) by done. rewrite Hl.
    assert (bool_decide (ip_To4 src = None) && ip_IsLinkLocalUnicast src = false) as ->.
    { case_bool_decide; [by rewrite Hsc|done]. }
    rewrite Hd, Ht. apply isKnownPubkey_spec in Hm as ->. apply String.eqb_neq in Hs as ->. simpl.
    by destruct (store_Update _ _ _ _).
  - intros Hno. unfold processBeacon. destruct srcIP as [src|]; [|done].
    destruct (beaconFilter_drop filt dst ifIndex).1 eqn:E1; [done|].
    destruct (isLocalIP local src) eqn:E2; [done|].
    destruct (bool_decide _ && _) eqn:E3; [done|].
    destruct (beacon_Decode data) as [b|] eqn:E4; [|done].
    destruct (insideNetworkCIDR _ _) eqn:E5; [done|].
    destruct (isKnownPubkey _ _) eqn:E6; [|done]. simpl.
    destruct (String.eqb_spec (bc_PublicKey b) (st_selfPub s)); [done|]. destruct Hno.
    apply beaconFilter_drop_false in E1 as [? ?]. apply isKnownPubkey_spec in E6.
    exists src, b. split; [done|]. split; try done.
    intros Hv6. rewrite Hv6 in E3. by rewrite bool_decide_eq_true_2 in E3.
Qed.
End listener.

(** ** A store at work *)

Definition sample_store : Store :=
  store_run (NewStore (90 * Second)) [EvUpdate "peer" "192.168.1.5:51820" (10 * Second)].

(** Spoofed beacons within the TTL leave the lookup alone. *)
Lemma store_pinned_witness :
  store_Lookup (store_run sample_store
    [EvUpdate "peer" "192.168.1.66:1" (20 * Second); EvUpdate "peer" "192.168.1.67:1" (60 * Second);
     EvGC (61 * Second) (3600 * Second) (Some {["peer"]}); EvFailed "other" 0])
    "peer" (90 * Second) = "192.168.1.5:51820".
Proof.
  apply (store_pinned _ _ _ (10 * Second)).
  - unfold Second. lia.
  - discriminate.
  - eexists. split; [vm_compute; reflexivity|]. split; [done|]. split; [simpl; unfold Second; lia|discriminate].
  - repeat (apply Forall_cons; split); [..|done];
      [intros _; split; apply Z.leb_le; reflexivity..| |discriminate].
    split; [apply Z.leb_le; reflexivity|by apply elem_of_singleton].
  - apply Z.leb_le. reflexivity.
Defined.

Lemma store_blacklist_witness :
  store_Lookup (store_run (store_MarkFailed sample_store "peer" (30 * Second))
    [EvUpdate "peer" "192.168.1.5:51820" (40 * Second); EvUpdate "other" "10.0.0.1:1" (41 * Second)])
    "peer" (42 * Second) = "".
Proof.
  apply (store_blacklist sample_store "peer" (learned "192.168.1.5:51820" (10 * Second))).
  - vm_compute. reflexivity.
  - discriminate.
  - split; [done|]. split; [discriminate|]. exact I.
Defined.

(** A packet addressed to the listen port instead of the group is dropped. *)
Definition toy_beacon : BeaconPack := {|
  msgpack_MarshalBeacon b := Some (bc_PublicKey b);
  msgpack_UnmarshalBeacon s :=
    Some {| bc_V := 1; bc_PublicKey := s; bc_Port := 51820; bc_Nonce := 0 |} |}.

Definition sample_filter : beaconFilter :=
  {| bf_group := 281474708225091; bf_skipIface := "tincan0";
     bf_ifaceName := fun i => if i =? 2 then Some "eth0" else Some "tincan0" |}.

Definition sample_member : Directory :=
  set_dir_Nodes [{| node_Name := "peer"; node_PublicKey := "peer"; node_TunnelIP := "10.7.0.9";
    node_AgeRecipient := "age1"; node_Endpoint := ""; node_Relay := false; node_ObservedEndpoint := "";
    node_ObservedAt := zero_time; node_PSK := "" |}] zero_directory.

Lemma processBeacon_correct_witness :
  let H := toy_beacon in
  let r dst := processBeacon "peer" (Some 281473913979141) dst 2 sample_filter (Some [])
                 (NewStore (90 * Second)) sample_member (5 * Second) in
  pr_React (r (Some 281474708225091)) = true /\ r (Some 281473913979146) = dropped_packet (NewStore (90 * Second)).
Proof.
  intros H r. split.
  - destruct (processBeacon_correct "peer" (Some 281473913979141) (Some 281474708225091) 2 sample_filter
      (Some []) (NewStore (90 * Second)) sample_member (5 * Second)) as [Ha _].
    specialize (Ha _ {| bc_V := 1; bc_PublicKey := "peer"; bc_Port := 51820; bc_Nonce := 0 |} eq_refl).
    unfold r. rewrite Ha; [vm_compute; reflexivity|]. split; try (vm_compute; congruence).
    + intros _. split; [lia|]. exists "eth0". split; [reflexivity|discriminate].
    + eexists. split; [left|reflexivity].
  - apply (processBeacon_correct "peer" (Some 281473913979141) (Some 281473913979146) 2 sample_filter
      (Some []) (NewStore (90 * Second)) sample_member (5 * Second)).
    intros (src & b & _ & [Hg _ _ _ _ _ _ _]). vm_compute in Hg. congruence.
Defined.
