(* ===== verification/StateJson.v ===== *)
(** * StateJson: the files of a state directory that are JSON

    The structs State and DiscoveryState of internal/cache/cache.go with LANState of
    internal/discovery/store.go, by their tags: the text that is written and what is
    read of one.  A state that is written is read back. *)
From stdpp Require Import base tactics option list strings gmap.
From Stdlib Require Import Ascii ZArith Lia.
From S2P Require Import Prelude GoStrings GoNum GoUtf8 GoJson JsonBind GoTime GoTimeJson Discovery.
Open Scope Z_scope.

Record State := { state_LastSync : Time; state_LastETag : string; state_Serial : Z }.

Record DiscoveryState := { ds_UpdatedAt : Time; ds_LANEndpoints : gmap string LANState }.

(** ** Tags *)

Definition eta_State (s : State) : State :=
  {| state_LastSync := state_LastSync s; state_LastETag := state_LastETag s; state_Serial := state_Serial s |}.
Definition zero_state : State := {| state_LastSync := zero_time; state_LastETag := ""; state_Serial := 0 |}.
Definition state_fields : list (field State) := [
  ("last_sync", into_time ltac:(setter eta_State state_LastSync)); ("last_etag", into_string ltac:(setter eta_State state_LastETag));
  ("serial", into_uint64 ltac:(setter eta_State state_Serial))].
Definition state_json (s : State) : option json :=
  last_sync ← json_time (state_LastSync s);
  Some (JObj (member "last_sync" last_sync ++ omit_string "last_etag" (state_LastETag s) ++ member "serial" (json_uint (state_Serial s)))).

Definition eta_LANState (s : LANState) : LANState :=
  {| lan_Endpoint := lan_Endpoint s; lan_LearnedAt := lan_LearnedAt s; lan_FailedAt := lan_FailedAt s;
     lan_FailedEndpoint := lan_FailedEndpoint s |}.
Definition zero_lan_state : LANState :=
  {| lan_Endpoint := ""; lan_LearnedAt := zero_time; lan_FailedAt := zero_time; lan_FailedEndpoint := "" |}.
Definition lan_state_fields : list (field LANState) := [
  ("endpoint", into_string ltac:(setter eta_LANState lan_Endpoint)); ("learned_at", into_time ltac:(setter eta_LANState lan_LearnedAt));
  ("failed_at", into_time ltac:(setter eta_LANState lan_FailedAt));
  ("failed_endpoint", into_string ltac:(setter eta_LANState lan_FailedEndpoint))].

(** [omitzero]. *)
Definition omit_time (k : string) (t : Time) : option (list (string * json)) :=
  if time_IsZero t then Some [] else member k <$> json_time t.
Definition lan_state_json (s : LANState) : option json :=
  learned ← omit_time "learned_at" (lan_LearnedAt s);
  failed ← omit_time "failed_at" (lan_FailedAt s);
  Some (JObj (omit_string "endpoint" (lan_Endpoint s) ++ learned ++ failed ++ omit_string "failed_endpoint" (lan_FailedEndpoint s) ++ [])).

Definition eta_DiscoveryState (s : DiscoveryState) : DiscoveryState :=
  {| ds_UpdatedAt := ds_UpdatedAt s; ds_LANEndpoints := ds_LANEndpoints s |}.
Definition zero_discovery_state : DiscoveryState := {| ds_UpdatedAt := zero_time; ds_LANEndpoints := ∅ |}.
Definition discovery_json (s : DiscoveryState) : option json :=
  updated ← json_time (ds_UpdatedAt s);
  endpoints ← json_map lan_state_json (ds_LANEndpoints s);
  Some (JObj (member "updated_at" updated ++ member "lan_endpoints" endpoints)).

(** ** Files *)

Definition indented_file (what : string) (v : option json) : result string :=
  v ← of_option (errors_New ("encode " +:+ what +:+ ": %w")) v;
  Ok (json_MarshalIndent v +:+ String (chr 10) "").

Definition state_data (s : State) : result string := indented_file "state" (state_json s).
Definition discovery_data (s : DiscoveryState) : result string := indented_file "discovery state" (discovery_json s).

Section reading.
Context `{UnicodeTables}.

Definition discovery_fields : list (field DiscoveryState) := [
  ("updated_at", into_time ltac:(setter eta_DiscoveryState ds_UpdatedAt));
  ("lan_endpoints", into_map ds_LANEndpoints ltac:(setter eta_DiscoveryState ds_LANEndpoints) zero_lan_state (into_struct lan_state_fields))].

Definition read_state (data : string) : result State :=
  of_option (errors_New "decode state: %w") (json_Unmarshal (into_struct state_fields) data zero_state).
Definition read_discovery (data : string) : result DiscoveryState :=
  of_option (errors_New "decode discovery state: %w") (json_Unmarshal (into_struct discovery_fields) data zero_discovery_state).

(** ** Files read back *)

Lemma indented_file_read {A} what (dec : decoder A) k v a : good k v -> k <= maxNestingDepth ->
  exists data, indented_file what (Some v) = Ok data /\ json_Unmarshal dec data a = dec (json_clean v) a.
Proof.
  intros Hg Hk. eexists. split; [reflexivity|]. by apply (Unmarshal_text dec k v a (String (chr 10) "")).
Qed.

(** What [Write] leaves of a sync is what [ReadState] finds; an entity tag that is no
    UTF-8 loses those bytes. *)
Theorem state_reads_back s : four_digit_year (state_LastSync s) -> 0 <= state_Serial s <= max_uint64 ->
  exists data, state_data s = Ok data /\
    read_state data = Ok {| state_LastSync := state_LastSync s; state_LastETag := clean (state_LastETag s); state_Serial := state_Serial s |}.
Proof.
  intros Ht Hs. unfold state_data, state_json. rewrite json_time_Some by done. set (stamp := JStr _). cbn [mbind option_bind].
  destruct (time_read (fun t _ => t) _ zero_time stamp Ht (json_time_Some _ Ht)) as [_ Hg].
  destruct (indented_file_read "state" (into_struct state_fields) 1 (JObj (member "last_sync" stamp ++
    omit_string "last_etag" (state_LastETag s) ++ member "serial" (json_uint (state_Serial s)))) zero_state) as (data & -> & E);
    [apply (good_object 0); auto with good|done|].
  exists data. split; [done|]. unfold read_state. rewrite E. clear E.
  change (into_struct state_fields (json_clean (JObj ?ms)) zero_state) with (into_members state_fields (clean_members ms) zero_state).
  erewrite read_member by reflexivity. cbn [snd]. rewrite (proj1 (time_read _ _ _ _ Ht (json_time_Some _ Ht))). cbn [mbind option_bind].
  erewrite read_omit_string by (reflexivity || record_step). rewrite <- (app_nil_r (member "serial" _)).
  erewrite read_member by reflexivity. cbn. by rewrite ParseUint_FormatUint.
Qed.

Definition lan_fits (s : LANState) : Prop :=
  four_digit_year (lan_LearnedAt s) /\ four_digit_year (lan_FailedAt s) /\
  utf8_Valid (lan_Endpoint s) = true /\ utf8_Valid (lan_FailedEndpoint s) = true.

Lemma omit_time_read {A} (fields : list (field A)) k set t ms a a' : four_digit_year t ->
  clean k = k -> find_field fields k = Some (k, into_time set) -> set zero_time a = a -> set t a = a' ->
  exists tms, omit_time k t = Some tms /\ goods 0 tms /\
    into_members fields (clean_members (tms ++ ms)) a = into_members fields (clean_members ms) a'.
Proof.
  intros Ht Hk Hf Hz <-. unfold omit_time, time_IsZero. destruct (Z.eqb_spec t 0) as [->|_].
  - exists []. split; [done|]. split; [apply goods_nil|]. by rewrite (Hz : set 0 a = a).
  - rewrite json_time_Some by done. destruct (time_read set _ a _ Ht (json_time_Some _ Ht)) as [Hr Hg].
    eexists. split; [reflexivity|]. split; [by apply goods_member|]. rewrite (read_member fields k _ _ _ _ Hk Hf). cbn [snd]. by rewrite Hr.
Qed.

Lemma lan_state_reads_back s : lan_fits s ->
  exists v, lan_state_json s = Some v /\ good 1 v /\ into_struct lan_state_fields (json_clean v) zero_lan_state = Some s.
Proof.
  intros (Hl & Hf & Ve & Vf).
  destruct (omit_time_read lan_state_fields "failed_at" ltac:(setter eta_LANState lan_FailedAt) (lan_FailedAt s) (omit_string "failed_endpoint" (lan_FailedEndpoint s) ++ [])
    {| lan_Endpoint := lan_Endpoint s; lan_LearnedAt := lan_LearnedAt s; lan_FailedAt := zero_time; lan_FailedEndpoint := "" |}
    {| lan_Endpoint := lan_Endpoint s; lan_LearnedAt := lan_LearnedAt s; lan_FailedAt := lan_FailedAt s; lan_FailedEndpoint := "" |})
    as (failed & E2 & G2 & R2); [done|reflexivity|reflexivity|reflexivity|reflexivity|].
  destruct (omit_time_read lan_state_fields "learned_at" ltac:(setter eta_LANState lan_LearnedAt) (lan_LearnedAt s)
    (failed ++ omit_string "failed_endpoint" (lan_FailedEndpoint s) ++ [])
    {| lan_Endpoint := lan_Endpoint s; lan_LearnedAt := zero_time; lan_FailedAt := zero_time; lan_FailedEndpoint := "" |}
    {| lan_Endpoint := lan_Endpoint s; lan_LearnedAt := lan_LearnedAt s; lan_FailedAt := zero_time; lan_FailedEndpoint := "" |})
    as (learned & E1 & G1 & R1); [done|reflexivity|reflexivity|reflexivity|reflexivity|].
  unfold lan_state_json. rewrite E1, E2. cbn [mbind option_bind]. eexists. split; [reflexivity|].
  split; [apply (good_object 0); [done|]; repeat apply goods_app; auto with good|].
  change (into_struct lan_state_fields (json_clean (JObj ?ms)) zero_lan_state) with (into_members lan_state_fields (clean_members ms) zero_lan_state).
  erewrite read_omit_string; [|reflexivity|reflexivity|reflexivity|cbn; rewrite clean_valid by done; reflexivity].
  etransitivity; [exact R1|]. etransitivity; [exact R2|].
  erewrite read_omit_string; [|reflexivity|reflexivity|reflexivity|cbn; rewrite clean_valid by done; reflexivity]. by destruct s.
Qed.

(** What the daemon leaves of the LAN is what status finds, times and failures
    included. *)
Theorem discovery_reads_back s : four_digit_year (ds_UpdatedAt s) ->
  map_Forall (fun k e => utf8_Valid k = true /\ lan_fits e) (ds_LANEndpoints s) ->
  exists data, discovery_data s = Ok data /\ read_discovery data = Ok s.
Proof.
  intros Ht Hm. unfold discovery_data, discovery_json. rewrite json_time_Some by done. set (stamp := JStr _). cbn [mbind option_bind].
  destruct (time_read (fun t _ => t) _ zero_time stamp Ht (json_time_Some _ Ht)) as [_ Hg].
  assert (Hall : Forall (fun kb => exists v, lan_state_json (snd kb) = Some v /\ good 1 v) (sorted_entries (ds_LANEndpoints s))).
  { apply Forall_forall. intros [k b] Hin. rewrite sorted_entries_perm in Hin. apply elem_of_map_to_list in Hin.
    destruct (Hm k b Hin) as [_ (v & E & G & _)%lan_state_reads_back]. by exists v. }
  assert (Hms : exists ms, mapM (fun kb => pair (fst kb) <$> lan_state_json (snd kb)) (sorted_entries (ds_LANEndpoints s)) = Some ms /\ goods 1 ms).
  { induction Hall as [|[k b] l (v & E & G) _ (ms & Em & Gm)]; [exists []; split; [done|apply goods_nil]|].
    exists ((k, v) :: ms). cbn [mapM fst snd] in *. rewrite E. cbn [fmap option_fmap option_map mbind option_bind].
    rewrite Em. split; [done|]. by constructor. }
  destruct Hms as (ms & Em & Gm). unfold json_map. rewrite Em. cbn [fmap option_fmap option_map mbind option_bind].
  destruct (indented_file_read "discovery state" (into_struct discovery_fields) 3 (JObj (member "updated_at" stamp ++
    member "lan_endpoints" (JObj ms))) zero_discovery_state) as (data & -> & E);
    [apply (good_object 2); [done|]; apply goods_app; apply goods_member;
      [by apply (good_weaken 0)|apply (good_object 1); done]|done|].
  exists data. split; [done|]. unfold read_discovery. rewrite E. clear E.
  change (into_struct discovery_fields (json_clean (JObj ?ms)) zero_discovery_state) with
    (into_members discovery_fields (clean_members ms) zero_discovery_state).
  erewrite read_member by reflexivity. cbn [snd]. rewrite (proj1 (time_read _ _ _ _ Ht (json_time_Some _ Ht))). cbn [mbind option_bind].
  rewrite <- (app_nil_r (member "lan_endpoints" _)). erewrite read_member by reflexivity. cbn [snd].
  change (json_clean (JObj ms)) with (JObj (clean_members ms)). unfold into_map. cbn [ds_LANEndpoints].
  rewrite (map_reads_back lan_state_json zero_lan_state (into_struct lan_state_fields) id (ds_LANEndpoints s) ms Em).
  - cbn [mbind option_bind]. rewrite map_fmap_id. by destruct s.
  - intros k b Hkb. destruct (Hm k b Hkb) as [Hk Hb]. split; [by apply clean_valid|]. intros v Ev.
    destruct (lan_state_reads_back b Hb) as (v' & Ev' & _ & R). rewrite Ev in Ev'. by injection Ev' as <-.
Qed.
End reading.
