(* ===== verification/LanDiscovery.v ===== *)
(** * LanDiscovery: the goroutines of LAN discovery (internal/discovery/discovery.go, listener.go, sender.go)

    The sockets, the sender with its startup burst, the read loop of a listener and the
    upkeep of the multicast membership, around the store and the filter of
    Discovery.v.  What the network and the kernel answer are arguments.  Two daemons
    that hear each other's beacons are shown to learn each other's endpoints. *)
From stdpp Require Import base tactics option list strings gmap.
From Stdlib Require Import Ascii ZArith Lia.
From S2P Require Import Prelude GoStrings GoNum GoNet Directory Discovery.
Open Scope Z_scope.

Record DiscConfig := {
  dcf_MulticastIPv4 : string; dcf_MulticastIPv6 : string; dcf_BeaconInterval : Duration; dcf_BeaconTTL : Duration;
  dcf_InterfaceFilter : string }.

Inductive Family := IPv4 | IPv6.

(** A multicast address: the group and its port. *)
Record GroupAddr := { ga_IP : Z; ga_Port : Z }.

(** ** sender.go *)

Record senderSockets := { ss_v4 : bool; ss_v6 : bool }.

Definition openSenderSockets (listen4 listen6 : result unit) : result senderSockets :=
  _ ← listen4;
  match listen6 with
  | Err _ => Ok {| ss_v4 := true; ss_v6 := false |}
  | Ok _ => Ok {| ss_v4 := true; ss_v6 := true |}
  end.

(** The goroutine it starts is [runSender_step] below. *)
Definition startSender (listen4 listen6 : result unit) : result senderSockets :=
  socks ← openSenderSockets listen4 listen6;
  Ok socks.

(** A datagram handed to a socket. *)
Record Datagram := { dg_family : Family; dg_iface : Iface; dg_group : GroupAddr; dg_payload : string }.

Section sender.
Context `{BeaconPack}.
Variable setInterface : Family -> Iface -> result unit.

Definition send_family (f : Family) (open : bool) (iface : Iface) (addr : option GroupAddr) (payload : string) : list Datagram :=
  match open, addr with
  | true, Some a =>
      match setInterface f iface with
      | Err _ => []
      | Ok _ => [{| dg_family := f; dg_iface := iface; dg_group := a; dg_payload := payload |}]
      end
  | _, _ => []
  end.

Definition sendOne (socks : senderSockets) (iface : Iface) (ipv4Addr ipv6Addr : option GroupAddr) (payload : string) : list Datagram :=
  send_family IPv4 (ss_v4 socks) iface ipv4Addr payload ++ send_family IPv6 (ss_v6 socks) iface ipv6Addr payload.

(** The random bytes, or the clock. *)
Fixpoint little_endian (s : string) : Z :=
  match s with EmptyString => 0 | String c t => code c + 256 * little_endian t end.
Definition randomNonce (read : result string) (unixNano : Z) : Z :=
  match read with
  | Err _ => unixNano mod 18446744073709551616
  | Ok b => little_endian b
  end.

(** [all]: the interfaces, when they can be listed. *)
Definition emit (ipv4Addr ipv6Addr : option GroupAddr) (ifaceFilter : string) (s : Store) (socks : senderSockets) (nonce : Z)
    (all : result (list Iface)) : list Datagram :=
  let '(selfPub, selfPort, ready) := store_Self s in
  if negb ready then [] else
  match beacon_Encode {| bc_V := BeaconSchemaVersion; bc_PublicKey := selfPub; bc_Port := selfPort; bc_Nonce := nonce |} with
  | Err _ => []
  | Ok payload =>
      match all with
      | Err _ => []
      | Ok all => concat ((fun i => sendOne socks i ipv4Addr ipv6Addr payload) <$> liveLANInterfaces all ifaceFilter)
      end
  end.
End sender.

(** [runSender]: the burst, then the loop; [true] is an emission. *)
Inductive SenderPhase := Bursting (rest : list Duration) | Pacing (lastReactive : Time) | SenderDone.
Inductive SenderInput := DelayOver | Paced (e : SenderEvent) | Canceled.

Definition runSender_start : SenderPhase := Bursting burstSchedule.
Definition runSender_step (p : SenderPhase) (e : SenderInput) : option (SenderPhase * bool) :=
  match p, e with
  | SenderDone, _ => None
  | _, Canceled => Some (SenderDone, false)
  | Bursting (_ :: []), DelayOver => Some (Pacing zero_time, true)
  | Bursting (_ :: rest), DelayOver => Some (Bursting rest, true)
  | Pacing last, Paced ev => let '(last', sent) := sender_step last ev in Some (Pacing last', sent)
  | _, _ => None
  end.

(** ** listener.go *)

Definition newBeaconFilter (ifaceName : Z -> option string) (group : Z) (skipIface : string) : beaconFilter :=
  {| bf_group := group; bf_skipIface := skipIface; bf_ifaceName := ifaceName |}.

(** The control message of a packet: where it was sent and arrived. *)
Record ControlMessage := { cm_Dst : option Z; cm_IfIndex : Z }.
Definition ifaceIndex (cm : option ControlMessage) : Z := from_option cm_IfIndex 0 cm.
Definition dstAddr (cm : option ControlMessage) : option Z := cm ≫= cm_Dst.

Definition netTimedOut (timeout : option bool) : bool := default false timeout.

(** What a read returns: a packet with its source, or an error which may be a
    [net.Error]. *)
Inductive ReadResult :=
  | ReadPacket (data : string) (src : option Z) (cm : option ControlMessage)
  | ReadError (timeout : option bool).

(** The store with the signals nobody has taken yet. *)
Record Listening := { ls_store : Store; ls_wake : bool; ls_react : bool }.

Section listener.
Context `{BeaconPack}.

(** One turn of the read loop; [canceled] is the context's state after an error.  The
    buffer holds 1500 bytes. *)
Definition listener_turn (filt : beaconFilter) (local : option (list Z)) (dir : Directory) (now : Time) (canceled : bool)
    (r : ReadResult) (s : Listening) : option Listening :=
  match r with
  | ReadError t => if netTimedOut t then Some s else if canceled then None else Some s
  | ReadPacket data src cm =>
      let p := processBeacon (string_take 1500 data) src (dstAddr cm) (ifaceIndex cm) filt local (ls_store s) dir now in
      Some {| ls_store := pr_Store p; ls_wake := ls_wake s || pr_Wake p; ls_react := ls_react s || pr_React p |}
  end.
End listener.

(** [startIPv4Listener] and its twin: the filter of the read loop it starts and the
    interfaces joined. *)
Definition start_listener (listen control : result unit) (cfg : DiscConfig) (addr : GroupAddr) (ifaces : list Iface)
    (join_ok : Iface -> bool) (ifaceName : Z -> option string) : result (beaconFilter * nat) :=
  _ ← listen; _ ← control;
  Ok (newBeaconFilter ifaceName (ga_IP addr) (dcf_InterfaceFilter cfg), snd (rejoinGroups join_ok ifaces)).

(** The system calls of the start, by family. *)
Record StartIo := {
  so_listen : Family -> result unit;
  so_control : Family -> result unit;
  so_join : Family -> Iface -> bool;
  so_ifaceName : Z -> option string;
  so_send4 : result unit;
  so_send6 : result unit;
  so_ifaces : result (list Iface) }.

Definition start_family (io : StartIo) (f : Family) (cfg : DiscConfig) (ifaces : list Iface) (addr : option GroupAddr)
  : result (list (Family * beaconFilter)) :=
  match addr with
  | None => Ok []
  | Some a => '(filt, _) ← start_listener (so_listen io f) (so_control io f) cfg a ifaces (so_join io f) (so_ifaceName io); Ok [(f, filt)]
  end.

Definition startListeners (io : StartIo) (cfg : DiscConfig) (ipv4Addr ipv6Addr : option GroupAddr) (ifaces : list Iface)
  : result (list (Family * beaconFilter)) :=
  l4 ← start_family io IPv4 cfg ifaces ipv4Addr;
  l6 ← start_family io IPv6 cfg ifaces ipv6Addr;
  Ok (l4 ++ l6).

(** *** Membership *)

Definition maintain_interval (cfg : DiscConfig) : Duration :=
  if dcf_BeaconInterval cfg <=? 0 then 30 * Second else dcf_BeaconInterval cfg.

(** What a tick of [maintainMembership] does. *)
Definition maintain_tick (cfg : DiscConfig) (join_ok : Iface -> bool) (all : result (list Iface)) : list GroupCall :=
  match all with
  | Err _ => []
  | Ok all => fst (rejoinGroups join_ok (liveLANInterfaces all (dcf_InterfaceFilter cfg)))
  end.

(** ** discovery.go *)

(** What runs after [Start]: the store, the listeners and the sender. *)
Record Started := { sd_store : Store; sd_listeners : list (Family * beaconFilter); sd_sockets : senderSockets }.

(** [resolve] is [net.ResolveUDPAddr] of a family. *)
Definition discovery_Start (resolve : Family -> string -> result (option GroupAddr)) (io : StartIo) (cfg : DiscConfig) : result Started :=
  ipv4Addr ← wrap_err (fun e => Errorf "resolve IPv4 multicast: %w" [e]) (resolve IPv4 (dcf_MulticastIPv4 cfg));
  ipv6Addr ← wrap_err (fun e => Errorf "resolve IPv6 multicast: %w" [e]) (resolve IPv6 (dcf_MulticastIPv6 cfg));
  all ← wrap_err (fun e => Errorf "enumerate interfaces: %w" [e]) (so_ifaces io);
  listeners ← wrap_err (fun e => Errorf "start listeners: %w" [e])
    (startListeners io cfg ipv4Addr ipv6Addr (liveLANInterfaces all (dcf_InterfaceFilter cfg)));
  socks ← wrap_err (fun e => Errorf "start sender: %w" [e]) (startSender (so_send4 io) (so_send6 io));
  Ok {| sd_store := NewStore (dcf_BeaconTTL cfg); sd_listeners := listeners; sd_sockets := socks |}.

(** ** Two daemons on one LAN *)

Class BeaconLaws `{BeaconPack} : Prop := {
  Unmarshal_Marshal b p : msgpack_MarshalBeacon b = Some p -> msgpack_UnmarshalBeacon p = Some b }.

(** The endpoint a listener makes of a beacon that came from [src]. *)
Definition endpoint_of (src port : Z) : string := net_JoinHostPort (ip_String src) (strconv_Itoa port).

(** A listener where the daemon [pub] can be heard: a packet that arrives on the LAN,
    addressed to the group, from the address [src] of another machine that is not in
    the tunnel network, while the directory knows [pub]. *)
Record in_earshot (filt : beaconFilter) (local : option (list Z)) (dir : Directory) (group : GroupAddr) (src : Z) (cm : ControlMessage)
    (pub : string) (s : Store) : Prop := {
  ie_group : bf_group filt = ga_IP group;
  ie_dst : cm_Dst cm = Some (ga_IP group);
  ie_iface : bf_skipIface filt <> "" ->
    0 < cm_IfIndex cm /\ exists name, bf_ifaceName filt (cm_IfIndex cm) = Some name /\ name <> bf_skipIface filt;
  ie_remote : isLocalIP local src = false;
  ie_scope : ip_To4 src = None -> ip_IsLinkLocalUnicast src = false;
  ie_tunnel : insideNetworkCIDR (dir_NetworkCIDR dir) src = false;
  ie_member : exists n, n ∈ dir_Nodes dir /\ node_PublicKey n = pub;
  ie_other : pub <> st_selfPub s }.

Section exchange.
Context `{BeaconLaws}.
Variable setInterface : Family -> Iface -> result unit.

(** What is on the air when a ready daemon emits: its own key and port, on an
    interface that is no tunnel. *)
Lemma emit_carries a4 a6 skip s socks nonce all d :
  d ∈ emit setInterface a4 a6 skip s socks nonce all ->
  exists b, beacon_Decode (dg_payload d) = Ok b /\ bc_PublicKey b = st_selfPub s /\ bc_Port b = st_selfPort s /\
    if_Name (dg_iface d) <> skip /\ (a4 = Some (dg_group d) \/ a6 = Some (dg_group d)).
Proof.
  unfold emit, store_Self. destruct (negb (st_selfPort s =? 0) && negb (String.eqb (st_selfPub s) "")) eqn:Er; cbn [negb];
    [|by intros Hn%not_elem_of_nil]. apply andb_true_iff in Er as [Hport Hpub]. apply negb_true_iff in Hport, Hpub.
  unfold beacon_Encode. cbn [bc_V]. change (BeaconSchemaVersion =? 0) with false. cbv iota.
  set (b := {| bc_V := _; bc_PublicKey := _; bc_Port := _; bc_Nonce := _ |}).
  destruct (msgpack_MarshalBeacon b) as [p|] eqn:Em; [|by intros Hn%not_elem_of_nil]. cbn [of_option].
  destruct all as [all|]; [|by intros Hn%not_elem_of_nil].
  rewrite list_elem_of_In, in_concat. intros (ds & (i & <- & Hi)%in_map_iff & Hd). exists b.
  assert (Hsent : dg_payload d = p /\ dg_iface d = i /\ (a4 = Some (dg_group d) \/ a6 = Some (dg_group d))).
  { unfold sendOne in Hd. apply in_app_or in Hd. unfold send_family in Hd.
    destruct Hd as [Hd|Hd]; [destruct (ss_v4 socks), a4 as [g|]|destruct (ss_v6 socks), a6 as [g|]]; try done;
      (destruct (setInterface _ i); [|done]); destruct Hd as [<-|[]]; cbn; auto. }
  destruct Hsent as (-> & -> & Hg). unfold liveLANInterfaces in Hi. apply filter_In in Hi as [_ Hi].
  unfold beacon_Decode. rewrite (Unmarshal_Marshal _ _ Em). cbn. rewrite Hpub, Hport. split_and!; try done.
  intros Hn. unfold shouldUseInterface in Hi. rewrite Hn, String.eqb_refl in Hi. destruct (if_Loopback i), (if_Up i); done.
Qed.

Lemma endpoint_of_nonempty src port : endpoint_of src port <> "".
Proof. unfold endpoint_of, net_JoinHostPort. intros E. apply (f_equal String.length) in E. case_if; rewrite !string_length_app in E; cbn in E; lia. Qed.

(** A beacon that is heard is learned, and wakes the daemon; the first one of a peer
    also triggers the sender. *)
Lemma beacon_learned a4 a6 skip s socks nonce all d filt local dir now canceled group src cm heard :
  d ∈ emit setInterface a4 a6 skip s socks nonce all -> len (dg_payload d) <= 1500 ->
  in_earshot filt local dir group src cm (st_selfPub s) (ls_store heard) ->
  st_entries (ls_store heard) !! st_selfPub s = None -> now <> 0 ->
  exists heard', listener_turn filt local dir now canceled (ReadPacket (dg_payload d) (Some src) (Some cm)) heard = Some heard' /\
    ls_wake heard' = true /\ ls_react heard' = true /\
    st_ttl (ls_store heard') = st_ttl (ls_store heard) /\ st_selfPub (ls_store heard') = st_selfPub (ls_store heard) /\
    st_selfPort (ls_store heard') = st_selfPort (ls_store heard) /\
    (forall k, k <> st_selfPub s -> st_entries (ls_store heard') !! k = st_entries (ls_store heard) !! k) /\
    forall t, now <= t <= now + st_ttl (ls_store heard) -> t - now <= max_int64 ->
      store_Lookup (ls_store heard') (st_selfPub s) t = endpoint_of src (st_selfPort s).
Proof.
  intros (b & Hb & Hpub & Hport & _)%emit_carries Hlen [Hg Hd Hi Hl Hs Ht Hm Ho] Hno Hnow.
  assert (Hfits : string_take 1500 (dg_payload d) = dg_payload d).
  { apply string_take_ge. unfold len in Hlen. lia. }
  cbn [listener_turn]. rewrite Hfits. unfold dstAddr, ifaceIndex. cbn [mbind option_bind from_option].
  assert (Hp : processBeacon (dg_payload d) (Some src) (cm_Dst cm) (cm_IfIndex cm) filt local (ls_store heard) dir now =
    {| pr_Store := set_entries (<[st_selfPub s := learned (endpoint_of src (st_selfPort s)) now]> (st_entries (ls_store heard))) (ls_store heard);
       pr_Wake := true; pr_React := true |}).
  { unfold processBeacon. rewrite (proj2 (beaconFilter_drop_false _ _ _)) by (rewrite Hg; done). rewrite Hl.
    assert (bool_decide (ip_To4 src = None) && ip_IsLinkLocalUnicast src = false) as -> by (case_bool_decide; [by rewrite Hs|done]).
    rewrite Hb, Ht, Hpub. apply isKnownPubkey_spec in Hm as ->. apply String.eqb_neq in Ho as ->. cbn [negb].
    unfold store_Update. rewrite Hno, Hport. reflexivity. }
  rewrite Hp. cbn [pr_Store pr_Wake pr_React]. eexists. split; [reflexivity|]. cbn [ls_wake ls_react ls_store]. rewrite !orb_true_r.
  split_and!; try done.
  - intros k Hk. cbn. by rewrite lookup_insert_ne.
  - intros t Ht1 Ht2. unfold store_Lookup. cbn [st_entries set_entries st_ttl]. rewrite lookup_insert_eq.
    unfold Usable, Blacklisted, learned, time_IsZero, time_Sub. cbn [lan_Endpoint lan_LearnedAt lan_FailedEndpoint].
    rewrite (proj2 (String.eqb_neq _ _)) by apply endpoint_of_nonempty. rewrite (proj2 (Z.eqb_neq _ _)) by done. cbn [orb].
    rewrite (proj2 (Z.ltb_ge _ _)) by (unfold min_int64, max_int64 in *; lia).
    assert (Hblack : String.eqb "" (endpoint_of src (st_selfPort s)) = false) by (apply String.eqb_neq; intros E; by destruct (endpoint_of_nonempty src (st_selfPort s))).
    by rewrite Hblack.
Qed.

(** C30: two daemons on one LAN find each other in one exchange.  When a datagram of
    A's emission is heard by B, which knew no address of A, B's daemon is woken, B
    looks A up at the address the datagram came from with A's port for the whole TTL,
    and B's sender is triggered; it answers at once unless it did within its
    cooldown, and when the answer is heard by A, A has learned B in the same way.
    The beacons leave on interfaces that are not the tunnel's. *)
Theorem beacon_exchange a4 a6 skipA sA socksA nonceA allA dA filtB localB dirB groupB srcA cmB heardB
    b4 b6 skipB socksB nonceB allB dB filtA localA dirA groupA srcB cmA nowB nowA last done_ :
  dA ∈ emit setInterface a4 a6 skipA sA socksA nonceA allA -> len (dg_payload dA) <= 1500 ->
  in_earshot filtB localB dirB groupB srcA cmB (st_selfPub sA) (ls_store heardB) ->
  st_entries (ls_store heardB) !! st_selfPub sA = None -> nowB <> 0 ->
  reactiveCooldown <= time_Sub nowB last ->
  exists heardB', listener_turn filtB localB dirB nowB false (ReadPacket (dg_payload dA) (Some srcA) (Some cmB)) heardB = Some heardB' /\
    ls_wake heardB' = true /\ ls_react heardB' = true /\ if_Name (dg_iface dA) <> skipA /\
    runSender_step (Pacing last) (Paced (React nowB done_)) = Some (Pacing done_, true) /\
    (forall t, nowB <= t <= nowB + st_ttl (ls_store heardB) -> t - nowB <= max_int64 ->
       store_Lookup (ls_store heardB') (st_selfPub sA) t = endpoint_of srcA (st_selfPort sA)) /\
    forall heardA, ls_store heardA = sA ->
      dB ∈ emit setInterface b4 b6 skipB (ls_store heardB') socksB nonceB allB -> len (dg_payload dB) <= 1500 ->
      in_earshot filtA localA dirA groupA srcB cmA (st_selfPub (ls_store heardB)) sA ->
      st_entries sA !! st_selfPub (ls_store heardB) = None -> nowA <> 0 ->
      exists heardA', listener_turn filtA localA dirA nowA false (ReadPacket (dg_payload dB) (Some srcB) (Some cmA)) heardA = Some heardA' /\
        ls_wake heardA' = true /\
        forall t, nowA <= t <= nowA + st_ttl sA -> t - nowA <= max_int64 ->
          store_Lookup (ls_store heardA') (st_selfPub (ls_store heardB)) t = endpoint_of srcB (st_selfPort (ls_store heardB)).
Proof.
  intros HdA HlA HeA HnA HtB Hcool.
  destruct (beacon_learned _ _ _ _ _ _ _ _ _ _ _ nowB false _ _ _ _ HdA HlA HeA HnA HtB)
    as (heardB' & Hturn & Hwake & Hreact & Httl & Hpub & Hport & _ & Hlook).
  exists heardB'. split_and!; try done.
  - by destruct (emit_carries _ _ _ _ _ _ _ _ HdA) as (b & _ & _ & _ & ? & _).
  - cbn. by rewrite (proj2 (Z.ltb_ge _ _)).
  - intros heardA <- HdB HlB HeB HnB HtA. rewrite <- Hpub in HeB, HnB.
    destruct (beacon_learned _ _ _ _ _ _ _ _ _ _ _ nowA false _ _ _ _ HdB HlB HeB HnB HtA)
      as (heardA' & HturnA & HwakeA & _ & _ & _ & _ & _ & HlookA).
    exists heardA'. split_and!; try done. intros t Ht Hmax. rewrite <- Hpub, <- Hport. by apply HlookA.
Qed.
End exchange.

(** ** Samples *)

(** A beacon as four bytes and the key. *)
Definition byte_beacon : BeaconPack := {|
  msgpack_MarshalBeacon b :=
    if (bc_V b =? BeaconSchemaVersion) && ((0 <=? bc_Port b) && (bc_Port b <? 65536)) && ((0 <=? bc_Nonce b) && (bc_Nonce b <? 65536))
    then Some (String (chr (bc_Port b / 256)) (String (chr (bc_Port b mod 256))
                (String (chr (bc_Nonce b / 256)) (String (chr (bc_Nonce b mod 256)) (bc_PublicKey b)))))
    else None;
  msgpack_UnmarshalBeacon s :=
    match s with
    | String h (String l (String h' (String l' pub))) =>
        Some {| bc_V := BeaconSchemaVersion; bc_PublicKey := pub; bc_Port := code h * 256 + code l; bc_Nonce := code h' * 256 + code l' |}
    | _ => None
    end |}.

Lemma byte_beacon_laws : @BeaconLaws byte_beacon.
Proof.
  constructor. intros [v pub port nonce] p. cbn. destruct (_ && _) eqn:E; [|done]. intros [= <-]. bool_solve. subst v.
  rewrite !code_chr by (Z.div_mod_to_equations; lia). do 2 f_equal; Z.div_mod_to_equations; lia.
Qed.

Section samples.
#[local] Existing Instances byte_beacon byte_beacon_laws.

Definition lan_group : GroupAddr := {| ga_IP := 281474708225091; ga_Port := 51821 |}.
Definition eth0 : Iface := {| if_Name := "eth0"; if_Loopback := false; if_Up := true; if_Addrs := Some [281473913979141] |}.
Definition lan_member (k : string) : Node :=
  {| node_Name := k; node_PublicKey := k; node_TunnelIP := "10.7.0.9"; node_AgeRecipient := "age1"; node_Endpoint := ""; node_Relay := false;
     node_ObservedEndpoint := ""; node_ObservedAt := zero_time; node_PSK := "" |}.
Definition lan_dir : Directory := set_dir_Nodes [lan_member "A"; lan_member "B"] zero_directory.
Definition store_of (k : string) (port : Z) : Store := store_SetSelf (NewStore (90 * Second)) k port.
Definition both : senderSockets := {| ss_v4 := true; ss_v6 := true |}.
Definition sample_sent (k : string) (port nonce : Z) : Datagram := {| dg_family := IPv4; dg_iface := eth0; dg_group := lan_group;
  dg_payload := default "" (msgpack_MarshalBeacon {| bc_V := BeaconSchemaVersion; bc_PublicKey := k; bc_Port := port; bc_Nonce := nonce |}) |}.
Definition lan_packet : ControlMessage := {| cm_Dst := Some (ga_IP lan_group); cm_IfIndex := 2 |}.

Lemma lan_earshot k self port src : k <> self -> k ∈ ["A"; "B"] -> src <> 0 -> ip_To4 src <> None ->
  in_earshot sample_filter (Some [0]) lan_dir lan_group src lan_packet k (store_of self port).
Proof.
  intros Hk Hin Hsrc Hv4. split; try done.
  - intros _. split; [done|]. exists "eth0". split; [reflexivity|discriminate].
  - cbn. rewrite (proj2 (Z.eqb_neq src 0)); done.
  - exists (lan_member k). split; [|done]. cbn. set_solver.
Qed.

(** A at 192.168.1.5 and B at 192.168.1.10. *)
Lemma beacon_exchange_witness :
  exists sB', sB' = (ls_store (default {| ls_store := store_of "B" 51820; ls_wake := false; ls_react := false |}
      (listener_turn sample_filter (Some [0]) lan_dir (10 * Second) false
        (ReadPacket (dg_payload (sample_sent "A" 41820 7)) (Some 281473913979141) (Some lan_packet))
        {| ls_store := store_of "B" 51820; ls_wake := false; ls_react := false |}))) /\
    store_Lookup sB' "A" (20 * Second) = "192.168.1.5:41820" /\
    exists heardA', listener_turn sample_filter (Some [0]) lan_dir (11 * Second) false
        (ReadPacket (dg_payload (sample_sent "B" 51820 8)) (Some 281473913979146) (Some lan_packet))
        {| ls_store := store_of "A" 41820; ls_wake := false; ls_react := false |} = Some heardA' /\
      store_Lookup (ls_store heardA') "B" (20 * Second) = "192.168.1.10:51820".
Proof.
  destruct (beacon_exchange (fun _ _ => Ok tt) (Some lan_group) None "tincan0" (store_of "A" 41820) both 7 (Ok [eth0]) (sample_sent "A" 41820 7)
    sample_filter (Some [0]) lan_dir lan_group 281473913979141 lan_packet {| ls_store := store_of "B" 51820; ls_wake := false; ls_react := false |}
    (Some lan_group) None "tincan0" both 8 (Ok [eth0]) (sample_sent "B" 51820 8)
    sample_filter (Some [0]) lan_dir lan_group 281473913979146 lan_packet (10 * Second) (11 * Second) 0 (10 * Second + 1))
    as (heardB' & Hturn & _ & _ & _ & _ & HlookB & Hback).
  - left.
  - vm_compute. discriminate.
  - apply lan_earshot; [discriminate|left|discriminate|discriminate].
  - reflexivity.
  - discriminate.
  - vm_compute. discriminate.
  - exists (ls_store heardB'). split; [by rewrite Hturn|].
    split; [etransitivity; [apply HlookB; [split; vm_compute; discriminate|vm_compute; discriminate]|vm_compute; reflexivity]|].
    destruct (Hback {| ls_store := store_of "A" 41820; ls_wake := false; ls_react := false |} eq_refl) as (heardA' & HturnA & _ & HlookA).
    + assert (E : option_map (fun h => emit (fun _ _ => Ok tt) (Some lan_group) None "tincan0" (ls_store h) both 8 (Ok [eth0]))
        (Some heardB') = Some [sample_sent "B" 51820 8]) by (rewrite <- Hturn; reflexivity).
      injection E as ->. left.
    + vm_compute. discriminate.
    + apply lan_earshot; [discriminate|right; left|discriminate|discriminate].
    + reflexivity.
    + discriminate.
    + exists heardA'. split; [exact HturnA|].
      etransitivity; [apply HlookA; [split; vm_compute; discriminate|vm_compute; discriminate]|vm_compute; reflexivity].
Defined.
End samples.
