(* ===== verification/Hosts.v ===== *)
(** * Hosts: internal/hosts/hosts.go

    The managed block of a hosts file: rendering, locating and replacing it.
    The file system around [Apply] is a small record of what [Lstat] finds;
    [Rewrite] is shown to change nothing outside its own marker pair and to be
    stable. *)
From stdpp Require Import base tactics option list strings gmap sorting.
From Stdlib Require Import Ascii ZArith Lia.
From S2P Require Import Prelude GoStrings GoNum GoNet GoBase64 Keys Directory DnsName Validate Wire Toy.
Open Scope Z_scope.

Definition nl : ascii := chr 10.
Definition tab : ascii := chr 9.
Definition newline : string := String nl "".

Definition legacyBeginMarker : string := "# BEGIN tincan managed block - do not edit between markers".
Definition legacyEndMarker : string := "# END tincan managed block".
Definition legacyInterface : string := "tincan0".
Definition ErrMalformedMarkers : error := Sentinel "hosts.ErrMalformedMarkers".
Definition ErrSymlink : error := Sentinel "hosts.ErrSymlink".

Section block.
Context `{UnicodeTables}.

Definition ip_by_name (nodes : list Node) : gmap string string :=
  fold_left (fun m n => <[strings_ToLower (node_Name n) := node_TunnelIP n]> m) nodes ∅.

Definition block_line (domain : string) (ips : gmap string string) (name : string) : string :=
  default "" (ips !! name) +:+ String tab (name +:+ "." +:+ domain +:+ newline).

Definition concat_strings (l : list string) : string := strings_Join l "".

Definition Block (dir : Directory) : string :=
  if String.eqb (dir_Domain dir) "" || Nat.eqb (length (dir_Nodes dir)) 0 then "" else
  let names := (fun n => strings_ToLower (node_Name n)) <$> dir_Nodes dir in
  concat_strings (block_line (dir_Domain dir) (ip_by_name (dir_Nodes dir)) <$> sort_strings names).

(** ** Markers *)

Definition begin_prefix : string := "# BEGIN tincan managed block (".
Definition begin_suffix : string := ") - do not edit between markers".
Definition end_prefix : string := "# END tincan managed block (".
Definition end_suffix : string := ")".

Definition beginMarker (iface : string) : string := begin_prefix +:+ iface +:+ begin_suffix.
Definition endMarker (iface : string) : string := end_prefix +:+ iface +:+ end_suffix.

(** The owner of a marker line and whether it opens. *)
Definition marker (line : string) : option (string * bool) :=
  if String.eqb line legacyBeginMarker then Some (legacyInterface, true)
  else if String.eqb line legacyEndMarker then Some (legacyInterface, false)
  else match strings_CutPrefix begin_prefix line with
  | Some rest =>
      match strings_CutSuffix begin_suffix rest with
      | Some iface => if String.eqb iface "" then None else Some (iface, true)
      | None => None
      end
  | None =>
      match strings_CutPrefix end_prefix line with
      | Some rest =>
          match strings_CutSuffix end_suffix rest with
          | Some iface => if String.eqb iface "" then None else Some (iface, false)
          | None => None
          end
      | None => None
      end
  end.

(** The lines of the content, each with its newline but possibly the last. *)
Fixpoint lines_of (s : string) : list string :=
  match s with
  | EmptyString => []
  | String c r =>
      if Ascii.eqb c nl then String c "" :: lines_of r
      else match lines_of r with
           | [] => [String c ""]
           | l :: ls => String c l :: ls
           end
  end.

Definition chomp (line : string) : string := strings_TrimSuffix line newline.

Record Scan := {
  sc_beginAt : option nat;
  sc_endAt : option nat;
  sc_seen : gset string;
  sc_open : string;
  sc_offset : nat }.

Definition scan_start : Scan :=
  {| sc_beginAt := None; sc_endAt := None; sc_seen := ∅; sc_open := ""; sc_offset := 0 |}.

(** One round of the loop of [splitAtMarkers]. *)
Definition scan_line (iface : string) (s : Scan) (line : string) : result Scan :=
  let next := (sc_offset s + String.length line)%nat in
  match marker (strings_TrimSpace (chomp line)) with
  | Some (owner, true) =>
      if negb (String.eqb (sc_open s) "") || bool_decide (owner ∈ sc_seen s)
      then Err ErrMalformedMarkers
      else Ok {| sc_beginAt := if String.eqb owner iface then Some (sc_offset s) else sc_beginAt s;
                 sc_endAt := sc_endAt s; sc_seen := {[owner]} ∪ sc_seen s; sc_open := owner;
                 sc_offset := next |}
  | Some (owner, false) =>
      if negb (String.eqb (sc_open s) owner) then Err ErrMalformedMarkers
      else Ok {| sc_beginAt := sc_beginAt s;
                 sc_endAt := if String.eqb owner iface then Some next else sc_endAt s;
                 sc_seen := sc_seen s; sc_open := ""; sc_offset := next |}
  | None =>
      Ok {| sc_beginAt := sc_beginAt s; sc_endAt := sc_endAt s; sc_seen := sc_seen s;
            sc_open := sc_open s; sc_offset := next |}
  end.

Fixpoint scan_lines (iface : string) (s : Scan) (lines : list string) : result Scan :=
  match lines with
  | [] => Ok s
  | l :: rest => s' ← scan_line iface s l; scan_lines iface s' rest
  end.

(** [None]: no block of [iface]; [Some]: what surrounds it. *)
Definition splitAtMarkers (content iface : string) : result (option (string * string)) :=
  s ← scan_lines iface scan_start (lines_of content);
  guard_err (negb (String.eqb (sc_open s) "")) ErrMalformedMarkers
  (match sc_beginAt s with
   | None => Ok None
   | Some b => Ok (Some (string_take b content, string_drop (default 0%nat (sc_endAt s)) content))
   end).

Definition marked_block (iface block : string) : string :=
  beginMarker iface +:+ newline +:+ block +:+ endMarker iface +:+ newline.

Definition Rewrite (content iface block : string) : result (string * bool) :=
  split ← splitAtMarkers content iface;
  match split with
  | None =>
      if String.eqb block "" then Ok (content, false) else
      let result := content +:+
        (if (0 <? len content) && negb (strings_HasSuffix content newline) then newline else "") +:+
        (if 0 <? len content then newline else "") +:+ marked_block iface block in
      Ok (result, negb (String.eqb result content))
  | Some (before, after) =>
      let result := if String.eqb block "" then before +:+ after
                    else before +:+ marked_block iface block +:+ after in
      Ok (result, negb (String.eqb result content))
  end.

(** ** Apply *)

Inductive HostsFile := NoFile | SymlinkFile | RegularFile (content : string) (mode : Z).

(** The file afterwards and [changed]; a write that fails is outside the model. *)
Definition Apply (f : HostsFile) (iface block : string) : result (HostsFile * bool) :=
  match f with
  | NoFile =>
      if String.eqb block "" then Ok (NoFile, false) else
      '(content, _) ← Rewrite "" iface block;
      Ok (RegularFile content 420, true)
  | SymlinkFile => Err ErrSymlink
  | RegularFile original mode =>
      '(content, changed) ← Rewrite original iface block;
      if negb changed then Ok (f, false) else Ok (RegularFile content mode, true)
  end.
End block.

(** ** Lines *)

(** A line with its newline. *)
Definition proper (l : string) : Prop := exists body, lacks nl body = true /\ l = body +:+ newline.

Lemma concat_strings_cons l ls : concat_strings (l :: ls) = l +:+ concat_strings ls.
Proof.
  unfold concat_strings. destruct ls; simpl; [by rewrite string_app_nil_r|].
  by rewrite string_app_nil.
Qed.

Lemma concat_strings_app l1 l2 : concat_strings (l1 ++ l2) = concat_strings l1 +:+ concat_strings l2.
Proof.
  induction l1 as [|l l1 IH]; [done|]. rewrite <- app_comm_cons, !concat_strings_cons, IH.
  by rewrite string_app_assoc.
Qed.

Lemma concat_lines s : concat_strings (lines_of s) = s.
Proof.
  induction s as [|c r IH]; [done|]. simpl. destruct (Ascii.eqb c nl).
  - rewrite concat_strings_cons, IH, string_app_cons, string_app_nil. done.
  - destruct (lines_of r) as [|l ls].
    + rewrite concat_strings_cons. simpl in IH. by rewrite <- IH.
    + rewrite concat_strings_cons, string_app_cons. rewrite concat_strings_cons in IH. by rewrite IH.
Qed.

Lemma lines_of_proper l t : proper l -> lines_of (l +:+ t) = l :: lines_of t.
Proof.
  intros (body & Hb & ->). rewrite <- string_app_assoc. induction body as [|c b IH].
  - rewrite !string_app_nil. unfold newline. rewrite string_app_cons, string_app_nil. simpl.
    by rewrite ?Ascii.eqb_refl.
  - unfold lacks in Hb. simpl in Hb. apply andb_true_iff in Hb as [Hc Hb].
    rewrite !string_app_cons. simpl. apply negb_true_iff in Hc. rewrite Hc.
    by rewrite IH.
Qed.

Lemma lines_of_propers ls t :
  Forall proper ls -> lines_of (concat_strings ls +:+ t) = ls ++ lines_of t.
Proof.
  induction 1 as [|l ls Hl _ IH]; [done|].
  rewrite concat_strings_cons, <- string_app_assoc, lines_of_proper, IH by done. done.
Qed.

(** Every line but the last has its newline; the last has it or lacks one. *)
Lemma lines_of_shape s ls x :
  lines_of s = ls ++ [x] -> Forall proper ls /\ (proper x \/ lacks nl x = true /\ x <> "").
Proof.
  revert ls x. induction s as [|c r IH]; intros ls x; simpl; [by destruct ls|].
  destruct (Ascii.eqb c nl) eqn:Ec.
  - apply Ascii.eqb_eq in Ec as ->. intros E. destruct ls as [|l ls].
    + injection E as <- _. split; [done|]. left. by exists "".
    + injection E as <- E. destruct (IH _ _ E) as [Hp Hx]. split; [|done].
      constructor; [by exists ""|done].
  - destruct (lines_of r) as [|l ls'] eqn:El; intros E.
    + destruct ls as [|? [|]]; try done. injection E as <-. split; [done|]. right.
      split; [|done]. unfold lacks. simpl. by rewrite Ec.
    + assert (Hcons : forall m, proper m -> proper (String c m)).
      { intros m (b & Hb & ->). exists (String c b). split; [|done]. unfold lacks in *. simpl. by rewrite Ec. }
      destruct ls as [|l1 ls].
      * injection E as <- ->. destruct (IH [] l eq_refl) as [_ [Hx|[Hx _]]].
        -- split; [done|]. left. by apply Hcons.
        -- split; [done|]. right. split; [|done]. unfold lacks in *. simpl. by rewrite Ec.
      * injection E as <- ->. destruct (IH (l :: ls) x eq_refl) as [Hp Hx].
        apply Forall_cons in Hp as [Hl Hp]. split; [|done]. constructor; [by apply Hcons|done].
Qed.

Lemma lines_of_prefix s l1 x l2 : lines_of s = l1 ++ x :: l2 -> Forall proper l1.
Proof.
  intros E. destruct (exists_last (l := x :: l2)) as (l & y & Ey); [done|].
  rewrite Ey, app_assoc in E. apply lines_of_shape in E as [Hp _]. by apply Forall_app in Hp as [? _].
Qed.

Lemma lines_of_suffix s l1 l2 : lines_of s = l1 ++ l2 -> lines_of (concat_strings l2) = l2.
Proof.
  intros E. destruct l2 as [|x l2]; [done|]. pose proof (lines_of_prefix _ _ _ _ E) as Hp.
  pose proof (concat_lines s) as Hc. rewrite E, concat_strings_app in Hc.
  rewrite <- Hc, lines_of_propers in E by done. by apply app_inv_head in E.
Qed.

(** ** The scan *)
Section scan.
Context `{UnicodeTables} (iface : string) (Hiface : iface <> EmptyString).

Definition owner_of (line : string) : option (string * bool) :=
  marker (strings_TrimSpace (chomp line)).

Definition foreign (line : string) : Prop := forall b, owner_of line <> Some (iface, b).

Definition advance (n : nat) (s : Scan) : Scan :=
  {| sc_beginAt := sc_beginAt s; sc_endAt := sc_endAt s; sc_seen := sc_seen s; sc_open := sc_open s;
     sc_offset := (sc_offset s + n)%nat |}.

Lemma scan_app s l1 l2 :
  scan_lines iface s (l1 ++ l2) = (s' ← scan_lines iface s l1; scan_lines iface s' l2).
Proof.
  revert s. induction l1 as [|l l1 IH]; intros s; [done|]. simpl.
  destruct (scan_line iface s l); [|done]. simpl. apply IH.
Qed.

(** Two states that agree on everything foreign lines can observe. *)
Definition agree (s1 s2 : Scan) : Prop :=
  sc_open s1 = sc_open s2 /\ forall o, o <> iface -> o ∈ sc_seen s1 <-> o ∈ sc_seen s2.

Lemma agree_refl s : agree s s.
Proof. by split. Qed.

Lemma scan_line_foreign s1 s2 l s1' :
  foreign l -> agree s1 s2 -> scan_line iface s1 l = Ok s1' ->
  exists s2', scan_line iface s2 l = Ok s2' /\ agree s1' s2' /\
    sc_beginAt s2' = sc_beginAt s2 /\ sc_endAt s2' = sc_endAt s2 /\
    sc_offset s2' = (sc_offset s2 + String.length l)%nat /\
    (sc_open s2 <> iface -> sc_open s2' <> iface) /\
    (iface ∈ sc_seen s2' <-> iface ∈ sc_seen s2).
Proof.
  unfold foreign, owner_of, scan_line. intros Hf [Ho Hs].
  destruct (marker _) as [[o []]|] eqn:Em.
  - assert (o <> iface) by (intros ->; by eapply Hf). rewrite Ho.
    rewrite (bool_decide_ext _ _ (Hs o ltac:(done))). destruct (_ || _) eqn:Eb; [done|]. intros [= <-].
    eexists. split; [done|]. apply String.eqb_neq in H0 as Hn. rewrite Hn.
    split_and!; simpl; try done; [split; simpl; [done|set_solver]|set_solver].
  - assert (o <> iface) by (intros ->; by eapply Hf). rewrite Ho.
    destruct (negb _) eqn:Eb; [done|]. intros [= <-].
    eexists. split; [done|]. apply String.eqb_neq in H0 as Hn. rewrite Hn.
    split_and!; simpl; done.
  - intros [= <-]. eexists. split; [done|]. by split_and!.
Qed.

Lemma length_concat_cons l ls :
  String.length (concat_strings (l :: ls)) = (String.length l + String.length (concat_strings ls))%nat.
Proof. by rewrite concat_strings_cons, string_length_app. Qed.

Lemma scan_foreign ls : forall s1 s2 s1',
  Forall foreign ls -> agree s1 s2 -> sc_open s1 <> iface -> scan_lines iface s1 ls = Ok s1' ->
  exists s2', scan_lines iface s2 ls = Ok s2' /\ agree s1' s2' /\
    sc_beginAt s2' = sc_beginAt s2 /\ sc_endAt s2' = sc_endAt s2 /\
    sc_offset s2' = (sc_offset s2 + String.length (concat_strings ls))%nat /\
    sc_open s2' <> iface /\ (iface ∈ sc_seen s2' <-> iface ∈ sc_seen s2).
Proof.
  induction ls as [|l ls IH]; intros s1 s2 s1' Hf Ha Ho.
  - intros [= <-]. exists s2. destruct Ha as [Ho' ?]. rewrite Nat.add_0_r. split_and!; try done. congruence.
  - apply Forall_cons in Hf as [Hl Hf]. cbn [scan_lines]. intros (s1a & H1 & H2)%bind_Ok.
    destruct (scan_line_foreign _ _ _ _ Hl Ha H1) as (s2a & E & Ha' & Hb & He & Hoff & Hop & Hseen).
    destruct Ha as [Ho' Hs]. rewrite Ho' in Ho. specialize (Hop Ho).
    assert (Hop1 : sc_open s1a <> iface) by (destruct Ha' as [-> _]; done).
    destruct (IH _ _ _ Hf Ha' Hop1 H2) as (s2' & E' & Ha2 & Hb2 & He2 & Hoff2 & Hop2 & Hseen2).
    exists s2'. rewrite E. cbn [mbind result_bind]. split_and!; try done; [congruence|congruence| |].
    + rewrite length_concat_cons. lia.
    + by rewrite Hseen2.
Qed.

(** Inside the block: no marker until its end. *)
Lemma scan_inside ls : forall s s',
  sc_open s = iface -> scan_lines iface s ls = Ok s' -> sc_open s' = "" ->
  exists mid e rest, ls = mid ++ e :: rest /\ Forall (fun l => owner_of l = None) mid /\
    owner_of e = Some (iface, false) /\
    scan_lines iface
      {| sc_beginAt := sc_beginAt s;
         sc_endAt := Some (sc_offset s + String.length (concat_strings (mid ++ [e])))%nat;
         sc_seen := sc_seen s; sc_open := "";
         sc_offset := (sc_offset s + String.length (concat_strings (mid ++ [e])))%nat |} rest = Ok s'.
Proof.
  induction ls as [|l ls IH]; intros s s' Ho; cbn [scan_lines].
  { intros [= <-] E. congruence. }
  intros (s1 & H1 & H2)%bind_Ok Hend. unfold scan_line in H1. fold (owner_of l) in H1.
  destruct (owner_of l) as [[o []]|] eqn:Em.
  - rewrite Ho in H1. apply String.eqb_neq in Hiface as Hn. by rewrite Hn in H1.
  - destruct (negb _) eqn:Eb; [done|]. bool_solve. injection H1 as <-.
    assert (o = iface) as -> by congruence. exists [], l, ls.
    rewrite String.eqb_refl in H2. cbn [app]. rewrite length_concat_cons. cbn [concat_strings strings_Join].
    rewrite Nat.add_0_r. done.
  - injection H1 as <-. apply IH in H2 as (mid & e & rest & -> & Hmid & He & Hr); [|done|done].
    exists (l :: mid), e, rest. split_and!; [done|by constructor|done|].
    cbn [sc_beginAt sc_seen sc_offset] in Hr. rewrite <- app_comm_cons, length_concat_cons, Nat.add_assoc. done.
Qed.

(** Once seen and closed, no marker of [iface] can follow. *)
Lemma scan_after ls : forall s s',
  iface ∈ sc_seen s -> sc_open s <> iface -> scan_lines iface s ls = Ok s' -> Forall foreign ls.
Proof.
  induction ls as [|l ls IH]; intros s s' Hs Ho; [done|]. cbn [scan_lines].
  intros (s1 & H1 & H2)%bind_Ok. unfold scan_line in H1. fold (owner_of l) in H1.
  assert (Hl : foreign l).
  { intros b Eb. rewrite Eb in H1. destruct b.
    - rewrite bool_decide_eq_true_2, orb_true_r in H1 by done. done.
    - apply String.eqb_neq in Ho. by rewrite Ho in H1. }
  constructor; [done|]. fold (owner_of l) in *.
  destruct (owner_of l) as [[o []]|] eqn:Em.
  - destruct (_ || _); [done|]. injection H1 as <-. eapply IH; [|..|exact H2]; simpl; [set_solver|].
    intros ->. by eapply Hl.
  - destruct (negb _); [done|]. injection H1 as <-. eapply IH; [|..|exact H2]; simpl; [done|].
    intros E. by apply Hiface.
  - injection H1 as <-. by eapply IH; [| |exact H2].
Qed.

(** The shape of an accepted file. *)
Lemma scan_find ls : forall s s',
  iface ∉ sc_seen s -> sc_open s <> iface -> scan_lines iface s ls = Ok s' -> sc_open s' = "" ->
  Forall foreign ls \/
  exists pre b mid e rest s1, ls = pre ++ b :: mid ++ e :: rest /\ Forall foreign pre /\
    owner_of b = Some (iface, true) /\ Forall (fun l => owner_of l = None) mid /\
    owner_of e = Some (iface, false) /\ Forall foreign rest /\
    scan_lines iface s pre = Ok s1 /\ sc_open s1 = "" /\ iface ∉ sc_seen s1 /\
    let off := (sc_offset s + String.length (concat_strings pre))%nat in
    let off' := (off + String.length (concat_strings (b :: mid ++ [e])))%nat in
    scan_lines iface {| sc_beginAt := Some off; sc_endAt := Some off';
      sc_seen := {[iface]} ∪ sc_seen s1; sc_open := ""; sc_offset := off' |} rest = Ok s'.
Proof.
  induction ls as [|l ls IH]; intros s s' Hs Ho; [by left|]. cbn [scan_lines].
  intros (s1 & H1 & H2)%bind_Ok Hend.
  destruct (decide (owner_of l = Some (iface, true))) as [Eb|Eb].
  - right. unfold scan_line in H1. fold (owner_of l) in H1. rewrite Eb in H1.
    destruct (_ || _) eqn:Eor; [done|]. injection H1 as <-. bool_solve. rewrite String.eqb_refl in H2.
    apply scan_inside in H2 as (mid & e & rest & -> & Hmid & He & Hr); [|done|done].
    cbn [sc_beginAt sc_seen sc_offset] in Hr.
    exists [], l, mid, e, rest, s. split_and!; try done.
    + eapply scan_after; [|..|exact Hr]; simpl; [set_solver|]. intros E. by apply Hiface.
    + simpl. rewrite Nat.add_0_r. rewrite length_concat_cons, Nat.add_assoc. done.
  - destruct (decide (owner_of l = Some (iface, false))) as [Ee|Ee].
    { unfold scan_line in H1. fold (owner_of l) in H1. rewrite Ee in H1.
      apply String.eqb_neq in Ho. by rewrite Ho in H1. }
    assert (Hl : foreign l) by (intros []; done).
    destruct (scan_line_foreign s s l s1 Hl) as (s1' & E & _ & Hb & He & Hoff & Hop & Hseen); [done|done|].
    assert (s1' = s1) as -> by congruence.
    destruct (IH s1 s') as [Hf|(pre & b & mid & e & rest & s2 & -> & Hpre & Hb' & Hmid & He' & Hrest & Hs2 & Ho2 & Hn2 & Hr)];
      [by rewrite Hseen|by apply Hop|done|done|left; by constructor|].
    right. exists (l :: pre), b, mid, e, rest, s2.
    split_and!; try done; [by constructor|cbn [scan_lines]; by rewrite E|].
    cbv zeta. rewrite length_concat_cons, Nat.add_assoc, <- Hoff. exact Hr.
Qed.

Lemma scan_unmarked ls s :
  Forall (fun l => owner_of l = None) ls ->
  scan_lines iface s ls = Ok (advance (String.length (concat_strings ls)) s).
Proof.
  intros Hf. revert s. induction Hf as [|l ls Hl _ IH]; intros s; cbn [scan_lines].
  - unfold advance. simpl. rewrite Nat.add_0_r. by destruct s.
  - unfold scan_line. fold (owner_of l). rewrite Hl. cbn [mbind result_bind]. rewrite IH.
    unfold advance. cbn [sc_beginAt sc_endAt sc_seen sc_open sc_offset].
    by rewrite length_concat_cons, Nat.add_assoc.
Qed.

Hypothesis Hascii : string_forallb is_ascii iface = true.
Hypothesis Hline : lacks nl iface = true.

Lemma trim_marked p s t :
  string_forallb is_ascii p = true -> string_forallb is_ascii t = true ->
  strings_TrimSpace (String "#" (p +:+ s +:+ t)) = String "#" (p +:+ s +:+ t) \/
  string_forallb is_ascii s = false \/ last_byte t = None \/
  (exists c, last_byte t = Some c /\ is_space c = true).
Proof.
  intros Hp Ht. destruct (string_forallb is_ascii s) eqn:Hs; [|by right; left].
  destruct (last_byte t) as [c|] eqn:Hl; [|by right; right; left].
  destruct (is_space c) eqn:Hc; [by right; right; right; exists c|]. left.
  apply TrimSpace_id.
  - simpl. by rewrite !forallb_app, Hp, Hs, Ht.
  - by intros ? [= <-].
  - intros d Hd. assert (Hla : forall u v x, last_byte v = Some x -> last_byte (u +:+ v) = Some x).
    { clear. induction u as [|y u IH]; intros v x Hv; [by rewrite string_app_nil|].
      rewrite string_app_cons. simpl. pose proof (IH _ _ Hv) as E. destruct (u +:+ v); [done|exact E]. }
    change (String "#" (p +:+ s +:+ t)) with (String "#" "" +:+ (p +:+ s +:+ t)) in Hd.
    rewrite (Hla _ _ _ (Hla _ _ _ (Hla _ _ _ Hl))) in Hd. congruence.
Qed.

Lemma owner_begin : owner_of (beginMarker iface +:+ newline) = Some (iface, true).
Proof.
  unfold owner_of, chomp. rewrite TrimSuffix_app. unfold beginMarker.
  change begin_prefix with (String "#" " BEGIN tincan managed block (").
  rewrite string_app_cons. destruct (trim_marked " BEGIN tincan managed block (" iface begin_suffix eq_refl eq_refl)
    as [->|[Ha|[Ha|(c & Ha & Hc)]]]; [|congruence|discriminate Ha|]; [|vm_compute in Ha; injection Ha as <-; vm_compute in Hc; discriminate Hc].
  rewrite <- string_app_cons. change (String "#" " BEGIN tincan managed block (") with begin_prefix.
  unfold marker.
  assert (String.eqb (begin_prefix +:+ iface +:+ begin_suffix) legacyBeginMarker = false) as -> by reflexivity.
  assert (String.eqb (begin_prefix +:+ iface +:+ begin_suffix) legacyEndMarker = false) as -> by reflexivity.
  rewrite (proj2 (CutPrefix_Some _ _ _) eq_refl), (proj2 (CutSuffix_Some _ _ _) eq_refl).
  by apply String.eqb_neq in Hiface as ->.
Qed.

Lemma owner_end : owner_of (endMarker iface +:+ newline) = Some (iface, false).
Proof.
  unfold owner_of, chomp. rewrite TrimSuffix_app. unfold endMarker.
  change end_prefix with (String "#" " END tincan managed block (").
  rewrite string_app_cons. destruct (trim_marked " END tincan managed block (" iface end_suffix eq_refl eq_refl)
    as [->|[Ha|[Ha|(c & Ha & Hc)]]]; [|congruence|discriminate Ha|]; [|vm_compute in Ha; injection Ha as <-; vm_compute in Hc; discriminate Hc].
  rewrite <- string_app_cons. change (String "#" " END tincan managed block (") with end_prefix.
  unfold marker.
  assert (String.eqb (end_prefix +:+ iface +:+ end_suffix) legacyBeginMarker = false) as -> by reflexivity.
  assert (String.eqb (end_prefix +:+ iface +:+ end_suffix) legacyEndMarker = false) as -> by reflexivity.
  assert (strings_CutPrefix begin_prefix (end_prefix +:+ iface +:+ end_suffix) = None) as -> by reflexivity.
  rewrite (proj2 (CutPrefix_Some _ _ _) eq_refl), (proj2 (CutSuffix_Some _ _ _) eq_refl).
  by apply String.eqb_neq in Hiface as ->.
Qed.

Lemma markers_proper : proper (beginMarker iface +:+ newline) /\ proper (endMarker iface +:+ newline).
Proof.
  assert (Hl : forall p s, lacks nl p = true -> lacks nl s = true -> lacks nl (p +:+ iface +:+ s) = true).
  { intros p s Hp Hs. unfold lacks in *. by rewrite !forallb_app, Hp, Hs, Hline. }
  split; eexists; (split; [|reflexivity]); by apply Hl.
Qed.

(** What [splitAtMarkers] says of a file it accepts. *)
Lemma split_shape content o :
  splitAtMarkers content iface = Ok o ->
  exists s', scan_lines iface scan_start (lines_of content) = Ok s' /\ sc_open s' = "" /\
  match o with
  | None => Forall foreign (lines_of content)
  | Some (before, after) => exists pre b mid e rest s1,
      lines_of content = pre ++ b :: mid ++ e :: rest /\ before = concat_strings pre /\
      after = concat_strings rest /\ Forall foreign pre /\ Forall foreign rest /\
      scan_lines iface scan_start pre = Ok s1 /\ sc_open s1 = "" /\ iface ∉ sc_seen s1 /\
      exists s2, scan_lines iface s2 rest = Ok s' /\ sc_open s2 = "" /\
        sc_seen s2 = {[iface]} ∪ sc_seen s1
  end.
Proof.
  unfold splitAtMarkers. intros (s' & Hs & [Ho Hk]%guard_err_Ok)%bind_Ok. bool_solve.
  exists s'. split; [done|]. split; [done|].
  assert (Hstart : "" <> iface) by congruence.
  destruct (scan_find _ scan_start s' ltac:(set_solver) Hstart Hs Ho)
    as [Hf|(pre & b & mid & e & rest & s1 & El & Hpre & _ & _ & _ & Hrest & H1 & Ho1 & Hn1 & Hr)].
  - destruct (scan_foreign _ scan_start scan_start s' Hf) as (s2 & E & _ & Hb & _); [done|done|done|].
    assert (s2 = s') as -> by congruence. rewrite Hb in Hk. by injection Hk as <-.
  - cbv zeta in Hr. match type of Hr with scan_lines _ ?s2 _ = _ =>
      destruct (scan_foreign rest s2 s2 s' Hrest (agree_refl s2) Hstart Hr) as (s2' & E & _ & Hb & He & _)
    end. assert (s2' = s') as -> by congruence.
    rewrite Hb, He in Hk. cbn [sc_beginAt sc_endAt default] in Hk. injection Hk as <-.
    assert (Ec : content = concat_strings pre +:+ concat_strings (b :: mid ++ [e]) +:+ concat_strings rest).
    { rewrite <- !concat_strings_app, <- (concat_lines content), El. f_equal.
      rewrite <- app_comm_cons, <- app_assoc. done. }
    exists pre, b, mid, e, rest, s1. split_and!; try done.
    + rewrite Ec. simpl. by rewrite string_take_app.
    + rewrite Ec, string_app_assoc. cbn [sc_offset scan_start].
      rewrite ?Nat.add_0_l, <- string_length_app. apply string_drop_app.
    + eexists. split; [exact Hr|]. done.
Qed.

(** A block whose lines are whole and no markers. *)
Definition good_block (block : string) : Prop :=
  Forall (fun l => proper l /\ owner_of l = None) (lines_of block).

Lemma marked_lines block :
  good_block block ->
  marked_block iface block =
    concat_strings ((beginMarker iface +:+ newline) :: lines_of block ++ [endMarker iface +:+ newline]) /\
  Forall proper ((beginMarker iface +:+ newline) :: lines_of block ++ [endMarker iface +:+ newline]).
Proof.
  intros Hg. destruct markers_proper as [Hb He]. split.
  - rewrite concat_strings_cons, concat_strings_app, concat_lines. unfold marked_block.
    by rewrite <- !string_app_assoc.
  - constructor; [done|]. apply Forall_app. split; [|by constructor].
    eapply Forall_impl; [exact Hg|]. by intros l [? _].
Qed.

(** Putting a marked block between two accepted parts. *)
Lemma split_marked pre rest block s1 s2 s' :
  good_block block -> Forall proper pre -> lines_of (concat_strings rest) = rest ->
  scan_lines iface scan_start pre = Ok s1 -> sc_open s1 = "" -> iface ∉ sc_seen s1 ->
  Forall foreign rest -> scan_lines iface s2 rest = Ok s' -> sc_open s' = "" -> sc_open s2 = "" ->
  (forall o, o <> iface -> o ∈ sc_seen s2 <-> o ∈ sc_seen s1) ->
  sc_beginAt s1 = None -> sc_offset s1 = String.length (concat_strings pre) ->
  splitAtMarkers (concat_strings pre +:+ marked_block iface block +:+ concat_strings rest) iface =
  Ok (Some (concat_strings pre, concat_strings rest)).
Proof.
  intros Hg Hpp Hrl H1 Ho1 Hn1 Hfr Hr Ho' Ho2 Hseen Hb1 Hoff1.
  destruct (marked_lines _ Hg) as [Em Hpm]. unfold splitAtMarkers.
  rewrite lines_of_propers by done. rewrite Em, lines_of_propers, Hrl by done.
  set (B := beginMarker iface +:+ newline) in *. set (E := endMarker iface +:+ newline) in *.
  assert (HB : owner_of B = Some (iface, true)) by apply owner_begin.
  assert (HE : owner_of E = Some (iface, false)) by apply owner_end.
  rewrite scan_app, H1. cbn [mbind result_bind app scan_lines].
  unfold scan_line at 1. fold (owner_of B). rewrite HB, Ho1. cbn [negb orb String.eqb].
  rewrite bool_decide_eq_false_2 by done. cbn [mbind result_bind].
  rewrite <- app_assoc, scan_app, scan_unmarked
    by (eapply Forall_impl; [exact Hg|]; by intros l [_ ?]).
  cbn [mbind result_bind app scan_lines]. unfold scan_line at 1. fold (owner_of E).
  rewrite HE. cbn [advance sc_open sc_offset sc_beginAt sc_endAt sc_seen].
  rewrite !String.eqb_refl. cbn [negb mbind result_bind].
  assert (Hstart : "" <> iface) by congruence.
  match goal with |- context [scan_lines iface ?s rest] => set (s3 := s) end.
  destruct (scan_foreign rest s2 s3 s' Hfr) as (s3' & E3 & [Eo _] & Hb3 & He3 & _); [|congruence|done|].
  { split; [done|]. intros o Hne. rewrite Hseen by done. unfold s3. cbn [sc_seen]. set_solver. }
  rewrite E3. cbn [mbind result_bind]. rewrite <- Eo, Ho'. cbn [String.eqb negb guard_err].
  rewrite Hb3, He3. unfold s3. cbn [sc_beginAt sc_endAt default]. rewrite Hoff1, string_take_app.
  do 3 f_equal. rewrite string_app_assoc.
  replace (_ + _)%nat with (String.length (concat_strings pre +:+
    concat_strings (B :: lines_of block ++ [E]))); [apply string_drop_app|].
  rewrite string_length_app, length_concat_cons, concat_strings_app, string_length_app, length_concat_cons.
  simpl. lia.
Qed.

(** A file accepted without a block, once its last line is ended. *)
Lemma last_byte_app s t c : last_byte t = Some c -> last_byte (s +:+ t) = Some c.
Proof.
  induction s as [|y u IH]; intros Hv; [by rewrite string_app_nil|].
  rewrite string_app_cons. simpl. pose proof (IH Hv) as E. destruct (u +:+ t); [done|exact E].
Qed.

Lemma lacks_chomp x : lacks nl x = true -> chomp x = x.
Proof.
  intros Hx. unfold chomp, strings_TrimSuffix. destruct (strings_CutSuffix newline x) as [r|] eqn:E; [|done].
  apply CutSuffix_Some in E as ->. unfold lacks, newline in Hx. rewrite forallb_app in Hx.
  apply andb_true_iff in Hx as [_ Hx]. done.
Qed.

Definition end_line (content : string) : string :=
  if (0 <? len content) && negb (strings_HasSuffix content newline) then newline else "".

Lemma end_line_lines content :
  Forall proper (lines_of (content +:+ end_line content)) /\
  owner_of <$> lines_of (content +:+ end_line content) = owner_of <$> lines_of content.
Proof.
  destruct (lines_of content) as [|l0 ls0] eqn:El.
  { pose proof (concat_lines content) as Hc. rewrite El in Hc. subst content. by split. }
  destruct (exists_last (l := l0 :: ls0)) as (ls & x & Ex); [done|]. rewrite Ex in *.
  destruct (lines_of_shape _ _ _ El) as [Hp Hx].
  assert (Hc : content = concat_strings ls +:+ x).
  { rewrite <- (concat_lines content), El, concat_strings_app, concat_strings_cons. simpl.
    by rewrite string_app_nil_r. }
  unfold end_line. assert (Hlen : 0 <? len content = true).
  { apply Z.ltb_lt. rewrite Hc. unfold len. rewrite string_length_app.
    destruct Hx as [(b & _ & ->)|[_ Hx]]; [rewrite string_length_app; simpl; lia|].
    destruct x; [done|]. simpl. lia. }
  rewrite Hlen. destruct Hx as [Hx|[Hlx Hne]].
  - destruct Hx as (b & Hb & Hxb).
    assert (strings_HasSuffix content newline = true) as ->.
    { rewrite Hc, Hxb, string_app_assoc. apply HasSuffix_app. }
    cbn [negb andb]. rewrite string_app_nil_r, El. split; [|done].
    apply Forall_app. split; [done|]. repeat constructor. by exists b.
  - assert (strings_HasSuffix content newline = false) as ->.
    { unfold strings_HasSuffix. destruct (strings_CutSuffix newline content) as [r|] eqn:E; [|done].
      apply CutSuffix_Some in E. destruct (last_byte x) as [c|] eqn:Elx;
        [|by apply last_byte_None in Elx].
      assert (H1 : last_byte content = Some nl) by (rewrite E; apply last_byte_app; done).
      rewrite Hc, (last_byte_app _ _ _ Elx) in H1. injection H1 as ->.
      pose proof (last_byte_forallb _ _ _ Hlx Elx) as Hk. vm_compute in Hk. discriminate Hk. }
    cbn [negb andb].
    assert (Hpx : proper (x +:+ newline)) by (by exists x).
    rewrite Hc, <- string_app_assoc, lines_of_propers by done.
    rewrite <- (string_app_nil_r (x +:+ newline)), lines_of_proper by done. cbn [lines_of].
    split; [apply Forall_app; split; [done|by repeat constructor]|].
    assert (Eo : owner_of (x +:+ newline) = owner_of x).
    { unfold owner_of. rewrite (lacks_chomp x) by done. unfold chomp. by rewrite TrimSuffix_app. }
    rewrite !fmap_app. f_equal. cbn -[owner_of]. by rewrite Eo.
Qed.

Lemma scan_owners ls ls' : forall s1 s2 s1',
  owner_of <$> ls = owner_of <$> ls' -> sc_open s1 = sc_open s2 -> sc_seen s1 = sc_seen s2 ->
  scan_lines iface s1 ls = Ok s1' ->
  exists s2', scan_lines iface s2 ls' = Ok s2' /\ sc_open s2' = sc_open s1' /\ sc_seen s2' = sc_seen s1'.
Proof.
  revert ls'. induction ls as [|l ls IH]; intros [|l' ls'] s1 s2 s1' Ef Eo Es; try done.
  { intros [= <-]. by exists s2. }
  rewrite !fmap_cons in Ef. injection Ef as El Els. cbn [scan_lines].
  intros (sa & H1 & H2)%bind_Ok. unfold scan_line in H1. fold (owner_of l) in H1.
  assert (Hs : exists sb, scan_line iface s2 l' = Ok sb /\ sc_open sa = sc_open sb /\ sc_seen sa = sc_seen sb).
  { unfold scan_line. fold (owner_of l'). rewrite <- El, <- Eo, <- Es.
    destruct (owner_of l) as [[o []]|].
    - destruct (_ || _); [done|]. injection H1 as <-. by eexists.
    - destruct (negb _); [done|]. injection H1 as <-. by eexists.
    - injection H1 as <-. by eexists. }
  destruct Hs as (sb & Hb & Eo' & Es'). destruct (IH _ _ _ _ Els Eo' Es' H2) as (s2' & E & ? & ?).
  exists s2'. rewrite Hb. by cbn [mbind result_bind].
Qed.

Lemma foreign_owners ls ls' :
  owner_of <$> ls = owner_of <$> ls' -> Forall foreign ls -> Forall foreign ls'.
Proof.
  intros E Hf. assert (Hf' : Forall (fun o => forall b, o <> Some (iface, b)) (owner_of <$> ls))
    by (by apply Forall_fmap).
  rewrite E in Hf'. by apply Forall_fmap in Hf'.
Qed.

(** The rewritten file has the same surroundings. *)
Lemma split_appended content block glue :
  good_block block -> splitAtMarkers content iface = Ok None -> glue = "" \/ glue = newline ->
  let before := content +:+ end_line content +:+ glue in
  splitAtMarkers (before +:+ marked_block iface block) iface = Ok (Some (before, "")).
Proof.
  intros Hg Hs Hglue before. destruct (split_shape _ _ Hs) as (s' & Hsc & Ho & Hf).
  destruct (end_line_lines content) as [Hpr Hown].
  destruct (scan_owners _ _ scan_start scan_start _ (eq_sym Hown) eq_refl eq_refl Hsc) as (s2 & H2 & Ho2 & Hs2).
  pose proof (foreign_owners _ _ (eq_sym Hown) Hf) as Hf2.
  set (gl := lines_of glue).
  assert (Hgl : Forall (fun l => owner_of l = None) gl /\ Forall proper gl).
  { destruct Hglue as [->| ->]; [by split|]. split; repeat constructor. by exists "". }
  destruct Hgl as [Hgl1 Hgl2].
  assert (Hlines : lines_of before = lines_of (content +:+ end_line content) ++ gl).
  { unfold before. rewrite string_app_assoc. rewrite <- (concat_lines (content +:+ end_line content)) at 1.
    by rewrite lines_of_propers. }
  assert (Hfb : Forall foreign (lines_of before)).
  { rewrite Hlines. apply Forall_app. split; [done|]. eapply Forall_impl; [exact Hgl1|].
    intros l El b. congruence. }
  assert (Hscan : scan_lines iface scan_start (lines_of before) = Ok (advance (String.length (concat_strings gl)) s2)).
  { rewrite Hlines, scan_app, H2. cbn [mbind result_bind]. by apply scan_unmarked. }
  assert (Hstart : "" <> iface) by congruence.
  destruct (scan_foreign _ scan_start scan_start _ Hfb (agree_refl _) Hstart Hscan)
    as (s3 & E3 & _ & Hb3 & _ & Hoff3 & _ & Hseen3).
  assert (s3 = advance (String.length (concat_strings gl)) s2) as -> by congruence.
  rewrite <- (concat_lines before), <- (string_app_nil_r (marked_block iface block)).
  set (s1 := advance _ s2) in *.
  assert (Ho1 : sc_open s1 = "") by (unfold s1; cbn; congruence).
  apply (split_marked (lines_of before) [] block s1 s1 s1); try done.
  - rewrite Hlines. apply Forall_app. by split.
  - rewrite Hseen3. set_solver.
Qed.

(** Removing a block leaves an accepted file without one. *)
Lemma split_joined content before after :
  splitAtMarkers content iface = Ok (Some (before, after)) ->
  splitAtMarkers (before +:+ after) iface = Ok None.
Proof.
  intros (s' & Hsc & Ho & pre & b & mid & e & rest & s1 & El & -> & -> & Hpre & Hrest & H1 & Ho1 & Hn1
    & s2 & H2 & Ho2 & Hs2)%split_shape.
  assert (Hstart : "" <> iface) by congruence.
  pose proof (lines_of_prefix _ _ _ _ El) as Hpp.
  assert (Hrl : lines_of (concat_strings rest) = rest).
  { apply (lines_of_suffix content (pre ++ b :: mid ++ [e])). rewrite El, <- app_assoc.
    by rewrite <- app_comm_cons, <- app_assoc. }
  unfold splitAtMarkers. rewrite lines_of_propers, Hrl, scan_app, H1 by done. cbn [mbind result_bind].
  destruct (scan_foreign rest s2 s1 s' Hrest) as (s3 & E3 & [Eo _] & Hb3 & _); [|congruence|done|].
  { split; [congruence|]. intros o Hne. rewrite Hs2. set_solver. }
  rewrite E3. cbn [mbind result_bind]. rewrite <- Eo, Ho. cbn [String.eqb negb guard_err]. rewrite Hb3.
  destruct (scan_foreign pre scan_start scan_start s1 Hpre (agree_refl _) Hstart H1)
    as (s1' & E1 & _ & Hb1 & _). assert (s1' = s1) as -> by congruence. by rewrite Hb1.
Qed.

(** Replacing the block of an accepted file keeps its surroundings. *)
Lemma split_replaced content block before after :
  good_block block -> splitAtMarkers content iface = Ok (Some (before, after)) ->
  splitAtMarkers (before +:+ marked_block iface block +:+ after) iface = Ok (Some (before, after)).
Proof.
  intros Hg (s' & Hsc & Ho & pre & b & mid & e & rest & s1 & El & -> & -> & Hpre & Hrest & H1 & Ho1 & Hn1
    & s2 & H2 & Ho2 & Hs2)%split_shape.
  assert (Hstart : "" <> iface) by congruence.
  destruct (scan_foreign pre scan_start scan_start s1 Hpre (agree_refl _) Hstart H1)
    as (s1' & E1 & _ & Hb1 & _ & Hoff1 & _). assert (s1' = s1) as -> by congruence.
  apply (split_marked pre rest block s1 s2 s'); try done.
  - by eapply lines_of_prefix.
  - apply (lines_of_suffix content (pre ++ b :: mid ++ [e])). rewrite El, <- app_assoc.
    by rewrite <- app_comm_cons, <- app_assoc.
  - intros o Hne. rewrite Hs2. set_solver.
Qed.

Lemma split_concat content before after :
  splitAtMarkers content iface = Ok (Some (before, after)) ->
  exists old, content = before +:+ old +:+ after.
Proof.
  intros (s' & _ & _ & pre & b & mid & e & rest & s1 & El & -> & -> & _)%split_shape.
  exists (concat_strings (b :: mid ++ [e])). rewrite <- !concat_strings_app, <- (concat_lines content), El.
  rewrite <- app_comm_cons, <- app_assoc. done.
Qed.

(** A second run finds nothing to do. *)
Lemma Rewrite_again content block r changed :
  good_block block -> Rewrite content iface block = Ok (r, changed) -> Rewrite r iface block = Ok (r, false).
Proof.
  intros Hg HR. unfold Rewrite in HR. apply bind_Ok in HR as (o & Hs & HR). destruct o as [[before after]|].
  - injection HR as <- _. destruct (String.eqb block "") eqn:Eb; unfold Rewrite.
    + rewrite (split_joined _ _ _ Hs). cbn [mbind result_bind]. by rewrite Eb.
    + rewrite (split_replaced _ _ _ _ Hg Hs). cbn [mbind result_bind]. by rewrite Eb, String.eqb_refl.
  - destruct (String.eqb block "") eqn:Eb.
    + injection HR as <- <-. unfold Rewrite. rewrite Hs. cbn [mbind result_bind]. by rewrite Eb.
    + injection HR as <- _. pose proof (split_appended content block (if 0 <? len content then newline else "") Hg Hs) as Ha.
      cbv zeta in Ha. unfold Rewrite.
      unfold end_line in Ha. rewrite <- !string_app_assoc in Ha. rewrite Ha by (destruct (0 <? len content); [by right|by left]).
      cbn [mbind result_bind]. rewrite Eb, string_app_nil_r, <- !string_app_assoc.
      by rewrite String.eqb_refl.
Qed.

Lemma Rewrite_unchanged content block r : Rewrite content iface block = Ok (r, false) -> r = content.
Proof.
  unfold Rewrite. intros (o & _ & Hr)%bind_Ok. destruct o as [[before after]|]; [|destruct (String.eqb block ""); [by injection Hr as <-|]];
    injection Hr as <- Hn; by apply negb_false_iff, String.eqb_eq in Hn.
Qed.

End scan.

(** ** The rendered block *)
Section rendered.
Context `{CryptoLib} `{UnicodeTables}.

(** The line of one node. *)
Definition host_line (domain : string) (n : Node) : string :=
  node_TunnelIP n +:+ String tab (strings_ToLower (node_Name n) +:+ "." +:+ domain +:+ newline).

Lemma ip_by_name_lookup nodes n :
  NoDup ((fun n => strings_ToLower (node_Name n)) <$> nodes) -> n ∈ nodes ->
  ip_by_name nodes !! strings_ToLower (node_Name n) = Some (node_TunnelIP n).
Proof.
  unfold ip_by_name. induction nodes as [|m ms IH] using rev_ind; intros Hd Hn; [set_solver|].
  apply NoDup_fmap_snoc in Hd as [Hd Hm]. rewrite fold_left_app. simpl.
  apply elem_of_app in Hn as [Hn|Hn].
  - rewrite lookup_insert_ne; [by apply IH|]. intros E. apply Hm. rewrite E.
    by apply (list_elem_of_fmap_2 (fun n => strings_ToLower (node_Name n))).
  - apply list_elem_of_singleton in Hn as ->. by rewrite lookup_insert_eq.
Qed.

Lemma block_lines dir :
  NoDup ((fun n => strings_ToLower (node_Name n)) <$> dir_Nodes dir) ->
  block_line (dir_Domain dir) (ip_by_name (dir_Nodes dir)) <$>
    sort_strings ((fun n => strings_ToLower (node_Name n)) <$> dir_Nodes dir) ≡ₚ
  host_line (dir_Domain dir) <$> dir_Nodes dir.
Proof.
  intros Hd. unfold sort_strings. rewrite merge_sort_Permutation, <- list_fmap_compose.
  erewrite list_fmap_ext; [done|]. intros i n Hn%list_elem_of_lookup_2. simpl. unfold block_line.
  by rewrite ip_by_name_lookup.
Qed.

Lemma ipv4_String_first n : exists d r, ipv4_String n = String d r /\ is_digit d = true.
Proof.
  destruct (FormatUint_head (octet n 24)) as (d & r & E & Hd); [apply octet_range|].
  unfold ipv4_String. rewrite E, string_app_cons. eauto.
Qed.

Lemma marker_digit d r : is_digit d = true -> marker (String d r) = None.
Proof.
  intros Hd. assert (Hh : Ascii.eqb d "#" = false) by (apply Ascii.eqb_neq; by intros ->).
  assert (Hh' : Ascii.eqb "#" d = false) by (apply Ascii.eqb_neq; by intros <-).
  unfold marker, legacyBeginMarker, legacyEndMarker, begin_prefix, end_prefix. cbn [String.eqb strings_CutPrefix].
  by rewrite Hh, Hh'.
Qed.

Definition plain_char (c : ascii) : bool := domain_char c || Ascii.eqb c tab.

Lemma plain_char_ok c :
  plain_char c = true -> is_ascii c = true /\ c <> nl /\ (is_space c = true -> c = tab).
Proof. by destruct c as [[] [] [] [] [] [] [] []]. Qed.

Lemma host_line_good prefix domain n :
  valid_node prefix n -> valid_label (node_Name n) -> string_forallb domain_char domain = true ->
  domain <> "" -> proper (host_line domain n) /\ owner_of (host_line domain n) = None.
Proof.
  intros [_ _ (ip & Hip & _) _ _ _] Hl Hd Hne.
  apply parse_is4_canonical in Hip as [_ Eip].
  set (body := node_TunnelIP n +:+ String tab (strings_ToLower (node_Name n) +:+ "." +:+ domain)).
  assert (Eb : host_line domain n = body +:+ newline).
  { unfold host_line, body.
    by repeat (rewrite <- string_app_assoc || rewrite string_app_cons || rewrite string_app_nil). }
  assert (Hplain : string_forallb plain_char body = true).
  { unfold body. rewrite Eip, forallb_app. cbn [string_forallb]. rewrite !forallb_app.
    assert (H1 : string_forallb plain_char (ipv4_String ip) = true).
    { eapply string_forallb_mono; [|apply ipv4_String_chars]. unfold dotted_char, plain_char, domain_char, label_char.
      intros c Hc. apply orb_true_iff in Hc as [-> | ->]; by rewrite ?orb_true_r. }
    assert (H2 : string_forallb plain_char (strings_ToLower (node_Name n)) = true).
    { eapply string_forallb_mono; [|by apply ToLower_label]. unfold plain_char, domain_char. by intros c ->. }
    assert (H3 : string_forallb plain_char domain = true).
    { eapply string_forallb_mono; [|exact Hd]. unfold plain_char. by intros c ->. }
    by rewrite H1, H2, H3. }
  split.
  - exists body. split; [|done]. unfold lacks. eapply string_forallb_mono; [|exact Hplain].
    intros c (_ & Hc & _)%plain_char_ok. by apply negb_true_iff, Ascii.eqb_neq.
  - unfold owner_of, chomp. rewrite Eb, TrimSuffix_app.
    destruct (ipv4_String_first ip) as (d & r & Ei & Hdig).
    rewrite TrimSpace_id.
    + unfold body. rewrite Eip, Ei, string_app_cons. by apply marker_digit.
    + eapply string_forallb_mono; [|exact Hplain]. intros c Hc. by apply plain_char_ok.
    + unfold body. rewrite Eip, Ei, string_app_cons. intros c [= <-]. clear -Hdig.
      by destruct d as [[] [] [] [] [] [] [] []].
    + intros c Hc. destruct (last_byte domain) as [l|] eqn:El; [|by apply last_byte_None in El].
      assert (Hlast : last_byte body = Some l).
      { unfold body. change (String tab ?x) with (String tab "" +:+ x). by repeat apply last_byte_app. }
      rewrite Hlast in Hc. injection Hc as <-.
      pose proof (last_byte_forallb _ _ _ Hd El) as Hk. clear -Hk.
      by destruct l as [[] [] [] [] [] [] [] []].
Qed.

Lemma Block_spec dir :
  ValidDirectory dir ->
  (dir_Domain dir = "" -> Block dir = "") /\
  (dir_Domain dir <> "" ->
     lines_of (Block dir) ≡ₚ host_line (dir_Domain dir) <$> dir_Nodes dir /\ good_block (Block dir)).
Proof.
  intros (_ & prefix & _ & Hdom & [He _ _ _ Hl]). unfold Block.
  destruct (String.eqb_spec (dir_Domain dir) "") as [E|E]; cbn [orb]; [done|]. split; [done|]. intros _.
  destruct (Hl E) as [Hlab Hlow].
  assert (Hgood : Forall (fun l => proper l /\ owner_of l = None) (host_line (dir_Domain dir) <$> dir_Nodes dir)).
  { apply Forall_fmap, Forall_forall. intros n Hn. rewrite Forall_forall in He, Hlab.
    eapply host_line_good; [by apply He|by apply Hlab|by apply ValidateDomain_chars, Hdom|done]. }
  destruct (Nat.eqb_spec (length (dir_Nodes dir)) 0) as [E0|E0].
  { apply length_zero_iff_nil in E0. rewrite E0. split; [done|]. unfold good_block. constructor. }
  pose proof (block_lines dir Hlow) as Hperm.
  assert (Hgood' := Hgood). rewrite <- Hperm in Hgood'. unfold good_block.
  rewrite <- (string_app_nil_r (concat_strings _)), lines_of_propers
    by (eapply Forall_impl; [exact Hgood'|]; by intros l [? _]).
  cbn [lines_of]. rewrite app_nil_r. split; [exact Hperm|exact Hgood'].
Qed.
(** With a domain, the block of a valid directory has one whole line per
    node, mapping the node's lower-cased name under the domain to its tunnel
    address, none of which reads as a marker; without one there is no block. *)
Theorem Block_correct dir :
  ValidDirectory dir ->
  (dir_Domain dir = "" -> Block dir = "") /\
  (dir_Domain dir <> "" ->
     lines_of (Block dir) ≡ₚ host_line (dir_Domain dir) <$> dir_Nodes dir /\ good_block (Block dir)).
Proof. apply Block_spec. Qed.
End rendered.

Section samples.
#[local] Existing Instances toy_crypto ascii_tables.

(** Two interfaces share a file: tincan0's block is replaced, tincan1's kept. *)
Definition sample_hosts : string :=
  "127.0.0.1 localhost" +:+ newline +:+ marked_block "tincan1" ("10.9.0.1 a.b" +:+ newline) +:+
  marked_block "tincan0" ("10.7.0.9 old.vpn" +:+ newline) +:+ "# the end".

Lemma Block_correct_witness : good_block (Block sample_dir).
Proof. by apply (Block_correct sample_dir); [apply Validate_spec; vm_compute; reflexivity|]. Defined.

End samples.
