(* ===== verification/DnsServe.v ===== *)
(** * DnsServe: internal/dnsserve

    The VPN DNS listener of a hub: what it answers from the directory, what it
    proxies, and what it makes of the upstream's packets.  The message codec is
    golang.org/x/net/dns/dnsmessage: the class [DnsMessage], with what is relied
    on as [DnsMessageLaws].  Sockets are left out: a packet is its bytes. *)
From stdpp Require Import base tactics option list strings gmap.
From Stdlib Require Import Ascii ZArith Lia.
From S2P Require Import Prelude GoStrings GoNum GoNet GoBase64 Keys Directory DnsName Validate Hosts.
Open Scope Z_scope.

(** ** dnsmessage *)

Record Header := {
  h_ID : Z;
  h_Response : bool;
  h_OpCode : Z;
  h_Authoritative : bool;
  h_RecursionDesired : bool;
  h_RecursionAvailable : bool;
  h_RCode : Z }.

Record Question := { q_Name : string; q_Type : Z; q_Class : Z }.

Inductive ResourceBody := AResource (a : Z) | PTRResource (ptr : string).
Record Resource := { r_Name : string; r_Type : Z; r_Class : Z; r_TTL : Z; r_Body : ResourceBody }.

Definition TypeA : Z := 1.
Definition TypePTR : Z := 12.
Definition ClassINET : Z := 1.
Definition RCodeSuccess : Z := 0.
Definition RCodeFormatError : Z := 1.
Definition RCodeServerFailure : Z := 2.
Definition RCodeNameError : Z := 3.

(** [Parser.Start], [AllQuestions] and [AllAnswers] of a message; a [Name] is its
    text; a [Builder] given the sections of a message. *)
Class DnsMessage := {
  dns_Start : string -> option Header;
  dns_AllQuestions : string -> option (list Question);
  dns_AllAnswers : string -> option (list Resource);
  dns_NewName : string -> option string;
  dns_Build : Header -> list Question -> list Resource -> option string }.

Class DnsMessageLaws `{DnsMessage} : Prop := {
  NewName_text s n : dns_NewName s = Some n -> n = s;
  NewName_short s : len s <= 255 -> dns_NewName s = Some s;
  Build_parses h qs rs b : dns_Build h qs rs = Some b ->
    dns_Start b = Some h /\ dns_AllQuestions b = Some qs /\ dns_AllAnswers b = Some rs }.

(** ** answer.go *)

Definition headerLen : Z := 12.
Definition answerTTL : Z := 60.

Definition arpa_suffix : string := ".in-addr.arpa".

(** "d.c.b.a.in-addr.arpa" as the address a.b.c.d. *)
Definition reverseIPv4 (qname : string) : option Z :=
  let rest := strings_TrimSuffix qname arpa_suffix in
  match strings_Split "." rest with
  | [p0; p1; p2; p3] => parse_is4 (p3 +:+ "." +:+ p2 +:+ "." +:+ p1 +:+ "." +:+ p0)
  | _ => None
  end.

Section answer.
Context `{DnsMessage} `{UnicodeTables}.

Definition answer_resource (name : string) (t : Z) (body : ResourceBody) : Resource :=
  {| r_Name := name; r_Type := t; r_Class := ClassINET; r_TTL := answerTTL; r_Body := body |}.

Definition reply_header (hdr : Header) (rcode : Z) : Header :=
  {| h_ID := h_ID hdr; h_Response := true; h_OpCode := 0; h_Authoritative := true;
     h_RecursionDesired := h_RecursionDesired hdr; h_RecursionAvailable := true; h_RCode := rcode |}.

(** [None] is the nil reply of a failed build. *)
Definition buildReply (hdr : Header) (q : option Question) (rcode : Z) (answers : list Resource) : option string :=
  dns_Build (reply_header hdr rcode) (option_list q) answers.

Fixpoint node_by_label (nodes : list Node) (label : string) : option Node :=
  match nodes with
  | [] => None
  | n :: ns => if strings_EqualFold (node_Name n) label then Some n else node_by_label ns label
  end.
Definition nodeByLabel (dir : Directory) (label : string) : option Node := node_by_label (dir_Nodes dir) label.

Fixpoint node_by_ip (nodes : list Node) (ip : string) : option Node :=
  match nodes with
  | [] => None
  | n :: ns => if negb (String.eqb (node_TunnelIP n) ip) then node_by_ip ns ip else Some n
  end.

Definition in_network (dir : Directory) (addr : Z) : bool :=
  match netip_ParsePrefix (dir_NetworkCIDR dir) with
  | Some prefix => prefix_Contains (prefix_Masked prefix) (Addr4 addr)
  | None => false
  end.

(** A reply, or forwarding to the upstream; neither drops the packet. *)
Definition respondPTR (hdr : Header) (q : Question) (qname domain : string) (dir : Directory) : option string * bool :=
  match reverseIPv4 qname with
  | None => (None, true)
  | Some addr =>
      if negb (in_network dir addr) then (None, true)
      else if negb (q_Type q =? TypePTR) then (buildReply hdr (Some q) RCodeSuccess [], false)
      else match node_by_ip (dir_Nodes dir) (ipv4_String addr) with
           | None => (buildReply hdr (Some q) RCodeNameError [], false)
           | Some node =>
               match dns_NewName (strings_ToLower (node_Name node) +:+ "." +:+ domain +:+ ".") with
               | None => (buildReply hdr (Some q) RCodeServerFailure [], false)
               | Some target =>
                   (buildReply hdr (Some q) RCodeSuccess [answer_resource (q_Name q) TypePTR (PTRResource target)], false)
               end
           end
  end.

Definition query_name (q : Question) : string := strings_ToLower (strings_TrimSuffix (q_Name q) ".").

(** The names of the VPN domain. *)
Definition respondName (hdr : Header) (q : Question) (qname domain : string) (dir : Directory) : option string * bool :=
  if String.eqb qname domain then (buildReply hdr (Some q) RCodeSuccess [], false)
  else if strings_HasSuffix qname ("." +:+ domain) then
    let label := strings_TrimSuffix qname ("." +:+ domain) in
    if contains_byte "." label then (buildReply hdr (Some q) RCodeNameError [], false)
    else match nodeByLabel dir label with
         | None => (buildReply hdr (Some q) RCodeNameError [], false)
         | Some node =>
             if negb (q_Type q =? TypeA) then (buildReply hdr (Some q) RCodeSuccess [], false)
             else match parse_is4 (node_TunnelIP node) with
                  | None => (buildReply hdr (Some q) RCodeServerFailure [], false)
                  | Some addr =>
                      (buildReply hdr (Some q) RCodeSuccess [answer_resource (q_Name q) TypeA (AResource addr)], false)
                  end
         end
  else (None, true).

Definition respond (query domain : string) (dir : Directory) : option string * bool :=
  match dns_Start query with
  | None => (None, false)
  | Some hdr =>
      if h_Response hdr then (None, false)
      else if negb (h_OpCode hdr =? 0) then (None, true)
      else match dns_AllQuestions query with
           | Some [q] =>
               if negb (q_Class q =? ClassINET) then (None, true)
               else
                 let qname := query_name q in
                 if strings_HasSuffix qname arpa_suffix then respondPTR hdr q qname domain dir
                 else respondName hdr q qname domain dir
           | _ => (buildReply hdr None RCodeFormatError [], false)
           end
  end.
End answer.

(** ** The raw bytes of a packet *)

Definition byte_at (s : string) (i : nat) : Z := match String.get i s with Some c => code c | None => 0 end.

Fixpoint set_byte (s : string) (i : nat) (z : Z) : string :=
  match s, i with
  | EmptyString, _ => EmptyString
  | String _ s, O => String (chr z) s
  | String c s, S i => String c (set_byte s i z)
  end.

Definition qrBit : Z := 128.

(** [a &^ b] on bytes. *)
Definition and_not (a b : Z) : Z := Z.land a (Z.lxor 255 b).

Definition servfailFor (query : string) : option string :=
  if len query <? headerLen then None else
  let out := set_byte query 2 (Z.lor (byte_at query 2) qrBit) in
  let out := set_byte out 2 (and_not (byte_at out 2) 4) in
  Some (set_byte out 3 (Z.lor (Z.lor (and_not (byte_at out 3) 15) 128) 2)).

(** ** server.go *)

(** What an exchange makes of the packets that reach its socket before the
    deadline. *)
Definition accept_reply (query packet : string) : bool :=
  negb ((len packet <? headerLen) || negb (byte_at packet 0 =? byte_at query 0)
        || negb (byte_at packet 1 =? byte_at query 1) || (Z.land (byte_at packet 2) qrBit =? 0)).

Fixpoint exchange_loop (query : string) (packets : list string) : option string :=
  match packets with
  | [] => None
  | p :: ps => if accept_reply query p then Some p else exchange_loop query ps
  end.

(** [dial] and [write] are the socket's; what the packets do is the loop's. *)
Definition exchange (dial write : result unit) (query : string) (packets : list string) : option string :=
  match dial, write with
  | Ok _, Ok _ => exchange_loop query packets
  | _, _ => None
  end.

(** The packet [forward] sends to the client, if any. *)
Definition forward_reply (query : string) (upstream : option string) : option string :=
  match upstream with Some reply => Some reply | None => servfailFor query end.

Definition maxForwards : Z := 256.

(** The listener: how many exchanges hold a slot of the semaphore. *)
Inductive ServerAction := ReplyTo (client : Z) (reply : string) | StartForward (client : Z) (query : string).
Inductive ServerEvent :=
  | Packet (client : Z) (query : string)
  | Exchanged (client : Z) (query : string) (upstream : option string).

Section server.
Context `{DnsMessage} `{UnicodeTables}.

(** One turn of [serve] or the end of one [forward]: the slots held afterwards and
    what is sent. *)
Definition server_step (domain : string) (source : Directory) (held : Z) (e : ServerEvent) : Z * list ServerAction :=
  match e with
  | Packet client query =>
      match respond query domain source with
      | (_, true) => if held <? maxForwards then (held + 1, [StartForward client query]) else (held, [])
      | (Some reply, false) => (held, [ReplyTo client reply])
      | (None, false) => (held, [])
      end
  | Exchanged client query upstream =>
      (held - 1, match forward_reply query upstream with Some r => [ReplyTo client r] | None => [] end)
  end.

(** [withDefaultPort] *)
Definition withDefaultPort (addr : string) : string :=
  match net_SplitHostPort addr with
  | Some _ => addr
  | None => net_JoinHostPort addr "53"
  end.

(** ** upstream.go: the lines the scanner yields, and its error *)

Fixpoint nameserver_loop (lines : list string) (scan_err : option error) : result string :=
  match lines with
  | [] =>
      match scan_err with
      | Some e => Err e
      | None => Err (errors_New "no nameserver entries in %s")
      end
  | l :: lines =>
      match strings_Fields l with
      | f0 :: host :: _ =>
          if negb (String.eqb f0 "nameserver") then nameserver_loop lines scan_err
          else match net_ParseIP host with
               | None => nameserver_loop lines scan_err
               | Some _ => Ok (net_JoinHostPort host "53")
               end
      | _ => nameserver_loop lines scan_err
      end
  end.

Definition upstreamFromResolvConf (open : result (list string * option error)) : result string :=
  '(lines, scan_err) ← open;
  nameserver_loop lines scan_err.

(** ** probe.go *)

Definition probe_header : Header :=
  {| h_ID := 31828; h_Response := false; h_OpCode := 0; h_Authoritative := false;
     h_RecursionDesired := true; h_RecursionAvailable := false; h_RCode := 0 |}.

Definition probe_query (domain : string) : option string :=
  name ← dns_NewName (domain +:+ ".");
  dns_Build probe_header [{| q_Name := name; q_Type := TypeA; q_Class := ClassINET |}] [].

(** [answer] is the first packet read, if any before the deadline. *)
Definition Probe (domain : string) (dial write : result unit) (answer : option string) : bool :=
  match probe_query domain, dial, write, answer with
  | Some query, Ok _, Ok _, Some p => accept_reply query p
  | _, _, _, _ => false
  end.
End server.
