(* ===== verification/DnsZone.v ===== *)
(** * DnsZone: the zone internal/dnsserve serves

    What a listener is to say of a name is stated on the directory alone
    ([zone_says]); [respond] is shown to say exactly that.  Then the discipline of
    the packets: whose query a reply answers, and what becomes of a query that is
    proxied. *)
From stdpp Require Import base tactics option list strings gmap.
From Stdlib Require Import Ascii ZArith Lia.
From S2P Require Import Prelude GoStrings GoNum GoNet GoBase64 Keys Directory DnsName Validate Toy Hosts DnsServe.
Open Scope Z_scope.

(** ** The zone *)

Section zone.
Context `{UnicodeTables}.

(** The name of a node, and the reverse name of an address. *)
Definition host_name (domain : string) (n : Node) : string :=
  strings_ToLower (node_Name n) +:+ "." +:+ domain.

Definition reverse_name (a : Z) : string :=
  strconv_FormatUint (octet a 0) +:+ "." +:+ strconv_FormatUint (octet a 8) +:+ "." +:+
  strconv_FormatUint (octet a 16) +:+ "." +:+ strconv_FormatUint (octet a 24) +:+ arpa_suffix.

Definition below (domain name : string) : Prop := exists l, name = l +:+ "." +:+ domain.

Definition is_addr (a : Z) : Prop := 0 <= a < 2 ^ 32.

(** The reverse names of the network. *)
Definition reverse_of_net (dir : Directory) (name : string) : Prop :=
  exists a, is_addr a /\ name = reverse_name a /\ in_network dir a = true.

Inductive verdict :=
  | VAddress (a : Z)     (* the name has this address *)
  | VName (s : string)   (* the address has this name *)
  | VEmpty               (* the name exists, without such a record *)
  | VNoName              (* the name does not exist *)
  | VForward.            (* the name is not the zone's *)

Definition zone_says (dir : Directory) (q : Question) (v : verdict) : Prop :=
  let name := query_name q in
  let domain := dir_Domain dir in
  match v with
  | VAddress a =>
      q_Type q = TypeA /\ is_addr a /\
      exists n, n ∈ dir_Nodes dir /\ name = host_name domain n /\ node_TunnelIP n = ipv4_String a
  | VName s =>
      q_Type q = TypePTR /\
      exists n a, n ∈ dir_Nodes dir /\ is_addr a /\ name = reverse_name a /\ node_TunnelIP n = ipv4_String a /\
        s = host_name domain n +:+ "."
  | VEmpty =>
      name = domain \/
      (q_Type q <> TypeA /\ exists n, n ∈ dir_Nodes dir /\ name = host_name domain n) \/
      (q_Type q <> TypePTR /\ reverse_of_net dir name)
  | VNoName =>
      (below domain name /\ forall n, n ∈ dir_Nodes dir -> name <> host_name domain n) \/
      (q_Type q = TypePTR /\ exists a, is_addr a /\ name = reverse_name a /\ in_network dir a = true /\
         forall n, n ∈ dir_Nodes dir -> node_TunnelIP n <> ipv4_String a)
  | VForward => name <> domain /\ ~ below domain name /\ ~ reverse_of_net dir name
  end.

(** The domain is neither under the reverse tree nor above it. *)
Definition off_arpa (domain : string) : Prop :=
  strings_HasSuffix ("." +:+ domain) arpa_suffix = false /\ strings_HasSuffix arpa_suffix ("." +:+ domain) = false.
End zone.

Section say.
Context `{DnsMessage} `{UnicodeTables}.

(** The packet that carries a verdict. *)
Definition say (hdr : Header) (q : Question) (v : verdict) : option string * bool :=
  match v with
  | VAddress a => (buildReply hdr (Some q) RCodeSuccess [answer_resource (q_Name q) TypeA (AResource a)], false)
  | VName s => (buildReply hdr (Some q) RCodeSuccess [answer_resource (q_Name q) TypePTR (PTRResource s)], false)
  | VEmpty => (buildReply hdr (Some q) RCodeSuccess [], false)
  | VNoName => (buildReply hdr (Some q) RCodeNameError [], false)
  | VForward => (None, true)
  end.
End say.

(** ** Reverse names *)

Lemma octet_lacks_dot a i : lacks "." (strconv_FormatUint (octet a i)) = true.
Proof.
  unfold lacks. eapply string_forallb_mono; [|apply FormatUint_digits, octet_range].
  intros c Hc. destruct (Ascii.eqb_spec c "."); [by subst|done].
Qed.

Lemma dot_app s : "." +:+ s = String "." s.
Proof. reflexivity. Qed.

Lemma Split_four a b c d : lacks "." a = true -> lacks "." b = true -> lacks "." c = true -> lacks "." d = true ->
  strings_Split "." (a +:+ "." +:+ b +:+ "." +:+ c +:+ "." +:+ d) = [a; b; c; d].
Proof.
  intros Ha Hb Hc Hd. rewrite !dot_app, Split_app by done. rewrite Split_app by done. rewrite Split_app by done.
  by rewrite Split_lacks.
Qed.

Lemma reverseIPv4_spec name a :
  strings_HasSuffix name arpa_suffix = true -> reverseIPv4 name = Some a <-> is_addr a /\ name = reverse_name a.
Proof.
  intros (r & ->)%HasSuffix_inv. unfold reverseIPv4, reverse_name. cbv zeta. rewrite TrimSuffix_app.
  pose proof (Split_each "." r) as He. pose proof (Join_Split "." r) as Hj. split.
  - destruct (strings_Split "." r) as [|p0 [|p1 [|p2 [|p3 [|]]]]]; try done.
    intros [Ha E]%parse_is4_canonical. split; [done|]. apply (f_equal (strings_Split ".")) in E. unfold ipv4_String in E.
    rewrite !Forall_cons in He. destruct He as (H0 & H1 & H2 & H3 & _). rewrite !Split_four in E by (done || apply octet_lacks_dot).
    injection E as -> -> -> ->. rewrite <- Hj. cbn [strings_Join]. by rewrite <- !string_app_assoc.
  - intros [Ha E]. rewrite !string_app_assoc in E. apply app_inj_r in E. rewrite <- !string_app_assoc in E.
    rewrite E, Split_four by apply octet_lacks_dot. by apply parse_is4_String.
Qed.

Lemma reverse_suffix a : strings_HasSuffix (reverse_name a) arpa_suffix = true.
Proof. unfold reverse_name. rewrite !string_app_assoc. apply HasSuffix_app. Qed.

Lemma reverse_name_inj a b : is_addr a -> is_addr b -> reverse_name a = reverse_name b -> a = b.
Proof.
  intros Ha Hb E. pose proof (proj2 (reverseIPv4_spec _ a (reverse_suffix a)) (conj Ha eq_refl)) as Hx.
  rewrite E in Hx. apply (reverseIPv4_spec _ _ (reverse_suffix b)) in Hx as [_ Hx].
  pose proof (proj2 (reverseIPv4_spec _ b (reverse_suffix b)) (conj Hb eq_refl)) as Hy.
  rewrite Hx in Hy. rewrite (proj2 (reverseIPv4_spec _ a (reverse_suffix a)) (conj Ha eq_refl)) in Hy. congruence.
Qed.

Lemma ipv4_String_inj a b : is_addr a -> is_addr b -> ipv4_String a = ipv4_String b -> a = b.
Proof. intros Ha Hb E. apply parse_is4_String in Ha, Hb. rewrite E in Ha. congruence. Qed.

Lemma below_not_reverse domain name :
  off_arpa domain -> below domain name -> strings_HasSuffix name arpa_suffix = false.
Proof.
  intros [H1 H2] [l ->]. destruct (strings_HasSuffix (l +:+ "." +:+ domain) arpa_suffix) eqn:E; [|done].
  apply HasSuffix_inv in E as (r & E). apply suffix_of_one in E as [E|E]; congruence.
Qed.

Lemma domain_not_reverse domain : off_arpa domain -> strings_HasSuffix domain arpa_suffix = false.
Proof.
  intros [H1 _]. destruct (strings_HasSuffix domain arpa_suffix) eqn:E; [|done]. apply HasSuffix_inv in E as (r & ->).
  rewrite string_app_assoc, HasSuffix_app in H1. done.
Qed.

(** ** The listener says what the zone says *)

Section served.
Context `{CryptoLib} `{DnsMessage} `{UnicodeTables} `{!DnsMessageLaws}.
Context (dir : Directory) (Hvalid : ValidDirectory dir) (Hdomain : dir_Domain dir <> "")
  (Harpa : off_arpa (dir_Domain dir))
  (Hfit : Forall (fun n => len (host_name (dir_Domain dir) n) < 255) (dir_Nodes dir)).

Lemma node_label n : n ∈ dir_Nodes dir ->
  string_forallb is_ascii (node_Name n) = true /\ lacks "." (strings_ToLower (node_Name n)) = true.
Proof.
  intros Hn. destruct Hvalid as (_ & prefix & _ & _ & [_ _ _ _ Hl]). destruct (Hl Hdomain) as [Hv _].
  rewrite Forall_forall in Hv. specialize (Hv n Hn). split; [by apply valid_label_ascii|].
  unfold lacks. eapply string_forallb_mono; [|apply ToLower_label, Hv]. by intros [[] [] [] [] [] [] [] []].
Qed.

Lemma node_addr n : n ∈ dir_Nodes dir ->
  exists a, is_addr a /\ node_TunnelIP n = ipv4_String a /\ in_network dir a = true.
Proof.
  intros Hn. destruct Hvalid as (_ & prefix & Hp & _ & [He _ _ _ _]). rewrite Forall_forall in He.
  destruct (vn_ip _ _ (He n Hn)) as (a & Ha & Hc). exists a. apply parse_is4_canonical in Ha as [Ha ->].
  split; [done|]. split; [done|]. unfold in_network. by rewrite Hp.
Qed.

Lemma same_name n m : n ∈ dir_Nodes dir -> m ∈ dir_Nodes dir ->
  strings_ToLower (node_Name n) = strings_ToLower (node_Name m) -> n = m.
Proof.
  intros Hn Hm E. destruct Hvalid as (_ & prefix & _ & _ & [_ _ _ _ Hl]). destruct (Hl Hdomain) as [_ Hd].
  by eapply (NoDup_fmap_inj (fun n => strings_ToLower (node_Name n))).
Qed.

Lemma same_addr n m : n ∈ dir_Nodes dir -> m ∈ dir_Nodes dir -> node_TunnelIP n = node_TunnelIP m -> n = m.
Proof. intros Hn Hm E. destruct Hvalid as (_ & prefix & _ & _ & [_ _ _ Hi _]). by eapply (NoDup_fmap_inj node_TunnelIP). Qed.

Lemma host_name_inj n m : host_name (dir_Domain dir) n = host_name (dir_Domain dir) m ->
  strings_ToLower (node_Name n) = strings_ToLower (node_Name m).
Proof. by intros E%app_inj_r. Qed.

Lemma below_not_domain name : below (dir_Domain dir) name -> name <> dir_Domain dir.
Proof.
  intros [l ->] E. apply (f_equal String.length) in E. rewrite !string_length_app in E. simpl in E. lia.
Qed.

(** *** The lookups *)

Definition plain_query (q : Question) : Prop := string_forallb is_ascii (q_Name q) = true.

Lemma query_name_lower q : plain_query q ->
  string_forallb is_ascii (query_name q) = true /\ strings_ToLower (query_name q) = query_name q.
Proof.
  intros Hq. unfold query_name. assert (Ht : string_forallb is_ascii (strings_TrimSuffix (q_Name q) ".") = true).
  { unfold plain_query, strings_TrimSuffix in *. destruct (strings_CutSuffix "." (q_Name q)) as [r|] eqn:E; [|done].
    apply CutSuffix_Some in E. rewrite E, forallb_app in Hq. by apply andb_true_iff in Hq as [-> _]. }
  rewrite (ToLower_ascii (strings_TrimSuffix _ _)) by done.
  assert (Hm : string_forallb is_ascii (string_map to_lower_byte (strings_TrimSuffix (q_Name q) ".")) = true) by by rewrite string_map_ascii.
  split; [done|]. by rewrite ToLower_ascii, string_map_idem.
Qed.

Lemma nodeByLabel_spec label : string_forallb is_ascii label = true -> strings_ToLower label = label ->
  match nodeByLabel dir label with
  | Some n => n ∈ dir_Nodes dir /\ strings_ToLower (node_Name n) = label
  | None => forall n, n ∈ dir_Nodes dir -> strings_ToLower (node_Name n) <> label
  end.
Proof.
  intros Ha Hl. unfold nodeByLabel. assert (Hall : forall n, n ∈ dir_Nodes dir -> string_forallb is_ascii (node_Name n) = true)
    by (intros n Hn; by apply node_label).
  clear Hfit Hvalid. induction (dir_Nodes dir) as [|m ms IH]; [by intros n ?%not_elem_of_nil|]. cbn [node_by_label].
  rewrite EqualFold_ascii, Hl by (try done; apply Hall, list_elem_of_here).
  destruct (String.eqb_spec (strings_ToLower (node_Name m)) label) as [E|E]; [split; [apply list_elem_of_here|done]|].
  specialize (IH (fun n Hn => Hall n (list_elem_of_further _ _ _ Hn))). destruct (node_by_label ms label).
  - destruct IH. split; [by apply list_elem_of_further|done].
  - intros n [->|Hn]%elem_of_cons; [done|by apply IH].
Qed.

Lemma node_by_ip_spec ip :
  match node_by_ip (dir_Nodes dir) ip with
  | Some n => n ∈ dir_Nodes dir /\ node_TunnelIP n = ip
  | None => forall n, n ∈ dir_Nodes dir -> node_TunnelIP n <> ip
  end.
Proof.
  clear Hfit. induction (dir_Nodes dir) as [|m ms IH]; [by intros n ?%not_elem_of_nil|]. cbn [node_by_ip].
  destruct (String.eqb_spec (node_TunnelIP m) ip) as [E|E]; cbn [negb]; [split; [apply list_elem_of_here|done]|].
  destruct (node_by_ip ms ip).
  - destruct IH. split; [by apply list_elem_of_further|done].
  - intros n [->|Hn]%elem_of_cons; [done|by apply IH].
Qed.

Lemma respondName_says hdr q : plain_query q -> strings_HasSuffix (query_name q) arpa_suffix = false ->
  exists v, zone_says dir q v /\ respondName hdr q (query_name q) (dir_Domain dir) dir = say hdr q v.
Proof.
  intros Hq Hna. destruct (query_name_lower q Hq) as [Ha Hl]. unfold respondName.
  destruct (String.eqb_spec (query_name q) (dir_Domain dir)) as [E|E]; [by exists VEmpty; split; [left|]|].
  destruct (strings_HasSuffix (query_name q) ("." +:+ dir_Domain dir)) eqn:Es.
  2: { exists VForward. split; [|done]. split; [done|]. split.
    - intros [l El]. rewrite El, HasSuffix_app in Es. done.
    - intros (a & _ & Ea & _). rewrite Ea, reverse_suffix in Hna. done. }
  apply HasSuffix_inv in Es as (label & El). cbv zeta.
  assert (strings_TrimSuffix (query_name q) ("." +:+ dir_Domain dir) = label) as -> by (rewrite El; apply TrimSuffix_app).
  assert (Hb : below (dir_Domain dir) (query_name q)) by by exists label.
  assert (Hhost : forall n, query_name q = host_name (dir_Domain dir) n <-> strings_ToLower (node_Name n) = label).
  { intros n. unfold host_name. rewrite El. split; [by intros E'%app_inj_r|by intros ->]. }
  destruct (contains_byte "." label) eqn:Ed.
  - exists VNoName. split; [|done]. left. split; [done|]. intros n Hn E'%Hhost. rewrite lacks_contains in Ed.
    destruct (node_label n Hn) as [_ Hlk]. rewrite E' in Hlk. by rewrite Hlk in Ed.
  - assert (Hla : string_forallb is_ascii label = true).
    { rewrite El, forallb_app in Ha. by apply andb_true_iff in Ha as [-> _]. }
    assert (Hll : strings_ToLower label = label).
    { rewrite ToLower_ascii in Hl |- * by done. rewrite El, !string_map_app in Hl.
      assert (Hlen : String.length (string_map to_lower_byte label) = String.length label) by apply string_map_length.
      apply (f_equal (string_take (String.length label))) in Hl. rewrite string_take_app in Hl. rewrite <- Hlen in Hl at 1.
      by rewrite string_take_app in Hl. }
    pose proof (nodeByLabel_spec label Hla Hll) as Hs. destruct (nodeByLabel dir label) as [n|].
    + destruct Hs as [Hn Hname]. destruct (node_addr n Hn) as (a & Haddr & Hip & _).
      destruct (Z.eqb_spec (q_Type q) TypeA) as [Et|Et]; cbn [negb].
      * exists (VAddress a). split.
        -- split; [done|]. split; [done|]. exists n. split; [done|]. by rewrite Hhost.
        -- by rewrite Hip, (parse_is4_String _ Haddr).
      * exists VEmpty. split; [|done]. right. left. split; [done|]. exists n. by rewrite Hhost.
    + exists VNoName. split; [|done]. left. split; [done|]. intros n Hn E'%Hhost. by apply (Hs n).
Qed.

Lemma respondPTR_says hdr q : strings_HasSuffix (query_name q) arpa_suffix = true ->
  exists v, zone_says dir q v /\ respondPTR hdr q (query_name q) (dir_Domain dir) dir = say hdr q v.
Proof.
  intros Hs. unfold respondPTR.
  assert (Hnb : query_name q <> dir_Domain dir /\ ~ below (dir_Domain dir) (query_name q)).
  { split; [intros E; rewrite E, domain_not_reverse in Hs by done; done|].
    intros Hb. rewrite (below_not_reverse (dir_Domain dir)) in Hs; done. }
  destruct (reverseIPv4 (query_name q)) as [a|] eqn:Er.
  2: { exists VForward. split; [|done]. destruct Hnb. split; [done|]. split; [done|]. intros (a & Ha & E & _).
    rewrite (proj2 (reverseIPv4_spec _ a Hs)) in Er; done. }
  apply (reverseIPv4_spec _ _ Hs) in Er as [Ha E]. destruct (in_network dir a) eqn:Ein; cbn [negb].
  2: { exists VForward. split; [|done]. destruct Hnb. split; [done|]. split; [done|]. intros (b & Hb & E' & Hin).
    rewrite E in E'. apply reverse_name_inj in E' as ->; [|done|done]. congruence. }
  destruct (Z.eqb_spec (q_Type q) TypePTR) as [Et|Et]; cbn [negb].
  2: { exists VEmpty. split; [|done]. right. right. split; [done|]. by exists a. }
  pose proof (node_by_ip_spec (ipv4_String a)) as Hn. destruct (node_by_ip (dir_Nodes dir) (ipv4_String a)) as [n|].
  - destruct Hn as [Hn Hip]. rewrite NewName_short.
    + exists (VName (host_name (dir_Domain dir) n +:+ ".")). split; [by split; [|exists n, a]|].
      unfold host_name. by rewrite <- !string_app_assoc.
    + rewrite Forall_forall in Hfit. specialize (Hfit n Hn). unfold host_name, len in *. rewrite !string_length_app in *. simpl in *. lia.
  - exists VNoName. split; [|done]. right. split; [done|]. by exists a.
Qed.

(** At most one thing is said of a question. *)
Lemma zone_says_one q v v' : zone_says dir q v -> zone_says dir q v' -> v = v'.
Proof.
  assert (Hhb : forall n, below (dir_Domain dir) (host_name (dir_Domain dir) n)) by (intros n; by eexists).
  assert (Hbd : ~ below (dir_Domain dir) (dir_Domain dir)) by (intros Hb; by apply below_not_domain in Hb).
  assert (Hbr : forall a, ~ below (dir_Domain dir) (reverse_name a)).
  { intros a Hb%below_not_reverse; [|done]. by rewrite reverse_suffix in Hb. }
  assert (Hdr : forall a, dir_Domain dir <> reverse_name a).
  { intros a E. pose proof (domain_not_reverse _ Harpa) as Hs. by rewrite E, reverse_suffix in Hs. }
  assert (Hrn : forall a, is_addr a -> in_network dir a = true -> reverse_of_net dir (reverse_name a)) by (intros a; by exists a).
  assert (Hnr : forall n a, n ∈ dir_Nodes dir -> is_addr a -> node_TunnelIP n = ipv4_String a -> in_network dir a = true).
  { intros n a Hn Ha E. destruct (node_addr n Hn) as (b & Hb & E' & Hin). rewrite E in E'. by apply ipv4_String_inj in E' as ->. }
  assert (Hone : forall n m a b, n ∈ dir_Nodes dir -> m ∈ dir_Nodes dir -> is_addr a -> is_addr b ->
    host_name (dir_Domain dir) n = host_name (dir_Domain dir) m -> node_TunnelIP n = ipv4_String a ->
    node_TunnelIP m = ipv4_String b -> a = b).
  { intros n m a b Hn Hm Ha Hb E Ea Eb. apply host_name_inj, same_name in E as ->; [|done|done]. rewrite Ea in Eb. by apply ipv4_String_inj in Eb. }
  assert (Hsame : forall n m a, n ∈ dir_Nodes dir -> m ∈ dir_Nodes dir -> node_TunnelIP n = ipv4_String a ->
    node_TunnelIP m = ipv4_String a -> n = m).
  { intros n m a Hn Hm E1 E2. apply same_addr; [done|done|congruence]. }
  assert (Hri := reverse_name_inj).
  assert (Hhd : forall n, host_name (dir_Domain dir) n <> dir_Domain dir) by (intros n; by apply below_not_domain).
  assert (Hhr : forall n a, host_name (dir_Domain dir) n <> reverse_name a).
  { intros n a E. apply (Hbr a). by rewrite <- E. }
  unfold zone_says. cbv zeta. generalize (query_name q) as nm, (q_Type q) as t. intros nm t.
  assert (Hta : TypeA <> TypePTR) by done.
  destruct v, v'; try done; intros Hv Hv'; unfold reverse_of_net in *.
  all: destruct_and?; destruct_or?; destruct_and?; repeat match goal with H : exists _, _ |- _ => destruct H as (? & H) end; destruct_and?.
  all: subst; try done; try congruence.
  all: try (exfalso; by eauto).
  all: try (f_equal; by eauto).
  all: repeat match goal with
    | E : reverse_name _ = reverse_name _ |- _ => apply Hri in E; [subst|done|done]
    end; try done.
  all: try (exfalso; by eauto).
  all: try (match goal with |- VName (host_name _ ?n +:+ _) = VName (host_name _ ?m +:+ _) =>
         assert (n = m) as -> by (by eapply Hsame); done end).
  all: try (exfalso; match goal with
    | E : dir_Domain _ = host_name _ ?n |- _ => apply (Hhd n); congruence
    | E : host_name _ ?n = dir_Domain _ |- _ => apply (Hhd n); congruence
    | E : host_name _ ?n = reverse_name ?a |- _ => apply (Hhr n a); congruence
    | E : reverse_name ?a = host_name _ ?n |- _ => apply (Hhr n a); congruence
    | E : dir_Domain _ = reverse_name ?a |- _ => apply (Hdr a); congruence
    | E : reverse_name ?a = dir_Domain _ |- _ => apply (Hdr a); congruence
    | Hb : below _ (reverse_name ?a) |- _ => by apply (Hbr a)
    end).
  all: exfalso; match goal with
    | Hn : forall n, n ∈ _ -> _ <> _, Hx : ?x ∈ dir_Nodes dir |- _ => by apply (Hn x Hx)
    end.
Qed.

Lemma respond_zone query hdr q :
  dns_Start query = Some hdr -> h_Response hdr = false -> h_OpCode hdr = 0 ->
  dns_AllQuestions query = Some [q] -> q_Class q = ClassINET -> plain_query q ->
  exists v, zone_says dir q v /\ respond query (dir_Domain dir) dir = say hdr q v /\
    forall v', zone_says dir q v' -> v' = v.
Proof.
  intros Hs Hr Ho Hq Hc Hp. unfold respond. rewrite Hs, Hr, Ho. cbn [negb Z.eqb]. rewrite Hq, Hc. cbv zeta.
  change (negb (ClassINET =? ClassINET)) with false. cbv iota.
  assert (exists v, zone_says dir q v /\
    (if strings_HasSuffix (query_name q) arpa_suffix
     then respondPTR hdr q (query_name q) (dir_Domain dir) dir
     else respondName hdr q (query_name q) (dir_Domain dir) dir) = say hdr q v) as (v & Hv & E).
  { destruct (strings_HasSuffix (query_name q) arpa_suffix) eqn:Es; [by apply respondPTR_says|by apply respondName_says]. }
  exists v. split; [done|]. split; [done|]. intros v' Hv'. by eapply zone_says_one.
Qed.
End served.

(** ** Packets *)

Section packets.
Context `{DnsMessage} `{UnicodeTables} `{!DnsMessageLaws}.

(** [reply] answers [query]: it is a response under the query's id, to a message
    that is itself no response, and repeats its question (or none, when it could
    not be taken at face value). *)
Definition answers_query (query reply : string) : Prop :=
  exists hdr rcode qs, dns_Start query = Some hdr /\ h_Response hdr = false /\
    dns_Start reply = Some (reply_header hdr rcode) /\ dns_AllQuestions reply = Some qs /\
    (qs = [] \/ dns_AllQuestions query = Some qs).

Lemma buildReply_answers query hdr q rcode answers reply :
  dns_Start query = Some hdr -> h_Response hdr = false ->
  (q = None \/ dns_AllQuestions query = Some (option_list q)) ->
  buildReply hdr q rcode answers = Some reply -> answers_query query reply.
Proof.
  intros Hs Hr Hq (Hh & Hqs & _)%Build_parses. exists hdr, rcode, (option_list q). split_and!; try done.
  destruct Hq as [->|Hq]; [by left|by right].
Qed.

Lemma respond_reply query domain dir reply fwd :
  respond query domain dir = (Some reply, fwd) -> fwd = false /\ answers_query query reply.
Proof.
  unfold respond. destruct (dns_Start query) as [hdr|] eqn:Es; [|done]. destruct (h_Response hdr) eqn:Er; [done|].
  destruct (negb (h_OpCode hdr =? 0)); [done|]. cbv zeta.
  assert (Hform : forall b f, (b, f) = (Some reply, fwd) -> f = false -> b = buildReply hdr None RCodeFormatError [] ->
    fwd = false /\ answers_query query reply).
  { intros b f [= -> ->] -> E. split; [done|]. eapply buildReply_answers; [done|done|by left|exact (eq_sym E)]. }
  destruct (dns_AllQuestions query) as [[|q [|]]|] eqn:Eq; try (intros E; by eapply Hform).
  destruct (negb (q_Class q =? ClassINET)); [done|].
  assert (Hq : forall rcode rs f, (buildReply hdr (Some q) rcode rs, f) = (Some reply, fwd) -> f = false ->
    fwd = false /\ answers_query query reply).
  { intros rcode rs f [= E ->] ->. split; [done|]. eapply (buildReply_answers _ _ (Some q)); [done|done|by right|done]. }
  destruct (strings_HasSuffix (query_name q) arpa_suffix); [unfold respondPTR|unfold respondName]; cbv zeta;
    repeat case_match; try done; intros E; by eapply Hq.
Qed.
End packets.

(** *** Raw bytes *)

Lemma set_byte_length s : forall i z, String.length (set_byte s i z) = String.length s.
Proof. induction s as [|c s IH]; intros [|i] z; [done..|]. cbn. by rewrite IH. Qed.

Lemma set_byte_get s : forall i j z, i <> j -> String.get j (set_byte s i z) = String.get j s.
Proof. induction s as [|c s IH]; intros [|i] [|j] z Hij; try done. cbn. apply IH. congruence. Qed.

Lemma set_byte_at s : forall i z, 0 <= z < 256 -> (i < String.length s)%nat -> byte_at (set_byte s i z) i = z.
Proof.
  unfold byte_at. induction s as [|c s IH]; intros [|i] z Hz Hi; simpl in Hi; try lia; cbn.
  - by apply code_chr.
  - apply IH; [done|lia].
Qed.

Lemma byte_at_range s i : 0 <= byte_at s i < 256.
Proof. unfold byte_at. destruct (String.get i s) as [c|]; [apply code_range|lia]. Qed.

Lemma byte_at_get s t i : String.get i s = String.get i t -> byte_at s i = byte_at t i.
Proof. unfold byte_at. by intros ->. Qed.

(** A fact about bytes, checked on all of them. *)
Lemma all_bytes (P : Z -> Prop) : (forall c, P (code c)) -> forall b, 0 <= b < 256 -> P b.
Proof. intros HP b Hb. rewrite <- (code_chr b Hb). apply HP. Qed.

Definition servfail_2 (b : Z) : Z := and_not (Z.lor b qrBit) 4.
Definition servfail_3 (b : Z) : Z := Z.lor (Z.lor (and_not b 15) 128) 2.

Lemma byte_facts b : 0 <= b < 256 ->
  0 <= Z.lor b qrBit < 256 /\ 0 <= servfail_2 b < 256 /\ 0 <= servfail_3 b < 256 /\
  servfail_3 b = Z.lor (Z.land b 112) 130 /\
  Forall (fun k => Z.testbit (servfail_2 b) k = if k =? 7 then true else if k =? 2 then false else Z.testbit b k)
    [0; 1; 2; 3; 4; 5; 6; 7].
Proof.
  revert b. apply all_bytes. intros c.
  assert (Hb : (let b := code c in
    (Z.lor b qrBit <? 256) && (0 <=? Z.lor b qrBit) && (servfail_2 b <? 256) && (0 <=? servfail_2 b) &&
    (servfail_3 b <? 256) && (0 <=? servfail_3 b) && (servfail_3 b =? Z.lor (Z.land b 112) 130) &&
    forallb (fun k => Bool.eqb (Z.testbit (servfail_2 b) k) (if k =? 7 then true else if k =? 2 then false else Z.testbit b k))
      [0; 1; 2; 3; 4; 5; 6; 7]) = true) by (by destruct c as [[] [] [] [] [] [] [] []]).
  cbv zeta in Hb. bool_solve. split_and!; try lia. apply Forall_forall. intros k Hk. rewrite list_elem_of_In in Hk.
  match goal with H : forallb _ _ = true |- _ => rewrite forallb_forall in H; specialize (H k Hk) end. by apply Bool.eqb_prop.
Qed.

(** The bits a refused query comes back with. *)
Definition servfail_of (query reply : string) : Prop :=
  String.length reply = String.length query /\
  (forall i, i <> 2%nat -> i <> 3%nat -> String.get i reply = String.get i query) /\
  (forall k, 0 <= k < 8 -> Z.testbit (byte_at reply 2) k =
     if k =? 7 then true else if k =? 2 then false else Z.testbit (byte_at query 2) k) /\
  byte_at reply 3 = Z.lor (Z.land (byte_at query 3) 112) 130.

Lemma servfailFor_spec query : headerLen <= len query ->
  exists reply, servfailFor query = Some reply /\ servfail_of query reply.
Proof.
  intros Hl. unfold servfailFor. rewrite (proj2 (Z.ltb_ge _ _)) by done. cbv zeta. eexists. split; [done|].
  assert (Hn : (3 < String.length query)%nat) by (unfold headerLen, len in Hl; lia).
  destruct (byte_facts (byte_at query 2) (byte_at_range query 2)) as (Hq & H2 & _ & _ & Hbits).
  destruct (byte_facts (byte_at query 3) (byte_at_range query 3)) as (_ & _ & H3 & E3 & _).
  rewrite (set_byte_at query 2) by (lia || done). change (and_not (Z.lor (byte_at query 2) qrBit) 4) with (servfail_2 (byte_at query 2)).
  rewrite (byte_at_get (set_byte (set_byte query 2 _) 2 _) query 3) by (rewrite !set_byte_get; done).
  change (Z.lor (Z.lor (and_not (byte_at query 3) 15) 128) 2) with (servfail_3 (byte_at query 3)).
  split; [by rewrite !set_byte_length|]. split; [|split].
  - intros i Hi2 Hi3. by rewrite !set_byte_get by congruence.
  - erewrite (byte_at_get _ _ 2) by (apply set_byte_get; done). rewrite set_byte_at by (rewrite ?set_byte_length; lia || done).
    intros k Hk. rewrite Forall_forall in Hbits. apply Hbits. rewrite list_elem_of_In. cbn. lia.
  - rewrite set_byte_at; [done|done|by rewrite !set_byte_length].
Qed.

(** ** Proxied queries *)

Lemma accept_reply_true query packet : accept_reply query packet = true <->
  headerLen <= len packet /\ byte_at packet 0 = byte_at query 0 /\ byte_at packet 1 = byte_at query 1 /\
  Z.testbit (byte_at packet 2) 7 = true.
Proof.
  unfold accept_reply. rewrite negb_true_iff, !orb_false_iff, Z.ltb_ge, !negb_false_iff, !Z.eqb_eq, Z.eqb_neq.
  assert (Hbit : forall b, 0 <= b < 256 -> Z.land b qrBit <> 0 <-> Z.testbit b 7 = true).
  { apply all_bytes. intros [[] [] [] [] [] [] [] []]; cbn; split; intros; (done || congruence). }
  rewrite Hbit by apply byte_at_range. naive_solver.
Qed.

Lemma exchange_accepts dial write query packets reply :
  exchange dial write query packets = Some reply -> reply ∈ packets /\ accept_reply query reply = true.
Proof.
  unfold exchange. destruct dial, write; try done. induction packets as [|p ps IH]; [done|]. cbn [exchange_loop].
  destruct (accept_reply query p) eqn:E; [intros [= <-]; split; [apply list_elem_of_here|done]|].
  intros [? ?]%IH. split; [by apply list_elem_of_further|done].
Qed.

(** What a client gets back for a query that was proxied. *)
Definition proxied_reply (query reply : string) (packets : list string) : Prop :=
  headerLen <= len reply /\ byte_at reply 0 = byte_at query 0 /\ byte_at reply 1 = byte_at query 1 /\
  Z.testbit (byte_at reply 2) 7 = true /\ (reply ∈ packets \/ servfail_of query reply).

Lemma forward_reply_total dial write query packets : headerLen <= len query ->
  exists reply, forward_reply query (exchange dial write query packets) = Some reply /\ proxied_reply query reply packets.
Proof.
  intros Hl. unfold forward_reply. destruct (exchange dial write query packets) as [reply|] eqn:E.
  - apply exchange_accepts in E as [Hin Ha%accept_reply_true]. exists reply. split; [done|]. split_and!; try naive_solver.
  - destruct (servfailFor_spec query Hl) as (reply & -> & Hs). exists reply. split; [done|].
    destruct Hs as (Hlen & Hget & Hbits & H3). split_and!; try (apply byte_at_get, Hget; done).
    + unfold len in *. lia.
    + by rewrite Hbits.
    + right. by split_and!.
Qed.

Section server.
Context `{DnsMessage} `{UnicodeTables}.

(** The runs of a listener: the slots it counts, and the exchanges under way; the
    directory may be another one for every packet. *)
Inductive server_run (domain : string) : Z -> list (Z * string) -> Prop :=
  | run_start : server_run domain 0 []
  | run_packet held open client query source :
      server_run domain held open ->
      server_run domain (fst (server_step domain source held (Packet client query)))
        (open ++ omap (fun a => match a with StartForward c q => Some (c, q) | _ => None end)
                   (snd (server_step domain source held (Packet client query))))
  | run_done held before after client query source upstream :
      server_run domain held (before ++ (client, query) :: after) ->
      server_run domain (fst (server_step domain source held (Exchanged client query upstream))) (before ++ after).

Lemma server_run_slots domain held open : server_run domain held open -> held = Z.of_nat (length open) /\ held <= maxForwards.
Proof.
  induction 1 as [|held open client query source _ [-> IH]|held before after client query source upstream _ [-> IH]].
  - done.
  - unfold server_step. destruct (respond query domain source) as [[reply|] []].
    1, 3: destruct (Z.ltb_spec (Z.of_nat (length open)) maxForwards).
    all: cbn; rewrite ?app_nil_r, ?length_app; cbn; lia.
  - cbn. rewrite !length_app in *. cbn in *. lia.
Qed.
End server.

(** ** Properties *)

Section properties.
Context `{CryptoLib} `{DnsMessage} `{UnicodeTables} `{!DnsMessageLaws}.


(** No query is left hanging or bounced: a reply answers a query under its id
    and question and is never sent for a response or together with a proxied
    copy; an exchange with the upstream ends in one packet for the client,
    whatever the socket does: a response under the query's id that came from the
    upstream, or the query turned into a SERVFAIL with nothing else changed; and
    never more than 256 exchanges are under way. *)
Theorem dns_queries_answered :
  (forall query domain dir reply fwd, respond query domain dir = (Some reply, fwd) ->
     fwd = false /\ answers_query query reply) /\
  (forall dial write query packets, headerLen <= len query ->
     exists reply, forward_reply query (exchange dial write query packets) = Some reply /\
       proxied_reply query reply packets) /\
  (forall domain held open, server_run domain held open -> held = Z.of_nat (length open) /\ held <= maxForwards).
Proof. split; [apply respond_reply|split; [apply forward_reply_total|apply server_run_slots]]. Qed.
End properties.

(** ** A codec for samples *)

Fixpoint pos_text (p : positive) : string :=
  match p with xH => "" | xO p => String "0" (pos_text p) | xI p => String "1" (pos_text p) end.

Fixpoint text_pos (s : string) : positive :=
  match s with
  | EmptyString => xH
  | String c s => if Ascii.eqb c "0" then xO (text_pos s) else xI (text_pos s)
  end.

Lemma text_pos_text p : text_pos (pos_text p) = p.
Proof. induction p as [p IH|p IH|]; cbn; by rewrite ?IH. Qed.

Definition header_tuple (h : Header) : Z * bool * Z * bool * bool * bool * Z :=
  (h_ID h, h_Response h, h_OpCode h, h_Authoritative h, h_RecursionDesired h, h_RecursionAvailable h, h_RCode h).
Definition question_tuple (q : Question) : string * Z * Z := (q_Name q, q_Type q, q_Class q).
Definition resource_tuple (r : Resource) : string * Z * Z * Z * (Z + string) :=
  (r_Name r, r_Type r, r_Class r, r_TTL r,
   match r_Body r with AResource a => inl a | PTRResource s => inr s end).

Definition tuple_header (t : Z * bool * Z * bool * bool * bool * Z) : Header :=
  let '(a, b, c, d, e, f, g) := t in
  {| h_ID := a; h_Response := b; h_OpCode := c; h_Authoritative := d; h_RecursionDesired := e;
     h_RecursionAvailable := f; h_RCode := g |}.
Definition tuple_question (t : string * Z * Z) : Question :=
  let '(a, b, c) := t in {| q_Name := a; q_Type := b; q_Class := c |}.
Definition tuple_resource (t : string * Z * Z * Z * (Z + string)) : Resource :=
  let '(a, b, c, d, e) := t in
  {| r_Name := a; r_Type := b; r_Class := c; r_TTL := d;
     r_Body := match e with inl z => AResource z | inr s => PTRResource s end |}.

Definition message_text (h : Header) (qs : list Question) (rs : list Resource) : string :=
  pos_text (encode (header_tuple h, question_tuple <$> qs, resource_tuple <$> rs)).

Definition text_message (s : string) : option (Header * list Question * list Resource) :=
  match (decode (text_pos s) : option ((Z * bool * Z * bool * bool * bool * Z) * list (string * Z * Z)
                                       * list (string * Z * Z * Z * (Z + string)))) with
  | Some (h, qs, rs) => Some (tuple_header h, tuple_question <$> qs, tuple_resource <$> rs)
  | None => None
  end.

Lemma text_message_text h qs rs : text_message (message_text h qs rs) = Some (h, qs, rs).
Proof.
  unfold text_message, message_text. rewrite text_pos_text, decode_encode. cbn.
  assert (Hq : tuple_question <$> (question_tuple <$> qs) = qs).
  { rewrite <- list_fmap_compose. induction qs as [|[] qs IH]; [done|]. rewrite fmap_cons, IH. done. }
  assert (Hr : tuple_resource <$> (resource_tuple <$> rs) = rs).
  { rewrite <- list_fmap_compose. induction rs as [|[? ? ? ? []] rs IH]; [done|rewrite fmap_cons, IH; done..]. }
  rewrite Hq, Hr. by destruct h.
Qed.

Definition toy_dns : DnsMessage := {|
  dns_Start s := '(h, _, _) ← text_message s; Some h;
  dns_AllQuestions s := '(_, qs, _) ← text_message s; Some qs;
  dns_AllAnswers s := '(_, _, rs) ← text_message s; Some rs;
  dns_NewName s := if len s <=? 255 then Some s else None;
  dns_Build h qs rs := Some (message_text h qs rs) |}.

Lemma toy_dns_laws : @DnsMessageLaws toy_dns.
Proof.
  split; cbn.
  - intros s n. by destruct (len s <=? 255); intros [= <-].
  - intros s Hs. by rewrite (proj2 (Z.leb_le _ _)).
  - intros h qs rs b [= <-]. by rewrite text_message_text.
Qed.

Section samples.
#[local] Existing Instances toy_crypto ascii_tables toy_dns toy_dns_laws.

Definition sample_header : Header :=
  {| h_ID := 77; h_Response := false; h_OpCode := 0; h_Authoritative := false;
     h_RecursionDesired := true; h_RecursionAvailable := false; h_RCode := 0 |}.
Definition sample_question : Question := {| q_Name := "BeTa.vpn."; q_Type := TypeA; q_Class := ClassINET |}.
Definition sample_query : string := message_text sample_header [sample_question] [].

(** The upstream cannot be reached: the query comes back as a SERVFAIL. *)
Lemma dns_queries_answered_witness :
  exists reply, forward_reply sample_query (exchange (Err (errors_New "unreachable")) (Ok tt) sample_query []) = Some reply /\
    len reply = len sample_query.
Proof.
  destruct dns_queries_answered as (_ & Hf & _).
  destruct (Hf (Err (errors_New "unreachable")) (Ok tt) sample_query []) as (reply & Hr & _).
  - vm_compute. discriminate.
  - exists reply. split; [exact Hr|]. assert (Hl : option_map len (Some reply) = Some (len sample_query)); [|by injection Hl].
    rewrite <- Hr. vm_compute. reflexivity.
Defined.
End samples.
