(* ===== verification/DnsListener.v ===== *)
(** * DnsListener: the life of the listener of internal/dnsserve

    [Start] leaves two kinds of goroutines behind: the one that reads packets and
    one per exchange with the upstream.  Their turns, and [Close], are the steps of
    a relation on what the listener holds and what it has said; the answers
    themselves are those of DnsServe.v and DnsZone.v. *)
From stdpp Require Import base tactics option list strings gmap relations.
From Stdlib Require Import Ascii ZArith Lia.
From S2P Require Import Prelude GoStrings GoNum GoNet Keys Directory Toy DnsServe DnsZone.
Open Scope Z_scope.

(** ** server.go *)

Definition defaultTimeout : Duration := 5 * Second.

(** The time one exchange may take. *)
Definition exchange_timeout (timeout : Duration) : Duration := if timeout <=? 0 then defaultTimeout else timeout.

(** The buffers packets are read into. *)
Definition query_buffer : nat := 1500.
Definition reply_buffer : nat := 4096.

(** [Close]: the socket is closed once. *)
Definition server_Close (closed : bool) (conn_close : result unit) : bool * result unit :=
  (true, if closed then Ok tt else conn_close).

(** A packet of a client. *)
Definition Asked : Type := Z * string.
Definition asked_eq_dec : forall a b : Asked, {a = b} + {a <> b} := fun a b => decide (a = b).

(** What the goroutines hold, and for every packet read what became of it. *)
Record Listener := {
  dl_running : bool;               (* [serve] has not returned *)
  dl_closed : bool;
  dl_held : Z;                     (* the slots taken of the semaphore *)
  dl_open : list Asked;            (* exchanges under way *)
  dl_received : list Asked;
  dl_sent : list (Asked * string);
  dl_unanswered : list Asked;      (* there was no reply to make *)
  dl_dropped : list Asked;         (* at the concurrency cap *)
  dl_lost : list Asked }.          (* the reply came after the close *)

Definition listening : Listener := {|
  dl_running := true; dl_closed := false; dl_held := 0; dl_open := []; dl_received := []; dl_sent := [];
  dl_unanswered := []; dl_dropped := []; dl_lost := [] |}.

Section listener.
Context `{DnsMessage} `{UnicodeTables}.

(** The turn of [serve] for one packet, under the directory of that moment. *)
Definition on_packet (domain : string) (dir : Directory) (s : Listener) (a : Asked) : Listener :=
  let '(held, actions) := server_step domain dir (dl_held s) (Packet a.1 a.2) in
  let capped := snd (respond a.2 domain dir) in
  {| dl_running := dl_running s; dl_closed := dl_closed s; dl_held := held;
     dl_open := dl_open s ++ (match actions with [StartForward _ _] => [a] | _ => [] end);
     dl_received := dl_received s ++ [a];
     dl_sent := dl_sent s ++ (match actions with [ReplyTo _ reply] => [(a, reply)] | _ => [] end);
     dl_unanswered := dl_unanswered s ++ (match actions with [] => if capped then [] else [a] | _ => [] end);
     dl_dropped := dl_dropped s ++ (match actions with [] => if capped then [a] else [] | _ => [] end);
     dl_lost := dl_lost s |}.

(** A read that fails ends [serve] only when the listener was closed. *)
Definition on_read_error (s : Listener) : Listener :=
  {| dl_running := dl_running s && negb (dl_closed s); dl_closed := dl_closed s; dl_held := dl_held s; dl_open := dl_open s;
     dl_received := dl_received s; dl_sent := dl_sent s; dl_unanswered := dl_unanswered s; dl_dropped := dl_dropped s;
     dl_lost := dl_lost s |}.

(** The end of one [forward]; [rest] are the other exchanges. *)
Definition on_exchanged (domain : string) (dir : Directory) (s : Listener) (a : Asked) (rest : list Asked) (upstream : option string) : Listener :=
  let '(held, actions) := server_step domain dir (dl_held s) (Exchanged a.1 a.2 upstream) in
  {| dl_running := dl_running s; dl_closed := dl_closed s; dl_held := held; dl_open := rest; dl_received := dl_received s;
     dl_sent := dl_sent s ++ (match actions with [ReplyTo _ reply] => if dl_closed s then [] else [(a, reply)] | _ => [] end);
     dl_unanswered := dl_unanswered s ++ (match actions with [] => [a] | _ => [] end);
     dl_dropped := dl_dropped s;
     dl_lost := dl_lost s ++ (match actions with [] => [] | _ => if dl_closed s then [a] else [] end) |}.

Definition on_close (s : Listener) : Listener :=
  {| dl_running := dl_running s; dl_closed := fst (server_Close (dl_closed s) (Ok tt)); dl_held := dl_held s; dl_open := dl_open s;
     dl_received := dl_received s; dl_sent := dl_sent s; dl_unanswered := dl_unanswered s; dl_dropped := dl_dropped s;
     dl_lost := dl_lost s |}.

(** The steps of a listener: the directory may be another one at each packet; a
    closed socket delivers nothing more; what an exchange gets is what its own
    socket receives. *)
Inductive listener_step (domain : string) : Listener -> Listener -> Prop :=
  | step_packet s client packet dir :
      dl_running s = true -> dl_closed s = false ->
      listener_step domain s (on_packet domain dir s (client, string_take query_buffer packet))
  | step_read_error s :
      dl_running s = true -> listener_step domain s (on_read_error s)
  | step_exchanged s before a after dial write packets dir :
      dl_open s = before ++ a :: after ->
      listener_step domain s
        (on_exchanged domain dir s a (before ++ after) (exchange dial write a.2 (string_take reply_buffer <$> packets)))
  | step_close s :
      dl_closed s = false -> listener_step domain s (on_close s).

(** ** The account of a listener *)

(** Every packet is in one place. *)
Definition accounted (s : Listener) : Prop :=
  dl_received s ≡ₚ (fst <$> dl_sent s) ++ dl_open s ++ dl_unanswered s ++ dl_dropped s ++ dl_lost s.

(** What was said is an answer of the listener's, or what an exchange with the
    upstream ends in. *)
Definition proper_reply (p : Asked * string) : Prop :=
  answers_query p.1.2 p.2 \/ exists packets, proxied_reply p.1.2 p.2 packets.

(** Nothing can be said to what is no query, or too short to be one. *)
Definition unanswerable (domain : string) (a : Asked) : Prop :=
  (exists dir, respond a.2 domain dir = (None, false)) \/ len a.2 < headerLen.

Record listener_inv (domain : string) (s : Listener) : Prop := {
  inv_accounted : accounted s;
  inv_slots : dl_held s = Z.of_nat (length (dl_open s)) /\ dl_held s <= maxForwards;
  inv_sent : Forall proper_reply (dl_sent s);
  inv_unanswered : Forall (unanswerable domain) (dl_unanswered s);
  inv_closing : (dl_running s = false \/ dl_lost s <> []) -> dl_closed s = true }.

Lemma listening_inv domain : listener_inv domain listening.
Proof. split; [apply Permutation_refl|by split|apply Forall_nil_2|apply Forall_nil_2|]. by intros [[=]|[]]. Qed.

(** The four ends of a packet. *)
Lemma server_packet domain dir held client query : held <= maxForwards ->
  (exists reply, respond query domain dir = (Some reply, false) /\
     server_step domain dir held (Packet client query) = (held, [ReplyTo client reply])) \/
  (respond query domain dir = (None, false) /\ server_step domain dir held (Packet client query) = (held, [])) \/
  (snd (respond query domain dir) = true /\ held < maxForwards /\
     server_step domain dir held (Packet client query) = (held + 1, [StartForward client query])) \/
  (snd (respond query domain dir) = true /\ server_step domain dir held (Packet client query) = (held, [])).
Proof.
  intros Hh. unfold server_step. destruct (respond query domain dir) as [[reply|] []]; cbn.
  1, 3: destruct (Z.ltb_spec held maxForwards); naive_solver.
  - naive_solver.
  - naive_solver.
Qed.

(** The two ends of an exchange. *)
Lemma server_exchanged domain dir held client query dial write packets :
  (exists reply, proxied_reply query reply packets /\
     server_step domain dir held (Exchanged client query (exchange dial write query packets)) = (held - 1, [ReplyTo client reply])) \/
  (len query < headerLen /\
     server_step domain dir held (Exchanged client query (exchange dial write query packets)) = (held - 1, [])).
Proof.
  cbn [server_step]. destruct (Z.lt_ge_cases (len query) headerLen) as [Hl|Hl].
  - unfold forward_reply. destruct (exchange dial write query packets) as [reply|] eqn:E.
    + left. exists reply. split; [|done]. apply exchange_accepts in E as [Hin Ha%accept_reply_true]. split_and!; naive_solver.
    + right. split; [done|]. unfold servfailFor. by rewrite (proj2 (Z.ltb_lt _ _)).
  - left. destruct (forward_reply_total dial write query packets Hl) as (reply & -> & Hp). by exists reply.
Qed.

(** Rearrangements of appended lists of packets, by what occurs in them. *)
Ltac rearrange :=
  repeat match goal with |- context [?x :: ?l] => lazymatch l with [] => fail | _ => change (x :: l) with ([x] ++ l) end end;
  apply (Permutation_count_occ asked_eq_dec); intros ?; rewrite ?count_occ_app; lia.

Context `{!DnsMessageLaws}.

(** Every step keeps the account. *)
Lemma packet_inv domain dir s a : dl_closed s = false -> dl_running s = true ->
  listener_inv domain s -> listener_inv domain (on_packet domain dir s a).
Proof.
  intros Hc Hr [Ha [Hh Hm] Hs Hu Hl]. destruct a as [client query]. unfold on_packet. cbn [fst snd].
  destruct (server_packet domain dir (dl_held s) client query Hm) as [(reply & Hresp & ->)|[[Hresp ->]|[(Hresp & Hlt & ->)|[Hresp ->]]]];
    (split; cbn [dl_running dl_closed dl_held dl_open dl_received dl_sent dl_unanswered dl_dropped dl_lost]; rewrite ?Hresp, ?app_nil_r; try done).
  all: unfold accounted in *; cbn [dl_running dl_closed dl_held dl_open dl_received dl_sent dl_unanswered dl_dropped dl_lost];
    rewrite ?Hresp, ?app_nil_r; cbn [snd].
  all: try (rewrite Ha, ?fmap_app; cbn [fmap list_fmap fst]; rearrange).
  - apply Forall_app. split; [done|]. constructor; [|done]. left. cbn. by apply respond_reply in Hresp as [_ ?].
  - apply Forall_app. split; [done|]. constructor; [|done]. left. by exists dir.
  - rewrite length_app. cbn. lia.
Qed.

Lemma exchanged_inv domain dir s before a after dial write packets : dl_open s = before ++ a :: after ->
  listener_inv domain s -> listener_inv domain (on_exchanged domain dir s a (before ++ after) (exchange dial write a.2 packets)).
Proof.
  intros Ho [Ha [Hh Hm] Hs Hu Hl]. unfold on_exchanged, accounted in *. rewrite Ho in *. rewrite length_app in Hh. cbn [length] in Hh.
  destruct (server_exchanged domain dir (dl_held s) a.1 a.2 dial write packets) as [(reply & Hp & ->)|[Hq ->]];
    (split; unfold accounted; cbn [dl_running dl_closed dl_held dl_open dl_received dl_sent dl_unanswered dl_dropped dl_lost];
      rewrite ?app_nil_r, ?length_app; try done; try lia).
  - rewrite Ha. destruct (dl_closed s); rewrite ?app_nil_r, ?fmap_app; cbn [fmap list_fmap fst]; rearrange.
  - destruct (dl_closed s); rewrite ?app_nil_r; [done|]. apply Forall_app. split; [done|]. constructor; [|done]. right. by exists packets.
  - intros [Hx|Hx]; [by apply Hl; left|]. destruct (dl_closed s) eqn:E; [done|]. rewrite app_nil_r in Hx. by apply Hl; right.
  - rewrite Ha. rearrange.
  - apply Forall_app. split; [done|]. constructor; [|done]. by right.
Qed.

Lemma listener_step_inv domain s s' : listener_step domain s s' -> listener_inv domain s -> listener_inv domain s'.
Proof.
  intros [s0 client packet dir Hr Hc|s0 Hr|s0 before a after dial write packets dir Ho|s0 Hc].
  - by apply packet_inv.
  - intros [Ha Hh Hs Hu Hl]. split; try done. cbn. rewrite andb_false_iff, negb_false_iff. intros [[?|?]|?]; [apply Hl; by left|done|apply Hl; by right].
  - by apply exchanged_inv.
  - intros [Ha Hh Hs Hu Hl]. by split.
Qed.
End listener.

(** ** After the close *)

(** The turns that are left of a closed listener. *)
Definition outstanding (s : Listener) : nat := (length (dl_open s) + if dl_running s then 1 else 0)%nat.

Section closing.
Context `{DnsMessage} `{UnicodeTables}.

Lemma closed_step domain s s' : dl_closed s = true -> listener_step domain s s' ->
  dl_closed s' = true /\ dl_received s' = dl_received s /\ outstanding s = S (outstanding s').
Proof.
  unfold outstanding. intros Hc. destruct 1 as [s client packet dir Hr Ho|s Hr|s before a after dial write packets dir Ho|s Ho]; [congruence| | |congruence].
  - cbn. rewrite Hr, Hc. cbn. split_and!; [done|done|lia].
  - unfold on_exchanged. cbn [server_step fst snd]. cbn. rewrite Ho, !length_app. cbn [length]. split_and!; [done|done|lia].
Qed.

Lemma closed_steps domain k s s' : dl_closed s = true -> nsteps (listener_step domain) k s s' ->
  dl_closed s' = true /\ dl_received s' = dl_received s /\ (k + outstanding s')%nat = outstanding s.
Proof.
  intros Hc Hs. revert Hc. induction Hs as [s|k s s1 s' Hs _ IH]; intros Hc; [done|].
  destruct (closed_step domain s s1 Hc Hs) as (Hc1 & Hr1 & Hm1). destruct (IH Hc1) as (? & Hr & Hm). split_and!; [done|congruence|lia].
Qed.

Lemma outstanding_step domain s : dl_closed s = true -> ((exists s', listener_step domain s s') <-> (0 < outstanding s)%nat).
Proof.
  intros Hc. split.
  - intros (s' & (_ & _ & ->)%closed_step); [lia|done].
  - unfold outstanding. destruct (dl_open s) as [|a after] eqn:Eo; cbn [length].
    + destruct (dl_running s) eqn:Er; [|lia]. intros _. eexists. by apply step_read_error.
    + intros _. eexists. eapply (step_exchanged domain s [] a after (Ok tt) (Ok tt) []); [exact Eo].
      Unshelve. exact {| dir_SchemaVersion := 0; dir_Serial := 0; dir_CreatedAt := 0; dir_NetworkCIDR := ""; dir_Domain := ""; dir_Nodes := [] |}.
Qed.

(** A query is dropped at the cap only. *)
Lemma dropped_at_cap domain dir s a : dl_held s <= maxForwards ->
  dl_dropped (on_packet domain dir s a) <> dl_dropped s -> dl_held s = maxForwards.
Proof.
  intros Hm. unfold on_packet, server_step. destruct a as [client query]. cbn [fst snd].
  destruct (respond query domain dir) as [[reply|] []]; cbn [snd].
  1, 3: destruct (Z.ltb_spec (dl_held s) maxForwards); cbn; rewrite ?app_nil_r; [done|lia].
  all: cbn; by rewrite app_nil_r.
Qed.
End closing.

(** ** Properties *)

Section properties.
Context `{DnsMessage} `{UnicodeTables} `{!DnsMessageLaws}.

End properties.

(** ** Samples *)

Section samples.
#[local] Existing Instances ascii_tables toy_dns toy_dns_laws.

(** A query for the domain, one for a name (asking "b."), and the close while
    the second is with the upstream. *)
Definition asking_header : Header :=
  {| h_ID := 3; h_Response := false; h_OpCode := 0; h_Authoritative := false;
     h_RecursionDesired := true; h_RecursionAvailable := false; h_RCode := 0 |}.
Definition asking (name : string) : string :=
  message_text asking_header [{| q_Name := name; q_Type := TypeA; q_Class := ClassINET |}] [].
Definition heard_one : Listener := on_packet "vpn" sample_dir listening (5, string_take query_buffer (asking "vpn.")).
Definition heard_both : Listener := on_packet "vpn" sample_dir heard_one (6, string_take query_buffer (asking "b.")).
Definition closing : Listener := on_close heard_both.

Lemma closing_reached : rtc (listener_step "vpn") listening closing.
Proof.
  apply (rtc_l _ _ heard_one); [by apply (step_packet "vpn" listening 5 (asking "vpn.") sample_dir)|].
  apply (rtc_l _ _ heard_both); [by apply (step_packet "vpn" heard_one 6 (asking "b.") sample_dir)|].
  apply rtc_once. by apply step_close.
Qed.

End samples.
