(* ===== verification/DnsManager.v ===== *)
(** * DnsManager: internal/cli/dns_server.go, hosts_sync.go and the start of internal/dnsserve/server.go

    What the daemon converges after every pass besides the tunnel: the VPN DNS
    listener and the managed hosts block.  Both keep the last failure they warned
    about; an error's text is the class [ErrorText]. *)
From stdpp Require Import base tactics option list strings gmap.
From Stdlib Require Import Ascii ZArith Lia.
From S2P Require Import Prelude GoStrings GoNum GoNet GoBase64 Keys Directory DnsName Validate Toy Schema Relay Bech32 Nostr Config Hosts DnsServe.
Open Scope Z_scope.

Class ErrorText := error_Error : error -> string.

Section names.
Context `{ErrorText} `{UnicodeTables}.

(** The innermost error along single wraps. *)
Fixpoint innermost (e : error) : error :=
  match e with
  | Errorf _ [e] => innermost e
  | _ => e
  end.

Definition rootCause (e : error) : string := error_Error (innermost e).

(** ** The hosts block *)

Definition hosts_DefaultPath : string := "/etc/hosts".

Definition hostsPath (cfg : Schema.Config) : string :=
  if negb (String.eqb (dns_HostsPath (c_DNS cfg)) "") then dns_HostsPath (c_DNS cfg) else hosts_DefaultPath.

(** What [hosts.Apply] does to the file, [io] being the outcome of the lock, the
    read and the write around it. *)
Definition hosts_apply (io : result unit) (f : HostsFile) (iface block : string) : result (HostsFile * bool) :=
  _ ← io; Hosts.Apply f iface block.

(** [hostsSyncer.sync]: the last warning and the file afterwards. *)
Definition hosts_sync (cfg : Schema.Config) (dir : Directory) (lastWarn : string) (io : result unit) (f : HostsFile)
  : string * HostsFile :=
  if negb (ManageHostsEnabled (c_DNS cfg)) then (lastWarn, f) else
  match hosts_apply io f (wg_Interface (c_Wireguard cfg)) (Block dir) with
  | Err e => (if negb (String.eqb (rootCause e) lastWarn) then rootCause e else lastWarn, f)
  | Ok (f', _) => ("", f')
  end.

(** Whether the pass warns the operator. *)
Definition hosts_warns (cfg : Schema.Config) (dir : Directory) (lastWarn : string) (io : result unit) (f : HostsFile) : bool :=
  if negb (ManageHostsEnabled (c_DNS cfg)) then false else
  match hosts_apply io f (wg_Interface (c_Wireguard cfg)) (Block dir) with
  | Err e => negb (String.eqb (rootCause e) lastWarn)
  | Ok _ => false
  end.

Definition removeHostsBlock (cfg : Schema.Config) (io : result unit) (f : HostsFile) : HostsFile :=
  if negb (ManageHostsEnabled (c_DNS cfg)) then f else
  match hosts_apply io f (wg_Interface (c_Wireguard cfg)) "" with
  | Err _ => f
  | Ok (f', _) => f'
  end.

(** ** The listener *)

Record ServerConfig := { sc_Addr : string; sc_Domain : string; sc_Upstream : string }.

#[export] Instance ServerConfig_eq_dec : EqDecision ServerConfig.
Proof. solve_decision. Defined.

(** What the system answers while the listener is reconciled. *)
Record DnsWorld := {
  dw_resolv : result (list string * option error);   (* resolv.conf *)
  dw_resolve : string -> result UDPAddr;
  dw_listen : UDPAddr -> result unit }.

(** [dnsserve.Start] *)
Definition dnsserve_Start (cfg : ServerConfig) (w : DnsWorld) : result unit :=
  guard_err (String.eqb (sc_Domain cfg) "") (errors_New "dnsserve: empty domain")
  (upstream ← wrap_err (fun e => Errorf "resolve upstream %q: %w" [e]) (dw_resolve w (withDefaultPort (sc_Upstream cfg)));
   laddr ← wrap_err (fun e => Errorf "resolve listen address %q: %w" [e]) (dw_resolve w (sc_Addr cfg));
   guard_err (String.eqb upstream laddr) (errors_New "upstream %s is the listener itself; configure [dns] upstream")
   (dw_listen w laddr)).

Definition shouldServeDNS (cfg : Schema.Config) (dir : Directory) (self : Node) : bool :=
  if String.eqb (dir_Domain dir) "" then false else
  match dns_Serve (c_DNS cfg) with
  | Some serve => serve
  | None =>
      if node_Relay self then true else
      match RelayTarget dir "" with
      | Some target => String.eqb (node_PublicKey target) (node_PublicKey self)
      | None => false
      end
  end.

(** The running server, with the configuration it was started with. *)
Record DnsManager := {
  dm_current : option ServerConfig;
  dm_lastWarn : string;
  dm_warnedFallback : bool }.

Definition no_dns_manager : DnsManager := {| dm_current := None; dm_lastWarn := ""; dm_warnedFallback := false |}.

Definition dns_stop (m : DnsManager) : DnsManager :=
  {| dm_current := None; dm_lastWarn := dm_lastWarn m; dm_warnedFallback := dm_warnedFallback m |}.

Definition fallback_upstream : string := "1.1.1.1:53".

Definition dns_upstream (cfg : Schema.Config) (m : DnsManager) (w : DnsWorld) : string * DnsManager :=
  if negb (String.eqb (dns_Upstream (c_DNS cfg)) "") then (dns_Upstream (c_DNS cfg), m) else
  match upstreamFromResolvConf (dw_resolv w) with
  | Ok upstream => (upstream, m)
  | Err _ => (fallback_upstream,
      {| dm_current := dm_current m; dm_lastWarn := dm_lastWarn m; dm_warnedFallback := true |})
  end.

Inductive DnsCall := StopServer | StartServer (cfg : ServerConfig).

Definition dns_reconcile (cfg : Schema.Config) (dir : Directory) (self : Node) (m : DnsManager) (w : DnsWorld)
  : DnsManager * list DnsCall :=
  if negb (shouldServeDNS cfg dir self) then
    match dm_current m with
    | Some _ => (dns_stop m, [StopServer])
    | None => (m, [])
    end
  else
    let '(upstream, m) := dns_upstream cfg m w in
    let desired := {| sc_Addr := net_JoinHostPort (node_TunnelIP self) "53"; sc_Domain := dir_Domain dir;
                      sc_Upstream := upstream |} in
    if decide (dm_current m = Some desired) then (m, []) else
    let stops := match dm_current m with Some _ => [StopServer] | None => [] end in
    let m := dns_stop m in
    match dnsserve_Start desired w with
    | Err e =>
        ({| dm_current := None;
            dm_lastWarn := if negb (String.eqb (rootCause e) (dm_lastWarn m)) then rootCause e else dm_lastWarn m;
            dm_warnedFallback := dm_warnedFallback m |}, stops ++ [StartServer desired])
    | Ok _ =>
        ({| dm_current := Some desired; dm_lastWarn := ""; dm_warnedFallback := dm_warnedFallback m |},
         stops ++ [StartServer desired])
    end.
End names.

(** ** The sockets over any run *)

Section sockets.
Context `{ErrorText} `{UnicodeTables}.

(** The servers that listen, after one call. *)
Definition replay_call (w : DnsWorld) (servers : list ServerConfig) (c : DnsCall) : list ServerConfig :=
  match c with
  | StopServer => drop 1 servers
  | StartServer cfg => if is_ok (dnsserve_Start cfg w) then cfg :: servers else servers
  end.
Definition replay (w : DnsWorld) (servers : list ServerConfig) (calls : list DnsCall) : list ServerConfig :=
  fold_left (replay_call w) calls servers.

(** A daemon's reconciliations, with any inputs and surroundings, and the servers
    that listen after them. *)
Inductive dns_run : DnsManager -> list ServerConfig -> Prop :=
  | dns_run_new : dns_run no_dns_manager []
  | dns_run_reconcile m servers cfg dir self w m' calls :
      dns_run m servers -> dns_reconcile cfg dir self m w = (m', calls) -> dns_run m' (replay w servers calls)
  | dns_run_stop m servers : dns_run m servers -> dns_run (dns_stop m) (drop 1 servers).

(** The server wanted, when one is. *)
Definition desired_server (cfg : Schema.Config) (dir : Directory) (self : Node) (m : DnsManager) (w : DnsWorld) : option ServerConfig :=
  if shouldServeDNS cfg dir self
  then Some {| sc_Addr := net_JoinHostPort (node_TunnelIP self) "53"; sc_Domain := dir_Domain dir; sc_Upstream := (dns_upstream cfg m w).1 |}
  else None.

Lemma dns_upstream_current cfg m w : dm_current (dns_upstream cfg m w).2 = dm_current m.
Proof. unfold dns_upstream. destruct (negb _); [done|]. by destruct (upstreamFromResolvConf _). Qed.

Lemma dns_upstream_value cfg m m' w : (dns_upstream cfg m w).1 = (dns_upstream cfg m' w).1.
Proof. unfold dns_upstream. destruct (negb _); [done|]. by destruct (upstreamFromResolvConf _). Qed.

Definition option_list {A} (o : option A) : list A := match o with Some a => [a] | None => [] end.

Definition converged (cfg : Schema.Config) (dir : Directory) (self : Node) (m : DnsManager) (w : DnsWorld) (r : DnsManager * list DnsCall) : Prop :=
  let desired := desired_server cfg dir self m w in
  (forall n, (length (replay w (option_list (dm_current m)) (take n r.2)) <= 1)%nat) /\
  replay w (option_list (dm_current m)) r.2 = option_list (dm_current r.1) /\
  (r.2 = [] <-> dm_current m = desired) /\
  dm_current r.1 = match desired with
                   | Some c => if decide (dm_current m = Some c) then Some c else if is_ok (dnsserve_Start c w) then Some c else None
                   | None => None
                   end.

Lemma dns_reconcile_converged cfg dir self m w : converged cfg dir self m w (dns_reconcile cfg dir self m w).
Proof.
  unfold converged, desired_server, dns_reconcile. destruct (shouldServeDNS cfg dir self); cbn [negb].
  - destruct (dns_upstream cfg m w) as [up m1] eqn:Eu. pose proof (dns_upstream_current cfg m w) as Ec. rewrite Eu in Ec. cbn in Ec.
    rewrite Ec. cbn [fst]. set (c := {| sc_Addr := _ |}). cbv beta iota zeta. destruct (decide (dm_current m = Some c)) as [Hd|Hd].
    { rewrite Hd in Ec. cbn [fst snd]. rewrite Ec, Hd. split_and!; try done. intros n. by rewrite take_nil. }
    destruct (dnsserve_Start c w) as [[]|e] eqn:Es; destruct (dm_current m) as [old|]; cbn; unfold replay; cbn; rewrite ?Es; cbn;
      (split_and!; [intros [|[|[|n]]]; cbn; rewrite ?Es; cbn; lia|done|split; [done|by intros E; destruct (Hd E)]|done]).
  - destruct (dm_current m) as [old|] eqn:Em; cbn; rewrite ?Em; cbn; unfold replay; cbn; (split_and!; [intros [|[|n]]; cbn; lia|done..]).
Qed.

(** C33: the DNS listener converges and never doubles: over any run of
    reconciliations the sockets that listen are exactly the server the manager
    remembers, at most one even between two calls of a restart; and a
    reconciliation makes a call only when the running server is not the wanted one,
    after which the wanted one runs, or none where it is not wanted or cannot start. *)
Theorem dns_reconcile_correct m servers cfg dir self w :
  dns_run m servers ->
  servers = option_list (dm_current m) /\ converged cfg dir self m w (dns_reconcile cfg dir self m w).
Proof.
  intros Hrun. split; [|apply dns_reconcile_converged].
  induction Hrun as [|m servers cfg' dir' self' w' m' calls _ IH E|m servers _ IH]; [done| |].
  - pose proof (dns_reconcile_converged cfg' dir' self' m w') as (_ & Hr & _). rewrite E in Hr. cbn in Hr. by rewrite IH.
  - subst servers. by destruct (dm_current m).
Qed.
End sockets.

(** ** Samples *)
Section samples.
#[local] Existing Instances toy_crypto ascii_tables toy_secp no_urls.
#[local] Instance silent : ErrorText := fun _ => "".

Definition working : DnsWorld := {| dw_resolv := Err (errors_New "no resolv.conf"); dw_resolve := fun s => Ok s; dw_listen := fun _ => Ok tt |}.
Definition moved_dir : Directory := set_dir_Domain "home" sample_dir.

(** Alpha serves, and restarts its server when the domain changes. *)
Lemma dns_reconcile_correct_witness :
  exists old new, dns_run (dns_reconcile sample_config sample_dir alpha no_dns_manager working).1 [old] /\
    (dns_reconcile sample_config moved_dir alpha (dns_reconcile sample_config sample_dir alpha no_dns_manager working).1 working).2
      = [StopServer; StartServer new] /\
    dm_current (dns_reconcile sample_config moved_dir alpha (dns_reconcile sample_config sample_dir alpha no_dns_manager working).1 working).1
      = Some new.
Proof.
  set (m := (dns_reconcile sample_config sample_dir alpha no_dns_manager working).1).
  assert (Hrun : exists s, dns_run m s).
  { eexists. eapply (dns_run_reconcile no_dns_manager [] sample_config sample_dir alpha working); [apply dns_run_new|].
    apply surjective_pairing. }
  destruct Hrun as [s Hrun].
  destruct (dns_reconcile_correct m s sample_config moved_dir alpha working Hrun) as (-> & _ & _ & _ & Hc).
  assert (Hm : is_Some (dm_current m)) by (apply (bool_decide_eq_true _); vm_compute; reflexivity).
  destruct Hm as [old Hm]. rewrite Hm in Hrun.
  exists old, (default old (desired_server sample_config moved_dir alpha m working)). split_and!; [exact Hrun| |rewrite Hc].
  - vm_compute. reflexivity.
  - vm_compute. reflexivity.
Defined.
End samples.
