(* ===== verification/Cache.v ===== *)
(** * Cache: internal/cache/cache.go and publish.go

    The state directory: the cached directory with its rollback high-water
    mark, the working copy and the reserved publish serial.  Every operation
    runs under the state lock and writes its files with atomic renames, so it
    is modelled as what it reads at its start and the sequence of writes it
    makes ([Plan]; the text of the JSON files is StateJson.v's); a write error or a
    crash stops that sequence anywhere, which
    is the step relation [cache_step]. *)
From stdpp Require Import base tactics option list strings gmap.
From Stdlib Require Import Ascii ZArith Lia.
From S2P Require Import Prelude GoStrings GoNum GoUtf8 GoJson GoTime GoBase64 Keys Directory DnsName Validate Wire Toy Codec Discovery StateJson.
Open Scope Z_scope.

(** What reading a file gives. *)
Inductive File := Missing | Unreadable | Content (s : string).

(** The files the paths of internal/config/schema.go name. *)
Record StateDir := {
  sd_Cache : File;
  sd_Serial : File;
  sd_State : File;
  sd_PublishSerial : File;
  sd_Source : File;
  sd_Discovery : File }.

Definition empty_state_dir : StateDir :=
  {| sd_Cache := Missing; sd_Serial := Missing; sd_State := Missing; sd_PublishSerial := Missing;
     sd_Source := Missing; sd_Discovery := Missing |}.

Definition os_ErrNotExist : error := Sentinel "os.ErrNotExist".
Definition os_ReadFile (f : File) : result string :=
  match f with
  | Missing => Err os_ErrNotExist
  | Unreadable => Err (errors_New "read error")
  | Content s => Ok s
  end.
Definition is_not_exist (e : error) : bool := errors_Is e "os.ErrNotExist".

(** One atomic replacement of a file, or the error that ends the writes. *)
Inductive FileWrite :=
  | WriteSerialFile (s : string)
  | WriteCacheFile (s : string)
  | WriteStateFile (s : string)
  | WritePublishSerialFile (s : string)
  | WriteSourceFile (s : string)
  | WriteDiscoveryFile (s : string)
  | WriteFails (e : error).

Definition apply_write (sd : StateDir) (w : FileWrite) : StateDir :=
  let '(Build_StateDir c s st p src d) := sd in
  match w with
  | WriteSerialFile x => Build_StateDir c (Content x) st p src d
  | WriteCacheFile x => Build_StateDir (Content x) s st p src d
  | WriteStateFile x => Build_StateDir c s (Content x) p src d
  | WritePublishSerialFile x => Build_StateDir c s st (Content x) src d
  | WriteSourceFile x => Build_StateDir c s st p (Content x) d
  | WriteDiscoveryFile x => Build_StateDir c s st p src (Content x)
  | WriteFails _ => sd
  end.

Definition Plan := list FileWrite.
Definition run_plan (sd : StateDir) (p : Plan) : StateDir := fold_left apply_write p sd.

(** The error a plan ends with. *)
Definition plan_error (p : Plan) : option error :=
  match last p with Some (WriteFails e) => Some e | _ => None end.

Section cache.
Context `{CryptoLib} `{UnicodeTables} `{Msgpack}.

Definition serial_text (serial : Z) : string := strconv_FormatUint serial +:+ String (chr 10) "".

Definition readSerial (f : File) : result Z :=
  data ← os_ReadFile f;
  of_option (errors_New "parse cache serial: %w") (strconv_ParseUint (strings_TrimSpace data)).

Definition ReadSerial (sd : StateDir) : result Z := readSerial (sd_Serial sd).
Definition ReadPublishSerial (sd : StateDir) : result Z := readSerial (sd_PublishSerial sd).

Definition Read (sd : StateDir) : result (Directory * string) :=
  match os_ReadFile (sd_Cache sd) with
  | Err e => if is_not_exist e then Err os_ErrNotExist else Err (Errorf "read cache: %w" [e])
  | Ok data => dir ← UnmarshalPlain data; Ok (dir, data)
  end.

Definition ReadSource (sd : StateDir) : result Directory :=
  data ← os_ReadFile (sd_Source sd); UnmarshalPlain data.

Definition ReadState (sd : StateDir) : result State :=
  data ← os_ReadFile (sd_State sd); read_state data.

Definition ReadDiscovery (sd : StateDir) : result DiscoveryState :=
  data ← os_ReadFile (sd_Discovery sd); read_discovery data.

Definition state_write (s : State) : FileWrite :=
  match state_data s with Ok data => WriteStateFile data | Err e => WriteFails e end.

(** The serial first, then the cache, then the state, which is only encoded then. *)
Definition Write (now : Time) (sd : StateDir) (dir : Directory) (etag : string) : result Plan :=
  payload ← MarshalPlain now dir;
  let writes :=
    [WriteSerialFile (serial_text (dir_Serial dir)); WriteCacheFile payload;
     state_write {| state_LastSync := now; state_LastETag := etag; state_Serial := dir_Serial dir |}] in
  match ReadSerial sd with
  | Ok prev =>
      if dir_Serial dir <? prev
      then Err (errors_New "refusing to lower cached serial from %d to %d; remove %s to reset")
      else Ok writes
  | Err e => if is_not_exist e then Ok writes else Err (Errorf "read cache serial: %w" [e])
  end.

Definition WriteSerialFloor (sd : StateDir) (serial : Z) : result Plan :=
  if serial =? 0 then Ok [] else
  match ReadSerial sd with
  | Ok prev => if serial <=? prev then Ok [] else Ok [WriteSerialFile (serial_text serial)]
  | Err e => if is_not_exist e then Ok [WriteSerialFile (serial_text serial)]
             else Err (Errorf "read cache serial: %w" [e])
  end.

Definition ReservePublishSerial (sd : StateDir) (serial : Z) : result Plan :=
  match ReadPublishSerial sd with
  | Ok previous =>
      if serial <=? previous
      then Err (errors_New "publish serial %d has already been reserved (floor %d)")
      else Ok [WritePublishSerialFile (serial_text serial)]
  | Err e => if is_not_exist e then Ok [WritePublishSerialFile (serial_text serial)]
             else Err (Errorf "read publish serial: %w" [e])
  end.

Definition WriteSource (now : Time) (sd : StateDir) (dir : Directory) : result Plan :=
  payload ← MarshalPlain now dir; Ok [WriteSourceFile payload].

Definition WriteDiscovery (now : Time) (sd : StateDir) (snapshot : gmap string LANState) : result Plan :=
  data ← discovery_data {| ds_UpdatedAt := now; ds_LANEndpoints := snapshot |};
  Ok [WriteDiscoveryFile data].

(** ** Every interleaving *)

Inductive CacheOp :=
  | OpWrite (now : Time) (dir : Directory) (etag : string)
  | OpFloor (serial : Z)
  | OpReserve (serial : Z)
  | OpSource (now : Time) (dir : Directory)
  | OpDiscovery (now : Time) (snapshot : gmap string LANState).

Definition op_plan (sd : StateDir) (op : CacheOp) : result Plan :=
  match op with
  | OpWrite now dir etag => Write now sd dir etag
  | OpFloor s => WriteSerialFloor sd s
  | OpReserve s => ReservePublishSerial sd s
  | OpSource now dir => WriteSource now sd dir
  | OpDiscovery now snap => WriteDiscovery now sd snap
  end.

(** Serials are uint64. *)
Definition op_typed (op : CacheOp) : Prop :=
  match op with
  | OpWrite _ dir _ | OpSource _ dir => 0 <= dir_Serial dir < 2 ^ 64
  | OpFloor s | OpReserve s => 0 <= s < 2 ^ 64
  | OpDiscovery _ _ => True
  end.

(** One operation, stopped after any number of its writes. *)
Inductive cache_step : StateDir -> StateDir -> Prop :=
  | CacheStep sd op plan k :
      op_typed op -> op_plan sd op = Ok plan -> cache_step sd (run_plan sd (take k plan)).

Definition cache_steps : StateDir -> StateDir -> Prop := rtc cache_step.

(** ** The serial files *)

Lemma serial_text_trim s : 0 <= s -> strings_TrimSpace (serial_text s) = strconv_FormatUint s.
Proof.
  intros Hs. pose proof (FormatUint_digits s Hs) as Hd. destruct (FormatUint_head s Hs) as (c & r & E & Hc).
  assert (Hch : forall a, is_digit a = true -> is_ascii a = true /\ is_space a = false)
    by (intros a; by destruct a as [[] [] [] [] [] [] [] []]).
  unfold serial_text. rewrite E in *. rewrite string_app_cons. cbn [strings_TrimSpace].
  destruct (Hch c Hc) as [-> ->].
  replace (String c (r +:+ String (chr 10) "")) with (String c r +:+ String (chr 10) "") by apply string_app_cons.
  rewrite string_rev_app_distr. change (string_rev (String (chr 10) "")) with (String (chr 10) "").
  rewrite string_app_cons, string_app_nil. cbn [trim_right_rev].
  change (is_ascii (chr 10)) with true. change (is_space (chr 10)) with true. cbn match.
  assert (Ht : strings_TrimSpace (String c r) = String c r).
  { apply TrimSpace_id.
    - eapply string_forallb_mono; [|exact Hd]. intros a Ha. by apply Hch.
    - intros a [= <-]. by apply Hch.
    - intros a Ha. apply Hch. by eapply last_byte_forallb. }
  cbn [strings_TrimSpace] in Ht. destruct (Hch c Hc) as [Hc1 Hc2]. by rewrite Hc1, Hc2 in Ht.
Qed.

Lemma readSerial_text s : 0 <= s < 2 ^ 64 -> readSerial (Content (serial_text s)) = Ok s.
Proof.
  intros Hs. unfold readSerial. cbn [os_ReadFile mbind result_bind].
  rewrite serial_text_trim, ParseUint_FormatUint; [done| |lia].
  unfold max_uint64. change (2 ^ 64) with 18446744073709551616 in Hs. lia.
Qed.

(** The only error of [os_ReadFile] that passes [is_not_exist] is a missing file. *)
Lemma readSerial_not_exist f e : readSerial f = Err e -> is_not_exist e = true -> f = Missing.
Proof.
  unfold readSerial. destruct f as [| |s]; cbn; [done|by intros [= <-]|].
  destruct (strconv_ParseUint _); cbn; [done|]. by intros [= <-].
Qed.

(** What a plan may write into the two serial files. *)
Definition raises (f : File) (serial : Z) : Prop :=
  0 <= serial < 2 ^ 64 /\ (f = Missing \/ exists prev, readSerial f = Ok prev /\ prev <= serial).

Lemma read_cases {A} (f : File) (test : Z -> bool) (bad : error) (w : A) wrap r :
  match readSerial f with
  | Ok prev => if test prev then Err bad else Ok w
  | Err e => if is_not_exist e then Ok w else Err (wrap e)
  end = Ok r ->
  r = w /\ (f = Missing \/ exists prev, readSerial f = Ok prev /\ test prev = false).
Proof.
  destruct (readSerial f) as [prev|e] eqn:E.
  - destruct (test prev) eqn:Et; [done|]. intros [= <-]. split; [done|]. right. eauto.
  - destruct (is_not_exist e) eqn:En; [|done]. intros [= <-]. split; [done|]. left.
    by eapply readSerial_not_exist.
Qed.

(** The shape of every plan. *)
Lemma op_plan_shape sd op plan :
  op_typed op -> op_plan sd op = Ok plan ->
  plan = [] \/
  (exists s, raises (sd_Serial sd) s /\ plan = [WriteSerialFile (serial_text s)]) \/
  (exists s now dir payload st, raises (sd_Serial sd) s /\ s = dir_Serial dir /\
     MarshalPlain now dir = Ok payload /\
     plan = [WriteSerialFile (serial_text s); WriteCacheFile payload; state_write st]) \/
  (exists s, raises (sd_PublishSerial sd) s /\
     (forall prev, ReadPublishSerial sd = Ok prev -> prev < s) /\
     plan = [WritePublishSerialFile (serial_text s)]) \/
  (exists x, plan = [WriteSourceFile x]) \/ (exists x, plan = [WriteDiscoveryFile x]).
Proof.
  destruct op as [now dir etag|s|s|now dir|now snap]; simpl; intros Ht Hp.
  - unfold Write in Hp. apply bind_Ok in Hp as (payload & Hm & Hp). cbv zeta in Hp.
    apply read_cases in Hp as [-> Hf]. right; right; left.
    eexists _, _, _, _, _. split_and!; try done. split; [done|].
    destruct Hf as [?|(prev & Hr & Hl)]; [by left|]. right. exists prev. bool_solve. split; [done|lia].
  - unfold WriteSerialFloor in Hp. destruct (s =? 0); [injection Hp as <-; by left|].
    destruct (ReadSerial sd) as [prev|e] eqn:E.
    + destruct (s <=? prev) eqn:El; injection Hp as <-; [by left|]. right; left.
      exists s. split; [|done]. split; [done|]. right. exists prev. bool_solve. split; [done|lia].
    + destruct (is_not_exist e) eqn:En; [|done]. injection Hp as <-. right; left. exists s.
      split; [|done]. split; [done|]. left. by eapply readSerial_not_exist.
  - unfold ReservePublishSerial in Hp. apply read_cases in Hp as [-> Hf].
    right; right; right; left. exists s. split_and!; [|..]; try done.
    + split; [done|]. destruct Hf as [?|(prev & Hr & Hl)]; [by left|]. right. exists prev. bool_solve.
      split; [done|lia].
    + intros prev' Hr'. unfold ReadPublishSerial in Hr'. destruct Hf as [E|(prev & Hr & Hl)]; [by rewrite E in Hr'|].
      rewrite Hr in Hr'. injection Hr' as <-. bool_solve. lia.
  - unfold WriteSource in Hp. apply bind_Ok in Hp as (payload & _ & [= <-]). right; right; right; right; left.
    by eexists.
  - unfold WriteDiscovery in Hp. apply bind_Ok in Hp as (data & _ & [= <-]). right; right; right; right; right.
    by eexists.
Qed.

(** The state file is all the last write of a sync changes. *)
Lemma apply_state_write sd st : exists f, apply_write sd (state_write st) =
  {| sd_Cache := sd_Cache sd; sd_Serial := sd_Serial sd; sd_State := f; sd_PublishSerial := sd_PublishSerial sd;
     sd_Source := sd_Source sd; sd_Discovery := sd_Discovery sd |}.
Proof. unfold state_write. destruct sd, (state_data st) as [data|e]; by eexists. Qed.

(** The files after the writes of a sync. *)
Lemma run_write sd text payload st : exists f, run_plan sd [WriteSerialFile text; WriteCacheFile payload; state_write st] =
  {| sd_Cache := Content payload; sd_Serial := Content text; sd_State := f; sd_PublishSerial := sd_PublishSerial sd;
     sd_Source := sd_Source sd; sd_Discovery := sd_Discovery sd |}.
Proof.
  destruct sd as [c se st0 pu so d].
  exact (apply_state_write (Build_StateDir (Content payload) (Content text) st0 pu so d) st).
Qed.

(** The prefixes of a plan of at most three writes. *)
Lemma step_cases sd sd' :
  cache_step sd sd' ->
  sd_Serial sd' = sd_Serial sd /\ sd_Cache sd' = sd_Cache sd /\
    (sd_PublishSerial sd' = sd_PublishSerial sd \/
     exists s, raises (sd_PublishSerial sd) s /\ sd_PublishSerial sd' = Content (serial_text s)) \/
  sd_PublishSerial sd' = sd_PublishSerial sd /\
    exists s, raises (sd_Serial sd) s /\ sd_Serial sd' = Content (serial_text s) /\
      (sd_Cache sd' = sd_Cache sd \/
       exists now dir payload, s = dir_Serial dir /\ MarshalPlain now dir = Ok payload /\
         sd_Cache sd' = Content payload).
Proof.
  intros [sd0 op plan k Ht Hp]. destruct (op_plan_shape _ _ _ Ht Hp)
    as [->|[(s & Hr & ->)|[(s & now & dir & p & st & Hr & Hs & Hm & ->)|[(s & Hr & _ & ->)|[(x & ->)|(x & ->)]]]]];
    destruct sd0 as [c se st0 pu so d].
  - left. rewrite take_nil. split; [done|]. split; [done|by left].
  - destruct k as [|k]; [left; split; [done|]; split; [done|by left]|]. right. simpl. rewrite take_nil. simpl.
    split; [done|]. exists s. split_and!; try done. by left.
  - destruct k as [|[|k]]; [left; split; [done|]; split; [done|by left]| |].
    + right. simpl. split; [done|]. exists s. split_and!; try done. by left.
    + right. cbn [take run_plan fold_left apply_write].
      destruct (apply_state_write (Build_StateDir (Content p) (Content (serial_text s)) st0 pu so d) st) as [f Hf].
      destruct k as [|k]; cbn [take fold_left]; rewrite ?take_nil; cbn [fold_left]; rewrite ?Hf; cbn;
        (split; [done|]; exists s; split_and!; [done|done|right; by exists now, dir, p]).
  - left. destruct k as [|k]; [split; [done|]; split; [done|by left]|]. simpl. rewrite take_nil. simpl.
    split_and!; try done. right. by exists s.
  - left. destruct k as [|k]; [split; [done|]; split; [done|by left]|]. simpl. rewrite take_nil. split; [done|]; split; [done|by left].
  - left. destruct k as [|k]; [split; [done|]; split; [done|by left]|]. simpl. rewrite take_nil. split; [done|]; split; [done|by left].
Qed.

Lemma raises_read f s m :
  raises f s -> readSerial f = Ok m -> readSerial (Content (serial_text s)) = Ok s /\ m <= s.
Proof.
  intros [Hs [->|(prev & Hr & Hl)]] Hm; [done|]. split; [by apply readSerial_text|]. congruence.
Qed.

Lemma step_monotone sd sd' :
  cache_step sd sd' ->
  (forall m, ReadSerial sd = Ok m -> exists m', ReadSerial sd' = Ok m' /\ m <= m') /\
  (forall m, ReadPublishSerial sd = Ok m -> exists m', ReadPublishSerial sd' = Ok m' /\ m <= m').
Proof.
  intros Hst. unfold ReadSerial, ReadPublishSerial.
  destruct (step_cases _ _ Hst) as [(-> & _ & [->|(s & Hr & ->)])|(-> & s & Hr & -> & _)].
  - split; intros m Hm; exists m; (split; [done|lia]).
  - split; intros m Hm; [exists m; split; [done|lia]|]. exists s. by apply (raises_read _ _ _ Hr).
  - split; intros m Hm; [|exists m; split; [done|lia]]. exists s. by apply (raises_read _ _ _ Hr).
Qed.

(** The serial of the cached directory is at or below the mark. *)
Definition cache_marked `{!CryptoLaws} `{!MsgpackLaws} (sd : StateDir) : Prop :=
  forall p d, sd_Cache sd = Content p -> UnmarshalPlain p = Ok d ->
    exists m, ReadSerial sd = Ok m /\ dir_Serial d <= m.

Context `{!CryptoLaws} `{!MsgpackLaws}.

Lemma MarshalPlain_serial now dir p d :
  0 <= dir_Serial dir < 2 ^ 64 -> MarshalPlain now dir = Ok p -> UnmarshalPlain p = Ok d ->
  dir_Serial d = dir_Serial dir.
Proof.
  intros Hs [_ ->]%MarshalPlain_Unmarshal; [|done]. by intros (_ & _ & [= <-])%bind_Ok.
Qed.

Lemma step_marked sd sd' : cache_step sd sd' -> cache_marked sd -> cache_marked sd'.
Proof.
  intros Hst Hinv p d Hc Hu. pose proof (step_monotone _ _ Hst) as [Hmono _].
  destruct (step_cases _ _ Hst) as [(Es & Ec & _)|(_ & s & Hr & Es & [Ec|(now & dir & p' & -> & Hm & Ec)])].
  - rewrite Ec in Hc. destruct (Hinv _ _ Hc Hu) as (m & Hm & Hl).
    destruct (Hmono _ Hm) as (m' & ? & ?). exists m'. split; [done|lia].
  - rewrite Ec in Hc. destruct (Hinv _ _ Hc Hu) as (m & Hm & Hl).
    destruct (Hmono _ Hm) as (m' & ? & ?). exists m'. split; [done|lia].
  - rewrite Ec in Hc. injection Hc as ->. destruct Hr as [Hr _]. exists (dir_Serial dir).
    unfold ReadSerial. rewrite Es, readSerial_text by done. split; [done|].
    by rewrite (MarshalPlain_serial _ _ _ _ Hr Hm Hu).
Qed.

(** C2: rollback protection survives crashes: whatever operations run on a state
    directory, each stopped after any of its writes, the high-water mark and the
    reserved publish serial never go down, and a directory read from the cache
    is never newer than the mark. *)
Theorem cache_rollback_guard sd :
  cache_steps empty_state_dir sd ->
  (forall d p, Read sd = Ok (d, p) -> exists m, ReadSerial sd = Ok m /\ dir_Serial d <= m) /\
  (forall sd', cache_steps sd sd' ->
     (forall m, ReadSerial sd = Ok m -> exists m', ReadSerial sd' = Ok m' /\ m <= m') /\
     (forall m, ReadPublishSerial sd = Ok m -> exists m', ReadPublishSerial sd' = Ok m' /\ m <= m')).
Proof.
  intros Hrun. split.
  - assert (Hinv : cache_marked sd).
    { assert (Hz0 : cache_marked empty_state_dir) by (intros p d Hc; done).
      revert Hz0. induction Hrun as [|a b c Hst _ IH]; [done|]. intros Ha. apply IH. by eapply step_marked. }
    intros d p Hr. unfold Read in Hr. destruct (sd_Cache sd) as [| |s] eqn:Ec; [done|done|].
    cbn [os_ReadFile] in Hr. apply bind_Ok in Hr as (d' & Hu & [= -> ->]). by eapply Hinv.
  - clear Hrun. intros sd' Hrun. induction Hrun as [|a b c Hst _ [IH1 IH2]].
    + split; intros m Hm; exists m; (split; [done|lia]).
    + destruct (step_monotone _ _ Hst) as [Ha1 Hb1]. split; intros m Hm.
      * destruct (Ha1 _ Hm) as (m1 & Hm1 & ?). destruct (IH1 _ Hm1) as (m2 & ? & ?). exists m2. split; [done|lia].
      * destruct (Hb1 _ Hm) as (m1 & Hm1 & ?). destruct (IH2 _ Hm1) as (m2 & ? & ?). exists m2. split; [done|lia].
Qed.

(** What a sync and what the daemon leave for status is what status reads. *)
Theorem state_files_read now sd dir etag plan : four_digit_year now -> 0 <= dir_Serial dir < 2 ^ 64 ->
  Write now sd dir etag = Ok plan ->
  plan_error plan = None /\
  ReadState (run_plan sd plan) = Ok {| state_LastSync := now; state_LastETag := clean etag; state_Serial := dir_Serial dir |}.
Proof.
  intros Hnow Hs Hw. unfold Write in Hw. apply bind_Ok in Hw as (p & _ & Hw). cbv zeta in Hw. apply read_cases in Hw as [-> _].
  destruct (state_reads_back {| state_LastSync := now; state_LastETag := etag; state_Serial := dir_Serial dir |} Hnow) as (data & E & R);
    [cbn; unfold max_uint64; lia|].
  unfold state_write. rewrite E. split; [done|]. by destruct sd.
Qed.

Theorem discovery_file_read now sd snapshot : four_digit_year now ->
  map_Forall (fun k e => utf8_Valid k = true /\ lan_fits e) snapshot ->
  exists plan, WriteDiscovery now sd snapshot = Ok plan /\
    ReadDiscovery (run_plan sd plan) = Ok {| ds_UpdatedAt := now; ds_LANEndpoints := snapshot |}.
Proof.
  intros Hnow Hm. destruct (discovery_reads_back {| ds_UpdatedAt := now; ds_LANEndpoints := snapshot |} Hnow Hm) as (data & E & R).
  unfold WriteDiscovery. rewrite E. eexists. split; [reflexivity|]. by destruct sd.
Qed.

Lemma readSerial_range f s : readSerial f = Ok s -> 0 <= s < 2 ^ 64.
Proof.
  unfold readSerial. intros (t & _ & Ht%of_option_Ok)%bind_Ok. by eapply ParseUint_range.
Qed.

(** Reserved serials only grow. *)
Lemma reserve_grows sd1 sd2 s s' plan plan' :
  0 <= s < 2 ^ 64 -> ReservePublishSerial sd1 s = Ok plan -> cache_steps (run_plan sd1 plan) sd2 ->
  ReservePublishSerial sd2 s' = Ok plan' -> s < s'.
Proof.
  intros Hs Hp Hrun Hp'.
  assert (Ha1 : ReadPublishSerial (run_plan sd1 plan) = Ok s).
  { unfold ReservePublishSerial in Hp. apply read_cases in Hp as [-> _].
    destruct sd1. unfold ReadPublishSerial. simpl. by apply readSerial_text. }
  assert (Hb1 : exists m, ReadPublishSerial sd2 = Ok m /\ s <= m).
  { clear Hp Hp'. revert s Hs Ha1. induction Hrun as [x|a b c Hst _ IH]; intros s Hs Ha1; [exists s; split; [done|lia]|].
    destruct (step_monotone _ _ Hst) as [_ Hm]. destruct (Hm _ Ha1) as (m & Hr & Hl).
    destruct (IH m) as (m' & ? & ?); [|done|exists m'; split; [done|lia]].
    by eapply readSerial_range. }
  destruct Hb1 as (m & Hm & Hl). unfold ReservePublishSerial in Hp'. rewrite Hm in Hp'.
  destruct (s' <=? m) eqn:E; [done|]. bool_solve. lia.
Qed.

(** No serial is ever reserved twice, whatever runs in between (crashes
    included): two successful reservations on one state directory are in strictly
    increasing order, so no two payloads are signed under one serial. *)
Theorem reserved_serials_increase sd1 sd2 s s' plan plan' :
  0 <= s < 2 ^ 64 -> ReservePublishSerial sd1 s = Ok plan -> cache_steps (run_plan sd1 plan) sd2 ->
  ReservePublishSerial sd2 s' = Ok plan' -> s < s'.
Proof. apply reserve_grows. Qed.
End cache.

(** ** Samples *)

Section samples.
#[local] Existing Instances toy_crypto toy_msgpack ascii_tables.
#[local] Existing Instances toy_crypto_laws toy_msgpack_laws.

(** A text that says what the directory was synced to. *)
Example state_text : state_data {| state_LastSync := 738944 * 86400000000000; state_LastETag := ""; state_Serial := 7 |} =
  Ok (string_map (fun c => if Ascii.eqb c "'" then chr 34 else c)
    (strings_Join ["{"; "  'last_sync': '2024-02-29T00:00:00Z',"; "  'serial': 7"; "}"; ""] (String (chr 10) ""))).
Proof. vm_compute. reflexivity. Qed.

Definition synced_dir : StateDir :=
  run_plan empty_state_dir (value [] (Write (1000 * Second) empty_state_dir sample_dir "")).

Lemma synced_reachable : cache_steps empty_state_dir synced_dir.
Proof.
  apply rtc_once. unfold synced_dir. set (plan := value [] _).
  assert (Hp : op_plan empty_state_dir (OpWrite (1000 * Second) sample_dir "") = Ok plan)
    by (apply value_Ok; vm_compute; reflexivity).
  rewrite <- (take_ge plan 3) at 1 by (apply Nat.leb_le; vm_compute; reflexivity).
  eapply CacheStep; [|exact Hp]. split; [apply Z.leb_le|apply Z.ltb_lt]; vm_compute; reflexivity.
Qed.

Definition sample_cached : Directory * string := value (zero_directory, "") (Read synced_dir).

Lemma cache_rollback_guard_witness : exists m, ReadSerial synced_dir = Ok m /\ 7 <= m.
Proof.
  destruct (cache_rollback_guard _ synced_reachable) as [Hm _].
  destruct (Hm (fst sample_cached) (snd sample_cached)) as (m & Hr & Hl).
  - assert (Hv : Read synced_dir = Ok sample_cached) by (apply value_Ok; vm_compute; reflexivity).
    rewrite Hv. by destruct sample_cached.
  - exists m. split; [exact Hr|]. replace 7 with (dir_Serial (fst sample_cached)); [exact Hl|].
    vm_compute. reflexivity.
Defined.

(** A serial reserved after a failed upload is new. *)
Lemma reserved_serials_increase_witness : 7 < 8.
Proof.
  pose (sd1 := run_plan empty_state_dir (value [] (ReservePublishSerial empty_state_dir 7))).
  apply (reserved_serials_increase empty_state_dir sd1 7 8
    [WritePublishSerialFile (serial_text 7)] [WritePublishSerialFile (serial_text 8)]).
  - split; [discriminate|reflexivity].
  - vm_compute. reflexivity.
  - apply rtc_refl.
  - vm_compute. reflexivity.
Defined.
End samples.
