(* ===== verification/Bootstrap.v ===== *)
(** * Bootstrap: internal/bootstrap/bootstrap.go

    The enrollment file the admin hands to a node, and what is read of it: the text
    that is written is what encoding/json makes of the structs with their tags, and
    reading it gives the bootstrap back. *)
From stdpp Require Import base tactics option list strings gmap.
From Stdlib Require Import Ascii ZArith Lia.
From S2P Require Import Prelude GoStrings GoNum GoBase64 GoUtf8 GoJson JsonBind Schema.
Open Scope Z_scope.

Definition bootstrap_SchemaVersion : Z := 2.

Record BootNode := {
  bn_Name : string;
  bn_TunnelIP : string;
  bn_ListenPort : Z;
  bn_PublicKey : string;
  bn_PrivateKey : string;
  bn_AgeIdentity : string }.

Record Bootstrap := {
  bs_SchemaVersion : Z;
  bs_PublisherPubKey : string;
  bs_Serial : Z;
  bs_Drop : DropBackend;
  bs_Node : option BootNode }.

Definition Network (cfg : Config) (serial : Z) : Bootstrap :=
  {| bs_SchemaVersion := bootstrap_SchemaVersion;
     bs_PublisherPubKey := dc_PublisherPubKey (c_Directory cfg);
     bs_Serial := serial; bs_Drop := drop_Client (c_Drop cfg); bs_Node := None |}.

Definition WithNode (base : Bootstrap) (node : BootNode) : Bootstrap :=
  {| bs_SchemaVersion := bs_SchemaVersion base; bs_PublisherPubKey := bs_PublisherPubKey base;
     bs_Serial := bs_Serial base; bs_Drop := bs_Drop base; bs_Node := Some node |}.

(** ** The structs as JSON *)

(** The fields of a drop, by the tags of config.DropBackend. *)
Definition eta_DropBackend (b : DropBackend) : DropBackend := {|
  b_Type := b_Type b; b_Endpoint := b_Endpoint b; b_Region := b_Region b; b_Bucket := b_Bucket b; b_ObjectKey := b_ObjectKey b;
  b_AccessKey := b_AccessKey b; b_SecretKey := b_SecretKey b; b_TLS := b_TLS b; b_URL := b_URL b; b_Username := b_Username b;
  b_Password := b_Password b; b_Path := b_Path b; b_Provider := b_Provider b; b_Zone := b_Zone b; b_RecordName := b_RecordName b;
  b_APIToken := b_APIToken b; b_AppKey := b_AppKey b; b_AppSecret := b_AppSecret b; b_ConsumerKey := b_ConsumerKey b; b_TTL := b_TTL b;
  b_Resolver := b_Resolver b; b_Relays := b_Relays b; b_Author := b_Author b; b_Nsec := b_Nsec b; b_Identifier := b_Identifier b |}.
Definition zero_backend : DropBackend := {|
  b_Type := ""; b_Endpoint := ""; b_Region := ""; b_Bucket := ""; b_ObjectKey := ""; b_AccessKey := ""; b_SecretKey := ""; b_TLS := None;
  b_URL := ""; b_Username := ""; b_Password := ""; b_Path := ""; b_Provider := ""; b_Zone := ""; b_RecordName := ""; b_APIToken := "";
  b_AppKey := ""; b_AppSecret := ""; b_ConsumerKey := ""; b_TTL := 0; b_Resolver := ""; b_Relays := []; b_Author := ""; b_Nsec := "";
  b_Identifier := "" |}.

Definition backend_fields : list (field DropBackend) := [
  ("type", into_string ltac:(setter eta_DropBackend b_Type)); ("endpoint", into_string ltac:(setter eta_DropBackend b_Endpoint));
  ("region", into_string ltac:(setter eta_DropBackend b_Region)); ("bucket", into_string ltac:(setter eta_DropBackend b_Bucket));
  ("object_key", into_string ltac:(setter eta_DropBackend b_ObjectKey));
  ("access_key", into_string ltac:(setter eta_DropBackend b_AccessKey));
  ("secret_key", into_string ltac:(setter eta_DropBackend b_SecretKey));
  ("tls", into_pointer b_TLS ltac:(setter eta_DropBackend b_TLS) false the_bool); ("url", into_string ltac:(setter eta_DropBackend b_URL));
  ("username", into_string ltac:(setter eta_DropBackend b_Username)); ("password", into_string ltac:(setter eta_DropBackend b_Password));
  ("path", into_string ltac:(setter eta_DropBackend b_Path)); ("provider", into_string ltac:(setter eta_DropBackend b_Provider));
  ("zone", into_string ltac:(setter eta_DropBackend b_Zone)); ("record_name", into_string ltac:(setter eta_DropBackend b_RecordName));
  ("api_token", into_string ltac:(setter eta_DropBackend b_APIToken)); ("app_key", into_string ltac:(setter eta_DropBackend b_AppKey));
  ("app_secret", into_string ltac:(setter eta_DropBackend b_AppSecret));
  ("consumer_key", into_string ltac:(setter eta_DropBackend b_ConsumerKey)); ("ttl", into_int ltac:(setter eta_DropBackend b_TTL));
  ("resolver", into_string ltac:(setter eta_DropBackend b_Resolver));
  ("relays", into_slice b_Relays ltac:(setter eta_DropBackend b_Relays) "" the_string);
  ("author", into_string ltac:(setter eta_DropBackend b_Author)); ("nsec", into_string ltac:(setter eta_DropBackend b_Nsec));
  ("identifier", into_string ltac:(setter eta_DropBackend b_Identifier))].

Definition backend_members (b : DropBackend) : list (string * json) :=
  member "type" (JStr (b_Type b)) ++ omit_string "endpoint" (b_Endpoint b) ++ omit_string "region" (b_Region b) ++
  omit_string "bucket" (b_Bucket b) ++ omit_string "object_key" (b_ObjectKey b) ++ omit_string "access_key" (b_AccessKey b) ++
  omit_string "secret_key" (b_SecretKey b) ++ omit_bool "tls" (b_TLS b) ++ omit_string "url" (b_URL b) ++
  omit_string "username" (b_Username b) ++ omit_string "password" (b_Password b) ++ omit_string "path" (b_Path b) ++
  omit_string "provider" (b_Provider b) ++ omit_string "zone" (b_Zone b) ++ omit_string "record_name" (b_RecordName b) ++
  omit_string "api_token" (b_APIToken b) ++ omit_string "app_key" (b_AppKey b) ++ omit_string "app_secret" (b_AppSecret b) ++
  omit_string "consumer_key" (b_ConsumerKey b) ++ omit_int "ttl" (b_TTL b) ++ omit_string "resolver" (b_Resolver b) ++
  omit_list "relays" JStr (b_Relays b) ++ omit_string "author" (b_Author b) ++ omit_string "nsec" (b_Nsec b) ++
  omit_string "identifier" (b_Identifier b) ++ [].

Definition eta_BootNode (n : BootNode) : BootNode := {|
  bn_Name := bn_Name n; bn_TunnelIP := bn_TunnelIP n; bn_ListenPort := bn_ListenPort n; bn_PublicKey := bn_PublicKey n;
  bn_PrivateKey := bn_PrivateKey n; bn_AgeIdentity := bn_AgeIdentity n |}.
Definition zero_boot_node : BootNode := {|
  bn_Name := ""; bn_TunnelIP := ""; bn_ListenPort := 0; bn_PublicKey := ""; bn_PrivateKey := ""; bn_AgeIdentity := "" |}.

Definition boot_node_fields : list (field BootNode) := [
  ("name", into_string ltac:(setter eta_BootNode bn_Name)); ("tunnel_ip", into_string ltac:(setter eta_BootNode bn_TunnelIP));
  ("listen_port", into_int ltac:(setter eta_BootNode bn_ListenPort)); ("public_key", into_string ltac:(setter eta_BootNode bn_PublicKey));
  ("private_key", into_string ltac:(setter eta_BootNode bn_PrivateKey)); ("age_identity", into_string ltac:(setter eta_BootNode bn_AgeIdentity))].

Definition boot_node_members (n : BootNode) : list (string * json) :=
  member "name" (JStr (bn_Name n)) ++ member "tunnel_ip" (JStr (bn_TunnelIP n)) ++ omit_int "listen_port" (bn_ListenPort n) ++
  member "public_key" (JStr (bn_PublicKey n)) ++ omit_string "private_key" (bn_PrivateKey n) ++ omit_string "age_identity" (bn_AgeIdentity n) ++ [].

Definition eta_Bootstrap (b : Bootstrap) : Bootstrap := {|
  bs_SchemaVersion := bs_SchemaVersion b; bs_PublisherPubKey := bs_PublisherPubKey b; bs_Serial := bs_Serial b; bs_Drop := bs_Drop b;
  bs_Node := bs_Node b |}.
Definition zero_bootstrap : Bootstrap := {|
  bs_SchemaVersion := 0; bs_PublisherPubKey := ""; bs_Serial := 0; bs_Drop := zero_backend; bs_Node := None |}.

Definition bootstrap_fields `{UnicodeTables} : list (field Bootstrap) := [
  ("schema_version", into_int ltac:(setter eta_Bootstrap bs_SchemaVersion));
  ("directory", into_struct [("publisher_pubkey", into_string ltac:(setter eta_Bootstrap bs_PublisherPubKey))]);
  ("serial", into_uint64 ltac:(setter eta_Bootstrap bs_Serial));
  ("drop", into_part bs_Drop ltac:(setter eta_Bootstrap bs_Drop) (into_struct backend_fields));
  ("node", into_pointer bs_Node ltac:(setter eta_Bootstrap bs_Node) zero_boot_node (into_struct boot_node_fields))].

Definition bootstrap_members (b : Bootstrap) : list (string * json) :=
  member "schema_version" (json_int (bs_SchemaVersion b)) ++
  member "directory" (JObj (member "publisher_pubkey" (JStr (bs_PublisherPubKey b)))) ++
  omit (bs_Serial b =? 0) "serial" (json_uint (bs_Serial b)) ++
  member "drop" (JObj (backend_members (bs_Drop b))) ++
  match bs_Node b with Some n => member "node" (JObj (boot_node_members n)) | None => [] end.

(** ** The file *)

(** The bytes of the file [Write] leaves; [mkdir] and [write] are the system's. *)
Definition bootstrap_data (b : Bootstrap) : string := json_MarshalIndent (JObj (bootstrap_members b)) +:+ String (chr 10) "".
Definition bootstrap_Write (b : Bootstrap) (mkdir write : result unit) : result string :=
  _ ← wrap_err (fun e => Errorf "create bootstrap directory: %w" [e]) mkdir;
  _ ← wrap_err (fun e => Errorf "write bootstrap: %w" [e]) write;
  Ok (bootstrap_data b).

Definition bootstrap_Read `{UnicodeTables} (file : result string) : result Bootstrap :=
  data ← wrap_err (fun e => Errorf "read bootstrap: %w" [e]) file;
  b ← of_option (errors_New "decode bootstrap: %w") (json_Unmarshal (into_struct bootstrap_fields) data zero_bootstrap);
  guard_err (negb (bs_SchemaVersion b =? bootstrap_SchemaVersion))
    (errors_New "bootstrap schema version %d not supported (expected %d)")
  (Ok b).

(** ** The file is read back *)

(** A bootstrap with its texts as they are read: bytes that are no UTF-8 are lost. *)
Definition clean_backend (b : DropBackend) : DropBackend := {|
  b_Type := clean (b_Type b); b_Endpoint := clean (b_Endpoint b); b_Region := clean (b_Region b); b_Bucket := clean (b_Bucket b);
  b_ObjectKey := clean (b_ObjectKey b); b_AccessKey := clean (b_AccessKey b); b_SecretKey := clean (b_SecretKey b); b_TLS := b_TLS b;
  b_URL := clean (b_URL b); b_Username := clean (b_Username b); b_Password := clean (b_Password b); b_Path := clean (b_Path b);
  b_Provider := clean (b_Provider b); b_Zone := clean (b_Zone b); b_RecordName := clean (b_RecordName b);
  b_APIToken := clean (b_APIToken b); b_AppKey := clean (b_AppKey b); b_AppSecret := clean (b_AppSecret b);
  b_ConsumerKey := clean (b_ConsumerKey b); b_TTL := b_TTL b; b_Resolver := clean (b_Resolver b); b_Relays := map clean (b_Relays b);
  b_Author := clean (b_Author b); b_Nsec := clean (b_Nsec b); b_Identifier := clean (b_Identifier b) |}.
Definition clean_boot_node (n : BootNode) : BootNode := {|
  bn_Name := clean (bn_Name n); bn_TunnelIP := clean (bn_TunnelIP n); bn_ListenPort := bn_ListenPort n; bn_PublicKey := clean (bn_PublicKey n);
  bn_PrivateKey := clean (bn_PrivateKey n); bn_AgeIdentity := clean (bn_AgeIdentity n) |}.
Definition clean_bootstrap (b : Bootstrap) : Bootstrap := {|
  bs_SchemaVersion := bs_SchemaVersion b; bs_PublisherPubKey := clean (bs_PublisherPubKey b); bs_Serial := bs_Serial b;
  bs_Drop := clean_backend (bs_Drop b); bs_Node := clean_boot_node <$> bs_Node b |}.

(** Numbers that fit their types. *)
Definition boot_ranges (b : Bootstrap) : Prop :=
  int64 (bs_SchemaVersion b) /\ 0 <= bs_Serial b <= max_uint64 /\ int64 (b_TTL (bs_Drop b)) /\
  match bs_Node b with Some n => int64 (bn_ListenPort n) | None => True end.

Lemma backend_good b : int64 (b_TTL b) -> good 2 (JObj (backend_members b)).
Proof.
  intros Ht. apply (good_object 1); [done|]. unfold backend_members.
  repeat apply goods_app; auto with good. apply goods_omit, good_strings.
Qed.

Lemma boot_node_good n : int64 (bn_ListenPort n) -> good 1 (JObj (boot_node_members n)).
Proof. intros Hp. apply (good_object 0); [done|]. unfold boot_node_members. repeat apply goods_app; auto with good. Qed.

Lemma bootstrap_good b : boot_ranges b -> good 3 (JObj (bootstrap_members b)).
Proof.
  intros (Hv & Hs & Ht & Hn). apply (good_object 2); [done|]. unfold bootstrap_members. repeat apply goods_app; auto with good.
  - apply goods_member, (good_weaken 1); [lia|]. apply (good_object 0); [done|]. auto with good.
  - by apply goods_member, backend_good.
  - destruct (bs_Node b) as [n|]; [|apply goods_nil]. apply goods_member, (good_weaken 1); [lia|]. by apply boot_node_good.
Qed.

Section reads.
Context `{UnicodeTables}.

Lemma backend_reads_back b : int64 (b_TTL b) ->
  into_struct backend_fields (json_clean (JObj (backend_members b))) zero_backend = Some (clean_backend b).
Proof.
  intros Ht. change (into_members backend_fields (clean_members (backend_members b)) zero_backend = Some (clean_backend b)).
  unfold backend_members. read_struct. reflexivity.
Qed.

Lemma boot_node_reads_back n : int64 (bn_ListenPort n) ->
  into_struct boot_node_fields (json_clean (JObj (boot_node_members n))) zero_boot_node = Some (clean_boot_node n).
Proof.
  intros Hp. change (into_members boot_node_fields (clean_members (boot_node_members n)) zero_boot_node = Some (clean_boot_node n)).
  unfold boot_node_members. read_struct. reflexivity.
Qed.

Lemma bootstrap_reads_back_json b : boot_ranges b ->
  into_struct bootstrap_fields (json_clean (JObj (bootstrap_members b))) zero_bootstrap = Some (clean_bootstrap b).
Proof.
  intros (Hv & Hs & Ht & Hn).
  change (into_members bootstrap_fields (clean_members (bootstrap_members b)) zero_bootstrap = Some (clean_bootstrap b)).
  unfold bootstrap_members. read_struct.
  erewrite read_member by reflexivity. cbn [snd]. change (into_struct ?fs (json_clean (JObj (member ?k (JStr ?s)))) ?a) with
    (into_members fs (clean_members (member k (JStr s) ++ [])) a). erewrite read_string by (reflexivity || record_step). cbn [clean_members map into_members mbind option_bind].
  erewrite read_omit; [|reflexivity|reflexivity|cbn; by rewrite ParseUint_FormatUint by done|by intros ->%Z.eqb_eq].
  erewrite read_member by reflexivity. cbn [snd]. unfold into_part at 1. cbn [bs_Drop]. rewrite backend_reads_back by done. cbn [mbind option_bind].
  destruct (bs_Node b) as [n|] eqn:En.
  - rewrite <- (app_nil_r (member "node" _)). erewrite read_member by reflexivity. cbn [snd]. unfold into_pointer at 1. cbn [json_clean].
    change (JObj (map ?f (boot_node_members n))) with (json_clean (JObj (boot_node_members n))). cbn [bs_Node default].
    rewrite boot_node_reads_back by done. unfold clean_bootstrap. by rewrite En.
  - unfold clean_bootstrap. by rewrite En.
Qed.
End reads.

(** ** Whole bootstraps *)

(** Every text of the file is UTF-8. *)
Definition backend_texts (b : DropBackend) : list string :=
  [b_Type b; b_Endpoint b; b_Region b; b_Bucket b; b_ObjectKey b; b_AccessKey b; b_SecretKey b; b_URL b; b_Username b; b_Password b;
   b_Path b; b_Provider b; b_Zone b; b_RecordName b; b_APIToken b; b_AppKey b; b_AppSecret b; b_ConsumerKey b; b_Resolver b; b_Author b;
   b_Nsec b; b_Identifier b] ++ b_Relays b.
Definition boot_node_texts (n : BootNode) : list string :=
  [bn_Name n; bn_TunnelIP n; bn_PublicKey n; bn_PrivateKey n; bn_AgeIdentity n].
Definition boot_utf8 (b : Bootstrap) : Prop :=
  Forall (fun s => utf8_Valid s = true)
    (bs_PublisherPubKey b :: backend_texts (bs_Drop b) ++ from_option boot_node_texts [] (bs_Node b)).

Lemma clean_backend_id b : Forall (fun s => utf8_Valid s = true) (backend_texts b) -> clean_backend b = b.
Proof.
  intros [Ht Hr]%Forall_app. repeat (apply Forall_cons in Ht as [? Ht]).
  unfold clean_backend. rewrite !clean_valid, clean_all by done. by destruct b.
Qed.

Lemma clean_boot_node_id n : Forall (fun s => utf8_Valid s = true) (boot_node_texts n) -> clean_boot_node n = n.
Proof. intros Ht. repeat (apply Forall_cons in Ht as [? Ht]). unfold clean_boot_node. rewrite !clean_valid by done. by destruct n. Qed.

Lemma clean_bootstrap_id b : boot_utf8 b -> clean_bootstrap b = b.
Proof.
  intros [Hp [Hd Hn]%Forall_app]%Forall_cons. unfold clean_bootstrap. rewrite clean_valid, clean_backend_id by done.
  destruct b as [v p s d [n|]]; cbn in *; [|done]. by rewrite clean_boot_node_id.
Qed.

Section file.
Context `{UnicodeTables}.

Lemma bootstrap_Write_data b : bootstrap_Write b (Ok tt) (Ok tt) = Ok (bootstrap_data b).
Proof. done. Qed.

Lemma bootstrap_data_read b : boot_ranges b ->
  json_Unmarshal (into_struct bootstrap_fields) (bootstrap_data b) zero_bootstrap = Some (clean_bootstrap b).
Proof.
  intros Hb. rewrite <- (bootstrap_reads_back_json b Hb). unfold bootstrap_data.
  eapply proj2, Unmarshal_text; [by apply bootstrap_good|done|reflexivity].
Qed.

Lemma bootstrap_Read_data data b : json_Unmarshal (into_struct bootstrap_fields) data zero_bootstrap = Some b ->
  bootstrap_Read (Ok data) = (if bs_SchemaVersion b =? bootstrap_SchemaVersion then Ok b
    else Err (errors_New "bootstrap schema version %d not supported (expected %d)")).
Proof.
  intros Hr. unfold bootstrap_Read, wrap_err, mbind, result_bind. rewrite Hr. unfold of_option, guard_err.
  by destruct (bs_SchemaVersion b =? _).
Qed.
End file.

(** C38: the enrollment file is read back as it was written.  Whatever the drop and the
    node it carries (empty fields and the pointer of the TLS setting included, each
    left out or written as its tag says), with every quote, control byte and HTML
    character escaped: [Read] of the indented text of [Write] gives the same
    bootstrap, down to bytes that are no UTF-8, which encoding/json replaces, and
    refuses one of another schema version.  A failed directory or file is reported
    by [Write], and by [Read], under its own message. *)
Theorem bootstrap_reads_back `{UnicodeTables} b : boot_ranges b ->
  bootstrap_Read (bootstrap_Write b (Ok tt) (Ok tt)) =
    (if bs_SchemaVersion b =? bootstrap_SchemaVersion then Ok (clean_bootstrap b)
     else Err (errors_New "bootstrap schema version %d not supported (expected %d)")) /\
  (boot_utf8 b -> bs_SchemaVersion b = bootstrap_SchemaVersion ->
    bootstrap_Read (bootstrap_Write b (Ok tt) (Ok tt)) = Ok b) /\
  (forall e written, bootstrap_Write b (Err e) written = Err (Errorf "create bootstrap directory: %w" [e])) /\
  (forall e, bootstrap_Read (Err e) = Err (Errorf "read bootstrap: %w" [e])).
Proof.
  intros Hb. rewrite bootstrap_Write_data. assert (bootstrap_Read (Ok (bootstrap_data b)) = _) as Hread by (eapply bootstrap_Read_data, bootstrap_data_read, Hb).
  split; [by rewrite Hread|]. split; [|done].
  intros Hu Hv. rewrite Hread, clean_bootstrap_id by done. by rewrite Hv.
Qed.

Definition toy_bootstrap : Bootstrap := {|
  bs_SchemaVersion := 2; bs_PublisherPubKey := "pub<&>"; bs_Serial := max_uint64;
  bs_Drop := {| b_Type := "s3"; b_Endpoint := "https://s3"; b_Region := ""; b_Bucket := "b"; b_ObjectKey := "dir\blob"; b_AccessKey := "";
    b_SecretKey := ""; b_TLS := Some false; b_URL := ""; b_Username := ""; b_Password := ""; b_Path := ""; b_Provider := ""; b_Zone := "";
    b_RecordName := ""; b_APIToken := ""; b_AppKey := ""; b_AppSecret := ""; b_ConsumerKey := ""; b_TTL := 0; b_Resolver := "";
    b_Relays := ["wss://a"; "wss://b"]; b_Author := ""; b_Nsec := ""; b_Identifier := "" |};
  bs_Node := Some {| bn_Name := "laptop"; bn_TunnelIP := "10.0.0.2"; bn_ListenPort := 51820; bn_PublicKey := "k="; bn_PrivateKey := "";
    bn_AgeIdentity := "" |} |}.

Lemma bootstrap_reads_back_witness :
  bootstrap_Read (H := ascii_tables) (bootstrap_Write toy_bootstrap (Ok tt) (Ok tt)) = Ok toy_bootstrap.
Proof.
  refine (proj1 (proj2 (bootstrap_reads_back (H := ascii_tables) toy_bootstrap _)) _ _).
  - repeat split; cbv; discriminate.
  - repeat constructor.
  - reflexivity.
Defined.
