(* ===== verification/Drop.v ===== *)
(** * Drop: internal/drop/errors.go, file.go, http.go and s3.go

    The dead drops that hold one object.  What the filesystem, the HTTP client
    and the S3 client answer is an argument; what is modelled is what the drop
    makes of it: the sentinel it maps a failure to and the bound on the bytes it
    accepts. *)
From stdpp Require Import base tactics option list strings.
From Stdlib Require Import Ascii ZArith Lia.
From S2P Require Import Prelude GoStrings GoNum GoBase64 Keys Directory Wire Codec.
Open Scope Z_scope.

Definition drop_ErrNotFound : error := Sentinel "drop.ErrNotFound".
Definition drop_ErrReadOnly : error := Sentinel "drop.ErrReadOnly".
Definition drop_ErrAuth : error := Sentinel "drop.ErrAuth".
Definition drop_ErrForbidden : error := Sentinel "drop.ErrForbidden".
Definition is_not_found (e : error) : bool := errors_Is e "drop.ErrNotFound".

(** [io.ReadAll(io.LimitReader(r, n))]: the first [n] bytes. *)
Fixpoint io_ReadLimited (s : string) (n : Z) : string :=
  match s with
  | EmptyString => EmptyString
  | String c s => if n <=? 0 then EmptyString else String c (io_ReadLimited s (n - 1))
  end.

(** Reading an object: at most one byte past the bound.  [body] is its bytes, or
    the error met within that many of them. *)
Definition read_object (wrap : error -> error) (body : result string) : result string :=
  body ← wrap_err wrap body;
  let data := io_ReadLimited body (MaxBlobSize + 1) in
  guard_err (MaxBlobSize <? len data) (errors_New "dead-drop object exceeds %d bytes")
  (Ok data).

(** ** file.go *)

(** [open] is what opening the path gives, and inside it what reading gives. *)
Definition file_Get (ctx : result unit) (open : result (result string)) : result string :=
  _ ← ctx;
  match open with
  | Err e => if errors_Is e "os.ErrNotExist" then Err drop_ErrNotFound
             else Err (Errorf "read file drop: %w" [e])
  | Ok body => read_object (fun e => Errorf "read file drop: %w" [e]) body
  end.

Definition file_Put (ctx : result unit) (mkdir write : result unit) : result unit :=
  _ ← ctx;
  _ ← wrap_err (fun e => Errorf "create file drop directory: %w" [e]) mkdir;
  wrap_err (fun e => Errorf "write file drop: %w" [e]) write.

(** ** http.go *)

Definition httpStatusError (status : Z) : result unit :=
  if status =? 404 then Err drop_ErrNotFound
  else if status =? 401 then Err drop_ErrAuth
  else if status =? 403 then Err drop_ErrForbidden
  else if (status <? 200) || (300 <=? status) then Err (errors_New "dead-drop HTTP status %d")
  else Ok tt.

Record HttpResponse := { resp_StatusCode : Z; resp_ContentLength : Z; resp_Body : result string }.

Definition http_Get (request : result unit) (do : result HttpResponse) : result string :=
  _ ← wrap_err (fun e => Errorf "create HTTP GET: %w" [e]) request;
  resp ← wrap_err (fun e => Errorf "HTTP GET: %w" [e]) do;
  _ ← httpStatusError (resp_StatusCode resp);
  guard_err (MaxBlobSize <? resp_ContentLength resp) (errors_New "dead-drop object is %d bytes (max %d)")
  (read_object (fun e => Errorf "read HTTP response: %w" [e]) (resp_Body resp)).

Definition http_Put : result unit := Err drop_ErrReadOnly.

(** ** s3.go *)

(** An error of the S3 client, with the response [ToErrorResponse] reads in it. *)
Record S3Error := { s3_err : error; s3_StatusCode : Z; s3_Code : string }.

Definition s3_auth_codes : list string :=
  ["SignatureDoesNotMatch"; "InvalidAccessKeyId"; "InvalidSecurity"; "ExpiredToken"; "TokenRefreshRequired"].

Definition mapS3Err (e : S3Error) : error :=
  if s3_StatusCode e =? 0 then s3_err e
  else if s3_StatusCode e =? 401 then drop_ErrAuth
  else if s3_StatusCode e =? 403 then
    if existsb (String.eqb (s3_Code e)) s3_auth_codes then drop_ErrAuth
    else Errorf "%w: object not readable — check the bucket policy or object ACL" [drop_ErrForbidden]
  else if s3_StatusCode e =? 404 then drop_ErrNotFound
  else s3_err e.

(** What the S3 client answers: a value or its error. *)
Definition s3_result (A : Type) : Type := A + S3Error.

Definition s3_Get (object : s3_result (s3_result string)) : result string :=
  match object with
  | inr e => Err (mapS3Err e)
  | inl (inr e) => Err (mapS3Err e)
  | inl (inl body) => read_object (fun e => e) (Ok body)
  end.

Definition s3_Put (put : s3_result unit) : result unit :=
  match put with inl _ => Ok tt | inr e => Err (mapS3Err e) end.

(** ** Bounds and error mapping *)

Lemma ReadLimited_length s : forall n, 0 <= n -> len (io_ReadLimited s n) = Z.min n (len s).
Proof.
  induction s as [|c s IH]; intros n Hn; cbn [io_ReadLimited]; [by unfold len; simpl; lia|].
  destruct (Z.leb_spec n 0); [unfold len; simpl; lia|]. unfold len in *. simpl. rewrite Nat2Z.inj_succ, IH by lia. lia.
Qed.

Lemma ReadLimited_id s : forall n, len s <= n -> io_ReadLimited s n = s.
Proof.
  induction s as [|c s IH]; intros n Hn; [done|]. unfold len in *. cbn [io_ReadLimited]. simpl in Hn.
  destruct (Z.leb_spec n 0); [lia|]. f_equal. apply IH. lia.
Qed.

Lemma read_object_Ok wrap body data : read_object wrap body = Ok data <-> body = Ok data /\ len data <= MaxBlobSize.
Proof.
  assert (Hm : 0 <= MaxBlobSize) by done. unfold read_object. split.
  - intros (b & ->%wrap_err_Ok & [Hl [= <-]]%guard_err_Ok)%bind_Ok. apply Z.ltb_ge in Hl.
    rewrite ReadLimited_length in Hl by lia. rewrite ReadLimited_id by lia. split; [done|]. lia.
  - intros [-> Hl]. apply bind_Ok. exists data. split; [done|]. rewrite ReadLimited_id by lia.
    apply guard_err_Ok. split; [by apply Z.ltb_ge|done].
Qed.

(** The drops that hold one object hand over exactly the bytes stored there,
    and only when they fit the bound: whatever the length header claims and
    however long the body is, nothing larger is returned and nothing is cut. *)
Theorem object_drops_bounded data :
  (forall ctx open, file_Get ctx open = Ok data <->
     ctx = Ok tt /\ open = Ok (Ok data) /\ len data <= MaxBlobSize) /\
  (forall request do, http_Get request do = Ok data <->
     request = Ok tt /\ len data <= MaxBlobSize /\
     exists resp, do = Ok resp /\ 200 <= resp_StatusCode resp < 300 /\
       resp_ContentLength resp <= MaxBlobSize /\ resp_Body resp = Ok data) /\
  (forall object, s3_Get object = Ok data <-> object = inl (inl data) /\ len data <= MaxBlobSize).
Proof.
  split; [|split].
  - intros ctx open. unfold file_Get. split.
    + intros ([] & -> & Hx)%bind_Ok. destruct open as [body|e]; [|by destruct (errors_Is _ _)].
      apply read_object_Ok in Hx as [-> Hl]. done.
    + intros (-> & -> & Hl). cbn [mbind result_bind]. by apply read_object_Ok.
  - intros request do. unfold http_Get. split.
    + intros ([] & ->%wrap_err_Ok & (resp & ->%wrap_err_Ok & ([] & Hs & [Hc [Hb Hl]%read_object_Ok]%guard_err_Ok)%bind_Ok)%bind_Ok)%bind_Ok.
      split_and!; [done|done|]. exists resp. apply Z.ltb_ge in Hc. split_and!; try done;
      unfold httpStatusError in Hs; repeat case_match; try done; bool_solve; lia.
    + intros (-> & Hl & resp & -> & [Hs1 Hs2] & Hc & Hb). apply bind_Ok. exists tt. split; [done|].
      apply bind_Ok. exists resp. split; [done|]. apply bind_Ok. exists tt. split.
      * unfold httpStatusError. rewrite !(proj2 (Z.eqb_neq _ _)) by lia.
        by rewrite (proj2 (Z.ltb_ge _ _)), (proj2 (Z.leb_gt _ _)) by lia.
      * apply guard_err_Ok. split; [by apply Z.ltb_ge|]. by apply read_object_Ok.
  - intros object. unfold s3_Get. destruct object as [[body|e]|e].
    + rewrite read_object_Ok. split; [by intros [[= ->] ?]|by intros [[= ->] ?]].
    + split; [done|]. by intros [? _].
    + split; [done|]. by intros [? _].
Qed.
