(* ===== verification/DropDns.v ===== *)
(** * DropDns: internal/drop/dns.go

    The dead drop kept in DNS TXT records: the sealed directory split into
    numbered chunks, reassembled whatever order the records come in, and
    published by reconciling the records a provider lists.  The resolver's
    answer and the provider's API are parameters. *)
From stdpp Require Import base tactics option list strings sorting.
From Stdlib Require Import Ascii ZArith Lia.
From S2P Require Import Prelude GoStrings GoNum GoNet GoBase64 Keys Directory Wire Codec Drop.
Open Scope Z_scope.

Definition chunkPrefix : string := "tc1".
Definition dataPerChunk : Z := 220.
Definition maxDNSChunks : Z := 100.

(** The separator written after the prefix and the numbers. *)
Definition semi (s : string) : string := String ";" s.

Definition chunk_text (seq total : Z) (data : string) : string :=
  chunkPrefix +:+ semi (strconv_Itoa seq +:+ semi (strconv_Itoa total +:+ semi data)).

(** [encoded[start:end]] of the chunk [seq]. *)
Definition chunk_data (encoded : string) (seq : nat) : string :=
  string_take 220 (string_drop (220 * seq) encoded).

Definition chunk_total (encoded : string) : Z :=
  let total := (len encoded + dataPerChunk - 1) / dataPerChunk in
  if total =? 0 then 1 else total.

Definition chunkBlob (blob : string) : result (list string) :=
  let encoded := base64_Encode RawURLEncoding blob in
  let total := chunk_total encoded in
  guard_err (maxDNSChunks <? total)
    (errors_New "directory too large for dns drop: needs %d TXT records, max %d")
  (Ok ((fun i => chunk_text (Z.of_nat i) total (chunk_data encoded i)) <$> seq 0 (Z.to_nat total))).

Definition is_tincan (value : string) : bool := strings_HasPrefix value (chunkPrefix +:+ ";").

Record part := { p_seq : Z; p_data : string }.

(** The loop of [reassembleChunks]: the parts seen, in order, and the total. *)
Fixpoint collect_parts (values : list string) (parts : list part) (total : Z) : result (list part * Z) :=
  match values with
  | [] => Ok (parts, total)
  | v :: values =>
      if negb (is_tincan v) then collect_parts values parts total else
      match strings_SplitN ";" 4 v with
      | [_; f1; f2; f3] =>
          seq ← of_option (errors_New "dns drop: bad chunk seq %q: %w") (strconv_Atoi f1);
          t ← of_option (errors_New "dns drop: bad chunk total %q: %w") (strconv_Atoi f2);
          guard_err (negb (total =? -1) && negb (total =? t))
            (errors_New "dns drop: inconsistent chunk totals (%d vs %d)")
          (collect_parts values (parts ++ [{| p_seq := seq; p_data := f3 |}]) t)
      | _ => Err (errors_New "dns drop: malformed chunk %q")
      end
  end.

(** [sort.Slice] by sequence number; how it orders equal numbers does not matter,
    since they are rejected. *)
Definition part_le (p q : part) : Prop := p_seq p <= p_seq q.
#[export] Instance part_le_dec : RelDecision part_le.
Proof. intros p q. unfold part_le. apply _. Defined.
#[export] Instance part_le_total : Total part_le.
Proof. intros p q. unfold part_le. lia. Qed.
#[export] Instance part_le_trans : Transitive part_le.
Proof. intros p q r. unfold part_le. lia. Qed.

Definition sort_parts (parts : list part) : list part := merge_sort part_le parts.

Fixpoint join_parts (parts : list part) (i : Z) : result string :=
  match parts with
  | [] => Ok ""
  | p :: parts =>
      guard_err (negb (p_seq p =? i)) (errors_New "dns drop: chunk sequence gap or duplicate near index %d")
      (rest ← join_parts parts (i + 1); Ok (p_data p +:+ rest))
  end.

Definition reassembleChunks (values : list string) : result string :=
  '(parts, total) ← collect_parts values [] (-1);
  guard_err (Nat.eqb (length parts) 0) drop_ErrNotFound
  (guard_err (total <=? 0) (errors_New "dns drop: invalid chunk total %d")
   (guard_err (negb (Z.of_nat (length parts) =? total)) (errors_New "dns drop: incomplete directory: have %d of %d chunks")
    (sb ← join_parts (sort_parts parts) 0;
     of_option (errors_New "dns drop: decode chunks: %w") (base64_Decode RawURLEncoding sb)))).

(** ** Names and lookups *)

Definition txtFQDN (name zone : string) : string :=
  let name := strings_TrimSuffix name "." in
  let zone := strings_TrimSuffix zone "." in
  if String.eqb name "" || String.eqb name "@" then zone else name +:+ "." +:+ zone.

(** The resolver's address, with the default port. *)
Definition resolver_addr (addr : string) : string :=
  match net_SplitHostPort addr with
  | Some _ => addr
  | None => net_JoinHostPort addr "53"
  end.

Definition is_dns_not_found (e : error) : bool := errors_Is e "net.DNSError.IsNotFound".
Definition mapLookupErr (e : error) : error := if is_dns_not_found e then drop_ErrNotFound else e.

Definition dns_Get (lookup : result (list string)) : result string :=
  values ← wrap_err mapLookupErr lookup;
  reassembleChunks values.

(** ** Chunking and reassembly *)

Lemma SplitN_cut c n s r : lacks c s = true ->
  strings_SplitN c (S (S n)) (s +:+ String c r) = s :: strings_SplitN c (S n) r.
Proof.
  intros Hl. assert (Hi : strings_IndexByte c (s +:+ String c r) = Some (String.length s)).
  { by apply IndexByte_app. }
  assert (Hd : string_drop (S (String.length s)) (s +:+ String c r) = r).
  { clear. induction s as [|d s IH]; [done|]. exact IH. }
  change (strings_SplitN c (S (S n)) (s +:+ String c r)) with
    (match strings_IndexByte c (s +:+ String c r) with
     | Some i => string_take i (s +:+ String c r) :: strings_SplitN c (S n) (string_drop (S i) (s +:+ String c r))
     | None => [s +:+ String c r]
     end).
  by rewrite Hi, string_take_app, Hd.
Qed.

Lemma Itoa_semi n : lacks ";" (strconv_Itoa n) = true.
Proof. by apply Itoa_lacks. Qed.

Lemma chunk_split i t d : strings_SplitN ";" 4 (chunk_text i t d) = [chunkPrefix; strconv_Itoa i; strconv_Itoa t; d].
Proof.
  unfold chunk_text, semi. rewrite SplitN_cut by done. rewrite SplitN_cut by apply Itoa_semi.
  by rewrite SplitN_cut by apply Itoa_semi.
Qed.

Lemma chunk_is_tincan i t d : is_tincan (chunk_text i t d) = true.
Proof. exact (HasPrefix_app (chunkPrefix +:+ ";") _). Qed.

Lemma collect_foreign values : forall parts total,
  collect_parts values parts total = collect_parts (List.filter is_tincan values) parts total.
Proof.
  induction values as [|v values IH]; intros parts total; [done|]. cbn [List.filter].
  destruct (is_tincan v) eqn:E; cbn [collect_parts]; rewrite ?E; cbn [negb]; [|apply IH].
  destruct (strings_SplitN ";" 4 v) as [|f0 [|f1 [|f2 [|f3 [|]]]]]; try done.
  destruct (strconv_Atoi f1), (strconv_Atoi f2); try done. cbn [of_option mbind result_bind].
  destruct (negb (total =? -1) && negb (total =? z0)); [done|]. apply IH.
Qed.

(** The parts of one set of chunks, taken in any order. *)
Definition mk_part (data : nat -> string) (i : nat) : part := {| p_seq := Z.of_nat i; p_data := data i |}.

Lemma collect_chunks data t ix : forall parts total,
  0 <= t <= max_int64 -> Forall (fun i => Z.of_nat i <= max_int64) ix -> total = -1 \/ total = t ->
  collect_parts ((fun i => chunk_text (Z.of_nat i) t (data i)) <$> ix) parts total =
    Ok (parts ++ (mk_part data <$> ix), match ix with [] => total | _ => t end).
Proof.
  induction ix as [|i ix IH]; intros parts total Ht Hi Htot; [by rewrite app_nil_r|].
  apply Forall_cons in Hi as [Hi Hr]. rewrite !fmap_cons. cbn [collect_parts].
  rewrite chunk_is_tincan, chunk_split. cbn [negb]. rewrite !Atoi_Itoa_nonneg by lia. cbn [of_option mbind result_bind].
  assert (negb (total =? -1) && negb (total =? t) = false) as ->.
  { destruct Htot as [->| ->]; [done|]. by rewrite Z.eqb_refl, andb_false_r. }
  cbn [guard_err]. rewrite IH by auto. rewrite <- (assoc_L (++)). simpl. by destruct ix.
Qed.

Lemma sort_mk_parts data n l : l ≡ₚ mk_part data <$> seq 0 n -> sort_parts l = mk_part data <$> seq 0 n.
Proof.
  intros Hp. unfold sort_parts. pose proof (merge_sort_Permutation part_le l) as Hq.
  assert (Hs : StronglySorted part_le (merge_sort part_le l)) by apply (StronglySorted_merge_sort part_le).
  set (m := merge_sort part_le l) in *. clearbody m. rewrite Hp in Hq. clear Hp l.
  assert (Hk : p_seq <$> m = Z.of_nat <$> seq 0 n).
  { apply (StronglySorted_unique (≤)).
    - clear Hq. induction Hs as [|x m Hs IH Hx]; [constructor|]. rewrite fmap_cons. constructor; [done|].
      apply Forall_fmap. eapply Forall_impl; [exact Hx|]. done.
    - clear. generalize 0%nat. induction n as [|n IH]; intros k; [constructor|]. cbn. constructor; [apply IH|].
      apply Forall_fmap, Forall_forall. intros x Hx%elem_of_seq. cbn. lia.
    - rewrite Hq, <- list_fmap_compose. done. }
  assert (Hm : Forall (fun q => q = mk_part data (Z.to_nat (p_seq q))) m).
  { rewrite Hq. apply Forall_fmap, Forall_forall. intros i _. unfold mk_part. cbn. by rewrite Nat2Z.id. }
  assert (Hr : m = (fun z => mk_part data (Z.to_nat z)) <$> (p_seq <$> m)).
  { rewrite <- list_fmap_compose. clear -Hm. induction Hm as [|q m Hq _ IH]; [done|]. rewrite fmap_cons, <- IH. by f_equal. }
  rewrite Hr, Hk, <- list_fmap_compose. apply list_fmap_ext. intros i x _. cbn. by rewrite Nat2Z.id.
Qed.

Fixpoint concat_data (data : nat -> string) (k n : nat) : string :=
  match n with
  | O => ""
  | S n => data k +:+ concat_data data (S k) n
  end.

Lemma join_mk_parts data n : forall k,
  join_parts (mk_part data <$> seq k n) (Z.of_nat k) = Ok (concat_data data k n).
Proof.
  induction n as [|n IH]; intros k; [done|]. cbn [seq fmap list_fmap join_parts mk_part p_seq p_data].
  rewrite Z.eqb_refl. cbn [negb guard_err]. replace (Z.of_nat k + 1) with (Z.of_nat (S k)) by lia.
  change (list_fmap _ _ (mk_part data) (seq (S k) n)) with (mk_part data <$> seq (S k) n). by rewrite IH.
Qed.

Lemma string_drop_drop a : forall b s, string_drop a (string_drop b s) = string_drop (b + a) s.
Proof. intros b. induction b as [|b IH]; intros s; [done|]. destruct s; [by destruct a|]. apply IH. Qed.

Lemma concat_chunks e n : forall k, (String.length e <= 220 * (k + n))%nat ->
  concat_data (chunk_data e) k n = string_drop (220 * k) e.
Proof.
  induction n as [|n IH]; intros k Hl.
  - cbn [concat_data]. assert (String.length (string_drop (220 * k) e) = 0%nat) as Hz by (rewrite string_length_drop; lia).
    by destruct (string_drop (220 * k) e).
  - cbn [concat_data]. rewrite IH by lia. unfold chunk_data.
    replace (220 * S k)%nat with (220 * k + 220)%nat by lia. rewrite <- string_drop_drop. apply string_take_drop.
Qed.

Lemma chunk_total_bound e : 1 <= chunk_total e /\ len e <= 220 * chunk_total e.
Proof.
  assert (0 <= len e) by (unfold len; lia). unfold chunk_total, dataPerChunk.
  pose proof (Z.div_mod (len e + 220 - 1) 220 ltac:(lia)) as Hd.
  pose proof (Z.mod_pos_bound (len e + 220 - 1) 220 ltac:(lia)) as Hm.
  destruct (Z.eqb_spec ((len e + 220 - 1) / 220) 0); lia.
Qed.

(** ** What reassembly accepts *)

(** A chunk as it is read: its number, the total it claims and its data. *)
Definition read_chunk (v : string) : option (part * Z) :=
  match strings_SplitN ";" 4 v with
  | [_; f1; f2; f3] =>
      seq ← strconv_Atoi f1; t ← strconv_Atoi f2; Some ({| p_seq := seq; p_data := f3 |}, t)
  | _ => None
  end.

Lemma collect_inv values : forall parts total ps t,
  collect_parts values parts total = Ok (ps, t) ->
  exists cs, ps = parts ++ (fst <$> cs) /\
    Forall2 (fun v c => read_chunk v = Some c) (List.filter is_tincan values) cs /\
    (cs = [] -> t = total) /\ (total <> -1 -> t = total) /\ (t <> -1 -> Forall (fun c => snd c = t \/ snd c = -1) cs).
Proof.
  induction values as [|v values IH]; intros parts total ps t.
  { intros [= <- <-]. exists []. rewrite app_nil_r. by split_and!. }
  cbn [collect_parts List.filter]. destruct (is_tincan v); cbn [negb]; [|apply IH].
  unfold read_chunk.
  destruct (strings_SplitN ";" 4 v) as [|f0 [|f1 [|f2 [|f3 [|]]]]] eqn:Es; try done.
  intros (sq & Hsq%of_option_Ok & (t0 & Ht0%of_option_Ok & [Hg Hc]%guard_err_Ok)%bind_Ok)%bind_Ok.
  apply IH in Hc as (cs & -> & Hf & Hn & Ht & Hall). exists (({| p_seq := sq; p_data := f3 |}, t0) :: cs).
  rewrite <- (assoc_L (++)). split; [done|]. split.
  { constructor; [|done]. by rewrite Es, Hsq, Ht0. }
  apply andb_false_iff in Hg. rewrite !negb_false_iff, !Z.eqb_eq in Hg.
  split; [done|]. split.
  - intros Hne. destruct Hg as [->| ->]; [done|]. destruct cs as [|c cs]; [by apply Hn|]. by apply Ht.
  - intros Hne. constructor; [|by apply Hall]. cbn. destruct (Z.eq_dec t0 (-1)); [by right|left]. symmetry. by apply Ht.
Qed.

Lemma join_parts_inv ps : forall i sb,
  join_parts ps i = Ok sb ->
  sb = foldr (fun p r => p_data p +:+ r) "" ps /\ p_seq <$> ps = (fun j => i + Z.of_nat j) <$> seq 0 (length ps).
Proof.
  induction ps as [|p ps IH]; intros i sb; [by intros [= <-]|]. cbn [join_parts].
  intros [Hp (rest & Hr & [= <-])%bind_Ok]%guard_err_Ok. apply negb_false_iff, Z.eqb_eq in Hp.
  apply IH in Hr as [-> Hs]. split; [done|]. rewrite fmap_cons, Hs. cbn. f_equal; [lia|].
  rewrite <- (fmap_S_seq 0), <- list_fmap_compose. apply list_fmap_ext. intros j x _. cbn. lia.
Qed.

(** A complete set: chunks numbered from 0 without gap or duplicate, as many as
    claimed. *)
Definition complete (cs : list (part * Z)) (ds : list string) : Prop :=
  0 < Z.of_nat (length cs) /\ p_data <$> (sort_parts (fst <$> cs)) = ds /\
  p_seq <$> (sort_parts (fst <$> cs)) = Z.of_nat <$> seq 0 (length cs).

Lemma reassemble_inv values blob :
  reassembleChunks values = Ok blob ->
  exists cs ds, Forall2 (fun v c => read_chunk v = Some c) (List.filter is_tincan values) cs /\ complete cs ds /\
    base64_Decode RawURLEncoding (foldr String.append "" ds) = Some blob /\
    Forall (fun c => snd c = Z.of_nat (length cs) \/ snd c = -1) cs.
Proof.
  unfold reassembleChunks. intros ([ps t] & Hc & Hx)%bind_Ok.
  apply guard_err_Ok in Hx as [Hlen [Ht [Hn (sb & Hj & Hd%of_option_Ok)%bind_Ok]%guard_err_Ok]%guard_err_Ok].
  apply Nat.eqb_neq in Hlen. apply Z.leb_gt in Ht. apply negb_false_iff, Z.eqb_eq in Hn.
  apply collect_inv in Hc as (cs & -> & Hf & _ & _ & Hall). cbn [app] in *. rewrite length_fmap in Hlen, Hn.
  exists cs, (p_data <$> sort_parts (fst <$> cs)). split; [done|]. apply join_parts_inv in Hj as [-> Hs].
  assert (Hl : length (sort_parts (fst <$> cs)) = length cs).
  { unfold sort_parts. by rewrite merge_sort_Permutation, length_fmap. }
  rewrite Hl in Hs. split; [split; [lia|split; [done|]]|split].
  - rewrite Hs. by apply list_fmap_ext.
  - rewrite <- Hd. f_equal. clear. by induction (sort_parts _) as [|q l IH]; [|cbn; rewrite <- IH].
  - rewrite Hn. apply Hall. lia.
Qed.

(** The chunks of a blob, as records at the name among unrelated ones. *)
Lemma reassemble_chunks blob chunks values :
  chunkBlob blob = Ok chunks -> List.filter is_tincan values ≡ₚ chunks -> reassembleChunks values = Ok blob.
Proof.
  unfold chunkBlob. cbv zeta. set (e := base64_Encode RawURLEncoding blob). intros [Hmax [= <-]]%guard_err_Ok Hp.
  apply Z.ltb_ge in Hmax. destruct (chunk_total_bound e) as [Hpos Hlen].
  set (n := Z.to_nat (chunk_total e)) in *. assert (Hn : chunk_total e = Z.of_nat n) by lia.
  unfold reassembleChunks. rewrite collect_foreign.
  destruct (Permutation_map_inv (fun i => chunk_text (Z.of_nat i) (chunk_total e) (chunk_data e i)) _ Hp) as (ix & Hix & Hperm).
  rewrite Hix. rewrite (collect_chunks (chunk_data e)); [|unfold max_int64, maxDNSChunks in *; lia| |by left].
  2: { apply Forall_forall. intros i Hi. rewrite <- Hperm in Hi. apply elem_of_seq in Hi. unfold max_int64, maxDNSChunks in *. lia. }
  cbn [mbind result_bind app]. assert (Hl : length ix = n) by (by rewrite <- Hperm, length_seq).
  destruct ix as [|i0 ix]; [simpl in Hl; lia|]. set (jx := i0 :: ix) in *. rewrite length_fmap, Hl.
  rewrite (proj2 (Nat.eqb_neq _ _)) by lia. rewrite (proj2 (Z.leb_gt _ _)) by lia. rewrite Hn, Z.eqb_refl. cbn [guard_err negb].
  rewrite (sort_mk_parts _ n) by (by rewrite Hperm). change 0 with (Z.of_nat 0). rewrite join_mk_parts. cbn [mbind result_bind].
  rewrite concat_chunks by (unfold len in Hlen; lia). cbn [Nat.mul]. apply of_option_Ok, base64_Decode_Encode.
Qed.

Lemma read_chunk_text i t d : 0 <= i <= max_int64 -> 0 <= t <= max_int64 ->
  read_chunk (chunk_text i t d) = Some ({| p_seq := i; p_data := d |}, t).
Proof. intros Hi Ht. unfold read_chunk. by rewrite chunk_split, !Atoi_Itoa_nonneg. Qed.

(** Records that all stem from one publish reassemble only as a whole. *)
Lemma reassemble_only_whole blob chunks values blob' :
  chunkBlob blob = Ok chunks -> (forall v, v ∈ List.filter is_tincan values -> v ∈ chunks) ->
  reassembleChunks values = Ok blob' -> List.filter is_tincan values ≡ₚ chunks.
Proof.
  unfold chunkBlob. cbv zeta. set (e := base64_Encode RawURLEncoding blob). intros [Hmax [= <-]]%guard_err_Ok Hin Hr.
  apply Z.ltb_ge in Hmax. destruct (chunk_total_bound e) as [Hpos _].
  apply reassemble_inv in Hr as (cs & ds & Hf & (Hc1 & _ & Hc2) & _ & Hall).
  set (f := fun i => chunk_text (Z.of_nat i) (chunk_total e) (chunk_data e i)) in *.
  assert (Hix : exists ix, List.filter is_tincan values = f <$> ix /\ Forall (fun i => (i < Z.to_nat (chunk_total e))%nat) ix).
  { clear -Hin. induction (List.filter is_tincan values) as [|v vs IH]; [by exists []|].
    destruct IH as (ix & -> & Hx); [intros w Hw; by apply Hin, list_elem_of_further|].
    destruct (proj1 (list_elem_of_fmap _ _ _) (Hin v (list_elem_of_here _ _))) as (i & -> & Hi). exists (i :: ix).
    split; [done|]. constructor; [|done]. apply elem_of_seq in Hi. lia. }
  destruct Hix as (ix & Hv & Hlt). rewrite Hv in Hf |- *.
  assert (Hcs : cs = (fun i => (mk_part (chunk_data e) i, chunk_total e)) <$> ix).
  { clear -Hf Hlt Hmax Hpos. revert cs Hf. induction Hlt as [|i ix Hi _ IH]; intros cs Hf; [by inversion Hf|].
    rewrite fmap_cons in Hf. inversion Hf as [|v c vs cs' Hc Hf' E1 E2]; subst. rewrite fmap_cons. f_equal; [|by apply IH].
    unfold f in Hc. rewrite read_chunk_text in Hc by (unfold maxDNSChunks, max_int64 in *; lia). injection Hc as <-. done. }
  assert (Hn : chunk_total e = Z.of_nat (length cs)).
  { rewrite Hcs in Hall, Hc1 |- *. destruct ix as [|i ix]; [simpl in Hc1; lia|]. apply Forall_cons in Hall as [[Ha|Ha] _]; cbn in *; lia. }
  apply fmap_Permutation. rewrite Hn, Nat2Z.id.
  assert (Hp : Z.of_nat <$> ix ≡ₚ Z.of_nat <$> seq 0 (length cs)).
  { rewrite <- Hc2. unfold sort_parts. rewrite merge_sort_Permutation, Hcs, <- !list_fmap_compose. done. }
  apply (fmap_Permutation Z.to_nat) in Hp. rewrite <- !list_fmap_compose in Hp.
  assert (Hid : forall l : list nat, (Z.to_nat ∘ Z.of_nat) <$> l = l).
  { clear. induction l as [|x l IH]; [done|]. rewrite fmap_cons, IH. cbn. by rewrite Nat2Z.id. }
  by rewrite !Hid in Hp.
Qed.

(** The TXT records of one publish, in whatever order the resolver returns
    them and mixed with whatever else is at the name, give back the blob; and if
    any of them is missing or doubled nothing is returned. *)
Theorem dns_chunks_roundtrip blob chunks values :
  chunkBlob blob = Ok chunks ->
  (List.filter is_tincan values ≡ₚ chunks -> reassembleChunks values = Ok blob) /\
  (forall blob', (forall v, v ∈ List.filter is_tincan values -> v ∈ chunks) ->
     reassembleChunks values = Ok blob' -> blob' = blob /\ List.filter is_tincan values ≡ₚ chunks).
Proof.
  intros Hc. split; [by apply reassemble_chunks|]. intros blob' Hin Hr.
  pose proof (reassemble_only_whole _ _ _ _ Hc Hin Hr) as Hp. split; [|done].
  rewrite (reassemble_chunks _ _ _ Hc Hp) in Hr. congruence.
Qed.

Lemma chunkBlob_sample : chunkBlob "hello" = Ok ["tc1;0;1;aGVsbG8"].
Proof. vm_compute. reflexivity. Qed.

Lemma dns_chunks_roundtrip_witness :
  reassembleChunks ["v=spf1 -all"; "tc1;0;1;aGVsbG8"] = Ok "hello" /\
  List.filter is_tincan ["v=spf1 -all"; "tc1;0;1;aGVsbG8"] ≡ₚ ["tc1;0;1;aGVsbG8"].
Proof.
  destruct (dns_chunks_roundtrip _ _ ["v=spf1 -all"; "tc1;0;1;aGVsbG8"] chunkBlob_sample) as [H1 H2].
  split; [by apply H1|]. apply (H2 "hello"); [|by apply H1]. intros v Hv. exact Hv.
Defined.
