(* ===== verification/DropDnsPut.v ===== *)
(** * DropDnsPut: publishing to TXT records

    [DNS.Put] of internal/drop/dns.go against a provider's API.  The API is the
    class [TxtApi]: what it holds at the name and what each call does to it,
    successful or not, as the interfaces of internal/dnsprovider/provider.go
    document it; a failed call may or may not have taken effect. *)
From stdpp Require Import base tactics option list strings sorting.
From Stdlib Require Import Ascii ZArith Lia.
From S2P Require Import Prelude GoStrings GoNum GoNet GoBase64 Keys Directory Wire Codec Drop DropDns.
Open Scope Z_scope.

Record TXTRecord := { txt_ID : string; txt_Value : string }.

(** Provider, Flusher and Replacer, over the state [S] of the service. *)
Class TxtApi (S : Type) := {
  api_records : S -> list TXTRecord;
  api_ListTXT : S -> S * result (list TXTRecord);
  api_CreateTXT : S -> string -> S * result unit;
  api_UpdateTXT : S -> string -> string -> S * result unit;
  api_DeleteTXT : S -> string -> S * result unit;
  api_ReplaceTXT : option (S -> list string -> S * result unit);
  api_Flush : option (S -> S * result unit) }.

Definition set_value (id value : string) (r : TXTRecord) : TXTRecord :=
  if String.eqb (txt_ID r) id then {| txt_ID := id; txt_Value := value |} else r.

Definition values_at {S} `{TxtApi S} (s : S) : list string := txt_Value <$> api_records s.

(** A call took effect, or it failed and did not. *)
Definition effect_or_failure {S} (s' : S) (r : result unit) (done_ undone : Prop) : Prop :=
  done_ \/ (is_ok r = false /\ undone).

(** Records are changed one by one only where the set cannot be replaced, and the
    values written are not empty. *)
Class TxtApiLaws (S : Type) `{TxtApi S} : Prop := {
  ids_unique s : NoDup (txt_ID <$> api_records s);
  ListTXT_all s s' r : api_ListTXT s = (s', r) ->
    api_records s' ≡ₚ api_records s /\ forall rs, r = Ok rs -> rs ≡ₚ api_records s;
  CreateTXT_adds s v s' r : api_ReplaceTXT = None -> v <> "" -> api_CreateTXT s v = (s', r) ->
    effect_or_failure s' r (exists id, api_records s' ≡ₚ {| txt_ID := id; txt_Value := v |} :: api_records s)
      (api_records s' ≡ₚ api_records s);
  UpdateTXT_sets s id v s' r : api_ReplaceTXT = None -> v <> "" -> api_UpdateTXT s id v = (s', r) ->
    effect_or_failure s' r (api_records s' ≡ₚ set_value id v <$> api_records s) (api_records s' ≡ₚ api_records s);
  DeleteTXT_removes s id s' r : api_ReplaceTXT = None -> api_DeleteTXT s id = (s', r) ->
    effect_or_failure s' r
      (api_records s' ≡ₚ List.filter (fun x => negb (String.eqb (txt_ID x) id)) (api_records s))
      (api_records s' ≡ₚ api_records s);
  ReplaceTXT_sets replace s vs s' r : api_ReplaceTXT = Some replace -> replace s vs = (s', r) ->
    effect_or_failure s' r (values_at s' ≡ₚ vs) (api_records s' ≡ₚ api_records s);
  Flush_keeps flush s s' r : api_Flush = Some flush -> flush s = (s', r) -> api_records s' ≡ₚ api_records s }.

Definition dnsprovider_ErrAuth : error := Sentinel "dnsprovider.ErrAuth".
Definition dnsprovider_ErrNotFound : error := Sentinel "dnsprovider.ErrNotFound".

Definition mapProviderErr (e : error) : error :=
  if errors_Is e "dnsprovider.ErrAuth" then drop_ErrAuth
  else if errors_Is e "dnsprovider.ErrNotFound" then drop_ErrNotFound
  else e.

(** ** The records at the name *)

Definition chunkSeq (value : string) : option Z :=
  match strings_SplitN ";" 4 value with
  | [_; f1; f2; _] =>
      seq ← strconv_Atoi f1;
      if seq <? 0 then None else
      total ← strconv_Atoi f2;
      if total <=? 0 then None else Some seq
  | _ => None
  end.

Record chunkRecord := { cr_record : TXTRecord; cr_seq : option Z; cr_order : Z }.

(** The comparison of the stable sort: numbered chunks first, by number, then in
    the order they were listed. *)
Definition chunk_less (a b : chunkRecord) : bool :=
  match cr_seq a, cr_seq b with
  | Some _, None => true
  | None, Some _ => false
  | Some x, Some y => if x =? y then cr_order a <? cr_order b else x <? y
  | None, None => cr_order a <? cr_order b
  end.

Definition chunk_le (a b : chunkRecord) : Prop := chunk_less b a = false.
#[export] Instance chunk_le_dec : RelDecision chunk_le.
Proof. intros a b. unfold chunk_le. apply _. Defined.

Fixpoint number_chunks (records : list TXTRecord) (i : Z) : list chunkRecord :=
  match records with
  | [] => []
  | r :: rs =>
      if is_tincan (txt_Value r)
      then {| cr_record := r; cr_seq := chunkSeq (txt_Value r); cr_order := i |} :: number_chunks rs (i + 1)
      else number_chunks rs (i + 1)
  end.

Definition splitTXTRecords (records : list TXTRecord) : list TXTRecord * list TXTRecord :=
  (cr_record <$> merge_sort chunk_le (number_chunks records 0),
   List.filter (fun r => negb (is_tincan (txt_Value r))) records).

Definition mergeForeignTXTValues (foreign : list TXTRecord) (desired : list string) : list string :=
  match foreign with
  | [] => desired
  | _ => (txt_Value <$> foreign) ++ desired
  end.

(** ** Put *)

Section put.
Context {S : Type} `{TxtApi S}.

(** A call of the provider followed by the rest, its errors translated. *)
Definition api_then {A} (sr : S * result unit) (k : S -> S * result A) : S * result A :=
  let '(s, r) := sr in
  match r with Ok _ => k s | Err e => (s, Err (mapProviderErr e)) end.

Fixpoint delete_surplus (existing : list TXTRecord) (changed : bool) (s : S) : S * result bool :=
  match existing with
  | [] => (s, Ok changed)
  | r :: rs => api_then (api_DeleteTXT s (txt_ID r)) (delete_surplus rs true)
  end.

(** Reuse existing records by index, create any shortfall, delete the surplus:
    whether anything was changed. *)
Fixpoint reconcile_txt (existing : list TXTRecord) (desired : list string) (changed : bool) (s : S)
  : S * result bool :=
  match desired with
  | [] => delete_surplus existing changed s
  | v :: ds =>
      match existing with
      | [] => api_then (api_CreateTXT s v) (reconcile_txt [] ds true)
      | r :: rs =>
          if negb (String.eqb (txt_Value r) v)
          then api_then (api_UpdateTXT s (txt_ID r) v) (reconcile_txt rs ds true)
          else reconcile_txt rs ds changed s
      end
  end.

Definition flush_if (changed : bool) (s : S) : S * result unit :=
  if changed then
    match api_Flush with
    | Some flush => api_then (flush s) (fun s => (s, Ok tt))
    | None => (s, Ok tt)
    end
  else (s, Ok tt).

Definition dns_Put (provider : bool) (data : string) (s : S) : S * result unit :=
  if negb provider then (s, Err (Errorf "dns drop for %s has no provider configured: %w" [drop_ErrReadOnly])) else
  match chunkBlob data with
  | Err e => (s, Err e)
  | Ok desired =>
      let '(s, listed) := api_ListTXT s in
      match listed with
      | Err e => (s, Err (mapProviderErr e))
      | Ok existing =>
          match api_ReplaceTXT with
          | Some replace =>
              api_then (replace s (mergeForeignTXTValues (snd (splitTXTRecords existing)) desired))
                (fun s => (s, Ok tt))
          | None =>
              let '(s, r) := reconcile_txt (fst (splitTXTRecords existing)) desired false s in
              match r with
              | Err e => (s, Err e)
              | Ok changed => flush_if changed s
              end
          end
      end
  end.
End put.

(** ** What a publish leaves at the name *)

Definition is_foreign (v : string) : bool := negb (is_tincan v).
Definition foreign_at {S} `{TxtApi S} (s : S) : list string := List.filter is_foreign (values_at s).

Lemma filter_Permutation {A} (f : A -> bool) l1 l2 : l1 ≡ₚ l2 -> List.filter f l1 ≡ₚ List.filter f l2.
Proof.
  induction 1 as [|x l1 l2 _ IH|x y l|l1 l2 l3 _ IH1 _ IH2]; cbn; [done| | |by etrans].
  - destruct (f x); [by apply perm_skip|done].
  - destruct (f x), (f y); try done. apply perm_swap.
Qed.

Lemma filter_all {A} (f : A -> bool) l : Forall (fun x => f x = true) l -> List.filter f l = l.
Proof. induction 1 as [|x l Hx _ IH]; [done|]. cbn. by rewrite Hx, IH. Qed.

Lemma filter_none {A} (f : A -> bool) l : Forall (fun x => f x = false) l -> List.filter f l = [].
Proof. induction 1 as [|x l Hx _ IH]; [done|]. cbn. by rewrite Hx. Qed.

Lemma filter_negb {A} (f : A -> bool) l : Forall (fun x => f x = false) (List.filter (fun x => negb (f x)) l).
Proof. induction l as [|x l IH]; cbn; [constructor|]. destruct (f x) eqn:E; [done|]. by constructor. Qed.

Lemma filter_split {A} (f : A -> bool) l : l ≡ₚ List.filter f l ++ List.filter (fun x => negb (f x)) l.
Proof.
  induction l as [|x l IH]; [done|]. cbn. destruct (f x); cbn; [by apply perm_skip|].
  etrans; [by apply perm_skip, IH|]. apply Permutation_middle.
Qed.

(** A record whose value is a chunk, and one whose value is not. *)
Definition tc (r : TXTRecord) : Prop := is_tincan (txt_Value r) = true.
Definition not_tc (r : TXTRecord) : Prop := is_tincan (txt_Value r) = false.

Lemma chunkBlob_tincan blob chunks : chunkBlob blob = Ok chunks -> Forall (fun v => is_tincan v = true) chunks.
Proof.
  unfold chunkBlob. cbv zeta. intros [_ [= <-]]%guard_err_Ok. apply Forall_fmap, Forall_forall. intros i _.
  apply chunk_is_tincan.
Qed.

Lemma number_chunks_records rs : forall i,
  cr_record <$> number_chunks rs i = List.filter (fun r => is_tincan (txt_Value r)) rs.
Proof.
  induction rs as [|r rs IH]; intros i; [done|]. cbn. destruct (is_tincan (txt_Value r)); [|apply IH].
  rewrite fmap_cons. by f_equal.
Qed.

(** The listed records are sorted out, none lost. *)
Lemma splitTXTRecords_spec rs tincan foreign :
  splitTXTRecords rs = (tincan, foreign) -> rs ≡ₚ tincan ++ foreign /\ Forall tc tincan /\ Forall not_tc foreign.
Proof.
  intros [= <- <-]. assert (Hp : cr_record <$> merge_sort chunk_le (number_chunks rs 0)
    ≡ₚ List.filter (fun r => is_tincan (txt_Value r)) rs).
  { by rewrite merge_sort_Permutation, number_chunks_records. }
  split; [|split].
  - rewrite Hp. apply filter_split.
  - rewrite Hp. apply Forall_forall. intros r [_ Hr]%list_elem_of_In%filter_In. done.
  - apply (filter_negb (fun r => is_tincan (txt_Value r))).
Qed.

Section spec.
Context {S : Type} `{L : TxtApiLaws S}.

(** The records: chunks [T], whatever else there is [F]. *)
Lemma foreign_at_split s T F : api_records s ≡ₚ T ++ F -> Forall tc T -> Forall not_tc F ->
  foreign_at s ≡ₚ txt_Value <$> F.
Proof.
  intros Hp HT HF. unfold foreign_at, values_at. rewrite (filter_Permutation _ _ _ (fmap_Permutation txt_Value _ _ Hp)).
  rewrite fmap_app, List.filter_app, filter_none, filter_all; [done| |]; apply Forall_fmap.
  - eapply Forall_impl; [exact HF|]. intros r Hr. cbn. unfold is_foreign. by rewrite Hr.
  - eapply Forall_impl; [exact HT|]. intros r Hr. cbn. unfold is_foreign. by rewrite Hr.
Qed.

(** Only the record addressed is changed, since no other has its id. *)
Lemma set_value_other id v (l : list TXTRecord) : id ∉ txt_ID <$> l -> set_value id v <$> l = l.
Proof.
  induction l as [|r l IH]; [done|]. rewrite !fmap_cons, not_elem_of_cons. intros [Hr Hl]. rewrite (IH Hl). f_equal.
  unfold set_value. destruct (String.eqb_spec (txt_ID r) id); [by subst|done].
Qed.

Lemma filter_id_other id (l : list TXTRecord) : id ∉ txt_ID <$> l -> List.filter (fun x => negb (String.eqb (txt_ID x) id)) l = l.
Proof.
  induction l as [|r l IH]; [done|]. rewrite fmap_cons, not_elem_of_cons. intros [Hr Hl]. cbn. rewrite (IH Hl).
  destruct (String.eqb_spec (txt_ID r) id); [by subst|done].
Qed.

Lemma id_apart s D r R : api_records s ≡ₚ D ++ r :: R -> txt_ID r ∉ txt_ID <$> D /\ txt_ID r ∉ txt_ID <$> R.
Proof.
  intros Hp. pose proof (ids_unique s) as Hn. rewrite Hp, fmap_app, fmap_cons in Hn. apply NoDup_app in Hn as (_ & Hd & Hn).
  apply NoDup_cons in Hn as [Hn _]. split; [|done]. intros Hr. apply (Hd _ Hr). apply list_elem_of_here.
Qed.

Lemma update_one s D r R v : api_records s ≡ₚ D ++ r :: R ->
  set_value (txt_ID r) v <$> api_records s ≡ₚ (D ++ [{| txt_ID := txt_ID r; txt_Value := v |}]) ++ R.
Proof.
  intros Hp. destruct (id_apart _ _ _ _ Hp) as [HD HR]. rewrite Hp, fmap_app, fmap_cons, !set_value_other by done.
  unfold set_value. by rewrite String.eqb_refl, <- (assoc_L (++)).
Qed.

Lemma delete_one s D r R : api_records s ≡ₚ D ++ r :: R ->
  List.filter (fun x => negb (String.eqb (txt_ID x) (txt_ID r))) (api_records s) ≡ₚ D ++ R.
Proof.
  intros Hp. destruct (id_apart _ _ _ _ Hp) as [HD HR].
  rewrite (filter_Permutation _ _ _ Hp), List.filter_app. cbn [List.filter]. by rewrite String.eqb_refl, !filter_id_other.
Qed.

Lemma api_then_inv {A} (sr : S * result unit) (k : S -> S * result A) s' r :
  api_then sr k = (s', r) -> (is_ok (snd sr) = true /\ k (fst sr) = (s', r)) \/ (is_ok r = false /\ s' = fst sr).
Proof. destruct sr as [s [[]|e]]; cbn; [by left|]. intros [= <- <-]. by right. Qed.

(** A call whose effect and whose failure both keep a state of the shape wanted,
    before the rest runs. *)
Lemma call_cases {A} (sr : S * result unit) (k : S -> S * result A) s' r (dn un : S -> Prop) (Q : S -> result A -> Prop) :
  effect_or_failure (fst sr) (snd sr) (dn (fst sr)) (un (fst sr)) ->
  (forall s1 e, dn s1 \/ un s1 -> Q s1 (Err e)) ->
  (forall s1, dn s1 -> k s1 = (s', r) -> Q s' r) ->
  api_then sr k = (s', r) -> Q s' r.
Proof.
  intros He Hfail Hok. destruct sr as [s1 [[]|e]]; cbn in *.
  - destruct He as [He|[He _]]; [|done]. by apply Hok.
  - intros [= <- <-]. apply Hfail. destruct He as [He|[_ He]]; [by left|by right].
Qed.

(** What the reconciliation leaves: the values outside [F] are the wanted ones
    when it succeeds, those of [F] are never touched. *)
Definition left_at (D : list TXTRecord) (desired : list string) (F : list TXTRecord) (s : S) (r : result bool) : Prop :=
  foreign_at s ≡ₚ txt_Value <$> F /\ (is_ok r = true -> values_at s ≡ₚ (txt_Value <$> D) ++ desired ++ (txt_Value <$> F)).

Lemma delete_surplus_left F existing : api_ReplaceTXT = None -> forall D changed s s' r,
  delete_surplus existing changed s = (s', r) -> api_records s ≡ₚ D ++ existing ++ F ->
  Forall tc D -> Forall tc existing -> Forall not_tc F -> left_at D [] F s' r.
Proof.
  intros Hper. induction existing as [|x rs IH]; intros D changed s s' r Hc Hp HD HE HF.
  - injection Hc as <- <-. split; [by apply (foreign_at_split _ D)|]. intros _. unfold values_at. by rewrite Hp, fmap_app.
  - pose proof HE as HE'. apply Forall_cons in HE as [Hx HE]. revert Hc. cbn [delete_surplus].
    destruct (api_DeleteTXT s (txt_ID x)) as [s1 r1] eqn:Ed. pose proof (DeleteTXT_removes _ _ _ _ Hper Ed) as He.
    unfold effect_or_failure in He. rewrite (delete_one s D x (rs ++ F) Hp) in He.
    apply (call_cases _ _ _ _ (fun s => api_records s ≡ₚ D ++ rs ++ F) (fun s => api_records s ≡ₚ D ++ (x :: rs) ++ F)).
    + cbn. unfold effect_or_failure. by rewrite <- Hp.
    + intros s2 e H2. split; [|done]. destruct H2 as [H2|H2]; rewrite (assoc_L (++)) in H2.
      * apply (foreign_at_split _ (D ++ rs)); [done|by apply Forall_app_2|done].
      * apply (foreign_at_split _ (D ++ x :: rs)); [done|by apply Forall_app_2|done].
    + intros s2 H2 Hc. by eapply IH.
Qed.

Lemma reconcile_left F desired : api_ReplaceTXT = None -> forall D existing changed s s' r,
  reconcile_txt existing desired changed s = (s', r) -> api_records s ≡ₚ D ++ existing ++ F ->
  Forall tc D -> Forall tc existing -> Forall (fun v => is_tincan v = true) desired -> Forall not_tc F ->
  left_at D desired F s' r.
Proof.
  intros Hper. induction desired as [|v ds IH]; intros D existing changed s s' r Hc Hp HD HE HV HF; [by eapply delete_surplus_left|].
  apply Forall_cons in HV as [Hv HV]. assert (Hne : v <> "") by (by intros ->).
  assert (Hgo : forall x rs s1 c, txt_Value x = v -> api_records s1 ≡ₚ (D ++ [x]) ++ rs ++ F -> Forall tc rs ->
    reconcile_txt rs ds c s1 = (s', r) -> left_at D (v :: ds) F s' r).
  { intros x rs s1 c Hx H1 Hrs Hk. destruct (IH _ _ _ _ _ _ Hk H1) as [Hf Ho]; try done.
    - apply Forall_app_2; [done|]. constructor; [|constructor]. unfold tc. by rewrite Hx.
    - split; [done|]. intros Hr. rewrite (Ho Hr), fmap_app, <- (assoc_L (++)). cbn. by rewrite Hx. }
  revert Hc. cbn [reconcile_txt]. destruct existing as [|x rs].
  - destruct (api_CreateTXT s v) as [s1 r1] eqn:Ed.
    apply (call_cases _ _ _ _ (fun s2 => exists id, api_records s2 ≡ₚ {| txt_ID := id; txt_Value := v |} :: api_records s)
      (fun s2 => api_records s2 ≡ₚ D ++ F)).
    + cbn. pose proof (CreateTXT_adds _ _ _ _ Hper Hne Ed) as [?|[? He]]; [by left|right; split; [done|]]. by rewrite He, Hp.
    + intros s2 e H2. split; [|done]. destruct H2 as [[id H2]|H2]; [|by apply (foreign_at_split _ D)].
      apply (foreign_at_split _ ({| txt_ID := id; txt_Value := v |} :: D)); [by rewrite H2, Hp| |done]. by constructor.
    + intros s2 [id H2]. apply (Hgo {| txt_ID := id; txt_Value := v |}); [done| |done]. rewrite H2, Hp. cbn.
      rewrite <- (assoc_L (++)). apply Permutation_middle.
  - apply Forall_cons in HE as [Hx HE]. destruct (String.eqb_spec (txt_Value x) v) as [Hxv|Hxv]; cbn [negb].
    { apply (Hgo x); [done| |done]. by rewrite Hp, <- (assoc_L (++)). }
    destruct (api_UpdateTXT s (txt_ID x) v) as [s1 r1] eqn:Ed. pose proof (UpdateTXT_sets _ _ _ _ _ Hper Hne Ed) as He.
    unfold effect_or_failure in He. rewrite (update_one s D x (rs ++ F) v Hp) in He.
    apply (call_cases _ _ _ _ (fun s2 => api_records s2 ≡ₚ (D ++ [{| txt_ID := txt_ID x; txt_Value := v |}]) ++ rs ++ F)
      (fun s2 => api_records s2 ≡ₚ (D ++ [x]) ++ rs ++ F)).
    + cbn. destruct He as [He|[? He]]; [by left|right; split; [done|]]. by rewrite He, Hp, <- (assoc_L (++)).
    + intros s2 e H2. split; [|done]. destruct H2 as [H2|H2]; rewrite (assoc_L (++)) in H2;
        (eapply foreign_at_split; [exact H2| |done]); repeat (apply Forall_app_2; [try done|try done]); by constructor.
    + intros s2 H2. by apply (Hgo {| txt_ID := txt_ID x; txt_Value := v |}).
Qed.

Lemma flush_if_keeps changed s s' r : flush_if changed s = (s', r) -> api_records s' ≡ₚ api_records s.
Proof.
  unfold flush_if. destruct changed; [|by intros [= <- <-]]. destruct api_Flush as [flush|] eqn:E; [|by intros [= <- <-]].
  destruct (flush s) as [s1 r1] eqn:Ef. pose proof (Flush_keeps _ _ _ _ E Ef) as Hk. cbn. by destruct r1; intros [= <- <-].
Qed.

(** What [Put] leaves at the name. *)
Definition published (data : string) (s s' : S) (r : result unit) : Prop :=
  foreign_at s' ≡ₚ foreign_at s /\
  (is_ok r = true -> exists chunks, chunkBlob data = Ok chunks /\ List.filter is_tincan (values_at s') ≡ₚ chunks).

Lemma unpublished data s s' r : api_records s' ≡ₚ api_records s -> is_ok r = false -> published data s s' r.
Proof.
  intros Hp Hr. split; [|by rewrite Hr]. unfold foreign_at, values_at. apply filter_Permutation. by rewrite Hp.
Qed.

Lemma published_from data s0 s s' r : api_records s ≡ₚ api_records s0 -> published data s s' r -> published data s0 s' r.
Proof.
  intros Hp [Hf Ho]. split; [|done]. rewrite Hf. unfold foreign_at, values_at. apply filter_Permutation. by rewrite Hp.
Qed.

Lemma filter_tincan_left D desired F : Forall (fun v => is_tincan v = true) D -> Forall (fun v => is_tincan v = true) desired ->
  Forall not_tc F -> List.filter is_tincan (D ++ desired ++ (txt_Value <$> F)) = D ++ desired.
Proof. intros HD HV HF. rewrite !List.filter_app, !(filter_all _ D), (filter_all _ desired), filter_none, app_nil_r; try done. by apply Forall_fmap. Qed.

Lemma replaced_foreign s F desired : values_at s ≡ₚ (txt_Value <$> F) ++ desired ->
  Forall (fun v => is_tincan v = true) desired -> Forall not_tc F -> foreign_at s ≡ₚ txt_Value <$> F.
Proof.
  intros Hp HV HF. unfold foreign_at. rewrite (filter_Permutation _ _ _ Hp), List.filter_app, filter_all, filter_none, app_nil_r; [done| |].
  - eapply Forall_impl; [exact HV|]. intros v Hv. cbn. unfold is_foreign. by rewrite Hv.
  - apply Forall_fmap. eapply Forall_impl; [exact HF|]. intros x Hx. cbn. unfold is_foreign. by rewrite Hx.
Qed.

Lemma dns_Put_leaves provider data s s' r : dns_Put provider data s = (s', r) -> published data s s' r.
Proof.
  unfold dns_Put. destruct provider; cbn [negb]; [|intros [= <- <-]; by apply unpublished].
  destruct (chunkBlob data) as [desired|e] eqn:Ec; [|intros [= <- <-]; by apply unpublished].
  destruct (api_ListTXT s) as [s0 listed] eqn:El. apply ListTXT_all in El as [E0 El].
  destruct listed as [existing|e]; [|intros [= <- <-]; by apply unpublished].
  intros Hx. apply (published_from _ _ _ _ _ E0). revert Hx. specialize (El _ eq_refl). rewrite <- E0 in El. clear s E0. rename s0 into s.
  pose proof (chunkBlob_tincan _ _ Ec) as HV.
  destruct (splitTXTRecords existing) as [T F] eqn:Es. apply splitTXTRecords_spec in Es as (Hp & HT & HF).
  rewrite El in Hp. pose proof (foreign_at_split _ _ _ Hp HT HF) as Hs. cbn [fst snd].
  destruct api_ReplaceTXT as [replace|] eqn:Er.
  - destruct (replace s (mergeForeignTXTValues F desired)) as [s1 r1] eqn:Erep.
    pose proof (ReplaceTXT_sets _ _ _ _ _ Er Erep) as He.
    assert (Hm : mergeForeignTXTValues F desired = (txt_Value <$> F) ++ desired) by (by destruct F). rewrite Hm in He.
    apply (call_cases _ _ _ _ (fun s2 => values_at s2 ≡ₚ (txt_Value <$> F) ++ desired)
      (fun s2 => api_records s2 ≡ₚ api_records s) (published data s)); [done| |].
    + intros s2 e [H2|H2]; (split; [|done]); [by rewrite Hs; apply (replaced_foreign _ _ _ H2)|].
      unfold foreign_at, values_at. apply filter_Permutation. by rewrite H2.
    + intros s2 H2 [= <- <-]. split; [by rewrite Hs; apply (replaced_foreign _ _ _ H2)|].
      intros _. exists desired. split; [done|]. rewrite (filter_Permutation _ _ _ H2), List.filter_app, filter_none, filter_all; try done.
      by apply Forall_fmap.
  - destruct (reconcile_txt T desired false s) as [s1 r1] eqn:Erec.
    destruct (reconcile_left F desired Er [] T false s s1 r1 Erec Hp) as [Hf Ho]; try done.
    destruct r1 as [changed|e]; [|intros [= <- <-]; split; [by rewrite Hf|done]].
    intros Hfl%flush_if_keeps. split.
    + rewrite Hs, <- Hf. unfold foreign_at, values_at. apply filter_Permutation. by rewrite Hfl.
    + intros _. exists desired. split; [done|]. unfold values_at in *.
      rewrite (filter_Permutation is_tincan _ (txt_Value <$> api_records s1)) by (by rewrite Hfl).
      rewrite (filter_Permutation is_tincan _ _ (Ho eq_refl)). cbn [fmap list_fmap]. by rewrite (filter_tincan_left [] desired F).
Qed.
End spec.

Lemma published_reads {S} `{TxtApi S} data (s s' : S) r : published data s s' r ->
  foreign_at s' ≡ₚ foreign_at s /\
  (r = Ok tt -> forall values, values ≡ₚ values_at s' -> dns_Get (Ok values) = Ok data).
Proof.
  intros [Hf Ho]. split; [done|]. intros -> values Hv.
  destruct (Ho eq_refl) as (chunks & Hc & Hl). cbn. apply (reassemble_chunks _ _ _ Hc).
  by rewrite (filter_Permutation _ _ _ Hv).
Qed.

(** A publish through an API keeps what is not the program's, and a successful one
    reads back whatever the order. *)
Definition publishes {S} (api : TxtApi S) : Prop := forall data s s' r, dns_Put true data s = (s', r) ->
  foreign_at s' ≡ₚ foreign_at s /\ (r = Ok tt -> forall values, values ≡ₚ values_at s' -> dns_Get (Ok values) = Ok data).

Lemma laws_publish {S} (api : TxtApi S) : TxtApiLaws S -> publishes api.
Proof. intros HL data s s' r Hp. by apply published_reads, (dns_Put_leaves true). Qed.


(** ** A zone held in memory *)

Record zone := { z_records : list TXTRecord; z_ids : NoDup (txt_ID <$> z_records) }.

(** A write that would give two records one id fails. *)
Definition zone_set (s : zone) (l : list TXTRecord) : zone * result unit :=
  match decide (NoDup (txt_ID <$> l)) with
  | left H => ({| z_records := l; z_ids := H |}, Ok tt)
  | right _ => (s, Err dnsprovider_ErrNotFound)
  end.

Definition zone_fresh (l : list TXTRecord) : string := foldr (fun r x => txt_ID r +:+ x) "i" l.

#[export] Instance zone_api : TxtApi zone := {
  api_records := z_records;
  api_ListTXT s := (s, Ok (z_records s));
  api_CreateTXT s v := zone_set s ({| txt_ID := zone_fresh (z_records s); txt_Value := v |} :: z_records s);
  api_UpdateTXT s id v := zone_set s (set_value id v <$> z_records s);
  api_DeleteTXT s id := zone_set s (List.filter (fun x => negb (String.eqb (txt_ID x) id)) (z_records s));
  api_ReplaceTXT := None;
  api_Flush := Some (fun s => (s, Ok tt)) }.

Lemma zone_set_effect s l s' r : zone_set s l = (s', r) ->
  effect_or_failure s' r (z_records s' ≡ₚ l) (z_records s' ≡ₚ z_records s).
Proof. unfold zone_set. destruct (decide _); intros [= <- <-]; [by left|by right]. Qed.

#[export] Instance zone_laws : TxtApiLaws zone.
Proof.
  constructor; cbn.
  - apply z_ids.
  - intros s s' r [= <- <-]. split; [done|]. by intros rs [= <-].
  - intros s v s' r _ _ He%zone_set_effect. destruct He as [He|He]; [left; by eexists|by right].
  - intros s id v s' r _ _ He%zone_set_effect. done.
  - intros s id s' r _ He%zone_set_effect. done.
  - done.
  - by intros flush s s' r [= <-] [= <- <-].
Qed.

Definition sample_zone : zone :=
  fst (zone_set {| z_records := []; z_ids := NoDup_nil_2 |}
    [{| txt_ID := "1"; txt_Value := "v=spf1 -all" |}; {| txt_ID := "2"; txt_Value := "tc1;2;3;eA" |};
     {| txt_ID := "3"; txt_Value := "tc1;0;3;eA" |}; {| txt_ID := "4"; txt_Value := "tc1;1;3;eA" |}]).

Fixpoint repeat_text (n : nat) (s : string) : string :=
  match n with O => "" | S n => s +:+ repeat_text n s end.

Definition sample_blob : string := repeat_text 30 "0123456789".

Lemma sample_Put_Ok : snd (dns_Put true sample_blob sample_zone) = Ok tt.
Proof. vm_compute. reflexivity. Qed.

Lemma sample_foreign : foreign_at sample_zone = ["v=spf1 -all"].
Proof. vm_compute. reflexivity. Qed.

