(* ===== verification/ProviderJson.v ===== *)
(** * ProviderJson: the answers of the DNS providers

    The structs that internal/dnsprovider/cloudflare.go, desec.go, digitalocean.go,
    hetzner.go, linode.go and ovh.go decode answers into, by their tags: the records
    and zones of a listing with what it says about its pages, and the bodies of
    errors.  A field that is only decoded is checked and forgotten. *)
From stdpp Require Import base tactics option list strings.
From Stdlib Require Import Ascii ZArith Lia.
From S2P Require Import Prelude GoStrings GoNum GoUtf8 GoJson JsonBind.
Open Scope Z_scope.

(** A field that is decoded and not used. *)
Definition unused_int {A} : decoder A := into_int (fun _ a => a).
Definition unused_string {A} : decoder A := into_string (fun _ a => a).
Definition unused_bool {A} : decoder A := into_bool (fun _ a => a).

(** [var l []T; json.Unmarshal(data, &l)] and the like. *)
Definition the_int : decoder Z := into_int (fun z _ => z).
Definition the_slice {A} (zero : A) (dec : decoder A) : decoder (list A) := into_slice id (fun l _ => l) zero dec.

(** ** cloudflare.go *)

Record cfError := { cfe_Code : Z; cfe_Message : string }.
(** The result is kept as it came, [None] when there was none. *)
Record cfEnvelope := { cf_Result : option json; cf_TotalPages : Z }.
Record cfZone := { cfz_ID : string; cfz_Name : string }.
Record cfRecord := { cfr_ID : string; cfr_Type : string; cfr_Name : string; cfr_Content : string }.

Definition eta_cfError (e : cfError) : cfError := {| cfe_Code := cfe_Code e; cfe_Message := cfe_Message e |}.
Definition eta_cfEnvelope (e : cfEnvelope) : cfEnvelope := {| cf_Result := cf_Result e; cf_TotalPages := cf_TotalPages e |}.
Definition eta_cfZone (z : cfZone) : cfZone := {| cfz_ID := cfz_ID z; cfz_Name := cfz_Name z |}.
Definition eta_cfRecord (r : cfRecord) : cfRecord :=
  {| cfr_ID := cfr_ID r; cfr_Type := cfr_Type r; cfr_Name := cfr_Name r; cfr_Content := cfr_Content r |}.

Definition zero_cfError : cfError := {| cfe_Code := 0; cfe_Message := "" |}.
Definition cfError_fields : list (field cfError) :=
  [("code", into_int ltac:(setter eta_cfError cfe_Code)); ("message", into_string ltac:(setter eta_cfError cfe_Message))].
Definition cfResultInfo_fields : list (field cfEnvelope) :=
  [("page", unused_int); ("total_pages", into_int ltac:(setter eta_cfEnvelope cf_TotalPages))].
Definition cfZone_fields : list (field cfZone) :=
  [("id", into_string ltac:(setter eta_cfZone cfz_ID)); ("name", into_string ltac:(setter eta_cfZone cfz_Name))].
Definition cfRecord_fields : list (field cfRecord) :=
  [("id", into_string ltac:(setter eta_cfRecord cfr_ID)); ("type", into_string ltac:(setter eta_cfRecord cfr_Type));
   ("name", into_string ltac:(setter eta_cfRecord cfr_Name)); ("content", into_string ltac:(setter eta_cfRecord cfr_Content));
   ("ttl", unused_int)].

Section decoders.
Context `{UnicodeTables}.

Definition cfEnvelope_fields : list (field cfEnvelope) :=
  [("success", unused_bool);
   ("errors", into_slice (fun _ => []) (fun _ e => e) zero_cfError (into_struct cfError_fields));
   ("result", fun v e => Some {| cf_Result := Some v; cf_TotalPages := cf_TotalPages e |});
   ("result_info", into_struct cfResultInfo_fields)].
Definition cf_Unmarshal (data : string) : option cfEnvelope :=
  json_Unmarshal (into_struct cfEnvelope_fields) data {| cf_Result := None; cf_TotalPages := 0 |}.
(** No result at all is not JSON. *)
Definition cf_Unmarshal_zones (result : option json) : option (list cfZone) :=
  v ← result; the_slice {| cfz_ID := ""; cfz_Name := "" |} (into_struct cfZone_fields) v [].
Definition cf_Unmarshal_records (result : option json) : option (list cfRecord) :=
  v ← result; the_slice {| cfr_ID := ""; cfr_Type := ""; cfr_Name := ""; cfr_Content := "" |} (into_struct cfRecord_fields) v [].

Definition cloudflare_errors (body : string) : option (list (Z * string)) :=
  es ← json_Unmarshal (into_struct [("errors", the_slice zero_cfError (into_struct cfError_fields))]) body [];
  Some (map (fun e => (cfe_Code e, cfe_Message e)) es).
End decoders.

(** ** hetzner.go *)

Record hetznerZone := { hzz_ID : string; hzz_Name : string }.
Record hetznerRecord := { hzr_ID : string; hzr_Type : string; hzr_Name : string; hzr_Value : string; hzr_ZoneID : string }.

Definition eta_hetznerZone (z : hetznerZone) : hetznerZone := {| hzz_ID := hzz_ID z; hzz_Name := hzz_Name z |}.
Definition eta_hetznerRecord (r : hetznerRecord) : hetznerRecord :=
  {| hzr_ID := hzr_ID r; hzr_Type := hzr_Type r; hzr_Name := hzr_Name r; hzr_Value := hzr_Value r; hzr_ZoneID := hzr_ZoneID r |}.
Definition zero_hetznerZone : hetznerZone := {| hzz_ID := ""; hzz_Name := "" |}.
Definition zero_hetznerRecord : hetznerRecord := {| hzr_ID := ""; hzr_Type := ""; hzr_Name := ""; hzr_Value := ""; hzr_ZoneID := "" |}.

Definition hetznerZone_fields : list (field hetznerZone) :=
  [("id", into_string ltac:(setter eta_hetznerZone hzz_ID)); ("name", into_string ltac:(setter eta_hetznerZone hzz_Name))].
Definition hetznerRecord_fields : list (field hetznerRecord) :=
  [("id", into_string ltac:(setter eta_hetznerRecord hzr_ID)); ("type", into_string ltac:(setter eta_hetznerRecord hzr_Type));
   ("name", into_string ltac:(setter eta_hetznerRecord hzr_Name)); ("value", into_string ltac:(setter eta_hetznerRecord hzr_Value));
   ("zone_id", into_string ltac:(setter eta_hetznerRecord hzr_ZoneID)); ("ttl", unused_int)].

Section hetzner.
Context `{UnicodeTables}.

(** hetznerMeta, of which the last page is read; 0 when absent. *)
Definition hetznerMeta : decoder Z :=
  into_struct [("pagination", into_struct [("page", unused_int); ("last_page", the_int)])].
Definition hz_Unmarshal_zones (data : string) : option (list hetznerZone) :=
  fst <$> json_Unmarshal (into_struct
    [("zones", into_part fst (fun zs p => (zs, snd p)) (the_slice zero_hetznerZone (into_struct hetznerZone_fields)));
     ("meta", into_part snd (fun n p => (fst p, n)) hetznerMeta)]) data ([], 0).
(** A page with its [LastPage]. *)
Definition hz_Unmarshal_records (data : string) : option (Z * list hetznerRecord) :=
  json_Unmarshal (into_struct
    [("records", into_part snd (fun rs p => (fst p, rs)) (the_slice zero_hetznerRecord (into_struct hetznerRecord_fields)));
     ("meta", into_part fst (fun n p => (n, snd p)) hetznerMeta)]) data (0, []).
Definition hz_Unmarshal_record (data : string) : option hetznerRecord :=
  json_Unmarshal (into_struct [("record", into_struct hetznerRecord_fields)]) data zero_hetznerRecord.

(** error.message, error.code and message. *)
Definition hetzner_error (body : string) : option (string * Z * string) :=
  json_Unmarshal (into_struct
    [("error", into_struct [("message", into_string (fun m '(_, c, t) => (m, c, t))); ("code", into_int (fun c '(m, _, t) => (m, c, t)))]);
     ("message", into_string (fun t '(m, c, _) => (m, c, t)))]) body ("", 0, "").

(** *** The answers as the service documents them *)

Definition hetznerZone_json (z : hetznerZone) : json := JObj (member "id" (JStr (hzz_ID z)) ++ member "name" (JStr (hzz_Name z)) ++ []).
Definition hetznerRecord_json (r : hetznerRecord) : json :=
  JObj (member "id" (JStr (hzr_ID r)) ++ member "type" (JStr (hzr_Type r)) ++ member "name" (JStr (hzr_Name r)) ++
    member "value" (JStr (hzr_Value r)) ++ member "zone_id" (JStr (hzr_ZoneID r)) ++ []).
Definition hetznerMeta_json (page last : Z) : json :=
  JObj (member "pagination" (JObj (member "page" (json_int page) ++ member "last_page" (json_int last) ++ [])) ++ []).

Definition hetzner_zones (zs : list hetznerZone) : string := json_Marshal (JObj (member "zones" (JArr (map hetznerZone_json zs)) ++ [])).
Definition hetzner_records (page last : Z) (rs : list hetznerRecord) : string :=
  json_Marshal (JObj (member "records" (JArr (map hetznerRecord_json rs)) ++ member "meta" (hetznerMeta_json page last) ++ [])).
Definition hetzner_record (r : hetznerRecord) : string := json_Marshal (JObj (member "record" (hetznerRecord_json r) ++ [])).

Definition clean_hetznerZone (z : hetznerZone) : hetznerZone := {| hzz_ID := clean (hzz_ID z); hzz_Name := clean (hzz_Name z) |}.
Definition clean_hetznerRecord (r : hetznerRecord) : hetznerRecord :=
  {| hzr_ID := clean (hzr_ID r); hzr_Type := clean (hzr_Type r); hzr_Name := clean (hzr_Name r); hzr_Value := clean (hzr_Value r);
     hzr_ZoneID := clean (hzr_ZoneID r) |}.

Lemma hetznerZone_good z : good 1 (hetznerZone_json z).
Proof. apply (good_object 0); [done|]. repeat apply goods_app; auto with good. Qed.
Lemma hetznerRecord_good r : good 1 (hetznerRecord_json r).
Proof. apply (good_object 0); [done|]. repeat apply goods_app; auto with good. Qed.

Lemma good_list {A} k (f : A -> json) l : 0 <= k -> (forall x, good k (f x)) -> good (1 + k) (JArr (map f l)).
Proof. intros Hk Hf. apply good_array; [done|]. induction l; constructor; auto. Qed.

(** The elements of a list, each read into a new zero. *)
Lemma slice_read {A B} (zero : B) (dec : decoder B) (f : A -> json) (g : A -> B) l :
  (forall x, dec (json_clean (f x)) zero = Some (g x)) -> the_slice zero dec (json_clean (JArr (map f l))) [] = Some (map g l).
Proof.
  intros Hd. cbn [json_clean the_slice into_slice]. unfold the_slice, into_slice, id.
  assert (He : into_elements zero dec (map json_clean (map f l)) [] = Some (map g l)); [|by rewrite He].
  induction l as [|x l IH]; [done|]. cbn. rewrite Hd. cbn. by rewrite IH.
Qed.

Lemma object_read {A} (fields : list (field A)) ms a :
  into_struct fields (json_clean (JObj ms)) a = into_members fields (clean_members ms) a.
Proof. done. Qed.

Lemma part_read {A B} (get : A -> B) (set : B -> A -> A) (dec : decoder B) v a :
  into_part get set dec v a = b ← dec v (get a); Some (set b a).
Proof. done. Qed.

Lemma hetznerZone_read z : into_struct hetznerZone_fields (json_clean (hetznerZone_json z)) zero_hetznerZone = Some (clean_hetznerZone z).
Proof. unfold hetznerZone_json. rewrite object_read. read_struct. reflexivity. Qed.

Lemma hetznerRecord_read r :
  into_struct hetznerRecord_fields (json_clean (hetznerRecord_json r)) zero_hetznerRecord = Some (clean_hetznerRecord r).
Proof. unfold hetznerRecord_json. rewrite object_read. read_struct. reflexivity. Qed.

Lemma hetznerMeta_read page last n : int64 page -> int64 last ->
  hetznerMeta (json_clean (hetznerMeta_json page last)) n = Some last.
Proof.
  unfold int64. intros Hp Hl. unfold hetznerMeta, hetznerMeta_json. rewrite object_read. erewrite read_member by reflexivity. cbn [snd].
  rewrite object_read, (read_member _ "page" ("page", unused_int)) by reflexivity.
  cbn [snd]. rewrite (int_read (fun _ a => a) page n Hp : unused_int _ _ = _). cbn [mbind option_bind].
  rewrite (read_member _ "last_page" ("last_page", the_int)) by reflexivity.
  cbn [snd]. by rewrite (int_read (fun z _ => z) last n Hl : the_int _ _ = _).
Qed.

(** The text of an answer, read into a struct. *)
Lemma answer_read {A} (fields : list (field A)) ms a : good 4 (JObj ms) ->
  json_Unmarshal (into_struct fields) (json_Marshal (JObj ms)) a = into_members fields (clean_members ms) a.
Proof. intros Hg. exact (proj1 (Unmarshal_text _ 4 _ a "" Hg ltac:(done) ltac:(done))). Qed.

Lemma hetzner_zones_read zs : hz_Unmarshal_zones (hetzner_zones zs) = Some (map clean_hetznerZone zs).
Proof.
  unfold hz_Unmarshal_zones, hetzner_zones. rewrite answer_read.
  - erewrite read_member by reflexivity. cbn [snd]. rewrite part_read. cbn [fst].
    by rewrite (slice_read _ _ _ clean_hetznerZone) by apply hetznerZone_read.
  - apply (good_weaken 3); [lia|]. apply (good_object 2); [done|]. apply goods_app; [|apply goods_nil]. apply goods_member.
    apply (good_list 1); [done|apply hetznerZone_good].
Qed.

Lemma hetzner_records_read page last rs : int64 page -> int64 last ->
  hz_Unmarshal_records (hetzner_records page last rs) = Some (last, map clean_hetznerRecord rs).
Proof.
  intros Hp Hl. unfold hz_Unmarshal_records, hetzner_records. rewrite answer_read.
  - erewrite read_member by reflexivity. cbn [snd]. rewrite part_read. cbn [snd].
    rewrite (slice_read _ _ _ clean_hetznerRecord) by apply hetznerRecord_read. cbn [mbind option_bind fst].
    erewrite read_member by reflexivity. cbn [snd]. rewrite part_read. cbn [fst snd]. by rewrite hetznerMeta_read.
  - apply (good_object 3); [done|]. repeat apply goods_app; [| |apply goods_nil]; apply goods_member.
    + apply (good_weaken 2); [lia|]. apply (good_list 1); [done|apply hetznerRecord_good].
    + apply (good_weaken 2); [lia|]. apply (good_object 1); [done|]. apply goods_app; [|apply goods_nil]. apply goods_member.
      apply (good_object 0); [done|]. unfold int64 in *. repeat apply goods_app; auto with good.
Qed.

Lemma hetzner_record_read r : hz_Unmarshal_record (hetzner_record r) = Some (clean_hetznerRecord r).
Proof.
  unfold hz_Unmarshal_record, hetzner_record. rewrite answer_read.
  - erewrite read_member by reflexivity. cbn [snd]. by rewrite hetznerRecord_read.
  - apply (good_weaken 2); [lia|]. apply (good_object 1); [done|]. apply goods_app; [|apply goods_nil]. apply goods_member, hetznerRecord_good.
Qed.
End hetzner.

(** ** linode.go *)

Record linodeDomain := { lnd_ID : Z; lnd_Domain : string }.
Record linodeRecord := { lnr_ID : Z; lnr_Type : string; lnr_Name : string; lnr_Target : string }.

Definition eta_linodeDomain (d : linodeDomain) : linodeDomain := {| lnd_ID := lnd_ID d; lnd_Domain := lnd_Domain d |}.
Definition eta_linodeRecord (r : linodeRecord) : linodeRecord :=
  {| lnr_ID := lnr_ID r; lnr_Type := lnr_Type r; lnr_Name := lnr_Name r; lnr_Target := lnr_Target r |}.

Definition linodeDomain_fields : list (field linodeDomain) :=
  [("id", into_int ltac:(setter eta_linodeDomain lnd_ID)); ("domain", into_string ltac:(setter eta_linodeDomain lnd_Domain))].
Definition linodeRecord_fields : list (field linodeRecord) :=
  [("id", into_int ltac:(setter eta_linodeRecord lnr_ID)); ("type", into_string ltac:(setter eta_linodeRecord lnr_Type));
   ("name", into_string ltac:(setter eta_linodeRecord lnr_Name)); ("target", into_string ltac:(setter eta_linodeRecord lnr_Target));
   ("ttl_sec", unused_int)].

Section linode.
Context `{UnicodeTables}.

Definition ln_Unmarshal_domains (data : string) : option (list linodeDomain) :=
  json_Unmarshal (into_struct
    [("data", the_slice {| lnd_ID := 0; lnd_Domain := "" |} (into_struct linodeDomain_fields)); ("pages", unused_int)]) data [].
(** The number of pages and the records of one. *)
Definition ln_Unmarshal_records (data : string) : option (Z * list linodeRecord) :=
  json_Unmarshal (into_struct
    [("data", into_part snd (fun rs p => (fst p, rs))
        (the_slice {| lnr_ID := 0; lnr_Type := ""; lnr_Name := ""; lnr_Target := "" |} (into_struct linodeRecord_fields)));
     ("pages", into_int (fun n p => (n, snd p)))]) data (0, []).

Definition linode_errors (body : string) : option (list (string * string)) :=
  json_Unmarshal (into_struct [("errors", the_slice ("", "") (into_struct
    [("field", into_string (fun f p => (f, snd p))); ("reason", into_string (fun r p => (fst p, r)))]))]) body [].
End linode.

(** ** digitalocean.go *)

Record doRecord := { dor_ID : Z; dor_Type : string; dor_Name : string; dor_Data : string }.

Definition eta_doRecord (r : doRecord) : doRecord :=
  {| dor_ID := dor_ID r; dor_Type := dor_Type r; dor_Name := dor_Name r; dor_Data := dor_Data r |}.

Definition doRecord_fields : list (field doRecord) :=
  [("id", into_int ltac:(setter eta_doRecord dor_ID)); ("type", into_string ltac:(setter eta_doRecord dor_Type));
   ("name", into_string ltac:(setter eta_doRecord dor_Name)); ("data", into_string ltac:(setter eta_doRecord dor_Data));
   ("ttl", unused_int)].

Section digitalocean.
Context `{UnicodeTables}.

(** The link to the next page and the records of this one. *)
Definition do_Unmarshal (data : string) : option (string * list doRecord) :=
  json_Unmarshal (into_struct
    [("domain_records", into_part snd (fun rs p => (fst p, rs))
        (the_slice {| dor_ID := 0; dor_Type := ""; dor_Name := ""; dor_Data := "" |} (into_struct doRecord_fields)));
     ("links", into_struct [("pages", into_struct [("next", into_string (fun s p => (s, snd p)))])])]) data ("", []).

(** The message of an error, as OVH has it too; that of deSEC is its detail. *)
Definition error_message (key body : string) : option string := json_Unmarshal (into_struct [(key, the_string)]) body "".
Definition do_message : string -> option string := error_message "message".
Definition ovh_message : string -> option string := error_message "message".
Definition desec_detail : string -> option string := error_message "detail".
End digitalocean.

(** ** ovh.go *)

Record ovhRecord := { ovr_ID : Z; ovr_SubDomain : string; ovr_FieldType : string; ovr_Target : string }.

Definition eta_ovhRecord (r : ovhRecord) : ovhRecord :=
  {| ovr_ID := ovr_ID r; ovr_SubDomain := ovr_SubDomain r; ovr_FieldType := ovr_FieldType r; ovr_Target := ovr_Target r |}.

Definition ovhRecord_fields : list (field ovhRecord) :=
  [("id", into_int ltac:(setter eta_ovhRecord ovr_ID)); ("subDomain", into_string ltac:(setter eta_ovhRecord ovr_SubDomain));
   ("fieldType", into_string ltac:(setter eta_ovhRecord ovr_FieldType)); ("target", into_string ltac:(setter eta_ovhRecord ovr_Target));
   ("ttl", unused_int)].

(** ** desec.go *)

Record desecRRset := { rr_Subname : string; rr_Type : string; rr_TTL : Z; rr_Records : list string }.

Definition eta_desecRRset (r : desecRRset) : desecRRset :=
  {| rr_Subname := rr_Subname r; rr_Type := rr_Type r; rr_TTL := rr_TTL r; rr_Records := rr_Records r |}.

Definition desecRRset_fields : list (field desecRRset) :=
  [("subname", into_string ltac:(setter eta_desecRRset rr_Subname)); ("type", into_string ltac:(setter eta_desecRRset rr_Type));
   ("ttl", into_int ltac:(setter eta_desecRRset rr_TTL));
   ("records", into_slice rr_Records ltac:(setter eta_desecRRset rr_Records) "" the_string)].
Definition zero_desecRRset : desecRRset := {| rr_Subname := ""; rr_Type := ""; rr_TTL := 0; rr_Records := [] |}.

Definition desecRRset_members (r : desecRRset) : list (string * json) :=
  member "subname" (JStr (rr_Subname r)) ++ member "type" (JStr (rr_Type r)) ++ member "ttl" (json_int (rr_TTL r)) ++
  member "records" (json_list JStr (rr_Records r)).

Section ovh_desec.
Context `{UnicodeTables}.

Definition ov_Unmarshal_ids (data : string) : option (list Z) := json_Unmarshal (the_slice 0 the_int) data [].
Definition ov_Unmarshal_record (data : string) : option ovhRecord :=
  json_Unmarshal (into_struct ovhRecord_fields) data {| ovr_ID := 0; ovr_SubDomain := ""; ovr_FieldType := ""; ovr_Target := "" |}.
Definition desec_Unmarshal (data : string) : option desecRRset := json_Unmarshal (into_struct desecRRset_fields) data zero_desecRRset.

(** An RRset written by the client, or answered by the service, is read back. *)
Definition desec_text (r : desecRRset) : string := json_Marshal (JObj (desecRRset_members r)).

Definition clean_desecRRset (r : desecRRset) : desecRRset :=
  {| rr_Subname := clean (rr_Subname r); rr_Type := clean (rr_Type r); rr_TTL := rr_TTL r; rr_Records := map clean (rr_Records r) |}.

Lemma records_json_read l old : the_strings (json_clean (json_list JStr l)) old = Some (map clean l).
Proof. destruct l as [|s l]; [done|]. cbn. by rewrite into_strings_clean. Qed.

Lemma desec_text_read r : int64 (rr_TTL r) -> desec_Unmarshal (desec_text r) = Some (clean_desecRRset r).
Proof.
  intros Ht. unfold desec_Unmarshal, desec_text. rewrite answer_read.
  - unfold int64 in Ht. unfold desecRRset_members. read_struct. unfold member. cbn [clean_members map into_members fst snd].
    unfold clean_desecRRset. destruct (rr_Records r) as [|s l] eqn:El; [reflexivity|]. cbn [json_list json_clean into_member].
    unfold into_member. cbn [fst snd]. change (find_field desecRRset_fields (clean "records")) with (Some (nth 3 desecRRset_fields ("", fun _ _ => None))).
    cbn [nth desecRRset_fields snd]. cbn [into_slice]. rewrite into_strings_clean. reflexivity.
  - apply (good_weaken 2); [lia|]. apply (good_object 1); [done|]. unfold int64 in Ht. unfold desecRRset_members. repeat apply goods_app; auto with good.
    apply goods_member. destruct (rr_Records r); [by apply good_null|apply good_strings].
Qed.
End ovh_desec.

#[global] Opaque cf_Unmarshal cf_Unmarshal_zones cf_Unmarshal_records hz_Unmarshal_zones hz_Unmarshal_records hz_Unmarshal_record
  ln_Unmarshal_domains ln_Unmarshal_records do_Unmarshal ov_Unmarshal_ids ov_Unmarshal_record desec_Unmarshal
  hetzner_zones hetzner_records hetzner_record desec_text.
