(* ===== verification/ProviderXml.v ===== *)
(** * ProviderXml: the XML of Route 53

    The structs of internal/dnsprovider/route53.go by their tags: the change request
    as it is written, and what is read of the answers.  A change request reads as
    what it was written from. *)
From stdpp Require Import base tactics option list strings.
From Stdlib Require Import Ascii ZArith Lia.
From S2P Require Import Prelude GoStrings GoNum GoUtf8 GoJson JsonBind GoXml.
Open Scope Z_scope.

Record r53RRSet := { r53_Name : string; r53_Type : string; r53_TTL : Z; r53_Records : list string }.
Record r53HostedZone := { hz_ID : string; hz_Name : string }.

(** ** What is written *)

Definition route53XMLNS : string := "https://route53.amazonaws.com/doc/2013-04-01/".

Definition r53Record_doc (value : string) : doc := Branch "ResourceRecord" [] [Leaf "Value" value].
Definition r53RRSet_docs (rr : r53RRSet) : list doc :=
  [Leaf "Name" (r53_Name rr); Leaf "Type" (r53_Type rr); Leaf "TTL" (strconv_Itoa (r53_TTL rr));
   Branch "ResourceRecords" [] (map r53Record_doc (r53_Records rr))].
Definition r53Change_doc (action : string) (rr : r53RRSet) : doc :=
  Branch "Change" [] [Leaf "Action" action; Branch "ResourceRecordSet" [] (r53RRSet_docs rr)].
Definition changeRRSetsRequest (changes : list (string * r53RRSet)) : doc :=
  Branch "ChangeResourceRecordSetsRequest" [("xmlns", route53XMLNS)]
    [Branch "ChangeBatch" [] [Branch "Changes" [] (map (fun c => r53Change_doc (fst c) (snd c)) changes)]].

(** The body of [change]. *)
Definition r53_body (action : string) (rr : r53RRSet) : string := xml_Marshal (changeRRSetsRequest [(action, rr)]).

(** ** What is read *)

(** The text directly in an element. *)
Definition chardata (kids : list xml) : string :=
  concat_texts (map (fun x => match x with XText s => s | XElem _ _ _ => "" end) kids).

(** The elements directly in one, in order, each by its name without the prefix. *)
Fixpoint decode {A} (step : string -> list xml -> A -> option A) (kids : list xml) (a : A) : option A :=
  match kids with
  | [] => Some a
  | XText _ :: kids => decode step kids a
  | XElem n _ inside :: kids => a ← step (local_name n) inside a; decode step kids a
  end.

(** The elements of the name [n] among them, each read into a new zero: a slice. *)
Definition decode_slice {A} (n : string) (one : list xml -> option A) : list xml -> list A -> option (list A) :=
  decode (fun m inside l => if String.eqb m n then x ← one inside; Some (l ++ [x]) else Some l).

Definition decode_int `{UnicodeTables} (kids : list xml) : option Z :=
  let src := chardata kids in if String.eqb src "" then Some 0 else strconv_Atoi (strings_TrimSpace src).

Definition r53Record_decode (kids : list xml) : option string :=
  decode (fun n inside v => Some (if String.eqb n "Value" then chardata inside else v)) kids "".

Section decoders.
Context `{UnicodeTables}.

Definition r53RRSet_step (n : string) (inside : list xml) (rr : r53RRSet) : option r53RRSet :=
  if String.eqb n "Name" then
    Some {| r53_Name := chardata inside; r53_Type := r53_Type rr; r53_TTL := r53_TTL rr; r53_Records := r53_Records rr |}
  else if String.eqb n "Type" then
    Some {| r53_Name := r53_Name rr; r53_Type := chardata inside; r53_TTL := r53_TTL rr; r53_Records := r53_Records rr |}
  else if String.eqb n "TTL" then
    ttl ← decode_int inside;
    Some {| r53_Name := r53_Name rr; r53_Type := r53_Type rr; r53_TTL := ttl; r53_Records := r53_Records rr |}
  else if String.eqb n "ResourceRecords" then
    l ← decode_slice "ResourceRecord" r53Record_decode inside (r53_Records rr);
    Some {| r53_Name := r53_Name rr; r53_Type := r53_Type rr; r53_TTL := r53_TTL rr; r53_Records := l |}
  else Some rr.
Definition r53RRSet_decode (kids : list xml) : option r53RRSet :=
  decode r53RRSet_step kids {| r53_Name := ""; r53_Type := ""; r53_TTL := 0; r53_Records := [] |}.

Definition r53HostedZone_decode (kids : list xml) : option r53HostedZone :=
  decode (fun n inside z =>
    Some (if String.eqb n "Id" then {| hz_ID := chardata inside; hz_Name := hz_Name z |}
          else if String.eqb n "Name" then {| hz_ID := hz_ID z; hz_Name := chardata inside |} else z))
    kids {| hz_ID := ""; hz_Name := "" |}.

Context `{XmlNames}.

(** The root must have its name. *)
Definition xml_Unmarshal {A} (root : string) (step : string -> list xml -> A -> option A) (data : string) (zero : A) : option A :=
  x ← xml_Parse data;
  match x with
  | XElem n _ kids => if String.eqb (local_name n) root then decode step kids zero else None
  | XText _ => None
  end.

Definition r53_zones (data : string) : option (list r53HostedZone) :=
  xml_Unmarshal "ListHostedZonesByNameResponse" (fun n inside l =>
    if String.eqb n "HostedZones" then decode_slice "HostedZone" r53HostedZone_decode inside l else Some l) data [].

Definition r53_sets (data : string) : option (list r53RRSet) :=
  xml_Unmarshal "ListResourceRecordSetsResponse" (fun n inside l =>
    if String.eqb n "ResourceRecordSets" then decode_slice "ResourceRecordSet" r53RRSet_decode inside l else Some l) data [].

(** The code and the message of an error, whatever the root. *)
Definition route53_error (data : string) : option (string * string) :=
  x ← xml_Parse data;
  match x with
  | XElem _ _ kids =>
      decode (fun n inside e =>
        if String.eqb n "Error" then
          decode (fun n inside e => Some (if String.eqb n "Code" then (chardata inside, snd e)
                                          else if String.eqb n "Message" then (fst e, chardata inside) else e)) inside e
        else Some e) kids ("", "")
  | XText _ => None
  end.

(** A change request by its own tags. *)
Definition r53Change_decode (kids : list xml) : option (string * r53RRSet) :=
  decode (fun n inside c =>
    if String.eqb n "Action" then Some (chardata inside, snd c)
    else if String.eqb n "ResourceRecordSet" then rr ← decode r53RRSet_step inside (snd c); Some (fst c, rr) else Some c)
    kids ("", {| r53_Name := ""; r53_Type := ""; r53_TTL := 0; r53_Records := [] |}).
Definition r53_changes (data : string) : option (list (string * r53RRSet)) :=
  xml_Unmarshal "ChangeResourceRecordSetsRequest" (fun n inside l =>
    if String.eqb n "ChangeBatch" then decode (fun n inside l =>
      if String.eqb n "Changes" then decode_slice "Change" r53Change_decode inside l else Some l) inside l
    else Some l) data [].
End decoders.

Example error_read :
  @route53_error ascii_tables (fun _ => false)
    "<?xml version='1.0'?><ErrorResponse xmlns='a'><Error><Type>Sender</Type><Code>InvalidInput</Code><Message>a &lt; b</Message></Error></ErrorResponse>" =
  Some ("InvalidInput", "a < b").
Proof. vm_compute. reflexivity. Qed.

(** ** What is written is read *)

Definition clean_rrset (rr : r53RRSet) : r53RRSet :=
  {| r53_Name := xml_clean (r53_Name rr); r53_Type := xml_clean (r53_Type rr); r53_TTL := r53_TTL rr;
     r53_Records := map xml_clean (r53_Records rr) |}.
Definition clean_zone (z : r53HostedZone) : r53HostedZone := {| hz_ID := xml_clean (hz_ID z); hz_Name := xml_clean (hz_Name z) |}.

Lemma chardata_leaf t : chardata (if String.eqb t "" then [] else [XText (xml_clean t)]) = xml_clean t.
Proof. destruct (String.eqb_spec t "") as [->|]; [done|]. unfold chardata. cbn [map concat_texts fold_right]. apply string_app_nil_r. Qed.

Lemma Itoa_plain z : int64 z -> strconv_Itoa z <> "" /\ string_forallb (fun c => is_digit c || Ascii.eqb c "-") (strconv_Itoa z) = true.
Proof.
  intros Hz. unfold int64, min_int64, max_int64 in Hz. unfold strconv_Itoa.
  assert (Hd : forall n, 0 <= n <= 9223372036854775808 -> strconv_FormatUint n <> "" /\
    string_forallb (fun c => is_digit c || Ascii.eqb c "-") (strconv_FormatUint n) = true).
  { intros n Hn. destruct (FormatUint_head n) as (c & s & E & _); [lia|]. split; [by rewrite E|].
    eapply string_forallb_mono; [|apply FormatUint_digits; lia]. by intros c' ->. }
  destruct (Z.ltb_spec z 0); [|apply Hd; lia]. split; [done|]. cbn [string_forallb]. rewrite (proj2 (Hd (- z) ltac:(lia))). done.
Qed.

Lemma ascii_chars s : string_forallb (fun c => is_digit c || Ascii.eqb c "-") s = true -> xml_chars 0 s = true.
Proof.
  induction s as [|c s IH]; [done|]. cbn [string_forallb]. intros [Hc Hs]%andb_true_iff. cbn [xml_chars].
  assert (Hd : utf8_DecodeRune (String c s) = (code c, 1%nat) /\ xml_rune (code c) 1 = true) by (destruct c as [[] [] [] [] [] [] [] []]; by split).
  destruct Hd as [-> ->]. by apply IH.
Qed.

Section laws.
Context `{UnicodeTables} `{XmlNames}.

Lemma decode_int_read z : int64 z -> decode_int (if String.eqb (strconv_Itoa z) "" then [] else [XText (xml_clean (strconv_Itoa z))]) = Some z.
Proof.
  intros Hz. destruct (Itoa_plain z Hz) as [Hn Hp]. unfold decode_int. rewrite chardata_leaf, xml_clean_id by by apply ascii_chars.
  rewrite (proj2 (String.eqb_neq _ _)) by done. rewrite TrimSpace_id; [by apply Atoi_Itoa|..].
  - eapply string_forallb_mono; [|exact Hp]. intros c. by destruct c as [[] [] [] [] [] [] [] []].
  - intros c Hc. destruct (strconv_Itoa z) as [|d s]; [done|]. injection Hc as ->. cbn [string_forallb] in Hp. apply andb_true_iff in Hp as [Hp _].
    revert Hp. by destruct c as [[] [] [] [] [] [] [] []].
  - intros c Hc. pose proof (last_byte_forallb _ _ _ Hp Hc) as Hd. revert Hd. by destruct c as [[] [] [] [] [] [] [] []].
Qed.

Lemma decode_slice_read {A B} n (one : list xml -> option B) (f : A -> doc) (g : A -> B) l : forall acc,
  (forall x, x ∈ l -> exists kids, as_xml (f x) = XElem n [] kids /\ one kids = Some (g x)) -> local_name n = n ->
  decode_slice n one (map as_xml (map f l)) acc = Some (acc ++ map g l).
Proof.
  unfold decode_slice. induction l as [|x l IH]; intros acc Hf Hn; [cbn; by rewrite app_nil_r|]. cbn [map].
  destruct (Hf x ltac:(left)) as (kids & -> & Hk). cbn [decode]. rewrite Hn, String.eqb_refl, Hk. cbn [mbind option_bind].
  rewrite IH; [by rewrite <- (assoc_L (++))| |done]. intros y Hy. apply Hf. by right.
Qed.

Lemma r53RRSet_read rr : int64 (r53_TTL rr) -> r53RRSet_decode (map as_xml (r53RRSet_docs rr)) = Some (clean_rrset rr).
Proof.
  intros Ht. unfold r53RRSet_decode, r53RRSet_docs. cbn [map as_xml decode].
  change (local_name "Name") with "Name". change (local_name "Type") with "Type". change (local_name "TTL") with "TTL".
  change (local_name "ResourceRecords") with "ResourceRecords".
  unfold r53RRSet_step. cbn match. change (String.eqb "Name" "Name") with true. change (String.eqb "Type" "Name") with false.
  change (String.eqb "Type" "Type") with true. change (String.eqb "TTL" "Name") with false. change (String.eqb "TTL" "Type") with false.
  change (String.eqb "TTL" "TTL") with true. change (String.eqb "ResourceRecords" "Name") with false. change (String.eqb "ResourceRecords" "Type") with false.
  change (String.eqb "ResourceRecords" "TTL") with false. change (String.eqb "ResourceRecords" "ResourceRecords") with true. cbn match.
  cbn [mbind option_bind]. rewrite !chardata_leaf, decode_int_read by done. cbn [mbind option_bind r53_Name r53_Type r53_TTL r53_Records].
  rewrite (decode_slice_read _ _ r53Record_doc xml_clean); [done| |done].
  intros v _. eexists. split; [reflexivity|]. unfold r53Record_decode. cbn [map as_xml decode]. change (local_name "Value") with "Value".
  cbn match. change (String.eqb "Value" "Value") with true. cbn [mbind option_bind]. by rewrite chardata_leaf.
Qed.

(** A list of elements in a root, under one or two wrappers. *)
Lemma Unmarshal_written {A} root attrs kids step zero : plain_name root = true -> local_name root = root ->
  forallb attr_ok attrs = true -> forallb doc_ok kids = true ->
  xml_Unmarshal (A:=A) root step (xml_Marshal (Branch root attrs kids)) zero = decode step (map as_xml kids) zero.
Proof.
  intros Hr Hl Ha Hk. unfold xml_Unmarshal. rewrite read_written by (cbn [doc_ok]; by rewrite Hr, Ha, Hk). cbn [mbind option_bind as_xml].
  by rewrite Hl, String.eqb_refl.
Qed.

Lemma all_ok {A} (f : A -> doc) l : (forall x, doc_ok (f x) = true) -> forallb doc_ok (map f l) = true.
Proof. intros Hf. induction l as [|x l IH]; [done|]. cbn. by rewrite Hf, IH. Qed.

Lemma r53RRSet_ok rr : forallb doc_ok (r53RRSet_docs rr) = true.
Proof. unfold r53RRSet_docs. cbn [forallb doc_ok]. rewrite all_ok; [reflexivity|]. intros v. reflexivity. Qed.

(** The body of a change says the change. *)
Lemma r53_changes_read action rr : int64 (r53_TTL rr) -> r53_changes (r53_body action rr) = Some [(xml_clean action, clean_rrset rr)].
Proof.
  intros Ht. unfold r53_changes, r53_body, changeRRSetsRequest. rewrite Unmarshal_written.
  - cbn [map as_xml decode]. change (local_name "ChangeBatch") with "ChangeBatch". change (local_name "Changes") with "Changes".
    change (String.eqb "ChangeBatch" "ChangeBatch") with true. change (String.eqb "Changes" "Changes") with true. cbn match.
    change [as_xml (r53Change_doc (fst (action, rr)) (snd (action, rr)))] with (map as_xml (map (fun c => r53Change_doc (fst c) (snd c)) [(action, rr)])).
    rewrite (decode_slice_read _ _ _ (fun c => (xml_clean (fst c), clean_rrset (snd c)))); [done| |done].
    intros c ->%list_elem_of_singleton. eexists. split; [reflexivity|]. unfold r53Change_decode. cbn [map as_xml decode fst snd].
    change (local_name "Action") with "Action". change (local_name "ResourceRecordSet") with "ResourceRecordSet".
    change (String.eqb "Action" "Action") with true. change (String.eqb "ResourceRecordSet" "Action") with false.
    change (String.eqb "ResourceRecordSet" "ResourceRecordSet") with true. cbn match. cbn [mbind option_bind fst snd].
    rewrite chardata_leaf. change (map as_xml (r53RRSet_docs rr)) with (map as_xml (r53RRSet_docs rr)).
    pose proof (r53RRSet_read rr Ht) as Hr. unfold r53RRSet_decode in Hr. setoid_rewrite Hr. reflexivity.
  - reflexivity.
  - reflexivity.
  - reflexivity.
  - cbn [forallb doc_ok map fst snd r53Change_doc]. pose proof (r53RRSet_ok rr) as Ho. by rewrite Ho.
Qed.

(** *** The answers as the service documents them *)

Definition zones_answer (zs : list r53HostedZone) : string :=
  xml_Marshal (Branch "ListHostedZonesByNameResponse" [("xmlns", route53XMLNS)]
    [Branch "HostedZones" [] (map (fun z => Branch "HostedZone" [] [Leaf "Id" (hz_ID z); Leaf "Name" (hz_Name z)]) zs)]).
Definition sets_answer (rrs : list r53RRSet) : string :=
  xml_Marshal (Branch "ListResourceRecordSetsResponse" [("xmlns", route53XMLNS)]
    [Branch "ResourceRecordSets" [] (map (fun rr => Branch "ResourceRecordSet" [] (r53RRSet_docs rr)) rrs)]).

Lemma zones_answer_read zs : r53_zones (zones_answer zs) = Some (map clean_zone zs).
Proof.
  unfold r53_zones, zones_answer. rewrite Unmarshal_written; [|reflexivity|reflexivity|reflexivity|].
  - cbn [map as_xml decode]. change (local_name "HostedZones") with "HostedZones".
    change (String.eqb "HostedZones" "HostedZones") with true. cbn match.
    rewrite (decode_slice_read _ _ _ clean_zone); [done| |done].
    intros z _. eexists. split; [reflexivity|]. unfold r53HostedZone_decode. cbn [map as_xml decode].
    change (local_name "Id") with "Id". change (local_name "Name") with "Name". change (String.eqb "Id" "Id") with true.
    change (String.eqb "Name" "Id") with false. change (String.eqb "Name" "Name") with true. cbn [mbind option_bind hz_ID hz_Name].
    by rewrite !chardata_leaf.
  - cbn [forallb doc_ok]. rewrite all_ok; [reflexivity|]. intros z. reflexivity.
Qed.

Lemma sets_answer_read rrs : Forall (fun rr => int64 (r53_TTL rr)) rrs -> r53_sets (sets_answer rrs) = Some (map clean_rrset rrs).
Proof.
  intros Ht. unfold r53_sets, sets_answer. rewrite Unmarshal_written; [|reflexivity|reflexivity|reflexivity|].
  - cbn [map as_xml decode]. change (local_name "ResourceRecordSets") with "ResourceRecordSets".
    change (String.eqb "ResourceRecordSets" "ResourceRecordSets") with true. cbn match.
    rewrite (decode_slice_read _ _ _ clean_rrset); [done| |done].
    intros rr Hin. eexists. split; [reflexivity|]. apply r53RRSet_read. rewrite Forall_forall in Ht. by apply Ht.
  - cbn [forallb doc_ok]. rewrite all_ok; [reflexivity|]. intros rr. cbn [doc_ok]. by rewrite r53RRSet_ok.
Qed.
End laws.

#[global] Opaque r53_zones r53_sets r53_body zones_answer sets_answer.
