(* ===== verification/Http.v ===== *)
(** * Http: requests to the DNS providers

    What internal/dnsprovider/http.go and the status mapping of provider.go make of
    an answer, the JSON bodies the providers send, and the pieces of net/url they
    build their requests with.  The transport is a parameter: a request's answer is
    a status with its body, or an error. *)
From stdpp Require Import base tactics option list strings sorting.
From Stdlib Require Import Ascii ZArith Lia.
From S2P Require Import Prelude GoStrings GoNum GoJson JsonBind Drop DropDns DropDnsPut.
Open Scope Z_scope.

(** ** net/url *)

(** The bytes [url.QueryEscape] leaves as they are. *)
Definition unreserved (c : ascii) : bool :=
  let n := code c in
  ((65 <=? n) && (n <=? 90)) || ((97 <=? n) && (n <=? 122)) || is_digit c ||
  Ascii.eqb c "-" || Ascii.eqb c "_" || Ascii.eqb c "." || Ascii.eqb c "~".

Definition hex_upper (n : Z) : ascii := if n <? 10 then chr (48 + n) else chr (55 + n).

Fixpoint url_QueryEscape (s : string) : string :=
  match s with
  | EmptyString => EmptyString
  | String c s =>
      if unreserved c then String c (url_QueryEscape s)
      else if Ascii.eqb c " " then String "+" (url_QueryEscape s)
      else String "%" (String (hex_upper (code c / 16)) (String (hex_upper (code c mod 16)) (url_QueryEscape s)))
  end.

Lemma hex_upper_amp n : 0 <= n < 16 -> Ascii.eqb (hex_upper n) "&" = false.
Proof.
  intros Hn. apply Ascii.eqb_neq. intros E%(f_equal code). revert E. unfold hex_upper.
  destruct (Z.ltb_spec n 10); rewrite code_chr by lia; change (code "&") with 38; lia.
Qed.

(** The separator of a query does not occur in what is escaped. *)
Lemma lacks_cons c d s : Ascii.eqb d c = false -> lacks c s = true -> lacks c (String d s) = true.
Proof. intros Hd Hs. unfold lacks in *. cbn. by rewrite Hd, Hs. Qed.

Lemma QueryEscape_lacks_amp s : lacks "&" (url_QueryEscape s) = true.
Proof.
  induction s as [|c s IH]; [done|]. cbn [url_QueryEscape]. destruct (unreserved c) eqn:Eu.
  - apply lacks_cons; [|done]. destruct (Ascii.eqb_spec c "&"); [by subst|done].
  - destruct (Ascii.eqb c " "); [by apply lacks_cons|]. pose proof (code_range c).
    repeat apply lacks_cons; try done; apply hex_upper_amp.
    + split; [apply Z.div_pos|apply Z.div_lt_upper_bound]; lia.
    + apply Z.mod_pos_bound. lia.
Qed.

(** A text of unreserved bytes is only written by itself. *)
Lemma QueryEscape_plain s t : string_forallb unreserved t = true -> url_QueryEscape s = t -> s = t.
Proof.
  revert t. induction s as [|c s IH]; intros t Ht; cbn [url_QueryEscape]; [by intros <-|].
  destruct (unreserved c) eqn:Eu; [|destruct (Ascii.eqb c " ")]; intros <-.
  - cbn in Ht. rewrite Eu in Ht. f_equal. by apply IH.
  - done.
  - done.
Qed.

(** [strings.ReplaceAll] of a single byte. *)
Fixpoint replace_byte (old : ascii) (new s : string) : string :=
  match s with
  | EmptyString => EmptyString
  | String c s => if Ascii.eqb c old then new +:+ replace_byte old new s else String c (replace_byte old new s)
  end.

(** The pairs of [v], which has each key once, by key, the values of one key in the
    order [sort] leaves them. *)
Definition url_encode_with (escape : string -> string) (sort : list string -> list string)
    (v : list (string * list string)) : string :=
  let pairs k := match List.find (fun kv => String.eqb (fst kv) k) v with
                 | Some (_, vals) => map (fun val => escape k +:+ "=" +:+ escape val) (sort vals)
                 | None => []
                 end in
  strings_Join (concat (map pairs (sort_strings (map fst v)))) "&".

(** [url.Values.Encode] *)
Definition url_Encode (v : list (string * list string)) : string := url_encode_with url_QueryEscape (fun l => l) v.

Example url_Encode_sorts :
  url_Encode [("type", ["TXT"]); ("name", ["_tincan.a b"]); ("page", ["1"])] = "name=_tincan.a+b&page=1&type=TXT".
Proof. vm_compute. reflexivity. Qed.

(** ** JSON bodies *)

(** A [map[string]any], its keys distinct, or a struct with its omitted fields left
    out. *)
Definition json_object := list (string * json).
Definition field (k : string) (b : json_object) : option json := snd <$> List.find (fun kv => String.eqb (fst kv) k) b.

(** ** provider.go *)

Definition statusError (status : Z) : result unit :=
  if (status =? 401) || (status =? 403) then Err dnsprovider_ErrAuth
  else if status =? 404 then Err dnsprovider_ErrNotFound
  else if (status <? 200) || (300 <=? status) then Err (errors_New "%s API status %d: %s")
  else Ok tt.

Lemma statusError_Ok status : statusError status = Ok tt <-> 200 <= status < 300.
Proof.
  unfold statusError. destruct (Z.eqb_spec status 401), (Z.eqb_spec status 403); cbn; try (split; [done|lia]).
  destruct (Z.eqb_spec status 404); [split; [done|lia]|].
  destruct (Z.ltb_spec status 200); cbn; [split; [done|lia]|].
  destruct (Z.leb_spec 300 status); cbn; split; try done; lia.
Qed.

(** ** http.go *)

Definition accepted (r : result (Z * string)) : Prop := exists status data, r = Ok (status, data) /\ 200 <= status < 300.

(** [doJSON]: the answer of [doJSONRaw] with its status checked. *)
Definition doJSON (r : result (Z * string)) : result string :=
  '(status, data) ← r;
  _ ← statusError status;
  Ok data.

Lemma doJSON_Ok r data : doJSON r = Ok data -> exists status, r = Ok (status, data) /\ 200 <= status < 300.
Proof. unfold doJSON. intros ([status x] & -> & ([] & Hs%statusError_Ok & [= ->])%bind_Ok)%bind_Ok. by eexists. Qed.

Lemma not_accepted status data : (status <? 200) || (300 <=? status) = true -> ~ accepted (Ok (status, data)).
Proof. intros Hs (st & d & [= <- <-] & Ha). apply orb_true_iff in Hs. lia. Qed.

(** The outcome of a request that changes something: it took effect, or it was not
    accepted and did not. *)
Definition send_outcome (r : result (Z * string)) (done_ undone : Prop) : Prop := done_ \/ (undone /\ ~ accepted r).

(** A change sent to the service [s], and the caller's error. *)
Definition sent {S} (sr : S * result (Z * string)) : S * result unit :=
  let '(s, r) := sr in (s, _ ← doJSON r; Ok tt).

Lemma sent_outcome {S} (s1 s' : S) r w (done_ undone : S -> Prop) : sent (s1, w) = (s', r) ->
  send_outcome w (done_ s1) (undone s1) -> effect_or_failure s' r (done_ s') (undone s').
Proof.
  cbn. intros [= <- <-] [Hd|[Hu Hn]]; [by left|right]. split; [|done]. destruct (doJSON w) as [data|e] eqn:Ed; [|done].
  apply doJSON_Ok in Ed as (status & -> & Hs). destruct Hn. by eexists _, _.
Qed.
