(* ===== verification/TxtRrset.v ===== *)
(** * TxtRrset: the providers that keep the TXT values at a name as one set

    internal/dnsprovider/desec.go and route53.go, with txt.go and the status
    mapping of provider.go.  Both implement the record operations by reading the
    whole set and writing it back ([Rrset]); the contract the DNS drop needs of a
    provider ([TxtApiLaws]) is discharged from it.  What the remote services do is
    a parameter with what is relied on as laws; their answers are decoded in
    ProviderJson.v and ProviderXml.v, and SigV4.v has the signing of requests. *)
From stdpp Require Import base tactics option list strings sorting gmap.
From Stdlib Require Import Ascii ZArith Lia.
From S2P Require Import Prelude GoStrings GoNum GoNet GoBase64 GoUtf8 GoJson JsonBind GoXml Keys Directory Wire Toy Codec ProviderJson ProviderXml Drop DropDns DropDnsPut Http.
Open Scope Z_scope.

(** ** txt.go *)

Definition quote_mark : ascii := chr 34.
Definition quoteTXT (s : string) : string := String quote_mark (s +:+ String quote_mark "").

Definition unquoteTXT (s : string) : string :=
  if (2 <=? len s) && bool_decide (first_byte s = Some quote_mark) && bool_decide (last_byte s = Some quote_mark)
  then string_take (String.length s - 2) (string_drop 1 s) else s.

Lemma unquote_quote s : unquoteTXT (quoteTXT s) = s.
Proof.
  unfold unquoteTXT, quoteTXT. assert (Hl : String.length (String quote_mark (s +:+ String quote_mark "")) = S (S (String.length s))).
  { cbn [String.length]. rewrite string_length_app. cbn. lia. }
  replace (2 <=? len _) with true by (unfold len; rewrite Hl; symmetry; apply Z.leb_le; lia).
  rewrite <- string_app_cons. rewrite last_byte_snoc. rewrite string_app_cons. cbn [first_byte andb].
  rewrite !bool_decide_eq_true_2 by done. cbn [andb string_drop]. rewrite Hl.
  replace (S (S (String.length s)) - 2)%nat with (String.length s) by lia. apply string_take_app.
Qed.

(** Values held quoted are as distinct as what is held. *)
Lemma unquoted_distinct l : NoDup l -> Forall (fun x => exists v, x = quoteTXT v) l -> NoDup (map unquoteTXT l).
Proof.
  intros Hn Hq. apply NoDup_fmap_2_strong; [|done]. rewrite Forall_forall in Hq.
  intros x y Hx Hy E. destruct (Hq x Hx) as [v ->], (Hq y Hy) as [w ->]. rewrite !unquote_quote in E. by subst.
Qed.

(** ** One set per name *)

(** [desecID] and [r53ID], and their inverses. *)
Definition rr_id (name value : string) : string := name +:+ "/" +:+ value.
Definition split_rr_id (id : string) : string * string :=
  match strings_IndexByte "/" id with
  | Some i => (string_take i id, string_drop (S i) id)
  | None => ("", id)
  end.

(** Reading and writing the values at a name, and what the service holds there. *)
Class Rrset (S : Type) := {
  rs_values : string -> S -> list string;
  rs_get : string -> S -> S * result (list string);
  rs_put : string -> S -> list string -> S * result unit }.

Class RrsetLaws (S : Type) `{Rrset S} (name : string) : Prop := {
  values_distinct s : NoDup (rs_values name s);
  get_reads s s' r : rs_get name s = (s', r) ->
    rs_values name s' ≡ₚ rs_values name s /\ forall vs, r = Ok vs -> vs ≡ₚ rs_values name s;
  put_sets s vs s' r : rs_put name s vs = (s', r) ->
    effect_or_failure s' r (rs_values name s' ≡ₚ vs) (rs_values name s' ≡ₚ rs_values name s) }.

Section rrset.
Context {S : Type} `{Rrset S}.

(** [ListTXT] *)
Definition rr_ListTXT (name : string) (s : S) : S * result (list TXTRecord) :=
  let '(s, r) := rs_get name s in
  match r with
  | Err e => (s, Err e)
  | Ok values => (s, Ok (map (fun v => {| txt_ID := rr_id name v; txt_Value := v |}) values))
  end.

(** A read-modify-write. *)
Definition rr_modify (name : string) (f : list string -> list string) (s : S) : S * result unit :=
  let '(s, r) := rs_get name s in
  match r with
  | Err e => (s, Err e)
  | Ok values => rs_put name s (f values)
  end.

Definition rr_CreateTXT (name : string) (s : S) (value : string) : S * result unit :=
  rr_modify name (fun values => values ++ [value]) s.

Fixpoint replace_first (old value : string) (values : list string) : list string :=
  match values with
  | [] => []
  | v :: vs => if String.eqb v old then value :: vs else v :: replace_first old value vs
  end.

(** The set is found by the name the id carries. *)
Definition rr_UpdateTXT (s : S) (id value : string) : S * result unit :=
  let '(name, old) := split_rr_id id in rr_modify name (replace_first old value) s.

Definition rr_DeleteTXT (s : S) (id : string) : S * result unit :=
  let '(name, old) := split_rr_id id in rr_modify name (List.filter (fun v => negb (String.eqb v old))) s.

Definition rr_ReplaceTXT (name : string) (s : S) (values : list string) : S * result unit := rs_put name s values.

Variable name : string.

#[export] Instance rrset_api : TxtApi S := {
  api_records s := map (fun v => {| txt_ID := rr_id name v; txt_Value := v |}) (rs_values name s);
  api_ListTXT := rr_ListTXT name;
  api_CreateTXT := rr_CreateTXT name;
  api_UpdateTXT := rr_UpdateTXT;
  api_DeleteTXT := rr_DeleteTXT;
  api_ReplaceTXT := Some (rr_ReplaceTXT name);
  api_Flush := None }.

Lemma rrset_values s : values_at s = rs_values name s.
Proof. unfold values_at. cbn. rewrite <- list_fmap_compose. apply list_fmap_id. Qed.

Lemma rr_id_inj v w : rr_id name v = rr_id name w -> v = w.
Proof.
  unfold rr_id. rewrite !string_app_assoc. intros E%(f_equal (string_drop (String.length (name +:+ "/")))).
  by rewrite !string_drop_app in E.
Qed.

Context `{!RrsetLaws S name}.

#[export] Instance rrset_laws : TxtApiLaws S.
Proof.
  constructor.
  - intros s. cbn. rewrite <- list_fmap_compose. apply NoDup_fmap_2_strong; [|apply values_distinct].
    intros v w _ _. apply rr_id_inj.
  - intros s s' r. cbn. unfold rr_ListTXT. destruct (rs_get name s) as [s1 l] eqn:E. apply get_reads in E as [E1 E2]. destruct l as [vs|e]; intros [= <- <-];
      (split; [by rewrite E1|]); intros rs [=]. subst rs. by rewrite (E2 _ eq_refl).
  - done.
  - done.
  - done.
  - intros replace s vs s' r [= <-] Hput%put_sets. rewrite !rrset_values. destruct Hput as [Hp|[Hf Hp]]; [by left|right].
    split; [done|]. cbn. by rewrite Hp.
  - done.
Qed.

(** The operations record by record, for callers that do not replace the set. *)
Lemma split_rr_id_spec v : lacks "/" name = true -> split_rr_id (rr_id name v) = (name, v).
Proof.
  intros Hn. unfold split_rr_id, rr_id. change ("/" +:+ v) with (String "/" v). rewrite IndexByte_app by done.
  rewrite string_take_app. f_equal. change (String "/" v) with ("/" +:+ v). rewrite string_app_assoc.
  assert (Hl : Datatypes.S (String.length name) = String.length (name +:+ "/")) by (rewrite string_length_app; cbn; lia).
  rewrite Hl. apply string_drop_app.
Qed.

Lemma replace_first_spec old value values :
  NoDup values -> replace_first old value values = (fun v => if String.eqb v old then value else v) <$> values.
Proof.
  induction 1 as [|v vs Hv _ IH]; [done|]. cbn. destruct (String.eqb_spec v old) as [->|Hne]; [|by rewrite IH].
  f_equal. rewrite <- (list_fmap_id vs) at 1. apply list_fmap_ext. intros i w Hw%list_elem_of_lookup_2. cbn.
  destruct (String.eqb_spec w old) as [->|]; done.
Qed.
End rrset.

(** ** desec.go *)

Record deSEC := { ds_token : string; ds_ttl : Z; ds_baseURL : string }.

Definition defaultDeSECTTL : Z := 3600.

Definition newDeSEC (token baseURL : string) (ttl : Z) : deSEC := {|
  ds_token := token;
  ds_ttl := if ttl <=? 0 then defaultDeSECTTL else ttl;
  ds_baseURL := if String.eqb baseURL "" then "https://desec.io/api/v1" else baseURL |}.

Definition urlSubname (name : string) : string :=
  let name := strings_TrimSuffix name "." in
  if String.eqb name "" || String.eqb name "@" then "@" else name.

Definition bodySubname (name : string) : string :=
  let name := strings_TrimSuffix name "." in
  if String.eqb name "@" then "" else name.

Definition rrsetsURL (d : deSEC) (zone : string) : string := ds_baseURL d +:+ "/domains/" +:+ zone +:+ "/rrsets/".
Definition rrsetURL (d : deSEC) (zone name : string) : string := rrsetsURL d zone +:+ urlSubname name +:+ "/TXT/".

(** The service over its state [S]: [doJSONRaw] with the token's header, and the records held under an RRset's URL, in presentation
    format. *)
Class DesecService (S : Type) := {
  desec_read : string -> S -> result (Z * string);
  desec_write : string -> string -> option desecRRset -> S -> S * result (Z * string);
  desec_held : S -> string -> option (list string) }.

(** A write that was not accepted may have taken effect when its answer was lost or
    was another failure, but not when it is a 404. *)
Definition write_outcome (r : result (Z * string)) (done_ undone : Prop) : Prop :=
  (done_ /\ (forall data, r <> Ok (404, data))) \/ (undone /\ ~ accepted r).

Class DesecServiceLaws (S : Type) `{DesecService S} `{UnicodeTables} : Prop := {
  held_quoted s url l : desec_held s url = Some l -> NoDup l /\ Forall (fun x => exists v, x = quoteTXT v) l;
  read_missing s url data : desec_read url s = Ok (404, data) -> desec_held s url = None;
  read_found s url status data rr : desec_read url s = Ok (status, data) -> 200 <= status < 300 ->
    desec_Unmarshal data = Some rr -> exists l, desec_held s url = Some l /\ rr_Records rr ≡ₚ l;
  put_replaces s url rr s' r : desec_write "PUT" url (Some rr) s = (s', r) ->
    write_outcome r (exists l, desec_held s' url = Some l /\ l ≡ₚ rr_Records rr) (desec_held s' url = desec_held s url);
  post_creates s d zone name rr s' r :
    desec_write "POST" (rrsetsURL d zone) (Some rr) s = (s', r) -> rr_Subname rr = bodySubname name -> rr_Type rr = "TXT" ->
    write_outcome r (exists l, desec_held s' (rrsetURL d zone name) = Some l /\ l ≡ₚ rr_Records rr)
      (desec_held s' (rrsetURL d zone name) = desec_held s (rrsetURL d zone name));
  delete_removes s url s' r : desec_write "DELETE" url None s = (s', r) ->
    write_outcome r (desec_held s' url = None) (desec_held s' url = desec_held s url) }.

Section desec.
Context {S : Type} `{DesecService S} `{UnicodeTables}.
Variables (d : deSEC) (zone name : string).

Definition desec_getRecords (s : S) : result (list string) :=
  '(status, data) ← desec_read (rrsetURL d zone name) s;
  if status =? 404 then Ok [] else
  _ ← statusError status;
  rr ← of_option (errors_New "decode desec rrset: %w") (desec_Unmarshal data);
  Ok (map unquoteTXT (rr_Records rr)).

(** The status of a write as the caller's error. *)
Definition status_result (sr : S * result (Z * string)) : S * result unit :=
  let '(s, r) := sr in (s, '(status, _) ← r; statusError status).

Definition desec_deleteRRset (s : S) : S * result unit := status_result (desec_write "DELETE" (rrsetURL d zone name) None s).

Definition desec_putRecords (s : S) (values : list string) : S * result unit :=
  match values with
  | [] => desec_deleteRRset s
  | _ =>
      let body := {| rr_Subname := bodySubname name; rr_Type := "TXT"; rr_TTL := ds_ttl d; rr_Records := map quoteTXT values |} in
      let '(s, r) := desec_write "PUT" (rrsetURL d zone name) (Some body) s in
      match r with
      | Ok (404, _) => status_result (desec_write "POST" (rrsetsURL d zone) (Some body) s)
      | _ => status_result (s, r)
      end
  end.

Definition desec_values (s : S) : list string := map unquoteTXT (default [] (desec_held s (rrsetURL d zone name))).

Context `{!DesecServiceLaws S}.

Lemma status_result_Ok (s s' : S) r u : status_result (s, r) = (s', Ok u) -> s' = s /\ accepted r.
Proof.
  cbn. destruct r as [[status data]|e]; [|done]. cbn. intros [= <- Hs]. split; [done|]. exists status, data.
  split; [done|]. apply statusError_Ok. by rewrite Hs; destruct u.
Qed.

Lemma status_result_state (s s' : S) r r' : status_result (s, r) = (s', r') -> s' = s.
Proof. cbn. by intros [= <- _]. Qed.

(** What is held after a write reads back as the values written. *)
Lemma held_values s vs l : desec_held s (rrsetURL d zone name) = Some l -> l ≡ₚ map quoteTXT vs -> desec_values s ≡ₚ vs.
Proof.
  intros Hl Hp. unfold desec_values. rewrite Hl. cbn. rewrite Hp, map_map. rewrite <- (map_id vs) at 2.
  apply Permutation_refl'. apply map_ext. intros v. apply unquote_quote.
Qed.

Lemma written (s s1 s' : S) r r' vs done_ undone :
  status_result (s1, r) = (s', r') -> write_outcome r done_ undone ->
  (done_ -> desec_values s1 ≡ₚ vs) -> (undone -> desec_values s1 ≡ₚ desec_values s) ->
  effect_or_failure s' r' (desec_values s' ≡ₚ vs) (desec_values s' ≡ₚ desec_values s).
Proof.
  intros Hs Ho Hd Hu. pose proof (status_result_state _ _ _ _ Hs) as ->. destruct Ho as [[Hx _]|[Hx Hna]]; [left; auto|right].
  split; [|auto]. destruct r' as [u|e]; [|done]. apply status_result_Ok in Hs as [_ Hs]. by destruct Hna.
Qed.

Lemma desec_put_outcome s vs s' r : desec_putRecords s vs = (s', r) ->
  effect_or_failure s' r (desec_values s' ≡ₚ vs) (desec_values s' ≡ₚ desec_values s).
Proof.
  unfold desec_putRecords. destruct vs as [|v vs0].
  - unfold desec_deleteRRset. destruct (desec_write _ _ _ _) as [s1 r1] eqn:E. intros Hs.
    eapply written; [exact Hs|by eapply delete_removes| |]; unfold desec_values; by intros ->.
  - set (vs := v :: vs0). set (body := {| rr_Subname := _ |}). destruct (desec_write "PUT" _ _ _) as [s1 r1] eqn:E.
    pose proof (put_replaces _ _ _ _ _ E) as Ho.
    assert (Hd : forall s2, (exists l, desec_held s2 (rrsetURL d zone name) = Some l /\ l ≡ₚ rr_Records body) -> desec_values s2 ≡ₚ vs)
      by (intros s2 (l & Hl & Hp); by eapply held_values).
    assert (Hu : forall s2 s3, desec_held s3 (rrsetURL d zone name) = desec_held s2 (rrsetURL d zone name) -> desec_values s3 ≡ₚ desec_values s2)
      by (intros s2 s3 Heq; unfold desec_values; by rewrite Heq).
    assert (Hput : status_result (s1, r1) = (s', r) -> effect_or_failure s' r (desec_values s' ≡ₚ vs) (desec_values s' ≡ₚ desec_values s))
      by (intros Hs; eapply written; [exact Hs|exact Ho|apply Hd|apply Hu]).
    destruct r1 as [[status data]|e]; [|exact Hput]. destruct (decide (status = 404)) as [->|Hne].
    + destruct Ho as [[_ Hno]|[Heq _]]; [by destruct (Hno data)|]. destruct (desec_write "POST" _ _ _) as [s2 r2] eqn:E2.
      intros Hs. eapply written; [exact Hs|by eapply (post_creates s1 d zone name)|apply Hd|]. intros Heq2. apply Hu. congruence.
    + intros Hs. apply Hput. rewrite <- Hs. destruct status as [|p|p]; try done.
      repeat (destruct p as [p|p|]; try done).
Qed.

End desec.

#[export] Instance desec_rrset {S} `{DesecService S} `{UnicodeTables} (d : deSEC) (zone : string) : Rrset S := {
  rs_values := desec_values d zone;
  rs_get name s := (s, desec_getRecords d zone name s);
  rs_put := desec_putRecords d zone }.

(** The methods of the provider. *)
Section desec_methods.
Context {S : Type} `{DesecService S} `{UnicodeTables}.
Definition desec_ListTXT (d : deSEC) (zone name : string) := rr_ListTXT (H := desec_rrset d zone) name.
Definition desec_CreateTXT (d : deSEC) (zone name : string) := rr_CreateTXT (H := desec_rrset d zone) name.
Definition desec_UpdateTXT (d : deSEC) (zone : string) := rr_UpdateTXT (H := desec_rrset d zone).
Definition desec_DeleteTXT (d : deSEC) (zone : string) := rr_DeleteTXT (H := desec_rrset d zone).
Definition desec_ReplaceTXT (d : deSEC) (zone name : string) := rr_ReplaceTXT (H := desec_rrset d zone) name.
End desec_methods.

#[export] Instance desec_rrset_laws {S} `{DesecServiceLaws S} (d : deSEC) (zone name : string) :
  @RrsetLaws S (desec_rrset d zone) name.
Proof.
  constructor.
  - intros s. cbn. unfold desec_values. destruct (desec_held s _) as [l|] eqn:El; cbn; [|constructor].
    apply held_quoted in El as [Hn Hq]. by apply unquoted_distinct.
  - intros s s' r [= <- <-]. split; [done|]. intros vs. unfold desec_getRecords.
    intros ([status data] & Hr & Hx)%bind_Ok. cbn [rs_values desec_rrset]. unfold desec_values.
    destruct (Z.eqb_spec status 404) as [->|Hne].
    + injection Hx as <-. by rewrite (read_missing _ _ _ Hr).
    + apply bind_Ok in Hx as ([] & Hs%statusError_Ok & (rr & Hrr%of_option_Ok & [= <-])%bind_Ok).
      destruct (read_found _ _ _ _ _ Hr Hs Hrr) as (l & -> & Hp). cbn. by rewrite Hp.
  - intros s vs s' r. by apply desec_put_outcome.
Qed.


(** ** route53.go *)

(** RFC 3986 percent-encoding. *)
Definition awsURIEncode (s : string) : string := replace_byte "+" "%20" (url_QueryEscape s).

(** [awsCanonicalQuery]: [v] has each key once. *)
Definition awsCanonicalQuery (v : list (string * list string)) : string :=
  url_encode_with awsURIEncode sort_strings v.

Record route53 := { r5_accessKey : string; r5_secretKey : string; r5_ttl : Z; r5_baseURL : string }.

Definition newRoute53 (accessKey secretKey baseURL : string) (ttl : Z) : route53 := {|
  r5_accessKey := accessKey; r5_secretKey := secretKey;
  r5_ttl := if ttl <=? 0 then 300 else ttl;
  r5_baseURL := if String.eqb baseURL "" then "https://route53.amazonaws.com" else baseURL |}.

Definition route53APIVersion : string := "2013-04-01".

Definition zonesURL (p : route53) (zone : string) : string :=
  r5_baseURL p +:+ "/" +:+ route53APIVersion +:+ "/hostedzonesbyname?" +:+
  awsCanonicalQuery [("dnsname", [zone]); ("maxitems", ["1"])].
Definition setsURL (p : route53) (id fqdn : string) : string :=
  r5_baseURL p +:+ "/" +:+ route53APIVersion +:+ "/hostedzone/" +:+ id +:+ "/rrset?" +:+
  awsCanonicalQuery [("name", [fqdn]); ("type", ["TXT"])].
Definition changeURL (p : route53) (id : string) : string :=
  r5_baseURL p +:+ "/" +:+ route53APIVersion +:+ "/hostedzone/" +:+ id +:+ "/rrset/".

Definition r53FQDN (name zone : string) : string := txtFQDN name zone.

(** [strings.TrimPrefix] *)
Definition trim_prefix (s p : string) : string := default s (strings_CutPrefix p s).

(** A signed request and its answer (a change by what its body says), and what the
    service holds: the id of a hosted zone, and the records of a zone's TXT set. *)
Class R53Service (S : Type) := {
  r53_read : string -> S -> result (Z * string);
  r53_write : string -> string -> r53RRSet -> S -> S * result (Z * string);   (* URL, action, set *)
  r53_zone : S -> string -> option string;
  r53_held : S -> string -> string -> option (list string) }.

Section matching.
Context `{UnicodeTables}.
Definition hz_matches (zone : string) (hz : r53HostedZone) : bool :=
  strings_EqualFold (strings_TrimSuffix (hz_Name hz) ".") (strings_TrimSuffix zone ".").
Definition set_matches (fqdn : string) (rr : r53RRSet) : bool :=
  strings_EqualFold (r53_Type rr) "TXT" && strings_EqualFold (strings_TrimSuffix (r53_Name rr) ".") fqdn.
End matching.

(** The laws, for one client and one record name. *)
Class R53ServiceLaws (S : Type) `{R53Service S} `{UnicodeTables} `{XmlNames} (p : route53) (zone name : string) : Prop := {
  r53_held_quoted s id l : r53_held s id (r53FQDN name zone) = Some l -> NoDup l /\ Forall (fun x => exists v, x = quoteTXT v) l;
  zones_found s status data hzs hz : r53_read (zonesURL p zone) s = Ok (status, data) -> 200 <= status < 300 ->
    r53_zones data = Some hzs -> List.find (hz_matches zone) hzs = Some hz ->
    r53_zone s zone = Some (trim_prefix (hz_ID hz) "/hostedzone/");
  sets_found s id status data sets : r53_read (setsURL p id (r53FQDN name zone)) s = Ok (status, data) -> 200 <= status < 300 ->
    r53_sets data = Some sets ->
    match List.find (set_matches (r53FQDN name zone)) sets, r53_held s id (r53FQDN name zone) with
    | Some rr, Some l => r53_Records rr ≡ₚ l
    | None, None => True
    | _, _ => False
    end;
  zone_kept s url action rr s' r : r53_write url action rr s = (s', r) -> r53_zone s' zone = r53_zone s zone;
  upsert_replaces s id rr s' r : r53_write (changeURL p id) "UPSERT" rr s = (s', r) ->
    r53_Name rr = r53FQDN name zone -> r53_Type rr = "TXT" ->
    (exists l, r53_held s' id (r53FQDN name zone) = Some l /\ l ≡ₚ r53_Records rr) \/
    (r53_held s' id (r53FQDN name zone) = r53_held s id (r53FQDN name zone) /\ ~ accepted r);
  change_deletes s id rr s' r : r53_write (changeURL p id) "DELETE" rr s = (s', r) -> set_matches (r53FQDN name zone) rr = true ->
    r53_held s' id (r53FQDN name zone) = None \/
    (r53_held s' id (r53FQDN name zone) = r53_held s id (r53FQDN name zone) /\ ~ accepted r) }.

(** The provider's cache of the zone's id, and the service. *)
Record R53 (S : Type) := { r5_zoneID : string; r5_service : S }.
Arguments r5_zoneID {S} _.
Arguments r5_service {S} _.
Arguments Build_R53 {S} _ _.

Section route53.
Context {S : Type} `{R53Service S} `{UnicodeTables} `{XmlNames}.
Variables (p : route53) (zone name : string).

(** [do]'s answer: the status mapped to an error. *)
Definition r53_do (r : result (Z * string)) : result string :=
  doJSON (wrap_err (fun e => Errorf "route53 API request: %w" [e]) r).

Definition r53_resolveZoneID (s : R53 S) : R53 S * result string :=
  if negb (String.eqb (r5_zoneID s) "") then (s, Ok (r5_zoneID s)) else
  match r53_do (r53_read (zonesURL p zone) (r5_service s)) with
  | Err e => (s, Err e)
  | Ok data =>
      match r53_zones data with
      | None => (s, Err (errors_New "decode route53 hosted zones: %w"))
      | Some hzs =>
          match List.find (hz_matches zone) hzs with
          | Some hz => let zid := trim_prefix (hz_ID hz) "/hostedzone/" in (Build_R53 zid (r5_service s), Ok zid)
          | None => (s, Err (Errorf "route53: hosted zone %q not found: %w" [dnsprovider_ErrNotFound]))
          end
      end
  end.

Definition r53_getRecordSet (s : R53 S) : R53 S * result (option r53RRSet) :=
  let '(s, id) := r53_resolveZoneID s in
  (s, id ← id;
      data ← r53_do (r53_read (setsURL p id (r53FQDN name zone)) (r5_service s));
      sets ← of_option (errors_New "decode route53 record sets: %w") (r53_sets data);
      Ok (List.find (set_matches (r53FQDN name zone)) sets)).

Definition r53_getValues (s : R53 S) : R53 S * result (list string) :=
  let '(s, r) := r53_getRecordSet s in
  (s, rr ← r; Ok (match rr with Some rr => map unquoteTXT (r53_Records rr) | None => [] end)).

Definition r53_change (action : string) (rr : r53RRSet) (s : R53 S) : R53 S * result unit :=
  let '(s, id) := r53_resolveZoneID s in
  match id with
  | Err e => (s, Err e)
  | Ok id =>
      let '(srv, r) := r53_write (changeURL p id) action rr (r5_service s) in
      (Build_R53 (r5_zoneID s) srv, _ ← r53_do r; Ok tt)
  end.

Definition r53_deleteRecordSet (s : R53 S) : R53 S * result unit :=
  let '(s, r) := r53_getRecordSet s in
  match r with
  | Err e => (s, Err e)
  | Ok None => (s, Ok tt)
  | Ok (Some rr) => r53_change "DELETE" rr s
  end.

Definition r53_putValues (s : R53 S) (values : list string) : R53 S * result unit :=
  match values with
  | [] => r53_deleteRecordSet s
  | _ => r53_change "UPSERT" {| r53_Name := r53FQDN name zone; r53_Type := "TXT"; r53_TTL := r5_ttl p;
                               r53_Records := map quoteTXT values |} s
  end.

(** The zone's id as the provider would resolve it. *)
Definition r53_id (s : R53 S) : option string :=
  if negb (String.eqb (r5_zoneID s) "") then Some (r5_zoneID s) else r53_zone (r5_service s) zone.

Definition r53_values (s : R53 S) : list string :=
  match r53_id s with
  | Some id => map unquoteTXT (default [] (r53_held (r5_service s) id (r53FQDN name zone)))
  | None => []
  end.

Context `{!R53ServiceLaws S p zone name}.

Lemma r53_do_Ok r data : r53_do r = Ok data -> exists status, r = Ok (status, data) /\ 200 <= status < 300.
Proof. intros (status & ->%wrap_err_Ok & Hs)%doJSON_Ok. by eexists. Qed.

(** The lookup of the zone changes nothing but the cache, which it fills with the
    zone's id. *)
Lemma resolve_spec s s' r : r53_resolveZoneID s = (s', r) ->
  r5_service s' = r5_service s /\ r53_id s' = r53_id s /\ forall id, r = Ok id -> r53_id s' = Some id.
Proof.
  unfold r53_resolveZoneID. destruct (negb (String.eqb (r5_zoneID s) "")) eqn:En.
  { intros [= <- <-]. repeat split. intros id [= <-]. unfold r53_id. by rewrite En. }
  destruct (r53_do _) as [data|e] eqn:Ed; [|by intros [= <- <-]]. apply r53_do_Ok in Ed as (status & Hr & Hs).
  destruct (r53_zones data) as [hzs|] eqn:Ez; [|by intros [= <- <-]].
  destruct (List.find _ hzs) as [hz|] eqn:Ef; [|by intros [= <- <-]]. cbv zeta.
  pose proof (zones_found _ _ _ _ _ Hr Hs Ez Ef) as Hz. intros [= <- <-]. unfold r53_id. rewrite En. cbn [r5_zoneID r5_service].
  assert (Hi : (if negb (String.eqb (trim_prefix (hz_ID hz) "/hostedzone/") "") then Some (trim_prefix (hz_ID hz) "/hostedzone/")
    else r53_zone (r5_service s) zone) = Some (trim_prefix (hz_ID hz) "/hostedzone/")) by (rewrite Hz; by case (negb _)).
  rewrite Hi. repeat split; [done|]. by intros id [= <-].
Qed.

Lemma r53_values_kept s s' : r5_service s' = r5_service s -> r53_id s' = r53_id s -> r53_values s' = r53_values s.
Proof. intros Hs Hi. unfold r53_values. by rewrite Hs, Hi. Qed.

(** What the set read says of the values held. *)
Lemma getRecordSet_spec s s' r : r53_getRecordSet s = (s', r) ->
  r5_service s' = r5_service s /\ r53_id s' = r53_id s /\
  (forall rr, r = Ok (Some rr) -> set_matches (r53FQDN name zone) rr = true /\ map unquoteTXT (r53_Records rr) ≡ₚ r53_values s) /\
  (r = Ok None -> r53_values s = []).
Proof.
  unfold r53_getRecordSet. destruct (r53_resolveZoneID s) as [s1 r1] eqn:E. apply resolve_spec in E as (E1 & E2 & E3).
  intros [= -> <-]. split; [done|]. split; [done|].
  assert (Hx : forall o, (id ← r1; data ← r53_do (r53_read (setsURL p id (r53FQDN name zone)) (r5_service s'));
    sets ← of_option (errors_New "decode route53 record sets: %w") (r53_sets data);
    Ok (List.find (set_matches (r53FQDN name zone)) sets)) = Ok o ->
    exists id sets, r53_id s = Some id /\ o = List.find (set_matches (r53FQDN name zone)) sets /\
      match o, r53_held (r5_service s) id (r53FQDN name zone) with
      | Some rr, Some l => r53_Records rr ≡ₚ l | None, None => True | _, _ => False end).
  { intros o (id & -> & (data & (status & Hr & Hs)%r53_do_Ok & (sets & Hd%of_option_Ok & [= <-])%bind_Ok)%bind_Ok)%bind_Ok.
    exists id, sets. split; [by rewrite <- E2, (E3 _ eq_refl)|]. split; [done|]. rewrite <- E1. by eapply sets_found. }
  split.
  - intros rr Hrr. destruct (Hx _ Hrr) as (id & sets & Hi & Hf & Hl). split.
    + symmetry in Hf. by apply find_some in Hf as [_ Hf].
    + unfold r53_values. rewrite Hi. destruct (r53_held _ _ _); [|done]. cbn. by rewrite Hl.
  - intros Hn. destruct (Hx _ Hn) as (id & sets & Hi & _ & Hl). unfold r53_values. rewrite Hi.
    by destruct (r53_held _ _ _).
Qed.

(** A change of the set: it takes effect, or it fails and does not. *)
Lemma change_spec s action rr vs s' r :
  (forall id s1 srv w, r53_id s = Some id -> r53_write (changeURL p id) action rr s1 = (srv, w) ->
     (exists l, l ≡ₚ map quoteTXT vs /\ default [] (r53_held srv id (r53FQDN name zone)) = l) \/
     (r53_held srv id (r53FQDN name zone) = r53_held s1 id (r53FQDN name zone) /\ ~ accepted w)) ->
  r53_change action rr s = (s', r) ->
  effect_or_failure s' r (r53_values s' ≡ₚ vs) (r53_values s' ≡ₚ r53_values s).
Proof.
  intros Hw. unfold r53_change. destruct (r53_resolveZoneID s) as [s1 r1] eqn:E. apply resolve_spec in E as (E1 & E2 & E3).
  destruct r1 as [id|e]; [|intros [= <- <-]; right; split; [done|by rewrite (r53_values_kept s s1)]].
  specialize (E3 _ eq_refl). destruct (r53_write _ _ _ _) as [srv w] eqn:Ew. intros [= <- <-].
  assert (Hi : r53_id (Build_R53 (r5_zoneID s1) srv) = Some id).
  { rewrite <- E3. unfold r53_id. cbn. destruct (negb _); [done|]. by eapply zone_kept. }
  rewrite E2 in E3. destruct (Hw _ _ _ _ E3 Ew) as [(l & Hp & Hl)|[Hl Hna]]; [left|right].
  - unfold r53_values. rewrite Hi. cbn. rewrite Hl, Hp, map_map. rewrite <- (map_id vs) at 2.
    apply Permutation_refl'. apply map_ext. intros v. apply unquote_quote.
  - split.
    + destruct (r53_do w) as [data|e] eqn:Ed; [|done]. apply r53_do_Ok in Ed as (status & -> & Hs). destruct Hna. by eexists _, _.
    + unfold r53_values. rewrite Hi, E3. cbn. by rewrite Hl, E1.
Qed.

Lemma r53_put_outcome s vs s' r : r53_putValues s vs = (s', r) ->
  effect_or_failure s' r (r53_values s' ≡ₚ vs) (r53_values s' ≡ₚ r53_values s).
Proof.
  unfold r53_putValues. destruct vs as [|v vs].
  - unfold r53_deleteRecordSet. destruct (r53_getRecordSet s) as [s1 r1] eqn:E. apply getRecordSet_spec in E as (E1 & E2 & E3 & E4).
    pose proof (r53_values_kept _ _ E1 E2) as Hk. destruct r1 as [[rr|]|e].
    + destruct (E3 _ eq_refl) as [Hm _]. intros Hc. rewrite <- Hk. eapply change_spec; [|exact Hc].
      intros id s2 srv w _ Hw. destruct (change_deletes _ _ _ _ _ Hw Hm) as [Hd|Hd]; [left|by right].
      exists []. by rewrite Hd.
    + intros [= <- <-]. left. by rewrite Hk, E4.
    + intros [= <- <-]. right. by rewrite Hk.
  - intros Hc. eapply change_spec; [|exact Hc]. intros id s2 srv w _ Hw.
    destruct (upsert_replaces _ _ _ _ _ Hw eq_refl eq_refl) as [(l & Hl & Hp)|Hd]; [left|by right].
    exists l. by rewrite Hl.
Qed.

End route53.

#[export] Instance route53_rrset {S} `{R53Service S} `{UnicodeTables} `{XmlNames} (p : route53) (zone : string) : Rrset (R53 S) := {
  rs_values := r53_values zone;
  rs_get := r53_getValues p zone;
  rs_put := r53_putValues p zone }.

(** The methods of the provider. *)
Section r53_methods.
Context {S : Type} `{R53Service S} `{UnicodeTables} `{XmlNames}.
Definition r53_ListTXT (p : route53) (zone name : string) := rr_ListTXT (H := route53_rrset p zone) name.
Definition r53_CreateTXT (p : route53) (zone name : string) := rr_CreateTXT (H := route53_rrset p zone) name.
Definition r53_UpdateTXT (p : route53) (zone : string) := rr_UpdateTXT (H := route53_rrset p zone).
Definition r53_DeleteTXT (p : route53) (zone : string) := rr_DeleteTXT (H := route53_rrset p zone).
Definition r53_ReplaceTXT (p : route53) (zone name : string) := rr_ReplaceTXT (H := route53_rrset p zone) name.
End r53_methods.

#[export] Instance route53_rrset_laws {S} `{R53Service S} `{UnicodeTables} `{XmlNames}
    (p : route53) (zone name : string) `{!R53ServiceLaws S p zone name} :
  @RrsetLaws (R53 S) (route53_rrset p zone) name.
Proof.
  constructor.
  - intros s. cbn. unfold r53_values. destruct (r53_id zone s) as [id|]; [|constructor].
    destruct (r53_held _ id _) as [l|] eqn:El; cbn; [|constructor]. destruct (r53_held_quoted _ _ _ El) as [Hn Hq].
    by apply unquoted_distinct.
  - intros s s' r. cbn [rs_values rs_get route53_rrset]. unfold r53_getValues. destruct (r53_getRecordSet p zone name s) as [s1 r1] eqn:E.
    destruct (getRecordSet_spec _ _ _ _ _ _ E) as (E1 & E2 & E3 & E4). intros [= <- <-].
    rewrite (r53_values_kept zone name s s1) by done. split; [done|]. intros vs ([rr|] & -> & [= <-])%bind_Ok; [by apply E3|by rewrite E4].
  - intros s vs s' r. by apply r53_put_outcome.
Qed.


(** ** Services held in memory *)

Definition all_quoted (l : list string) : bool := forallb (fun x => String.eqb (quoteTXT (unquoteTXT x)) x) l.

Lemma all_quoted_spec l : all_quoted l = true -> Forall (fun x => exists v, x = quoteTXT v) l.
Proof.
  unfold all_quoted. intros Hl. apply Forall_forall. intros x Hx%list_elem_of_In.
  apply (proj1 (forallb_forall _ _) Hl), String.eqb_eq in Hx. by eexists.
Qed.

(** A set of records a service may hold. *)
Definition holdable (l : list string) : Prop := NoDup l /\ all_quoted l = true /\ Forall (fun s => utf8_Valid s = true /\ xml_chars 0 s = true) l.
#[export] Instance holdable_dec l : Decision (holdable l).
Proof. unfold holdable. apply _. Defined.

Record records_at (A : Type) `{Countable A} := { held_map : gmap A (list string); held_ok : map_Forall (fun _ => holdable) held_map }.
Arguments held_map {A _ _} _.
Arguments held_ok {A _ _} _.

Definition held_set {A} `{Countable A} (m : gmap A (list string)) (s : records_at A) (answer : result (Z * string))
  : records_at A * result (Z * string) :=
  match decide (map_Forall (fun _ => holdable) m) with
  | left H => ({| held_map := m; held_ok := H |}, answer)
  | right _ => (s, Ok (400, ""))
  end.

Lemma held_set_cases {A} `{Countable A} m (s s' : records_at A) answer r :
  held_set m s answer = (s', r) -> (held_map s' = m /\ r = answer) \/ (held_map s' = held_map s /\ r = Ok (400, "")).
Proof. unfold held_set. destruct (decide _); intros [= <- <-]; auto. Qed.

Lemma held_at {A} `{Countable A} (s : records_at A) k l : held_map s !! k = Some l ->
  NoDup l /\ Forall (fun x => exists v, x = quoteTXT v) l.
Proof. intros (Hn & Hq & _)%(held_ok s). split; [done|]. by apply all_quoted_spec. Qed.

Definition created_key (url subname : string) : string :=
  url +:+ (if String.eqb subname "" then "@" else subname) +:+ "/TXT/".

#[export] Instance toy_desec : DesecService (records_at string) := {
  desec_read url s :=
    match held_map s !! url with
    | Some l => Ok (200, desec_text {| rr_Subname := ""; rr_Type := "TXT"; rr_TTL := 3600; rr_Records := l |})
    | None => Ok (404, "")
    end;
  desec_write method url body s :=
    match body with
    | None => held_set (delete url (held_map s)) s (Ok (204, ""))
    | Some rr =>
        if String.eqb method "PUT" then
          match held_map s !! url with
          | Some _ => held_set (<[url := rr_Records rr]> (held_map s)) s (Ok (200, ""))
          | None => (s, Ok (404, ""))
          end
        else held_set (<[created_key url (rr_Subname rr) := rr_Records rr]> (held_map s)) s (Ok (201, ""))
    end;
  desec_held s url := held_map s !! url }.

Lemma created_key_url d zone name : created_key (rrsetsURL d zone) (bodySubname name) = rrsetURL d zone name.
Proof.
  unfold created_key, rrsetURL, bodySubname, urlSubname. cbv zeta. f_equal. f_equal.
  destruct (String.eqb_spec (strings_TrimSuffix name ".") "@") as [->|]; [done|]. rewrite orb_false_r. done.
Qed.

#[export] Instance toy_desec_laws `{UnicodeTables} : DesecServiceLaws (records_at string).
Proof.
  constructor; cbn -[rrsetsURL rrsetURL created_key].
  - intros s url l. apply held_at.
  - intros s url data. by destruct (held_map s !! url).
  - intros s url status data rr. destruct (held_map s !! url) as [l|] eqn:El; [|intros [= <- <-]; lia].
    intros [= <- <-] _. rewrite desec_text_read by done. intros [= <-]. exists l. split; [done|].
    cbn [rr_Records clean_desecRRset]. rewrite clean_all; [done|]. apply (held_ok s) in El as (_ & _ & Hu).
    eapply Forall_impl; [exact Hu|]. by intros v [? _].
  - intros s url rr s' r. destruct (held_map s !! url) as [l|] eqn:El.
    + intros [[Hm ->]|[Hm ->]]%held_set_cases; rewrite Hm; [left|right].
      * split; [|done]. exists (rr_Records rr). by rewrite lookup_insert_eq.
      * split; [done|]. by apply not_accepted.
    + intros [= <- <-]. right. split; [done|]. by apply not_accepted.
  - intros s d zone name rr s' r Hc Hsub _. rewrite Hsub, created_key_url in Hc.
    apply held_set_cases in Hc as [[Hm ->]|[Hm ->]]; rewrite Hm; [left|right].
    + split; [|done]. exists (rr_Records rr). by rewrite lookup_insert_eq.
    + split; [done|]. by apply not_accepted.
  - intros s url s' r [[Hm ->]|[Hm ->]]%held_set_cases; rewrite Hm; [left|right].
    + split; [|done]. by rewrite lookup_delete_eq.
    + split; [done|]. by apply not_accepted.
Qed.

(** One client, and a service with one hosted zone. *)
Definition sample_r53 : route53 := newRoute53 "AKIA" "secret" "https://r53.test" 0.
Definition sample_fqdn : string := r53FQDN "_tincan" "example.com".

#[export] Instance toy_r53 : R53Service (records_at string) := {
  r53_read url s :=
    if String.eqb url (setsURL sample_r53 "Z1" sample_fqdn) then
      Ok (200, sets_answer (match held_map s !! sample_fqdn with
        | Some l => [{| r53_Name := sample_fqdn +:+ "."; r53_Type := "TXT"; r53_TTL := 300; r53_Records := l |}]
        | None => [] end))
    else if String.eqb url (zonesURL sample_r53 "example.com") then
      Ok (200, zones_answer [{| hz_ID := "/hostedzone/Z1"; hz_Name := "example.com." |}])
    else Ok (404, "");
  r53_write url action rr s :=
    if negb (String.eqb url (changeURL sample_r53 "Z1")) then (s, Ok (404, "")) else
    if String.eqb action "UPSERT" then held_set (<[r53_Name rr := r53_Records rr]> (held_map s)) s (Ok (200, ""))
    else held_set (delete sample_fqdn (held_map s)) s (Ok (200, ""));
  r53_zone _ zone := if String.eqb zone "example.com" then Some "Z1" else None;
  r53_held s id fqdn := if String.eqb id "Z1" then held_map s !! fqdn else None }.

Lemma setsURL_id id : setsURL sample_r53 id sample_fqdn = setsURL sample_r53 "Z1" sample_fqdn -> id = "Z1".
Proof.
  unfold setsURL. intros E. repeat apply string_app_inj_l in E. by apply string_app_inj_r in E.
Qed.

Lemma setsURL_zones id : setsURL sample_r53 id sample_fqdn <> zonesURL sample_r53 "example.com".
Proof. unfold setsURL. discriminate. Qed.

Lemma sample_matches ttl l : @set_matches ascii_tables sample_fqdn
  {| r53_Name := sample_fqdn +:+ "."; r53_Type := "TXT"; r53_TTL := ttl; r53_Records := l |} = true.
Proof. vm_compute. reflexivity. Qed.

#[export] Instance toy_r53_laws : @R53ServiceLaws (records_at string) toy_r53 ascii_tables ascii_names sample_r53 "example.com" "_tincan".
Proof.
  constructor; unfold r53_read, r53_write, r53_held, r53_zone, toy_r53.
  - intros s id l. destruct (String.eqb_spec id "Z1"); [|done]. apply held_at.
  - intros s status data hzs hz. replace (String.eqb (zonesURL _ _) _) with false by (by vm_compute). rewrite String.eqb_refl.
    intros [= <- <-] _. rewrite zones_answer_read. intros [= <-]. by intros [= <-]%(f_equal (fun x => x)).
  - intros s id status data sets. destruct (String.eqb_spec (setsURL sample_r53 id (r53FQDN "_tincan" "example.com")) (setsURL sample_r53 "Z1" sample_fqdn)) as [E|_].
    + apply setsURL_id in E as ->. change (r53FQDN "_tincan" "example.com") with sample_fqdn.
      intros [= <- <-] _. rewrite sets_answer_read by (destruct (held_map s !! sample_fqdn); repeat constructor; by vm_compute).
      intros [= <-]. rewrite String.eqb_refl. destruct (held_map s !! sample_fqdn) as [l|] eqn:El; [|done].
      assert (Hc : clean_rrset {| r53_Name := sample_fqdn +:+ "."; r53_Type := "TXT"; r53_TTL := 300; r53_Records := l |} =
        {| r53_Name := sample_fqdn +:+ "."; r53_Type := "TXT"; r53_TTL := 300; r53_Records := l |}).
      { unfold clean_rrset. cbn [r53_Name r53_Type r53_TTL r53_Records]. f_equal.
        apply (held_ok s) in El as (_ & _ & Hu). rewrite <- (map_id l) at 2. apply map_ext_in. intros v Hv%list_elem_of_In.
        rewrite Forall_forall in Hu. by apply xml_clean_id, Hu. }
      cbn [map]. rewrite Hc. cbn [List.find]. by rewrite sample_matches.
    + destruct (String.eqb_spec (setsURL sample_r53 id (r53FQDN "_tincan" "example.com")) (zonesURL sample_r53 "example.com")) as [E|_]; [by apply setsURL_zones in E|].
      intros [= <- <-]. lia.
  - done.
  - intros s id rr s' r Hc Hn _. destruct (String.eqb_spec (changeURL sample_r53 id) (changeURL sample_r53 "Z1")) as [E|Hne]; cbn [negb] in Hc.
    + unfold changeURL in E. repeat apply string_app_inj_l in E. apply string_app_inj_r in E as ->. cbn [String.eqb] in *.
      change (String.eqb "UPSERT" "UPSERT") with true in Hc. cbn iota in Hc. rewrite Hn in Hc.
      apply held_set_cases in Hc as [[Hm ->]|[Hm ->]]; rewrite Hm; [left|right].
      * exists (r53_Records rr). by rewrite lookup_insert_eq.
      * split; [done|]. by apply not_accepted.
    + injection Hc as <- <-. right. split; [done|]. by apply not_accepted.
  - intros s id rr s' r Hc Hn. destruct (String.eqb_spec (changeURL sample_r53 id) (changeURL sample_r53 "Z1")) as [E|Hne]; cbn [negb] in Hc.
    + unfold changeURL in E. repeat apply string_app_inj_l in E. apply string_app_inj_r in E as ->.
      change (String.eqb "DELETE" "UPSERT") with false in Hc. cbn iota in Hc.
      apply held_set_cases in Hc as [[Hm ->]|[Hm ->]]; rewrite Hm; [left|right].
      * by rewrite lookup_delete_eq.
      * split; [done|]. by apply not_accepted.
    + injection Hc as <- <-. right. split; [done|]. by apply not_accepted.
Qed.

(** ** Publishing through a set *)

(** C17: publishing through deSEC or through Route 53 keeps the foreign values at
    the name and reads back, whatever their services answer: their whole-set writes
    meet the contract of a provider, deSEC's with its fallback from replacing to
    creating, Route 53's with its cached zone and its deletion of an empty set. *)
Theorem rrset_providers_publish {D R : Type} `{UnicodeTables} `{XmlNames} `{!DesecService D} `{!DesecServiceLaws D} `{!R53Service R}
    (d : deSEC) (p : route53) (zone name : string) `{!R53ServiceLaws R p zone name} :
  publishes (@rrset_api D (desec_rrset d zone) name) /\
  publishes (@rrset_api (R53 R) (route53_rrset p zone) name).
Proof. split; apply laws_publish, _. Qed.

Definition no_records : records_at string := {| held_map := ∅; held_ok := map_Forall_empty _ |}.

Definition sample_desec : deSEC := newDeSEC "token" "" 0.

(** An existing set with a value of another program's at the name. *)
Definition sample_held (key : string) : records_at string :=
  fst (held_set {[ key := [quoteTXT "v=spf1 -all"] ]} no_records (Ok (200, ""))).

Definition desec_sample_put :=
  @dns_Put _ (@rrset_api _ (@desec_rrset _ _ ascii_tables sample_desec "example.com") "_tincan") true sample_blob
    (sample_held (rrsetURL sample_desec "example.com" "_tincan")).
Definition r53_sample_put :=
  @dns_Put _ (@rrset_api _ (@route53_rrset _ _ ascii_tables ascii_names sample_r53 "example.com") "_tincan") true sample_blob
    (Build_R53 "" (sample_held sample_fqdn)).

Lemma sample_puts_Ok : snd desec_sample_put = Ok tt /\ snd r53_sample_put = Ok tt.
Proof. split; vm_compute; reflexivity. Qed.

Lemma rrset_providers_publish_witness :
  dns_Get (Ok (@values_at _ (@rrset_api _ (@desec_rrset _ _ ascii_tables sample_desec "example.com") "_tincan") (fst desec_sample_put))) = Ok sample_blob /\
  dns_Get (Ok (@values_at _ (@rrset_api _ (@route53_rrset _ _ ascii_tables ascii_names sample_r53 "example.com") "_tincan") (fst r53_sample_put))) = Ok sample_blob.
Proof.
  pose proof sample_puts_Ok as [Hd Hr].
  pose proof (@rrset_providers_publish (records_at string) (records_at string) ascii_tables ascii_names toy_desec toy_desec_laws toy_r53
    sample_desec sample_r53 "example.com" "_tincan" toy_r53_laws) as [Pd Pr].
  split.
  - exact (proj2 (Pd _ _ _ _ (surjective_pairing _)) Hd _ (reflexivity _)).
  - exact (proj2 (Pr _ _ _ _ (surjective_pairing _)) Hr _ (reflexivity _)).
Defined.
