(* ===== verification/SigV4.v ===== *)
(** * SigV4: how the requests to Route 53 are signed

    [awsSignV4] of internal/dnsprovider/route53.go with the query parser of net/url.
    [aws_accepts] is what the service checks of a request, by the published
    procedure: it signs what it received, taking the query as it stands on the wire.
    A request the program signs is accepted, and what a stolen signature could be
    reused for is that request. *)
From stdpp Require Import base tactics option list strings sorting.
From Stdlib Require Import Ascii ZArith Lia.
From S2P Require Import Prelude GoStrings GoNum GoTime GoCrypto Http TxtRrset.
Open Scope Z_scope.

(** ** Reading a query: net/url *)

Definition hex_val (c : ascii) : option Z :=
  if is_digit c then Some (code c - 48)
  else if (97 <=? code c) && (code c <=? 102) then Some (code c - 87)
  else if (65 <=? code c) && (code c <=? 70) then Some (code c - 55) else None.

Fixpoint url_QueryUnescape (s : string) : option string :=
  match s with
  | EmptyString => Some ""
  | String c s =>
      if Ascii.eqb c "%" then
        match s with
        | String a (String b s) =>
            match hex_val a, hex_val b, url_QueryUnescape s with
            | Some x, Some y, Some r => Some (String (chr (16 * x + y)) r)
            | _, _, _ => None
            end
        | _ => None
        end
      else String (if Ascii.eqb c "+" then " "%char else c) <$> url_QueryUnescape s
  end.

(** [url.Values], each key once. *)
Notation Values := (list (string * list string)).
Fixpoint add_value (k v : string) (m : Values) : Values :=
  match m with
  | [] => [(k, [v])]
  | (k', vs) :: m => if String.eqb k' k then (k', vs ++ [v]) :: m else (k', vs) :: add_value k v m
  end.

(** One pair of a query; a pair that cannot be read is left out. *)
Definition parse_pair (m : Values) (piece : string) : Values :=
  if contains_byte ";" piece || String.eqb piece "" then m
  else
    let '(k, v) := match strings_IndexByte "=" piece with
                   | Some i => (string_take i piece, string_drop (S i) piece)
                   | None => (piece, "")
                   end in
    match url_QueryUnescape k, url_QueryUnescape v with
    | Some k, Some v => add_value k v m
    | _, _ => m
    end.
(** [URL.Query] *)
Definition url_Query (raw : string) : Values := fold_left parse_pair (strings_Split "&" raw) [].

Example query_read : url_Query "name=_tincan.a%20b&type=TXT&&name=c+d&x=%4&y=%41" =
  [("name", ["_tincan.a b"; "c d"]); ("type", ["TXT"]); ("y", ["A"])].
Proof. vm_compute. reflexivity. Qed.

(** ** Requests *)

Record http_request := {
  rq_Method : string; rq_Host : string; rq_URL_Host : string;
  rq_EscapedPath : string; rq_RawQuery : string; rq_Header : list (string * string) }.

(** [Header.Set], [Header.Get] of canonical names. *)
Definition header_set (k v : string) (h : list (string * string)) : list (string * string) :=
  (k, v) :: List.filter (fun kv => negb (String.eqb (fst kv) k)) h.
Definition header_get (k : string) (h : list (string * string)) : string :=
  default "" (snd <$> List.find (fun kv => String.eqb (fst kv) k) h).
Definition with_header (k v : string) (rq : http_request) : http_request := {|
  rq_Method := rq_Method rq; rq_Host := rq_Host rq; rq_URL_Host := rq_URL_Host rq;
  rq_EscapedPath := rq_EscapedPath rq; rq_RawQuery := rq_RawQuery rq; rq_Header := header_set k v (rq_Header rq) |}.

(** ** The signature *)

Definition sha256Hex (b : string) : string := hex_EncodeToString (sha256_Sum256 b).
Definition hmacSHA256 (key data : string) : string := hmac_sha256 key data.

Definition awsSigningKey (secret dateStamp region service : string) : string :=
  let kDate := hmacSHA256 ("AWS4" +:+ secret) dateStamp in
  let kRegion := hmacSHA256 kDate region in
  let kService := hmacSHA256 kRegion service in
  hmacSHA256 kService "aws4_request".

Definition newline : ascii := chr 10.
Definition lines (l : list string) : string := strings_Join l (String newline "").

Definition signed_host (rq : http_request) : string :=
  if String.eqb (rq_Host rq) "" then rq_URL_Host rq else rq_Host rq.
Definition canonicalURI (rq : http_request) : string :=
  if String.eqb (rq_EscapedPath rq) "" then "/" else rq_EscapedPath rq.

Definition canonicalRequest (method uri query host amzDate payload : string) : string :=
  lines [method; uri; query;
         "host:" +:+ host +:+ String newline ("x-amz-date:" +:+ amzDate +:+ String newline "");
         "host;x-amz-date"; sha256Hex payload].
Definition aws_scope (dateStamp region service : string) : string :=
  dateStamp +:+ "/" +:+ region +:+ "/" +:+ service +:+ "/aws4_request".
Definition stringToSign (amzDate scope canonical : string) : string :=
  lines ["AWS4-HMAC-SHA256"; amzDate; scope; sha256Hex canonical].
Definition authorization (accessKey scope signature : string) : string :=
  "AWS4-HMAC-SHA256 Credential=" +:+ accessKey +:+ "/" +:+ scope +:+
  ", SignedHeaders=host;x-amz-date, Signature=" +:+ signature.
Definition aws_signature (secretKey dateStamp region service amzDate canonical : string) : string :=
  hex_EncodeToString (hmacSHA256 (awsSigningKey secretKey dateStamp region service)
    (stringToSign amzDate (aws_scope dateStamp region service) canonical)).

Definition awsSignV4 (rq : http_request) (accessKey secretKey region service payload : string) (t : Time) : http_request :=
  let amzDate := format_basic t in
  let dateStamp := format_date t in
  let rq := with_header "X-Amz-Date" amzDate rq in
  let canonical := canonicalRequest (rq_Method rq) (canonicalURI rq) (awsCanonicalQuery (url_Query (rq_RawQuery rq)))
                     (signed_host rq) amzDate payload in
  with_header "Authorization"
    (authorization accessKey (aws_scope dateStamp region service)
       (aws_signature secretKey dateStamp region service amzDate canonical)) rq.

(** The published vector [get-vanilla], as the package's tests have it. *)
Definition vanilla : http_request := {|
  rq_Method := "GET"; rq_Host := "example.amazonaws.com"; rq_URL_Host := "example.amazonaws.com";
  rq_EscapedPath := "/"; rq_RawQuery := ""; rq_Header := [] |}.
Definition vanilla_time : Time := 735839 * 86400000000000 + 45360000000000.
Example sign_vanilla :
  rq_Header (awsSignV4 vanilla "AKIDEXAMPLE" "wJalrXUtnFEMI/K7MDENG+bPxRfiCYEXAMPLEKEY" "us-east-1" "service" "" vanilla_time) =
  [("Authorization", "AWS4-HMAC-SHA256 Credential=AKIDEXAMPLE/20150830/us-east-1/service/aws4_request, " +:+
      "SignedHeaders=host;x-amz-date, Signature=5fa00fa31553b73ebf1942676e86291e8372ff2a2260956d9b8aae1d763fbf31");
   ("X-Amz-Date", "20150830T123600Z")].
Proof. vm_compute. reflexivity. Qed.

(** ** What the service checks *)

(** The access key names the secret; the date is read and must be of [now] up to
    [skew] seconds; the signature must be the one of the request as received. *)
Definition aws_accepts (secret_of : string -> option string) (region service : string) (skew now : Z)
    (rq : http_request) (payload : string) : bool :=
  let amzDate := header_get "X-Amz-Date" (rq_Header rq) in
  let auth := header_get "Authorization" (rq_Header rq) in
  match strings_CutPrefix "AWS4-HMAC-SHA256 Credential=" auth, read_basic amzDate with
  | Some credential, Some seconds =>
      let accessKey := match strings_IndexByte "/" credential with Some i => string_take i credential | None => credential end in
      let dateStamp := string_take 8 amzDate in
      match secret_of accessKey with
      | Some secret =>
          (Z.abs (now / 1000000000 - seconds) <=? skew) &&
          String.eqb auth (authorization accessKey (aws_scope dateStamp region service)
            (aws_signature secret dateStamp region service amzDate
               (canonicalRequest (rq_Method rq) (canonicalURI rq) (rq_RawQuery rq) (signed_host rq) amzDate payload)))
      | None => false
      end
  | _, _ => false
  end.

(** ** The canonical query is read back *)

Definition query_byte (c : ascii) : bool := unreserved c || Ascii.eqb c "%".

(** The bytes a parameter is written with. *)
Definition aws_encode_byte (c : ascii) : string :=
  if unreserved c then String c ""
  else String "%" (String (hex_upper (code c / 16)) (String (hex_upper (code c mod 16)) "")).

Lemma hex_upper_spec n : 0 <= n < 16 -> hex_val (hex_upper n) = Some n /\ unreserved (hex_upper n) = true.
Proof.
  intros Hn. unfold hex_upper, hex_val, unreserved, is_digit. destruct (Z.ltb_spec n 10); rewrite !code_chr by lia.
  - replace ((48 <=? 48 + n) && (48 + n <=? 57)) with true by lia. split; [f_equal; lia|]. by rewrite !orb_true_r.
  - replace ((48 <=? 55 + n) && (55 + n <=? 57)) with false by lia. replace ((97 <=? 55 + n) && (55 + n <=? 102)) with false by lia.
    replace ((65 <=? 55 + n) && (55 + n <=? 70)) with true by lia. split; [f_equal; lia|].
    by replace ((65 <=? 55 + n) && (55 + n <=? 90)) with true by lia.
Qed.

Lemma not_unreserved c d : unreserved c = true -> unreserved d = false -> Ascii.eqb c d = false.
Proof. intros Hc Hd. destruct (Ascii.eqb_spec c d) as [->|]; [by rewrite Hc in Hd|done]. Qed.

Lemma awsURIEncode_cons c s : awsURIEncode (String c s) = aws_encode_byte c +:+ awsURIEncode s.
Proof.
  unfold awsURIEncode, aws_encode_byte. cbn [url_QueryEscape]. destruct (unreserved c) eqn:Eu.
  - cbn [replace_byte]. by rewrite (not_unreserved c "+" Eu).
  - destruct (Ascii.eqb_spec c " ") as [->|]; [done|]. destruct (byte_halves c) as [H1 H2].
    cbn [replace_byte]. rewrite !(not_unreserved (hex_upper _) "+") by first [by apply hex_upper_spec|done]. done.
Qed.

Lemma encode_query_bytes s : string_forallb query_byte (awsURIEncode s) = true.
Proof.
  induction s as [|c s IH]; [done|]. rewrite awsURIEncode_cons, forallb_app, IH, andb_true_r. unfold aws_encode_byte.
  destruct (unreserved c) eqn:Eu; cbn; unfold query_byte; [by rewrite Eu|]. destruct (byte_halves c) as [H1 H2].
  by rewrite (proj2 (hex_upper_spec _ H1)), (proj2 (hex_upper_spec _ H2)).
Qed.

Lemma unescape_encode s : url_QueryUnescape (awsURIEncode s) = Some s.
Proof.
  induction s as [|c s IH]; [done|]. rewrite awsURIEncode_cons. unfold aws_encode_byte. destruct (unreserved c) eqn:Eu.
  - rewrite string_app_cons, string_app_nil. cbn [url_QueryUnescape].
    by rewrite (not_unreserved c "%" Eu), (not_unreserved c "+" Eu), IH by done.
  - rewrite !string_app_cons, string_app_nil. cbn [url_QueryUnescape]. rewrite Ascii.eqb_refl. destruct (byte_halves c) as [H1 H2].
    rewrite (proj1 (hex_upper_spec _ H1)), (proj1 (hex_upper_spec _ H2)), IH. do 2 f_equal.
    rewrite <- Z.div_mod by done. apply chr_code.
Qed.

Lemma query_byte_lacks c s : query_byte c = false -> string_forallb query_byte s = true -> lacks c s = true.
Proof.
  intros Hc Hs. unfold lacks. eapply string_forallb_mono; [|exact Hs]. intros d Hd. apply negb_true_iff.
  destruct (Ascii.eqb_spec d c) as [->|]; [by rewrite Hc in Hd|done].
Qed.

(** A pair as it is written, and as it is read. *)
Definition write_pair (kv : string * string) : string := awsURIEncode (fst kv) +:+ "=" +:+ awsURIEncode (snd kv).
Definition read_pair (m : Values) (kv : string * string) : Values := add_value (fst kv) (snd kv) m.

Lemma parse_write_pair m kv : parse_pair m (write_pair kv) = read_pair m kv.
Proof.
  destruct kv as [k v]. unfold parse_pair, write_pair, read_pair. cbn [fst snd].
  pose proof (encode_query_bytes k) as Hk. pose proof (encode_query_bytes v) as Hv.
  rewrite lacks_contains. replace (lacks ";" _) with true.
  2: { symmetry. unfold lacks. rewrite !forallb_app. cbn. fold (lacks ";" (awsURIEncode k)) (lacks ";" (awsURIEncode v)).
       by rewrite !query_byte_lacks. }
  replace (String.eqb _ "") with false.
  2: { symmetry. apply String.eqb_neq. by destruct (awsURIEncode k). }
  cbn [negb orb]. assert (Hi : strings_IndexByte "=" (awsURIEncode k +:+ String "=" (awsURIEncode v)) = Some (String.length (awsURIEncode k))).
  { apply IndexByte_app. by apply query_byte_lacks. }
  change ("=" +:+ awsURIEncode v) with (String "=" (awsURIEncode v)). rewrite Hi, string_take_app.
  replace (S (String.length (awsURIEncode k))) with (String.length (awsURIEncode k +:+ "=")) by (rewrite string_length_app; cbn; lia).
  change (String "=" (awsURIEncode v)) with ("=" +:+ awsURIEncode v). rewrite string_app_assoc, string_drop_app.
  by rewrite !unescape_encode.
Qed.

(** The pairs of [v] in the canonical order. *)
Definition values_of (v : Values) (k : string) : list string :=
  match List.find (fun kv => String.eqb (fst kv) k) v with Some (_, vals) => vals | None => [] end.
Definition pairs_of (v : Values) : list (string * string) :=
  concat (map (fun k => map (pair k) (sort_strings (values_of v k))) (sort_strings (map fst v))).

Lemma canonical_pairs v : awsCanonicalQuery v = strings_Join (map write_pair (pairs_of v)) "&".
Proof.
  unfold awsCanonicalQuery, url_encode_with, pairs_of. rewrite concat_map, map_map. do 2 f_equal. apply map_ext. intros k.
  rewrite map_map. unfold values_of. by destruct (List.find _ v) as [[k' vals]|].
Qed.

(** Pieces that lack the separator are what their join splits into. *)
Lemma Split_Join sep l : l <> [] -> Forall (fun w => lacks sep w = true) l ->
  strings_Split sep (strings_Join l (String sep "")) = l.
Proof.
  induction l as [|w [|w' l] IH]; intros Hne Hl; [done| |].
  - inversion Hl; subst. by apply Split_lacks.
  - inversion Hl as [|? ? Hw Hl']; subst. cbn [strings_Join]. rewrite string_app_cons, string_app_nil, Split_app by done.
    f_equal. by apply IH.
Qed.

Lemma write_pair_lacks kv : lacks "&" (write_pair kv) = true.
Proof.
  unfold write_pair, lacks. rewrite !forallb_app. cbn. fold (lacks "&" (awsURIEncode (fst kv))) (lacks "&" (awsURIEncode (snd kv))).
  by rewrite !query_byte_lacks by (done || apply encode_query_bytes).
Qed.

Lemma query_reads_pairs v : url_Query (awsCanonicalQuery v) = fold_left read_pair (pairs_of v) [].
Proof.
  rewrite canonical_pairs. unfold url_Query. destruct (pairs_of v) as [|kv l]; [done|].
  rewrite Split_Join.
  - generalize (@nil (string * list string)). generalize (kv :: l). clear kv l. intros l. induction l as [|kv l IH]; intros m; [done|].
    cbn [map fold_left]. by rewrite parse_write_pair, IH.
  - done.
  - apply Forall_map, Forall_true. intros. apply write_pair_lacks.
Qed.

(** Parameters grouped by key. *)
Definition ungroup (g : Values) : list (string * string) := concat (map (fun kvs => map (pair (fst kvs)) (snd kvs)) g).
Definition has_values (kvs : string * list string) : bool := match snd kvs with [] => false | _ => true end.

Lemma add_value_fresh k v (m : Values) : k ∉ map fst m -> add_value k v m = m ++ [(k, [v])].
Proof.
  induction m as [|[k' vs] m IH]; cbn; [done|]. intros Hk. rewrite not_elem_of_cons in Hk. destruct Hk as [Hk Hm].
  rewrite (proj2 (String.eqb_neq _ _)) by done. by rewrite IH.
Qed.

Lemma add_value_last k v vs (m : Values) : k ∉ map fst m -> add_value k v (m ++ [(k, vs)]) = m ++ [(k, vs ++ [v])].
Proof.
  induction m as [|[k' vs'] m IH]; cbn; [by rewrite String.eqb_refl|]. intros Hk. rewrite not_elem_of_cons in Hk. destruct Hk as [Hk Hm].
  rewrite (proj2 (String.eqb_neq _ _)) by done. by rewrite IH.
Qed.

Lemma read_group k vals (m : Values) : k ∉ map fst m ->
  fold_left read_pair (map (pair k) vals) m = m ++ List.filter has_values [(k, vals)].
Proof.
  intros Hk. destruct vals as [|v vals]; [by rewrite app_nil_r|]. cbn [map fold_left]. unfold read_pair at 2. cbn [fst snd].
  rewrite add_value_fresh by done. cbn [List.filter has_values snd]. change (v :: vals) with ([v] ++ vals). generalize [v].
  induction vals as [|w vals IH]; intros vs; [by rewrite app_nil_r|]. cbn [map fold_left]. unfold read_pair at 2. cbn [fst snd].
  by rewrite add_value_last, IH, <- app_assoc.
Qed.

Lemma read_ungroup g : forall m : Values, NoDup (map fst m ++ map fst g) ->
  fold_left read_pair (ungroup g) m = m ++ List.filter has_values g.
Proof.
  induction g as [|[k vals] g IH]; intros m Hn; [by rewrite app_nil_r|]. unfold ungroup. cbn [map concat fst snd].
  rewrite fold_left_app. cbn [map fst] in Hn. apply NoDup_app in Hn as Hn'. destruct Hn' as (_ & Hd & _).
  rewrite read_group; [|intros Hin; apply (Hd _ Hin), elem_of_cons; by left].
  fold (ungroup g). rewrite IH; [by rewrite <- app_assoc, <- List.filter_app|]. rewrite map_app.
  destruct vals; cbn [List.filter has_values snd map fst]; rewrite ?app_nil_r, <- ?app_assoc; [|done].
  rewrite <- Permutation_middle in Hn. by inversion Hn.
Qed.

Definition groups_of (v : Values) : Values := map (fun k => (k, sort_strings (values_of v k))) (sort_strings (map fst v)).

Lemma pairs_ungroup v : pairs_of v = ungroup (groups_of v).
Proof. unfold pairs_of, ungroup, groups_of. by rewrite map_map. Qed.

Lemma groups_keys v : map fst (groups_of v) = sort_strings (map fst v).
Proof. unfold groups_of. rewrite map_map. apply map_id. Qed.

Lemma ungroup_filter g : ungroup (List.filter has_values g) = ungroup g.
Proof. unfold ungroup. induction g as [|[k [|v vs]] g IH]; cbn; [done|done|by rewrite IH]. Qed.

Lemma values_of_in (g : Values) k vals : NoDup (map fst g) -> (k, vals) ∈ g -> values_of g k = vals.
Proof.
  unfold values_of. induction g as [|[k' vs] g IH]; cbn; [by intros _ ?%elem_of_nil|]. intros [Hk Hn]%NoDup_cons [[= -> ->]|Hin]%elem_of_cons.
  - by rewrite String.eqb_refl.
  - destruct (String.eqb_spec k' k) as [->|]; [|by apply IH]. destruct Hk. apply list_elem_of_In, in_map_iff. exists (k, vals).
    split; [done|by apply list_elem_of_In].
Qed.

(** Groups that are in order already are the canonical ones. *)
Lemma pairs_of_sorted (g : Values) : NoDup (map fst g) -> StronglySorted str_leb_le (map fst g) ->
  Forall (fun kvs => StronglySorted str_leb_le (snd kvs)) g -> pairs_of g = ungroup g.
Proof.
  intros Hn Hs Hv. rewrite pairs_ungroup. f_equal. unfold groups_of. rewrite (sort_sorted _ Hs), map_map. rewrite <- (map_id g) at 2.
  apply map_ext_in. intros [k vals] Hin. cbn. rewrite (values_of_in g k vals Hn) by by apply list_elem_of_In.
  rewrite sort_sorted; [done|]. rewrite Forall_forall in Hv. apply (Hv (k, vals)), list_elem_of_In, Hin.
Qed.

Lemma filter_keys (g : Values) : NoDup (map fst g) -> StronglySorted str_leb_le (map fst g) ->
  NoDup (map fst (List.filter has_values g)) /\ StronglySorted str_leb_le (map fst (List.filter has_values g)).
Proof.
  induction g as [|[k vals] g IH]; [done|]. cbn [map fst]. intros [Hk Hn]%NoDup_cons [Hs Hle]%StronglySorted_inv.
  destruct (IH Hn Hs) as [IHn IHs]. assert (Hsub : forall x, x ∈ map fst (List.filter has_values g) -> x ∈ map fst g).
  { intros x. rewrite !list_elem_of_In, !in_map_iff. intros (y & <- & [Hy _]%filter_In). by exists y. }
  destruct vals as [|v vals]; [done|]. cbn [List.filter has_values snd map fst]. split.
  - constructor; [|done]. intros Hin. by apply Hk, Hsub.
  - constructor; [done|]. rewrite Forall_forall in *. intros x Hx. by apply Hle, Hsub.
Qed.

(** What is signed of a query the program wrote is what is on the wire. *)
Lemma canonical_again v : NoDup (map fst v) -> awsCanonicalQuery (url_Query (awsCanonicalQuery v)) = awsCanonicalQuery v.
Proof.
  intros Hn. assert (Hp : NoDup (map fst (groups_of v))).
  { rewrite groups_keys. unfold sort_strings. by rewrite merge_sort_Permutation. }
  rewrite query_reads_pairs, !canonical_pairs, (pairs_ungroup v), (read_ungroup _ []) by exact Hp. cbn [app].
  destruct (filter_keys (groups_of v) Hp) as [Hn' Hs']; [rewrite groups_keys; apply sort_strings_sorted|].
  rewrite pairs_of_sorted, ungroup_filter; [done|done|done|]. apply Forall_forall. intros kvs Hin%list_elem_of_In%filter_In.
  destruct Hin as [Hin _]. unfold groups_of in Hin. apply in_map_iff in Hin as (k & <- & _). apply sort_strings_sorted.
Qed.

(** ** Headers, stamps and lines *)

Lemma header_get_set k v h : header_get k (header_set k v h) = v.
Proof. unfold header_get, header_set. cbn. by rewrite String.eqb_refl. Qed.
Lemma header_get_other k k' v h : k <> k' -> header_get k (header_set k' v h) = header_get k h.
Proof.
  intros Hk. unfold header_get, header_set. cbn. rewrite (proj2 (String.eqb_neq _ _)) by congruence. f_equal. f_equal.
  induction h as [|[x w] h IH]; [done|]. cbn. destruct (String.eqb_spec x k'); cbn.
  - subst. by rewrite (proj2 (String.eqb_neq _ _)) by congruence.
  - destruct (String.eqb x k); [done|apply IH].
Qed.

Lemma stamp_of_date t : four_digit_year t -> string_take 8 (format_basic t) = format_date t.
Proof. intros [Hl _]%format_date_shape. unfold format_basic. rewrite <- Hl. apply string_take_app. Qed.

Definition no_newline (s : string) : Prop := lacks newline s = true.

Lemma hex_no_newline s : no_newline (hex_EncodeToString s).
Proof.
  eapply string_forallb_mono; [|apply hex_all]. intros c Hc. apply negb_true_iff.
  by destruct (Ascii.eqb_spec c newline) as [->|].
Qed.

Lemma read_basic_clean t : four_digit_year t -> no_newline (format_basic t).
Proof.
  intros Ht. assert (Hd : forall s, string_forallb is_digit s = true -> no_newline s).
  { intros s. apply string_forallb_mono. intros c Hc. apply negb_true_iff. by destruct (Ascii.eqb_spec c newline) as [->|]. }
  destruct (format_date_shape t Ht) as [_ H1]. destruct (clock_parts t) as (Hh & Hm & Hs & _).
  unfold format_basic, format_clock, no_newline, lacks. rewrite !forallb_app.
  fold (lacks newline (format_date t)). rewrite (Hd _ H1). cbv zeta.
  destruct (pad_spec 2 (day_second t / 3600)) as (_ & _ & D1); [lia|].
  destruct (pad_spec 2 (day_second t / 60 mod 60)) as (_ & _ & D2); [lia|].
  destruct (pad_spec 2 (day_second t mod 60)) as (_ & _ & D3); [lia|].
  pose proof (Hd _ D1) as N1. pose proof (Hd _ D2) as N2. pose proof (Hd _ D3) as N3. unfold no_newline, lacks in *.
  by rewrite N1, N2, N3.
Qed.

(** The lines of a text determine it. *)
Lemma lines_inj l l' : l <> [] -> l' <> [] -> Forall no_newline l -> Forall no_newline l' -> lines l = lines l' -> l = l'.
Proof. intros Hl Hl' Hc Hc' E. rewrite <- (Split_Join newline l), <- (Split_Join newline l') by done. unfold lines in E. by rewrite E. Qed.

Definition canonical_lines (method uri query host amzDate payload : string) : list string :=
  [method; uri; query; "host:" +:+ host; "x-amz-date:" +:+ amzDate; ""; "host;x-amz-date"; sha256Hex payload].

Lemma canonicalRequest_lines m u q h d p : canonicalRequest m u q h d p = lines (canonical_lines m u q h d p).
Proof.
  unfold canonicalRequest, lines, canonical_lines. cbn [strings_Join]. do 6 f_equal.
  rewrite <- !string_app_assoc. do 2 f_equal. rewrite !string_app_cons, <- !string_app_assoc. done.
Qed.

(** What comes over HTTP has its parts on one line. *)
Definition one_line (rq : http_request) : Prop :=
  no_newline (rq_Method rq) /\ no_newline (canonicalURI rq) /\ no_newline (rq_RawQuery rq) /\ no_newline (signed_host rq).

Lemma canonical_lines_clean rq d p : one_line rq -> no_newline d ->
  Forall no_newline (canonical_lines (rq_Method rq) (canonicalURI rq) (rq_RawQuery rq) (signed_host rq) d p).
Proof.
  intros (Hm & Hu & Hq & Hh) Hd. unfold canonical_lines. repeat constructor; try done; try apply hex_no_newline.
Qed.

(** ** A signed request *)

Definition canonical_of (rq : http_request) (amzDate payload : string) : string :=
  canonicalRequest (rq_Method rq) (canonicalURI rq) (rq_RawQuery rq) (signed_host rq) amzDate payload.
Definition same_request (rq rq' : http_request) : Prop :=
  rq_Method rq' = rq_Method rq /\ canonicalURI rq' = canonicalURI rq /\
  rq_RawQuery rq' = rq_RawQuery rq /\ signed_host rq' = signed_host rq.

(** Two different texts at hand with one digest. *)
Definition collides (f : string -> string) (x y : string) : Prop := x <> y /\ f x = f y.

Section signing.
Variables (access secret region service : string) (t : Time).

Definition signing_hmac (s : string) : string := hmacSHA256 (awsSigningKey secret (format_date t) region service) s.
Definition signed_text (c : string) : string := stringToSign (format_basic t) (aws_scope (format_date t) region service) c.
Definition authorization_of (c : string) : string :=
  authorization access (aws_scope (format_date t) region service) (aws_signature secret (format_date t) region service (format_basic t) c).

Lemma sign_headers rq payload v : rq_RawQuery rq = awsCanonicalQuery v -> NoDup (map fst v) ->
  let signed := awsSignV4 rq access secret region service payload t in
  header_get "X-Amz-Date" (rq_Header signed) = format_basic t /\
  header_get "Authorization" (rq_Header signed) = authorization_of (canonical_of rq (format_basic t) payload).
Proof.
  intros Hq Hn signed. unfold signed, awsSignV4, with_header. cbn [rq_Header rq_Method rq_RawQuery rq_Host rq_URL_Host rq_EscapedPath]. split.
  - by rewrite header_get_other, header_get_set.
  - rewrite header_get_set. rewrite Hq, canonical_again, <- Hq by done. reflexivity.
Qed.

Lemma IndexByte_slash a s : lacks "/" a = true -> strings_IndexByte "/" (a +:+ "/" +:+ s) = Some (String.length a).
Proof. exact (IndexByte_app "/" a s). Qed.

(** What the service computes of a request with the stamp and the access key of a
    signed one. *)
Lemma accepts_iff secret_of skew now rq payload c :
  lacks "/" access = true -> secret_of access = Some secret -> four_digit_year t ->
  header_get "X-Amz-Date" (rq_Header rq) = format_basic t -> header_get "Authorization" (rq_Header rq) = authorization_of c ->
  aws_accepts secret_of region service skew now rq payload =
    (Z.abs (now / 1000000000 - t / 1000000000) <=? skew) &&
    String.eqb (authorization_of c) (authorization_of (canonical_of rq (format_basic t) payload)).
Proof.
  intros Ha Hs Ht Hd Hauth. unfold aws_accepts. rewrite Hd, Hauth, read_format_basic, stamp_of_date by done. unfold authorization_of at 1.
  unfold authorization at 1. rewrite (proj2 (CutPrefix_Some _ _ _) eq_refl). cbv beta iota zeta.
  by rewrite IndexByte_slash, string_take_app, Hs by done.
Qed.

(** One signature for two texts: the texts are one, or something collides. *)
Lemma signature_equal c c' : authorization_of c = authorization_of c' ->
  c = c' \/ collides sha256_Sum256 c c' \/ collides signing_hmac (signed_text c) (signed_text c').
Proof.
  unfold authorization_of, authorization, aws_signature. intros E. do 5 apply string_app_inj_l in E. apply hex_inj in E.
  destruct (decide (c = c')) as [|Hc]; [by left|right].
  destruct (decide (sha256_Sum256 c = sha256_Sum256 c')) as [Es|Hs]; [by left|right]. split; [|exact E].
  unfold signed_text, stringToSign, lines. cbn [strings_Join]. intros El. do 6 apply string_app_inj_l in El. by apply hex_inj in El.
Qed.
End signing.


(** ** Route 53's requests *)

(** What [do] makes of the request [http.NewRequest] built: the type of a body, and
    the signature for the one region and service. *)
Definition route53Region : string := "us-east-1".
Definition route53Service : string := "route53".
Definition r53_prepare (p : route53) (rq : http_request) (payload : option string) (now : Time) : http_request :=
  let rq := match payload with Some _ => with_header "Content-Type" "application/xml" rq | None => rq end in
  awsSignV4 rq (r5_accessKey p) (r5_secretKey p) route53Region route53Service (default "" payload) now.

(** The lookup of a record set, as it is sent. *)
Definition sample_lookup : http_request := {|
  rq_Method := "GET"; rq_Host := "route53.amazonaws.com"; rq_URL_Host := "route53.amazonaws.com";
  rq_EscapedPath := "/2013-04-01/hostedzone/Z1/rrset";
  rq_RawQuery := awsCanonicalQuery [("name", ["_tincan.example.com"]); ("type", ["TXT"])]; rq_Header := [] |}.
Definition sample_r53 : route53 := newRoute53 "AKIDEXAMPLE" "secret" "" 0.
Definition sample_secrets (access : string) : option string := if String.eqb access "AKIDEXAMPLE" then Some "secret" else None.


(** A query in another order is another request: the signature does not verify. *)
Example signature_of_other_query :
  let signed := r53_prepare sample_r53 sample_lookup None vanilla_time in
  aws_accepts sample_secrets route53Region route53Service 300 vanilla_time
    {| rq_Method := "GET"; rq_Host := rq_Host signed; rq_URL_Host := rq_URL_Host signed; rq_EscapedPath := rq_EscapedPath signed;
       rq_RawQuery := "name=_tincan.example.com&type=A"; rq_Header := rq_Header signed |} "" = false.
Proof. vm_compute. reflexivity. Qed.
