(* ===== verification/ZoneApi.v ===== *)
(** * ZoneApi: what a DNS service keeps and what its requests do

    What a service holds is a zone of entries, and what it documents of a request
    is an [ApiDoc]; the laws [ZoneLaws] say what a documented request does, successful
    or not.  From there to the records at a name that the DNS drop sees: the effects
    of a change, through the zone id the clients cache or without, and the listing
    that follows the pages to the last. *)
From stdpp Require Import base tactics option list strings.
From Stdlib Require Import Ascii ZArith Lia.
From S2P Require Import Prelude GoStrings GoNum Drop DropDns DropDnsPut Http.
Open Scope Z_scope.

(** ** Zones *)

Record entry := { e_id : string; e_type : string; e_name : string; e_value : string }.

Definition set_entry (id value : string) (e : entry) : entry :=
  if String.eqb (e_id e) id then {| e_id := id; e_type := e_type e; e_name := e_name e; e_value := value |} else e.

Definition drop_entry (id : string) (l : list entry) : list entry := List.filter (fun e => negb (String.eqb (e_id e) id)) l.

(** A service over its state [S]: requests (a URL and a header, or a header, a
    method, a URL and a body), the id a zone has in its URLs, the entries of a zone, and the pages
    in which it lists those it finds for a name. *)
Class ZoneService (S : Type) := {
  zs_get : string -> string -> S -> result (Z * string);
  zs_send : string -> string -> string -> json_object -> S -> S * result (Z * string);
  zs_zone : S -> string -> option string;
  zs_entries : S -> string -> list entry;
  zs_pages : S -> string -> string -> list (list entry) }.

(** The requests that a provider documents to create a TXT record in a zone, to set
    the value of a record, and to delete one. *)
Record ApiDoc (S : Type) := {
  doc_create : string -> string -> string -> json_object -> string -> string -> Prop;
  doc_update : S -> string -> string -> string -> json_object -> string -> string -> Prop;
  doc_delete : string -> string -> string -> string -> Prop }.
Arguments doc_create {S} _ zone_id method url body name value.
Arguments doc_update {S} _ s zone_id method url body id value.
Arguments doc_delete {S} _ zone_id method url id.

Class ZoneLaws (S : Type) `{ZoneService S} (doc : ApiDoc S) : Prop := {
  entry_ids s z : NoDup (e_id <$> zs_entries s z);
  zone_steady hd m u b s s' r zone : zs_send hd m u b s = (s', r) -> zs_zone s' zone = zs_zone s zone;
  create_effect s z hd m u b name value s' r : doc_create doc z m u b name value -> zs_send hd m u b s = (s', r) ->
    send_outcome r
      (exists id, zs_entries s' z ≡ₚ {| e_id := id; e_type := "TXT"; e_name := name; e_value := value |} :: zs_entries s z)
      (zs_entries s' z ≡ₚ zs_entries s z);
  update_effect s z hd m u b id value s' r : doc_update doc s z m u b id value -> zs_send hd m u b s = (s', r) ->
    send_outcome r (zs_entries s' z ≡ₚ set_entry id value <$> zs_entries s z) (zs_entries s' z ≡ₚ zs_entries s z);
  delete_effect s z hd m u id s' r : doc_delete doc z m u id -> zs_send hd m u [] s = (s', r) ->
    send_outcome r (zs_entries s' z ≡ₚ drop_entry id (zs_entries s z)) (zs_entries s' z ≡ₚ zs_entries s z) }.

(** Names are equal to themselves under case folding. *)
Class FoldLaws `{UnicodeTables} : Prop := fold_refl s : strings_EqualFold s s = true.

(** ** The TXT records at a name *)

Section at_name.
Context `{UnicodeTables}.

Definition at_name (name : string) (e : entry) : bool := String.eqb (e_type e) "TXT" && strings_EqualFold (e_name e) name.

Definition records_of (name : string) (l : list entry) : list TXTRecord :=
  map (fun e => {| txt_ID := e_id e; txt_Value := e_value e |}) (List.filter (at_name name) l).

Lemma records_of_Permutation name l1 l2 : l1 ≡ₚ l2 -> records_of name l1 ≡ₚ records_of name l2.
Proof. intros Hp. unfold records_of. apply Permutation_map. by apply filter_Permutation. Qed.

Lemma records_of_app name l1 l2 : records_of name (l1 ++ l2) = records_of name l1 ++ records_of name l2.
Proof. unfold records_of. by rewrite List.filter_app, map_app. Qed.

Lemma records_create `{!FoldLaws} name l1 l2 id v :
  l2 ≡ₚ {| e_id := id; e_type := "TXT"; e_name := name; e_value := v |} :: l1 ->
  records_of name l2 ≡ₚ {| txt_ID := id; txt_Value := v |} :: records_of name l1.
Proof. intros ->%(records_of_Permutation name). unfold records_of. cbn. unfold at_name at 1. cbn. by rewrite fold_refl. Qed.

Lemma records_update name id v l : records_of name (set_entry id v <$> l) = set_value id v <$> records_of name l.
Proof.
  unfold records_of. induction l as [|e l IH]; [done|]. rewrite fmap_cons. cbn [List.filter].
  assert (Ha : at_name name (set_entry id v e) = at_name name e) by (unfold set_entry; destruct (String.eqb _ _); done).
  rewrite Ha. destruct (at_name name e); [|done]. cbn [map]. rewrite IH, fmap_cons. f_equal. unfold set_entry, set_value. cbn.
  by destruct (String.eqb (e_id e) id).
Qed.

Lemma records_delete name id l :
  records_of name (drop_entry id l) = List.filter (fun x => negb (String.eqb (txt_ID x) id)) (records_of name l).
Proof.
  unfold records_of, drop_entry. induction l as [|e l IH]; [done|]. cbn.
  destruct (String.eqb (e_id e) id) eqn:E, (at_name name e) eqn:Ea; cbn; rewrite ?E, ?Ea; cbn; by rewrite IH.
Qed.

Lemma records_ids name l : NoDup (e_id <$> l) -> NoDup (txt_ID <$> records_of name l).
Proof.
  intros Hn. unfold records_of. rewrite <- list_fmap_compose. change (txt_ID ∘ _) with e_id.
  induction l as [|e l IH]; [done|]. rewrite fmap_cons, NoDup_cons in Hn. destruct Hn as [He Hl]. cbn [List.filter].
  destruct (at_name name e); [|by apply IH]. rewrite fmap_cons. apply NoDup_cons. split; [|by apply IH]. intros Hi. apply He.
  apply list_elem_of_fmap in Hi as (y & -> & [Hy _]%list_elem_of_In%filter_In). by apply list_elem_of_fmap_2, list_elem_of_In.
Qed.
End at_name.

(** ** Pages *)

(** The loop of [ListTXT] over the pages of a listing. *)
Fixpoint list_pages {P : Type} (fetch : Z -> result P) (found : P -> list TXTRecord) (is_last : P -> Z -> bool)
    (fuel : nat) (page : Z) (out : list TXTRecord) : option (result (list TXTRecord)) :=
  match fuel with
  | O => None
  | S fuel =>
      match fetch page with
      | Err e => Some (Err e)
      | Ok p =>
          let out := out ++ found p in
          if is_last p page then Some (Ok out) else list_pages fetch found is_last fuel (page + 1) out
      end
  end.

(** The records found among those of a page, whatever form they come in. *)
Lemma found_entries `{UnicodeTables} {A} (f : A -> entry) name (records : list A) :
  map (fun r => {| txt_ID := e_id (f r); txt_Value := e_value (f r) |})
    (List.filter (fun r => String.eqb (e_type (f r)) "TXT" && strings_EqualFold (e_name (f r)) name) records) =
  records_of name (map f records).
Proof.
  unfold records_of. induction records as [|r rs IH]; [done|]. cbn. unfold at_name at 1.
  destruct (_ && _); cbn; by rewrite IH.
Qed.

Section pages.
Context `{UnicodeTables} {P : Type} (name : string).
Variables (fetch : Z -> result P) (found : P -> list TXTRecord) (is_last : P -> Z -> bool) (pages : list (list entry)).
Hypothesis pages_bounded : Z.of_nat (length pages) <= max_int64.
Hypothesis page_found : forall k p, 1 <= k <= max_int64 -> fetch k = Ok p ->
  found p = records_of name (nth (Z.to_nat (k - 1)) pages []) /\ is_last p k = (Z.of_nat (length pages) <=? k).

Lemma list_pages_from fuel : forall k out,
  (length pages <= fuel + k)%nat -> (0 < fuel)%nat -> Z.of_nat k + 1 <= max_int64 ->
  exists r, list_pages fetch found is_last fuel (Z.of_nat k + 1) out = Some r /\
    forall rs, r = Ok rs -> rs = out ++ records_of name (concat (drop k pages)).
Proof.
  induction fuel as [|fuel IH]; intros k out Hf H0 Hk; [lia|]. cbn [list_pages].
  destruct (fetch (Z.of_nat k + 1)) as [p|e] eqn:Ef; [|by eexists].
  destruct (page_found (Z.of_nat k + 1) p ltac:(lia) Ef) as [Hx Hl]. rewrite Hl. replace (Z.to_nat (Z.of_nat k + 1 - 1)) with k in Hx by lia.
  assert (Hd : concat (drop k pages) = nth k pages [] ++ concat (drop (S k) pages)).
  { destruct (Nat.lt_ge_cases k (length pages)) as [Hkl|Hkl].
    - destruct (lookup_lt_is_Some_2 _ _ Hkl) as [pg Hpg]. rewrite (drop_S _ _ _ Hpg). cbn. by rewrite (nth_lookup_Some _ _ _ _ Hpg).
    - rewrite nth_overflow by done. by rewrite !drop_ge by lia. }
  rewrite Hd, records_of_app, <- Hx, (assoc_L (++)).
  destruct (Z.leb_spec (Z.of_nat (length pages)) (Z.of_nat k + 1)) as [Hle|Hgt].
  - eexists. split; [done|]. intros rs [= <-]. rewrite (drop_ge pages) by lia. cbn. by rewrite app_nil_r.
  - destruct (IH (S k) (out ++ found p)) as (r & Hr & Hrs); [lia|lia|lia|].
    exists r. split; [|done]. rewrite <- Hr. f_equal. lia.
Qed.

(** With one step per page the listing ends, and finds what all the pages hold. *)
Lemma list_pages_all fuel : (length pages < fuel)%nat ->
  exists r, list_pages fetch found is_last fuel 1 [] = Some r /\
    forall rs, r = Ok rs -> rs = records_of name (concat pages).
Proof. intros Hf. apply (list_pages_from fuel 0 []); [lia|lia|]. unfold max_int64. lia. Qed.
End pages.

(** ** What a documented request does to the records at a name *)

Lemma send_outcome_mono r (d1 u1 d2 u2 : Prop) : (d1 -> d2) -> (u1 -> u2) -> send_outcome r d1 u1 -> send_outcome r d2 u2.
Proof. intros Hd Hu [H|[H Hn]]; [left; auto|right; auto]. Qed.

Section effects.
Context {S : Type} `{ZoneLaws S doc} `{FoldLaws}.

Definition held_at (name : string) (s : S) (z : string) : list TXTRecord := records_of name (zs_entries s z).

Lemma send_create s z hd m u b name v s' w : doc_create doc z m u b name v -> zs_send hd m u b s = (s', w) ->
  send_outcome w (exists id, held_at name s' z ≡ₚ {| txt_ID := id; txt_Value := v |} :: held_at name s z)
    (held_at name s' z ≡ₚ held_at name s z).
Proof.
  intros Hd Hs. eapply send_outcome_mono; [| |by eapply create_effect].
  - intros [id Hi]. exists id. by apply records_create.
  - apply records_of_Permutation.
Qed.

Lemma send_update s z hd m u b id v name s' w : doc_update doc s z m u b id v -> zs_send hd m u b s = (s', w) ->
  send_outcome w (held_at name s' z ≡ₚ set_value id v <$> held_at name s z) (held_at name s' z ≡ₚ held_at name s z).
Proof.
  intros Hd Hs. eapply send_outcome_mono; [| |by eapply update_effect]; [|apply records_of_Permutation].
  intros Hp%(records_of_Permutation name). by rewrite records_update in Hp.
Qed.

Lemma send_delete s z hd m u id name s' w : doc_delete doc z m u id -> zs_send hd m u [] s = (s', w) ->
  send_outcome w (held_at name s' z ≡ₚ List.filter (fun x => negb (String.eqb (txt_ID x) id)) (held_at name s z))
    (held_at name s' z ≡ₚ held_at name s z).
Proof.
  intros Hd Hs. eapply send_outcome_mono; [| |by eapply delete_effect]; [|apply records_of_Permutation].
  intros Hp%(records_of_Permutation name). by rewrite records_delete in Hp.
Qed.
End effects.

(** ** Listings *)

(** A listing shows everything that is at the name, on pages that are not empty
    and whose numbers are ints. *)
Class ListingLaws (S : Type) `{ZoneService S} `{UnicodeTables} (name : string) : Prop := {
  listing_complete s z : records_of name (concat (zs_pages s z name)) ≡ₚ held_at name s z;
  pages_nonempty s z : Forall (fun p => p <> []) (zs_pages s z name);
  pages_int s z : Z.of_nat (length (zs_pages s z name)) <= max_int64 }.

(** ** The cached zone id of Cloudflare, Hetzner and Linode *)

Record cached (I S : Type) := { c_id : I; c_service : S }.
Arguments c_id {I S} _.
Arguments c_service {I S} _.
Arguments Build_cached {I S} _ _.

Section cached.
Context {I S : Type} `{ZoneService S} `{UnicodeTables}.
Variables (unset : I -> bool) (lookup : S -> result I).

Definition resolve (s : cached I S) : cached I S * result I :=
  if negb (unset (c_id s)) then (s, Ok (c_id s)) else
  match lookup (c_service s) with
  | Err e => (s, Err e)
  | Ok id => (Build_cached id (c_service s), Ok id)
  end.

(** A change of the service, which leaves the cache. *)
Definition service_send (send : S -> S * result (Z * string)) (s : cached I S) : cached I S * result unit :=
  let '(srv, w) := send (c_service s) in sent (Build_cached (c_id s) srv, w).

(** The same on the zone. *)
Definition zone_send (send : I -> S -> S * result (Z * string)) (s : cached I S) : cached I S * result unit :=
  let '(s, r) := resolve s in
  match r with Err e => (s, Err e) | Ok id => service_send (send id) s end.

Definition zone_list {P : Type} (fetch : I -> S -> Z -> result P) (found : P -> list TXTRecord) (is_last : P -> Z -> bool)
    (fuel : nat) (s : cached I S) : cached I S * option (result (list TXTRecord)) :=
  let '(s, r) := resolve s in
  match r with
  | Err e => (s, Some (Err e))
  | Ok id => (s, list_pages (fetch id (c_service s)) found is_last fuel 1 [])
  end.

Variables (zid : I -> string) (zone name : string).
Hypothesis lookup_zone : forall s id, lookup s = Ok id -> zs_zone s zone = Some (zid id).

(** The zone's id as the client would resolve it, and what it holds at the name. *)
Definition zone_of (s : cached I S) : option string :=
  if negb (unset (c_id s)) then Some (zid (c_id s)) else zs_zone (c_service s) zone.

Definition zone_records (s : cached I S) : list TXTRecord :=
  match zone_of s with Some z => held_at name (c_service s) z | None => [] end.

Lemma resolve_zone s s' r : resolve s = (s', r) ->
  c_service s' = c_service s /\ zone_of s' = zone_of s /\ forall id, r = Ok id -> zone_of s' = Some (zid id).
Proof.
  unfold resolve. destruct (negb (unset (c_id s))) eqn:Eu.
  { intros [= <- <-]. repeat split. intros id [= <-]. unfold zone_of. by rewrite Eu. }
  destruct (lookup (c_service s)) as [id|e] eqn:El; intros [= <- <-]; [|done].
  apply lookup_zone in El. unfold zone_of. cbn [c_id c_service]. rewrite Eu, El.
  assert (Hi : (if negb (unset id) then Some (zid id) else Some (zid id)) = Some (zid id)) by (by case (negb _)).
  rewrite Hi. repeat split. by intros ? [= <-].
Qed.

Lemma zone_records_kept s s' : c_service s' = c_service s -> zone_of s' = zone_of s -> zone_records s' = zone_records s.
Proof. intros H1 H2. unfold zone_records. by rewrite H1, H2. Qed.

(** A change of the records at a name [E], by a request that has it. *)
Variable E : list TXTRecord -> list TXTRecord -> Prop.

Definition changes (z : string) (send : S -> S * result (Z * string)) : Prop := forall s s' w, send s = (s', w) ->
  zs_zone s' zone = zs_zone s zone /\
  send_outcome w (E (held_at name s z) (held_at name s' z)) (held_at name s' z ≡ₚ held_at name s z).

Lemma service_send_effect send s s' r : E [] [] ->
  (forall z srv w, send (c_service s) = (srv, w) -> zs_zone srv zone = zs_zone (c_service s) zone /\
     send_outcome w (E (held_at name (c_service s) z) (held_at name srv z)) (held_at name srv z ≡ₚ held_at name (c_service s) z)) ->
  service_send send s = (s', r) ->
  effect_or_failure s' r (E (zone_records s) (zone_records s')) (zone_records s' ≡ₚ zone_records s).
Proof.
  intros Hnil Hc. unfold service_send. destruct (send (c_service s)) as [srv w] eqn:Es.
  intros Hr. apply (sent_outcome _ _ _ _ (fun s' => E (zone_records s) (zone_records s')) (fun s' => zone_records s' ≡ₚ zone_records s) Hr).
  assert (Hk : zone_of (Build_cached (c_id s) srv) = zone_of s)
    by (unfold zone_of; cbn; destruct (Hc "" _ _ eq_refl) as [-> _]; done).
  unfold zone_records. rewrite Hk. destruct (zone_of s) as [z|]; [|by left]. by apply Hc.
Qed.

Lemma zone_send_effect send s s' r : (forall id, changes (zid id) (send id)) ->
  zone_send send s = (s', r) ->
  effect_or_failure s' r (E (zone_records s) (zone_records s')) (zone_records s' ≡ₚ zone_records s).
Proof.
  intros Hc. unfold zone_send. destruct (resolve s) as [s1 r1] eqn:Er. apply resolve_zone in Er as (E1 & E2 & E3).
  destruct r1 as [id|e]; [|intros [= <- <-]; right; by rewrite (zone_records_kept s s1)].
  specialize (E3 _ eq_refl). rewrite <- (zone_records_kept s s1) by done.
  unfold service_send. destruct (send id (c_service s1)) as [srv w] eqn:Es. destruct (Hc _ _ _ _ Es) as [Hz Ho].
  intros Hr. apply (sent_outcome _ _ _ _ (fun s' => E (zone_records s1) (zone_records s')) (fun s' => zone_records s' ≡ₚ zone_records s1) Hr).
  assert (Hk : zone_of (Build_cached (c_id s1) srv) = zone_of s1) by (unfold zone_of; cbn; by rewrite Hz).
  unfold zone_records. by rewrite Hk, E3.
Qed.

(** Steps for the whole listing. *)
Definition enough (s : cached I S) : nat :=
  Datatypes.S (match zone_of s with Some z => length (zs_pages (c_service s) z name) | None => O end).

Lemma zone_list_all {P : Type} (fetch : I -> S -> Z -> result P) (found : P -> list TXTRecord) (is_last : P -> Z -> bool)
    (fuel : nat) (s s' : cached I S) o :
  ListingLaws S name ->
  (forall id srv k p, 1 <= k <= max_int64 -> fetch id srv k = Ok p ->
     found p = records_of name (nth (Z.to_nat (k - 1)) (zs_pages srv (zid id) name) []) /\
     is_last p k = (Z.of_nat (length (zs_pages srv (zid id) name)) <=? k)) ->
  (enough s <= fuel)%nat -> zone_list fetch found is_last fuel s = (s', o) ->
  zone_records s' ≡ₚ zone_records s /\ exists r, o = Some r /\ forall rs, r = Ok rs -> rs ≡ₚ zone_records s.
Proof.
  intros HL Hp Hf. unfold zone_list. destruct (resolve s) as [s1 r1] eqn:Er. apply resolve_zone in Er as (E1 & E2 & E3).
  pose proof (zone_records_kept _ _ E1 E2) as Hk. destruct r1 as [id|e]; intros [= <- <-]; (split; [by rewrite Hk|]); [|by eexists].
  specialize (E3 _ eq_refl). unfold enough in Hf. rewrite <- E2, E3, <- E1 in Hf.
  destruct (list_pages_all name (fetch id (c_service s1)) found is_last (zs_pages (c_service s1) (zid id) name)
    (pages_int _ _) (Hp id (c_service s1)) fuel ltac:(lia)) as (r & -> & Hr).
  exists r. split; [done|]. intros rs Hrs. rewrite (Hr _ Hrs), <- Hk, listing_complete. unfold zone_records. by rewrite E3.
Qed.
End cached.

(** *** Documented requests on the cached zone *)

Section documented.
Context {I S : Type} `{ZoneLaws S doc} `{FoldLaws}.
Variables (unset : I -> bool) (lookup : S -> result I) (zid : I -> string) (zone name : string).
Hypothesis lookup_zone : forall s id, lookup s = Ok id -> zs_zone s zone = Some (zid id).
Notation recs := (zone_records unset zid zone name).

Lemma zone_ids s : NoDup (txt_ID <$> recs s).
Proof. unfold zone_records. destruct (zone_of _ _ _ s); [|constructor]. apply records_ids, entry_ids. Qed.

Lemma zone_create hd m u b v s s' r : (forall id, doc_create doc (zid id) m (u id) (b id) name v) ->
  zone_send unset lookup (fun id => zs_send hd m (u id) (b id)) s = (s', r) ->
  effect_or_failure s' r (exists id, recs s' ≡ₚ {| txt_ID := id; txt_Value := v |} :: recs s) (recs s' ≡ₚ recs s).
Proof.
  intros Hd. apply (zone_send_effect _ _ _ _ _ lookup_zone (fun l l' => exists id, l' ≡ₚ {| txt_ID := id; txt_Value := v |} :: l)).
  intros id srv srv' w Hs. split; [by eapply zone_steady|by eapply send_create].
Qed.

Lemma zone_update hd m u b rid v s s' r : (forall id srv, doc_update doc srv (zid id) m (u id) b rid v) ->
  zone_send unset lookup (fun id => zs_send hd m (u id) b) s = (s', r) ->
  effect_or_failure s' r (recs s' ≡ₚ set_value rid v <$> recs s) (recs s' ≡ₚ recs s).
Proof.
  intros Hd. apply (zone_send_effect _ _ _ _ _ lookup_zone (fun l l' => l' ≡ₚ set_value rid v <$> l)).
  intros id srv srv' w Hs. split; [by eapply zone_steady|by eapply send_update].
Qed.

Lemma zone_delete hd m u rid s s' r : (forall id, doc_delete doc (zid id) m (u id) rid) ->
  zone_send unset lookup (fun id => zs_send hd m (u id) []) s = (s', r) ->
  effect_or_failure s' r (recs s' ≡ₚ List.filter (fun x => negb (String.eqb (txt_ID x) rid)) (recs s)) (recs s' ≡ₚ recs s).
Proof.
  intros Hd. apply (zone_send_effect _ _ _ _ _ lookup_zone (fun l l' => l' ≡ₚ List.filter _ l)).
  intros id srv srv' w Hs. split; [by eapply zone_steady|by eapply send_delete].
Qed.

Lemma service_update hd m u b rid v s s' r : (forall z, doc_update doc (c_service s) z m u b rid v) ->
  service_send (zs_send hd m u b) s = (s', r) ->
  effect_or_failure s' r (recs s' ≡ₚ set_value rid v <$> recs s) (recs s' ≡ₚ recs s).
Proof.
  intros Hd. apply (service_send_effect _ _ _ _ (fun l l' => l' ≡ₚ set_value rid v <$> l)); [done|].
  intros z srv w Hs. split; [by eapply zone_steady|by eapply send_update].
Qed.

Lemma service_delete hd m u rid s s' r : (forall z, doc_delete doc z m u rid) ->
  service_send (zs_send hd m u []) s = (s', r) ->
  effect_or_failure s' r (recs s' ≡ₚ List.filter (fun x => negb (String.eqb (txt_ID x) rid)) (recs s)) (recs s' ≡ₚ recs s).
Proof.
  intros Hd. apply (service_send_effect _ _ _ _ (fun l l' => l' ≡ₚ List.filter _ l)); [done|].
  intros z srv w Hs. split; [by eapply zone_steady|by eapply send_delete].
Qed.
End documented.

(** The result of a listing that was given enough steps. *)
Definition finished {T A} (so : T * option (result A)) : T * result A :=
  (fst so, default (Err (errors_New "unfinished")) (snd so)).

Lemma finished_list {T A : Type} (so : T * option (result (list A))) s' r (P : T -> Prop) (l : list A) :
  finished so = (s', r) ->
  (forall s1 o, so = (s1, o) -> P s1 /\ exists r, o = Some r /\ forall rs, r = Ok rs -> rs ≡ₚ l) ->
  P s' /\ forall rs, r = Ok rs -> rs ≡ₚ l.
Proof. destruct so as [s1 o]. intros [= <- <-] Hx. by destruct (Hx _ _ eq_refl) as (HP & r & -> & Hr). Qed.

(** The test for the last page by the number of pages, of which an empty listing has
    none or one. *)
Lemma last_by_total {A} (f : A -> entry) (records : list A) (pages : list (list entry)) total k :
  Forall (fun p => p <> []) pages -> 1 <= k -> map f records = nth (Z.to_nat (k - 1)) pages [] ->
  Z.max 1 total = Z.max 1 (Z.of_nat (length pages)) ->
  (total <=? k) || (Nat.eqb (length records) 0) = (Z.of_nat (length pages) <=? k).
Proof.
  intros Hn Hk Hm Ht. destruct (Z.leb_spec (Z.of_nat (length pages)) k) as [Hl|Hl].
  - apply orb_true_iff. left. apply Z.leb_le. lia.
  - apply orb_false_iff. split; [apply Z.leb_gt; lia|]. apply Nat.eqb_neq. intros Hz. apply nil_length_inv in Hz as ->.
    destruct (lookup_lt_is_Some_2 pages (Z.to_nat (k - 1)) ltac:(lia)) as [pg Hpg].
    rewrite (nth_lookup_Some _ _ _ _ Hpg) in Hm. cbn in Hm. by apply (Forall_lookup_1 _ _ _ _ Hn Hpg).
Qed.

(** ** Requests on a zone addressed by its name *)

Section plain.
Context {S : Type} `{ZoneLaws S doc} `{FoldLaws}.
Variables (z name : string).

Lemma plain_create hd m u b v s s' r : doc_create doc z m u b name v -> sent (zs_send hd m u b s) = (s', r) ->
  effect_or_failure s' r (exists id, held_at name s' z ≡ₚ {| txt_ID := id; txt_Value := v |} :: held_at name s z)
    (held_at name s' z ≡ₚ held_at name s z).
Proof.
  intros Hd. destruct (zs_send hd m u b s) as [s1 w] eqn:Es. intros Hr.
  apply (sent_outcome _ _ _ _ (fun s' => exists id, held_at name s' z ≡ₚ {| txt_ID := id; txt_Value := v |} :: held_at name s z)
    (fun s' => held_at name s' z ≡ₚ held_at name s z) Hr). by eapply send_create.
Qed.

Lemma plain_update hd m u b id v s s' r : doc_update doc s z m u b id v -> sent (zs_send hd m u b s) = (s', r) ->
  effect_or_failure s' r (held_at name s' z ≡ₚ set_value id v <$> held_at name s z) (held_at name s' z ≡ₚ held_at name s z).
Proof.
  intros Hd. destruct (zs_send hd m u b s) as [s1 w] eqn:Es. intros Hr.
  apply (sent_outcome _ _ _ _ (fun s' => held_at name s' z ≡ₚ set_value id v <$> held_at name s z)
    (fun s' => held_at name s' z ≡ₚ held_at name s z) Hr). by eapply send_update.
Qed.

Lemma plain_delete hd m u id s s' r : doc_delete doc z m u id -> sent (zs_send hd m u [] s) = (s', r) ->
  effect_or_failure s' r (held_at name s' z ≡ₚ List.filter (fun x => negb (String.eqb (txt_ID x) id)) (held_at name s z))
    (held_at name s' z ≡ₚ held_at name s z).
Proof.
  intros Hd. destruct (zs_send hd m u [] s) as [s1 w] eqn:Es. intros Hr.
  apply (sent_outcome _ _ _ _ (fun s' => held_at name s' z ≡ₚ List.filter _ (held_at name s z))
    (fun s' => held_at name s' z ≡ₚ held_at name s z) Hr). by eapply send_delete.
Qed.
End plain.
