(* ===== verification/TxtRecords.v ===== *)
(** * TxtRecords: the providers that keep the TXT values as records

    internal/dnsprovider/cloudflare.go, hetzner.go, linode.go, digitalocean.go and
    ovh.go.  Each client turns the record operations of a provider into requests;
    it is correct when the requests it makes are the documented ones, which is what
    discharges the contract [TxtApiLaws] of the DNS drop.  The answers are
    decoded in ProviderJson.v; credentials are left out but for OVH's signature. *)
From stdpp Require Import base tactics option list strings countable.
From Stdlib Require Import Ascii ZArith Lia.
From S2P Require Import Prelude GoStrings GoNum GoUtf8 GoJson JsonBind GoCrypto ProviderJson Drop DropDns DropDnsPut Http ZoneApi.
Open Scope Z_scope.

(** ** cloudflare.go *)

Record cloudflare := { cf_ttl : Z; cf_baseURL : string }.

Definition newCloudflare (ttl : Z) (baseURL : string) : cloudflare := {|
  cf_ttl := ttl;
  cf_baseURL := if String.eqb baseURL "" then "https://api.cloudflare.com/client/v4" else baseURL |}.

Definition cfFQDN (name zone : string) : string :=
  let zone := strings_TrimSuffix zone "." in
  let name := strings_TrimSuffix name "." in
  if String.eqb name "" || String.eqb name "@" then zone else name +:+ "." +:+ zone.

Section cloudflare.
Context {S : Type} `{ZoneService S} `{UnicodeTables}.
Variables (c : cloudflare) (zone : string).

Definition cf_zonesURL : string := cf_baseURL c +:+ "/zones?" +:+ url_Encode [("name", [zone])].
Definition cf_recordsURL (id : string) : string := cf_baseURL c +:+ "/zones/" +:+ id +:+ "/dns_records".
Definition cf_listURL (id fqdn : string) (page : Z) : string :=
  cf_recordsURL id +:+ "?" +:+ url_Encode [("type", ["TXT"]); ("name", [fqdn]); ("per_page", ["100"]); ("page", [strconv_Itoa page])].
Definition cf_recordURL (id recordID : string) : string := cf_recordsURL id +:+ "/" +:+ recordID.

(** The lookup of [resolveZoneID], without the cache. *)
Definition cf_lookup (srv : S) : result string :=
  data ← doJSON (zs_get cf_zonesURL "" srv);
  env ← of_option (errors_New "decode cloudflare zones: %w") (cf_Unmarshal data);
  zones ← of_option (errors_New "decode cloudflare zones: %w") (cf_Unmarshal_zones (cf_Result env));
  match List.find (fun z => strings_EqualFold (cfz_Name z) zone) zones with
  | Some z => Ok (cfz_ID z)
  | None => Err (Errorf "cloudflare: zone %q not found: %w" [dnsprovider_ErrNotFound])
  end.

Definition cf_unset (id : string) : bool := String.eqb id "".
Definition cf_resolveZoneID : cached string S -> cached string S * result string := resolve cf_unset cf_lookup.

(** A page: the number of pages and its records. *)
Definition cf_fetch (fqdn : string) (id : string) (srv : S) (page : Z) : result (Z * list cfRecord) :=
  data ← doJSON (zs_get (cf_listURL id fqdn page) "" srv);
  env ← of_option (errors_New "decode cloudflare records: %w") (cf_Unmarshal data);
  records ← of_option (errors_New "decode cloudflare records: %w") (cf_Unmarshal_records (cf_Result env));
  Ok (cf_TotalPages env, records).

Definition cf_found (fqdn : string) (p : Z * list cfRecord) : list TXTRecord :=
  map (fun r => {| txt_ID := cfr_ID r; txt_Value := cfr_Content r |})
    (List.filter (fun r => String.eqb (cfr_Type r) "TXT" && strings_EqualFold (cfr_Name r) fqdn) (snd p)).

Definition cf_last (p : Z * list cfRecord) (page : Z) : bool := (fst p <=? page) || Nat.eqb (length (snd p)) 0.

Definition cf_ListTXT (name : string) (fuel : nat) (s : cached string S) : cached string S * option (result (list TXTRecord)) :=
  zone_list cf_unset cf_lookup (cf_fetch (cfFQDN name zone)) (cf_found (cfFQDN name zone)) cf_last fuel s.

Definition cf_recordBody (value : string) : json_object :=
  ("content", JStr value) :: if 0 <? cf_ttl c then [("ttl", json_int (cf_ttl c))] else [].

Definition cf_CreateTXT (name : string) (s : cached string S) (value : string) : cached string S * result unit :=
  zone_send cf_unset cf_lookup (fun id => zs_send "" "POST" (cf_recordsURL id)
    (cf_recordBody value ++ [("type", JStr "TXT"); ("name", JStr (cfFQDN name zone))])) s.

Definition cf_UpdateTXT (s : cached string S) (recordID value : string) : cached string S * result unit :=
  zone_send cf_unset cf_lookup (fun id => zs_send "" "PATCH" (cf_recordURL id recordID) (cf_recordBody value)) s.

Definition cf_DeleteTXT (s : cached string S) (recordID : string) : cached string S * result unit :=
  zone_send cf_unset cf_lookup (fun id => zs_send "" "DELETE" (cf_recordURL id recordID) []) s.
End cloudflare.

(** *** What the service documents *)

Definition cf_entry (r : cfRecord) : entry :=
  {| e_id := cfr_ID r; e_type := cfr_Type r; e_name := cfr_Name r; e_value := cfr_Content r |}.

Definition cf_doc {S : Type} (c : cloudflare) : ApiDoc S := {|
  doc_create z m u b name value := m = "POST" /\ u = cf_recordsURL c z /\
    field "type" b = Some (JStr "TXT") /\ field "name" b = Some (JStr name) /\ field "content" b = Some (JStr value);
  doc_update _ z m u b id value := m = "PATCH" /\ u = cf_recordURL c z id /\
    field "content" b = Some (JStr value) /\ field "name" b = None /\ field "type" b = None;
  doc_delete z m u id := m = "DELETE" /\ u = cf_recordURL c z id |}.

Class CfLaws (S : Type) `{ZoneService S} `{UnicodeTables} (c : cloudflare) (zone name : string) : Prop := {
  cf_zone_laws :: ZoneLaws S (cf_doc c);
  cf_listing :: ListingLaws S (cfFQDN name zone);
  cf_zone_found s status data env zones z : zs_get (cf_zonesURL c zone) "" s = Ok (status, data) -> 200 <= status < 300 ->
    cf_Unmarshal data = Some env -> cf_Unmarshal_zones (cf_Result env) = Some zones ->
    List.find (fun z => strings_EqualFold (cfz_Name z) zone) zones = Some z -> zs_zone s zone = Some (cfz_ID z);
  cf_page_holds s z k status data env records : zs_get (cf_listURL c z (cfFQDN name zone) k) "" s = Ok (status, data) ->
    1 <= k <= max_int64 -> 200 <= status < 300 -> cf_Unmarshal data = Some env -> cf_Unmarshal_records (cf_Result env) = Some records ->
    map cf_entry records = nth (Z.to_nat (k - 1)) (zs_pages s z (cfFQDN name zone)) [] /\
    Z.max 1 (cf_TotalPages env) = Z.max 1 (Z.of_nat (length (zs_pages s z (cfFQDN name zone)))) }.

#[export] Instance cf_api {S} `{ZoneService S} `{UnicodeTables} (c : cloudflare) (zone name : string) : TxtApi (cached string S) := {
  api_records := zone_records cf_unset (fun id => id) zone (cfFQDN name zone);
  api_ListTXT s := finished (cf_ListTXT c zone name (enough cf_unset (fun id => id) zone (cfFQDN name zone) s) s);
  api_CreateTXT := cf_CreateTXT c zone name;
  api_UpdateTXT := cf_UpdateTXT c zone;
  api_DeleteTXT := cf_DeleteTXT c zone;
  api_ReplaceTXT := None;
  api_Flush := None }.

Section cloudflare_laws.
Context {S : Type} `{ZoneService S} `{UnicodeTables} `{!FoldLaws} (c : cloudflare) (zone name : string).
Context `{!CfLaws S c zone name}.

Lemma cf_lookup_zone (s : S) id : cf_lookup c zone s = Ok id -> zs_zone s zone = Some id.
Proof.
  unfold cf_lookup. intros (data & (status & Hr & Hs)%doJSON_Ok & (env & He%of_option_Ok & (zones & Hz%of_option_Ok & Hf)%bind_Ok)%bind_Ok)%bind_Ok.
  destruct (List.find _ zones) as [z|] eqn:Ef; [|done]. injection Hf as <-. by eapply cf_zone_found.
Qed.

Lemma cf_page (id : string) (srv : S) k p : 1 <= k <= max_int64 -> cf_fetch c (cfFQDN name zone) id srv k = Ok p ->
  cf_found (cfFQDN name zone) p = records_of (cfFQDN name zone) (nth (Z.to_nat (k - 1)) (zs_pages srv id (cfFQDN name zone)) []) /\
  cf_last p k = (Z.of_nat (length (zs_pages srv id (cfFQDN name zone))) <=? k).
Proof.
  unfold cf_fetch.
  intros Hk (data & (status & Hr & Hs)%doJSON_Ok & (env & He%of_option_Ok & (records & Hd%of_option_Ok & [= <-])%bind_Ok)%bind_Ok)%bind_Ok.
  destruct (cf_page_holds _ _ _ _ _ _ _ Hr Hk Hs He Hd) as [Hm Ht]. split.
  - rewrite <- Hm. apply (found_entries cf_entry).
  - unfold cf_last. cbn [fst snd]. eapply last_by_total; eauto; [apply pages_nonempty|lia].
Qed.

#[export] Instance cf_laws : @TxtApiLaws (cached string S) (cf_api c zone name).
Proof.
  constructor; cbn [api_records api_ListTXT api_CreateTXT api_UpdateTXT api_DeleteTXT api_ReplaceTXT api_Flush cf_api]; try done.
  - apply (zone_ids (doc:=cf_doc c)).
  - intros s s' r Hf. apply (finished_list _ _ _ (fun s1 => zone_records _ _ _ _ s1 ≡ₚ zone_records _ _ _ _ s) _ Hf). intros s1 o Hl.
    eapply (zone_list_all _ _ _ _ _ cf_lookup_zone); [apply _|apply cf_page|apply le_n|exact Hl].
  - intros s v s' r _ _. apply (zone_create (doc:=cf_doc c) _ _ _ _ _ cf_lookup_zone).
    intros id. unfold cf_recordBody. by destruct (0 <? cf_ttl c).
  - intros s rid v s' r _ _. apply (zone_update (doc:=cf_doc c) _ _ _ _ _ cf_lookup_zone).
    intros id srv. unfold cf_recordBody. by destruct (0 <? cf_ttl c).
  - intros s rid s' r _. by apply (zone_delete (doc:=cf_doc c) _ _ _ _ _ cf_lookup_zone).
Qed.
End cloudflare_laws.

(** ** hetzner.go *)

Record hetzner := { hz_ttl : Z; hz_baseURL : string }.

Definition newHetzner (ttl : Z) (baseURL : string) : hetzner := {|
  hz_ttl := ttl;
  hz_baseURL := if String.eqb baseURL "" then "https://dns.hetzner.com/api/v1" else baseURL |}.

Definition hetznerRelName (name : string) : string :=
  let name := strings_TrimSuffix name "." in
  if String.eqb name "" || String.eqb name "@" then "@" else name.

Section hetzner.
Context {S : Type} `{ZoneService S} `{UnicodeTables}.
Variables (h : hetzner) (zone : string).

Definition hz_zonesURL : string := hz_baseURL h +:+ "/zones?" +:+ url_Encode [("name", [zone])].
Definition hz_listURL (id : string) (page : Z) : string :=
  hz_baseURL h +:+ "/records?" +:+ url_Encode [("zone_id", [id]); ("per_page", ["100"]); ("page", [strconv_Itoa page])].
Definition hz_recordsURL : string := hz_baseURL h +:+ "/records".
Definition hz_recordURL (recordID : string) : string := hz_recordsURL +:+ "/" +:+ recordID.

Definition hz_lookup (srv : S) : result string :=
  data ← doJSON (zs_get hz_zonesURL "" srv);
  zones ← of_option (errors_New "decode hetzner zones: %w") (hz_Unmarshal_zones data);
  match List.find (fun z => strings_EqualFold (hzz_Name z) zone) zones with
  | Some z => Ok (hzz_ID z)
  | None => Err (Errorf "hetzner: zone %q not found: %w" [dnsprovider_ErrNotFound])
  end.

Definition hz_unset (id : string) : bool := String.eqb id "".
Definition hz_resolveZoneID : cached string S -> cached string S * result string := resolve hz_unset hz_lookup.

Definition hz_fetch (id : string) (srv : S) (page : Z) : result (Z * list hetznerRecord) :=
  data ← doJSON (zs_get (hz_listURL id page) "" srv);
  of_option (errors_New "decode hetzner records: %w") (hz_Unmarshal_records data).

Definition hz_found (rel : string) (p : Z * list hetznerRecord) : list TXTRecord :=
  map (fun r => {| txt_ID := hzr_ID r; txt_Value := hzr_Value r |})
    (List.filter (fun r => String.eqb (hzr_Type r) "TXT" && strings_EqualFold (hzr_Name r) rel) (snd p)).

Definition hz_last (p : Z * list hetznerRecord) (page : Z) : bool := Nat.eqb (length (snd p)) 0 || (fst p <=? page).

Definition hz_ListTXT (name : string) (fuel : nat) (s : cached string S) : cached string S * option (result (list TXTRecord)) :=
  zone_list hz_unset hz_lookup hz_fetch (hz_found (hetznerRelName name)) hz_last fuel s.

(** The body of a write: the whole record. *)
Definition hz_body (zone_id type name value : string) : json_object :=
  [("zone_id", JStr zone_id); ("type", JStr type); ("name", JStr name); ("value", JStr value)] ++
  (if 0 <? hz_ttl h then [("ttl", json_int (hz_ttl h))] else []).

Definition hz_CreateTXT (name : string) (s : cached string S) (value : string) : cached string S * result unit :=
  zone_send hz_unset hz_lookup (fun id => zs_send "" "POST" hz_recordsURL (hz_body id "TXT" (hetznerRelName name) value)) s.

Definition hz_getRecord (recordID : string) (srv : S) : result hetznerRecord :=
  data ← doJSON (zs_get (hz_recordURL recordID) "" srv);
  of_option (errors_New "decode hetzner record: %w") (hz_Unmarshal_record data).

Definition hz_UpdateTXT (s : cached string S) (recordID value : string) : cached string S * result unit :=
  match hz_getRecord recordID (c_service s) with
  | Err e => (s, Err e)
  | Ok rec =>
      service_send (zs_send "" "PUT" (hz_recordURL recordID) (hz_body (hzr_ZoneID rec) (hzr_Type rec) (hzr_Name rec) value)) s
  end.

Definition hz_DeleteTXT (s : cached string S) (recordID : string) : cached string S * result unit :=
  service_send (zs_send "" "DELETE" (hz_recordURL recordID) []) s.
End hetzner.

(** *** What the service documents *)

Definition hz_entry (r : hetznerRecord) : entry :=
  {| e_id := hzr_ID r; e_type := hzr_Type r; e_name := hzr_Name r; e_value := hzr_Value r |}.

(** An update replaces the whole record: it must carry the zone, type and name the
    record has. *)
Definition hz_doc {S : Type} `{ZoneService S} (h : hetzner) : ApiDoc S := {|
  doc_create z m u b name value := m = "POST" /\ u = hz_recordsURL h /\ field "zone_id" b = Some (JStr z) /\
    field "type" b = Some (JStr "TXT") /\ field "name" b = Some (JStr name) /\ field "value" b = Some (JStr value);
  doc_update s z m u b id value := m = "PUT" /\ u = hz_recordURL h id /\ field "value" b = Some (JStr value) /\
    forall e, e ∈ zs_entries s z -> e_id e = id ->
      field "zone_id" b = Some (JStr z) /\ field "type" b = Some (JStr (e_type e)) /\ field "name" b = Some (JStr (e_name e));
  doc_delete z m u id := m = "DELETE" /\ u = hz_recordURL h id |}.

Class HetznerLaws (S : Type) `{ZoneService S} `{UnicodeTables} (h : hetzner) (zone name : string) : Prop := {
  hz_zone_laws :: ZoneLaws S (hz_doc h);
  hz_listing :: ListingLaws S (hetznerRelName name);
  hz_zone_found s status data zones z : zs_get (hz_zonesURL h zone) "" s = Ok (status, data) -> 200 <= status < 300 ->
    hz_Unmarshal_zones data = Some zones ->
    List.find (fun z => strings_EqualFold (hzz_Name z) zone) zones = Some z -> zs_zone s zone = Some (hzz_ID z);
  hz_page_holds s z k status data last records : zs_get (hz_listURL h z k) "" s = Ok (status, data) ->
    1 <= k <= max_int64 -> 200 <= status < 300 -> hz_Unmarshal_records data = Some (last, records) ->
    map hz_entry records = nth (Z.to_nat (k - 1)) (zs_pages s z (hetznerRelName name)) [] /\
    Z.max 1 last = Z.max 1 (Z.of_nat (length (zs_pages s z (hetznerRelName name))));
  hz_record_holds s z id status data rec e : zs_get (hz_recordURL h id) "" s = Ok (status, data) -> 200 <= status < 300 ->
    hz_Unmarshal_record data = Some rec -> e ∈ zs_entries s z -> e_id e = id ->
    hzr_ZoneID rec = z /\ hzr_Type rec = e_type e /\ hzr_Name rec = e_name e }.

#[export] Instance hz_api {S} `{ZoneService S} `{UnicodeTables} (h : hetzner) (zone name : string) : TxtApi (cached string S) := {
  api_records := zone_records hz_unset (fun id => id) zone (hetznerRelName name);
  api_ListTXT s := finished (hz_ListTXT h zone name (enough hz_unset (fun id => id) zone (hetznerRelName name) s) s);
  api_CreateTXT := hz_CreateTXT h zone name;
  api_UpdateTXT := hz_UpdateTXT h;
  api_DeleteTXT := hz_DeleteTXT h;
  api_ReplaceTXT := None;
  api_Flush := None }.

Section hetzner_laws.
Context {S : Type} `{ZoneService S} `{UnicodeTables} `{!FoldLaws} (h : hetzner) (zone name : string).
Context `{!HetznerLaws S h zone name}.

Lemma hz_lookup_zone (s : S) id : hz_lookup h zone s = Ok id -> zs_zone s zone = Some id.
Proof.
  unfold hz_lookup. intros (data & (status & Hr & Hs)%doJSON_Ok & (zones & Hz%of_option_Ok & Hf)%bind_Ok)%bind_Ok.
  destruct (List.find _ zones) as [z|] eqn:Ef; [|done]. injection Hf as <-. by eapply hz_zone_found.
Qed.

Lemma hz_page (id : string) (srv : S) k p : 1 <= k <= max_int64 -> hz_fetch h id srv k = Ok p ->
  hz_found (hetznerRelName name) p = records_of (hetznerRelName name) (nth (Z.to_nat (k - 1)) (zs_pages srv id (hetznerRelName name)) []) /\
  hz_last p k = (Z.of_nat (length (zs_pages srv id (hetznerRelName name))) <=? k).
Proof.
  unfold hz_fetch. intros Hk (data & (status & Hr & Hs)%doJSON_Ok & Hd%of_option_Ok)%bind_Ok. destruct p as [last records].
  destruct (hz_page_holds _ _ _ _ _ _ _ Hr Hk Hs Hd) as [Hm Ht]. split.
  - rewrite <- Hm. apply (found_entries hz_entry).
  - unfold hz_last. cbn [fst snd]. rewrite orb_comm. eapply last_by_total; eauto; [apply pages_nonempty|lia].
Qed.

#[export] Instance hz_laws : @TxtApiLaws (cached string S) (hz_api h zone name).
Proof.
  constructor; cbn [api_records api_ListTXT api_CreateTXT api_UpdateTXT api_DeleteTXT api_ReplaceTXT api_Flush hz_api]; try done.
  - apply (zone_ids (doc:=hz_doc h)).
  - intros s s' r Hf. apply (finished_list _ _ _ (fun s1 => zone_records _ _ _ _ s1 ≡ₚ zone_records _ _ _ _ s) _ Hf). intros s1 o Hl.
    eapply (zone_list_all _ _ _ _ _ hz_lookup_zone); [apply _|apply hz_page|apply le_n|exact Hl].
  - intros s v s' r _ _. by apply (zone_create (doc:=hz_doc h) _ _ _ _ _ hz_lookup_zone).
  - intros s rid v s' r _ _. unfold hz_UpdateTXT.
    destruct (hz_getRecord h rid (c_service s)) as [rec|e] eqn:Eg; [|intros [= <- <-]; by right].
    unfold hz_getRecord in Eg. apply bind_Ok in Eg as (data & (status & Hr & Hs)%doJSON_Ok & Hd%of_option_Ok).
    apply (service_update (doc:=hz_doc h)). intros z. split; [done|]. split; [done|]. split; [done|]. intros e He Hid.
    destruct (hz_record_holds _ _ _ _ _ _ _ Hr Hs Hd He Hid) as (<- & <- & <-). done.
  - intros s rid s' r _. by apply (service_delete (doc:=hz_doc h)).
Qed.
End hetzner_laws.

(** ** linode.go *)

Record linode := { ln_ttl : Z; ln_baseURL : string }.

Definition newLinode (ttl : Z) (baseURL : string) : linode := {|
  ln_ttl := ttl;
  ln_baseURL := if String.eqb baseURL "" then "https://api.linode.com/v4" else baseURL |}.

Definition filter_key (k : string) : string := String (chr 34) k +:+ String (chr 34) ": ".

Section linode.
Context {S : Type} `{ZoneService S} `{UnicodeTables} `{PrintTable}.
Variables (l : linode) (zone : string).

Definition ln_domainsURL : string := ln_baseURL l +:+ "/domains".
Definition ln_domainFilter : string := "{" +:+ filter_key "domain" +:+ quoted zone +:+ "}".
Definition ln_recordsURL (id : string) : string := ln_baseURL l +:+ "/domains/" +:+ id +:+ "/records".
Definition ln_recordURL (id recordID : string) : string := ln_recordsURL id +:+ "/" +:+ recordID.
Definition ln_listURL (id : string) (page : Z) : string :=
  ln_recordsURL id +:+ "?page=" +:+ strconv_Itoa page +:+ "&page_size=500".
Definition ln_listFilter (name : string) : string :=
  "{" +:+ filter_key "type" +:+ String (chr 34) "TXT" +:+ String (chr 34) ", " +:+ filter_key "name" +:+ quoted name +:+ "}".

Definition ln_lookup (srv : S) : result Z :=
  data ← doJSON (zs_get ln_domainsURL ln_domainFilter srv);
  domains ← of_option (errors_New "decode linode domains: %w") (ln_Unmarshal_domains data);
  match List.find (fun d => String.eqb (lnd_Domain d) zone) domains with
  | Some d => Ok (lnd_ID d)
  | None => Err (Errorf "linode: domain %q not found: %w" [dnsprovider_ErrNotFound])
  end.

Definition ln_unset (id : Z) : bool := id =? 0.
Definition ln_resolveDomainID : cached Z S -> cached Z S * result Z := resolve ln_unset ln_lookup.

Definition ln_fetch (name : string) (id : Z) (srv : S) (page : Z) : result (Z * list linodeRecord) :=
  data ← doJSON (zs_get (ln_listURL (strconv_Itoa id) page) (ln_listFilter name) srv);
  of_option (errors_New "decode linode records: %w") (ln_Unmarshal_records data).

Definition ln_found (name : string) (p : Z * list linodeRecord) : list TXTRecord :=
  map (fun r => {| txt_ID := strconv_Itoa (lnr_ID r); txt_Value := lnr_Target r |})
    (List.filter (fun r => String.eqb (lnr_Type r) "TXT" && strings_EqualFold (lnr_Name r) name) (snd p)).

Definition ln_last (p : Z * list linodeRecord) (page : Z) : bool := (fst p <=? page) || Nat.eqb (length (snd p)) 0.

Definition ln_ListTXT (name : string) (fuel : nat) (s : cached Z S) : cached Z S * option (result (list TXTRecord)) :=
  zone_list ln_unset ln_lookup (ln_fetch name) (ln_found name) ln_last fuel s.

Definition ln_recordBody (value : string) : json_object :=
  ("target", JStr value) :: if 0 <? ln_ttl l then [("ttl_sec", json_int (ln_ttl l))] else [].

Definition ln_CreateTXT (name : string) (s : cached Z S) (value : string) : cached Z S * result unit :=
  zone_send ln_unset ln_lookup (fun id => zs_send "" "POST" (ln_recordsURL (strconv_Itoa id))
    (ln_recordBody value ++ [("type", JStr "TXT"); ("name", JStr name)])) s.

Definition ln_UpdateTXT (s : cached Z S) (recordID value : string) : cached Z S * result unit :=
  zone_send ln_unset ln_lookup (fun id => zs_send "" "PUT" (ln_recordURL (strconv_Itoa id) recordID) (ln_recordBody value)) s.

Definition ln_DeleteTXT (s : cached Z S) (recordID : string) : cached Z S * result unit :=
  zone_send ln_unset ln_lookup (fun id => zs_send "" "DELETE" (ln_recordURL (strconv_Itoa id) recordID) []) s.
End linode.

(** *** What the service documents *)

Definition ln_entry (r : linodeRecord) : entry :=
  {| e_id := strconv_Itoa (lnr_ID r); e_type := lnr_Type r; e_name := lnr_Name r; e_value := lnr_Target r |}.

Definition ln_doc {S : Type} (l : linode) : ApiDoc S := {|
  doc_create z m u b name value := m = "POST" /\ u = ln_recordsURL l z /\
    field "type" b = Some (JStr "TXT") /\ field "name" b = Some (JStr name) /\ field "target" b = Some (JStr value);
  doc_update _ z m u b id value := m = "PUT" /\ u = ln_recordURL l z id /\
    field "target" b = Some (JStr value) /\ field "name" b = None /\ field "type" b = None;
  doc_delete z m u id := m = "DELETE" /\ u = ln_recordURL l z id |}.

Class LinodeLaws (S : Type) `{ZoneService S} `{UnicodeTables} `{PrintTable} (l : linode) (zone name : string) : Prop := {
  ln_zone_laws :: ZoneLaws S (ln_doc l);
  ln_listing :: ListingLaws S name;
  ln_zone_found s status data domains d : zs_get (ln_domainsURL l) (ln_domainFilter zone) s = Ok (status, data) ->
    200 <= status < 300 -> ln_Unmarshal_domains data = Some domains ->
    List.find (fun d => String.eqb (lnd_Domain d) zone) domains = Some d -> zs_zone s zone = Some (strconv_Itoa (lnd_ID d));
  ln_page_holds s z k status data total records :
    zs_get (ln_listURL l (strconv_Itoa z) k) (ln_listFilter name) s = Ok (status, data) ->
    1 <= k <= max_int64 -> 200 <= status < 300 -> ln_Unmarshal_records data = Some (total, records) ->
    map ln_entry records = nth (Z.to_nat (k - 1)) (zs_pages s (strconv_Itoa z) name) [] /\
    Z.max 1 total = Z.max 1 (Z.of_nat (length (zs_pages s (strconv_Itoa z) name))) }.

#[export] Instance ln_api {S} `{ZoneService S} `{UnicodeTables} `{PrintTable} (l : linode) (zone name : string) : TxtApi (cached Z S) := {
  api_records := zone_records ln_unset strconv_Itoa zone name;
  api_ListTXT s := finished (ln_ListTXT l zone name (enough ln_unset strconv_Itoa zone name s) s);
  api_CreateTXT := ln_CreateTXT l zone name;
  api_UpdateTXT := ln_UpdateTXT l zone;
  api_DeleteTXT := ln_DeleteTXT l zone;
  api_ReplaceTXT := None;
  api_Flush := None }.

Section linode_laws.
Context {S : Type} `{ZoneService S} `{UnicodeTables} `{PrintTable} `{!FoldLaws} (l : linode) (zone name : string).
Context `{!LinodeLaws S l zone name}.

Lemma ln_lookup_zone (s : S) id : ln_lookup l zone s = Ok id -> zs_zone s zone = Some (strconv_Itoa id).
Proof.
  unfold ln_lookup. intros (data & (status & Hr & Hs)%doJSON_Ok & (domains & Hz%of_option_Ok & Hf)%bind_Ok)%bind_Ok.
  destruct (List.find _ domains) as [d|] eqn:Ef; [|done]. injection Hf as <-. by eapply ln_zone_found.
Qed.

Lemma ln_page (id : Z) (srv : S) k p : 1 <= k <= max_int64 -> ln_fetch l name id srv k = Ok p ->
  ln_found name p = records_of name (nth (Z.to_nat (k - 1)) (zs_pages srv (strconv_Itoa id) name) []) /\
  ln_last p k = (Z.of_nat (length (zs_pages srv (strconv_Itoa id) name)) <=? k).
Proof.
  unfold ln_fetch. intros Hk (data & (status & Hr & Hs)%doJSON_Ok & Hd%of_option_Ok)%bind_Ok. destruct p as [total records].
  destruct (ln_page_holds _ _ _ _ _ _ _ Hr Hk Hs Hd) as [Hm Ht]. split.
  - rewrite <- Hm. apply (found_entries ln_entry).
  - unfold ln_last. cbn [fst snd]. eapply last_by_total; eauto; [apply pages_nonempty|lia].
Qed.

#[export] Instance ln_laws : @TxtApiLaws (cached Z S) (ln_api l zone name).
Proof.
  constructor; cbn [api_records api_ListTXT api_CreateTXT api_UpdateTXT api_DeleteTXT api_ReplaceTXT api_Flush ln_api]; try done.
  - apply (zone_ids (doc:=ln_doc l)).
  - intros s s' r Hf. apply (finished_list _ _ _ (fun s1 => zone_records _ _ _ _ s1 ≡ₚ zone_records _ _ _ _ s) _ Hf). intros s1 o Hl.
    eapply (zone_list_all _ _ _ _ _ ln_lookup_zone); [apply _|apply ln_page|apply le_n|exact Hl].
  - intros s v s' r _ _. apply (zone_create (doc:=ln_doc l) _ _ _ _ _ ln_lookup_zone).
    intros id. unfold ln_recordBody. by destruct (0 <? ln_ttl l).
  - intros s rid v s' r _ _. apply (zone_update (doc:=ln_doc l) _ _ _ _ _ ln_lookup_zone).
    intros id srv. unfold ln_recordBody. by destruct (0 <? ln_ttl l).
  - intros s rid s' r _. by apply (zone_delete (doc:=ln_doc l) _ _ _ _ _ ln_lookup_zone).
Qed.
End linode_laws.

(** ** digitalocean.go *)

Record digitalOcean := { do_ttl : Z; do_baseURL : string }.

Definition newDigitalOcean (ttl : Z) (baseURL : string) : digitalOcean := {|
  do_ttl := ttl;
  do_baseURL := if String.eqb baseURL "" then "https://api.digitalocean.com/v2" else baseURL |}.

Definition doRelName (name : string) : string := if String.eqb name "" then "@" else name.

Definition doFQDN (rel zone : string) : string :=
  let zone := strings_TrimSuffix zone "." in
  if String.eqb rel "@" then zone else rel +:+ "." +:+ zone.

Section digitalocean.
Context {S : Type} `{ZoneService S} `{UnicodeTables}.
Variables (d : digitalOcean) (zone : string).

Definition do_recordsURL : string := do_baseURL d +:+ "/domains/" +:+ zone +:+ "/records".
Definition do_recordURL (recordID : string) : string := do_recordsURL +:+ "/" +:+ recordID.
Definition do_listURL (rel : string) (page : Z) : string :=
  do_recordsURL +:+ "?" +:+
  url_Encode [("type", ["TXT"]); ("name", [doFQDN rel zone]); ("per_page", ["200"]); ("page", [strconv_Itoa page])].

Definition do_fetch (rel : string) (s : S) (page : Z) : result (string * list doRecord) :=
  data ← doJSON (zs_get (do_listURL rel page) "" s);
  of_option (errors_New "decode digitalocean records: %w") (do_Unmarshal data).

Definition do_found (rel : string) (p : string * list doRecord) : list TXTRecord :=
  map (fun r => {| txt_ID := strconv_Itoa (dor_ID r); txt_Value := dor_Data r |})
    (List.filter (fun r => String.eqb (dor_Type r) "TXT" && strings_EqualFold (dor_Name r) rel) (snd p)).

Definition do_last (p : string * list doRecord) (page : Z) : bool := String.eqb (fst p) "" || Nat.eqb (length (snd p)) 0.

Definition do_ListTXT (name : string) (fuel : nat) (s : S) : S * option (result (list TXTRecord)) :=
  (s, list_pages (do_fetch (doRelName name) s) (do_found (doRelName name)) do_last fuel 1 []).

Definition do_recordBody (value : string) : json_object :=
  ("data", JStr value) :: if 0 <? do_ttl d then [("ttl", json_int (do_ttl d))] else [].

Definition do_CreateTXT (name : string) (s : S) (value : string) : S * result unit :=
  sent (zs_send "" "POST" do_recordsURL (do_recordBody value ++ [("type", JStr "TXT"); ("name", JStr (doRelName name))]) s).

Definition do_UpdateTXT (s : S) (recordID value : string) : S * result unit :=
  sent (zs_send "" "PUT" (do_recordURL recordID) (do_recordBody value ++ [("type", JStr "TXT")]) s).

Definition do_DeleteTXT (s : S) (recordID : string) : S * result unit :=
  sent (zs_send "" "DELETE" (do_recordURL recordID) [] s).
End digitalocean.

(** *** What the service documents *)

Definition do_entry (r : doRecord) : entry :=
  {| e_id := strconv_Itoa (dor_ID r); e_type := dor_Type r; e_name := dor_Name r; e_value := dor_Data r |}.

(** The type is required of an update, the name is not to be sent. *)
Definition do_doc {S : Type} (d : digitalOcean) : ApiDoc S := {|
  doc_create z m u b name value := m = "POST" /\ u = do_recordsURL d z /\
    field "type" b = Some (JStr "TXT") /\ field "name" b = Some (JStr name) /\ field "data" b = Some (JStr value);
  doc_update _ z m u b id value := m = "PUT" /\ u = do_recordURL d z id /\
    field "data" b = Some (JStr value) /\ field "type" b = Some (JStr "TXT") /\ field "name" b = None;
  doc_delete z m u id := m = "DELETE" /\ u = do_recordURL d z id |}.

Class DoLaws (S : Type) `{ZoneService S} `{UnicodeTables} (d : digitalOcean) (zone name : string) : Prop := {
  do_zone_laws :: ZoneLaws S (do_doc d);
  do_listing :: ListingLaws S (doRelName name);
  do_page_holds s k status data next records : zs_get (do_listURL d zone (doRelName name) k) "" s = Ok (status, data) ->
    1 <= k <= max_int64 -> 200 <= status < 300 -> do_Unmarshal data = Some (next, records) ->
    map do_entry records = nth (Z.to_nat (k - 1)) (zs_pages s zone (doRelName name)) [] /\
    String.eqb next "" = (Z.of_nat (length (zs_pages s zone (doRelName name))) <=? k) }.

#[export] Instance do_api {S} `{ZoneService S} `{UnicodeTables} (d : digitalOcean) (zone name : string) : TxtApi S := {
  api_records s := held_at (doRelName name) s zone;
  api_ListTXT s := finished (do_ListTXT d zone name (Datatypes.S (length (zs_pages s zone (doRelName name)))) s);
  api_CreateTXT := do_CreateTXT d zone name;
  api_UpdateTXT := do_UpdateTXT d zone;
  api_DeleteTXT := do_DeleteTXT d zone;
  api_ReplaceTXT := None;
  api_Flush := None }.

Section digitalocean_laws.
Context {S : Type} `{ZoneService S} `{UnicodeTables} `{!FoldLaws} (d : digitalOcean) (zone name : string).
Context `{!DoLaws S d zone name}.

Lemma do_page (s : S) k p : 1 <= k <= max_int64 -> do_fetch d zone (doRelName name) s k = Ok p ->
  do_found (doRelName name) p = records_of (doRelName name) (nth (Z.to_nat (k - 1)) (zs_pages s zone (doRelName name)) []) /\
  do_last p k = (Z.of_nat (length (zs_pages s zone (doRelName name))) <=? k).
Proof.
  unfold do_fetch. intros Hk (data & (status & Hr & Hs)%doJSON_Ok & Hd%of_option_Ok)%bind_Ok. destruct p as [next records].
  destruct (do_page_holds _ _ _ _ _ _ Hr Hk Hs Hd) as [Hm Ht]. split.
  - rewrite <- Hm. apply (found_entries do_entry).
  - unfold do_last. cbn [fst snd]. rewrite Ht.
    eapply (last_by_total do_entry); eauto; [apply pages_nonempty|lia].
Qed.

#[export] Instance do_laws : @TxtApiLaws S (do_api d zone name).
Proof.
  constructor; cbn [api_records api_ListTXT api_CreateTXT api_UpdateTXT api_DeleteTXT api_ReplaceTXT api_Flush do_api]; try done.
  - intros s. apply records_ids, (entry_ids (doc:=do_doc d)).
  - intros s s' r Hf. apply (finished_list _ _ _ (fun s1 => held_at _ s1 _ ≡ₚ held_at _ s _) _ Hf). intros s1 o [= <- <-].
    split; [done|]. destruct (list_pages_all (doRelName name) _ _ _ _ (pages_int _ _) (do_page s) _ (le_n _)) as (r1 & Hr1 & Hrs).
    exists r1. split; [done|]. intros rs Hrs1. by rewrite (Hrs _ Hrs1), listing_complete.
  - intros s v s' r _ _. apply (plain_create (doc:=do_doc d)). unfold do_recordBody. by destruct (0 <? do_ttl d).
  - intros s rid v s' r _ _. apply (plain_update (doc:=do_doc d)). unfold do_recordBody. by destruct (0 <? do_ttl d).
  - intros s rid s' r _. by apply (plain_delete (doc:=do_doc d)).
Qed.
End digitalocean_laws.

(** ** ovh.go *)

Definition ovhEndpoints (name : string) : option string :=
  snd <$> List.find (fun kv => String.eqb (fst kv) name)
    [("ovh-eu", "https://eu.api.ovh.com/1.0"); ("ovh-ca", "https://ca.api.ovh.com/1.0");
     ("ovh-us", "https://api.us.ovhcloud.com/1.0"); ("kimsufi-eu", "https://eu.api.kimsufi.com/1.0");
     ("kimsufi-ca", "https://ca.api.kimsufi.com/1.0"); ("soyoustart-eu", "https://eu.api.soyoustart.com/1.0");
     ("soyoustart-ca", "https://ca.api.soyoustart.com/1.0")].

Record ovh := { ov_appKey : string; ov_appSecret : string; ov_consumerKey : string; ov_ttl : Z; ov_baseURL : string }.

Definition newOVH (appKey appSecret consumerKey endpoint : string) (ttl : Z) (baseURL : string) : result ovh :=
  base ← (if negb (String.eqb baseURL "") then Ok baseURL else
          of_option (errors_New "unknown ovh endpoint %q (want ovh-eu, ovh-ca, ovh-us, ...)")
            (ovhEndpoints (if String.eqb endpoint "" then "ovh-eu" else endpoint)));
  Ok {| ov_appKey := appKey; ov_appSecret := appSecret; ov_consumerKey := consumerKey; ov_ttl := ttl; ov_baseURL := base |}.

(** A request's body: [omitempty] leaves the zero values out. *)
Definition omitempty (k v : string) : json_object := if String.eqb v "" then [] else [(k, JStr v)].
Definition ovh_body (subDomain fieldType target : string) (ttl : Z) : json_object :=
  omitempty "subDomain" subDomain ++ omitempty "fieldType" fieldType ++ omitempty "target" target ++
  (if ttl =? 0 then [] else [("ttl", json_int ttl)]).

(** The clock, in seconds, over the state the service is in. *)
Class OvhEnv (S : Type) := ov_now : S -> Z.

Section ovh.
Context {S : Type} `{ZoneService S} `{OvhEnv S} `{UnicodeTables}.
Variables (o : ovh) (zone : string).

(** The digest is of the secrets, the request and its time. *)
Definition ovh_sign (method fullURL body : string) (ts : Z) : string :=
  "$1$" +:+ hex_EncodeToString (sha1_Sum (ov_appSecret o +:+ "+" +:+ ov_consumerKey o +:+ "+" +:+ method +:+ "+" +:+ fullURL +:+ "+" +:+
                         body +:+ "+" +:+ strconv_Itoa ts)).

(** The headers of a request, one to a line. *)
Definition newline : string := String (chr 10) "".
Definition ovh_headers (method fullURL body : string) (ts : Z) : string :=
  "X-Ovh-Application: " +:+ ov_appKey o +:+ newline +:+ "X-Ovh-Consumer: " +:+ ov_consumerKey o +:+ newline +:+
  "X-Ovh-Timestamp: " +:+ strconv_Itoa ts +:+ newline +:+ "X-Ovh-Signature: " +:+ ovh_sign method fullURL body ts.

Definition ovh_serverTime (srv : S) : result Z :=
  data ← doJSON (zs_get (ov_baseURL o +:+ "/auth/time") "" srv);
  of_option (errors_New "parse ovh server time %q: %w") (strconv_Atoi (strings_TrimSpace data)).

(** The cache is the delta between the clocks. *)
Definition ovh_timestamp (s : cached (option Z) S) : cached (option Z) S * result Z :=
  match c_id s with
  | Some delta => (s, Ok (i64 (ov_now (c_service s) - delta)))
  | None =>
      match ovh_serverTime (c_service s) with
      | Err e => (s, Err e)
      | Ok st =>
          let delta := i64 (ov_now (c_service s) - st) in
          (Build_cached (Some delta) (c_service s), Ok (i64 (ov_now (c_service s) - delta)))
      end
  end.

Definition ovh_url (path rawQuery : string) : string :=
  ov_baseURL o +:+ path +:+ (if String.eqb rawQuery "" then "" else "?" +:+ rawQuery).

(** [do] of a GET. *)
Definition ovh_get (path rawQuery : string) (s : cached (option Z) S) : cached (option Z) S * result string :=
  let fullURL := ovh_url path rawQuery in
  let '(s, ts) := ovh_timestamp s in
  (s, ts ← ts; doJSON (zs_get fullURL (ovh_headers "GET" fullURL "" ts) (c_service s))).

(** [do] of a change, which may have no body. *)
Definition ovh_send (method path : string) (body : option json_object) (s : cached (option Z) S) : cached (option Z) S * result unit :=
  let fullURL := ovh_url path "" in
  let '(s, ts) := ovh_timestamp s in
  match ts with
  | Err e => (s, Err e)
  | Ok ts =>
      let text := match body with Some b => json_Marshal (JObj b) | None => "" end in
      service_send (zs_send (ovh_headers method fullURL text ts) method fullURL (default [] body)) s
  end.

Definition ovh_recordsPath : string := "/domain/zone/" +:+ zone +:+ "/record".
Definition ovh_recordPath (recordID : string) : string := ovh_recordsPath +:+ "/" +:+ recordID.

(** The follow-up GET of each record. *)
Fixpoint ovh_records (name : string) (ids : list Z) (out : list TXTRecord) (s : cached (option Z) S)
  : cached (option Z) S * result (list TXTRecord) :=
  match ids with
  | [] => (s, Ok out)
  | id :: ids =>
      let '(s, data) := ovh_get (ovh_recordPath (strconv_Itoa id)) "" s in
      match data ← data; of_option (errors_New "decode ovh response: %w") (ov_Unmarshal_record data) with
      | Err e => (s, Err e)
      | Ok rec =>
          ovh_records name ids
            (if String.eqb (ovr_FieldType rec) "TXT" && strings_EqualFold (ovr_SubDomain rec) name
             then out ++ [{| txt_ID := strconv_Itoa (ovr_ID rec); txt_Value := ovr_Target rec |}] else out) s
      end
  end.

Definition ovh_listQuery (name : string) : string := url_Encode [("fieldType", ["TXT"]); ("subDomain", [name])].

Definition ovh_ListTXT (name : string) (s : cached (option Z) S) : cached (option Z) S * result (list TXTRecord) :=
  let '(s, data) := ovh_get ovh_recordsPath (ovh_listQuery name) s in
  match data ← data; of_option (errors_New "decode ovh response: %w") (ov_Unmarshal_ids data) with
  | Err e => (s, Err e)
  | Ok ids => ovh_records name ids [] s
  end.

Definition ovh_CreateTXT (name : string) (s : cached (option Z) S) (value : string) : cached (option Z) S * result unit :=
  ovh_send "POST" ovh_recordsPath (Some (ovh_body name "TXT" value (ov_ttl o))) s.

Definition ovh_UpdateTXT (s : cached (option Z) S) (recordID value : string) : cached (option Z) S * result unit :=
  ovh_send "PUT" (ovh_recordPath recordID) (Some (ovh_body "" "" value (ov_ttl o))) s.

Definition ovh_DeleteTXT (s : cached (option Z) S) (recordID : string) : cached (option Z) S * result unit :=
  ovh_send "DELETE" (ovh_recordPath recordID) None s.

Definition ovh_Flush (s : cached (option Z) S) : cached (option Z) S * result unit :=
  ovh_send "POST" ("/domain/zone/" +:+ zone +:+ "/refresh") None s.
End ovh.

(** *** What the service documents *)

Definition ovh_entry (r : ovhRecord) : entry :=
  {| e_id := strconv_Itoa (ovr_ID r); e_type := ovr_FieldType r; e_name := ovr_SubDomain r; e_value := ovr_Target r |}.

(** The zone's apex is the subdomain left out; an update alters the properties it
    carries. *)
Definition ovh_doc {S : Type} (o : ovh) : ApiDoc S := {|
  doc_create z m u b name value := m = "POST" /\ u = ovh_url o (ovh_recordsPath z) "" /\
    field "subDomain" b = (if String.eqb name "" then None else Some (JStr name)) /\
    field "fieldType" b = Some (JStr "TXT") /\ field "target" b = Some (JStr value);
  doc_update _ z m u b id value := m = "PUT" /\ u = ovh_url o (ovh_recordPath z id) "" /\
    field "target" b = Some (JStr value) /\ field "subDomain" b = None /\ field "fieldType" b = None;
  doc_delete z m u id := m = "DELETE" /\ u = ovh_url o (ovh_recordPath z id) "" |}.

Class OvhLaws (S : Type) `{ZoneService S} `{OvhEnv S} `{UnicodeTables} (o : ovh) (zone name : string) : Prop := {
  ov_zone_laws :: ZoneLaws S (ovh_doc o);
  ov_ids_hold s hd status data ids :
    zs_get (ovh_url o (ovh_recordsPath zone) (ovh_listQuery name)) hd s = Ok (status, data) -> 200 <= status < 300 ->
    ov_Unmarshal_ids data = Some ids ->
    exists L, strconv_Itoa <$> ids = e_id <$> L /\ (forall e, e ∈ L -> e ∈ zs_entries s zone) /\
      records_of name L ≡ₚ held_at name s zone;
  ov_record_holds s hd id status data rec e :
    zs_get (ovh_url o (ovh_recordPath zone id) "") hd s = Ok (status, data) -> 200 <= status < 300 ->
    ov_Unmarshal_record data = Some rec -> e ∈ zs_entries s zone -> e_id e = id -> ovh_entry rec = e;
  ov_refresh_keeps hd s s' w :
    zs_send hd "POST" (ovh_url o ("/domain/zone/" +:+ zone +:+ "/refresh") "") [] s = (s', w) ->
    zs_entries s' zone ≡ₚ zs_entries s zone }.

#[export] Instance ovh_api {S} `{ZoneService S} `{OvhEnv S} `{UnicodeTables} (o : ovh) (zone name : string) : TxtApi (cached (option Z) S) := {
  api_records s := held_at name (c_service s) zone;
  api_ListTXT := ovh_ListTXT o zone name;
  api_CreateTXT := ovh_CreateTXT o zone name;
  api_UpdateTXT := ovh_UpdateTXT o zone;
  api_DeleteTXT := ovh_DeleteTXT o zone;
  api_ReplaceTXT := None;
  api_Flush := Some (ovh_Flush o zone) }.

Section ovh_laws.
Context {S : Type} `{ZoneService S} `{OvhEnv S} `{UnicodeTables} `{!FoldLaws} (o : ovh) (zone name : string).
Context `{!OvhLaws S o zone name}.

Lemma timestamp_service (s s' : cached (option Z) S) r : ovh_timestamp o s = (s', r) -> c_service s' = c_service s.
Proof. unfold ovh_timestamp. destruct (c_id s); [by intros [= <- _]|]. by destruct (ovh_serverTime _ _); intros [= <- _]. Qed.

Lemma ovh_get_service path q (s s' : cached (option Z) S) r : ovh_get o path q s = (s', r) ->
  c_service s' = c_service s /\
  forall data, r = Ok data -> exists hd status, zs_get (ovh_url o path q) hd (c_service s) = Ok (status, data) /\ 200 <= status < 300.
Proof.
  unfold ovh_get. destruct (ovh_timestamp o s) as [s1 ts] eqn:Et. apply timestamp_service in Et. intros [= <- <-]. split; [done|].
  intros data (t & -> & (status & Hg & Hs)%doJSON_Ok)%bind_Ok. rewrite Et in Hg. by eexists _, _.
Qed.

(** A change: what the request does, whatever it is signed with. *)
Lemma ovh_send_effect method path body (s s' : cached (option Z) S) r (done_ undone : S -> Prop) :
  undone (c_service s) ->
  (forall hd srv w, zs_send hd method (ovh_url o path "") (default [] body) (c_service s) = (srv, w) -> send_outcome w (done_ srv) (undone srv)) ->
  ovh_send o method path body s = (s', r) -> effect_or_failure s' r (done_ (c_service s')) (undone (c_service s')).
Proof.
  intros Hu Hx. unfold ovh_send. destruct (ovh_timestamp o s) as [s1 ts] eqn:Et. apply timestamp_service in Et.
  destruct ts as [t|e]; [|intros [= <- <-]; right; by rewrite Et].
  unfold service_send. rewrite Et. destruct (zs_send _ _ _ _ _) as [srv w] eqn:Es. intros Hr.
  apply (sent_outcome _ _ _ _ (fun s' => done_ (c_service s')) (fun s' => undone (c_service s')) Hr). by eapply Hx.
Qed.

Lemma ovh_records_found ids : forall L out (s s' : cached (option Z) S) r,
  strconv_Itoa <$> ids = e_id <$> L -> (forall e, e ∈ L -> e ∈ zs_entries (c_service s) zone) ->
  ovh_records o zone name ids out s = (s', r) ->
  c_service s' = c_service s /\ forall rs, r = Ok rs -> rs = out ++ records_of name L.
Proof.
  induction ids as [|id ids IH]; intros L out s s' r Hi HL.
  { destruct L; [|done]. intros [= <- <-]. split; [done|]. intros rs [= <-]. by rewrite app_nil_r. }
  destruct L as [|e L]; [done|]. injection Hi as He Hi. cbn [ovh_records].
  destruct (ovh_get o _ "" s) as [s1 g] eqn:Eg. apply ovh_get_service in Eg as [E1 Eg].
  destruct (mbind _ g) as [rec|err] eqn:Em; [|by intros [= <- <-]].
  apply bind_Ok in Em as (data & -> & Hd%of_option_Ok). destruct (Eg _ eq_refl) as (hd & status & Hg & Hs).
  pose proof (ov_record_holds _ _ _ _ _ _ _ Hg Hs Hd (HL e (list_elem_of_here _ _)) (eq_sym He)) as Hr. intros Hrec.
  apply (IH L) in Hrec as [-> Hrs]; [|done|rewrite E1; intros; apply HL; by right]. split; [done|]. intros rs Hok. rewrite (Hrs _ Hok).
  change (e :: L) with ([e] ++ L). rewrite records_of_app, (assoc_L (++)). f_equal. rewrite <- Hr. unfold records_of. cbn. unfold at_name. cbn.
  destruct (_ && _); [done|]. by rewrite app_nil_r.
Qed.

Lemma omitempty_field k v : v <> "" -> omitempty k v = [(k, JStr v)].
Proof. unfold omitempty. by destruct (String.eqb_spec v ""). Qed.

#[export] Instance ovh_laws : @TxtApiLaws (cached (option Z) S) (ovh_api o zone name).
Proof.
  constructor; cbn [api_records api_ListTXT api_CreateTXT api_UpdateTXT api_DeleteTXT api_ReplaceTXT api_Flush ovh_api].
  - intros s. apply records_ids, (entry_ids (doc:=ovh_doc o)).
  - intros s s' r. unfold ovh_ListTXT. destruct (ovh_get _ _ _ s) as [s1 g] eqn:Eg. apply ovh_get_service in Eg as [E1 Eg].
    destruct (mbind _ g) as [ids|err] eqn:Em; [|intros [= <- <-]; by rewrite E1].
    apply bind_Ok in Em as (data & -> & Hd%of_option_Ok). destruct (Eg _ eq_refl) as (hd & status & Hg & Hs).
    destruct (ov_ids_hold _ _ _ _ _ Hg Hs Hd) as (L & Hi & HL & Hp). intros Hr.
    apply (ovh_records_found ids L) in Hr as [E2 Hr]; [|done|by rewrite E1]. rewrite E2, E1. split; [done|].
    intros rs Hok. by rewrite (Hr _ Hok), <- Hp.
  - intros s v s' r _ Hv. unfold ovh_CreateTXT.
    apply (ovh_send_effect _ _ _ _ _ _ (fun srv => exists id, held_at name srv zone ≡ₚ {| txt_ID := id; txt_Value := v |} :: held_at name (c_service s) zone)
      (fun srv => held_at name srv zone ≡ₚ held_at name (c_service s) zone)); [done|].
    intros hd srv w. apply (send_create (doc:=ovh_doc o)). unfold ovh_body. rewrite (omitempty_field "target" v) by done.
    repeat (split; [done|]). unfold omitempty. by destruct (String.eqb name ""), (ov_ttl o =? 0).
  - intros s rid v s' r _ Hv. unfold ovh_UpdateTXT.
    apply (ovh_send_effect _ _ _ _ _ _ (fun srv => held_at name srv zone ≡ₚ set_value rid v <$> held_at name (c_service s) zone)
      (fun srv => held_at name srv zone ≡ₚ held_at name (c_service s) zone)); [done|].
    intros hd srv w. apply (send_update (doc:=ovh_doc o)). unfold ovh_body. rewrite (omitempty_field "target" v) by done.
    repeat (split; [done|]). by destruct (ov_ttl o =? 0).
  - intros s rid s' r _. unfold ovh_DeleteTXT.
    apply (ovh_send_effect _ _ _ _ _ _ (fun srv => held_at name srv zone ≡ₚ List.filter _ (held_at name (c_service s) zone))
      (fun srv => held_at name srv zone ≡ₚ held_at name (c_service s) zone)); [done|].
    intros hd srv w. by apply (send_delete (doc:=ovh_doc o)).
  - done.
  - intros flush s s' r [= <-] Hf. unfold ovh_Flush in Hf.
    assert (He : effect_or_failure s' r (held_at name (c_service s') zone ≡ₚ held_at name (c_service s) zone)
      (held_at name (c_service s') zone ≡ₚ held_at name (c_service s) zone)).
    { revert Hf. apply (ovh_send_effect _ _ _ _ _ _ (fun srv => held_at name srv zone ≡ₚ held_at name (c_service s) zone)
        (fun srv => held_at name srv zone ≡ₚ held_at name (c_service s) zone)); [done|].
      intros hd srv w Hs%ov_refresh_keeps. left. by apply records_of_Permutation. }
    by destruct He as [He|[_ He]].
Qed.
End ovh_laws.

(** ** A Hetzner service held in memory *)

(** The parts of an entry are text. *)
Definition entry_utf8 (e : entry) : bool := forallb utf8_Valid [e_id e; e_type e; e_name e; e_value e].

(** One zone, its records with their ids apart, listed on up to two pages. *)
Record kept := { k_entries : list entry; k_ids : NoDup (e_id <$> k_entries); k_utf8 : forallb entry_utf8 k_entries = true }.

Definition keep (s : kept) (l : list entry) : kept * result (Z * string) :=
  match decide (NoDup (e_id <$> l)), decide (forallb entry_utf8 l = true) with
  | left H, left U => ({| k_entries := l; k_ids := H; k_utf8 := U |}, Ok (200, ""))
  | _, _ => (s, Ok (422, ""))
  end.

Definition two_pages (l : list entry) : list (list entry) :=
  match l with [] => [] | [e] => [[e]] | e :: l => [[e]; l] end.

Definition sample_hetzner : hetzner := newHetzner 0 "https://hetzner.test".

Definition to_record (e : entry) : hetznerRecord :=
  {| hzr_ID := e_id e; hzr_Type := e_type e; hzr_Name := e_name e; hzr_Value := e_value e; hzr_ZoneID := "z1" |}.

Definition toy_page (s : kept) (k : nat) : result (Z * string) :=
  Ok (200, hetzner_records (Z.of_nat k) (Z.of_nat (length (two_pages (k_entries s)))) (map to_record (nth k (two_pages (k_entries s)) []))).

Definition replace_entry (id type name value : string) (e : entry) : entry :=
  if String.eqb (e_id e) id then {| e_id := id; e_type := type; e_name := name; e_value := value |} else e.

Definition fresh_id (l : list entry) : string := foldr (fun e x => e_id e +:+ x) "i" l.

Definition toy_hetzner_get (url : string) (s : kept) : result (Z * string) :=
  if String.eqb url (hz_zonesURL sample_hetzner "example.com") then Ok (200, hetzner_zones [{| hzz_ID := "z1"; hzz_Name := "example.com" |}])
  else if String.eqb url (hz_listURL sample_hetzner "z1" 1) then toy_page s 0
  else if String.eqb url (hz_listURL sample_hetzner "z1" 2) then toy_page s 1
  else match strings_CutPrefix (hz_recordURL sample_hetzner "") url with
       | Some id => match List.find (fun e => String.eqb (e_id e) id) (k_entries s) with
                    | Some e => Ok (200, hetzner_record (to_record e))
                    | None => Ok (404, "")
                    end
       | None => Ok (404, "")
       end.

Definition toy_hetzner_send (method url : string) (body : json_object) (s : kept) : kept * result (Z * string) :=
  if String.eqb method "POST" then
    match field "zone_id" body, field "type" body, field "name" body, field "value" body with
    | Some (JStr z), Some (JStr t), Some (JStr n), Some (JStr v) =>
        if String.eqb url (hz_recordsURL sample_hetzner) && String.eqb z "z1"
        then keep s ({| e_id := fresh_id (k_entries s); e_type := t; e_name := n; e_value := v |} :: k_entries s)
        else (s, Ok (404, ""))
    | _, _, _, _ => (s, Ok (422, ""))
    end
  else match strings_CutPrefix (hz_recordURL sample_hetzner "") url with
       | None => (s, Ok (404, ""))
       | Some id =>
           if String.eqb method "PUT" then
             match field "type" body, field "name" body, field "value" body with
             | Some (JStr t), Some (JStr n), Some (JStr v) => keep s (replace_entry id t n v <$> k_entries s)
             | _, _, _ => (s, Ok (422, ""))
             end
           else keep s (drop_entry id (k_entries s))
       end.

#[export] Instance toy_hetzner : ZoneService kept := {
  zs_get url _ s := toy_hetzner_get url s;
  zs_send _ m u b s := toy_hetzner_send m u b s;
  zs_zone _ zone := if String.eqb zone "example.com" then Some "z1" else None;
  zs_entries s z := if String.eqb z "z1" then k_entries s else [];
  zs_pages s z _ := if String.eqb z "z1" then two_pages (k_entries s) else [] }.

#[export] Instance ascii_fold : @FoldLaws ascii_tables.
Proof.
  intros s. induction s as [|c s IH]; [done|]. cbn -[is_ascii]. destruct (is_ascii c); cbn [andb].
  - by rewrite Ascii.eqb_refl, IH.
  - apply (String.eqb_refl (String c s)).
Qed.

Lemma keep_outcome s l s' r : keep s l = (s', r) -> send_outcome r (k_entries s' = l) (k_entries s' = k_entries s).
Proof.
  unfold keep. destruct (decide _); [destruct (decide _)|]; intros [= <- <-]; [by left|right|right]; (split; [done|by apply not_accepted]).
Qed.

Lemma record_id id : strings_CutPrefix (hz_recordURL sample_hetzner "") (hz_recordURL sample_hetzner id) = Some id.
Proof. by apply CutPrefix_Some. Qed.

Lemma refused (s s' : kept) status r (d : Prop) z : (status <? 200) || (300 <=? status) = true -> (s, Ok (status, "")) = (s', r) ->
  send_outcome r d (zs_entries s' z ≡ₚ zs_entries s z).
Proof. intros Hs [= <- <-]. right. split; [done|]. by apply not_accepted. Qed.

#[export] Instance toy_hetzner_zone : ZoneLaws kept (hz_doc sample_hetzner).
Proof.
  constructor.
  - intros s z. cbn. destruct (String.eqb z "z1"); [apply k_ids|constructor].
  - done.
  - intros s z hd m u b name value s' r (-> & -> & Hz & Ht & Hn & Hv). cbn -[hz_recordsURL]. unfold toy_hetzner_send.
    rewrite Hz, Ht, Hn, Hv, !String.eqb_refl. cbn [andb]. destruct (String.eqb_spec z "z1") as [->|Hne].
    + intros Hk%keep_outcome. eapply send_outcome_mono; [| |exact Hk]; [|by intros ->]. intros ->. by eexists.
    + intros Hk. right. injection Hk as <- <-. split; [done|]. by apply not_accepted.
  - intros s z hd m u b id value s' r (-> & -> & Hv & He). cbn -[hz_recordURL]. unfold toy_hetzner_send.
    cbn -[hz_recordURL keep]. rewrite record_id, Hv. intros Hs.
    destruct (String.eqb_spec z "z1") as [->|Hne]; [|by left].
    destruct (field "type" b) as [[| | |t| |]|] eqn:Et; try by eapply (refused s s' 422 r _ "z1").
    destruct (field "name" b) as [[| | |n| |]|] eqn:En; try by eapply (refused s s' 422 r _ "z1").
    apply keep_outcome in Hs. eapply send_outcome_mono; [| |exact Hs]; [|by intros ->]. intros ->.
    apply Permutation_refl', list_fmap_ext. intros i e Hi%list_elem_of_lookup_2. unfold replace_entry, set_entry.
    destruct (String.eqb_spec (e_id e) id) as [Hid|]; [|done].
    destruct (He e Hi Hid) as (_ & [= ->] & [= ->]). done.
  - intros s z hd m u id s' r (-> & ->). cbn -[hz_recordURL]. unfold toy_hetzner_send.
    cbn -[hz_recordURL keep]. rewrite record_id. intros Hs%keep_outcome.
    destruct (String.eqb_spec z "z1") as [->|Hne]; [|by left].
    eapply send_outcome_mono; [| |exact Hs]; by intros ->.
Qed.

Lemma listURL_text z k : hz_listURL sample_hetzner z k =
  "https://hetzner.test/records?page=" +:+ url_QueryEscape (strconv_Itoa k) +:+ String "&" ("per_page=100&zone_id=" +:+ url_QueryEscape z).
Proof.
  unfold hz_listURL, url_Encode, url_encode_with. remember (url_QueryEscape (strconv_Itoa k)) as a eqn:Ea.
  match goal with |- context [sort_strings ?l] => let x := eval vm_compute in (sort_strings l) in change (sort_strings l) with x end.
  cbn -[url_QueryEscape String.append]. rewrite <- Ea. change (url_QueryEscape "page") with "page".
  rewrite <- !string_app_assoc. reflexivity.
Qed.

Lemma listURL_inj z k j : 1 <= k <= max_int64 -> 1 <= j <= 2 ->
  hz_listURL sample_hetzner z k = hz_listURL sample_hetzner "z1" j -> z = "z1" /\ k = j.
Proof.
  intros Hk Hj. rewrite !listURL_text. intros E%string_app_inj_l.
  assert (Hi := f_equal (strings_IndexByte "&") E). rewrite !IndexByte_app in Hi by apply QueryEscape_lacks_amp. injection Hi as Hl.
  assert (Ha : url_QueryEscape (strconv_Itoa k) = url_QueryEscape (strconv_Itoa j)).
  { apply (f_equal (string_take (String.length (url_QueryEscape (strconv_Itoa k))))) in E. rewrite string_take_app in E.
    by rewrite Hl, string_take_app in E. }
  rewrite Ha in E. apply string_app_inj_l in E. injection E as E. split.
  - by apply (QueryEscape_plain _ "z1").
  - apply Itoa_inj; [unfold min_int64, max_int64 in *; lia..|].
    assert (Hc : j = 1 \/ j = 2) by lia. destruct Hc as [-> | ->]; by apply QueryEscape_plain in Ha.
Qed.

Lemma two_pages_spec l : concat (two_pages l) = l /\ Forall (fun p => p <> []) (two_pages l) /\ (length (two_pages l) <= 2)%nat.
Proof. destruct l as [|e [|e' l]]; cbn; rewrite ?app_nil_r; repeat split; repeat constructor; done. Qed.

Lemma to_record_clean e : entry_utf8 e = true -> clean_hetznerRecord (to_record e) = to_record e.
Proof.
  unfold entry_utf8. cbn. rewrite !andb_true_iff. intros (H1 & H2 & H3 & H4 & _). unfold clean_hetznerRecord. cbn [to_record hzr_ID hzr_Type hzr_Name hzr_Value hzr_ZoneID].
  by rewrite !clean_valid.
Qed.

Lemma to_record_entry l : forallb entry_utf8 l = true -> map hz_entry (map clean_hetznerRecord (map to_record l)) = l.
Proof.
  induction l as [|e l IH]; [done|]. cbn [forallb map]. intros [He Hl]%andb_true_iff. rewrite to_record_clean, IH by done. by destruct e.
Qed.

Lemma page_utf8 l k : forallb entry_utf8 l = true -> forallb entry_utf8 (nth k (two_pages l) []) = true.
Proof.
  destruct l as [|e [|e' l]]; [by destruct k|by destruct k as [|[|k]]|]. cbn [forallb]. intros [He Hl]%andb_true_iff.
  destruct k as [|[|[|k]]]; [cbn [nth two_pages forallb]; by rewrite He|exact Hl|done|done].
Qed.

Lemma toy_page_holds `{UnicodeTables} (s : kept) (k : nat) status data last records : (k <= 1)%nat -> toy_page s k = Ok (status, data) ->
  hz_Unmarshal_records data = Some (last, records) ->
  map hz_entry records = nth k (two_pages (k_entries s)) [] /\ last = Z.of_nat (length (two_pages (k_entries s))).
Proof.
  unfold toy_page. intros Hk [= <- <-]. pose proof (two_pages_spec (k_entries s)) as (_ & _ & Hl).
  rewrite hetzner_records_read by (unfold int64, min_int64, max_int64; lia). intros [= <- <-].
  split; [|done]. apply to_record_entry, page_utf8, k_utf8.
Qed.

#[export] Instance toy_hetzner_laws : @HetznerLaws kept toy_hetzner ascii_tables sample_hetzner "example.com" "_tincan".
Proof.
  constructor; [apply _|constructor| | |]; cbn [zs_get zs_pages zs_entries zs_zone toy_hetzner]; unfold toy_hetzner_get.
  - intros s z. unfold held_at. cbn. destruct (String.eqb z "z1"); [|done]. by destruct (two_pages_spec (k_entries s)) as (-> & _).
  - intros s z. destruct (String.eqb z "z1"); [|constructor]. apply two_pages_spec.
  - intros s z. unfold max_int64. destruct (String.eqb z "z1"); [|cbn; lia]. pose proof (two_pages_spec (k_entries s)) as (_ & _ & ?). lia.
  - intros s status data zones z. rewrite String.eqb_refl. intros [= <- <-] _. rewrite hetzner_zones_read. intros [= <-].
    by intros [= <-]%(f_equal id).
  - intros s z k status data last records Hg Hk Hs Hd.
    rewrite (proj2 (String.eqb_neq _ _)) in Hg by (rewrite listURL_text; discriminate).
    destruct (String.eqb_spec (hz_listURL sample_hetzner z k) (hz_listURL sample_hetzner "z1" 1)) as [E|_].
    { apply listURL_inj in E as [-> ->]; [|done..]. destruct (toy_page_holds (H:=ascii_tables) s 0 _ _ _ _ (le_S _ _ (le_n 0)) Hg Hd) as [Hm ->]. done. }
    destruct (String.eqb_spec (hz_listURL sample_hetzner z k) (hz_listURL sample_hetzner "z1" 2)) as [E|_].
    { apply listURL_inj in E as [-> ->]; [|done..]. destruct (toy_page_holds (H:=ascii_tables) s 1 _ _ _ _ (le_n 1) Hg Hd) as [Hm ->]. done. }
    rewrite listURL_text in Hg. cbn in Hg. injection Hg as <- <-. lia.
  - intros s z id status data rec e Hg Hs Hd He Hid. destruct (String.eqb_spec z "z1") as [->|]; [|by apply elem_of_nil in He].
    rewrite !(proj2 (String.eqb_neq _ _)) in Hg by (rewrite ?listURL_text; discriminate). rewrite record_id in Hg.
    destruct (List.find _ (k_entries s)) as [e'|] eqn:Ef; [|injection Hg as <- <-; lia].
    injection Hg as <- <-. rewrite hetzner_record_read in Hd. injection Hd as <-. apply find_some in Ef as [Hin%list_elem_of_In Heq%String.eqb_eq].
    assert (e' = e) as -> by (apply (NoDup_fmap_inj e_id (k_entries s)); [apply k_ids|done..|congruence]). rewrite to_record_clean; [done|].
    pose proof (k_utf8 s) as Hu. rewrite forallb_forall in Hu. by apply Hu, list_elem_of_In.
Qed.

(** ** Publishing through records *)

(** C18: publishing through Hetzner keeps the foreign values at the name and reads
    back, whatever the service answers: with its zone id looked up once, its listing
    followed page by page and filtered by name, and its updates, which replace a
    whole record, carrying over the name, type and zone the record has. *)
Theorem hetzner_publishes {S : Type} `{ZoneService S} `{UnicodeTables} `{!FoldLaws}
    (h : hetzner) (zone name : string) `{!HetznerLaws S h zone name} :
  publishes (hz_api h zone name).
Proof. apply laws_publish, _. Qed.

Definition no_entries : kept := {| k_entries := []; k_ids := NoDup_nil_2; k_utf8 := eq_refl |}.

(** A zone with a record of another name, a foreign value at the name, and the
    chunks of a publish before. *)
Definition sample_kept : kept :=
  fst (keep no_entries
    [{| e_id := "1"; e_type := "A"; e_name := "@"; e_value := "192.0.2.1" |};
     {| e_id := "2"; e_type := "TXT"; e_name := "_Tincan"; e_value := "v=spf1 -all" |};
     {| e_id := "3"; e_type := "TXT"; e_name := "_tincan"; e_value := "tc1;0;1;eA" |}]).

Definition hetzner_sample_put :=
  @dns_Put _ (@hz_api _ _ ascii_tables sample_hetzner "example.com" "_tincan") true sample_blob (Build_cached "" sample_kept).

(** The old chunk is overwritten, the rest is created, nothing else changes. *)
Example hetzner_sample_kept : snd hetzner_sample_put = Ok tt /\
  (map (fun e => (e_id e, e_type e, e_name e)) (k_entries (c_service (fst hetzner_sample_put)))) =
  [("123i", "TXT", "_tincan"); ("1", "A", "@"); ("2", "TXT", "_Tincan"); ("3", "TXT", "_tincan")].
Proof. vm_compute. split; reflexivity. Qed.

Lemma hetzner_publishes_witness :
  dns_Get (Ok (@values_at _ (@hz_api _ _ ascii_tables sample_hetzner "example.com" "_tincan") (fst hetzner_sample_put))) = Ok sample_blob.
Proof.
  pose proof hetzner_sample_kept as [Hr _].
  exact (proj2 (@hetzner_publishes kept toy_hetzner ascii_tables ascii_fold sample_hetzner "example.com" "_tincan"
    toy_hetzner_laws _ _ _ _ (surjective_pairing _)) Hr _ (reflexivity _)).
Defined.
