(* ===== verification/Providers.v ===== *)
(** * Providers: the choice of a DNS provider

    [New] and [Supported] of internal/dnsprovider/provider.go over the clients of
    TxtRrset.v and TxtRecords.v. *)
From stdpp Require Import base tactics option list strings.
From Stdlib Require Import ZArith Lia.
From S2P Require Import Prelude GoStrings Config TxtRrset TxtRecords.
Open Scope Z_scope.

(** [Config], without the transport. *)
Record ProviderConfig := {
  pv_Name : string;
  pv_Token : string;
  pv_TTL : Z;
  pv_AppKey : string;
  pv_AppSecret : string;
  pv_ConsumerKey : string;
  pv_Endpoint : string;
  pv_AccessKey : string;
  pv_SecretKey : string;
  pv_BaseURL : string }.

Inductive Provider :=
  | PLinode (l : linode)
  | PDigitalOcean (d : digitalOcean)
  | PCloudflare (c : cloudflare)
  | PDeSEC (d : deSEC)
  | PHetzner (h : hetzner)
  | PRoute53 (p : route53)
  | POVH (o : ovh).

Definition constructors : list (string * (ProviderConfig -> result Provider)) :=
  [("linode", fun cfg => Ok (PLinode (newLinode (pv_TTL cfg) (pv_BaseURL cfg))));
   ("digitalocean", fun cfg => Ok (PDigitalOcean (newDigitalOcean (pv_TTL cfg) (pv_BaseURL cfg))));
   ("cloudflare", fun cfg => Ok (PCloudflare (newCloudflare (pv_TTL cfg) (pv_BaseURL cfg))));
   ("desec", fun cfg => Ok (PDeSEC (newDeSEC (pv_Token cfg) (pv_BaseURL cfg) (pv_TTL cfg))));
   ("hetzner", fun cfg => Ok (PHetzner (newHetzner (pv_TTL cfg) (pv_BaseURL cfg))));
   ("route53", fun cfg => Ok (PRoute53 (newRoute53 (pv_AccessKey cfg) (pv_SecretKey cfg) (pv_BaseURL cfg) (pv_TTL cfg))));
   ("ovh", fun cfg => POVH <$> newOVH (pv_AppKey cfg) (pv_AppSecret cfg) (pv_ConsumerKey cfg) (pv_Endpoint cfg) (pv_TTL cfg) (pv_BaseURL cfg))].

Definition New (cfg : ProviderConfig) : result Provider :=
  match List.find (fun kv => String.eqb (fst kv) (pv_Name cfg)) constructors with
  | Some (_, ctor) => ctor cfg
  | None => Err (errors_New "unsupported dns provider %q")
  end.

(** The names [Supported] accepts are those of the constructors. *)
Lemma Supported_constructors name : Supported name = existsb (fun kv => String.eqb (fst kv) name) constructors.
Proof. unfold Supported, constructors. cbn. rewrite ?orb_false_r. repeat rewrite (String.eqb_sym name). done. Qed.

(** A supported provider is constructed, but for an unknown endpoint of OVH. *)
Lemma New_Ok cfg : is_ok (New cfg) = true <-> Supported (pv_Name cfg) = true /\
  (pv_Name cfg = "ovh" -> pv_BaseURL cfg <> "" \/ is_Some (ovhEndpoints (if String.eqb (pv_Endpoint cfg) "" then "ovh-eu" else pv_Endpoint cfg))).
Proof.
  rewrite Supported_constructors. unfold New, constructors. cbn [List.find existsb fst].
  repeat (match goal with |- context [String.eqb ?a (pv_Name cfg)] => destruct (String.eqb_spec a (pv_Name cfg)) as [<-|?] end;
    [try (split; [intros _; by split|done])|]; cbn [orb]).
  - unfold newOVH. destruct (String.eqb_spec (pv_BaseURL cfg) "") as [E|E]; cbn [negb].
    + destruct (ovhEndpoints _) as [b|]; cbn; split; [by eauto|done|done|]. intros [_ Hx]. by destruct (Hx eq_refl) as [?|[? ?]].
    + cbn. split; [|done]. intros _. split; [done|]. intros _. by left.
  - split; [done|]. by intros [? _].
Qed.
