(* ===== verification/ProviderHttp.v ===== *)
(** * ProviderHttp: what a provider's request carries and what its failure says

    The transport half of internal/dnsprovider/http.go, the [do] methods of the
    providers that authenticate by a header, and the texts their failures are
    reported with.  Sending a request is an argument; the bodies of errors are read
    as ProviderJson.v and ProviderXml.v have them. *)
From stdpp Require Import base tactics option list strings.
From Stdlib Require Import Ascii ZArith Lia.
From S2P Require Import Prelude GoStrings GoNum GoXml ProviderJson ProviderXml Config Drop Http SigV4.
Open Scope Z_scope.

(** ** http.go *)

Definition apiResponseLimit : Z := 1048576.

(** The marshalled body, when the request has one. *)
Definition jsonBody (body : option (result string)) : result (option string) :=
  match body with
  | None => Ok None
  | Some m => b ← wrap_err (fun e => Errorf "marshal %s request: %w" [e]) m; Ok (Some b)
  end.

(** At most the limit is read; the rest of a longer answer is left. *)
Definition readResponseBody (body : result string) : result string :=
  data ← wrap_err (fun e => Errorf "read %s response: %w" [e]) body;
  Ok (io_ReadLimited data apiResponseLimit).

Record api_request := {
  aq_Method : string; aq_URL : string; aq_Header : list (string * string); aq_Body : option string }.
Notation Headers := (list (string * string)).

(** The request [doJSONRaw] builds. *)
Definition json_request (method reqURL : string) (body : option string) (configure : Headers -> Headers) : api_request :=
  {| aq_Method := method; aq_URL := reqURL; aq_Body := body;
     aq_Header := configure (match body with Some _ => header_set "Content-Type" "application/json" [] | None => [] end) |}.

Section transport.
(** [http.NewRequest]'s verdict on the URL, and [client.Do]. *)
Variables (new_request : string -> result unit) (send : api_request -> result (Z * result string)).

Definition doJSONRaw (method reqURL : string) (body : option (result string)) (configure : Headers -> Headers) : result (Z * string) :=
  body ← jsonBody body;
  _ ← wrap_err (fun e => Errorf "create %s request: %w" [e]) (new_request reqURL);
  '(status, answer) ← wrap_err (fun e => Errorf "%s API request: %w" [e]) (send (json_request method reqURL body configure));
  data ← readResponseBody answer;
  Ok (status, data).

(** *** The providers' [do] *)

Definition bearer (token : string) (h : Headers) : Headers := header_set "Authorization" ("Bearer " +:+ token) h.

Definition desec_do (token method reqURL : string) (body : option (result string)) : result (Z * string) :=
  doJSONRaw method reqURL body (header_set "Authorization" ("Token " +:+ token)).
Definition hetzner_do (token method reqURL : string) (body : option (result string)) : result string :=
  doJSON (doJSONRaw method reqURL body (header_set "Auth-API-Token" token)).
Definition cloudflare_do (token method reqURL : string) (body : option (result string)) : result string :=
  doJSON (doJSONRaw method reqURL body (bearer token)).
Definition digitalOcean_do (token method reqURL : string) (body : option (result string)) : result string :=
  doJSON (doJSONRaw method reqURL body (bearer token)).
Definition linode_do (token method url xfilter : string) (body : option (result string)) : result string :=
  doJSON (doJSONRaw method url body (fun h =>
    if nonempty xfilter then header_set "X-Filter" xfilter (bearer token h) else bearer token h)).
End transport.

(** ** What a failure says *)

(** The body itself, when nothing could be made of it. *)
Definition raw_reason (body : string) : string := if nonempty body then body else "(no body)".

Definition one_message (decoded : option string) (body : string) : string :=
  match decoded with Some m => if nonempty m then m else raw_reason body | None => raw_reason body end.

Section reasons.
Context `{UnicodeTables} `{XmlNames}.

Definition desecErrReason (body : string) : string := one_message (desec_detail body) body.
Definition doErrReason (body : string) : string := one_message (do_message body) body.
Definition ovhErrReason (body : string) : string := one_message (ovh_message body) body.

Definition hetznerErrReason (body : string) : string :=
  match hetzner_error body with
  | Some (m, code, top) =>
      if nonempty m && negb (code =? 0) then strconv_Itoa code +:+ ": " +:+ m
      else if nonempty m then m else if nonempty top then top else raw_reason body
  | None => raw_reason body
  end.

Definition cloudflareErrReason (body : string) : string :=
  match cloudflare_errors body with
  | Some ((_ :: _) as errs) =>
      strings_Join (map (fun e => if negb (fst e =? 0) then strconv_Itoa (fst e) +:+ ": " +:+ snd e else snd e) errs) "; "
  | _ => raw_reason body
  end.

Definition linodeErrReason (body : string) : string :=
  match linode_errors body with
  | Some ((_ :: _) as errs) =>
      strings_Join (map (fun e => if nonempty (fst e) then fst e +:+ ": " +:+ snd e else snd e) errs) "; "
  | _ => raw_reason body
  end.

Definition route53ErrReason (body : string) : string :=
  match route53_error body with
  | Some (code, message) =>
      if nonempty code && nonempty message then code +:+ ": " +:+ message
      else if nonempty message then message else if nonempty code then code else raw_reason body
  | None => raw_reason body
  end.
End reasons.

(** The text of the error [statusError] makes of a status it has no sentinel for. *)
Definition status_error_text (provider : string) (status : Z) (body : string) (reason : string -> string) : string :=
  provider +:+ " API status " +:+ strconv_Itoa status +:+ ": " +:+ reason body.

(** ** Requests and answers *)

(** The request of a provider: what was asked for, JSON said when there is a body. *)
Definition carries (rq : api_request) (method reqURL : string) (body : option (result string)) : Prop :=
  aq_Method rq = method /\ aq_URL rq = reqURL /\
  match body with
  | None => aq_Body rq = None
  | Some m => exists b, m = Ok b /\ aq_Body rq = Some b /\ header_get "Content-Type" (aq_Header rq) = "application/json"
  end.

Section answers.
Variables (new_request : string -> result unit) (send : api_request -> result (Z * result string)).

(** Header functions that leave the type of the body alone. *)
Definition keeps_type (configure : Headers -> Headers) : Prop :=
  forall h, header_get "Content-Type" (configure h) = header_get "Content-Type" h.

Lemma set_keeps_type k v : k <> "Content-Type" -> keeps_type (header_set k v).
Proof. intros Hk h. apply header_get_other. congruence. Qed.

Lemma doJSONRaw_Ok method reqURL body configure status data : keeps_type configure ->
  doJSONRaw new_request send method reqURL body configure = Ok (status, data) ->
  exists rq answer h, send rq = Ok (status, Ok answer) /\ carries rq method reqURL body /\ aq_Header rq = configure h /\
    data = io_ReadLimited answer apiResponseLimit /\ len data <= apiResponseLimit.
Proof.
  intros Hk. unfold doJSONRaw. intros (b & Hb & ([] & _ & ([st answer] & Hs%wrap_err_Ok & (x & Hx & [= <- <-])%bind_Ok)%bind_Ok)%bind_Ok)%bind_Ok.
  unfold readResponseBody in Hx. apply bind_Ok in Hx as (full & ->%wrap_err_Ok & [= <-]).
  eexists _, full, _. split; [exact Hs|]. split; [|split; [reflexivity|split; [done|]]].
  - split; [done|]. split; [done|]. unfold jsonBody in Hb. destruct body as [m|]; [|by injection Hb as <-].
    apply bind_Ok in Hb as (text & ->%wrap_err_Ok & [= <-]). exists text. split; [done|]. split; [done|].
    cbn [json_request aq_Header]. by rewrite Hk, header_get_set.
  - unfold apiResponseLimit. rewrite ReadLimited_length by lia. lia.
Qed.

(** A success of Linode's client: it sent what it was asked to, as the owner of the
    token and under the filter, and took at most a mebibyte of the answer. *)
Theorem linode_do_sends token method url xfilter body data :
  linode_do new_request send token method url xfilter body = Ok data ->
  exists rq status answer, send rq = Ok (status, Ok answer) /\ 200 <= status < 300 /\ carries rq method url body /\
    header_get "Authorization" (aq_Header rq) = "Bearer " +:+ token /\
    (xfilter <> "" -> header_get "X-Filter" (aq_Header rq) = xfilter) /\
    data = io_ReadLimited answer apiResponseLimit /\ len data <= apiResponseLimit.
Proof.
  unfold linode_do. intros (status & Hr & Hs)%doJSON_Ok. apply doJSONRaw_Ok in Hr as (rq & answer & h & Hsend & Hc & Hh & Hd & Hl).
  - exists rq, status, answer. split; [done|]. split; [done|]. split; [done|]. rewrite Hh. unfold nonempty.
    split; [|split; [|by split]].
    + destruct (String.eqb_spec xfilter ""); cbn [negb]; [|rewrite header_get_other by done]; apply header_get_set.
    + intros Hx. rewrite (proj2 (String.eqb_neq _ _) Hx). apply header_get_set.
  - intros h. destruct (nonempty xfilter); unfold bearer; by rewrite ?header_get_other.
Qed.
End answers.
