(* ===== verification/DropNostr.v ===== *)
(** * DropNostr: internal/drop/nostr.go and the dialogue of internal/nostr/relay.go

    The dead drop kept as a replaceable event on nostr relays: which event of
    those the relays return is taken, and what a publish leaves on them.  A relay
    is what its connection sends: a sequence of messages, ended by the error of
    the read that finds no more (a closed connection or the deadline). *)
From stdpp Require Import base tactics option list strings gmap.
From Stdlib Require Import Ascii ZArith Lia.
From S2P Require Import Prelude GoStrings GoNum GoBase64 Bech32 Keys Directory Wire Toy Nostr NostrWire Codec Drop.
Open Scope Z_scope.

(** ** The relay dialogue *)

Section relay.
Context `{UnicodeTables}.

(** The frames successive calls of [readMessage] return. *)
Definition readMessages (messages : list string) : list (string * list RawMessage) := omap readFrame messages.

(** [_ = json.Unmarshal(raw[i], &s)] leaves the zero value when it fails. *)
Definition raw_string (raw : list RawMessage) (i : nat) : string := default "" (raw !! i ≫= json_String).
Definition raw_bool (raw : list RawMessage) (i : nat) : bool := default false (raw !! i ≫= json_Bool).

Definition RelayError (reason : string) : error := 
  errors_New (if String.eqb reason "" then "relay rejected request" else "relay rejected request: " +:+ reason).

Fixpoint publish_loop (id : string) (frames : list (string * list RawMessage)) (closed : error) : result unit :=
  match frames with
  | [] => Err closed
  | (typ, raw) :: frames =>
      if negb (String.eqb typ "OK") || (Nat.ltb (length raw) 3) then publish_loop id frames closed
      else if negb (String.eqb (raw_string raw 1) id) then publish_loop id frames closed
      else if raw_bool raw 2 then Ok tt
      else Err (RelayError (raw_string raw 3))
  end.

Definition relay_Publish (write : string -> result unit) (messages : list string) (closed : error) (e : Event) : result unit :=
  msg ← json_EVENT e;
  _ ← wrap_err (fun e => Errorf "write EVENT to %s: %w" [e]) (write msg);
  publish_loop (ev_ID e) (readMessages messages) closed.

Fixpoint query_loop (events : list Event) (frames : list (string * list RawMessage)) (closed : error)
  : list Event * option error :=
  match frames with
  | [] => (events, Some closed)
  | (typ, raw) :: frames =>
      if String.eqb typ "EVENT" then
        if Nat.ltb (length raw) 3 then query_loop events frames closed
        else match raw !! 2%nat ≫= json_Event with
             | None => query_loop events frames closed
             | Some ev => query_loop (events ++ [ev]) frames closed
             end
      else if String.eqb typ "EOSE" then (events, None)
      else if String.eqb typ "CLOSED" then (events, Some (RelayError (raw_string raw 2)))
      else query_loop events frames closed
  end.

Definition relay_Query (write : string -> result unit) (messages : list string) (closed : error) (f : Filter)
  : list Event * option error :=
  match json_REQ "tc" f with
  | Err e => ([], Some e)
  | Ok req =>
      match write req with
      | Err e => ([], Some (Errorf "write REQ to %s: %w" [e]))
      | Ok _ => query_loop [] (readMessages messages) closed
      end
  end.
End relay.

(** ** The drop *)

Definition nostrKind : Z := 30078.
Definition nostrDefaultIdentifier : string := "_tincan".

(** [time.Time.Unix] of an instant. *)
Definition unix_epoch : Z := 62135596800.
Definition time_Unix (t : Time) : Z := t / Second - unix_epoch.

Section drop.
Context `{Secp} `{UnicodeTables} `{UrlLib}.

Record NostrDrop := {
  nd_relays : list string;
  nd_author : string;
  nd_identifier : string;
  nd_sk : option SecretKey;
  nd_name : string }.

Fixpoint normalize_loop (relays : list string) (out : list string) : result (list string) :=
  match relays with
  | [] => Ok out
  | r :: relays =>
      norm ← NormalizeRelayURL r;
      if existsb (String.eqb norm) out then normalize_loop relays out else normalize_loop relays (out ++ [norm])
  end.

Definition normalizeRelays (relays : list string) : result (list string) := normalize_loop relays [].

Definition NewNostr (relays : list string) (author nsec identifier : string) : result NostrDrop :=
  authorHex ← wrap_err (fun e => Errorf "nostr drop author: %w" [e]) (ParsePublicKey author);
  norm ← normalizeRelays relays;
  guard_err (Nat.eqb (length norm) 0) (errors_New "nostr drop requires at least one relay")
  (let identifier := if String.eqb identifier "" then nostrDefaultIdentifier else identifier in
   let n sk := {| nd_relays := norm; nd_author := authorHex; nd_identifier := identifier; nd_sk := sk;
                  nd_name := "nostr:" +:+ string_take 8 authorHex +:+ " (" +:+
                    strconv_Itoa (Z.of_nat (length norm)) +:+ " relays)" |} in
   if String.eqb nsec "" then Ok (n None) else
   sk ← wrap_err (fun e => Errorf "nostr drop nsec: %w" [e]) (ParseSecretKey nsec);
   guard_err (negb (String.eqb (PublicKeyHex sk) authorHex)) (errors_New "nostr drop nsec does not match author public key")
   (Ok (n (Some sk)))).

Definition validEvent (n : NostrDrop) (ev : Event) : bool :=
  String.eqb (ev_PubKey ev) (nd_author n) && (ev_Kind ev =? nostrKind) &&
  String.eqb (DTag ev) (nd_identifier n) && is_ok (Verify ev).

Definition nostr_filter (n : NostrDrop) : Filter :=
  {| f_Authors := [nd_author n]; f_Kinds := [nostrKind]; f_DTags := [nd_identifier n]; f_Limit := 1 |}.

(** What one relay answered: [queryRelay], which also fails when it cannot dial. *)
Record queryResult := { qr_events : list Event; qr_err : option error }.

Definition queryRelay (conn : result (list Event * option error)) : queryResult :=
  match conn with
  | Err e => {| qr_events := []; qr_err := Some e |}
  | Ok (events, err) => {| qr_events := events; qr_err := err |}
  end.

(** Newest wins; ties break on the lowest id. *)
Definition replaces (ev best : Event) : bool :=
  (ev_CreatedAt best <? ev_CreatedAt ev) ||
  ((ev_CreatedAt ev =? ev_CreatedAt best) && String.ltb (ev_ID ev) (ev_ID best)).

Definition take_event (n : NostrDrop) (best : option Event) (ev : Event) : option Event :=
  if negb (validEvent n ev) then best else
  match best with
  | None => Some ev
  | Some b => if replaces ev b then Some ev else best
  end.

(** The state of the loop over the results as they arrive. *)
Record Gathered := { g_best : option Event; g_clean : Z; g_errs : list error }.

Definition take_result (n : NostrDrop) (g : Gathered) (r : queryResult) : Gathered :=
  {| g_best := fold_left (take_event n) (qr_events r) (g_best g);
     g_clean := match qr_err r with None => g_clean g + 1 | Some _ => g_clean g end;
     g_errs := match qr_err r with None => g_errs g | Some e => g_errs g ++ [e] end |}.

Definition gather (n : NostrDrop) (results : list queryResult) : Gathered :=
  fold_left (take_result n) results {| g_best := None; g_clean := 0; g_errs := [] |}.

Definition nostr_Get (n : NostrDrop) (results : list queryResult) : result string :=
  let g := gather n results in
  match g_best g with
  | None =>
      guard_err ((g_clean g =? 0) && negb (Nat.eqb (length (g_errs g)) 0))
        (Errorf "nostr drop: all relays failed: %w" [Errorf "join" (g_errs g)])
      (Err drop_ErrNotFound)
  | Some best =>
      blob ← of_option (errors_New "nostr drop: decode event content: %w") (base64_Decode StdEncoding (ev_Content best));
      guard_err (MaxBlobSize <? len blob) (errors_New "nostr drop: directory blob is %d bytes (max %d)")
      (Ok blob)
  end.

Definition nostr_event (n : NostrDrop) (now : Time) (data : string) : Event :=
  {| ev_ID := ""; ev_PubKey := ""; ev_CreatedAt := time_Unix now; ev_Kind := nostrKind;
     ev_Tags := [["d"; nd_identifier n]]; ev_Content := base64_Encode StdEncoding data; ev_Sig := "" |}.

(** [publish relay e] is what [publishToRelay] gives; the errors are joined in the
    order of the relays here, in the order they arrive there. *)
Fixpoint publish_all (publish : string -> Event -> result unit) (relays : list string) (e : Event) : Z * list error :=
  match relays with
  | [] => (0, [])
  | r :: relays =>
      let '(accepted, errs) := publish_all publish relays e in
      match publish r e with
      | Ok _ => (accepted + 1, errs)
      | Err err => (accepted, Errorf "%s: %w" [err] :: errs)
      end
  end.

Definition nostr_Put (n : NostrDrop) (now : Time) (publish : string -> Event -> result unit) (data : string) : result unit :=
  match nd_sk n with
  | None => Err (Errorf "nostr drop has no nsec configured: %w" [drop_ErrReadOnly])
  | Some sk =>
      guard_err (MaxBlobSize <? len data) (errors_New "nostr drop: directory blob is %d bytes (max %d)")
      (ev ← wrap_err (fun e => Errorf "nostr drop: sign event: %w" [e]) (SignEvent (nostr_event n now data) sk);
       let '(accepted, errs) := publish_all publish (nd_relays n) ev in
       guard_err (accepted =? 0) (Errorf "nostr drop: no relay accepted the directory: %w" [Errorf "join" errs])
       (Ok tt))
  end.
End drop.

(** ** Which event is taken *)

Lemma String_compare_le s t : String.leb s t = negb (String.ltb t s).
Proof. unfold String.leb, String.ltb. rewrite (String.compare_antisym s t). by destruct (String.compare t s). Qed.

(** At least as new: the order the loop keeps the least of. *)
Definition newer (e f : Event) : Prop :=
  ev_CreatedAt f < ev_CreatedAt e \/ (ev_CreatedAt e = ev_CreatedAt f /\ String.le (ev_ID e) (ev_ID f)).

Lemma replaces_newer e f : if replaces f e then newer f e else newer e f.
Proof.
  unfold replaces, newer, String.le. rewrite !String_compare_le.
  destruct (Z.ltb_spec (ev_CreatedAt e) (ev_CreatedAt f)); [by left|].
  destruct (Z.eqb_spec (ev_CreatedAt f) (ev_CreatedAt e)) as [E|E]; cbn [orb andb]; [|left; lia].
  destruct (String.ltb (ev_ID f) (ev_ID e)) eqn:El; right; (split; [done|]).
  - apply Is_true_true, negb_true_iff. unfold String.ltb in *. rewrite String.compare_antisym.
    by destruct (String.compare (ev_ID f) (ev_ID e)).
  - done.
Qed.

#[export] Instance newer_refl : Reflexive newer.
Proof. intros e. by right. Qed.

#[export] Instance newer_trans : Transitive newer.
Proof.
  intros e f g [H1|[H1 H1']] [H2|[H2 H2']]; [left; lia|left; lia|left; lia|]. right. split; [congruence|]. by etrans.
Qed.

Section newest.
Context `{Secp} `{UnicodeTables} `{UrlLib}.

(** The genuine directory events among what the relays returned. *)
Definition received (n : NostrDrop) (results : list queryResult) (e : Event) : Prop :=
  validEvent n e = true /\ exists r, r ∈ results /\ e ∈ qr_events r.

Definition newest (n : NostrDrop) (results : list queryResult) (e : Event) : Prop :=
  received n results e /\ forall f, received n results f -> newer e f.

Definition best_of (P : Event -> Prop) (best : option Event) : Prop :=
  match best with
  | None => forall e, ~ P e
  | Some b => P b /\ forall f, P f -> newer b f
  end.

Lemma take_event_best n P best ev : best_of P best ->
  best_of (fun e => P e \/ (e = ev /\ validEvent n ev = true)) (take_event n best ev).
Proof.
  intros Hb. unfold take_event. destruct (validEvent n ev) eqn:Ev; cbn [negb].
  - destruct best as [b|]; cbn in *.
    + destruct Hb as [Hb Hm]. pose proof (replaces_newer b ev) as Hn. destruct (replaces ev b); cbn.
      * split; [by right|]. intros f [Hf|[-> _]]; [|done]. etrans; [exact Hn|by apply Hm].
      * split; [by left|]. intros f [Hf|[-> _]]; [by apply Hm|done].
    + split; [by right|]. intros f [Hf|[-> _]]; [by apply Hb in Hf|done].
  - destruct best as [b|]; cbn in *; [split; [by left; apply Hb|]; intros f [Hf|[_ Hf]]; [by apply Hb|done]|naive_solver].
Qed.

Lemma best_of_proper P Q best : (forall e, P e <-> Q e) -> best_of P best -> best_of Q best.
Proof. destruct best; cbn; naive_solver. Qed.

Lemma take_events_best n evs : forall P best, best_of P best ->
  best_of (fun e => P e \/ (e ∈ evs /\ validEvent n e = true)) (fold_left (take_event n) evs best).
Proof.
  induction evs as [|ev evs IH]; intros P best Hb.
  - eapply best_of_proper; [|exact Hb]. intros e. split; [by left|]. by intros [?|[?%not_elem_of_nil _]].
  - cbn [fold_left]. eapply best_of_proper; [|apply (IH _ _ (take_event_best n P best ev Hb))].
    intros e. rewrite elem_of_cons. naive_solver.
Qed.

Lemma gather_loop n results : forall P g, best_of P (g_best g) ->
  best_of (fun e => P e \/ received n results e) (g_best (fold_left (take_result n) results g)).
Proof.
  induction results as [|r rs IH]; intros P g Hb.
  - eapply best_of_proper; [|exact Hb]. intros e. split; [by left|]. intros [?|[_ (r & Hr%not_elem_of_nil & _)]]; done.
  - cbn [fold_left]. eapply best_of_proper; [|apply IH, take_events_best, Hb]. intros e. unfold received.
    setoid_rewrite elem_of_cons. naive_solver.
Qed.

Lemma gather_best n results : best_of (received n results) (g_best (gather n results)).
Proof.
  eapply best_of_proper; [|apply (gather_loop n results (fun _ => False))]; [naive_solver|]. intros e [].
Qed.

Lemma gather_counts n results : forall g,
  let g' := fold_left (take_result n) results g in
  g_clean g' = g_clean g + Z.of_nat (length (List.filter (fun r => match qr_err r with None => true | _ => false end) results)) /\
  length (g_errs g') = (length (g_errs g) + length (List.filter (fun r => match qr_err r with None => false | _ => true end) results))%nat.
Proof.
  induction results as [|r rs IH]; intros g; cbn [fold_left List.filter]; [cbn; lia|].
  destruct (IH (take_result n g r)) as [Hc He]. cbv zeta. rewrite Hc, He. unfold take_result. cbn.
  destruct (qr_err r); cbn [g_clean g_errs length]; rewrite ?length_app; cbn [length]; lia.
Qed.

(** Whether any relay answered in full, when none had a directory event. *)
Definition slot_empty (results : list queryResult) : Prop := results = [] \/ exists r, r ∈ results /\ qr_err r = None.

Lemma filter_length_0 {A} (f : A -> bool) l : length (List.filter f l) = 0%nat <-> forall x, x ∈ l -> f x = false.
Proof.
  induction l as [|x l IH]; [split; [by intros _ x ?%not_elem_of_nil|done]|]. cbn [List.filter]. setoid_rewrite elem_of_cons.
  destruct (f x) eqn:E; cbn [length]; [|naive_solver]. split; [done|]. intros Hf. rewrite Hf in E by (by left). done.
Qed.

Lemma gather_clean n results :
  (g_clean (gather n results) =? 0) && negb (Nat.eqb (length (g_errs (gather n results))) 0) = false <-> slot_empty results.
Proof.
  unfold gather. destruct (gather_counts n results {| g_best := None; g_clean := 0; g_errs := [] |}) as [-> ->].
  cbn [g_clean g_errs length Nat.add]. rewrite andb_false_iff, negb_false_iff, Nat.eqb_eq, filter_length_0, Z.eqb_neq. unfold slot_empty.
  set (f := fun r => match qr_err r with None => true | _ => false end).
  split.
  - intros [Hz|Hz].
    + right. destruct (List.filter f results) as [|r rs] eqn:E; [cbn in Hz; lia|].
      assert (Hr : r ∈ List.filter f results) by (rewrite E; apply list_elem_of_here).
      apply list_elem_of_In, filter_In in Hr as [Hr Hf]. exists r. rewrite list_elem_of_In. unfold f in Hf. by destruct (qr_err r).
    + destruct results as [|r rs]; [by left|right]. exists r. split; [apply list_elem_of_here|].
      specialize (Hz r (list_elem_of_here _ _)). by destruct (qr_err r).
  - intros [->|(r & Hr & Hn)]; [right; by intros x ?%not_elem_of_nil|]. left.
    destruct (length (List.filter f results)) eqn:E; [|lia]. apply filter_length_0 with (x := r) in E; [|done].
    unfold f in E. by rewrite Hn in E.
Qed.

Lemma validEvent_true n ev : validEvent n ev = true <->
  ev_PubKey ev = nd_author n /\ ev_Kind ev = nostrKind /\ DTag ev = nd_identifier n /\ Verify ev = Ok tt.
Proof.
  unfold validEvent. rewrite !andb_true_iff, !String.eqb_eq, Z.eqb_eq, is_ok_Ok. split; [|naive_solver].
  intros [[[? ?] ?] [[] ?]]. done.
Qed.

(** What the chosen event gives. *)
Definition event_blob (e : Event) (data : string) : Prop :=
  base64_Decode StdEncoding (ev_Content e) = Some data /\ len data <= MaxBlobSize.

Lemma nostr_Get_best n results data :
  nostr_Get n results = Ok data <-> exists e, g_best (gather n results) = Some e /\ event_blob e data.
Proof.
  unfold nostr_Get, event_blob. destruct (g_best (gather n results)) as [b|].
  - rewrite bind_Ok. setoid_rewrite of_option_Ok. setoid_rewrite guard_err_Ok. setoid_rewrite Z.ltb_ge. naive_solver.
  - split; [by intros [_ ?]%guard_err_Ok|naive_solver].
Qed.

Lemma gather_newest n results e : g_best (gather n results) = Some e -> newest n results e.
Proof. intros E. pose proof (gather_best n results) as Hb. by rewrite E in Hb. Qed.

Lemma gather_none n results : g_best (gather n results) = None <-> forall e, ~ received n results e.
Proof.
  pose proof (gather_best n results) as Hb. destruct (g_best (gather n results)) as [b|]; [|naive_solver].
  split; [done|]. intros Hn. by destruct (Hn b (proj1 Hb)).
Qed.
End newest.

Section nostr_laws.
Context `{SecpLaws} `{UnicodeTables} `{UrlLib}.

(** Two newest events say the same: same time, same id, both verified. *)
Lemma newest_content n results e f :
  (forall a b, received n results a -> received n results b -> no_collision a b) ->
  (forall a, received n results a -> typed_event a) ->
  newest n results e -> newest n results f -> ev_Content e = ev_Content f.
Proof.
  intros Hnc Ht [He Hem] [Hf Hfm]. pose proof (Hem f Hf) as Hef. pose proof (Hfm e He) as Hfe.
  assert (Hid : ev_ID e = ev_ID f).
  { destruct Hef as [Hc|[Hc Hi]], Hfe as [Hd|[Hd Hj]]; try lia. by apply (anti_symm String.le). }
  destruct (Verify_binds e f) as (_ & _ & _ & _ & Hc); try done; try (by apply Ht); [by apply Hnc| |].
  - destruct He as [He _]. by apply validEvent_true in He as (_ & _ & _ & ?).
  - destruct Hf as [Hf _]. by apply validEvent_true in Hf as (_ & _ & _ & ?).
Qed.

Lemma nostr_Get_spec n results data :
  (forall a b, received n results a -> received n results b -> no_collision a b) ->
  (forall a, received n results a -> typed_event a) ->
  nostr_Get n results = Ok data <-> exists e, newest n results e /\ event_blob e data.
Proof.
  intros Hnc Ht. rewrite nostr_Get_best. split.
  - intros (e & Hb%gather_newest & He). by exists e.
  - intros (e & He & Hd). destruct (g_best (gather n results)) as [b|] eqn:Eb.
    + exists b. split; [done|]. apply gather_newest in Eb. unfold event_blob.
      by rewrite (newest_content n results b e).
    + destruct He as [He _]. by destruct (proj1 (gather_none n results) Eb e).
Qed.

Lemma nostr_Get_NotFound n results :
  nostr_Get n results = Err drop_ErrNotFound <-> (forall e, ~ received n results e) /\ slot_empty results.
Proof.
  rewrite <- gather_none, <- (gather_clean n results). unfold nostr_Get. destruct (g_best (gather n results)) as [b|].
  - split; [|by intros [? _]]. destruct (base64_Decode _ _); cbn; [|done]. by destruct (_ <? _).
  - destruct (_ && _); cbn; [by split; [|intros [_ ?]]|done].
Qed.

(** ** Publishing *)

Lemma publish_all_accepted publish relays e accepted errs :
  publish_all publish relays e = (accepted, errs) -> 0 <= accepted /\
  (accepted <> 0 -> exists r, r ∈ relays /\ publish r e = Ok tt).
Proof.
  revert accepted errs. induction relays as [|r relays IH]; intros accepted errs; [by intros [= <- <-]|]. cbn [publish_all].
  destruct (publish_all publish relays e) as [acc es]. destruct (IH _ _ eq_refl) as [Hp Hr].
  destruct (publish r e) as [[]|err] eqn:E; intros [= <- <-].
  - split; [lia|]. intros _. exists r. split; [apply list_elem_of_here|done].
  - split; [done|]. intros Ha. destruct (Hr Ha) as (q & Hq & He). exists q. split; [by apply list_elem_of_further|done].
Qed.

(** The key a drop holds is that of its author. *)
Lemma NewNostr_sk relays author nsec identifier n sk :
  NewNostr relays author nsec identifier = Ok n -> nd_sk n = Some sk -> nd_author n = PublicKeyHex sk.
Proof.
  unfold NewNostr. cbv zeta. intros (a & _ & (norm & _ & [_ Hx]%guard_err_Ok)%bind_Ok)%bind_Ok.
  destruct (String.eqb nsec ""); [injection Hx as <-; done|].
  apply bind_Ok in Hx as (k & _ & [Hk [= <-]]%guard_err_Ok). intros [= <-]. cbn.
  apply negb_false_iff, String.eqb_eq in Hk. done.
Qed.

(** The event of a successful publish, on some relay. *)
Lemma nostr_Put_event n now publish data :
  nostr_Put n now publish data = Ok tt ->
  exists sk e r, nd_sk n = Some sk /\ SignEvent (nostr_event n now data) sk = Ok e /\ len data <= MaxBlobSize /\
    r ∈ nd_relays n /\ publish r e = Ok tt.
Proof.
  unfold nostr_Put. destruct (nd_sk n) as [sk|]; [|done].
  intros [Hl (e & He%wrap_err_Ok & Hx)%bind_Ok]%guard_err_Ok. apply Z.ltb_ge in Hl.
  destruct (publish_all publish (nd_relays n) e) as [acc errs] eqn:E. apply guard_err_Ok in Hx as [Ha _].
  apply Z.eqb_neq in Ha. destruct (publish_all_accepted _ _ _ _ _ E) as [_ Hr]. destruct (Hr Ha) as (r & Hr1 & Hr2).
  by exists sk, e, r.
Qed.

Lemma published_event n now data sk e :
  SignEvent (nostr_event n now data) sk = Ok e -> nd_author n = PublicKeyHex sk -> len data <= MaxBlobSize ->
  validEvent n e = true /\ ev_CreatedAt e = time_Unix now /\ event_blob e data.
Proof.
  intros (Hv & Hp & Hc & Hk & Ht & Hct & _)%SignEvent_verifies Ha Hl. split; [|split; [done|split; [|done]]].
  - apply validEvent_true. rewrite Hp, Hk, Ha. split_and!; try done. unfold DTag. by rewrite Ht.
  - rewrite Hct. apply base64_Decode_Encode.
Qed.
End nostr_laws.

(** ** Properties *)

Section properties.
Context `{SecpLaws} `{UnicodeTables} `{UrlLib}.


(** A publish that succeeds has left an event on some relay that every later
    read which is shown it takes, unless there is another genuine event of that
    second or later, and the read gives the blob back. *)
Theorem nostr_Put_Get relays author nsec identifier n now publish data :
  NewNostr relays author nsec identifier = Ok n -> nostr_Put n now publish data = Ok tt ->
  exists e r, r ∈ nd_relays n /\ publish r e = Ok tt /\
    forall results, received n results e ->
      (forall f, received n results f -> f = e \/ ev_CreatedAt f < time_Unix now) ->
      nostr_Get n results = Ok data.
Proof.
  intros Hn (sk & e & r & Hsk & He & Hl & Hr & Hp)%nostr_Put_event.
  destruct (published_event n now data sk e He (NewNostr_sk _ _ _ _ _ _ Hn Hsk) Hl) as (_ & Hc & Hd).
  exists e, r. split; [done|]. split; [done|]. intros results Hrec Hold. apply nostr_Get_best.
  destruct (g_best (gather n results)) as [b|] eqn:Eb; [|by destruct (proj1 (gather_none n results) Eb e)].
  exists b. split; [done|]. apply gather_newest in Eb as [Hb Hm]. destruct (Hold b Hb) as [->|Hlt]; [done|].
  destruct (Hm e Hrec) as [Hx|[Hx _]]; lia.
Qed.
End properties.

(** ** Samples *)

(** URLs that are a bare host. *)
Definition host_urls : UrlLib := {|
  url_Parse s := Some {| url_Scheme := "wss"; url_User := None; url_Host := s; url_Path := ""; url_RawQuery := "" |};
  url_Hostname := url_Host; url_String := url_Host |}.

Section samples.
#[local] Existing Instances toy_secp toy_secp_laws ascii_tables host_urls.

Definition sample_key : string := PublicKeyHex toy_sk.

Definition sample_drop : NostrDrop :=
  {| nd_relays := ["relay.example"; "other.example"]; nd_author := sample_key; nd_identifier := "_tincan";
     nd_sk := Some toy_sk; nd_name := "nostr:6b6b6b6b (2 relays)" |}.

Lemma sample_drop_Ok :
  NewNostr ["relay.example"; "RELAY.example"; "other.example"] sample_key sample_key "" = Ok sample_drop.
Proof. vm_compute. reflexivity. Qed.

(** A relay that keeps genuine events only, the other one down. *)
Definition sample_publish (relay : string) (e : Event) : result unit :=
  guard_err (negb (String.eqb relay "relay.example" && validEvent sample_drop e)) (RelayError "blocked: ") (Ok tt).

Definition sample_now : Time := 63902563200 * Second.

Lemma sample_publish_Ok : nostr_Put sample_drop sample_now sample_publish "hello" = Ok tt.
Proof. vm_compute. reflexivity. Qed.

Definition down : queryResult := {| qr_events := []; qr_err := Some (Sentinel "closed") |}.

Lemma nostr_Put_Get_witness :
  exists e, nostr_Get sample_drop [down; {| qr_events := [e]; qr_err := None |}] = Ok "hello".
Proof.
  destruct (nostr_Put_Get _ _ _ _ _ _ _ _ sample_drop_Ok sample_publish_Ok) as (e & r & _ & Hp & Hg). exists e.
  apply guard_err_Ok in Hp as [Hv _]. apply negb_false_iff, andb_true_iff in Hv as [_ Hv]. apply Hg.
  - split; [done|]. exists {| qr_events := [e]; qr_err := None |}. by split; [right; left|left].
  - intros f [_ (q & Hq & Hf)]. left. apply list_elem_of_In in Hq. cbn in Hq. destruct Hq as [<-|[<-|[]]].
    + by apply not_elem_of_nil in Hf.
    + by apply list_elem_of_singleton in Hf.
Defined.

Definition older : Event := signed 5 (base64_Encode StdEncoding "old").
Definition latest : Event := signed 7 (base64_Encode StdEncoding "new").
(** A relay's own event under the author's name. *)
Definition forged : Event :=
  {| ev_ID := ev_ID latest; ev_PubKey := ev_PubKey latest; ev_CreatedAt := 9; ev_Kind := 30078;
     ev_Tags := ev_Tags latest; ev_Content := ev_Content older; ev_Sig := ev_Sig latest |}.

Definition sample_results : list queryResult :=
  [{| qr_events := [latest; forged]; qr_err := None |}; down; {| qr_events := [older]; qr_err := None |}].

Lemma sample_received e : received sample_drop sample_results e -> e = older \/ e = latest.
Proof.
  intros [Hv (q & Hq & He)]. apply list_elem_of_In in Hq, He. unfold sample_results, down in Hq. cbn [In] in Hq.
  assert (Hf : validEvent sample_drop forged = false) by (vm_compute; reflexivity).
  destruct Hq as [<-|[<-|[<-|[]]]]; cbn [qr_events In] in He.
  - destruct He as [E|[E|[]]]; [by right|exfalso]. rewrite <- E, Hf in Hv. discriminate Hv.
  - destruct He.
  - destruct He as [<-|[]]. by left.
Qed.

End samples.
