(* ===== verification/NostrRelays.v ===== *)
(** * NostrRelays: a nostr drop and the relays it talks to

    The connections of internal/nostr/relay.go and the fan-out of
    internal/drop/nostr.go over them.  A relay is another program: the class
    [Relays] is a network of them with what they hold, and [RelaysLaws] is what
    NIP-01 asks of one that keeps to it; nothing is asked of the others.  A
    connection is what its writes answer and the messages that arrive after one,
    with the error of the read that finds no more. *)
From stdpp Require Import base tactics option list strings gmap relations.
From Stdlib Require Import Ascii ZArith Lia.
From S2P Require Import Prelude GoStrings GoNum GoBase64 GoUtf8 GoJson JsonBind Bech32 Keys Directory Wire Toy Nostr NostrWire Codec Drop DropNostr.
Open Scope Z_scope.

(** ** relay.go *)

Record Conn := { cn_write : string -> result unit; cn_reads : string -> list string * error }.

Definition maxRelayMessage : Z := Z.shiftl 16 20.

(** The websocket package: a connection whose messages are limited hands over what
    comes before the first that is too long. *)
Class WebSocket := { ws_SetReadLimit : Z -> Conn -> Conn }.
Class WebSocketLaws `{WebSocket} : Prop := {
  limit_writes n c : cn_write (ws_SetReadLimit n c) = cn_write c;
  limit_prefix n c msg : exists rest, (cn_reads c msg).1 = (cn_reads (ws_SetReadLimit n c) msg).1 ++ rest }.

(** [dialed] is what [websocket.Dial] gives. *)
Definition DefaultDialer `{WebSocket} (dialed : result Conn) : result Conn :=
  c ← wrap_err (fun e => Errorf "dial relay %s: %w" [e]) dialed;
  Ok (ws_SetReadLimit maxRelayMessage c).

Section connection.
Context `{UnicodeTables} `{WebSocketLaws}.

(** What arrives after a request was written, and how reading ends. *)
Definition answers (c : Conn) (req : result string) : list string * error :=
  match req with
  | Ok msg => let '(messages, e) := cn_reads c msg in (messages, Errorf "read from %s: %w" [e])
  | Err e => ([], e)
  end.

Definition conn_Publish (c : Conn) (e : Event) : result unit :=
  let '(messages, closed) := answers c (json_EVENT e) in relay_Publish (cn_write c) messages closed e.

Definition conn_Query (c : Conn) (f : Filter) : list Event * option error :=
  let '(messages, closed) := answers c (json_REQ "tc" f) in relay_Query (cn_write c) messages closed f.

(** ** nostr.go *)

Definition nostrRelayTimeout : Duration := 30 * Second.

(** The deadline of one round trip: the caller's, or one of its own. *)
Definition relayContext (deadline : option Time) (now : Time) : Time :=
  match deadline with Some t => t | None => time_Add now nostrRelayTimeout end.

Definition publishToRelay (dialed : result Conn) (e : Event) : result unit :=
  conn ← DefaultDialer dialed;
  conn_Publish conn e.

Definition query_relay (dialed : result Conn) (f : Filter) : queryResult :=
  queryRelay (conn ← DefaultDialer dialed; Ok (conn_Query conn f)).

(** ** The dialogues *)

(** The frames before the end of what the relay has stored, if it came to it. *)
Fixpoint before_EOSE (frames : list (string * list RawMessage)) : option (list (string * list RawMessage)) :=
  match frames with
  | [] => None
  | (typ, raw) :: frames =>
      if String.eqb typ "EOSE" then Some []
      else if String.eqb typ "CLOSED" then None
      else rest ← before_EOSE frames; Some ((typ, raw) :: rest)
  end.

(** The relay said yes to the event. *)
Definition accepting (e : Event) (frames : list (string * list RawMessage)) : Prop :=
  exists raw, ("OK", raw) ∈ frames /\ (3 <= length raw)%nat /\ raw_string raw 1 = ev_ID e /\ raw_bool raw 2 = true.

(** An event among the frames. *)
Definition delivers (g : Event) (frames : list (string * list RawMessage)) : Prop :=
  exists raw, ("EVENT", raw) ∈ frames /\ (3 <= length raw)%nat /\ raw !! 2%nat ≫= json_Event = Some g.

Lemma publish_loop_Ok e closed frames : publish_loop (ev_ID e) frames closed = Ok tt -> accepting e frames.
Proof.
  unfold accepting. induction frames as [|[typ raw] frames IH]; [done|]. cbn [publish_loop]. setoid_rewrite elem_of_cons.
  destruct (_ || _) eqn:E1; [naive_solver|]. destruct (negb (String.eqb (raw_string raw 1) _)) eqn:E2; [naive_solver|].
  destruct (raw_bool raw 2) eqn:E3; intros E; [|discriminate E]. bool_solve. subst. exists raw. split_and!; try done; [by left|].
  by apply Nat.ltb_ge.
Qed.

Lemma query_loop_end closed frames : forall events evs, query_loop events frames closed = (evs, None) ->
  exists sent, before_EOSE frames = Some sent /\ (forall g, g ∈ events -> g ∈ evs) /\ forall g, delivers g sent -> g ∈ evs.
Proof.
  induction frames as [|[typ raw] frames IH]; intros events evs; [done|]. cbn [query_loop before_EOSE].
  destruct (String.eqb_spec typ "EVENT") as [->|He].
  - change (String.eqb "EVENT" "EOSE") with false. change (String.eqb "EVENT" "CLOSED") with false. cbn match.
    assert (Hstep : forall events', query_loop events' frames closed = (evs, None) -> (forall g, g ∈ events -> g ∈ events') ->
      (forall g, (3 <= length raw)%nat -> raw !! 2%nat ≫= json_Event = Some g -> g ∈ events') ->
      exists sent, (rest ← before_EOSE frames; Some (("EVENT", raw) :: rest)) = Some sent /\
        (forall g, g ∈ events -> g ∈ evs) /\ forall g, delivers g sent -> g ∈ evs).
    { intros events' (sent & Hs & Hk & Hd)%IH Hsub Hnew. exists (("EVENT", raw) :: sent). rewrite Hs. split_and!; [done|naive_solver|].
      intros g (raw' & [[= ->]|Hin]%elem_of_cons & Hl & Hg); [by apply Hk, Hnew|]. apply Hd. by exists raw'. }
    destruct (Nat.ltb_spec (length raw) 3) as [Hl|Hl]; [intros Hq; eapply Hstep; [done|done|lia]|].
    destruct (raw !! 2%nat ≫= json_Event) as [ev|] eqn:Ev; intros Hq; (eapply Hstep; [exact Hq| |]); try done.
    + intros g Hg. apply elem_of_app. by left.
    + intros g _ [= <-]. apply elem_of_app. right. by apply list_elem_of_singleton.
  - destruct (String.eqb_spec typ "EOSE") as [->|Ho].
    + intros [= <-]. exists []. split_and!; [done|done|]. intros g (? & ?%not_elem_of_nil & _). done.
    + destruct (String.eqb typ "CLOSED"); [done|]. intros (sent & Hs & Hk & Hd)%IH. rewrite Hs. eexists. split_and!; [done|done|].
      intros g (raw' & [E|Hin]%elem_of_cons & Hl & Hg); [congruence|]. apply Hd. by exists raw'.
Qed.

(** ** The limit leaves a prefix *)

Lemma before_EOSE_app fs gs sent : before_EOSE fs = Some sent -> before_EOSE (fs ++ gs) = Some sent.
Proof.
  revert sent. induction fs as [|[typ raw] fs IH]; intros sent; [done|]. cbn [before_EOSE app].
  destruct (String.eqb typ "EOSE"); [done|]. destruct (String.eqb typ "CLOSED"); [done|].
  destruct (before_EOSE fs) as [s|]; [|done]. by rewrite (IH s eq_refl).
Qed.

Lemma readMessages_limited n c msg : exists rest,
  readMessages (cn_reads c msg).1 = readMessages (cn_reads (ws_SetReadLimit n c) msg).1 ++ rest.
Proof. destruct (limit_prefix n c msg) as [rest ->]. exists (readMessages rest). apply omap_app. Qed.

(** A publish that succeeds was said yes to; a query that ends well got all that
    was sent before the end. *)
Lemma publishToRelay_Ok dialed e : publishToRelay dialed e = Ok tt ->
  exists c msg, dialed = Ok c /\ json_EVENT e = Ok msg /\ cn_write c msg = Ok tt /\ accepting e (readMessages (cn_reads c msg).1).
Proof.
  unfold publishToRelay, DefaultDialer. intros (c' & (c & ->%wrap_err_Ok & [= <-])%bind_Ok & Hp)%bind_Ok.
  unfold conn_Publish, answers in Hp. destruct (json_EVENT e) as [msg|e'] eqn:Em; [|unfold relay_Publish in Hp; by rewrite Em in Hp].
  destruct (readMessages_limited maxRelayMessage c msg) as [rest Hr].
  destruct (cn_reads (ws_SetReadLimit maxRelayMessage c) msg) as [ms cl]. unfold relay_Publish in Hp. rewrite Em, limit_writes in Hp.
  apply bind_Ok in Hp as (msg' & [= <-] & (u & Hw%wrap_err_Ok & Hl)%bind_Ok). destruct u.
  exists c, msg. split_and!; try done. apply publish_loop_Ok in Hl as (raw & Hin & Hraw).
  rewrite Hr. exists raw. split; [|done]. apply elem_of_app. by left.
Qed.

Lemma query_relay_clean dialed f : qr_err (query_relay dialed f) = None ->
  exists c msg sent, dialed = Ok c /\ json_REQ "tc" f = Ok msg /\ cn_write c msg = Ok tt /\
    before_EOSE (readMessages (cn_reads c msg).1) = Some sent /\ forall g, delivers g sent -> g ∈ qr_events (query_relay dialed f).
Proof.
  unfold query_relay, DefaultDialer. destruct dialed as [c|e]; [|done]. cbn. unfold conn_Query, answers.
  destruct (json_REQ "tc" f) as [msg|e] eqn:Em; [|unfold relay_Query; by rewrite Em].
  destruct (readMessages_limited maxRelayMessage c msg) as [rest Hr].
  destruct (cn_reads (ws_SetReadLimit maxRelayMessage c) msg) as [ms cl]. unfold relay_Query. rewrite Em, limit_writes.
  destruct (cn_write c msg) as [[]|e] eqn:Ew; [|done].
  destruct (query_loop _ _ _) as [evs [err|]] eqn:Eq; [done|]. intros _. apply query_loop_end in Eq as (sent & Hs & _ & Hd).
  exists c, msg, sent. split_and!; try done. rewrite Hr. by apply before_EOSE_app.
Qed.
End connection.

(** ** Relays *)

Definition matches (f : Filter) (e : Event) : Prop :=
  ev_PubKey e ∈ f_Authors f /\ ev_Kind e ∈ f_Kinds f /\ DTag e ∈ f_DTags f.

(** Two versions of one replaceable event. *)
Definition same_slot (e g : Event) : Prop :=
  ev_PubKey e = ev_PubKey g /\ ev_Kind e = ev_Kind g /\ DTag e = DTag g.

(** A network of relays: what dialing one gives, the network once a message was
    written to one, and what one has stored. *)
Class Relays (Net : Type) := {
  net_dial : Net -> string -> result Conn;
  net_after : Net -> string -> string -> Net;
  net_stored : Net -> string -> list Event;
  net_honest : string -> Prop }.

(** The relay has the event, or a later version of it. *)
Definition covers `{Relays Net} (s : Net) (r : string) (e : Event) : Prop :=
  exists g, g ∈ net_stored s r /\ same_slot e g /\ newer g e.

(** NIP-01 of an honest relay: it stores what it was sent and said yes to and what
    verifies, keeps it until a later version replaces it, and a query that ends is
    led by the newest of what matches. *)
Class RelaysLaws (Net : Type) `{UnicodeTables} `{Secp} `{!Relays Net} : Prop := {
  apart (s : Net) r r' msg : r <> r' ->
    net_dial (net_after s r msg) r' = net_dial s r' /\ net_stored (net_after s r msg) r' = net_stored s r';
  accepted_covered (s : Net) r c e msg : net_honest r -> net_dial s r = Ok c -> sent_event msg = Some e -> cn_write c msg = Ok tt ->
    accepting e (readMessages (cn_reads c msg).1) -> covers (net_after s r msg) r e;
  stored_covered (s : Net) r msg e : net_honest r -> e ∈ net_stored s r -> covers (net_after s r msg) r e;
  stored_verified (s : Net) r e : net_honest r -> e ∈ net_stored s r -> Verify e = Ok tt;
  newest_sent (s : Net) r c sub f msg sent e : net_honest r -> net_dial s r = Ok c -> json_REQ sub f = Ok msg -> wire_filter f ->
    cn_write c msg = Ok tt -> before_EOSE (readMessages (cn_reads c msg).1) = Some sent ->
    1 <= f_Limit f -> e ∈ net_stored s r -> matches f e ->
    exists g, g ∈ net_stored s r /\ matches f g /\ newer g e /\ delivers g sent }.

(** A message written to a relay, by whomever. *)
Definition net_step `{Relays Net} (s s' : Net) : Prop := exists r msg, s' = net_after s r msg.

(** ** The drop on a network *)

Section network.
Context {Net : Type} `{UnicodeTables} `{WebSocketLaws} `{SecpLaws} `{UrlLib} `{!Relays Net}.

(** The event [Put] makes before it talks to a relay. *)
Definition put_event (n : NostrDrop) (now : Time) (data : string) : option Event :=
  match nd_sk n with
  | Some sk => if MaxBlobSize <? len data then None else
      match SignEvent (nostr_event n now data) sk with Ok e => Some e | Err _ => None end
  | None => None
  end.

Definition accepts (s : Net) (r : string) (e : Event) : Prop := publishToRelay (net_dial s r) e = Ok tt.

Definition send (e : Event) (s : Net) (r : string) : Net :=
  match net_dial s r, json_EVENT e with
  | Ok c, Ok msg => if is_ok (cn_write c msg) then net_after s r msg else s
  | _, _ => s
  end.

(** The relays are different ones, and each gets one connection: the order among
    them does not matter. *)
Definition net_Put (n : NostrDrop) (now : Time) (s : Net) (data : string) : Net * result unit :=
  (match put_event n now data with Some e => fold_left (send e) (nd_relays n) s | None => s end,
   nostr_Put n now (fun r e => publishToRelay (net_dial s r) e) data).

Definition net_query (n : NostrDrop) (s : Net) (r : string) : queryResult := query_relay (net_dial s r) (nostr_filter n).
Definition net_results (n : NostrDrop) (s : Net) : list queryResult := net_query n s <$> nd_relays n.

(** ** What relays keep *)

#[local] Instance same_slot_trans : Transitive same_slot.
Proof. unfold same_slot. intros e f g. naive_solver congruence. Qed.

Context `{!RelaysLaws Net}.

Lemma covers_after s r r' msg e : net_honest r -> covers s r e -> covers (net_after s r' msg) r e.
Proof.
  intros Hh (g & Hg & Hs & Hn). destruct (decide (r' = r)) as [->|Hne].
  - destruct (stored_covered s r msg g Hh Hg) as (h & Hh' & Hs' & Hn'). exists h. split; [done|]. split; by etrans.
  - exists g. by rewrite (proj2 (apart s r' r msg Hne)).
Qed.

Lemma covers_later s s' r e : net_honest r -> rtc net_step s s' -> covers s r e -> covers s' r e.
Proof. intros Hh. induction 1 as [|s s1 s' (r' & msg & ->) _ IH]; [done|]. intros Hc. by apply IH, covers_after. Qed.

Lemma send_step e s r : rtc net_step s (send e s r).
Proof.
  unfold send. destruct (net_dial s r), (json_EVENT e); try done. destruct (is_ok _); [|done]. apply rtc_once. by eexists _, _.
Qed.

Lemma sends_step e rs : forall s, rtc net_step s (fold_left (send e) rs s).
Proof. induction rs as [|r rs IH]; intros s; [done|]. cbn [fold_left]. etrans; [apply send_step|apply IH]. Qed.

Lemma send_apart e s r r' : r <> r' -> net_dial (send e s r) r' = net_dial s r'.
Proof.
  intros Hne. unfold send. destruct (net_dial s r) as [c|]; [|done]. destruct (json_EVENT e) as [msg|]; [|done].
  destruct (is_ok _); [|done]. by apply apart.
Qed.

Lemma send_covers e s r : event_ranges e -> event_utf8 e -> net_honest r -> accepts s r e -> covers (send e s r) r e.
Proof.
  intros Hr Hu Hh (c & msg & Hd & Hm & Hw & Ha)%publishToRelay_Ok. unfold send. rewrite Hd, Hm, Hw.
  eapply accepted_covered; try done. by apply sent_event_id.
Qed.

Lemma sends_cover e rs : event_ranges e -> event_utf8 e ->
  forall s r, NoDup rs -> r ∈ rs -> net_honest r -> accepts s r e -> covers (fold_left (send e) rs s) r e.
Proof.
  intros Hr Hu. induction rs as [|r0 rs IH]; intros s r; [by intros _ ?%not_elem_of_nil|]. intros [Hn Hd]%NoDup_cons Hin Hh Ha. cbn [fold_left].
  apply elem_of_cons in Hin as [->|Hin].
  - eapply covers_later; [done|apply sends_step|by apply send_covers].
  - apply IH; try done. unfold accepts. rewrite send_apart; [done|]. by intros ->.
Qed.
(** A query that ends well shows what the relay covers. *)
Lemma query_covered n s r e : wire_filter (nostr_filter n) -> net_honest r -> qr_err (net_query n s r) = None -> matches (nostr_filter n) e -> covers s r e ->
  exists g, g ∈ net_stored s r /\ matches (nostr_filter n) g /\ newer g e /\ g ∈ qr_events (net_query n s r).
Proof.
  intros Hf Hh (c & msg & sent & Hd & Hm & Hw & Hs & Hev)%query_relay_clean (Hp & Hk & Ht) (g & Hg & (Sp & Sk & St) & Hn).
  assert (Hmg : matches (nostr_filter n) g) by (unfold matches; by rewrite <- Sp, <- Sk, <- St).
  destruct (newest_sent s r c "tc" (nostr_filter n) msg sent g Hh Hd Hm Hf Hw Hs) as (h & Hh' & Hmh & Hnh & Hdh); [done|done|done|].
  exists h. split_and!; try done; [by etrans|by apply Hev].
Qed.

Lemma matches_filter n e : matches (nostr_filter n) e <->
  ev_PubKey e = nd_author n /\ ev_Kind e = nostrKind /\ DTag e = nd_identifier n.
Proof. unfold matches, nostr_filter. cbn. by rewrite !list_elem_of_singleton. Qed.

(** The relays of a drop are different ones. *)
Lemma normalize_loop_NoDup relays : forall out norm, normalize_loop relays out = Ok norm -> NoDup out -> NoDup norm.
Proof.
  induction relays as [|r relays IH]; intros out norm; cbn [normalize_loop]; [by intros [= <-]|].
  intros (x & _ & Hx)%bind_Ok Hd. destruct (existsb _ out) eqn:E; [by eapply IH|]. eapply IH; [done|].
  apply NoDup_app. split_and!; [done| |apply NoDup_singleton]. intros y Hy ->%list_elem_of_singleton.
  apply (existsb_In_eqb x) in Hy. congruence.
Qed.

Lemma NewNostr_relays relays author nsec identifier n : NewNostr relays author nsec identifier = Ok n -> NoDup (nd_relays n).
Proof.
  unfold NewNostr. cbv zeta. intros (a & _ & (norm & Hn & [_ Hx]%guard_err_Ok)%bind_Ok)%bind_Ok.
  apply normalize_loop_NoDup in Hn; [|apply NoDup_nil_2]. destruct (String.eqb nsec ""); [by injection Hx as <-|].
  by apply bind_Ok in Hx as (k & _ & [_ [= <-]]%guard_err_Ok).
Qed.

(** What a drop sends is text. *)
Lemma NewNostr_texts relays author nsec identifier n : NewNostr relays author nsec identifier = Ok n -> utf8_Valid identifier = true ->
  utf8_Valid (nd_author n) = true /\ utf8_Valid (nd_identifier n) = true.
Proof.
  unfold NewNostr. cbv zeta. intros (a & Ha%wrap_err_Ok & (norm & _ & [_ Hx]%guard_err_Ok)%bind_Ok)%bind_Ok Hi.
  assert (Hau : utf8_Valid a = true).
  { unfold ParsePublicKey in Ha. apply bind_Ok in Ha as (raw & _ & (pk & _ & [= <-])%bind_Ok). apply hex_utf8. }
  assert (Hid : utf8_Valid (if String.eqb identifier "" then nostrDefaultIdentifier else identifier) = true)
    by (clear Hx; destruct (String.eqb identifier ""); [reflexivity|exact Hi]).
  destruct (String.eqb nsec ""); [|apply bind_Ok in Hx as (k & _ & [_ Hx]%guard_err_Ok)]; injection Hx as <-; exact (conj Hau Hid).
Qed.

Lemma nostr_filter_wire n : utf8_Valid (nd_author n) = true -> utf8_Valid (nd_identifier n) = true -> wire_filter (nostr_filter n).
Proof. intros Ha Hi. split; [by repeat constructor|]. split; [constructor; [done|constructor]|done]. Qed.

Lemma put_event_wire n now data e : put_event n now data = Some e -> int64 (time_Unix now) -> utf8_Valid (nd_identifier n) = true ->
  event_ranges e /\ event_utf8 e.
Proof.
  unfold put_event. destruct (nd_sk n) as [sk|]; [|done]. destruct (_ <? _); [done|]. destruct (SignEvent _ _) as [e'|] eqn:Es; [|done].
  intros [= ->] Ht Hi. unfold SignEvent in Es. apply bind_Ok in Es as (sig & _ & [= <-]). split; [by split|].
  repeat constructor; cbn; try apply hex_utf8; [|done]. apply ascii_valid.
  eapply string_forallb_mono; [|apply base64_Encode_plain]. intros c. by destruct c as [[] [] [] [] [] [] [] []].
Qed.

(** A publish fails when no relay accepts. *)
Lemma publish_all_count publish rs e :
  (publish_all publish rs e).1 = 0 <-> forall r, r ∈ rs -> publish r e <> Ok tt.
Proof.
  destruct (publish_all publish rs e) as [acc errs] eqn:E. cbn. destruct (publish_all_accepted _ _ _ _ _ E) as [Hp Hr].
  split; [|intros Hn; destruct (decide (acc = 0)) as [|Hz]; [done|]; destruct (Hr Hz) as (r & Hr1 & Hr2); by destruct (Hn r Hr1)].
  clear Hr. intros ->. revert errs E. induction rs as [|r rs IH]; intros errs; [by intros _ r ?%not_elem_of_nil|]. cbn [publish_all].
  destruct (publish_all publish rs e) as [acc es] eqn:Ea. destruct (publish r e) as [[]|err] eqn:Er; intros [= Hz <-].
  - apply publish_all_accepted in Ea as [? _]. lia.
  - subst acc. intros q [->|Hq]%elem_of_cons; [congruence|]. by apply (IH es eq_refl).
Qed.

Lemma net_Put_Ok n now s data e : put_event n now data = Some e ->
  (net_Put n now s data).2 = Ok tt <-> exists r, r ∈ nd_relays n /\ accepts s r e.
Proof.
  unfold put_event, net_Put, nostr_Put. cbn. destruct (nd_sk n) as [sk|]; [|done]. destruct (_ <? _) eqn:El; [done|].
  destruct (SignEvent _ sk) as [e'|]; [|done]. intros [= ->]. cbn.
  destruct (publish_all _ (nd_relays n) e) as [acc errs] eqn:E. destruct (publish_all_accepted _ _ _ _ _ E) as [Hp Hr].
  pose proof (publish_all_count (fun r e => publishToRelay (net_dial s r) e) (nd_relays n) e) as Hc. rewrite E in Hc. cbn in Hc.
  destruct (Z.eqb_spec acc 0) as [Hz|Hz]; cbn; [|naive_solver]. split; [done|]. intros (r & Hr1 & Hr2). by destruct (proj1 Hc Hz r Hr1).
Qed.
(** ** Publishing and reading *)

(** Everything genuine that a read is shown, or that the relay holds. *)
Definition genuine_at (n : NostrDrop) (s : Net) (r : string) (f : Event) : Prop :=
  validEvent n f = true /\ (f ∈ net_stored s r \/ exists q, q ∈ nd_relays n /\ f ∈ qr_events (net_query n s q)).

Lemma read_after n s2 r e data results : wire_filter (nostr_filter n) ->
  r ∈ nd_relays n -> net_honest r -> covers s2 r e -> qr_err (net_query n s2 r) = None -> validEvent n e = true -> event_blob e data ->
  (forall f, genuine_at n s2 r f -> same_event f e \/ ev_CreatedAt f < ev_CreatedAt e) ->
  results ≡ₚ net_results n s2 -> nostr_Get n results = Ok data.
Proof.
  intros Hwf Hin Hh Hc Hq Hv Hd Hold Hp. apply validEvent_true in Hv as (Va & Vk & Vt & Vv).
  destruct (query_covered n s2 r e Hwf Hh Hq) as (g & Hg & Hm & Hn & Hev); [by apply matches_filter|done|].
  assert (Hgv : validEvent n g = true).
  { apply matches_filter in Hm as (? & ? & ?). apply validEvent_true. split_and!; try done. by eapply stored_verified. }
  assert (Hrec : forall f, received n results f -> genuine_at n s2 r f).
  { intros f [Hf (q & Hq1 & Hq2)]. split; [done|right]. rewrite Hp in Hq1. unfold net_results in Hq1.
    apply list_elem_of_fmap in Hq1 as (r' & -> & Hr'). by exists r'. }
  assert (Hgr : received n results g).
  { split; [done|]. exists (net_query n s2 r). split; [rewrite Hp; by apply list_elem_of_fmap_2|done]. }
  apply nostr_Get_best. destruct (g_best (gather n results)) as [b|] eqn:Eb; [|by destruct (proj1 (gather_none n results) Eb g)].
  exists b. split; [done|]. apply gather_newest in Eb as [Hb Hmin].
  assert (Hge : ev_CreatedAt e <= ev_CreatedAt g) by (destruct Hn as [?|[-> _]]; lia).
  assert (Hbg : ev_CreatedAt g <= ev_CreatedAt b) by (destruct (Hmin g Hgr) as [?|[-> _]]; lia).
  destruct (Hold b (Hrec b Hb)) as [(_ & _ & _ & _ & Hct)|Hlt]; [|lia]. unfold event_blob. by rewrite Hct.
Qed.
End network.

Section properties.
Context {Net : Type} `{UnicodeTables} `{WebSocketLaws} `{SecpLaws} `{UrlLib} `{!Relays Net} `{!RelaysLaws Net}.

End properties.

(** ** Samples *)

Section samples.
#[local] Existing Instances toy_secp toy_secp_laws ascii_tables host_urls.

(** What a relay keeps: a genuine event of texts. *)
Definition toy_good (e : Event) : bool :=
  is_ok (Verify e) && forallb utf8_Valid ([ev_ID e; ev_PubKey e; ev_Content e; ev_Sig e] ++ concat (ev_Tags e)) &&
  bool_decide (int64 (ev_CreatedAt e)) && bool_decide (int64 (ev_Kind e)).

Lemma toy_good_true e : toy_good e = true -> Verify e = Ok tt /\ event_utf8 e /\ event_ranges e.
Proof.
  unfold toy_good. rewrite !andb_true_iff, !bool_decide_eq_true, is_ok_Ok, forallb_forall. intros [[[([] & Hv) Hu] Hc] Hk].
  split; [done|]. split; [|done]. apply Forall_forall. intros s Hs%list_elem_of_In. by apply Hu.
Qed.

Definition toy_frame (vs : list json) : string := json_Marshal (JArr vs).

(** A connection that hands over what fits, and then fails. *)
Fixpoint under_limit (n : Z) (messages : list string) : list string :=
  match messages with
  | [] => []
  | m :: ms => if len m <=? n then m :: under_limit n ms else []
  end.
#[local] Instance toy_websocket : WebSocket := {|
  ws_SetReadLimit n c := {| cn_write := cn_write c; cn_reads msg := (under_limit n (cn_reads c msg).1, Sentinel "io.EOF") |} |}.
#[local] Instance toy_websocket_laws : WebSocketLaws.
Proof.
  split; [done|]. intros n c msg. cbn. induction (cn_reads c msg).1 as [|m ms [rest IH]]; [by exists []|]. cbn [under_limit].
  destruct (_ <=? _); [|by exists (m :: ms)]. exists rest. cbn [app]. by rewrite <- IH.
Qed.

(** A network of one relay that keeps to the protocol, one that says yes to
    everything, keeps nothing and shows forgeries, and nothing else. *)
Definition ToyNet : Type := list (string * Event).
Definition toy_stored (s : ToyNet) (r : string) : list Event :=
  List.filter toy_good (snd <$> List.filter (fun p => String.eqb (fst p) r) s).
Definition toy_event (e : Event) : string := toy_frame [JStr "EVENT"; JStr "tc"; JObj (event_members e)].
Definition toy_OK (e : Event) : string := toy_frame [JStr "OK"; JStr (ev_ID e); JBool true; JStr ""].

Definition toy_replies (s : ToyNet) (r msg : string) : list string :=
  match sent_event msg with
  | Some e => if toy_good e then [toy_frame [JStr "NOTICE"; JStr "wait"]; toy_OK e] else []
  | None => (toy_event <$> toy_stored s r) ++ [toy_frame [JStr "EOSE"; JStr "tc"]]
  end.
Definition liar_replies (msg : string) : list string :=
  match sent_event msg with
  | Some e => [toy_OK e]
  | None => [toy_event forged; toy_frame [JStr "EOSE"; JStr "tc"]]
  end.

#[local] Instance toy_relays : Relays ToyNet := {|
  net_dial s r :=
    if String.eqb r "relay.example" then Ok {| cn_write _ := Ok tt; cn_reads msg := (toy_replies s r msg, Sentinel "io.EOF") |}
    else if String.eqb r "other.example" then Ok {| cn_write _ := Ok tt; cn_reads msg := (liar_replies msg, Sentinel "io.EOF") |}
    else Err (errors_New "no such host");
  net_after s r msg := match sent_event msg with Some e => (r, e) :: s | None => s end;
  net_stored := toy_stored;
  net_honest r := r = "relay.example" |}.

Lemma toy_stored_good s r : Forall (fun e => toy_good e = true) (toy_stored s r).
Proof. apply Forall_forall. intros e He. apply list_elem_of_In, filter_In in He. apply He. Qed.

(** The frames of stored events. *)
Definition read_event (e : Event) : string * list RawMessage :=
  ("EVENT", map json_clean [JStr "EVENT"; JStr "tc"; JObj (event_members e)]).

Lemma toy_events_frames es : Forall (fun e => toy_good e = true) es ->
  before_EOSE (readMessages ((toy_event <$> es) ++ [toy_frame [JStr "EOSE"; JStr "tc"]])) = Some (read_event <$> es).
Proof.
  unfold readMessages. induction 1 as [|e es He _ IH]; [reflexivity|]. rewrite !fmap_cons. cbn [app omap list_omap].
  apply toy_good_true in He as (_ & Hu & Hr). unfold toy_event at 1, toy_frame at 1. rewrite readFrame_message.
  - change (clean "EVENT") with "EVENT". cbn [before_EOSE]. cbn match. setoid_rewrite IH. reflexivity.
  - constructor; [by apply good_string|]. constructor; [by apply event_good|constructor].
Qed.

Lemma toy_read_back e : toy_good e = true -> (read_event e).2 !! 2%nat ≫= json_Event = Some e.
Proof.
  intros (_ & Hu & Hr)%toy_good_true. cbn [read_event snd map lookup list_lookup mbind option_bind].
  rewrite json_Event_read by done. by rewrite clean_event_id.
Qed.

Lemma toy_relays_laws : RelaysLaws ToyNet.
Proof.
  split.
  - intros s r r' msg Hne. cbn [net_dial net_after net_stored toy_relays]. destruct (sent_event msg) as [e|]; [|by split].
    assert (Hs : toy_stored ((r, e) :: s) r' = toy_stored s r').
    { unfold toy_stored. cbn [List.filter fst]. by rewrite (proj2 (String.eqb_neq r r')). }
    split; [|exact Hs]. unfold toy_replies. destruct (String.eqb_spec r' "relay.example"); [by rewrite Hs|done].
  - intros s r c e msg Hh Hd Hm _ (raw & Hin & _). cbn in Hh. subst r. injection Hd as <-.
    cbn [cn_reads fst] in Hin. unfold covers. cbn [net_after net_stored toy_relays].
    unfold toy_replies in Hin. rewrite Hm in *. exists e. split; [|done].
    destruct (toy_good e) eqn:Eg; [|by apply not_elem_of_nil in Hin]. unfold toy_stored. cbn [List.filter fst]. rewrite String.eqb_refl.
    rewrite fmap_cons. cbn [List.filter snd]. rewrite Eg. apply list_elem_of_here.
  - intros s r msg e -> He. exists e. split; [|done]. cbn [net_after net_stored toy_relays] in *.
    destruct (sent_event msg) as [g|]; [|done]. unfold toy_stored in *. cbn [List.filter fst]. rewrite String.eqb_refl, fmap_cons.
    cbn [List.filter snd]. destruct (toy_good g); [by apply list_elem_of_further|done].
  - intros s r e _ He. cbn in He. pose proof (toy_stored_good s r) as Hf. rewrite Forall_forall in Hf. by apply Hf, toy_good_true in He as [? _].
  - intros s r c sub f msg sent e Hh Hd Hm Hf _ Hs _ He Hma. cbn in Hh. subst r. injection Hd as <-. cbn [cn_reads fst] in Hs. cbn in He.
    unfold toy_replies in Hs. rewrite (REQ_no_event sub f msg Hf Hm) in Hs. cbn match in Hs.
    rewrite (toy_events_frames _ (toy_stored_good s "relay.example")) in Hs. injection Hs as <-.
    exists e. split_and!; [exact He|exact Hma|done|]. exists (read_event e).2. split_and!; [|cbn; lia|].
    + apply list_elem_of_fmap. by exists e.
    + apply toy_read_back. pose proof (toy_stored_good s "relay.example") as Hg. rewrite Forall_forall in Hg. by apply Hg.
Qed.
(** The publish to both relays, and a late copy of an old event of the author's. *)
Definition toy_put : ToyNet * result unit := net_Put sample_drop sample_now ([] : ToyNet) "hello".
Definition toy_later : ToyNet := net_after (fst toy_put) "relay.example" (json_Marshal (event_message latest)).
Definition toy_shown : list Event :=
  net_stored toy_later "relay.example" ++ concat (qr_events <$> net_results sample_drop toy_later).

#[local] Instance same_event_dec e f : Decision (same_event e f).
Proof. unfold same_event. apply _. Defined.

Lemma shown_in (s : ToyNet) n q f : q ∈ nd_relays n -> f ∈ qr_events (net_query n s q) ->
  f ∈ concat (qr_events <$> net_results n s).
Proof.
  intros Hq Hf. apply list_elem_of_In, in_concat. exists (qr_events (net_query n s q)). split; apply list_elem_of_In; [|exact Hf].
  apply list_elem_of_fmap_2. unfold net_results. apply list_elem_of_fmap. by exists q.
Qed.

Lemma toy_shown_old e : put_event sample_drop sample_now "hello" = Some e ->
  forall f, genuine_at sample_drop toy_later "relay.example" f -> same_event f e \/ ev_CreatedAt f < time_Unix sample_now.
Proof.
  intros He f [Hv Hf]. assert (Hin : f ∈ toy_shown).
  { unfold toy_shown. apply elem_of_app. destruct Hf as [Hf|(q & Hq & Hf)]; [left; exact Hf|right].
    exact (shown_in toy_later sample_drop q f Hq Hf). }
  assert (Hc : forallb (fun f => negb (validEvent sample_drop f) ||
    match put_event sample_drop sample_now "hello" with
    | Some e => bool_decide (same_event f e) || (ev_CreatedAt f <? time_Unix sample_now)
    | None => false
    end) toy_shown = true) by (vm_compute; reflexivity).
  rewrite forallb_forall in Hc. apply list_elem_of_In in Hin. specialize (Hc f Hin). rewrite Hv, He in Hc. cbn [negb orb] in Hc.
  apply orb_true_iff in Hc as [Hc|Hc]; [left; by apply bool_decide_eq_true in Hc|right; by apply Z.ltb_lt].
Qed.

End samples.
