(* ===== verification/Drops.v ===== *)
(** * Drops: the choice of a dead drop

    [New] of internal/drop/drop.go with the constructors of the five drops and what
    [Stat] reports of each.  A configuration that was accepted opens: the exceptions
    are the endpoints two client libraries refuse, which the configuration does not
    check. *)
From stdpp Require Import base tactics option list strings.
From Stdlib Require Import Ascii ZArith Lia.
From S2P Require Import Prelude GoStrings GoNum GoNet GoBase64 GoCrypto Keys Directory Wire Toy Codec Nostr Schema Config Drop DropDns Http TxtRrset TxtRecords Providers DropNostr.
Open Scope Z_scope.

(** ** drop.go *)

Record Metadata := { md_Size : Z; md_UpdatedAt : Time; md_ETag : string }.

(** ** http.go *)

(** [u.Redacted()]: [url_User] is the userinfo as it is written, where only the
    separator of the password is a colon. *)
Definition redact_user (user : string) : string :=
  match strings_IndexByte ":" user with Some i => string_take i user +:+ ":xxxxx" | None => user end.
Definition url_Redacted `{UrlLib} (u : URL) : string :=
  url_String {| url_Scheme := url_Scheme u; url_User := redact_user <$> url_User u; url_Host := url_Host u;
                url_Path := url_Path u; url_RawQuery := url_RawQuery u |}.

Definition redactURL `{UrlLib} (raw : string) : string :=
  match url_Parse raw with None => raw | Some u => url_Redacted u end.

Record HTTPDrop := { hd_url : string; hd_name : string; hd_username : string; hd_password : string }.
Definition NewHTTP `{UrlLib} (rawURL username password : string) : HTTPDrop :=
  {| hd_url := rawURL; hd_name := "http:" +:+ redactURL rawURL; hd_username := username; hd_password := password |}.

(** [auth]: the credentials of a request, if it has any. *)
Definition http_auth (h : HTTPDrop) : option (string * string) :=
  if nonempty (hd_username h) || nonempty (hd_password h) then Some (hd_username h, hd_password h) else None.

(** [strings.Trim] of one byte. *)
Fixpoint trim_left_byte (c : ascii) (s : string) : string :=
  match s with
  | String d s' => if Ascii.eqb d c then trim_left_byte c s' else s
  | EmptyString => ""
  end.
Definition strings_Trim (c : ascii) (s : string) : string :=
  string_rev (trim_left_byte c (string_rev (trim_left_byte c s))).

(** The answer to a HEAD request; the last is what [http.ParseTime] reads in the
    header, when there is one. *)
Record HeadResponse := {
  hr_StatusCode : Z; hr_ETag : string; hr_ContentLength : string; hr_LastModified : string; hr_ParseTime : option Time }.

Definition http_Stat (request : result unit) (do : result HeadResponse) (now : Time) : result Metadata :=
  _ ← wrap_err (fun e => Errorf "create HTTP HEAD: %w" [e]) request;
  resp ← wrap_err (fun e => Errorf "HTTP HEAD: %w" [e]) do;
  _ ← httpStatusError (hr_StatusCode resp);
  Ok {| md_Size := default 0 (strconv_Atoi (hr_ContentLength resp));
        md_UpdatedAt := if nonempty (hr_LastModified resp) then default now (hr_ParseTime resp) else now;
        md_ETag := strings_Trim quote_mark (hr_ETag resp) |}.

(** ** file.go *)

Definition NewFile (path : string) : string := path.
Definition file_Stat (ctx : result unit) (stat : result (Z * Time)) : result Metadata :=
  _ ← ctx;
  match stat with
  | Err e => if errors_Is e "os.ErrNotExist" then Err drop_ErrNotFound else Err (Errorf "stat file drop: %w" [e])
  | Ok (size, mtime) => Ok {| md_Size := size; md_UpdatedAt := mtime; md_ETag := "" |}
  end.

(** ** s3.go *)

(** What the client is made for, and the drop; [minio] is [minio.New]. *)
Record S3Options := { s3o_Endpoint : string; s3o_AccessKey : string; s3o_SecretKey : string; s3o_Region : string; s3o_Secure : bool }.
Record S3Drop := { s3_client : S3Options; s3_bucket : string; s3_object : string; s3_name : string }.
Definition s3_options (cfg : DropBackend) : S3Options :=
  {| s3o_Endpoint := b_Endpoint cfg; s3o_AccessKey := b_AccessKey cfg; s3o_SecretKey := b_SecretKey cfg;
     s3o_Region := b_Region cfg; s3o_Secure := S3UseTLS cfg |}.
Definition NewS3 (minio : S3Options -> result unit) (cfg : DropBackend) : result S3Drop :=
  _ ← wrap_err (fun e => Errorf "create S3 client: %w" [e]) (minio (s3_options cfg));
  Ok {| s3_client := s3_options cfg; s3_bucket := b_Bucket cfg; s3_object := b_ObjectKey cfg;
        s3_name := "s3:" +:+ b_Bucket cfg +:+ "/" +:+ b_ObjectKey cfg |}.
Definition s3_Stat (stat : s3_result (Z * Time * string)) : result Metadata :=
  match stat with
  | inr e => Err (mapS3Err e)
  | inl (size, modified, etag) => Ok {| md_Size := size; md_UpdatedAt := modified; md_ETag := etag |}
  end.

(** ** dns.go *)

(** The metadata of what a drop of records or of events holds: a tag of its content. *)
Definition content_tag (blob : string) : string := hex_EncodeToString (string_take 8 (sha256_Sum256 blob)).
Definition stat_of_content (get : result string) : result Metadata :=
  blob ← get; Ok {| md_Size := len blob; md_UpdatedAt := zero_time; md_ETag := content_tag blob |}.
Definition dns_Stat (lookup : result (list string)) : result Metadata := stat_of_content (dns_Get lookup).

(** [dr_resolver] is the address the lookups go to. *)
Record DNSDrop := {
  dr_zone : string; dr_record : string; dr_fqdn : string; dr_provider : option Provider; dr_resolver : string }.

(** What the provider is made of. *)
Definition provider_config (cfg : DropBackend) : ProviderConfig := {|
  pv_Name := b_Provider cfg; pv_Token := b_APIToken cfg; pv_TTL := b_TTL cfg; pv_AppKey := b_AppKey cfg;
  pv_AppSecret := b_AppSecret cfg; pv_ConsumerKey := b_ConsumerKey cfg; pv_Endpoint := b_Endpoint cfg;
  pv_AccessKey := b_AccessKey cfg; pv_SecretKey := b_SecretKey cfg; pv_BaseURL := "" |}.

Section drops.
Context `{UnicodeTables} `{Secp} `{UrlLib}.

Definition NewDNS (cfg : DropBackend) : result DNSDrop :=
  let zone := strings_ToLower (b_Zone cfg) in
  let recordName := strings_ToLower (b_RecordName cfg) in
  let d provider := {| dr_zone := zone; dr_record := recordName; dr_fqdn := txtFQDN recordName zone; dr_provider := provider;
                       dr_resolver := b_Resolver cfg |} in
  if nonempty (b_Provider cfg) then p ← New (provider_config cfg); Ok (d (Some p)) else Ok (d None).

(** ** nostr.go *)

Definition nostr_Stat (n : NostrDrop) (results : list queryResult) : result Metadata := stat_of_content (nostr_Get n results).

(** ** The choice *)

Inductive AnyDrop :=
  | FileDrop (path : string)
  | HttpDrop (h : HTTPDrop)
  | ObjectDrop (s : S3Drop)
  | RecordDrop (d : DNSDrop)
  | RelayDrop (n : NostrDrop).

Definition drop_New (minio : S3Options -> result unit) (cfg : DropBackend) : result AnyDrop :=
  if String.eqb (b_Type cfg) "file" then Ok (FileDrop (NewFile (b_Path cfg)))
  else if String.eqb (b_Type cfg) "http" then Ok (HttpDrop (NewHTTP (b_URL cfg) (b_Username cfg) (b_Password cfg)))
  else if String.eqb (b_Type cfg) "s3" then ObjectDrop <$> NewS3 minio cfg
  else if String.eqb (b_Type cfg) "dns" then RecordDrop <$> NewDNS cfg
  else if String.eqb (b_Type cfg) "nostr" then RelayDrop <$> NewNostr (b_Relays cfg) (b_Author cfg) (b_Nsec cfg) (b_Identifier cfg)
  else Err (errors_New "unsupported drop type %q").

(** [Name] *)
Definition drop_Name (d : AnyDrop) : string :=
  match d with
  | FileDrop path => "file:" +:+ path
  | HttpDrop h => hd_name h
  | ObjectDrop s => s3_name s
  | RecordDrop d => "dns:" +:+ dr_fqdn d
  | RelayDrop n => nd_name n
  end.

(** A drop whose [Put] can only answer that it is read-only. *)
Definition read_only (d : AnyDrop) : bool :=
  match d with
  | FileDrop _ | ObjectDrop _ => false
  | HttpDrop _ => true
  | RecordDrop d => match dr_provider d with None => true | Some _ => false end
  | RelayDrop n => match nd_sk n with None => true | Some _ => false end
  end.

(** ** What is accepted opens *)

Lemma normalize_checked relays : forall out, check_relays relays = Ok tt ->
  exists out', normalize_loop relays out = Ok out' /\ (out <> [] \/ relays <> [] -> out' <> []).
Proof.
  induction relays as [|r relays IH]; intros out; cbn.
  { intros _. exists out. split; [done|]. by intros [?|?]. }
  intros (norm & -> & Hc)%bind_Ok. cbn. destruct (existsb _ out) eqn:Ex.
  - destruct (IH out Hc) as (out' & -> & Hne). exists out'. split; [done|]. intros _. apply Hne. left. by intros ->.
  - destruct (IH (out ++ [norm]) Hc) as (out' & -> & Hne). exists out'. split; [done|]. intros _. apply Hne. left. by destruct out.
Qed.

Lemma nostr_opens b : validate_nostr b = Ok tt ->
  exists n, NewNostr (b_Relays b) (b_Author b) (b_Nsec b) (b_Identifier b) = Ok n /\ (nd_sk n = None <-> b_Nsec b = "").
Proof.
  unfold validate_nostr. intros [Hr (u & Hc & [_ (author & Ha%wrap_err_Ok & Hs)%bind_Ok]%guard_err_Ok)%bind_Ok]%guard_err_Ok.
  destruct u. apply bind_Ok in Hs as ([] & Hs & _). apply Nat.eqb_neq in Hr.
  destruct (normalize_checked (b_Relays b) [] Hc) as (norm & Hn & Hne). assert (norm <> []) as Hne' by (apply Hne; right; by intros E; rewrite E in Hr). clear Hne.
  unfold NewNostr, normalizeRelays. rewrite Ha, Hn. cbn [wrap_err mbind result_bind]. unfold guard_err at 1.
  replace (Nat.eqb (length norm) 0) with false by (symmetry; apply Nat.eqb_neq; by destruct norm). cbv zeta.
  unfold nonempty in Hs. destruct (String.eqb_spec (b_Nsec b) "") as [E|E]; cbn [negb] in Hs.
  - eexists. split; [done|]. done.
  - apply bind_Ok in Hs as (sk & ->%wrap_err_Ok & [Hk _]%guard_err_Ok). cbn [wrap_err mbind result_bind]. unfold guard_err. rewrite Hk.
    eexists. split; [done|]. done.
Qed.

(** The endpoint of OVH's interface the configuration names. *)
Definition ovh_endpoint_known (b : DropBackend) : Prop :=
  is_Some (ovhEndpoints (if String.eqb (b_Endpoint b) "" then "ovh-eu" else b_Endpoint b)).

Lemma dns_opens b : dns_credentials b -> (b_Provider b = "ovh" -> ovh_endpoint_known b) ->
  exists d, NewDNS b = Ok d /\ (dr_provider d = None <-> b_Provider b = "").
Proof.
  intros (_ & Hs & _) Hovh. unfold NewDNS. cbv zeta. unfold nonempty. destruct (String.eqb_spec (b_Provider b) "") as [E|E]; cbn [negb].
  { eexists. by split. }
  assert (Hok : is_ok (New (provider_config b)) = true) by (apply New_Ok; split; [by apply Hs|intros Hp; right; by apply Hovh]).
  destruct (New (provider_config b)) as [p|e]; [|done]. eexists. split; [reflexivity|]. done.
Qed.

(** The publish credentials the configuration holds for the drop. *)
Definition publishes (b : DropBackend) : bool :=
  String.eqb (b_Type b) "file" || String.eqb (b_Type b) "s3" ||
  String.eqb (b_Type b) "dns" && nonempty (b_Provider b) || String.eqb (b_Type b) "nostr" && nonempty (b_Nsec b).

Definition drop_type (d : AnyDrop) : string :=
  match d with FileDrop _ => "file" | HttpDrop _ => "http" | ObjectDrop _ => "s3" | RecordDrop _ => "dns" | RelayDrop _ => "nostr" end.

(** Only the client of S3 and an unknown endpoint of OVH can refuse. *)
Definition refusable (minio : S3Options -> result unit) (b : DropBackend) : Prop :=
  (b_Type b = "s3" /\ is_ok (minio (s3_options b)) = false) \/
  (b_Type b = "dns" /\ b_Provider b = "ovh" /\ ~ ovh_endpoint_known b).

Lemma opens_or_refusable minio b : validateDropBackend b = Ok tt ->
  (exists d, drop_New minio b = Ok d /\ drop_type d = b_Type b /\ read_only d = negb (publishes b)) \/ refusable minio b.
Proof.
  intros Hv. unfold validateDropBackend in Hv. cbv zeta in Hv. apply guard_err_Ok in Hv as [_ Hv].
  unfold drop_New, publishes, refusable. destruct (String.eqb_spec (b_Type b) "file") as [E|_]; [left; eexists; by rewrite E|].
  destruct (String.eqb_spec (b_Type b) "http") as [E|_]; [left; eexists; by rewrite E|].
  destruct (String.eqb_spec (b_Type b) "s3") as [E|_].
  { rewrite E. unfold NewS3. destruct (minio (s3_options b)) as [[]|e]; cbn; [left; eexists; done|right; by left]. }
  destruct (String.eqb_spec (b_Type b) "dns") as [E|_].
  { rewrite E. unfold validate_dns in Hv. apply guard_err_Ok in Hv as [_ [_ Hd]%validate_dns_provider_Ok].
    destruct (decide (b_Provider b = "ovh" /\ ovhEndpoints (if String.eqb (b_Endpoint b) "" then "ovh-eu" else b_Endpoint b) = None)) as [[Hp He]|Hn].
    - right. right. split_and!; [done|done|]. unfold ovh_endpoint_known. rewrite He. by intros [? ?].
    - left. destruct (dns_opens b Hd) as (d & -> & Hpr).
      { intros Hp. unfold ovh_endpoint_known. destruct (ovhEndpoints _); [by eexists|]. by destruct Hn. }
      eexists. split; [done|]. split; [done|]. cbn. unfold nonempty. destruct (dr_provider d).
      + destruct (String.eqb_spec (b_Provider b) "") as [Ep|]; [by apply Hpr in Ep|done].
      + by rewrite (proj1 Hpr eq_refl). }
  destruct (String.eqb_spec (b_Type b) "nostr") as [E|_]; [|done].
  rewrite E. left. destruct (nostr_opens b Hv) as (n & -> & Hsk). eexists. split; [done|]. split; [done|]. cbn. unfold nonempty.
  destruct (nd_sk n).
  - destruct (String.eqb_spec (b_Nsec b) "") as [Ep|]; [by apply Hsk in Ep|done].
  - by rewrite (proj1 Hsk eq_refl).
Qed.

(** ** What a name shows *)

(** Two URLs that differ in the password of their userinfo at most. *)
Definition same_but_password (u u' : URL) : Prop :=
  url_Scheme u = url_Scheme u' /\ url_Host u = url_Host u' /\ url_Path u = url_Path u' /\ url_RawQuery u = url_RawQuery u' /\
  (url_User u = url_User u' \/ exists name p p', lacks ":" name = true /\
     url_User u = Some (name +:+ ":" +:+ p) /\ url_User u' = Some (name +:+ ":" +:+ p')).

(** Two backends that differ in their credentials at most. *)
Definition same_but_secrets (b b' : DropBackend) : Prop :=
  b_Type b = b_Type b' /\ b_Path b = b_Path b' /\ b_Bucket b = b_Bucket b' /\ b_ObjectKey b = b_ObjectKey b' /\
  b_Zone b = b_Zone b' /\ b_RecordName b = b_RecordName b' /\ b_Relays b = b_Relays b' /\ b_Author b = b_Author b' /\
  (b_URL b = b_URL b' \/ exists u u', url_Parse (b_URL b) = Some u /\ url_Parse (b_URL b') = Some u' /\ same_but_password u u').

Lemma redact_password name p : lacks ":" name = true -> redact_user (name +:+ ":" +:+ p) = name +:+ ":xxxxx".
Proof.
  intros Hl. unfold redact_user. assert (Hi : strings_IndexByte ":" (name +:+ ":" +:+ p) = Some (String.length name)) by exact (IndexByte_app ":" name p Hl).
  by rewrite Hi, string_take_app.
Qed.

Lemma redactURL_same raw raw' : (raw = raw' \/ exists u u', url_Parse raw = Some u /\ url_Parse raw' = Some u' /\ same_but_password u u') ->
  redactURL raw = redactURL raw'.
Proof.
  intros [->|(u & u' & Hu & Hu' & Es & Eh & Ep & Eq & Hn)]; [done|]. unfold redactURL, url_Redacted. rewrite Hu, Hu', Es, Eh, Ep, Eq.
  destruct Hn as [->|(name & p & p' & Hl & -> & ->)]; [done|]. cbn. by rewrite !redact_password.
Qed.

Lemma NewNostr_name relays author nsec identifier n : NewNostr relays author nsec identifier = Ok n ->
  exists hex norm, ParsePublicKey author = Ok hex /\ normalizeRelays relays = Ok norm /\
    nd_name n = "nostr:" +:+ string_take 8 hex +:+ " (" +:+ strconv_Itoa (Z.of_nat (length norm)) +:+ " relays)".
Proof.
  unfold NewNostr. intros (hex & Ha%wrap_err_Ok & (norm & Hn & [_ Hx]%guard_err_Ok)%bind_Ok)%bind_Ok. cbv zeta in Hx.
  exists hex, norm. split; [done|]. split; [done|]. destruct (String.eqb nsec "").
  - by injection Hx as <-.
  - apply bind_Ok in Hx as (sk & _ & [_ [= <-]]%guard_err_Ok). done.
Qed.

Lemma NewDNS_fqdn b d : NewDNS b = Ok d -> dr_fqdn d = txtFQDN (strings_ToLower (b_RecordName b)) (strings_ToLower (b_Zone b)).
Proof. unfold NewDNS. cbv zeta. destruct (nonempty _); [by intros (p & _ & [= <-])%bind_Ok|by intros [= <-]]. Qed.

Lemma fmap_Ok {A B} (f : A -> B) (m : result A) b : f <$> m = Ok b -> exists a, m = Ok a /\ b = f a.
Proof. destruct m as [a|e]; cbn; [|done]. intros [= <-]. by exists a. Qed.

Lemma names_same minio b b' d d' : drop_New minio b = Ok d -> drop_New minio b' = Ok d' -> same_but_secrets b b' ->
  drop_Name d = drop_Name d'.
Proof.
  intros Hd Hd' (Et & Ep & Eb & Eo & Ez & Er & El & Ea & Eu). revert Hd Hd'. unfold drop_New. rewrite <- Et.
  destruct (String.eqb (b_Type b) "file"); [intros [= <-] [= <-]; by rewrite Ep|].
  destruct (String.eqb (b_Type b) "http"); [intros [= <-] [= <-]; cbn; by rewrite (redactURL_same _ _ Eu)|].
  destruct (String.eqb (b_Type b) "s3").
  { intros (s & Hs & ->)%fmap_Ok (s' & Hs' & ->)%fmap_Ok. apply bind_Ok in Hs as (? & _ & [= <-]). apply bind_Ok in Hs' as (? & _ & [= <-]).
    cbn. by rewrite Eb, Eo. }
  destruct (String.eqb (b_Type b) "dns").
  { intros (s & Hs%NewDNS_fqdn & ->)%fmap_Ok (s' & Hs'%NewDNS_fqdn & ->)%fmap_Ok. cbn. by rewrite Hs, Hs', Ez, Er. }
  destruct (String.eqb (b_Type b) "nostr"); [|done].
  intros (n & (h & l & A1 & A2 & A3)%NewNostr_name & ->)%fmap_Ok (n' & (h' & l' & B1 & B2 & B3)%NewNostr_name & ->)%fmap_Ok.
  cbn. rewrite A3, B3. rewrite Ea, B1 in A1. rewrite El, B2 in A2. congruence.
Qed.

(** ** Read-only drops *)

Definition refused (r : result unit) : Prop := exists e, r = Err e /\ errors_Is e "drop.ErrReadOnly" = true.
(** What a publish to the drop can end in, whatever its service does. *)
Definition never_publishes (d : AnyDrop) : Prop :=
  match d with
  | FileDrop _ | ObjectDrop _ => False
  | HttpDrop _ => refused http_Put
  | RecordDrop d => forall S (api : DropDnsPut.TxtApi S) data (s : S),
      refused (snd (DropDnsPut.dns_Put (bool_decide (is_Some (dr_provider d))) data s))
  | RelayDrop n => forall now publish data, refused (nostr_Put n now publish data)
  end.

Lemma read_only_refuses d : read_only d = true -> never_publishes d.
Proof.
  destruct d as [p|h|s|d|n]; cbn; try done.
  - intros _. by eexists.
  - destruct (dr_provider d); [done|]. intros _ S api data s. cbn. eexists. split; [done|]. done.
  - unfold nostr_Put. destruct (nd_sk n); [done|]. intros _ now publish data. by eexists.
Qed.

End drops.

(** ** Samples *)

Section samples.
#[local] Existing Instances toy_crypto ascii_tables toy_secp no_urls.


(** A configuration with a mistyped endpoint loads, and its drop does not open. *)
Example ovh_endpoint_unchecked :
  let b := {| b_Type := "dns"; b_Endpoint := "ovh-uk"; b_Region := ""; b_Bucket := ""; b_ObjectKey := ""; b_AccessKey := "";
    b_SecretKey := ""; b_TLS := None; b_URL := ""; b_Username := ""; b_Password := ""; b_Path := ""; b_Provider := "ovh";
    b_Zone := "example.com"; b_RecordName := "_tincan"; b_APIToken := ""; b_AppKey := "k"; b_AppSecret := "s";
    b_ConsumerKey := "c"; b_TTL := 0; b_Resolver := ""; b_Relays := []; b_Author := ""; b_Nsec := ""; b_Identifier := "" |} in
  validateDropBackend b = Ok tt /\ is_ok (drop_New (fun _ => Ok tt) b) = false.
Proof. vm_compute. done. Qed.
End samples.

(** The user stays in the name of the drop; the password does not. *)
Example redacted : redact_user "alice:secret" = "alice:xxxxx" /\ redact_user "alice" = "alice".
Proof. vm_compute. done. Qed.
