(* ===== verification/Prog.v ===== *)
(** * Prog: commands as programs over the outside world

    The commands of internal/cli read and write a shared state directory, talk
    to the drop and use the clock and randomness.  A command is a program: a
    tree of effects with its continuation for every answer.  What an effect may
    answer and do is [answer]; it leaves open everything the program does not
    control: the drop answers anything, a write may stop halfway, an upload may
    fail after it was stored.  [exec] is a complete run of one program;
    [sys_step] interleaves any number of them on one state directory, each of
    which may die between any two effects. *)
From stdpp Require Import base tactics option list strings gmap.
From Stdlib Require Import Ascii ZArith Lia.
From S2P Require Import Prelude GoStrings GoNum GoBase64 Keys Directory DnsName Validate Wire Toy Codec Schema Relay Discovery Cache Bootstrap.
Open Scope Z_scope.

(** Where a bootstrap is written: the state directory's netboot.json or a path. *)
Inductive BootPath := DefaultPath | BootFile (path : string).

Inductive Eff : Type -> Type :=
  | Now : Eff Time
  | Seed : Eff Z                                     (* the randomness of one encryption *)
  | NewWGKeypair : Eff (result (string * string))   (* private, public *)
  | NewAgeIdentity : Eff (result (string * string)) (* identity, recipient *)
  | ReadState {X} (f : StateDir -> X) : Eff X
  | Update (op : CacheOp) : Eff (result unit)
  | NewEd25519Keypair : Eff (result (string * string)) (* public, private *)
  | ReadFile (path : string) : Eff (result string)
  | ReadSecretLine : Eff (result string)             (* the key typed or piped in *)
  | LockAdmin : Eff (result unit)
  | NewDrop (b : DropBackend) : Eff (result unit)
  | DropGet : Eff (result string)
  | DropPut (dir : Directory) (blob : string) : Eff (result unit)
  | WriteBootstrap (path : BootPath) (b : Bootstrap) : Eff (result unit)
  | WriteSecretFile (path content : string) : Eff (result unit)
  | QrPNG (content : string) : Eff (result string)
  | KernelPeers : Eff (result (list Peer)).

Inductive Prog (A : Type) : Type :=
  | Ret (a : A)
  | Vis {X : Type} (e : Eff X) (k : X -> Prog A).
Arguments Ret {A} a.
Arguments Vis {A X} e k.

Fixpoint prog_bind {A B} (f : A -> Prog B) (p : Prog A) : Prog B :=
  match p with
  | Ret a => f a
  | Vis e k => Vis e (fun x => prog_bind f (k x))
  end.

(** A Go function that returns an error: errors stop it. *)
Definition Act (A : Type) : Type := Prog (result A).

Definition act_bind {A B} (m : Act A) (f : A -> Act B) : Act B :=
  prog_bind (fun r => match r with Ok a => f a | Err e => Ret (Err e) end) m.

Declare Scope act_scope.
Delimit Scope act_scope with act.
Bind Scope act_scope with Act.
Notation "x <- m ;; k" := (act_bind m (fun x => k))
  (at level 20, m at level 99, k at level 200) : act_scope.
Notation "' p <- m ;; k" := (act_bind m (fun x => match x with p => k end))
  (at level 20, p pattern, m at level 99, k at level 200) : act_scope.
Open Scope act_scope.

Definition done_ {A} (a : A) : Act A := Ret (Ok a).
Definition lift {A} (r : result A) : Act A := Ret r.
Definition call {A} (e : Eff (result A)) : Act A := Vis e (fun r => Ret r).
Definition ask {A} (e : Eff A) : Act A := Vis e (fun x => Ret (Ok x)).
(** [x, err := f()] whose error the caller looks at. *)
Definition attempt {A} (m : Act A) : Act (result A) := prog_bind (fun r => Ret (Ok r)) m.
Definition act_wrap {A} (f : error -> error) (m : Act A) : Act A :=
  prog_bind (fun r => Ret (wrap_err f r)) m.
Definition check (bad : bool) (e : error) : Act unit := if bad then Ret (Err e) else Ret (Ok tt).

(** ** What effects answer *)

Definition Upload : Type := Directory * string.

Section semantics.
Context `{CryptoLib} `{UnicodeTables} `{Msgpack}.

(** The state directory, what was handed to the drop and the bootstraps written. *)
Record World := { w_dir : StateDir; w_uploads : list Upload; w_boots : list (BootPath * Bootstrap) }.

Definition set_w_dir (sd : StateDir) (w : World) : World :=
  {| w_dir := sd; w_uploads := w_uploads w; w_boots := w_boots w |}.
Definition add_upload (u : Upload) (w : World) : World :=
  {| w_dir := w_dir w; w_uploads := w_uploads w ++ [u]; w_boots := w_boots w |}.
Definition add_boot (b : BootPath * Bootstrap) (w : World) : World :=
  {| w_dir := w_dir w; w_uploads := w_uploads w; w_boots := w_boots w ++ [b] |}.

Definition update_outcome (sd : StateDir) (op : CacheOp) (r : result unit) (sd' : StateDir) : Prop :=
  match op_plan sd op with
  | Err e => r = Err e /\ sd' = sd
  | Ok plan => (r = Ok tt /\ plan_error plan = None /\ sd' = run_plan sd plan) \/
               (exists n e, r = Err e /\ sd' = run_plan sd (take n plan))
  end.

Definition answer (w : World) {X} (e : Eff X) : X -> World -> Prop :=
  match e in Eff X return X -> World -> Prop with
  | ReadState f => fun x w' => x = f (w_dir w) /\ w' = w
  | Update op => fun r w' =>
      exists sd', update_outcome (w_dir w) op r sd' /\ w' = set_w_dir sd' w
  | DropPut dir blob => fun _ w' => w' = add_upload (dir, blob) w
  | WriteBootstrap path b => fun r w' => w' = if is_ok r then add_boot (path, b) w else w
  | NewWGKeypair => fun r w' => w' = w /\
      exists k, r = GenerateWGKeypair k /\ forall key, k = Ok key -> len key = 32
  | NewAgeIdentity => fun r w' => w' = w /\
      exists k, r = GenerateAgeIdentity k /\ forall id, k = Ok id -> exists s, age_ParseX25519Identity s = Some id
  | NewEd25519Keypair => fun r w' => w' = w /\
      exists k, r = GenerateEd25519Keypair k /\
        forall pub priv, k = Ok (pub, priv) -> len pub = 32 /\ len priv = 64 /\ ed25519_Public priv = pub
  | _ => fun _ w' => w' = w
  end.

(** A run to the end. *)
Fixpoint exec {A} (p : Prog A) (w : World) (a : A) (w' : World) : Prop :=
  match p with
  | Ret b => a = b /\ w' = w
  | Vis e k => exists x w1, answer w e x w1 /\ exec (k x) w1 a w'
  end.

Lemma exec_bind {A B} (f : A -> Prog B) p : forall w b w',
  exec (prog_bind f p) w b w' <-> exists a w1, exec p w a w1 /\ exec (f a) w1 b w'.
Proof.
  induction p as [a|X e k IH]; intros w b w'; cbn [prog_bind exec].
  - split; [intros Hf; by exists a, w|]. by intros (a' & w1 & [-> ->] & Hf).
  - setoid_rewrite IH. split.
    + intros (x & w1 & Ha & a & w2 & Hk & Hf). exists a, w2. split; [|done]. by exists x, w1.
    + intros (a & w2 & (x & w1 & Ha & Hk) & Hf). exists x, w1. split; [done|]. by exists a, w2.
Qed.

Lemma exec_act_bind_Ok {A B} (m : Act A) (f : A -> Act B) w b w' :
  exec (act_bind m f) w (Ok b) w' <-> exists a w1, exec m w (Ok a) w1 /\ exec (f a) w1 (Ok b) w'.
Proof.
  unfold act_bind. rewrite exec_bind. split.
  - intros ([a|e] & w1 & Hm & Hf); [by exists a, w1|]. by destruct Hf.
  - intros (a & w1 & Hm & Hf). by exists (Ok a), w1.
Qed.

Lemma exec_lift_Ok {A} (r : result A) w a w' : exec (lift r) w (Ok a) w' <-> r = Ok a /\ w' = w.
Proof. simpl. naive_solver. Qed.

Lemma exec_check_Ok bad e w u w' : exec (check bad e) w (Ok u) w' <-> bad = false /\ w' = w.
Proof. unfold check. destruct bad, u; simpl; naive_solver. Qed.

Lemma exec_call {A} (e : Eff (result A)) w r w' : exec (call e) w r w' <-> answer w e r w'.
Proof. simpl. split; [by intros (x & w1 & Ha & -> & ->)|intros; by exists r, w']. Qed.

Lemma exec_ask_Ok {A} (e : Eff A) w a w' : exec (ask e) w (Ok a) w' <-> answer w e a w'.
Proof. simpl. split; [by intros (x & w1 & Ha & [= ->] & ->)|intros; by exists a, w']. Qed.

Lemma exec_attempt_Ok {A} (m : Act A) w r w' : exec (attempt m) w (Ok r) w' <-> exec m w r w'.
Proof.
  unfold attempt. rewrite exec_bind. simpl. split.
  - by intros (a & w1 & Hm & [= ->] & ->).
  - intros Hm. by exists r, w'.
Qed.

Lemma exec_wrap_Ok {A} f (m : Act A) w a w' : exec (act_wrap f m) w (Ok a) w' <-> exec m w (Ok a) w'.
Proof.
  unfold act_wrap. rewrite exec_bind. simpl. split.
  - intros (r & w1 & Hm & Hr & ->). symmetry in Hr. apply wrap_err_Ok in Hr. by subst r.
  - intros Hm. exists (Ok a), w'. split_and!; [done| |done]. symmetry. by apply wrap_err_Ok.
Qed.

(** ** An executable run

    One world that answers the same way every time and whose writes succeed. *)
Record Oracle := {
  o_now : Time; o_seed : Z; o_wg : string; o_age : string; o_ed : string; o_file : string -> result string; o_line : result string;
  o_get : result string; o_put : result unit; o_peers : result (list Peer) }.

Definition respond (o : Oracle) {X} (e : Eff X) (w : World) : X * World :=
  match e in Eff X return X * World with
  | Now => (o_now o, w)
  | Seed => (o_seed o, w)
  | NewWGKeypair => (GenerateWGKeypair (if len (o_wg o) =? 32 then Ok (o_wg o) else Err (errors_New "rand")), w)
  | NewAgeIdentity => (GenerateAgeIdentity (of_option (errors_New "rand") (age_ParseX25519Identity (o_age o))), w)
  | NewEd25519Keypair =>
      let pub := ed25519_Public (o_ed o) in
      (GenerateEd25519Keypair (if (len pub =? 32) && (len (o_ed o) =? 64) then Ok (pub, o_ed o)
                               else Err (errors_New "rand")), w)
  | ReadFile path => (o_file o path, w)
  | ReadSecretLine => (o_line o, w)
  | ReadState f => (f (w_dir w), w)
  | Update op =>
      match op_plan (w_dir w) op with
      | Ok plan => (match plan_error plan with Some e => Err e | None => Ok tt end, set_w_dir (run_plan (w_dir w) plan) w)
      | Err e => (Err e, w)
      end
  | LockAdmin => (Ok tt, w)
  | NewDrop _ => (Ok tt, w)
  | DropGet => (o_get o, w)
  | DropPut dir blob => (o_put o, add_upload (dir, blob) w)
  | WriteBootstrap path b => (Ok tt, add_boot (path, b) w)
  | WriteSecretFile _ _ => (Ok tt, w)
  | QrPNG content => (Ok content, w)
  | KernelPeers => (o_peers o, w)
  end.

Lemma respond_answer o X (e : Eff X) w : answer w e (fst (respond o e w)) (snd (respond o e w)).
Proof.
  destruct e; cbn [answer respond fst snd]; try done.
  { split; [done|]. eexists. split; [done|]. intros key. destruct (Z.eqb_spec (len (o_wg o)) 32); [|done]. by intros [= <-]. }
  { split; [done|]. eexists. split; [done|]. intros id Hid%of_option_Ok. eauto. }
  { unfold update_outcome. destruct (op_plan (w_dir w) op) as [plan|err]; cbn [fst snd].
    - eexists. split; [|reflexivity]. destruct (plan_error plan) as [e'|]; [right|by left].
      exists (length plan), e'. by rewrite take_ge.
    - exists (w_dir w). split; [done|by destruct w]. }
  split; [done|]. eexists. split; [done|]. intros pub priv.
    destruct (Z.eqb_spec (len (ed25519_Public (o_ed o))) 32), (Z.eqb_spec (len (o_ed o)) 64); try done. by intros [= <- <-].
Qed.

Fixpoint run (o : Oracle) {A} (p : Prog A) (w : World) : A * World :=
  match p with
  | Ret a => (a, w)
  | Vis e k => run o (k (fst (respond o e w))) (snd (respond o e w))
  end.

Lemma run_exec o {A} (p : Prog A) : forall w, exec p w (fst (run o p w)) (snd (run o p w)).
Proof.
  induction p as [a|X e k IH]; intros w; cbn; [done|].
  eexists _, _. split; [apply respond_answer|apply IH].
Qed.

(** ** Many programs on one state directory *)

Record Sys := { s_world : World; s_procs : list (Act unit) }.

Inductive sys_step (command : Act unit -> Prop) : Sys -> Sys -> Prop :=
  | Spawn w ps p : command p -> sys_step command {| s_world := w; s_procs := ps |}
                                                 {| s_world := w; s_procs := p :: ps |}
  | Step w ps1 X (e : Eff X) k ps2 x w' :
      answer w e x w' ->
      sys_step command {| s_world := w; s_procs := ps1 ++ Vis e k :: ps2 |}
                       {| s_world := w'; s_procs := ps1 ++ k x :: ps2 |}
  | Exit w ps1 p ps2 :
      sys_step command {| s_world := w; s_procs := ps1 ++ p :: ps2 |}
                       {| s_world := w; s_procs := ps1 ++ ps2 |}.

Definition sys_start (sd : StateDir) : Sys :=
  {| s_world := {| w_dir := sd; w_uploads := []; w_boots := [] |}; s_procs := [] |}.
(** ** The publishing discipline

    What one component promises the others: an upload is sealed and goes out
    under a serial the program itself reserved, once.  [tok] is the reserved
    serial not used yet. *)

Definition token_after (tok : option Z) {X} (e : Eff X) : X -> option Z :=
  match e in Eff X return X -> option Z with
  | Update (OpReserve s) => fun r => if is_ok r then Some s else None
  | DropPut _ _ => fun _ => None
  | _ => fun _ => tok
  end.

Definition sealed (u : Upload) : Prop := exists now seed key, Seal now seed (fst u) key = Ok (snd u).

Definition permitted (tok : option Z) {X} (e : Eff X) : Prop :=
  match e with
  | Update op => op_typed op
  | DropPut dir blob => tok = Some (dir_Serial dir) /\ sealed (dir, blob)
  | _ => True
  end.

Definition possible {X} (e : Eff X) (x : X) : Prop := exists w w', answer w e x w'.

Fixpoint obeys {A} (tok : option Z) (p : Prog A) : Prop :=
  match p with
  | Ret _ => True
  | Vis e k => permitted tok e /\ forall x, possible e x -> obeys (token_after tok e x) (k x)
  end.

(** The discipline at any token, as an interface for whole commands. *)
Definition disciplined {A} (p : Prog A) : Prop := forall tok, obeys tok p.

Lemma obeys_bind {A B} (f : A -> Prog B) p : forall tok,
  obeys tok p -> (forall a, disciplined (f a)) -> obeys tok (prog_bind f p).
Proof.
  induction p as [a|X e k IH]; intros tok Hp Hf; cbn in *; [apply Hf|].
  destruct Hp as [Hperm Hk]. split; [done|]. intros x Hx. by apply IH; [apply Hk|].
Qed.

Lemma disciplined_bind {A B} (m : Act A) (f : A -> Act B) :
  disciplined m -> (forall a, disciplined (f a)) -> disciplined (act_bind m f).
Proof. intros Hm Hf tok. apply obeys_bind; [apply Hm|]. intros [a|e]; [apply Hf|]. by intros tok'. Qed.

Lemma disciplined_lift {A} (r : result A) : disciplined (lift r).
Proof. by intros tok. Qed.

Lemma disciplined_done {A} (a : A) : disciplined (done_ a).
Proof. by intros tok. Qed.

Lemma disciplined_check bad e : disciplined (check bad e).
Proof. intros tok. unfold check. by destruct bad. Qed.

Lemma disciplined_wrap {A} f (m : Act A) : disciplined m -> disciplined (act_wrap f m).
Proof. intros Hm tok. apply obeys_bind; [apply Hm|]. by intros r tok'. Qed.

Lemma disciplined_attempt {A} (m : Act A) : disciplined m -> disciplined (attempt m).
Proof. intros Hm tok. by apply obeys_bind; [|intros r tok']. Qed.

(** Effects that neither write a serial nor upload. *)
Definition harmless {X} (e : Eff X) : Prop :=
  match e with Update _ | DropPut _ _ => False | _ => True end.

Lemma disciplined_ask {A} (e : Eff A) : harmless e -> disciplined (ask e).
Proof. destruct e; simpl; try done; intros _ tok; by split. Qed.

Lemma disciplined_call {A} (e : Eff (result A)) : harmless e -> disciplined (call e).
Proof. intros He tok. split; [by destruct e|by intros]. Qed.

Lemma disciplined_update op : op_typed op -> disciplined (call (Update op)).
Proof. intros Hop tok. by split. Qed.

(** What every run of a program returns, whatever is answered. *)
Fixpoint ensures {A} (P : A -> Prop) (p : Prog A) : Prop :=
  match p with
  | Ret a => P a
  | Vis e k => forall x, possible e x -> ensures P (k x)
  end.

Definition yields {A} (P : A -> Prop) (m : Act A) : Prop := ensures (fun r => forall a, r = Ok a -> P a) m.

Lemma ensures_bind {A B} (P : A -> Prop) (Q : B -> Prop) (f : A -> Prog B) p :
  ensures P p -> (forall a, P a -> ensures Q (f a)) -> ensures Q (prog_bind f p).
Proof. intros Hp Hf. induction p as [a|X e k IH]; cbn in *; auto. Qed.

Lemma ensures_mono {A} (P Q : A -> Prop) p : (forall a, P a -> Q a) -> ensures P p -> ensures Q p.
Proof. intros Hpq. induction p as [a|X e k IH]; cbn; auto. Qed.

Lemma ensures_True {A} (P : A -> Prop) p : (forall a, P a) -> ensures P p.
Proof. intros Hp. induction p as [a|X e k IH]; cbn; auto. Qed.

Lemma yields_bind {A B} (P : A -> Prop) (Q : B -> Prop) (m : Act A) (f : A -> Act B) :
  yields P m -> (forall a, P a -> yields Q (f a)) -> yields Q (act_bind m f).
Proof.
  intros Hm Hf. unfold yields, act_bind. eapply ensures_bind; [exact Hm|].
  intros [a|e] Ha; [by apply Hf, Ha|]. by intros a [=].
Qed.

Lemma yields_any {A B} (Q : B -> Prop) (m : Act A) (f : A -> Act B) :
  (forall a, yields Q (f a)) -> yields Q (act_bind m f).
Proof. intros Hf. apply (yields_bind (fun _ => True)); [|auto]. by apply ensures_True. Qed.

Lemma yields_lift {A} (P : A -> Prop) (r : result A) : (forall a, r = Ok a -> P a) -> yields P (lift r).
Proof. done. Qed.

Lemma yields_done {A} (P : A -> Prop) a : P a -> yields P (done_ a).
Proof. intros Ha b [= <-]. done. Qed.

Lemma yields_read {X} (P : X -> Prop) (f : StateDir -> X) : (forall sd, P (f sd)) -> yields P (ask (ReadState f)).
Proof. intros Hp x (w & w' & -> & _) a [= <-]. apply Hp. Qed.

Lemma yields_wrap {A} f (P : A -> Prop) (m : Act A) : yields P m -> yields P (act_wrap f m).
Proof.
  intros Hm. eapply ensures_bind; [exact Hm|]. intros r Hr a Ha. apply wrap_err_Ok in Ha. by apply Hr.
Qed.

Lemma yields_attempt {A} (P : A -> Prop) (m : Act A) :
  yields P m -> yields (fun r => forall a, r = Ok a -> P a) (attempt m).
Proof. intros Hm. eapply ensures_bind; [exact Hm|]. intros r Hr. by intros a [= <-]. Qed.

Lemma exec_ensures {A} (P : A -> Prop) p : ensures P p -> forall w a w', exec p w a w' -> P a.
Proof.
  induction p as [b|X e k IH]; cbn; intros Hp w a w'; [by intros [-> _]|].
  intros (x & w1 & Ha & Hk). eapply IH; [|exact Hk]. apply Hp. by exists w, w1.
Qed.

Lemma obeys_bind_ensures {A B} (P : A -> Prop) (f : A -> Prog B) p : forall tok,
  obeys tok p -> ensures P p -> (forall a, P a -> disciplined (f a)) -> obeys tok (prog_bind f p).
Proof.
  induction p as [a|X e k IH]; intros tok Hp Hens Hf; cbn in *; [by apply Hf|].
  destruct Hp as [Hperm Hk]. split; [done|]. intros x Hx. apply IH; auto.
Qed.

(** Sequencing where the second part relies on what the first returns. *)
Lemma disciplined_bind_yields {A B} (P : A -> Prop) (m : Act A) (f : A -> Act B) :
  disciplined m -> yields P m -> (forall a, P a -> disciplined (f a)) -> disciplined (act_bind m f).
Proof.
  intros Hm Hy Hf tok. eapply obeys_bind_ensures; [apply Hm|exact Hy|].
  intros [a|e] Ha; [by apply Hf, Ha|]. by intros tok'.
Qed.

(** *** The invariant *)

Definition tokens (toks : list (option Z)) : list Z := omap id toks.
Definition serials (us : list Upload) : list Z := (fun u => dir_Serial (fst u)) <$> us.

(** Distinct serials, all at or below the reserved one. *)
Definition fits (zs : list Z) (sd : StateDir) : Prop :=
  NoDup zs /\ forall z, z ∈ zs -> exists m, ReadPublishSerial sd = Ok m /\ z <= m.

Record well_reserved (s : Sys) : Prop := {
  wr_procs : exists toks, Forall2 obeys toks (s_procs s) /\
    fits (tokens toks ++ serials (w_uploads (s_world s))) (w_dir (s_world s));
  wr_sealed : Forall sealed (w_uploads (s_world s)) }.

Lemma update_cache_steps sd op r sd' :
  op_typed op -> update_outcome sd op r sd' -> cache_steps sd sd'.
Proof.
  unfold update_outcome. intros Ht. destruct (op_plan sd op) as [plan|e] eqn:E.
  - intros [(_ & _ & ->)|(n & e & _ & ->)]; apply rtc_once.
    + rewrite <- (take_ge plan (length plan)) at 1 by done. by eapply CacheStep.
    + by eapply CacheStep.
  - intros [_ ->]. apply rtc_refl.
Qed.

Lemma cache_steps_publish sd sd' m :
  cache_steps sd sd' -> ReadPublishSerial sd = Ok m ->
  exists m', ReadPublishSerial sd' = Ok m' /\ m <= m'.
Proof.
  intros Hrun. revert m. induction Hrun as [sd|a b c Hst _ IH]; intros m Hm; [exists m; split; [done|lia]|].
  destruct (step_monotone _ _ Hst) as [_ Hp]. destruct (Hp _ Hm) as (m1 & Hm1 & ?).
  destruct (IH _ Hm1) as (m2 & ? & ?). exists m2. split; [done|lia].
Qed.

(** A successful reservation is above everything reserved or uploaded before. *)
Lemma reserve_fresh sd s sd' (zs : list Z) :
  0 <= s < 2 ^ 64 -> update_outcome sd (OpReserve s) (Ok tt) sd' ->
  (forall z, z ∈ zs -> exists m, ReadPublishSerial sd = Ok m /\ z <= m) ->
  s ∉ zs /\ ReadPublishSerial sd' = Ok s /\ forall z, z ∈ zs -> z <= s.
Proof.
  intros Hs Ho Hz. unfold update_outcome in Ho. cbn [op_plan] in Ho.
  destruct (ReservePublishSerial sd s) as [plan|e] eqn:Ep; [|by destruct Ho].
  destruct Ho as [(_ & _ & ->)|(n & e & [=] & _)].
  unfold ReservePublishSerial in Ep. apply read_cases in Ep as [-> Hf].
  assert (Hlt : forall z, z ∈ zs -> z < s).
  { intros z Hin. destruct (Hz z Hin) as (m & Hm & Hl). unfold ReadPublishSerial in Hm.
    destruct Hf as [Hmiss|(prev & Hp & Ht)]; [by rewrite Hmiss in Hm|].
    rewrite Hm in Hp. injection Hp as <-. bool_solve. lia. }
  split; [intros Hin; specialize (Hlt _ Hin); lia|]. split.
  - destruct sd. unfold ReadPublishSerial. simpl. by apply readSerial_text.
  - intros z Hin. specialize (Hlt _ Hin). lia.
Qed.

Lemma tokens_app a b : tokens (a ++ b) = tokens a ++ tokens b.
Proof. apply omap_app. Qed.

Lemma Forall2_middle {A B} (R : A -> B -> Prop) l k1 y k2 :
  Forall2 R l (k1 ++ y :: k2) -> exists l1 x l2, l = l1 ++ x :: l2 /\ Forall2 R l1 k1 /\ R x y /\ Forall2 R l2 k2.
Proof.
  intros (l1 & l' & Hl1 & (x & l2 & Hx & Hl2 & ->)%Forall2_cons_inv_r & ->)%Forall2_app_inv_r.
  by exists l1, x, l2.
Qed.
Lemma fits_submseteq zs zs' sd : zs' ⊆+ zs -> fits zs sd -> fits zs' sd.
Proof.
  intros Hsub [Hd Hz]. split.
  { apply submseteq_Permutation in Hsub as (k & Hk). rewrite Hk in Hd. by apply NoDup_app in Hd as [? _]. }
  intros z Hin. apply Hz. by eapply elem_of_submseteq.
Qed.

Lemma fits_steps zs sd sd' : cache_steps sd sd' -> fits zs sd -> fits zs sd'.
Proof.
  intros Hst [Hd Hz]. split; [done|]. intros z Hin. destruct (Hz z Hin) as (m & Hm & Hl).
  destruct (cache_steps_publish _ _ _ Hst Hm) as (m' & ? & ?). exists m'. split; [done|lia].
Qed.

Lemma tokens_none t1 t t2 us : tokens (t1 ++ None :: t2) ++ us ⊆+ tokens (t1 ++ t :: t2) ++ us.
Proof.
  apply submseteq_app; [|done]. rewrite !tokens_app. apply submseteq_app; [done|].
  destruct t as [z|]; [|done]. cbn. by apply submseteq_cons.
Qed.

Lemma tokens_some t1 z t2 us : tokens (t1 ++ Some z :: t2) ++ us ≡ₚ z :: tokens (t1 ++ None :: t2) ++ us.
Proof.
  rewrite !tokens_app. cbn. rewrite <- !(assoc_L (++)). change ((z :: omap id t2) ++ us) with (z :: (omap id t2 ++ us)).
  symmetry. apply Permutation_middle.
Qed.

(** One effect of a program that obeys keeps the books. *)
Lemma answer_fits w X (e : Eff X) x w' t t1 t2 :
  permitted t e -> answer w e x w' ->
  fits (tokens (t1 ++ t :: t2) ++ serials (w_uploads w)) (w_dir w) ->
  fits (tokens (t1 ++ token_after t e x :: t2) ++ serials (w_uploads w')) (w_dir w') /\
  (Forall sealed (w_uploads w) -> Forall sealed (w_uploads w')).
Proof.
  intros Hperm Ha Hf. destruct e; cbn [answer] in Ha; try (subst w'; by split);
    try (destruct Ha as [-> _]; by split); try (destruct Ha as [_ ->]; by split).
  - destruct Ha as (sd' & Ho & ->). cbn [w_dir w_uploads set_w_dir]. split; [|done]. cbn [permitted] in Hperm.
    pose proof (update_cache_steps _ _ _ _ Hperm Ho) as Hst.
    destruct op; try (by eapply fits_steps). cbn [token_after].
    destruct x as [[]|err]; cbn [is_ok].
    + pose proof (fits_submseteq _ _ _ (tokens_none t1 t t2 _) Hf) as [Hd Hz].
      destruct (reserve_fresh _ _ _ _ Hperm Ho Hz) as (Hnew & Hr & Hle).
      eapply fits_submseteq; [apply Permutation_submseteq, tokens_some|].
      split; [by constructor|]. intros z Hin. exists serial. split; [done|]. apply elem_of_cons in Hin as [->|Hin]; [lia|by apply Hle].
    + eapply fits_steps; [exact Hst|]. eapply fits_submseteq; [apply tokens_none|exact Hf].
  - subst w'. cbn [w_uploads w_dir add_upload token_after]. destruct Hperm as [-> Hs]. split.
    + eapply fits_submseteq; [|exact Hf]. apply Permutation_submseteq. rewrite tokens_some.
      unfold serials. rewrite fmap_app, (assoc_L (++)). cbn. symmetry. apply Permutation_cons_append.
    + intros Hall. apply Forall_app. split; [done|]. by constructor.
  - subst w'. destruct (is_ok x); by split.
Qed.

Lemma step_reserved command s s' :
  (forall p, command p -> disciplined p) -> sys_step command s s' -> well_reserved s -> well_reserved s'.
Proof.
  intros Hcmd Hst [(toks & Hobey & Hf) Hs]. destruct Hst as [w ps p Hp|w ps1 X e k ps2 x w' Ha|w ps1 p ps2];
    cbn [s_world s_procs] in *.
  - split; [|done]. exists (None :: toks). split; [|exact Hf]. constructor; [by apply Hcmd|done].
  - apply Forall2_middle in Hobey as (t1 & t & t2 & -> & Hl1 & [Hperm Hk] & Hl2).
    destruct (answer_fits _ _ _ _ _ _ _ _ Hperm Ha Hf) as [Hf' Hs']. split; [|by apply Hs'].
    eexists. split; [|exact Hf']. apply Forall2_app; [done|]. constructor; [|done]. apply Hk. by exists w, w'.
  - apply Forall2_middle in Hobey as (t1 & t & t2 & -> & Hl1 & Hp & Hl2). split; [|done].
    exists (t1 ++ t2). split; [by apply Forall2_app|]. eapply fits_submseteq; [|exact Hf].
    etrans; [|apply (tokens_none t1 t t2)]. cbn. rewrite !tokens_app. done.
Qed.

Lemma sys_reserved command sd s :
  (forall p, command p -> disciplined p) -> rtc (sys_step command) (sys_start sd) s -> well_reserved s.
Proof.
  intros Hcmd Hrun. assert (Hs0 : well_reserved (sys_start sd)).
  { split; [|constructor]. exists []. split; [constructor|]. split; [constructor|]. intros z Hz.
    by apply elem_of_nil in Hz. }
  revert Hs0. induction Hrun as [s|a b c Hst _ IH]; [done|]. intros Ha. apply IH. by eapply step_reserved.
Qed.

(** Every step of the system is a step of the state directory. *)
Lemma step_cache command s s' :
  (forall p, command p -> disciplined p) -> sys_step command s s' -> well_reserved s ->
  cache_steps (w_dir (s_world s)) (w_dir (s_world s')).
Proof.
  intros Hcmd Hst [(toks & Hobey & _) _]. destruct Hst as [w ps p Hp|w ps1 X e k ps2 x w' Ha|w ps1 p ps2];
    cbn [s_world s_procs] in *; [apply rtc_refl| |apply rtc_refl].
  apply Forall2_middle in Hobey as (t1 & t & t2 & -> & _ & [Hperm _] & _).
  destruct e; cbn [answer] in Ha; try (subst w'; apply rtc_refl); try (destruct Ha as [-> _]; apply rtc_refl);
    try (destruct Ha as [_ ->]; apply rtc_refl).
  - destruct Ha as (sd' & Ho & ->). by eapply update_cache_steps.
  - subst w'. destruct (is_ok x); apply rtc_refl.
Qed.
End semantics.
