(* ===== verification/Admin.v ===== *)
(** * Admin: the publishing half of internal/cli

    helpers.go, publish.go, sync.go, addnode.go, removenode.go, setdomain.go and
    the observation of up.go, as programs ([Act]) over [Prog].  Loading the
    configuration file is the argument [cfg]; printing and logging are left out;
    artifacts are written through effects. *)
From stdpp Require Import base tactics option list strings gmap.
From Stdlib Require Import Ascii ZArith Lia.
From S2P Require Import Prelude GoStrings GoNum GoNet GoBase64 Keys Directory DnsName IpAlloc Validate Wire Toy Codec Relay Observe Discovery Schema Bech32 Nostr Config StateJson Cache Bootstrap Drop Prog.
Open Scope Z_scope.
Open Scope act_scope.

(** ** helpers.go *)

Definition findSelf (cfg : Config) (dir : Directory) : result Node :=
  of_option (errors_New "local WireGuard public key is not present in directory")
    (List.find (fun n => String.eqb (node_PublicKey n) (wg_PublicKey (c_Wireguard cfg))) (dir_Nodes dir)).

Fixpoint node_by_name (nodes : list Node) (name : string) (i : nat) : option (Node * nat) :=
  match nodes with
  | [] => None
  | n :: nodes => if String.eqb (node_Name n) name then Some (n, i) else node_by_name nodes name (S i)
  end.
Definition nodeByName (dir : Directory) (name : string) : option (Node * nat) :=
  node_by_name (dir_Nodes dir) name 0.

Definition takenIPs (dir : Directory) : list string := node_TunnelIP <$> dir_Nodes dir.

Definition listenPortFromEndpoint (endpoint : string) : result Z :=
  if String.eqb endpoint "" then Ok 0 else
  match net_SplitHostPort endpoint with
  | None => Err (errors_New "endpoint must be host:port: %w")
  | Some (_, port) =>
      match strconv_Atoi port with
      | Some p => if (p <=? 0) || (65535 <? p) then Err (errors_New "endpoint port %q is invalid") else Ok p
      | None => Err (errors_New "endpoint port %q is invalid")
      end
  end.

Definition bumpDirectory (now : Time) (dir : Directory) : result Directory :=
  guard_err (dir_Serial dir =? max_uint64) (errors_New "directory serial overflow")
  (Ok (set_dir_CreatedAt (Stamp now) (set_dir_Serial (dir_Serial dir + 1) dir))).

(** The source's serial after the remote was consulted. *)
Definition reconcilePublishSerial (source : Directory) (remote : result Directory) (force : bool)
  : result Directory :=
  match remote with
  | Ok remote =>
      Ok (if dir_Serial source <=? dir_Serial remote then set_dir_Serial (dir_Serial remote) source else source)
  | Err fetchErr =>
      if is_not_found fetchErr || force then Ok source
      else Err (errors_New "cannot fetch the published directory before publishing (%v)")
  end.

(** One of the two local floors. *)
Definition raise_to_floor (dir : Directory) (floor : result Z) : result Directory :=
  match floor with
  | Ok floor => Ok (if dir_Serial dir <? floor then set_dir_Serial floor dir else dir)
  | Err e => if is_not_exist e then Ok dir else Err (Errorf "read local serial floor: %w" [e])
  end.

Section admin.
Context `{CryptoLib} `{UnicodeTables} `{Msgpack} `{Secp} `{UrlLib}.

Definition loadAdminDrop (cfg : Config) : Act unit :=
  _ <- check (String.eqb (b_Type (drop_Admin (c_Drop cfg))) "")
         (errors_New "[drop.admin] is required for this command") ;;
  call (NewDrop (drop_Admin (c_Drop cfg))).

Definition loadReadDrop (cfg : Config) : Act unit := call (NewDrop (ReadDrop cfg)).

Definition open_blob (cfg : Config) (blob : string) : result Directory :=
  fst <$> Open blob (dc_NetworkIdentity (c_Directory cfg)) (dc_PublisherPubKey (c_Directory cfg)).

Definition fetchDirectory (cfg : Config) : Act Directory :=
  blob <- call DropGet ;;
  lift (open_blob cfg blob).

Definition fetchAdminDirectory (cfg : Config) : Act Directory :=
  remote <- attempt (fetchDirectory cfg) ;;
  source <- ask (ReadState ReadSource) ;;
  let prefer_source s := match remote with Ok r => dir_Serial r <=? dir_Serial s | Err _ => true end in
  match source with
  | Ok s =>
      if prefer_source s then done_ s
      else lift remote
  | Err sourceErr =>
      if negb (is_not_exist sourceErr) then lift (Err (Errorf "read working directory: %w" [sourceErr])) else
      match remote with
      | Ok r => done_ r
      | Err fetchErr =>
          cached <- ask (ReadState Read) ;;
          lift (match cached with Ok (dir, _) => Ok dir | Err _ => Err fetchErr end)
      end
  end.

Definition pendingAdminChanges (source remote : Directory) : Act bool :=
  if dir_Serial source <? dir_Serial remote then done_ false else
  now1 <- ask Now ;;
  now2 <- ask Now ;;
  done_ match MarshalPlain now1 source, MarshalPlain now2 remote with
        | Ok a, Ok b => negb (String.eqb a b)
        | _, _ => true
        end.

Definition preparePublishSerial (dir : Directory) (remote : result Directory) (force : bool) : Act Directory :=
  dir <- lift (reconcilePublishSerial dir remote force) ;;
  floor <- ask (ReadState ReadSerial) ;;
  dir <- lift (raise_to_floor dir floor) ;;
  reserved <- ask (ReadState ReadPublishSerial) ;;
  dir <- lift (raise_to_floor dir reserved) ;;
  now <- ask Now ;;
  lift (bumpDirectory now dir).

Definition publishDirectory (cfg : Config) (dir : Directory) (writeSource : bool) : Act unit :=
  now <- ask Now ;;
  seed <- ask Seed ;;
  blob <- lift (Seal now seed dir (dc_PublisherKey (c_Directory cfg))) ;;
  _ <- call (Update (OpReserve (dir_Serial dir))) ;;
  _ <- call (DropPut dir blob) ;;
  now <- ask Now ;;
  _ <- call (Update (OpWrite now dir "")) ;;
  _ <- (if writeSource then now <- ask Now ;; call (Update (OpSource now dir)) else done_ tt) ;;
  call (WriteBootstrap DefaultPath (Network cfg (dir_Serial dir))).

Definition saveAdminDirectory (cfg : Config) (dir : Directory) (noPublish : bool) : Act Directory :=
  if noPublish then
    now <- ask Now ;;
    _ <- call (Update (OpSource now dir)) ;;
    done_ dir
  else
    remote <- attempt (fetchDirectory cfg) ;;
    dir <- preparePublishSerial dir remote false ;;
    _ <- publishDirectory cfg dir true ;;
    done_ dir.

(** ** publish.go *)

(** [config.RequireAdmin], the admin lock and the admin drop: how every admin
    command starts. *)
Definition admin_start (cfg : result Config) : Act Config :=
  cfg <- lift cfg ;;
  _ <- lift (RequireAdmin cfg) ;;
  _ <- call LockAdmin ;;
  _ <- loadAdminDrop cfg ;;
  done_ cfg.

Definition PublishCmd_Run (cfg : result Config) (force : bool) : Act unit :=
  cfg <- admin_start cfg ;;
  source <- ask (ReadState ReadSource) ;;
  source <- lift (wrap_err (fun e => Errorf "read working directory: %w" [e]) source) ;;
  remote <- attempt (fetchDirectory cfg) ;;
  source <- preparePublishSerial source remote force ;;
  publishDirectory cfg source true.

(** ** sync.go *)

Record syncResult := {
  sr_Serial : Z; sr_FromCache : bool; sr_StaleErr : option error; sr_Directory : Directory }.

Definition fetchSyncDirectory (cfg : Config) : Act (Directory * option error) :=
  blob <- attempt (call DropGet) ;;
  match blob with
  | Err dropErr =>
      cached <- ask (ReadState Read) ;;
      lift (match cached with
            | Ok (dir, _) => Ok (dir, Some dropErr)
            | Err cacheErr => Err (errors_New "drop fetch failed (%v) and cache unavailable (%v)")
            end)
  | Ok blob =>
      dir <- lift (open_blob cfg blob) ;;
      cachedSerial <- ask (ReadState ReadSerial) ;;
      match cachedSerial with
      | Ok cachedSerial =>
          _ <- check (IsRollback (dir_Serial dir) cachedSerial)
                 (errors_New "stale serial %d is older than cached serial %d") ;;
          done_ (dir, None)
      | Err e =>
          _ <- check (negb (is_not_exist e))
                 (errors_New "cache serial unreadable (%v); refusing to sync without rollback protection") ;;
          done_ (dir, None)
      end
  end.

Definition runSyncOnce (cfg : Config) : Act syncResult :=
  _ <- loadReadDrop cfg ;;
  '(dir, dropErr) <- fetchSyncDirectory cfg ;;
  now <- ask Now ;;
  _ <- call (Update (OpWrite now dir "")) ;;
  done_ {| sr_Serial := dir_Serial dir;
           sr_FromCache := match dropErr with Some _ => true | None => false end;
           sr_StaleErr := dropErr; sr_Directory := dir |}.

Definition SyncCmd_Run (cfg : result Config) : Act unit :=
  cfg <- lift cfg ;;
  _ <- runSyncOnce cfg ;;
  done_ tt.

Definition directoryStale (now : Time) (dir : Directory) (maxAge : Duration) : Duration * bool :=
  if (maxAge <=? 0) || time_IsZero (dir_CreatedAt dir) then (0, false)
  else let age := time_Sub now (dir_CreatedAt dir) in (age, maxAge <? age).

Definition dropErrorAdvice (e : error) : string :=
  if is_not_found e then "no directory at the drop (has the admin published yet?)"
  else if errors_Is e "drop.ErrAuth" then "drop rejected the credentials (check [drop.client] access keys)"
  else if errors_Is e "drop.ErrForbidden" then
    "drop object is not readable (check the bucket policy / object ACL, or provide read-only credentials)"
  else "drop unreachable (%v)".
End admin.

(** ** What the helpers guarantee *)

Create HintDb prog discriminated.
#[export] Hint Resolve disciplined_lift disciplined_done disciplined_check disciplined_attempt : prog.

(** Walks a command, closing the harmless steps. *)
Ltac disc :=
  repeat first
    [ apply disciplined_lift | apply disciplined_done | apply disciplined_check
    | apply disciplined_attempt | apply disciplined_wrap
    | apply disciplined_ask; exact I | apply disciplined_call; exact I
    | apply disciplined_bind; [|intros ?]
    | match goal with
      | |- disciplined (match ?x with _ => _ end) => destruct x
      end ].

Section admin_facts.
Context `{CryptoLib} `{UnicodeTables} `{Msgpack} `{Secp} `{UrlLib} `{!CryptoLaws} `{!MsgpackLaws}.

Lemma open_blob_valid cfg blob dir :
  open_blob cfg blob = Ok dir -> Validate.Validate dir = Ok tt /\ serial_ok dir.
Proof.
  unfold open_blob. destruct (Open _ _ _) as [[d p]|e] eqn:E; [|done]. intros [= <-].
  apply Open_inv in E as (id & pk & pt & env & _ & _ & _ & _ & _ & _ & _ & _ & _ & Hu).
  split; [by apply UnmarshalPlain_inv in Hu as [? _]|by eapply UnmarshalPlain_serial].
Qed.

(** A directory that came from a blob or a file of the state directory. *)
Definition sound_dir (dir : Directory) : Prop := Validate.Validate dir = Ok tt /\ serial_ok dir.

Lemma UnmarshalPlain_sound payload dir : UnmarshalPlain payload = Ok dir -> sound_dir dir.
Proof. intros Hu. split; [by apply UnmarshalPlain_inv in Hu as [? _]|by eapply UnmarshalPlain_serial]. Qed.

Lemma ReadSource_sound sd dir : ReadSource sd = Ok dir -> sound_dir dir.
Proof. unfold ReadSource. intros (p & _ & Hu)%bind_Ok. by eapply UnmarshalPlain_sound. Qed.

Lemma Read_sound sd dir p : Read sd = Ok (dir, p) -> sound_dir dir.
Proof.
  unfold Read. destruct (os_ReadFile (sd_Cache sd)) as [data|e]; [|by destruct (is_not_exist e)].
  intros (d & Hu & [= -> _])%bind_Ok. by eapply UnmarshalPlain_sound.
Qed.

Lemma fetchDirectory_sound cfg : yields sound_dir (fetchDirectory cfg).
Proof. apply yields_any. intros blob. apply yields_lift. intros dir. apply open_blob_valid. Qed.

Lemma fetchAdminDirectory_sound cfg : yields sound_dir (fetchAdminDirectory cfg).
Proof.
  eapply yields_bind; [apply yields_attempt, fetchDirectory_sound|]. intros remote Hr.
  eapply (yields_bind (fun r => forall s, r = Ok s -> sound_dir s)); [apply yields_read; intros sd s; apply ReadSource_sound|].
  intros [s|e] Hs; cbv zeta.
  - destruct remote as [r|fe]; [|by apply yields_done, Hs].
    destruct (dir_Serial r <=? dir_Serial s); [by apply yields_done, Hs|]. apply yields_lift. auto.
  - destruct (is_not_exist e); [|by apply yields_lift]. destruct remote as [r|fe]; [by apply yields_done, Hr|].
    eapply (yields_bind (fun r => forall d p, r = Ok (d, p) -> sound_dir d)).
    + apply yields_read. intros sd d p. apply Read_sound.
    + intros [[d p]|ce] Hc; apply yields_lift; [|done]. intros a [= <-]. by eapply Hc.
Qed.

(** *** The serial of a publish *)

(** Raised to a floor that was read, or to none that exists. *)
Lemma raise_to_floor_Ok dir floor d :
  raise_to_floor dir floor = Ok d ->
  exists s, d = set_dir_Serial s dir /\ dir_Serial dir <= s /\ (forall f, floor = Ok f -> f <= s) /\
    (s = dir_Serial dir \/ floor = Ok s).
Proof.
  unfold raise_to_floor. destruct floor as [f|e].
  - intros [= <-]. destruct (Z.ltb_spec (dir_Serial dir) f).
    + exists f. split_and!; [done|lia| |by right]. intros g [= ->]. lia.
    + exists (dir_Serial dir). split_and!; [by destruct dir|lia| |by left]. intros g [= ->]. lia.
  - destruct (is_not_exist e); [|done]. intros [= <-]. exists (dir_Serial dir).
    split_and!; [by destruct dir|lia|done|by left].
Qed.

Lemma reconcile_Ok dir remote force d :
  reconcilePublishSerial dir remote force = Ok d ->
  exists s, d = set_dir_Serial s dir /\ dir_Serial dir <= s /\
    (forall r, remote = Ok r -> dir_Serial r <= s) /\
    (forall e, remote = Err e -> is_not_found e = true \/ force = true) /\
    (s = dir_Serial dir \/ exists r, remote = Ok r /\ s = dir_Serial r).
Proof.
  unfold reconcilePublishSerial. destruct remote as [r|e].
  - intros [= <-]. destruct (Z.leb_spec (dir_Serial dir) (dir_Serial r)).
    + exists (dir_Serial r). split_and!; try done; [intros r' [= ->]; lia|]. right. eauto.
    + exists (dir_Serial dir). split_and!; try done; [by destruct dir|intros r' [= ->]; lia|by left].
  - destruct (is_not_found e) eqn:En, force; simpl; try done; intros [= <-]; exists (dir_Serial dir);
      (split_and!; [by destruct dir|lia|done| |by left]); intros e' [= <-]; auto.
Qed.

(** A serial above everything that is known to be taken. *)
Definition above_all (dir : Directory) (remote : result Directory) (sd : StateDir) (s : Z) : Prop :=
  dir_Serial dir < s /\ (forall r, remote = Ok r -> dir_Serial r < s) /\
  (forall m, ReadSerial sd = Ok m -> m < s) /\ (forall m, ReadPublishSerial sd = Ok m -> m < s).

Lemma preparePublishSerial_spec dir remote force w d w' :
  serial_ok dir -> (forall r, remote = Ok r -> serial_ok r) ->
  exec (preparePublishSerial dir remote force) w (Ok d) w' ->
  w' = w /\ serial_ok d /\ above_all dir remote (w_dir w) (dir_Serial d) /\
  (forall e, remote = Err e -> is_not_found e = true \/ force = true) /\
  exists now, d = set_dir_CreatedAt (Stamp now) (set_dir_Serial (dir_Serial d) dir).
Proof.
  intros Hd Hr. unfold preparePublishSerial. rewrite exec_act_bind_Ok.
  intros (d1 & w1 & [Hq1 ->]%exec_lift_Ok & Hx). apply exec_act_bind_Ok in Hx as (f1 & w1 & [-> ->]%exec_ask_Ok & Hx).
  apply exec_act_bind_Ok in Hx as (d2 & w1 & [Hq2 ->]%exec_lift_Ok & Hx).
  apply exec_act_bind_Ok in Hx as (f2 & w1 & [-> ->]%exec_ask_Ok & Hx).
  apply exec_act_bind_Ok in Hx as (d3 & w1 & [Hq3 ->]%exec_lift_Ok & Hx).
  apply exec_act_bind_Ok in Hx as (now & w1 & ->%exec_ask_Ok & [Hb ->]%exec_lift_Ok).
  apply guard_err_Ok in Hb as [Hmax [= <-]]. apply Z.eqb_neq in Hmax.
  apply reconcile_Ok in Hq1 as (s1 & -> & Hs1 & Hrem & Herr & Hc1).
  apply raise_to_floor_Ok in Hq2 as (s2 & -> & Hs2 & Hf2 & Hc2).
  apply raise_to_floor_Ok in Hq3 as (s3 & -> & Hs3 & Hf3 & Hc3). cbn [dir_Serial set_dir_Serial set_dir_CreatedAt] in *.
  assert (R1 : 0 <= s1 < 2 ^ 64) by (destruct Hc1 as [->|(r & -> & ->)]; [done|by apply Hr]).
  assert (R2 : 0 <= s2 < 2 ^ 64) by (destruct Hc2 as [->|E]; [done|by apply readSerial_range in E]).
  assert (R3 : 0 <= s3 < 2 ^ 64) by (destruct Hc3 as [->|E]; [done|by apply readSerial_range in E]).
  unfold max_uint64 in Hmax. change (2 ^ 64) with 18446744073709551616 in *.
  split; [done|]. split; [unfold serial_ok; cbn; change (2 ^ 64) with 18446744073709551616; lia|].
  split; [|split; [done|exists now; by destruct dir]].
  split; [lia|]. split; [intros r E; specialize (Hrem r E); lia|].
  split; [intros m E; specialize (Hf2 m E); lia|intros m E; specialize (Hf3 m E); lia].
Qed.
Lemma raise_serial_ok dir f d : raise_to_floor dir (readSerial f) = Ok d -> serial_ok dir -> serial_ok d.
Proof.
  intros (s & -> & _ & _ & Hc)%raise_to_floor_Ok Hd. unfold serial_ok. cbn [dir_Serial set_dir_Serial].
  destruct Hc as [->|E]; [done|by apply readSerial_range in E].
Qed.

Lemma preparePublishSerial_ok dir remote force :
  serial_ok dir -> (forall r, remote = Ok r -> serial_ok r) ->
  yields serial_ok (preparePublishSerial dir remote force).
Proof.
  intros Hd Hr. eapply (yields_bind serial_ok).
  { apply yields_lift. intros d (s & -> & _ & _ & _ & Hc)%reconcile_Ok. unfold serial_ok. cbn [dir_Serial set_dir_Serial].
    destruct Hc as [->|(r & E & ->)]; [done|by apply Hr]. }
  intros d1 Hd1. eapply (yields_bind (fun f => exists fl, f = readSerial fl)); [apply yields_read; eauto|].
  intros f1 [fl1 ->]. eapply (yields_bind serial_ok); [apply yields_lift; intros d2 E; by eapply raise_serial_ok|].
  intros d2 Hd2. eapply (yields_bind (fun f => exists fl, f = readSerial fl)); [apply yields_read; unfold ReadPublishSerial; eauto|].
  intros f2 [fl2 ->]. eapply (yields_bind serial_ok); [apply yields_lift; intros d3 E; by eapply raise_serial_ok|].
  intros d3 Hd3. apply yields_any. intros now. apply yields_lift. intros d [Hm [= <-]]%guard_err_Ok.
  apply Z.eqb_neq in Hm. unfold serial_ok, max_uint64 in *. cbn [dir_Serial set_dir_Serial set_dir_CreatedAt].
  change (2 ^ 64) with 18446744073709551616 in *. lia.
Qed.

(** *** The discipline of every publishing function *)

Lemma preparePublishSerial_disciplined dir remote force : disciplined (preparePublishSerial dir remote force).
Proof. unfold preparePublishSerial. disc. Qed.

Lemma fetchDirectory_disciplined cfg : disciplined (fetchDirectory cfg).
Proof. unfold fetchDirectory. disc. Qed.

Lemma fetchAdminDirectory_disciplined cfg : disciplined (fetchAdminDirectory cfg).
Proof.
  unfold fetchAdminDirectory. apply disciplined_bind; [apply disciplined_attempt, fetchDirectory_disciplined|].
  intros remote. apply disciplined_bind; [disc|]. intros source. cbv zeta. disc.
Qed.

Lemma loadAdminDrop_disciplined cfg : disciplined (loadAdminDrop cfg).
Proof. unfold loadAdminDrop. disc. Qed.

Lemma admin_start_disciplined cfg : disciplined (admin_start cfg).
Proof.
  unfold admin_start, loadAdminDrop. disc.
Qed.

(** The upload happens under the serial just reserved. *)
Lemma publishDirectory_disciplined cfg dir writeSource :
  serial_ok dir -> disciplined (publishDirectory cfg dir writeSource).
Proof.
  intros Hd. unfold publishDirectory. apply disciplined_bind; [disc|]. intros now.
  apply disciplined_bind; [disc|]. intros seed.
  eapply (disciplined_bind_yields (fun blob => sealed (dir, blob))); [disc| |].
  { apply yields_lift. intros blob Hs. by exists now, seed, (dc_PublisherKey (c_Directory cfg)). }
  intros blob Hblob tok. cbn [act_bind prog_bind call obeys permitted]. split; [exact Hd|].
  intros [[]|e] _; cbn [prog_bind obeys token_after is_ok permitted]; [|done].
  split; [done|]. intros [u|e] _; cbn [prog_bind]; [|done].
  match goal with |- obeys _ ?p => assert (Hp : disciplined p); [|apply Hp] end.
  intros tok'. split; [done|]. intros now2 _. cbn [prog_bind]. split; [exact Hd|]. intros [[]|e] _; cbn [prog_bind]; [|done].
  apply obeys_bind.
  - destruct writeSource; [|done]. split; [done|]. intros now3 _. by split.
  - intros [v|e]; [|by intros t]. intros t. by split.
Qed.

Lemma saveAdminDirectory_disciplined cfg dir noPublish :
  serial_ok dir -> disciplined (saveAdminDirectory cfg dir noPublish).
Proof.
  intros Hd. unfold saveAdminDirectory. destruct noPublish.
  - apply disciplined_bind; [disc|]. intros now. apply disciplined_bind; [by apply disciplined_update|]. intros u. disc.
  - eapply disciplined_bind_yields; [apply disciplined_attempt, fetchDirectory_disciplined|apply yields_attempt, fetchDirectory_sound|].
    intros remote Hr. eapply disciplined_bind_yields; [apply preparePublishSerial_disciplined| |].
    { apply preparePublishSerial_ok; [done|]. intros r E. by apply Hr. }
    intros d Hd'. apply disciplined_bind; [by apply publishDirectory_disciplined|]. intros u. disc.
Qed.

Lemma PublishCmd_disciplined cfg force : disciplined (PublishCmd_Run cfg force).
Proof.
  unfold PublishCmd_Run. apply disciplined_bind; [apply admin_start_disciplined|]. intros c.
  eapply (disciplined_bind_yields (fun r => forall s, r = Ok s -> sound_dir s)); [disc| |].
  { apply yields_read. intros sd s. apply ReadSource_sound. }
  intros source Hs. eapply (disciplined_bind_yields sound_dir); [disc| |].
  { apply yields_lift. intros s Hs'%wrap_err_Ok. by apply Hs. }
  intros s [_ Hs']. eapply disciplined_bind_yields; [apply disciplined_attempt, fetchDirectory_disciplined|apply yields_attempt, fetchDirectory_sound|].
  intros remote Hr. eapply disciplined_bind_yields; [apply preparePublishSerial_disciplined| |].
  { apply preparePublishSerial_ok; [done|]. intros r E. by apply Hr. }
  intros d Hd. by apply publishDirectory_disciplined.
Qed.

Lemma fetchSyncDirectory_sound cfg : yields (fun r => sound_dir (fst r)) (fetchSyncDirectory cfg).
Proof.
  unfold fetchSyncDirectory. apply yields_any. intros [blob|e].
  - eapply (yields_bind sound_dir); [apply yields_lift; intros d; apply open_blob_valid|]. intros dir Hd.
    apply yields_any. intros [m|e]; apply yields_any; intros _; by apply yields_done.
  - eapply (yields_bind (fun r => forall d p, r = Ok (d, p) -> sound_dir d)).
    { apply yields_read. intros sd d p. apply Read_sound. }
    intros [[d p]|ce] Hc; apply yields_lift; [|done]. intros a [= <-]. by eapply Hc.
Qed.

Lemma runSyncOnce_disciplined cfg : disciplined (runSyncOnce cfg).
Proof.
  unfold runSyncOnce. apply disciplined_bind; [unfold loadReadDrop; disc|]. intros _.
  eapply disciplined_bind_yields; [|apply fetchSyncDirectory_sound|].
  { unfold fetchSyncDirectory. disc. }
  intros [dir de] [_ Hd]. apply disciplined_bind; [disc|]. intros now.
  apply disciplined_bind; [by apply disciplined_update|]. intros u. disc.
Qed.

Lemma SyncCmd_disciplined cfg : disciplined (SyncCmd_Run cfg).
Proof.
  unfold SyncCmd_Run. apply disciplined_bind; [disc|]. intros c.
  apply disciplined_bind; [apply runSyncOnce_disciplined|]. intros u. disc.
Qed.
End admin_facts.

(** ** Properties *)

Section admin_properties.
Context `{CryptoLib} `{UnicodeTables} `{Msgpack} `{Secp} `{UrlLib} `{!CryptoLaws} `{!MsgpackLaws}.

(** C35: the serial a publish goes out under is above everything known to be
    taken (the working copy, the fetched remote, the cached directory's mark and
    the last reserved serial), it stays a uint64, nothing else but the creation
    time changes, and a remote that cannot be read is only passed over when it
    is missing or the operator forces it. *)
Theorem preparePublishSerial_fresh dir remote force w d w' :
  serial_ok dir -> (forall r, remote = Ok r -> serial_ok r) ->
  exec (preparePublishSerial dir remote force) w (Ok d) w' ->
  w' = w /\ serial_ok d /\ above_all dir remote (w_dir w) (dir_Serial d) /\
  (forall e, remote = Err e -> is_not_found e = true \/ force = true) /\
  exists now, d = set_dir_CreatedAt (Stamp now) (set_dir_Serial (dir_Serial d) dir).
Proof. apply preparePublishSerial_spec. Qed.

Lemma Write_update w now dir r w' :
  serial_ok dir -> answer w (Update (OpWrite now dir "")) r w' -> r = Ok tt ->
  w_uploads w' = w_uploads w /\ ReadSerial (w_dir w') = Ok (dir_Serial dir) /\
  (forall m, ReadSerial (w_dir w) = Ok m -> m <= dir_Serial dir).
Proof.
  intros Hd (sd' & Ho & ->) ->. split; [done|]. unfold update_outcome in Ho. cbn [op_plan] in Ho.
  destruct (Write now (w_dir w) dir "") as [plan|e] eqn:E; [|by destruct Ho].
  destruct Ho as [(_ & _ & ->)|(n & e & [=] & _)]. unfold Write in E. apply bind_Ok in E as (p & _ & E). cbv zeta in E.
  apply read_cases in E as [-> Hf]. cbn [set_w_dir w_dir].
  destruct (run_write (w_dir w) (serial_text (dir_Serial dir)) p {| state_LastSync := now; state_LastETag := ""; state_Serial := dir_Serial dir |})
    as [f ->]. destruct (w_dir w). split.
  - unfold ReadSerial. simpl. by apply readSerial_text.
  - intros m Hm. unfold ReadSerial in Hm. simpl in *. destruct Hf as [->|(prev & Hp & Ht)]; [done|].
    rewrite Hm in Hp. injection Hp as <-. bool_solve. lia.
Qed.

Lemma exec_fetchSync cfg w dir de w' :
  exec (fetchSyncDirectory cfg) w (Ok (dir, de)) w' ->
  w' = w /\ sound_dir dir /\
  match de with
  | None => exists blob, open_blob cfg blob = Ok dir
  | Some _ => exists p, Read (w_dir w) = Ok (dir, p)
  end.
Proof.
  unfold fetchSyncDirectory. intros (blob & w1 & Hg & Hx)%exec_act_bind_Ok.
  apply (proj1 (exec_attempt_Ok _ _ _ _)) in Hg.
  apply exec_call in Hg. cbn [answer] in Hg. subst w1. destruct blob as [blob|e].
  - apply exec_act_bind_Ok in Hx as (d & w1 & [Ho ->]%exec_lift_Ok & Hx).
    apply exec_act_bind_Ok in Hx as (f & w1 & [-> ->]%exec_ask_Ok & Hx).
    destruct (ReadSerial (w_dir w)) as [m|e]; apply exec_act_bind_Ok in Hx as (u & w1 & [_ ->]%exec_check_Ok & Hx);
      destruct Hx as [[= -> ->] ->]; split_and!; eauto using open_blob_valid.
    + by eapply open_blob_valid.
    + by eapply open_blob_valid.
  - apply exec_act_bind_Ok in Hx as (f & w1 & [-> ->]%exec_ask_Ok & [Hx ->]%exec_lift_Ok).
    destruct (Read (w_dir w)) as [[d p]|ce] eqn:E; [|done]. injection Hx as <- <-.
    split_and!; [done|by eapply Read_sound|by exists p].
Qed.

Lemma exec_runSync cfg w r w' :
  exec (runSyncOnce cfg) w (Ok r) w' ->
  Validate.Validate (sr_Directory r) = Ok tt /\ w_uploads w' = w_uploads w /\
  sr_Serial r = dir_Serial (sr_Directory r) /\
  (forall m, ReadSerial (w_dir w) = Ok m -> m <= sr_Serial r) /\
  ReadSerial (w_dir w') = Ok (sr_Serial r) /\
  (sr_FromCache r = false <-> sr_StaleErr r = None) /\
  (sr_FromCache r = false -> exists blob, open_blob cfg blob = Ok (sr_Directory r)) /\
  (sr_FromCache r = true -> exists p, Read (w_dir w) = Ok (sr_Directory r, p)).
Proof.
  unfold runSyncOnce, loadReadDrop. intros (u & w1 & ->%exec_call & Hx)%exec_act_bind_Ok.
  apply exec_act_bind_Ok in Hx as ([dir de] & w1 & (-> & [Hv Hs] & Hsrc)%exec_fetchSync & Hx).
  apply exec_act_bind_Ok in Hx as (now & w1 & ->%exec_ask_Ok & Hx).
  apply exec_act_bind_Ok in Hx as (u2 & w1 & Ha%exec_call & Hx). destruct u2.
  destruct (Write_update _ _ _ _ _ Hs Ha eq_refl) as (Hu & Hr & Hm). destruct Hx as [[= ->] ->].
  cbn [sr_Directory sr_Serial sr_FromCache sr_StaleErr].
  split_and!; try done; destruct de; try done; by split.
Qed.

(** C4: a sync never rolls back and never invents: the directory it returns is
    valid, its serial is at or above the mark the node had and is the mark the
    node has afterwards; it was opened from the drop's answer under the pinned
    publisher key, or, when the drop failed, it is the cached one. *)
Theorem runSyncOnce_safe cfg w r w' :
  exec (runSyncOnce cfg) w (Ok r) w' ->
  Validate.Validate (sr_Directory r) = Ok tt /\ w_uploads w' = w_uploads w /\
  sr_Serial r = dir_Serial (sr_Directory r) /\
  (forall m, ReadSerial (w_dir w) = Ok m -> m <= sr_Serial r) /\
  ReadSerial (w_dir w') = Ok (sr_Serial r) /\
  (sr_FromCache r = false <-> sr_StaleErr r = None) /\
  (sr_FromCache r = false -> exists blob, open_blob cfg blob = Ok (sr_Directory r)) /\
  (sr_FromCache r = true -> exists p, Read (w_dir w) = Ok (sr_Directory r, p)).
Proof. apply exec_runSync. Qed.

(** The copy an admin edit starts from: the working copy unless what the drop
    serves is strictly newer; the cache when there is neither. *)
Definition edit_base (cfg : Config) (sd : StateDir) (base : Directory) : Prop :=
  ReadSource sd = Ok base \/
  (exists blob, open_blob cfg blob = Ok base /\
     match ReadSource sd with
     | Ok s => dir_Serial s < dir_Serial base
     | Err e => is_not_exist e = true
     end) \/
  (exists p e, Read sd = Ok (base, p) /\ ReadSource sd = Err e /\ is_not_exist e = true).

Lemma exec_fetchAdmin cfg w d w' :
  exec (fetchAdminDirectory cfg) w (Ok d) w' -> w' = w /\ sound_dir d /\ edit_base cfg (w_dir w) d.
Proof.
  intros Hx. assert (Hs : sound_dir d) by (by apply (exec_ensures _ _ (fetchAdminDirectory_sound cfg) _ _ _ Hx)).
  revert Hx. unfold fetchAdminDirectory, fetchDirectory.
  intros (remote & w1 & Hf & Hx)%exec_act_bind_Ok.
  apply (proj1 (exec_attempt_Ok _ _ _ _)) in Hf.
  assert (Hw : w1 = w /\ forall r, remote = Ok r -> exists blob, open_blob cfg blob = Ok r).
  { unfold act_bind in Hf. apply exec_bind in Hf as (b & w2 & Hg & Hf). apply exec_call in Hg. cbn [answer] in Hg. subst w2.
    destruct b as [b|e]; destruct Hf as [-> ->]; (split; [done|]); eauto. done. }
  destruct Hw as [-> Hr]. clear Hf.
  apply exec_act_bind_Ok in Hx as (src & w1 & [-> ->]%exec_ask_Ok & Hx). cbv zeta in Hx.
  unfold edit_base. destruct (ReadSource (w_dir w)) as [s|e] eqn:Es.
  - destruct remote as [r|fe].
    + destruct (Z.leb_spec (dir_Serial r) (dir_Serial s)).
      * destruct Hx as [[= ->] ->]. split; [done|split; [exact Hs|by left]].
      * apply exec_lift_Ok in Hx as [[= ->] ->]. destruct (Hr _ eq_refl) as (blob & Hb).
        split; [done|split; [exact Hs|]]. right; left. by exists blob.
    + destruct Hx as [[= ->] ->]. split; [done|split; [exact Hs|by left]].
  - destruct (is_not_exist e) eqn:Ee; cbn [negb] in Hx; [|by apply exec_lift_Ok in Hx as [? _]].
    destruct remote as [r|fe].
    + destruct Hx as [[= ->] ->]. destruct (Hr r eq_refl) as (blob & Hb).
      split; [done|split; [exact Hs|]]. right; left. by exists blob.
    + apply exec_act_bind_Ok in Hx as (c & w1 & [-> ->]%exec_ask_Ok & [Hx ->]%exec_lift_Ok).
      destruct (Read (w_dir w)) as [[d' p]|ce]; [|done]. injection Hx as <-.
      split; [done|split; [exact Hs|]]. right; right. by exists p, e.
Qed.

(** An admin edit starts from the right copy: from the working copy unless the
    published directory is strictly newer (so deferred edits are never lost to an
    older or equal remote, nor a newer remote to a stale backup), and from the
    cache only when there is neither; nothing is written. *)
Theorem fetchAdminDirectory_source cfg w d w' :
  exec (fetchAdminDirectory cfg) w (Ok d) w' ->
  w' = w /\ Validate.Validate d = Ok tt /\ edit_base cfg (w_dir w) d.
Proof. intros (-> & [Hv _] & Hb)%exec_fetchAdmin. done. Qed.
End admin_properties.

(** ** Samples *)

Section samples.
#[local] Existing Instances toy_crypto toy_msgpack ascii_tables toy_secp no_urls.
#[local] Existing Instances toy_crypto_laws toy_msgpack_laws.

Definition sample_cfg : Config := ApplyDefaults sample_config.

(** A drop that serves the sample directory. *)
Definition sample_oracle : Oracle := {|
  o_now := 2000 * Second; o_seed := 1; o_wg := fill "n" 32;
  o_age := "AGE-SECRET-KEY-1new"; o_ed := fill "e" 64;
  o_file := fun _ => Err os_ErrNotExist; o_line := Err (errors_New "no private key provided"); o_get := Ok sample_blob; o_put := Ok tt; o_peers := Ok [] |}.

Definition fresh_world : World := {| w_dir := empty_state_dir; w_uploads := []; w_boots := [] |}.

Definition raised : result Directory * World :=
  run sample_oracle (preparePublishSerial sample_dir (Ok sample_dir) false) fresh_world.

Lemma raised_Ok : fst raised = Ok (value zero_directory (fst raised)).
Proof. apply value_Ok. vm_compute. reflexivity. Qed.

Lemma raised_exec :
  exec (preparePublishSerial sample_dir (Ok sample_dir) false) fresh_world
    (Ok (value zero_directory (fst raised))) (snd raised).
Proof. rewrite <- raised_Ok. exact (run_exec sample_oracle _ _). Qed.

Lemma sample_in_range : serial_ok sample_dir.
Proof. split; [discriminate|reflexivity]. Qed.

Lemma preparePublishSerial_fresh_witness : 7 < dir_Serial (value zero_directory (fst raised)).
Proof.
  pose proof raised_exec as Hx. pose proof sample_in_range as Hs.
  generalize dependent (value zero_directory (fst raised)). generalize (snd raised). intros w' d Hx.
  refine (proj1 (proj1 (proj2 (proj2 (preparePublishSerial_fresh _ _ _ _ _ _ Hs _ Hx))))).
  intros d' [= <-]. exact Hs.
Defined.

Definition synced : result syncResult * World := run sample_oracle (runSyncOnce sample_cfg) fresh_world.
Definition no_result : syncResult :=
  {| sr_Serial := 0; sr_FromCache := false; sr_StaleErr := None; sr_Directory := zero_directory |}.

Lemma synced_exec : exec (runSyncOnce sample_cfg) fresh_world (Ok (value no_result (fst synced))) (snd synced).
Proof.
  assert (Hr : fst synced = Ok (value no_result (fst synced))) by (apply value_Ok; vm_compute; reflexivity).
  rewrite <- Hr. exact (run_exec sample_oracle _ _).
Qed.

Lemma runSyncOnce_safe_witness :
  ReadSerial (w_dir (snd synced)) = Ok (sr_Serial (value no_result (fst synced))).
Proof.
  pose proof synced_exec as Hx.
  generalize dependent (value no_result (fst synced)). generalize (snd synced). intros w' d Hx.
  destruct (runSyncOnce_safe _ _ _ _ Hx) as (_ & _ & _ & _ & Hm & _). exact Hm.
Defined.

Definition edited : result Directory * World := run sample_oracle (fetchAdminDirectory sample_cfg) fresh_world.

Lemma edited_exec :
  exec (fetchAdminDirectory sample_cfg) fresh_world (Ok (value zero_directory (fst edited))) (snd edited).
Proof.
  assert (Hr : fst edited = Ok (value zero_directory (fst edited))) by (apply value_Ok; vm_compute; reflexivity).
  rewrite <- Hr. exact (run_exec sample_oracle _ _).
Qed.

Lemma fetchAdminDirectory_source_witness : Validate.Validate (value zero_directory (fst edited)) = Ok tt.
Proof.
  pose proof edited_exec as Hx.
  generalize dependent (value zero_directory (fst edited)). generalize (snd edited). intros w' d Hx.
  destruct (fetchAdminDirectory_source _ _ _ _ Hx) as (_ & Hv & _). exact Hv.
Defined.
End samples.
