(* ===== verification/Enroll.v ===== *)
(** * Enroll: the membership commands of internal/cli

    addnode.go, removenode.go, setdomain.go, rendernode.go, the configuration
    text of qrconfig.go, and the endpoint observation of up.go, which publishes
    the same way. *)
From stdpp Require Import base tactics option list strings gmap.
From Stdlib Require Import Ascii ZArith Lia.
From S2P Require Import Prelude GoStrings GoNum GoNet GoBase64 Keys Directory DnsName IpAlloc Validate Wire Toy Codec Relay Observe Discovery Schema Bech32 Nostr Config Cache Bootstrap Drop Prog Admin.
Open Scope Z_scope.
Open Scope act_scope.

Definition clientTincan : string := "tincan".
Definition clientWireGuard : string := "wireguard".

Record AddNodeCmd := {
  an_Name : string;
  an_ClientType : string;
  an_PubKey : string;
  an_Endpoint : string;
  an_Relay : bool;
  an_NoPublish : bool;
  an_Bootstrap : string;
  an_AgeRecipient : string;
  an_WGQR : bool;
  an_WGQRPNG : string;
  an_WGConfig : string }.

Definition addnode_validateFlags (c : AddNodeCmd) : result unit :=
  let anyWG := an_WGQR c || nonempty (an_WGQRPNG c) || nonempty (an_WGConfig c) in
  guard_err (an_Relay c && negb (nonempty (an_Endpoint c)))
    (errors_New "--relay requires --endpoint host:port: a relay must publish a reachable address")
  (if String.eqb (an_ClientType c) clientWireGuard then
     guard_err (nonempty (an_Bootstrap c))
       (errors_New "--bootstrap applies to --client-type=tincan; plain WireGuard clients use --wg-qr, --wg-qr-png, or --wg-config")
     (guard_err (negb anyWG)
        (errors_New "--client-type=wireguard needs at least one enrollment artifact: --wg-qr, --wg-qr-png, or --wg-config")
      (guard_err (nonempty (an_PubKey c))
         (errors_New "--client-type=wireguard delivers a generated private key in its artifacts; omit --pub-key so tincan generates the keypair")
       (guard_err (an_Relay c)
          (errors_New "--relay applies to --client-type=tincan; a plain WireGuard client is a hub-and-spoke spoke, not a relay")
          (Ok tt))))
   else
     guard_err anyWG
       (errors_New "--wg-qr, --wg-qr-png, and --wg-config require --client-type=wireguard")
     (guard_err (nonempty (an_AgeRecipient c) && negb (nonempty (an_PubKey c)))
        (errors_New "--age-recipient pairs with --pub-key (the operator's locally generated keys); omit both to have tincan generate the keypair")
      (guard_err (nonempty (an_PubKey c) && negb (nonempty (an_AgeRecipient c)))
         (errors_New "--pub-key needs --age-recipient too: a tincan node decrypts the directory with its own age key (use `tincan join --generate-key` to produce both)")
         (Ok tt)))).

(** ** qrconfig.go *)

Definition peerHub (dir : Directory) (selfPubKey : string) : option Node := RelayTarget dir selfPubKey.

Definition line (ws : list string) : string := concat_words ws +:+ String (chr 10) "".

Definition renderWGQuickConfig (privateKey tunnelIP networkCIDR domain : string) (hub : Node) : string :=
  line ["[Interface]"] +:+
  (if String.eqb privateKey "" then line ["# PrivateKey = <paste this node's WireGuard private key>"]
   else line ["PrivateKey = "; privateKey]) +:+
  line ["Address = "; tunnelIP; "/32"] +:+
  (if negb (String.eqb domain "") then line ["DNS = "; node_TunnelIP hub; ", "; domain] else "") +:+
  line [] +:+
  line ["[Peer]"] +:+
  line ["PublicKey = "; node_PublicKey hub] +:+
  (if negb (String.eqb (node_PSK hub) "") then line ["PresharedKey = "; node_PSK hub] else "") +:+
  line ["Endpoint = "; node_Endpoint hub] +:+
  line ["AllowedIPs = "; networkCIDR] +:+
  line ["PersistentKeepalive = 25"].

Section enroll.
Context `{CryptoLib} `{UnicodeTables} `{Msgpack} `{Secp} `{UrlLib}.

(** The QR and file artifacts shared by add-node and render-node. *)
Definition write_artifacts (png_path conf_path wgConf : string) : Act unit :=
  _ <- (if nonempty png_path then
          png <- act_wrap (fun e => Errorf "render QR PNG: %w" [e]) (call (QrPNG wgConf)) ;;
          act_wrap (fun e => Errorf "write QR PNG %s: %w" [e]) (call (WriteSecretFile png_path png))
        else done_ tt) ;;
  if nonempty conf_path then
    act_wrap (fun e => Errorf "write WireGuard config %s: %w" [e]) (call (WriteSecretFile conf_path wgConf))
  else done_ tt.

(** [emitQRTerminal] fails exactly when the text does not fit a QR code. *)
Definition emitQRTerminal (wgConf : string) : Act unit :=
  _ <- call (QrPNG wgConf) ;; done_ tt.

(** The keys of the new node: (public, generated private). *)
Definition addnode_wg_key (c : AddNodeCmd) : Act (string * string) :=
  if String.eqb (an_PubKey c) "" then
    '(priv, pub) <- call NewWGKeypair ;;
    done_ (pub, priv)
  else
    _ <- lift (ParseWGPublic (an_PubKey c)) ;;
    done_ (an_PubKey c, "").

(** (recipient, generated identity) *)
Definition addnode_age_key (c : AddNodeCmd) (wgClient : bool) : Act (string * string) :=
  if wgClient then done_ (an_AgeRecipient c, "")
  else if String.eqb (an_AgeRecipient c) "" then
    '(id, rcpt) <- call NewAgeIdentity ;;
    done_ (rcpt, id)
  else
    _ <- lift (ParseAgeRecipient (an_AgeRecipient c)) ;;
    done_ (an_AgeRecipient c, "").

Definition new_node (c : AddNodeCmd) (publicKey tunnelIP ageRecipient : string) : Node :=
  {| node_Name := an_Name c; node_PublicKey := publicKey; node_TunnelIP := tunnelIP;
     node_AgeRecipient := ageRecipient; node_Endpoint := an_Endpoint c; node_Relay := an_Relay c;
     node_ObservedEndpoint := ""; node_ObservedAt := zero_time; node_PSK := "" |}.

Definition AddNodeCmd_Run (cfg : result Config) (c : AddNodeCmd) : Act unit :=
  _ <- lift (addnode_validateFlags c) ;;
  listenPort <- lift (listenPortFromEndpoint (an_Endpoint c)) ;;
  let wgClient := String.eqb (an_ClientType c) clientWireGuard in
  cfg <- admin_start cfg ;;
  dir <- fetchAdminDirectory cfg ;;
  _ <- check (match nodeByName dir (an_Name c) with Some _ => true | None => false end)
         (errors_New "node %q already exists") ;;
  _ <- lift (wrap_err (fun _ => errors_New "node name %q: %v (names are used as DNS labels)")
               (ValidateLabel (an_Name c))) ;;
  _ <- check (negb (String.eqb (dir_Domain dir) "") &&
              existsb (fun n => strings_EqualFold (node_Name n) (an_Name c)) (dir_Nodes dir))
         (errors_New "node name %q collides with %q: DNS names are case-insensitive while domain %q is set") ;;
  '(publicKey, generatedPrivateKey) <- addnode_wg_key c ;;
  '(ageRecipient, generatedAgeIdentity) <- addnode_age_key c wgClient ;;
  _ <- check (existsb (fun n => String.eqb (node_PublicKey n) publicKey) (dir_Nodes dir))
         (errors_New "public key already belongs to node %q") ;;
  hub <- (if wgClient then
            lift (of_option (errors_New "--client-type=wireguard needs a hub peer with a public endpoint, but no node has one; add a reachable node first with `tincan add-node --endpoint host:port`")
                    (peerHub dir publicKey))
          else done_ zero_node) ;;
  tunnelIP <- lift (NextFreeIP (dir_NetworkCIDR dir) (takenIPs dir)) ;;
  let wgConf := if wgClient
                then renderWGQuickConfig generatedPrivateKey tunnelIP (dir_NetworkCIDR dir) (dir_Domain dir) hub
                else "" in
  _ <- (if wgClient then write_artifacts (an_WGQRPNG c) (an_WGConfig c) wgConf else done_ tt) ;;
  let dir := set_dir_Nodes (dir_Nodes dir ++ [new_node c publicKey tunnelIP ageRecipient]) dir in
  dir <- saveAdminDirectory cfg dir (an_NoPublish c) ;;
  _ <- (if nonempty (an_Bootstrap c) then
          call (WriteBootstrap (BootFile (an_Bootstrap c))
            (WithNode (Network cfg (dir_Serial dir))
               {| bn_Name := an_Name c; bn_TunnelIP := tunnelIP; bn_ListenPort := listenPort;
                  bn_PublicKey := publicKey; bn_PrivateKey := generatedPrivateKey;
                  bn_AgeIdentity := generatedAgeIdentity |}))
        else done_ tt) ;;
  if wgClient && an_WGQR c then emitQRTerminal wgConf else done_ tt.

(** ** removenode.go *)

Definition without_node (idx : nat) (dir : Directory) : Directory :=
  set_dir_Nodes (take idx (dir_Nodes dir) ++ drop (S idx) (dir_Nodes dir)) dir.

Definition RemoveNodeCmd_Run (cfg : result Config) (name : string) (noPublish : bool) : Act unit :=
  cfg <- admin_start cfg ;;
  dir <- fetchAdminDirectory cfg ;;
  '(node, idx) <- lift (of_option (errors_New "node %q not found") (nodeByName dir name)) ;;
  _ <- saveAdminDirectory cfg (without_node idx dir) noPublish ;;
  done_ tt.

(** ** setdomain.go *)

(** The names [namesUsableAsLabels] complains about. *)
Fixpoint bad_names (nodes : list Node) (seenLower : gmap string string) : list string :=
  match nodes with
  | [] => []
  | n :: nodes =>
      match ValidateLabel (node_Name n) with
      | Err _ => node_Name n :: bad_names nodes seenLower
      | Ok _ =>
          let lower := strings_ToLower (node_Name n) in
          match seenLower !! lower with
          | Some _ => node_Name n :: bad_names nodes seenLower
          | None => bad_names nodes (<[lower := node_Name n]> seenLower)
          end
      end
  end.

Definition namesUsableAsLabels (dir : Directory) : result unit :=
  guard_err (negb (Nat.eqb (length (bad_names (dir_Nodes dir) ∅)) 0))
    (errors_New "node names are not usable as DNS labels: %s; rename them (remove-node, then add-node) before setting a domain")
  (Ok tt).

(** The directory with its domain set, or cleared. *)
Definition domain_edit (domain : string) (clear : bool) (dir : Directory) : result Directory :=
  if clear then Ok (set_dir_Domain "" dir) else
  let normal := NormalizeDomain domain in
  _ ← wrap_err (fun _ => errors_New "domain %q: %v") (ValidateDomain normal);
  _ ← namesUsableAsLabels dir;
  Ok (set_dir_Domain normal dir).

Definition SetDomainCmd_Run (cfg : result Config) (domain : string) (clear noPublish : bool) : Act unit :=
  _ <- check (nonempty domain && clear) (errors_New "--clear cannot be combined with a domain argument") ;;
  if negb (nonempty domain) && negb clear then
    cfg <- lift cfg ;;
    _ <- loadReadDrop cfg ;;
    _ <- fetchDirectory cfg ;;
    done_ tt
  else
    cfg <- admin_start cfg ;;
    dir <- fetchAdminDirectory cfg ;;
    dir <- lift (domain_edit domain clear dir) ;;
    _ <- saveAdminDirectory cfg dir noPublish ;;
    done_ tt.

(** ** rendernode.go *)

Record RenderNodeCmd := {
  rn_Name : string; rn_PrivateKey : string; rn_WGQR : bool; rn_WGQRPNG : string; rn_WGConfig : string }.

Definition rendernode_validateFlags (c : RenderNodeCmd) : result unit :=
  guard_err ((rn_WGQR c || nonempty (rn_WGQRPNG c)) && negb (nonempty (rn_PrivateKey c)))
    (errors_New "--wg-qr/--wg-qr-png require --private-key: a QR code must be directly scannable, so it can't contain a placeholder key")
  (Ok tt).

(** The text rendered for a node of a directory. *)
Definition rendered_config (c : RenderNodeCmd) (dir : Directory) : result string :=
  '(node, _) ← of_option (errors_New "node %q not found in the directory") (nodeByName dir (rn_Name c));
  _ ← (if nonempty (rn_PrivateKey c) then
         pub ← PublicKeyFromWGPrivate (rn_PrivateKey c);
         guard_err (negb (String.eqb pub (node_PublicKey node)))
           (errors_New "--private-key does not match node %q (its public key is %s)") (Ok tt)
       else Ok tt);
  hub ← of_option (errors_New "node %q has no hub peer with a public endpoint to route through; mark a reachable node with `tincan add-node --relay --endpoint host:port`")
          (peerHub dir (node_PublicKey node));
  guard_err (String.eqb (node_PublicKey node) (node_PublicKey hub))
    (errors_New "node %q is itself the hub/relay; hub-and-spoke configs are for spoke nodes")
  (Ok (renderWGQuickConfig (rn_PrivateKey c) (node_TunnelIP node) (dir_NetworkCIDR dir) (dir_Domain dir) hub)).

Definition RenderNodeCmd_Run (cfg : result Config) (c : RenderNodeCmd) : Act unit :=
  _ <- lift (rendernode_validateFlags c) ;;
  cfg <- lift cfg ;;
  _ <- loadReadDrop cfg ;;
  dir <- fetchDirectory cfg ;;
  wgConf <- lift (rendered_config c dir) ;;
  _ <- write_artifacts (rn_WGQRPNG c) (rn_WGConfig c) wgConf ;;
  if rn_WGQR c then emitQRTerminal wgConf else done_ tt.

(** ** up.go *)

Definition runAdminObservation (cfg : Config) (syncedSerial : Z) (endpointPushedAt : gmap string Time) : Act unit :=
  _ <- lift (wrap_err (fun e => Errorf "[observe].enabled requires admin role: %w" [e]) (RequireAdmin cfg)) ;;
  _ <- call LockAdmin ;;
  _ <- loadAdminDrop cfg ;;
  remote <- attempt (fetchDirectory cfg) ;;
  remote <- lift (wrap_err (fun e => Errorf "fetch directory before observation: %w" [e]) remote) ;;
  _ <- check (dir_Serial remote <? syncedSerial)
         (errors_New "published serial %d is older than synced serial %d") ;;
  source <- ask (ReadState ReadSource) ;;
  source <- lift (wrap_err (fun e => Errorf "read source directory: %w" [e]) source) ;;
  pending <- pendingAdminChanges source remote ;;
  if pending then done_ tt else
  peers <- call KernelPeers ;;
  now <- ask Now ;;
  let '(updated, changed) :=
    MergeObservations remote peers now (od_Or (obs_HandshakeFresh (c_Observe cfg)) DefaultHandshakeFresh)
      endpointPushedAt in
  if negb changed then done_ tt else
  updated <- preparePublishSerial updated (Ok remote) false ;;
  publishDirectory cfg updated true.
End enroll.
