(* ===== verification/Join.v ===== *)
(** * Join: the enrolling commands of internal/cli

    init.go and join.go: how a node gets its first configuration.  What the old
    configuration file and the bootstrap file hold and the random secret key of
    a nostr drop are arguments; the bytes of the new configuration are written
    with [WriteSecretFile] and the command returns the configuration. *)
From stdpp Require Import base tactics option list strings gmap.
From Stdlib Require Import Ascii ZArith Lia.
From S2P Require Import Prelude GoStrings GoNum GoNet GoBase64 Keys Directory DnsName IpAlloc Validate Wire Toy Codec Relay Observe Discovery Schema Bech32 Nostr Config Cache Bootstrap Drop Prog Admin Enroll.
Open Scope Z_scope.
Open Scope act_scope.

(** ** Updating nested configuration fields *)

Definition set_wg_ListenPort (p : Z) (w : WireguardConfig) : WireguardConfig :=
  {| wg_Name := wg_Name w; wg_PublicKey := wg_PublicKey w; wg_PrivateKey := wg_PrivateKey w;
     wg_Interface := wg_Interface w; wg_ListenPort := p; wg_MTU := wg_MTU w; wg_Keepalive := wg_Keepalive w |}.
Definition set_wg_keys (name priv pub : string) (w : WireguardConfig) : WireguardConfig :=
  {| wg_Name := name; wg_PublicKey := pub; wg_PrivateKey := priv;
     wg_Interface := wg_Interface w; wg_ListenPort := wg_ListenPort w; wg_MTU := wg_MTU w;
     wg_Keepalive := wg_Keepalive w |}.
Definition set_StateDir (d : string) (s : SyncConfig) : SyncConfig :=
  {| sync_Interval := sync_Interval s; sync_StateDir := d; sync_PIDFile := sync_PIDFile s;
     sync_MaxDirectoryAge := sync_MaxDirectoryAge s |}.
Definition set_disc_Enabled (b : bool) (d : DiscoveryConfig) : DiscoveryConfig :=
  {| disc_Enabled := Some b; disc_MulticastIPv4 := disc_MulticastIPv4 d;
     disc_MulticastIPv6 := disc_MulticastIPv6 d; disc_BeaconInterval := disc_BeaconInterval d;
     disc_BeaconTTL := disc_BeaconTTL d |}.
Definition set_nostr_keys (author nsec : string) (b : DropBackend) : DropBackend :=
  {| b_Type := b_Type b; b_Endpoint := b_Endpoint b; b_Region := b_Region b; b_Bucket := b_Bucket b;
     b_ObjectKey := b_ObjectKey b; b_AccessKey := b_AccessKey b; b_SecretKey := b_SecretKey b; b_TLS := b_TLS b;
     b_URL := b_URL b; b_Username := b_Username b; b_Password := b_Password b; b_Path := b_Path b;
     b_Provider := b_Provider b; b_Zone := b_Zone b; b_RecordName := b_RecordName b; b_APIToken := b_APIToken b;
     b_AppKey := b_AppKey b; b_AppSecret := b_AppSecret b; b_ConsumerKey := b_ConsumerKey b; b_TTL := b_TTL b;
     b_Resolver := b_Resolver b; b_Relays := b_Relays b; b_Author := author; b_Nsec := nsec;
     b_Identifier := b_Identifier b |}.

(** The Go zero values of the optional sections. *)
Definition zero_wireguard : WireguardConfig :=
  {| wg_Name := ""; wg_PublicKey := ""; wg_PrivateKey := ""; wg_Interface := ""; wg_ListenPort := 0;
     wg_MTU := 0; wg_Keepalive := unset_duration |}.
Definition zero_sync : SyncConfig :=
  {| sync_Interval := unset_duration; sync_StateDir := ""; sync_PIDFile := "";
     sync_MaxDirectoryAge := unset_duration |}.
Definition zero_observe : ObserveConfig :=
  {| obs_Enabled := None; obs_HandshakeFresh := unset_duration; obs_RefreshInterval := unset_duration |}.
Definition zero_discovery : DiscoveryConfig :=
  {| disc_Enabled := None; disc_MulticastIPv4 := ""; disc_MulticastIPv6 := "";
     disc_BeaconInterval := unset_duration; disc_BeaconTTL := unset_duration |}.
Definition zero_dns : DNSConfig :=
  {| dns_ManageHosts := None; dns_Serve := None; dns_Upstream := ""; dns_HostsPath := "" |}.

(** ** init.go *)

Record InitCmd := {
  in_Name : string; in_DropType : string; in_CIDR : string; in_Endpoint : string; in_Relay : bool;
  in_DNSDomain : string; in_StateDir : string; in_FullConfig : bool; in_Force : bool }.

(** The key material [init] generates. *)
Record InitKeys := {
  ik_wgPriv : string; ik_wgPub : string; ik_identity : string; ik_recipient : string;
  ik_publisherPub : string; ik_publisherPriv : string; ik_nsec : string; ik_npub : string }.

Section enrolling.
Context `{CryptoLib} `{UnicodeTables} `{Msgpack} `{Secp} `{UrlLib}.

Definition init_stateDir (c : InitCmd) : string :=
  if nonempty (in_StateDir c) then in_StateDir c else DefaultStateDir.

(** The domain as it will be published. *)
Definition init_domain (c : InitCmd) : result string :=
  if nonempty (in_DNSDomain c) then
    let d := NormalizeDomain (in_DNSDomain c) in
    _ ← wrap_err (fun _ => errors_New "--dns-domain %q: %v") (ValidateDomain d);
    _ ← wrap_err (fun _ => errors_New "--name %q is not a valid DNS label, required with --dns-domain: %v")
          (ValidateLabel (in_Name c));
    Ok d
  else Ok "".

Definition init_drop (c : InitCmd) (k : InitKeys) : DropConfig :=
  let sk := SkeletonDrop (in_DropType c) in
  if String.eqb (in_DropType c) "nostr" then
    {| drop_Admin := set_nostr_keys (ik_npub k) (ik_nsec k) (drop_Admin sk);
       drop_Client := set_nostr_keys (ik_npub k) (b_Nsec (drop_Client sk)) (drop_Client sk) |}
  else sk.

Definition init_config (c : InitCmd) (k : InitKeys) (listenPort : Z) : Config :=
  {| c_Wireguard := {| wg_Name := in_Name c; wg_PublicKey := ik_wgPub k; wg_PrivateKey := ik_wgPriv k;
       wg_Interface := ""; wg_ListenPort := listenPort; wg_MTU := 0; wg_Keepalive := unset_duration |};
     c_Directory := {| dc_NetworkIdentity := ik_identity k; dc_PublisherPubKey := ik_publisherPub k;
       dc_PublisherKey := ik_publisherPriv k |};
     c_Drop := init_drop c k;
     c_Sync := if String.eqb (init_stateDir c) DefaultStateDir then zero_sync
               else set_StateDir (init_stateDir c) zero_sync;
     c_Observe := if in_FullConfig c
                  then {| obs_Enabled := Some true; obs_HandshakeFresh := NewDuration DefaultHandshakeFresh;
                          obs_RefreshInterval := unset_duration |}
                  else zero_observe;
     c_Discovery := if in_FullConfig c then set_disc_Enabled true zero_discovery else zero_discovery;
     c_DNS := zero_dns |}.

Definition init_directory (c : InitCmd) (k : InitKeys) (now : Time) (domain tunnelIP : string) : Directory :=
  {| dir_SchemaVersion := SchemaVersion; dir_Serial := 1; dir_CreatedAt := Stamp now;
     dir_NetworkCIDR := in_CIDR c; dir_Domain := domain;
     dir_Nodes := [{| node_Name := in_Name c; node_PublicKey := ik_wgPub k; node_TunnelIP := tunnelIP;
                      node_AgeRecipient := ik_recipient k; node_Endpoint := in_Endpoint c; node_Relay := in_Relay c;
                      node_ObservedEndpoint := ""; node_ObservedAt := zero_time; node_PSK := "" |}] |}.

Definition init_keys (c : InitCmd) (sk : result SecretKey) : Act InitKeys :=
  '(wgPriv, wgPub) <- call NewWGKeypair ;;
  '(identity, recipient) <- call NewAgeIdentity ;;
  '(pub, priv) <- call NewEd25519Keypair ;;
  '(nsec, npub) <- lift (if String.eqb (in_DropType c) "nostr" then GenerateKey sk else Ok ("", "")) ;;
  done_ {| ik_wgPriv := wgPriv; ik_wgPub := wgPub; ik_identity := identity; ik_recipient := recipient;
           ik_publisherPub := pub; ik_publisherPriv := priv; ik_nsec := nsec; ik_npub := npub |}.

(** helpers.go: what [os.Stat] answers of the file, and the bytes to write to it. *)
Definition configExists (stat : result unit) : result bool :=
  match stat with
  | Ok _ => Ok true
  | Err e => if is_not_exist e then Ok false else Err e
  end.

Definition saveConfig (toml_Encode : Config -> result string) (cfg : Config) (full : bool) : result string :=
  if full then Save toml_Encode cfg else SaveMinimal toml_Encode cfg.

(** [c.Run]: the configuration it saves. *)
Definition InitCmd_Run (stat : result unit) (sk : result SecretKey) (toml_Encode : Config -> result string)
    (config_path : string) (c : InitCmd) : Act Config :=
  exists_ <- lift (configExists stat) ;;
  _ <- check (exists_ && negb (in_Force c)) (errors_New "config %s already exists; use --force to overwrite") ;;
  k <- init_keys c sk ;;
  tunnelIP <- lift (NextFreeIP (in_CIDR c) []) ;;
  listenPort <- lift (listenPortFromEndpoint (in_Endpoint c)) ;;
  _ <- check (in_Relay c && negb (nonempty (in_Endpoint c)))
         (errors_New "--relay requires --endpoint host:port: a relay must publish a reachable address") ;;
  domain <- lift (init_domain c) ;;
  let cfg := init_config c k listenPort in
  now <- ask Now ;;
  let dir := init_directory c k now domain tunnelIP in
  now2 <- ask Now ;;
  _ <- call (Update (OpSource now2 dir)) ;;
  data <- lift (saveConfig toml_Encode cfg (in_FullConfig c)) ;;
  _ <- call (WriteSecretFile config_path data) ;;
  _ <- call (WriteBootstrap DefaultPath (Network cfg (dir_Serial dir))) ;;
  done_ cfg.

(** ** join.go *)

Record JoinCmd := {
  jn_Bootstrap : string; jn_DropType : string; jn_Name : string; jn_PrivateKeyFile : string;
  jn_GenerateKey : bool; jn_StateDir : string; jn_FullConfig : bool; jn_Force : bool }.

Record keyset := { ks_wgPrivate : string; ks_wgPublic : string; ks_ageIdentity : string; ks_ageRecipient : string }.

Definition bs_node (bs : option Bootstrap) : option BootNode := b ← bs; bs_Node b.

Definition verifyPubKey (bs : option Bootstrap) (pub : string) : result unit :=
  match bs_node bs with
  | None => Ok tt
  | Some n =>
      if String.eqb (bn_PublicKey n) "" then Ok tt
      else guard_err (negb (String.eqb (bn_PublicKey n) pub))
             (errors_New "bootstrap public key does not match the provided private key") (Ok tt)
  end.

Definition trimSecret (s : string) : string := strings_TrimSpace s.

Definition readPrivateKey (c : JoinCmd) : Act string :=
  if nonempty (jn_PrivateKeyFile c) then
    data <- call (ReadFile (jn_PrivateKeyFile c)) ;;
    done_ (trimSecret data)
  else call ReadSecretLine.

Definition resolveKeys (c : JoinCmd) (bs : option Bootstrap) (existing : option Config) : Act keyset :=
  match (n ← bs_node bs; if nonempty (bn_PrivateKey n) then Some n else None) with
  | Some n =>
      _ <- check (jn_GenerateKey c || nonempty (jn_PrivateKeyFile c))
             (errors_New "bootstrap already contains a WireGuard private key") ;;
      done_ {| ks_wgPrivate := bn_PrivateKey n; ks_wgPublic := bn_PublicKey n;
               ks_ageIdentity := bn_AgeIdentity n; ks_ageRecipient := "" |}
  | None =>
  if jn_GenerateKey c then
    '(wgPriv, wgPub) <- call NewWGKeypair ;;
    _ <- lift (verifyPubKey bs wgPub) ;;
    '(ageID, ageRcpt) <- call NewAgeIdentity ;;
    done_ {| ks_wgPrivate := wgPriv; ks_wgPublic := wgPub; ks_ageIdentity := ageID; ks_ageRecipient := ageRcpt |}
  else
  match (if nonempty (jn_PrivateKeyFile c) then None else existing) with
  | Some e => done_ {| ks_wgPrivate := wg_PrivateKey (c_Wireguard e); ks_wgPublic := wg_PublicKey (c_Wireguard e);
                       ks_ageIdentity := dc_NetworkIdentity (c_Directory e); ks_ageRecipient := "" |}
  | None =>
      priv <- readPrivateKey c ;;
      pub <- lift (PublicKeyFromWGPrivate priv) ;;
      _ <- lift (verifyPubKey bs pub) ;;
      done_ {| ks_wgPrivate := priv; ks_wgPublic := pub;
               ks_ageIdentity :=
                 match existing with
                 | Some e => if String.eqb (wg_PublicKey (c_Wireguard e)) pub
                             then dc_NetworkIdentity (c_Directory e) else ""
                 | None => "" end;
               ks_ageRecipient := "" |}
  end end.

(** The bootstrap (if any), the drop, the publisher's key and the node's name. *)
Definition join_source (c : JoinCmd) (file : result Bootstrap) : result (option Bootstrap * DropConfig * string * string) :=
  '(bs, dropConfig, publisher, name) ←
    (if nonempty (jn_Bootstrap c) then
       bs ← file;
       Ok (Some bs, {| drop_Admin := empty_backend ""; drop_Client := bs_Drop bs |}, bs_PublisherPubKey bs,
           match bs_Node bs with
           | Some n => if nonempty (jn_Name c) then jn_Name c else bn_Name n
           | None => jn_Name c
           end)
     else guard_err (negb (nonempty (jn_DropType c)))
            (errors_New "--drop-type is required when --bootstrap is omitted")
          (Ok (None, SkeletonClientDrop (jn_DropType c), "", jn_Name c)));
  guard_err (negb (nonempty name)) (errors_New "--name is required when the bootstrap does not include node info")
  (Ok (bs, dropConfig, publisher, name)).

(** The configuration of the earlier join, when it is to be completed. *)
Definition join_existing (c : JoinCmd) (exists_ : bool) (bs : option Bootstrap) (previous : result Config)
  : result (option Config) :=
  match bs_node bs with
  | Some n =>
      if exists_ && negb (nonempty (bn_PrivateKey n)) && negb (jn_GenerateKey c) then
        e ← wrap_err (fun e => Errorf "read existing node keys: %w" [e]) previous;
        _ ← wrap_err (fun e => Errorf "existing config: %w" [e]) (verifyPubKey bs (wg_PublicKey (c_Wireguard e)));
        _ ← wrap_err (fun e => Errorf "existing config needs this node's age identity before bootstrap enrollment: %w" [e])
              (ParseAgeIdentity (dc_NetworkIdentity (c_Directory e)));
        Ok (Some e)
      else Ok None
  | None => Ok None
  end.

Definition join_config (c : JoinCmd) (bs : option Bootstrap) (existing : option Config) (dropConfig : DropConfig)
    (publisher name : string) (k : keyset) : Config :=
  let cfg := {|
    c_Wireguard := set_wg_keys name (ks_wgPrivate k) (ks_wgPublic k)
                     (match existing with Some e => c_Wireguard e | None => zero_wireguard end);
    c_Directory := {| dc_NetworkIdentity := ks_ageIdentity k; dc_PublisherPubKey := publisher; dc_PublisherKey := "" |};
    c_Drop := dropConfig;
    c_Sync := match existing with Some e => c_Sync e | None => zero_sync end;
    c_Observe := zero_observe;
    c_Discovery := match existing with Some e => c_Discovery e | None => zero_discovery end;
    c_DNS := match existing with Some e => c_DNS e | None => zero_dns end |} in
  let wg := match bs_node bs with
            | Some n => if 0 <? bn_ListenPort n then set_wg_ListenPort (bn_ListenPort n) (c_Wireguard cfg)
                        else c_Wireguard cfg
            | None => c_Wireguard cfg end in
  let sync := if nonempty (jn_StateDir c) && negb (String.eqb (jn_StateDir c) DefaultStateDir)
              then set_StateDir (jn_StateDir c) (c_Sync cfg) else c_Sync cfg in
  let disc := if jn_FullConfig c then match disc_Enabled (c_Discovery cfg) with
                                      | None => set_disc_Enabled true (c_Discovery cfg)
                                      | Some _ => c_Discovery cfg end
              else c_Discovery cfg in
  {| c_Wireguard := wg; c_Directory := c_Directory cfg; c_Drop := c_Drop cfg; c_Sync := sync;
     c_Observe := c_Observe cfg; c_Discovery := disc; c_DNS := c_DNS cfg |}.

Definition JoinCmd_Run (stat : result unit) (file : result Bootstrap) (previous : result Config)
    (toml_Encode : Config -> result string) (config_path : string) (c : JoinCmd) : Act Config :=
  exists_ <- lift (configExists stat) ;;
  _ <- check (exists_ && negb (jn_Force c)) (errors_New "config %s already exists; use --force to overwrite") ;;
  '(bs, dropConfig, publisher, name) <- lift (join_source c file) ;;
  existing <- lift (join_existing c exists_ bs previous) ;;
  k <- resolveKeys c bs existing ;;
  let cfg := join_config c bs existing dropConfig publisher name k in
  data <- lift (saveConfig toml_Encode cfg (jn_FullConfig c)) ;;
  _ <- call (WriteSecretFile config_path data) ;;
  _ <- match bs with
       | Some b => if 0 <? bs_Serial b then call (Update (OpFloor (bs_Serial b))) else done_ tt
       | None => done_ tt
       end ;;
  done_ cfg.

(** The beacon port of the firewall hint. *)
Definition discoveryPort : Z :=
  match net_SplitHostPort DefaultDiscoveryMulticastIPv4 with
  | None => 0
  | Some (_, port) => default 0 (strconv_Atoi port)
  end.
End enrolling.
