(* ===== verification/Qr.v ===== *)
(** * Qr: the QR code on a terminal (emitQRTerminal of internal/cli/qrconfig.go)

    A code's modules are a matrix of booleans, true where dark, which the QR library
    makes of a text.  Two rows of modules are packed in one row of half blocks; what
    is printed determines the matrix, with colours and without. *)
From stdpp Require Import base tactics option list strings.
From Stdlib Require Import Ascii ZArith Lia.
From S2P Require Import Prelude GoStrings GoNum Ui.
Open Scope Z_scope.

(** The runes of a row, in UTF-8. *)
Definition half_block (last : Z) : string := String (chr 226) (String (chr 150) (String (chr last) "")).
Definition full_block : string := half_block 136.
Definition upper_half : string := half_block 128.
Definition lower_half : string := half_block 132.

Definition qrBlack : Z := 16.
Definition qrWhite : Z := 231.

(** The upper half has the foreground colour, the lower half the background. *)
Definition qr_cell (color top bottom : bool) : string :=
  if color then
    let fg := if top then qrBlack else qrWhite in
    let bg := if bottom then qrBlack else qrWhite in
    ansi ("38;5;" +:+ strconv_Itoa fg +:+ ";48;5;" +:+ strconv_Itoa bg) +:+ upper_half
  else if top && bottom then full_block else if top then upper_half else if bottom then lower_half else " ".

(** The cells of a row over the next one, where there is one; reading past the end of
    that row panics. *)
Fixpoint qr_cells (color : bool) (top : list bool) (next : option (list bool)) : option string :=
  match top with
  | [] => Some ""
  | t :: top =>
      match next with
      | None => s ← qr_cells color top None; Some (qr_cell color t false +:+ s)
      | Some (b :: bs) => s ← qr_cells color top (Some bs); Some (qr_cell color t b +:+ s)
      | Some [] => None
      end
  end.

Definition qr_row (color : bool) (top : list bool) (next : option (list bool)) : option string :=
  s ← qr_cells color top next;
  Some (s +:+ (if color then ansiReset else "") +:+ newline).

Fixpoint qr_text (color : bool) (bitmap : list (list bool)) : option string :=
  match bitmap with
  | [] => Some ""
  | top :: rest =>
      match rest with
      | [] => qr_row color top None
      | next :: rest => row ← qr_row color top (Some next); s ← qr_text color rest; Some (row +:+ s)
      end
  end.

(** [qrcode.New] may refuse a text; [w.Write] takes what was rendered. *)
Definition emitQR (qr : string -> result (list (list bool))) (content : string) (color : bool) : result (option string) :=
  bitmap ← qr content; Ok (qr_text color bitmap).

Example qr_plain : qr_text false [[true; true; false; false]; [true; false; true; false]; [false; true; false; true]] =
  Some (full_block +:+ upper_half +:+ lower_half +:+ " " +:+ newline +:+ " " +:+ upper_half +:+ " " +:+ upper_half +:+ newline).
Proof. vm_compute. reflexivity. Qed.

(** ** What is printed is read back *)

(** A cell is recognized where it starts, and a row's end is no cell. *)
Lemma cell_inj color t b t' b' s s' : qr_cell color t b +:+ s = qr_cell color t' b' +:+ s' -> t = t' /\ b = b' /\ s = s'.
Proof. destruct color, t, b, t', b'; cbn; intros E; simplify_eq; done. Qed.

Definition row_end (color : bool) : string := (if color then ansiReset else "") +:+ newline.

Lemma end_no_cell color t b s s' : qr_cell color t b +:+ s = row_end color +:+ s' -> False.
Proof. destruct color, t, b; cbn; intros E; simplify_eq. Qed.

(** The lower modules of a row: none is light. *)
Definition below (next : option (list bool)) (n : nat) : list bool := default (replicate n false) next.

(** The first column of a row and the rest of it. *)
Lemma cells_cons color t top next s : qr_cells color (t :: top) next = Some s ->
  (forall l, next = Some l -> length l = S (length top)) ->
  exists b n x, qr_cells color top n = Some x /\ s = qr_cell color t b +:+ x /\
    below next (S (length top)) = b :: below n (length top) /\ forall l, n = Some l -> length l = length top.
Proof.
  intros Hs Hn. cbn [qr_cells] in Hs. destruct next as [[|b bs]|]; [done| |]; apply bind_Some in Hs as (x & Hx & [= <-]).
  - eexists b, (Some bs), x. split_and!; try done. intros l [= <-]. specialize (Hn _ eq_refl). cbn in Hn. lia.
  - by exists false, None, x.
Qed.

Lemma cells_inj color top : forall next top' next' s s' r r',
  qr_cells color top next = Some s -> qr_cells color top' next' = Some s' ->
  (forall l, next = Some l -> length l = length top) -> (forall l, next' = Some l -> length l = length top') ->
  s +:+ row_end color +:+ r = s' +:+ row_end color +:+ r' ->
  top = top' /\ below next (length top) = below next' (length top') /\ r = r'.
Proof.
  induction top as [|t top IH]; intros next top' next' s s' r r' Hs Hs' Hn Hn' E.
  - injection Hs as <-. rewrite string_app_nil in E. destruct top' as [|t' top'].
    + injection Hs' as <-. rewrite string_app_nil in E. apply string_app_inj_l in E. split; [done|]. split; [|done].
      unfold below. destruct next as [l|], next' as [l'|]; cbn; rewrite ?(nil_length_inv l), ?(nil_length_inv l') by eauto; done.
    + exfalso. destruct (cells_cons _ _ _ _ _ Hs' Hn') as (b & n & x & _ & -> & _). rewrite <- string_app_assoc in E.
      by apply eq_sym, end_no_cell in E.
  - destruct (cells_cons _ _ _ _ _ Hs Hn) as (b & n & x & Hx & -> & Eb & Hl). rewrite <- string_app_assoc in E.
    destruct top' as [|t' top']; [injection Hs' as <-; rewrite string_app_nil in E; by apply end_no_cell in E|].
    destruct (cells_cons _ _ _ _ _ Hs' Hn') as (b' & n' & x' & Hx' & -> & Eb' & Hl'). rewrite <- string_app_assoc in E.
    apply cell_inj in E as (-> & -> & E). destruct (IH _ _ _ _ _ _ _ Hx Hx' Hl Hl' E) as (-> & Ebel & ->).
    cbn [length]. by rewrite Eb, Eb', Ebel.
Qed.

Lemma cells_some color top : forall next, (forall l, next = Some l -> length l = length top) -> exists s, qr_cells color top next = Some s.
Proof.
  induction top as [|t top IH]; intros next Hn; [by eexists|]. cbn [qr_cells]. destruct next as [[|b bs]|].
  - by specialize (Hn _ eq_refl).
  - destruct (IH (Some bs)) as [s ->]; [|by eexists]. intros l [= <-]. specialize (Hn _ eq_refl). cbn in Hn. lia.
  - destruct (IH None) as [s ->]; [done|by eexists].
Qed.

Definition rectangular (w : nat) (bitmap : list (list bool)) : Prop := Forall (fun row => length row = w) bitmap.

(** Two rows at a time. *)
Lemma rows_ind (P : list (list bool) -> Prop) :
  P [] -> (forall t, P [t]) -> (forall t n l, P l -> P (t :: n :: l)) -> forall l, P l.
Proof. intros H0 H1 H2. fix go 1. intros [|t [|n l]]; [done|apply H1|]. apply H2, go. Qed.

Lemma text_some color w bitmap : rectangular w bitmap -> exists s, qr_text color bitmap = Some s.
Proof.
  unfold rectangular. induction bitmap as [|t|t n l IH] using rows_ind; intros Hr; [by eexists| |].
  - cbn. unfold qr_row. destruct (cells_some color t None) as [s ->]; [done|]. by eexists.
  - inversion Hr as [|? ? Ht Hr']; subst. inversion Hr' as [|? ? Hn Hl]; subst. cbn. unfold qr_row.
    destruct (cells_some color t (Some n)) as [s ->]; [by intros ? [= <-]|]. destruct (IH Hl) as [x ->]. by eexists.
Qed.

Lemma text_inj color w w' b : forall b', rectangular w b -> rectangular w' b' -> length b = length b' ->
  qr_text color b = qr_text color b' -> b = b'.
Proof.
  unfold rectangular. induction b as [|t|t n l IH] using rows_ind; intros b' Hr Hr' Hlen E.
  - by destruct b'.
  - destruct b' as [|t' [|? ?]]; try done. cbn in E. unfold qr_row in E.
    destruct (cells_some color t None) as [s Hs]; [done|]. destruct (cells_some color t' None) as [s' Hs']; [done|].
    rewrite Hs, Hs' in E. injection E as E. destruct (cells_inj color t None t' None s s' "" "" Hs Hs') as (-> & _); try done.
    unfold row_end. by rewrite !string_app_nil_r.
  - destruct b' as [|t' [|n' l']]; try done. inversion Hr as [|? ? Ht Hr1]; subst. inversion Hr1 as [|? ? Hn Hl]; subst.
    inversion Hr' as [|? ? Ht' Hr1']; subst. inversion Hr1' as [|? ? Hn' Hl']; subst.
    cbn in E. unfold qr_row in E.
    destruct (cells_some color t (Some n)) as [s Hs]; [by intros ? [= <-]|].
    destruct (cells_some color t' (Some n')) as [s' Hs']; [by intros ? [= <-]|].
    destruct (text_some color _ l Hl) as [x Hx]. destruct (text_some color _ l' Hl') as [x' Hx'].
    rewrite Hs, Hs' in E. cbn [mbind option_bind] in E. rewrite Hx, Hx' in E. injection E as E. rewrite <- !string_app_assoc in E.
    rewrite !(string_app_assoc (if color then ansiReset else "")) in E. fold (row_end color) in E.
    destruct (cells_inj color t (Some n) t' (Some n') s s' x x' Hs Hs') as (-> & Eb & ->); [by intros ? [= <-]|by intros ? [= <-]|exact E|].
    cbn in Eb. subst n'. f_equal. f_equal. apply IH; [done|done|by injection Hlen|by rewrite Hx, Hx'].
Qed.

(** A QR code is printed whatever its modules are, and what is printed is that
    code: two codes of the same number of rows that print alike, with colours or
    without, have the same modules. *)
Theorem qr_scannable color w w' b b' : rectangular w b -> rectangular w' b' -> length b = length b' ->
  (exists s, qr_text color b = Some s) /\ (qr_text color b = qr_text color b' -> b = b').
Proof. intros Hr Hr' Hl. split; [by eapply text_some|by eapply text_inj]. Qed.

Lemma qr_scannable_witness : (exists s, qr_text true [[true; false]; [false; true]; [true; true]] = Some s).
Proof.
  refine (proj1 (qr_scannable true 2 2 [[true; false]; [false; true]; [true; true]] [[true; false]; [false; true]; [true; true]] _ _ _));
    [repeat constructor|repeat constructor|reflexivity].
Defined.
