(* ===== verification/Summaries.v ===== *)
(** * Summaries: what the admin commands print when they are done

    The reports of [init], [join], [add-node], [remove-node], [set-domain],
    [render-node] and [sync] (internal/cli), split over the standard output and the
    standard error, and the warning of [loadConfig].  A generated secret is printed only when nothing else carries it,
    and a payload has the standard output for itself. *)
From stdpp Require Import base tactics option list strings gmap.
From Stdlib Require Import Ascii ZArith Lia.
From S2P Require Import Prelude GoStrings GoNum GoNet GoUtf8 Ui Keys Directory DnsName Wire Codec Nostr Schema Config Bootstrap Drop Prog Admin Enroll Join.
Open Scope Z_scope.

(** What a command wrote to its two outputs. *)
Record Output := { out_stdout : string; out_stderr : string }.

Definition texts (l : list string) : string := strings_Join l "".
(** The parts of a report that are printed under a condition. *)
Definition when (b : bool) (l : list string) : string := if b then texts l else "".

Definition no_publish_hint : string := "Changes saved locally; run `tincan publish` to upload to the drop".

Section summaries.
Context `{PrintTable} `{UnicodeTables}.
(** The printers of the two outputs: each has its own terminal. *)
Variables (pout perr : printer).

(** ** helpers.go *)

(** [fs.FileMode.String] of permission bits. *)
Definition permText (m : Z) : string :=
  let bit i (c : string) : string := if Z.testbit m i then c else "-" in
  "-" +:+ bit 8 "r" +:+ bit 7 "w" +:+ bit 6 "x" +:+ bit 5 "r" +:+ bit 4 "w" +:+ bit 3 "x" +:+ bit 2 "r" +:+ bit 1 "w" +:+ bit 0 "x".

(** [load] is what [config.Load] makes of the file and [stat] the mode [os.Stat] gives
    for it; the second component is printed to the standard error. *)
Definition loadConfig (load : result Config) (stat : result Z) (path : string) : result Config * string :=
  match load with
  | Err e => (Err e, "")
  | Ok cfg =>
      (Ok cfg, match stat with
               | Ok mode => if Z.land mode 511 =? 384 then ""
                   else warn perr ("config file should be mode 0600 (path: " +:+ path +:+ ", mode: " +:+ permText (Z.land mode 511) +:+ ")")
               | Err _ => ""
               end)
  end.

(** ** addnode.go *)

(** The values of [Run] the report shows. *)
Record Enrolled := {
  er_tunnelIP : string; er_publicKey : string; er_privateKey : string; er_ageIdentity : string;
  er_hub : Node; er_dir : Directory }.

Definition hub_pairs (hub : Node) (dir : Directory) : list pair :=
  [kv "hub peer" (node_Name hub +:+ " (" +:+ node_Endpoint hub +:+ ")"); kv "routes" (dir_NetworkCIDR dir)].
Definition artifact_pairs (hub : Node) (dir : Directory) (png conf : string) : list pair :=
  (if nonempty (dir_Domain dir) then [kv "DNS" (node_TunnelIP hub +:+ " (search domain " +:+ dir_Domain dir +:+ ")")] else []) ++
  (if nonempty png then [kv "QR PNG" png] else []) ++ (if nonempty conf then [kv "config" conf] else []).

Definition assignment (c : AddNodeCmd) (wgClient : bool) (e : Enrolled) : list pair :=
  [kv "allocated IP" (er_tunnelIP e); kv "public key" (er_publicKey e)] ++
  (if an_Relay c then [kv "role" "relay"] else []) ++
  (if negb wgClient && String.eqb (an_Bootstrap c) "" then
     (if nonempty (er_privateKey e) then [secret "private key" (er_privateKey e)] else []) ++
     (if nonempty (er_ageIdentity e) then [secret "age identity" (er_ageIdentity e)] else [])
   else []).

Definition addnode_warning (c : AddNodeCmd) (wgClient : bool) : string :=
  if nonempty (an_Bootstrap c) then "the bootstrap file contains the node's WireGuard private key and age identity; transmit it over a secure channel"
  else if wgClient then "the enrollment artifact embeds the node's WireGuard private key; treat it as a secret and remove it once the device is enrolled"
  else "transmit the private key and age identity securely to the node operator, then clear this terminal".

Definition addnode_summary (p : printer) (c : AddNodeCmd) (e : Enrolled) : string * string :=
  let wgClient := String.eqb (an_ClientType c) clientWireGuard in
  (* up to the QR code, and after it *)
  (texts [headline p ("added node " +:+ quoted (an_Name c)); blank; section p "Assignment"; pairs p (assignment c wgClient e);
     when wgClient
       [blank; section p "WireGuard client";
        pairs p ([kv "mode" "hub-and-spoke"] ++ hub_pairs (er_hub e) (er_dir e) ++
                 artifact_pairs (er_hub e) (er_dir e) (an_WGQRPNG c) (an_WGConfig c));
        hint p ("Snapshot config: the device won't track later directory changes (rotated keys, moved endpoints, new nodes). Re-running add-node fails (the node exists); to refresh, run `tincan render-node --name " +:+
                an_Name c +:+ "` to reissue with the same key, or `remove-node` then `add-node` for a fresh key.");
        when (an_WGQR c) [blank]]],
   texts [when (nonempty (an_Bootstrap c)) [blank; section p "Bootstrap"; pairs p [kv "file" (an_Bootstrap c)]];
     when (nonempty (er_privateKey e) || nonempty (er_ageIdentity e)) [blank; warn p (addnode_warning c wgClient)];
     when (an_NoPublish c) [blank; hint p no_publish_hint]]).

(** The QR code goes to the standard output and the rest to the standard error, or
    everything to the standard output. *)
Definition addnode_output (c : AddNodeCmd) (e : Enrolled) (qr : string) : Output :=
  let qr := when (String.eqb (an_ClientType c) clientWireGuard && an_WGQR c) [qr] in
  if an_WGQR c then let '(before, after) := addnode_summary perr c e in {| out_stdout := qr; out_stderr := before +:+ after |}
  else let '(before, after) := addnode_summary pout c e in {| out_stdout := before +:+ qr +:+ after; out_stderr := "" |}.

(** ** removenode.go *)

Definition removenode_output (name freedIP : string) (noPublish : bool) : Output :=
  {| out_stdout := texts [headline pout ("removed node " +:+ quoted name); blank; pairs pout [kv "freed IP" freedIP]; blank;
       if noPublish then hint pout "Changes saved locally; run `tincan publish` to revoke and upload to the drop"
       else hint pout "Removed peers disappear from other nodes after their next sync" +:+
            hint pout ("This publish re-encrypts to the remaining members only: " +:+ quoted name +:+ " can no longer decrypt the directory")];
     out_stderr := "" |}.

(** ** setdomain.go *)

Definition exampleFQDN (dir : Directory) : string :=
  match dir_Nodes dir with n :: _ => strings_ToLower (node_Name n) | [] => "node" end +:+ "." +:+ dir_Domain dir.

Definition warnStrandedSpokes (dir : Directory) : string :=
  match map node_Name (List.filter IsPlainWireGuard (dir_Nodes dir)) with
  | [] => ""
  | spokes => texts [blank; warn pout ("plain-WireGuard configs rendered while the domain was set still point their DNS at the hub, which now stops answering — those devices lose ALL DNS while their tunnel is up. Re-render and re-enroll them: " +:+
                strings_Join spokes ", ")]
  end.

Definition setdomain_output (clear noPublish : bool) (dir : Directory) : Output :=
  {| out_stdout := texts
       [if clear then
          texts [headline pout "cleared the VPN domain"; blank;
                 hint pout "Members remove their managed hosts entries on their next sync; hubs stop serving DNS"; warnStrandedSpokes dir]
        else
          texts [headline pout ("set VPN domain to " +:+ quoted (dir_Domain dir)); blank; pairs pout [kv "example name" (exampleFQDN dir)]; blank;
                 hint pout "Members pick up the domain (and their /etc/hosts entries) within one sync interval";
                 hint pout "Existing plain-WireGuard configs are snapshots: re-run `tincan render-node` to reissue them with a DNS server line"];
        when noPublish [hint pout no_publish_hint]];
     out_stderr := "" |}.

Definition setdomain_show (dir : Directory) : Output :=
  {| out_stdout :=
       if String.eqb (dir_Domain dir) "" then
         texts [pairs pout [kv "domain" "(not set)"]; blank; hint pout "Set one with `tincan set-domain <domain>` on the admin node"]
       else pairs pout [kv "domain" (dir_Domain dir); kv "example name" (exampleFQDN dir)];
     out_stderr := "" |}.

(** ** init.go *)

Definition init_output (c : InitCmd) (k : InitKeys) (config stateDir netbootPath tunnelIP : string) : Output :=
  {| out_stdout := texts
       [headline pout ("initialized admin node " +:+ quoted (in_Name c)); blank;
        section pout "Paths"; pairs pout [kv "config" config; kv "state directory" stateDir; kv "network bootstrap" netbootPath]; blank;
        section pout "Tunnel";
        pairs pout (kv "allocated IP" tunnelIP :: (if nonempty (in_DNSDomain c) then [kv "VPN domain" (in_DNSDomain c)] else [])); blank;
        section pout "WireGuard keypair"; pairs pout [kv "public key" (ik_wgPub k); secret "private key" (ik_wgPriv k)]; blank;
        section pout "Node identity (age)"; pairs pout [secret "identity" (ik_identity k); kv "recipient" (ik_recipient k)]; blank;
        section pout "Publisher keypair"; pairs pout [kv "public key" (ik_publisherPub k); secret "private key" (ik_publisherPriv k)]; blank;
        if String.eqb (in_DropType c) "nostr" then
          texts [section pout "Nostr drop keypair"; pairs pout [kv "public key (npub)" (ik_npub k); secret "secret key (nsec)" (ik_nsec k)]; blank;
                 hint pout "Edit [drop.admin].relays / [drop.client].relays to your preferred relays, then run `tincan publish`";
                 hint pout "The nsec only authorizes writing the relay slot; the directory is independently signed, so a leaked nsec cannot forge it"]
        else hint pout "Next steps: edit the [drop.admin] and [drop.client] sections, then run `tincan publish`";
        hint pout "This admin observes NAT'd peer endpoints by default; set [observe].enabled = false to turn it off"];
     out_stderr := "" |}.

(** ** join.go *)

Definition firewallHint (p : printer) (listenPort : Z) : string :=
  if 0 <? listenPort then
    hint p ("Firewall: allow inbound UDP " +:+ strconv_Itoa listenPort +:+ " (WireGuard handshakes) and UDP " +:+ strconv_Itoa discoveryPort +:+
            " (LAN discovery beacons) so peers can connect directly")
  else hint p ("Firewall: allow inbound UDP " +:+ strconv_Itoa discoveryPort +:+ " (LAN discovery beacons) so same-LAN peers can be found") +:+
       hint p "WireGuard will bind a random port; set [wireguard].listen_port and allow it through the firewall so peers can connect directly".

Definition join_output (c : JoinCmd) (bs : option Bootstrap) (k : keyset) (nodeName config : string) (listenPort : Z) : Output :=
  {| out_stdout := texts
       [headline pout ("initialized client node " +:+ quoted nodeName); blank; section pout "Paths"; pairs pout [kv "config" config]; blank;
        section pout "WireGuard"; pairs pout [kv "public key" (ks_wgPublic k)];
        when (jn_GenerateKey c) [blank; section pout "age recipient"; pairs pout [kv "recipient" (ks_ageRecipient k)]]; blank;
        match bs with
        | Some b =>
            if String.eqb (ks_ageIdentity k) "" then
              hint pout "Next steps: fill [directory].network_identity with this node's age secret, then run `tincan up`"
            else match bs_Node b with
                 | Some _ => hint pout "Next steps: run `tincan up`"
                 | None => hint pout "Next steps: run `tincan up` (the directory will identify this node by name and key)"
                 end
        | None =>
            if jn_GenerateKey c then
              hint pout "Send the public key and age recipient to the admin to run `tincan add-node --pub-key <key> --age-recipient <recipient>`" +:+
              hint pout "Then verify [drop.client] and the publisher_pubkey, and run `tincan up`"
            else hint pout "Next steps: fill [directory] (network_identity, publisher_pubkey) and verify [drop.client], then run `tincan up`"
        end;
        firewallHint pout listenPort];
     out_stderr := "" |}.

(** ** rendernode.go *)

Definition rendernode_summary (p : printer) (c : RenderNodeCmd) (node hub : Node) (dir : Directory) : string :=
  texts [headline p ("rendered config for node " +:+ quoted (rn_Name c)); blank; section p "WireGuard client";
    pairs p ([kv "mode" "hub-and-spoke"; kv "tunnel IP" (node_TunnelIP node)] ++ hub_pairs hub dir ++
             artifact_pairs hub dir (rn_WGQRPNG c) (rn_WGConfig c));
    hint p ("Snapshot config: the device won't track later directory changes (rotated keys, moved endpoints, new nodes). Re-run `tincan render-node --name " +:+
            rn_Name c +:+ "` after the directory changes to reissue with the same key; use `remove-node` then `add-node` if the node needs a new key.");
    if String.eqb (rn_PrivateKey c) "" then hint p "No --private-key given: fill in the PrivateKey placeholder with the node's own key before use."
    else blank +:+ warn p "the rendered config embeds the node's WireGuard private key; treat it as a secret and clear it once the device is enrolled";
    when (rn_WGQR c) [blank]].

Definition rendernode_output (c : RenderNodeCmd) (node hub : Node) (dir : Directory) (wgConf qr : string) : Output :=
  let bareStdout := negb (rn_WGQR c) && negb (nonempty (rn_WGQRPNG c)) && negb (nonempty (rn_WGConfig c)) in
  if rn_WGQR c then {| out_stdout := qr; out_stderr := rendernode_summary perr c node hub dir |}
  else if bareStdout then {| out_stdout := wgConf; out_stderr := rendernode_summary perr c node hub dir |}
  else {| out_stdout := rendernode_summary pout c node hub dir; out_stderr := "" |}.

(** ** sync.go *)

Definition syncSource (res : syncResult) : string := if sr_FromCache res then "local cache" else "drop".
(** [advice] is the text of [dropErrorAdvice]. *)
Definition reportSync (p : printer) (now : Time) (res : syncResult) (advice : error -> string) (maxDirectoryAge : Duration) : string :=
  let '(age, stale) := directoryStale now (sr_Directory res) maxDirectoryAge in
  texts [headline p ("synced from " +:+ syncSource res +:+ " (serial: " +:+ strconv_FormatUint (sr_Serial res) +:+ ")");
    match sr_StaleErr res with
    | Some e => when (sr_FromCache res) [warn p (advice e +:+ "; serving cached serial " +:+ strconv_FormatUint (sr_Serial res))]
    | None => ""
    end;
    when stale [warn p ("directory is " +:+ duration_String (duration_Truncate age Second) +:+ " old, exceeding max_directory_age " +:+
      duration_String maxDirectoryAge +:+ "; the admin may not have published recently, or the drop may be frozen")]].

(** ** Secrets and payloads *)

(** Two enrolments that differ in the generated secrets only, and not in which there
    are. *)
Definition same_but_keys (e e' : Enrolled) : Prop :=
  er_tunnelIP e = er_tunnelIP e' /\ er_publicKey e = er_publicKey e' /\ er_hub e = er_hub e' /\ er_dir e = er_dir e' /\
  nonempty (er_privateKey e) = nonempty (er_privateKey e') /\ nonempty (er_ageIdentity e) = nonempty (er_ageIdentity e').

Definition occurs (k s : string) : Prop := exists a b, s = a +:+ k +:+ b.

Lemma occurs_self k : occurs k k.
Proof. exists "", "". by rewrite string_app_nil, string_app_nil_r. Qed.
Lemma occurs_l k s t : occurs k s -> occurs k (s +:+ t).
Proof. intros (a & b & ->). exists a, (b +:+ t). by rewrite <- !string_app_assoc. Qed.
Lemma occurs_r k s t : occurs k t -> occurs k (s +:+ t).
Proof. intros (a & b & ->). exists (s +:+ a), b. by rewrite <- !string_app_assoc. Qed.
Lemma texts_cons s l : texts (s :: l) = s +:+ texts l.
Proof. unfold texts. cbn [strings_Join]. destruct l; [by rewrite string_app_nil_r|]. by rewrite string_app_nil. Qed.
Lemma occurs_texts k s l : In s l -> occurs k s -> occurs k (texts l).
Proof. induction l as [|t l IH]; [done|]. rewrite texts_cons. intros [->|Hin] Ho; [by apply occurs_l|by apply occurs_r, IH]. Qed.
Lemma occurs_style k p code s : occurs k s -> occurs k (style p code s).
Proof. unfold style. destruct (p_color p); [|done]. intros. by apply occurs_r, occurs_l. Qed.
Lemma occurs_pairs p label value items : In (secret label value) items -> occurs value (pairs p items).
Proof.
  intros Hin. unfold pairs. apply (occurs_texts _ (pair_text p (max_label items) (secret label value))); [by apply (in_map (pair_text p (max_label items)))|].
  unfold pair_text. cbn [pr_secret secret pr_value]. do 3 apply occurs_r. do 2 apply occurs_l. apply occurs_style, occurs_self.
Qed.

Lemma addnode_same c e e' p : same_but_keys e e' ->
  String.eqb (an_ClientType c) clientWireGuard || nonempty (an_Bootstrap c) = true -> addnode_summary p c e = addnode_summary p c e'.
Proof.
  intros (E1 & E2 & E3 & E4 & E5 & E6) Hc. unfold addnode_summary, assignment. cbv zeta. rewrite E1, E2, E3, E4, E5, E6.
  assert (Hno : negb (String.eqb (an_ClientType c) clientWireGuard) && String.eqb (an_Bootstrap c) "" = false).
  { unfold nonempty in Hc. by destruct (String.eqb (an_ClientType c) clientWireGuard), (String.eqb (an_Bootstrap c) ""). }
  by rewrite Hno.
Qed.

Lemma addnode_shows p c e label value : In (secret label value) (assignment c (String.eqb (an_ClientType c) clientWireGuard) e) ->
  occurs value (fst (addnode_summary p c e)).
Proof.
  intros Hin. unfold addnode_summary. cbv zeta. cbn [fst]. apply (occurs_texts _ (pairs p (assignment c (String.eqb (an_ClientType c) clientWireGuard) e))).
  - cbn. tauto.
  - by eapply occurs_pairs.
Qed.

End summaries.

(** ** Samples *)

(** The permissions of a text, as the mode it stands for. *)
Fixpoint perm_read (acc : Z) (s : string) : Z :=
  match s with
  | "" => acc
  | String c t => perm_read (2 * acc + (if Ascii.eqb c "-" then 0 else 1)) t
  end.

Lemma perm_read_permText m : 0 <= m < 512 -> perm_read 0 (permText m) = m.
Proof.
  assert (Hall : forallb (fun i => perm_read 0 (permText (Z.of_nat i)) =? Z.of_nat i) (seq 0 512) = true) by (vm_compute; reflexivity).
  intros Hm. rewrite forallb_forall in Hall. specialize (Hall (Z.to_nat m)). rewrite Z2Nat.id in Hall by lia.
  apply Z.eqb_eq, Hall, in_seq. lia.
Qed.

(** A configuration is used whatever its permissions are; the user hears of it exactly
    when they are not 0600, with the permissions the file has. *)
Theorem loadConfig_warns perr load mode path :
  fst (loadConfig perr load (Ok mode) path) = load /\
  (snd (loadConfig perr load (Ok mode) path) = "" <-> is_ok load = false \/ Z.land mode 511 = 384) /\
  perm_read 0 (permText (Z.land mode 511)) = Z.land mode 511.
Proof.
  split; [by destruct load|]. split.
  - destruct load as [cfg|e]; cbn [loadConfig snd is_ok]; [|tauto].
    case_if; bool_solve; [naive_solver|]. split; [|naive_solver].
    unfold warn, style. destruct (p_color perr); intros [=].
  - apply perm_read_permText. change 511 with (Z.ones 9). rewrite Z.land_ones by lia. apply Z.mod_pos_bound. lia.
Qed.

Example permText_0644 : permText 420 = "-rw-r--r--".
Proof. reflexivity. Qed.

Section samples.
#[local] Existing Instances ascii_tables.
#[local] Existing Instance ascii_prints.

Definition sample_hub : Node := {| node_Name := "hub"; node_PublicKey := "H"; node_TunnelIP := "10.0.0.1"; node_AgeRecipient := "age1h";
  node_Endpoint := "hub.example:51820"; node_Relay := true; node_ObservedEndpoint := ""; node_ObservedAt := 0; node_PSK := "" |}.
Definition sample_enrolled (priv : string) : Enrolled := {| er_tunnelIP := "10.0.0.7"; er_publicKey := "P"; er_privateKey := priv;
  er_ageIdentity := ""; er_hub := sample_hub;
  er_dir := {| dir_SchemaVersion := 1; dir_Serial := 7; dir_CreatedAt := 0; dir_NetworkCIDR := "10.0.0.0/24"; dir_Domain := ""; dir_Nodes := [sample_hub] |} |}.
Definition phone : AddNodeCmd := {| an_Name := "phone"; an_ClientType := "wireguard"; an_PubKey := ""; an_Endpoint := ""; an_Relay := false;
  an_NoPublish := true; an_Bootstrap := ""; an_AgeRecipient := ""; an_WGQR := true; an_WGQRPNG := ""; an_WGConfig := "" |}.
Definition plain : printer := {| p_color := false |}.

End samples.
