(* ===== verification/Daemon.v ===== *)
(** * Daemon: internal/cli/up.go

    What the daemon keeps between passes, the relay tick and the full iteration,
    as functions of that state, of what the kernel answers and of the clock.  The
    sync and the observation inside an iteration are the programs of Admin and
    Enroll. *)
From stdpp Require Import base tactics option list strings gmap.
From Stdlib Require Import Ascii ZArith Lia.
From S2P Require Import Prelude GoStrings GoNum GoNet GoBase64 Keys Directory DnsName Validate Wire Toy Codec Relay Observe Discovery Schema Peers Manager Bech32 Nostr Config Cache Bootstrap Drop Prog Admin Enroll Hosts DnsManager.
Open Scope Z_scope.

(** ** The pieces of a pass *)

(** [pushed] is stamped, then the entries of strangers are dropped. *)
Definition recordEndpointPushes (pushedAt : gmap string Time) (pushed : list string) (dir : Directory) (now : Time)
  : gmap string Time :=
  let stamped := fold_left (fun m k => <[k := now]> m) pushed pushedAt in
  let current : gset string := list_to_set (node_PublicKey <$> dir_Nodes dir) in
  filter (fun kv => kv.1 ∈ current) stamped.

(** Only a transition from direct to relayed blacklists. *)
Definition just_failed (prev : gmap string Mode) (key : string) (state : PeerState) : bool :=
  match prev !! key with
  | Some ModeDirect => bool_decide (ps_Mode state = ModeRelayed)
  | _ => false
  end.

Definition markLANFailures (states : gmap string PeerState) (prev : gmap string Mode) (lanStore : Store) (now : Time) : Store :=
  map_fold (fun key state st => if just_failed prev key state then store_MarkFailed st key now else st) lanStore states.

Definition relayedPeerNames (dir : Directory) (relayed : gset string) : list string :=
  node_Name <$> filter (fun n => node_PublicKey n ∈ relayed) (dir_Nodes dir).

(** The modes remembered for the next pass. *)
Definition logRelayTransitions (decision : Decision) (prev : gmap string Mode) : gmap string Mode :=
  if decide (dec_PeerStates decision = ∅) then prev else
  let updated := map_fold (fun key state m =>
      if decide (m !! key = Some (ps_Mode state)) then m else <[key := ps_Mode state]> m) prev (dec_PeerStates decision) in
  filter (fun kv => is_Some (dec_PeerStates decision !! kv.1)) updated.

(** What is announced of one peer. *)
Inductive Transition := NowRelayed (name via : string) | BackToDirect (name : string).

Definition transition_for (dir : Directory) (decision : Decision) (prev : gmap string Mode) (key : string) (state : PeerState)
  : option Transition :=
  let old := prev !! key in
  if decide (old = Some (ps_Mode state)) then None else
  let nameByKey := fold_left (fun m n => <[node_PublicKey n := node_Name n]> m) (dir_Nodes dir) (∅ : gmap string string) in
  let found := default "" (nameByKey !! key) in
  let name := if String.eqb found "" then key else found in
  match ps_Mode state with
  | ModeRelayed => Some (NowRelayed name (match dec_RelayTarget decision with Some t => node_Name t | None => "" end))
  | ModeDirect => if decide (old = Some ModeRelayed) then Some (BackToDirect name) else None
  end.

Definition transitions (dir : Directory) (decision : Decision) (prev : gmap string Mode) : gmap string Transition :=
  map_imap (transition_for dir decision prev) (dec_PeerStates decision).

(** ** The state and one reconciliation *)

Record DaemonState := {
  d_controller : Controller;
  d_prevModes : gmap string Mode;
  d_lanStore : option Store;
  d_dir : option Directory;
  d_pushedAt : gmap string Time;
  d_hosts : string;                 (* the hosts syncer's last warning *)
  d_dns : DnsManager }.

(** The readings of the clock during a pass. *)
Record Clock := {
  t_update : Time;
  t_mark : Time;
  t_lookup : string -> Time;
  t_merge : Time;
  t_push : Time;
  t_gc : Time }.

Definition newDaemonRuntime (lanStore : option Store) : DaemonState :=
  {| d_controller := NewController {| Relay.cfg_DirectFailedAfter := 0; Relay.cfg_DirectGracePeriod := 0 |};
     d_prevModes := ∅; d_lanStore := lanStore; d_dir := None; d_pushedAt := ∅; d_hosts := ""; d_dns := no_dns_manager |}.

Definition set_d_relay (c : Controller) (prev : gmap string Mode) (lan : option Store) (pushedAt : gmap string Time)
    (d : DaemonState) : DaemonState :=
  {| d_controller := c; d_prevModes := prev; d_lanStore := lan; d_dir := d_dir d; d_pushedAt := pushedAt;
     d_hosts := d_hosts d; d_dns := d_dns d |}.
Definition set_d_dir (dir : Directory) (d : DaemonState) : DaemonState :=
  {| d_controller := d_controller d; d_prevModes := d_prevModes d; d_lanStore := d_lanStore d; d_dir := Some dir;
     d_pushedAt := d_pushedAt d; d_hosts := d_hosts d; d_dns := d_dns d |}.
Definition set_d_names (hosts : string) (dns : DnsManager) (d : DaemonState) : DaemonState :=
  {| d_controller := d_controller d; d_prevModes := d_prevModes d; d_lanStore := d_lanStore d; d_dir := d_dir d;
     d_pushedAt := d_pushedAt d; d_hosts := hosts; d_dns := dns |}.
Definition set_d_lan (lan : option Store) (d : DaemonState) : DaemonState :=
  {| d_controller := d_controller d; d_prevModes := d_prevModes d; d_lanStore := lan; d_dir := d_dir d;
     d_pushedAt := d_pushedAt d; d_hosts := d_hosts d; d_dns := d_dns d |}.

(** The store as the [LANEndpointLookup] of the peer plan. *)
Definition lan_lookup (lan : option Store) (clk : Clock) : LANEndpointLookup :=
  match lan with
  | Some st => Some (fun pubkey staleOK =>
      if staleOK : bool then store_LookupLastKnown st pubkey else store_Lookup st pubkey (t_lookup clk pubkey))
  | None => None
  end.

Section daemon.
Context `{CryptoLib} `{UnicodeTables} `{Msgpack} `{Secp} `{UrlLib} `{ErrorText}.
Variable net_ResolveUDPAddr : string -> option UDPAddr.

(** What a pass did to the kernel's peers, and its result. *)
Record Reconciled := {
  rc_state : DaemonState;
  rc_configured : option (list PeerConfig);
  rc_pushed : list string;
  rc_result : result Decision }.

Definition reconcileRelay (cfg : Config) (d : DaemonState) (self : Node) (dir : Directory) (k : Kernel) (clk : Clock) : Reconciled :=
  let stop e := {| rc_state := d; rc_configured := None; rc_pushed := []; rc_result := Err e |} in
  match NewManager (c_Wireguard cfg) with
  | Err e => stop e
  | Ok manager =>
  match snd (manager_Up manager k) with
  | Err e => stop e
  | Ok _ =>
  let peers := match manager_Peers k with Ok ps => ps | Err _ => [] end in
  let '(controller, decision) := Relay.Update (d_controller d) self dir peers (t_update clk) in
  let lan := match d_lanStore d with
             | Some st => Some (markLANFailures (dec_PeerStates decision) (d_prevModes d) st (t_mark clk))
             | None => None
             end in
  let prev := logRelayTransitions decision (d_prevModes d) in
  let applied := manager_Apply net_ResolveUDPAddr manager self dir (dec_Relayed decision) (lan_lookup lan clk) k (t_merge clk) in
  let pushedAt := recordEndpointPushes (d_pushedAt d) (ap_pushed applied) dir (t_push clk) in
  {| rc_state := set_d_relay controller prev lan pushedAt d;
     rc_configured := ap_configured applied;
     rc_pushed := ap_pushed applied;
     rc_result := match ap_err applied with Ok _ => Ok decision | Err e => Err e end |}
  end end.

(** The state after a tick, and the directory and outcome of its reconciliation,
    when there was one. *)
Definition runRelayTick (cfg : Config) (d : DaemonState) (k : Kernel) (clk : Clock) : DaemonState * option (Directory * Reconciled) :=
  match d_dir d with
  | None => (d, None)
  | Some dir =>
      match findSelf cfg dir with
      | Err _ => (d, None)
      | Ok self => let r := reconcileRelay cfg d self dir k clk in (rc_state r, Some (dir, r))
      end
  end.

(** [initialRelayedPeers]: the relaying a pass without a daemon applies. *)
Definition initialRelayedPeers (self : Node) (dir : Directory) (now : Time) : gset string :=
  dec_Relayed (snd (Relay.Update (NewController {| Relay.cfg_DirectFailedAfter := 0; Relay.cfg_DirectGracePeriod := 0 |})
    self dir [] now)).

(** The store after a pass: self's port, and the entries worth keeping. *)
Definition refresh_lan (st : Store) (self : Node) (dir : Directory) (k : Kernel) (clk : Clock) : Store :=
  let st := match manager_ListenPort k with Ok port => store_SetSelf st (node_PublicKey self) port | Err _ => st end in
  let members : gset string := list_to_set (node_PublicKey <$> dir_Nodes dir) in
  fst (store_GC st (t_gc clk) (i64 (10 * st_ttl st)) (Some members)).

Record Iterated := {
  it_state : DaemonState;
  it_reconciled : option (Directory * Reconciled);
  it_hosts : HostsFile;
  it_result : result unit }.

Definition runDaemonIteration (cfg : Config) (d : DaemonState) (k : Kernel) (clk : Clock) (io : result unit) (hosts : HostsFile)
    (dns : DnsWorld) : Prog Iterated :=
  prog_bind (fun res =>
    match res with
    | Err e => Ret {| it_state := d; it_reconciled := None; it_hosts := hosts; it_result := Err e |}
    | Ok res =>
        let dir := sr_Directory res in
        let d := set_d_dir dir d in
        match findSelf cfg dir with
        | Err e => Ret {| it_state := d; it_reconciled := None; it_hosts := hosts; it_result := Err e |}
        | Ok self =>
            let r := reconcileRelay cfg d self dir k clk in
            let d := rc_state r in
            match rc_result r with
            | Err e => Ret {| it_state := d; it_reconciled := Some (dir, r); it_hosts := hosts; it_result := Err e |}
            | Ok _ =>
                let '(warn, hosts) := hosts_sync cfg dir (d_hosts d) io hosts in
                let d := set_d_names warn (fst (dns_reconcile cfg dir self (d_dns d) dns)) d in
                let d := set_d_lan (match d_lanStore d with
                                    | Some st => Some (refresh_lan st self dir k clk)
                                    | None => None
                                    end) d in
                let finish o := Ret {| it_state := d; it_reconciled := Some (dir, r); it_hosts := hosts; it_result := o |} in
                let observe :=
                  if observe_IsEnabled (c_Observe cfg) then
                    prog_bind (fun o =>
                        match o with
                        | Err e => if bool_decide (obs_Enabled (c_Observe cfg) = Some true) then finish (Err e) else finish (Ok tt)
                        | Ok _ => finish (Ok tt)
                        end)
                      (runAdminObservation cfg (sr_Serial res) (d_pushedAt d))
                  else finish (Ok tt) in
                match d_lanStore d with
                | Some st => Vis (Update (OpDiscovery (t_gc clk) (st_entries st))) (fun _ => observe)
                | None => observe
                end
            end
        end
    end) (runSyncOnce cfg).

(** ** up without a daemon *)

Definition tunnelDisplay (tunnelIP networkCIDR : string) : string :=
  match net_ParseCIDR networkCIDR with
  | None => tunnelIP
  | Some ipnet => tunnelIP +:+ "/" +:+ strconv_FormatUint (ipnet_Ones ipnet)
  end.

(** [runUpOnce]: the peers handed to the kernel, the hosts file and the result. *)
Definition runUpOnce (cfg : Config) (noSync : bool) (k : Kernel) (now : Time) (t_merge : Time) (io : result unit) (hosts : HostsFile)
  : Prog (option (list PeerConfig) * HostsFile * result unit) :=
  let up dir :=
    match findSelf cfg dir with
    | Err e => (None, hosts, Err e)
    | Ok self =>
    match NewManager (c_Wireguard cfg) with
    | Err e => (None, hosts, Err e)
    | Ok manager =>
    match snd (manager_Up manager k) with
    | Err e => (None, hosts, Err e)
    | Ok _ =>
    let applied := manager_Apply net_ResolveUDPAddr manager self dir (initialRelayedPeers self dir now) None k t_merge in
    match ap_err applied with
    | Err e => (ap_configured applied, hosts, Err e)
    | Ok _ => (ap_configured applied, snd (hosts_sync cfg dir "" io hosts), Ok tt)
    end end end end in
  if noSync then
    Vis (ReadState Read) (fun cached =>
      Ret match cached with
          | Err e => (None, hosts, Err (Errorf "read cache: %w" [e]))
          | Ok (dir, _) => up dir
          end)
  else
    prog_bind (fun res =>
      Ret match res with
          | Err e => (None, hosts, Err e)
          | Ok res => up (sr_Directory res)
          end) (runSyncOnce cfg).
End daemon.
