(* ===== verification/DaemonLaws.v ===== *)
(** * DaemonLaws: what the daemon's passes add up to

    Over any run of ticks and iterations: which peers the kernel ends up with
    after a pass, and what an endpoint the admin publishes as observed rests on. *)
From stdpp Require Import base tactics option list strings gmap.
From Stdlib Require Import Ascii ZArith Lia.
From S2P Require Import Prelude GoStrings GoNum GoNet GoBase64 Keys Directory DnsName Validate Wire Toy Codec Relay Observe Discovery Schema Peers Manager Bech32 Nostr Config Cache Bootstrap Drop Prog Admin Enroll Hosts DnsManager Daemon.
Open Scope Z_scope.

(** ** The bookkeeping of one pass *)

Lemma stamp_lookup pushed now (m : gmap string Time) k :
  fold_left (fun m k => <[k := now]> m) pushed m !! k = if decide (k ∈ pushed) then Some now else m !! k.
Proof.
  induction pushed as [|p ps IH] using rev_ind; [by rewrite decide_False by set_solver|].
  rewrite fold_left_app. cbn [fold_left]. destruct (decide (p = k)) as [->|Hne].
  - rewrite lookup_insert_eq, decide_True by set_solver. done.
  - rewrite lookup_insert_ne, IH by done. destruct (decide (k ∈ ps)); [rewrite decide_True|rewrite decide_False]; set_solver.
Qed.

Lemma recordEndpointPushes_lookup pushedAt pushed dir now k :
  recordEndpointPushes pushedAt pushed dir now !! k =
    if decide (k ∈ node_PublicKey <$> dir_Nodes dir) then (if decide (k ∈ pushed) then Some now else pushedAt !! k) else None.
Proof.
  unfold recordEndpointPushes. rewrite map_lookup_filter, stamp_lookup.
  destruct (decide (k ∈ node_PublicKey <$> dir_Nodes dir)) as [Hk|Hk].
  - destruct (if decide (k ∈ pushed) then Some now else pushedAt !! k) as [t|]; [|done]. simpl.
    rewrite option_guard_True; [done|]. by apply elem_of_list_to_set.
  - destruct (if decide (k ∈ pushed) then Some now else pushedAt !! k) as [t|]; [|done]. simpl.
    rewrite option_guard_False; [done|]. by rewrite elem_of_list_to_set.
Qed.

Lemma markLANFailures_lookup states prev st now k :
  st_entries (markLANFailures states prev st now) !! k =
    match states !! k, st_entries st !! k with
    | Some state, Some entry =>
        if just_failed prev k state
        then Some {| lan_Endpoint := lan_Endpoint entry; lan_LearnedAt := lan_LearnedAt entry; lan_FailedAt := now;
                     lan_FailedEndpoint := lan_Endpoint entry |}
        else Some entry
    | _, e => e
    end.
Proof.
  unfold markLANFailures. revert states. apply (map_fold_weak_ind (fun r states => st_entries r !! k =
    match states !! k, st_entries st !! k with
    | Some state, Some entry =>
        if just_failed prev k state
        then Some {| lan_Endpoint := lan_Endpoint entry; lan_LearnedAt := lan_LearnedAt entry; lan_FailedAt := now;
                     lan_FailedEndpoint := lan_Endpoint entry |}
        else Some entry
    | _, e => e
    end)).
  - by rewrite lookup_empty.
  - intros j state states r Hj IH. destruct (decide (j = k)) as [->|Hne].
    + rewrite lookup_insert_eq. rewrite Hj in IH. destruct (just_failed prev k state).
      * unfold store_MarkFailed. rewrite IH. destruct (st_entries st !! k) as [entry|]; [|done].
        cbn [st_entries set_entries]. by rewrite lookup_insert_eq.
      * rewrite IH. by destruct (st_entries st !! k).
    + rewrite lookup_insert_ne by done. destruct (just_failed prev j state); [|done].
      unfold store_MarkFailed. destruct (st_entries r !! j); [|done]. cbn [st_entries set_entries].
      by rewrite lookup_insert_ne.
Qed.

(** The modes remembered are those of the decision. *)
Lemma logRelayTransitions_modes decision prev :
  dec_PeerStates decision <> ∅ -> logRelayTransitions decision prev = ps_Mode <$> dec_PeerStates decision.
Proof.
  intros Hne. unfold logRelayTransitions. rewrite decide_False by done. apply map_eq. intros k.
  rewrite map_lookup_filter, lookup_fmap.
  assert (Hk : map_fold (fun key state m => if decide (m !! key = Some (ps_Mode state)) then m else <[key := ps_Mode state]> m)
      prev (dec_PeerStates decision) !! k =
    match dec_PeerStates decision !! k with Some st => Some (ps_Mode st) | None => prev !! k end).
  { generalize (dec_PeerStates decision). apply (map_fold_weak_ind (fun r states => r !! k =
      match states !! k with Some st => Some (ps_Mode st) | None => prev !! k end)); [by rewrite lookup_empty|].
    intros j state states r Hj IH. destruct (decide (j = k)) as [->|Hn].
    - rewrite lookup_insert_eq. case_decide; [done|]. by rewrite lookup_insert_eq.
    - rewrite lookup_insert_ne by done. case_decide; [done|]. by rewrite lookup_insert_ne. }
  rewrite Hk. destruct (dec_PeerStates decision !! k) as [st|] eqn:E; simpl.
  - rewrite option_guard_True; [done|]. rewrite E. by eexists.
  - destruct (prev !! k); [|done]. simpl. rewrite option_guard_False; [done|]. simpl. rewrite E. by intros [? ?].
Qed.

(** ** Where the pass sends each member's traffic *)

Lemma NoDup_concat_index {A} (ls : list (list A)) i j l l' x :
  NoDup (concat ls) -> ls !! i = Some l -> ls !! j = Some l' -> x ∈ l -> x ∈ l' -> i = j.
Proof.
  revert i j. induction ls as [|l0 ls IH]; intros [|i] [|j] Hd Hi Hj Hx Hx'; try done;
    cbn [concat] in Hd; apply NoDup_app in Hd as (_ & Hsep & Hd); cbn in Hi, Hj.
  - injection Hi as ->. destruct (Hsep x Hx). apply list_elem_of_In, in_concat. exists l'.
    split; apply list_elem_of_In; [by eapply list_elem_of_lookup_2|done].
  - injection Hj as ->. destruct (Hsep x Hx'). apply list_elem_of_In, in_concat. exists l.
    split; apply list_elem_of_In; [by eapply list_elem_of_lookup_2|done].
  - f_equal. by eapply IH.
Qed.

(** The member whose entry carries the tunnel address of [n]. *)
Definition carrier (relayed : gset string) (tk : string) (n : Node) : string :=
  if is_shadow relayed tk n then tk else node_PublicKey n.

Section entries.
Context `{CryptoLib} `{UnicodeTables}.
Variables (relayed : gset string) (tk : string) (ns : list Node) (peers : list PeerConfig).
Hypothesis entries : Forall2 (peer_entry relayed tk) ns peers.
Hypothesis disjoint : NoDup (concat (pc_AllowedIPs <$> peers)).
Hypothesis covers : forall net, net ∈ concat (pc_AllowedIPs <$> peers) <-> exists m, m ∈ ns /\ net = tunnel_of m.
Hypothesis tunnels : forall m, m ∈ ns -> net_ParseCIDR (node_TunnelIP m +:+ "/32") = Some (tunnel_of m).
Hypothesis keys : NoDup (node_PublicKey <$> ns).
Hypothesis addresses : NoDup (tunnel_of <$> ns).

Lemma entry_at i n p : ns !! i = Some n -> peers !! i = Some p ->
  if is_shadow relayed tk n then pc_AllowedIPs p = []
  else exists folded, pc_AllowedIPs p = tunnel_of n :: folded /\ (node_PublicKey n <> tk -> folded = []).
Proof.
  intros Hn Hp. destruct (Forall2_lookup_lr _ _ _ _ _ _ entries Hn Hp) as (_ & _ & _ & t & Ht & Hr).
  rewrite tunnels in Ht by (by eapply list_elem_of_lookup_2). by injection Ht as <-.
Qed.

Lemma entry_index i j p q net : peers !! i = Some p -> peers !! j = Some q ->
  net ∈ pc_AllowedIPs p -> net ∈ pc_AllowedIPs q -> i = j.
Proof. intros Hi Hj. apply (NoDup_concat_index _ _ _ _ _ _ disjoint); by rewrite list_lookup_fmap, ?Hi, ?Hj. Qed.

Lemma entry_of net : net ∈ concat (pc_AllowedIPs <$> peers) <->
  exists i n p, ns !! i = Some n /\ peers !! i = Some p /\ net ∈ pc_AllowedIPs p.
Proof.
  rewrite list_elem_of_In, in_concat. setoid_rewrite <- list_elem_of_In. setoid_rewrite list_elem_of_fmap. split.
  - intros (l & (p & -> & Hp) & Hnet). apply list_elem_of_lookup in Hp as [i Hp].
    destruct (lookup_lt_is_Some_2 ns i) as [n Hn]; [|by exists i, n, p].
    rewrite (Forall2_length _ _ _ entries). by eapply lookup_lt_Some.
  - intros (i & n & p & _ & Hp & Hnet). exists (pc_AllowedIPs p). split; [|done]. exists p.
    split; [done|by eapply list_elem_of_lookup_2].
Qed.

Lemma entry_carries i n p net : ns !! i = Some n -> peers !! i = Some p -> net ∈ pc_AllowedIPs p ->
  exists m, m ∈ ns /\ net = tunnel_of m /\ carrier relayed tk m = node_PublicKey n.
Proof.
  intros Hn Hp Hnet. destruct (proj1 (covers net)) as (m & Hm & ->); [apply entry_of; by exists i, n, p|].
  exists m. split_and!; try done. unfold carrier. destruct (is_shadow relayed tk m) eqn:Em.
  - pose proof (entry_at _ _ _ Hn Hp) as Hr.
    destruct (is_shadow relayed tk n) eqn:En; [rewrite Hr in Hnet; by apply not_elem_of_nil in Hnet|].
    destruct Hr as (folded & Ef & Hfold). destruct (decide (node_PublicKey n = tk)) as [->|Hne]; [done|].
    rewrite Ef, (Hfold Hne) in Hnet. apply list_elem_of_singleton in Hnet.
    assert (m = n) as -> by (eapply (NoDup_fmap_inj _ _ _ _ addresses); try done; by eapply list_elem_of_lookup_2). congruence.
  - apply list_elem_of_lookup in Hm as [j Hj]. destruct (lookup_lt_is_Some_2 peers j) as [q Hq].
    { rewrite <- (Forall2_length _ _ _ entries). by eapply lookup_lt_Some. }
    pose proof (entry_at _ _ _ Hj Hq) as Hr. rewrite Em in Hr. destruct Hr as (folded & Ef & _).
    assert (i = j) as <-; [|congruence]. eapply entry_index; [done..|]. rewrite Ef. by left.
Qed.

Lemma entry_routes :
  Forall2 (fun n p => forall net, net ∈ pc_AllowedIPs p <->
    exists m, m ∈ ns /\ net = tunnel_of m /\ carrier relayed tk m = node_PublicKey n) ns peers.
Proof.
  apply Forall2_same_length_lookup. split; [by eapply Forall2_length|]. intros i n p Hn Hp net.
  split; [by eapply entry_carries|]. intros (m & Hm & -> & Hc).
  destruct (proj1 (entry_of (tunnel_of m))) as (j & n' & q & Hn' & Hq & Hnet); [apply covers; by exists m|].
  destruct (entry_carries _ _ _ _ Hn' Hq Hnet) as (m' & Hm' & E & Hc').
  assert (m' = m) as -> by (by eapply (NoDup_fmap_inj _ _ _ _ addresses)). rewrite Hc in Hc'.
  assert (n' = n) as -> by (eapply (NoDup_fmap_inj _ _ _ _ keys); [by eapply list_elem_of_lookup_2..|done]).
  assert (j = i) as -> by (eapply NoDup_lookup; [exact (NoDup_fmap_1 _ _ keys)|done..]). congruence.
Qed.
End entries.

Section laws.
Context `{CryptoLib} `{UnicodeTables} `{Msgpack} `{Secp} `{UrlLib} `{ErrorText} `{!CryptoLaws} `{!MsgpackLaws}.
Variable net_ResolveUDPAddr : string -> option UDPAddr.

Notation reconcileRelay := (reconcileRelay net_ResolveUDPAddr).
Notation runDaemonIteration := (runDaemonIteration net_ResolveUDPAddr).
Notation runRelayTick := (runRelayTick net_ResolveUDPAddr).

(** A pass records what it pushed, or stopped before it touched the peers. *)
Lemma reconcile_pushes cfg d self dir k clk :
  let r := reconcileRelay cfg d self dir k clk in
  (rc_pushed r = [] /\ d_pushedAt (rc_state r) = d_pushedAt d) \/
  d_pushedAt (rc_state r) = recordEndpointPushes (d_pushedAt d) (rc_pushed r) dir (t_push clk).
Proof.
  cbv zeta. unfold Daemon.reconcileRelay. destruct (NewManager _); [|by left]. destruct (snd (manager_Up _ _)); [|by left].
  destruct (Relay.Update _ _ _ _ _) as [c dec]. by right.
Qed.

(** A pass, as far as pushed endpoints go: the directory applied, the keys pushed
    and when. *)
Definition Pass : Type := Directory * list string * Time.

Definition pass_of (clk : Clock) (o : option (Directory * Reconciled)) : list Pass :=
  match o with Some (dir, r) => [(dir, rc_pushed r, t_push clk)] | None => [] end.

(** A daemon's runs: ticks and iterations in any order, with any configuration,
    kernel and surroundings. *)
Inductive daemon_run : DaemonState -> list Pass -> Prop :=
  | run_new lan : daemon_run (newDaemonRuntime lan) []
  | run_tick d log cfg k clk d' o :
      daemon_run d log -> runRelayTick cfg d k clk = (d', o) -> daemon_run d' (log ++ pass_of clk o)
  | run_iteration d log cfg k clk io hosts dns w it w' :
      daemon_run d log -> exec (runDaemonIteration cfg d k clk io hosts dns) w it w' ->
      daemon_run (it_state it) (log ++ pass_of clk (it_reconciled it)).

(** What a pass does to the push times. *)
Definition pushes (before : gmap string Time) (passes : list Pass) (after : gmap string Time) : Prop :=
  match passes with
  | [(dir, pushed, t)] => (pushed = [] /\ after = before) \/ after = recordEndpointPushes before pushed dir t
  | _ => passes = [] /\ after = before
  end.

Lemma tick_pushes cfg d k clk d' o :
  runRelayTick cfg d k clk = (d', o) -> pushes (d_pushedAt d) (pass_of clk o) (d_pushedAt d').
Proof.
  unfold Daemon.runRelayTick. destruct (d_dir d) as [dir|]; [|by intros [= <- <-]].
  destruct (findSelf cfg dir) as [self|e]; [|by intros [= <- <-]]. intros [= <- <-]. cbn.
  destruct (reconcile_pushes cfg d self dir k clk) as [[-> ->] | -> ]; [by left|by right].
Qed.

(** The reconciliation inside an iteration. *)
Lemma iteration_reconciled cfg d k clk io hosts dns w it w' :
  exec (runDaemonIteration cfg d k clk io hosts dns) w it w' ->
  match it_reconciled it with
  | None => d_pushedAt (it_state it) = d_pushedAt d
  | Some (dir, r) => exists self, findSelf cfg dir = Ok self /\ Validate.Validate dir = Ok tt /\
      r = reconcileRelay cfg (set_d_dir dir d) self dir k clk /\
      d_pushedAt (it_state it) = d_pushedAt (rc_state r)
  end.
Proof.
  unfold Daemon.runDaemonIteration. intros (res & w1 & Hs & Hx)%exec_bind.
  destruct res as [res|e]; [|by destruct Hx as [-> _]]. apply exec_runSync in Hs as (Hv & _). cbv zeta in Hx.
  destruct (findSelf cfg (sr_Directory res)) as [self|e] eqn:Ef; [|by destruct Hx as [-> _]].
  set (r := reconcileRelay cfg _ self _ k clk) in *. destruct (rc_result r) as [dec|e]; [|destruct Hx as [-> _]; cbn; by exists self].
  destruct (hosts_sync _ _ _ _ _) as [warn h].
  set (d1 := set_d_lan _ _) in *.
  assert (Hd1 : d_pushedAt d1 = d_pushedAt (rc_state r)) by done. clearbody d1.
  assert (Hfin : forall o, it = {| it_state := d1; it_reconciled := Some (sr_Directory res, r); it_hosts := h; it_result := o |} ->
    match it_reconciled it with
    | None => d_pushedAt (it_state it) = d_pushedAt d
    | Some (dir, r) => exists self, findSelf cfg dir = Ok self /\ Validate.Validate dir = Ok tt /\
        r = reconcileRelay cfg (set_d_dir dir d) self dir k clk /\ d_pushedAt (it_state it) = d_pushedAt (rc_state r)
    end) by (intros o ->; cbn; by exists self).
  assert (Hobs : forall w2, exec (if observe_IsEnabled (c_Observe cfg)
      then prog_bind (fun o => match o with
             | Ok _ => Ret {| it_state := d1; it_reconciled := Some (sr_Directory res, r); it_hosts := h; it_result := Ok tt |}
             | Err e => if bool_decide (obs_Enabled (c_Observe cfg) = Some true)
                        then Ret {| it_state := d1; it_reconciled := Some (sr_Directory res, r); it_hosts := h; it_result := Err e |}
                        else Ret {| it_state := d1; it_reconciled := Some (sr_Directory res, r); it_hosts := h; it_result := Ok tt |}
             end) (runAdminObservation cfg (sr_Serial res) (d_pushedAt d1))
      else Ret {| it_state := d1; it_reconciled := Some (sr_Directory res, r); it_hosts := h; it_result := Ok tt |}) w2 it w' ->
    exists o, it = {| it_state := d1; it_reconciled := Some (sr_Directory res, r); it_hosts := h; it_result := o |}).
  { intros w2. destruct (observe_IsEnabled _); [|intros [-> _]; by eexists].
    intros ([u|e] & w3 & _ & Ho)%exec_bind; [destruct Ho as [-> _]; by eexists|].
    destruct (bool_decide _); destruct Ho as [-> _]; by eexists. }
  destruct (d_lanStore d1).
  - destruct Hx as (x & w2 & _ & Hx). apply Hobs in Hx as (o & Hx). by eapply Hfin.
  - apply Hobs in Hx as (o & Hx). by eapply Hfin.
Qed.

Lemma iteration_pushes cfg d k clk io hosts dns w it w' :
  exec (runDaemonIteration cfg d k clk io hosts dns) w it w' ->
  pushes (d_pushedAt d) (pass_of clk (it_reconciled it)) (d_pushedAt (it_state it)).
Proof.
  intros Hx%iteration_reconciled. destruct (it_reconciled it) as [[dir r]|]; [|by split].
  destruct Hx as (self & _ & _ & -> & ->). cbn. pose proof (reconcile_pushes cfg (set_d_dir dir d) self dir k clk) as Hp. exact Hp.
Qed.

(** Every push of a key is remembered while its node stays a member. *)
Definition remembered (k : string) (log : list Pass) (pushedAt : gmap string Time) : Prop :=
  forall l1 dir pushed t0 l2, log = l1 ++ (dir, pushed, t0) :: l2 -> k ∈ pushed -> k ∈ node_PublicKey <$> dir_Nodes dir ->
    Forall (fun p : Pass => k ∈ node_PublicKey <$> dir_Nodes p.1.1 /\ t0 <= p.2) l2 ->
    exists t, pushedAt !! k = Some t /\ t0 <= t.

Lemma pushes_remembered k log before passes after :
  remembered k log before -> pushes before passes after -> remembered k (log ++ passes) after.
Proof.
  intros Hr Hp. destruct passes as [|[[dir pushed] t] [|]]; [destruct Hp as [_ ->]; by rewrite app_nil_r| |by destruct Hp].
  intros l1 dir0 pushed0 t0 l2 E Hk Hm Hl. cbn in Hp.
  destruct l2 as [|p l2 _] using rev_ind.
  - apply app_inj_tail in E as [-> [= -> -> ->]]. destruct Hp as [[-> _]|Hp]; [by apply not_elem_of_nil in Hk|]. subst after.
    exists t0. rewrite recordEndpointPushes_lookup, !decide_True by done. done.
  - rewrite app_comm_cons, (assoc_L (++)) in E. apply app_inj_tail in E as [E <-].
    apply Forall_app in Hl as [Hl [[Hkm Ht] _]%Forall_cons]. cbn in Hkm, Ht.
    destruct (Hr l1 dir0 pushed0 t0 l2 E Hk Hm Hl) as (t1 & Ht1 & Hle). destruct Hp as [[_ Hp]|Hp]; subst after; [by exists t1|].
    rewrite recordEndpointPushes_lookup, decide_True by done. case_decide; [by exists t|by exists t1].
Qed.

Lemma daemon_remembers d log k : daemon_run d log -> remembered k log (d_pushedAt d).
Proof.
  induction 1 as [lan|d log cfg ker clk d' o _ IH Ht|d log cfg ker clk io hosts dns w it w' _ IH Hx].
  - intros l1 dir pushed t0 l2 E. by destruct l1.
  - eapply pushes_remembered; [exact IH|by eapply tick_pushes].
  - eapply pushes_remembered; [exact IH|by eapply iteration_pushes].
Qed.

(** An endpoint the daemon itself wrote into the kernel is never published as
    observed on its own account: in any run of ticks and iterations, whatever an
    observation newly publishes for a node rests on a handshake completed after
    every endpoint pushed for that node since it became a member. *)
Lemma daemon_observes d log l1 dir pushed t0 l2 source peers now fresh nodes changed n n' i :
  daemon_run d log -> log = l1 ++ (dir, pushed, t0) :: l2 ->
  node_PublicKey n ∈ pushed -> node_PublicKey n ∈ node_PublicKey <$> dir_Nodes dir ->
  Forall (fun p : Pass => node_PublicKey n ∈ node_PublicKey <$> dir_Nodes p.1.1 /\ t0 <= p.2) l2 ->
  NoDup (peer_PublicKey <$> peers) ->
  MergeObservations source peers now fresh (d_pushedAt d) = (set_dir_Nodes nodes source, changed) ->
  dir_Nodes source !! i = Some n -> nodes !! i = Some n' -> n' <> n -> node_ObservedEndpoint n' <> "" ->
  exists p, p ∈ peers /\ ParseWGPublic (node_PublicKey n) = Ok (peer_PublicKey p) /\
    peer_Endpoint p = Some (node_ObservedEndpoint n') /\ t0 < peer_LastHandshakeTime p.
Proof.
  intros Hrun Hlog Hk Hm Hl Hd Hmerge Hi Hi' Hne Ho.
  destruct (daemon_remembers _ _ (node_PublicKey n) Hrun _ _ _ _ _ Hlog Hk Hm Hl) as (t & Ht & Hle).
  pose proof (MergeObservations_spec source peers now fresh (d_pushedAt d) Hd) as Hs. cbv zeta in Hs. rewrite Hmerge in Hs.
  destruct Hs as (_ & nodes' & E & Hf). apply (f_equal dir_Nodes) in E. cbn in E. subst nodes'.
  pose proof (Forall2_lookup_lr _ _ _ _ _ _ Hf Hi Hi') as (_ & Hc). destruct (Hc Hne) as (_ & Hv & _).
  destruct (Hv Ho) as [(p & pub & Hpub & Hp & <- & He & _ & _ & Hlast) _]. exists p. split_and!; try done.
  rewrite Ht in Hlast. cbn in Hlast. lia.
Qed.
(** *** Convergence of a pass *)

(** The controller remembers the member as relayed. *)
Definition is_relayed (d : DaemonState) (key : string) : Prop :=
  exists st, ctl_states (d_controller d) !! key = Some st /\ ps_Mode st = ModeRelayed.

(** What the code in [reconcileRelay] hands to the kernel, when it gets there. *)
Lemma reconcile_configured cfg d self dir k clk cfgs :
  rc_configured (reconcileRelay cfg d self dir k clk) = Some cfgs ->
  exists wg peers lan entries,
    let u := Relay.Update (d_controller d) self dir peers (t_update clk) in
    BuildPeerConfigs net_ResolveUDPAddr wg self dir (dec_Relayed u.2) lan = Ok entries /\
    cfgs = mergeAgainstKernel (k_device k) (t_merge clk) entries /\
    d_controller (rc_state (reconcileRelay cfg d self dir k clk)) = u.1.
Proof.
  unfold Daemon.reconcileRelay. destruct (NewManager _) as [m|]; [|done]. destruct (snd (manager_Up _ _)); [|done].
  set (peers := match manager_Peers k with Ok ps => ps | Err _ => [] end).
  destruct (Relay.Update _ _ _ _ _) as [c dec] eqn:Eu. set (lan := lan_lookup _ _). cbn [rc_configured rc_state].
  unfold manager_Apply. destruct (k_findLink k); [|done]. destruct (BuildPeerConfigs _ _ _ _ _ _) as [entries|] eqn:Eb; [|done].
  destruct (k_open k); [|done]. intros Hc. exists (mg_wg m), peers, lan, entries. rewrite Eu. cbn.
  split_and!; [done| |done]. by destruct (k_configure _ _); injection Hc as <-.
Qed.

Lemma relayed_remembered c self dir peers now key :
  NoDup (node_PublicKey <$> dir_Nodes dir) ->
  let u := Relay.Update c self dir peers now in
  key ∈ dec_Relayed u.2 <-> exists st, ctl_states u.1 !! key = Some st /\ ps_Mode st = ModeRelayed.
Proof.
  intros Hd. pose proof (Update_nodes c self dir peers now Hd) as Hu. destruct (Relay.Update _ _ _ _ _) as [c' dec].
  destruct Hu as (Es & _ & _ & _ & Hr & _). cbn. rewrite Es. apply Hr.
Qed.

(** Where the traffic for [m] goes: to the relay target or to [m] itself. *)
Definition carried_by (self : Node) (dir : Directory) (relayed : string -> Prop) (m n : Node) : Prop :=
  (relayed (node_PublicKey m) /\ exists t, RelayTarget dir (node_PublicKey self) = Some t /\ node_PublicKey t = node_PublicKey n) \/
  (~ relayed (node_PublicKey m) /\ node_PublicKey m = node_PublicKey n).

Lemma carrier_decision c self dir peers now m n :
  ValidDirectory dir -> spokes_bare dir -> m ∈ others self (dir_Nodes dir) -> n ∈ others self (dir_Nodes dir) ->
  let relayed := dec_Relayed (Relay.Update c self dir peers now).2 in
  carrier relayed (relay_target_key self dir relayed) m = node_PublicKey n <->
  carried_by self dir (fun key => key ∈ relayed) m n.
Proof.
  intros Hv Hb Hm Hn. cbv zeta. pose proof (shadow_relayed c self dir peers now m Hv Hb Hm) as Hs. cbv zeta in Hs.
  set (relayed := dec_Relayed _) in *. unfold carrier, carried_by.
  destruct (is_shadow relayed _ m) eqn:Em; [|split; [intros E; right; split; [intros Hc; apply Hs in Hc; congruence|done]|]].
  - assert (Hr : node_PublicKey m ∈ relayed) by by apply Hs. unfold relay_target_key in *.
    rewrite decide_False by set_solver. rewrite decide_False in Em by set_solver.
    destruct (RelayTarget dir _) as [t|]; [|unfold is_shadow in Em; by rewrite andb_false_r in Em].
    split; [intros <-; left; split; [done|by exists t]|]. intros [(_ & t' & [= <-] & E)|[Hc _]]; [done|by destruct Hc].
  - intros [[Hr _]|[_ E]]; [apply Hs in Hr; congruence|done].
Qed.

(** The members of a valid directory, as the peer plan sees them. *)
Lemma members_tunnels self dir m :
  ValidDirectory dir -> m ∈ others self (dir_Nodes dir) ->
  exists ip, parse_is4 (node_TunnelIP m) = Some ip /\ tunnel_of m = host_net ip /\
    net_ParseCIDR (node_TunnelIP m +:+ "/32") = Some (tunnel_of m).
Proof.
  intros (_ & prefix & _ & _ & [He _ _ _ _]) [_ Hm]%list_elem_of_filter. rewrite Forall_forall in He.
  destruct (valid_node_tunnel _ _ (He m Hm)) as (ip & Hip & Hc). exists ip. unfold tunnel_of. by rewrite Hip.
Qed.

Lemma members_distinct self dir :
  ValidDirectory dir ->
  NoDup (node_PublicKey <$> others self (dir_Nodes dir)) /\ NoDup (tunnel_of <$> others self (dir_Nodes dir)).
Proof.
  intros Hv. pose proof Hv as (_ & prefix & _ & _ & [_ _ Hk Hips _]).
  assert (Hd : NoDup (others self (dir_Nodes dir))) by by eapply NoDup_filter, NoDup_fmap_1.
  split; (apply NoDup_fmap_2_strong; [|done]); intros m n Hm Hn E.
  - apply list_elem_of_filter in Hm as [_ Hm], Hn as [_ Hn]. by apply (NoDup_fmap_inj _ _ _ _ Hk).
  - destruct (members_tunnels _ _ _ Hv Hm) as (ip & Hip & Em & _), (members_tunnels _ _ _ Hv Hn) as (ip' & Hip' & En & _).
    rewrite Em, En in E. injection E as ->. apply list_elem_of_filter in Hm as [_ Hm], Hn as [_ Hn].
    apply (NoDup_fmap_inj _ _ _ _ Hips); try done. by eapply parse_is4_inj.
Qed.

Lemma valid_directory_keys dir : ValidDirectory dir -> NoDup (node_PublicKey <$> dir_Nodes dir).
Proof. by intros (_ & prefix & _ & _ & [_ _ Hk _ _]). Qed.

Lemma entries_kept relayed tk ns entries :
  Forall2 (peer_entry relayed tk) ns entries -> Forall (fun p => pc_Remove p = false) entries.
Proof. intros Hf. eapply Forall2_Forall_r; [exact Hf|]. apply Forall_forall. by intros n _ p (_ & ? & _). Qed.

Lemma entries_keys relayed tk ns entries key :
  Forall2 (peer_entry relayed tk) ns entries ->
  key ∈ pc_PublicKey <$> entries <-> exists n, n ∈ ns /\ ParseWGPublic (node_PublicKey n) = Ok key.
Proof.
  induction 1 as [|n p ns entries (Hp & _) _ IH]; [cbn; setoid_rewrite elem_of_nil; naive_solver|].
  rewrite fmap_cons, elem_of_cons, IH. setoid_rewrite elem_of_cons. split.
  - intros [->|(m & ? & ?)]; [exists n; by split; [left|]|exists m; by split; [right|]].
  - intros (m & [->|Hm] & E); [left; congruence|right; by exists m].
Qed.

Lemma member_routes relayed tk self dir entries :
  ValidDirectory dir -> Forall2 (peer_entry relayed tk) (others self (dir_Nodes dir)) entries ->
  NoDup (concat (pc_AllowedIPs <$> entries)) ->
  (forall net, net ∈ concat (pc_AllowedIPs <$> entries) <->
     exists n ip, n ∈ dir_Nodes dir /\ node_PublicKey n <> node_PublicKey self /\
       parse_is4 (node_TunnelIP n) = Some ip /\ net = host_net ip) ->
  Forall2 (fun n p => forall net, net ∈ pc_AllowedIPs p <->
    exists m, m ∈ others self (dir_Nodes dir) /\ net = tunnel_of m /\ carrier relayed tk m = node_PublicKey n)
    (others self (dir_Nodes dir)) entries.
Proof.
  intros Hv Hf Hd Hc. destruct (members_distinct self dir Hv) as [Hk Ht]. eapply entry_routes; try done.
  - intros net. rewrite Hc. split.
    + intros (n & ip & Hn & Hs & Hip & ->). exists n. split; [by apply list_elem_of_filter|]. unfold tunnel_of. by rewrite Hip.
    + intros (m & Hm & ->). destruct (members_tunnels _ _ _ Hv Hm) as (ip & Hip & -> & _).
      apply list_elem_of_filter in Hm as [Hs Hm]. by exists m, ip.
  - intros m Hm. by destruct (members_tunnels _ _ _ Hv Hm) as (ip & _ & _ & ?).
Qed.

Lemma pass_routes cfg d self dir k clk kernel cfgs :
  ValidDirectory dir -> spokes_bare dir -> k_device k = Some kernel -> NoDup (peer_PublicKey <$> kernel) ->
  let r := reconcileRelay cfg d self dir k clk in
  let members := others self (dir_Nodes dir) in
  rc_configured r = Some cfgs ->
  exists entries removals, cfgs = entries ++ removals /\
    Forall2 (fun n q =>
        ParseWGPublic (node_PublicKey n) = Ok (pc_PublicKey q) /\ pc_Remove q = false /\ pc_ReplaceAllowedIPs q = true /\
        (live kernel (t_merge clk) (pc_PublicKey q) = true -> pc_Endpoint q = None) /\
        forall net, net ∈ pc_AllowedIPs q <->
          exists m, m ∈ members /\ net = tunnel_of m /\ carried_by self dir (is_relayed (rc_state r)) m n)
      members entries /\
    forall q, q ∈ removals <-> exists p, p ∈ kernel /\ q = removal (peer_PublicKey p) /\
      forall n, n ∈ members -> ParseWGPublic (node_PublicKey n) <> Ok (peer_PublicKey p).
Proof.
  intros Hv Hb Hk Hkd r members Hc. subst r. destruct (reconcile_configured _ _ _ _ _ _ _ Hc) as (wg & peers & lan & entries & He & -> & Hctl).
  cbv zeta in He, Hctl. assert (Hne : dir_Nodes dir <> []) by (intros E; unfold BuildPeerConfigs in He; by rewrite E in He).
  pose proof (carrier_decision (d_controller d) self dir peers (t_update clk)) as Hcar.
  pose proof (fun key => relayed_remembered (d_controller d) self dir peers (t_update clk) key (valid_directory_keys dir Hv)) as Hrel.
  cbv zeta in Hcar, Hrel. rewrite <- Hctl in Hrel. set (relayed := dec_Relayed _) in *.
  destruct (BuildPeerConfigs_covers net_ResolveUDPAddr wg self dir relayed lan Hv Hne) as (ps & Hps & Hent & Hdis & Hcov).
  rewrite He in Hps. injection Hps as <-.
  pose proof (member_routes _ _ _ _ _ Hv Hent Hdis Hcov) as Hroutes.
  rewrite Hk. destruct (mergeAgainstKernel_spec kernel (t_merge clk) entries Hkd) as (Hm & Hdrop & _); [by eapply entries_kept|].
  set (merged := mergeAgainstKernel (Some kernel) (t_merge clk) entries) in *. exists (take (length entries) merged), (drop (length entries) merged).
  split; [by rewrite take_drop|]. split.
  - apply Forall2_same_length_lookup. split; [etransitivity; [by eapply Forall2_length|by eapply Forall2_length]|].
    intros i n q Hn Hq. destruct (Forall2_lookup_r _ _ _ _ _ Hm Hq) as (p & Hp & ->). cbn.
    destruct (Forall2_lookup_lr _ _ _ _ _ _ Hent Hn Hp) as (Hkey & _ & Hrep & _).
    pose proof (Forall2_lookup_lr _ _ _ _ _ _ Hroutes Hn Hp) as Hnet. cbn in Hnet.
    split_and!; try done; [by intros ->|]. intros net. rewrite Hnet.
    apply list_elem_of_lookup_2 in Hn. split; intros (m & Hin & E & Hca); exists m; (split_and!; [done..|]);
      pose proof (Hcar m n Hv Hb Hin Hn) as Hx; unfold carried_by in *; rewrite Hrel in Hx; by apply Hx.
  - intros q. rewrite Hdrop. setoid_rewrite (entries_keys _ _ _ _ _ Hent). split.
    + intros (p & Hp & Hno & ->). exists p. split_and!; try done. intros n Hn E. apply Hno. by exists n.
    + intros (p & Hp & -> & Hno). exists p. split_and!; try done. intros (n & Hn & E). by eapply Hno.
Qed.
(** C6: after a pass over a valid directory the kernel routes as the controller
    decided: the peers handed to it are one entry per other member, whose allowed
    addresses are exactly the tunnel addresses that member carries (its own unless
    it is relayed, and every relayed member's when it is the relay target), whose
    endpoint is left alone while its handshake is fresh, and one removal for each
    of the kernel's peers that is no member. *)
Theorem reconcile_converges cfg d self dir k clk kernel cfgs :
  ValidDirectory dir -> spokes_bare dir -> k_device k = Some kernel -> NoDup (peer_PublicKey <$> kernel) ->
  let r := reconcileRelay cfg d self dir k clk in
  let members := others self (dir_Nodes dir) in
  rc_configured r = Some cfgs ->
  exists entries removals, cfgs = entries ++ removals /\
    Forall2 (fun n q =>
        ParseWGPublic (node_PublicKey n) = Ok (pc_PublicKey q) /\ pc_Remove q = false /\ pc_ReplaceAllowedIPs q = true /\
        (live kernel (t_merge clk) (pc_PublicKey q) = true -> pc_Endpoint q = None) /\
        forall net, net ∈ pc_AllowedIPs q <->
          exists m, m ∈ members /\ net = tunnel_of m /\ carried_by self dir (is_relayed (rc_state r)) m n)
      members entries /\
    forall q, q ∈ removals <-> exists p, p ∈ kernel /\ q = removal (peer_PublicKey p) /\
      forall n, n ∈ members -> ParseWGPublic (node_PublicKey n) <> Ok (peer_PublicKey p).
Proof. apply pass_routes. Qed.
End laws.

(** ** Samples *)
Section samples.
#[local] Existing Instances toy_crypto toy_msgpack ascii_tables toy_secp no_urls.
#[local] Existing Instances toy_crypto_laws toy_msgpack_laws.
Definition no_error_text : ErrorText := fun _ => "".
#[local] Existing Instance no_error_text.

(** A kernel where every call succeeds. *)
Definition kernel_with (device : list Peer) : Kernel := {|
  k_mtu := None; k_setMTU := Ok tt; k_addLink := Ok tt; k_findLink := Ok tt; k_setUp := Ok tt; k_open := Ok tt;
  k_peers := Ok device; k_device := Some device; k_configure := fun _ => Ok tt; k_addrs := Ok []; k_assign := Ok tt;
  k_route := Ok tt; k_port := Ok 51820 |}.

Definition clock_at (t : Time) : Clock := {|
  t_update := t; t_mark := t; t_lookup := fun _ => t; t_merge := t; t_push := t; t_gc := t |}.

Definition sample_world : DnsWorld := {|
  dw_resolv := Err os_ErrNotExist; dw_resolve := fun s => Ok s; dw_listen := fun _ => Ok tt |}.

(** The daemon of alpha, which saw a beacon of beta. *)
Definition started : DaemonState :=
  newDaemonRuntime (Some (fst (store_Update (NewStore (90 * Second)) (node_PublicKey beta) "192.168.1.7:51820" (30 * Second)))).

Definition first_pass : Iterated * World :=
  run sample_oracle (runDaemonIteration Some sample_cfg started (kernel_with []) (clock_at (50 * Second)) (Ok tt)
    NoFile sample_world) fresh_world.

Example first_pass_pushes : pass_of (clock_at (50 * Second)) (it_reconciled (fst first_pass)) =
  [(sample_dir, [node_PublicKey beta], 50 * Second)].
Proof. vm_compute. reflexivity. Qed.
Lemma first_pass_exec :
  exec (runDaemonIteration Some sample_cfg started (kernel_with []) (clock_at (50 * Second)) (Ok tt) NoFile sample_world)
    fresh_world (fst first_pass) (snd first_pass).
Proof. exact (run_exec sample_oracle _ _). Qed.

(** Gamma, once beta has been silent: alpha carries beta and the phone, and the
    kernel's stranger goes. *)
Definition gamma_cfg : Config := {|
  c_Wireguard := {| wg_Name := "gamma"; wg_PublicKey := toy_key "d"; wg_PrivateKey := toy_key "d"; wg_Interface := "";
    wg_ListenPort := 0; wg_MTU := 0; wg_Keepalive := unset_duration |};
  c_Directory := c_Directory sample_cfg; c_Drop := c_Drop sample_cfg; c_Sync := c_Sync sample_cfg;
  c_Observe := c_Observe sample_cfg; c_Discovery := c_Discovery sample_cfg; c_DNS := c_DNS sample_cfg |}.

Definition strange_kernel : list Peer := [beta_seen; {| peer_PublicKey := "z"; peer_Endpoint := None; peer_LastHandshakeTime := 0 |}].
Definition gamma_daemon : DaemonState := set_d_relay sample_controller ∅ None ∅ (newDaemonRuntime None).
Definition gamma_pass : Reconciled :=
  reconcileRelay Some gamma_cfg gamma_daemon gamma relay_dir (kernel_with strange_kernel) (clock_at (500 * Second)).

Example gamma_routes : option_map (map (fun q => (pc_Remove q, length (pc_AllowedIPs q)))) (rc_configured gamma_pass) =
  Some [(false, 3%nat); (false, 0%nat); (false, 0%nat); (true, 0%nat)].
Proof. vm_compute. reflexivity. Qed.

Lemma reconcile_converges_witness :
  exists entries removals, rc_configured gamma_pass = Some (entries ++ removals) /\
    length entries = 3%nat /\ removal "z" ∈ removals.
Proof.
  assert (Hc : is_Some (rc_configured gamma_pass)) by (apply (bool_decide_eq_true _); vm_compute; reflexivity).
  destruct Hc as [cfgs Hc]. rewrite Hc.
  destruct (reconcile_converges Some gamma_cfg gamma_daemon gamma relay_dir (kernel_with strange_kernel) (clock_at (500 * Second))
    strange_kernel cfgs) as (entries & removals & -> & Hent & Hrem).
  - apply relay_dir_valid.
  - intros n Hn Hp. repeat (apply elem_of_cons in Hn as [->|Hn]; [discriminate Hp || reflexivity|]).
    destruct (not_elem_of_nil _ Hn).
  - reflexivity.
  - apply (bool_decide_eq_true _). vm_compute. reflexivity.
  - exact Hc.
  - exists entries, removals. split_and!; [done|by rewrite <- (Forall2_length _ _ _ Hent)|]. apply Hrem.
    exists {| peer_PublicKey := "z"; peer_Endpoint := None; peer_LastHandshakeTime := 0 |}. split_and!; [right; left|reflexivity|].
    intros n Hn. repeat (apply elem_of_cons in Hn as [->|Hn]; [vm_compute; discriminate|]). destruct (not_elem_of_nil _ Hn).
Defined.
End samples.
