(* ===== verification/Status.v ===== *)
(** * Status: what tincan status reports (internal/cli/status.go, status_network.go)

    The peers of the device as the command shows them, the roster of the network,
    the warnings and the state of the names.  The command runs in another process
    than the daemon: it sees the directory in the cache and what the kernel holds,
    and infers from them which peers the daemon relays.  It is shown to infer what
    the daemon decided. *)
From stdpp Require Import base tactics option list strings gmap.
From Stdlib Require Import Ascii ZArith Lia.
From S2P Require Import Prelude GoStrings GoNum GoNet GoBase64 Keys Directory DnsName Validate Wire Toy Codec Diff Schema Config Relay Peers Manager Observe Discovery Hosts DnsServe DnsManager Cache Drop Prog Admin Nostr Bootstrap Daemon DaemonLaws.
Open Scope Z_scope.

(** ** Peers *)

(** [wgtypes.Peer], the fields status reads. *)
Record DevicePeer := {
  dp_PublicKey : string;
  dp_Endpoint : option UDPAddr;
  dp_AllowedIPs : list IPNet;
  dp_LastHandshakeTime : Time;
  dp_PersistentKeepaliveInterval : Duration;
  dp_ReceiveBytes : Z;
  dp_TransmitBytes : Z }.

Record statusPeer := {
  sp_PublicKey : string;
  sp_Name : string;
  sp_Mode : string;
  sp_RelayVia : string;
  sp_Endpoint : string;
  sp_DirectoryEndpoint : string;
  sp_ObservedEndpoint : string;
  sp_ObservedAt : option Time;
  sp_AllowedIPs : list string;
  sp_LastHandshake : option Time;
  sp_LastHandshakeAge : string;
  sp_ReceiveBytes : Z;
  sp_TransmitBytes : Z;
  sp_PersistentKeepalive : string }.

(** The age of an instant in whole seconds. *)
Definition age_text (now t : Time) : string := duration_String (duration_Truncate (time_Sub now t) Second).

(** The address of an [IPNet] as text, and the network itself. *)
Definition ipnet_IPString (n : IPNet) : string :=
  if ipnet_Bits n =? 32 then ipv4_String (ipnet_IP n) else ip_String (ipnet_IP n).
Definition ipnet_String (n : IPNet) : string :=
  ipnet_IPString n +:+ "/" +:+
  strconv_Itoa (if ipnet_Bits n =? 32 then ipnet_Ones n else
                match ip_To4 (ipnet_IP n) with Some _ => Z.max 0 (ipnet_Ones n - 96) | None => ipnet_Ones n end).

Definition optional_time (t : Time) : option Time := if time_IsZero t then None else Some t.

Section status.
Context `{CryptoLib}.

Definition device_by_key (peers : list DevicePeer) : gmap string DevicePeer :=
  fold_left (fun m p => <[wgtypes_Key_String (dp_PublicKey p) := p]> m) peers ∅.

(** The tunnel addresses the relay target's peer carries besides its own. *)
Definition relayed_tunnel_ips (peers : list DevicePeer) (relayTarget : option Node) : gset string :=
  match relayTarget with
  | None => ∅
  | Some target =>
      match device_by_key peers !! node_PublicKey target with
      | None => ∅
      | Some relayPeer =>
          list_to_set (filter (fun ip => ip <> node_TunnelIP target) (ipnet_IPString <$> dp_AllowedIPs relayPeer))
      end
  end.

Definition status_item (nodes : gmap string Node) (relayTarget : option Node) (relayedIPs : gset string)
    (now : Time) (peer : DevicePeer) : statusPeer :=
  let pubkey := wgtypes_Key_String (dp_PublicKey peer) in
  let node := nodes !! pubkey in
  let relayed := match node, relayTarget with
                 | Some n, Some _ =>
                     Nat.eqb (length (dp_AllowedIPs peer)) 0 && bool_decide (node_TunnelIP n ∈ relayedIPs)
                 | _, _ => false
                 end in
  {| sp_PublicKey := pubkey;
     sp_Name := from_option node_Name "" node;
     sp_Mode := if relayed then "relayed" else "direct";
     sp_RelayVia := if relayed then from_option node_Name "" relayTarget else "";
     sp_Endpoint := default "" (dp_Endpoint peer);
     sp_DirectoryEndpoint := from_option node_Endpoint "" node;
     sp_ObservedEndpoint := from_option node_ObservedEndpoint "" node;
     sp_ObservedAt := n ← node; optional_time (node_ObservedAt n);
     sp_AllowedIPs := ipnet_String <$> dp_AllowedIPs peer;
     sp_LastHandshake := optional_time (dp_LastHandshakeTime peer);
     sp_LastHandshakeAge := if time_IsZero (dp_LastHandshakeTime peer) then "" else age_text now (dp_LastHandshakeTime peer);
     sp_ReceiveBytes := dp_ReceiveBytes peer;
     sp_TransmitBytes := dp_TransmitBytes peer;
     sp_PersistentKeepalive := if 0 <? dp_PersistentKeepaliveInterval peer
                               then duration_String (dp_PersistentKeepaliveInterval peer) else "" |}.

Definition wireGuardPeerStatus (peers : list DevicePeer) (dir : Directory) (self : Node) (now : Time) : list statusPeer :=
  let relayTarget := RelayTarget dir (node_PublicKey self) in
  status_item (nodes_by_key (dir_Nodes dir)) relayTarget (relayed_tunnel_ips peers relayTarget) now <$> peers.
End status.

(** *** The cells of the table *)

Definition ellipsis : string := String (chr 226) (String (chr 128) (String (chr 166) "")).

Definition peerLabel (peer : statusPeer) : string :=
  if negb (String.eqb (sp_Name peer) "") then sp_Name peer
  else if 12 <? len (sp_PublicKey peer) then string_take 8 (sp_PublicKey peer) +:+ ellipsis
  else sp_PublicKey peer.

Definition peerEndpointLabel (now : Time) (peer : statusPeer) : string :=
  if negb (String.eqb (sp_Endpoint peer) "") then sp_Endpoint peer
  else if negb (String.eqb (sp_DirectoryEndpoint peer) "") then sp_DirectoryEndpoint peer +:+ " (configured)"
  else if negb (String.eqb (sp_ObservedEndpoint peer) "") then
    sp_ObservedEndpoint peer +:+ " (" +:+
    match sp_ObservedAt peer with
    | Some at_ => "observed " +:+ age_text now at_ +:+ " ago"
    | None => "observed"
    end +:+ ")"
  else "-".

(** [net.IP.IsPrivate]: 10/8, 172.16/12, 192.168/16 and fc00::/7. *)
Definition ip_IsPrivate (ip : Z) : bool :=
  match ip_To4 ip with
  | Some v =>
      (octet v 24 =? 10) || ((octet v 24 =? 172) && (Z.land (octet v 16) 240 =? 16)) ||
      ((octet v 24 =? 192) && (octet v 16 =? 168))
  | None => Z.land (ip_byte ip 0) 254 =? 252
  end.

Definition isPrivateEndpoint (endpoint : string) : bool :=
  match net_SplitHostPort endpoint with
  | None => false
  | Some (host, _) =>
      match net_ParseIP host with
      | None => false
      | Some ip => ip_IsPrivate ip || ip_IsLinkLocalUnicast ip
      end
  end.

Definition peerStatusLabel (peer : statusPeer) : string :=
  if String.eqb (sp_Mode peer) "relayed" then
    if negb (String.eqb (sp_RelayVia peer) "") then "RELAYED via " +:+ sp_RelayVia peer else "RELAYED"
  else if negb (String.eqb (sp_Endpoint peer) "") && isPrivateEndpoint (sp_Endpoint peer) then "LAN"
  else "DIRECT".

Definition peerHandshakeLabel (peer : statusPeer) : string :=
  if negb (String.eqb (sp_LastHandshakeAge peer) "") then sp_LastHandshakeAge peer +:+ " ago" else "never".


(** ** The status shows the routing *)

(** What the kernel's peers become when a configuration is applied to them: an
    entry that is no removal is there with its addresses, and nothing else is
    there but peers from before that no entry speaks of. *)
Definition kernel_applied (kernel : list Peer) (cfgs : list PeerConfig) (dev : list DevicePeer) : Prop :=
  NoDup (dp_PublicKey <$> dev) /\
  (forall q, q ∈ cfgs -> pc_Remove q = false -> pc_ReplaceAllowedIPs q = true ->
     exists p, p ∈ dev /\ dp_PublicKey p = pc_PublicKey q /\ dp_AllowedIPs p = pc_AllowedIPs q) /\
  (forall p, p ∈ dev ->
     (exists q, q ∈ cfgs /\ dp_PublicKey p = pc_PublicKey q /\ pc_Remove q = false) \/
     (exists k, k ∈ kernel /\ peer_PublicKey k = dp_PublicKey p /\ dp_PublicKey p ∉ pc_PublicKey <$> cfgs)).

Section shown.
Context `{CryptoLib} `{UnicodeTables} `{!CryptoLaws}.

Lemma canonical_string s k : wg_canonical s -> ParseWGPublic s = Ok k -> len k = 32 /\ wgtypes_Key_String k = s.
Proof.
  intros (k' & Hk' & ->) Hp. assert (E : WGKeyToBytes (wgtypes_Key_String k') = Ok k).
  { revert Hp. unfold ParseWGPublic, WGKeyToBytes. by destruct (wgtypes_ParseKey _). }
  rewrite WGKey_roundtrip in E by done. by injection E as <-.
Qed.

Lemma device_by_key_unique peers key p :
  NoDup ((fun p => wgtypes_Key_String (dp_PublicKey p)) <$> peers) ->
  device_by_key peers !! key = Some p <-> p ∈ peers /\ wgtypes_Key_String (dp_PublicKey p) = key.
Proof.
  unfold device_by_key. induction peers as [|q ps IH] using rev_ind; intros Hd; [cbn; set_solver|].
  rewrite fmap_app in Hd. apply NoDup_app in Hd as (Hd & Hq & _). rewrite fold_left_app. cbn [fold_left].
  rewrite lookup_insert_Some, IH, elem_of_app, list_elem_of_singleton by done.
  assert (Hn : forall x, x ∈ ps -> wgtypes_Key_String (dp_PublicKey x) <> wgtypes_Key_String (dp_PublicKey q)).
  { intros x Hx E. apply (Hq (wgtypes_Key_String (dp_PublicKey x))); [apply list_elem_of_fmap; by exists x|]. cbn. rewrite E. by left. }
  naive_solver.
Qed.

Lemma tunnel_text self dir m : ValidDirectory dir -> m ∈ others self (dir_Nodes dir) -> ipnet_IPString (tunnel_of m) = node_TunnelIP m.
Proof.
  intros Hv Hm. destruct (members_tunnels _ _ _ Hv Hm) as (ip & Hip & -> & _). by apply parse_is4_canonical in Hip as [_ ->].
Qed.

(** What the controller relays has a target among the members, and is not it. *)
Lemma relayed_has_target c self dir peers now m :
  ValidDirectory dir -> spokes_bare dir -> m ∈ others self (dir_Nodes dir) ->
  node_PublicKey m ∈ dec_Relayed (Relay.Update c self dir peers now).2 ->
  exists t, RelayTarget dir (node_PublicKey self) = Some t /\ node_PublicKey t <> node_PublicKey m /\
    t ∈ others self (dir_Nodes dir).
Proof.
  intros Hv Hb [Hs Hm]%list_elem_of_filter Hr. pose proof (valid_directory_keys _ Hv) as Hd.
  pose proof (Update_nodes c self dir peers now Hd) as Hu. destruct (Relay.Update _ _ _ _ _) as [c' dec].
  destruct Hu as (Est & _ & Et & Hnode & Hrel & _). apply Hrel in Hr as (st & Hst & Hmode).
  rewrite <- Est, Hnode in Hst by done. injection Hst as <-. rewrite Et in Hmode.
  destruct (update_node_relayed _ _ _ _ _ _ Hd Hb Hm Hmode) as (_ & t & Ht & Hne). exists t.
  pose proof (RelayTarget_reachable _ _ _ Ht) as (Hin & Hts & _). split_and!; [done..|]. by apply list_elem_of_filter.
Qed.

(** The peers of the device after a pass are the members, each with the addresses
    the pass gave it. *)
Definition device_peer (dir : Directory) (self : Node) (relayed : string -> Prop) (p : DevicePeer) (n : Node) : Prop :=
  n ∈ others self (dir_Nodes dir) /\ wgtypes_Key_String (dp_PublicKey p) = node_PublicKey n /\
  forall net, net ∈ dp_AllowedIPs p <->
    exists m, m ∈ others self (dir_Nodes dir) /\ net = tunnel_of m /\ carried_by self dir relayed m n.

Section decided.
Variables (dir : Directory) (self : Node) (relayed : string -> Prop) (dev : list DevicePeer).
Hypothesis valid : ValidDirectory dir.
Hypothesis decide_relayed : forall key, relayed key \/ ~ relayed key.
Hypothesis targets : forall m, m ∈ others self (dir_Nodes dir) -> relayed (node_PublicKey m) ->
  exists t, RelayTarget dir (node_PublicKey self) = Some t /\ node_PublicKey t <> node_PublicKey m /\
    t ∈ others self (dir_Nodes dir).
Hypothesis dev_keys : NoDup ((fun p => wgtypes_Key_String (dp_PublicKey p)) <$> dev).
Hypothesis dev_peers : forall p, p ∈ dev -> exists n, device_peer dir self relayed p n.
Hypothesis dev_members : forall n, n ∈ others self (dir_Nodes dir) -> exists p, p ∈ dev /\ device_peer dir self relayed p n.

(** An entry without addresses, whose tunnel address the target's carries, is a
    relayed member's. *)
Lemma relayed_ips_spec t ip : RelayTarget dir (node_PublicKey self) = Some t ->
  ip ∈ relayed_tunnel_ips dev (Some t) <->
  exists m, m ∈ others self (dir_Nodes dir) /\ ip = node_TunnelIP m /\ ip <> node_TunnelIP t /\
    carried_by self dir relayed m t.
Proof.
  intros Ht. pose proof (RelayTarget_reachable _ _ _ Ht) as (Hin & Hts & _).
  destruct (dev_members t) as (p & Hp & _ & Hk & Hnet); [by apply list_elem_of_filter|].
  unfold relayed_tunnel_ips. rewrite (proj2 (device_by_key_unique dev _ p dev_keys)) by done.
  rewrite elem_of_list_to_set, list_elem_of_filter, list_elem_of_fmap. setoid_rewrite Hnet. split.
  - intros (Hne & net & -> & m & Hm & -> & Hc). rewrite (tunnel_text _ _ _ valid Hm) in *. exists m. done.
  - intros (m & Hm & -> & Hne & Hc). split; [done|]. exists (tunnel_of m). split; [by rewrite (tunnel_text _ _ _ valid Hm)|].
    by exists m.
Qed.

Lemma shown_relayed now p n : p ∈ dev -> device_peer dir self relayed p n ->
  let s := status_item (nodes_by_key (dir_Nodes dir)) (RelayTarget dir (node_PublicKey self))
             (relayed_tunnel_ips dev (RelayTarget dir (node_PublicKey self))) now p in
  sp_PublicKey s = node_PublicKey n /\ sp_Name s = node_Name n /\
  ((relayed (node_PublicKey n) /\ exists t, RelayTarget dir (node_PublicKey self) = Some t /\
      sp_Mode s = "relayed" /\ sp_RelayVia s = node_Name t) \/
   (~ relayed (node_PublicKey n) /\ sp_Mode s = "direct" /\ sp_RelayVia s = "")).
Proof.
  intros Hp (Hn & Hk & Hnet) s. pose proof valid as (_ & prefix & _ & _ & [_ _ Hkd Hips _]).
  assert (Hl : nodes_by_key (dir_Nodes dir) !! wgtypes_Key_String (dp_PublicKey p) = Some n).
  { apply nodes_by_key_unique; [done|]. split; [|done]. by apply list_elem_of_filter in Hn as []. }
  subst s. unfold status_item. rewrite Hl. cbn [sp_PublicKey sp_Name sp_Mode sp_RelayVia from_option]. split_and!; [done..|].
  destruct (decide_relayed (node_PublicKey n)) as [Hr|Hr]; [left|right]; (split; [done|]).
  - destruct (targets n Hn Hr) as (t & Ht & Htn & Hto). exists t. rewrite Ht.
    assert (Hempty : dp_AllowedIPs p = []).
    { destruct (dp_AllowedIPs p) as [|net nets] eqn:E; [done|]. destruct (proj1 (Hnet net)) as (m & _ & _ & Hc); [by left|].
      destruct Hc as [(_ & t' & Ht' & E')|(Hno & E')]; [congruence|by rewrite E' in Hno]. }
    rewrite Hempty, bool_decide_eq_true_2; [done|]. apply (relayed_ips_spec t _ Ht). exists n.
    split_and!; [done..| |left; split; [done|by exists t]]. intros E.
    apply list_elem_of_filter in Hn as [_ Hn], Hto as [_ Hto]. by apply (NoDup_fmap_inj _ _ _ _ Hips) in E as ->.
  - assert (Hown : tunnel_of n ∈ dp_AllowedIPs p) by (apply Hnet; exists n; split_and!; [done..|by right]).
    destruct (dp_AllowedIPs p); [by apply not_elem_of_nil in Hown|]. by destruct (RelayTarget _ _).
Qed.
End decided.
End shown.

Section routing.
Context `{CryptoLib} `{UnicodeTables} `{Msgpack} `{Secp} `{UrlLib} `{ErrorText} `{!CryptoLaws} `{!MsgpackLaws}.
Variable net_ResolveUDPAddr : string -> option UDPAddr.
Notation reconcileRelay := (reconcileRelay net_ResolveUDPAddr).

Lemma pass_devices cfg d self dir k clk kernel cfgs dev :
  ValidDirectory dir -> spokes_bare dir -> (forall n, n ∈ dir_Nodes dir -> wg_canonical (node_PublicKey n)) ->
  k_device k = Some kernel -> NoDup (peer_PublicKey <$> kernel) ->
  let r := reconcileRelay cfg d self dir k clk in
  rc_configured r = Some cfgs -> kernel_applied kernel cfgs dev ->
  (forall p, p ∈ dev -> exists n, ParseWGPublic (node_PublicKey n) = Ok (dp_PublicKey p) /\
     device_peer dir self (is_relayed (rc_state r)) p n) /\
  (forall n, n ∈ others self (dir_Nodes dir) -> exists p, p ∈ dev /\ device_peer dir self (is_relayed (rc_state r)) p n).
Proof.
  intros Hv Hb Hcan Hk Hkd r Hc (Hdev & Hin & Hout). subst r.
  destruct (pass_routes net_ResolveUDPAddr cfg d self dir k clk kernel cfgs Hv Hb Hk Hkd Hc) as (entries & removals & -> & Hent & Hrem).
  cbv zeta in Hent. set (relayed := is_relayed _) in *.
  assert (Hmember : forall n q, n ∈ others self (dir_Nodes dir) -> q ∈ entries -> ParseWGPublic (node_PublicKey n) = Ok (pc_PublicKey q) ->
    (forall net, net ∈ pc_AllowedIPs q <->
       exists m, m ∈ others self (dir_Nodes dir) /\ net = tunnel_of m /\ carried_by self dir relayed m n) ->
    pc_Remove q = false -> pc_ReplaceAllowedIPs q = true ->
    exists p, p ∈ dev /\ dp_PublicKey p = pc_PublicKey q /\ device_peer dir self relayed p n).
  { intros n q Hn Hq Hkey Hnet Hrm Hrp. destruct (Hin q) as (p & Hp & Ek & Ea); [apply elem_of_app; by left|done..|].
    exists p. unfold device_peer. rewrite Ek, Ea. split_and!; try done. apply canonical_string; [|done].
    apply Hcan. by apply list_elem_of_filter in Hn as []. }
  assert (Hentry : forall q, q ∈ entries -> exists n p, n ∈ others self (dir_Nodes dir) /\ p ∈ dev /\
    ParseWGPublic (node_PublicKey n) = Ok (pc_PublicKey q) /\ dp_PublicKey p = pc_PublicKey q /\ device_peer dir self relayed p n).
  { intros q Hq. apply list_elem_of_lookup in Hq as [i Hq]. destruct (Forall2_lookup_r _ _ _ _ _ Hent Hq) as (n & Hn & Hkey & Hrm & Hrp & _ & Hnet).
    apply list_elem_of_lookup_2 in Hq, Hn. destruct (Hmember n q) as (p & ? & ? & ?); try done. by exists n, p. }
  split.
  - intros p Hp.
    assert (Hq : exists q, q ∈ entries /\ dp_PublicKey p = pc_PublicKey q).
    { destruct (Hout p Hp) as [(q & [Hq|Hq]%elem_of_app & Ek & Hrm)|(k0 & Hk0 & E & Hno)]; [by exists q| |].
      - apply Hrem in Hq as (k0 & _ & -> & _). done.
      - rewrite fmap_app, not_elem_of_app in Hno. destruct Hno as [Hno Hnr]. destruct Hnr. apply list_elem_of_fmap.
        exists (removal (peer_PublicKey k0)). split; [done|]. apply Hrem. exists k0. split_and!; [done..|].
        intros n Hn Hkey. apply Hno. apply list_elem_of_lookup in Hn as [i Hn].
        destruct (Forall2_lookup_l _ _ _ _ _ Hent Hn) as (q & Hq & Hkq & _). apply list_elem_of_fmap. exists q.
        split; [congruence|by eapply list_elem_of_lookup_2]. }
    destruct Hq as (q & Hq & Ek). destruct (Hentry q Hq) as (n & p' & Hn & Hp' & Hkey & Ek' & Hd). exists n.
    assert (p' = p) as -> by (by apply (NoDup_fmap_inj _ _ _ _ Hdev); [..|congruence]). by rewrite Ek.
  - intros n Hn. apply list_elem_of_lookup in Hn as [i Hn].
    destruct (Forall2_lookup_l _ _ _ _ _ Hent Hn) as (q & Hq & Hkey & Hrm & Hrp & _ & Hnet).
    apply list_elem_of_lookup_2 in Hq, Hn. destruct (Hmember n q) as (p & ? & ? & ?); try done. by exists p.
Qed.

Lemma is_relayed_decidable d key : is_relayed d key \/ ~ is_relayed d key.
Proof.
  unfold is_relayed. destruct (ctl_states (d_controller d) !! key) as [st|]; [|right; naive_solver].
  destruct (decide (ps_Mode st = ModeRelayed)); [left; by exists st|right; naive_solver].
Qed.

Lemma pass_targets cfg d self dir k clk cfgs m :
  ValidDirectory dir -> spokes_bare dir -> m ∈ others self (dir_Nodes dir) ->
  let r := reconcileRelay cfg d self dir k clk in
  rc_configured r = Some cfgs -> is_relayed (rc_state r) (node_PublicKey m) ->
  exists t, RelayTarget dir (node_PublicKey self) = Some t /\ node_PublicKey t <> node_PublicKey m /\
    t ∈ others self (dir_Nodes dir).
Proof.
  intros Hv Hb Hm r Hc Hr. subst r. destruct (reconcile_configured _ _ _ _ _ _ _ _ Hc) as (wg & peers & lan & entries & _ & _ & Hctl).
  unfold is_relayed in Hr. cbv zeta in Hctl. rewrite Hctl in Hr.
  apply (relayed_remembered (d_controller d) self dir peers (t_update clk) _ (valid_directory_keys _ Hv)) in Hr.
  by eapply relayed_has_target.
Qed.

End routing.

(** ** Samples *)

(** A kernel that does as it is told. *)
Definition device_after (kernel : list Peer) (cfgs : list PeerConfig) : list DevicePeer :=
  ((fun k => {| dp_PublicKey := peer_PublicKey k; dp_Endpoint := peer_Endpoint k; dp_AllowedIPs := [];
      dp_LastHandshakeTime := peer_LastHandshakeTime k; dp_PersistentKeepaliveInterval := 0; dp_ReceiveBytes := 0; dp_TransmitBytes := 0 |})
     <$> filter (fun k => peer_PublicKey k ∉ pc_PublicKey <$> cfgs) kernel) ++
  ((fun q => {| dp_PublicKey := pc_PublicKey q; dp_Endpoint := pc_Endpoint q; dp_AllowedIPs := pc_AllowedIPs q;
      dp_LastHandshakeTime := 0; dp_PersistentKeepaliveInterval := 0; dp_ReceiveBytes := 0; dp_TransmitBytes := 0 |})
     <$> filter (fun q => pc_Remove q = false) cfgs).

Lemma device_after_applied kernel cfgs :
  NoDup (peer_PublicKey <$> kernel) -> NoDup (pc_PublicKey <$> cfgs) -> kernel_applied kernel cfgs (device_after kernel cfgs).
Proof.
  intros Hk Hc. unfold kernel_applied, device_after. rewrite fmap_app, <- !list_fmap_compose. split_and!.
  - apply NoDup_app. split_and!.
    + apply (NoDup_fmap_2_strong (fun k => peer_PublicKey k)); [|by eapply NoDup_filter, NoDup_fmap_1].
      intros x y [_ Hx]%list_elem_of_filter [_ Hy]%list_elem_of_filter. by apply (NoDup_fmap_inj _ _ _ _ Hk).
    + intros key (k & -> & [Hno _]%list_elem_of_filter)%list_elem_of_fmap (q & E & [_ Hq]%list_elem_of_filter)%list_elem_of_fmap.
      cbn in E. apply Hno. rewrite E. apply list_elem_of_fmap. by exists q.
    + apply (NoDup_fmap_2_strong (fun q => pc_PublicKey q)); [|by eapply NoDup_filter, NoDup_fmap_1].
      intros x y [_ Hx]%list_elem_of_filter [_ Hy]%list_elem_of_filter. by apply (NoDup_fmap_inj _ _ _ _ Hc).
  - intros q Hq Hr _. eexists. split; [apply elem_of_app; right; apply list_elem_of_fmap; exists q; split; [reflexivity|]|done].
    by apply list_elem_of_filter.
  - intros p [(k & -> & [Hno Hin]%list_elem_of_filter)%list_elem_of_fmap|(q & -> & [Hr Hq]%list_elem_of_filter)%list_elem_of_fmap]%elem_of_app.
    + right. by exists k.
    + left. by exists q.
Qed.

Section samples.
#[local] Existing Instances toy_crypto toy_msgpack ascii_tables toy_secp no_urls.
#[local] Existing Instances toy_crypto_laws toy_msgpack_laws no_error_text.

Definition gamma_cfgs : list PeerConfig := default [] (rc_configured gamma_pass).
Definition gamma_device : list DevicePeer := device_after strange_kernel gamma_cfgs.

Example gamma_status : (fun s => (peerLabel s, peerStatusLabel s, sp_AllowedIPs s)) <$> wireGuardPeerStatus gamma_device relay_dir gamma 0 =
  [("alpha", "DIRECT", ["10.7.0.1/32"; "10.7.0.2/32"; "10.7.0.3/32"]); ("beta", "RELAYED via alpha", []); ("phone", "RELAYED via alpha", [])].
Proof. vm_compute. reflexivity. Qed.

End samples.
