(* ===== verification/StatusReport.v ===== *)
(** * StatusReport: the report of tincan status and its text (internal/cli/status.go, status_network.go)

    What the command read of the machine is a [Sight]; [StatusCmd_Run] makes of it the
    report, maps of dynamically typed values as the code has them, and
    [printStatusText] the text.  [runNetworkStatus] is the roster of the network. *)
From stdpp Require Import base tactics option list strings gmap.
From Stdlib Require Import Ascii ZArith Lia.
From S2P Require Import Prelude GoStrings GoNum GoNet GoUtf8 Ui StatePaths Keys Directory DnsName Validate Wire Codec Relay Discovery Hosts DnsServe DnsManager Schema StateJson Cache Drop Drops Prog Admin Daemon DaemonLaws DnsZone Toy Status.
Open Scope Z_scope.

(** [map[string]interface{}], with the dynamic types that are stored. *)
Record lanEntry := {
  le_Name : string; le_PublicKey : string; le_Endpoint : string; le_LearnedAt : Time; le_FailedAt : Time; le_Stale : bool }.

Inductive Value :=
  | VString (s : string) | VUint64 (n : Z) | VInt (n : Z) | VInt64 (n : Z) | VBool (b : bool) | VTime (t : Time)
  | VPeers (l : list statusPeer) | VEntries (l : list lanEntry).

Notation Fields := (gmap string Value).

(** [m[key].(string)] and the other assertions. *)
Definition get_string (m : Fields) (k : string) : option string := match m !! k with Some (VString s) => Some s | _ => None end.
Definition get_text (m : Fields) (k : string) : option string :=
  match get_string m k with Some s => if String.eqb s "" then None else Some s | None => None end.
Definition get_uint64 (m : Fields) (k : string) : option Z := match m !! k with Some (VUint64 n) => Some n | _ => None end.
Definition get_int (m : Fields) (k : string) : option Z := match m !! k with Some (VInt n) => Some n | _ => None end.
Definition get_int64 (m : Fields) (k : string) : option Z := match m !! k with Some (VInt64 n) => Some n | _ => None end.
Definition get_bool (m : Fields) (k : string) : option bool := match m !! k with Some (VBool b) => Some b | _ => None end.
Definition get_time (m : Fields) (k : string) : option Time := match m !! k with Some (VTime t) => Some t | _ => None end.
Definition get_peers (m : Fields) (k : string) : option (list statusPeer) := match m !! k with Some (VPeers l) => Some l | _ => None end.

(** An instant in the local time zone. *)
Class LocalTime := format_RFC3339 : Time -> string.

Record statusOutput := {
  so_Name : string; so_Interface : string; so_TunnelIP : string;
  so_Cache : Fields; so_Daemon : Fields; so_Drop : Fields; so_WireGuard : Fields; so_Discovery : Fields; so_DNS : Fields;
  so_NATWarning : string; so_StaleWarning : string }.

(** *** What the command reads *)


Record Device := { dv_PublicKey : string; dv_ListenPort : Z; dv_Peers : list DevicePeer; dv_Type : string }.

Record Sight := {
  sg_dir : StateDir;
  sg_pid : result Z;
  sg_alive : Z -> bool;
  sg_drop : result (string * result Metadata);      (* its name and Stat *)
  sg_client : result unit;
  sg_device : result Device;
  sg_hosts : result string;                         (* the file's content *)
  sg_dial : string -> result unit;                  (* the probe's socket *)
  sg_query : result unit;
  sg_answer : option string;
  sg_stale : Time; sg_now : Time; sg_seen : Time }.  (* the clock at the staleness check, the age and the peers *)

Section report.
Context `{CryptoLib} `{UnicodeTables} `{Msgpack} `{Secp} `{UrlLib} `{ErrorText} `{DnsMessage}.
(** The order in which a range visits the map. *)
Variable range : gmap string LANState -> list (string * LANState).

Definition lan_entry (nodes : gmap string Node) (kv : string * LANState) : lanEntry :=
  {| le_Name := from_option node_Name "" (nodes !! kv.1); le_PublicKey := kv.1; le_Endpoint := lan_Endpoint kv.2;
     le_LearnedAt := lan_LearnedAt kv.2; le_FailedAt := lan_FailedAt kv.2; le_Stale := Blacklisted kv.2 |}.

Definition discoveryStatusFields (state : DiscoveryState) (nodes : gmap string Node) : Fields :=
  let entries := lan_entry nodes <$> range (ds_LANEndpoints state) in
  <["count" := VInt (Z.of_nat (length entries))]> (<["lan_endpoints" := VEntries entries]>
    (<["updated_at" := VTime (ds_UpdatedAt state)]> ∅)).

Definition hosts_fields (cfg : Config) (dir : Directory) (content : result string) (out : Fields) : Fields :=
  if negb (ManageHostsEnabled (c_DNS cfg)) then out else
  let block := Block dir in
  let out := <["hosts_entries" := VInt (Z.of_nat (strings_Count (chr 10) block))]> (<["hosts_path" := VString (hostsPath cfg)]> out) in
  let content := match content with Err e => if is_not_exist e then Ok "" else Err e | Ok c => Ok c end in
  match content with
  | Err e => <["hosts_error" := VString (error_Error e)]> out
  | Ok content =>
      match Rewrite content (wg_Interface (c_Wireguard cfg)) block with
      | Err e => <["hosts_error" := VString (error_Error e)]> out
      | Ok (_, changed) => <["hosts_applied" := VBool (negb changed)]> out
      end
  end.

Definition dnsStatusFields (cfg : Config) (dir : Directory) (self : Node) (s : Sight) : Fields :=
  let out : Fields := <["hosts_managed" := VBool (ManageHostsEnabled (c_DNS cfg))]> (<["domain" := VString (dir_Domain dir)]> ∅) in
  let out :=
    if shouldServeDNS cfg dir self then
      let out := <["server" := VString (match dns_Serve (c_DNS cfg) with Some _ => "forced on" | None => "hub (auto)" end)]> out in
      if negb (String.eqb (node_TunnelIP self) "") then
        let addr := net_JoinHostPort (node_TunnelIP self) "53" in
        <["server_listening" := VBool (Probe (dir_Domain dir) (sg_dial s addr) (sg_query s) (sg_answer s))]>
          (<["server_addr" := VString addr]> out)
      else out
    else if bool_decide (dns_Serve (c_DNS cfg) = Some false) then <["server" := VString "off ([dns] serve = false)"]> out
    else <["server" := VString "off (not a hub)"]> out in
  hosts_fields cfg dir (sg_hosts s) out.

Definition anyPeerReachable (dir : Directory) (self : Node) : bool :=
  existsb (fun n => negb (String.eqb (node_PublicKey n) (node_PublicKey self)) &&
                    (negb (String.eqb (node_Endpoint n) "") || negb (String.eqb (node_ObservedEndpoint n) ""))) (dir_Nodes dir).

Definition natWarning (dir : Directory) (self : Node) : string :=
  if String.eqb (node_Endpoint self) "" && (negb (anyPeerReachable dir self) && Nat.ltb 1 (length (dir_Nodes dir)))
  then "self and all peers lack endpoints; enable [observe] on the admin or add a relay" else "".

Definition staleWarning (cfg : Config) (dir : Directory) (now : Time) : string :=
  let maxAge := od_Duration (sync_MaxDirectoryAge (c_Sync cfg)) in
  let '(age, stale) := directoryStale now dir maxAge in
  if stale then "directory is " +:+ duration_String (duration_Truncate age Second) +:+ " old, exceeding max_directory_age " +:+
    duration_String maxAge +:+ "; the admin may not have published recently, or the drop may be frozen"
  else "".

Definition put_error (e : error) (m : Fields) : Fields := <["error" := VString (error_Error e)]> m.

Definition cache_fields (cfg : Config) (s : Sight) : Fields :=
  let out : Fields :=
    match Read (sg_dir s) with
    | Ok (dir, _) => <["created_at" := VTime (dir_CreatedAt dir)]>
        (<["path" := VString (CachePath (sync_StateDir (c_Sync cfg)))]> (<["serial" := VUint64 (dir_Serial dir)]> ∅))
    | Err e => put_error e ∅
    end in
  match Cache.ReadState (sg_dir s) with
  | Ok state => <["etag" := VString (state_LastETag state)]>
      (<["age" := VString (duration_String (duration_Truncate (time_Sub (sg_now s) (state_LastSync state)) Second))]>
        (<["last_sync" := VTime (state_LastSync state)]> out))
  | Err _ => out
  end.

Definition daemon_fields (s : Sight) : Fields :=
  match sg_pid s with
  | Ok pid => <["alive" := VBool (sg_alive s pid)]> (<["pid" := VInt pid]> ∅)
  | Err e => put_error e (<["alive" := VBool false]> ∅)
  end.

Definition drop_fields (s : Sight) : Fields :=
  match sg_drop s with
  | Err e => put_error e (<["reachable" := VBool false]> ∅)
  | Ok (name, stat) =>
      let out : Fields := <["reachable" := VBool (is_ok stat)]> (<["name" := VString name]> ∅) in
      match stat with
      | Ok meta => <["etag" := VString (md_ETag meta)]> (<["updated_at" := VTime (md_UpdatedAt meta)]>
                     (<["size" := VInt64 (md_Size meta)]> out))
      | Err e => put_error e out
      end
  end.

Definition wireguard_fields (dir : Directory) (self : Node) (s : Sight) : Fields :=
  match sg_client s with
  | Err e => put_error e ∅
  | Ok _ =>
      match sg_device s with
      | Ok dev =>
          <["type" := VString (dv_Type dev)]> (<["peers" := VPeers (wireGuardPeerStatus (dv_Peers dev) dir self (sg_seen s))]>
            (<["peer_count" := VInt (Z.of_nat (length (dv_Peers dev)))]> (<["listen_port" := VInt (dv_ListenPort dev)]>
              (<["public_key" := VString (wgtypes_Key_String (dv_PublicKey dev))]> ∅))))
      | Err e => if is_not_exist e then ∅ else put_error e ∅
      end
  end.

(** The local report; the flags choose the roster or JSON instead. *)
Definition StatusCmd_Run (cfg : Config) (s : Sight) : statusOutput :=
  let cached := match Read (sg_dir s) with Ok (dir, _) => Some dir | Err _ => None end in
  let dir := default zero_directory cached in
  let found := match cached with Some dir => match findSelf cfg dir with Ok n => Some n | Err _ => None end | None => None end in
  let self := default zero_node found in
  {| so_Name := wg_Name (c_Wireguard cfg);
     so_Interface := wg_Interface (c_Wireguard cfg);
     so_TunnelIP := node_TunnelIP self;
     so_Cache := cache_fields cfg s;
     so_Daemon := daemon_fields s;
     so_Drop := drop_fields s;
     so_WireGuard := wireguard_fields dir self s;
     so_Discovery := match Cache.ReadDiscovery (sg_dir s) with
                     | Ok state => discoveryStatusFields state (Diff.nodes_by_key (dir_Nodes dir))
                     | Err _ => ∅ end;
     so_DNS := if negb (String.eqb (dir_Domain dir) "") then dnsStatusFields cfg dir self s else ∅;
     so_NATWarning := match found with Some self => natWarning dir self | None => "" end;
     so_StaleWarning := match cached with Some dir => staleWarning cfg dir (sg_stale s) | None => "" end |}.
End report.

(** ** The text *)

Section text.
Context `{LocalTime} `{UnicodeTables}.
Variable now : Time.

Definition age_pair (label : string) (t : Time) : pair := kv label (age_text now t).
Definition opt_pair {A} (o : option A) (f : A -> list pair) : list pair := match o with Some a => f a | None => [] end.
Definition bool_text (b : bool) : string := if b then "true" else "false".

Definition statusCachePairs (m : Fields) : list pair :=
  opt_pair (get_uint64 m "serial") (fun v => [kv "serial" (strconv_FormatUint v)]) ++
  opt_pair (get_text m "path") (fun v => [kv "path" v]) ++
  opt_pair (t ← get_time m "created_at"; optional_time t)
    (fun v => [kv "directory created" (format_RFC3339 v); age_pair "directory age" v]) ++
  opt_pair (get_time m "last_sync") (fun v => [kv "last sync" (format_RFC3339 v)]) ++
  opt_pair (get_text m "age") (fun v => [kv "age" v]) ++
  opt_pair (get_text m "etag") (fun v => [kv "etag" v]) ++
  opt_pair (get_text m "error") (fun v => [kv "error" v]).

Definition statusDaemonPairs (m : Fields) : list pair :=
  opt_pair (get_int m "pid") (fun v => [kv "pid" (strconv_Itoa v)]) ++
  opt_pair (get_bool m "alive") (fun v => [kv "alive" (bool_text v)]) ++
  opt_pair (get_text m "error") (fun v => [kv "error" v]).

Definition statusDropPairs (m : Fields) : list pair :=
  opt_pair (get_text m "name") (fun v => [kv "name" v]) ++
  opt_pair (get_bool m "reachable") (fun v => [kv "reachable" (bool_text v)]) ++
  opt_pair (get_int64 m "size") (fun v => [kv "size" (strconv_Itoa v +:+ " bytes")]) ++
  opt_pair (get_time m "updated_at") (fun v => [kv "updated at" (format_RFC3339 v)]) ++
  opt_pair (get_text m "etag") (fun v => [kv "etag" v]) ++
  opt_pair (get_text m "error") (fun v => [kv "error" v]).

Definition statusDNSPairs (m : Fields) : list pair :=
  opt_pair (get_text m "domain") (fun v => [kv "domain" v]) ++
  opt_pair (get_text m "server") (fun v => [kv "server" v]) ++
  opt_pair (get_bool m "server_listening") (fun v =>
    let addr := default "" (get_string m "server_addr") in
    [if v then kvColor "listening" addr ansiGreen
     else kvColor "listening" ("no (" +:+ addr +:+ " did not answer; daemon running?)") ansiYellow]) ++
  if bool_decide (get_bool m "hosts_managed" = Some false) then [kv "hosts file" "unmanaged ([dns] manage_hosts = false)"] else
  opt_pair (get_text m "hosts_path") (fun v => [kv "hosts file" v]) ++
  opt_pair (get_int m "hosts_entries") (fun v => [kv "entries" (strconv_Itoa v)]) ++
  opt_pair (get_bool m "hosts_applied") (fun v =>
    [if v then kvColor "hosts entries" "current" ansiGreen
     else kvColor "hosts entries" "out of date (daemon applies them on its next sync)" ansiYellow]) ++
  opt_pair (get_text m "hosts_error") (fun v => [kv "hosts error" v]).

Definition statusDiscoveryPairs (m : Fields) : list pair :=
  opt_pair (get_int m "count") (fun v => [kv "lan endpoints learned" (strconv_Itoa v)]) ++
  opt_pair (t ← get_time m "updated_at"; optional_time t) (fun v => [age_pair "snapshot age" v]).

Definition statusWireguardPairs (m : Fields) : list pair :=
  match get_text m "public_key" with
  | Some v => [kvColor "network" "up" ansiGreen; kv "public key" v]
  | None => [kvColor "network" "down" ansiRed]
  end ++
  opt_pair (get_int m "listen_port") (fun v => [kv "listen port" (strconv_Itoa v)]) ++
  opt_pair (get_text m "type") (fun v => [kv "type" v]) ++
  opt_pair (get_int m "peer_count") (fun v => [kv "peer count" (strconv_Itoa v)]) ++
  opt_pair (get_text m "error") (fun v => [kv "error" v]).

Definition peer_row (peer : statusPeer) : list tableCell :=
  plainCell <$> [peerLabel peer; peerEndpointLabel now peer; peerHandshakeLabel peer; peerStatusLabel peer;
                 strconv_Itoa (sp_ReceiveBytes peer); strconv_Itoa (sp_TransmitBytes peer)].

Definition heading (p : printer) (titles : list string) : list tableCell := styledCell p ansiDim <$> titles.

Definition named_section (p : printer) (title : string) (items : list pair) : string := section p title +:+ pairs p items.

Definition printStatusText (p : printer) (out : statusOutput) : string :=
  section p "Node" +:+
  pairs p ([kv "name" (so_Name out); kv "interface" (so_Interface out)] ++
           (if negb (String.eqb (so_TunnelIP out) "") then [kv "tunnel IP" (so_TunnelIP out)] else [])) +:+ blank +:+
  named_section p "Cache" (statusCachePairs (so_Cache out)) +:+ blank +:+
  named_section p "Daemon" (statusDaemonPairs (so_Daemon out)) +:+ blank +:+
  named_section p "Drop" (statusDropPairs (so_Drop out)) +:+ blank +:+
  named_section p "WireGuard" (statusWireguardPairs (so_WireGuard out)) +:+
  (if Nat.ltb 0 (size (so_Discovery out)) then blank +:+ named_section p "Discovery" (statusDiscoveryPairs (so_Discovery out)) else "") +:+
  (if Nat.ltb 0 (size (so_DNS out)) then blank +:+ named_section p "DNS" (statusDNSPairs (so_DNS out)) else "") +:+
  match get_peers (so_WireGuard out) "peers" with
  | Some ((_ :: _) as peers) =>
      blank +:+ section p "Peers" +:+
      table "  " "  " (heading p ["PEER"; "ENDPOINT"; "HANDSHAKE"; "STATUS"; "RX"; "TX"] :: (peer_row <$> peers))
  | _ => ""
  end +:+
  (if negb (String.eqb (so_StaleWarning out) "") then blank +:+ warn p (so_StaleWarning out) else "") +:+
  (if negb (String.eqb (so_NATWarning out) "") then blank +:+ warn p (so_NATWarning out) else "").
End text.

(** ** The roster of the network *)

Record networkNode := {
  nn_Name : string; nn_TunnelIP : string; nn_Endpoint : string; nn_EndpointSource : string; nn_Relay : bool; nn_Self : bool;
  nn_HasSession : bool; nn_LastHandshake : option Time; nn_LastHandshakeAge : string }.

Record networkStatus := { ns_Self : string; ns_Interface : string; ns_NetworkCIDR : string; ns_Serial : Z; ns_Nodes : list networkNode }.

Section network.
Context `{CryptoLib} `{UnicodeTables} `{Msgpack}.

Definition handshakes (peers : list DevicePeer) : gmap string Time :=
  fold_left (fun m p => <[wgtypes_Key_String (dp_PublicKey p) := dp_LastHandshakeTime p]> m) peers ∅.

Definition network_row (selfKey : string) (sessions : gmap string Time) (now : Time) (node : Node) : networkNode :=
  let self := String.eqb (node_PublicKey node) selfKey in
  let '(endpoint, source) :=
    if negb (String.eqb (node_Endpoint node) "") then (node_Endpoint node, "configured")
    else if negb (String.eqb (node_ObservedEndpoint node) "") then (node_ObservedEndpoint node, "observed") else ("", "") in
  let hs := if self then None else sessions !! node_PublicKey node ≫= optional_time in
  {| nn_Name := node_Name node; nn_TunnelIP := node_TunnelIP node; nn_Endpoint := endpoint; nn_EndpointSource := source;
     nn_Relay := node_Relay node; nn_Self := self;
     nn_HasSession := negb self && bool_decide (is_Some (sessions !! node_PublicKey node));
     nn_LastHandshake := hs;
     nn_LastHandshakeAge := match hs with Some t => age_text now t | None => "" end |}.

(** [peers] are the kernel's, none when it could not be asked. *)
Definition runNetworkStatus (cfg : Config) (sd : StateDir) (peers : list DevicePeer) (now : Time) : result networkStatus :=
  '(dir, _) ← wrap_err (fun e => Errorf "read cached directory (%w); run `tincan sync` first" [e]) (Read sd);
  let selfKey := wg_PublicKey (c_Wireguard cfg) in
  Ok {| ns_Self := fold_left (fun name n => if String.eqb (node_PublicKey n) selfKey then node_Name n else name) (dir_Nodes dir) "";
        ns_Interface := wg_Interface (c_Wireguard cfg); ns_NetworkCIDR := dir_NetworkCIDR dir; ns_Serial := dir_Serial dir;
        ns_Nodes := network_row selfKey (handshakes peers) now <$> dir_Nodes dir |}.

Definition networkRoleLabel (n : networkNode) : string :=
  if nn_Self n && nn_Relay n then "self,relay" else if nn_Self n then "self" else if nn_Relay n then "relay" else "-".

Definition networkEndpointLabel (n : networkNode) : string :=
  if String.eqb (nn_Endpoint n) "" then "-"
  else if String.eqb (nn_EndpointSource n) "observed" then nn_Endpoint n +:+ " (observed)" else nn_Endpoint n.

Definition em_dash : string := String (chr 226) (String (chr 128) (String (chr 148) "")).

Definition networkHandshakeLabel (n : networkNode) : string :=
  if nn_Self n then em_dash
  else if negb (nn_HasSession n) then "no session"
  else if negb (String.eqb (nn_LastHandshakeAge n) "") then nn_LastHandshakeAge n +:+ " ago" else "never".

Definition printNetworkStatus (p : printer) (s : networkStatus) : string :=
  section p "Network" +:+
  pairs p ([kv "cidr" (ns_NetworkCIDR s); kv "serial" (strconv_FormatUint (ns_Serial s));
            kv "nodes" (strconv_Itoa (Z.of_nat (length (ns_Nodes s))))] ++
           (if negb (String.eqb (ns_Self s) "") then [kv "vantage" (ns_Self s)] else [])) +:+ blank +:+
  table "  " "  " (heading p ["NODE"; "IP"; "ENDPOINT"; "ROLE"; "HANDSHAKE"] ::
    ((fun n => plainCell <$> [nn_Name n; nn_TunnelIP n; networkEndpointLabel n; networkRoleLabel n; networkHandshakeLabel n]) <$> ns_Nodes s)) +:+
  blank +:+
  hint p ("Handshake ages are from this node's vantage; Tincan has no control plane, so a node it doesn't peer with shows " +:+
    String (chr 34) "no session" +:+ String (chr 34) ", not down.").
End network.

(** *** list-nodes *)

Definition node_row (node : Node) : list tableCell :=
  plainCell <$> [node_Name node; node_TunnelIP node;
    (if 12 <? len (node_PublicKey node) then string_take 12 (node_PublicKey node) +:+ "..." else node_PublicKey node);
    (if String.eqb (node_Endpoint node) "" then "-" else node_Endpoint node);
    (if node_Relay node then "relay" else "-")].

Definition node_list (p : printer) (dir : Directory) : string :=
  section p "Directory" +:+
  pairs p ([kv "serial" (strconv_FormatUint (dir_Serial dir)); kv "network" (dir_NetworkCIDR dir);
            kv "nodes" (strconv_Itoa (Z.of_nat (length (dir_Nodes dir))))] ++
           (if negb (String.eqb (dir_Domain dir) "") then [kv "domain" (dir_Domain dir)] else [])) +:+ blank +:+
  section p "Nodes" +:+
  table "  " "  " (heading p ["NAME"; "IP"; "PUBLIC KEY"; "ENDPOINT"; "ROLE"] :: (node_row <$> dir_Nodes dir)).

(** What the command prints. *)
Definition ListNodesCmd_Run `{CryptoLib} `{UnicodeTables} `{Msgpack} `{Secp} `{UrlLib} (cfg : result Config) (p : printer) : Act string :=
  cfg <- lift cfg ;;
  _ <- loadReadDrop cfg ;;
  dir <- fetchDirectory cfg ;;
  done_ (node_list p dir).

(** ** The state of the names is what the next sync would find *)

Section hosts.
Context `{CryptoLib} `{UnicodeTables} `{Msgpack} `{ErrorText} `{DnsMessage}.

(** Reading the file, which is not a link. *)
Definition hosts_content (f : HostsFile) : result string :=
  match f with RegularFile c _ => Ok c | _ => Err os_ErrNotExist end.

Definition set_sg_hosts (c : result string) (s : Sight) : Sight := {|
  sg_dir := sg_dir s; sg_pid := sg_pid s; sg_alive := sg_alive s; sg_drop := sg_drop s; sg_client := sg_client s; sg_device := sg_device s;
  sg_hosts := c; sg_dial := sg_dial s; sg_query := sg_query s; sg_answer := sg_answer s; sg_stale := sg_stale s; sg_now := sg_now s;
  sg_seen := sg_seen s |}.

Definition hosts_shown (cfg : Config) (dir : Directory) (self : Node) (s : Sight) : option bool :=
  get_bool (dnsStatusFields cfg dir self s) "hosts_applied".

Lemma hosts_shown_rewrite cfg dir self s : ManageHostsEnabled (c_DNS cfg) = true ->
  hosts_shown cfg dir self s =
  match match sg_hosts s with Err e => if is_not_exist e then Ok "" else Err e | Ok c => Ok c end with
  | Err _ => None
  | Ok c => match Rewrite c (wg_Interface (c_Wireguard cfg)) (Block dir) with Err _ => None | Ok (_, changed) => Some (negb changed) end
  end.
Proof.
  intros Hm. unfold hosts_shown, dnsStatusFields. cbv zeta.
  match goal with |- context [hosts_fields _ _ _ ?o] => set (out := o) end.
  assert (Hout : out !! "hosts_applied" = None).
  { subst out. repeat case_if; by rewrite !lookup_insert_ne by done. }
  clearbody out. unfold hosts_fields, get_bool. rewrite Hm. cbn [negb]. cbv zeta.
  set (c := match sg_hosts s with Err e => if is_not_exist e then Ok "" else Err e | Ok c => Ok c end). clearbody c.
  destruct c as [c|e]; [|by rewrite !lookup_insert_ne, Hout by done].
  destruct (Rewrite _ _ _) as [[r ch]|e]; [by rewrite lookup_insert_eq|by rewrite !lookup_insert_ne, Hout by done].
Qed.

(** An application reports a change exactly when the status calls the file out of date. *)
Lemma Apply_Rewrite f iface block : f <> SymlinkFile ->
  (f' ← Hosts.Apply f iface block; Ok (f'.2)) =
  match hosts_content f with
  | Ok c => r ← Rewrite c iface block; Ok (r.2)
  | Err _ => r ← Rewrite "" iface block; Ok (r.2)
  end.
Proof.
  intros Hf. destruct f as [| |c m]; [|done|].
  - unfold Hosts.Apply, Rewrite. cbn [hosts_content]. change (splitAtMarkers "" iface) with (Ok None : result (option (string * string))).
    cbn [mbind result_bind]. destruct (String.eqb block ""); [done|]. reflexivity.
  - unfold Hosts.Apply. cbn [hosts_content]. destruct (Rewrite c iface block) as [[r ch]|e]; [|done]. by destruct ch.
Qed.

(** What status says of the hosts entries is what the daemon's next sync would
    find.  When the command manages the file and it is not a link, it calls the
    entries current exactly when an application would leave the file alone and out of
    date exactly when one would change it; and once an application has run, status
    calls them current. *)
Theorem status_hosts_honest cfg dir self s f :
  ManageHostsEnabled (c_DNS cfg) = true -> f <> SymlinkFile ->
  let iface := wg_Interface (c_Wireguard cfg) in
  let shown f := hosts_shown cfg dir self (set_sg_hosts (hosts_content f) s) in
  (forall current, shown f = Some current <-> exists f', Hosts.Apply f iface (Block dir) = Ok (f', negb current)) /\
  (ValidDirectory dir -> iface <> "" -> string_forallb is_ascii iface = true -> lacks nl iface = true ->
   forall f' changed, Hosts.Apply f iface (Block dir) = Ok (f', changed) -> shown f' = Some true).
Proof.
  intros Hm Hf iface shown. pose proof (Apply_Rewrite f iface (Block dir) Hf) as Hc.
  assert (Hs : forall f, f <> SymlinkFile -> shown f = match (f' ← Hosts.Apply f iface (Block dir); Ok (f'.2)) with Ok c => Some (negb c) | Err _ => None end).
  { intros g Hg. unfold shown. rewrite hosts_shown_rewrite, Apply_Rewrite by done. cbn [sg_hosts set_sg_hosts].
    fold iface. destruct g as [| |c m]; [|done|]; cbn [hosts_content]; [change (is_not_exist os_ErrNotExist) with true; cbv iota|];
      match goal with |- context [Rewrite ?c ?i ?b] => destruct (Rewrite c i b) as [[r ch]|e] end; done. }
  split.
  - intros current. rewrite Hs by done. destruct (Hosts.Apply f iface (Block dir)) as [[f' ch]|e]; cbn; [|naive_solver].
    destruct ch, current; naive_solver.
  - intros Hv Hi Ha Hl f' changed HA.
    assert (Hg : good_block (Block dir)).
    { destruct (Block_spec dir Hv) as [He Hne]. destruct (decide (dir_Domain dir = "")) as [E|E]; [rewrite He by done; constructor|by apply Hne]. }
    assert (Hf' : f' <> SymlinkFile /\ exists r, (hosts_content f' = Ok r \/ (f' = NoFile /\ r = "")) /\ Rewrite r iface (Block dir) = Ok (r, false)).
    { destruct f as [| |c m]; [|done|].
      - unfold Hosts.Apply in HA. destruct (String.eqb_spec (Block dir) "") as [E|E].
        + injection HA as <- <-. split; [done|]. exists "". split; [by right|]. by rewrite E.
        + apply bind_Ok in HA as ([r ch] & Hr & HA). injection HA as <- <-. split; [done|]. exists r. split; [by left|].
          by eapply Rewrite_again.
      - unfold Hosts.Apply in HA. apply bind_Ok in HA as ([r ch] & Hr & HA). pose proof (Rewrite_again iface Hi Ha Hl _ _ _ _ Hg Hr) as Hagain.
        destruct ch; injection HA as <- <-; (split; [done|]).
        + exists r. split; [by left|done].
        + exists c. split; [by left|]. apply Rewrite_unchanged in Hr as E. by subst r. }
    destruct Hf' as (Hn & r & Hr & Hrw). rewrite Hs by done. rewrite Apply_Rewrite by done.
    destruct Hr as [->|[-> ->]]; cbn [hosts_content]; by rewrite Hrw.
Qed.
End hosts.

(** ** Samples *)
Section samples.
#[local] Existing Instances toy_crypto toy_msgpack ascii_tables toy_dns no_error_text.

Definition sample_sight : Sight := {|
  sg_dir := empty_state_dir; sg_pid := Err os_ErrNotExist; sg_alive := fun _ => false; sg_drop := Err (errors_New ""); sg_client := Ok tt;
  sg_device := Err os_ErrNotExist; sg_hosts := Err os_ErrNotExist; sg_dial := fun _ => Ok tt; sg_query := Ok tt; sg_answer := None;
  sg_stale := 0; sg_now := 0; sg_seen := 0 |}.

(** No file yet: the entries are out of date until a sync writes them. *)
Lemma status_hosts_honest_witness :
  hosts_shown sample_cfg sample_dir alpha (set_sg_hosts (hosts_content NoFile) sample_sight) = Some false /\
  exists f, Hosts.Apply NoFile (wg_Interface (c_Wireguard sample_cfg)) (Block sample_dir) = Ok (f, true) /\
    hosts_shown sample_cfg sample_dir alpha (set_sg_hosts (hosts_content f) sample_sight) = Some true.
Proof.
  assert (Ha : exists f, Hosts.Apply NoFile (wg_Interface (c_Wireguard sample_cfg)) (Block sample_dir) = Ok (f, true)).
  { destruct (Hosts.Apply NoFile (wg_Interface (c_Wireguard sample_cfg)) (Block sample_dir)) as [[f c]|e] eqn:E; [|vm_compute in E; discriminate E].
    exists f. assert (Hc : c = true) by (apply (f_equal (fun r => match r with Ok x => x.2 | Err _ => false end)) in E; vm_compute in E; congruence).
    by subst c. }
  destruct Ha as [f Ha].
  destruct (status_hosts_honest sample_cfg sample_dir alpha sample_sight NoFile) as [Hshown Hafter]; [reflexivity|discriminate|].
  split; [apply Hshown; exists f; exact Ha|]. exists f. split; [exact Ha|].
  eapply Hafter; [|discriminate|reflexivity|reflexivity|exact Ha]. apply Validate_spec. vm_compute. reflexivity.
Defined.
End samples.
