(* ===== verification/Wait.v ===== *)
(** * Wait: the daemon's loop (internal/cli/up.go)

    [runDaemonLoop] as a step relation: an iteration, then [waitForReconcile]
    until the interval ends, a wake or a signal. *)
From stdpp Require Import base tactics option list strings gmap.
From Stdlib Require Import Ascii ZArith Lia.
From S2P Require Import Prelude GoStrings GoNum GoNet GoBase64 Keys Directory DnsName Validate Wire Toy Codec Relay Observe Discovery Schema Peers Manager Bech32 Nostr Config Cache Bootstrap Drop Prog Admin Enroll Hosts DnsManager Daemon DaemonLaws.
Open Scope Z_scope.

(** ** Durations *)

Definition minWakeInterval : Duration := 10 * Second.
Definition relayTickInterval : Duration := 30 * Second.

(** The width of the random window; [r] is [mrand.Int64N(span+1)]. *)
Definition jitter_span (d : Duration) : Z := Z.quot d 5.
Definition jitter (d : Duration) (r : Z) : Duration :=
  if d <=? 0 then d else
  let delta := r - Z.quot (jitter_span d) 2 in
  i64 (d + delta).

Definition iterationTimeout (interval : Duration) : Duration :=
  if interval <=? 10 * Second then 30 * Second else
  let t := interval - 5 * Second in
  if Minute <? t then Minute else t.

Lemma jitter_bounds d r :
  0 < d <= 2 ^ 62 -> 0 <= r <= jitter_span d -> d - d / 10 <= jitter d r <= d + d / 10 + 1.
Proof.
  intros Hd Hr. unfold jitter, jitter_span in *. destruct (Z.leb_spec d 0); [lia|].
  rewrite (Z.quot_div_nonneg d 5) in * by lia. rewrite Z.quot_div_nonneg by (try apply Z.div_pos; lia).
  rewrite Z.div_div by lia. change (5 * 2) with 10.
  pose proof (Z.div_mod d 5 ltac:(lia)). pose proof (Z.mod_pos_bound d 5 ltac:(lia)).
  pose proof (Z.div_mod d 10 ltac:(lia)). pose proof (Z.mod_pos_bound d 10 ltac:(lia)).
  rewrite i64_small; [lia|]. unfold min_int64, max_int64. lia.
Qed.

Lemma iterationTimeout_bounds interval :
  min_int64 <= interval <= max_int64 ->
  5 * Second < iterationTimeout interval <= Minute /\
  (10 * Second < interval -> iterationTimeout interval <= interval - 5 * Second).
Proof.
  unfold iterationTimeout, Minute, Second. intros.
  destruct (Z.leb_spec interval (10 * 1000000000)); [lia|].
  destruct (Z.ltb_spec (60 * 1000000000) (interval - 5 * 1000000000)); lia.
Qed.

(** ** waitForReconcile *)

Inductive Signal := SIGHUP | SIGTERM | SIGINT.
Inductive WaitEvent :=
  | Canceled (err : error)
  | Signaled (sig : Signal)
  | Ticked
  | Woken (reason : string)
  | TimerFired.

(** The instant the timer fires at, and whether a wake is folded into it. *)
Record WaitState := { ws_fires : Time; ws_wakePending : bool }.
Inductive WaitResult := Again (st : WaitState) | Return (proceed : bool) (err : option error).

(** A timer set at [now] to [time.Until(deadline)]. *)
Definition timer_at (now deadline : Time) : Time := now + Z.max 0 (time_Sub deadline now).

Section wait.
Variables (interval minWake : Duration) (lastReconcile : Time).

Definition wait_start (now : Time) : WaitState :=
  {| ws_fires := timer_at now (time_Add lastReconcile interval); ws_wakePending := false |}.

Definition wait_event (st : WaitState) (now : Time) (e : WaitEvent) : WaitResult :=
  match e with
  | Canceled err => Return false (Some err)
  | Signaled SIGHUP => Return true None
  | Signaled _ => Return false None
  | Ticked => Again st
  | Woken _ =>
      let intervalDeadline := time_Add lastReconcile interval in
      let wakeDeadline := time_Add lastReconcile minWake in
      if negb (time_Before now wakeDeadline) then Return true None
      else if ws_wakePending st then Again st
      else Again {| ws_fires := timer_at now (if time_Before wakeDeadline intervalDeadline then wakeDeadline else intervalDeadline);
                    ws_wakePending := true |}
  | TimerFired => Return true None
  end.

(** The timer's channel holds a value only once it fired. *)
Definition wait_enabled (st : WaitState) (now : Time) (e : WaitEvent) : Prop :=
  match e with TimerFired => ws_fires st <= now | _ => True end.

(** A wait that goes on: the events so far, in the order of their instants. *)
Inductive waiting (t0 : Time) : WaitState -> Time -> list WaitEvent -> Prop :=
  | waiting_start : waiting t0 (wait_start t0) t0 []
  | waiting_again st now es e now' st' :
      waiting t0 st now es -> now <= now' -> wait_enabled st now' e -> wait_event st now' e = Again st' ->
      waiting t0 st' now' (es ++ [e]).

Lemma timer_at_spec now deadline :
  min_int64 <= deadline - now <= max_int64 -> timer_at now deadline = Z.max now deadline.
Proof. intros. unfold timer_at. rewrite time_Sub_exact by done. lia. Qed.

Lemma timer_at_late now deadline : timer_at now deadline <= Z.max now deadline.
Proof. unfold timer_at, time_Sub, min_int64, max_int64. lia. Qed.

Lemma timer_at_early now deadline : Z.min deadline (now + max_int64) <= timer_at now deadline.
Proof. unfold timer_at, time_Sub, min_int64, max_int64. lia. Qed.

(** What holds while waiting: the timer is never early, never later than the
    interval (or than the wait's own delay in setting it), and within the
    debounce once a wake came. *)
Lemma waiting_inv t0 st now es :
  lastReconcile <= t0 -> minWake <= max_int64 -> interval <= max_int64 -> waiting t0 st now es ->
  t0 <= now /\ lastReconcile + Z.min interval minWake <= ws_fires st /\
  ws_fires st <= Z.max now (lastReconcile + interval) /\
  (ws_wakePending st = false -> lastReconcile + interval <= ws_fires st) /\
  (ws_wakePending st = true <-> exists reason, Woken reason ∈ es) /\
  (ws_wakePending st = true -> ws_fires st <= Z.max now (lastReconcile + minWake)).
Proof.
  intros Hl Hm Hi. induction 1 as [|st now es e now' st' _ IH Hle _ He].
  - unfold wait_start, time_Add. cbn. pose proof (timer_at_late t0 (lastReconcile + interval)).
    pose proof (timer_at_early t0 (lastReconcile + interval)). setoid_rewrite elem_of_nil.
    split_and!; try lia. split; [done|by intros []].
  - destruct IH as (Ht & H1 & H2 & H3 & H4 & H5).
    assert (Hes : (forall reason, e <> Woken reason) -> (exists reason, Woken reason ∈ es ++ [e]) <-> exists reason, Woken reason ∈ es).
    { intros Hne. setoid_rewrite elem_of_app. setoid_rewrite list_elem_of_singleton. naive_solver. }
    destruct e as [| [] | |reason|]; try discriminate He; cbn in He.
    + injection He as <-. rewrite Hes by done. split_and!; try lia; try tauto; intros Hp; [by apply H4..|]; [specialize (H5 Hp); lia].
    + unfold time_Before in He. destruct (negb _) eqn:En; [done|]. rewrite negb_false_iff, Z.ltb_lt in En. unfold time_Add in *.
      assert (Hw : exists r, Woken r ∈ es ++ [Woken reason]) by (exists reason; set_solver).
      destruct (ws_wakePending st) eqn:Ep; injection He as <-.
      * rewrite Ep. specialize (H5 eq_refl). split_and!; try lia; done.
      * set (next := if _ : bool then _ else _). assert (Hn : next = lastReconcile + Z.min interval minWake).
        { unfold next. destruct (Z.ltb_spec (lastReconcile + minWake) (lastReconcile + interval)); lia. }
        cbn. pose proof (timer_at_late now' next). pose proof (timer_at_early now' next). split_and!; try lia; done.
Qed.

Lemma wait_reasons t0 st now es now' :
  lastReconcile <= t0 -> minWake <= max_int64 -> interval <= max_int64 -> waiting t0 st now es -> now <= now' ->
  (forall e err, wait_enabled st now' e -> wait_event st now' e = Return true err ->
     e = Signaled SIGHUP \/
     lastReconcile + Z.min interval minWake <= now' /\
     (lastReconcile + interval <= now' \/ exists reason, Woken reason ∈ es ++ [e])) /\
  (lastReconcile + interval <= now' -> ws_fires st <= now') /\
  ((exists reason, Woken reason ∈ es) -> lastReconcile + minWake <= now' -> ws_fires st <= now') /\
  (ws_fires st <= now' -> wait_enabled st now' TimerFired /\ wait_event st now' TimerFired = Return true None) /\
  (forall reason, lastReconcile + minWake <= now' -> wait_event st now' (Woken reason) = Return true None).
Proof.
  intros Hl Hm Hi Hw Hle. destruct (waiting_inv _ _ _ _ Hl Hm Hi Hw) as (Ht & H1 & H2 & H3 & H4 & H5). split_and!.
  - intros e err Hen He. destruct e as [| [] | |reason|]; try discriminate He; [by left| |]; right; cbn in He, Hen.
    + unfold time_Before, time_Add in He. destruct (negb _) eqn:En; [|by destruct (ws_wakePending st)].
      rewrite negb_true_iff, Z.ltb_ge in En. split; [lia|]. right. exists reason. set_solver.
    + split; [lia|]. destruct (ws_wakePending st); [right|left; specialize (H3 eq_refl); lia].
      destruct (proj1 H4 eq_refl) as [reason Hr]. exists reason. set_solver.
  - lia.
  - intros Hr Hd. apply H4 in Hr. specialize (H5 Hr). lia.
  - done.
  - intros reason Hd. cbn. unfold time_Before, time_Add. by rewrite (proj2 (Z.ltb_ge _ _)) by lia.
Qed.
(** C23: a wait ends for a reason and in time. It lets the daemon reconcile only on a
    SIGHUP, or once the interval or the wake debounce since the last
    reconciliation is over, and without a wake only once the interval is; and it
    is never stuck: whatever came before, the timer is due when the interval ends
    and, once a wake came, when the debounce ends; when it is due it ends the wait,
    and a wake after the debounce ends it at once. *)
Theorem wait_debounced t0 st now es now' :
  lastReconcile <= t0 -> minWake <= max_int64 -> interval <= max_int64 -> waiting t0 st now es -> now <= now' ->
  (forall e err, wait_enabled st now' e -> wait_event st now' e = Return true err ->
     e = Signaled SIGHUP \/
     lastReconcile + Z.min interval minWake <= now' /\
     (lastReconcile + interval <= now' \/ exists reason, Woken reason ∈ es ++ [e])) /\
  (lastReconcile + interval <= now' -> ws_fires st <= now') /\
  ((exists reason, Woken reason ∈ es) -> lastReconcile + minWake <= now' -> ws_fires st <= now') /\
  (ws_fires st <= now' -> wait_enabled st now' TimerFired /\ wait_event st now' TimerFired = Return true None) /\
  (forall reason, lastReconcile + minWake <= now' -> wait_event st now' (Woken reason) = Return true None).
Proof. apply wait_reasons. Qed.
End wait.

(** ** runDaemonLoop *)

Inductive Phase :=
  | Iterate
  | Waiting (cfg : option Config) (interval : Duration) (lastReconcile : Time) (st : WaitState)
  | Returned (err : option error).

Section loop.
Context `{CryptoLib} `{UnicodeTables} `{Msgpack} `{Secp} `{UrlLib} `{ErrorText}.
Variable net_ResolveUDPAddr : string -> option UDPAddr.

Notation runDaemonIteration := (runDaemonIteration net_ResolveUDPAddr).
Notation runRelayTick := (runRelayTick net_ResolveUDPAddr).

(** The loop and its surroundings: the daemon's state, the state directory, the
    last reading of the clock, and so far the passes over the peers and the
    starts of iterations with the config waited under before them. *)
Record Loop := {
  lp_daemon : DaemonState;
  lp_world : World;
  lp_phase : Phase;
  lp_now : Time;
  lp_log : list Pass }.

(** The readings of the clock during a pass, in order. *)
Definition clock_within (t : Time) (clk : Clock) (t' : Time) : Prop :=
  t <= t_update clk /\ t_update clk <= t_mark clk <= t_merge clk /\ t_merge clk <= t_push clk <= t_gc clk /\
  (forall k, t_mark clk <= t_lookup clk k <= t_merge clk) /\ t_gc clk <= t'.

Definition loop_interval (cfg : option Config) : Duration :=
  match cfg with Some cfg => od_Or (sync_Interval (c_Sync cfg)) DefaultInterval | None => DefaultInterval end.

(** After an iteration: the wait begins. *)
Definition begin_wait (cfg : option Config) (r : Z) (last now : Time) : Phase :=
  let interval := jitter (loop_interval cfg) r in
  Waiting cfg interval last (wait_start interval last now).

(** [onTick] runs only under a configuration that could be loaded. *)
Definition on_tick (cfg : option Config) (d : DaemonState) (k : Kernel) (clk : Clock) (e : WaitEvent) : DaemonState * option (Directory * Reconciled) :=
  match e, cfg with
  | Ticked, Some cfg => runRelayTick cfg d k clk
  | _, _ => (d, None)
  end.

(** A step, labelled with the event the wait received. *)
Inductive loop_step : option WaitEvent -> Loop -> Loop -> Prop :=
  | loop_unreadable d w now log (e : error) r last now' :
      now <= last -> last <= now' -> 0 <= r <= jitter_span (loop_interval None) ->
      loop_step None {| lp_daemon := d; lp_world := w; lp_phase := Iterate; lp_now := now; lp_log := log |}
                {| lp_daemon := d; lp_world := w; lp_phase := begin_wait None r last now'; lp_now := now'; lp_log := log |}
  | loop_iterate d w now log cfg k clk io hosts dns it w' r last now' :
      exec (runDaemonIteration cfg d k clk io hosts dns) w it w' -> clock_within now clk last -> last <= now' ->
      0 <= r <= Z.max 0 (jitter_span (loop_interval (Some cfg))) ->
      loop_step None {| lp_daemon := d; lp_world := w; lp_phase := Iterate; lp_now := now; lp_log := log |}
                {| lp_daemon := it_state it; lp_world := w'; lp_phase := begin_wait (Some cfg) r last now'; lp_now := now';
                   lp_log := log ++ pass_of clk (it_reconciled it) |}
  | loop_wait d w cfg interval last st now log e now' st' k clk now'' :
      now <= now' -> wait_enabled st now' e -> wait_event interval minWakeInterval last st now' e = Again st' ->
      clock_within now' clk now'' ->
      loop_step (Some e) {| lp_daemon := d; lp_world := w; lp_phase := Waiting cfg interval last st; lp_now := now; lp_log := log |}
                {| lp_daemon := fst (on_tick cfg d k clk e); lp_world := w; lp_phase := Waiting cfg interval last st';
                   lp_now := now''; lp_log := log ++ pass_of clk (snd (on_tick cfg d k clk e)) |}
  | loop_return d w cfg interval last st now log e now' proceed err :
      now <= now' -> wait_enabled st now' e -> wait_event interval minWakeInterval last st now' e = Return proceed err ->
      loop_step (Some e) {| lp_daemon := d; lp_world := w; lp_phase := Waiting cfg interval last st; lp_now := now; lp_log := log |}
                {| lp_daemon := d; lp_world := w; lp_phase := if proceed then Iterate else Returned err; lp_now := now'; lp_log := log |}
  (* other commands work on the state directory meanwhile *)
  | loop_world d w ph now log w' :
      loop_step None {| lp_daemon := d; lp_world := w; lp_phase := ph; lp_now := now; lp_log := log |}
                {| lp_daemon := d; lp_world := w'; lp_phase := ph; lp_now := now; lp_log := log |}.

Definition loop_next (s s' : Loop) : Prop := exists l, loop_step l s s'.

Definition loop_started (lan : option Store) (w : World) (now : Time) : Loop :=
  {| lp_daemon := newDaemonRuntime lan; lp_world := w; lp_phase := Iterate; lp_now := now; lp_log := [] |}.

Definition loop_reachable (s : Loop) : Prop := exists lan w now, rtc loop_next (loop_started lan w now) s.

(** *** What the loop amounts to *)

(** Passes in the order of their instants, none after [now]. *)
Definition log_ordered (log : list Pass) (now : Time) : Prop :=
  (forall l1 p l2, log = l1 ++ p :: l2 -> Forall (fun q : Pass => p.2 <= q.2) l2) /\ Forall (fun p : Pass => p.2 <= now) log.

Lemma log_ordered_add log now clk o now' :
  log_ordered log now -> clock_within now clk now' -> log_ordered (log ++ pass_of clk o) now'.
Proof.
  intros [Ho Hn] (Ha & (Hb & Hc) & (Hd & He) & _ & Hz).
  assert (Hlate : Forall (fun p : Pass => p.2 <= t_push clk) log) by (eapply Forall_impl; [exact Hn|]; cbn; lia).
  destruct o as [[dir r]|]; cbn [pass_of]; [|rewrite app_nil_r; split; [done|]; eapply Forall_impl; [exact Hn|]; cbn; lia].
  split.
  - intros l1 p l2 E. destruct l2 as [|q l2 _] using rev_ind; [done|].
    rewrite app_comm_cons, (assoc_L (++)) in E. apply app_inj_tail in E as [E <-].
    apply Forall_app. split; [by eapply Ho|]. constructor; [|done]. cbn.
    rewrite Forall_forall in Hlate. apply Hlate. rewrite E. set_solver.
  - apply Forall_app. split; [eapply Forall_impl; [exact Hlate|]; cbn; lia|]. constructor; [cbn; lia|done].
Qed.

Lemma log_ordered_later log now now' : log_ordered log now -> now <= now' -> log_ordered log now'.
Proof. intros [Ho Hn] Hle. split; [done|]. eapply Forall_impl; [exact Hn|]. cbn. lia. Qed.

(** The wait the loop is in. *)
Definition waits (ph : Phase) (now : Time) : Prop :=
  match ph with
  | Waiting cfg interval last st =>
      (exists r, 0 <= r <= Z.max 0 (jitter_span (loop_interval cfg)) /\ interval = jitter (loop_interval cfg) r) /\
      exists t0 now0 es, last <= t0 /\ now0 <= now /\ waiting interval minWakeInterval last t0 st now0 es
  | _ => True
  end.

Record loop_ok (s : Loop) : Prop := {
  lo_run : daemon_run net_ResolveUDPAddr (lp_daemon s) (lp_log s);
  lo_ordered : log_ordered (lp_log s) (lp_now s);
  lo_waits : waits (lp_phase s) (lp_now s) }.

Lemma begin_wait_waits cfg r last now :
  0 <= r <= Z.max 0 (jitter_span (loop_interval cfg)) -> last <= now -> waits (begin_wait cfg r last now) now.
Proof. intros Hr Hl. split; [by exists r|]. exists now, now, []. split_and!; try done. apply waiting_start. Qed.

Lemma on_tick_run cfg d k clk e log :
  daemon_run net_ResolveUDPAddr d log ->
  daemon_run net_ResolveUDPAddr (fst (on_tick cfg d k clk e)) (log ++ pass_of clk (snd (on_tick cfg d k clk e))).
Proof.
  intros Hr. assert (Hn : daemon_run net_ResolveUDPAddr d (log ++ pass_of clk None)) by by rewrite app_nil_r.
  unfold on_tick. destruct e; try exact Hn. destruct cfg as [cfg|]; [|exact Hn].
  eapply run_tick; [exact Hr|]. apply surjective_pairing.
Qed.

Lemma clock_within_le t clk t' : clock_within t clk t' -> t <= t'.
Proof. intros (? & ? & ? & _ & ?). lia. Qed.

Lemma loop_step_ok l s s' : loop_step l s s' -> loop_ok s -> loop_ok s'.
Proof.
  intros Hs [Hr Ho Hw]. destruct Hs as [d w now log e r last now' Hle1 Hle2 Hj|d w now log cfg k clk io hosts dns it w' r last now' Hx Hc Hl Hj
    |d w cfg interval last st now log e now' st' k clk now'' Hle Hen He Hc|d w cfg interval last st now log e now' proceed err Hle Hen He|d w ph now log w'];
    cbn [lp_daemon lp_world lp_phase lp_now lp_log] in *.
  - split; cbn [lp_daemon lp_world lp_phase lp_now lp_log]; [done|eapply log_ordered_later; [done|lia]|]. apply begin_wait_waits; [cbn in *; lia|done].
  - pose proof (clock_within_le _ _ _ Hc). split; cbn [lp_daemon lp_world lp_phase lp_now lp_log]; [by eapply run_iteration| |by apply begin_wait_waits].
    eapply log_ordered_later; [by eapply log_ordered_add|done].
  - pose proof (clock_within_le _ _ _ Hc). split; cbn [lp_daemon lp_world lp_phase lp_now lp_log]; [by apply on_tick_run| |].
    + eapply log_ordered_add; [by eapply log_ordered_later|done].
    + destruct Hw as (Hj & t0 & now0 & es & Hl & Hn & Hw). split; [done|]. exists t0, now', (es ++ [e]).
      split_and!; [done|lia|]. eapply waiting_again; [exact Hw|lia|done|done].
  - split; cbn [lp_daemon lp_world lp_phase lp_now lp_log]; [done|by eapply log_ordered_later|]. by destruct proceed.
  - by split.
Qed.

Lemma loop_reachable_ok s : loop_reachable s -> loop_ok s.
Proof.
  intros (lan & w & now & Hrun). assert (Hs : loop_ok (loop_started lan w now)).
  { split; cbn; [apply run_new| |done]. split; [by intros [|]|constructor]. }
  induction Hrun as [|s1 s2 s3 [l Hst] _ IH]; [done|]. apply IH. by eapply loop_step_ok.
Qed.


End loop.

(** ** Samples *)

(** A wake five seconds after a reconciliation, answered at ten. *)
Lemma wait_debounced_witness :
  let st := {| ws_fires := 10 * Second; ws_wakePending := true |} in
  ws_fires st <= 12 * Second /\
  wait_event (300 * Second) (10 * Second) 0 st (12 * Second) TimerFired = Return true None.
Proof.
  set (st := {| ws_fires := 10 * Second; ws_wakePending := true |}). cbv zeta.
  assert (Hw : waiting (300 * Second) (10 * Second) 0 0 st (5 * Second) [Woken "beacon"]).
  { eapply (waiting_again _ _ _ _ _ _ []); [apply waiting_start|discriminate|done|reflexivity]. }
  assert (H1 : (0 <= 0) /\ (10 * Second <= max_int64) /\ (300 * Second <= max_int64) /\ (5 * Second <= 12 * Second))
    by (unfold Second, max_int64; lia).
  destruct H1 as (H1 & H2 & H3 & H4).
  destruct (wait_debounced (300 * Second) (10 * Second) 0 0 st (5 * Second) [Woken "beacon"] (12 * Second) H1 H2 H3 Hw H4)
    as (_ & _ & Hdue & Hend & _).
  assert (Hf : ws_fires st <= 12 * Second) by (apply Hdue; [exists "beacon"; left|unfold Second; lia]).
  split; [exact Hf|]. apply (Hend Hf).
Defined.

Section samples.
#[local] Existing Instances toy_crypto toy_msgpack ascii_tables toy_secp no_urls no_error_text.
#[local] Existing Instances toy_crypto_laws toy_msgpack_laws.

(** Alpha's loop after its first iteration, and after the wake that follows. *)
Definition first_wait : Loop := {|
  lp_daemon := it_state (fst first_pass); lp_world := snd first_pass;
  lp_phase := begin_wait (Some sample_cfg) 0 (51 * Second) (51 * Second); lp_now := 51 * Second;
  lp_log := [(sample_dir, [node_PublicKey beta], 50 * Second)] |}.

Definition woken_loop : Loop := {|
  lp_daemon := it_state (fst first_pass); lp_world := snd first_pass; lp_phase := Iterate; lp_now := 62 * Second;
  lp_log := [(sample_dir, [node_PublicKey beta], 50 * Second)] |}.

Lemma first_wait_reachable : loop_reachable Some first_wait.
Proof.
  exists (d_lanStore started), fresh_world, (50 * Second). apply rtc_once. exists None. unfold first_wait.
  rewrite <- first_pass_pushes.
  eapply (loop_iterate Some started fresh_world (50 * Second) [] sample_cfg _ _ _ _ _ _ _ 0 (51 * Second) (51 * Second) first_pass_exec).
  - unfold clock_within, clock_at, Second. cbn. split_and!; intros; lia.
  - lia.
  - lia.
Qed.


End samples.
