(* ===== verification/NetworkWatch.v ===== *)
(** * NetworkWatch: internal/cli/network_watch.go

    What wakes the daemon when the addresses of the host change: the tracker that
    tells changes from renewals, and the goroutine that reads the kernel's events and
    leaves a wake in a channel of one place. *)
From stdpp Require Import base tactics option list strings gmap.
From Stdlib Require Import Ascii ZArith Lia.
From S2P Require Import Prelude GoStrings Schema Config.
Open Scope Z_scope.

(** ** The addresses *)

(** The addresses configured, as far as the kernel told. *)
Record addrTracker := { tr_ourIface : string; tr_seen : gset string }.

Definition newAddrTracker (ourIface : string) : addrTracker := {| tr_ourIface := ourIface; tr_seen := ∅ |}.

Definition skipLink (t : addrTracker) (name : string) : bool := String.eqb name "lo" || String.eqb name (tr_ourIface t).

Definition observeKey (t : addrTracker) (key : string) (isNew : bool) : addrTracker * bool :=
  let set_seen m := {| tr_ourIface := tr_ourIface t; tr_seen := m |} in
  if isNew then
    if decide (key ∈ tr_seen t) then (t, false) else (set_seen ({[key]} ∪ tr_seen t), true)
  else
    if decide (key ∉ tr_seen t) then (t, false) else (set_seen (tr_seen t ∖ {[key]}), true).

(** [link] is what [netlink.LinkByIndex] answers: the link's name. *)
Definition tracker_observe (t : addrTracker) (link : result string) (key : string) (isNew : bool) : addrTracker * bool :=
  match link with
  | Err _ => (t, false)
  | Ok name => if skipLink t name then (t, false) else observeKey t key isNew
  end.

(** [prime]: the links with the keys of their addresses, when they can be listed. *)
Definition prime (t : addrTracker) (links : result (list (string * result (list string)))) : addrTracker :=
  match links with
  | Err _ => t
  | Ok links =>
      {| tr_ourIface := tr_ourIface t;
         tr_seen := fold_left (fun seen '(name, addrs) =>
           if skipLink t name then seen else
           match addrs with Err _ => seen | Ok keys => seen ∪ list_to_set keys end) links (tr_seen t) |}
  end.

(** The kernel's events for watched links, and the wakes they cause. *)
Fixpoint observe_all (t : addrTracker) (events : list (string * bool)) : addrTracker * list bool :=
  match events with
  | [] => (t, [])
  | (key, isNew) :: events =>
      let '(t, woke) := observeKey t key isNew in
      let '(t, wokes) := observe_all t events in
      (t, woke :: wokes)
  end.

(** Which addresses are configured after the kernel's events. *)
Definition configured_after (addrs : gset string) (events : list (string * bool)) : gset string :=
  fold_left (fun a '(key, isNew) => if isNew : bool then {[key]} ∪ a else a ∖ {[key]}) events addrs.

Lemma observeKey_spec t key isNew :
  tr_seen (observeKey t key isNew).1 = configured_after (tr_seen t) [(key, isNew)] /\
  (observeKey t key isNew).2 = bool_decide (configured_after (tr_seen t) [(key, isNew)] <> tr_seen t).
Proof.
  unfold observeKey, configured_after. cbn [fold_left]. destruct isNew; case_decide as Hd; cbn [fst snd tr_seen].
  - assert (E : {[key]} ∪ tr_seen t = tr_seen t) by set_solver. rewrite E. split; [done|]. symmetry. apply bool_decide_eq_false_2. intros Hn. by apply Hn.
  - split; [done|]. symmetry. apply bool_decide_eq_true_2. set_solver.
  - assert (E : tr_seen t ∖ {[key]} = tr_seen t) by set_solver. rewrite E. split; [done|]. symmetry. apply bool_decide_eq_false_2. intros Hn. by apply Hn.
  - split; [done|]. symmetry. apply bool_decide_eq_true_2. set_solver.
Qed.

(** The daemon is woken exactly by the events that change the configured addresses:
    renewals of an address it knows are not announced. *)
Lemma observe_all_spec t events :
  tr_seen (observe_all t events).1 = configured_after (tr_seen t) events /\
  forall i, (observe_all t events).2 !! i = Some true <->
    exists e, events !! i = Some e /\
      configured_after (tr_seen t) (take (S i) events) <> configured_after (tr_seen t) (take i events).
Proof.
  revert t. induction events as [|[key isNew] events IH]; intros t; [split; [done|]; intros i; cbn; naive_solver|].
  cbn [observe_all]. pose proof (observeKey_spec t key isNew) as [Hs Hw]. destruct (observeKey t key isNew) as [t' woke].
  cbn [fst snd] in Hs, Hw. specialize (IH t'). destruct (observe_all t' events) as [t'' wokes]. cbn [fst snd] in *.
  destruct IH as [IHs IHw]. rewrite Hs in IHs, IHw. split; [done|]. intros [|i]; cbn [lookup list_lookup].
  - cbn [take]. rewrite Hw. split.
    + intros [= Hd]. apply bool_decide_eq_true in Hd. by exists (key, isNew).
    + intros (e & _ & Hd). f_equal. by apply bool_decide_eq_true.
  - rewrite IHw. done.
Qed.

(** ** The goroutine *)

(** The interface whose addresses are not watched: the configured one. *)
Definition watched_iface (load : result Config) : string :=
  match load with
  | Ok cfg => if nonempty (wg_Interface (c_Wireguard cfg)) then wg_Interface (c_Wireguard cfg) else DefaultInterface
  | Err _ => DefaultInterface
  end.

(** What the goroutine meets: an update of the kernel, with the link its index names
    and the key of its address; the loop of the daemon taking the wake; the updates
    ending, as they do when the daemon ends. *)
Inductive watch_event :=
  | NwUpdate (link : result string) (key : string) (isNew : bool)
  | NwTaken
  | NwClosed.

(** The channel holds one wake; sending to a full one is given up. *)
Record Watch := { nw_tracker : addrTracker; nw_wake : bool; nw_running : bool }.

Definition watch_step (w : Watch) (e : watch_event) : Watch :=
  match e with
  | NwUpdate link key isNew =>
      if nw_running w then
        let '(t, changed) := tracker_observe (nw_tracker w) link key isNew in
        {| nw_tracker := t; nw_wake := nw_wake w || changed; nw_running := true |}
      else w
  | NwTaken => {| nw_tracker := nw_tracker w; nw_wake := false; nw_running := nw_running w |}
  | NwClosed => {| nw_tracker := nw_tracker w; nw_wake := nw_wake w; nw_running := false |}
  end.
Definition watch_run (w : Watch) (es : list watch_event) : Watch := fold_left watch_step es w.

(** [startNetworkWatcher]: the tracker is primed before the kernel is listened to; a
    failed subscription ends the goroutine. *)
Definition startNetworkWatcher (load : result Config) (links : result (list (string * result (list string)))) (subscribe : result unit) : Watch :=
  {| nw_tracker := prime (newAddrTracker (watched_iface load)) links; nw_wake := false; nw_running := is_ok subscribe |}.

(** ** A change leaves a wake *)

(** The event an update is about, when the link is found and watched. *)
Definition about (t : addrTracker) (e : watch_event) : list (string * bool) :=
  match e with
  | NwUpdate (Ok name) key isNew => if skipLink t name then [] else [(key, isNew)]
  | _ => []
  end.
(** The addresses configured on watched links, after the events. *)
Definition addresses (w : Watch) (es : list watch_event) : gset string :=
  configured_after (tr_seen (nw_tracker w)) (concat (map (about (nw_tracker w)) es)).

Definition no_close (es : list watch_event) : Prop := NwClosed ∉ es.

Lemma about_step w e e' : about (nw_tracker (watch_step w e)) e' = about (nw_tracker w) e'.
Proof.
  assert (Hi : tr_ourIface (nw_tracker (watch_step w e)) = tr_ourIface (nw_tracker w)).
  { destruct e as [[name|] key isNew| |]; cbn; try done; destruct (nw_running w); try done; cbn.
    destruct (skipLink _ _); [done|]. unfold observeKey. by destruct isNew; case_decide. }
  unfold about, skipLink. by rewrite Hi.
Qed.

Lemma watch_step_spec w e : nw_running w = true -> e <> NwClosed ->
  nw_running (watch_step w e) = true /\ tr_seen (nw_tracker (watch_step w e)) = addresses w [e] /\
  nw_wake (watch_step w e) =
    match e with NwTaken => false | _ => nw_wake w || bool_decide (addresses w [e] <> tr_seen (nw_tracker w)) end.
Proof.
  intros Hr He. unfold addresses. destruct e as [[name|err] key isNew| |]; cbn [watch_step map concat about]; [| | |done].
  - rewrite Hr. cbn [tracker_observe]. destruct (skipLink _ name); cbn [app nw_running nw_tracker nw_wake].
    + split; [done|]. split; [done|]. by rewrite bool_decide_eq_false_2 by (intros Hn; by apply Hn).
    + pose proof (observeKey_spec (nw_tracker w) key isNew) as [Hs Hw]. destruct (observeKey _ _ _) as [t changed]. cbn in *.
      by rewrite Hs, Hw.
  - rewrite Hr. cbn. split; [done|]. split; [done|]. by rewrite bool_decide_eq_false_2 by (intros Hn; by apply Hn).
  - done.
Qed.

Lemma addresses_cons w e es : nw_running w = true -> e <> NwClosed -> addresses (watch_step w e) es = addresses w (e :: es).
Proof.
  intros Hr He. pose proof (watch_step_spec w e Hr He) as (_ & Hs & _). unfold addresses in *. rewrite Hs.
  replace (map (about (nw_tracker (watch_step w e))) es) with (map (about (nw_tracker w)) es).
  - cbn [map concat]. unfold configured_after. by rewrite app_nil_r, fold_left_app.
  - apply map_ext. intros e'. by rewrite about_step.
Qed.

(** An event after which the daemon has not looked, and which changed the addresses. *)
Definition unseen_change (w : Watch) (es : list watch_event) : Prop :=
  exists before e after, es = before ++ e :: after /\ NwTaken ∉ after /\ e <> NwTaken /\ addresses w (before ++ [e]) <> addresses w before.

Lemma unseen_cons w e es : nw_running w = true -> e <> NwClosed ->
  unseen_change w (e :: es) <->
  (e <> NwTaken /\ NwTaken ∉ es /\ addresses w [e] <> tr_seen (nw_tracker w)) \/ unseen_change (watch_step w e) es.
Proof.
  intros Hr He. split.
  - intros ([|b before] & e' & after & E & Ha & Hn & Hc); injection E as <- ->.
    + left. done.
    + right. exists before, e', after. rewrite !addresses_cons by done. done.
  - intros [(Hn & Ha & Hc)|(before & e' & after & -> & Ha & Hn & Hc)].
    + by exists [], e, es.
    + exists (e :: before), e', after. rewrite !addresses_cons in Hc by done. done.
Qed.

Lemma watch_run_spec es : forall w, nw_running w = true -> NwClosed ∉ es ->
  tr_seen (nw_tracker (watch_run w es)) = addresses w es /\
  (nw_wake (watch_run w es) = true <-> unseen_change w es \/ (nw_wake w = true /\ NwTaken ∉ es)).
Proof.
  induction es as [|e es IH]; intros w Hr Hc.
  { split; [done|]. split; [intros; right; split; [done|apply not_elem_of_nil]|]. intros [(b & e & a & E & _)|[? _]]; [by destruct b|done]. }
  apply not_elem_of_cons in Hc as [He Hc]. apply not_eq_sym in He. destruct (watch_step_spec w e Hr He) as (Hr' & _ & Hw).
  destruct (IH (watch_step w e) Hr' Hc) as [IHs IHw]. cbn [watch_run fold_left]. fold (watch_run (watch_step w e) es).
  rewrite IHs, IHw, addresses_cons, unseen_cons by done. split; [done|]. rewrite Hw, not_elem_of_cons.
  destruct e as [link key isNew| |]; [| |done].
  - rewrite orb_true_iff, bool_decide_eq_true. split; [|intros [[(_ & Ha & Hd)|Hu]|[Hwk [_ Ha]]]; tauto].
    intros [Hu|[[Hwk|Hd] Ha]]; [by left; right|right; split; [done|by split]|left; left; by split].
  - split; [intros [Hu|[? _]]; [by left; right|done]|]. intros [[(Hx & _)|Hu]|[_ [Hx _]]]; [done|by left|done].
Qed.

(** While the kernel is heard, the daemon has a wake waiting exactly when the
    addresses of the watched links have changed since it last took one: an event that
    changes nothing (a renewal, a link that is not watched) leaves none, and a change
    is never lost, however many come before the daemon looks. *)
Theorem change_wakes load links es :
  let w := startNetworkWatcher load links (Ok tt) in
  NwClosed ∉ es ->
  tr_seen (nw_tracker (watch_run w es)) = addresses w es /\
  (nw_wake (watch_run w es) = true <->
     exists before e after, es = before ++ e :: after /\ NwTaken ∉ after /\ e <> NwTaken /\
       addresses w (before ++ [e]) <> addresses w before).
Proof.
  intros w Hc. destruct (watch_run_spec es w eq_refl Hc) as [Hs Hw]. split; [done|]. rewrite Hw.
  unfold unseen_change. split; [intros [?|[? _]]; done|by left].
Qed.

(** A link that comes up, a renewal of its address, and the daemon taking the wake. *)
Lemma change_wakes_witness :
  let w := startNetworkWatcher (Err (errors_New "no configuration")) (Ok []) (Ok tt) in
  nw_wake (watch_run w [NwUpdate (Ok "eth0") "2|192.0.2.7/24" true; NwUpdate (Ok "eth0") "2|192.0.2.7/24" true]) = true.
Proof.
  cbv zeta.
  set (es := [NwUpdate (Ok "eth0") "2|192.0.2.7/24" true; NwUpdate (Ok "eth0") "2|192.0.2.7/24" true]).
  destruct (change_wakes (Err (errors_New "no configuration")) (Ok []) es) as [_ Hw].
  - unfold es. rewrite !not_elem_of_cons. split_and!; try discriminate. apply not_elem_of_nil.
  - apply Hw. exists [], (NwUpdate (Ok "eth0") "2|192.0.2.7/24" true), [NwUpdate (Ok "eth0") "2|192.0.2.7/24" true].
    split; [reflexivity|]. rewrite not_elem_of_cons. split_and!; [discriminate|apply not_elem_of_nil|discriminate|].
    vm_compute. discriminate.
Defined.

(** An event for a link that is already gone leaves its address in the set. *)
Example gone_link_keeps_address :
  let t := (observeKey (newAddrTracker "tincan0") "7|192.0.2.7/24" true).1 in
  tracker_observe t (Err (errors_New "Link not found")) "7|192.0.2.7/24" false = (t, false).
Proof. reflexivity. Qed.
