(* ===== verification/PidFile.v ===== *)
(** * PidFile: internal/daemon/pidfile.go and daemon.go

    The pid file: a path that names a file (an inode), each file with its content
    and the process that holds its lock.  The operations are built from the
    system calls they make, which processes interleave. *)
From stdpp Require Import base tactics option list strings gmap.
From Stdlib Require Import Ascii ZArith Lia.
From S2P Require Import Prelude GoStrings GoNum GoNet GoBase64 Keys Directory DnsName Validate Wire Toy Codec Cache.
Open Scope Z_scope.

(** ** The file system around the path *)

Inductive PidLink := NoPidFile | PidAt (inode : nat) | PidSymlink.

(** How far a process that uses the file has come. *)
Inductive Holder :=
  | Opened (i : nat)          (* OpenFile returned *)
  | Probing (i : nat)         (* [pidFileUnlocked] got the lock *)
  | Locked (i : nat)          (* [AcquirePIDFile] got the lock *)
  | Running (i : nat)         (* it returned *)
  | Releasing.                (* [CloseRemove] between unlock and unlink *)

Record PidSys := {
  pd_link : PidLink;
  pd_files : gmap nat string;
  pd_locks : gmap nat nat;
  pd_procs : gmap nat Holder }.

Definition set_file (i : nat) (text : string) (s : PidSys) : PidSys :=
  {| pd_link := pd_link s; pd_files := <[i := text]> (pd_files s); pd_locks := pd_locks s; pd_procs := pd_procs s |}.
Definition set_proc (p : nat) (h : Holder) (s : PidSys) : PidSys :=
  {| pd_link := pd_link s; pd_files := pd_files s; pd_locks := pd_locks s; pd_procs := <[p := h]> (pd_procs s) |}.
Definition end_proc (p : nat) (s : PidSys) : PidSys :=
  {| pd_link := pd_link s; pd_files := pd_files s; pd_locks := pd_locks s; pd_procs := delete p (pd_procs s) |}.
Definition set_link (l : PidLink) (s : PidSys) : PidSys :=
  {| pd_link := l; pd_files := pd_files s; pd_locks := pd_locks s; pd_procs := pd_procs s |}.

(** ** The system calls *)

Definition ELOOP : error := errors_New "too many levels of symbolic links".

(** [os.OpenFile(path, O_RDWR|O_CREATE|O_NOFOLLOW)] *)
Definition sys_create (s : PidSys) : result (nat * PidSys) :=
  match pd_link s with
  | PidSymlink => Err ELOOP
  | PidAt i => Ok (i, s)
  | NoPidFile => let i := fresh (dom (pd_files s)) in Ok (i, set_link (PidAt i) (set_file i "" s))
  end.

(** [os.OpenFile(path, O_RDWR|O_NOFOLLOW)] *)
Definition sys_open (s : PidSys) : result nat :=
  match pd_link s with
  | PidSymlink => Err ELOOP
  | PidAt i => Ok i
  | NoPidFile => Err os_ErrNotExist
  end.

(** [Flock(LOCK_EX|LOCK_NB)]: [None] is EWOULDBLOCK. *)
Definition sys_flock (p i : nat) (s : PidSys) : option PidSys :=
  match pd_locks s !! i with
  | Some _ => None
  | None => Some {| pd_link := pd_link s; pd_files := pd_files s; pd_locks := <[i := p]> (pd_locks s); pd_procs := pd_procs s |}
  end.

Definition sys_unlock (i : nat) (s : PidSys) : PidSys :=
  {| pd_link := pd_link s; pd_files := pd_files s; pd_locks := delete i (pd_locks s); pd_procs := pd_procs s |}.

Definition sys_remove (s : PidSys) : PidSys := set_link NoPidFile s.

(** [os.ReadFile(path)], which follows links. *)
Definition sys_read (s : PidSys) (target : result string) : result string :=
  match pd_link s with
  | PidAt i => Ok (default "" (pd_files s !! i))
  | NoPidFile => Err os_ErrNotExist
  | PidSymlink => target
  end.

(** ** pidfile.go *)

Inductive AcquireError := AlreadyRunning (pid : Z) | AcquireFailed (e : error).

(** [AlreadyRunningError.Error] *)
Definition AlreadyRunningError_Error (pid : Z) : string :=
  if 0 <? pid then "daemon already running with PID " +:+ strconv_Itoa pid else "daemon already running".

(** What the calls that can fail for other reasons answer. *)
Record PidIo := {
  io_mkdir : result unit;
  io_open : result unit;
  io_flock : result unit;
  io_seek : result unit;
  io_truncate : result unit;
  io_write : result string;        (* or what was written, when it failed *)
  io_short : string;
  io_sync : result unit;
  io_target : result string }.

Section pidfile.
Context `{UnicodeTables}.

Definition pid_text (pid : Z) : string := strconv_Itoa pid +:+ String (chr 10) "".

Definition ReadPID (s : PidSys) (io : PidIo) : result Z :=
  data ← sys_read s (io_target io);
  of_option (errors_New "parse PID file: %w") (strconv_Atoi (strings_TrimSpace data)).

(** Atoi's value, whatever its error: 0 for a bad text, clamped out of range. *)
Definition atoi_value (s : string) : Z :=
  match strconv_Atoi s with
  | Some n => n
  | None =>
      let neg := strings_HasPrefix s "-" in
      let body := if neg || strings_HasPrefix s "+" then string_drop 1 s else s in
      match body, parse_digits 0 body with
      | EmptyString, _ | _, None => 0
      | _, Some n => if neg then Z.max min_int64 (- n) else Z.min max_int64 n
      end
  end.

(** [readPIDFromFile] reads by name again. *)
Definition readPIDFromFile (s : PidSys) (io : PidIo) : Z :=
  match io_seek io, sys_read s (io_target io) with
  | Ok _, Ok data => atoi_value (strings_TrimSpace data)
  | _, _ => 0
  end.

Definition pid_Write (io : PidIo) (i : nat) (pid : Z) (s : PidSys) : result unit * PidSys :=
  match io_seek io with Err e => (Err (Errorf "seek PID file: %w" [e]), s) | Ok _ =>
  match io_truncate io with Err e => (Err (Errorf "truncate PID file: %w" [e]), s) | Ok _ =>
  match io_write io with
  | Err e => (Err (Errorf "write PID file: %w" [e]), set_file i (io_short io) s)
  | Ok _ =>
      let s := set_file i (pid_text pid) s in
      match io_sync io with Err e => (Err (Errorf "sync PID file: %w" [e]), s) | Ok _ => (Ok tt, s) end
  end end end.

Definition CloseRemove (i : nat) (s : PidSys) : PidSys := sys_remove (sys_unlock i s).

(** [AcquirePIDFile] without interference: the file it holds, or why not. *)
Definition AcquirePIDFile (io : PidIo) (p : nat) (pid getpid : Z) (s : PidSys) : (nat + AcquireError) * PidSys :=
  let pid := if pid =? 0 then getpid else pid in
  match io_mkdir io with Err e => (inr (AcquireFailed (Errorf "create PID directory: %w" [e])), s) | Ok _ =>
  match io_open io with Err e => (inr (AcquireFailed (Errorf "open PID file: %w" [e])), s) | Ok _ =>
  match sys_create s with
  | Err e => (inr (AcquireFailed (Errorf "open PID file: %w" [e])), s)
  | Ok (i, s) =>
  match io_flock io with Err e => (inr (AcquireFailed (Errorf "lock PID file: %w" [e])), s) | Ok _ =>
  match sys_flock p i s with
  | None => (inr (AlreadyRunning (readPIDFromFile s io)), s)
  | Some s =>
      match pid_Write io i pid s with
      | (Err e, s) => (inr (AcquireFailed e), CloseRemove i s)
      | (Ok _, s) => (inl i, s)
      end
  end end end end end.

(** [pidFileUnlocked]; the lock it takes for a moment is given back. *)
Definition pidFileUnlocked (io : PidIo) (s : PidSys) : result bool :=
  _ ← wrap_err (fun e => Errorf "open PID file: %w" [e]) (io_open io);
  i ← wrap_err (fun e => Errorf "open PID file: %w" [e]) (sys_open s);
  if decide (pd_locks s !! i = None)
  then _ ← wrap_err (fun e => Errorf "probe PID file lock: %w" [e]) (io_flock io); Ok true
  else Ok false.

(** ** Loops with a deadline

    The [i]th round reads the clock at [clock i]; each round that goes on sleeps. *)
Definition pollInterval : Duration := 50 * 1000000.

(** [AcquirePIDFileRetry]: [attempt i] is the result of the [i]th attempt. *)
Fixpoint retry_loop (attempt : nat -> nat + AcquireError) (clock : nat -> Time) (deadline : Time) (fuel i : nat) : option (nat + AcquireError) :=
  match fuel with
  | O => None
  | S fuel =>
      match attempt i with
      | inl f => Some (inl f)
      | inr (AlreadyRunning pid) =>
          if time_After (clock i) deadline then Some (inr (AlreadyRunning pid)) else retry_loop attempt clock deadline fuel (S i)
      | inr e => Some (inr e)
      end
  end.

(** The end of [Stop]: [alive i] is what the [i]th probe of the process says. *)
Fixpoint stop_loop (alive : nat -> bool) (clock : nat -> Time) (deadline : Time) (fuel i : nat) : option (result unit) :=
  match fuel with
  | O => None
  | S fuel =>
      if negb (alive i) then Some (Ok tt)
      else if negb (time_Before (clock i) deadline) then Some (Err (errors_New "daemon (pid %d) signaled but still running after %s"))
      else stop_loop alive clock deadline fuel (S i)
  end.

Definition deadline_fuel (wait : Duration) : nat := S (S (Z.to_nat (Z.max 0 wait / pollInterval))).

Definition ErrNotRunning : error := Sentinel "daemon.ErrNotRunning".

(** [PIDAlive]: a process that may not be signalled is alive. *)
Definition PIDAlive (kill0 : Z -> result unit) (pid : Z) : bool :=
  if pid <=? 0 then false
  else match kill0 pid with Ok _ => true | Err e => errors_Is e "syscall.EPERM" end.

(** [Stop]: the pid is read in one state of the file and the lock probed in a later
    one; [kill0] and [polls i] are what signal 0 to a process answers, before the
    signal and in the [i]th round after it.  The pid signalled, when one is, with the
    result. *)
Definition Stop (io : PidIo) (s_read s_probe : PidSys) (kill0 kill : Z -> result unit) (polls : nat -> Z -> result unit)
    (now : Time) (clock : nat -> Time) (wait : Duration) : option Z * (Z * option (result unit)) :=
  match ReadPID s_read io with
  | Err e => (None, (0, Some (Err (if is_not_exist e then ErrNotRunning else e))))
  | Ok pid =>
      match pidFileUnlocked io s_probe with
      | Err e => (None, (pid, Some (Err e)))
      | Ok true => (None, (pid, Some (Err ErrNotRunning)))
      | Ok false =>
          if negb (PIDAlive kill0 pid) then (None, (pid, Some (Err ErrNotRunning))) else
          match kill pid with
          | Err e => (None, (pid, Some (Err (Errorf "signal daemon (pid %d): %w" [e]))))
          | Ok _ => (Some pid, (pid, stop_loop (fun i => PIDAlive (polls i) pid) clock (time_Add now wait) (deadline_fuel wait) 0))
          end
      end
  end.
End pidfile.

(** ** Processes at work on the file

    One process per open file: the daemon's child, [Start]'s parent, [Stop].  With
    [overlap] false no process removes the file while another one has it open. *)
Definition file_of (h : Holder) : option nat :=
  match h with Opened i | Probing i | Locked i | Running i => Some i | Releasing => None end.
Definition lock_of (h : Holder) : option nat :=
  match h with Probing i | Locked i | Running i => Some i | _ => None end.

Definition has_open (s : PidSys) (p i : nat) : Prop := exists h, pd_procs s !! p = Some h /\ file_of h = Some i.
Definition locking (s : PidSys) (p i : nat) : Prop := exists h, pd_procs s !! p = Some h /\ lock_of h = Some i.

Inductive pid_step (overlap : bool) : PidSys -> PidSys -> Prop :=
  | step_open s p i s' :
      pd_procs s !! p = None -> sys_create s = Ok (i, s') -> pid_step overlap s (set_proc p (Opened i) s')
  | step_open_probe s p i :
      pd_procs s !! p = None -> sys_open s = Ok i -> pid_step overlap s (set_proc p (Opened i) s)
  | step_lock s p i s' :
      pd_procs s !! p = Some (Opened i) -> sys_flock p i s = Some s' -> pid_step overlap s (set_proc p (Locked i) s')
  | step_probe s p i s' :
      pd_procs s !! p = Some (Opened i) -> sys_flock p i s = Some s' -> pid_step overlap s (set_proc p (Probing i) s')
  | step_busy s p i :
      pd_procs s !! p = Some (Opened i) -> sys_flock p i s = None -> pid_step overlap s (end_proc p s)
  | step_write s p i text :        (* also a truncation, or a part of the text *)
      pd_procs s !! p = Some (Locked i) \/ pd_procs s !! p = Some (Running i) -> pid_step overlap s (set_file i text s)
  | step_run s p i :
      pd_procs s !! p = Some (Locked i) -> pid_step overlap s (set_proc p (Running i) s)
  | step_close s p i :
      locking s p i -> pid_step overlap s (end_proc p (sys_unlock i s))
  | step_release s p i :
      pd_procs s !! p = Some (Locked i) \/ pd_procs s !! p = Some (Running i) ->
      pid_step overlap s (set_proc p Releasing (sys_unlock i s))
  | step_remove s p :
      pd_procs s !! p = Some Releasing -> (overlap = false -> forall q i, ~ has_open s q i) ->
      pid_step overlap s (end_proc p (sys_remove s))
  | step_die s p h :
      pd_procs s !! p = Some h ->
      pid_step overlap s (end_proc p match h with Probing i | Locked i | Running i => sys_unlock i s | _ => s end).

Definition no_pid_file : PidSys := {| pd_link := NoPidFile; pd_files := ∅; pd_locks := ∅; pd_procs := ∅ |}.

Definition pid_run (overlap : bool) (s : PidSys) : Prop := rtc (pid_step overlap) no_pid_file s.

(** *** The invariants *)

Definition locks_held (s : PidSys) : Prop := forall p i, locking s p i <-> pd_locks s !! i = Some p.
Definition one_file (s : PidSys) : Prop := forall p i, has_open s p i -> pd_link s = PidAt i.

Lemma lock_file h i : lock_of h = Some i -> file_of h = Some i.
Proof. by destruct h. Qed.

Lemma proc_insert (f : Holder -> option nat) (m : gmap nat Holder) p h q i :
  (exists h', <[p := h]> m !! q = Some h' /\ f h' = Some i) <->
  (q = p /\ f h = Some i) \/ (q <> p /\ exists h', m !! q = Some h' /\ f h' = Some i).
Proof.
  destruct (decide (q = p)) as [->|Hne]; [rewrite lookup_insert_eq|rewrite lookup_insert_ne by done]; naive_solver.
Qed.

Lemma proc_delete (f : Holder -> option nat) (m : gmap nat Holder) p q i :
  (exists h', delete p m !! q = Some h' /\ f h' = Some i) <-> q <> p /\ exists h', m !! q = Some h' /\ f h' = Some i.
Proof.
  destruct (decide (q = p)) as [->|Hne]; [rewrite lookup_delete_eq|rewrite lookup_delete_ne by done]; naive_solver.
Qed.

Lemma sys_create_spec s i s' :
  sys_create s = Ok (i, s') ->
  pd_locks s' = pd_locks s /\ pd_procs s' = pd_procs s /\ pd_link s' = PidAt i /\
  (pd_link s = PidAt i \/ pd_link s = NoPidFile).
Proof. unfold sys_create. destruct (pd_link s) eqn:E; [intros [= <- <-]; naive_solver|intros [= -> <-]; naive_solver|done]. Qed.

Lemma held s q i :
  locks_held s -> (exists h, pd_procs s !! q = Some h /\ lock_of h = Some i) <-> pd_locks s !! i = Some q.
Proof. intros Hl. exact (Hl q i). Qed.

(** Taking the lock, giving it back. *)
Lemma locks_taken s s' p i h :
  locks_held s -> lock_of h = Some i -> pd_procs s !! p = Some (Opened i) -> sys_flock p i s = Some s' ->
  locks_held (set_proc p h s').
Proof.
  unfold sys_flock. intros Hl Hh Hp. destruct (pd_locks s !! i) as [q|] eqn:Ei; [done|]. intros [= <-] q j.
  unfold locking, set_proc. cbn. rewrite proc_insert. rewrite (held _ _ _ Hl).
  destruct (decide (j = i)) as [->|Hne].
  - rewrite lookup_insert_eq. rewrite Ei. naive_solver.
  - rewrite lookup_insert_ne by done. split; [naive_solver|]. intros Hj. right. split; [|done]. intros ->.
    apply Hl in Hj as (h' & E & Hh'). by simplify_eq.
Qed.

Lemma locks_given s p i s' :
  locks_held s -> locking s p i -> pd_locks s' = delete i (pd_locks s) ->
  (forall q j, locking s' q j <-> q <> p /\ locking s q j) -> locks_held s'.
Proof.
  intros Hl Hp Hlocks Hq q j. rewrite Hq, Hlocks, (Hl q j : _ <-> _). destruct (decide (j = i)) as [->|Hne].
  - rewrite lookup_delete_eq. apply Hl in Hp. naive_solver.
  - rewrite lookup_delete_ne by done. split; [naive_solver|]. intros Hj. split; [|done]. intros ->.
    apply Hl in Hj as (h & E & Hh). destruct Hp as (h' & E' & Hh'). by simplify_eq.
Qed.

(** A process without the lock goes. *)
Lemma locks_left s p h l : locks_held s -> pd_procs s !! p = Some h -> lock_of h = None -> locks_held (end_proc p (set_link l s)).
Proof.
  intros Hl Hp Hh q j. unfold locking, end_proc. cbn. rewrite proc_delete, (held _ _ _ Hl). split; [naive_solver|].
  intros Hj. split; [|done]. intros ->. apply Hl in Hj as (h' & E & Hh'). by simplify_eq.
Qed.

Lemma locks_closed s p i : locks_held s -> locking s p i -> locks_held (end_proc p (sys_unlock i s)).
Proof. intros Hl Hp. eapply locks_given; [done..|]. intros q j. apply proc_delete. Qed.

Lemma end_proc_link s p : end_proc p s = end_proc p (set_link (pd_link s) s).
Proof. done. Qed.

Lemma pid_step_locks overlap s s' : pid_step overlap s s' -> locks_held s -> locks_held s'.
Proof.
  intros Hs Hl. destruct Hs as [s p i s' Hp Hc|s p i Hp Ho|s p i s' Hp Hf|s p i s' Hp Hf|s p i Hp Hf|s p i text Hp|s p i Hp|s p i Hp|s p i Hp
    |s p Hp Hq|s p h Hp].
  - apply sys_create_spec in Hc as (El & Ep & _ & _). intros q j. unfold locking, set_proc. cbn. rewrite proc_insert, El, Ep.
    rewrite <- (held _ _ _ Hl). split; [naive_solver|]. intros Hx. right. split; [|done]. naive_solver.
  - intros q j. unfold locking, set_proc. cbn. rewrite proc_insert.
    rewrite <- (held _ _ _ Hl). split; [naive_solver|]. intros Hx. right. split; [|done]. naive_solver.
  - by eapply locks_taken.
  - by eapply locks_taken.
  - rewrite end_proc_link. by eapply locks_left.
  - exact Hl.
  - intros q j. unfold locking, set_proc. cbn. rewrite proc_insert. rewrite <- (held _ _ _ Hl).
    destruct (decide (q = p)) as [->|]; naive_solver.
  - by apply locks_closed.
  - assert (Hlk : locking s p i) by (destruct Hp; by eexists). eapply locks_given; [done|exact Hlk|done|].
    intros q j. unfold locking, set_proc. cbn. rewrite proc_insert. naive_solver.
  - by eapply locks_left.
  - destruct h as [i|i|i|i|]; [|apply locks_closed; [done|by eexists]..|]; rewrite end_proc_link; by eapply locks_left.
Qed.

Lemma open_set s s' p h (i : nat) :
  pd_procs s' = <[p := h]> (pd_procs s) -> (forall j, file_of h = Some j -> pd_link s' = PidAt j) ->
  (forall q j, q <> p -> has_open s q j -> pd_link s' = PidAt j) -> one_file s'.
Proof. intros E Hh Ho q j. unfold has_open. rewrite E, proc_insert. intros [[-> Hj]|[Hne Hj]]; [by apply Hh|by eapply Ho]. Qed.

Lemma open_deleted s s' p :
  pd_procs s' = delete p (pd_procs s) -> (forall q j, q <> p -> has_open s q j -> pd_link s' = PidAt j) -> one_file s'.
Proof. intros E Ho q j. unfold has_open. rewrite E, proc_delete. intros [Hne Hj]. by eapply Ho. Qed.

Lemma pid_step_one_file s s' : pid_step false s s' -> one_file s -> one_file s'.
Proof.
  intros Hs Ho. assert (Hin : forall p h i, pd_procs s !! p = Some h -> file_of h = Some i -> pd_link s = PidAt i)
    by (intros p h i Hp Hh; apply (Ho p i); by exists h).
  destruct Hs as [s p i s' Hp Hc|s p i Hp Hop|s p i s' Hp Hf|s p i s' Hp Hf|s p i Hp Hf|s p i text Hp|s p i Hp|s p i Hp|s p i Hp|s p Hp Hq|s p h Hp].
  - apply sys_create_spec in Hc as (_ & Ep & El & Hl). eapply (open_set s _ p (Opened i)); [done|cbn; by rewrite Ep|by intros j [= <-]|].
    cbn. intros q j _ Hj%Ho. rewrite El. destruct Hl; congruence.
  - unfold sys_open in Hop. destruct (pd_link s) eqn:El; simplify_eq.
    eapply (open_set s _ p (Opened i)); [done|done|by intros j [= <-]|]. intros q j _ Hj%Ho. done.
  - unfold sys_flock in Hf. destruct (pd_locks s !! i); simplify_eq. eapply (open_set s _ p (Locked i)); [done|done| |].
    + intros j [= <-]. by eapply Hin.
    + intros q j _ Hj. by apply (Ho q j).
  - unfold sys_flock in Hf. destruct (pd_locks s !! i); simplify_eq. eapply (open_set s _ p (Probing i)); [done|done| |].
    + intros j [= <-]. by eapply Hin.
    + intros q j _ Hj. by apply (Ho q j).
  - eapply (open_deleted s); [done|]. intros q j _ Hj. by apply (Ho q j).
  - exact Ho.
  - eapply (open_set s _ p (Running i)); [done|done| |].
    + intros j [= <-]. by eapply Hin.
    + intros q j _ Hj. by apply (Ho q j).
  - eapply (open_deleted s); [done|]. intros q j _ Hj. by apply (Ho q j).
  - eapply (open_set s _ p Releasing); [done|done|done|]. intros q j _ Hj. by apply (Ho q j).
  - eapply (open_deleted s); [done|]. intros q j _ Hj. by destruct (Hq eq_refl q j).
  - eapply (open_deleted s); [by destruct h|]. intros q j _ Hj. apply Ho in Hj. by destruct h.
Qed.

Lemma pid_run_invariant overlap (P : PidSys -> Prop) :
  P no_pid_file -> (forall s s', pid_step overlap s s' -> P s -> P s') -> forall s, pid_run overlap s -> P s.
Proof. intros H0 Hs s Hrun. revert H0. unfold pid_run in Hrun. induction Hrun; eauto. Qed.

(** C24: the lock makes the daemon unique, as far as it can: however daemons start,
    crash, write their pid and close the file, and [Stop] probes it, no two hold
    the lock of one file, and no two hold a lock at all unless a closing daemon
    unlinked the path while another process had the file open. *)
Theorem pid_file_exclusive overlap s :
  pid_run overlap s ->
  (forall p q i, locking s p i -> locking s q i -> p = q) /\
  (overlap = false -> forall p q i j, locking s p i -> locking s q j -> p = q).
Proof.
  intros Hrun. assert (Hl : locks_held s).
  { revert Hrun. apply pid_run_invariant; [|by apply pid_step_locks].
    intros p i. unfold locking. cbn. setoid_rewrite lookup_empty. naive_solver. }
  assert (Hsame : forall p q i, locking s p i -> locking s q i -> p = q).
  { intros p q i Hp%Hl Hq%Hl. congruence. }
  split; [done|]. intros -> p q i j Hp Hq. assert (Ho : one_file s).
  { clear -Hrun. revert Hrun. apply pid_run_invariant; [|by apply pid_step_one_file].
    intros p i (h & E & _). cbn in E. by rewrite lookup_empty in E. }
  assert (Hfile : forall r k, locking s r k -> pd_link s = PidAt k).
  { intros r k (h & E & Hh%lock_file). apply (Ho r k). by exists h. }
  pose proof (Hfile _ _ Hp). pose proof (Hfile _ _ Hq). assert (i = j) as <- by congruence. by eapply Hsame.
Qed.

(** ** The loops end *)

Section loops.
Variables (clock : nat -> Time) (now : Time) (wait : Duration).
Hypothesis sleeps : forall i, clock i + pollInterval <= clock (S i).
Hypothesis begins : now <= clock 0%nat.

Lemma clock_grows i : now + Z.of_nat i * pollInterval <= clock i.
Proof. induction i as [|i IH]; [lia|]. specialize (sleeps i). lia. Qed.

Lemma past_deadline i : (S (Z.to_nat (Z.max 0 wait / pollInterval)) <= i)%nat -> time_Add now wait < clock i.
Proof.
  intros Hi. pose proof (clock_grows i) as Hc. unfold time_Add, pollInterval in *.
  pose proof (Z.div_mod (Z.max 0 wait) (50 * 1000000) ltac:(lia)).
  pose proof (Z.mod_pos_bound (Z.max 0 wait) (50 * 1000000) ltac:(lia)).
  pose proof (Z.div_pos (Z.max 0 wait) (50 * 1000000) ltac:(lia) ltac:(lia)). lia.
Qed.

Definition rounds : nat := deadline_fuel wait.

Lemma retry_loop_ends attempt fuel i :
  (i + fuel = rounds)%nat -> (0 < fuel)%nat ->
  exists j r, retry_loop attempt clock (time_Add now wait) fuel i = Some r /\ (i <= j < rounds)%nat /\ r = attempt j /\
    (forall k, (i <= k < j)%nat -> exists pid, attempt k = inr (AlreadyRunning pid)) /\
    (forall pid, r = inr (AlreadyRunning pid) -> time_Add now wait < clock j).
Proof.
  revert i. induction fuel as [|fuel IH]; intros i Hi Hf; [lia|]. cbn [retry_loop].
  destruct (attempt i) as [f|[pid|e]] eqn:Ea.
  - exists i, (inl f). split_and!; try done; try lia.
  - unfold time_After. destruct (Z.ltb_spec (time_Add now wait) (clock i)) as [Hl|Hl].
    + exists i, (inr (AlreadyRunning pid)). split_and!; try done; try lia.
    + destruct (decide (fuel = 0%nat)) as [->|Hne].
      { pose proof (past_deadline i). unfold rounds, deadline_fuel in Hi. lia. }
      destruct (IH (S i)) as (j & r & Hr & Hj & -> & Hk & Hd); [lia|lia|]. exists j, (attempt j).
      split_and!; try done; try lia. intros k Hki. destruct (decide (k = i)) as [->|]; [by exists pid|]. apply Hk. lia.
  - exists i, (inr (AcquireFailed e)). split_and!; try done; try lia.
Qed.

Lemma stop_loop_ends alive fuel i :
  (i + fuel = rounds)%nat -> (0 < fuel)%nat ->
  exists j r, stop_loop alive clock (time_Add now wait) fuel i = Some r /\ (i <= j < rounds)%nat /\
    (forall k, (i <= k < j)%nat -> alive k = true) /\
    (if is_ok r then alive j = false else alive j = true /\ time_Add now wait <= clock j).
Proof.
  revert i. induction fuel as [|fuel IH]; intros i Hi Hf; [lia|]. cbn [stop_loop].
  destruct (alive i) eqn:Ea; cbn [negb].
  - unfold time_Before. destruct (Z.ltb_spec (clock i) (time_Add now wait)) as [Hl|Hl]; cbn [negb].
    + destruct (decide (fuel = 0%nat)) as [->|Hne].
      { pose proof (past_deadline i). unfold rounds, deadline_fuel in Hi. lia. }
      destruct (IH (S i)) as (j & r & Hr & Hj & Hk & Hd); [lia|lia|]. exists j, r. split_and!; try done; try lia.
      intros k Hki. destruct (decide (k = i)) as [->|]; [done|]. apply Hk. lia.
    + eexists i, _. split_and!; try done; try lia.
  - eexists i, _. split_and!; try done; try lia.
Qed.
End loops.

(** Success is a process found gone; a failure is the deadline's. *)
Lemma stop_loop_verdict alive clock deadline fuel i r : stop_loop alive clock deadline fuel i = Some r ->
  match r with
  | Ok _ => exists j, alive j = false
  | Err e => e = errors_New "daemon (pid %d) signaled but still running after %s"
  end.
Proof.
  revert i. induction fuel as [|fuel IH]; intros i; [done|]. cbn [stop_loop]. destruct (alive i) eqn:Ea; cbn [negb].
  - destruct (negb (time_Before (clock i) deadline)); [by intros [= <-]|apply IH].
  - intros [= <-]. by exists i.
Qed.

(** C28: the two loops that wait for another process end: with 50 ms between rounds,
    each within the wait plus one poll. [AcquirePIDFileRetry] returns its first
    attempt that is not AlreadyRunning, or AlreadyRunning only after the deadline;
    [Stop]'s wait reports success exactly when a probe finds the process gone and
    an error only when it is still there at the deadline. *)
Theorem pid_loops_end attempt alive clock now wait :
  (forall i, clock i + pollInterval <= clock (S i)) -> now <= clock 0%nat ->
  let fuel := deadline_fuel wait in
  (exists j r, retry_loop attempt clock (time_Add now wait) fuel 0 = Some r /\ (j < fuel)%nat /\ r = attempt j /\
    (forall k, (k < j)%nat -> exists pid, attempt k = inr (AlreadyRunning pid)) /\
    (forall pid, r = inr (AlreadyRunning pid) -> time_Add now wait < clock j)) /\
  (exists j r, stop_loop alive clock (time_Add now wait) fuel 0 = Some r /\ (j < fuel)%nat /\
    (forall k, (k < j)%nat -> alive k = true) /\
    (if is_ok r then alive j = false else alive j = true /\ time_Add now wait <= clock j)).
Proof.
  intros Hs Hb fuel. split.
  - destruct (retry_loop_ends clock now wait Hs Hb attempt fuel 0) as (j & r & ? & [_ ?] & ? & Hk & ?); [done|unfold fuel, deadline_fuel; lia|].
    exists j, r. split_and!; try done. intros k Hlt. apply Hk. lia.
  - destruct (stop_loop_ends clock now wait Hs Hb alive fuel 0) as (j & r & ? & [_ ?] & Hk & ?); [done|unfold fuel, deadline_fuel; lia|].
    exists j, r. split_and!; try done. intros k Hlt. apply Hk. lia.
Qed.

(** ** What the file then says *)

Section contents.
Context `{UnicodeTables}.

Lemma pid_text_parses pid : 0 <= pid <= max_int64 -> strconv_Atoi (strings_TrimSpace (pid_text pid)) = Some pid.
Proof.
  intros Hp. assert (E : pid_text pid = serial_text pid).
  { unfold pid_text, serial_text, strconv_Itoa. by rewrite (proj2 (Z.ltb_ge _ _)) by lia. }
  rewrite E, serial_text_trim by lia. pose proof (Atoi_Itoa_nonneg pid Hp) as Ha. unfold strconv_Itoa in Ha.
  by rewrite (proj2 (Z.ltb_ge _ _)) in Ha by lia.
Qed.

Lemma acquire_inl io p pid getpid s i s' :
  AcquirePIDFile io p pid getpid s = (inl i, s') ->
  io_mkdir io = Ok tt /\ io_open io = Ok tt /\ io_flock io = Ok tt /\ io_seek io = Ok tt /\
  exists s1 s2, sys_create s = Ok (i, s1) /\ sys_flock p i s1 = Some s2 /\
    s' = set_file i (pid_text (if pid =? 0 then getpid else pid)) s2.
Proof.
  unfold AcquirePIDFile. destruct (io_mkdir io) as [[]|], (io_open io) as [[]|]; try done.
  destruct (sys_create s) as [[i1 s1]|] eqn:Ec; [|done]. destruct (io_flock io) as [[]|]; [|done].
  destruct (sys_flock p i1 s1) as [s2|] eqn:Ef; [|done]. unfold pid_Write.
  destruct (io_seek io) as [[]|], (io_truncate io) as [[]|], (io_write io), (io_sync io); try done.
  intros [= -> <-]. split_and!; try done. by exists s1, s2.
Qed.

(** A process that acquired the pid file holds its lock, alone; the file reads
    back as its pid; and until it lets go every other attempt is refused naming
    that pid and changes nothing, while [Stop]'s probe finds the lock taken. *)
Theorem AcquirePIDFile_correct io p pid getpid s i s' :
  let own := if pid =? 0 then getpid else pid in
  AcquirePIDFile io p pid getpid s = (inl i, s') -> 0 <= own <= max_int64 ->
  pd_link s' = PidAt i /\ pd_locks s !! i = None /\ pd_locks s' = <[i := p]> (pd_locks s) /\
  ReadPID s' io = Ok own /\ pidFileUnlocked io s' = Ok false /\
  forall q pid' getpid', AcquirePIDFile io q pid' getpid' s' = (inr (AlreadyRunning own), s').
Proof.
  intros own (Em & Eo & El & Es & s1 & s2 & Hc & Hf & ->)%acquire_inl Hown. fold own.
  apply sys_create_spec in Hc as (Hlocks & _ & Hlink & _).
  unfold sys_flock in Hf. destruct (pd_locks s1 !! i) eqn:Ei; [done|]. injection Hf as <-.
  set (s' := set_file _ _ _). assert (Hlink' : pd_link s' = PidAt i) by exact Hlink.
  assert (Hlocks' : pd_locks s' = <[i := p]> (pd_locks s)) by (rewrite <- Hlocks; done).
  assert (Hread : forall target, sys_read s' target = Ok (pid_text own)).
  { intros target. unfold sys_read. rewrite Hlink'. unfold s'. cbn. by rewrite lookup_insert_eq. }
  clearbody s'. split_and!; [done|congruence|done| | |].
  - unfold ReadPID. rewrite Hread. cbn. by rewrite pid_text_parses.
  - unfold pidFileUnlocked, sys_open. rewrite Eo, Hlink'. cbn. rewrite Hlocks', lookup_insert_eq. by rewrite decide_False.
  - intros q pid' getpid'. unfold AcquirePIDFile, sys_create. rewrite Em, Eo, Hlink', El.
    unfold sys_flock. rewrite Hlocks', lookup_insert_eq. unfold readPIDFromFile. rewrite Es, Hread.
    unfold atoi_value. by rewrite pid_text_parses.
Qed.
End contents.

(** ** Samples *)
Section samples.
#[local] Existing Instance ascii_tables.

Definition all_well : PidIo := {|
  io_mkdir := Ok tt; io_open := Ok tt; io_flock := Ok tt; io_seek := Ok tt; io_truncate := Ok tt; io_write := Ok "";
  io_short := ""; io_sync := Ok tt; io_target := Err os_ErrNotExist |}.

Lemma AcquirePIDFile_correct_witness :
  let s' := (AcquirePIDFile all_well 1 4711 1 no_pid_file).2 in
  ReadPID s' all_well = Ok 4711 /\ AcquirePIDFile all_well 2 0 4712 s' = (inr (AlreadyRunning 4711), s').
Proof.
  set (r := AcquirePIDFile all_well 1 4711 1 no_pid_file).
  assert (E : AcquirePIDFile all_well 1 4711 1 no_pid_file = (inl (fresh (dom (pd_files no_pid_file))), r.2)) by reflexivity.
  destruct (AcquirePIDFile_correct all_well 1 4711 1 no_pid_file _ _ E) as (_ & _ & _ & Hr & _ & Hb).
  - cbn. unfold max_int64. lia.
  - split; [exact Hr|exact (Hb 2%nat 0 4712)].
Defined.

Lemma pid_loops_end_witness :
  exists j r, stop_loop (fun i => (i <? 3)%nat) (fun i => Z.of_nat i * (60 * 1000000)) (time_Add 0 (5 * Second)) (deadline_fuel (5 * Second)) 0
    = Some r /\ (j < deadline_fuel (5 * Second))%nat.
Proof.
  destruct (pid_loops_end (fun _ => inl 0%nat) (fun i => (i <? 3)%nat) (fun i => Z.of_nat i * (60 * 1000000)) 0 (5 * Second))
    as [_ (j & r & Hr & Hj & _)].
  - intros i. unfold pollInterval. lia.
  - reflexivity.
  - exists j, r. split; [exact Hr|exact Hj].
Defined.

(** One daemon runs, another process was refused. *)
Definition running_once : PidSys :=
  set_proc 1 (Running 0) (set_proc 1 (Locked 0) (default no_pid_file (sys_flock 1 0
    (set_proc 1 (Opened 0) (value (0%nat, no_pid_file) (sys_create no_pid_file)).2)))).

Lemma run_once overlap : pid_run overlap running_once.
Proof.
  eapply rtc_l; [eapply (step_open _ _ 1); reflexivity|]. eapply rtc_l; [eapply (step_lock _ _ 1); reflexivity|].
  eapply rtc_once. apply (step_run _ _ 1). reflexivity.
Qed.

Lemma pid_file_exclusive_witness : locking running_once 1 0 /\ ~ (exists q j, q <> 1%nat /\ locking running_once q j).
Proof.
  assert (H1 : locking running_once 1 0) by (exists (Running 0); split; reflexivity).
  split; [exact H1|]. intros (q & j & Hne & Hq). apply Hne.
  exact (proj2 (pid_file_exclusive false running_once (run_once false)) eq_refl q 1%nat j 0%nat Hq H1).
Defined.

(** A daemon that closes unlocks the file before it unlinks the path: a second one
    may lock the file in between, and loses its name; a third then starts beside
    it. *)
Lemma two_daemons : exists s, pid_run true s /\ pd_procs s !! 2%nat = Some (Running 0) /\ pd_procs s !! 3%nat = Some (Running 1).
Proof.
  eexists. split.
  - unfold pid_run. etransitivity; [apply run_once|].
    eapply rtc_l; [eapply (step_release _ _ 1 0); right; reflexivity|].
    eapply rtc_l; [eapply (step_open _ _ 2); reflexivity|]. eapply rtc_l; [eapply (step_lock _ _ 2); reflexivity|].
    eapply rtc_l; [eapply (step_run _ _ 2); reflexivity|].
    eapply rtc_l; [eapply (step_remove _ _ 1); [reflexivity|discriminate]|].
    eapply rtc_l; [eapply (step_open _ _ 3); reflexivity|]. eapply rtc_l; [eapply (step_lock _ _ 3); reflexivity|].
    eapply rtc_once. eapply (step_run _ _ 3). reflexivity.
  - split; reflexivity.
Qed.

(** The pid is read before the lock is probed: one left by a crashed daemon is
    signalled when a new daemon takes the lock, and has not yet written its own
    pid, in between. *)
Definition crashed : PidSys := set_link (PidAt 0) (set_file 0 (pid_text 4711) no_pid_file).

Example stop_signals_stranger :
  let relocked := default no_pid_file (sys_flock 2 0 crashed) in
  (Stop all_well crashed relocked (fun _ => Ok tt) (fun _ => Ok tt) (fun _ _ => Err (Sentinel "syscall.ESRCH")) 0 (fun _ => 0) Second).1 = Some 4711.
Proof. reflexivity. Qed.
End samples.
