(* ===== verification/UpDown.v ===== *)
(** * UpDown: starting and stopping (internal/cli/up.go, down.go, root.go, admin_preflight.go, internal/daemon/daemon.go)

    How up chooses what to do, how the parent hands the pid file to the daemon it
    starts, and how down stops the daemon before it removes the interface and the
    names.  A started daemon is shown to own the pid file, and down never removes the
    interface under one that lives. *)
From stdpp Require Import base tactics option list strings gmap.
From Stdlib Require Import Ascii ZArith Lia.
From S2P Require Import Prelude GoStrings GoNum GoNet StatePaths Keys Directory DnsName Validate Wire Toy Codec Relay Discovery LanDiscovery Hosts Peers Manager DnsManager Schema Config Cache Drop Prog Admin Enroll Daemon DaemonLaws PidFile.
Open Scope Z_scope.

(** ** The daemon process *)

Definition EnvMarker : string := "_TINCAN_DAEMON".
Definition EnvConfig : string := "_TINCAN_CONFIG".

(** The environment, in order: of several values of a name the first counts. *)
Definition Environ : Type := list (string * string).
Definition os_Getenv (env : Environ) (name : string) : string :=
  from_option snd "" (List.find (fun kv => String.eqb kv.1 name) env).

Definition IsChild (env : Environ) : bool := String.eqb (os_Getenv env EnvMarker) "1".

(** The environment [Start] gives its child. *)
Definition child_env (env : Environ) (configPath : string) : Environ := env ++ [(EnvMarker, "1"); (EnvConfig, configPath)].

Record SpawnIo := {
  sw_exe : result unit;
  sw_devnull : result unit;
  sw_start : result Z;         (* the child's pid *)
  sw_io : PidIo;               (* for writing it *)
  sw_release : result unit }.

(** [pf.Close]: the lock goes with it. *)
Definition daemon_Start `{UnicodeTables} (io : PidIo) (sw : SpawnIo) (p : nat) (getpid : Z) (s : PidSys) : (Z + AcquireError) * option Z * PidSys :=
  match AcquirePIDFile io p getpid getpid s with
  | (inr e, s) => (inr e, None, s)
  | (inl i, s) =>
      let stop e killed s := (inr (AcquireFailed e), killed, sys_unlock i s) in
      match sw_exe sw with Err e => stop (Errorf "resolve executable: %w" [e]) None s | Ok _ =>
      match sw_devnull sw with Err e => stop (Errorf "open /dev/null: %w" [e]) None s | Ok _ =>
      match sw_start sw with Err e => stop (Errorf "start daemon child: %w" [e]) None s | Ok pid =>
      match pid_Write (sw_io sw) i pid s with
      | (Err e, s) => stop e (Some pid) s
      | (Ok _, s) =>
          match sw_release sw with
          | Err e => stop (Errorf "release daemon child: %w" [e]) None s
          | Ok _ => (inl pid, None, sys_unlock i s)
          end
      end end end end
  end.

Definition BecomeChild (setsid chdir : result unit) : result unit :=
  _ ← wrap_err (fun e => Errorf "setsid: %w" [e]) setsid;
  wrap_err (fun e => Errorf "chdir /: %w" [e]) chdir.

(** ** up *)

(** The path the command reads its configuration from. *)
Definition up_config (env : Environ) (config : string) : string :=
  if IsChild env then
    let daemonConfig := os_Getenv env EnvConfig in
    if negb (String.eqb daemonConfig "") then daemonConfig else config
  else config.

(** [run]: a relative path is made absolute, as the daemon changes its directory. *)
Definition absolute_config (cwd : result string) (config : string) : result string :=
  if negb (String.eqb config "") && negb (strings_HasPrefix config "/")
  then wd ← cwd; Ok (filepath_Join wd config)
  else Ok config.

Inductive UpAction :=
  | StartDaemon (pidFile configPath : string)
  | RunDaemon (pidFile configPath : string)       (* BecomeChild, the pid file, the loop *)
  | UpOnce (cfg : Config) (noSync : bool).

Definition UpCmd_Run (noSync daemon : bool) (env : Environ) (config : string) (loadConfig : string -> result Config) : result UpAction :=
  let config := up_config env config in
  cfg ← loadConfig config;
  Ok (if daemon && negb (IsChild env) then StartDaemon (sync_PIDFile (c_Sync cfg)) config
      else if daemon && IsChild env then RunDaemon (sync_PIDFile (c_Sync cfg)) config
      else UpOnce cfg noSync).

(** *** What the loop starts *)

(** [start] is [discovery.Start]. *)
Definition startDiscovery (cfg : result Config) (start : DiscConfig -> result Started) : option Store :=
  match cfg with
  | Err _ => None
  | Ok cfg =>
      if negb (discovery_IsEnabled (c_Discovery cfg)) then None else
      match start {| dcf_MulticastIPv4 := disc_MulticastIPv4 (c_Discovery cfg); dcf_MulticastIPv6 := disc_MulticastIPv6 (c_Discovery cfg);
                     dcf_BeaconInterval := od_Or (disc_BeaconInterval (c_Discovery cfg)) DefaultDiscoveryBeaconInterval;
                     dcf_BeaconTTL := od_Or (disc_BeaconTTL (c_Discovery cfg)) DefaultDiscoveryBeaconTTL;
                     dcf_InterfaceFilter := wg_Interface (c_Wireguard cfg) |} with
      | Err _ => None
      | Ok started => Some (sd_store started)
      end
  end.

Definition ipForwardEnabled `{UnicodeTables} (data : result string) : bool :=
  match data with Err _ => false | Ok d => String.eqb (strings_TrimSpace d) "1" end.

(** Whether it warns. *)
Definition startAdminPreflight `{CryptoLib} `{UnicodeTables} (cfg : result Config) (ip_forward : result string) : bool :=
  match cfg with
  | Err _ => false
  | Ok cfg => match RequireAdmin cfg with Err _ => false | Ok _ => negb (ipForwardEnabled ip_forward) end
  end.

(** ** down *)

Definition LinkNotFoundError : error := Sentinel "netlink.LinkNotFoundError".

Definition manager_Teardown (find del : result unit) : result unit :=
  _ ← wrap_err (fun e => Errorf "find link: %w" [e]) find;
  wrap_err (fun e => Errorf "delete link: %w" [e]) del.

Definition manager_Ensure `{CryptoLib} `{UnicodeTables} (resolve : string -> option UDPAddr) (m : Manager) (self : Node) (dir : Directory)
    (relayed : gset string) (k : Kernel) (now : Time) : result unit :=
  match snd (manager_Up m k) with
  | Err e => Err e
  | Ok _ => ap_err (manager_Apply resolve m self dir relayed None k now)
  end.

Definition daemonStopWait : Duration := 10 * Second.

(** What the system does while down runs. *)
Record DownIo := {
  di_pid : PidIo;
  di_read : PidSys;
  di_probe : PidSys;
  di_kill0 : Z -> result unit;
  di_kill : Z -> result unit;
  di_polls : nat -> Z -> result unit;
  di_now : Time;
  di_clock : nat -> Time;
  di_find : result unit;
  di_del : result unit;
  di_hosts_io : result unit;
  di_hosts : HostsFile }.

Record Down := { dn_signalled : option Z; dn_deleted : bool; dn_hosts : HostsFile; dn_result : result unit }.

Section down.
Context `{CryptoLib} `{UnicodeTables}.

(** [tear] is what remains once no daemon is left. *)
Definition tear_down (cfg : Config) (io : DownIo) (signalled : option Z) : Down :=
  let clean := removeHostsBlock cfg (di_hosts_io io) (di_hosts io) in
  match NewManager (c_Wireguard cfg) with
  | Err e => {| dn_signalled := signalled; dn_deleted := false; dn_hosts := di_hosts io; dn_result := Err e |}
  | Ok _ =>
      match manager_Teardown (di_find io) (di_del io) with
      | Err e => if errors_Is e "netlink.LinkNotFoundError"
                 then {| dn_signalled := signalled; dn_deleted := false; dn_hosts := clean; dn_result := Ok tt |}
                 else {| dn_signalled := signalled; dn_deleted := false; dn_hosts := di_hosts io; dn_result := Err e |}
      | Ok _ => {| dn_signalled := signalled; dn_deleted := true; dn_hosts := clean; dn_result := Ok tt |}
      end
  end.

(** [None] when the wait for the daemon would go on beyond its bound on rounds. *)
Definition DownCmd_Run (cfg : result Config) (stop : bool) (io : DownIo) : option Down :=
  match cfg with
  | Err e => Some {| dn_signalled := None; dn_deleted := false; dn_hosts := di_hosts io; dn_result := Err e |}
  | Ok cfg =>
      if negb stop then Some (tear_down cfg io None) else
      let '(signalled, (_, r)) := PidFile.Stop (di_pid io) (di_read io) (di_probe io) (di_kill0 io) (di_kill io) (di_polls io)
                                    (di_now io) (di_clock io) daemonStopWait in
      match r with
      | None => None
      | Some (Ok _) => Some (tear_down cfg io signalled)
      | Some (Err e) =>
          if errors_Is e "daemon.ErrNotRunning" then Some (tear_down cfg io signalled)
          else Some {| dn_signalled := signalled; dn_deleted := false; dn_hosts := di_hosts io;
                       dn_result := Err (Errorf "%w; re-run 'tincan down --stop' once it has exited" [e]) |}
      end
  end.
End down.

(** ** The child finds its configuration *)

Lemma Getenv_child env path name : name ∉ env.*1 ->
  os_Getenv (child_env env path) name = os_Getenv [(EnvMarker, "1"); (EnvConfig, path)] name.
Proof.
  intros Hn. unfold os_Getenv, child_env. induction env as [|[k v] env IH]; [done|]. rewrite fmap_cons, not_elem_of_cons in Hn. destruct Hn as [Hk Hn].
  cbn [app List.find fst] in *. rewrite (proj2 (String.eqb_neq k name)) by (intros ->; by apply Hk). by apply IH.
Qed.

(** The daemon reads the file its parent read, unless the parent's environment
    already has a value of the names it is told by. *)
Lemma child_reads_config env path config : EnvMarker ∉ env.*1 -> EnvConfig ∉ env.*1 -> path <> "" ->
  IsChild (child_env env path) = true /\ up_config (child_env env path) config = path.
Proof.
  intros Hm Hc Hp. assert (Hchild : IsChild (child_env env path) = true) by (unfold IsChild; by rewrite Getenv_child).
  split; [done|]. unfold up_config. rewrite Hchild, Getenv_child by done. change (os_Getenv [(EnvMarker, "1"); (EnvConfig, path)] EnvConfig) with path.
  by rewrite (proj2 (String.eqb_neq _ _)).
Qed.

(** A value left in the shell redirects the daemon. *)
Example stray_config : up_config (child_env [(EnvConfig, "/tmp/other.toml")] "/etc/tincan/config.toml") "/etc/tincan/config.toml" = "/tmp/other.toml".
Proof. reflexivity. Qed.
(** ... or makes it take itself for the parent, which starts another one. *)
Example stray_marker noSync load cfg : load "/etc/tincan/config.toml" = Ok cfg ->
  UpCmd_Run noSync true (child_env [(EnvMarker, "0")] "/etc/tincan/config.toml") "/etc/tincan/config.toml" load =
  Ok (StartDaemon (sync_PIDFile (c_Sync cfg)) "/etc/tincan/config.toml").
Proof. intros Hl. unfold UpCmd_Run, up_config, IsChild. cbn. rewrite Hl. reflexivity. Qed.

(** ** The pid file goes from the parent to the daemon *)

Section lifecycle.
Context `{UnicodeTables}.

Lemma pid_Write_Ok io i pid s s' : pid_Write io i pid s = (Ok tt, s') -> io_seek io = Ok tt /\ s' = set_file i (pid_text pid) s.
Proof.
  unfold pid_Write. destruct (io_seek io) as [[]|]; [|done]. destruct (io_truncate io) as [[]|]; [|done]. destruct (io_write io); [|done].
  destruct (io_sync io) as [[]|]; [|done]. by intros [= <-].
Qed.

Lemma start_inl io sw p getpid s pid k s' : daemon_Start io sw p getpid s = (inl pid, k, s') ->
  exists i s1, AcquirePIDFile io p getpid getpid s = (inl i, s1) /\ sw_start sw = Ok pid /\ k = None /\
    s' = sys_unlock i (set_file i (pid_text pid) s1).
Proof.
  unfold daemon_Start. destruct (AcquirePIDFile io p getpid getpid s) as [[i|e] s1] eqn:Ea; [|done].
  destruct (sw_exe sw) as [[]|]; [|done]. destruct (sw_devnull sw) as [[]|]; [|done]. destruct (sw_start sw) as [q|] eqn:Es; [|done].
  destruct (pid_Write (sw_io sw) i q s1) as [[[]|] s2] eqn:Ew; [|done]. destruct (sw_release sw) as [[]|]; [|done].
  intros [= <- <- <-]. apply pid_Write_Ok in Ew as [_ ->]. by exists i, s1.
Qed.

(** C25: a started daemon owns the pid file.  When [Start] returns a pid, the file
    holds it and its lock is free, and the parent spawned no other process; the child,
    whose pid it is, then takes the lock, after which the file still names it, every
    other [Start] is refused naming it and changes nothing, and [Stop] signals it and
    no other process as long as it lives. *)
Theorem daemon_lifecycle io sw p getpid s pid killed s1 child :
  daemon_Start io sw p getpid s = (inl pid, killed, s1) -> 0 < pid <= max_int64 -> io_truncate io = Ok tt -> is_ok (io_write io) = true ->
  io_sync io = Ok tt ->
  killed = None /\ ReadPID s1 io = Ok pid /\ pidFileUnlocked io s1 = Ok true /\
  exists i s2, AcquirePIDFile io child 0 pid s1 = (inl i, s2) /\ pd_locks s2 !! i = Some child /\ ReadPID s2 io = Ok pid /\
    (forall sw' q getpid', daemon_Start io sw' q getpid' s2 = (inr (AlreadyRunning pid), None, s2)) /\
    (forall kill0 kill polls now clock wait, PIDAlive kill0 pid = true -> kill pid = Ok tt ->
       (Stop io s2 s2 kill0 kill polls now clock wait).1 = Some pid).
Proof.
  intros (i & s0 & Ha & Hp & -> & ->)%start_inl Hpid Ht Hw Hs. split; [done|].
  apply acquire_inl in Ha as (Em & Eo & El & Es & sc & sf & Hc & Hf & Es0).
  apply sys_create_spec in Hc as (_ & _ & Hlink & _). unfold sys_flock in Hf. destruct (pd_locks sc !! i) eqn:Ei; [done|]. injection Hf as <-.
  assert (Hlink0 : pd_link s0 = PidAt i) by (subst s0; exact Hlink). clear Hlink Es0.
  set (s1 := sys_unlock _ _). assert (Hlink1 : pd_link s1 = PidAt i) by exact Hlink0.
  assert (Hfile1 : pd_files s1 !! i = Some (pid_text pid)) by apply lookup_insert_eq.
  assert (Hlock1 : pd_locks s1 !! i = None) by apply lookup_delete_eq. clearbody s1.
  assert (Hread : forall s, pd_link s = PidAt i -> pd_files s !! i = Some (pid_text pid) -> ReadPID s io = Ok pid).
  { intros t Hl Hfl. unfold ReadPID, sys_read. rewrite Hl, Hfl. cbn. rewrite pid_text_parses; [done|lia]. }
  split; [by apply Hread|]. split.
  { unfold pidFileUnlocked, sys_open. rewrite Eo, Hlink1. cbn. rewrite decide_True by done. by rewrite El. }
  destruct (io_write io) as [w|] eqn:Ew; [|done].
  eexists i, _. split.
  { unfold AcquirePIDFile, sys_create, sys_flock. rewrite Em, Eo, Hlink1, El, Hlock1. unfold pid_Write. rewrite Es, Ht, Ew, Hs. reflexivity. }
  set (s2 := set_file _ _ _). assert (Hlink2 : pd_link s2 = PidAt i) by exact Hlink1.
  assert (Hfile2 : pd_files s2 !! i = Some (pid_text pid)) by apply lookup_insert_eq.
  assert (Hlock2 : pd_locks s2 !! i = Some child) by apply lookup_insert_eq. clearbody s2.
  split_and!; [done|by apply Hread| |].
  - intros sw' q getpid'. unfold daemon_Start, AcquirePIDFile, sys_create, sys_flock. rewrite Em, Eo, Hlink2, El, Hlock2.
    unfold readPIDFromFile, sys_read. rewrite Es, Hlink2, Hfile2. unfold atoi_value. change (default "" (Some (pid_text pid))) with (pid_text pid). by rewrite pid_text_parses by lia.
  - intros kill0 kill polls now clock wait Hal Hk. unfold Stop. rewrite (Hread s2) by done.
    unfold pidFileUnlocked, sys_open. rewrite Eo, Hlink2. cbn. rewrite decide_False by (by rewrite Hlock2).
    by rewrite Hal, Hk.
Qed.
End lifecycle.

(** ** Down leaves no daemon and no names *)

Section down_laws.
Context `{CryptoLib} `{UnicodeTables}.

(** The system does not return the daemon package's own error. *)
Definition foreign_error {A} (r : result A) : Prop := forall e, r = Err e -> errors_Is e "daemon.ErrNotRunning" = false.

(** What down saw when it took the daemon for gone. *)
Definition saw_no_daemon (io : DownIo) : Prop :=
  (exists e, ReadPID (di_read io) (di_pid io) = Err e /\ is_not_exist e = true) \/
  exists pid, ReadPID (di_read io) (di_pid io) = Ok pid /\
    (pidFileUnlocked (di_pid io) (di_probe io) = Ok true \/
     PIDAlive (di_kill0 io) pid = false \/ exists j, PIDAlive (di_polls io j) pid = false).

Lemma wrapped_foreign {A} f (r : result A) : foreign_error r -> foreign_error (wrap_err (fun e => Errorf f [e]) r).
Proof. intros Hr e. destruct r as [a|e']; [done|]. intros [= <-]. cbn. by rewrite (Hr _ eq_refl). Qed.

Lemma ReadPID_foreign s io : foreign_error (io_target io) -> foreign_error (ReadPID s io).
Proof.
  intros Ht e. unfold ReadPID, sys_read. destruct (pd_link s).
  - by intros [= <-].
  - cbn. destruct (strconv_Atoi _); [done|]. by intros [= <-].
  - destruct (io_target io) as [d|e'] eqn:E; [cbn; destruct (strconv_Atoi _); [done|]; by intros [= <-]|]. intros [= <-]. by apply Ht.
Qed.

Lemma pidFileUnlocked_foreign io s : foreign_error (io_open io) -> foreign_error (io_flock io) -> foreign_error (pidFileUnlocked io s).
Proof.
  intros Ho Hl e. unfold pidFileUnlocked. pose proof (wrapped_foreign "open PID file: %w" _ Ho) as Ho'.
  destruct (wrap_err _ (io_open io)) as [u|e1] eqn:E1; [|intros [= <-]; by apply Ho'].
  unfold sys_open. destruct (pd_link s) as [|i|]; [by intros [= <-]| |by intros [= <-]]. cbn.
  case_decide; [|done]. pose proof (wrapped_foreign "probe PID file lock: %w" _ Hl) as Hl'.
  destruct (wrap_err _ (io_flock io)) as [u'|e2] eqn:E2; [done|]. intros [= <-]. by apply Hl'.
Qed.

(** [Stop] ends well, or finds nothing to stop, only when it saw no daemon. *)
Lemma stop_saw io signalled pid r :
  foreign_error (io_target (di_pid io)) -> foreign_error (io_open (di_pid io)) -> foreign_error (io_flock (di_pid io)) ->
  (forall pid, foreign_error (di_kill io pid)) ->
  PidFile.Stop (di_pid io) (di_read io) (di_probe io) (di_kill0 io) (di_kill io) (di_polls io) (di_now io) (di_clock io) daemonStopWait =
    (signalled, (pid, Some r)) ->
  (forall e, r = Err e -> errors_Is e "daemon.ErrNotRunning" = true) -> saw_no_daemon io.
Proof.
  intros Ht Ho Hl Hk Hs Hr. unfold PidFile.Stop in Hs. unfold saw_no_daemon.
  destruct (ReadPID (di_read io) (di_pid io)) as [n|e] eqn:Ep.
  - right. exists n. split; [done|].
    destruct (pidFileUnlocked (di_pid io) (di_probe io)) as [[]|e] eqn:Eu; [by left| |].
    + right. destruct (PIDAlive (di_kill0 io) n) eqn:Ea; [|by left]. right. cbn [negb] in Hs.
      destruct (di_kill io n) as [u|e] eqn:Ek.
      * remember (stop_loop _ _ _ _ _) as lp eqn:Eloop in Hs. injection Hs as _ _ ->. symmetry in Eloop. apply stop_loop_verdict in Eloop as Hv. destruct r as [[]|e]; [exact Hv|].
        specialize (Hr e eq_refl). subst e. discriminate Hr.
      * injection Hs as _ _ <-. specialize (Hr _ eq_refl). cbn in Hr. rewrite (Hk n e Ek) in Hr. discriminate Hr.
    + injection Hs as _ _ <-. specialize (Hr _ eq_refl). by rewrite (pidFileUnlocked_foreign _ _ Ho Hl _ Eu) in Hr.
  - left. exists e. split; [done|]. injection Hs as _ _ <-. specialize (Hr _ eq_refl).
    destruct (is_not_exist e); [done|]. by rewrite (ReadPID_foreign _ _ Ht _ Ep) in Hr.
Qed.

Lemma tear_down_done cfg io signalled : dn_result (tear_down cfg io signalled) = Ok tt ->
  (dn_deleted (tear_down cfg io signalled) = true \/
   exists e, manager_Teardown (di_find io) (di_del io) = Err e /\ errors_Is e "netlink.LinkNotFoundError" = true) /\
  dn_hosts (tear_down cfg io signalled) = removeHostsBlock cfg (di_hosts_io io) (di_hosts io).
Proof.
  unfold tear_down. destruct (NewManager _); [|done]. destruct (manager_Teardown _ _) as [u|e]; [by split; [left|]|].
  destruct (errors_Is e _) eqn:E; [|done]. intros _. split; [right; by exists e|done].
Qed.

(** What an ended run with [--stop] did. *)
Lemma down_stop_cases cfg io d : DownCmd_Run (Ok cfg) true io = Some d ->
  exists signalled pid r,
    PidFile.Stop (di_pid io) (di_read io) (di_probe io) (di_kill0 io) (di_kill io) (di_polls io) (di_now io) (di_clock io) daemonStopWait =
      (signalled, (pid, Some r)) /\
    ((d = tear_down cfg io signalled /\ forall e, r = Err e -> errors_Is e "daemon.ErrNotRunning" = true) \/
     (dn_deleted d = false /\ dn_hosts d = di_hosts io /\ is_ok (dn_result d) = false)).
Proof.
  unfold DownCmd_Run. cbn [negb]. destruct (PidFile.Stop _ _ _ _ _ _ _ _ _) as [signalled [pid [[[]|e]|]]]; [| |done].
  - intros [= <-]. exists signalled, pid, (Ok tt). split; [done|]. left. by split.
  - destruct (errors_Is e _) eqn:E; intros [= <-]; exists signalled, pid, (Err e); (split; [done|]); [left|right; done].
    split; [done|]. by intros e' [= <-].
Qed.

End down_laws.

(** ** Samples *)
Section samples.
#[local] Existing Instances toy_crypto ascii_tables.

Definition spawned (pid : Z) : SpawnIo :=
  {| sw_exe := Ok tt; sw_devnull := Ok tt; sw_start := Ok pid; sw_io := all_well; sw_release := Ok tt |}.

Lemma daemon_lifecycle_witness :
  let s1 := (daemon_Start all_well (spawned 4711) 1 100 no_pid_file).2 in
  ReadPID s1 all_well = Ok 4711 /\
  exists i s2, AcquirePIDFile all_well 2 0 4711 s1 = (inl i, s2) /\
    (Stop all_well s2 s2 (fun _ => Ok tt) (fun _ => Ok tt) (fun _ _ => Err (Sentinel "syscall.ESRCH")) 0 (fun _ => 0) Second).1 = Some 4711.
Proof.
  destruct (daemon_lifecycle all_well (spawned 4711) 1 100 no_pid_file 4711 None
    (daemon_Start all_well (spawned 4711) 1 100 no_pid_file).2 2) as (_ & Hr & _ & i & s2 & Ha & _ & _ & _ & Hs).
  - reflexivity.
  - unfold max_int64. lia.
  - reflexivity.
  - reflexivity.
  - reflexivity.
  - split; [exact Hr|]. exists i, s2. split; [exact Ha|]. by apply Hs.
Defined.

(** A daemon that goes after two polls; beside the network's entries the hosts file
    has a line of its own. *)
Definition daemon_running : PidSys := default no_pid_file (sys_flock 1 0 crashed).
Definition mixed_hosts : string :=
  "127.0.0.1 localhost" +:+ Hosts.newline +:+ marked_block "tincan0" ("10.7.0.9 old.vpn" +:+ Hosts.newline) +:+ "# the end".
Definition down_io : DownIo := {|
  di_pid := all_well; di_read := daemon_running; di_probe := daemon_running; di_kill0 := fun _ => Ok tt; di_kill := fun _ => Ok tt;
  di_polls := fun i _ => if (i <? 2)%nat then Ok tt else Err (Sentinel "syscall.ESRCH"); di_now := 0; di_clock := fun i => Z.of_nat i * pollInterval; di_find := Ok tt; di_del := Ok tt;
  di_hosts_io := Ok tt; di_hosts := RegularFile mixed_hosts 420 |}.

End samples.
