(* ===== verification/Root.v ===== *)
(** * Root: the program's entry (internal/cli/root.go and internal/version)

    [run_args]: the command line is parsed, the configuration's path made absolute, the
    command run, and its outcome turned into an exit code and what is printed.  The
    parser is an argument: what it makes of the arguments. *)
From stdpp Require Import base tactics option list strings.
From Stdlib Require Import Ascii ZArith Lia.
From S2P Require Import Prelude GoStrings GoNum Ui StatePaths DnsManager UpDown.
Open Scope Z_scope.

(** ** internal/version *)

Record Version := { v_Version : string; v_Commit : string; v_Date : string }.
Definition unversioned : Version := {| v_Version := "dev"; v_Commit := "unknown"; v_Date := "unknown" |}.

(** What the build recorded of the checkout. *)
Definition setting (k : string) (settings : list (string * string)) : string :=
  fold_left (fun v kv => if String.eqb (fst kv) k then snd kv else v) settings "".

(** [init]: [linked] is what the linker was told, [info] the settings of the build. *)
Definition version_init (linked : Version) (info : option (list (string * string))) : Version :=
  if negb (String.eqb (v_Version linked) "dev") then linked else
  match info with
  | None => linked
  | Some settings =>
      let revision := setting "vcs.revision" settings in
      let vcsTime := setting "vcs.time" settings in
      let modified := String.eqb (setting "vcs.modified" settings) "true" in
      let known := negb (String.eqb revision "") in
      {| v_Version := if known then string_take 7 revision +:+ (if modified then "-dirty" else "") else v_Version linked;
         v_Commit := if known then revision else v_Commit linked;
         v_Date := if negb (String.eqb vcsTime "") then vcsTime else v_Date linked |}
  end.

Example version_of_build :
  version_init unversioned (Some [("vcs.revision", "0123456789abcdef"); ("vcs.time", "2024-02-29T12:00:00Z"); ("vcs.modified", "true")]) =
  {| v_Version := "0123456-dirty"; v_Commit := "0123456789abcdef"; v_Date := "2024-02-29T12:00:00Z" |}.
Proof. reflexivity. Qed.

Definition VersionCmd_Run (p : printer) (v : Version) : string :=
  style p ansiBold ("tincan " +:+ v_Version v) +:+ newline +:+ pairs p [kv "commit" (v_Commit v); kv "date" (v_Date v)].

(** ** root.go *)

Section run.
(** The commands, and what each does with the path of a configuration: what it
    prints, and its error. *)
Context {Command : Type} `{ErrorText}.
Variable command_Run : Command -> string -> string * result unit.

(** The parser: whether it can be built, the usage it prints when there are no
    arguments, and the command and the path it reads in them. *)
Record Parser := {
  ps_New : result unit;
  ps_Usage : result string;
  ps_Parse : list string -> result (Command * string) }.

Record Exit := { ex_code : Z; ex_stdout : string; ex_stderr : string; ex_ran : option (Command * string) }.

Definition refuse (e : error) : Exit := {| ex_code := 2; ex_stdout := ""; ex_stderr := error_Error e +:+ newline; ex_ran := None |}.

Definition run_args (parser : Parser) (perr : printer) (cwd : result string) (args : list string) : Exit :=
  match ps_New parser with
  | Err e => refuse e
  | Ok _ =>
      match args with
      | [] =>
          match ps_Usage parser with
          | Err e => refuse e
          | Ok usage => {| ex_code := 0; ex_stdout := usage; ex_stderr := ""; ex_ran := None |}
          end
      | _ =>
          match ps_Parse parser args with
          | Err e => refuse e
          | Ok (cmd, config) =>
              match absolute_config cwd config with
              | Err e => refuse e
              | Ok config =>
                  let '(out, r) := command_Run cmd config in
                  match r with
                  | Err e => {| ex_code := 1; ex_stdout := out; ex_stderr := fail perr (error_Error e); ex_ran := Some (cmd, config) |}
                  | Ok _ => {| ex_code := 0; ex_stdout := out; ex_stderr := ""; ex_ran := Some (cmd, config) |}
                  end
              end
          end
      end
  end.

Lemma absolute_config_absolute cwd config path : (forall wd, cwd = Ok wd -> strings_HasPrefix wd "/" = true) ->
  absolute_config cwd config = Ok path -> path = "" \/ strings_HasPrefix path "/" = true.
Proof.
  intros Hwd. unfold absolute_config. destruct (String.eqb_spec config "") as [->|Hne]; cbn [negb andb]; [intros [= <-]; by left|].
  destruct (strings_HasPrefix config "/") eqn:Ep; cbn [negb]; [intros [= <-]; by right|].
  intros (wd & Hw & [= <-])%bind_Ok. right. specialize (Hwd wd Hw). unfold filepath_Join.
  unfold strings_HasPrefix in Hwd. destruct (strings_CutPrefix "/" wd) as [r|] eqn:Er; [|done].
  apply CutPrefix_Some in Er as ->. reflexivity.
Qed.

Lemma newline_ends s : s +:+ newline <> "".
Proof. by destruct s. Qed.

(** The exit code tells what happened: 2 when no command was run for want of a
    readable command line or path, 1 when the command failed, 0 when it succeeded or
    the usage was asked for; a command gets the path of a configuration as an absolute
    one, and nothing is added on the standard error but of a failure. *)
Theorem exit_codes parser perr cwd args : (forall wd, cwd = Ok wd -> strings_HasPrefix wd "/" = true) ->
  let x := run_args parser perr cwd args in
  (ex_code x = 0 <-> ex_stderr x = "") /\
  match ex_ran x with
  | None => ex_code x = 0 \/ ex_code x = 2
  | Some (cmd, config) => (config = "" \/ strings_HasPrefix config "/" = true) /\ ex_stdout x = fst (command_Run cmd config) /\
      (ex_code x = 0 /\ snd (command_Run cmd config) = Ok tt \/
       ex_code x = 1 /\ exists e, snd (command_Run cmd config) = Err e /\ ex_stderr x = fail perr (error_Error e))
  end.
Proof.
  intros Hwd x. unfold x, run_args. assert (Hr : forall e, (ex_code (refuse e) = 0 <-> ex_stderr (refuse e) = "") /\
    (ex_code (refuse e) = 0 \/ ex_code (refuse e) = 2)).
  { intros e. split; [|by right]. split; [done|]. intros E. by apply newline_ends in E. }
  destruct (ps_New parser) as [[]|e0]; [|split; apply Hr]. destruct args as [|arg args].
  { destruct (ps_Usage parser) as [u|e1]; [split; [done|by left]|split; apply Hr]. }
  destruct (ps_Parse parser (arg :: args)) as [[cmd config]|e]; [|split; apply Hr].
  destruct (absolute_config cwd config) as [path|e] eqn:Ea; [|split; apply Hr]. apply absolute_config_absolute in Ea; [|done].
  destruct (command_Run cmd path) as [out [[]|e]] eqn:Ec; cbn [ex_code ex_stderr ex_stdout ex_ran]; rewrite Ec; cbn [fst snd].
  - split; [done|]. split; [done|]. split; [done|]. by left.
  - split; [|split; [done|split; [done|right; by eauto]]]. split; [done|]. unfold fail. intros E. exfalso. revert E.
    rewrite !string_app_assoc. apply newline_ends.
Qed.
End run.
