(* ===== verification/Commands.v ===== *)
(** * Commands: everything that shares a state directory

    The publishing discipline of every command of Admin, Enroll and Join, and
    the theorems over any interleaving of them; then what the membership
    commands do to the directory. *)
From stdpp Require Import base tactics option list strings gmap.
From Stdlib Require Import Ascii ZArith Lia.
From S2P Require Import Prelude GoStrings GoNum GoNet GoBase64 Keys Directory DnsName IpAlloc Validate Wire Toy Codec Relay Observe Discovery Schema Bech32 Nostr Config StateJson Cache Bootstrap Drop Peers Manager Hosts DnsManager Prog Admin Enroll Join Daemon.
Open Scope Z_scope.
Open Scope act_scope.

Section discipline.
Context `{CryptoLib} `{UnicodeTables} `{Msgpack} `{Secp} `{UrlLib} `{!CryptoLaws} `{!MsgpackLaws}.

Lemma write_artifacts_disciplined png conf txt : disciplined (write_artifacts png conf txt).
Proof. unfold write_artifacts. disc. Qed.

Lemma serial_ok_nodes d ns : serial_ok d -> serial_ok (set_dir_Nodes ns d).
Proof. done. Qed.

Lemma fetchAdmin_then cfg {A} (f : Directory -> Act A) :
  (forall d, sound_dir d -> disciplined (f d)) -> disciplined (d <- fetchAdminDirectory cfg ;; f d).
Proof. apply disciplined_bind_yields; [apply fetchAdminDirectory_disciplined|apply fetchAdminDirectory_sound]. Qed.

Lemma AddNode_disciplined cfg c : disciplined (AddNodeCmd_Run cfg c).
Proof.
  unfold AddNodeCmd_Run. apply disciplined_bind; [disc|]. intros _. apply disciplined_bind; [disc|]. intros port. cbv zeta.
  apply disciplined_bind; [apply admin_start_disciplined|]. intros cf. apply fetchAdmin_then. intros d [_ Hd].
  apply disciplined_bind; [disc|]. intros _. apply disciplined_bind; [disc|]. intros _.
  apply disciplined_bind; [disc|]. intros _.
  apply disciplined_bind; [unfold addnode_wg_key; disc|]. intros [pub priv].
  apply disciplined_bind; [unfold addnode_age_key; disc|]. intros [rcpt id].
  apply disciplined_bind; [disc|]. intros _. apply disciplined_bind; [disc|]. intros hub.
  apply disciplined_bind; [disc|]. intros ip.
  apply disciplined_bind; [destruct (String.eqb _ _); [apply write_artifacts_disciplined|disc]|]. intros _.
  apply disciplined_bind; [by apply saveAdminDirectory_disciplined|]. intros d'.
  unfold emitQRTerminal. disc.
Qed.

Lemma RemoveNode_disciplined cfg name np : disciplined (RemoveNodeCmd_Run cfg name np).
Proof.
  unfold RemoveNodeCmd_Run. apply disciplined_bind; [apply admin_start_disciplined|]. intros cf.
  apply fetchAdmin_then. intros d [_ Hd]. apply disciplined_bind; [disc|]. intros [n i].
  apply disciplined_bind; [by apply saveAdminDirectory_disciplined|]. intros d'. disc.
Qed.

Lemma domain_edit_serial domain clear d d' : domain_edit domain clear d = Ok d' -> dir_Serial d' = dir_Serial d.
Proof.
  unfold domain_edit. destruct clear; [by intros [= <-]|]. cbv zeta. by intros (u & _ & (v & _ & [= <-])%bind_Ok)%bind_Ok.
Qed.

Lemma SetDomain_disciplined cfg domain clear np : disciplined (SetDomainCmd_Run cfg domain clear np).
Proof.
  unfold SetDomainCmd_Run. apply disciplined_bind; [disc|]. intros _.
  destruct (negb (nonempty domain) && negb clear).
  - unfold loadReadDrop, fetchDirectory. disc.
  - apply disciplined_bind; [apply admin_start_disciplined|]. intros cf. apply fetchAdmin_then. intros d [_ Hd].
    eapply (disciplined_bind_yields serial_ok); [disc| |].
    { apply yields_lift. intros d' E. unfold serial_ok. by rewrite (domain_edit_serial _ _ _ _ E). }
    intros d' Hd'. apply disciplined_bind; [by apply saveAdminDirectory_disciplined|]. intros d''. disc.
Qed.

Lemma RenderNode_disciplined cfg c : disciplined (RenderNodeCmd_Run cfg c).
Proof.
  unfold RenderNodeCmd_Run. apply disciplined_bind; [disc|]. intros _. apply disciplined_bind; [disc|]. intros cf.
  apply disciplined_bind; [unfold loadReadDrop; disc|]. intros _.
  apply disciplined_bind; [apply fetchDirectory_disciplined|]. intros d.
  apply disciplined_bind; [disc|]. intros txt.
  apply disciplined_bind; [apply write_artifacts_disciplined|]. intros _. unfold emitQRTerminal. disc.
Qed.

Lemma MergeObservations_serial dir peers now fresh pushed d ch :
  MergeObservations dir peers now fresh pushed = (d, ch) -> dir_Serial d = dir_Serial dir.
Proof.
  unfold MergeObservations. repeat case_match; intros [= <- <-]; try done.
Qed.

Lemma Observation_disciplined cfg serial pushed : disciplined (runAdminObservation cfg serial pushed).
Proof.
  unfold runAdminObservation. apply disciplined_bind; [disc|]. intros _. apply disciplined_bind; [disc|]. intros _.
  apply disciplined_bind; [apply loadAdminDrop_disciplined|]. intros _.
  eapply disciplined_bind_yields; [apply disciplined_attempt, fetchDirectory_disciplined|apply yields_attempt, fetchDirectory_sound|].
  intros r Hr. eapply (disciplined_bind_yields sound_dir); [disc| |].
  { apply yields_lift. intros d Hd%wrap_err_Ok. by apply Hr. }
  intros remote [_ Hrem]. apply disciplined_bind; [disc|]. intros _. apply disciplined_bind; [disc|]. intros src.
  apply disciplined_bind; [disc|]. intros source. apply disciplined_bind; [unfold pendingAdminChanges; disc|].
  intros [|]; [disc|]. apply disciplined_bind; [disc|]. intros peers. apply disciplined_bind; [disc|]. intros now.
  destruct (MergeObservations _ _ _ _ _) as [updated changed] eqn:Em. apply MergeObservations_serial in Em.
  destruct changed; [|disc]. cbn [negb].
  eapply disciplined_bind_yields; [apply preparePublishSerial_disciplined| |].
  { apply preparePublishSerial_ok; [unfold serial_ok; by rewrite Em|]. by intros ? [= <-]. }
  intros d Hd. by apply publishDirectory_disciplined.
Qed.

Lemma Iteration_disciplined `{ErrorText} resolve cfg d k clk io hosts dns :
  disciplined (runDaemonIteration resolve cfg d k clk io hosts dns).
Proof.
  intros tok. unfold runDaemonIteration. apply obeys_bind; [apply runSyncOnce_disciplined|].
  intros [res|e] tok1; [|done]. cbv zeta. destruct (findSelf cfg (sr_Directory res)) as [self|e]; [|done].
  destruct (rc_result _) as [dec|e]; [|done]. destruct (hosts_sync _ _ _ _ _) as [warn h].
  match goal with |- obeys _ (match _ with Some st => Vis _ (fun _ => ?p) | None => _ end) => assert (Hp : disciplined p) end.
  { destruct (observe_IsEnabled (c_Observe cfg)); [|by intros tok2].
    intros tok2. apply obeys_bind; [apply Observation_disciplined|]. intros [u|e] tok3; [done|].
    by destruct (bool_decide _). }
  destruct (d_lanStore _); [|apply Hp]. split; [done|]. intros x _. apply Hp.
Qed.

Lemma UpOnce_disciplined `{ErrorText} resolve cfg ns k t1 t2 io hosts : disciplined (runUpOnce resolve cfg ns k t1 t2 io hosts).
Proof.
  intros tok. unfold runUpOnce. cbv zeta. destruct ns; [by split|]. apply obeys_bind; [apply runSyncOnce_disciplined|].
  by intros [res|e] tok1.
Qed.

Lemma Init_disciplined ex sk sv path c : disciplined (InitCmd_Run ex sk sv path c).
Proof.
  unfold InitCmd_Run, init_keys. disc. by apply disciplined_update.
Qed.

Lemma resolveKeys_disciplined c bs e : disciplined (resolveKeys c bs e).
Proof. unfold resolveKeys, readPrivateKey. disc. Qed.

Lemma Join_disciplined ex file prev sv path c :
  (forall b, file = Ok b -> 0 <= bs_Serial b < 2 ^ 64) -> disciplined (JoinCmd_Run ex file prev sv path c).
Proof.
  intros Hfile. unfold JoinCmd_Run. apply disciplined_bind; [disc|]. intros e. apply disciplined_bind; [disc|]. intros _.
  eapply (disciplined_bind_yields (fun r => forall b, r.1.1.1 = Some b -> 0 <= bs_Serial b < 2 ^ 64)); [disc| |].
  { apply yields_lift. intros [[[bs dc] pub] name] ([[[bs' dc'] pub'] name'] & Hj & [_ [= <- <- <- <-]]%guard_err_Ok)%bind_Ok.
    destruct (nonempty (jn_Bootstrap c)).
    - apply bind_Ok in Hj as (b & Hb & [= <- <- <- <-]). intros b' [= <-]. by apply Hfile.
    - by apply guard_err_Ok in Hj as [_ [= <- <- <- <-]]. }
  intros [[[bs dc] pub] name] Hbs. cbn in Hbs. apply disciplined_bind; [disc|]. intros ex'.
  apply disciplined_bind; [apply resolveKeys_disciplined|]. intros k. apply disciplined_bind; [disc|]. intros data.
  apply disciplined_bind; [disc|]. intros _. apply disciplined_bind; [|intros _; disc].
  destruct bs as [b|]; [|disc]. destruct (0 <? bs_Serial b); [|disc]. apply disciplined_update, Hbs. done.
Qed.
End discipline.

(** ** The whole system *)

Section system.
Context `{CryptoLib} `{UnicodeTables} `{Msgpack} `{Secp} `{UrlLib} `{!CryptoLaws} `{!MsgpackLaws}.

Definition then_done {A} (m : Act A) : Act unit := _ <- m ;; done_ tt.

(** The programs that run against one state directory: the commands, and the
    iteration of the daemon with the sync, the observation and the discovery
    snapshot it is made of. *)
Inductive command : Act unit -> Prop :=
  | RunPublish cfg force : command (PublishCmd_Run cfg force)
  | RunSync cfg : command (SyncCmd_Run cfg)
  | RunAddNode cfg c : command (AddNodeCmd_Run cfg c)
  | RunRemoveNode cfg name noPublish : command (RemoveNodeCmd_Run cfg name noPublish)
  | RunSetDomain cfg domain clear noPublish : command (SetDomainCmd_Run cfg domain clear noPublish)
  | RunRenderNode cfg c : command (RenderNodeCmd_Run cfg c)
  | RunObservation cfg serial pushedAt : command (runAdminObservation cfg serial pushedAt)
  | RunInit ex sk save path c : command (then_done (InitCmd_Run ex sk save path c))
  | RunJoin ex file previous save path c :
      (forall b, file = Ok b -> 0 <= bs_Serial b < 2 ^ 64) ->
      command (then_done (JoinCmd_Run ex file previous save path c))
  | RunIteration (text : ErrorText) resolve cfg d k clk io hosts dns :
      command (prog_bind (fun it => Ret (it_result it)) (runDaemonIteration resolve cfg d k clk io hosts dns))
  | RunUp (text : ErrorText) resolve cfg noSync k now t_merge io hosts :
      command (prog_bind (fun out => Ret (out.2)) (runUpOnce resolve cfg noSync k now t_merge io hosts))
  | RunSnapshot now snapshot : command (call (Update (OpDiscovery now snapshot))).

Lemma then_done_disciplined {A} (m : Act A) : disciplined m -> disciplined (then_done m).
Proof. intros Hm. apply disciplined_bind; [done|]. intros a. apply disciplined_done. Qed.

Lemma command_disciplined p : command p -> disciplined p.
Proof.
  destruct 1; auto using PublishCmd_disciplined, SyncCmd_disciplined, AddNode_disciplined, RemoveNode_disciplined,
    SetDomain_disciplined, RenderNode_disciplined, Observation_disciplined, then_done_disciplined, Init_disciplined,
    Join_disciplined.
  - intros tok. apply obeys_bind; [apply Iteration_disciplined|]. by intros it tok'.
  - intros tok. apply obeys_bind; [apply UpOnce_disciplined|]. by intros it tok'.
  - by apply disciplined_update.
Qed.

(** A run of one program, as steps of the system. *)
Lemma exec_steps (p : Act unit) : forall w a w' ps,
  exec p w a w' -> rtc (sys_step command) {| s_world := w; s_procs := p :: ps |} {| s_world := w'; s_procs := Ret a :: ps |}.
Proof.
  induction p as [b|X e k IH]; intros w a w' ps; cbn [exec].
  - intros [-> ->]. apply rtc_refl.
  - intros (x & w1 & Ha & Hk). eapply rtc_l; [exact (Step _ _ [] _ _ _ _ _ _ Ha)|]. by apply IH.
Qed.

Lemma command_steps p w a w' : command p -> exec p w a w' ->
  rtc (sys_step command) {| s_world := w; s_procs := [] |} {| s_world := w'; s_procs := [Ret a] |}.
Proof. intros Hp Hx. eapply rtc_l; [by apply Spawn|]. by apply exec_steps. Qed.

(** C3: however many commands and daemon passes share a state directory,
    whatever the drop answers, wherever writes stop or programs die: no two
    uploads carry the same serial, every upload is a sealed blob of its
    directory, and the reserved mark is at or above every uploaded serial. *)
Theorem published_serials_unique sd s :
  rtc (sys_step command) (sys_start sd) s ->
  NoDup (serials (w_uploads (s_world s))) /\ Forall sealed (w_uploads (s_world s)) /\
  forall u, u ∈ w_uploads (s_world s) ->
    exists m, ReadPublishSerial (w_dir (s_world s)) = Ok m /\ dir_Serial (fst u) <= m.
Proof.
  intros Hrun. destruct (sys_reserved command _ _ command_disciplined Hrun) as [(toks & _ & Hd & Hz) Hs].
  split; [by apply NoDup_app in Hd as (_ & _ & ?)|]. split; [done|]. intros u Hu. apply Hz, elem_of_app. right.
  apply list_elem_of_fmap. by exists u.
Qed.

Lemma sys_marks s s' :
  rtc (sys_step command) s s' -> well_reserved s -> cache_steps (w_dir (s_world s)) (w_dir (s_world s')).
Proof.
  induction 1 as [s|a b c Hst _ IH]; intros Ha; [apply rtc_refl|].
  pose proof (step_reserved _ _ _ command_disciplined Hst Ha) as Hb.
  etrans; [exact (step_cache _ _ _ command_disciplined Hst Ha)|]. by apply IH.
Qed.

(** In every interleaving, the rollback mark a client reads never goes down. *)
Theorem rollback_mark_monotone sd s s' m :
  rtc (sys_step command) (sys_start sd) s -> rtc (sys_step command) s s' ->
  ReadSerial (w_dir (s_world s)) = Ok m ->
  exists m', ReadSerial (w_dir (s_world s')) = Ok m' /\ m <= m'.
Proof.
  intros Hs Hs' Hm. pose proof (sys_marks _ _ Hs' (sys_reserved _ _ _ command_disciplined Hs)) as Hst.
  clear Hs'. revert m Hm. induction Hst as [x|a b c Hab _ IH]; intros m Hm; [exists m; split; [done|lia]|].
  destruct (step_monotone _ _ Hab) as [Hr _]. destruct (Hr _ Hm) as (m1 & Hm1 & ?).
  destruct (IH _ Hm1) as (m2 & ? & ?). exists m2. split; [done|lia].
Qed.
End system.

(** ** What an admin edit does

    The contract of every membership command: start from the right copy, apply
    the edit, and either keep it in the working copy or publish it under a new
    serial. *)
Section edits.
Context `{CryptoLib} `{UnicodeTables} `{Msgpack} `{Secp} `{UrlLib} `{!CryptoLaws} `{!MsgpackLaws}.

Definition stored_source (dir : Directory) (sd : StateDir) : Prop :=
  exists now p, MarshalPlain now dir = Ok p /\ sd_Source sd = Content p.

(** The edited directory [dir] went out as [d]. *)
Definition published (cfg : Config) (w : World) (dir d : Directory) (w' : World) : Prop :=
  (exists now, d = set_dir_CreatedAt (Stamp now) (set_dir_Serial (dir_Serial d) dir)) /\
  dir_Serial dir < dir_Serial d /\
  (forall m, ReadSerial (w_dir w) = Ok m -> m < dir_Serial d) /\
  (forall m, ReadPublishSerial (w_dir w) = Ok m -> m < dir_Serial d) /\
  (exists now seed blob, Seal now seed d (dc_PublisherKey (c_Directory cfg)) = Ok blob /\
     w_uploads w' = w_uploads w ++ [(d, blob)]) /\
  ReadSerial (w_dir w') = Ok (dir_Serial d) /\ ReadPublishSerial (w_dir w') = Ok (dir_Serial d) /\
  w_boots w' = w_boots w ++ [(DefaultPath, Network cfg (dir_Serial d))].

Definition saved (cfg : Config) (noPublish : bool) (w : World) (dir d : Directory) (w' : World) : Prop :=
  stored_source d (w_dir w') /\ ValidDirectory d /\
  if noPublish
  then d = dir /\ w_uploads w' = w_uploads w /\ w_boots w' = w_boots w /\
       ReadSerial (w_dir w') = ReadSerial (w_dir w)
  else published cfg w dir d w'.

(** The abstract edit transaction: [edit base dir] relates the copy it starts
    from to the directory it means to save. *)
Definition admin_edit (cfg : Config) (noPublish : bool) (edit : Directory -> Directory -> Prop)
    (w w' : World) (d : Directory) : Prop :=
  exists base dir, edit_base cfg (w_dir w) base /\ sound_dir base /\ edit base dir /\
    saved cfg noPublish w dir d w'.

Lemma update_Ok w op u w' : answer w (Update op) (Ok u) w' ->
  exists plan, op_plan (w_dir w) op = Ok plan /\ w' = set_w_dir (run_plan (w_dir w) plan) w.
Proof.
  intros (sd' & Ho & ->). unfold update_outcome in Ho. destruct (op_plan (w_dir w) op) as [plan|e]; [|by destruct Ho].
  exists plan. split; [done|]. destruct Ho as [(_ & _ & ->)|(n & e & [=] & _)]. done.
Qed.

Lemma marshal_valid now dir p :
  dir_SchemaVersion dir = SchemaVersion -> MarshalPlain now dir = Ok p -> ValidDirectory dir.
Proof.
  intros Hv. unfold MarshalPlain. cbv zeta. intros ([] & Hc%Validate_spec & _)%bind_Ok. destruct dir. cbn in *. by subst.
Qed.

Lemma exec_reserve w s u w' : 0 <= s < 2 ^ 64 -> answer w (Update (OpReserve s)) (Ok u) w' ->
  w_uploads w' = w_uploads w /\ w_boots w' = w_boots w /\ ReadSerial (w_dir w') = ReadSerial (w_dir w) /\
  ReadPublishSerial (w_dir w') = Ok s.
Proof.
  intros Hs (plan & Hp & ->)%update_Ok. cbn [op_plan] in Hp. unfold ReservePublishSerial in Hp.
  apply read_cases in Hp as [-> _]. destruct (w_dir w). split_and!; try done. by apply readSerial_text.
Qed.

Lemma exec_write w now dir u w' : serial_ok dir -> answer w (Update (OpWrite now dir "")) (Ok u) w' ->
  w_uploads w' = w_uploads w /\ w_boots w' = w_boots w /\ ReadSerial (w_dir w') = Ok (dir_Serial dir) /\
  ReadPublishSerial (w_dir w') = ReadPublishSerial (w_dir w) /\ sd_Source (w_dir w') = sd_Source (w_dir w).
Proof.
  intros Hs (plan & Hp & ->)%update_Ok. cbn [op_plan] in Hp. unfold Write in Hp.
  apply bind_Ok in Hp as (p & _ & Hp). cbv zeta in Hp. apply read_cases in Hp as [-> _]. cbn [set_w_dir w_dir w_uploads w_boots].
  destruct (run_write (w_dir w) (serial_text (dir_Serial dir)) p {| state_LastSync := now; state_LastETag := ""; state_Serial := dir_Serial dir |})
    as [f ->]. destruct (w_dir w). split_and!; try done. by apply readSerial_text.
Qed.

Lemma exec_source w now dir u w' : answer w (Update (OpSource now dir)) (Ok u) w' ->
  w_uploads w' = w_uploads w /\ w_boots w' = w_boots w /\ ReadSerial (w_dir w') = ReadSerial (w_dir w) /\
  ReadPublishSerial (w_dir w') = ReadPublishSerial (w_dir w) /\
  exists p, MarshalPlain now dir = Ok p /\ sd_Source (w_dir w') = Content p.
Proof.
  intros (plan & Hp & ->)%update_Ok. cbn [op_plan] in Hp. unfold WriteSource in Hp.
  apply bind_Ok in Hp as (p & Hp & [= <-]). destruct (w_dir w). split_and!; try done. by exists p.
Qed.

(** Takes a run of [m ;; k] apart, one step per argument pattern. *)
Ltac step Hx := apply exec_act_bind_Ok in Hx.

Lemma exec_called {A} (e : Eff (result A)) w r w' : exec (call e) w r w' -> answer w e r w'.
Proof. apply exec_call. Qed.

Lemma exec_publish cfg dir w u w' : serial_ok dir -> exec (publishDirectory cfg dir true) w (Ok u) w' ->
  (exists now seed blob, Seal now seed dir (dc_PublisherKey (c_Directory cfg)) = Ok blob /\
     w_uploads w' = w_uploads w ++ [(dir, blob)]) /\
  ReadSerial (w_dir w') = Ok (dir_Serial dir) /\ ReadPublishSerial (w_dir w') = Ok (dir_Serial dir) /\
  w_boots w' = w_boots w ++ [(DefaultPath, Network cfg (dir_Serial dir))] /\ stored_source dir (w_dir w').
Proof.
  intros Hd Hx. unfold publishDirectory in Hx.
  step Hx. destruct Hx as (now & w1 & ->%exec_ask_Ok & Hx). step Hx. destruct Hx as (seed & w1 & ->%exec_ask_Ok & Hx).
  step Hx. destruct Hx as (blob & w1 & [Hseal ->]%exec_lift_Ok & Hx).
  step Hx. destruct Hx as (t1 & w1 & Hr%exec_called & Hx).
  apply exec_reserve in Hr as (U1 & B1 & _ & P1); [|done].
  step Hx. destruct Hx as (t2 & w2 & Hput%exec_called & Hx). cbn [answer] in Hput. subst w2.
  step Hx. destruct Hx as (now2 & w2 & ->%exec_ask_Ok & Hx).
  step Hx. destruct Hx as (t3 & w2 & Hw%exec_called & Hx).
  apply exec_write in Hw as (U2 & B2 & S2 & P2 & _); [|done].
  step Hx. destruct Hx as (t4 & w3 & Hsrc & Hx). step Hsrc. destruct Hsrc as (now3 & w4 & ->%exec_ask_Ok & Hsrc).
  apply exec_called, exec_source in Hsrc as (U3 & B3 & S3 & P3 & p & Hp & Hf).
  apply exec_called in Hx. destruct u. cbn [answer is_ok] in Hx. subst w'.
  cbn [w_uploads w_dir w_boots add_upload add_boot] in *.
  split; [exists now, seed, blob; split; [done|by rewrite U3, U2, U1]|].
  split_and!; [congruence|congruence|by rewrite B3, B2, B1|]. by exists now3, p.
Qed.

Lemma fetch_world cfg w r w' : exec (fetchDirectory cfg) w r w' -> w' = w.
Proof.
  unfold fetchDirectory, act_bind. intros (b & w1 & Hg%exec_called & Hx)%exec_bind. cbn [answer] in Hg. subst w1.
  destruct b; by destruct Hx.
Qed.

Lemma fetch_sound cfg w r w' d : exec (fetchDirectory cfg) w r w' -> r = Ok d -> sound_dir d.
Proof. intros Hx. exact (exec_ensures _ _ (fetchDirectory_sound cfg) _ _ _ Hx d). Qed.

Lemma saved_spec cfg dir np w d w' :
  serial_ok dir -> dir_SchemaVersion dir = SchemaVersion ->
  exec (saveAdminDirectory cfg dir np) w (Ok d) w' -> saved cfg np w dir d w'.
Proof.
  intros Hd Hv Hx. unfold saveAdminDirectory in Hx. destruct np.
  - step Hx. destruct Hx as (now & w1 & ->%exec_ask_Ok & Hx).
    step Hx. destruct Hx as (t5 & w1 & (U & B & S & _ & p & Hp & Hf)%exec_called%exec_source & Hx).
    destruct Hx as [[= ->] ->]. split; [by exists now, p|]. split; [by eapply marshal_valid|]. done.
  - step Hx. destruct Hx as (remote & w1 & Hf & Hx). apply (proj1 (exec_attempt_Ok _ _ _ _)) in Hf.
    pose proof (fetch_world _ _ _ _ Hf) as ->.
    step Hx. destruct Hx as (d1 & w1 & Hprep & Hx).
    apply preparePublishSerial_spec in Hprep as (-> & Hs & (L1 & _ & L3 & L4) & _ & now & Hst); [|done|].
    2: { intros r ->. by apply (fetch_sound _ _ _ _ _ Hf). }
    step Hx. destruct Hx as (u & w1 & Hpub & [[= ->] ->]).
    apply exec_publish in Hpub as (Hup & HS & HP & HB & Hsrc); [|done]. split; [done|]. split; [|by split_and!; eauto].
    destruct Hsrc as (n & p & Hm & _). eapply marshal_valid; [|exact Hm]. by rewrite Hst.
Qed.

Lemma exec_admin_start cfg w c w' : exec (admin_start cfg) w (Ok c) w' -> w' = w /\ cfg = Ok c /\ RequireAdmin c = Ok tt.
Proof.
  unfold admin_start, loadAdminDrop. intros Hx. step Hx. destruct Hx as (cf & w1 & [-> ->]%exec_lift_Ok & Hx).
  step Hx. destruct Hx as (t6 & w1 & [Hr ->]%exec_lift_Ok & Hx). step Hx. destruct Hx as (u1 & w1 & Hl%exec_called & Hx).
  cbn [answer] in Hl. subst w1. step Hx. destruct Hx as (u2 & w1 & Hd & Hx). step Hd.
  destruct Hd as (u3 & w2 & [_ ->]%exec_check_Ok & Hd%exec_called). cbn [answer] in Hd. subst w1.
  destruct Hx as [[= ->] ->]. by destruct t6.
Qed.

(** The shape the three commands share. *)
Lemma exec_edit {A} cfg (f : Config -> Directory -> Act A) w a w' :
  exec (c <- admin_start cfg ;; d <- fetchAdminDirectory c ;; f c d) w (Ok a) w' ->
  exists c base, cfg = Ok c /\ RequireAdmin c = Ok tt /\ edit_base c (w_dir w) base /\ sound_dir base /\ exec (f c base) w (Ok a) w'.
Proof.
  intros Hx. step Hx. destruct Hx as (c & w1 & (-> & -> & Hadm)%exec_admin_start & Hx).
  step Hx. destruct Hx as (base & w1 & (-> & Hs & Hb)%exec_fetchAdmin & Hx). by exists c, base.
Qed.

(** *** removenode.go *)

Lemma node_by_name_Some nodes name : forall i n k,
  node_by_name nodes name i = Some (n, k) ->
  exists l1 l2, nodes = l1 ++ n :: l2 /\ node_Name n = name /\ k = (i + length l1)%nat.
Proof.
  induction nodes as [|x nodes IH]; intros i n k; [done|]. cbn [node_by_name].
  destruct (String.eqb_spec (node_Name x) name) as [E|E].
  - intros [= <- <-]. exists [], nodes. split_and!; [done|done|simpl; lia].
  - intros (l1 & l2 & -> & Hn & ->)%IH. exists (x :: l1), l2. split_and!; [done|done|simpl; lia].
Qed.

Lemma node_by_name_None nodes name : forall i, node_by_name nodes name i = None -> name ∉ node_Name <$> nodes.
Proof.
  induction nodes as [|x nodes IH]; intros i; cbn [node_by_name]; [intros _; apply not_elem_of_nil|].
  destruct (String.eqb_spec (node_Name x) name) as [E|E]; [done|]. intros Hn%IH.
  rewrite fmap_cons, not_elem_of_cons. split; [congruence|done].
Qed.

(** [dir] is [base] without its node [name]. *)
Definition node_removed (name : string) (base dir : Directory) : Prop :=
  exists l1 n l2, dir_Nodes base = l1 ++ n :: l2 /\ node_Name n = name /\ dir = set_dir_Nodes (l1 ++ l2) base.

Lemma without_removed name base n i :
  nodeByName base name = Some (n, i) -> node_removed name base (without_node i base).
Proof.
  intros (l1 & l2 & Hn & Hname & ->)%node_by_name_Some. exists l1, n, l2. split_and!; [done|done|].
  unfold without_node. rewrite Hn. cbn [Nat.add]. f_equal.
  rewrite take_app_length. f_equal. rewrite (drop_app_ge _ _ (S (length l1))) by lia.
  by replace (S (length l1) - length l1)%nat with 1%nat by lia.
Qed.

Lemma sound_valid d : sound_dir d -> ValidDirectory d.
Proof. intros [Hv _]. by apply Validate_spec. Qed.

(** *** addnode.go *)

(** The keys a new node is given: made here, or the operator's own. *)
Definition node_keys (c : AddNodeCmd) (pub priv rcpt id : string) : Prop :=
  (if String.eqb (an_PubKey c) ""
   then exists k, len k = 32 /\ priv = wgtypes_Key_String k /\ pub = wgtypes_Key_String (wgtypes_Key_PublicKey k)
   else pub = an_PubKey c /\ priv = "") /\
  (if negb (String.eqb (an_ClientType c) clientWireGuard) && String.eqb (an_AgeRecipient c) ""
   then exists s i, age_ParseX25519Identity s = Some i /\ id = age_Identity_String i /\
     rcpt = age_Recipient_String (age_Identity_Recipient i)
   else rcpt = an_AgeRecipient c /\ id = "").

Definition node_added (c : AddNodeCmd) (pub rcpt ip : string) (base dir : Directory) : Prop :=
  NextFreeIP (dir_NetworkCIDR base) (takenIPs base) = Ok ip /\
  dir = set_dir_Nodes (dir_Nodes base ++ [new_node c pub ip rcpt]) base.

Lemma exec_wg_key c w pub priv w' : exec (addnode_wg_key c) w (Ok (pub, priv)) w' ->
  w' = w /\ if String.eqb (an_PubKey c) ""
    then exists k, len k = 32 /\ priv = wgtypes_Key_String k /\ pub = wgtypes_Key_String (wgtypes_Key_PublicKey k)
    else pub = an_PubKey c /\ priv = "".
Proof.
  unfold addnode_wg_key. destruct (String.eqb (an_PubKey c) ""); intros Hx; step Hx.
  - destruct Hx as ([priv' pub'] & w1 & Hk%exec_called & [[= -> ->] ->]). destruct Hk as (-> & k & Hk & Hl).
    symmetry in Hk. apply bind_Ok in Hk as (key & -> & [= <- <-]). split; [done|]. exists key. auto.
  - destruct Hx as (u & w1 & [_ ->]%exec_lift_Ok & [[= -> ->] ->]). done.
Qed.

Lemma exec_age_key c wg w rcpt id w' : exec (addnode_age_key c wg) w (Ok (rcpt, id)) w' ->
  w' = w /\ if negb wg && String.eqb (an_AgeRecipient c) ""
    then exists s i, age_ParseX25519Identity s = Some i /\ id = age_Identity_String i /\
      rcpt = age_Recipient_String (age_Identity_Recipient i)
    else rcpt = an_AgeRecipient c /\ id = "".
Proof.
  unfold addnode_age_key. destruct wg; cbn [negb andb]; [by intros [[= -> ->] ->]|].
  destruct (String.eqb (an_AgeRecipient c) ""); intros Hx; step Hx.
  - destruct Hx as ([id' rcpt'] & w1 & Hk%exec_called & [[= -> ->] ->]). destruct Hk as (-> & k & Hk & Hl).
    symmetry in Hk. apply bind_Ok in Hk as (i & -> & [= <- <-]). split; [done|].
    destruct (Hl i eq_refl) as (t & Ht). by exists t, i.
  - destruct Hx as (u & w1 & [_ ->]%exec_lift_Ok & [[= -> ->] ->]). done.
Qed.

Lemma exec_artifacts png conf txt w u w' : exec (write_artifacts png conf txt) w (Ok u) w' -> w' = w.
Proof.
  unfold write_artifacts. intros Hx. step Hx. destruct Hx as (u1 & w1 & Hp & Hx). assert (w1 = w) as ->.
  { destruct (nonempty png); [|by destruct Hp]. step Hp. destruct Hp as (t & w2 & Hq%exec_wrap_Ok%exec_called & Hp%exec_wrap_Ok%exec_called).
    cbn [answer] in *. congruence. }
  destruct (nonempty conf); [|by destruct Hx]. apply exec_wrap_Ok, exec_called in Hx. exact Hx.
Qed.

(** What [add-node] leaves behind. *)
Lemma AddNode_spec cfg c w u w' :
  exec (AddNodeCmd_Run cfg c) w (Ok u) w' ->
  exists cf pub priv rcpt id ip port d w1,
    cfg = Ok cf /\ RequireAdmin cf = Ok tt /\ addnode_validateFlags c = Ok tt /\ listenPortFromEndpoint (an_Endpoint c) = Ok port /\
    node_keys c pub priv rcpt id /\
    admin_edit cf (an_NoPublish c) (node_added c pub rcpt ip) w w1 d /\
    w' = if nonempty (an_Bootstrap c)
         then add_boot (BootFile (an_Bootstrap c),
                WithNode (Network cf (dir_Serial d))
                  {| bn_Name := an_Name c; bn_TunnelIP := ip; bn_ListenPort := port; bn_PublicKey := pub;
                     bn_PrivateKey := priv; bn_AgeIdentity := id |}) w1
         else w1.
Proof.
  unfold AddNodeCmd_Run. intros Hx. step Hx. destruct Hx as ([] & w1 & [Hfl ->]%exec_lift_Ok & Hx).
  step Hx. destruct Hx as (port & w1 & [Hport ->]%exec_lift_Ok & Hx). cbv zeta in Hx.
  apply exec_edit in Hx as (cf & base & -> & Hadm & Hb & Hs & Hx).
  step Hx. destruct Hx as (t1 & w1 & [_ ->]%exec_check_Ok & Hx). step Hx. destruct Hx as (t2 & w1 & [_ ->]%exec_lift_Ok & Hx).
  step Hx. destruct Hx as (t3 & w1 & [_ ->]%exec_check_Ok & Hx).
  step Hx. destruct Hx as ([pub priv] & w1 & [-> Hwg]%exec_wg_key & Hx).
  step Hx. destruct Hx as ([rcpt id] & w1 & [-> Hage]%exec_age_key & Hx).
  step Hx. destruct Hx as (t4 & w1 & [_ ->]%exec_check_Ok & Hx).
  step Hx. destruct Hx as (hub & w1 & Hhub & Hx). assert (w1 = w) as ->.
  { destruct (String.eqb (an_ClientType c) clientWireGuard); [by apply exec_lift_Ok in Hhub as [_ ?]|by destruct Hhub]. }
  step Hx. destruct Hx as (ip & w1 & [Hip ->]%exec_lift_Ok & Hx).
  step Hx. destruct Hx as (t5 & w1 & Hart & Hx). assert (w1 = w) as ->.
  { destruct (String.eqb (an_ClientType c) clientWireGuard); [by apply exec_artifacts in Hart|by destruct Hart]. }
  step Hx. destruct Hx as (d & w1 & Hsave & Hx). step Hx. destruct Hx as (t6 & w2 & Hboot & Hx).
  pose proof (sound_valid _ Hs) as Hbase. apply saved_spec in Hsave; [|apply Hs|apply Hbase].
  exists cf, pub, priv, rcpt, id, ip, port, d, w1. split_and!; try done.
  - exists base. eexists. by split_and!.
  - assert (w' = w2) as ->.
    { destruct (String.eqb _ _ && _); [|by destruct Hx]. unfold emitQRTerminal in Hx. step Hx.
      by destruct Hx as (q & w3 & ->%exec_called & [_ ->]). }
    destruct (nonempty (an_Bootstrap c)); [|by destruct Hboot]. apply exec_called in Hboot. by cbn in Hboot.
Qed.

(** *** Enrolment: add-node on the admin, join on the node *)

Lemma edit_base_canonical cfg sd base : edit_base cfg sd base -> Forall canonical_node (dir_Nodes base).
Proof.
  assert (Hu : forall p d, UnmarshalPlain p = Ok d -> Forall canonical_node (dir_Nodes d)).
  { intros p d Hp. by apply UnmarshalPlain_inv in Hp as [_ ?]. }
  unfold edit_base. intros [Hb|[(blob & Hb & _)|(p & e & Hb & _)]].
  - unfold ReadSource in Hb. apply bind_Ok in Hb as (p & _ & Hb). by eapply Hu.
  - unfold open_blob in Hb. destruct (Open _ _ _) as [[d p]|e] eqn:E; [|done]. injection Hb as <-.
    apply Open_inv in E as (id & pk & pt & env & _ & _ & _ & _ & _ & _ & _ & _ & _ & E). by eapply Hu.
  - unfold Read in Hb. destruct (os_ReadFile _) as [data|e']; [|by destruct (is_not_exist e')].
    apply bind_Ok in Hb as (d & Hb & [= <- _]). by eapply Hu.
Qed.

Lemma find_unique {A} (f : A -> string) (l : list A) x :
  NoDup (f <$> l) -> x ∈ l -> List.find (fun y => String.eqb (f y) (f x)) l = Some x.
Proof.
  intros Hd Hx. induction l as [|y l IH]; [by apply elem_of_nil in Hx|]. cbn [List.find].
  rewrite fmap_cons in Hd. apply NoDup_cons in Hd as [Hy Hd].
  destruct (String.eqb_spec (f y) (f x)) as [E|E].
  - f_equal. apply elem_of_cons in Hx as [->|Hx]; [done|]. exfalso. apply Hy. rewrite E. by apply list_elem_of_fmap_2.
  - apply elem_of_cons in Hx as [->|Hx]; [done|]. by apply IH.
Qed.

(** Joining with a bootstrap that brings the node's keys. *)
Lemma exec_join_boot c b n previous save path w cfg w' :
  bs_Node b = Some n -> bn_PrivateKey n <> "" -> 0 <= bs_Serial b < 2 ^ 64 -> nonempty (jn_Bootstrap c) = true ->
  exec (JoinCmd_Run (Err os_ErrNotExist) (Ok b) previous save path c) w (Ok cfg) w' ->
  wg_PrivateKey (c_Wireguard cfg) = bn_PrivateKey n /\ wg_PublicKey (c_Wireguard cfg) = bn_PublicKey n /\
  dc_NetworkIdentity (c_Directory cfg) = bn_AgeIdentity n /\
  dc_PublisherPubKey (c_Directory cfg) = bs_PublisherPubKey b /\ ReadDrop cfg = bs_Drop b /\
  (0 < bs_Serial b -> exists m, ReadSerial (w_dir w') = Ok m /\ bs_Serial b <= m).
Proof.
  intros Hn Hp Hser Hboot Hx. unfold JoinCmd_Run in Hx.
  step Hx. destruct Hx as (ex & w1 & [[= <-] ->]%exec_lift_Ok & Hx).
  step Hx. destruct Hx as (t1 & w1 & [_ ->]%exec_check_Ok & Hx).
  step Hx. destruct Hx as ([[[bs dc] pub] name] & w1 & [Hsrc ->]%exec_lift_Ok & Hx).
  unfold join_source in Hsrc. rewrite Hboot in Hsrc. cbn [mbind result_bind] in Hsrc.
  apply guard_err_Ok in Hsrc as [_ [= <- <- <- _]].
  step Hx. destruct Hx as (existing & w1 & [He ->]%exec_lift_Ok & Hx).
  assert (existing = None) as ->.
  { unfold join_existing in He. destruct (bs_node _); cbn [andb] in He; congruence. }
  step Hx. destruct Hx as (k & w1 & Hk & Hx). unfold resolveKeys, bs_node in Hk. cbn [mbind option_bind] in Hk.
  rewrite Hn in Hk. cbn [mbind option_bind] in Hk.
  destruct (nonempty (bn_PrivateKey n)) eqn:En; [|by apply nonempty_false in En].
  step Hk. destruct Hk as (t2 & w2 & [_ ->]%exec_check_Ok & [[= ->] ->]). cbv zeta in Hx.
  step Hx. destruct Hx as (data & w1 & [_ ->]%exec_lift_Ok & Hx).
  step Hx. destruct Hx as (t3 & w1 & Hwr%exec_called & Hx). cbn in Hwr. subst w1.
  step Hx. destruct Hx as (t4 & w1 & Hfl & [[= ->] ->]).
  unfold join_config. cbn [bs_node]. unfold bs_node. cbn. rewrite Hn. cbn.
  assert (Hwg : forall w0, (if 0 <? bn_ListenPort n then set_wg_ListenPort (bn_ListenPort n) w0 else w0) =
    set_wg_ListenPort (if 0 <? bn_ListenPort n then bn_ListenPort n else wg_ListenPort w0) w0).
  { intros []. by destruct (0 <? bn_ListenPort n). }
  rewrite Hwg. split_and!; try done. intros Hpos. rewrite (proj2 (Z.ltb_lt _ _) Hpos) in Hfl.
  apply exec_called, update_Ok in Hfl as (plan & Hpl & ->). cbn [op_plan] in Hpl. unfold WriteSerialFloor in Hpl.
  rewrite (proj2 (Z.eqb_neq _ _)) in Hpl by lia. cbn [w_dir set_w_dir].
  destruct (ReadSerial (w_dir w)) as [prev|e] eqn:Er.
  - destruct (Z.leb_spec (bs_Serial b) prev); injection Hpl as <-; [exists prev; split; [exact Er|lia]|].
    exists (bs_Serial b). destruct (w_dir w). split; [by apply readSerial_text|lia].
  - destruct (is_not_exist e); [|done]. injection Hpl as <-. exists (bs_Serial b). destruct (w_dir w).
    split; [by apply readSerial_text|lia].
Qed.

(** A pair of keys [add-node] made. *)
Lemma generated_pair k :
  len k = 32 ->
  wgtypes_Key_String k <> "" /\
  PublicKeyFromWGPrivate (wgtypes_Key_String k) = Ok (wgtypes_Key_String (wgtypes_Key_PublicKey k)) /\
  wg_canonical (wgtypes_Key_String (wgtypes_Key_PublicKey k)).
Proof.
  intros Hk. pose proof (ParseKey_String k Hk) as Hp. split_and!.
  - intros E. rewrite E, ParseKey_empty in Hp. done.
  - unfold PublicKeyFromWGPrivate. rewrite Key_String_trim, Hp. done.
  - eexists. split; [|done]. by apply Key_PublicKey_32.
Qed.

(** The node add-node put into the directory: opening what was published. *)
Lemma added_opens cf base dir w d w1 c pub rcpt ip i s :
  edit_base cf (w_dir w) base -> node_added c pub rcpt ip base dir -> saved cf false w dir d w1 -> serial_ok d ->
  wg_canonical pub -> age_ParseX25519Identity s = Some i -> rcpt = age_Recipient_String (age_Identity_Recipient i) ->
  ValidateEd25519Pair (dc_PublisherPubKey (c_Directory cf)) (dc_PublisherKey (c_Directory cf)) = Ok tt ->
  exists blob, w_uploads w1 = w_uploads w ++ [(d, blob)] /\ (len blob <= MaxBlobSize -> exists now payload,
    Open blob (age_Identity_String i) (dc_PublisherPubKey (c_Directory cf)) = Ok (marshal_header now d, payload)).
Proof.
  intros Hb [_ ->] (_ & _ & ((nw & Hst) & _ & _ & _ & (now & seed & blob & Hseal & Hup) & _)) Hser Hpub Hid Hr Hpair.
  exists blob. split; [done|]. intros Hl. exists now. apply age_String_parses in Hid as (Hid & Hrc & Hne).
  assert (Hnodes : dir_Nodes d = dir_Nodes base ++ [new_node c pub ip rcpt]) by (rewrite Hst; done).
  eapply (Open_sealed now seed d _ _ blob _ i (new_node c pub ip rcpt)); try done.
  - rewrite Hnodes. apply Forall_app. split; [by eapply edit_base_canonical|]. constructor; [|done].
    split; [exact Hpub|by left].
  - unfold ParseAgeIdentity. by rewrite Hid.
  - rewrite Hnodes. apply elem_of_app. right. by apply list_elem_of_singleton.
  - by rewrite Hr.
  - unfold ParseAgeRecipient. cbn [node_AgeRecipient new_node]. by rewrite Hr, Hrc.
Qed.

Lemma added_self cfg d base c pub rcpt ip :
  ValidDirectory d -> dir_Nodes d = dir_Nodes base ++ [new_node c pub ip rcpt] ->
  wg_PublicKey (c_Wireguard cfg) = pub -> findSelf cfg d = Ok (new_node c pub ip rcpt).
Proof.
  intros (_ & prefix & _ & _ & Hv) Hn Hk. unfold findSelf. apply of_option_Ok. rewrite Hk.
  change pub with (node_PublicKey (new_node c pub ip rcpt)) at 1. apply find_unique; [by apply Hv|].
  rewrite Hn. apply elem_of_app. right. by apply list_elem_of_singleton.
Qed.

Lemma tincan_flags c : addnode_validateFlags c = Ok tt -> an_ClientType c <> clientWireGuard ->
  an_PubKey c = "" -> an_AgeRecipient c = "".
Proof.
  unfold addnode_validateFlags. cbv zeta. intros [_ Hf]%guard_err_Ok Ht Hp.
  rewrite (proj2 (String.eqb_neq _ _) Ht) in Hf. apply guard_err_Ok in Hf as [_ [Hf _]%guard_err_Ok].
  rewrite Hp in Hf. destruct (nonempty (an_AgeRecipient c)) eqn:E; [done|]. by apply nonempty_false.
Qed.

(** C10: enrolment: a node added with a bootstrap and joined with it is on the
    network: the published directory lists it under its own key, it holds the
    private key, it can open the published blob under the publisher key it
    pinned, and it will refuse anything older. *)
Theorem enrolment cf c w u w' :
  exec (AddNodeCmd_Run (Ok cf) c) w (Ok u) w' -> sound_config cf ->
  an_ClientType c <> clientWireGuard -> an_PubKey c = "" -> an_NoPublish c = false ->
  nonempty (an_Bootstrap c) = true ->
  exists d blob boots boot, w_uploads w' = w_uploads w ++ [(d, blob)] /\
    w_boots w' = boots ++ [(BootFile (an_Bootstrap c), boot)] /\
    forall j previous save path wj cfg wj',
      nonempty (jn_Bootstrap j) = true ->
      exec (JoinCmd_Run (Err os_ErrNotExist) (Ok boot) previous save path j) wj (Ok cfg) wj' ->
      (exists n, findSelf cfg d = Ok n /\ node_Name n = an_Name c) /\
      PublicKeyFromWGPrivate (wg_PrivateKey (c_Wireguard cfg)) = Ok (wg_PublicKey (c_Wireguard cfg)) /\
      (exists m, ReadSerial (w_dir wj') = Ok m /\ dir_Serial d <= m) /\
      (len blob <= MaxBlobSize -> exists now payload,
         Open blob (dc_NetworkIdentity (c_Directory cfg)) (dc_PublisherPubKey (c_Directory cfg)) =
           Ok (marshal_header now d, payload)).
Proof.
  intros Hx Hc Ht Hp Hnp Hboot. apply AddNode_spec in Hx as
    (cf' & pub & priv & rcpt & id & ip & port & d & w1 & [= <-] & Hadm & Hfl & _ & [Hwg Hage] & (base & dir & Hb & [_ Hbs] & Ha & Hs) & ->).
  rewrite Hboot, Hnp in *. rewrite Hp in Hwg. cbn in Hwg. destruct Hwg as (k & Hk & -> & ->).
  rewrite (tincan_flags _ Hfl Ht Hp), (proj2 (String.eqb_neq _ _) Ht) in Hage. cbn in Hage.
  destruct Hage as (s & i & Hi & -> & Hr). destruct (generated_pair k Hk) as (Hne & Hpair & Hcan).
  pose proof Hs as (_ & Hvd & Hpub). pose proof Hpub as ((nw & Hst) & Hlt & _ & _ & _ & HS & _).
  pose proof (readSerial_range _ _ HS) as Hser.
  assert (Hreq : ValidateEd25519Pair (dc_PublisherPubKey (c_Directory cf)) (dc_PublisherKey (c_Directory cf)) = Ok tt).
  { by apply (sc_admin _ Hc). }
  destruct (added_opens _ _ _ _ _ _ _ _ _ _ _ _ Hb Ha Hs Hser Hcan Hi Hr Hreq) as (blob & Hup & Hopen).
  eexists d, blob, _, _. split; [exact Hup|]. split; [reflexivity|].
  intros j previous save path wj cfg wj' Hj Hx.
  eapply exec_join_boot in Hx as (E1 & E2 & E3 & E4 & _ & Hm); [|reflexivity|exact Hne|exact Hser|exact Hj].
  cbn [bn_PublicKey bn_PrivateKey bn_AgeIdentity bs_PublisherPubKey bs_Serial Network WithNode] in *.
  rewrite E1, E2, E3, E4. split; [|split; [done|split; [|exact Hopen]]].
  - eexists. split; [eapply (added_self cfg d base c); [exact Hvd| |exact E2]|done].
    destruct Ha as [_ ->]. by rewrite Hst.
  - apply Hm. destruct Ha as [_ ->]. cbn in Hlt. unfold serial_ok in Hbs. lia.
Qed.

(** *** removenode.go and setdomain.go *)

Lemma RemoveNode_spec cfg name np w u w' : exec (RemoveNodeCmd_Run cfg name np) w (Ok u) w' ->
  exists cf d, cfg = Ok cf /\ admin_edit cf np (node_removed name) w w' d.
Proof.
  unfold RemoveNodeCmd_Run. intros (cf & base & -> & _ & Hb & Hs & Hx)%exec_edit.
  step Hx. destruct Hx as ([n i] & w1 & [Hn%of_option_Ok ->]%exec_lift_Ok & Hx).
  step Hx. destruct Hx as (d & w1 & Hsave & [_ ->]). pose proof (sound_valid _ Hs) as Hv.
  apply saved_spec in Hsave; [|apply Hs|apply Hv]. exists cf, d. split; [done|].
  exists base, (without_node i base). split; [done|]. split; [done|]. split; [by eapply without_removed|done].
Qed.

Lemma SetDomain_spec cfg domain clear np w u w' :
  negb (nonempty domain) && negb clear = false ->
  exec (SetDomainCmd_Run cfg domain clear np) w (Ok u) w' ->
  exists cf d, cfg = Ok cf /\ admin_edit cf np (fun base dir => domain_edit domain clear base = Ok dir) w w' d.
Proof.
  unfold SetDomainCmd_Run. intros Hq Hx. step Hx. destruct Hx as (t1 & w1 & [_ ->]%exec_check_Ok & Hx).
  rewrite Hq in Hx. apply exec_edit in Hx as (cf & base & -> & _ & Hb & Hs & Hx).
  step Hx. destruct Hx as (dir & w1 & [He ->]%exec_lift_Ok & Hx).
  step Hx. destruct Hx as (d & w1 & Hsave & [_ ->]). pose proof (sound_valid _ Hs) as Hv.
  assert (Hd : serial_ok dir /\ dir_SchemaVersion dir = SchemaVersion).
  { split; [unfold serial_ok; rewrite (domain_edit_serial _ _ _ _ He); apply Hs|]. unfold domain_edit in He.
    destruct clear; [injection He as <-; apply Hv|]. cbv zeta in He.
    apply bind_Ok in He as (t2 & _ & (t3 & _ & [= <-])%bind_Ok). apply Hv. }
  apply saved_spec in Hsave; [|apply Hd|apply Hd]. exists cf, d. split; [done|]. exists base, dir. done.
Qed.

Definition lower_name (n : Node) : string := strings_ToLower (node_Name n).

Lemma bad_names_nil nodes : forall seen : gmap string string,
  bad_names nodes seen = [] <->
  Forall (fun n => valid_label (node_Name n)) nodes /\ NoDup (lower_name <$> nodes) /\
  forall n, n ∈ nodes -> seen !! lower_name n = None.
Proof.
  induction nodes as [|x nodes IH]; intros seen; cbn [bad_names].
  { split; [|done]. intros _. split; [constructor|]. split; [constructor|]. intros n Hn. by apply elem_of_nil in Hn. }
  rewrite fmap_cons, NoDup_cons, Forall_cons, <- ValidateLabel_ok.
  destruct (ValidateLabel (node_Name x)) as [[]|e]; [|by split; [|intros [[] _]]].
  destruct (seen !! strings_ToLower (node_Name x)) as [o|] eqn:El.
  { split; [done|]. intros (_ & _ & Hs). specialize (Hs x (list_elem_of_here _ _)). unfold lower_name in Hs. congruence. }
  rewrite IH. split.
  - intros (Hl & Hd & Hs). split; [done|]. split.
    + split; [|done]. intros (y & Ey & Hy)%list_elem_of_fmap. specialize (Hs y Hy).
      change (strings_ToLower (node_Name x)) with (lower_name x) in Hs. rewrite Ey, lookup_insert_eq in Hs. done.
    + intros n [->|Hn]%elem_of_cons; [exact El|]. specialize (Hs n Hn).
      apply lookup_insert_None in Hs as [? _]. done.
  - intros ([_ Hl] & [Hx Hd] & Hs). split; [done|]. split; [done|]. intros n Hn.
    apply lookup_insert_None. split; [apply Hs, elem_of_cons; by right|]. intros E. apply Hx.
    change (lower_name x = lower_name n) in E. rewrite E. by apply list_elem_of_fmap_2.
Qed.

Lemma namesUsable_Ok d : namesUsableAsLabels d = Ok tt <->
  Forall (fun n => valid_label (node_Name n)) (dir_Nodes d) /\ NoDup (lower_name <$> dir_Nodes d).
Proof.
  unfold namesUsableAsLabels. rewrite guard_err_Ok, negb_false_iff, Nat.eqb_eq.
  rewrite length_zero_iff_nil, bad_names_nil. split; [by intros [(? & ? & _) _]|]. intros [? ?]. by split_and!.
Qed.

Lemma ValidateDomain_empty : ValidateDomain "" <> Ok tt.
Proof. by vm_compute. Qed.

Lemma domain_edit_spec domain base dir : ValidDirectory base ->
  domain_edit domain false base = Ok dir <->
  NormalizeDomain domain <> "" /\ dir = set_dir_Domain (NormalizeDomain domain) base /\ ValidDirectory dir.
Proof.
  intros (Hv & prefix & Hp & _ & [He Hn Hk Hi Hl]). unfold domain_edit. cbv zeta. split.
  - intros ([] & Hd%wrap_err_Ok & ([] & Hu%namesUsable_Ok & [= <-])%bind_Ok)%bind_Ok.
    split; [intros E; rewrite E in Hd; by apply ValidateDomain_empty in Hd|]. split; [done|].
    split; [done|]. exists prefix. split_and!; [done|done|]. by split.
  - intros (Hne & -> & _ & prefix' & _ & Hd & Hvn). destruct Hvn as [_ _ _ _ Hlab]. cbn in *.
    specialize (Hd Hne). specialize (Hlab Hne). apply bind_Ok. exists tt. split; [by apply wrap_err_Ok|].
    apply bind_Ok. exists tt. split; [|done]. by apply namesUsable_Ok.
Qed.

(** C11: every membership command is an instance of one transaction: it starts
    from the right copy, makes exactly its edit, and the valid result is either
    kept in the working copy under the same serial or sealed, uploaded and
    recorded under a serial above everything the node knows of. *)
Theorem membership_commands_refine cfg w u w' :
  (forall c, exec (AddNodeCmd_Run cfg c) w (Ok u) w' ->
     exists cf pub priv rcpt id ip d w1, cfg = Ok cf /\ node_keys c pub priv rcpt id /\
       admin_edit cf (an_NoPublish c) (node_added c pub rcpt ip) w w1 d /\
       (an_Bootstrap c = "" -> w' = w1)) /\
  (forall name noPublish, exec (RemoveNodeCmd_Run cfg name noPublish) w (Ok u) w' ->
     exists cf d, cfg = Ok cf /\ admin_edit cf noPublish (node_removed name) w w' d) /\
  (forall domain clear noPublish, domain <> "" \/ clear = true ->
     exec (SetDomainCmd_Run cfg domain clear noPublish) w (Ok u) w' ->
     exists cf d, cfg = Ok cf /\
       admin_edit cf noPublish (fun base dir => domain_edit domain clear base = Ok dir) w w' d).
Proof.
  split; [|split].
  - intros c (cf & pub & priv & rcpt & id & ip & port & d & w1 & -> & _ & _ & _ & Hk & He & Hw)%AddNode_spec.
    exists cf, pub, priv, rcpt, id, ip, d, w1. split_and!; try done. intros E. by rewrite E in Hw.
  - intros name np. apply RemoveNode_spec.
  - intros domain clear np Hq. apply SetDomain_spec. unfold nonempty.
    destruct Hq as [Hq| ->]; [|by rewrite andb_false_r]. by rewrite (proj2 (String.eqb_neq _ _) Hq).
Qed.

(** What set-domain checks before it edits is exactly what makes the edited
    directory valid. *)
Theorem domain_edit_valid domain base dir :
  ValidDirectory base ->
  domain_edit domain false base = Ok dir <->
  NormalizeDomain domain <> "" /\ dir = set_dir_Domain (NormalizeDomain domain) base /\ ValidDirectory dir.
Proof. apply domain_edit_spec. Qed.

(** A plain WireGuard node can be given an age recipient: [add-node] accepts
    the flag, does not check it, and the node it adds is no longer recognised as
    plain WireGuard but is one of the directory's recipients. *)
Theorem plain_client_recipient a r :
  exists c, an_ClientType c = clientWireGuard /\ addnode_validateFlags c = Ok tt /\
    forall pub ip w rcpt id w', exec (addnode_age_key c true) w (Ok (rcpt, id)) w' ->
      node_AgeRecipient (new_node c pub ip rcpt) = String a r /\ IsPlainWireGuard (new_node c pub ip rcpt) = false.
Proof.
  exists {| an_Name := "phone"; an_ClientType := clientWireGuard; an_PubKey := ""; an_Endpoint := "";
            an_Relay := false; an_NoPublish := false; an_Bootstrap := ""; an_AgeRecipient := String a r;
            an_WGQR := true; an_WGQRPNG := ""; an_WGConfig := "" |}.
  split; [done|]. split; [done|]. by intros pub ip w rcpt id w' [[= -> ->] ->].
Qed.
End edits.

(** ** Samples *)

Section samples.
#[local] Existing Instances toy_crypto toy_msgpack ascii_tables toy_secp no_urls.
#[local] Existing Instances toy_crypto_laws toy_msgpack_laws.

Definition sample_add (noPublish : bool) : AddNodeCmd := {|
  an_Name := "delta"; an_ClientType := clientTincan; an_PubKey := ""; an_Endpoint := "";
  an_Relay := false; an_NoPublish := noPublish; an_Bootstrap := "boot.json"; an_AgeRecipient := "";
  an_WGQR := false; an_WGQRPNG := ""; an_WGConfig := "" |}.

Definition added : result unit * World :=
  run sample_oracle (AddNodeCmd_Run (Ok sample_cfg) (sample_add false)) fresh_world.

Lemma added_Ok : fst added = Ok tt.
Proof. vm_compute. reflexivity. Qed.

Lemma added_exec : exec (AddNodeCmd_Run (Ok sample_cfg) (sample_add false)) fresh_world (Ok tt) (snd added).
Proof. rewrite <- added_Ok. exact (run_exec sample_oracle _ _). Qed.

Lemma published_serials_unique_witness :
  exists s, rtc (sys_step command) (sys_start empty_state_dir) s /\
    length (w_uploads (s_world s)) = 1%nat /\ NoDup (serials (w_uploads (s_world s))).
Proof.
  exists {| s_world := snd added; s_procs := [Ret (Ok tt)] |}.
  assert (Hrun : rtc (sys_step command) (sys_start empty_state_dir)
    {| s_world := snd added; s_procs := [Ret (Ok tt)] |}).
  { exact (command_steps _ _ _ _ (RunAddNode _ _) added_exec). }
  split; [exact Hrun|]. split; [vm_compute; reflexivity|].
  exact (proj1 (published_serials_unique _ _ Hrun)).
Defined.

Lemma rollback_mark_monotone_witness :
  exists m', ReadSerial (w_dir (snd added)) = Ok m' /\ 8 <= m'.
Proof.
  set (s := {| s_world := snd added; s_procs := [Ret (Ok tt)] |}).
  apply (rollback_mark_monotone empty_state_dir s s 8); [|apply rtc_refl|vm_compute; reflexivity].
  exact (command_steps _ _ _ _ (RunAddNode _ _) added_exec).
Defined.

Lemma enrolment_witness :
  exists d blob, w_uploads (snd added) = [(d, blob)].
Proof.
  destruct (enrolment sample_cfg (sample_add false) fresh_world tt (snd added) added_exec sample_sound)
    as (d & blob & boots & boot & Hup & _); [done|done|done|done|]. exists d, blob. exact Hup.
Defined.

Lemma domain_edit_valid_witness : exists dir, domain_edit "Home." false sample_dir = Ok dir /\ ValidDirectory dir.
Proof.
  exists (set_dir_Domain "home" sample_dir).
  assert (He : domain_edit "Home." false sample_dir = Ok (set_dir_Domain "home" sample_dir)) by (vm_compute; reflexivity).
  split; [exact He|]. refine (proj2 (proj2 (proj1 (domain_edit_valid "Home." sample_dir _ _) He))).
  apply Validate_spec. vm_compute. reflexivity.
Defined.

Lemma membership_commands_refine_witness :
  exists cf d w1, admin_edit cf false (fun base dir => length (dir_Nodes dir) = S (length (dir_Nodes base)))
    fresh_world w1 d.
Proof.
  destruct (proj1 (membership_commands_refine (Ok sample_cfg) fresh_world tt (snd added)) _ added_exec)
    as (cf & pub & priv & rcpt & id & ip & d & w1 & _ & _ & (base & dir & Hb & Hs & [_ ->] & Hsaved) & _).
  exists cf, d, w1, base. eexists. split; [exact Hb|]. split; [exact Hs|]. split; [|exact Hsaved].
  cbn. rewrite length_app. cbn. lia.
Defined.
End samples.
